(* ===== verification/_CoqProject ===== *)
-Q . S2P
Prelude.v
Bytes.v
Posix.v
Tools.v
Matrix.v
MatrixProps.v
Card.v
Bram.v
Hw.v
State.v
Desc.v
Engine.v
Service.v
Request.v
Fixtures.v
Chain.v
ServiceSpec.v
ServiceProps.v
PollProps.v
RequestSpec.v
QueueProps.v
Submit.v
SubmitSpec.v
SubmitProps.v
Steady.v
AsyncSpec.v
Aperture.v
SyncFrame.v
ApertureProps.v
ApertureCall.v
Perf.v
Dev.v
DevFixtures.v
Thread.v
ThreadProps.v
Irq.v
IrqProps.v
Device.v
Ledger.v
CdevSgdma.v
SgdmaProps.v
AsyncProps.v
RwProps.v
ApertureIoctl.v
DmaTools.v
DmaToolsProps.v
RegTools.v
RegToolsProps.v
DeviceProps.v
ProbeProps.v
BarLedger.v
IrqLife.v
DeviceLife.v
Cdev.v
Xvc.v
XvcProps.v
Frame.v
PerfProps.v
Session.v
Live.v
Nodes.v
Interfaces.v
InterfacesProps.v
InterfacesLife.v
PciIds.v
Module.v
ModuleLife.v
