(* ===== verification/Prelude.v ===== *)
(** * The XDMA accelerator driver

    A model of the Linux driver of the Xilinx DMA/PCIe core ([src/linux/XDMA/xdma]),
    of the programs that use it ([src/linux/XDMA/tools], [src/linux/Final]) and the
    theorems about them.  Function and type names are those of the C code.

    ** How the code is modelled

    C code is a computation of the monad [M S A], [S -> option (A * S)], on a
    state [S].  [None] is undefined behaviour (a NULL dereference, an access
    outside of an array or of a buffer, a deleted object used again) or a loop
    without end, so that a theorem which says that a computation returns [Some]
    says that it is memory safe and ends.  Integers are [Z] with the wrap-around
    of their C type written out ([u32], [s64], ...); [Z.land], [Z.shiftl] and so
    on are the bit operations.  An array is a list, accessed by [zlookup] and
    [zupdate], which have no result out of range; a pointer to a transfer is the
    key of a map.  [wp] is the weakest precondition of a computation, and the
    rules in this file are what the proofs are made of; [Keep] says that every run
    of a computation keeps a relation, and its proof follows the structure of the
    computation.

    The kernel and the device are the parameter [Env] ([State.v]): an arbitrary
    function from the history of all events (register accesses, allocations,
    locks, copies, calls of the kernel) to the next answer.  All theorems about
    the driver hold for every such function, unless a hypothesis restricts the
    answers (a register that reads as a certain value, an allocation that
    succeeds).  Register writes are events of the log, in program order.

    ** The parts

    - [Hw]: register offsets, bits and layouts ([libxdma.h]).
    - [State]: descriptors, transfers, requests, engines, the device; the
      events, and the primitive operations.  An engine's function runs on [est]
      (device, engine, transfers, log), a device's function on [dst] (all the
      engines); [Dev] connects both.
    - [Desc], [Engine], [Service], [Request], [Submit], [Aperture], [Perf],
      [Irq], [Device]: [libxdma.c] in its own order of layers: the descriptor
      ring; engine registers, start and stop; the bottom half of an interrupt and
      polling; requests, transfers and the queue; blocking and asynchronous
      submission; transfers through an aperture; measurement; interrupt handlers
      and their set-up; BARs, engines, opening and closing of the device.
    - [Thread]: the polling threads ([xdma_thread.c]).
    - [CdevSgdma] ([cdev_sgdma.c]), [Cdev] ([cdev_ctrl.c], [cdev_bypass.c],
      [cdev_events.c]), [Xvc] ([cdev_xvc.c]): the character devices.  They call
      the layers above; user memory is an answer of the environment.
    - [Interfaces] ([xdma_cdev.c]) and [Module] ([xdma_mod.c]): device nodes,
      probe and removal of the PCI device.  [PciIds]: the devices it is probed
      for, against the aliases of the generated [xdma.mod.c].
    - [Posix]: the system calls of the user programs as a type class, with the
      laws of a file that can be positioned, read and written ([SeekFile],
      [ReadFile], [WriteFile]) and an instance that satisfies them.
      [Tools] ([dma_utils.c]), [DmaTools] ([dma_to_device.c],
      [dma_from_device.c]), [RegTools] ([reg_rw.c], [performance.c],
      [test_chrdev.c]) and [Matrix] ([xdma_rw_matrix.c], [matrix_top2.c],
      [compare2.c]) are written against the class.  [Card] is an instance of it
      that behaves like the accelerator behind the driver: the register map, the
      memories, of which only whole words are written, and the device node of
      each direction and of the registers, as the programs of [Final] use them.  [Bram]: the memory tests
      under [debugging].
    - [Bytes]: little-endian words, copies between buffers.
    - [Fixtures], [DevFixtures]: concrete engines and devices, for the witnesses.

    ** What the theorems show

    - [Chain]: [transfer_init] builds in the ring the chain of the request, as
      the hardware that follows the next fields reads it, with adjacent counts
      that never cross a page.
    - [RequestSpec]: the segments of a request are those of a reference
      definition; allocation failure.
    - [ServiceSpec], [ServiceProps], [PollProps]: the queue invariant, the
      outcome of an interrupt for every register content, the conservation of
      descriptors, termination of polling, errors that are not reported.
    - [QueueProps], [SubmitSpec], [SubmitProps]: the accesses of a start, in
      their order, the branches of queueing and abort, and that a blocking
      submission in interrupt mode returns, safely, with the engine idle, when the
      device identifies itself and its statuses fit the text buffer; what happens
      when the device is lost instead.
    - [AsyncSpec], [AsyncProps]: an asynchronous request from its submission to
      the answer that the callback of the character device gives from the
      interrupt.  [Steady]: the functions of the DMA layer that neither answer
      requests nor release user pages, by the structure of their bodies.
    - [SgdmaProps], [RwProps]: alignment, page mapping with the references that
      it holds to each page, and the composition of the read and write calls of
      the character device with the submission: each page is given back as many
      references as were taken, and the result is bounded.  [SyncFrame]: a
      submission takes and gives back no reference itself.
    - [IrqProps], [ThreadProps], [DeviceProps], [ProbeProps]: the accesses and
      calls of the interrupt handler, the distribution of engines on threads, the
      stop of the engines by an offline request and the refusal of transfers after
      it, the engines that the probe keeps and the identifiers it read.
    - [Ledger], [BarLedger], [IrqLife], [DeviceLife]: the resources that the log
      shows the driver took and gave back, the record of a performance run
      included, against what its state says it holds; opening a device gives them
      back on every failure, but for an enabled PCI device and the interrupt lines
      of MSI-X, and closing it gives back all of them.  [Frame], [Session]: the entry points of the driver as a step
      relation on the whole device; no sequence of them, performance runs and
      offline and online calls apart, takes or gives back a resource or changes
      what opening fixed, so that closing after any of them gives everything back.  [Live]: progress and preservation for the sessions
      of blocking calls that use each file for what its node is for: every call
      returns and leaves every engine idle.
    - [Nodes], [InterfacesProps], [InterfacesLife]: which device nodes exist
      after creation, failure and destruction.  [ModuleLife]: the whole life of a
      device, from the probe over any session to the removal.
    - [ApertureProps]: the bytes that the first transfer of an aperture request
      moves, how many descriptors it takes, and where the next transfer starts.
      [ApertureCall], [ApertureIoctl]: a request whose pieces fit in the ring, as
      a whole call of [xdma_xfer_aperture], and from the ioctl of the user to the
      answer.  [XvcProps]: the bytes that a JTAG shift returns.
    - [PerfProps]: a performance run from its start to its stop, and the record
      that a failed one leaves.
    - [Tools]: transfers of any size on such a file, and times.
    - [DmaToolsProps]: what [dma_to_device] stores on the device is what
      [dma_from_device] reads back, for the file system model defined there.
    - [RegToolsProps]: what [reg_rw] writes to registers that keep it, it reads
      back, at every width and aligned address, inside of what it has mapped.
    - [MatrixProps], [Card]: the file formats of the matrix programs, the
      software multiplication with its 16-bit overflow ([compare2] itself
      overflows in two rows), and that [matrix_top2] run on the card computes
      the product of its two matrices.
    - [Bram]: the memory tests print what they wrote.

    ** Bounds and fuel

    A loop of the code that is not over a counter is a [Fixpoint] on fuel, and
    running out of it is undefined behaviour, so every theorem that gives a
    result also shows that the fuel is enough.  The fuel of a loop is derived
    from its own variables: the number of entries that remain for the
    descriptor loops, the number of pieces for a file transfer ([rw_fuel]), the
    deadline for the write-back monitor, an argument for loops that wait on a
    device.  A wait of the kernel ([wait_event]) is one step that lets a
    scheduler run the service of the engine.

    ** Not modelled

    Debug output and the text that programs print (with the exception of
    [engine_status_dump], whose buffer can overflow), the usage texts, the
    source variants that the build does not compile ([__XDMA_SYSFS__], kernels
    before the versions the repository builds for), the boilerplate of the
    generated [xdma.mod.c], the declarations of [libxdma_api.h],
    [debugging/test_user.cpp] (C++, an older copy of a read function), the shell
    tests and the RTL of the card.  A second transfer of one aperture request is
    modelled, but it is wrong in the code (it starts again at the first entry of
    the table), so that the theorems about whole requests are for those of one
    transfer. *)

From stdpp Require Export base numbers list option gmap.
From Stdlib Require Export Lia.

Global Open Scope Z_scope.

(** ** The driver monad

    A computation reads and updates a state [S] and returns a value.
    [None] is undefined behaviour of the C program: a NULL dereference, an
    access outside an array, a use after free.  A theorem that a computation
    returns [Some] therefore says that the code is memory safe on that input
    and that its loops end. *)

Definition M (S A : Type) : Type := S -> option (A * S).

Definition ret {S A} (a : A) : M S A := fun s => Some (a, s).

Definition bind {S A B} (m : M S A) (k : A -> M S B) : M S B :=
  fun s => match m s with
           | Some (a, s') => k a s'
           | None => None
           end.

Definition ub {S A} : M S A := fun _ => None.
Definition get {S} : M S S := fun s => Some (s, s).
Definition gets {S A} (f : S -> A) : M S A := fun s => Some (f s, s).
Definition modify {S} (f : S -> S) : M S unit := fun s => Some (tt, f s).

(** The value of a pointer or of an array cell that must exist. *)
Definition deref {S A} (o : option A) : M S A :=
  fun s => match o with Some a => Some (a, s) | None => None end.

Declare Scope drv_scope.
Delimit Scope drv_scope with drv.

Notation "'let*' x ':=' m 'in' k" := (bind m (fun x => k))
  (at level 10, x name, m at level 100, k at level 200)
  : drv_scope.
Notation "'let*' ' p ':=' m 'in' k" := (bind m (fun x => match x with p => k end))
  (at level 10, p pattern, m at level 100, k at level 200)
  : drv_scope.
Notation "m >>; k" := (bind m (fun _ => k))
  (at level 100, k at level 200, right associativity) : drv_scope.
Global Open Scope drv_scope.

Definition guard_ub {S} (b : bool) : M S unit := if b then ret tt else ub.

Definition when {S} (b : bool) (m : M S unit) : M S unit :=
  if b then m else ret tt.

(** A counted loop over the elements of a list. *)
Fixpoint forM {S A} (l : list A) (f : A -> M S unit) : M S unit :=
  match l with
  | [] => ret tt
  | x :: l' => f x >>; forM l' f
  end.

(** A counted loop that carries a local variable. *)
Fixpoint foldM {S A B} (l : list A) (f : B -> A -> M S B) (b : B) : M S B :=
  match l with
  | [] => ret b
  | x :: l' => let* b' := f b x in foldM l' f b'
  end.

(** ** Weakest preconditions

    [wp m Q s]: run from [s], [m] does not crash, and its result and final
    state satisfy [Q]. *)

Definition wp {S A} (m : M S A) (Q : A -> S -> Prop) (s : S) : Prop :=
  match m s with
  | Some (a, s') => Q a s'
  | None => False
  end.

Section wp_rules.
Context {S : Type}.

Lemma wp_iff {A} (m : M S A) Q s :
  wp m Q s <-> exists a s', m s = Some (a, s') /\ Q a s'.
Proof.
  unfold wp. destruct (m s) as [[a s']|]; split.
  - eauto.
  - intros (? & ? & [= -> ->] & ?). done.
  - done.
  - intros (? & ? & [=] & ?).
Qed.

Lemma wp_run {A} (m : M S A) Q s a s' : wp m Q s -> m s = Some (a, s') -> Q a s'.
Proof. unfold wp. intros H E. by rewrite E in H. Qed.

Lemma wp_ret {A} (a : A) (Q : A -> S -> Prop) s : Q a s -> wp (ret a) Q s.
Proof. done. Qed.

Lemma wp_bind {A B} (m : M S A) (k : A -> M S B) Q s :
  wp m (fun a s' => wp (k a) Q s') s -> wp (bind m k) Q s.
Proof. unfold wp, bind. destruct (m s) as [[a s']|]; done. Qed.

Lemma wp_unbind {A B} (m : M S A) (k : A -> M S B) Q s :
  wp (bind m k) Q s -> wp m (fun a s' => wp (k a) Q s') s.
Proof. unfold wp, bind. destruct (m s) as [[a s']|]; done. Qed.

Lemma wp_get (Q : S -> S -> Prop) s : Q s s -> wp get Q s.
Proof. done. Qed.

Lemma wp_gets {A} (f : S -> A) (Q : A -> S -> Prop) s : Q (f s) s -> wp (gets f) Q s.
Proof. done. Qed.

Lemma wp_modify (f : S -> S) (Q : unit -> S -> Prop) s : Q tt (f s) -> wp (modify f) Q s.
Proof. done. Qed.

Lemma wp_deref {A} (o : option A) a (Q : A -> S -> Prop) s :
  o = Some a -> Q a s -> wp (deref o) Q s.
Proof. intros ->. done. Qed.

Lemma wp_when (b : bool) (m : M S unit) Q s :
  (b = true -> wp m Q s) -> (b = false -> Q tt s) -> wp (when b m) Q s.
Proof. destruct b; cbn; eauto using wp_ret. Qed.

Lemma wp_guard_ub (b : bool) (Q : unit -> S -> Prop) s :
  b = true -> Q tt s -> wp (guard_ub b) Q s.
Proof. intros ->. done. Qed.

Lemma wp_mono {A} (m : M S A) (Q Q' : A -> S -> Prop) s :
  wp m Q s -> (forall a s', Q a s' -> Q' a s') -> wp m Q' s.
Proof. unfold wp. destruct (m s) as [[a s']|]; eauto. Qed.

(** Two facts about the same run. *)
Lemma wp_and {A} (m : M S A) (Q Q' : A -> S -> Prop) s :
  wp m Q s -> wp m Q' s -> wp m (fun a s' => Q a s' /\ Q' a s') s.
Proof. unfold wp. by destruct (m s) as [[a s']|]. Qed.

(** The loop rule: the invariant is indexed by the elements already done. *)
Lemma wp_forM {A} (l : list A) (f : A -> M S unit) (I : list A -> S -> Prop) s :
  I [] s ->
  (forall pre x post s', l = pre ++ x :: post -> I pre s' ->
     wp (f x) (fun _ s'' => I (pre ++ [x]) s'') s') ->
  wp (forM l f) (fun _ s' => I l s') s.
Proof.
  intros H0 Hstep.
  assert (G : forall post pre s', l = pre ++ post -> I pre s' ->
            wp (forM post f) (fun _ s'' => I l s'') s').
  { induction post as [|x post IH]; intros pre s' -> HI.
    - rewrite app_nil_r. done.
    - apply wp_bind. eapply wp_mono; [by eapply Hstep|].
      intros ? s'' HI'. cbn beta in HI'.
      apply (IH (pre ++ [x])); [by rewrite <-app_assoc|done]. }
  by apply (G l []).
Qed.

Lemma wp_forM_simple {A} (l : list A) (f : A -> M S unit) (I : S -> Prop) s :
  I s ->
  (forall x s', x ∈ l -> I s' -> wp (f x) (fun _ s'' => I s'') s') ->
  wp (forM l f) (fun _ s' => I s') s.
Proof.
  intros H0 Hstep. apply (wp_forM l f (fun _ s' => I s')); [done|].
  intros pre x post s' -> HI. apply Hstep; [set_solver|done].
Qed.

Lemma wp_foldM {A B} (l : list A) (f : B -> A -> M S B) (I : list A -> B -> S -> Prop) b s :
  I [] b s ->
  (forall pre x post b' s', l = pre ++ x :: post -> I pre b' s' ->
     wp (f b' x) (fun b'' s'' => I (pre ++ [x]) b'' s'') s') ->
  wp (foldM l f b) (fun b' s' => I l b' s') s.
Proof.
  intros H0 Hstep.
  assert (G : forall post pre b' s', l = pre ++ post -> I pre b' s' ->
            wp (foldM post f b') (fun b'' s'' => I l b'' s'') s').
  { induction post as [|x post IH]; intros pre b' s' -> HI.
    - rewrite app_nil_r. done.
    - apply wp_bind. eapply wp_mono; [by eapply Hstep|].
      intros b'' s'' HI'. cbn beta in HI'.
      apply (IH (pre ++ [x])); [by rewrite <-app_assoc|done]. }
  by apply (G l []).
Qed.

(** The loops [for (i = 0; i < n; i++)]: the invariant is indexed by [i]. *)
Lemma wp_forM_zrange n (f : Z -> M S unit) (I : Z -> S -> Prop) s :
  I 0 s ->
  (forall i s', 0 <= i < n -> I i s' -> wp (f i) (fun _ s'' => I (i + 1) s'') s') ->
  wp (forM (seqZ 0 n) f) (fun _ s' => I (Z.max 0 n) s') s.
Proof.
  intros H0 Hstep.
  eapply wp_mono.
  - apply (wp_forM _ f (fun pre s' => I (Z.of_nat (length pre)) s')); [done|].
    intros pre i post s' Hl HI.
    assert (Hi : seqZ 0 n !! length pre = Some i) by (rewrite Hl; by apply list_lookup_middle).
    apply lookup_seqZ in Hi as [-> Hlt].
    eapply wp_mono; [apply Hstep; [lia|exact HI]|].
    intros ? s'' HI'. rewrite length_app. cbn [length].
    replace (Z.of_nat (length pre + 1)) with (0 + Z.of_nat (length pre) + 1) by lia. done.
  - cbn beta. intros _ s' HI. rewrite length_seqZ in HI.
    replace (Z.max 0 n) with (Z.of_nat (Z.to_nat n)) by lia. done.
Qed.

Lemma wp_foldM_zrange {B} n (f : B -> Z -> M S B) (I : Z -> B -> S -> Prop) b s :
  I 0 b s ->
  (forall i b' s', 0 <= i < n -> I i b' s' ->
     wp (f b' i) (fun b'' s'' => I (i + 1) b'' s'') s') ->
  wp (foldM (seqZ 0 n) f b) (fun b' s' => I (Z.max 0 n) b' s') s.
Proof.
  intros H0 Hstep.
  eapply wp_mono.
  - apply (wp_foldM _ f (fun pre b' s' => I (Z.of_nat (length pre)) b' s')); [done|].
    intros pre i post b' s' Hl HI.
    assert (Hi : seqZ 0 n !! length pre = Some i) by (rewrite Hl; by apply list_lookup_middle).
    apply lookup_seqZ in Hi as [-> Hlt].
    eapply wp_mono; [apply Hstep; [lia|exact HI]|].
    intros b'' s'' HI'. rewrite length_app. cbn [length].
    replace (Z.of_nat (length pre + 1)) with (0 + Z.of_nat (length pre) + 1) by lia. done.
  - cbn beta. intros b' s' HI. rewrite length_seqZ in HI.
    replace (Z.max 0 n) with (Z.of_nat (Z.to_nat n)) by lia. done.
Qed.
End wp_rules.

(** The monad laws, extensionally. *)
Lemma bind_ret_l {S A B} (a : A) (k : A -> M S B) s : bind (ret a) k s = k a s.
Proof. reflexivity. Qed.

Lemma bind_ret_r {S A} (m : M S A) s : bind m ret s = m s.
Proof. unfold bind. by destruct (m s) as [[? ?]|]. Qed.

Lemma bind_assoc {S A B C} (m : M S A) (f : A -> M S B) (g : B -> M S C) s :
  bind (bind m f) g s = bind m (fun a => bind (f a) g) s.
Proof. unfold bind. by destruct (m s) as [[? ?]|]. Qed.

Lemma bind_some {S A B} (m : M S A) (k : A -> M S B) s a s' :
  m s = Some (a, s') -> bind m k s = k a s'.
Proof. unfold bind. by intros ->. Qed.

Lemma forM_app {S A} (l1 l2 : list A) (f : A -> M S unit) s :
  forM (l1 ++ l2) f s = bind (forM l1 f) (fun _ => forM l2 f) s.
Proof.
  revert s. induction l1 as [|x l1 IH]; intros s; [done|].
  cbn. unfold bind in *. destruct (f x s) as [[? ?]|]; [|done]. apply IH.
Qed.

(** [wp_step] walks one instruction of a computation. *)
Ltac wp_step :=
  lazymatch goal with
  | |- wp (bind _ _) _ _ => apply wp_bind
  | |- wp (ret _) _ _ => apply wp_ret
  | |- wp get _ _ => apply wp_get
  | |- wp (gets _) _ _ => apply wp_gets
  | |- wp (modify _) _ _ => apply wp_modify
  | |- wp (when _ _) _ _ => apply wp_when; intros ?
  | |- wp (deref (Some _)) _ _ => eapply wp_deref; [reflexivity|]
  | |- wp (if ?b then _ else _) _ _ => destruct b eqn:?
  | |- wp (let _ := _ in _) _ _ => cbv zeta
  end.
Ltac wp_go := repeat (wp_step; cbv beta).

(** ** Computations that keep a relation

    [Keep R m]: every run of [m] goes from a state to one related by [R].  The
    rules follow the structure of a computation, so that the tactic [keep] finds
    the proof for a function of the driver in its body. *)

Class Keep {S A} (R : S -> S -> Prop) (m : M S A) : Prop :=
  keep_run s a s' : m s = Some (a, s') -> R s s'.

Section keep.
Context {S : Type} (R : S -> S -> Prop) `{!PreOrder R}.

#[export] Instance keep_ret {A} (a : A) : Keep R (ret a).
Proof. by intros s b s' [= _ <-]. Qed.

#[export] Instance keep_ub {A} : Keep R (@ub S A).
Proof. by intros s b s' [=]. Qed.

#[export] Instance keep_get : Keep R get.
Proof. by intros s b s' [= _ <-]. Qed.

#[export] Instance keep_gets {A} (f : S -> A) : Keep R (gets f).
Proof. by intros s b s' [= _ <-]. Qed.

#[export] Instance keep_deref {A} (o : option A) : Keep R (deref o).
Proof. destruct o; [by intros s b s' [= _ <-]|by intros s b s' [=]]. Qed.

#[export] Instance keep_guard b : Keep R (@guard_ub S b).
Proof. destruct b; [apply keep_ret|apply keep_ub]. Qed.

Lemma keep_modify (f : S -> S) : (forall s, R s (f s)) -> Keep R (modify f).
Proof. intros Hf s b s' [= _ <-]. apply Hf. Qed.

Lemma keep_bind {A B} (m : M S A) (k : A -> M S B) :
  Keep R m -> (forall a, Keep R (k a)) -> Keep R (bind m k).
Proof.
  intros Hm Hk s b s'. unfold bind. destruct (m s) as [[a s1]|] eqn:E; [|done].
  intros Hr. etrans; [exact (Hm _ _ _ E)|exact (Hk _ _ _ _ Hr)].
Qed.

Lemma keep_when b (m : M S unit) : Keep R m -> Keep R (when b m).
Proof. destruct b; [done|intros _; apply keep_ret]. Qed.

Lemma keep_forM {A} (l : list A) (f : A -> M S unit) : (forall x, Keep R (f x)) -> Keep R (forM l f).
Proof. intros Hf. induction l; [apply keep_ret|by apply keep_bind]. Qed.

Lemma keep_foldM {A B} (l : list A) (f : B -> A -> M S B) b :
  (forall b x, Keep R (f b x)) -> Keep R (foldM l f b).
Proof. intros Hf. revert b. induction l; intros b; [apply keep_ret|by apply keep_bind]. Qed.
End keep.

Lemma keep_weaken {S A} (R R' : S -> S -> Prop) (m : M S A) :
  (forall s s', R s s' -> R' s s') -> Keep R m -> Keep R' m.
Proof. intros HR Hm s a s' Hr. eapply HR, Hm, Hr. Qed.

Lemma wp_keep {S A} (R : S -> S -> Prop) (m : M S A) `{!Keep R m} (Q : A -> S -> Prop) s :
  wp m (fun a s' => R s s' -> Q a s') s -> wp m Q s.
Proof.
  unfold wp. destruct (m s) as [[a s']|] eqn:E; [|done]. intros HQ. exact (HQ (keep_run s a s' E)).
Qed.

Lemma wp_eqn {S A} (m : M S A) (Q : A -> S -> Prop) s :
  wp m Q s -> wp m (fun a s' => m s = Some (a, s') /\ Q a s') s.
Proof. unfold wp. by destruct (m s) as [[a s']|]. Qed.

(** The computation at hand keeps [R]. *)
Ltac keeping R := apply (wp_keep R); [apply _|].

(** One step into the structure of a computation. *)
Ltac keep_step :=
  lazymatch goal with
  | |- Keep _ (bind _ _) => apply keep_bind; [apply _| |intros ?]
  | |- Keep _ (when _ _) => apply keep_when; [apply _|]
  | |- Keep _ (forM _ _) => apply keep_forM; [apply _|]; intros ?
  | |- Keep _ (foldM _ _ _) => apply keep_foldM; [apply _|]; intros ? ?
  | |- Keep _ (modify _) => apply keep_modify; intros ?; by repeat split
  | |- Keep _ (match ?x with _ => _ end) => destruct x
  | |- Keep _ (fun _ => _) => fail "not a structured computation"
  | |- _ => apply _
  end.
Ltac keep := repeat keep_step.

(** ** Definedness

    [Below m m']: wherever [m] has a result, [m'] has the same one. *)
Class Below {S A} (m m' : M S A) : Prop := below_run s r : m s = Some r -> m' s = Some r.

Lemma below_refl {S A} (m : M S A) : Below m m.
Proof. by intros s r. Qed.

#[export] Instance below_ub {S A} (m : M S A) : Below ub m.
Proof. by intros s r. Qed.

Lemma below_bind {S A B} (m m' : M S A) (k k' : A -> M S B) :
  Below m m' -> (forall a, Below (k a) (k' a)) -> Below (bind m k) (bind m' k').
Proof.
  intros Hm Hk s r. unfold bind. destruct (m s) as [[a s1]|] eqn:E; [|done].
  rewrite (Hm _ _ E). apply Hk.
Qed.

Lemma below_when {S} b (m m' : M S unit) : Below m m' -> Below (when b m) (when b m').
Proof. destruct b; [done|intros _; apply below_refl]. Qed.

Lemma below_forM {S A} (l : list A) (f f' : A -> M S unit) :
  (forall x, Below (f x) (f' x)) -> Below (forM l f) (forM l f').
Proof. intros Hf. induction l; [apply below_refl|]. by apply below_bind. Qed.

Lemma wp_below {S A} (m m' : M S A) `{!Below m m'} (Q : A -> S -> Prop) s : wp m Q s -> wp m' Q s.
Proof.
  unfold wp. destruct (m s) as [r|] eqn:E; [|done]. by rewrite (below_run s r E).
Qed.

(** One step into the structure of two computations. *)
Ltac below_step :=
  lazymatch goal with
  | |- Below ?m ?m => apply below_refl
  | |- Below (bind _ _) (bind _ _) => apply below_bind; [|intros ?]
  | |- Below (when _ _) (when _ _) => apply below_when
  | |- Below (forM _ _) (forM _ _) => apply below_forM; intros ?
  | |- Below (match ?x with _ => _ end) _ => destruct x
  | |- _ => apply _
  end.
Ltac below := repeat below_step.

(** ** C integers *)

Definition u8 (x : Z) : Z := x `mod` 2 ^ 8.
Definition u16 (x : Z) : Z := x `mod` 2 ^ 16.
Definition u32 (x : Z) : Z := x `mod` 2 ^ 32.
Definition u64 (x : Z) : Z := x `mod` 2 ^ 64.

(** Conversion to a signed type of [w] bits (two's complement). *)
Definition swrap (w x : Z) : Z := (x + 2 ^ (w - 1)) `mod` 2 ^ w - 2 ^ (w - 1).
Definition s8 (x : Z) : Z := swrap 8 x.
Definition s16 (x : Z) : Z := swrap 16 x.
Definition s32 (x : Z) : Z := swrap 32 x.
Definition s64 (x : Z) : Z := swrap 64 x.

(** [x & m] used as a condition. *)
Definition has_bits (x m : Z) : bool := negb (Z.land x m =? 0).

Lemma u32_range x : 0 <= u32 x < 2 ^ 32.
Proof. apply Z.mod_pos_bound. lia. Qed.

Lemma u64_range x : 0 <= u64 x < 2 ^ 64.
Proof. apply Z.mod_pos_bound. lia. Qed.

Lemma u32_small x : 0 <= x < 2 ^ 32 -> u32 x = x.
Proof. apply Z.mod_small. Qed.

Lemma u64_small x : 0 <= x < 2 ^ 64 -> u64 x = x.
Proof. apply Z.mod_small. Qed.

Lemma u32_u32 x : u32 (u32 x) = u32 x.
Proof. apply Z.mod_mod. lia. Qed.

Lemma s32_small x : - 2 ^ 31 <= x < 2 ^ 31 -> s32 x = x.
Proof. intros ?. unfold s32, swrap. rewrite Z.mod_small; lia. Qed.

Lemma s64_small x : - 2 ^ 63 <= x < 2 ^ 63 -> s64 x = x.
Proof. intros Hx. unfold s64, swrap. rewrite Z.mod_small; lia. Qed.

Lemma s16_small x : - 2 ^ 15 <= x < 2 ^ 15 -> s16 x = x.
Proof. intros ?. unfold s16, swrap. rewrite Z.mod_small; lia. Qed.

Lemma testbit_pow2 x i : 0 <= i -> has_bits x (2 ^ i) = Z.testbit x i.
Proof.
  intros Hi. unfold has_bits. destruct (Z.testbit x i) eqn:E.
  - apply negb_true_iff, Z.eqb_neq. intros Hz.
    assert (Z.testbit (Z.land x (2 ^ i)) i = true) as Ht by (by rewrite Z.land_spec, E, Z.pow2_bits_true by done).
    by rewrite Hz, Z.bits_0 in Ht.
  - apply negb_false_iff, Z.eqb_eq, Z.bits_inj'. intros k Hk.
    rewrite Z.land_spec, Z.bits_0, Z.pow2_bits_eqb by done.
    destruct (Z.eqb_spec i k) as [->|]; [by rewrite E|apply andb_false_r].
Qed.

Lemma has_bits_lor_l x y m : has_bits x m = true -> has_bits (Z.lor x y) m = true.
Proof.
  unfold has_bits. rewrite !negb_true_iff, !Z.eqb_neq, Z.land_lor_distr_l.
  intros H Hz. apply Z.lor_eq_0_iff in Hz. tauto.
Qed.

Create HintDb drv.
Create Rewrite HintDb drv.
#[export] Hint Resolve u32_range u64_range : drv.
#[export] Hint Rewrite u32_u32 : drv.

(** ** Error numbers of Linux *)

Definition EIO := 5.
Definition ENOMEM := 12.
Definition EFAULT := 14.
Definition EBUSY := 16.
Definition ENODEV := 19.
Definition EINVAL := 22.
Definition ENOTTY := 25.
Definition EPROTO := 71.
Definition ETIMEDOUT := 110.
Definition ERESTARTSYS := 512.
Definition ENOIOCTLCMD := 515.
Definition EIOCBQUEUED := 529.
Definition INT_MAX := 2147483647.
Definition UINT_MAX := 4294967295.
Definition PAGE_SIZE := 4096.
Definition PAGE_SHIFT := 12.

(** ** Lists indexed by C integers *)

Definition zlookup {A} (l : list A) (i : Z) : option A :=
  if i <? 0 then None else l !! Z.to_nat i.

(** Store in an array cell; outside of the array there is no result. *)
Definition zupdate {A} (l : list A) (i : Z) (f : A -> A) : option (list A) :=
  match zlookup l i with
  | Some x => Some (<[Z.to_nat i := f x]> l)
  | None => None
  end.

Lemma zlookup_is_Some {A} (l : list A) i :
  is_Some (zlookup l i) <-> 0 <= i < Z.of_nat (length l).
Proof.
  unfold zlookup. destruct (Z.ltb_spec i 0).
  - rewrite is_Some_alt. split; [done|lia].
  - rewrite lookup_lt_is_Some. lia.
Qed.

Lemma zlookup_in {A} (l : list A) i :
  0 <= i < Z.of_nat (length l) -> exists x, zlookup l i = Some x.
Proof. intros H. by apply zlookup_is_Some in H as [x ?]; eauto. Qed.

Lemma zlookup_nat {A} (l : list A) i x : zlookup l i = Some x -> 0 <= i /\ l !! Z.to_nat i = Some x.
Proof. unfold zlookup. destruct (Z.ltb_spec i 0); [done|]. by split. Qed.

Lemma zupdate_in {A} (l : list A) i f :
  0 <= i < Z.of_nat (length l) ->
  exists x, zlookup l i = Some x /\ zupdate l i f = Some (<[Z.to_nat i := f x]> l).
Proof. intros [x Hx]%zlookup_in. exists x. unfold zupdate. by rewrite Hx. Qed.

Lemma zlookup_out {A} (l : list A) i :
  ~ (0 <= i < Z.of_nat (length l)) -> zlookup l i = None.
Proof. intros H. apply eq_None_not_Some. by rewrite zlookup_is_Some. Qed.

Lemma zupdate_length {A} (l l' : list A) i f :
  zupdate l i f = Some l' -> length l' = length l.
Proof.
  unfold zupdate. destruct (zlookup l i); [|done]. intros [= <-]. apply length_insert.
Qed.

Lemma zlookup_zupdate {A} (l l' : list A) i j f :
  zupdate l i f = Some l' ->
  zlookup l' j = if decide (i = j) then f <$> zlookup l j else zlookup l j.
Proof.
  unfold zupdate. destruct (zlookup l i) as [x|] eqn:Hx; [|done]. intros [= <-].
  assert (Hi : 0 <= i < Z.of_nat (length l)) by (apply zlookup_is_Some; eauto).
  unfold zlookup in *. destruct (Z.ltb_spec i 0); [lia|].
  case_decide as Hij; [subst j|].
  - destruct (Z.ltb_spec i 0); [lia|]. rewrite list_lookup_insert_eq by lia. by rewrite Hx.
  - destruct (Z.ltb_spec j 0); [done|]. rewrite list_lookup_insert_ne by lia. done.
Qed.

(** [0, 1, ..., n-1] as C integers. *)
Abbreviation zrange n := (seqZ 0 n).

Lemma elem_of_zrange n i : i ∈ zrange n <-> 0 <= i < n.
Proof. rewrite elem_of_seqZ. lia. Qed.

Lemma zrange_S n : 0 <= n -> zrange (n + 1) = zrange n ++ [n].
Proof.
  intros Hn. rewrite seqZ_app by lia. reflexivity.
Qed.

(** The invariant of a loop over [0, ..., n-1]. *)
Lemma foldl_zrange {B} (f : B -> Z -> B) (I : Z -> B -> Prop) b n :
  0 <= n -> I 0 b -> (forall i b', 0 <= i < n -> I i b' -> I (i + 1) (f b' i)) ->
  I n (foldl f b (zrange n)).
Proof.
  intros Hn H0 Hstep. revert Hstep. pattern n. apply natlike_ind; [done| |done].
  intros m Hm IH Hstep. unfold Z.succ. rewrite zrange_S, foldl_app by done. cbn.
  apply (Hstep m); [lia|]. apply IH. intros i b' Hi. apply Hstep. lia.
Qed.

Lemma zrange_prefix n pre x post :
  zrange n = pre ++ x :: post -> x = Z.of_nat (length pre) /\ pre = zrange x /\ 0 <= x < n.
Proof.
  intros H.
  assert (Hx : zrange n !! length pre = Some x) by (rewrite H; by apply list_lookup_middle).
  apply lookup_seqZ in Hx as [-> Hlt]. split; [lia|]. split; [|lia].
  assert (Hp : pre = take (length pre) (seqZ 0 n)) by (rewrite H, take_app_length; done).
  rewrite Hp at 1. apply list_eq. intros i.
  destruct (decide (i < length pre)%nat).
  - rewrite lookup_take_lt by lia. rewrite !lookup_seqZ_lt by lia. done.
  - rewrite lookup_take_ge by lia. symmetry. apply lookup_seqZ_ge. lia.
Qed.

Lemma zlookup_map {A B} (f : A -> B) l i : zlookup (map f l) i = f <$> zlookup l i.
Proof. unfold zlookup. destruct (i <? 0); [done|]. apply list_lookup_fmap. Qed.

Lemma zlookup_zrange n i : 0 <= i < n -> zlookup (zrange n) i = Some i.
Proof.
  intros Hi. unfold zlookup. destruct (Z.ltb_spec i 0); [lia|]. rewrite lookup_seqZ_lt by lia. f_equal. lia.
Qed.

Lemma length_map_zrange {A} (f : Z -> A) n : 0 <= n -> Z.of_nat (length (map f (zrange n))) = n.
Proof. intros Hn. rewrite length_map, length_seqZ. lia. Qed.

Lemma zlist_eq {A} (l1 l2 : list A) :
  length l1 = length l2 -> (forall i, 0 <= i < Z.of_nat (length l1) -> zlookup l1 i = zlookup l2 i) -> l1 = l2.
Proof.
  intros Hl He. apply list_eq. intros i. destruct (decide (i < length l1)%nat).
  - specialize (He (Z.of_nat i)). unfold zlookup in He. destruct (Z.ltb_spec (Z.of_nat i) 0); [lia|].
    rewrite !Nat2Z.id in He. apply He. lia.
  - rewrite !lookup_ge_None_2 by lia. done.
Qed.

Definition zsum (l : list Z) : Z := foldr Z.add 0 l.

Lemma zsum_app l1 l2 : zsum (l1 ++ l2) = zsum l1 + zsum l2.
Proof. induction l1; unfold zsum in *; cbn; lia. Qed.
