(* ===== verification/Bytes.v ===== *)
(** * Bytes: buffers of bytes and little-endian words

    A buffer is the list of its bytes; copies into and out of it have no result
    outside of its bounds. *)

From S2P Require Import Prelude.

Definition le_word (l : list Z) : Z := foldr (fun b w => b + 256 * w) 0 l.
Fixpoint le_bytes (n : nat) (w : Z) : list Z :=
  match n with
  | O => []
  | S n => w `mod` 256 :: le_bytes n (w / 256)
  end.

(** [memcpy(&store, buf + i, n)]: outside of the buffer there is no result. *)
Definition mem_read (buf : list Z) (i n : Z) : option (list Z) :=
  if (0 <=? i) && (i + n <=? Z.of_nat (length buf))
  then Some (take (Z.to_nat n) (drop (Z.to_nat i) buf)) else None.

(** [memcpy(buf + i, &store, n)] *)
Definition mem_write (buf : list Z) (i : Z) (l : list Z) : option (list Z) :=
  if (0 <=? i) && (i + Z.of_nat (length l) <=? Z.of_nat (length buf))
  then Some (take (Z.to_nat i) buf ++ l ++ drop (Z.to_nat i + length l) buf) else None.

(** ** Facts *)

Lemma mem_read_in buf i n :
  0 <= i -> 0 <= n -> i + n <= Z.of_nat (length buf) ->
  mem_read buf i n = Some (take (Z.to_nat n) (drop (Z.to_nat i) buf)).
Proof.
  intros Hi Hn Hb. unfold mem_read. rewrite (proj2 (Z.leb_le _ _)), (proj2 (Z.leb_le _ _)) by done. done.
Qed.

Lemma mem_write_in buf i l :
  0 <= i -> i + Z.of_nat (length l) <= Z.of_nat (length buf) ->
  mem_write buf i l = Some (take (Z.to_nat i) buf ++ l ++ drop (Z.to_nat i + length l) buf).
Proof.
  intros Hi Hb. unfold mem_write. rewrite (proj2 (Z.leb_le _ _)), (proj2 (Z.leb_le _ _)) by done. done.
Qed.

Lemma le_bytes_length n w : length (le_bytes n w) = n.
Proof. revert w. induction n as [|n IH]; intros w; [done|]. cbn. by rewrite IH. Qed.

Lemma le_word_bytes n w : 0 <= w < 256 ^ Z.of_nat n -> le_word (le_bytes n w) = w.
Proof.
  revert w. induction n as [|n IH]; intros w Hw; [change (256 ^ Z.of_nat 0) with 1 in Hw; cbn; lia|].
  rewrite Nat2Z.inj_succ, Z.pow_succ_r in Hw by lia.
  change (w `mod` 256 + 256 * le_word (le_bytes n (w / 256)) = w).
  rewrite IH; [|split; [apply Z.div_pos; lia|apply Z.div_lt_upper_bound; lia]].
  pose proof (Z.div_mod w 256). lia.
Qed.
