(* ===== verification/Posix.v ===== *)
(** * Posix: the system calls of the user programs

    The programs under [tools] and [Final] run on an operating system that is a
    parameter: [Posix O] gives the system calls on a state [O] of the system,
    [SeekFile], [ReadFile] and [WriteFile] say what the programs rely on for a file
    descriptor that behaves as a file.  [disk] is a system with one file per descriptor. *)

From stdpp Require Import strings.
From S2P Require Import Prelude Bytes.

(** A call that fails answers -1 (or NULL, or [MAP_FAILED] as -1). *)
Class Posix (O : Type) := {
  sys_open : string -> Z -> O -> Z * O;          (** the path and the flags *)
  sys_close : Z -> O -> Z * O;
  sys_lseek : Z -> Z -> O -> Z * O;              (** SEEK_SET *)
  sys_read : Z -> Z -> O -> (Z * list Z) * O;    (** the result and the bytes *)
  sys_write : Z -> list Z -> O -> Z * O;
  (** an aperture ioctl: command, address, window and the buffer; the result,
      [io.error], [io.done] and the buffer *)
  sys_aperture : Z -> Z -> Z -> Z -> list Z -> O -> (Z * Z * Z * list Z) * O;
  sys_clock : O -> (Z * Z) * O;                  (** seconds and nanoseconds *)
  sys_memalign : Z -> O -> Z * O;                (** 0 for NULL *)
  sys_mmap : Z -> Z -> Z -> O -> Z * O;          (** descriptor, offset, length *)
  sys_munmap : Z -> Z -> O -> Z * O;
  (** a load and a store of some bytes at a mapped address *)
  sys_load : Z -> Z -> O -> list Z * O;
  sys_store : Z -> list Z -> O -> O;
  (** [sscanf] with a format and an input: the value, if one was converted *)
  sscanf : string -> string -> option Z
}.

Definition sys {O A} (f : O -> A * O) : M O A := fun o => Some (f o).

Lemma wp_sys {O A} (f : O -> A * O) (Q : A -> O -> Prop) o : Q (f o).1 (f o).2 -> wp (sys f) Q o.
Proof. intros HQ. unfold wp, sys. by destruct (f o). Qed.

(** [O_RDWR], [O_TRUNC] and the mode of an output file. *)
Definition O_RDONLY := 0x0.
Definition O_RDWR := 0x2.
Definition O_TRUNC := 0x200.
Definition O_CREAT := 0x40.
Definition O_SYNC := 0x101000.

(** At most this many bytes move in one call. *)
Definition RW_MAX_SIZE := 0x7ffff000.

(** The content of a file after a write at [pos]; a gap reads as zeros. *)
Definition write_at (c : list Z) (pos : Z) (data : list Z) : list Z :=
  take (Z.to_nat pos) (c ++ replicate (Z.to_nat pos - length c) 0) ++ data ++
  drop (Z.to_nat pos + length data) c.

(** [file fd c pos o]: descriptor [fd] is a file with content [c] at [pos]; it
    can be positioned, read or written, each by its own law. *)
Class SeekFile (O : Type) `{Posix O} (file : Z -> list Z -> Z -> O -> Prop) := {
  file_lseek fd c p off o : file fd c p o -> 0 <= off < 2 ^ 63 ->
    exists o', sys_lseek fd off o = (off, o') /\ file fd c off o';
  file_pos fd c p o : file fd c p o -> 0 <= p
}.

Class ReadFile (O : Type) `{Posix O} (file : Z -> list Z -> Z -> O -> Prop) :=
  file_read fd c p n o : file fd c p o -> 0 <= n <= RW_MAX_SIZE ->
    exists o', let data := take (Z.to_nat n) (drop (Z.to_nat p) c) in
      sys_read fd n o = ((Z.of_nat (length data), data), o') /\
      file fd c (p + Z.of_nat (length data)) o'.

Class WriteFile (O : Type) `{Posix O} (file : Z -> list Z -> Z -> O -> Prop) :=
  file_write fd c p data o : file fd c p o -> Z.of_nat (length data) <= RW_MAX_SIZE ->
    exists o', sys_write fd data o = (Z.of_nat (length data), o') /\
      file fd (write_at c p data) (p + Z.of_nat (length data)) o'.

(** ** Writes to a file *)

Lemma length_write_at c p data :
  0 <= p -> p + Z.of_nat (length data) <= Z.of_nat (length c) -> length (write_at c p data) = length c.
Proof.
  intros Hp Hd. unfold write_at. rewrite !length_app, length_take, length_app, length_replicate, length_drop. lia.
Qed.

Lemma take_write_at c p data :
  0 <= p -> take (length data) (drop (Z.to_nat p) (write_at c p data)) = data.
Proof.
  intros Hp. unfold write_at.
  assert (Hl : length (take (Z.to_nat p) (c ++ replicate (Z.to_nat p - length c) 0)) = Z.to_nat p).
  { rewrite length_take, length_app, length_replicate. lia. }
  rewrite drop_app_length' by done. by rewrite take_app_length.
Qed.

Lemma write_at_app c p d1 d2 :
  0 <= p -> write_at (write_at c p d1) (p + Z.of_nat (length d1)) d2 = write_at c p (d1 ++ d2).
Proof.
  intros Hp. unfold write_at at 1 3.
  set (c1 := take (Z.to_nat p) (c ++ replicate (Z.to_nat p - length c) 0)).
  assert (Hl : length c1 = Z.to_nat p).
  { unfold c1. rewrite length_take, length_app, length_replicate. lia. }
  assert (Hw : write_at c p d1 = c1 ++ d1 ++ drop (Z.to_nat p + length d1) c) by done.
  rewrite Z2Nat.inj_add by lia. rewrite Nat2Z.id.
  rewrite (take_app_le (write_at c p d1)).
  2: { rewrite Hw, !length_app. lia. }
  rewrite Hw, (app_assoc c1 d1), take_app_length' by (rewrite length_app; lia).
  rewrite <- !app_assoc. do 3 f_equal. rewrite app_assoc.
  rewrite drop_app_ge by (rewrite length_app; lia). rewrite drop_drop, length_app. f_equal. rewrite length_app. lia.
Qed.

(** ** One file per descriptor *)

Record disk := mk_disk { dk_files : gmap Z (list Z * Z); dk_names : list (string * Z) }.

Definition disk_set (fd : Z) (c : list Z) (p : Z) (d : disk) : disk :=
  mk_disk (<[fd := (c, p)]> (dk_files d)) (dk_names d).

Fixpoint find_name (path : string) (l : list (string * Z)) : Z :=
  match l with
  | [] => - 1
  | (n, fd) :: l => if String.eqb n path then fd else find_name path l
  end.

#[export] Instance disk_posix : Posix disk := {
  sys_open path _ d := (find_name path (dk_names d), d);
  sys_close _ d := (0, d);
  sys_lseek fd off d :=
    match dk_files d !! fd with Some (c, _) => (off, disk_set fd c off d) | None => (- 1, d) end;
  sys_read fd n d :=
    match dk_files d !! fd with
    | Some (c, p) =>
        let data := take (Z.to_nat n) (drop (Z.to_nat p) c) in
        ((Z.of_nat (length data), data), disk_set fd c (p + Z.of_nat (length data)) d)
    | None => ((- 1, []), d)
    end;
  sys_write fd data d :=
    match dk_files d !! fd with
    | Some (c, p) => (Z.of_nat (length data), disk_set fd (write_at c p data) (p + Z.of_nat (length data)) d)
    | None => (- 1, d)
    end;
  sys_aperture _ _ _ _ buf d := ((- 1, 0, 0, buf), d);
  sys_clock d := ((0, 0), d);
  sys_memalign _ d := (4096, d);
  sys_mmap _ _ _ d := (- 1, d);
  sys_munmap _ _ d := (0, d);
  sys_load _ _ d := ([], d);
  sys_store _ _ d := d;
  sscanf _ _ := None
}.

Definition disk_file (fd : Z) (c : list Z) (p : Z) (d : disk) : Prop :=
  dk_files d !! fd = Some (c, p) /\ 0 <= p.

#[export] Instance disk_seek : SeekFile disk disk_file.
Proof.
  split; unfold disk_file; cbn; [|by intros fd c p o [_ Hp]].
  intros fd c p off o [-> Hp] Ho. eexists. split; [done|]. cbn. rewrite lookup_insert_eq. split; [done|lia].
Qed.

#[export] Instance disk_read : ReadFile disk disk_file.
Proof.
  unfold disk_file. intros fd c p n o [Hf Hp] Hn. cbn. rewrite Hf. eexists. split; [done|]. cbn.
  rewrite lookup_insert_eq. split; [done|lia].
Qed.

#[export] Instance disk_write : WriteFile disk disk_file.
Proof.
  unfold disk_file. intros fd c p data o [Hf Hp] Hn. cbn. rewrite Hf. eexists. split; [done|]. cbn.
  rewrite lookup_insert_eq. split; [done|lia].
Qed.
