(* ===== verification/Tools.v ===== *)
(** * Tools: the shared code of the DMA tools

    [tools/dma_utils.c]: transfers of any size between a file descriptor and a
    buffer, and the subtraction of two times. *)

From stdpp Require Import strings.
From S2P Require Import Prelude Bytes Posix.

Section tools.
Context {Os : Type} `{Posix Os}.

(** [None] when neither format matches: the value is then uninitialised. *)
Definition getopt_integer (optarg : string) : option Z :=
  match sscanf "0x%lx" optarg with
  | Some value => Some (u64 value)
  | None => option_map u64 (sscanf "%lu" optarg)
  end.

(** [lseek], unless the offset is 0: whether the loop goes on. *)
Definition seek_to (fd offset : Z) : M Os bool :=
  if offset =? 0 then ret true
  else let* rc := sys (sys_lseek fd offset) in ret (rc =? offset).

(** [while (count < size)]; [buf] is the position in the buffer. *)
Fixpoint read_loop (fuel : nat) (fd : Z) (buffer : list Z) (buf offset count size : Z)
    : M Os (Z * list Z) :=
  if count <? size then
    match fuel with
    | O => ub
    | S fuel =>
        let bytes := Z.min (size - count) RW_MAX_SIZE in
        let* ok := seek_to fd offset in
        if negb ok then ret (- EIO, buffer)
        else
          let* '(rc, data) := sys (sys_read fd bytes) in
          if rc <? 0 then ret (- EIO, buffer)
          else
            let* buffer := deref (mem_write buffer buf data) in
            let count := u64 (count + rc) in
            if negb (rc =? bytes) then ret (s64 count, buffer)
            else read_loop fuel fd buffer (buf + bytes) (s64 (offset + bytes)) count size
    end
  else ret (s64 count, buffer).

Definition rw_fuel (size : Z) : nat := Z.to_nat (size / RW_MAX_SIZE + 1).

(** The result and the buffer. *)
Definition read_to_buffer (fd : Z) (buffer : list Z) (size base : Z) : M Os (Z * list Z) :=
  read_loop (rw_fuel size) fd buffer 0 (s64 base) 0 size.

Fixpoint write_loop (fuel : nat) (fd : Z) (buffer : list Z) (buf offset count size : Z) : M Os Z :=
  if count <? size then
    match fuel with
    | O => ub
    | S fuel =>
        let bytes := Z.min (size - count) RW_MAX_SIZE in
        let* ok := seek_to fd offset in
        if negb ok then ret (- EIO)
        else
          let* data := deref (mem_read buffer buf bytes) in
          let* rc := sys (sys_write fd data) in
          if rc <? 0 then ret (- EIO)
          else
            let count := u64 (count + rc) in
            if negb (rc =? bytes) then ret (s64 count)
            else write_loop fuel fd buffer (buf + bytes) (s64 (offset + bytes)) count size
    end
  else ret (s64 count).

Definition write_from_buffer (fd : Z) (buffer : list Z) (size base : Z) : M Os Z :=
  write_loop (rw_fuel size) fd buffer 0 (s64 base) 0 size.
End tools.

(** ** Times *)

Record timespec := mk_ts { tv_sec : Z; tv_nsec : Z }.

Definition NSEC := 1000000000.

Definition timespec_check (t : timespec) : Z :=
  if (tv_nsec t <? 0) || (NSEC <=? tv_nsec t) then - 1 else 0.

(** The new value of [*t1]. *)
Definition timespec_sub (t1 t2 : timespec) : timespec :=
  if timespec_check t1 <? 0 then t1
  else if timespec_check t2 <? 0 then t1
  else
    let sec := s64 (tv_sec t1 - tv_sec t2) in
    let nsec := s64 (tv_nsec t1 - tv_nsec t2) in
    if NSEC <=? nsec then mk_ts (s64 (sec + 1)) (nsec - NSEC)
    else if nsec <? 0 then mk_ts (s64 (sec - 1)) (nsec + NSEC)
    else mk_ts sec nsec.

(** ** Transfers on a regular file *)

Section file.
Context {Os : Type} `{SeekFile Os file}.

(** Where the next call works: the offset, or the position when the offset is 0. *)
Lemma wp_seek fd c p offset (Q : bool -> Os -> Prop) o :
  file fd c p o -> 0 <= offset < 2 ^ 63 -> (offset = 0 -> p = 0) ->
  (forall o', file fd c offset o' -> Q true o') -> wp (seek_to fd offset) Q o.
Proof.
  intros Hf Ho Hz HQ. unfold seek_to. destruct (Z.eqb_spec offset 0) as [->|Hne].
  - apply wp_ret, HQ. by rewrite <- (Hz eq_refl).
  - destruct (file_lseek fd c p offset o Hf Ho) as (o' & Hs & Hf').
    apply wp_bind, wp_sys. rewrite Hs. cbn. rewrite Z.eqb_refl. by apply wp_ret, HQ.
Qed.

(** The bytes of the file from [base] on, as many as fit in [size]. *)
Definition file_bytes (c : list Z) (base size : Z) : list Z :=
  take (Z.to_nat size) (drop (Z.to_nat base) c).

Lemma file_bytes_split c base count size :
  0 <= base -> 0 <= count <= size ->
  file_bytes c base size = file_bytes c base count ++ file_bytes c (base + count) (size - count).
Proof.
  intros Hb Hc. unfold file_bytes. rewrite Z2Nat.inj_add, Z2Nat.inj_sub, <- drop_drop by lia.
  rewrite <- (take_drop (Z.to_nat count) (drop (Z.to_nat base) c)) at 1.
  rewrite take_app, take_take, length_take.
  destruct (Nat.le_gt_cases (Z.to_nat count) (length (drop (Z.to_nat base) c))) as [Hle|Hgt].
  - rewrite (Nat.min_l (Z.to_nat count)) by done. by rewrite Nat.min_r by lia.
  - rewrite (drop_ge _ (Z.to_nat count)) by lia. rewrite !take_nil. by rewrite Nat.min_r by lia.
Qed.

Lemma length_file_bytes c base n :
  0 <= n -> Z.of_nat (length (file_bytes c base n)) <= n.
Proof. intros Hn. unfold file_bytes. rewrite length_take. lia. Qed.

(** [d] in front of what the buffer held. *)
Definition filled (buffer d : list Z) : list Z := d ++ drop (length d) buffer.

Lemma filled_write buffer d data :
  (length d + length data <= length buffer)%nat ->
  mem_write (filled buffer d) (Z.of_nat (length d)) data = Some (filled buffer (d ++ data)).
Proof.
  intros Hl. unfold filled. rewrite mem_write_in; [|lia|rewrite length_app, length_drop; lia].
  rewrite Nat2Z.id, take_app_length. rewrite drop_app_ge by lia. rewrite drop_drop, length_app, <- app_assoc.
  do 4 f_equal. lia.
Qed.

(** A transfer that is shorter than asked for reached the end of the file. *)
Lemma file_bytes_short c base n m :
  0 <= n <= m -> Z.of_nat (length (file_bytes c base n)) <> n -> file_bytes c base m = file_bytes c base n.
Proof.
  intros Hn. unfold file_bytes. rewrite length_take. intros Hs. rewrite !take_ge by lia. done.
Qed.

Lemma wp_read_loop `{!ReadFile Os file} fuel fd c buffer base size p count o :
  file fd c p o -> 0 <= base -> base + size < 2 ^ 63 -> size <= Z.of_nat (length buffer) ->
  0 <= count <= size -> size - count <= Z.of_nat fuel * RW_MAX_SIZE -> (base + count = 0 -> p = 0) ->
  Z.of_nat (length (file_bytes c base count)) = count ->
  wp (read_loop fuel fd (filled buffer (file_bytes c base count)) count (base + count) count size)
     (fun r o' => r = (Z.of_nat (length (file_bytes c base size)), filled buffer (file_bytes c base size)) /\
                  exists p', file fd c p' o') o.
Proof.
  revert p count o. induction fuel as [|fuel IH]; intros p count o Hf Hb Hmax Hbuf Hc Hfuel Hz Hd.
  { assert (count = size) as -> by lia. cbn [read_loop]. rewrite (proj2 (Z.ltb_ge size size)) by lia.
    apply wp_ret. rewrite Hd, s64_small by lia. split; [done|by exists p]. }
  cbn [read_loop]. destruct (Z.ltb_spec count size) as [Hlt|Hge].
  2: { assert (count = size) as -> by lia. apply wp_ret. rewrite Hd, s64_small by lia. split; [done|by exists p]. }
  cbn zeta. set (bytes := Z.min (size - count) RW_MAX_SIZE).
  assert (Hbytes : 0 < bytes <= RW_MAX_SIZE /\ (bytes = size - count \/ bytes = RW_MAX_SIZE /\ bytes <= size - count))
    by (unfold bytes, RW_MAX_SIZE; lia).
  rewrite Nat2Z.inj_succ, Z.mul_succ_l in Hfuel.
  assert (Hpos : 0 <= Z.of_nat fuel * RW_MAX_SIZE) by (apply Z.mul_nonneg_nonneg; [lia|done]).
  apply wp_bind. eapply wp_seek; [exact Hf|lia|exact Hz|]. intros o1 Hf1. cbn [negb].
  destruct (file_read fd c (base + count) bytes o1 Hf1) as (o2 & Hr & Hf2); [lia|].
  set (data := take (Z.to_nat bytes) (drop (Z.to_nat (base + count)) c)) in *.
  change data with (file_bytes c (base + count) bytes) in *.
  pose proof (length_file_bytes c (base + count) bytes) as Hlen. clearbody data. clear data.
  apply wp_bind, wp_sys. rewrite Hr. cbn [fst snd]. rewrite (proj2 (Z.ltb_ge _ 0)) by lia.
  apply wp_bind. eapply wp_deref; [rewrite <- Hd at 2; apply filled_write; lia|].
  unfold u64. rewrite Z.mod_small by lia.
  destruct (Z.eqb_spec (Z.of_nat (length (file_bytes c (base + count) bytes))) bytes) as [He|He]; cbn [negb].
  - rewrite (s64_small (base + count + bytes)) by lia. rewrite He, <- Z.add_assoc.
    assert (Hs : file_bytes c base (count + bytes) = file_bytes c base count ++ file_bytes c (base + count) bytes).
    { rewrite (file_bytes_split c base count (count + bytes)) by lia. do 2 f_equal. lia. }
    rewrite <- Hs. eapply IH; [exact Hf2|try lia..]. rewrite Hs, length_app. lia.
  - apply wp_ret. rewrite (file_bytes_split c base count size) by lia.
    rewrite (file_bytes_short c (base + count) bytes (size - count)) by (lia || done).
    rewrite length_app, s64_small by lia. split; [f_equal; lia|by eexists].
Qed.

(** The content of a file after [d] was written at [base]. *)
Definition written (c : list Z) (base : Z) (d : list Z) : list Z :=
  match d with [] => c | _ => write_at c base d end.

Lemma written_more c base d data :
  0 <= base -> data <> [] ->
  write_at (written c base d) (base + Z.of_nat (length d)) data = written c base (d ++ data).
Proof.
  intros Hb Hn. destruct d as [|b d]; cbn [written app].
  - rewrite Z.add_0_r. by destruct data.
  - by apply write_at_app.
Qed.

Lemma wp_write_loop `{!WriteFile Os file} fuel fd c buffer base size p count o :
  file fd (written c base (take (Z.to_nat count) buffer)) p o -> 0 <= base -> base + size < 2 ^ 63 ->
  size <= Z.of_nat (length buffer) -> 0 <= count <= size ->
  size - count <= Z.of_nat fuel * RW_MAX_SIZE -> (base + count = 0 -> p = 0) ->
  wp (write_loop fuel fd buffer count (base + count) count size)
     (fun rv o' => rv = size /\ exists p', file fd (written c base (take (Z.to_nat size) buffer)) p' o') o.
Proof.
  revert p count o. induction fuel as [|fuel IH]; intros p count o Hf Hb Hmax Hbuf Hc Hfuel Hz.
  { assert (count = size) as -> by lia. cbn [write_loop]. rewrite (proj2 (Z.ltb_ge size size)) by lia.
    apply wp_ret. rewrite s64_small by lia. split; [done|by exists p]. }
  cbn [write_loop]. destruct (Z.ltb_spec count size) as [Hlt|Hge].
  2: { assert (count = size) as -> by lia. apply wp_ret. rewrite s64_small by lia. split; [done|by exists p]. }
  cbn zeta. set (bytes := Z.min (size - count) RW_MAX_SIZE).
  assert (Hbytes : 0 < bytes <= RW_MAX_SIZE /\ (bytes = size - count \/ bytes = RW_MAX_SIZE /\ bytes <= size - count))
    by (unfold bytes, RW_MAX_SIZE; lia).
  rewrite Nat2Z.inj_succ, Z.mul_succ_l in Hfuel.
  assert (Hpos : 0 <= Z.of_nat fuel * RW_MAX_SIZE) by (apply Z.mul_nonneg_nonneg; [lia|done]).
  apply wp_bind. eapply wp_seek; [exact Hf|lia|exact Hz|]. intros o1 Hf1. cbn [negb].
  set (data := take (Z.to_nat bytes) (drop (Z.to_nat count) buffer)).
  assert (Hl : Z.of_nat (length data) = bytes) by (unfold data; rewrite length_take, length_drop; lia).
  apply wp_bind. eapply wp_deref; [apply mem_read_in; lia|]. fold data.
  destruct (file_write fd _ _ data o1 Hf1) as (o2 & Hw & Hf2); [lia|].
  apply wp_bind, wp_sys. rewrite Hw. cbn [fst snd]. rewrite Hl in *. rewrite (proj2 (Z.ltb_ge _ 0)) by lia.
  unfold u64. rewrite Z.mod_small, Z.eqb_refl by lia. cbn [negb].
  rewrite (s64_small (base + count + bytes)) by lia. rewrite <- Z.add_assoc in *.
  eapply IH; [|try lia..].
  replace (base + count) with (base + Z.of_nat (length (take (Z.to_nat count) buffer))) in Hf2
    by (rewrite length_take; lia).
  rewrite written_more in Hf2; [|lia|by intros E; rewrite E in Hl; cbn in Hl; lia].
  replace (take (Z.to_nat (count + bytes)) buffer) with (take (Z.to_nat count) buffer ++ data); [exact Hf2|].
  unfold data. rewrite Z2Nat.inj_add by lia. apply take_take_drop.
Qed.

Lemma rw_fuel_enough size : 0 <= size -> size <= Z.of_nat (rw_fuel size) * RW_MAX_SIZE.
Proof.
  intros Hs. unfold rw_fuel. pose proof (Z.div_pos size RW_MAX_SIZE) as Hp.
  pose proof (Z.div_mod size RW_MAX_SIZE) as Hd. pose proof (Z.mod_pos_bound size RW_MAX_SIZE) as Hm.
  assert (0 < RW_MAX_SIZE) by done. rewrite Z2Nat.id by lia. lia.
Qed.

(** A transfer within the range of [off_t] and of the buffer; without an offset
    it starts at the position of the descriptor, which has to be 0. *)
Record transfer_ok (fd size base : Z) (buffer c : list Z) (p : Z) (o : Os) : Prop := {
  tr_file : file fd c p o;
  tr_size : 0 <= size <= Z.of_nat (length buffer);
  tr_base : 0 <= base;
  tr_range : base + size < 2 ^ 63;
  tr_zero : base = 0 -> p = 0
}.

Lemma wp_read_to_buffer `{!ReadFile Os file} fd size base buffer c p o :
  transfer_ok fd size base buffer c p o ->
  wp (read_to_buffer fd buffer size base) (fun r o' =>
    r = (Z.of_nat (length (file_bytes c base size)), filled buffer (file_bytes c base size)) /\
    exists p', file fd c p' o') o.
Proof.
  intros [Hf Hs Hb Hr Hz]. pose proof (rw_fuel_enough size). unfold read_to_buffer.
  rewrite s64_small by lia. pose proof (wp_read_loop (rw_fuel size) fd c buffer base size p 0 o) as Hw.
  rewrite Z.add_0_r in Hw. apply Hw; try done; lia.
Qed.

Lemma wp_write_from_buffer `{!WriteFile Os file} fd size base buffer c p o :
  transfer_ok fd size base buffer c p o ->
  wp (write_from_buffer fd buffer size base) (fun rv o' =>
    rv = size /\ exists p', file fd (written c base (take (Z.to_nat size) buffer)) p' o') o.
Proof.
  intros [Hf Hs Hb Hr Hz]. pose proof (rw_fuel_enough size). unfold write_from_buffer.
  rewrite s64_small by lia. pose proof (wp_write_loop (rw_fuel size) fd c buffer base size p 0 o) as Hw.
  rewrite Z.add_0_r in Hw. apply Hw; try done; lia.
Qed.

Lemma file_bytes_written c base d :
  0 <= base -> file_bytes (written c base d) base (Z.of_nat (length d)) = d.
Proof.
  intros Hb. unfold file_bytes, written. rewrite Nat2Z.id. destruct d as [|b d]; [done|]. by apply take_write_at.
Qed.

(** [read_to_buffer] on a descriptor that behaves as a file: it returns
    the number of bytes that the file has from [base] on, [size] at most, with
    those bytes at the start of the buffer and the rest of the buffer as it was,
    in pieces of [RW_MAX_SIZE] if need be. *)
Theorem read_to_buffer_spec `{!ReadFile Os file} fd size base buffer c p o :
  transfer_ok fd size base buffer c p o ->
  exists o', read_to_buffer fd buffer size base o =
    Some ((Z.of_nat (length (file_bytes c base size)), filled buffer (file_bytes c base size)), o').
Proof.
  intros Ht. pose proof (wp_read_to_buffer _ _ _ _ _ _ _ Ht) as Hw.
  apply wp_iff in Hw as (r & o' & Hrun & -> & _). by exists o'.
Qed.

(** What [write_from_buffer] writes, [read_to_buffer] reads back, at any
    offset but 0 (without an offset neither of them seeks). *)
Theorem write_read_roundtrip `{!ReadFile Os file, !WriteFile Os file} fd size base buffer buffer2 c p o :
  transfer_ok fd size base buffer c p o -> 0 < base -> size <= Z.of_nat (length buffer2) ->
  exists o', (let* rv := write_from_buffer fd buffer size base in
              let* r := read_to_buffer fd buffer2 size base in ret (rv, r)) o =
    Some ((size, (size, filled buffer2 (take (Z.to_nat size) buffer))), o').
Proof.
  intros Ht Hb H2. pose proof Ht as [Hf Hs _ Hr _].
  assert (Hlen : Z.of_nat (length (take (Z.to_nat size) buffer)) = size) by (rewrite length_take; lia).
  assert (Hw : wp (let* rv := write_from_buffer fd buffer size base in
      let* r := read_to_buffer fd buffer2 size base in ret (rv, r))
    (fun r _ => r = (size, (size, filled buffer2 (take (Z.to_nat size) buffer)))) o).
  { apply wp_bind. eapply wp_mono; [by eapply wp_write_from_buffer|]. intros rv o1 [-> [p1 Hf1]].
    apply wp_bind. eapply wp_mono; [eapply wp_read_to_buffer; split; [exact Hf1|lia..]|].
    intros r o2 [-> _]. apply wp_ret.
    pose proof (file_bytes_written c base (take (Z.to_nat size) buffer)) as Hfb. rewrite Hlen in Hfb.
    rewrite Hfb by lia. by rewrite Hlen. }
  apply wp_iff in Hw as (r & o' & Hrun & ->). by exists o'.
Qed.
End file.

(** ** The time between two instants *)

Definition normalised (t : timespec) : Prop := 0 <= tv_nsec t < NSEC.
Definition nanoseconds (t : timespec) : Z := tv_sec t * NSEC + tv_nsec t.

(** [timespec_sub] of two normalised times is their normalised
    difference; otherwise it leaves [t1] alone. *)
Theorem timespec_sub_spec t1 t2 :
  - 2 ^ 62 <= tv_sec t1 < 2 ^ 62 -> - 2 ^ 62 <= tv_sec t2 < 2 ^ 62 ->
  (normalised t1 /\ normalised t2 ->
     normalised (timespec_sub t1 t2) /\
     nanoseconds (timespec_sub t1 t2) = nanoseconds t1 - nanoseconds t2) /\
  (~ (normalised t1 /\ normalised t2) -> timespec_sub t1 t2 = t1).
Proof.
  intros H1 H2. unfold timespec_sub, normalised, nanoseconds.
  assert (Hc : forall t, (timespec_check t <? 0) = negb (bool_decide (0 <= tv_nsec t < NSEC))).
  { intros t. unfold timespec_check. destruct (Z.ltb_spec (tv_nsec t) 0), (Z.leb_spec NSEC (tv_nsec t)); cbn;
      symmetry; rewrite ?negb_true_iff, ?negb_false_iff, ?bool_decide_eq_true, ?bool_decide_eq_false; lia. }
  rewrite !Hc. split.
  - intros [Hn1 Hn2]. rewrite !bool_decide_eq_true_2 by done. cbn [negb]. unfold NSEC in *.
    rewrite (s64_small (tv_sec t1 - tv_sec t2)), (s64_small (tv_nsec t1 - tv_nsec t2)) by lia.
    rewrite (proj2 (Z.leb_gt _ _)) by lia. destruct (Z.ltb_spec (tv_nsec t1 - tv_nsec t2) 0); cbn.
    + rewrite s64_small by lia. lia.
    + lia.
  - intros Hn. destruct (bool_decide (0 <= tv_nsec t1 < NSEC)) eqn:E1; [|done].
    destruct (bool_decide (0 <= tv_nsec t2 < NSEC)) eqn:E2; [|done].
    apply bool_decide_eq_true in E1, E2. by destruct Hn.
Qed.

(** ** Witnesses *)

Definition demo_disk : disk := mk_disk {[ 3 := ([10; 11; 12; 13; 14], 0) ]} [("/dev/xdma0_c2h_0"%string, 3)].

Lemma demo_transfer size base : 0 <= size <= 4 -> 0 <= base <= 4 ->
  transfer_ok (file := disk_file) 3 size base [1; 2; 3; 4] [10; 11; 12; 13; 14] 0 demo_disk.
Proof. intros Hs Hb. split; cbn; try lia. by split. Qed.

(** Past the end of the file the buffer keeps its bytes. *)
Example read_short : option_map fst (read_to_buffer 3 [1; 2; 3; 4] 4 3 demo_disk) = Some (2, [13; 14; 3; 4]).
Proof. by vm_compute. Qed.

(** Without an offset the second transfer starts where the first one ended. *)
Example no_seek_at_zero :
  option_map fst ((let* rv := write_from_buffer 3 [1; 2; 3; 4] 4 0 in
                   let* r := read_to_buffer 3 [0; 0; 0; 0] 4 0 in ret (rv, r)) demo_disk)
  = Some (4, (1, [14; 0; 0; 0])).
Proof. by vm_compute. Qed.

Lemma read_to_buffer_spec_witness :
  exists o', read_to_buffer 3 [1; 2; 3; 4] 4 3 demo_disk = Some ((2, [13; 14; 3; 4]), o').
Proof. exact (read_to_buffer_spec (file := disk_file) 3 4 3 [1; 2; 3; 4] [10; 11; 12; 13; 14] 0 demo_disk
  (demo_transfer 4 3 ltac:(lia) ltac:(lia))). Defined.

Lemma write_read_roundtrip_witness :
  exists o', (let* rv := write_from_buffer 3 [1; 2; 3; 4] 3 2 in
              let* r := read_to_buffer 3 [0; 0; 0; 0] 3 2 in ret (rv, r)) demo_disk =
    Some ((3, (3, [1; 2; 3; 0])), o').
Proof.
  apply (write_read_roundtrip (file := disk_file) 3 3 2 [1; 2; 3; 4] [0; 0; 0; 0] [10; 11; 12; 13; 14] 0 demo_disk);
    [by apply demo_transfer|done..].
Defined.

Lemma timespec_sub_spec_witness :
  let t1 := mk_ts 7 5 in let t2 := mk_ts 3 900000000 in
  (normalised t1 /\ normalised t2 ->
     normalised (timespec_sub t1 t2) /\
     nanoseconds (timespec_sub t1 t2) = nanoseconds t1 - nanoseconds t2) /\
  (~ (normalised t1 /\ normalised t2) -> timespec_sub t1 t2 = t1).
Proof. apply timespec_sub_spec; cbn; lia. Defined.
