(* ===== verification/Matrix.v ===== *)
(** * Matrix: the host side of the matrix accelerator

    [Final/xdma_rw_matrix.c], [Final/matrix_top2.c]: two matrices of bytes are
    written to the card, a register read starts the computation, another one is
    polled until it is finished, and the product is read back.  A matrix is the
    list of its rows, an array the list of its elements; bytes that go through a
    system call are unsigned. *)

From stdpp Require Import strings.
From S2P Require Import Prelude Bytes Posix.

Definition MATRIX_SIZE := 64.
Definition FLAG_ADDR := 0x2000.
Definition START_ADDR := 0x1000.

(** ** Layouts *)

(** [matrix[i][j]] *)
Definition matrix_get (matrix : list (list Z)) (i j : Z) : option Z :=
  match zlookup matrix i with Some row => zlookup row j | None => None end.

(** [flattened[k] = matrix[i][j]]; outside of an array there is no result. *)
Definition flatten_step (matrix : list (list Z)) (i j k : Z) (flattened : option (list Z)) : option (list Z) :=
  match flattened, matrix_get matrix i j with
  | Some l, Some v => zupdate l k (fun _ => v)
  | _, _ => None
  end.

Definition flatten_matrix_row_major (matrix : list (list Z)) (flattened : list Z) : option (list Z) :=
  foldl (fun l i => foldl (fun l j => flatten_step matrix i j (i * MATRIX_SIZE + j) l) l (zrange MATRIX_SIZE))
    (Some flattened) (zrange MATRIX_SIZE).

Definition flatten_matrix_col_major (matrix : list (list Z)) (flattened : list Z) : option (list Z) :=
  foldl (fun l j => foldl (fun l i => flatten_step matrix i j (j * MATRIX_SIZE + i) l) l (zrange MATRIX_SIZE))
    (Some flattened) (zrange MATRIX_SIZE).

(** Two adjacent bytes, as signed values, make a 16-bit integer. *)
Definition int16_of (lo hi : Z) : Z := s16 (Z.lor (Z.shiftl hi 8) (Z.land lo 0xFF)).

Definition convert_to_int16_array (input output : list Z) : option (list Z) :=
  foldl (fun o i =>
    match o, zlookup input (i * 2 + 1), zlookup input (i * 2) with
    | Some o, Some hi, Some lo => zupdate o i (fun _ => int16_of lo hi)
    | _, _, _ => None
    end) (Some output) (zrange (MATRIX_SIZE * MATRIX_SIZE)).

(** ** Transfers *)

Section matrix.
Context {Os : Type} `{Posix Os}.

(** The result and the buffer. *)
Definition dev_read (dev_fd addr : Z) (buffer : list Z) (size : Z) : M Os (Z * list Z) :=
  let* rc := sys (sys_lseek dev_fd (s64 addr)) in
  if negb (addr =? u64 rc) then ret (- 1, buffer)
  else
    let* '(rc, data) := sys (sys_read dev_fd size) in
    let* buffer := deref (mem_write buffer 0 (map s8 data)) in
    if negb (size =? u64 rc) then ret (- 1, buffer) else ret (0, buffer).

Definition dev_write (dev_fd addr : Z) (buffer : list Z) (size : Z) : M Os Z :=
  let* rc := sys (sys_lseek dev_fd (s64 addr)) in
  if negb (addr =? u64 rc) then ret (- 1)
  else
    let* data := deref (mem_read buffer 0 size) in
    let* rc := sys (sys_write dev_fd (map u8 data)) in
    if negb (size =? u64 rc) then ret (- 1) else ret 0.

(** The result of [sscanf], and the value. *)
Definition parse_uint (str : string) : Z * option Z :=
  let v :=
    if String.prefix "0x" str then sscanf "%lx" (String.substring 2 (String.length str - 2) str)
    else sscanf "%lu" str in
  (match v with Some _ => 1 | None => 0 end, option_map u64 v).

Definition close_ret {A} (fd : Z) (a : A) : M Os A := sys (sys_close fd) >>; ret a.

Definition write_to_fpga (dev_name : string) (address : Z) (matrix : list Z) : M Os Z :=
  let* dev_fd := sys (sys_open dev_name O_RDWR) in
  if dev_fd <? 0 then ret (- 1)
  else
    let* rv := dev_write dev_fd address matrix (MATRIX_SIZE * MATRIX_SIZE) in
    close_ret dev_fd (if negb (rv =? 0) then - 1 else 0).

Definition read_from_fpga (dev_name : string) (address : Z) (buffer : list Z) : M Os (Z * list Z) :=
  let* dev_fd := sys (sys_open dev_name O_RDWR) in
  if dev_fd <? 0 then ret (- 1, buffer)
  else
    let* '(rv, buffer) := dev_read dev_fd address buffer (2 * MATRIX_SIZE * MATRIX_SIZE) in
    close_ret dev_fd (if negb (rv =? 0) then - 1 else 0, buffer).

(** The result and the buffer. *)
Definition dev_read_mapped (dev_fd addr : Z) (buffer : list Z) (size : Z) : M Os (Z * list Z) :=
  let target := s64 addr in
  let offset := Z.land target (PAGE_SIZE - 1) in
  let target_aligned := Z.land target (Z.lnot (PAGE_SIZE - 1)) in
  let* map := sys (sys_mmap dev_fd target_aligned (offset + size)) in
  if map =? - 1 then ret (- 1, buffer)
  else
    let* data := sys (sys_load (map + offset) size) in
    let* buffer := deref (mem_write buffer 0 data) in
    let* rc := sys (sys_munmap map (offset + size)) in
    ret (if rc =? - 1 then - 1 else 0, buffer).

(** ** The program *)

Definition dev_write_name : string := "/dev/xdma0_h2c_0".
Definition dev_read_name : string := "/dev/xdma0_c2h_0".
Definition dev_control_name : string := "/dev/xdma0_user".
Definition addr_matrix1 := 0x00000000.
Definition addr_matrix2 := 0x00002000.
Definition addr_result := 0x00006000.

(** The example data of both matrices. *)
Definition example_matrix : list Z :=
  map (fun i => s8 (s8 (Z.quot i 64) - 32)) (zrange (MATRIX_SIZE * MATRIX_SIZE)).

(** [while (!flag)] *)
Fixpoint wait_flag (fuel : nat) (dev_fd : Z) (flag : list Z) : M Os unit :=
  match flag with
  | b :: _ =>
      if negb (b =? 0) then ret tt
      else
        match fuel with
        | O => ub
        | S fuel =>
            let* '(_, flag) := dev_read_mapped dev_fd FLAG_ADDR flag 1 in
            wait_flag fuel dev_fd flag
        end
  | [] => ub
  end.

(** From the start of the computation on; the result and the product. *)
Definition compute (fuel : nat) (result final_result : list Z) : M Os (Z * list Z) :=
  let* dev_fd := sys (sys_open dev_control_name O_RDWR) in
  if dev_fd <? 0 then close_ret dev_fd (- 1, final_result)
  else
    dev_read_mapped dev_fd START_ADDR [0] 1 >>;
    wait_flag fuel dev_fd [0] >>;
    sys (sys_close dev_fd) >>;
    let* dev_fd := sys (sys_open dev_read_name O_RDWR) in
    if dev_fd <? 0 then close_ret dev_fd (- 1, final_result)
    else
      let* '(rv, result) := read_from_fpga dev_read_name addr_result result in
      if negb (rv =? 0) then close_ret dev_fd (- 1, final_result)
      else
        let* final_result := deref (convert_to_int16_array result final_result) in
        close_ret dev_fd (0, final_result).

(** [result] and [final_result] are what the arrays hold at the start. *)
Definition main (fuel : nat) (result final_result : list Z) : M Os (Z * list Z) :=
  let* dev_fd := sys (sys_open dev_write_name O_RDWR) in
  if dev_fd <? 0 then ret (- 1, final_result)
  else
    let* rv := write_to_fpga dev_write_name addr_matrix1 example_matrix in
    if negb (rv =? 0) then close_ret dev_fd (- 1, final_result)
    else
      let* rv := write_to_fpga dev_write_name addr_matrix2 example_matrix in
      if negb (rv =? 0) then close_ret dev_fd (- 1, final_result)
      else sys (sys_close dev_fd) >>; compute fuel result final_result.
End matrix.

(** ** The same product on the host: [Final/compare2.c] *)

(** [C[i][j] += A[i][k] * B[k][j]], in 16 bits. *)
Definition multiply_step (A B : list (list Z)) (i j : Z) (acc : option Z) (k : Z) : option Z :=
  match acc, matrix_get A i k, matrix_get B k j with
  | Some c, Some a, Some b => Some (s16 (c + a * b))
  | _, _, _ => None
  end.

Definition multiply_entry (A B : list (list Z)) (i j : Z) : option Z :=
  foldl (multiply_step A B i j) (Some 0) (zrange MATRIX_SIZE).

(** [C[i][j] = v] *)
Definition matrix_set (C : list (list Z)) (i j v : Z) : option (list (list Z)) :=
  match zlookup C i with
  | Some row => match zupdate row j (fun _ => v) with
                | Some row => zupdate C i (fun _ => row)
                | None => None
                end
  | None => None
  end.

Definition matrix_multiply (A B C : list (list Z)) : option (list (list Z)) :=
  foldl (fun C i => foldl (fun C j =>
      match C, multiply_entry A B i j with
      | Some C, Some v => matrix_set C i j v
      | _, _ => None
      end) C (zrange MATRIX_SIZE))
    (Some C) (zrange MATRIX_SIZE).

(** [A[i][j] = (int)(i / 2) - 32] for every entry. *)
Definition compare2_fill (A : list (list Z)) : option (list (list Z)) :=
  foldl (fun A i => foldl (fun A j =>
      match A with
      | Some A => matrix_set A i j (s8 (Z.quot i 2 - 32))
      | None => None
      end) A (zrange MATRIX_SIZE))
    (Some A) (zrange MATRIX_SIZE).

(** [main] of [compare2.c]: both factors are filled alike; the matrix that it
    prints, from what the arrays hold at the start. *)
Definition compare2_main (A B C : list (list Z)) : option (list (list Z)) :=
  match compare2_fill A, compare2_fill B with
  | Some A, Some B => matrix_multiply A B C
  | _, _ => None
  end.
