(* ===== verification/MatrixProps.v ===== *)
(** * MatrixProps: layouts, conversion and product of the matrices

    The flattened layouts of a matrix, the 16-bit integers of an array of bytes,
    and the product that the host computes for comparison, against definitions
    by entries. *)

From stdpp Require Import strings.
From S2P Require Import Prelude Bytes Posix Matrix.

(** [n] rows of [n] entries. *)
Definition square {A} (n : Z) (m : list (list A)) : Prop :=
  Z.of_nat (length m) = n /\ Forall (fun row => Z.of_nat (length row) = n) m.

(** The matrix, and the array, with the given entries. *)
Definition table {A} (n : Z) (f : Z -> Z -> A) : list (list A) :=
  map (fun i => map (f i) (zrange n)) (zrange n).

(** The entry of the product before it is cut to 16 bits. *)
Definition entry (m : list (list Z)) (i j : Z) : Z := default 0 (matrix_get m i j).
Definition dot (A B : list (list Z)) (i j : Z) : Z :=
  zsum (map (fun k => entry A i k * entry B k j) (zrange MATRIX_SIZE)).

Definition product (A B : list (list Z)) : list (list Z) := table MATRIX_SIZE (fun i j => s16 (dot A B i j)).

Definition within (b : Z) (m : list (list Z)) : Prop := Forall (Forall (fun v => - b <= v <= b)) m.

(** The bytes of 16-bit integers, little end first, as the card stores them. *)
Definition int16_bytes (v : Z) : list Z := [s8 v; s8 (Z.shiftr v 8)].

(** ** Arrays that are filled in order *)

(** The first [c] cells of [l] hold the values of [g], the others those of [l]. *)
Definition filled_to {A} (l : list A) (g : Z -> option A) (c : Z) (o : option (list A)) : Prop :=
  exists l', o = Some l' /\ length l' = length l /\
    forall k, zlookup l' k = if decide (0 <= k < c) then g k else zlookup l k.

Lemma filled_0 {A} (l : list A) g : filled_to l g 0 (Some l).
Proof. exists l. split; [done|]. split; [done|]. intros k. rewrite decide_False by lia. done. Qed.

Lemma filled_step {A} (l l' : list A) g c v :
  filled_to l g c (Some l') -> g c = Some v -> 0 <= c < Z.of_nat (length l) ->
  filled_to l g (c + 1) (zupdate l' c (fun _ => v)).
Proof.
  intros (l1 & [= <-] & Hl & Hk) Hv Hc.
  destruct (zupdate_in l' c (fun _ => v)) as (x & Hx & Hu); [lia|].
  eexists. split; [exact Hu|]. split; [by rewrite length_insert|].
  intros k. rewrite (zlookup_zupdate _ _ _ _ _ Hu). case_decide as Hd; [subst k|].
  - rewrite Hx, decide_True by lia. by rewrite Hv.
  - rewrite Hk. do 2 case_decide; done || lia.
Qed.

Lemma filled_all {A} (l r : list A) g n o :
  filled_to l g n o -> Z.of_nat (length l) = n -> length r = length l ->
  (forall k, 0 <= k < n -> zlookup r k = g k) -> o = Some r.
Proof.
  intros (l' & -> & Hl & Hk) Hn Hr Hg. f_equal. apply zlist_eq; [lia|].
  intros i Hi. rewrite Hk, decide_True by lia. symmetry. apply Hg. lia.
Qed.

(** ** Entries of matrices *)

Lemma square_row {A} n (m : list (list A)) i :
  square n m -> 0 <= i < n -> exists row, zlookup m i = Some row /\ Z.of_nat (length row) = n.
Proof.
  intros [Hl Hr] Hi. destruct (zlookup_in m i) as [row Hrow]; [lia|].
  exists row. split; [done|]. apply zlookup_nat in Hrow as [_ Hrow]. by eapply Forall_lookup_1 in Hr.
Qed.

Lemma square_get n (m : list (list Z)) i j :
  square n m -> 0 <= i < n -> 0 <= j < n -> matrix_get m i j = Some (entry m i j).
Proof.
  intros Hm Hi Hj. unfold entry, matrix_get.
  destruct (square_row n m i Hm Hi) as (row & -> & Hlen).
  destruct (zlookup_in row j) as [v ->]; [lia|done].
Qed.

Lemma table_square {A} n (f : Z -> Z -> A) : 0 <= n -> square n (table n f).
Proof.
  intros Hn. split; [by apply length_map_zrange|]. unfold table. apply Forall_forall. intros row Hr.
  apply list_elem_of_fmap in Hr as (i & -> & _). by apply length_map_zrange.
Qed.

Lemma table_row {A} n (f : Z -> Z -> A) i : 0 <= i < n -> zlookup (table n f) i = Some (map (f i) (zrange n)).
Proof. intros Hi. unfold table. by rewrite zlookup_map, zlookup_zrange. Qed.

Lemma table_get n f i j : 0 <= i < n -> 0 <= j < n -> matrix_get (table n f) i j = Some (f i j).
Proof. intros Hi Hj. unfold matrix_get. by rewrite table_row, zlookup_map, zlookup_zrange. Qed.

Lemma square_ext n (m1 m2 : list (list Z)) :
  square n m1 -> square n m2 ->
  (forall i j, 0 <= i < n -> 0 <= j < n -> matrix_get m1 i j = matrix_get m2 i j) -> m1 = m2.
Proof.
  intros H1 H2 He. pose proof H1 as [L1 _]. pose proof H2 as [L2 _]. apply zlist_eq; [lia|]. intros i Hi.
  destruct (square_row n m1 i H1) as (r1 & E1 & Hr1); [lia|].
  destruct (square_row n m2 i H2) as (r2 & E2 & Hr2); [lia|]. rewrite E1, E2. f_equal.
  apply zlist_eq; [lia|]. intros j Hj. specialize (He i j). unfold matrix_get in He.
  rewrite E1, E2 in He. apply He; lia.
Qed.

(** The rows after each other. *)
Lemma concat_lookup n (m : list (list Z)) k :
  0 < n -> square n m -> 0 <= k < n * n -> zlookup (concat m) k = matrix_get m (k / n) (k `mod` n).
Proof.
  intros Hn [Hl Hr] Hk. rewrite <- Hl in Hk at 1. clear Hl. revert k Hk.
  induction Hr as [|row m Hrow Hr IH]; intros k Hk; [cbn in Hk; lia|].
  cbn [concat]. unfold matrix_get, zlookup in *.
  destruct (Z.ltb_spec k 0); [lia|]. pose proof (Z.mod_pos_bound k n Hn). pose proof (Z.div_mod k n).
  pose proof (Z.div_pos k n). destruct (Z.ltb_spec (k / n) 0); [lia|].
  destruct (Z.lt_ge_cases k n) as [Hlt|Hge].
  - rewrite (Z.div_small k n), (Z.mod_small k n) by lia. cbn.
    destruct (Z.ltb_spec k 0); [lia|]. by rewrite lookup_app_l by lia.
  - specialize (IH (k - n)). destruct (Z.ltb_spec (k - n) 0); [lia|].
    assert (Hdiv : (k - n) / n = k / n - 1).
    { replace (k - n) with (k + (- 1) * n) by lia. rewrite Z.div_add by lia. lia. }
    assert (Hmod : (k - n) `mod` n = k `mod` n).
    { replace (k - n) with (k + (- 1) * n) by lia. by rewrite Z.mod_add by lia. }
    rewrite Hdiv, Hmod in IH. assert (1 <= k / n) by (apply Z.div_le_lower_bound; lia).
    destruct (Z.ltb_spec (k / n - 1) 0); [lia|].
    rewrite lookup_app_r by lia. replace (Z.to_nat k - length row)%nat with (Z.to_nat (k - n)) by lia.
    rewrite IH by (cbn [length] in Hk; lia).
    replace (Z.to_nat (k / n)) with (S (Z.to_nat (k / n - 1))) by lia. done.
Qed.

Lemma length_concat n (m : list (list Z)) : square n m -> Z.of_nat (length (concat m)) = n * n.
Proof.
  intros [Hl Hr]. rewrite <- Hl at 1. clear Hl. induction Hr as [|row m Hrow _ IH]; [done|].
  cbn [concat length]. rewrite length_app. lia.
Qed.

(** ** Layouts *)

Lemma fill_nested {A} (step : Z -> Z -> option (list A) -> option (list A)) (v : Z -> Z -> A) n l :
  0 < n -> n * n <= Z.of_nat (length l) ->
  (forall i j l', 0 <= i < n -> 0 <= j < n -> step i j (Some l') = zupdate l' (i * n + j) (fun _ => v i j)) ->
  filled_to l (fun k => Some (v (k / n) (k `mod` n))) (n * n)
    (foldl (fun o i => foldl (fun o j => step i j o) o (zrange n)) (Some l) (zrange n)).
Proof.
  intros Hn Hl Hstep. set (g := fun k => Some (v (k / n) (k `mod` n))).
  apply (foldl_zrange _ (fun i => filled_to l g (i * n))); [lia|apply filled_0|].
  intros i o Hi Ho. rewrite Z.mul_add_distr_r, Z.mul_1_l.
  apply (foldl_zrange _ (fun j => filled_to l g (i * n + j))); [lia|by rewrite Z.add_0_r|].
  intros j o' Hj Ho'. pose proof Ho' as (l' & -> & _). rewrite Hstep, Z.add_assoc by done.
  apply filled_step; [exact Ho'| |nia]. unfold g.
  rewrite Z.div_add_l, Z.div_small, Z.add_0_r by lia.
  by rewrite (Z.add_comm (i * n)), Z.mod_add, Z.mod_small by lia.
Qed.

(** Outer index [i], inner index [j], the value of the cell [(i, j)] of a table. *)
Lemma flatten_table step (v : Z -> Z -> Z) n l :
  0 < n -> Z.of_nat (length l) = n * n ->
  (forall i j l', 0 <= i < n -> 0 <= j < n -> step i j (Some l') = zupdate l' (i * n + j) (fun _ => v i j)) ->
  foldl (fun o i => foldl (fun o j => step i j o) o (zrange n)) (Some l) (zrange n) =
  Some (concat (table n v)).
Proof.
  intros Hn Hl Hstep. assert (Hs : square n (table n v)) by (apply table_square; lia).
  eapply filled_all; [apply (fill_nested step v n l Hn); [lia|done]|done|..].
  - pose proof (length_concat n _ Hs). lia.
  - intros k Hk. rewrite (concat_lookup n) by done. apply table_get.
    + split; [apply Z.div_pos; lia|apply Z.div_lt_upper_bound; lia].
    + apply Z.mod_pos_bound; lia.
Qed.

Lemma table_entry n m : 0 <= n -> square n m -> table n (entry m) = m.
Proof.
  intros Hn Hm. apply (square_ext n); [by apply table_square|done|].
  intros i j Hi Hj. by rewrite table_get, (square_get n).
Qed.

Definition transpose (m : list (list Z)) : list (list Z) := table MATRIX_SIZE (fun i j => entry m j i).

(** The two layouts of a matrix: the row-major one is the rows one after
    the other, the column-major one the columns, whatever the array held. *)
Theorem flatten_layouts m flattened :
  square MATRIX_SIZE m -> length flattened = 4096%nat ->
  flatten_matrix_row_major m flattened = Some (concat m) /\
  flatten_matrix_col_major m flattened = Some (concat (transpose m)).
Proof.
  intros Hm Hl. split.
  - rewrite <- (table_entry MATRIX_SIZE m) at 2 by done.
    apply (flatten_table (fun i j => flatten_step m i j (i * MATRIX_SIZE + j))); [done|by rewrite Hl|].
    intros i j l' Hi Hj. unfold flatten_step. by rewrite (square_get MATRIX_SIZE).
  - apply (flatten_table (fun j i => flatten_step m i j (j * MATRIX_SIZE + i))); [done|by rewrite Hl|].
    intros j i l' Hj Hi. unfold flatten_step. by rewrite (square_get MATRIX_SIZE).
Qed.

(** ** 16-bit integers *)

Lemma swrap_mod w x : 0 < w -> swrap w x `mod` 2 ^ w = x `mod` 2 ^ w.
Proof.
  intros Hw. unfold swrap. rewrite Zminus_mod_idemp_l. f_equal. lia.
Qed.

Lemma int16_roundtrip v : - 2 ^ 15 <= v < 2 ^ 15 -> int16_of (s8 v) (s8 (Z.shiftr v 8)) = v.
Proof.
  intros Hv. unfold int16_of. rewrite Z.shiftr_div_pow2, Z.shiftl_mul_pow2 by lia.
  assert (Hhi : s8 (v / 2 ^ 8) = v / 2 ^ 8).
  { unfold s8, swrap. rewrite Z.mod_small; [lia|].
    pose proof (Z.div_le_lower_bound v (2 ^ 8) (- 2 ^ 7)). pose proof (Z.div_lt_upper_bound v (2 ^ 8) (2 ^ 7)). lia. }
  assert (Hlo : Z.land (s8 v) 0xFF = v `mod` 2 ^ 8).
  { change 0xFF with (Z.ones 8). rewrite Z.land_ones by lia. by apply swrap_mod. }
  rewrite Hhi, Hlo. pose proof (Z.mod_pos_bound v (2 ^ 8)).
  assert (Hland : Z.land (v / 2 ^ 8 * 2 ^ 8) (v `mod` 2 ^ 8) = 0).
  { apply Z.bits_inj'. intros k Hk. rewrite Z.land_spec, Z.bits_0. destruct (Z.lt_ge_cases k 8).
    - by rewrite Z.mul_pow2_bits_low.
    - rewrite (Z.mod_pow2_bits_high v 8 k) by lia. apply andb_false_r. }
  rewrite <- Z.lxor_lor, <- Z.add_nocarry_lxor by done.
  rewrite Z.mul_comm, <- Z.div_mod by lia. by apply s16_small.
Qed.

Lemma lookup_int16_bytes vs i :
  concat (map int16_bytes vs) !! (i * 2)%nat = s8 <$> vs !! i /\
  concat (map int16_bytes vs) !! (i * 2 + 1)%nat = (fun v => s8 (Z.shiftr v 8)) <$> vs !! i.
Proof. revert i. induction vs as [|v vs IH]; intros [|i]; try done. apply (IH i). Qed.

Lemma zlookup_int16_bytes vs i v :
  zlookup vs i = Some v ->
  zlookup (concat (map int16_bytes vs)) (i * 2) = Some (s8 v) /\
  zlookup (concat (map int16_bytes vs)) (i * 2 + 1) = Some (s8 (Z.shiftr v 8)).
Proof.
  intros [Hi Hv]%zlookup_nat. pose proof (lookup_int16_bytes vs (Z.to_nat i)) as [H1 H2]. rewrite Hv in *.
  unfold zlookup. rewrite !(proj2 (Z.ltb_ge _ 0)) by lia.
  rewrite Z2Nat.inj_add, Z2Nat.inj_mul by lia. by split.
Qed.

Lemma convert_spec vs output :
  length vs = 4096%nat -> length output = 4096%nat -> Forall (fun v => - 2 ^ 15 <= v < 2 ^ 15) vs ->
  convert_to_int16_array (concat (map int16_bytes vs)) output = Some vs.
Proof.
  intros Hl Ho Hr. unfold convert_to_int16_array.
  eapply (filled_all output vs (zlookup vs) (MATRIX_SIZE * MATRIX_SIZE)); [|by rewrite Ho|by rewrite Hl|done].
  apply (foldl_zrange _ (fun c => filled_to output (zlookup vs) c)); [done|apply filled_0|].
  intros i o Hi Hf. change (MATRIX_SIZE * MATRIX_SIZE) with 4096 in Hi.
  destruct (zlookup_in vs i) as [v Hv]; [lia|].
  destruct (zlookup_int16_bytes vs i v Hv) as [-> ->]. pose proof Hf as (l' & -> & _).
  rewrite int16_roundtrip.
  - apply filled_step; [done|done|lia].
  - apply zlookup_nat in Hv as [_ Hv]. by eapply Forall_lookup_1 in Hr.
Qed.

(** An array of 16-bit integers, stored as bytes with the little end
    first, is what [convert_to_int16_array] makes of these bytes. *)
Theorem convert_int16_roundtrip vs output :
  length vs = 4096%nat -> length output = 4096%nat -> Forall (fun v => - 2 ^ 15 <= v < 2 ^ 15) vs ->
  convert_to_int16_array (concat (map int16_bytes vs)) output = Some vs.
Proof. apply convert_spec. Qed.

(** ** The product on the host *)

Lemma s16_add_l x y : s16 (s16 x + y) = s16 (x + y).
Proof.
  unfold s16, swrap. f_equal.
  replace ((x + 2 ^ (16 - 1)) `mod` 2 ^ 16 - 2 ^ (16 - 1) + y + 2 ^ (16 - 1))
    with ((x + 2 ^ (16 - 1)) `mod` 2 ^ 16 + y) by lia.
  rewrite Zplus_mod_idemp_l. f_equal. lia.
Qed.

Lemma multiply_entry_spec A B i j :
  square MATRIX_SIZE A -> square MATRIX_SIZE B -> 0 <= i < MATRIX_SIZE -> 0 <= j < MATRIX_SIZE ->
  multiply_entry A B i j = Some (s16 (dot A B i j)).
Proof.
  intros HA HB Hi Hj. unfold multiply_entry, dot.
  apply (foldl_zrange _ (fun n o => o = Some (s16 (zsum (map (fun k => entry A i k * entry B k j) (zrange n)))))); [done..|].
  intros k o Hk ->. unfold multiply_step.
  rewrite (square_get MATRIX_SIZE A i k), (square_get MATRIX_SIZE B k j) by done.
  rewrite s16_add_l, zrange_S, map_app, zsum_app by lia. do 2 f_equal. cbn. lia.
Qed.

Lemma matrix_set_row C i j v row :
  zlookup C i = Some row -> matrix_set C i j v =
  match zupdate row j (fun _ => v) with Some row' => zupdate C i (fun _ => row') | None => None end.
Proof. intros Hr. unfold matrix_set. by rewrite Hr. Qed.

Lemma zupdate_twice {A} (l l1 : list A) i x y :
  zupdate l i (fun _ => x) = Some l1 ->
  zlookup l1 i = Some x /\ zupdate l1 i (fun _ => y) = zupdate l i (fun _ => y).
Proof.
  intros Hu. pose proof (zlookup_zupdate _ _ _ i _ Hu) as Hl. rewrite decide_True in Hl by done.
  unfold zupdate in *. destruct (zlookup l i) as [z|]; [|done]. injection Hu as <-. cbn in Hl.
  rewrite Hl. split; [done|]. by rewrite list_insert_insert_eq.
Qed.

(** Nested loops that set every entry of a matrix to [g i j]. *)
Section set_entries.
Variables (step : option (list (list Z)) -> Z -> Z -> option (list (list Z))) (g : Z -> Z -> Z).
Hypothesis step_set : forall C i j, 0 <= i < MATRIX_SIZE -> 0 <= j < MATRIX_SIZE ->
  step (Some C) i j = matrix_set C i j (g i j).

(** One row. *)
Lemma set_row C i row :
  0 <= i < MATRIX_SIZE -> zlookup C i = Some row -> Z.of_nat (length row) = MATRIX_SIZE ->
  foldl (fun C j => step C i j) (Some C) (zrange MATRIX_SIZE) = zupdate C i (fun _ => map (g i) (zrange MATRIX_SIZE)).
Proof using step_set.
  intros Hi Hrow Hlen. set (gi := fun j => Some (g i j)).
  match goal with |- ?o = _ =>
    assert (exists r, filled_to row gi MATRIX_SIZE (Some r) /\ o = zupdate C i (fun _ => r)) as (r & Hr & ->)
  end.
  - apply (foldl_zrange _ (fun n o => exists r, filled_to row gi n (Some r) /\ o = zupdate C i (fun _ => r))); [done|..].
    + exists row. split; [apply filled_0|]. unfold zupdate. rewrite Hrow. f_equal. symmetry. apply list_insert_id.
      by apply zlookup_nat in Hrow as [_ ?].
    + intros j o Hj (r & Hr & ->).
      pose proof (filled_step _ _ _ _ _ Hr (eq_refl : gi j = Some (g i j))) as Hs.
      destruct Hs as (r' & Hu & Hs); [lia|]. exists r'. split; [by exists r'|].
      destruct (zupdate_in C i (fun _ => r)) as (x & Hx & HuC); [apply zlookup_is_Some; eauto|]. rewrite HuC.
      rewrite step_set by done.
      destruct (zupdate_twice _ _ _ _ r' HuC) as [Hl Ht]. by rewrite (matrix_set_row _ _ _ _ r), Hu, Ht.
  - assert (Some r = Some (map (g i) (zrange MATRIX_SIZE))) as [= ->]; [|done].
    eapply filled_all; [exact Hr|done|..].
    + pose proof (length_map_zrange (g i) MATRIX_SIZE). lia.
    + intros k Hk. by rewrite zlookup_map, zlookup_zrange.
Qed.

(** The whole matrix. *)
Lemma set_table C :
  square MATRIX_SIZE C ->
  foldl (fun C i => foldl (fun C j => step C i j) C (zrange MATRIX_SIZE)) (Some C) (zrange MATRIX_SIZE) =
  Some (table MATRIX_SIZE g).
Proof using step_set.
  intros HC. set (gr := fun i => Some (map (g i) (zrange MATRIX_SIZE))).
  eapply (filled_all C _ gr MATRIX_SIZE).
  - apply (foldl_zrange _ (fun n o => filled_to C gr n o)); [done|apply filled_0|].
    intros i o Hi Hf. pose proof Hf as (C' & -> & Hl & Hk).
    destruct (square_row _ _ i HC Hi) as (row & Hrow & Hlen).
    rewrite (set_row C' i row); [|done|rewrite Hk, decide_False by lia; done|done].
    apply filled_step; [done|done|]. by destruct HC as [-> _].
  - apply HC.
  - destruct HC as [HC _]. pose proof (table_square MATRIX_SIZE g) as [Hp _]; [done|]. lia.
  - intros k Hk. by rewrite table_row.
Qed.
End set_entries.

Lemma matrix_multiply_product A B C :
  square MATRIX_SIZE A -> square MATRIX_SIZE B -> square MATRIX_SIZE C ->
  matrix_multiply A B C = Some (product A B).
Proof.
  intros HA HB HC. apply (set_table (fun C i j => match C, multiply_entry A B i j with
    | Some C, Some v => matrix_set C i j v | _, _ => None end)); [|done].
  intros C' i j Hi Hj. by rewrite multiply_entry_spec.
Qed.

(** ** Exact products *)

Definition exact_product (A B : list (list Z)) : list (list Z) := table MATRIX_SIZE (dot A B).

Lemma entry_within b m i j : 0 <= b -> within b m -> - b <= entry m i j <= b.
Proof.
  intros Hb Hw. unfold entry, matrix_get.
  destruct (zlookup m i) as [row|] eqn:Hrow; [|cbn; lia]. apply zlookup_nat in Hrow as [_ Hrow].
  destruct (zlookup row j) as [v|] eqn:Hv; [|cbn; lia]. apply zlookup_nat in Hv as [_ Hv].
  eapply Forall_lookup_1 in Hw; [|exact Hrow]. by eapply Forall_lookup_1 in Hw.
Qed.

Lemma zsum_bound l b : Forall (fun v => - b <= v <= b) l -> Z.abs (zsum l) <= Z.of_nat (length l) * b.
Proof. induction 1 as [|v l Hv _ IH]; unfold zsum in *; cbn [foldr length]; [done|]. lia. Qed.

Lemma dot_bound p q A B i j :
  0 <= p -> 0 <= q -> within p A -> within q B -> Z.abs (dot A B i j) <= MATRIX_SIZE * (p * q).
Proof.
  intros Hp Hq HA HB. unfold dot. etrans; [apply (zsum_bound _ (p * q))|].
  - apply Forall_forall. intros v (k & -> & _)%list_elem_of_fmap.
    pose proof (entry_within p A i k Hp HA). pose proof (entry_within q B k j Hq HB). nia.
  - rewrite length_map_zrange by done. done.
Qed.

(** C38: [matrix_multiply] computes the product with entries of 16 bits; the
    entries are exact when the sizes [p], [q] of the entries of the factors
    satisfy [64 * p * q < 2^15]. *)
Theorem matrix_multiply_spec A B C p q :
  square MATRIX_SIZE A -> square MATRIX_SIZE B -> square MATRIX_SIZE C ->
  0 <= p -> 0 <= q -> within p A -> within q B ->
  matrix_multiply A B C = Some (product A B) /\
  (MATRIX_SIZE * (p * q) < 2 ^ 15 -> product A B = exact_product A B).
Proof.
  intros HA HB HC Hp Hq HpA HqB. split; [by apply matrix_multiply_product|]. intros Hlt.
  unfold product, exact_product. apply (square_ext MATRIX_SIZE); [by apply table_square..|].
  intros i j Hi Hj. rewrite !table_get by done. f_equal. apply s16_small.
  pose proof (dot_bound p q A B i j Hp Hq HpA HqB). lia.
Qed.

(** ** The program [compare2] *)

(** The rows of its factors, and of its result. *)
Definition half_row (i : Z) : Z := Z.quot i 2 - 32.
Definition compare2_factor : list (list Z) := table MATRIX_SIZE (fun i _ => half_row i).

Lemma compare2_fill_table A : square MATRIX_SIZE A -> compare2_fill A = Some compare2_factor.
Proof.
  apply (set_table (fun A i j => match A with Some A => matrix_set A i j (s8 (half_row i)) | None => None end)).
  intros C i j Hi _. f_equal. unfold half_row, MATRIX_SIZE in *. rewrite Z.quot_div_nonneg by lia.
  pose proof (Z.div_pos i 2 ltac:(lia) ltac:(lia)). pose proof (Z.div_lt_upper_bound i 2 32 ltac:(lia) ltac:(lia)).
  unfold s8, swrap. rewrite Z.mod_small; lia.
Qed.

Lemma compare2_dot i j :
  0 <= i < MATRIX_SIZE -> 0 <= j < MATRIX_SIZE -> dot compare2_factor compare2_factor i j = - 1056 * half_row i.
Proof.
  intros Hi Hj. unfold dot. rewrite (map_ext_in _ (fun k => half_row i * half_row k)).
  - change (-1056) with (zsum (map half_row (zrange MATRIX_SIZE))).
    induction (zrange MATRIX_SIZE) as [|k l IH]; [by rewrite Z.mul_0_l|]. unfold zsum in *. cbn. lia.
  - intros k Hk%list_elem_of_In%elem_of_zrange. unfold entry, compare2_factor. by rewrite !(table_get MATRIX_SIZE) by done.
Qed.

(** The program computes the product of its factors cut to 16 bits: right from
    row 2 on, and wrong in rows 0 and 1, whose entries are 33792. *)
Lemma compare2_main_result A B C :
  square MATRIX_SIZE A -> square MATRIX_SIZE B -> square MATRIX_SIZE C ->
  exists P, compare2_main A B C = Some P /\
    forall i j, 0 <= i < MATRIX_SIZE -> 0 <= j < MATRIX_SIZE ->
      matrix_get P i j = Some (if i <? 2 then - 31744 else dot compare2_factor compare2_factor i j).
Proof.
  intros HA HB HC. unfold compare2_main. rewrite !compare2_fill_table by done.
  assert (square MATRIX_SIZE compare2_factor) as HF by (by apply table_square).
  rewrite matrix_multiply_product by done. eexists. split; [done|]. intros i j Hi Hj.
  unfold product. rewrite table_get by done. rewrite compare2_dot by done. f_equal.
  unfold half_row, MATRIX_SIZE in *. rewrite Z.quot_div_nonneg by lia.
  destruct (Z.ltb_spec i 2).
  - rewrite (Z.div_small i 2) by lia. reflexivity.
  - apply s16_small. pose proof (Z.div_le_lower_bound i 2 1 ltac:(lia) ltac:(lia)).
    pose proof (Z.div_lt_upper_bound i 2 32 ltac:(lia) ltac:(lia)). lia.
Qed.

(** ** Witnesses *)

Definition rows_of (f : Z -> Z) : list (list Z) := table MATRIX_SIZE (fun i _ => f i).

Lemma rows_square f : square MATRIX_SIZE (rows_of f).
Proof. by apply table_square. Qed.

Lemma rows_within f b : (forall i, 0 <= i < MATRIX_SIZE -> - b <= f i <= b) -> within b (rows_of f).
Proof.
  intros Hf. apply Forall_forall. intros row (i & -> & Hi%elem_of_zrange)%list_elem_of_fmap.
  apply Forall_forall. intros v (j & -> & _)%list_elem_of_fmap. by apply Hf.
Qed.

Lemma flatten_layouts_witness :
  let m := rows_of (fun i => i - 32) in
  flatten_matrix_row_major m (replicate 4096 0) = Some (concat m) /\
  flatten_matrix_col_major m (replicate 4096 0) = Some (concat (transpose m)).
Proof. apply flatten_layouts; [apply rows_square|apply length_replicate]. Defined.

Lemma convert_int16_roundtrip_witness :
  convert_to_int16_array (concat (map int16_bytes (replicate 4096 (- 1000)))) (replicate 4096 0) =
  Some (replicate 4096 (- 1000)).
Proof.
  apply convert_int16_roundtrip; [apply length_replicate..|]. by apply Forall_replicate.
Defined.

(** With entries of at most 22 the product is exact. *)
Lemma matrix_multiply_spec_witness :
  let A := rows_of (fun i => i `mod` 22) in let C := rows_of (fun _ => 7) in
  matrix_multiply A A C = Some (product A A) /\
  (MATRIX_SIZE * (22 * 22) < 2 ^ 15 -> product A A = exact_product A A).
Proof.
  apply matrix_multiply_spec; [apply rows_square..|lia|lia|apply rows_within|apply rows_within];
    intros i Hi; pose proof (Z.mod_pos_bound i 22); lia.
Defined.

(** Entries of -128 overflow to 0. *)
Example product_overflow :
  multiply_entry (rows_of (fun _ => - 128)) (rows_of (fun _ => - 128)) 0 0 = Some 0 /\
  dot (rows_of (fun _ => - 128)) (rows_of (fun _ => - 128)) 0 0 = 1048576.
Proof. by vm_compute. Qed.
