(* ===== verification/Card.v ===== *)
(** * Card: the program on the accelerator card

    The registers and memories that the program sees ([FPGA/RTL/src/xdma_app.v]:
    address bits 14 and 13 select the memory of A, B or C;
    [FPGA/RTL/src/Usr_control.v]: reading the start register starts an idle card,
    the status register reads 2 when the product is ready) behind the three device
    files, as an instance of the system interface.  The product is a parameter:
    a function from the memories of A and B to that of C that takes [delay] reads
    of a register.  The theorem is about [main] of [matrix_top2.c]. *)

From stdpp Require Import strings.
From S2P Require Import Prelude Bytes Posix Matrix MatrixProps.

(** The device files that the driver makes: the memories are written through the
    first one and read through the second one, the registers are behind the third. *)
Inductive node := H2C | C2H | User.

#[export] Instance node_eq_dec : EqDecision node.
Proof. solve_decision. Defined.

Definition node_of (path : string) : option node :=
  if String.eqb path "/dev/xdma0_h2c_0" then Some H2C
  else if String.eqb path "/dev/xdma0_c2h_0" then Some C2H
  else if String.eqb path "/dev/xdma0_user" then Some User
  else None.

Record card := mk_card {
  c_a : list Z; c_b : list Z; c_c : list Z;     (** the memories *)
  c_left : option nat;                           (** reads until the product is ready *)
  c_finish : bool; c_process : bool;             (** [finish_reg], [process] *)
  c_files : gmap Z (node * Z);                   (** the open descriptors: the node and the position *)
  c_next : Z                                     (** the next descriptor *)
}.

Definition BRAM_SIZE := 8192.
Definition MAP_BASE := 2 ^ 40.

Section card.
Variable (multiply : list Z -> list Z -> list Z) (delay : nat).
(** What the bus carries at an address without a strobe. *)
Variable idle : Z -> Z.

(** A read of [n] bytes inside of one memory. *)
Definition card_get (pos n : Z) (c : card) : option (list Z) :=
  let bank := (pos / BRAM_SIZE) `mod` 4 in
  if bank =? 2 then None
  else mem_read (if bank =? 0 then c_a c else if bank =? 1 then c_b c else c_c c) (pos `mod` BRAM_SIZE) n.

(** The part of a write that reaches a memory.  The write enable of a memory is
    one net, connected to the strobe of the first byte of a 64-bit word: a word
    whose first byte is not written is left as it is, any other word is written
    as a whole. *)
Definition word_start (pos : Z) : Z := pos + (- pos) `mod` 8.
Definition word_data (pos : Z) (data : list Z) : list Z :=
  let d := drop (Z.to_nat (word_start pos - pos)) data in
  let len := Z.of_nat (length d) in
  d ++ map (fun i => idle (word_start pos + len + i)) (zrange ((- len) `mod` 8)).

Definition card_put (pos : Z) (data : list Z) (c : card) : option card :=
  let bank := (pos / BRAM_SIZE) `mod` 4 in
  let put m := mem_write m (word_start (pos `mod` BRAM_SIZE)) (word_data (pos `mod` BRAM_SIZE) data) in
  if bank =? 0 then
    (fun m => mk_card m (c_b c) (c_c c) (c_left c) (c_finish c) (c_process c) (c_files c) (c_next c)) <$> put (c_a c)
  else if bank =? 1 then
    (fun m => mk_card (c_a c) m (c_c c) (c_left c) (c_finish c) (c_process c) (c_files c) (c_next c)) <$> put (c_b c)
  else if bank =? 3 then
    (fun m => mk_card (c_a c) (c_b c) m (c_left c) (c_finish c) (c_process c) (c_files c) (c_next c)) <$> put (c_c c)
  else Some c.

Definition card_files (f : gmap Z (node * Z) -> gmap Z (node * Z)) (c : card) : card :=
  mk_card (c_a c) (c_b c) (c_c c) (c_left c) (c_finish c) (c_process c) (f (c_files c)) (c_next c).

(** The time that passes during the read of a register. *)
Definition card_tick (c : card) : card :=
  match c_left c with
  | Some O => mk_card (c_a c) (c_b c) (multiply (c_a c) (c_b c)) None true (c_process c) (c_files c) (c_next c)
  | Some (S n) => mk_card (c_a c) (c_b c) (c_c c) (Some n) (c_finish c) (c_process c) (c_files c) (c_next c)
  | None => c
  end.

(** The read of a register: bits 13 and 12 of the address select it. *)
Definition card_reg (addr : Z) (c : card) : Z * card :=
  let sel := (addr / 4096) `mod` 4 in
  if sel =? 2 then
    if c_finish c
    then (2, mk_card (c_a c) (c_b c) (c_c c) (c_left c) (c_finish c) false (c_files c) (c_next c))
    else (0, c)
  else if sel =? 1 then
    (1, if c_process c then c
        else mk_card (c_a c) (c_b c) (c_c c) (Some delay) false true (c_files c) (c_next c))
  else (0, c).

(** The system calls on the three nodes.  [char_sgdma_read_write] refuses a
    transfer against the direction of its node; only the register node can be
    mapped, and it has no [llseek].  Its plain reads and writes, which no program
    here makes, are errors. *)
#[export] Instance card_posix : Posix card := {
  sys_open path _ c :=
    match node_of path with
    | Some n => (c_next c, mk_card (c_a c) (c_b c) (c_c c) (c_left c) (c_finish c) (c_process c)
                      (<[c_next c := (n, 0)]> (c_files c)) (c_next c + 1))
    | None => (- 1, c)
    end;
  sys_close fd c := match c_files c !! fd with Some _ => (0, card_files (delete fd) c) | None => (- 1, c) end;
  sys_lseek fd off c :=
    match c_files c !! fd with
    | Some (User, _) | None => (- 1, c)
    | Some (n, _) => (off, card_files (<[fd := (n, off)]>) c)
    end;
  sys_read fd n c :=
    match c_files c !! fd with
    | Some (C2H, pos) => match card_get pos n c with
                  | Some data => ((n, data), card_files (<[fd := (C2H, pos + n)]>) c)
                  | None => ((- 1, []), c)
                  end
    | _ => ((- 1, []), c)
    end;
  sys_write fd data c :=
    match c_files c !! fd with
    | Some (H2C, pos) => match card_put pos data c with
                  | Some c => (Z.of_nat (length data), card_files (<[fd := (H2C, pos + Z.of_nat (length data))]>) c)
                  | None => (- 1, c)
                  end
    | _ => (- 1, c)
    end;
  sys_aperture _ _ _ _ buf c := ((- 1, 0, 0, buf), c);
  sys_clock c := ((0, 0), c);
  sys_memalign _ c := (4096, c);
  sys_mmap fd off _ c := match c_files c !! fd with Some (User, _) => (MAP_BASE + off, c) | _ => (- 1, c) end;
  sys_munmap _ _ c := (0, c);
  sys_load addr n c :=
    let '(v, c) := card_reg (addr - MAP_BASE) (card_tick c) in (take (Z.to_nat n) (le_bytes 4 v), c);
  sys_store _ _ c := c;
  sscanf _ _ := None
}.

(** A write of whole words. *)
Lemma word_data_whole pos data :
  pos `mod` 8 = 0 -> Z.of_nat (length data) `mod` 8 = 0 -> word_start pos = pos /\ word_data pos data = data.
Proof.
  intros Hp Hl. assert (word_start pos = pos) as Hs by (unfold word_start; rewrite Z.mod_opp_l_z by done; lia).
  split; [done|]. unfold word_data. rewrite Hs, Z.sub_diag, drop_0, Z.mod_opp_l_z by done. apply app_nil_r.
Qed.

(** ** The steps of the program *)

(** The content of the card; descriptors from [c_next] on are free. *)
Record card_is (a b cc : list Z) (left : option nat) (finish process : bool) (c : card) : Prop := {
  ci_a : c_a c = a; ci_b : c_b c = b; ci_c : c_c c = cc;
  ci_left : c_left c = left; ci_finish : c_finish c = finish; ci_process : c_process c = process;
  ci_next : 0 <= c_next c;
  ci_fresh : forall fd, c_next c <= fd -> c_files c !! fd = None
}.

(** Descriptor [fd] is open on the node [n]. *)
Definition opened (n : node) (fd : Z) (c : card) : Prop := exists pos, c_files c !! fd = Some (n, pos).

Lemma wp_card_open path n flags a b cc l f p (Q : Z -> card -> Prop) c :
  node_of path = Some n -> card_is a b cc l f p c ->
  (forall fd c', 0 <= fd -> opened n fd c' -> card_is a b cc l f p c' -> Q fd c') ->
  wp (sys (sys_open path flags)) Q c.
Proof.
  intros Hp [Ha Hb Hc Hl Hf Hpr Hn Hfr] HQ. apply wp_sys. cbn. rewrite Hp. cbn.
  apply HQ; [done| |].
  - unfold opened. cbn. rewrite lookup_insert_eq. by eexists.
  - split; try done; cbn; [lia|]. intros fd Hfd. rewrite lookup_insert_ne by lia. apply Hfr. lia.
Qed.

(** Descriptors come and go without an effect on the rest. *)
Lemma card_is_files g a b cc l f p c :
  card_is a b cc l f p c -> (forall fd, c_files c !! fd = None -> g (c_files c) !! fd = None) ->
  card_is a b cc l f p (card_files g c).
Proof. intros [Ha Hb Hc Hl Hf Hpr Hn Hfr] Hg. split; try done. intros fd Hfd. apply Hg, Hfr, Hfd. Qed.

Lemma insert_opened n fd x c : opened n fd c -> forall fd', c_files c !! fd' = None -> <[fd:=x]> (c_files c) !! fd' = None.
Proof.
  intros [y Hy] fd' Hn. rewrite lookup_insert_ne; [done|]. intros ->. by rewrite Hy in Hn.
Qed.

Lemma wp_card_close fd a b cc l f p (Q : Z -> card -> Prop) c :
  card_is a b cc l f p c -> (forall rc c', card_is a b cc l f p c' -> Q rc c') ->
  wp (sys (sys_close fd)) Q c.
Proof.
  intros Hc HQ. apply wp_sys. cbn. destruct (c_files c !! fd); [|by apply HQ].
  apply HQ. apply card_is_files; [done|]. intros fd' Hn. by rewrite lookup_delete_None; right.
Qed.

Lemma wp_close_ret {A} fd (r : A) a b cc l f p (Q : A -> card -> Prop) c :
  card_is a b cc l f p c -> (forall c', card_is a b cc l f p c' -> Q r c') -> wp (close_ret fd r) Q c.
Proof. intros Hc HQ. apply wp_bind. eapply wp_card_close; [exact Hc|]. intros rc c' Hc'. by apply wp_ret, HQ. Qed.

Lemma wp_card_lseek n fd off a b cc l f p (Q : Z -> card -> Prop) c :
  opened n fd c -> n <> User -> card_is a b cc l f p c ->
  (forall c', c_files c' !! fd = Some (n, off) -> card_is a b cc l f p c' -> Q off c') ->
  wp (sys (sys_lseek fd off)) Q c.
Proof.
  intros Ho Hu Hc HQ. apply wp_sys. pose proof Ho as [pos Hpos]. cbn. rewrite Hpos.
  destruct n; [..|done]; cbn; (apply HQ; [cbn; by rewrite lookup_insert_eq|]);
    (apply card_is_files; [done|]; by eapply insert_opened).
Qed.

Lemma wp_card_write fd a b cc l f p (Q : Z -> card -> Prop) c addr buffer (second : bool) :
  opened H2C fd c -> card_is a b cc l f p c -> Z.of_nat (length buffer) = 4096 ->
  Z.of_nat (length a) = 8192 -> Z.of_nat (length b) = 8192 -> addr = (if second then 8192 else 0) ->
  (forall c', card_is (if second then a else map u8 buffer ++ drop (Z.to_nat 4096) a)
                      (if second then map u8 buffer ++ drop (Z.to_nat 4096) b else b) cc l f p c' -> Q 0 c') ->
  wp (dev_write fd addr buffer (MATRIX_SIZE * MATRIX_SIZE)) Q c.
Proof.
  intros Ho Hc Hbuf Hla Hlb Haddr HQ. unfold dev_write.
  assert (Hs : s64 addr = addr /\ u64 addr = addr) by (subst addr; by destruct second).
  destruct Hs as [-> Hu]. apply wp_bind. eapply wp_card_lseek; [done|done|exact Hc|]. intros c1 Hpos Hc1.
  rewrite Hu, Z.eqb_refl. cbn [negb]. change (MATRIX_SIZE * MATRIX_SIZE) with 4096.
  apply wp_bind. eapply wp_deref; [apply mem_read_in; lia|].
  change (drop (Z.to_nat 0) buffer) with buffer. rewrite take_ge by lia.
  apply wp_bind, wp_sys. cbn [sys_write card_posix]. rewrite Hpos. unfold card_put.
  assert ((addr / BRAM_SIZE) `mod` 4 = if second then 1 else 0) as -> by (subst addr; by destruct second).
  assert (Hput : forall m, Z.of_nat (length m) = 8192 ->
    mem_write m (word_start (addr `mod` BRAM_SIZE)) (word_data (addr `mod` BRAM_SIZE) (map u8 buffer))
    = Some (map u8 buffer ++ drop (Z.to_nat 4096) m)).
  { intros m Hm. assert (addr `mod` BRAM_SIZE = 0) as -> by (subst addr; by destruct second).
    destruct (word_data_whole 0 (map u8 buffer)) as [-> ->]; [done|by rewrite length_map, Hbuf|].
    rewrite mem_write_in by (rewrite ?length_map; lia). change (take (Z.to_nat 0) m) with (@nil Z).
    cbn [app]. do 3 f_equal. rewrite length_map. lia. }
  destruct Hc1 as [Ha Hb Hcc Hl Hf Hpr Hn Hfr].
  assert (Hfin : forall m1 m2 x, card_is m1 m2 cc l f p
    (card_files (insert fd x) (mk_card m1 m2 (c_c c1) (c_left c1) (c_finish c1) (c_process c1) (c_files c1) (c_next c1)))).
  { intros m1 m2 x. apply (card_is_files (insert fd x)); [by constructor|]. eapply insert_opened. by eexists. }
  clear Hu Hpos. destruct second; cbn [Z.eqb Pos.eqb].
  - rewrite Hb, Hput by done. cbn. rewrite length_map, Ha. rewrite Hbuf. apply wp_ret, HQ, Hfin.
  - rewrite Ha, Hput by done. cbn. rewrite length_map, Hb. rewrite Hbuf. apply wp_ret, HQ, Hfin.
Qed.

Lemma wp_card_read fd a b cc l f p (Q : Z * list Z -> card -> Prop) c buffer :
  opened C2H fd c -> card_is a b cc l f p c -> Z.of_nat (length buffer) = 8192 -> Z.of_nat (length cc) = 8192 ->
  (forall c', card_is a b cc l f p c' -> Q (0, map s8 cc) c') ->
  wp (dev_read fd addr_result buffer (2 * MATRIX_SIZE * MATRIX_SIZE)) Q c.
Proof.
  intros Ho Hc Hbuf Hlc HQ. unfold dev_read. change (2 * MATRIX_SIZE * MATRIX_SIZE) with 8192.
  change (s64 addr_result) with addr_result. apply wp_bind. eapply wp_card_lseek; [done|done|exact Hc|]. intros c1 Hpos Hc1.
  change (negb (addr_result =? u64 addr_result)) with false. cbv iota.
  apply wp_bind, wp_sys. cbn [sys_read card_posix]. rewrite Hpos.
  change (card_get addr_result 8192 c1) with (mem_read (c_c c1) 0 8192).
  rewrite (ci_c _ _ _ _ _ _ _ Hc1), mem_read_in by lia. cbn [fst snd].
  change (drop (Z.to_nat 0) cc) with cc. rewrite (take_ge cc) by lia.
  apply wp_bind. eapply wp_deref.
  { apply mem_write_in; [done|]. rewrite length_map. lia. }
  change (take (Z.to_nat 0) buffer) with (@nil Z). rewrite drop_ge by (rewrite length_map; lia).
  rewrite app_nil_r. cbn. apply wp_ret, HQ. apply card_is_files; [done|]. eapply insert_opened. by eexists.
Qed.

(** The read of a register through a mapping. *)
Lemma wp_card_mapped fd reg flag a b cc l f p (Q : Z * list Z -> card -> Prop) c :
  opened User fd c -> card_is a b cc l f p c -> reg = FLAG_ADDR \/ reg = START_ADDR ->
  (let '(v, c') := card_reg reg (card_tick c) in Q (0, [v]) c') ->
  wp (dev_read_mapped fd reg [flag] 1) Q c.
Proof.
  intros [pos Hpos] Hc Hreg HQ. unfold dev_read_mapped.
  assert (Hr : Z.land (s64 reg) (PAGE_SIZE - 1) = 0 /\ Z.land (s64 reg) (Z.lnot (PAGE_SIZE - 1)) = reg)
    by (destruct Hreg as [-> | ->]; done).
  destruct Hr as [-> ->]. apply wp_bind, wp_sys. cbn [sys_mmap card_posix]. rewrite Hpos. cbn [fst snd].
  assert ((MAP_BASE + reg =? - 1) = false) as -> by (destruct Hreg as [-> | ->]; done).
  apply wp_bind, wp_sys. cbn [sys_load card_posix].
  replace (MAP_BASE + reg + 0 - MAP_BASE) with reg by lia.
  destruct (card_reg reg (card_tick c)) as [v c'] eqn:Ev.
  assert (Hv : take (Z.to_nat 1) (le_bytes 4 v) = [v]).
  { assert (v = 0 \/ v = 1 \/ v = 2) as Hv.
    { unfold card_reg in Ev. repeat case_match; injection Ev as <- _; auto. }
    by destruct Hv as [-> | [-> | ->]]. }
  cbn [fst snd]. rewrite Hv. apply wp_bind. eapply wp_deref; [done|].
  apply wp_bind, wp_sys. cbn. by apply wp_ret.
Qed.

Lemma card_tick_opened n fd c : opened n fd c -> opened n fd (card_tick c).
Proof. unfold opened, card_tick. by repeat case_match. Qed.

Lemma wp_card_wait n fuel fd a b cc (Q : unit -> card -> Prop) c :
  (n < fuel)%nat -> opened User fd c -> card_is a b cc (Some n) false true c ->
  (forall c', card_is a b (multiply a b) None true false c' -> Q tt c') ->
  wp (wait_flag fuel fd [0]) Q c.
Proof.
  revert fuel c. induction n as [|n IH]; intros [|fuel] c Hfuel Ho Hc HQ; try lia.
  - cbn [wait_flag Z.eqb negb]. apply wp_bind. eapply wp_card_mapped; [done|exact Hc|by left|].
    destruct Hc as [Ha Hb Hcc Hl Hf Hpr Hn Hfr].
    unfold card_tick. rewrite Hl. cbn -[FLAG_ADDR]. change ((FLAG_ADDR / 4096) `mod` 4) with 2. cbn.
    destruct fuel; apply wp_ret, HQ; split; cbn; congruence || done.
  - cbn [wait_flag Z.eqb negb]. apply wp_bind. eapply wp_card_mapped; [done|exact Hc|by left|].
    destruct Hc as [Ha Hb Hcc Hl Hf Hpr Hn Hfr].
    unfold card_tick. rewrite Hl. unfold card_reg. change ((FLAG_ADDR / 4096) `mod` 4) with 2. cbn [Z.eqb Pos.eqb c_finish].
    rewrite Hf. apply IH; [lia|done|by split|done].
Qed.

Lemma wp_card_start fd a b cc f (Q : Z * list Z -> card -> Prop) c :
  opened User fd c -> card_is a b cc None f false c ->
  (forall v c', opened User fd c' -> card_is a b cc (Some delay) false true c' -> Q (0, [v]) c') ->
  wp (dev_read_mapped fd START_ADDR [0] 1) Q c.
Proof.
  intros Ho Hc HQ. eapply wp_card_mapped; [done|exact Hc|by right|].
  destruct Hc as [Ha Hb Hcc Hl Hf Hpr Hn Hfr].
  unfold card_tick. rewrite Hl. unfold card_reg. change ((START_ADDR / 4096) `mod` 4) with 1. cbn [Z.eqb Pos.eqb].
  rewrite Hpr. apply HQ; [done|by split].
Qed.

Lemma wp_write_to_fpga a b cc f (Q : Z -> card -> Prop) c addr buffer (second : bool) :
  card_is a b cc None f false c -> Z.of_nat (length buffer) = 4096 ->
  Z.of_nat (length a) = 8192 -> Z.of_nat (length b) = 8192 -> addr = (if second then 8192 else 0) ->
  (forall c', card_is (if second then a else map u8 buffer ++ drop (Z.to_nat 4096) a)
                      (if second then map u8 buffer ++ drop (Z.to_nat 4096) b else b) cc None f false c' -> Q 0 c') ->
  wp (write_to_fpga dev_write_name addr buffer) Q c.
Proof.
  intros Hc Hbuf Hla Hlb Haddr HQ. unfold write_to_fpga. apply wp_bind.
  eapply wp_card_open; [done|exact Hc|]. intros fd c1 Hfd Ho Hc1. rewrite (proj2 (Z.ltb_ge fd 0)) by done.
  apply wp_bind. eapply wp_card_write; [done|exact Hc1|done..|]. intros c2 Hc2.
  eapply wp_close_ret; [exact Hc2|]. apply HQ.
Qed.

Lemma wp_read_from_fpga a b cc f (Q : Z * list Z -> card -> Prop) c buffer :
  card_is a b cc None f false c -> Z.of_nat (length buffer) = 8192 -> Z.of_nat (length cc) = 8192 ->
  (forall c', card_is a b cc None f false c' -> Q (0, map s8 cc) c') ->
  wp (read_from_fpga dev_read_name addr_result buffer) Q c.
Proof.
  intros Hc Hbuf Hlc HQ. unfold read_from_fpga. apply wp_bind.
  eapply wp_card_open; [done|exact Hc|]. intros fd c1 Hfd Ho Hc1. rewrite (proj2 (Z.ltb_ge fd 0)) by done.
  apply wp_bind. eapply wp_card_read; [done|exact Hc1|done..|]. intros c2 Hc2.
  eapply wp_close_ret; [exact Hc2|]. apply HQ.
Qed.

Lemma wp_compute fuel result final a b cc f (Q : Z * list Z -> card -> Prop) c vs :
  card_is a b cc None f false c -> (delay < fuel)%nat -> Z.of_nat (length result) = 8192 ->
  Z.of_nat (length (multiply a b)) = 8192 ->
  convert_to_int16_array (map s8 (multiply a b)) final = Some vs ->
  (forall c', card_is a b (multiply a b) None true false c' -> Q (0, vs) c') ->
  wp (compute fuel result final) Q c.
Proof.
  intros Hc Hfuel Hres Hm Hconv HQ. unfold compute. apply wp_bind.
  eapply wp_card_open; [done|exact Hc|]. intros fd c1 Hfd Ho Hc1. rewrite (proj2 (Z.ltb_ge fd 0)) by done.
  apply wp_bind. eapply wp_card_start; [done|exact Hc1|]. intros v c2 Ho2 Hc2.
  apply wp_bind. eapply wp_card_wait; [done|done|exact Hc2|]. intros c3 Hc3.
  apply wp_bind. eapply wp_card_close; [exact Hc3|]. intros rc c4 Hc4.
  apply wp_bind. eapply wp_card_open; [done|exact Hc4|]. intros fd2 c5 Hfd2 Ho5 Hc5.
  rewrite (proj2 (Z.ltb_ge fd2 0)) by done.
  apply wp_bind. eapply wp_read_from_fpga; [exact Hc5|done..|]. intros c6 Hc6. cbn [negb Z.eqb].
  apply wp_bind. eapply wp_deref; [exact Hconv|]. eapply wp_close_ret; [exact Hc6|]. apply HQ.
Qed.

Definition int8s (m : list (list Z)) : Prop := Forall (Forall (fun v => - 128 <= v < 128)) m.

(** What the card computes: the memory of C holds the product, as 16-bit
    integers, of the matrices at the start of the memories of A and B. *)
Definition multiplies : Prop := forall A B a b,
  square MATRIX_SIZE A -> square MATRIX_SIZE B -> int8s A -> int8s B ->
  take 4096 a = map u8 (concat A) -> take 4096 b = map u8 (concat B) ->
  multiply a b = map u8 (concat (map int16_bytes (concat (product A B)))).

Lemma s8_u8_s8 l : Forall (fun v => s8 v = v) l -> map s8 (map u8 l) = l.
Proof.
  intros Hl. rewrite map_map. induction Hl as [|v l Hv _ IH]; [done|]. cbn. rewrite IH. f_equal.
  rewrite <- Hv at 2. unfold s8, u8, swrap. f_equal. rewrite Zplus_mod_idemp_l. done.
Qed.

Lemma s8_s8 x : s8 (s8 x) = s8 x.
Proof.
  unfold s8, swrap. rewrite Z.sub_add. by rewrite Zmod_mod.
Qed.

Lemma int16_bytes_s8 vs : Forall (fun v => s8 v = v) (concat (map int16_bytes vs)).
Proof. induction vs as [|v vs IH]; [done|]. cbn. repeat constructor; [apply s8_s8..|done]. Qed.

Lemma length_int16_bytes vs : Z.of_nat (length (concat (map int16_bytes vs))) = 2 * Z.of_nat (length vs).
Proof. induction vs as [|v vs IH]; [done|]. cbn [map concat]. rewrite length_app. cbn. lia. Qed.

Lemma product_range A B : Forall (fun v => - 2 ^ 15 <= v < 2 ^ 15) (concat (product A B)).
Proof.
  apply Forall_concat, Forall_forall. intros row (i & -> & _)%list_elem_of_fmap.
  apply Forall_forall. intros v (j & -> & _)%list_elem_of_fmap. unfold s16, swrap.
  pose proof (Z.mod_pos_bound (dot A B i j + 2 ^ (16 - 1)) (2 ^ 16)). lia.
Qed.

(** The matrices of [main], and their product. *)
Definition example_rows : list (list Z) := table MATRIX_SIZE (fun i _ => i - 32).
Definition example_product : list (list Z) := table MATRIX_SIZE (fun i _ => - 32 * (i - 32)).

Lemma s8_small x : - 128 <= x < 128 -> s8 x = x.
Proof. intros Hx. unfold s8, swrap. rewrite Z.mod_small; lia. Qed.

Lemma example_concat : concat example_rows = example_matrix.
Proof.
  assert (Hs : square MATRIX_SIZE example_rows) by (by apply table_square).
  pose proof (length_concat _ _ Hs) as Hl.
  apply zlist_eq; [|intros k; rewrite Hl; intros Hk].
  - unfold example_matrix. rewrite length_map, length_seqZ. change MATRIX_SIZE with 64 in *. lia.
  - rewrite (concat_lookup MATRIX_SIZE) by done. unfold example_matrix. rewrite zlookup_map, zlookup_zrange by done.
    change MATRIX_SIZE with 64 in Hk.
    assert (0 <= k / 64 < 64) by (split; [apply Z.div_pos; lia|apply Z.div_lt_upper_bound; lia]).
    unfold example_rows. rewrite table_get; [|done|by apply Z.mod_pos_bound].
    cbn [fmap option_fmap option_map]. rewrite Z.quot_div_nonneg by lia.
    change MATRIX_SIZE with 64. by rewrite (s8_small (k / 64)), s8_small by lia.
Qed.

Lemma zsum_scale x l : zsum (map (Z.mul x) l) = x * zsum l.
Proof. induction l as [|y l IH]; unfold zsum in *; cbn; [lia|]. rewrite IH. lia. Qed.

Lemma example_dot i j : 0 <= i < MATRIX_SIZE -> 0 <= j < MATRIX_SIZE -> dot example_rows example_rows i j = - 32 * (i - 32).
Proof.
  intros Hi Hj. unfold dot.
  assert (He : map (fun k => entry example_rows i k * entry example_rows k j) (zrange MATRIX_SIZE) =
               map (Z.mul (i - 32)) (map (fun k => k - 32) (zrange MATRIX_SIZE))).
  { rewrite map_map. apply map_ext_in. intros k Hk%list_elem_of_In%elem_of_zrange.
    unfold entry, example_rows. by rewrite !table_get. }
  rewrite He, zsum_scale. change (zsum (map (fun k => k - 32) (zrange MATRIX_SIZE))) with (- 32). lia.
Qed.

Lemma example_multiply : product example_rows example_rows = example_product.
Proof.
  apply (square_ext MATRIX_SIZE); [by apply table_square..|].
  intros i j Hi Hj. unfold product, example_product. rewrite !table_get by done.
  rewrite example_dot by done. f_equal. apply s16_small. change MATRIX_SIZE with 64 in Hi. lia.
Qed.

Lemma example_int8s : int8s example_rows.
Proof.
  apply Forall_forall. intros row (i & -> & Hi%elem_of_zrange)%list_elem_of_fmap.
  apply Forall_forall. intros v (j & -> & _)%list_elem_of_fmap. change MATRIX_SIZE with 64 in Hi. lia.
Qed.

(** C13: [main] on an idle card that computes products, whose memories are
    written and read through their own nodes, in whole words, and whose registers
    are mapped through a third one: the program ends with 0 and the product of its
    two matrices, for every [delay] of the card and whatever its memories, its
    finish flag and the arrays of the program held before; the card is idle again. *)
Theorem accelerator_main fuel result final a b cc finish c :
  multiplies -> card_is a b cc None finish false c ->
  Z.of_nat (length a) = 8192 -> Z.of_nat (length b) = 8192 ->
  Z.of_nat (length result) = 8192 -> Z.of_nat (length final) = 4096 -> (delay < fuel)%nat ->
  exists c', main fuel result final c = Some ((0, concat example_product), c') /\
    c_process c' = false /\ c_left c' = None /\
    c_c c' = map u8 (concat (map int16_bytes (concat example_product))).
Proof.
  intros Hmul Hc Hla Hlb Hres Hfin Hfuel.
  set (m := map u8 example_matrix).
  assert (Hlm : Z.of_nat (length m) = 4096) by (unfold m, example_matrix; rewrite !length_map; done).
  set (a' := m ++ drop (Z.to_nat 4096) a). set (b' := m ++ drop (Z.to_nat 4096) b).
  assert (Hpr : multiply a' b' = map u8 (concat (map int16_bytes (concat example_product)))).
  { rewrite <- example_multiply. assert (square MATRIX_SIZE example_rows) by (by apply table_square).
    assert (Htk : forall x, take 4096 (m ++ x) = map u8 (concat example_rows)).
    { intros x. rewrite example_concat, take_app_length' by lia. done. }
    by apply Hmul; [..|apply Htk|apply Htk]; try apply example_int8s. }
  assert (Hlc : Z.of_nat (length (concat example_product)) = 4096) by (apply (length_concat MATRIX_SIZE), table_square; done).
  assert (Hw : wp (main fuel result final) (fun r c' => r = (0, concat example_product) /\
    card_is a' b' (multiply a' b') None true false c') c).
  2: { apply wp_iff in Hw as (r & c' & Hrun & -> & Hc'). exists c'. split; [done|].
       destruct Hc'. by rewrite <- Hpr. }
  unfold main. apply wp_bind. eapply wp_card_open; [done|exact Hc|]. intros fd c1 Hfd Ho Hc1.
  rewrite (proj2 (Z.ltb_ge fd 0)) by done.
  apply wp_bind. eapply (wp_write_to_fpga _ _ _ _ _ _ _ _ false); [exact Hc1|done..|]. intros c2 Hc2. cbn [negb Z.eqb].
  apply wp_bind. eapply (wp_write_to_fpga _ _ _ _ _ _ _ _ true); [exact Hc2|done| |done|done|].
  { rewrite length_app, length_drop. fold m. lia. }
  intros c3 Hc3. cbn [negb Z.eqb]. apply wp_bind. eapply wp_card_close; [exact Hc3|]. intros rc c4 Hc4.
  fold m in Hc4. fold a' in Hc4. fold b' in Hc4.
  eapply wp_compute; [exact Hc4|done|done|..].
  - rewrite Hpr, length_map, length_int16_bytes. lia.
  - rewrite Hpr, s8_u8_s8 by apply int16_bytes_s8. apply convert_spec; [lia|lia|].
    rewrite <- example_multiply. apply product_range.
  - by intros c' Hc'.
Qed.
End card.

(** ** Witness: a card that multiplies *)

(** The matrix at the start of a memory. *)
Definition unflatten (m : list Z) : list (list Z) :=
  table MATRIX_SIZE (fun i j => default 0 (s8 <$> zlookup (take 4096 m) (i * MATRIX_SIZE + j))).

Definition host_multiply (a b : list Z) : list Z :=
  map u8 (concat (map int16_bytes (concat (product (unflatten a) (unflatten b))))).

Lemma s8_u8_small v : - 128 <= v < 128 -> s8 (u8 v) = v.
Proof.
  intros Hv. unfold s8, u8, swrap. rewrite Zplus_mod_idemp_l, Z.mod_small; lia.
Qed.

Lemma unflatten_concat m A :
  square MATRIX_SIZE A -> int8s A ->
  take 4096 m = map u8 (concat A) -> unflatten m = A.
Proof.
  intros HA Hr Hm. unfold unflatten. rewrite Hm. apply (square_ext MATRIX_SIZE); [by apply table_square|done|].
  intros i j Hi Hj. rewrite table_get, zlookup_map by done.
  rewrite (concat_lookup MATRIX_SIZE) by (done || (change MATRIX_SIZE with 64 in *; lia)).
  rewrite Z.div_add_l, (Z.div_small j), Z.add_0_r by done.
  rewrite (Z.add_comm (i * _)), Z.mod_add, Z.mod_small by done.
  rewrite (square_get MATRIX_SIZE A i j) by done. cbn. f_equal. apply s8_u8_small.
  unfold entry, matrix_get. destruct (square_row _ _ i HA Hi) as (row & Hrow & Hlen). rewrite Hrow.
  destruct (zlookup_in row j) as [v Hv]; [lia|]. rewrite Hv. cbn.
  apply zlookup_nat in Hrow as [_ Hrow], Hv as [_ Hv].
  eapply Forall_lookup_1 in Hr; [|exact Hrow]. by eapply Forall_lookup_1 in Hr.
Qed.

Lemma host_multiplies : multiplies host_multiply.
Proof.
  intros A B a b HA HB H8A H8B Ha Hb. unfold host_multiply.
  by rewrite (unflatten_concat a A), (unflatten_concat b B).
Qed.

Definition demo_card : card :=
  mk_card (replicate (Z.to_nat 8192) 255) (replicate (Z.to_nat 8192) 255) (replicate (Z.to_nat 8192) 255)
    None true false ∅ 3.

Lemma demo_card_is :
  let m := replicate (Z.to_nat 8192) 255 in card_is m m m None true false demo_card.
Proof. by split. Qed.

Lemma length_memory (v : Z) n : 0 <= n -> Z.of_nat (length (replicate (Z.to_nat n) v)) = n.
Proof. intros Hn. rewrite length_replicate. lia. Qed.

Lemma accelerator_main_witness :
  exists c', main (H := card_posix host_multiply 5 (fun _ => 0)) 6 (replicate (Z.to_nat 8192) 0) (replicate (Z.to_nat 4096) 0) demo_card
      = Some ((0, concat example_product), c') /\
    c_process c' = false /\ c_left c' = None /\
    c_c c' = map u8 (concat (map int16_bytes (concat example_product))).
Proof.
  eapply (accelerator_main host_multiply 5 (fun _ => 0)); [apply host_multiplies|apply demo_card_is|by apply length_memory..|lia].
Defined.
