(* ===== verification/Bram.v ===== *)
(** * Bram: the memory tests of the card

    [debugging/test_bram0.c], [test_bram1.c], [test_bram2.c] and
    [test_bram2_readonly.c]: one memory of the card is filled and read back.
    The four programs have copies of the transfer functions of
    [xdma_rw_matrix.c] ([Matrix]); what they print is the result here.  The
    theorem runs them on the card of [Card]. *)

From stdpp Require Import strings.
From S2P Require Import Prelude Bytes Posix Matrix MatrixProps Card.

Section bram.
Context {Os : Type} `{Posix Os}.

(** Here [read_from_fpga] reads one byte per element. *)
Definition read_bytes_from_fpga (dev_name : string) (address : Z) (buffer : list Z) : M Os (Z * list Z) :=
  let* dev_fd := sys (sys_open dev_name O_RDWR) in
  if dev_fd <? 0 then ret (- 1, buffer)
  else
    let* '(rv, buffer) := dev_read dev_fd address buffer (MATRIX_SIZE * MATRIX_SIZE) in
    close_ret dev_fd (if negb (rv =? 0) then - 1 else 0, buffer).

(** [main]: the matrix that is printed, if any; a failed write is only reported. *)
Definition test_bram (address : Z) (fill : Z -> Z) (read_buffer : list Z) : M Os (option (list Z)) :=
  let write_buffer := map fill (zrange (MATRIX_SIZE * MATRIX_SIZE)) in
  write_to_fpga dev_write_name address write_buffer >>;
  let* '(rv, read_buffer) := read_bytes_from_fpga dev_read_name address read_buffer in
  ret (if negb (rv =? 0) then None else Some read_buffer).

Definition test_bram0 : list Z -> M Os (option (list Z)) := test_bram 0x00000000 (fun _ => 1).
Definition test_bram1 : list Z -> M Os (option (list Z)) := test_bram 0x00002000 (fun i => s8 (Z.quot i 64)).
Definition test_bram2 : list Z -> M Os (option (list Z)) := test_bram 0x00006000 (fun i => s8 (Z.quot i 64)).

Definition test_bram2_readonly (read_buffer final : list Z) : M Os (option (list Z)) :=
  let* '(rv, read_buffer) := read_from_fpga dev_read_name 0x00006000 read_buffer in
  if negb (rv =? 0) then ret None
  else let* final := deref (convert_to_int16_array read_buffer final) in ret (Some final).
End bram.

(** ** On the card *)

Section card.
Variable (multiply : list Z -> list Z -> list Z) (delay : nat) (idle : Z -> Z).
Local Instance card_os : Posix card := card_posix multiply delay idle.

(** The three memories have their size, and new descriptors are free. *)
Record card_ok (c : card) : Prop := {
  ck_a : Z.of_nat (length (c_a c)) = BRAM_SIZE;
  ck_b : Z.of_nat (length (c_b c)) = BRAM_SIZE;
  ck_c : Z.of_nat (length (c_c c)) = BRAM_SIZE;
  ck_next : 0 <= c_next c
}.

Lemma card_put_get pos data c :
  card_ok c -> (pos / BRAM_SIZE) `mod` 4 <> 2 -> pos `mod` BRAM_SIZE + Z.of_nat (length data) <= BRAM_SIZE ->
  pos `mod` 8 = 0 -> Z.of_nat (length data) `mod` 8 = 0 ->
  exists c', card_put idle pos data c = Some c' /\ card_ok c' /\ c_files c' = c_files c /\ c_next c' = c_next c /\
    card_get pos (Z.of_nat (length data)) c' = Some data.
Proof.
  intros [Ha Hb Hc Hn] Hbank Hlen H8 Hl8. pose proof (Z.mod_pos_bound pos BRAM_SIZE ltac:(done)) as Hm.
  pose proof (Z.mod_pos_bound (pos / BRAM_SIZE) 4 ltac:(done)) as Hk.
  assert (forall m, Z.of_nat (length m) = BRAM_SIZE ->
    exists m', mem_write m (word_start (pos `mod` BRAM_SIZE)) (word_data idle (pos `mod` BRAM_SIZE) data) = Some m' /\ Z.of_nat (length m') = BRAM_SIZE /\
      mem_read m' (pos `mod` BRAM_SIZE) (Z.of_nat (length data)) = Some data) as Hput.
  { intros m Hl. destruct (word_data_whole idle (pos `mod` BRAM_SIZE) data) as [-> ->]; [|done|].
    { unfold BRAM_SIZE. Z.to_euclidean_division_equations. lia. }
    rewrite mem_write_in by lia. eexists. split; [reflexivity|].
    assert (Z.of_nat (length (take (Z.to_nat (pos `mod` BRAM_SIZE)) m ++ data ++
      drop (Z.to_nat (pos `mod` BRAM_SIZE) + length data) m)) = BRAM_SIZE) as Hl'.
    { rewrite !length_app, length_take, length_drop. lia. }
    split; [exact Hl'|]. rewrite mem_read_in by lia.
    rewrite drop_app_length' by (rewrite length_take; lia). by rewrite take_app_length' by lia. }
  unfold card_put, card_get. destruct (Z.eqb_spec ((pos / BRAM_SIZE) `mod` 4) 2); [done|].
  destruct (Z.eqb_spec ((pos / BRAM_SIZE) `mod` 4) 0); [|destruct (Z.eqb_spec ((pos / BRAM_SIZE) `mod` 4) 1)].
  - destruct (Hput _ Ha) as (m & -> & ? & ?). eexists. split; [reflexivity|]. by repeat split.
  - destruct (Hput _ Hb) as (m & -> & ? & ?). eexists. split; [reflexivity|]. by repeat split.
  - destruct (Z.eqb_spec ((pos / BRAM_SIZE) `mod` 4) 3); [|lia].
    destruct (Hput _ Hc) as (m & -> & ? & ?). eexists. split; [reflexivity|]. by repeat split.
Qed.

(** An address of a 64-bit word where a matrix of bytes fits in one memory. *)
Definition bram_address (address : Z) : Prop :=
  0 <= address < 2 ^ 63 /\ (address / BRAM_SIZE) `mod` 4 <> 2 /\ address `mod` BRAM_SIZE + 4096 <= BRAM_SIZE /\
  address `mod` 8 = 0.

Lemma wp_bram_write address data c (Q : Z -> card -> Prop) :
  bram_address address -> card_ok c -> Z.of_nat (length data) = 4096 ->
  (forall rv c', card_ok c' -> card_get address 4096 c' = Some (map u8 data) -> Q rv c') ->
  wp (write_to_fpga dev_write_name address data) Q c.
Proof.
  intros (Hadr & Hbank & Hfit & H8) Hc Hd HQ. unfold write_to_fpga. apply wp_bind, wp_sys. cbn -[Z.ltb dev_write].
  destruct (Z.ltb_spec (c_next c) 0); [destruct Hc; lia|]. apply wp_bind. unfold dev_write.
  assert (s64 address = address /\ u64 address = address) as [-> Eu] by (rewrite s64_small, u64_small; lia).
  apply wp_bind, wp_sys. cbn [sys_lseek card_os card_posix c_files]. rewrite lookup_insert_eq. cbn [fst snd].
  rewrite Eu, Z.eqb_refl. cbn [negb]. change (MATRIX_SIZE * MATRIX_SIZE) with 4096.
  apply wp_bind. eapply wp_deref; [apply mem_read_in; lia|]. rewrite drop_0, take_ge by lia.
  apply wp_bind, wp_sys. cbn [sys_write card_os card_posix card_files c_files]. rewrite lookup_insert_eq.
  match goal with |- context [card_put _ _ _ ?c1] => edestruct (card_put_get address (map u8 data) c1) as (c2 & -> & Hc2 & _ & _ & Hget) end.
  { destruct Hc. by split; cbn; lia || done. } { done. } { rewrite length_map. lia. } { done. } { by rewrite length_map, Hd. }
  rewrite length_map in Hget |- *. rewrite Hd in Hget |- *. cbn [fst snd]. apply wp_ret. cbn [negb Z.eqb].
  apply wp_bind, wp_sys. cbn [sys_close card_os card_posix]. case_match; cbn [fst snd]; apply wp_ret, HQ; try done; by destruct Hc2.
Qed.

Lemma wp_bram_read address data buffer c (Q : Z * list Z -> card -> Prop) :
  bram_address address -> card_ok c -> Z.of_nat (length buffer) = 4096 -> length data = length buffer ->
  card_get address 4096 c = Some data -> (forall c', Q (0, map s8 data) c') ->
  wp (read_bytes_from_fpga dev_read_name address buffer) Q c.
Proof.
  intros (Hadr & Hbank & Hfit & H8) Hc Hb Hd Hget HQ. unfold read_bytes_from_fpga. apply wp_bind, wp_sys. cbn -[Z.ltb dev_read].
  destruct (Z.ltb_spec (c_next c) 0); [destruct Hc; lia|]. apply wp_bind. unfold dev_read.
  assert (s64 address = address /\ u64 address = address) as [-> Eu] by (rewrite s64_small, u64_small; lia).
  apply wp_bind, wp_sys. cbn [sys_lseek card_os card_posix c_files]. rewrite lookup_insert_eq. cbn [fst snd].
  rewrite Eu, Z.eqb_refl. cbn [negb]. change (MATRIX_SIZE * MATRIX_SIZE) with 4096.
  apply wp_bind, wp_sys. cbn [sys_read card_os card_posix card_files c_files]. rewrite lookup_insert_eq.
  match goal with |- context [card_get address 4096 ?c1] => change (card_get address 4096 c1) with (card_get address 4096 c) end.
  rewrite Hget. cbn [fst snd]. apply wp_bind. eapply wp_deref; [apply mem_write_in; [done|rewrite length_map; lia]|].
  change (negb (4096 =? u64 4096)) with false. cbv iota. apply wp_ret. cbn [negb Z.eqb].
  rewrite drop_ge by (rewrite length_map; lia). rewrite app_nil_r.
  apply wp_bind, wp_sys. cbn [sys_close card_os card_posix]. case_match; cbn [fst snd]; apply wp_ret, HQ.
Qed.

(** C39: a memory test on the card, at any address of a 64-bit word where the
    matrix fits in one of the three memories, which are written and read through
    their own nodes: whatever the memories held, the program prints the
    matrix that it wrote. *)
Theorem test_bram_shows address fill buffer c :
  bram_address address -> card_ok c -> Z.of_nat (length buffer) = 4096 ->
  (forall i, 0 <= i < 4096 -> - 128 <= fill i < 128) ->
  exists c', test_bram address fill buffer c = Some (Some (map fill (zrange 4096)), c').
Proof.
  intros Ha Hc Hb Hf.
  assert (wp (test_bram address fill buffer) (fun r _ => r = Some (map fill (zrange 4096))) c) as Hwp.
  { unfold test_bram. change (MATRIX_SIZE * MATRIX_SIZE) with 4096.
    apply wp_bind, wp_bram_write; [done|done|by rewrite length_map_zrange|]. intros rv c1 Hc1 Hget.
    apply wp_bind. eapply wp_bram_read; [done|exact Hc1|done| |exact Hget|].
    { rewrite length_map. pose proof (length_map_zrange fill 4096 ltac:(done)). lia. }
    intros c2. cbn [negb Z.eqb]. apply wp_ret. f_equal. rewrite !map_map. apply map_ext_in.
    intros i Hi%list_elem_of_In%elem_of_zrange. apply s8_u8_small, Hf, Hi. }
  apply wp_iff in Hwp as (r & c' & Hrun & ->). by exists c'.
Qed.
End card.

(** The three programs, on a card that holds [255] everywhere. *)
Lemma demo_card_ok : card_ok demo_card.
Proof. by repeat split. Qed.

Lemma test_bram_shows_witness :
  exists c', test_bram (H := card_posix host_multiply 5 (fun _ => 0)) 0x00006000 (fun i => s8 (Z.quot i 64))
      (replicate (Z.to_nat 4096) 0) demo_card = Some (Some (map (fun i => s8 (Z.quot i 64)) (zrange 4096)), c').
Proof.
  apply (test_bram_shows host_multiply 5 (fun _ => 0)); [done|apply demo_card_ok|by apply length_memory|].
  intros i Hi. rewrite Z.quot_div_nonneg by lia.
  assert (0 <= i / 64 < 64) by (split; [apply Z.div_pos; lia|apply Z.div_lt_upper_bound; lia]).
  rewrite s8_small; lia.
Defined.

(** At an address inside of a word the memory keeps that word, and what is
    printed is not what was written. *)
Example test_bram_unaligned :
  option_map (fun r => option_map (take 6) r.1)
    (test_bram (H := card_posix host_multiply 5 (fun _ => 0)) 4 (fun _ => 1) (replicate (Z.to_nat 4096) 0) demo_card)
  = Some (Some [-1; -1; -1; -1; 1; 1]).
Proof. by vm_compute. Qed.
