(* ===== verification/Hw.v ===== *)
(** * Hw: registers, constants and the environment of the driver

    The constants and register layouts of [libxdma.h], and the interface
    between the driver and everything that is not the driver: the device
    (register reads and writes) and the Linux kernel (calls).  Each access and
    each call is an event of a log.  What the device or the kernel answers is a
    parameter, the class [Env]: an arbitrary function of the log so far, so a
    theorem holds for every device and every kernel. *)

From stdpp Require Export strings.
From S2P Require Import Prelude.

Global Open Scope Z_scope.

(** ** Constants of libxdma.h *)

Definition BIT (n : Z) : Z := Z.shiftl 1 n.

Definition XDMA_BAR_NUM := 6.
Definition XDMA_BAR_SIZE := 0x8000.
Definition XDMA_CHANNEL_NUM_MAX := 4.
Definition XDMA_ENG_IRQ_NUM := 1.
Definition XDMA_MAX_ADJ_BLOCK_SIZE := 0x40.
Definition XDMA_PAGE_SIZE := 0x1000.
Definition RX_STATUS_EOP := 1.
Definition XDMA_OFS_INT_CTRL := 0x2000.
Definition XDMA_OFS_CONFIG := 0x3000.
Definition XDMA_ENGINE_XFER_MAX_DESC := 0x800.
Definition XDMA_ENGINE_CREDIT_XFER_MAX_DESC := 0x3FF.
Definition XDMA_DESC_BLEN_MAX := Z.shiftl 1 28 - 1.

(** Bits of the SG DMA control register. *)
Definition XDMA_CTRL_RUN_STOP := BIT 0.
Definition XDMA_CTRL_IE_DESC_STOPPED := BIT 1.
Definition XDMA_CTRL_IE_DESC_COMPLETED := BIT 2.
Definition XDMA_CTRL_IE_DESC_ALIGN_MISMATCH := BIT 3.
Definition XDMA_CTRL_IE_MAGIC_STOPPED := BIT 4.
Definition XDMA_CTRL_IE_IDLE_STOPPED := BIT 6.
Definition XDMA_CTRL_IE_READ_ERROR := Z.shiftl 0x1F 9.
Definition XDMA_CTRL_IE_DESC_ERROR := Z.shiftl 0x1F 19.
Definition XDMA_CTRL_NON_INCR_ADDR := BIT 25.
Definition XDMA_CTRL_POLL_MODE_WB := BIT 26.

(** Bits of the SG DMA status register. *)
Definition XDMA_STAT_BUSY := BIT 0.
Definition XDMA_STAT_DESC_STOPPED := BIT 1.
Definition XDMA_STAT_DESC_COMPLETED := BIT 2.
Definition XDMA_STAT_ALIGN_MISMATCH := BIT 3.
Definition XDMA_STAT_MAGIC_STOPPED := BIT 4.
Definition XDMA_STAT_INVALID_LEN := BIT 5.
Definition XDMA_STAT_IDLE_STOPPED := BIT 6.

Definition lor_all (l : list Z) : Z := foldr Z.lor 0 l.

Definition XDMA_STAT_COMMON_ERR_MASK :=
  lor_all [XDMA_STAT_ALIGN_MISMATCH; XDMA_STAT_MAGIC_STOPPED; XDMA_STAT_INVALID_LEN].

Definition XDMA_STAT_DESC_UNSUPP_REQ := BIT 19.
Definition XDMA_STAT_DESC_COMPL_ABORT := BIT 20.
Definition XDMA_STAT_DESC_PARITY_ERR := BIT 21.
Definition XDMA_STAT_DESC_HEADER_EP := BIT 22.
Definition XDMA_STAT_DESC_UNEXP_COMPL := BIT 23.

Definition XDMA_STAT_DESC_ERR_MASK :=
  lor_all [XDMA_STAT_DESC_UNSUPP_REQ; XDMA_STAT_DESC_COMPL_ABORT;
           XDMA_STAT_DESC_PARITY_ERR; XDMA_STAT_DESC_HEADER_EP;
           XDMA_STAT_DESC_UNEXP_COMPL].

Definition XDMA_STAT_H2C_R_UNSUPP_REQ := BIT 9.
Definition XDMA_STAT_H2C_R_COMPL_ABORT := BIT 10.
Definition XDMA_STAT_H2C_R_PARITY_ERR := BIT 11.
Definition XDMA_STAT_H2C_R_HEADER_EP := BIT 12.
Definition XDMA_STAT_H2C_R_UNEXP_COMPL := BIT 13.

Definition XDMA_STAT_H2C_R_ERR_MASK :=
  lor_all [XDMA_STAT_H2C_R_UNSUPP_REQ; XDMA_STAT_H2C_R_COMPL_ABORT;
           XDMA_STAT_H2C_R_PARITY_ERR; XDMA_STAT_H2C_R_HEADER_EP;
           XDMA_STAT_H2C_R_UNEXP_COMPL].

Definition XDMA_STAT_H2C_W_DECODE_ERR := BIT 14.
Definition XDMA_STAT_H2C_W_SLAVE_ERR := BIT 15.
Definition XDMA_STAT_H2C_W_ERR_MASK :=
  lor_all [XDMA_STAT_H2C_W_DECODE_ERR; XDMA_STAT_H2C_W_SLAVE_ERR].

Definition XDMA_STAT_C2H_R_DECODE_ERR := BIT 9.
Definition XDMA_STAT_C2H_R_SLAVE_ERR := BIT 10.
Definition XDMA_STAT_C2H_R_ERR_MASK :=
  lor_all [XDMA_STAT_C2H_R_DECODE_ERR; XDMA_STAT_C2H_R_SLAVE_ERR].

Definition XDMA_STAT_H2C_ERR_MASK :=
  lor_all [XDMA_STAT_COMMON_ERR_MASK; XDMA_STAT_DESC_ERR_MASK;
           XDMA_STAT_H2C_R_ERR_MASK; XDMA_STAT_H2C_W_ERR_MASK].
Definition XDMA_STAT_C2H_ERR_MASK :=
  lor_all [XDMA_STAT_COMMON_ERR_MASK; XDMA_STAT_DESC_ERR_MASK;
           XDMA_STAT_C2H_R_ERR_MASK].

(** Bits of the descriptor control field. *)
Definition XDMA_DESC_STOPPED := BIT 0.
Definition XDMA_DESC_COMPLETED := BIT 1.
Definition XDMA_DESC_EOP := BIT 4.

Definition XDMA_PERF_RUN := BIT 0.
Definition XDMA_PERF_CLEAR := BIT 1.
Definition XDMA_PERF_AUTO := BIT 2.

Definition MAGIC_ENGINE := 0xEEEEEEEE.
Definition MAGIC_DEVICE := 0xDDDDDDDD.
Definition MAGIC_CHAR := 0xCCCCCCCC.
Definition XDMA_ID_H2C := 0x1fc0.
Definition XDMA_ID_C2H := 0x1fc1.
Definition LS_BYTE_MASK := 0xFF.
Definition BLOCK_ID_MASK := 0xFFF00000.
Definition BLOCK_ID_HEAD := 0x1FC00000.
Definition IRQ_BLOCK_ID := 0x1fc20000.
Definition CONFIG_BLOCK_ID := 0x1fc30000.
Definition WB_COUNT_MASK := 0x00ffffff.
Definition WB_ERR_MASK := BIT 31.
Definition POLL_TIMEOUT_SECONDS := 10.
Definition NUM_POLLS_PER_SCHED := 100.
Definition MAX_USER_IRQ := 16.
Definition DESC_MAGIC := 0xAD4B0000.
Definition H2C_CHANNEL_OFFSET := 0x1000.
Definition SGDMA_OFFSET_FROM_CHANNEL := 0x4000.
Definition CHANNEL_SPACING := 0x100.
Definition TARGET_SPACING := 0x1000.
Definition BYPASS_MODE_SPACING := 0x0100.

(** The two halves of a bus address. *)
Definition PCI_DMA_H (addr : Z) : Z := Z.shiftr (Z.shiftr addr 16) 16.
Definition PCI_DMA_L (addr : Z) : Z := Z.land addr 0xffffffff.

Definition XFER_FLAG_NEED_UNMAP := 0x1.
Definition XFER_FLAG_ST_C2H_EOP_RCVED := 0x2.
Definition XDEV_FLAG_OFFLINE := 0x1.

(** ** Register layouts

    A packed struct of 32-bit registers, as in the header: each field with its
    number of words.  [offsetof] gives the byte offset of a field. *)

Definition layout := list (string * Z).

Fixpoint offset_from (base : Z) (l : layout) (f : string) : Z :=
  match l with
  | [] => -1
  | (g, n) :: l' => if String.eqb f g then base else offset_from (base + 4 * n) l' f
  end.
Definition offsetof (l : layout) (f : string) : Z := offset_from 0 l f.

Definition engine_regs : layout :=
  [("identifier", 1); ("control", 1); ("control_w1s", 1); ("control_w1c", 1);
   ("reserved_1", 12);
   ("status", 1); ("status_rc", 1); ("completed_desc_count", 1); ("alignments", 1);
   ("reserved_2", 14);
   ("poll_mode_wb_lo", 1); ("poll_mode_wb_hi", 1);
   ("interrupt_enable_mask", 1); ("interrupt_enable_mask_w1s", 1);
   ("interrupt_enable_mask_w1c", 1);
   ("reserved_3", 9);
   ("perf_ctrl", 1); ("perf_cyc_lo", 1); ("perf_cyc_hi", 1); ("perf_dat_lo", 1);
   ("perf_dat_hi", 1); ("perf_pnd_lo", 1); ("perf_pnd_hi", 1)]%string.

Definition engine_sgdma_regs : layout :=
  [("identifier", 1); ("reserved_1", 31); ("first_desc_lo", 1); ("first_desc_hi", 1);
   ("first_desc_adjacent", 1); ("credits", 1)]%string.

Definition interrupt_regs : layout :=
  [("identifier", 1); ("user_int_enable", 1); ("user_int_enable_w1s", 1);
   ("user_int_enable_w1c", 1); ("channel_int_enable", 1); ("channel_int_enable_w1s", 1);
   ("channel_int_enable_w1c", 1); ("reserved_1", 9);
   ("user_int_request", 1); ("channel_int_request", 1); ("user_int_pending", 1);
   ("channel_int_pending", 1); ("reserved_2", 12);
   ("user_msi_vector", 8); ("channel_msi_vector", 8)]%string.

Definition sgdma_common_regs : layout :=
  [("padding", 8); ("credit_mode_enable", 1); ("credit_mode_enable_w1s", 1);
   ("credit_mode_enable_w1c", 1)]%string.

Definition config_regs : layout :=
  [("identifier", 1); ("reserved_1", 4); ("msi_enable", 1)]%string.

(** ** The environment *)

Inductive event :=
| EvRead (a v : Z)                          (** ioread32 *)
| EvWrite (a v : Z)                         (** iowrite32 *)
| EvCall (f : string) (args : list Z) (rv : Z). (** a kernel function *)

Class Env := {
  (** what a register read at an address returns after a history *)
  io_read : list event -> Z -> Z;
  (** what a kernel function returns after a history *)
  kernel : list event -> string -> list Z -> Z;
  (** module parameters *)
  poll_mode : bool;
  interrupt_mode : Z;
  enable_st_c2h_credit : bool;
  desc_blen_max : Z;
  (** ticks per second of the kernel *)
  HZ : Z;
  (** [sizeof(struct xdma_request_cb)], which depends on the kernel *)
  SIZEOF_REQ : Z
}.

(** A state that carries the log, newest event first. *)
Class HasLog (S : Type) := {
  log_of : S -> list event;
  set_log : list event -> S -> S
}.

Section io.
Context `{Env} {S : Type} `{HasLog S}.

Definition emit (ev : event) : M S unit := modify (fun s => set_log (ev :: log_of s) s).

Definition read_register (a : Z) : M S Z :=
  let* s := get in
  let v := u32 (io_read (log_of s) a) in
  emit (EvRead a v) >>; ret v.

Definition write_register (v a : Z) : M S unit := emit (EvWrite a v).

(** A kernel function with a result. *)
Definition kcall (f : string) (args : list Z) : M S Z :=
  let* s := get in
  let v := kernel (log_of s) f args in
  emit (EvCall f args v) >>; ret v.

(** A kernel function without a result. *)
Definition kdo (f : string) (args : list Z) : M S unit := emit (EvCall f args 0).
End io.

(** ** Arithmetic of the constants *)

Lemma PCI_DMA_L_mod addr : PCI_DMA_L addr = u32 addr.
Proof. unfold PCI_DMA_L, u32. change 0xffffffff with (Z.ones 32). by apply Z.land_ones. Qed.

Lemma PCI_DMA_H_div addr : PCI_DMA_H addr = addr `div` 2 ^ 32.
Proof. unfold PCI_DMA_H. rewrite Z.shiftr_shiftr by lia. by rewrite Z.shiftr_div_pow2. Qed.

Lemma PCI_DMA_split addr : PCI_DMA_L addr + PCI_DMA_H addr * 2 ^ 32 = addr.
Proof.
  rewrite PCI_DMA_L_mod, PCI_DMA_H_div. unfold u32.
  pose proof (Z.div_mod addr (2 ^ 32)). lia.
Qed.

Lemma PCI_DMA_H_range addr : 0 <= addr < 2 ^ 64 -> 0 <= PCI_DMA_H addr < 2 ^ 32.
Proof.
  intros ?. rewrite PCI_DMA_H_div. split; [apply Z.div_pos; lia|].
  apply Z.div_lt_upper_bound; lia.
Qed.
