(* ===== verification/State.v ===== *)
(** * State: the data structures of the driver

    The structs of [libxdma.h] as records, field for field (locks and wait
    queues excepted), and the state of one engine with the device it belongs
    to.  A pointer to a transfer is a key of the store [s_xfers], so that the
    engine queue and the submitter share the transfer the way they do in C; the
    same holds for scatter-gather tables ([s_sgts]).  A pointer into the
    descriptor ring is an index into [e_desc].  A user pointer or a kernel
    buffer is its address, 0 for NULL. *)

From S2P Require Import Prelude Hw.

Inductive dma_dir := DMA_TO_DEVICE | DMA_FROM_DEVICE.
#[export] Instance dma_dir_eq_dec : EqDecision dma_dir.
Proof. solve_decision. Defined.
Definition is_h2c (d : dma_dir) : bool :=
  match d with DMA_TO_DEVICE => true | DMA_FROM_DEVICE => false end.
Definition is_c2h (d : dma_dir) : bool := negb (is_h2c d).

(** [enum transfer_state] *)
Inductive transfer_state :=
| TRANSFER_STATE_NEW
| TRANSFER_STATE_SUBMITTED
| TRANSFER_STATE_COMPLETED
| TRANSFER_STATE_FAILED
| TRANSFER_STATE_ABORTED.
#[export] Instance transfer_state_eq_dec : EqDecision transfer_state.
Proof. solve_decision. Defined.

(** [enum shutdown_state], used as bits. *)
Definition ENGINE_SHUTDOWN_NONE := 0.
Definition ENGINE_SHUTDOWN_REQUEST := 1.
Definition ENGINE_SHUTDOWN_IDLE := 2.

(** A hardware descriptor: eight little-endian words. *)
Record xdma_desc := mk_desc {
  control : Z;
  bytes : Z;
  src_addr_lo : Z;
  src_addr_hi : Z;
  dst_addr_lo : Z;
  dst_addr_hi : Z;
  next_lo : Z;
  next_hi : Z
}.

(** A software descriptor: a contiguous piece of host memory. *)
Record sw_desc := mk_sw_desc {
  sd_addr : Z;
  sd_len : Z
}.

(** A transfer of one engine. *)
Record xdma_transfer := mk_xfer {
  x_desc_virt : Z (** index of the first descriptor in the engine ring *);
  x_res_virt : Z (** index of the first C2H result *);
  x_res_bus : Z;
  x_desc_bus : Z;
  x_desc_adjacent : Z;
  x_desc_num : Z;
  x_desc_index : Z;
  x_desc_cmpl : Z;
  x_desc_cmpl_th : Z;
  x_dir : dma_dir;
  x_state : transfer_state;
  x_flags : Z;
  x_cyclic : bool;
  x_last_in_request : bool;
  x_len : Z;
  x_sgt : option Z;
  x_cb : option Z
}.

(** [struct xdma_performance_ioctl] of [cdev_sgdma.h]. *)
Record perf_ioctl := mk_perf {
  p_version : Z;
  p_transfer_size : Z;
  p_stopped : Z;
  p_iterations : Z;
  p_clock_cycle_count : Z;
  p_data_cycle_count : Z;
  p_pending_count : Z
}.

(** An SG DMA engine. *)
Record xdma_engine := mk_engine {
  e_magic : Z;
  e_name : string;
  e_regs : Z;
  e_sgdma_regs : Z;
  e_bypass_offset : Z;
  e_shutdown : Z;
  e_dir : dma_dir;
  e_addr_align : Z;
  e_len_granularity : Z;
  e_addr_bits : Z;
  e_channel : Z;
  e_streaming : bool;
  e_device_open : bool;
  e_running : bool;
  e_non_incr_addr : bool;
  e_eop_flush : bool;
  e_desc_dequeued : Z;
  e_desc_max : Z;
  e_status : Z;
  e_interrupt_enable_mask_value : Z;
  e_transfer_list : list Z;
  e_cyclic_result : Z;
  e_cyclic_result_bus : Z;
  e_perf_buf_virt : Z;
  e_perf_buf_bus : Z;
  e_poll_mode_addr_virt : Z;
  e_poll_mode_bus : Z;
  e_msix_irq_line : Z;
  e_irq_bitmask : Z;
  e_desc_bus : Z;
  e_desc : option (list xdma_desc);
  e_desc_idx : Z;
  e_desc_used : Z;
  e_xdma_perf : option perf_ioctl;
  e_cmplthp : option Z;
  e_prev_cpu : Z;
  e_intr_work_cpu : Z
}.

(** A user interrupt.  [u_handler] is 0 when no handler is registered. *)
Record user_irq := mk_user_irq {
  u_user_idx : Z;
  u_events_irq : Z;
  u_handler : Z;
  u_dev : Z
}.

(** The device, without its engine arrays. *)
Record xdma_dev := mk_dev {
  d_magic : Z;
  d_pdev : Z;
  d_idx : Z;
  d_flags : Z;
  d_bar : list Z;
  d_user_bar_idx : Z;
  d_config_bar_idx : Z;
  d_bypass_bar_idx : Z;
  d_regions_in_use : bool;
  d_got_regions : bool;
  d_user_max : Z;
  d_c2h_channel_max : Z;
  d_h2c_channel_max : Z;
  d_irq_count : Z;
  d_irq_line : Z;
  d_msi_enabled : bool;
  d_msix_enabled : bool;
  d_user_irq : list user_irq;
  d_mask_irq_user : Z;
  d_engines_num : Z;
  d_mask_irq_h2c : Z;
  d_mask_irq_c2h : Z;
  d_feature_id : Z
}.

(** A scatter-gather table. *)
Record sg_table := mk_sgt {
  sg_sgl : list (Z * Z) (** DMA address and length of each entry *);
  sg_nents : Z;
  sg_orig_nents : Z
}.

(** A request; its two transfers [tfer] are in the transfer store, under the keys [tfer r 0] and [tfer r 1]. *)
Record xdma_request_cb := mk_req {
  r_sgt : Z;
  r_ep_addr : Z;
  r_aperture : Z;
  r_total_len : Z;
  r_offset : Z;
  r_sg : Z (** index of the current entry of the table *);
  r_sg_idx : Z;
  r_sg_offset : Z;
  r_cb : option Z;
  r_sw_desc_idx : Z;
  r_sw_desc_cnt : Z;
  r_sdesc : list sw_desc
}.

(** An I/O control block of the character device. *)
Record xdma_io_cb := mk_iocb {
  cb_buf : Z;
  cb_len : Z;
  cb_private : Z;
  cb_pages_nr : Z;
  cb_sgt : Z;
  cb_pages : option (list Z);
  cb_count : Z;
  cb_ep_addr : Z;
  cb_req : option Z;
  cb_write : bool;
  cb_io_done : bool (** a callback is set *)
}.

(** A character device ([xdma_mod.h]). *)
Record xdma_cdev := mk_cdev {
  xc_magic : Z;
  xc_xdev : Z (** 0 for NULL *);
  xc_bar : Z;
  xc_base : Z;
  xc_engine : option (dma_dir * Z);
  xc_user_irq : option Z
}.

(** An asynchronous request ([xdma_mod.h]). *)
Record cdev_async_io := mk_caio {
  ca_xcdev : option xdma_cdev (** the private data of the file of [iocb] *);
  ca_cb : Z (** the first of its I/O control blocks *);
  ca_write : bool;
  ca_cancel : bool;
  ca_cmpl_cnt : Z;
  ca_req_cnt : Z;
  ca_res : Z;
  ca_res2 : Z;
  ca_err_cnt : Z
}.

(** What the code of one engine can reach. *)
Record est := mk_est {
  s_xdev : xdma_dev;
  s_eng : xdma_engine;
  s_xfers : gmap Z xdma_transfer;
  s_sgts : gmap Z sg_table;
  s_reqs : gmap Z xdma_request_cb;
  s_cbs : gmap Z xdma_io_cb;
  s_caios : gmap Z cdev_async_io;
  s_log : list event
}.

#[export] Instance est_log : HasLog est := {
  log_of := s_log;
  set_log l s :=
    mk_est (s_xdev s) (s_eng s) (s_xfers s) (s_sgts s) (s_reqs s) (s_cbs s) (s_caios s) l
}.

(** ** Field updates *)

Definition set_control (v : Z) (r : xdma_desc) : xdma_desc :=
  mk_desc v (bytes r) (src_addr_lo r) (src_addr_hi r) (dst_addr_lo r) (dst_addr_hi r)
    (next_lo r) (next_hi r).
Definition set_bytes (v : Z) (r : xdma_desc) : xdma_desc :=
  mk_desc (control r) v (src_addr_lo r) (src_addr_hi r) (dst_addr_lo r) (dst_addr_hi r)
    (next_lo r) (next_hi r).
Definition set_src_addr_lo (v : Z) (r : xdma_desc) : xdma_desc :=
  mk_desc (control r) (bytes r) v (src_addr_hi r) (dst_addr_lo r) (dst_addr_hi r)
    (next_lo r) (next_hi r).
Definition set_src_addr_hi (v : Z) (r : xdma_desc) : xdma_desc :=
  mk_desc (control r) (bytes r) (src_addr_lo r) v (dst_addr_lo r) (dst_addr_hi r)
    (next_lo r) (next_hi r).
Definition set_dst_addr_lo (v : Z) (r : xdma_desc) : xdma_desc :=
  mk_desc (control r) (bytes r) (src_addr_lo r) (src_addr_hi r) v (dst_addr_hi r)
    (next_lo r) (next_hi r).
Definition set_dst_addr_hi (v : Z) (r : xdma_desc) : xdma_desc :=
  mk_desc (control r) (bytes r) (src_addr_lo r) (src_addr_hi r) (dst_addr_lo r) v
    (next_lo r) (next_hi r).
Definition set_next_lo (v : Z) (r : xdma_desc) : xdma_desc :=
  mk_desc (control r) (bytes r) (src_addr_lo r) (src_addr_hi r) (dst_addr_lo r)
    (dst_addr_hi r) v (next_hi r).
Definition set_next_hi (v : Z) (r : xdma_desc) : xdma_desc :=
  mk_desc (control r) (bytes r) (src_addr_lo r) (src_addr_hi r) (dst_addr_lo r)
    (dst_addr_hi r) (next_lo r) v.
Definition set_x_desc_virt (v : Z) (r : xdma_transfer) : xdma_transfer :=
  mk_xfer v (x_res_virt r) (x_res_bus r) (x_desc_bus r) (x_desc_adjacent r)
    (x_desc_num r) (x_desc_index r) (x_desc_cmpl r) (x_desc_cmpl_th r) (x_dir r)
    (x_state r) (x_flags r) (x_cyclic r) (x_last_in_request r) (x_len r) (x_sgt r)
    (x_cb r).
Definition set_x_desc_adjacent (v : Z) (r : xdma_transfer) : xdma_transfer :=
  mk_xfer (x_desc_virt r) (x_res_virt r) (x_res_bus r) (x_desc_bus r) v (x_desc_num r)
    (x_desc_index r) (x_desc_cmpl r) (x_desc_cmpl_th r) (x_dir r) (x_state r)
    (x_flags r) (x_cyclic r) (x_last_in_request r) (x_len r) (x_sgt r) (x_cb r).
Definition set_x_desc_num (v : Z) (r : xdma_transfer) : xdma_transfer :=
  mk_xfer (x_desc_virt r) (x_res_virt r) (x_res_bus r) (x_desc_bus r)
    (x_desc_adjacent r) v (x_desc_index r) (x_desc_cmpl r) (x_desc_cmpl_th r) (x_dir r)
    (x_state r) (x_flags r) (x_cyclic r) (x_last_in_request r) (x_len r) (x_sgt r)
    (x_cb r).
Definition set_x_desc_cmpl (v : Z) (r : xdma_transfer) : xdma_transfer :=
  mk_xfer (x_desc_virt r) (x_res_virt r) (x_res_bus r) (x_desc_bus r)
    (x_desc_adjacent r) (x_desc_num r) (x_desc_index r) v (x_desc_cmpl_th r) (x_dir r)
    (x_state r) (x_flags r) (x_cyclic r) (x_last_in_request r) (x_len r) (x_sgt r)
    (x_cb r).
Definition set_x_desc_cmpl_th (v : Z) (r : xdma_transfer) : xdma_transfer :=
  mk_xfer (x_desc_virt r) (x_res_virt r) (x_res_bus r) (x_desc_bus r)
    (x_desc_adjacent r) (x_desc_num r) (x_desc_index r) (x_desc_cmpl r) v (x_dir r)
    (x_state r) (x_flags r) (x_cyclic r) (x_last_in_request r) (x_len r) (x_sgt r)
    (x_cb r).
Definition set_x_state (v : transfer_state) (r : xdma_transfer) : xdma_transfer :=
  mk_xfer (x_desc_virt r) (x_res_virt r) (x_res_bus r) (x_desc_bus r)
    (x_desc_adjacent r) (x_desc_num r) (x_desc_index r) (x_desc_cmpl r)
    (x_desc_cmpl_th r) (x_dir r) v (x_flags r) (x_cyclic r) (x_last_in_request r)
    (x_len r) (x_sgt r) (x_cb r).
Definition set_x_flags (v : Z) (r : xdma_transfer) : xdma_transfer :=
  mk_xfer (x_desc_virt r) (x_res_virt r) (x_res_bus r) (x_desc_bus r)
    (x_desc_adjacent r) (x_desc_num r) (x_desc_index r) (x_desc_cmpl r)
    (x_desc_cmpl_th r) (x_dir r) (x_state r) v (x_cyclic r) (x_last_in_request r)
    (x_len r) (x_sgt r) (x_cb r).
Definition set_x_cyclic (v : bool) (r : xdma_transfer) : xdma_transfer :=
  mk_xfer (x_desc_virt r) (x_res_virt r) (x_res_bus r) (x_desc_bus r)
    (x_desc_adjacent r) (x_desc_num r) (x_desc_index r) (x_desc_cmpl r)
    (x_desc_cmpl_th r) (x_dir r) (x_state r) (x_flags r) v (x_last_in_request r)
    (x_len r) (x_sgt r) (x_cb r).
Definition set_x_last_in_request (v : bool) (r : xdma_transfer) : xdma_transfer :=
  mk_xfer (x_desc_virt r) (x_res_virt r) (x_res_bus r) (x_desc_bus r)
    (x_desc_adjacent r) (x_desc_num r) (x_desc_index r) (x_desc_cmpl r)
    (x_desc_cmpl_th r) (x_dir r) (x_state r) (x_flags r) (x_cyclic r) v (x_len r)
    (x_sgt r) (x_cb r).
Definition set_x_len (v : Z) (r : xdma_transfer) : xdma_transfer :=
  mk_xfer (x_desc_virt r) (x_res_virt r) (x_res_bus r) (x_desc_bus r)
    (x_desc_adjacent r) (x_desc_num r) (x_desc_index r) (x_desc_cmpl r)
    (x_desc_cmpl_th r) (x_dir r) (x_state r) (x_flags r) (x_cyclic r)
    (x_last_in_request r) v (x_sgt r) (x_cb r).
Definition set_x_sgt (v : option Z) (r : xdma_transfer) : xdma_transfer :=
  mk_xfer (x_desc_virt r) (x_res_virt r) (x_res_bus r) (x_desc_bus r)
    (x_desc_adjacent r) (x_desc_num r) (x_desc_index r) (x_desc_cmpl r)
    (x_desc_cmpl_th r) (x_dir r) (x_state r) (x_flags r) (x_cyclic r)
    (x_last_in_request r) (x_len r) v (x_cb r).
Definition set_x_cb (v : option Z) (r : xdma_transfer) : xdma_transfer :=
  mk_xfer (x_desc_virt r) (x_res_virt r) (x_res_bus r) (x_desc_bus r)
    (x_desc_adjacent r) (x_desc_num r) (x_desc_index r) (x_desc_cmpl r)
    (x_desc_cmpl_th r) (x_dir r) (x_state r) (x_flags r) (x_cyclic r)
    (x_last_in_request r) (x_len r) (x_sgt r) v.
Definition set_p_stopped (v : Z) (r : perf_ioctl) : perf_ioctl :=
  mk_perf (p_version r) (p_transfer_size r) v (p_iterations r) (p_clock_cycle_count r)
    (p_data_cycle_count r) (p_pending_count r).
Definition set_p_iterations (v : Z) (r : perf_ioctl) : perf_ioctl :=
  mk_perf (p_version r) (p_transfer_size r) (p_stopped r) v (p_clock_cycle_count r)
    (p_data_cycle_count r) (p_pending_count r).
Definition set_p_clock_cycle_count (v : Z) (r : perf_ioctl) : perf_ioctl :=
  mk_perf (p_version r) (p_transfer_size r) (p_stopped r) (p_iterations r) v
    (p_data_cycle_count r) (p_pending_count r).
Definition set_p_data_cycle_count (v : Z) (r : perf_ioctl) : perf_ioctl :=
  mk_perf (p_version r) (p_transfer_size r) (p_stopped r) (p_iterations r)
    (p_clock_cycle_count r) v (p_pending_count r).
Definition set_p_pending_count (v : Z) (r : perf_ioctl) : perf_ioctl :=
  mk_perf (p_version r) (p_transfer_size r) (p_stopped r) (p_iterations r)
    (p_clock_cycle_count r) (p_data_cycle_count r) v.
Definition set_e_magic (v : Z) (r : xdma_engine) : xdma_engine :=
  mk_engine v (e_name r) (e_regs r) (e_sgdma_regs r) (e_bypass_offset r) (e_shutdown r)
    (e_dir r) (e_addr_align r) (e_len_granularity r) (e_addr_bits r) (e_channel r)
    (e_streaming r) (e_device_open r) (e_running r) (e_non_incr_addr r) (e_eop_flush r)
    (e_desc_dequeued r) (e_desc_max r) (e_status r) (e_interrupt_enable_mask_value r)
    (e_transfer_list r) (e_cyclic_result r) (e_cyclic_result_bus r) (e_perf_buf_virt r)
    (e_perf_buf_bus r) (e_poll_mode_addr_virt r) (e_poll_mode_bus r) (e_msix_irq_line r)
    (e_irq_bitmask r) (e_desc_bus r) (e_desc r) (e_desc_idx r) (e_desc_used r)
    (e_xdma_perf r) (e_cmplthp r) (e_prev_cpu r) (e_intr_work_cpu r).
Definition set_e_name (v : string) (r : xdma_engine) : xdma_engine :=
  mk_engine (e_magic r) v (e_regs r) (e_sgdma_regs r) (e_bypass_offset r) (e_shutdown r)
    (e_dir r) (e_addr_align r) (e_len_granularity r) (e_addr_bits r) (e_channel r)
    (e_streaming r) (e_device_open r) (e_running r) (e_non_incr_addr r) (e_eop_flush r)
    (e_desc_dequeued r) (e_desc_max r) (e_status r) (e_interrupt_enable_mask_value r)
    (e_transfer_list r) (e_cyclic_result r) (e_cyclic_result_bus r) (e_perf_buf_virt r)
    (e_perf_buf_bus r) (e_poll_mode_addr_virt r) (e_poll_mode_bus r) (e_msix_irq_line r)
    (e_irq_bitmask r) (e_desc_bus r) (e_desc r) (e_desc_idx r) (e_desc_used r)
    (e_xdma_perf r) (e_cmplthp r) (e_prev_cpu r) (e_intr_work_cpu r).
Definition set_e_regs (v : Z) (r : xdma_engine) : xdma_engine :=
  mk_engine (e_magic r) (e_name r) v (e_sgdma_regs r) (e_bypass_offset r) (e_shutdown r)
    (e_dir r) (e_addr_align r) (e_len_granularity r) (e_addr_bits r) (e_channel r)
    (e_streaming r) (e_device_open r) (e_running r) (e_non_incr_addr r) (e_eop_flush r)
    (e_desc_dequeued r) (e_desc_max r) (e_status r) (e_interrupt_enable_mask_value r)
    (e_transfer_list r) (e_cyclic_result r) (e_cyclic_result_bus r) (e_perf_buf_virt r)
    (e_perf_buf_bus r) (e_poll_mode_addr_virt r) (e_poll_mode_bus r) (e_msix_irq_line r)
    (e_irq_bitmask r) (e_desc_bus r) (e_desc r) (e_desc_idx r) (e_desc_used r)
    (e_xdma_perf r) (e_cmplthp r) (e_prev_cpu r) (e_intr_work_cpu r).
Definition set_e_sgdma_regs (v : Z) (r : xdma_engine) : xdma_engine :=
  mk_engine (e_magic r) (e_name r) (e_regs r) v (e_bypass_offset r) (e_shutdown r)
    (e_dir r) (e_addr_align r) (e_len_granularity r) (e_addr_bits r) (e_channel r)
    (e_streaming r) (e_device_open r) (e_running r) (e_non_incr_addr r) (e_eop_flush r)
    (e_desc_dequeued r) (e_desc_max r) (e_status r) (e_interrupt_enable_mask_value r)
    (e_transfer_list r) (e_cyclic_result r) (e_cyclic_result_bus r) (e_perf_buf_virt r)
    (e_perf_buf_bus r) (e_poll_mode_addr_virt r) (e_poll_mode_bus r) (e_msix_irq_line r)
    (e_irq_bitmask r) (e_desc_bus r) (e_desc r) (e_desc_idx r) (e_desc_used r)
    (e_xdma_perf r) (e_cmplthp r) (e_prev_cpu r) (e_intr_work_cpu r).
Definition set_e_bypass_offset (v : Z) (r : xdma_engine) : xdma_engine :=
  mk_engine (e_magic r) (e_name r) (e_regs r) (e_sgdma_regs r) v (e_shutdown r)
    (e_dir r) (e_addr_align r) (e_len_granularity r) (e_addr_bits r) (e_channel r)
    (e_streaming r) (e_device_open r) (e_running r) (e_non_incr_addr r) (e_eop_flush r)
    (e_desc_dequeued r) (e_desc_max r) (e_status r) (e_interrupt_enable_mask_value r)
    (e_transfer_list r) (e_cyclic_result r) (e_cyclic_result_bus r) (e_perf_buf_virt r)
    (e_perf_buf_bus r) (e_poll_mode_addr_virt r) (e_poll_mode_bus r) (e_msix_irq_line r)
    (e_irq_bitmask r) (e_desc_bus r) (e_desc r) (e_desc_idx r) (e_desc_used r)
    (e_xdma_perf r) (e_cmplthp r) (e_prev_cpu r) (e_intr_work_cpu r).
Definition set_e_shutdown (v : Z) (r : xdma_engine) : xdma_engine :=
  mk_engine (e_magic r) (e_name r) (e_regs r) (e_sgdma_regs r) (e_bypass_offset r) v
    (e_dir r) (e_addr_align r) (e_len_granularity r) (e_addr_bits r) (e_channel r)
    (e_streaming r) (e_device_open r) (e_running r) (e_non_incr_addr r) (e_eop_flush r)
    (e_desc_dequeued r) (e_desc_max r) (e_status r) (e_interrupt_enable_mask_value r)
    (e_transfer_list r) (e_cyclic_result r) (e_cyclic_result_bus r) (e_perf_buf_virt r)
    (e_perf_buf_bus r) (e_poll_mode_addr_virt r) (e_poll_mode_bus r) (e_msix_irq_line r)
    (e_irq_bitmask r) (e_desc_bus r) (e_desc r) (e_desc_idx r) (e_desc_used r)
    (e_xdma_perf r) (e_cmplthp r) (e_prev_cpu r) (e_intr_work_cpu r).
Definition set_e_dir (v : dma_dir) (r : xdma_engine) : xdma_engine :=
  mk_engine (e_magic r) (e_name r) (e_regs r) (e_sgdma_regs r) (e_bypass_offset r)
    (e_shutdown r) v (e_addr_align r) (e_len_granularity r) (e_addr_bits r)
    (e_channel r) (e_streaming r) (e_device_open r) (e_running r) (e_non_incr_addr r)
    (e_eop_flush r) (e_desc_dequeued r) (e_desc_max r) (e_status r)
    (e_interrupt_enable_mask_value r) (e_transfer_list r) (e_cyclic_result r)
    (e_cyclic_result_bus r) (e_perf_buf_virt r) (e_perf_buf_bus r)
    (e_poll_mode_addr_virt r) (e_poll_mode_bus r) (e_msix_irq_line r) (e_irq_bitmask r)
    (e_desc_bus r) (e_desc r) (e_desc_idx r) (e_desc_used r) (e_xdma_perf r)
    (e_cmplthp r) (e_prev_cpu r) (e_intr_work_cpu r).
Definition set_e_addr_align (v : Z) (r : xdma_engine) : xdma_engine :=
  mk_engine (e_magic r) (e_name r) (e_regs r) (e_sgdma_regs r) (e_bypass_offset r)
    (e_shutdown r) (e_dir r) v (e_len_granularity r) (e_addr_bits r) (e_channel r)
    (e_streaming r) (e_device_open r) (e_running r) (e_non_incr_addr r) (e_eop_flush r)
    (e_desc_dequeued r) (e_desc_max r) (e_status r) (e_interrupt_enable_mask_value r)
    (e_transfer_list r) (e_cyclic_result r) (e_cyclic_result_bus r) (e_perf_buf_virt r)
    (e_perf_buf_bus r) (e_poll_mode_addr_virt r) (e_poll_mode_bus r) (e_msix_irq_line r)
    (e_irq_bitmask r) (e_desc_bus r) (e_desc r) (e_desc_idx r) (e_desc_used r)
    (e_xdma_perf r) (e_cmplthp r) (e_prev_cpu r) (e_intr_work_cpu r).
Definition set_e_len_granularity (v : Z) (r : xdma_engine) : xdma_engine :=
  mk_engine (e_magic r) (e_name r) (e_regs r) (e_sgdma_regs r) (e_bypass_offset r)
    (e_shutdown r) (e_dir r) (e_addr_align r) v (e_addr_bits r) (e_channel r)
    (e_streaming r) (e_device_open r) (e_running r) (e_non_incr_addr r) (e_eop_flush r)
    (e_desc_dequeued r) (e_desc_max r) (e_status r) (e_interrupt_enable_mask_value r)
    (e_transfer_list r) (e_cyclic_result r) (e_cyclic_result_bus r) (e_perf_buf_virt r)
    (e_perf_buf_bus r) (e_poll_mode_addr_virt r) (e_poll_mode_bus r) (e_msix_irq_line r)
    (e_irq_bitmask r) (e_desc_bus r) (e_desc r) (e_desc_idx r) (e_desc_used r)
    (e_xdma_perf r) (e_cmplthp r) (e_prev_cpu r) (e_intr_work_cpu r).
Definition set_e_addr_bits (v : Z) (r : xdma_engine) : xdma_engine :=
  mk_engine (e_magic r) (e_name r) (e_regs r) (e_sgdma_regs r) (e_bypass_offset r)
    (e_shutdown r) (e_dir r) (e_addr_align r) (e_len_granularity r) v (e_channel r)
    (e_streaming r) (e_device_open r) (e_running r) (e_non_incr_addr r) (e_eop_flush r)
    (e_desc_dequeued r) (e_desc_max r) (e_status r) (e_interrupt_enable_mask_value r)
    (e_transfer_list r) (e_cyclic_result r) (e_cyclic_result_bus r) (e_perf_buf_virt r)
    (e_perf_buf_bus r) (e_poll_mode_addr_virt r) (e_poll_mode_bus r) (e_msix_irq_line r)
    (e_irq_bitmask r) (e_desc_bus r) (e_desc r) (e_desc_idx r) (e_desc_used r)
    (e_xdma_perf r) (e_cmplthp r) (e_prev_cpu r) (e_intr_work_cpu r).
Definition set_e_channel (v : Z) (r : xdma_engine) : xdma_engine :=
  mk_engine (e_magic r) (e_name r) (e_regs r) (e_sgdma_regs r) (e_bypass_offset r)
    (e_shutdown r) (e_dir r) (e_addr_align r) (e_len_granularity r) (e_addr_bits r) v
    (e_streaming r) (e_device_open r) (e_running r) (e_non_incr_addr r) (e_eop_flush r)
    (e_desc_dequeued r) (e_desc_max r) (e_status r) (e_interrupt_enable_mask_value r)
    (e_transfer_list r) (e_cyclic_result r) (e_cyclic_result_bus r) (e_perf_buf_virt r)
    (e_perf_buf_bus r) (e_poll_mode_addr_virt r) (e_poll_mode_bus r) (e_msix_irq_line r)
    (e_irq_bitmask r) (e_desc_bus r) (e_desc r) (e_desc_idx r) (e_desc_used r)
    (e_xdma_perf r) (e_cmplthp r) (e_prev_cpu r) (e_intr_work_cpu r).
Definition set_e_streaming (v : bool) (r : xdma_engine) : xdma_engine :=
  mk_engine (e_magic r) (e_name r) (e_regs r) (e_sgdma_regs r) (e_bypass_offset r)
    (e_shutdown r) (e_dir r) (e_addr_align r) (e_len_granularity r) (e_addr_bits r)
    (e_channel r) v (e_device_open r) (e_running r) (e_non_incr_addr r) (e_eop_flush r)
    (e_desc_dequeued r) (e_desc_max r) (e_status r) (e_interrupt_enable_mask_value r)
    (e_transfer_list r) (e_cyclic_result r) (e_cyclic_result_bus r) (e_perf_buf_virt r)
    (e_perf_buf_bus r) (e_poll_mode_addr_virt r) (e_poll_mode_bus r) (e_msix_irq_line r)
    (e_irq_bitmask r) (e_desc_bus r) (e_desc r) (e_desc_idx r) (e_desc_used r)
    (e_xdma_perf r) (e_cmplthp r) (e_prev_cpu r) (e_intr_work_cpu r).
Definition set_e_device_open (v : bool) (r : xdma_engine) : xdma_engine :=
  mk_engine (e_magic r) (e_name r) (e_regs r) (e_sgdma_regs r) (e_bypass_offset r)
    (e_shutdown r) (e_dir r) (e_addr_align r) (e_len_granularity r) (e_addr_bits r)
    (e_channel r) (e_streaming r) v (e_running r) (e_non_incr_addr r) (e_eop_flush r)
    (e_desc_dequeued r) (e_desc_max r) (e_status r) (e_interrupt_enable_mask_value r)
    (e_transfer_list r) (e_cyclic_result r) (e_cyclic_result_bus r) (e_perf_buf_virt r)
    (e_perf_buf_bus r) (e_poll_mode_addr_virt r) (e_poll_mode_bus r) (e_msix_irq_line r)
    (e_irq_bitmask r) (e_desc_bus r) (e_desc r) (e_desc_idx r) (e_desc_used r)
    (e_xdma_perf r) (e_cmplthp r) (e_prev_cpu r) (e_intr_work_cpu r).
Definition set_e_running (v : bool) (r : xdma_engine) : xdma_engine :=
  mk_engine (e_magic r) (e_name r) (e_regs r) (e_sgdma_regs r) (e_bypass_offset r)
    (e_shutdown r) (e_dir r) (e_addr_align r) (e_len_granularity r) (e_addr_bits r)
    (e_channel r) (e_streaming r) (e_device_open r) v (e_non_incr_addr r)
    (e_eop_flush r) (e_desc_dequeued r) (e_desc_max r) (e_status r)
    (e_interrupt_enable_mask_value r) (e_transfer_list r) (e_cyclic_result r)
    (e_cyclic_result_bus r) (e_perf_buf_virt r) (e_perf_buf_bus r)
    (e_poll_mode_addr_virt r) (e_poll_mode_bus r) (e_msix_irq_line r) (e_irq_bitmask r)
    (e_desc_bus r) (e_desc r) (e_desc_idx r) (e_desc_used r) (e_xdma_perf r)
    (e_cmplthp r) (e_prev_cpu r) (e_intr_work_cpu r).
Definition set_e_non_incr_addr (v : bool) (r : xdma_engine) : xdma_engine :=
  mk_engine (e_magic r) (e_name r) (e_regs r) (e_sgdma_regs r) (e_bypass_offset r)
    (e_shutdown r) (e_dir r) (e_addr_align r) (e_len_granularity r) (e_addr_bits r)
    (e_channel r) (e_streaming r) (e_device_open r) (e_running r) v (e_eop_flush r)
    (e_desc_dequeued r) (e_desc_max r) (e_status r) (e_interrupt_enable_mask_value r)
    (e_transfer_list r) (e_cyclic_result r) (e_cyclic_result_bus r) (e_perf_buf_virt r)
    (e_perf_buf_bus r) (e_poll_mode_addr_virt r) (e_poll_mode_bus r) (e_msix_irq_line r)
    (e_irq_bitmask r) (e_desc_bus r) (e_desc r) (e_desc_idx r) (e_desc_used r)
    (e_xdma_perf r) (e_cmplthp r) (e_prev_cpu r) (e_intr_work_cpu r).
Definition set_e_eop_flush (v : bool) (r : xdma_engine) : xdma_engine :=
  mk_engine (e_magic r) (e_name r) (e_regs r) (e_sgdma_regs r) (e_bypass_offset r)
    (e_shutdown r) (e_dir r) (e_addr_align r) (e_len_granularity r) (e_addr_bits r)
    (e_channel r) (e_streaming r) (e_device_open r) (e_running r) (e_non_incr_addr r) v
    (e_desc_dequeued r) (e_desc_max r) (e_status r) (e_interrupt_enable_mask_value r)
    (e_transfer_list r) (e_cyclic_result r) (e_cyclic_result_bus r) (e_perf_buf_virt r)
    (e_perf_buf_bus r) (e_poll_mode_addr_virt r) (e_poll_mode_bus r) (e_msix_irq_line r)
    (e_irq_bitmask r) (e_desc_bus r) (e_desc r) (e_desc_idx r) (e_desc_used r)
    (e_xdma_perf r) (e_cmplthp r) (e_prev_cpu r) (e_intr_work_cpu r).
Definition set_e_desc_dequeued (v : Z) (r : xdma_engine) : xdma_engine :=
  mk_engine (e_magic r) (e_name r) (e_regs r) (e_sgdma_regs r) (e_bypass_offset r)
    (e_shutdown r) (e_dir r) (e_addr_align r) (e_len_granularity r) (e_addr_bits r)
    (e_channel r) (e_streaming r) (e_device_open r) (e_running r) (e_non_incr_addr r)
    (e_eop_flush r) v (e_desc_max r) (e_status r) (e_interrupt_enable_mask_value r)
    (e_transfer_list r) (e_cyclic_result r) (e_cyclic_result_bus r) (e_perf_buf_virt r)
    (e_perf_buf_bus r) (e_poll_mode_addr_virt r) (e_poll_mode_bus r) (e_msix_irq_line r)
    (e_irq_bitmask r) (e_desc_bus r) (e_desc r) (e_desc_idx r) (e_desc_used r)
    (e_xdma_perf r) (e_cmplthp r) (e_prev_cpu r) (e_intr_work_cpu r).
Definition set_e_desc_max (v : Z) (r : xdma_engine) : xdma_engine :=
  mk_engine (e_magic r) (e_name r) (e_regs r) (e_sgdma_regs r) (e_bypass_offset r)
    (e_shutdown r) (e_dir r) (e_addr_align r) (e_len_granularity r) (e_addr_bits r)
    (e_channel r) (e_streaming r) (e_device_open r) (e_running r) (e_non_incr_addr r)
    (e_eop_flush r) (e_desc_dequeued r) v (e_status r) (e_interrupt_enable_mask_value r)
    (e_transfer_list r) (e_cyclic_result r) (e_cyclic_result_bus r) (e_perf_buf_virt r)
    (e_perf_buf_bus r) (e_poll_mode_addr_virt r) (e_poll_mode_bus r) (e_msix_irq_line r)
    (e_irq_bitmask r) (e_desc_bus r) (e_desc r) (e_desc_idx r) (e_desc_used r)
    (e_xdma_perf r) (e_cmplthp r) (e_prev_cpu r) (e_intr_work_cpu r).
Definition set_e_status (v : Z) (r : xdma_engine) : xdma_engine :=
  mk_engine (e_magic r) (e_name r) (e_regs r) (e_sgdma_regs r) (e_bypass_offset r)
    (e_shutdown r) (e_dir r) (e_addr_align r) (e_len_granularity r) (e_addr_bits r)
    (e_channel r) (e_streaming r) (e_device_open r) (e_running r) (e_non_incr_addr r)
    (e_eop_flush r) (e_desc_dequeued r) (e_desc_max r) v
    (e_interrupt_enable_mask_value r) (e_transfer_list r) (e_cyclic_result r)
    (e_cyclic_result_bus r) (e_perf_buf_virt r) (e_perf_buf_bus r)
    (e_poll_mode_addr_virt r) (e_poll_mode_bus r) (e_msix_irq_line r) (e_irq_bitmask r)
    (e_desc_bus r) (e_desc r) (e_desc_idx r) (e_desc_used r) (e_xdma_perf r)
    (e_cmplthp r) (e_prev_cpu r) (e_intr_work_cpu r).
Definition set_e_interrupt_enable_mask_value (v : Z) (r : xdma_engine) : xdma_engine :=
  mk_engine (e_magic r) (e_name r) (e_regs r) (e_sgdma_regs r) (e_bypass_offset r)
    (e_shutdown r) (e_dir r) (e_addr_align r) (e_len_granularity r) (e_addr_bits r)
    (e_channel r) (e_streaming r) (e_device_open r) (e_running r) (e_non_incr_addr r)
    (e_eop_flush r) (e_desc_dequeued r) (e_desc_max r) (e_status r) v
    (e_transfer_list r) (e_cyclic_result r) (e_cyclic_result_bus r) (e_perf_buf_virt r)
    (e_perf_buf_bus r) (e_poll_mode_addr_virt r) (e_poll_mode_bus r) (e_msix_irq_line r)
    (e_irq_bitmask r) (e_desc_bus r) (e_desc r) (e_desc_idx r) (e_desc_used r)
    (e_xdma_perf r) (e_cmplthp r) (e_prev_cpu r) (e_intr_work_cpu r).
Definition set_e_transfer_list (v : list Z) (r : xdma_engine) : xdma_engine :=
  mk_engine (e_magic r) (e_name r) (e_regs r) (e_sgdma_regs r) (e_bypass_offset r)
    (e_shutdown r) (e_dir r) (e_addr_align r) (e_len_granularity r) (e_addr_bits r)
    (e_channel r) (e_streaming r) (e_device_open r) (e_running r) (e_non_incr_addr r)
    (e_eop_flush r) (e_desc_dequeued r) (e_desc_max r) (e_status r)
    (e_interrupt_enable_mask_value r) v (e_cyclic_result r) (e_cyclic_result_bus r)
    (e_perf_buf_virt r) (e_perf_buf_bus r) (e_poll_mode_addr_virt r) (e_poll_mode_bus r)
    (e_msix_irq_line r) (e_irq_bitmask r) (e_desc_bus r) (e_desc r) (e_desc_idx r)
    (e_desc_used r) (e_xdma_perf r) (e_cmplthp r) (e_prev_cpu r) (e_intr_work_cpu r).
Definition set_e_cyclic_result (v : Z) (r : xdma_engine) : xdma_engine :=
  mk_engine (e_magic r) (e_name r) (e_regs r) (e_sgdma_regs r) (e_bypass_offset r)
    (e_shutdown r) (e_dir r) (e_addr_align r) (e_len_granularity r) (e_addr_bits r)
    (e_channel r) (e_streaming r) (e_device_open r) (e_running r) (e_non_incr_addr r)
    (e_eop_flush r) (e_desc_dequeued r) (e_desc_max r) (e_status r)
    (e_interrupt_enable_mask_value r) (e_transfer_list r) v (e_cyclic_result_bus r)
    (e_perf_buf_virt r) (e_perf_buf_bus r) (e_poll_mode_addr_virt r) (e_poll_mode_bus r)
    (e_msix_irq_line r) (e_irq_bitmask r) (e_desc_bus r) (e_desc r) (e_desc_idx r)
    (e_desc_used r) (e_xdma_perf r) (e_cmplthp r) (e_prev_cpu r) (e_intr_work_cpu r).
Definition set_e_cyclic_result_bus (v : Z) (r : xdma_engine) : xdma_engine :=
  mk_engine (e_magic r) (e_name r) (e_regs r) (e_sgdma_regs r) (e_bypass_offset r)
    (e_shutdown r) (e_dir r) (e_addr_align r) (e_len_granularity r) (e_addr_bits r)
    (e_channel r) (e_streaming r) (e_device_open r) (e_running r) (e_non_incr_addr r)
    (e_eop_flush r) (e_desc_dequeued r) (e_desc_max r) (e_status r)
    (e_interrupt_enable_mask_value r) (e_transfer_list r) (e_cyclic_result r) v
    (e_perf_buf_virt r) (e_perf_buf_bus r) (e_poll_mode_addr_virt r) (e_poll_mode_bus r)
    (e_msix_irq_line r) (e_irq_bitmask r) (e_desc_bus r) (e_desc r) (e_desc_idx r)
    (e_desc_used r) (e_xdma_perf r) (e_cmplthp r) (e_prev_cpu r) (e_intr_work_cpu r).
Definition set_e_perf_buf_virt (v : Z) (r : xdma_engine) : xdma_engine :=
  mk_engine (e_magic r) (e_name r) (e_regs r) (e_sgdma_regs r) (e_bypass_offset r)
    (e_shutdown r) (e_dir r) (e_addr_align r) (e_len_granularity r) (e_addr_bits r)
    (e_channel r) (e_streaming r) (e_device_open r) (e_running r) (e_non_incr_addr r)
    (e_eop_flush r) (e_desc_dequeued r) (e_desc_max r) (e_status r)
    (e_interrupt_enable_mask_value r) (e_transfer_list r) (e_cyclic_result r)
    (e_cyclic_result_bus r) v (e_perf_buf_bus r) (e_poll_mode_addr_virt r)
    (e_poll_mode_bus r) (e_msix_irq_line r) (e_irq_bitmask r) (e_desc_bus r) (e_desc r)
    (e_desc_idx r) (e_desc_used r) (e_xdma_perf r) (e_cmplthp r) (e_prev_cpu r)
    (e_intr_work_cpu r).
Definition set_e_perf_buf_bus (v : Z) (r : xdma_engine) : xdma_engine :=
  mk_engine (e_magic r) (e_name r) (e_regs r) (e_sgdma_regs r) (e_bypass_offset r)
    (e_shutdown r) (e_dir r) (e_addr_align r) (e_len_granularity r) (e_addr_bits r)
    (e_channel r) (e_streaming r) (e_device_open r) (e_running r) (e_non_incr_addr r)
    (e_eop_flush r) (e_desc_dequeued r) (e_desc_max r) (e_status r)
    (e_interrupt_enable_mask_value r) (e_transfer_list r) (e_cyclic_result r)
    (e_cyclic_result_bus r) (e_perf_buf_virt r) v (e_poll_mode_addr_virt r)
    (e_poll_mode_bus r) (e_msix_irq_line r) (e_irq_bitmask r) (e_desc_bus r) (e_desc r)
    (e_desc_idx r) (e_desc_used r) (e_xdma_perf r) (e_cmplthp r) (e_prev_cpu r)
    (e_intr_work_cpu r).
Definition set_e_poll_mode_addr_virt (v : Z) (r : xdma_engine) : xdma_engine :=
  mk_engine (e_magic r) (e_name r) (e_regs r) (e_sgdma_regs r) (e_bypass_offset r)
    (e_shutdown r) (e_dir r) (e_addr_align r) (e_len_granularity r) (e_addr_bits r)
    (e_channel r) (e_streaming r) (e_device_open r) (e_running r) (e_non_incr_addr r)
    (e_eop_flush r) (e_desc_dequeued r) (e_desc_max r) (e_status r)
    (e_interrupt_enable_mask_value r) (e_transfer_list r) (e_cyclic_result r)
    (e_cyclic_result_bus r) (e_perf_buf_virt r) (e_perf_buf_bus r) v (e_poll_mode_bus r)
    (e_msix_irq_line r) (e_irq_bitmask r) (e_desc_bus r) (e_desc r) (e_desc_idx r)
    (e_desc_used r) (e_xdma_perf r) (e_cmplthp r) (e_prev_cpu r) (e_intr_work_cpu r).
Definition set_e_poll_mode_bus (v : Z) (r : xdma_engine) : xdma_engine :=
  mk_engine (e_magic r) (e_name r) (e_regs r) (e_sgdma_regs r) (e_bypass_offset r)
    (e_shutdown r) (e_dir r) (e_addr_align r) (e_len_granularity r) (e_addr_bits r)
    (e_channel r) (e_streaming r) (e_device_open r) (e_running r) (e_non_incr_addr r)
    (e_eop_flush r) (e_desc_dequeued r) (e_desc_max r) (e_status r)
    (e_interrupt_enable_mask_value r) (e_transfer_list r) (e_cyclic_result r)
    (e_cyclic_result_bus r) (e_perf_buf_virt r) (e_perf_buf_bus r)
    (e_poll_mode_addr_virt r) v (e_msix_irq_line r) (e_irq_bitmask r) (e_desc_bus r)
    (e_desc r) (e_desc_idx r) (e_desc_used r) (e_xdma_perf r) (e_cmplthp r)
    (e_prev_cpu r) (e_intr_work_cpu r).
Definition set_e_msix_irq_line (v : Z) (r : xdma_engine) : xdma_engine :=
  mk_engine (e_magic r) (e_name r) (e_regs r) (e_sgdma_regs r) (e_bypass_offset r)
    (e_shutdown r) (e_dir r) (e_addr_align r) (e_len_granularity r) (e_addr_bits r)
    (e_channel r) (e_streaming r) (e_device_open r) (e_running r) (e_non_incr_addr r)
    (e_eop_flush r) (e_desc_dequeued r) (e_desc_max r) (e_status r)
    (e_interrupt_enable_mask_value r) (e_transfer_list r) (e_cyclic_result r)
    (e_cyclic_result_bus r) (e_perf_buf_virt r) (e_perf_buf_bus r)
    (e_poll_mode_addr_virt r) (e_poll_mode_bus r) v (e_irq_bitmask r) (e_desc_bus r)
    (e_desc r) (e_desc_idx r) (e_desc_used r) (e_xdma_perf r) (e_cmplthp r)
    (e_prev_cpu r) (e_intr_work_cpu r).
Definition set_e_irq_bitmask (v : Z) (r : xdma_engine) : xdma_engine :=
  mk_engine (e_magic r) (e_name r) (e_regs r) (e_sgdma_regs r) (e_bypass_offset r)
    (e_shutdown r) (e_dir r) (e_addr_align r) (e_len_granularity r) (e_addr_bits r)
    (e_channel r) (e_streaming r) (e_device_open r) (e_running r) (e_non_incr_addr r)
    (e_eop_flush r) (e_desc_dequeued r) (e_desc_max r) (e_status r)
    (e_interrupt_enable_mask_value r) (e_transfer_list r) (e_cyclic_result r)
    (e_cyclic_result_bus r) (e_perf_buf_virt r) (e_perf_buf_bus r)
    (e_poll_mode_addr_virt r) (e_poll_mode_bus r) (e_msix_irq_line r) v (e_desc_bus r)
    (e_desc r) (e_desc_idx r) (e_desc_used r) (e_xdma_perf r) (e_cmplthp r)
    (e_prev_cpu r) (e_intr_work_cpu r).
Definition set_e_desc_bus (v : Z) (r : xdma_engine) : xdma_engine :=
  mk_engine (e_magic r) (e_name r) (e_regs r) (e_sgdma_regs r) (e_bypass_offset r)
    (e_shutdown r) (e_dir r) (e_addr_align r) (e_len_granularity r) (e_addr_bits r)
    (e_channel r) (e_streaming r) (e_device_open r) (e_running r) (e_non_incr_addr r)
    (e_eop_flush r) (e_desc_dequeued r) (e_desc_max r) (e_status r)
    (e_interrupt_enable_mask_value r) (e_transfer_list r) (e_cyclic_result r)
    (e_cyclic_result_bus r) (e_perf_buf_virt r) (e_perf_buf_bus r)
    (e_poll_mode_addr_virt r) (e_poll_mode_bus r) (e_msix_irq_line r)
    (e_irq_bitmask r) v (e_desc r) (e_desc_idx r) (e_desc_used r) (e_xdma_perf r)
    (e_cmplthp r) (e_prev_cpu r) (e_intr_work_cpu r).
Definition set_e_desc (v : option (list xdma_desc)) (r : xdma_engine) : xdma_engine :=
  mk_engine (e_magic r) (e_name r) (e_regs r) (e_sgdma_regs r) (e_bypass_offset r)
    (e_shutdown r) (e_dir r) (e_addr_align r) (e_len_granularity r) (e_addr_bits r)
    (e_channel r) (e_streaming r) (e_device_open r) (e_running r) (e_non_incr_addr r)
    (e_eop_flush r) (e_desc_dequeued r) (e_desc_max r) (e_status r)
    (e_interrupt_enable_mask_value r) (e_transfer_list r) (e_cyclic_result r)
    (e_cyclic_result_bus r) (e_perf_buf_virt r) (e_perf_buf_bus r)
    (e_poll_mode_addr_virt r) (e_poll_mode_bus r) (e_msix_irq_line r) (e_irq_bitmask r)
    (e_desc_bus r) v (e_desc_idx r) (e_desc_used r) (e_xdma_perf r) (e_cmplthp r)
    (e_prev_cpu r) (e_intr_work_cpu r).
Definition set_e_desc_idx (v : Z) (r : xdma_engine) : xdma_engine :=
  mk_engine (e_magic r) (e_name r) (e_regs r) (e_sgdma_regs r) (e_bypass_offset r)
    (e_shutdown r) (e_dir r) (e_addr_align r) (e_len_granularity r) (e_addr_bits r)
    (e_channel r) (e_streaming r) (e_device_open r) (e_running r) (e_non_incr_addr r)
    (e_eop_flush r) (e_desc_dequeued r) (e_desc_max r) (e_status r)
    (e_interrupt_enable_mask_value r) (e_transfer_list r) (e_cyclic_result r)
    (e_cyclic_result_bus r) (e_perf_buf_virt r) (e_perf_buf_bus r)
    (e_poll_mode_addr_virt r) (e_poll_mode_bus r) (e_msix_irq_line r) (e_irq_bitmask r)
    (e_desc_bus r) (e_desc r) v (e_desc_used r) (e_xdma_perf r) (e_cmplthp r)
    (e_prev_cpu r) (e_intr_work_cpu r).
Definition set_e_desc_used (v : Z) (r : xdma_engine) : xdma_engine :=
  mk_engine (e_magic r) (e_name r) (e_regs r) (e_sgdma_regs r) (e_bypass_offset r)
    (e_shutdown r) (e_dir r) (e_addr_align r) (e_len_granularity r) (e_addr_bits r)
    (e_channel r) (e_streaming r) (e_device_open r) (e_running r) (e_non_incr_addr r)
    (e_eop_flush r) (e_desc_dequeued r) (e_desc_max r) (e_status r)
    (e_interrupt_enable_mask_value r) (e_transfer_list r) (e_cyclic_result r)
    (e_cyclic_result_bus r) (e_perf_buf_virt r) (e_perf_buf_bus r)
    (e_poll_mode_addr_virt r) (e_poll_mode_bus r) (e_msix_irq_line r) (e_irq_bitmask r)
    (e_desc_bus r) (e_desc r) (e_desc_idx r) v (e_xdma_perf r) (e_cmplthp r)
    (e_prev_cpu r) (e_intr_work_cpu r).
Definition set_e_xdma_perf (v : option perf_ioctl) (r : xdma_engine) : xdma_engine :=
  mk_engine (e_magic r) (e_name r) (e_regs r) (e_sgdma_regs r) (e_bypass_offset r)
    (e_shutdown r) (e_dir r) (e_addr_align r) (e_len_granularity r) (e_addr_bits r)
    (e_channel r) (e_streaming r) (e_device_open r) (e_running r) (e_non_incr_addr r)
    (e_eop_flush r) (e_desc_dequeued r) (e_desc_max r) (e_status r)
    (e_interrupt_enable_mask_value r) (e_transfer_list r) (e_cyclic_result r)
    (e_cyclic_result_bus r) (e_perf_buf_virt r) (e_perf_buf_bus r)
    (e_poll_mode_addr_virt r) (e_poll_mode_bus r) (e_msix_irq_line r) (e_irq_bitmask r)
    (e_desc_bus r) (e_desc r) (e_desc_idx r) (e_desc_used r) v (e_cmplthp r)
    (e_prev_cpu r) (e_intr_work_cpu r).
Definition set_e_cmplthp (v : option Z) (r : xdma_engine) : xdma_engine :=
  mk_engine (e_magic r) (e_name r) (e_regs r) (e_sgdma_regs r) (e_bypass_offset r)
    (e_shutdown r) (e_dir r) (e_addr_align r) (e_len_granularity r) (e_addr_bits r)
    (e_channel r) (e_streaming r) (e_device_open r) (e_running r) (e_non_incr_addr r)
    (e_eop_flush r) (e_desc_dequeued r) (e_desc_max r) (e_status r)
    (e_interrupt_enable_mask_value r) (e_transfer_list r) (e_cyclic_result r)
    (e_cyclic_result_bus r) (e_perf_buf_virt r) (e_perf_buf_bus r)
    (e_poll_mode_addr_virt r) (e_poll_mode_bus r) (e_msix_irq_line r) (e_irq_bitmask r)
    (e_desc_bus r) (e_desc r) (e_desc_idx r) (e_desc_used r) (e_xdma_perf r) v
    (e_prev_cpu r) (e_intr_work_cpu r).
Definition set_e_prev_cpu (v : Z) (r : xdma_engine) : xdma_engine :=
  mk_engine (e_magic r) (e_name r) (e_regs r) (e_sgdma_regs r) (e_bypass_offset r)
    (e_shutdown r) (e_dir r) (e_addr_align r) (e_len_granularity r) (e_addr_bits r)
    (e_channel r) (e_streaming r) (e_device_open r) (e_running r) (e_non_incr_addr r)
    (e_eop_flush r) (e_desc_dequeued r) (e_desc_max r) (e_status r)
    (e_interrupt_enable_mask_value r) (e_transfer_list r) (e_cyclic_result r)
    (e_cyclic_result_bus r) (e_perf_buf_virt r) (e_perf_buf_bus r)
    (e_poll_mode_addr_virt r) (e_poll_mode_bus r) (e_msix_irq_line r) (e_irq_bitmask r)
    (e_desc_bus r) (e_desc r) (e_desc_idx r) (e_desc_used r) (e_xdma_perf r)
    (e_cmplthp r) v (e_intr_work_cpu r).
Definition set_e_intr_work_cpu (v : Z) (r : xdma_engine) : xdma_engine :=
  mk_engine (e_magic r) (e_name r) (e_regs r) (e_sgdma_regs r) (e_bypass_offset r)
    (e_shutdown r) (e_dir r) (e_addr_align r) (e_len_granularity r) (e_addr_bits r)
    (e_channel r) (e_streaming r) (e_device_open r) (e_running r) (e_non_incr_addr r)
    (e_eop_flush r) (e_desc_dequeued r) (e_desc_max r) (e_status r)
    (e_interrupt_enable_mask_value r) (e_transfer_list r) (e_cyclic_result r)
    (e_cyclic_result_bus r) (e_perf_buf_virt r) (e_perf_buf_bus r)
    (e_poll_mode_addr_virt r) (e_poll_mode_bus r) (e_msix_irq_line r) (e_irq_bitmask r)
    (e_desc_bus r) (e_desc r) (e_desc_idx r) (e_desc_used r) (e_xdma_perf r)
    (e_cmplthp r) (e_prev_cpu r) v.
Definition set_u_events_irq (v : Z) (r : user_irq) : user_irq :=
  mk_user_irq (u_user_idx r) v (u_handler r) (u_dev r).
Definition set_u_handler (v : Z) (r : user_irq) : user_irq :=
  mk_user_irq (u_user_idx r) (u_events_irq r) v (u_dev r).
Definition set_u_dev (v : Z) (r : user_irq) : user_irq :=
  mk_user_irq (u_user_idx r) (u_events_irq r) (u_handler r) v.
Definition set_d_magic (v : Z) (r : xdma_dev) : xdma_dev :=
  mk_dev v (d_pdev r) (d_idx r) (d_flags r) (d_bar r) (d_user_bar_idx r)
    (d_config_bar_idx r) (d_bypass_bar_idx r) (d_regions_in_use r) (d_got_regions r)
    (d_user_max r) (d_c2h_channel_max r) (d_h2c_channel_max r) (d_irq_count r)
    (d_irq_line r) (d_msi_enabled r) (d_msix_enabled r) (d_user_irq r)
    (d_mask_irq_user r) (d_engines_num r) (d_mask_irq_h2c r) (d_mask_irq_c2h r)
    (d_feature_id r).
Definition set_d_pdev (v : Z) (r : xdma_dev) : xdma_dev :=
  mk_dev (d_magic r) v (d_idx r) (d_flags r) (d_bar r) (d_user_bar_idx r)
    (d_config_bar_idx r) (d_bypass_bar_idx r) (d_regions_in_use r) (d_got_regions r)
    (d_user_max r) (d_c2h_channel_max r) (d_h2c_channel_max r) (d_irq_count r)
    (d_irq_line r) (d_msi_enabled r) (d_msix_enabled r) (d_user_irq r)
    (d_mask_irq_user r) (d_engines_num r) (d_mask_irq_h2c r) (d_mask_irq_c2h r)
    (d_feature_id r).
Definition set_d_idx (v : Z) (r : xdma_dev) : xdma_dev :=
  mk_dev (d_magic r) (d_pdev r) v (d_flags r) (d_bar r) (d_user_bar_idx r)
    (d_config_bar_idx r) (d_bypass_bar_idx r) (d_regions_in_use r) (d_got_regions r)
    (d_user_max r) (d_c2h_channel_max r) (d_h2c_channel_max r) (d_irq_count r)
    (d_irq_line r) (d_msi_enabled r) (d_msix_enabled r) (d_user_irq r)
    (d_mask_irq_user r) (d_engines_num r) (d_mask_irq_h2c r) (d_mask_irq_c2h r)
    (d_feature_id r).
Definition set_d_flags (v : Z) (r : xdma_dev) : xdma_dev :=
  mk_dev (d_magic r) (d_pdev r) (d_idx r) v (d_bar r) (d_user_bar_idx r)
    (d_config_bar_idx r) (d_bypass_bar_idx r) (d_regions_in_use r) (d_got_regions r)
    (d_user_max r) (d_c2h_channel_max r) (d_h2c_channel_max r) (d_irq_count r)
    (d_irq_line r) (d_msi_enabled r) (d_msix_enabled r) (d_user_irq r)
    (d_mask_irq_user r) (d_engines_num r) (d_mask_irq_h2c r) (d_mask_irq_c2h r)
    (d_feature_id r).
Definition set_d_bar (v : list Z) (r : xdma_dev) : xdma_dev :=
  mk_dev (d_magic r) (d_pdev r) (d_idx r) (d_flags r) v (d_user_bar_idx r)
    (d_config_bar_idx r) (d_bypass_bar_idx r) (d_regions_in_use r) (d_got_regions r)
    (d_user_max r) (d_c2h_channel_max r) (d_h2c_channel_max r) (d_irq_count r)
    (d_irq_line r) (d_msi_enabled r) (d_msix_enabled r) (d_user_irq r)
    (d_mask_irq_user r) (d_engines_num r) (d_mask_irq_h2c r) (d_mask_irq_c2h r)
    (d_feature_id r).
Definition set_d_user_bar_idx (v : Z) (r : xdma_dev) : xdma_dev :=
  mk_dev (d_magic r) (d_pdev r) (d_idx r) (d_flags r) (d_bar r) v (d_config_bar_idx r)
    (d_bypass_bar_idx r) (d_regions_in_use r) (d_got_regions r) (d_user_max r)
    (d_c2h_channel_max r) (d_h2c_channel_max r) (d_irq_count r) (d_irq_line r)
    (d_msi_enabled r) (d_msix_enabled r) (d_user_irq r) (d_mask_irq_user r)
    (d_engines_num r) (d_mask_irq_h2c r) (d_mask_irq_c2h r) (d_feature_id r).
Definition set_d_config_bar_idx (v : Z) (r : xdma_dev) : xdma_dev :=
  mk_dev (d_magic r) (d_pdev r) (d_idx r) (d_flags r) (d_bar r) (d_user_bar_idx r) v
    (d_bypass_bar_idx r) (d_regions_in_use r) (d_got_regions r) (d_user_max r)
    (d_c2h_channel_max r) (d_h2c_channel_max r) (d_irq_count r) (d_irq_line r)
    (d_msi_enabled r) (d_msix_enabled r) (d_user_irq r) (d_mask_irq_user r)
    (d_engines_num r) (d_mask_irq_h2c r) (d_mask_irq_c2h r) (d_feature_id r).
Definition set_d_bypass_bar_idx (v : Z) (r : xdma_dev) : xdma_dev :=
  mk_dev (d_magic r) (d_pdev r) (d_idx r) (d_flags r) (d_bar r) (d_user_bar_idx r)
    (d_config_bar_idx r) v (d_regions_in_use r) (d_got_regions r) (d_user_max r)
    (d_c2h_channel_max r) (d_h2c_channel_max r) (d_irq_count r) (d_irq_line r)
    (d_msi_enabled r) (d_msix_enabled r) (d_user_irq r) (d_mask_irq_user r)
    (d_engines_num r) (d_mask_irq_h2c r) (d_mask_irq_c2h r) (d_feature_id r).
Definition set_d_regions_in_use (v : bool) (r : xdma_dev) : xdma_dev :=
  mk_dev (d_magic r) (d_pdev r) (d_idx r) (d_flags r) (d_bar r) (d_user_bar_idx r)
    (d_config_bar_idx r) (d_bypass_bar_idx r) v (d_got_regions r) (d_user_max r)
    (d_c2h_channel_max r) (d_h2c_channel_max r) (d_irq_count r) (d_irq_line r)
    (d_msi_enabled r) (d_msix_enabled r) (d_user_irq r) (d_mask_irq_user r)
    (d_engines_num r) (d_mask_irq_h2c r) (d_mask_irq_c2h r) (d_feature_id r).
Definition set_d_got_regions (v : bool) (r : xdma_dev) : xdma_dev :=
  mk_dev (d_magic r) (d_pdev r) (d_idx r) (d_flags r) (d_bar r) (d_user_bar_idx r)
    (d_config_bar_idx r) (d_bypass_bar_idx r) (d_regions_in_use r) v (d_user_max r)
    (d_c2h_channel_max r) (d_h2c_channel_max r) (d_irq_count r) (d_irq_line r)
    (d_msi_enabled r) (d_msix_enabled r) (d_user_irq r) (d_mask_irq_user r)
    (d_engines_num r) (d_mask_irq_h2c r) (d_mask_irq_c2h r) (d_feature_id r).
Definition set_d_user_max (v : Z) (r : xdma_dev) : xdma_dev :=
  mk_dev (d_magic r) (d_pdev r) (d_idx r) (d_flags r) (d_bar r) (d_user_bar_idx r)
    (d_config_bar_idx r) (d_bypass_bar_idx r) (d_regions_in_use r) (d_got_regions r) v
    (d_c2h_channel_max r) (d_h2c_channel_max r) (d_irq_count r) (d_irq_line r)
    (d_msi_enabled r) (d_msix_enabled r) (d_user_irq r) (d_mask_irq_user r)
    (d_engines_num r) (d_mask_irq_h2c r) (d_mask_irq_c2h r) (d_feature_id r).
Definition set_d_c2h_channel_max (v : Z) (r : xdma_dev) : xdma_dev :=
  mk_dev (d_magic r) (d_pdev r) (d_idx r) (d_flags r) (d_bar r) (d_user_bar_idx r)
    (d_config_bar_idx r) (d_bypass_bar_idx r) (d_regions_in_use r) (d_got_regions r)
    (d_user_max r) v (d_h2c_channel_max r) (d_irq_count r) (d_irq_line r)
    (d_msi_enabled r) (d_msix_enabled r) (d_user_irq r) (d_mask_irq_user r)
    (d_engines_num r) (d_mask_irq_h2c r) (d_mask_irq_c2h r) (d_feature_id r).
Definition set_d_h2c_channel_max (v : Z) (r : xdma_dev) : xdma_dev :=
  mk_dev (d_magic r) (d_pdev r) (d_idx r) (d_flags r) (d_bar r) (d_user_bar_idx r)
    (d_config_bar_idx r) (d_bypass_bar_idx r) (d_regions_in_use r) (d_got_regions r)
    (d_user_max r) (d_c2h_channel_max r) v (d_irq_count r) (d_irq_line r)
    (d_msi_enabled r) (d_msix_enabled r) (d_user_irq r) (d_mask_irq_user r)
    (d_engines_num r) (d_mask_irq_h2c r) (d_mask_irq_c2h r) (d_feature_id r).
Definition set_d_irq_count (v : Z) (r : xdma_dev) : xdma_dev :=
  mk_dev (d_magic r) (d_pdev r) (d_idx r) (d_flags r) (d_bar r) (d_user_bar_idx r)
    (d_config_bar_idx r) (d_bypass_bar_idx r) (d_regions_in_use r) (d_got_regions r)
    (d_user_max r) (d_c2h_channel_max r) (d_h2c_channel_max r) v (d_irq_line r)
    (d_msi_enabled r) (d_msix_enabled r) (d_user_irq r) (d_mask_irq_user r)
    (d_engines_num r) (d_mask_irq_h2c r) (d_mask_irq_c2h r) (d_feature_id r).
Definition set_d_irq_line (v : Z) (r : xdma_dev) : xdma_dev :=
  mk_dev (d_magic r) (d_pdev r) (d_idx r) (d_flags r) (d_bar r) (d_user_bar_idx r)
    (d_config_bar_idx r) (d_bypass_bar_idx r) (d_regions_in_use r) (d_got_regions r)
    (d_user_max r) (d_c2h_channel_max r) (d_h2c_channel_max r) (d_irq_count r) v
    (d_msi_enabled r) (d_msix_enabled r) (d_user_irq r) (d_mask_irq_user r)
    (d_engines_num r) (d_mask_irq_h2c r) (d_mask_irq_c2h r) (d_feature_id r).
Definition set_d_msi_enabled (v : bool) (r : xdma_dev) : xdma_dev :=
  mk_dev (d_magic r) (d_pdev r) (d_idx r) (d_flags r) (d_bar r) (d_user_bar_idx r)
    (d_config_bar_idx r) (d_bypass_bar_idx r) (d_regions_in_use r) (d_got_regions r)
    (d_user_max r) (d_c2h_channel_max r) (d_h2c_channel_max r) (d_irq_count r)
    (d_irq_line r) v (d_msix_enabled r) (d_user_irq r) (d_mask_irq_user r)
    (d_engines_num r) (d_mask_irq_h2c r) (d_mask_irq_c2h r) (d_feature_id r).
Definition set_d_msix_enabled (v : bool) (r : xdma_dev) : xdma_dev :=
  mk_dev (d_magic r) (d_pdev r) (d_idx r) (d_flags r) (d_bar r) (d_user_bar_idx r)
    (d_config_bar_idx r) (d_bypass_bar_idx r) (d_regions_in_use r) (d_got_regions r)
    (d_user_max r) (d_c2h_channel_max r) (d_h2c_channel_max r) (d_irq_count r)
    (d_irq_line r) (d_msi_enabled r) v (d_user_irq r) (d_mask_irq_user r)
    (d_engines_num r) (d_mask_irq_h2c r) (d_mask_irq_c2h r) (d_feature_id r).
Definition set_d_user_irq (v : list user_irq) (r : xdma_dev) : xdma_dev :=
  mk_dev (d_magic r) (d_pdev r) (d_idx r) (d_flags r) (d_bar r) (d_user_bar_idx r)
    (d_config_bar_idx r) (d_bypass_bar_idx r) (d_regions_in_use r) (d_got_regions r)
    (d_user_max r) (d_c2h_channel_max r) (d_h2c_channel_max r) (d_irq_count r)
    (d_irq_line r) (d_msi_enabled r) (d_msix_enabled r) v (d_mask_irq_user r)
    (d_engines_num r) (d_mask_irq_h2c r) (d_mask_irq_c2h r) (d_feature_id r).
Definition set_d_mask_irq_user (v : Z) (r : xdma_dev) : xdma_dev :=
  mk_dev (d_magic r) (d_pdev r) (d_idx r) (d_flags r) (d_bar r) (d_user_bar_idx r)
    (d_config_bar_idx r) (d_bypass_bar_idx r) (d_regions_in_use r) (d_got_regions r)
    (d_user_max r) (d_c2h_channel_max r) (d_h2c_channel_max r) (d_irq_count r)
    (d_irq_line r) (d_msi_enabled r) (d_msix_enabled r) (d_user_irq r) v
    (d_engines_num r) (d_mask_irq_h2c r) (d_mask_irq_c2h r) (d_feature_id r).
Definition set_d_engines_num (v : Z) (r : xdma_dev) : xdma_dev :=
  mk_dev (d_magic r) (d_pdev r) (d_idx r) (d_flags r) (d_bar r) (d_user_bar_idx r)
    (d_config_bar_idx r) (d_bypass_bar_idx r) (d_regions_in_use r) (d_got_regions r)
    (d_user_max r) (d_c2h_channel_max r) (d_h2c_channel_max r) (d_irq_count r)
    (d_irq_line r) (d_msi_enabled r) (d_msix_enabled r) (d_user_irq r)
    (d_mask_irq_user r) v (d_mask_irq_h2c r) (d_mask_irq_c2h r) (d_feature_id r).
Definition set_d_mask_irq_h2c (v : Z) (r : xdma_dev) : xdma_dev :=
  mk_dev (d_magic r) (d_pdev r) (d_idx r) (d_flags r) (d_bar r) (d_user_bar_idx r)
    (d_config_bar_idx r) (d_bypass_bar_idx r) (d_regions_in_use r) (d_got_regions r)
    (d_user_max r) (d_c2h_channel_max r) (d_h2c_channel_max r) (d_irq_count r)
    (d_irq_line r) (d_msi_enabled r) (d_msix_enabled r) (d_user_irq r)
    (d_mask_irq_user r) (d_engines_num r) v (d_mask_irq_c2h r) (d_feature_id r).
Definition set_d_mask_irq_c2h (v : Z) (r : xdma_dev) : xdma_dev :=
  mk_dev (d_magic r) (d_pdev r) (d_idx r) (d_flags r) (d_bar r) (d_user_bar_idx r)
    (d_config_bar_idx r) (d_bypass_bar_idx r) (d_regions_in_use r) (d_got_regions r)
    (d_user_max r) (d_c2h_channel_max r) (d_h2c_channel_max r) (d_irq_count r)
    (d_irq_line r) (d_msi_enabled r) (d_msix_enabled r) (d_user_irq r)
    (d_mask_irq_user r) (d_engines_num r) (d_mask_irq_h2c r) v (d_feature_id r).
Definition set_d_feature_id (v : Z) (r : xdma_dev) : xdma_dev :=
  mk_dev (d_magic r) (d_pdev r) (d_idx r) (d_flags r) (d_bar r) (d_user_bar_idx r)
    (d_config_bar_idx r) (d_bypass_bar_idx r) (d_regions_in_use r) (d_got_regions r)
    (d_user_max r) (d_c2h_channel_max r) (d_h2c_channel_max r) (d_irq_count r)
    (d_irq_line r) (d_msi_enabled r) (d_msix_enabled r) (d_user_irq r)
    (d_mask_irq_user r) (d_engines_num r) (d_mask_irq_h2c r) (d_mask_irq_c2h r) v.
Definition set_sg_nents (v : Z) (r : sg_table) : sg_table :=
  mk_sgt (sg_sgl r) v (sg_orig_nents r).
Definition set_r_sgt (v : Z) (r : xdma_request_cb) : xdma_request_cb :=
  mk_req v (r_ep_addr r) (r_aperture r) (r_total_len r) (r_offset r) (r_sg r)
    (r_sg_idx r) (r_sg_offset r) (r_cb r) (r_sw_desc_idx r) (r_sw_desc_cnt r)
    (r_sdesc r).
Definition set_r_ep_addr (v : Z) (r : xdma_request_cb) : xdma_request_cb :=
  mk_req (r_sgt r) v (r_aperture r) (r_total_len r) (r_offset r) (r_sg r) (r_sg_idx r)
    (r_sg_offset r) (r_cb r) (r_sw_desc_idx r) (r_sw_desc_cnt r) (r_sdesc r).
Definition set_r_aperture (v : Z) (r : xdma_request_cb) : xdma_request_cb :=
  mk_req (r_sgt r) (r_ep_addr r) v (r_total_len r) (r_offset r) (r_sg r) (r_sg_idx r)
    (r_sg_offset r) (r_cb r) (r_sw_desc_idx r) (r_sw_desc_cnt r) (r_sdesc r).
Definition set_r_total_len (v : Z) (r : xdma_request_cb) : xdma_request_cb :=
  mk_req (r_sgt r) (r_ep_addr r) (r_aperture r) v (r_offset r) (r_sg r) (r_sg_idx r)
    (r_sg_offset r) (r_cb r) (r_sw_desc_idx r) (r_sw_desc_cnt r) (r_sdesc r).
Definition set_r_offset (v : Z) (r : xdma_request_cb) : xdma_request_cb :=
  mk_req (r_sgt r) (r_ep_addr r) (r_aperture r) (r_total_len r) v (r_sg r) (r_sg_idx r)
    (r_sg_offset r) (r_cb r) (r_sw_desc_idx r) (r_sw_desc_cnt r) (r_sdesc r).
Definition set_r_sg (v : Z) (r : xdma_request_cb) : xdma_request_cb :=
  mk_req (r_sgt r) (r_ep_addr r) (r_aperture r) (r_total_len r) (r_offset r) v
    (r_sg_idx r) (r_sg_offset r) (r_cb r) (r_sw_desc_idx r) (r_sw_desc_cnt r)
    (r_sdesc r).
Definition set_r_sg_idx (v : Z) (r : xdma_request_cb) : xdma_request_cb :=
  mk_req (r_sgt r) (r_ep_addr r) (r_aperture r) (r_total_len r) (r_offset r) (r_sg r) v
    (r_sg_offset r) (r_cb r) (r_sw_desc_idx r) (r_sw_desc_cnt r) (r_sdesc r).
Definition set_r_sg_offset (v : Z) (r : xdma_request_cb) : xdma_request_cb :=
  mk_req (r_sgt r) (r_ep_addr r) (r_aperture r) (r_total_len r) (r_offset r) (r_sg r)
    (r_sg_idx r) v (r_cb r) (r_sw_desc_idx r) (r_sw_desc_cnt r) (r_sdesc r).
Definition set_r_cb (v : option Z) (r : xdma_request_cb) : xdma_request_cb :=
  mk_req (r_sgt r) (r_ep_addr r) (r_aperture r) (r_total_len r) (r_offset r) (r_sg r)
    (r_sg_idx r) (r_sg_offset r) v (r_sw_desc_idx r) (r_sw_desc_cnt r) (r_sdesc r).
Definition set_r_sw_desc_idx (v : Z) (r : xdma_request_cb) : xdma_request_cb :=
  mk_req (r_sgt r) (r_ep_addr r) (r_aperture r) (r_total_len r) (r_offset r) (r_sg r)
    (r_sg_idx r) (r_sg_offset r) (r_cb r) v (r_sw_desc_cnt r) (r_sdesc r).
Definition set_r_sw_desc_cnt (v : Z) (r : xdma_request_cb) : xdma_request_cb :=
  mk_req (r_sgt r) (r_ep_addr r) (r_aperture r) (r_total_len r) (r_offset r) (r_sg r)
    (r_sg_idx r) (r_sg_offset r) (r_cb r) (r_sw_desc_idx r) v (r_sdesc r).
Definition set_r_sdesc (v : list sw_desc) (r : xdma_request_cb) : xdma_request_cb :=
  mk_req (r_sgt r) (r_ep_addr r) (r_aperture r) (r_total_len r) (r_offset r) (r_sg r)
    (r_sg_idx r) (r_sg_offset r) (r_cb r) (r_sw_desc_idx r) (r_sw_desc_cnt r) v.
Definition set_cb_pages_nr (v : Z) (r : xdma_io_cb) : xdma_io_cb :=
  mk_iocb (cb_buf r) (cb_len r) (cb_private r) v (cb_sgt r) (cb_pages r) (cb_count r)
    (cb_ep_addr r) (cb_req r) (cb_write r) (cb_io_done r).
Definition set_cb_pages (v : option (list Z)) (r : xdma_io_cb) : xdma_io_cb :=
  mk_iocb (cb_buf r) (cb_len r) (cb_private r) (cb_pages_nr r) (cb_sgt r) v (cb_count r)
    (cb_ep_addr r) (cb_req r) (cb_write r) (cb_io_done r).
Definition set_cb_count (v : Z) (r : xdma_io_cb) : xdma_io_cb :=
  mk_iocb (cb_buf r) (cb_len r) (cb_private r) (cb_pages_nr r) (cb_sgt r) (cb_pages r) v
    (cb_ep_addr r) (cb_req r) (cb_write r) (cb_io_done r).
Definition set_cb_req (v : option Z) (r : xdma_io_cb) : xdma_io_cb :=
  mk_iocb (cb_buf r) (cb_len r) (cb_private r) (cb_pages_nr r) (cb_sgt r) (cb_pages r)
    (cb_count r) (cb_ep_addr r) v (cb_write r) (cb_io_done r).
Definition set_cb_write (v : bool) (r : xdma_io_cb) : xdma_io_cb :=
  mk_iocb (cb_buf r) (cb_len r) (cb_private r) (cb_pages_nr r) (cb_sgt r) (cb_pages r)
    (cb_count r) (cb_ep_addr r) (cb_req r) v (cb_io_done r).
Definition set_cb_io_done (v : bool) (r : xdma_io_cb) : xdma_io_cb :=
  mk_iocb (cb_buf r) (cb_len r) (cb_private r) (cb_pages_nr r) (cb_sgt r) (cb_pages r)
    (cb_count r) (cb_ep_addr r) (cb_req r) (cb_write r) v.
Definition set_ca_cmpl_cnt (v : Z) (r : cdev_async_io) : cdev_async_io :=
  mk_caio (ca_xcdev r) (ca_cb r) (ca_write r) (ca_cancel r) v (ca_req_cnt r) (ca_res r)
    (ca_res2 r) (ca_err_cnt r).
Definition set_ca_res (v : Z) (r : cdev_async_io) : cdev_async_io :=
  mk_caio (ca_xcdev r) (ca_cb r) (ca_write r) (ca_cancel r) (ca_cmpl_cnt r)
    (ca_req_cnt r) v (ca_res2 r) (ca_err_cnt r).
Definition set_ca_res2 (v : Z) (r : cdev_async_io) : cdev_async_io :=
  mk_caio (ca_xcdev r) (ca_cb r) (ca_write r) (ca_cancel r) (ca_cmpl_cnt r)
    (ca_req_cnt r) (ca_res r) v (ca_err_cnt r).
Definition set_ca_err_cnt (v : Z) (r : cdev_async_io) : cdev_async_io :=
  mk_caio (ca_xcdev r) (ca_cb r) (ca_write r) (ca_cancel r) (ca_cmpl_cnt r)
    (ca_req_cnt r) (ca_res r) (ca_res2 r) v.
Definition set_s_xdev (v : xdma_dev) (r : est) : est :=
  mk_est v (s_eng r) (s_xfers r) (s_sgts r) (s_reqs r) (s_cbs r) (s_caios r) (s_log r).
Definition set_s_eng (v : xdma_engine) (r : est) : est :=
  mk_est (s_xdev r) v (s_xfers r) (s_sgts r) (s_reqs r) (s_cbs r) (s_caios r) (s_log r).
Definition set_s_xfers (v : gmap Z xdma_transfer) (r : est) : est :=
  mk_est (s_xdev r) (s_eng r) v (s_sgts r) (s_reqs r) (s_cbs r) (s_caios r) (s_log r).
Definition set_s_sgts (v : gmap Z sg_table) (r : est) : est :=
  mk_est (s_xdev r) (s_eng r) (s_xfers r) v (s_reqs r) (s_cbs r) (s_caios r) (s_log r).
Definition set_s_reqs (v : gmap Z xdma_request_cb) (r : est) : est :=
  mk_est (s_xdev r) (s_eng r) (s_xfers r) (s_sgts r) v (s_cbs r) (s_caios r) (s_log r).
Definition set_s_cbs (v : gmap Z xdma_io_cb) (r : est) : est :=
  mk_est (s_xdev r) (s_eng r) (s_xfers r) (s_sgts r) (s_reqs r) v (s_caios r) (s_log r).
Definition set_s_caios (v : gmap Z cdev_async_io) (r : est) : est :=
  mk_est (s_xdev r) (s_eng r) (s_xfers r) (s_sgts r) (s_reqs r) (s_cbs r) v (s_log r).

(** ** Access to the engine and to the stores *)

Definition get_eng : M est xdma_engine := gets s_eng.
Definition upd_eng (f : xdma_engine -> xdma_engine) : M est unit :=
  modify (fun s => set_s_eng (f (s_eng s)) s).
Definition upd_xdev (f : xdma_dev -> xdma_dev) : M est unit :=
  modify (fun s => set_s_xdev (f (s_xdev s)) s).

(** Dereference of a transfer pointer; a freed transfer is undefined behaviour. *)
Definition get_xfer (t : Z) : M est xdma_transfer :=
  let* s := get in deref (s_xfers s !! t).
Definition put_xfer (t : Z) (x : xdma_transfer) : M est unit :=
  modify (fun s => set_s_xfers (<[t := x]> (s_xfers s)) s).
Definition upd_xfer (t : Z) (f : xdma_transfer -> xdma_transfer) : M est unit :=
  let* x := get_xfer t in put_xfer t (f x).

Definition get_sgt (g : Z) : M est sg_table :=
  let* s := get in deref (s_sgts s !! g).
Definition upd_sgt (g : Z) (f : sg_table -> sg_table) : M est unit :=
  let* x := get_sgt g in modify (fun s => set_s_sgts (<[g := f x]> (s_sgts s)) s).

Definition get_req (r : Z) : M est xdma_request_cb :=
  let* s := get in deref (s_reqs s !! r).
Definition upd_req (r : Z) (f : xdma_request_cb -> xdma_request_cb) : M est unit :=
  let* x := get_req r in modify (fun s => set_s_reqs (<[r := f x]> (s_reqs s)) s).

Definition get_caio (c : Z) : M est cdev_async_io :=
  let* s := get in deref (s_caios s !! c).
Definition upd_caio (c : Z) (f : cdev_async_io -> cdev_async_io) : M est unit :=
  let* x := get_caio c in modify (fun s => set_s_caios (<[c := f x]> (s_caios s)) s).

Definition get_cb (c : Z) : M est xdma_io_cb :=
  let* s := get in deref (s_cbs s !! c).
Definition upd_cb (c : Z) (f : xdma_io_cb -> xdma_io_cb) : M est unit :=
  let* x := get_cb c in modify (fun s => set_s_cbs (<[c := f x]> (s_cbs s)) s).

(** Update of the descriptor [engine->desc + i]. *)
Definition upd_desc (i : Z) (f : xdma_desc -> xdma_desc) : M est unit :=
  let* e := get_eng in
  let* ring := deref (e_desc e) in
  let* ring' := deref (zupdate ring i f) in
  upd_eng (set_e_desc (Some ring')).

(** ** Rules for the accessors *)

Section rules.
Context `{Env}.

Lemma wp_get_eng (Q : xdma_engine -> est -> Prop) s : Q (s_eng s) s -> wp get_eng Q s.
Proof. done. Qed.

Lemma wp_upd_eng f (Q : unit -> est -> Prop) s :
  Q tt (set_s_eng (f (s_eng s)) s) -> wp (upd_eng f) Q s.
Proof. done. Qed.

Lemma wp_get_xfer t x (Q : xdma_transfer -> est -> Prop) s :
  s_xfers s !! t = Some x -> Q x s -> wp (get_xfer t) Q s.
Proof. intros Hx HQ. unfold wp, get_xfer, bind, get, deref. by rewrite Hx. Qed.

Lemma wp_put_xfer t x (Q : unit -> est -> Prop) s :
  Q tt (set_s_xfers (<[t := x]> (s_xfers s)) s) -> wp (put_xfer t x) Q s.
Proof. done. Qed.

Lemma wp_upd_xfer t f x (Q : unit -> est -> Prop) s :
  s_xfers s !! t = Some x ->
  Q tt (set_s_xfers (<[t := f x]> (s_xfers s)) s) -> wp (upd_xfer t f) Q s.
Proof. intros Hx HQ. apply wp_bind. eapply wp_get_xfer; eauto. Qed.

Lemma wp_get_sgt g x (Q : sg_table -> est -> Prop) s :
  s_sgts s !! g = Some x -> Q x s -> wp (get_sgt g) Q s.
Proof. intros Hx HQ. unfold wp, get_sgt, bind, get, deref. by rewrite Hx. Qed.

Lemma wp_upd_sgt g f x (Q : unit -> est -> Prop) s :
  s_sgts s !! g = Some x ->
  Q tt (set_s_sgts (<[g := f x]> (s_sgts s)) s) -> wp (upd_sgt g f) Q s.
Proof. intros Hx HQ. apply wp_bind. eapply wp_get_sgt; eauto. Qed.

Lemma wp_get_req r x (Q : xdma_request_cb -> est -> Prop) s :
  s_reqs s !! r = Some x -> Q x s -> wp (get_req r) Q s.
Proof. intros Hx HQ. unfold wp, get_req, bind, get, deref. by rewrite Hx. Qed.

Lemma wp_upd_req r f x (Q : unit -> est -> Prop) s :
  s_reqs s !! r = Some x ->
  Q tt (set_s_reqs (<[r := f x]> (s_reqs s)) s) -> wp (upd_req r f) Q s.
Proof. intros Hx HQ. apply wp_bind. eapply wp_get_req; eauto. Qed.

Lemma wp_get_cb c x (Q : xdma_io_cb -> est -> Prop) s :
  s_cbs s !! c = Some x -> Q x s -> wp (get_cb c) Q s.
Proof. intros Hx HQ. unfold wp, get_cb, bind, get, deref. by rewrite Hx. Qed.

Lemma wp_upd_cb c f x (Q : unit -> est -> Prop) s :
  s_cbs s !! c = Some x ->
  Q tt (set_s_cbs (<[c := f x]> (s_cbs s)) s) -> wp (upd_cb c f) Q s.
Proof. intros Hx HQ. apply wp_bind. eapply wp_get_cb; eauto. Qed.

Lemma wp_upd_desc (i : Z) f (ring : list xdma_desc) (Q : unit -> est -> Prop) s :
  e_desc (s_eng s) = Some ring ->
  0 <= i < Z.of_nat (length ring) ->
  (forall d, zlookup ring i = Some d ->
     Q tt (set_s_eng (set_e_desc (Some (<[Z.to_nat i := f d]> ring)) (s_eng s)) s)) ->
  wp (upd_desc i f) Q s.
Proof.
  intros Hr Hi HQ. destruct (zupdate_in ring i f Hi) as (d & Hd & Hu).
  unfold wp, upd_desc, get_eng, gets, bind, deref. rewrite Hr, Hu. by apply HQ.
Qed.

Lemma wp_emit ev (Q : unit -> est -> Prop) s :
  Q tt (set_log (ev :: log_of s) s) -> wp (emit ev) Q s.
Proof. done. Qed.

Lemma wp_read_register a (Q : Z -> est -> Prop) s :
  Q (u32 (io_read (s_log s) a))
    (set_log (EvRead a (u32 (io_read (s_log s) a)) :: s_log s) s) ->
  wp (read_register a) Q s.
Proof. done. Qed.

Lemma wp_write_register v a (Q : unit -> est -> Prop) s :
  Q tt (set_log (EvWrite a v :: s_log s) s) -> wp (write_register v a) Q s.
Proof. done. Qed.

Lemma wp_kcall f args (Q : Z -> est -> Prop) s :
  Q (kernel (s_log s) f args)
    (set_log (EvCall f args (kernel (s_log s) f args) :: s_log s) s) ->
  wp (kcall f args) Q s.
Proof. done. Qed.

Lemma wp_kdo f args (Q : unit -> est -> Prop) s :
  Q tt (set_log (EvCall f args 0 :: s_log s) s) -> wp (kdo f args) Q s.
Proof. done. Qed.
End rules.

(** [drv_step] extends [wp_step] with the accessors. *)
Ltac drv_step :=
  lazymatch goal with
  | |- wp get_eng _ _ => apply wp_get_eng
  | |- wp (upd_eng _) _ _ => apply wp_upd_eng
  | |- wp (put_xfer _ _) _ _ => apply wp_put_xfer
  | |- wp (read_register _) _ _ => apply wp_read_register
  | |- wp (write_register _ _) _ _ => apply wp_write_register
  | |- wp (kcall _ _) _ _ => apply wp_kcall
  | |- wp (kdo _ _) _ _ => apply wp_kdo
  | |- wp (get_xfer _) _ _ => eapply wp_get_xfer; [by eauto|]
  | |- wp (upd_xfer _ _) _ _ => eapply wp_upd_xfer; [by eauto|]
  | |- _ => wp_step
  end.
Ltac drv_go := repeat (drv_step; cbn beta).

(** ** Growth of the log

    [extends lg lg']: [lg'] is [lg] with later events of the DMA layer: register
    accesses, and calls of the kernel other than the ones that answer an
    asynchronous request, or pin or give back a page of a user buffer. *)
Definition driver_event (ev : event) : bool :=
  match ev with
  | EvCall f _ _ => negb (String.eqb f "put_page" || String.eqb f "pinned page" || String.eqb f "ki_complete")
  | _ => true
  end.

Definition extends (lg lg' : list event) : Prop :=
  exists l, lg' = l ++ lg /\ Forall (fun ev => driver_event ev = true) l.

#[export] Instance extends_preorder : PreOrder extends.
Proof.
  split; [by exists []|]. intros l1 l2 l3 (a & -> & Ha) (b & -> & Hb). exists (b ++ a).
  rewrite app_assoc. split; [done|]. by apply Forall_app.
Qed.

Lemma extends_cons ev lg lg' : driver_event ev = true -> extends lg lg' -> extends lg (ev :: lg').
Proof. intros He (l & -> & Hl). exists (ev :: l). split; [done|]. by constructor. Qed.

Lemma extends_app l lg lg' :
  Forall (fun ev => driver_event ev = true) l -> extends lg lg' -> extends lg (l ++ lg').
Proof. intros Hl (l' & -> & Hl'). exists (l ++ l'). rewrite app_assoc. split; [done|]. by apply Forall_app. Qed.

Lemma extends_refl lg : extends lg lg.
Proof. reflexivity. Qed.

Create HintDb events.
#[export] Hint Resolve extends_cons extends_app extends_refl : events.
#[export] Hint Extern 1 (driver_event _ = true) => reflexivity : events.
