(* ===== verification/Desc.v ===== *)
(** * Desc: hardware descriptors and descriptor chains

    The functions of [libxdma.c] that fill one descriptor or link an array of
    them, and what the hardware sees: a chain of descriptors followed through
    their [next] addresses. *)

From S2P Require Import Prelude Hw State.

Definition DESC_SIZE := 32. (* sizeof(struct xdma_desc) *)
Definition RESULT_SIZE := 32. (* sizeof(struct xdma_result) *)

(** ** Operations on one descriptor *)

Definition xdma_get_next_adj (remaining next_lo : Z) : Z :=
  if remaining <=? 1 then 0
  else
    let next_index :=
      Z.shiftr (Z.land next_lo (XDMA_PAGE_SIZE - 1)) 5 `mod` XDMA_MAX_ADJ_BLOCK_SIZE in
    Z.min (XDMA_MAX_ADJ_BLOCK_SIZE - next_index - 1) (remaining - 1).

(** [second] tells whether a second descriptor is given. *)
Definition xdma_desc_link (first : xdma_desc) (second : bool) (second_bus : Z) : xdma_desc :=
  let control_ := Z.land (control first) 0x00FFC0ff in
  let first :=
    if second
    then set_next_hi (u32 (PCI_DMA_H second_bus)) (set_next_lo (PCI_DMA_L second_bus) first)
    else set_next_hi 0 (set_next_lo 0 first) in
  set_control (Z.lor control_ DESC_MAGIC) first.

Definition xdma_desc_adjacent (next_adjacent : Z) (desc : xdma_desc) : xdma_desc :=
  let control_ := Z.land (control desc) 0x0000f0ff in
  set_control (u32 (Z.lor control_ (Z.lor 0xAD4B0000 (Z.shiftl next_adjacent 8)))) desc.

Definition xdma_desc_control_set (first : xdma_desc) (control_field : Z) : Z * xdma_desc :=
  let control_ := Z.land (control first) (Z.lnot LS_BYTE_MASK) in
  if has_bits control_field (Z.lnot LS_BYTE_MASK) then (- EINVAL, first)
  else (0, set_control (Z.lor control_ control_field) first).

Definition xdma_desc_set (rc_bus_addr ep_addr len : Z) (dir : dma_dir) (desc : xdma_desc)
  : xdma_desc :=
  let desc := set_bytes (u32 len) desc in
  match dir with
  | DMA_TO_DEVICE =>
      set_dst_addr_hi (PCI_DMA_H ep_addr) (set_dst_addr_lo (PCI_DMA_L ep_addr)
        (set_src_addr_hi (PCI_DMA_H rc_bus_addr) (set_src_addr_lo (PCI_DMA_L rc_bus_addr) desc)))
  | DMA_FROM_DEVICE =>
      set_dst_addr_hi (PCI_DMA_H rc_bus_addr) (set_dst_addr_lo (PCI_DMA_L rc_bus_addr)
        (set_src_addr_hi (PCI_DMA_H ep_addr) (set_src_addr_lo (PCI_DMA_L ep_addr) desc)))
  end.

(** ** Operations on the descriptor ring *)

(** The two bodies of [transfer_desc_init]: a linked and a last descriptor. *)
Definition desc_chain (next_bus : Z) (d : xdma_desc) : xdma_desc :=
  set_control DESC_MAGIC (set_bytes 0
    (set_next_hi (PCI_DMA_H next_bus) (set_next_lo (PCI_DMA_L next_bus) d))).
Definition desc_end (d : xdma_desc) : xdma_desc :=
  set_control DESC_MAGIC (set_bytes 0 (set_next_hi 0 (set_next_lo 0 d))).

Definition transfer_desc_init (t count : Z) : M est Z :=
  let* x := get_xfer t in
  forM (zrange (count - 1)) (fun i =>
    upd_desc (x_desc_virt x + i) (desc_chain (u64 (x_desc_bus x + DESC_SIZE * (i + 1))))) >>;
  upd_desc (x_desc_virt x + Z.max 0 (count - 1)) desc_end >>;
  ret 0.

(** [memset] of [count] descriptors. *)
Definition zero_desc : xdma_desc := mk_desc 0 0 0 0 0 0 0 0.
Definition xdma_desc_done (desc_virt count : Z) : M est unit :=
  forM (zrange count) (fun i => upd_desc (desc_virt + i) (fun _ => zero_desc)).

(** ** What the hardware decodes *)

Definition desc_next (d : xdma_desc) : Z := next_lo d + next_hi d * 2 ^ 32.
Definition desc_src (d : xdma_desc) : Z := src_addr_lo d + src_addr_hi d * 2 ^ 32.
Definition desc_dst (d : xdma_desc) : Z := dst_addr_lo d + dst_addr_hi d * 2 ^ 32.
Definition desc_adj (d : xdma_desc) : Z := Z.land (Z.shiftr (control d) 8) 0x3F.
Definition desc_flags (d : xdma_desc) : Z := Z.land (control d) LS_BYTE_MASK.

(** The chain the DMA engine follows from a bus address: it fetches a
    descriptor of the ring, and stops after one whose STOPPED bit is set. *)
Fixpoint hw_walk (fuel : nat) (ring : list xdma_desc) (ring_bus addr : Z)
  : option (list xdma_desc) :=
  match fuel with
  | O => None
  | S fuel =>
      if (addr - ring_bus) `mod` DESC_SIZE =? 0 then
        match zlookup ring ((addr - ring_bus) `div` DESC_SIZE) with
        | Some d =>
            if has_bits (control d) XDMA_DESC_STOPPED then Some [d]
            else cons d <$> hw_walk fuel ring ring_bus (desc_next d)
        | None => None
        end
      else None
  end.

(** [n] descriptors from slot [i] on, each of which names the next slot, and
    only the last of which has the stop bit. *)
Record linked (ring : list xdma_desc) (bus i n : Z) (d : Z -> xdma_desc) : Prop := {
  lk_slot j : 0 <= j < n -> zlookup ring (i + j) = Some (d j);
  lk_next j : 0 <= j < n - 1 -> desc_next (d j) = bus + DESC_SIZE * (i + (j + 1));
  lk_stop j : 0 <= j < n -> has_bits (control (d j)) XDMA_DESC_STOPPED = (j =? n - 1)
}.

Lemma hw_walk_from ring bus i n d k :
  linked ring bus i n d -> 1 <= Z.of_nat k <= n ->
  hw_walk k ring bus (bus + DESC_SIZE * (i + (n - Z.of_nat k))) =
  Some (map d (seqZ (n - Z.of_nat k) (Z.of_nat k))).
Proof.
  intros Hl. induction k as [|k IH]; intros Hk; [lia|].
  cbn [hw_walk]. set (j := n - Z.of_nat (S k)) in *.
  replace (bus + DESC_SIZE * (i + j) - bus) with ((i + j) * DESC_SIZE) by lia.
  rewrite Z.mod_mul, Z.div_mul by done. cbn [Z.eqb].
  rewrite (lk_slot _ _ _ _ _ Hl), (lk_stop _ _ _ _ _ Hl) by lia.
  rewrite seqZ_cons by lia. cbn [map]. destruct (Z.eqb_spec j (n - 1)) as [Hlast|Hlast].
  - replace (Z.pred (Z.of_nat (S k))) with 0 by lia. reflexivity.
  - rewrite (lk_next _ _ _ _ _ Hl) by lia.
    replace (j + 1) with (n - Z.of_nat k) by lia.
    replace (Z.succ j) with (n - Z.of_nat k) by lia.
    replace (Z.pred (Z.of_nat (S k))) with (Z.of_nat k) by lia.
    rewrite IH by lia. reflexivity.
Qed.

(** The hardware, started at the first of them, visits them in order. *)
Lemma hw_walk_linked ring bus i n d :
  linked ring bus i n d -> 1 <= n ->
  hw_walk (Z.to_nat n) ring bus (bus + DESC_SIZE * i) = Some (map d (zrange n)).
Proof.
  intros Hl Hn. pose proof (hw_walk_from ring bus i n d (Z.to_nat n) Hl) as Hw.
  rewrite Z2Nat.id, Z.sub_diag, Z.add_0_r in Hw by lia. apply Hw. lia.
Qed.

(** ** Loops over a range of the ring

    [upd_range base n g ring]: descriptor [base + j] becomes [g j] of itself,
    for [0 <= j < n]. *)

Definition upd_range (base n : Z) (g : Z -> xdma_desc -> xdma_desc) (ring : list xdma_desc)
  : list xdma_desc :=
  imap (fun k d => let j := Z.of_nat k - base in
                   if (0 <=? j) && (j <? n) then g j d else d) ring.

Lemma upd_range_length base n g ring : length (upd_range base n g ring) = length ring.
Proof. apply length_imap. Qed.

Lemma upd_range_lookup base n g ring k :
  0 <= k ->
  zlookup (upd_range base n g ring) k =
  (if (0 <=? k - base) && (k - base <? n) then g (k - base) else id) <$> zlookup ring k.
Proof.
  intros Hk. unfold zlookup, upd_range. destruct (Z.ltb_spec k 0); [lia|].
  rewrite list_lookup_imap, Z2Nat.id by lia. destruct (ring !! Z.to_nat k); [|done].
  cbn. by destruct (_ && _).
Qed.

Lemma zlookup_ext {A} (l1 l2 : list A) :
  (forall k, 0 <= k -> zlookup l1 k = zlookup l2 k) -> l1 = l2.
Proof.
  intros H. apply list_eq. intros i. specialize (H (Z.of_nat i) ltac:(lia)).
  unfold zlookup in H. destruct (Z.ltb_spec (Z.of_nat i) 0); [lia|].
  by rewrite Nat2Z.id in H.
Qed.

Lemma zlookup_insert {A} (l : list A) i k (x : A) :
  0 <= i < Z.of_nat (length l) -> 0 <= k ->
  zlookup (<[Z.to_nat i := x]> l) k = if decide (k = i) then Some x else zlookup l k.
Proof.
  intros Hi Hk. unfold zlookup. destruct (Z.ltb_spec k 0); [lia|]. case_decide; subst.
  - by rewrite list_lookup_insert_eq by lia.
  - by rewrite list_lookup_insert_ne by lia.
Qed.

Lemma upd_range_0 base g ring : upd_range base 0 g ring = ring.
Proof.
  apply zlookup_ext. intros k Hk. rewrite upd_range_lookup by done.
  destruct (_ && _) eqn:E; [lia|]. by destruct (zlookup ring k).
Qed.

Lemma upd_range_S base n g ring d :
  0 <= base -> 0 <= n -> zlookup (upd_range base n g ring) (base + n) = Some d ->
  <[Z.to_nat (base + n) := g n d]> (upd_range base n g ring) = upd_range base (n + 1) g ring.
Proof.
  intros Hb Hn Hd. apply zlookup_ext. intros k Hk.
  assert (Hlt : 0 <= base + n < Z.of_nat (length (upd_range base n g ring)))
    by (apply zlookup_is_Some; eauto).
  rewrite zlookup_insert by done. rewrite upd_range_lookup in Hd by lia.
  rewrite !upd_range_lookup by done. case_decide as Hkn.
  - subst k. replace (base + n - base) with n in * by lia.
    destruct (zlookup ring (base + n)) as [d0|]; [|done].
    destruct (_ && (n <? n)) eqn:E; [lia|]. destruct (_ && (n <? n + 1)) eqn:E'; [|lia].
    cbn in *. congruence.
  - destruct (_ && (k - base <? n)) eqn:E, (_ && (k - base <? n + 1)) eqn:E'; try done; lia.
Qed.

(** A loop that updates the descriptors [base + i] and nothing else. *)
Definition set_ring (ring : list xdma_desc) (s : est) : est :=
  set_s_eng (set_e_desc (Some ring) (s_eng s)) s.

Lemma set_ring_id s ring : e_desc (s_eng s) = Some ring -> set_ring ring s = s.
Proof.
  intros Hr. destruct s as [xd e xf sg rq cb lg]. destruct e. cbn in Hr. subst. reflexivity.
Qed.

Lemma set_ring_twice r1 r2 s : set_ring r1 (set_ring r2 s) = set_ring r1 s.
Proof. reflexivity. Qed.

Lemma wp_forM_ring base n g ring (s : est) :
  e_desc (s_eng s) = Some ring ->
  0 <= base -> 0 <= n -> base + n <= Z.of_nat (length ring) ->
  wp (forM (zrange n) (fun i => upd_desc (base + i) (g i)))
     (fun _ s' => s' = set_ring (upd_range base n g ring) s) s.
Proof.
  intros Hr Hb Hn Hlen.
  eapply wp_mono.
  - apply (wp_forM_zrange n _ (fun i s' => s' = set_ring (upd_range base i g ring) s)).
    + by rewrite upd_range_0, set_ring_id.
    + intros i s' Hi ->. eapply (wp_upd_desc _ _ (upd_range base i g ring)); [done| |].
      * rewrite upd_range_length. lia.
      * intros d Hd. fold (set_ring (<[Z.to_nat (base + i):=g i d]> (upd_range base i g ring))
          (set_ring (upd_range base i g ring) s)).
        by rewrite set_ring_twice, upd_range_S by (done || lia).
  - cbn beta. intros _ s' ->. by rewrite Z.max_r by lia.
Qed.

Lemma wp_upd_desc_range base g ring (s : est) :
  e_desc (s_eng s) = Some ring -> 0 <= base < Z.of_nat (length ring) ->
  wp (upd_desc base g) (fun _ s' => s' = set_ring (upd_range base 1 (fun _ => g) ring) s) s.
Proof.
  intros Hr Hb. eapply wp_upd_desc; [done|done|]. intros d Hd.
  assert (Hu := upd_range_S base 0 (fun _ => g) ring d).
  rewrite upd_range_0, Z.add_0_r in Hu. change (0 + 1) with 1 in Hu. unfold set_ring. rewrite <-Hu; [done|lia|lia|done].
Qed.

(** ** Properties of the descriptor fields *)

Section adjacency.
(** The number of the descriptor at bus address [next_lo] in its block of 64. *)
Definition block_index (next_lo : Z) : Z := (next_lo `div` 32) `mod` 64.

Lemma next_index_block next_lo :
  Z.shiftr (Z.land next_lo (XDMA_PAGE_SIZE - 1)) 5 `mod` XDMA_MAX_ADJ_BLOCK_SIZE
  = block_index next_lo.
Proof.
  unfold block_index, XDMA_PAGE_SIZE, XDMA_MAX_ADJ_BLOCK_SIZE.
  change (0x1000 - 1) with (Z.ones 12). rewrite Z.land_ones, Z.shiftr_div_pow2 by lia.
  change (2 ^ 12) with (32 * 128). change (2 ^ 5) with 32. change 0x40 with 64.
  rewrite Z.rem_mul_r, (Z.mul_comm 32), Z.div_add by lia.
  rewrite (Z.div_small (next_lo `mod` 32)) by (apply Z.mod_pos_bound; lia).
  rewrite Z.add_0_l. change 128 with (64 * 2). rewrite Z.rem_mul_r by lia.
  rewrite (Z.mul_comm 64), Z.mod_add by lia. by rewrite Z.mod_mod.
Qed.

(** The bounds of the adjacent count: the block of descriptors that the
    hardware prefetches starting at [next_lo] stays inside the chain and
    inside an aligned block of 64 descriptors. *)
Lemma next_adj_bounds remaining next_lo :
  let adj := xdma_get_next_adj remaining next_lo in
  0 <= adj <= 63 /\
  (1 < remaining -> adj <= remaining - 1) /\
  block_index next_lo + adj <= 63.
Proof.
  cbv zeta. unfold xdma_get_next_adj. rewrite next_index_block.
  assert (0 <= block_index next_lo < 64) by (apply Z.mod_pos_bound; lia).
  unfold XDMA_MAX_ADJ_BLOCK_SIZE. destruct (Z.leb_spec remaining 1); lia.
Qed.
End adjacency.

(** The control word of a finished descriptor. *)
Definition ctrl_word (adj fl : Z) : Z := 0xAD4B0000 + adj * 256 + fl.

Definition ctrl_word_ok (adj fl : Z) : bool :=
  let d := mk_desc (Z.lor DESC_MAGIC fl) 0 0 0 0 0 0 0 in
  let d' := xdma_desc_adjacent adj d in
  (control d' =? ctrl_word adj fl) && (desc_adj d' =? adj) && (desc_flags d' =? fl) &&
  (Bool.eqb (has_bits (control d') XDMA_DESC_STOPPED) (has_bits fl XDMA_DESC_STOPPED)).

Lemma ctrl_word_all :
  forallb (fun adj => forallb (ctrl_word_ok adj) (zrange 256)) (zrange 64) = true.
Proof. vm_compute. reflexivity. Qed.

Lemma ctrl_word_spec adj fl :
  0 <= adj < 64 -> 0 <= fl < 256 -> ctrl_word_ok adj fl = true.
Proof.
  intros Ha Hf. pose proof ctrl_word_all as Hall. rewrite forallb_forall in Hall.
  specialize (Hall adj ltac:(apply list_elem_of_In, elem_of_zrange; lia)).
  rewrite forallb_forall in Hall.
  apply Hall. apply list_elem_of_In, elem_of_zrange. lia.
Qed.

(** The adjacent count, the flags and the magic of a descriptor that the driver
    has just initialised. *)
Lemma desc_adjacent_fields adj fl d :
  0 <= adj < 64 -> 0 <= fl < 256 -> control d = Z.lor DESC_MAGIC fl ->
  let d' := xdma_desc_adjacent adj d in
  control d' = ctrl_word adj fl /\ desc_adj d' = adj /\ desc_flags d' = fl /\
  has_bits (control d') XDMA_DESC_STOPPED = has_bits fl XDMA_DESC_STOPPED.
Proof.
  intros Ha Hf Hc. cbv zeta. pose proof (ctrl_word_spec adj fl Ha Hf) as Hok.
  unfold ctrl_word_ok, desc_adj, desc_flags, xdma_desc_adjacent in *.
  cbn [control set_control] in *. rewrite <-Hc in Hok.
  rewrite !andb_true_iff, !Z.eqb_eq, Bool.eqb_true_iff in Hok. tauto.
Qed.

Lemma desc_set_decode rc ep len dir d :
  let d' := xdma_desc_set rc ep len dir d in
  bytes d' = u32 len /\
  (desc_src d', desc_dst d') = (if is_h2c dir then (rc, ep) else (ep, rc)) /\
  control d' = control d /\ next_lo d' = next_lo d /\ next_hi d' = next_hi d.
Proof.
  unfold desc_src, desc_dst. destruct dir; cbn; rewrite !PCI_DMA_split; auto.
Qed.
