(* ===== verification/Engine.v ===== *)
(** * Engine: registers, status, start and stop of one engine

    The low-level operations of [libxdma.c] on one SG DMA engine: interrupt
    masks, performance counters, status read and dump, [xdma_engine_stop],
    [engine_start_mode_config] and [engine_start]. *)

From stdpp Require Import pretty.
From S2P Require Import Prelude Hw State Desc.

(** ** Device flags ([libxdma.h], under [xdev->lock]) *)

Definition xdma_device_flag_check (xd : xdma_dev) (f : Z) : bool := has_bits (d_flags xd) f.

Definition xdma_device_flag_test_n_set (xd : xdma_dev) (f : Z) : bool * xdma_dev :=
  if has_bits (d_flags xd) f then (true, xd)
  else (false, set_d_flags (Z.lor (d_flags xd) f) xd).

Definition xdma_device_flag_set (xd : xdma_dev) (f : Z) : xdma_dev :=
  set_d_flags (Z.lor (d_flags xd) f) xd.

Definition xdma_device_flag_clear (xd : xdma_dev) (f : Z) : xdma_dev :=
  set_d_flags (Z.land (d_flags xd) (Z.lnot f)) xd.

(** ** Numbers *)

Definition build_u32 (hi lo : Z) : Z :=
  Z.lor (Z.shiftl (Z.land hi 0xFFFF) 16) (Z.land lo 0xFFFF).
Definition build_u64 (hi lo : Z) : Z :=
  Z.lor (Z.shiftl (Z.land hi 0xFFFFFFF) 32) (Z.land lo 0xFFFFFFFF).

Section io.
Context `{Env} {S : Type} `{HasLog S}.

(** [xdev->bar[xdev->config_bar_idx] + XDMA_OFS_INT_CTRL] *)
Definition config_bar (xd : xdma_dev) : M S Z :=
  deref (zlookup (d_bar xd) (d_config_bar_idx xd)).
Definition int_reg (xd : xdma_dev) (f : string) : M S Z :=
  let* b := config_bar xd in
  ret (b + XDMA_OFS_INT_CTRL + offsetof interrupt_regs f).

Definition check_nonzero_interrupt_status (xd : xdma_dev) : M S unit :=
  forM ["user_int_enable"; "channel_int_enable"; "user_int_request";
        "channel_int_request"; "user_int_pending"; "channel_int_pending"]%string
    (fun f => let* a := int_reg xd f in read_register a >>; ret tt).

Definition channel_interrupts_enable (xd : xdma_dev) (mask : Z) : M S unit :=
  let* a := int_reg xd "channel_int_enable_w1s" in write_register mask a.
Definition channel_interrupts_disable (xd : xdma_dev) (mask : Z) : M S unit :=
  let* a := int_reg xd "channel_int_enable_w1c" in write_register mask a.
Definition user_interrupts_enable (xd : xdma_dev) (mask : Z) : M S unit :=
  let* a := int_reg xd "user_int_enable_w1s" in write_register mask a.
Definition user_interrupts_disable (xd : xdma_dev) (mask : Z) : M S unit :=
  let* a := int_reg xd "user_int_enable_w1c" in write_register mask a.

Definition read_interrupts (xd : xdma_dev) : M S Z :=
  let* a := int_reg xd "user_int_request" in
  let* hi := read_register a in
  let* a := int_reg xd "channel_int_request" in
  let* lo := read_register a in
  ret (build_u32 hi lo).
End io.

(** [&engine->regs->f], [&engine->sgdma_regs->f] *)
Definition reg (e : xdma_engine) (f : string) : Z := e_regs e + offsetof engine_regs f.
Definition sgdma_reg (e : xdma_engine) (f : string) : Z :=
  e_sgdma_regs e + offsetof engine_sgdma_regs f.

Section engine.
Context `{Env}.

(** [dma_alloc_coherent] gives an address and a bus address. *)
Definition dma_alloc_coherent (size : Z) : M est (Z * Z) :=
  let* p := kcall "dma_alloc_coherent" [size] in
  let* bus := kcall "dma_handle" [p] in
  ret (p, bus).

Definition read_reg (f : string) : M est Z :=
  let* e := get_eng in read_register (reg e f).
Definition write_reg (v : Z) (f : string) : M est unit :=
  let* e := get_eng in write_register v (reg e f).
Definition read_sgdma_reg (f : string) : M est Z :=
  let* e := get_eng in read_register (sgdma_reg e f).
Definition write_sgdma_reg (v : Z) (f : string) : M est unit :=
  let* e := get_eng in write_register v (sgdma_reg e f).

(** [enable_st_c2h_credit && engine->streaming && engine->dir == DMA_FROM_DEVICE] *)
Definition credit_mode (e : xdma_engine) : bool :=
  enable_st_c2h_credit && e_streaming e && is_c2h (e_dir e).

(** ** Performance counters *)

Definition enable_perf : M est unit :=
  write_reg XDMA_PERF_CLEAR "perf_ctrl" >>;
  read_reg "identifier" >>;
  write_reg (Z.lor XDMA_PERF_AUTO XDMA_PERF_RUN) "perf_ctrl" >>;
  read_reg "identifier" >>;
  ret tt.

Definition upd_perf (f : perf_ioctl -> perf_ioctl) : M est unit :=
  upd_eng (fun e => set_e_xdma_perf (f <$> e_xdma_perf e) e).

Definition get_perf_stats : M est unit :=
  let* e := get_eng in
  match e_xdma_perf e with
  | None => ret tt
  | Some _ =>
      let* lo := read_reg "completed_desc_count" in
      upd_perf (set_p_iterations (u32 (build_u64 0 lo))) >>;
      let* hi := read_reg "perf_cyc_hi" in
      let* lo := read_reg "perf_cyc_lo" in
      upd_perf (set_p_clock_cycle_count (build_u64 hi lo)) >>;
      let* hi := read_reg "perf_dat_hi" in
      let* lo := read_reg "perf_dat_lo" in
      upd_perf (set_p_data_cycle_count (build_u64 hi lo)) >>;
      let* hi := read_reg "perf_pnd_hi" in
      let* lo := read_reg "perf_pnd_lo" in
      upd_perf (set_p_pending_count (build_u64 hi lo))
  end.

(** ** Status *)

Definition engine_reg_dump : M est Z :=
  let* w := read_reg "identifier" in
  let w := Z.land w BLOCK_ID_MASK in
  if negb (w =? BLOCK_ID_HEAD) then ret (- EINVAL)
  else
    read_reg "status" >>;
    read_reg "control" >>;
    read_sgdma_reg "first_desc_lo" >>;
    read_sgdma_reg "first_desc_hi" >>;
    read_sgdma_reg "first_desc_adjacent" >>;
    read_reg "completed_desc_count" >>;
    read_reg "interrupt_enable_mask" >>;
    ret 0.
End engine.

(** [%08x] *)
Definition hex_digit (n : Z) : Ascii.ascii :=
  Ascii.ascii_of_nat (Z.to_nat (if n <? 10 then 48 + n else 87 + n)).
Fixpoint hex_fixed (w : nat) (v : Z) (acc : string) : string :=
  match w with
  | O => acc
  | S w => hex_fixed w (Z.shiftr v 4) (String (hex_digit (Z.land v 15)) acc)
  end.

(** The text that [engine_status_dump] writes into its [char buffer[256]].
    [flag] prints one name, [group] a group of names under a mask with its
    prefix, the last blank replaced by a comma. *)
Definition flag (v m : Z) (name : string) : string :=
  if has_bits v m then name else EmptyString.

Fixpoint comma_last (s : string) : string :=
  match s with
  | EmptyString => EmptyString
  | String _ EmptyString => ","%string
  | String c s' => String c (comma_last s')
  end.

Definition concat_flags (v : Z) (l : list (Z * string)) : string :=
  foldr (fun '(m, n) acc => String.append (flag v m n) acc) EmptyString l.

Definition group (v mask : Z) (prefix : string) (l : list (Z * string)) : string :=
  if has_bits v mask then comma_last (String.append prefix (concat_flags v l))
  else EmptyString.

Definition common_names : list (Z * string) :=
  [(XDMA_STAT_ALIGN_MISMATCH, "ALIGN_MISMATCH "); (XDMA_STAT_MAGIC_STOPPED, "MAGIC_STOPPED ");
   (XDMA_STAT_INVALID_LEN, "INVLIAD_LEN "); (XDMA_STAT_IDLE_STOPPED, "IDLE_STOPPED ")]%string.
Definition h2c_r_names : list (Z * string) :=
  [(XDMA_STAT_H2C_R_UNSUPP_REQ, "UNSUPP_REQ "); (XDMA_STAT_H2C_R_COMPL_ABORT, "COMPL_ABORT ");
   (XDMA_STAT_H2C_R_PARITY_ERR, "PARITY "); (XDMA_STAT_H2C_R_HEADER_EP, "HEADER_EP ");
   (XDMA_STAT_H2C_R_UNEXP_COMPL, "UNEXP_COMPL ")]%string.
Definition h2c_w_names : list (Z * string) :=
  [(XDMA_STAT_H2C_W_DECODE_ERR, "DECODE_ERR "); (XDMA_STAT_H2C_W_SLAVE_ERR, "SLAVE_ERR ")]%string.
Definition c2h_r_names : list (Z * string) :=
  [(XDMA_STAT_C2H_R_DECODE_ERR, "DECODE_ERR "); (XDMA_STAT_C2H_R_SLAVE_ERR, "SLAVE_ERR ")]%string.
Definition desc_err_names : list (Z * string) :=
  [(XDMA_STAT_DESC_UNSUPP_REQ, "UNSUPP_REQ "); (XDMA_STAT_DESC_COMPL_ABORT, "COMPL_ABORT ");
   (XDMA_STAT_DESC_PARITY_ERR, "PARITY "); (XDMA_STAT_DESC_HEADER_EP, "HEADER_EP ");
   (XDMA_STAT_DESC_UNEXP_COMPL, "UNEXP_COMPL ")]%string.

Definition status_text (name : string) (dir : dma_dir) (v : Z) : string :=
  foldr String.append EmptyString
    ["SG engine "; name; " status: 0x"; hex_fixed 8 v EmptyString; ": ";
     flag v XDMA_STAT_BUSY "BUSY,";
     flag v XDMA_STAT_DESC_STOPPED "DESC_STOPPED,";
     flag v XDMA_STAT_DESC_COMPLETED "DESC_COMPL,";
     group v XDMA_STAT_COMMON_ERR_MASK "" common_names;
     (if is_h2c dir then
        String.append (group v XDMA_STAT_H2C_R_ERR_MASK "R:" h2c_r_names)
                      (group v XDMA_STAT_H2C_W_ERR_MASK "W:" h2c_w_names)
      else group v XDMA_STAT_C2H_R_ERR_MASK "R:" c2h_r_names);
     group v XDMA_STAT_DESC_ERR_MASK "DESC_ERR:" desc_err_names]%string.

(** [sizeof(buffer)] of [engine_status_dump]. *)
Definition STATUS_BUF_SIZE : nat := 256.

(** The text and its final NUL fit in the buffer. *)
Definition status_dump_fits (e : xdma_engine) : bool :=
  Nat.ltb (String.length (status_text (e_name e) (e_dir e) (e_status e))) STATUS_BUF_SIZE.

Section engine_ctl.
Context `{Env}.

(** [sprintf] past the end of the buffer is undefined behaviour. *)
Definition engine_status_dump : M est unit :=
  let* e := get_eng in
  if status_dump_fits e then ret tt else ub.

Definition engine_status_read (clear dump : bool) : M est Z :=
  let* rv := (if dump then engine_reg_dump else ret 0) in
  if rv <? 0 then ret rv
  else
    let* v := read_reg (if clear then "status_rc" else "status") in
    upd_eng (set_e_status v) >>;
    (if dump then engine_status_dump else ret tt) >>;
    ret rv.

(** ** Control register *)

Definition stop_word : Z :=
  let w := lor_all [XDMA_CTRL_IE_DESC_ALIGN_MISMATCH; XDMA_CTRL_IE_MAGIC_STOPPED;
                    XDMA_CTRL_IE_READ_ERROR; XDMA_CTRL_IE_DESC_ERROR] in
  if poll_mode then Z.lor w XDMA_CTRL_POLL_MODE_WB
  else Z.lor (Z.lor w XDMA_CTRL_IE_DESC_STOPPED) XDMA_CTRL_IE_DESC_COMPLETED.

Definition xdma_engine_stop : M est Z :=
  let* e := get_eng in
  when (credit_mode e) (write_sgdma_reg 0 "credits") >>;
  write_reg stop_word "control" >>;
  upd_eng (set_e_running false) >>;
  ret 0.

Definition perf_mask : Z :=
  lor_all [XDMA_CTRL_IE_DESC_STOPPED; XDMA_CTRL_IE_DESC_COMPLETED;
           XDMA_CTRL_IE_DESC_ALIGN_MISMATCH; XDMA_CTRL_IE_MAGIC_STOPPED;
           XDMA_CTRL_IE_IDLE_STOPPED; XDMA_CTRL_IE_READ_ERROR; XDMA_CTRL_IE_DESC_ERROR].

Definition start_word (non_incr : bool) : Z :=
  let w := lor_all [XDMA_CTRL_RUN_STOP; XDMA_CTRL_IE_READ_ERROR; XDMA_CTRL_IE_DESC_ERROR;
                    XDMA_CTRL_IE_DESC_ALIGN_MISMATCH; XDMA_CTRL_IE_MAGIC_STOPPED] in
  let w := if poll_mode then Z.lor w XDMA_CTRL_POLL_MODE_WB
           else Z.lor (Z.lor w XDMA_CTRL_IE_DESC_STOPPED) XDMA_CTRL_IE_DESC_COMPLETED in
  if non_incr then Z.lor w XDMA_CTRL_NON_INCR_ADDR else w.

Definition engine_start_mode_config : M est Z :=
  let* e := get_eng in
  (match e_xdma_perf e with
   | Some _ => write_reg perf_mask "interrupt_enable_mask"
   | None => ret tt
   end) >>;
  write_reg (start_word (e_non_incr_addr e)) "control" >>;
  read_reg "status" >>;
  ret 0.

(** The started transfer, or NULL. *)
Definition engine_start : M est (option Z) :=
  let* e := get_eng in
  if e_running e then ret None
  else match e_transfer_list e with
  | [] => ret None
  | transfer :: _ =>
      upd_eng (set_e_shutdown ENGINE_SHUTDOWN_NONE) >>;
      when (credit_mode e) (write_sgdma_reg (u32 (e_desc_used e)) "credits") >>;
      upd_eng (set_e_desc_dequeued 0) >>;
      let* x := get_xfer transfer in
      write_sgdma_reg (PCI_DMA_L (x_desc_bus x)) "first_desc_lo" >>;
      write_sgdma_reg (PCI_DMA_H (x_desc_bus x)) "first_desc_hi" >>;
      let next_adj := xdma_get_next_adj (x_desc_adjacent x) (PCI_DMA_L (x_desc_bus x)) in
      write_sgdma_reg next_adj "first_desc_adjacent" >>;
      let* rv := engine_start_mode_config in
      if rv <? 0 then ret None
      else
        let* rv := engine_status_read false false in
        if rv <? 0 then ret None
        else
          upd_eng (set_e_running true) >>;
          ret (Some transfer)
  end.
End engine_ctl.

(** ** Exact effect of stop and start *)

Section effects.
Context `{Env}.

Definition stop_log (e : xdma_engine) : list event :=
  EvWrite (reg e "control") stop_word ::
  (if credit_mode e then [EvWrite (sgdma_reg e "credits") 0] else []).

Lemma xdma_engine_stop_eq s :
  xdma_engine_stop s =
  Some (0, set_log (stop_log (s_eng s) ++ s_log s)
             (set_s_eng (set_e_running false (s_eng s)) s)).
Proof.
  unfold xdma_engine_stop, stop_log, bind, get_eng, gets.
  by destruct (credit_mode (s_eng s)).
Qed.

(** The register writes of [engine_start], newest first: the descriptor
    address and its adjacent count come before the RUN bit. *)
Definition start_log (e : xdma_engine) (x : xdma_transfer) : list event :=
  (EvWrite (reg e "control") (start_word (e_non_incr_addr e)) ::
   (match e_xdma_perf e with
    | Some _ => [EvWrite (reg e "interrupt_enable_mask") perf_mask]
    | None => []
    end)) ++
  [EvWrite (sgdma_reg e "first_desc_adjacent")
     (xdma_get_next_adj (x_desc_adjacent x) (PCI_DMA_L (x_desc_bus x)));
   EvWrite (sgdma_reg e "first_desc_hi") (PCI_DMA_H (x_desc_bus x));
   EvWrite (sgdma_reg e "first_desc_lo") (PCI_DMA_L (x_desc_bus x))] ++
  (if credit_mode e then [EvWrite (sgdma_reg e "credits") (u32 (e_desc_used e))] else []).

Definition started (v : Z) (e : xdma_engine) : xdma_engine :=
  set_e_running true (set_e_status v (set_e_desc_dequeued 0
    (set_e_shutdown ENGINE_SHUTDOWN_NONE e))).

Lemma engine_start_eq s t q x :
  e_running (s_eng s) = false ->
  e_transfer_list (s_eng s) = t :: q ->
  s_xfers s !! t = Some x ->
  exists v1 v2, (exists lg, v2 = u32 (io_read lg (reg (s_eng s) "status"))) /\
    engine_start s =
    Some (Some t, set_log (EvRead (reg (s_eng s) "status") v2 ::
                           EvRead (reg (s_eng s) "status") v1 ::
                           start_log (s_eng s) x ++ s_log s)
                    (set_s_eng (started v2 (s_eng s)) s)).
Proof.
  destruct s as [xd e xfs sgts rq cb lg]; cbn. intros Hrun Hq Hx.
  unfold engine_start, start_log, engine_start_mode_config.
  unfold bind at 1, get_eng at 1, gets at 1; cbn [s_eng]. rewrite Hrun, Hq.
  destruct (credit_mode e), (e_xdma_perf e) eqn:Hp;
    cbn; unfold bind, get_xfer, get; cbn; rewrite Hx; cbn; rewrite Hp; cbn; do 2 eexists;
    (split; [|reflexivity]); by eexists.
Qed.

Lemma engine_start_idle s :
  e_running (s_eng s) = true \/ e_transfer_list (s_eng s) = [] ->
  engine_start s = Some (None, s).
Proof.
  unfold engine_start, bind at 1, get_eng at 1, gets at 1.
  intros [->| ->]; [done|]. by destruct (e_running _).
Qed.
End effects.
