(* ===== verification/Service.v ===== *)
(** * Service: completion of transfers

    What the interrupt bottom half ([engine_service_work]) and the polling
    threads ([engine_service_poll]) do with an engine: read its status and its
    count of completed descriptors, complete the transfers at the head of the
    queue, and restart or stop the engine.  The completion callback of an
    asynchronous transfer ([cb->io_done]) is an interface, the class
    [Callback]; [CdevSgdma] implements it. *)

From S2P Require Import Prelude Hw State Desc Engine.

(** [cb->io_done(cb, err)] *)
Class Callback := io_done : Z -> Z -> M est unit.

Section service.
Context `{Env} `{Callback}.

Definition engine_service_shutdown : M est Z :=
  let* rv := xdma_engine_stop in
  if rv <? 0 then ret rv else kdo "xlx_wake_up shutdown_wq" [] >>; ret 0.

Definition engine_transfer_completion (transfer : option Z) : M est (option Z) :=
  match transfer with
  | None => ret None
  | Some t =>
      kdo "xlx_wake_up transfer->wq" [t] >>;
      let* x := get_xfer t in
      (match x_cb x with
       | Some cb => when (x_last_in_request x) (io_done cb 0)
       | None => ret tt
       end) >>;
      ret (Some t)
  end.

(** [list_del(engine->transfer_list.next)]; on an empty list it would unlink
    the list head itself. *)
Definition list_del_head : M est unit :=
  let* e := get_eng in
  match e_transfer_list e with
  | [] => ub
  | _ :: l => upd_eng (set_e_transfer_list l)
  end.

Definition list_first : M est (option Z) :=
  let* e := get_eng in ret (head (e_transfer_list e)).

(** The loop of [engine_service_transfer_list]; each turn unlinks one transfer,
    so the fuel is the length of the queue plus one. *)
Fixpoint service_list (fuel : nat) (transfer : option Z) (desc_completed : Z)
  : M est (option Z * Z) :=
  match fuel with
  | O => ub
  | S fuel =>
      match transfer with
      | None => ret (None, desc_completed)
      | Some t =>
          let* x := get_xfer t in
          if negb (x_cyclic x) && (u32 (x_desc_num x) <? desc_completed) then
            let desc_completed := u32 (desc_completed - x_desc_num x) in
            list_del_head >>;
            upd_eng (fun e => set_e_desc_dequeued
                                (s32 (e_desc_dequeued e + x_desc_num x)) e) >>;
            upd_xfer t (set_x_state TRANSFER_STATE_COMPLETED) >>;
            engine_transfer_completion (Some t) >>;
            let* next := list_first in
            service_list fuel next desc_completed
          else ret (Some t, desc_completed)
      end
  end.

Definition engine_service_transfer_list (transfer : option Z) (desc_completed : Z)
  : M est (option Z * Z) :=
  let* e := get_eng in
  service_list (S (length (e_transfer_list e))) transfer desc_completed.

Definition engine_err_handle (t desc_completed : Z) : M est Z :=
  let* e := get_eng in
  when (has_bits (e_status e) XDMA_STAT_BUSY) (read_reg "status" >>; ret tt) >>;
  upd_xfer t (set_x_state TRANSFER_STATE_FAILED) >>;
  xdma_engine_stop.

(** [result[i]] of the C2H result array, written by the device. *)
Definition result_ok (e : xdma_engine) (i : Z) : bool :=
  negb (e_cyclic_result e =? 0) && (0 <=? i) && (i <? e_desc_max e).
Definition read_result_status (i : Z) : M est Z :=
  let* e := get_eng in
  guard_ub (result_ok e i) >>; let* v := kcall "result->status" [i] in ret (u32 v).
Definition read_result_length (i : Z) : M est Z :=
  let* e := get_eng in
  guard_ub (result_ok e i) >>; let* v := kcall "result->length" [i] in ret (u32 v).

(** The search for an end of packet in the results of the transfer. *)
Fixpoint find_eop (t res : Z) (l : list Z) : M est unit :=
  match l with
  | [] => ret tt
  | i :: l =>
      let* st := read_result_status (res + i) in
      if has_bits st RX_STATUS_EOP then
        upd_xfer t (fun x => set_x_flags (Z.lor (x_flags x) XFER_FLAG_ST_C2H_EOP_RCVED) x)
      else find_eop t res l
  end.

Definition status_error (e : xdma_engine) : bool :=
  (is_c2h (e_dir e) && has_bits (e_status e) XDMA_STAT_C2H_ERR_MASK) ||
  (is_h2c (e_dir e) && has_bits (e_status e) XDMA_STAT_H2C_ERR_MASK).

(** The label [transfer_del]. *)
Definition transfer_del (t : Z) : M est (option Z) :=
  list_del_head >>; engine_transfer_completion (Some t).

Definition add_dequeued (n : Z) : M est unit :=
  upd_eng (fun e => set_e_desc_dequeued (s32 (e_desc_dequeued e + n)) e).

Definition engine_service_final_transfer (transfer : option Z) (desc_completed : Z)
  : M est (option Z) :=
  match transfer with
  | None => ret None
  | Some t =>
      let* e := get_eng in
      let* x := get_xfer t in
      if status_error e then
        engine_status_dump >>;
        engine_err_handle t desc_completed >>;
        transfer_del t
      else if desc_completed <? u32 (x_desc_num x) then
        if e_eop_flush e then
          find_eop t (x_res_virt x) (zrange (s32 desc_completed)) >>;
          upd_xfer t (fun x => set_x_desc_cmpl (s32 (x_desc_cmpl x + desc_completed)) x) >>;
          let* x := get_xfer t in
          if negb (has_bits (x_flags x) XFER_FLAG_ST_C2H_EOP_RCVED) then ret None
          else
            engine_service_shutdown >>;
            upd_xfer t (set_x_state TRANSFER_STATE_COMPLETED) >>;
            add_dequeued (x_desc_cmpl x) >>;
            transfer_del t
        else
          upd_xfer t (set_x_state TRANSFER_STATE_FAILED) >>;
          add_dequeued (x_desc_num x) >>;
          upd_xfer t (set_x_desc_cmpl (s32 desc_completed)) >>;
          transfer_del t
      else
        upd_xfer t (set_x_state TRANSFER_STATE_COMPLETED) >>;
        upd_xfer t (set_x_desc_cmpl (x_desc_num x)) >>;
        add_dequeued (x_desc_num x) >>;
        transfer_del t
  end.

Definition engine_service_perf (desc_completed : Z) : M est Z :=
  let* e := get_eng in
  match e_xdma_perf e with
  | None => ret 0
  | Some _ =>
      when (has_bits (e_status e) XDMA_STAT_DESC_COMPLETED)
           (upd_perf (set_p_iterations desc_completed)) >>;
      when (has_bits (e_status e) XDMA_STAT_DESC_STOPPED)
           (upd_perf (set_p_stopped 1) >>; kdo "xlx_wake_up xdma_perf_wq" []) >>;
      ret 0
  end.

Definition engine_service_resume : M est Z :=
  let* e := get_eng in
  if negb (e_running e) then
    match e_transfer_list e with
    | _ :: _ =>
        let* started := engine_start in
        match started with Some _ => ret 0 | None => ret (- EINVAL) end
    | [] =>
        if has_bits (e_shutdown e) ENGINE_SHUTDOWN_REQUEST then
          upd_eng (fun e => set_e_shutdown (Z.lor (e_shutdown e) ENGINE_SHUTDOWN_IDLE) e) >>;
          kdo "xlx_wake_up shutdown_wq" [] >>;
          ret 0
        else ret 0
    end
  else match e_transfer_list e with
  | [] => engine_service_shutdown >>; ret 0
  | _ :: _ => ret 0
  end.

(** The body of [engine_service] after the count of completed descriptors is
    known and is not zero. *)
Definition service_completed (desc_count : Z) : M est unit :=
  let* transfer := list_first in
  (match transfer with
   | Some _ => engine_service_perf desc_count >>; ret tt
   | None => ret tt
   end) >>;
  let* e := get_eng in
  let desc_count := u32 (desc_count - e_desc_dequeued e) in
  let* '(transfer, desc_count) := engine_service_transfer_list transfer desc_count in
  engine_service_final_transfer transfer desc_count >>;
  let* e := get_eng in
  when (negb (e_eop_flush e)) (engine_service_resume >>; ret tt).

Definition engine_service (desc_writeback : Z) : M est Z :=
  let desc_count := Z.land desc_writeback WB_COUNT_MASK in
  let err_flag := Z.land desc_writeback WB_ERR_MASK in
  let* e := get_eng in
  if negb (e_running e) then
    let* rv := engine_status_read true false in
    if rv <? 0 then ret rv else ret 0
  else
    let* rv := (if (desc_count =? 0) || negb (err_flag =? 0)
                then engine_status_read true false else ret 0) in
    if rv <? 0 then ret rv
    else
      let* e := get_eng in
      let* rv := (if (e_running e && negb (has_bits (e_status e) XDMA_STAT_BUSY)) ||
                     (negb (e_eop_flush e) && negb (desc_count =? 0))
                  then engine_service_shutdown else ret 0) in
      if rv <? 0 then ret rv
      else
        let* desc_count := (if desc_count =? 0 then read_reg "completed_desc_count"
                            else ret desc_count) in
        when (negb (desc_count =? 0)) (service_completed desc_count) >>;
        ret (if err_flag =? 0 then 0 else -1).

(** The interrupt bottom half. *)
Definition engine_service_work : M est unit :=
  let* e := get_eng in
  if negb (e_magic e =? MAGIC_ENGINE) then ret tt
  else
    let* rv := engine_service 0 in
    if rv <? 0 then ret tt
    else
      let* s := get in
      if d_msix_enabled (s_xdev s) then
        write_reg (e_interrupt_enable_mask_value (s_eng s)) "interrupt_enable_mask_w1s"
      else channel_interrupts_enable (s_xdev s) (e_irq_bitmask (s_eng s)).

(** ** Polled mode *)

Definition poll_wb_read : M est Z :=
  let* e := get_eng in
  guard_ub (negb (e_poll_mode_addr_virt e =? 0)) >>;
  let* v := kcall "wb_data->completed_desc_count" [e_poll_mode_addr_virt e] in
  ret (u32 v).
Definition poll_wb_clear : M est unit :=
  let* e := get_eng in
  kdo "wb_data->completed_desc_count = 0" [e_poll_mode_addr_virt e].

(** One turn of the polling loop: [inl] is the result, [inr] goes on. *)
Definition wb_poll_once (expected_wb timeout sched_limit : Z) : M est (Z + Z) :=
  let* desc_wb := poll_wb_read in
  when (negb (desc_wb =? 0)) poll_wb_clear >>;
  if has_bits desc_wb WB_ERR_MASK then ret (inl desc_wb)
  else if expected_wb <=? desc_wb then ret (inl desc_wb)
  else
    let* jiffies := kcall "jiffies" [] in
    if s64 (timeout - jiffies) <? 0 then
      ret (inl (if expected_wb <? Z.land desc_wb WB_COUNT_MASK
                then Z.lor expected_wb WB_ERR_MASK else desc_wb))
    else
      when (negb (sched_limit =? 0) && (sched_limit `mod` NUM_POLLS_PER_SCHED =? 0))
           (kdo "schedule" []) >>;
      ret (inr (u32 (sched_limit + 1))).

Fixpoint wb_poll (fuel : nat) (expected_wb timeout sched_limit : Z) : M est Z :=
  match fuel with
  | O => ub
  | S fuel =>
      let* r := wb_poll_once expected_wb timeout sched_limit in
      match r with
      | inl v => ret v
      | inr sched_limit => wb_poll fuel expected_wb timeout sched_limit
      end
  end.

Definition engine_service_wb_monitor (fuel : nat) (expected_wb : Z) : M est Z :=
  let* jiffies := kcall "jiffies" [] in
  let timeout := u64 (jiffies + POLL_TIMEOUT_SECONDS * HZ) in
  if expected_wb =? 0 then ret 0 else wb_poll fuel expected_wb timeout 0.

Definition engine_service_poll (fuel : nat) (expected_desc_count : Z) : M est Z :=
  let* e := get_eng in
  if negb (e_magic e =? MAGIC_ENGINE) then ret (- EINVAL)
  else
    let* desc_wb := engine_service_wb_monitor fuel expected_desc_count in
    if desc_wb =? 0 then ret 0 else engine_service desc_wb.
End service.
