(* ===== verification/Request.v ===== *)
(** * Request: requests, software descriptors and transfers

    [xdma_init_request] cuts the entries of a scatter-gather table into
    software descriptors, [transfer_init] turns a run of software descriptors
    into a hardware chain in the engine's ring, [transfer_queue] appends a
    transfer to the engine's queue and starts the engine. *)

From S2P Require Import Prelude Hw State Desc Engine Service.

(** The two transfers embedded in a request ([req->tfer[k]]). *)
Definition tfer (r k : Z) : Z := 2 * r + k.

Definition zero_xfer : xdma_transfer :=
  mk_xfer 0 0 0 0 0 0 0 0 0 DMA_TO_DEVICE TRANSFER_STATE_NEW 0 false false 0 None None.

Definition zero_req (n : Z) : xdma_request_cb :=
  mk_req 0 0 0 0 0 0 0 0 None 0 0 (replicate (Z.to_nat n) (mk_sw_desc 0 0)).

Definition SW_DESC_SIZE := 16. (* sizeof(struct sw_desc) *)

(** ** Cutting one scatter-gather entry

    The inner loop of [xdma_init_request], on the array [req->sdesc] from the
    index [j]; [None] when the array is too short.  The fuel bounds the turns
    of the loop. *)
Fixpoint split_entry (blen : Z) (fuel : nat) (addr tlen : Z) (sdesc : list sw_desc) (j : Z)
  : option (list sw_desc * Z) :=
  match fuel with
  | O => None
  | S fuel =>
      if tlen =? 0 then Some (sdesc, j)
      else if blen <? tlen then
        match zupdate sdesc j (fun _ => mk_sw_desc addr blen) with
        | Some sdesc => split_entry blen fuel (u64 (addr + blen)) (u32 (tlen - blen)) sdesc (j + 1)
        | None => None
        end
      else
        match zupdate sdesc j (fun _ => mk_sw_desc addr tlen) with
        | Some sdesc => split_entry blen fuel addr 0 sdesc (j + 1)
        | None => None
        end
  end.

Definition split_fuel (blen tlen : Z) : nat := Z.to_nat (tlen `div` blen) + 3.

Section request.
Context `{Env} `{Callback}.

(** ** Allocation *)

Definition xdma_request_free (req : Z) : M est unit :=
  kdo "xdma_request_free" [req] >>;
  modify (fun s => set_s_reqs (delete req (s_reqs s)) s) >>;
  modify (fun s => set_s_xfers (delete (tfer req 0) (delete (tfer req 1) (s_xfers s))) s).

(** The number of [struct sw_desc] that fit in the block: [size] is an
    [unsigned int]; a block smaller than the header cannot be used at all. *)
Definition xdma_request_alloc (sdesc_nr : Z) : M est (option Z) :=
  let size := u32 (SIZEOF_REQ + sdesc_nr * SW_DESC_SIZE) in
  let* req := kcall "kzalloc" [size] in
  let* req := (if req =? 0 then kcall "vmalloc" [size] else ret req) in
  if req =? 0 then ret None
  else
    guard_ub (SIZEOF_REQ <=? size) >>;
    modify (fun s =>
      set_s_xfers (<[tfer req 0 := zero_xfer]> (<[tfer req 1 := zero_xfer]> (s_xfers s)))
        (set_s_reqs (<[req := zero_req ((size - SIZEOF_REQ) `div` SW_DESC_SIZE)]> (s_reqs s)) s)) >>;
    ret (Some req).

(** ** xdma_init_request *)

(** [extra], the first loop. *)
Definition count_extra (sgl : list (Z * Z)) (max : Z) : M est Z :=
  foldM (zrange max) (fun extra i =>
    let* '(_, len) := deref (zlookup sgl i) in
    if desc_blen_max <? len then
      guard_ub (negb (desc_blen_max =? 0)) >>;
      ret (s32 (extra + u32 (u32 (len + desc_blen_max) - 1) `div` desc_blen_max))
    else ret extra) 0.

(** The second loop: fills [sdesc] and sums the lengths. *)
Definition fill_sdesc (sgl : list (Z * Z)) (nents req : Z) : M est Z :=
  foldM (zrange nents) (fun j i =>
    let* '(addr, tlen) := deref (zlookup sgl i) in
    upd_req req (fun q => set_r_total_len (u32 (r_total_len q + tlen)) q) >>;
    let* q := get_req req in
    let* '(sdesc, j) :=
      deref (split_entry desc_blen_max (split_fuel desc_blen_max tlen) addr tlen (r_sdesc q) j) in
    upd_req req (set_r_sdesc sdesc) >>;
    ret j) 0.

Definition xdma_init_request (sgt ep_addr : Z) : M est (option Z) :=
  let* g := get_sgt sgt in
  let* extra := count_extra (sg_sgl g) (sg_nents g) in
  let max := s32 (sg_nents g + extra) in
  let* req := xdma_request_alloc (u32 max) in
  match req with
  | None => ret None
  | Some req =>
      upd_req req (set_r_sgt sgt) >>;
      upd_req req (set_r_ep_addr ep_addr) >>;
      let* j := fill_sdesc (sg_sgl g) (sg_nents g) req in
      if max <? j then xdma_request_free req >>; ret None
      else upd_req req (set_r_sw_desc_cnt j) >>; ret (Some req)
  end.

(** ** Building a transfer *)

(** [memset(xfer->res_virt + j, 0, sizeof(struct xdma_result))] *)
Definition clear_result (i : Z) : M est unit :=
  let* e := get_eng in
  guard_ub (result_ok e i) >>; kdo "memset result" [i].

(** The body of the loop of [transfer_build]; [bus] is the bus address of the
    result of descriptor [j]. *)
Definition build_desc (r t desc_virt res_virt : Z) (bus j : Z) : M est Z :=
  let* e := get_eng in
  let* q := get_req r in
  let* x := get_xfer t in
  let* sdesc := deref (zlookup (r_sdesc q) (r_sw_desc_idx q + j)) in
  upd_desc (desc_virt + j) (xdma_desc_set (sd_addr sdesc) (r_ep_addr q) (sd_len sdesc) (x_dir x)) >>;
  upd_xfer t (fun x => set_x_len (u32 (x_len x + sd_len sdesc)) x) >>;
  when (negb (e_non_incr_addr e))
       (upd_req r (fun q => set_r_ep_addr (u64 (r_ep_addr q + sd_len sdesc)) q)) >>;
  if e_streaming e && is_c2h (e_dir e) then
    clear_result (res_virt + j) >>;
    upd_desc (desc_virt + j)
      (fun d => set_src_addr_hi (PCI_DMA_H bus) (set_src_addr_lo (PCI_DMA_L bus) d)) >>;
    ret (u64 (bus + RESULT_SIZE))
  else ret bus.

Definition transfer_build (r t desc_max : Z) : M est Z :=
  let* x := get_xfer t in
  foldM (zrange desc_max) (build_desc r t (x_desc_virt x) (x_res_virt x)) (x_res_bus x) >>;
  upd_req r (fun q => set_r_sw_desc_idx (u32 (r_sw_desc_idx q + desc_max)) q) >>;
  ret 0.

(** The number of descriptors of the next transfer: what is left of the
    request, at most up to the end of the ring. *)
Definition desc_count_for (e : xdma_engine) (q : xdma_request_cb) : Z :=
  let desc_max := Z.min (u32 (r_sw_desc_cnt q - r_sw_desc_idx q)) (u32 (e_desc_max e)) in
  if u32 (e_desc_max e) <=? u32 (e_desc_idx e + desc_max)
  then u32 (e_desc_max e - e_desc_idx e) else desc_max.

(** The transfer after [memset] and the assignments that follow it. *)
Definition init_xfer (e : xdma_engine) : xdma_transfer :=
  mk_xfer (e_desc_idx e) (e_desc_idx e)
    (u64 (e_cyclic_result_bus e + RESULT_SIZE * e_desc_idx e))
    (u64 (e_desc_bus e + DESC_SIZE * e_desc_idx e))
    0 0 (e_desc_idx e) 0 0 (e_dir e) TRANSFER_STATE_NEW 0 false false 0 None None.

Definition control_set (i fl : Z) : M est unit :=
  upd_desc i (fun d => snd (xdma_desc_control_set d fl)).

Definition last_control : Z := lor_all [XDMA_DESC_STOPPED; XDMA_DESC_EOP; XDMA_DESC_COMPLETED].

(** The control bits: the last descriptor stops the engine; with [eop_flush]
    each descriptor reports its completion. *)
Definition transfer_control (t virt desc_max : Z) : M est unit :=
  let* e := get_eng in
  let last := s32 (desc_max - 1) in
  control_set (virt + last) last_control >>;
  if e_eop_flush e then
    forM (zrange last) (fun i => control_set (virt + i) XDMA_DESC_COMPLETED) >>;
    upd_xfer t (set_x_desc_cmpl_th 1)
  else upd_xfer t (set_x_desc_cmpl_th (s32 desc_max)).

(** The body of [transfer_init] from [transfer_desc_init] on. *)
Definition transfer_fill (r t desc_max : Z) : M est Z :=
  transfer_desc_init t (s32 desc_max) >>;
  transfer_build r t desc_max >>;
  let* x := get_xfer t in
  let virt := x_desc_virt x in
  let* e := get_eng in
  upd_xfer t (set_x_desc_adjacent (s32 desc_max)) >>;
  transfer_control t virt desc_max >>;
  upd_xfer t (set_x_desc_num (s32 desc_max)) >>;
  guard_ub (negb (e_desc_max e =? 0)) >>;
  upd_eng (fun e' => set_e_desc_idx (u32 (e_desc_idx e' + desc_max) `mod` u32 (e_desc_max e)) e') >>;
  upd_eng (fun e => set_e_desc_used (s32 (e_desc_used e + desc_max)) e) >>;
  forM (zrange (s32 desc_max)) (fun i =>
    upd_desc (virt + i) (fun d =>
      xdma_desc_adjacent (xdma_get_next_adj (s32 desc_max - i - 1) (next_lo d)) d)) >>;
  ret 0.

Definition transfer_init (r t : Z) : M est Z :=
  let* e := get_eng in
  let* q := get_req r in
  get_xfer t >>;
  put_xfer t (init_xfer e) >>;
  transfer_fill r t (desc_count_for e q).

(** ** Queueing and aborting *)

Definition transfer_abort (t : Z) : M est Z :=
  let* x := get_xfer t in
  if x_desc_num x =? 0 then ret (- EINVAL)
  else
    let* e := get_eng in
    (match e_transfer_list e with
     | head :: _ => when (head =? t) list_del_head
     | [] => ret tt
     end) >>;
    when (bool_decide (x_state x = TRANSFER_STATE_SUBMITTED))
         (upd_xfer t (set_x_state TRANSFER_STATE_ABORTED)) >>;
    ret 0.

Definition list_add_tail (t : Z) : M est unit :=
  upd_eng (fun e => set_e_transfer_list (e_transfer_list e ++ [t]) e).

Definition transfer_queue (t : Z) : M est Z :=
  let* x := get_xfer t in
  if x_desc_num x =? 0 then ret (- EINVAL)
  else
    let* s := get in
    if xdma_device_flag_check (s_xdev s) XDEV_FLAG_OFFLINE then ret (- EBUSY)
    else
      let* cpu := kcall "get_cpu" [] in
      upd_eng (set_e_prev_cpu cpu) >>;
      let* e := get_eng in
      if has_bits (e_shutdown e) ENGINE_SHUTDOWN_REQUEST then ret (- EBUSY)
      else
        upd_xfer t (set_x_state TRANSFER_STATE_SUBMITTED) >>;
        list_add_tail t >>;
        when (negb (e_running e)) (engine_start >>; ret tt) >>;
        ret 0.

(** [pci_unmap_sg], which the kernel does; the driver then clears [nents]. *)
Definition unmap_sgt (g : Z) (n : Z) : M est unit :=
  kdo "pci_unmap_sg" [g; n] >>; upd_sgt g (set_sg_nents 0).

Definition transfer_destroy (t : Z) : M est unit :=
  let* x := get_xfer t in
  xdma_desc_done (x_desc_virt x) (x_desc_num x) >>;
  if x_last_in_request x && has_bits (x_flags x) XFER_FLAG_NEED_UNMAP then
    let* g := deref (x_sgt x) in
    let* sgt := get_sgt g in
    when (negb (sg_nents sgt =? 0)) (unmap_sgt g (sg_nents sgt))
  else ret tt.
End request.
