(* ===== verification/Fixtures.v ===== *)
(** * Fixtures: a concrete device

    A device and a kernel that answer fixed values, and small engines, requests
    and states, on which the witnesses evaluate the definitions. *)

From S2P Require Import Prelude Hw State Desc Engine Service Request.

(** A device whose registers all read [0] and a kernel that returns [0]. *)
Definition zero_env : Env := {|
  io_read _ _ := 0;
  kernel _ _ _ := 0;
  poll_mode := false;
  interrupt_mode := 0;
  enable_st_c2h_credit := false;
  desc_blen_max := XDMA_DESC_BLEN_MAX;
  HZ := 250;
  SIZEOF_REQ := 400
|}.

Definition no_callback : Callback := fun _ _ => ret tt.

(** An engine with [n] descriptors, its registers at [0x1000]. *)
Definition demo_engine (dir : dma_dir) (n : Z) : xdma_engine :=
  {| e_magic := MAGIC_ENGINE; e_name := "demo"; e_regs := 0x1000; e_sgdma_regs := 0x5000;
     e_bypass_offset := 0; e_shutdown := 0; e_dir := dir; e_addr_align := 1;
     e_len_granularity := 1; e_addr_bits := 64; e_channel := 0; e_streaming := false;
     e_device_open := false; e_running := false; e_non_incr_addr := false;
     e_eop_flush := false; e_desc_dequeued := 0; e_desc_max := n; e_status := 0;
     e_interrupt_enable_mask_value := 0; e_transfer_list := []; e_cyclic_result := 1;
     e_cyclic_result_bus := 0x900000; e_perf_buf_virt := 0; e_perf_buf_bus := 0;
     e_poll_mode_addr_virt := 0; e_poll_mode_bus := 0; e_msix_irq_line := 0;
     e_irq_bitmask := 1; e_desc_bus := 0x800000;
     e_desc := Some (replicate (Z.to_nat n) zero_desc); e_desc_idx := 0; e_desc_used := 0;
     e_xdma_perf := None; e_cmplthp := None; e_prev_cpu := 0; e_intr_work_cpu := 0 |}.

Definition demo_dev : xdma_dev :=
  {| d_magic := MAGIC_DEVICE; d_pdev := 1; d_idx := 0; d_flags := 0;
     d_bar := [0x10000; 0x20000; 0; 0; 0; 0]; d_user_bar_idx := 0; d_config_bar_idx := 1;
     d_bypass_bar_idx := -1; d_regions_in_use := false; d_got_regions := true;
     d_user_max := 16; d_c2h_channel_max := 1; d_h2c_channel_max := 1; d_irq_count := 0;
     d_irq_line := 0; d_msi_enabled := false; d_msix_enabled := true; d_user_irq := [];
     d_mask_irq_user := 0; d_engines_num := 2; d_mask_irq_h2c := 1; d_mask_irq_c2h := 2;
     d_feature_id := 0 |}.

(** A request for three pieces of host memory. *)
Definition demo_req : xdma_request_cb :=
  {| r_sgt := 7; r_ep_addr := 0x100; r_aperture := 0; r_total_len := 24; r_offset := 0;
     r_sg := 0; r_sg_idx := 0; r_sg_offset := 0; r_cb := None; r_sw_desc_idx := 0;
     r_sw_desc_cnt := 3;
     r_sdesc := [mk_sw_desc 0x4000 8; mk_sw_desc 0x6000 4; mk_sw_desc 0x5000 12] |}.

Definition demo_state (dir : dma_dir) (n : Z) : est :=
  mk_est demo_dev (demo_engine dir n) {[ 10 := zero_xfer ]}
    {[ 7 := mk_sgt [(0x4000, 8); (0x6000, 4); (0x5000, 12)] 3 3 ]} {[ 5 := demo_req ]} ∅ ∅ [].

(** A device that answers [st] for its status and [n] for its count of completed
    descriptors, and [0] elsewhere. *)
Definition count_env (st n : Z) : Env := {|
  io_read _ a :=
    if a =? 0x1000 + offsetof engine_regs "status_rc" then st
    else if a =? 0x1000 + offsetof engine_regs "completed_desc_count" then n else 0;
  kernel _ _ _ := 0;
  poll_mode := false;
  interrupt_mode := 0;
  enable_st_c2h_credit := false;
  desc_blen_max := XDMA_DESC_BLEN_MAX;
  HZ := 250;
  SIZEOF_REQ := 400
|}.

Definition demo_xfer (virt num : Z) : xdma_transfer :=
  mk_xfer virt virt 0 (0x800000 + 32 * virt) num num virt 0 num DMA_FROM_DEVICE
    TRANSFER_STATE_SUBMITTED 0 false true (4096 * num) None None.

(** A running C2H engine with two transfers queued, of 3 and 2 descriptors. *)
Definition demo_busy : est :=
  mk_est demo_dev
    (set_e_running true (set_e_transfer_list [10; 12] (demo_engine DMA_FROM_DEVICE 8)))
    {[ 10 := demo_xfer 0 3; 12 := demo_xfer 3 2 ]} ∅ ∅ ∅ ∅ [].
