(* ===== verification/Chain.v ===== *)
(** * Chain: transfer_init builds the chain the hardware will follow

    The specification of [transfer_init]: the descriptors it writes, one for
    each software descriptor of the request, and the theorem that the hardware
    started at the transfer's bus address visits exactly these descriptors and
    stops after the last one. *)

From S2P Require Import Prelude Hw State Desc Engine Service Request Fixtures.

(** ** Well-formed inputs *)

(** The ring of the engine as [engine_alloc_resource] makes it. *)
Record ring_ok (e : xdma_engine) (ring : list xdma_desc) : Prop := {
  ring_some : e_desc e = Some ring;
  ring_len : Z.of_nat (length ring) = e_desc_max e;
  ring_small : e_desc_max e < 2 ^ 31;
  ring_idx : 0 <= e_desc_idx e < e_desc_max e;
  ring_bus : 0 <= e_desc_bus e;
  ring_bus_top : e_desc_bus e + DESC_SIZE * e_desc_max e <= 2 ^ 64;
  ring_result : e_streaming e && is_c2h (e_dir e) = true -> e_cyclic_result e <> 0
}.

(** A request with software descriptors left. *)
Record req_ok (q : xdma_request_cb) : Prop := {
  req_idx : 0 <= r_sw_desc_idx q < r_sw_desc_cnt q;
  req_cnt : r_sw_desc_cnt q <= Z.of_nat (length (r_sdesc q));
  req_small : r_sw_desc_cnt q < 2 ^ 31;
  req_ep : 0 <= r_ep_addr q < 2 ^ 64;
  req_sdesc : Forall (fun d => 0 <= sd_addr d < 2 ^ 64 /\ 0 <= sd_len d < 2 ^ 32) (r_sdesc q)
}.

(** ** The descriptors of the transfer *)

(** The software descriptor of hardware descriptor [j] of the transfer. *)
Definition seg (q : xdma_request_cb) (j : Z) : sw_desc :=
  default (mk_sw_desc 0 0) (zlookup (r_sdesc q) (r_sw_desc_idx q + j)).

(** The bytes before descriptor [j]. *)
Definition seg_off (q : xdma_request_cb) (j : Z) : Z :=
  zsum (map (fun i => sd_len (seg q i)) (zrange j)).

(** The device address of descriptor [j]. *)
Definition seg_ep (e : xdma_engine) (q : xdma_request_cb) (j : Z) : Z :=
  if e_non_incr_addr e then r_ep_addr q else u64 (r_ep_addr q + seg_off q j).

Definition stc2h (e : xdma_engine) : bool := e_streaming e && is_c2h (e_dir e).

Definition xfer_bus (e : xdma_engine) : Z := e_desc_bus e + DESC_SIZE * e_desc_idx e.

Definition next_bus (e : xdma_engine) (n j : Z) : Z :=
  if j <? n - 1 then xfer_bus e + DESC_SIZE * (j + 1) else 0.

Definition seg_flags (e : xdma_engine) (n j : Z) : Z :=
  if j =? n - 1 then last_control else if e_eop_flush e then XDMA_DESC_COMPLETED else 0.

(** The address of the result of descriptor [j] (streaming C2H). *)
Definition result_bus (e : xdma_engine) (j : Z) : Z :=
  u64 (e_cyclic_result_bus e + RESULT_SIZE * (e_desc_idx e + j)).

Definition seg_adj (e : xdma_engine) (n j : Z) : Z :=
  xdma_get_next_adj (n - j - 1) (PCI_DMA_L (next_bus e n j)).

(** Descriptor [j] of [n] as [transfer_init] leaves it in memory. *)
Definition chain_desc (e : xdma_engine) (q : xdma_request_cb) (n j : Z) : xdma_desc :=
  let rc := sd_addr (seg q j) in
  let ep := seg_ep e q j in
  let src := if stc2h e then result_bus e j else if is_h2c (e_dir e) then rc else ep in
  let dst := if is_h2c (e_dir e) then ep else rc in
  mk_desc (ctrl_word (seg_adj e n j) (seg_flags e n j)) (sd_len (seg q j))
    (PCI_DMA_L src) (PCI_DMA_H src) (PCI_DMA_L dst) (PCI_DMA_H dst)
    (PCI_DMA_L (next_bus e n j)) (PCI_DMA_H (next_bus e n j)).

Lemma seg_flags_range e n j : 0 <= seg_flags e n j < 256.
Proof.
  unfold seg_flags. destruct (_ =? _); [by vm_compute|]. by destruct (e_eop_flush e); vm_compute.
Qed.

(** ** The states that transfer_init goes through *)

Section build.
Context `{Env} `{Callback}.
Variables (r t : Z) (s0 : est).

Definition bst (ring : list xdma_desc) (x : xdma_transfer) (q : xdma_request_cb)
    (lg : list event) : est :=
  mk_est (s_xdev s0) (set_e_desc (Some ring) (s_eng s0)) (<[t := x]> (s_xfers s0))
    (s_sgts s0) (<[r := q]> (s_reqs s0)) (s_cbs s0) (s_caios s0) lg.

Lemma bst_get_xfer ring x q lg (Q : xdma_transfer -> est -> Prop) :
  Q x (bst ring x q lg) -> wp (get_xfer t) Q (bst ring x q lg).
Proof. apply wp_get_xfer. apply lookup_insert_eq. Qed.

Lemma bst_upd_xfer ring x q lg f (Q : unit -> est -> Prop) :
  Q tt (bst ring (f x) q lg) -> wp (upd_xfer t f) Q (bst ring x q lg).
Proof.
  intros HQ. eapply wp_upd_xfer; [apply lookup_insert_eq|].
  cbn. unfold set_s_xfers. cbn. rewrite insert_insert_eq. exact HQ.
Qed.

Lemma bst_get_req ring x q lg (Q : xdma_request_cb -> est -> Prop) :
  Q q (bst ring x q lg) -> wp (get_req r) Q (bst ring x q lg).
Proof. apply wp_get_req. apply lookup_insert_eq. Qed.

Lemma bst_upd_req ring x q lg f (Q : unit -> est -> Prop) :
  Q tt (bst ring x (f q) lg) -> wp (upd_req r f) Q (bst ring x q lg).
Proof.
  intros HQ. eapply wp_upd_req; [apply lookup_insert_eq|].
  cbn. unfold set_s_reqs. cbn. rewrite insert_insert_eq. exact HQ.
Qed.

Lemma bst_forM ring x q lg base n g (Q : unit -> est -> Prop) :
  0 <= base -> 0 <= n -> base + n <= Z.of_nat (length ring) ->
  Q tt (bst (upd_range base n g ring) x q lg) ->
  wp (forM (zrange n) (fun i => upd_desc (base + i) (g i))) Q (bst ring x q lg).
Proof.
  intros Hb Hn Hlen HQ. eapply wp_mono; [by apply (wp_forM_ring base n g ring)|].
  cbn beta. intros [] s' ->. exact HQ.
Qed.

Lemma bst_clear_result ring x q lg i (Q : unit -> est -> Prop) :
  result_ok (set_e_desc (Some ring) (s_eng s0)) i = true ->
  Q tt (bst ring x q (EvCall "memset result" [i] 0 :: lg)) ->
  wp (clear_result i) Q (bst ring x q lg).
Proof.
  intros Hok HQ. apply wp_bind, wp_get_eng. cbn [s_eng bst].
  by apply wp_bind, wp_guard_ub.
Qed.

(** One descriptor of a range. *)
Definition only (i : Z) (f : xdma_desc -> xdma_desc) (j : Z) : xdma_desc -> xdma_desc :=
  if j =? i then f else id.

Lemma only_insert ring base i n f d :
  0 <= base -> 0 <= i < n -> zlookup ring (base + i) = Some d ->
  <[Z.to_nat (base + i) := f d]> ring = upd_range base n (only i f) ring.
Proof.
  intros Hb Hi Hd. apply zlookup_ext. intros k Hk.
  rewrite zlookup_insert by (done || by apply zlookup_is_Some; eauto).
  rewrite upd_range_lookup by done. unfold only. case_decide as Hki.
  - subst k. replace (base + i - base) with i by lia. rewrite Z.eqb_refl, Hd.
    destruct (_ && _) eqn:E; [done|lia].
  - destruct (_ && _), (Z.eqb_spec (k - base) i); try lia; by destruct (zlookup ring k).
Qed.

Lemma bst_one ring x q lg base i n f (Q : unit -> est -> Prop) :
  0 <= base -> 0 <= i < n -> base + i < Z.of_nat (length ring) ->
  Q tt (bst (upd_range base n (only i f) ring) x q lg) ->
  wp (upd_desc (base + i) f) Q (bst ring x q lg).
Proof.
  intros Hb Hi Hlen HQ. eapply wp_upd_desc; [reflexivity|lia|].
  intros d Hd. rewrite (only_insert ring base i n f d) by done. exact HQ.
Qed.
End build.

(** Composition of the stages. *)
Lemma upd_range_compose base n g1 g2 ring :
  upd_range base n g2 (upd_range base n g1 ring) =
  upd_range base n (fun j d => g2 j (g1 j d)) ring.
Proof.
  apply zlookup_ext. intros k Hk. rewrite !upd_range_lookup by done.
  destruct (_ && _); by destruct (zlookup ring k).
Qed.

Lemma upd_range_ext base n g1 g2 ring :
  (forall j d, 0 <= j < n -> zlookup ring (base + j) = Some d -> g1 j d = g2 j d) ->
  upd_range base n g1 ring = upd_range base n g2 ring.
Proof.
  intros Hg. apply zlookup_ext. intros k Hk. rewrite !upd_range_lookup by done.
  destruct (_ && _) eqn:E; [|done].
  destruct (zlookup ring k) as [d|] eqn:Hd; [|done]. cbn. f_equal. apply Hg; [lia|].
  by replace (base + (k - base)) with k by lia.
Qed.

(** A range whose updates beyond [m] are the identity. *)
Lemma upd_range_widen base m n g ring :
  m <= n -> (forall j d, m <= j < n -> g j d = d) ->
  upd_range base m g ring = upd_range base n g ring.
Proof.
  intros Hmn Hg. apply zlookup_ext. intros k Hk. rewrite !upd_range_lookup by done.
  destruct ((0 <=? k - base) && (k - base <? m)) eqn:E1,
           ((0 <=? k - base) && (k - base <? n)) eqn:E2; try done; try lia.
  destruct (zlookup ring k); [|done]. cbn. by rewrite Hg by lia.
Qed.

(** ** The stages *)

Section stages.
Context `{Env} `{Callback}.
Variables (r t : Z) (s0 : est) (ring : list xdma_desc) (q : xdma_request_cb) (n : Z).
Abbreviation e := (s_eng s0).
Hypothesis Hring : ring_ok e ring.
Hypothesis Hreq : req_ok q.
Hypothesis Hn : 1 <= n <= e_desc_max e - e_desc_idx e.
Hypothesis Hnq : n <= r_sw_desc_cnt q - r_sw_desc_idx q.

Abbreviation base := (e_desc_idx e).
Abbreviation bst := (bst r t s0).

Definition link_stage (j : Z) : xdma_desc -> xdma_desc :=
  if j <? n - 1 then desc_chain (u64 (xfer_bus e + DESC_SIZE * (j + 1))) else desc_end.

Lemma wp_link rg x lg (Q : Z -> est -> Prop) :
  length rg = length ring -> x_desc_virt x = base -> x_desc_bus x = xfer_bus e ->
  Q 0 (bst (upd_range base n link_stage rg) x q lg) ->
  wp (transfer_desc_init t n) Q (bst rg x q lg).
Proof.
  intros Hl Hv Hb HQ. destruct Hring. unfold transfer_desc_init.
  apply wp_bind, bst_get_xfer. rewrite Hv, Hb, Z.max_r by lia.
  set (g := fun j => if j <? n - 1 then desc_chain (u64 (xfer_bus e + DESC_SIZE * (j + 1)))
                     else id).
  apply wp_bind. apply (bst_forM r t s0 _ _ _ _ base (n - 1)
    (fun i => desc_chain (u64 (xfer_bus e + DESC_SIZE * (i + 1))))); [lia..|].
  rewrite (upd_range_ext base (n - 1) _ g) by
    (intros j d Hj _; unfold g; destruct (Z.ltb_spec j (n - 1)); done || lia).
  rewrite (upd_range_widen base (n - 1) n g) by
    (try lia; intros j d Hj; unfold g; destruct (Z.ltb_spec j (n - 1)); done || lia).
  apply wp_bind, (bst_one _ _ _ _ _ _ _ base (n - 1) n); [lia..|rewrite upd_range_length; lia|].
  rewrite upd_range_compose. erewrite upd_range_ext; [exact HQ|].
  intros j d Hj _. unfold only, g, link_stage.
  destruct (Z.eqb_spec j (n - 1)), (Z.ltb_spec j (n - 1)); (done || lia).
Qed.

(** The second stage: the contents. *)
Definition fill_stage (j : Z) (d : xdma_desc) : xdma_desc :=
  let sd := seg q j in
  let d := xdma_desc_set (sd_addr sd) (seg_ep e q j) (sd_len sd) (e_dir e) d in
  if stc2h e then
    set_src_addr_hi (PCI_DMA_H (result_bus e j)) (set_src_addr_lo (PCI_DMA_L (result_bus e j)) d)
  else d.

Definition req_at (j : Z) : xdma_request_cb := set_r_ep_addr (seg_ep e q j) q.
Definition len_at (x : xdma_transfer) (j : Z) : xdma_transfer :=
  set_x_len (u32 (x_len x + seg_off q j)) x.
Definition bus_at (j : Z) : Z := if stc2h e then result_bus e j else result_bus e 0.

Lemma seg_off_S j : 0 <= j -> seg_off q (j + 1) = seg_off q j + sd_len (seg q j).
Proof.
  intros Hj. unfold seg_off. rewrite zrange_S, map_app, zsum_app by lia. cbn. lia.
Qed.

Lemma seg_ep_S j : 0 <= j ->
  seg_ep e q (j + 1) =
  if e_non_incr_addr e then seg_ep e q j else u64 (seg_ep e q j + sd_len (seg q j)).
Proof.
  intros Hj. unfold seg_ep. destruct (e_non_incr_addr e); [done|].
  rewrite seg_off_S by done. unfold u64. rewrite Zplus_mod_idemp_l. f_equal. lia.
Qed.

Lemma seg_ep_0 : seg_ep e q 0 = r_ep_addr q.
Proof.
  destruct Hreq. unfold seg_ep. destruct (e_non_incr_addr e); [done|].
  unfold seg_off. cbn. rewrite Z.add_0_r. by apply u64_small.
Qed.

Lemma seg_lookup j : 0 <= j < n ->
  zlookup (r_sdesc q) (r_sw_desc_idx q + j) = Some (seg q j).
Proof.
  intros Hj. destruct Hreq. unfold seg.
  destruct (zlookup_in (r_sdesc q) (r_sw_desc_idx q + j)) as [d Hd]; [lia|]. by rewrite Hd.
Qed.

Lemma len_at_S x j : 0 <= j ->
  set_x_len (u32 (x_len (len_at x j) + sd_len (seg q j))) (len_at x j) = len_at x (j + 1).
Proof.
  intros Hj. unfold len_at. rewrite seg_off_S by done. cbn [x_len set_x_len].
  assert (u32 (u32 (x_len x + seg_off q j) + sd_len (seg q j)) =
          u32 (x_len x + (seg_off q j + sd_len (seg q j)))) as ->; [|reflexivity].
  unfold u32. rewrite Zplus_mod_idemp_l. f_equal. lia.
Qed.

Lemma result_bus_S j : u64 (result_bus e j + RESULT_SIZE) = result_bus e (j + 1).
Proof. unfold result_bus, u64. rewrite Zplus_mod_idemp_l. f_equal. lia. Qed.

(** After [j] turns the first [j] descriptors are filled. *)
Definition filled (j i : Z) : xdma_desc -> xdma_desc := if i <? j then fill_stage i else id.

Definition build_inv rg x (j bus : Z) (s : est) : Prop :=
  bus = bus_at j /\ exists lg, s = bst (upd_range base n (filled j) rg) (len_at x j) (req_at j) lg.

Lemma req_at_S j : 0 <= j ->
  (if negb (e_non_incr_addr e)
   then set_r_ep_addr (u64 (r_ep_addr (req_at j) + sd_len (seg q j))) (req_at j)
   else req_at j) = req_at (j + 1).
Proof.
  intros Hj. unfold req_at. rewrite seg_ep_S by done. by destruct (e_non_incr_addr e).
Qed.

Lemma filled_S j rg : 0 <= j ->
  upd_range base n (fun i d => only j (fill_stage j) i (filled j i d)) rg =
  upd_range base n (filled (j + 1)) rg.
Proof.
  intros Hj. apply upd_range_ext. intros i d Hi _. unfold only, filled.
  destruct (Z.eqb_spec i j), (Z.ltb_spec i j), (Z.ltb_spec i (j + 1)); try lia; by subst.
Qed.

Lemma wp_build_desc rg x j bus s :
  length rg = length ring -> x_dir x = e_dir e -> 0 <= j < n ->
  build_inv rg x j bus s ->
  wp (build_desc r t base base bus j) (build_inv rg x (j + 1)) s.
Proof.
  intros Hl Hd Hj [-> [lg ->]]. pose proof Hring as [? ? ? ? ? ? Hres].
  unfold build_desc. apply wp_bind, wp_get_eng. cbv beta.
  apply wp_bind, bst_get_req, wp_bind, bst_get_xfer. apply wp_bind.
  eapply wp_deref; [exact (seg_lookup j Hj)|].
  apply wp_bind, (bst_one _ _ _ _ _ _ _ base j n); [lia..|rewrite upd_range_length; lia|].
  apply wp_bind, bst_upd_xfer. rewrite len_at_S by lia. cbn [x_dir len_at set_x_len].
  rewrite Hd, upd_range_compose.
  apply wp_bind.
  eapply (wp_mono _ (fun _ s' => s' = bst _ (len_at x (j + 1)) (req_at (j + 1)) lg)).
  { apply wp_when; intros Hinc; cbn in Hinc.
    - apply bst_upd_req. rewrite <-req_at_S by lia. by rewrite Hinc.
    - rewrite <-req_at_S by lia. by rewrite Hinc. }
  cbv beta. intros _ s' ->. cbn [e_streaming e_dir set_e_desc s_eng Chain.bst].
  unfold build_inv, bus_at. rewrite <-filled_S by lia.
  destruct (e_streaming e && is_c2h (e_dir e)) eqn:Hst.
  - apply wp_bind, bst_clear_result.
    { change (result_ok (s_eng s0) (base + j) = true). unfold result_ok.
      specialize (Hres eq_refl). rewrite !andb_true_iff, negb_true_iff, Z.eqb_neq. lia. }
    apply wp_bind, (bst_one _ _ _ _ _ _ _ base j n); [lia..|rewrite upd_range_length; lia|].
    rewrite upd_range_compose. apply wp_ret. unfold stc2h. rewrite Hst, result_bus_S.
    split; [done|]. eexists. f_equal. apply upd_range_ext. intros i d Hi _.
    unfold only, fill_stage, stc2h. rewrite Hst. by destruct (Z.eqb_spec i j) as [->|].
  - apply wp_ret. unfold stc2h. rewrite Hst. split; [done|]. eexists. f_equal.
    apply upd_range_ext. intros i d Hi _.
    unfold only, fill_stage, stc2h. rewrite Hst. by destruct (Z.eqb_spec i j).
Qed.

Lemma wp_transfer_build rg x lg (Q : Z -> est -> Prop) :
  length rg = length ring -> x_dir x = e_dir e -> x_desc_virt x = base ->
  x_res_virt x = base -> x_res_bus x = result_bus e 0 -> x_len x = 0 ->
  (forall lg', Q 0 (bst (upd_range base n fill_stage rg) (set_x_len (u32 (seg_off q n)) x)
                      (set_r_sw_desc_idx (u32 (r_sw_desc_idx q + n)) (req_at n)) lg')) ->
  wp (transfer_build r t n) Q (bst rg x q lg).
Proof.
  intros Hl Hd Hv Hrv Hrb Hxl HQ. unfold transfer_build.
  apply wp_bind, bst_get_xfer. rewrite Hv, Hrv, Hrb. apply wp_bind.
  eapply wp_mono.
  - apply (wp_foldM_zrange n _ (build_inv rg x)).
    + split; [unfold bus_at; by destruct (stc2h e)|]. exists lg.
      rewrite (upd_range_ext _ _ _ (fun _ d => d)); cycle 1.
      { intros j d Hj _. unfold filled. by destruct (Z.ltb_spec j 0); [lia|]. }
      assert (upd_range base n (fun _ d => d) rg = rg) as ->.
      { apply zlookup_ext. intros k Hk. rewrite upd_range_lookup by done.
        destruct (_ && _); by destruct (zlookup rg k). }
      unfold req_at. rewrite seg_ep_0. unfold len_at, seg_off. cbn. rewrite Hxl.
      unfold Chain.bst. f_equal; [by destruct x; cbn in *; subst|by destruct q].
    + intros i b s' Hi Hinv. by apply wp_build_desc.
  - cbv beta. intros bus s' [_ [lg' ->]]. rewrite Z.max_r by lia.
    apply wp_bind, bst_upd_req. apply wp_ret.
    rewrite (upd_range_ext _ _ (filled n) fill_stage); cycle 1.
    { intros j d Hj _. unfold filled. by destruct (Z.ltb_spec j n); [|lia]. }
    unfold len_at. rewrite Hxl. exact (HQ lg').
Qed.

(** The third stage: the control bits. *)
Definition ctrl_stage (j : Z) (d : xdma_desc) : xdma_desc :=
  if j =? n - 1 then snd (xdma_desc_control_set d last_control)
  else if e_eop_flush e then snd (xdma_desc_control_set d XDMA_DESC_COMPLETED) else d.

(** The last stage: the adjacent counts. *)
Definition adj_stage (j : Z) (d : xdma_desc) : xdma_desc :=
  xdma_desc_adjacent (xdma_get_next_adj (n - j - 1) (next_lo d)) d.

Lemma next_bus_range j : 0 <= j < n -> 0 <= next_bus e n j < 2 ^ 64.
Proof.
  intros Hj. destruct Hring. unfold next_bus, xfer_bus, DESC_SIZE in *.
  destruct (Z.ltb_spec j (n - 1)); lia.
Qed.

Lemma seg_range j : 0 <= j < n ->
  0 <= sd_addr (seg q j) < 2 ^ 64 /\ 0 <= sd_len (seg q j) < 2 ^ 32.
Proof.
  intros Hj. destruct Hreq as [_ _ _ _ Hall]. pose proof (seg_lookup j Hj) as Hl.
  unfold zlookup in Hl. destruct (_ <? 0); [done|].
  rewrite Forall_lookup in Hall. exact (Hall _ _ Hl).
Qed.

Lemma control_set_control d fl : 0 <= fl < 256 -> control d = DESC_MAGIC ->
  snd (xdma_desc_control_set d fl) = set_control (Z.lor DESC_MAGIC fl) d.
Proof.
  intros Hf Hc. unfold xdma_desc_control_set. rewrite Hc.
  assert (has_bits fl (Z.lnot LS_BYTE_MASK) = false) as ->; [|reflexivity].
  unfold has_bits, LS_BYTE_MASK. change 0xFF with (Z.ones 8).
  rewrite <-Z.ldiff_land, Z.ldiff_ones_r, Z.shiftr_div_pow2, Z.div_small by lia. done.
Qed.

Lemma ctrl_stage_control j d : control d = DESC_MAGIC ->
  ctrl_stage j d = set_control (Z.lor DESC_MAGIC (seg_flags e n j)) d.
Proof.
  intros Hc. unfold ctrl_stage, seg_flags.
  destruct (j =? n - 1); [by apply control_set_control|].
  destruct (e_eop_flush e); [by apply control_set_control|].
  rewrite Z.lor_0_r, <-Hc. by destruct d.
Qed.

Lemma all_stages j d : 0 <= j < n ->
  adj_stage j (ctrl_stage j (fill_stage j (link_stage j d))) = chain_desc e q n j.
Proof.
  intros Hj. pose proof (next_bus_range j Hj) as Hnb. pose proof (seg_range j Hj) as [Ha Hlen].
  set (d1 := link_stage j d).
  assert (control d1 = DESC_MAGIC /\ next_lo d1 = PCI_DMA_L (next_bus e n j) /\
          next_hi d1 = PCI_DMA_H (next_bus e n j)) as (Hc & Hlo & Hhi).
  { unfold d1, link_stage, next_bus in *. destruct (j <? n - 1); [|done].
    cbn. rewrite u64_small by lia. done. }
  assert (control (fill_stage j d1) = DESC_MAGIC) as Hc2.
  { unfold fill_stage. by destruct (stc2h e), (e_dir e). }
  rewrite (ctrl_stage_control j _ Hc2). unfold adj_stage.
  destruct (next_adj_bounds (n - j - 1) (PCI_DMA_L (next_bus e n j))) as (Hadj & _ & _).
  edestruct (desc_adjacent_fields (seg_adj e n j) (seg_flags e n j)
    (set_control (Z.lor DESC_MAGIC (seg_flags e n j)) (fill_stage j d1))) as (Hctl & _).
  { unfold seg_adj. lia. } { apply seg_flags_range. } { done. }
  assert (next_lo (fill_stage j d1) = PCI_DMA_L (next_bus e n j)) as Hlo2.
  { unfold fill_stage. by destruct (stc2h e), (e_dir e). }
  cbn [next_lo set_control]. rewrite Hlo2. fold (seg_adj e n j).
  revert Hctl. unfold xdma_desc_adjacent, chain_desc. cbn [control set_control]. intros ->.
  unfold set_control, fill_stage. destruct (stc2h e), (e_dir e); cbn;
    rewrite Hlo, Hhi, u32_small by done; reflexivity.
Qed.
End stages.

(** ** transfer_init *)

(** The number of descriptors: what is left of the request, at most up to the
    end of the ring. *)
Definition take_count (e : xdma_engine) (q : xdma_request_cb) : Z :=
  Z.min (r_sw_desc_cnt q - r_sw_desc_idx q) (e_desc_max e - e_desc_idx e).

Definition advance (n : Z) (e : xdma_engine) : xdma_engine :=
  set_e_desc_used (s32 (e_desc_used e + n))
    (set_e_desc_idx ((e_desc_idx e + n) `mod` e_desc_max e) e).

Definition built_xfer (e : xdma_engine) (q : xdma_request_cb) (n : Z) : xdma_transfer :=
  mk_xfer (e_desc_idx e) (e_desc_idx e) (result_bus e 0) (xfer_bus e) n n (e_desc_idx e) 0
    (if e_eop_flush e then 1 else n) (e_dir e) TRANSFER_STATE_NEW 0 false false
    (u32 (seg_off q n)) None None.

Definition built_req (e : xdma_engine) (q : xdma_request_cb) (n : Z) : xdma_request_cb :=
  set_r_sw_desc_idx (r_sw_desc_idx q + n) (set_r_ep_addr (seg_ep e q n) q).

(** The ring with the descriptors of the transfer in place. *)
Definition chain_ring (e : xdma_engine) (q : xdma_request_cb) (n : Z) (ring : list xdma_desc)
  : list xdma_desc :=
  upd_range (e_desc_idx e) n (fun j _ => chain_desc e q n j) ring.

Lemma desc_count_for_take e ring q :
  ring_ok e ring -> req_ok q -> desc_count_for e q = take_count e q.
Proof.
  intros [] []. unfold desc_count_for, take_count.
  rewrite (u32_small (r_sw_desc_cnt q - _)), (u32_small (e_desc_max e)) by lia.
  rewrite (u32_small (e_desc_idx e + _)), (u32_small (e_desc_max e - _)) by lia.
  destruct (Z.leb_spec (e_desc_max e)
    (e_desc_idx e + Z.min (r_sw_desc_cnt q - r_sw_desc_idx q) (e_desc_max e))); lia.
Qed.

Section init.
Context `{Env} `{Callback}.

Lemma wp_ctrl r t s0 ring x q n lg (Q : unit -> est -> Prop) :
  let e := s_eng s0 in
  1 <= n -> 0 <= e_desc_idx e -> e_desc_idx e + n <= Z.of_nat (length ring) -> n < 2 ^ 31 ->
  Q tt (bst r t s0 (upd_range (e_desc_idx e) n (ctrl_stage s0 n) ring)
          (set_x_desc_cmpl_th (if e_eop_flush e then 1 else n) x) q lg) ->
  wp (transfer_control t (e_desc_idx e) n) Q (bst r t s0 ring x q lg).
Proof.
  cbv zeta. intros Hn Hi Hlen Hsm HQ. unfold transfer_control.
  apply wp_bind, wp_get_eng. cbv beta. rewrite (s32_small n), (s32_small (n - 1)) by lia.
  apply wp_bind, (bst_one _ _ _ _ _ _ _ (e_desc_idx (s_eng s0)) (n - 1) n); [lia..|].
  cbn [e_eop_flush set_e_desc s_eng bst]. unfold control_set.
  destruct (e_eop_flush (s_eng s0)) eqn:Hf.
  - apply wp_bind. set (g := fun j : Z => if j <? n - 1
      then (fun d => snd (xdma_desc_control_set d XDMA_DESC_COMPLETED)) else id).
    apply (bst_forM _ _ _ _ _ _ _ _ (n - 1)
      (fun _ d => snd (xdma_desc_control_set d XDMA_DESC_COMPLETED)));
      [lia..|rewrite upd_range_length; lia|].
    rewrite (upd_range_ext _ (n - 1) _ g) by
      (intros j d Hj _; unfold g; destruct (Z.ltb_spec j (n - 1)); done || lia).
    rewrite (upd_range_widen _ (n - 1) n g) by
      (try lia; intros j d Hj; unfold g; destruct (Z.ltb_spec j (n - 1)); done || lia).
    rewrite upd_range_compose. apply bst_upd_xfer.
    erewrite upd_range_ext; [exact HQ|]. intros j d Hj _. unfold ctrl_stage, only, g.
    rewrite Hf. destruct (Z.eqb_spec j (n - 1)), (Z.ltb_spec j (n - 1)); (done || lia).
  - apply bst_upd_xfer. erewrite upd_range_ext; [exact HQ|].
    intros j d Hj _. unfold ctrl_stage, only. rewrite Hf. by destruct (j =? n - 1).
Qed.

Lemma transfer_fill_wp r t s0 ring q n lg (Q : Z -> est -> Prop) :
  let e := s_eng s0 in
  ring_ok e ring -> req_ok q -> 1 <= n <= take_count e q ->
  (forall lg', Q 0 (bst r t (set_s_eng (advance n e) s0) (chain_ring e q n ring)
                      (built_xfer e q n) (built_req e q n) lg')) ->
  wp (transfer_fill r t n) Q (bst r t s0 ring (init_xfer e) q lg).
Proof.
  cbv zeta. intros Hr Hq Hn HQ. unfold take_count in Hn.
  destruct (Hr) as [_ Hlen Hsm Hidx Hb Htop _]. destruct (Hq) as [Hqi _ Hqs _ _].
  unfold transfer_fill. rewrite !(s32_small n) by lia.
  assert (x_desc_bus (init_xfer (s_eng s0)) = xfer_bus (s_eng s0)) as Hbus.
  { apply u64_small. fold (xfer_bus (s_eng s0)). unfold xfer_bus, DESC_SIZE in *. lia. }
  apply wp_bind, (wp_link r t s0 ring q n Hr); try done; [lia|].
  apply wp_bind, (wp_transfer_build r t s0 ring q n Hr Hq); try done; try lia.
  { by rewrite upd_range_length. }
  { cbn. unfold result_bus. f_equal. lia. }
  intros lg1. rewrite upd_range_compose.
  apply wp_bind, bst_get_xfer. cbn [x_desc_virt init_xfer set_x_len].
  apply wp_bind, wp_get_eng. cbv beta.
  apply wp_bind, bst_upd_xfer.
  apply wp_bind, wp_ctrl; [lia..|rewrite upd_range_length; lia|lia|].
  rewrite upd_range_compose. apply wp_bind, bst_upd_xfer.
  apply wp_bind, wp_guard_ub.
  { change (negb (e_desc_max (s_eng s0) =? 0) = true). lia. }
  apply wp_bind, wp_upd_eng, wp_bind, wp_upd_eng.
  match goal with |- wp _ _ ?st => change st with
    (bst r t (set_s_eng (set_e_desc_used (s32 (e_desc_used (s_eng s0) + n))
       (set_e_desc_idx (u32 (e_desc_idx (s_eng s0) + n) `mod` u32 (e_desc_max (s_eng s0)))
          (s_eng s0))) s0)
      (upd_range (e_desc_idx (s_eng s0)) n (fun j d =>
        ctrl_stage s0 n j (fill_stage s0 q j (link_stage s0 n j d))) ring)
      (set_x_desc_num n (set_x_desc_cmpl_th (if e_eop_flush (s_eng s0) then 1 else n)
       (set_x_desc_adjacent n (set_x_len (u32 (seg_off q n)) (init_xfer (s_eng s0))))))
      (set_r_sw_desc_idx (u32 (r_sw_desc_idx q + n)) (req_at s0 q n)) lg1) end.
  apply wp_bind, bst_forM; [lia..|rewrite upd_range_length; lia|].
  apply wp_ret. rewrite upd_range_compose.
  erewrite upd_range_ext; cycle 1.
  { intros j d Hj _. exact (all_stages s0 ring q n Hr Hq ltac:(lia) ltac:(lia) j d Hj). }
  rewrite (u32_small (e_desc_idx _ + _)), (u32_small (e_desc_max _)),
    (u32_small (r_sw_desc_idx _ + _)) by lia.
  assert (set_r_sw_desc_idx (r_sw_desc_idx q + n) (req_at s0 q n) = built_req (s_eng s0) q n)
    as -> by reflexivity.
  assert (set_x_desc_num n (set_x_desc_cmpl_th (if e_eop_flush (s_eng s0) then 1 else n)
       (set_x_desc_adjacent n (set_x_len (u32 (seg_off q n)) (init_xfer (s_eng s0)))))
     = built_xfer (s_eng s0) q n) as Hx.
  { unfold built_xfer. rewrite <-Hbus. cbn. unfold result_bus. rewrite Z.add_0_r. reflexivity. }
  rewrite Hx. apply HQ.
Qed.

Lemma bst_start r t s ring q lg x :
  e_desc (s_eng s) = Some ring -> s_reqs s !! r = Some q -> lg = s_log s ->
  set_s_xfers (<[t := x]> (s_xfers s)) s = bst r t s ring x q lg.
Proof.
  intros Hr Hq ->. unfold bst, set_s_xfers. rewrite (insert_id (s_reqs s)) by done.
  assert (set_e_desc (Some ring) (s_eng s) = s_eng s) as ->; [|done].
  rewrite <-Hr. by destruct (s_eng s).
Qed.

(** What [transfer_init] leaves behind; any log. *)
Definition initialised (r t : Z) (s : est) (ring : list xdma_desc) (q : xdma_request_cb)
    (s' : est) : Prop :=
  let e := s_eng s in
  let n := take_count e q in
  exists lg, s' = bst r t (set_s_eng (advance n e) s) (chain_ring e q n ring)
                   (built_xfer e q n) (built_req e q n) lg.

Lemma transfer_init_wp r t s ring q :
  ring_ok (s_eng s) ring -> req_ok q ->
  s_reqs s !! r = Some q -> is_Some (s_xfers s !! t) ->
  wp (transfer_init r t) (fun rv s' => rv = 0 /\ initialised r t s ring q s') s.
Proof.
  intros Hr Hq Hrq [x Hx]. unfold transfer_init.
  apply wp_bind, wp_get_eng. cbv beta. apply wp_bind. eapply wp_get_req; [done|].
  apply wp_bind. eapply wp_get_xfer; [done|]. apply wp_bind, wp_put_xfer.
  rewrite (bst_start r t s ring q (s_log s)) by (done || by destruct Hr).
  rewrite (desc_count_for_take _ ring) by done.
  apply transfer_fill_wp; [done|done| |].
  - unfold take_count. destruct Hr, Hq. lia.
  - intros lg. split; [done|]. by exists lg.
Qed.
End init.

(** ** What the hardware sees *)

Section hardware.
Variables (e : xdma_engine) (q : xdma_request_cb) (ring : list xdma_desc).
Hypothesis Hring : ring_ok e ring.
Hypothesis Hreq : req_ok q.
Abbreviation n := (take_count e q).

Lemma take_count_pos : 1 <= n.
Proof. unfold take_count. destruct Hring, Hreq. lia. Qed.

Lemma chain_lookup j : 0 <= j < n ->
  zlookup (chain_ring e q n ring) (e_desc_idx e + j) = Some (chain_desc e q n j).
Proof.
  intros Hj. destruct Hring. unfold take_count in Hj. unfold chain_ring.
  rewrite upd_range_lookup by lia. replace (e_desc_idx e + j - e_desc_idx e) with j by lia.
  destruct (zlookup_in ring (e_desc_idx e + j)) as [d Hd]; [lia|]. rewrite Hd.
  destruct ((0 <=? j) && (j <? n)) eqn:E; [reflexivity|]. unfold take_count in E. lia.
Qed.

Lemma chain_desc_next j : desc_next (chain_desc e q n j) = next_bus e n j.
Proof. unfold desc_next, chain_desc. cbn [next_lo next_hi]. apply PCI_DMA_split. Qed.

Lemma seg_adj_range j : 0 <= seg_adj e n j < 64.
Proof.
  destruct (next_adj_bounds (n - j - 1) (PCI_DMA_L (next_bus e n j))) as (? & _).
  unfold seg_adj. lia.
Qed.

Lemma chain_desc_control j :
  desc_adj (chain_desc e q n j) = seg_adj e n j /\
  desc_flags (chain_desc e q n j) = seg_flags e n j /\
  has_bits (control (chain_desc e q n j)) XDMA_DESC_STOPPED = (j =? n - 1).
Proof.
  pose proof (seg_adj_range j) as Ha. pose proof (seg_flags_range e n j) as Hf.
  destruct (desc_adjacent_fields (seg_adj e n j) (seg_flags e n j)
    (mk_desc (Z.lor DESC_MAGIC (seg_flags e n j)) 0 0 0 0 0 0 0)) as (Hc & Hadj & Hfl & Hst);
    [done..|].
  unfold desc_adj, desc_flags in *. rewrite Hc in *. unfold chain_desc. cbn [control].
  rewrite Hadj, Hfl, Hst. split_and!; try done. unfold seg_flags.
  destruct (j =? n - 1); [done|]. by destruct (e_eop_flush e).
Qed.

Lemma chain_linked : linked (chain_ring e q n ring) (e_desc_bus e) (e_desc_idx e) n (chain_desc e q n).
Proof.
  split; intros j Hj; [by apply chain_lookup| |by destruct (chain_desc_control j) as (_ & _ & ->)].
  rewrite chain_desc_next. unfold next_bus, xfer_bus. destruct (Z.ltb_spec j (n - 1)); lia.
Qed.

(** The hardware started at the transfer visits its descriptors in order. *)
Lemma hw_walk_chain :
  hw_walk (Z.to_nat n) (chain_ring e q n ring) (e_desc_bus e) (xfer_bus e) =
  Some (map (chain_desc e q n) (zrange n)).
Proof. apply hw_walk_linked; [apply chain_linked|apply take_count_pos]. Qed.
End hardware.

(** What descriptor [j] of the transfer tells the hardware, in terms of the
    request: the length and the two addresses of software descriptor [j] (for
    streaming C2H the source field is the address of the result instead), the
    interrupt and stop bits on the last descriptor, and an adjacent count that
    stays inside the transfer and inside an aligned block of 64. *)
Definition describes (e : xdma_engine) (q : xdma_request_cb) (n j : Z) (d : xdma_desc) : Prop :=
  bytes d = sd_len (seg q j) /\
  (if is_h2c (e_dir e)
   then desc_src d = sd_addr (seg q j) /\ desc_dst d = seg_ep e q j
   else desc_dst d = sd_addr (seg q j) /\
        desc_src d = if stc2h e then result_bus e j else seg_ep e q j) /\
  desc_flags d = seg_flags e n j /\
  (1 < n - j - 1 -> desc_adj d <= n - j - 2) /\
  block_index (next_lo d) + desc_adj d <= 63.

Lemma chain_desc_describes e q ring j :
  ring_ok e ring -> req_ok q -> 0 <= j < take_count e q ->
  describes e q (take_count e q) j (chain_desc e q (take_count e q) j).
Proof.
  intros Hr Hq Hj. destruct (chain_desc_control e q j) as (Hadj & Hfl & _).
  unfold describes. rewrite Hadj, Hfl.
  pose proof (next_adj_bounds (take_count e q - j - 1) (PCI_DMA_L (next_bus e (take_count e q) j)))
    as (_ & Ha & Hb). fold (seg_adj e (take_count e q) j) in Ha, Hb.
  split_and!; [done| |done|lia|exact Hb].
  unfold desc_src, desc_dst, chain_desc, stc2h, is_c2h. cbn.
  destruct (is_h2c (e_dir e)); rewrite !PCI_DMA_split; [|done].
  by rewrite andb_false_r.
Qed.

(** ** The property of transfer_init *)

Section property.
Context `{Env} `{Callback}.

(** The result of [transfer_init] and the hardware's view of it. *)
Definition chain_built (r t : Z) (s : est) (ring : list xdma_desc) (q : xdma_request_cb) : Prop :=
  let e := s_eng s in
  let n := take_count e q in
  exists s' ring' x ds,
    transfer_init r t s = Some (0, s') /\
    s_xfers s' !! t = Some x /\ x_desc_num x = n /\ x_len x = u32 (seg_off q n) /\
    s_reqs s' !! r = Some (built_req e q n) /\
    e_desc (s_eng s') = Some ring' /\
    hw_walk (Z.to_nat n) ring' (e_desc_bus e) (x_desc_bus x) = Some ds /\
    Z.of_nat (length ds) = n /\
    (forall j, 0 <= j < n -> exists d, zlookup ds j = Some d /\ describes e q n j d) /\
    (forall k, 0 <= k -> ~ (e_desc_idx e <= k < e_desc_idx e + n) ->
               zlookup ring' k = zlookup ring k).

(** C1: [transfer_init] terminates without an out-of-bounds access and builds
    the chain of the request: the hardware, started at the transfer's bus
    address and following the [next] fields up to the stop bit, visits exactly
    one descriptor for each software descriptor taken, in order, each with the
    length, the host and device addresses and the flags of that software
    descriptor; the other descriptors of the ring are untouched and the
    request is advanced by what was taken. *)
Theorem transfer_init_chain r t s ring q :
  ring_ok (s_eng s) ring -> req_ok q ->
  s_reqs s !! r = Some q -> is_Some (s_xfers s !! t) ->
  chain_built r t s ring q.
Proof.
  intros Hr Hq Hrq Hx. pose proof (transfer_init_wp r t s ring q Hr Hq Hrq Hx) as Hwp.
  apply wp_iff in Hwp as (rv & s' & Hrun & -> & lg & ->).
  pose proof (take_count_pos _ _ _ Hr Hq) as Hn.
  unfold chain_built. do 4 eexists. split; [exact Hrun|].
  split; [apply lookup_insert_eq|]. split; [done|]. split; [done|].
  split; [apply lookup_insert_eq|]. split; [done|].
  split; [by apply hw_walk_chain|].
  split; [rewrite length_map, length_seqZ; lia|]. split.
  - intros j Hj. exists (chain_desc (s_eng s) q (take_count (s_eng s) q) j).
    split; [|by eapply chain_desc_describes]. unfold zlookup.
    destruct (Z.ltb_spec j 0); [lia|].
    rewrite list_lookup_fmap, lookup_seqZ_lt by lia. cbn. by rewrite Z2Nat.id by lia.
  - intros k Hk Hout. unfold chain_ring. rewrite upd_range_lookup by done.
    destruct ((0 <=? k - _) && _) eqn:E; [lia|]. by destruct (zlookup ring k).
Qed.
End property.

Lemma demo_ring_ok dir : ring_ok (demo_engine dir 8) (replicate 8 zero_desc).
Proof. by split. Qed.

Lemma demo_req_ok : req_ok demo_req.
Proof. split; cbn; try lia. repeat constructor; cbn; lia. Qed.

Lemma transfer_init_chain_witness :
  chain_built 5 10 (demo_state DMA_TO_DEVICE 8) (replicate 8 zero_desc) demo_req.
Proof.
  apply transfer_init_chain.
  - apply demo_ring_ok.
  - apply demo_req_ok.
  - reflexivity.
  - by exists zero_xfer.
Defined.
