(* ===== verification/ServiceSpec.v ===== *)
(** * ServiceSpec: what servicing an engine does

    Specifications of the completion code of [Service]: the abstract effect of
    [engine_service_transfer_list] on the queue, and a frame theorem for
    [engine_service] that holds for every answer of the device.  The queue holds
    synchronous transfers ([x_cb = None]), those of [xdma_xfer_submit]. *)

From S2P Require Import Prelude Hw State Desc Engine Service Request Fixtures.

(** ** How a service call may change the state *)

Abbreviation queue s := (e_transfer_list (s_eng s)).

Section evolves.
Context `{Env}.

(** A status that the engine has, or that the device may answer. *)
Definition seen (e : xdma_engine) (st : Z) : Prop :=
  st = e_status e \/
  exists lg f, (f = "status" \/ f = "status_rc")%string /\ st = u32 (io_read lg (reg e f)).

(** The engine: only its run state changes; the queue is treated apart. *)
Definition eng_evolves (e e' : xdma_engine) : Prop :=
  exists q run st sh dq perf,
    seen e st /\ e' = set_e_transfer_list q (set_e_running run (set_e_status st (set_e_shutdown sh
           (set_e_desc_dequeued dq (set_e_xdma_perf perf e))))).

(** A transfer: its state, its flags and its count of completed descriptors.
    The state changes only when the transfer leaves the queue. *)
Definition xfer_evolves (finished : Prop) (x x' : xdma_transfer) : Prop :=
  exists st fl c,
    x' = set_x_state st (set_x_flags fl (set_x_desc_cmpl c x)) /\
    (finished -> st = TRANSFER_STATE_COMPLETED \/ st = TRANSFER_STATE_FAILED) /\
    (~ finished -> st = x_state x).

(** [serviced done s s']: the transfers [done] were taken from the front of the
    queue and finished, everything else is as before. *)
Record serviced (done : list Z) (s s' : est) : Prop := {
  sv_queue : queue s = done ++ queue s';
  sv_eng : eng_evolves (s_eng s) (s_eng s');
  sv_xfers : forall t, option_Forall2 (xfer_evolves (t ∈ done)) (s_xfers s !! t) (s_xfers s' !! t);
  sv_dev : s_xdev s' = s_xdev s;
  sv_sgts : s_sgts s' = s_sgts s;
  sv_reqs : s_reqs s' = s_reqs s;
  sv_cbs : s_cbs s' = s_cbs s
}.

(** A queue of live, distinct, synchronous transfers. *)
Record queue_ok (s : est) : Prop := {
  qk_nodup : NoDup (queue s);
  qk_live : forall t, t ∈ queue s -> exists x, s_xfers s !! t = Some x /\ x_cb x = None
}.

Lemma eng_evolves_trans e1 e2 e3 : eng_evolves e1 e2 -> eng_evolves e2 e3 -> eng_evolves e1 e3.
Proof.
  intros (q & r & st & sh & dq & p & Hst & ->) (q' & r' & st' & sh' & dq' & p' & Hst' & ->).
  exists q', r', st', sh', dq', p'. split; [|done]. destruct Hst' as [->|Hst']; [done|by right].
Qed.

Lemma eng_evolves_refl e : eng_evolves e e.
Proof.
  exists (e_transfer_list e), (e_running e), (e_status e), (e_shutdown e),
    (e_desc_dequeued e), (e_xdma_perf e). split; [by left|by destruct e].
Qed.

Lemma xfer_evolves_refl x : xfer_evolves False x x.
Proof. exists (x_state x), (x_flags x), (x_desc_cmpl x). split; [by destruct x|tauto]. Qed.

Lemma serviced_trans d1 d2 s1 s2 s3 :
  NoDup (queue s1) -> serviced d1 s1 s2 -> serviced d2 s2 s3 -> serviced (d1 ++ d2) s1 s3.
Proof.
  intros Hnd [q1 e1 x1 dv1 sg1 rq1 cb1] [q2 e2 x2 dv2 sg2 rq2 cb2].
  split; try congruence.
  - by rewrite q1, q2, app_assoc.
  - by eapply eng_evolves_trans.
  - intros t. specialize (x1 t). specialize (x2 t).
    rewrite q1, q2, app_assoc, NoDup_app in Hnd. destruct Hnd as [Hnd _].
    rewrite NoDup_app in Hnd. destruct Hnd as (_ & Hdisj & _).
    destruct x1 as [x y (st & fl & c & -> & Hf & Hnf)|]; inversion x2 as [? z Hz|]; subst;
      constructor.
    destruct Hz as (st' & fl' & c' & -> & Hf' & Hnf'). cbn in Hnf'.
    exists st', fl', c'. split; [reflexivity|].
    rewrite elem_of_app. split.
    + intros [Hin|Hin]; [|by apply Hf'].
      rewrite Hnf' by (by apply Hdisj). by apply Hf.
    + intros Hn. rewrite Hnf' by tauto. apply Hnf. tauto.
Qed.

Lemma serviced_refl s : serviced [] s s.
Proof.
  split; try done; [apply eng_evolves_refl|].
  intros t. destruct (s_xfers s !! t); constructor.
  destruct (xfer_evolves_refl x) as (st & fl & c & ? & ? & ?). exists st, fl, c. set_solver.
Qed.

Lemma serviced_queue_ok d s s' : queue_ok s -> serviced d s s' -> queue_ok s'.
Proof.
  intros [Hnd Hl] [q1 _ x1 _ _ _ _]. rewrite q1 in *. split.
  - by apply NoDup_app in Hnd as (_ & _ & ?).
  - intros t Ht. destruct (Hl t) as (x & Hx & Hcb); [set_solver|].
    specialize (x1 t). rewrite Hx in x1. inversion x1 as [? y Hy|]; subst.
    exists y. split; [done|]. by destruct Hy as (? & ? & ? & -> & _).
Qed.
End evolves.

(** ** States in which one transfer is in focus *)

Section focus.
Context `{Env} `{Callback}.
Variables (t : Z) (s0 : est).

Definition fst_ (e : xdma_engine) (x : xdma_transfer) (lg : list event) : est :=
  mk_est (s_xdev s0) e (<[t := x]> (s_xfers s0)) (s_sgts s0) (s_reqs s0) (s_cbs s0) (s_caios s0) lg.

Lemma fst_start x : s_xfers s0 !! t = Some x -> s0 = fst_ (s_eng s0) x (s_log s0).
Proof. intros Hx. unfold fst_. rewrite insert_id by done. by destruct s0. Qed.

Lemma fst_get_xfer e x lg (Q : xdma_transfer -> est -> Prop) :
  Q x (fst_ e x lg) -> wp (get_xfer t) Q (fst_ e x lg).
Proof. apply wp_get_xfer, lookup_insert_eq. Qed.

Lemma fst_upd_xfer e x lg f (Q : unit -> est -> Prop) :
  Q tt (fst_ e (f x) lg) -> wp (upd_xfer t f) Q (fst_ e x lg).
Proof.
  intros HQ. eapply wp_upd_xfer; [apply lookup_insert_eq|].
  unfold set_s_xfers. cbn. by rewrite insert_insert_eq.
Qed.

Lemma fst_get_eng e x lg (Q : xdma_engine -> est -> Prop) :
  Q e (fst_ e x lg) -> wp get_eng Q (fst_ e x lg).
Proof. done. Qed.

Lemma fst_upd_eng e x lg f (Q : unit -> est -> Prop) :
  Q tt (fst_ (f e) x lg) -> wp (upd_eng f) Q (fst_ e x lg).
Proof. done. Qed.

Lemma fst_kdo e x lg f args (Q : unit -> est -> Prop) :
  Q tt (fst_ e x (EvCall f args 0 :: lg)) -> wp (kdo f args) Q (fst_ e x lg).
Proof. done. Qed.

Lemma fst_kcall e x lg f args (Q : Z -> est -> Prop) :
  (forall v, Q v (fst_ e x (EvCall f args v :: lg))) -> wp (kcall f args) Q (fst_ e x lg).
Proof. intros HQ. apply HQ. Qed.

Lemma fst_read_reg e x lg r (Q : Z -> est -> Prop) :
  (forall v, 0 <= v < 2 ^ 32 -> Q v (fst_ e x (EvRead (reg e r) v :: lg))) ->
  wp (read_reg r) Q (fst_ e x lg).
Proof. intros HQ. apply HQ, u32_range. Qed.

Lemma fst_write_reg e x lg v r (Q : unit -> est -> Prop) :
  Q tt (fst_ e x (EvWrite (reg e r) v :: lg)) -> wp (write_reg v r) Q (fst_ e x lg).
Proof. done. Qed.

Lemma fst_stop e x lg (Q : Z -> est -> Prop) :
  Q 0 (fst_ (set_e_running false e) x (stop_log e ++ lg)) -> wp xdma_engine_stop Q (fst_ e x lg).
Proof. intros HQ. unfold wp. rewrite xdma_engine_stop_eq. exact HQ. Qed.

Lemma fst_completion e x lg (Q : option Z -> est -> Prop) :
  x_cb x = None ->
  Q (Some t) (fst_ e x (EvCall "xlx_wake_up transfer->wq" [t] 0 :: lg)) ->
  wp (engine_transfer_completion (Some t)) Q (fst_ e x lg).
Proof.
  intros Hcb HQ. unfold engine_transfer_completion.
  apply wp_bind, fst_kdo, wp_bind, fst_get_xfer. rewrite Hcb. by apply wp_bind, wp_ret, wp_ret.
Qed.

Lemma fst_del_head e x lg q (Q : unit -> est -> Prop) :
  e_transfer_list e = t :: q ->
  Q tt (fst_ (set_e_transfer_list q e) x lg) -> wp list_del_head Q (fst_ e x lg).
Proof. intros Hq HQ. apply wp_bind, fst_get_eng. rewrite Hq. by apply fst_upd_eng. Qed.

(** One transfer taken from the queue. *)
Lemma serviced_finish q x e' x' lg :
  queue s0 = t :: q -> s_xfers s0 !! t = Some x ->
  eng_evolves (s_eng s0) e' -> e_transfer_list e' = q ->
  xfer_evolves True x x' -> serviced [t] s0 (fst_ e' x' lg).
Proof.
  intros Hq Hx He Hq' Hx'. split; try done.
  - cbn. by rewrite Hq, Hq'.
  - intros t'. cbn. destruct (decide (t' = t)) as [->|Hne].
    + rewrite lookup_insert_eq, Hx. constructor.
      destruct Hx' as (st & fl & c & ? & ? & ?). exists st, fl, c. set_solver.
    + rewrite lookup_insert_ne by done. destruct (s_xfers s0 !! t') as [y|]; constructor.
      destruct (xfer_evolves_refl y) as (st & fl & c & ? & ? & ?). exists st, fl, c. set_solver.
Qed.

(** The transfer stays on the queue. *)
Lemma serviced_keep x e' x' lg :
  s_xfers s0 !! t = Some x ->
  eng_evolves (s_eng s0) e' -> e_transfer_list e' = queue s0 ->
  xfer_evolves False x x' -> serviced [] s0 (fst_ e' x' lg).
Proof.
  intros Hx He Hq Hx'. split; try done.
  intros t'. cbn. destruct (decide (t' = t)) as [->|Hne].
  - rewrite lookup_insert_eq, Hx. constructor.
    destruct Hx' as (st & fl & c & ? & ? & ?). exists st, fl, c. set_solver.
  - rewrite lookup_insert_ne by done. destruct (s_xfers s0 !! t') as [y|]; constructor.
    destruct (xfer_evolves_refl y) as (st & fl & c & ? & ? & ?). exists st, fl, c. set_solver.
Qed.

Lemma serviced_eng_only e' lg :
  eng_evolves (s_eng s0) e' -> e_transfer_list e' = queue s0 ->
  serviced [] s0 (set_log lg (set_s_eng e' s0)).
Proof.
  intros He Hq. split; try done. intros t'. cbn.
  destruct (s_xfers s0 !! t') as [y|]; constructor.
  destruct (xfer_evolves_refl y) as (st & fl & c & ? & ? & ?). exists st, fl, c. set_solver.
Qed.
End focus.

(** ** engine_service_transfer_list *)

(** The transfers that [c] completed descriptors finish, all but the last: the
    finished ones, the rest of the queue, and what is left of [c]. *)
Fixpoint split_done (xfers : gmap Z xdma_transfer) (q : list Z) (c : Z) : list Z * list Z * Z :=
  match q with
  | [] => ([], [], c)
  | t :: q' =>
      match xfers !! t with
      | Some x =>
          if negb (x_cyclic x) && (u32 (x_desc_num x) <? c) then
            let '(done, rest, c') := split_done xfers q' (u32 (c - x_desc_num x)) in
            (t :: done, rest, c')
          else ([], q, c)
      | None => ([], q, c)
      end
  end.

Definition num_of (xfers : gmap Z xdma_transfer) (t : Z) : Z :=
  match xfers !! t with Some x => x_desc_num x | None => 0 end.

Definition dequeue (xfers : gmap Z xdma_transfer) (done : list Z) (dq : Z) : Z :=
  foldl (fun dq t => s32 (dq + num_of xfers t)) dq done.

Lemma split_done_app xfers q c done rest c' :
  split_done xfers q c = (done, rest, c') -> q = done ++ rest.
Proof.
  revert c done rest c'. induction q as [|t q IH]; intros c done rest c'; cbn.
  - intros [= <- <- <-]. done.
  - destruct (xfers !! t) as [x|]; [|by intros [= <- <- <-]].
    destruct (_ && _); [|by intros [= <- <- <-]].
    destruct (split_done xfers q (u32 (c - x_desc_num x))) as [[d r] c0] eqn:E.
    intros [= <- <- <-]. cbn. f_equal. by eapply IH.
Qed.

Lemma split_done_insert xfers t x q c :
  t ∉ q -> split_done (<[t := x]> xfers) q c = split_done xfers q c.
Proof.
  revert c. induction q as [|t' q IH]; intros c Hn; [done|]. cbn.
  rewrite lookup_insert_ne by set_solver.
  destruct (xfers !! t') as [x'|]; [|done]. destruct (_ && _); [|done].
  rewrite IH by set_solver. done.
Qed.

Lemma num_of_insert xfers t t' x : t' <> t -> num_of (<[t := x]> xfers) t' = num_of xfers t'.
Proof. intros Hn. unfold num_of. by rewrite lookup_insert_ne by done. Qed.

Lemma dequeue_insert xfers t x l dq :
  t ∉ l -> dequeue (<[t := x]> xfers) l dq = dequeue xfers l dq.
Proof.
  unfold dequeue. revert dq. induction l as [|t' l IH]; intros dq Hn; [done|]. cbn.
  rewrite IH by set_solver. by rewrite num_of_insert by set_solver.
Qed.

(** The result of [engine_service_transfer_list]. *)
Definition list_serviced `{Env} (s : est) (c : Z) (r : option Z * Z) (s' : est) : Prop :=
  let '(done, rest, c') := split_done (s_xfers s) (queue s) c in
  r = (head rest, c') /\ serviced done s s' /\
  (forall t x, t ∈ done -> s_xfers s' !! t = Some x -> x_state x = TRANSFER_STATE_COMPLETED) /\
  (forall t, t ∉ done -> s_xfers s' !! t = s_xfers s !! t) /\
  e_desc_dequeued (s_eng s') = dequeue (s_xfers s) done (e_desc_dequeued (s_eng s)) /\
  e_running (s_eng s') = e_running (s_eng s) /\ e_status (s_eng s') = e_status (s_eng s).

Section service_list.
Context `{Env} `{Callback}.

Lemma completed_evolves x :
  xfer_evolves True x (set_x_state TRANSFER_STATE_COMPLETED x).
Proof.
  exists TRANSFER_STATE_COMPLETED, (x_flags x), (x_desc_cmpl x).
  split; [by destruct x|tauto].
Qed.

Lemma wp_service_list fuel s c :
  queue_ok s -> (length (queue s) < fuel)%nat ->
  wp (service_list fuel (head (queue s)) c) (list_serviced s c) s.
Proof.
  revert s c. induction fuel as [|fuel IH]; intros s c Hok Hf; [lia|].
  unfold list_serviced. cbn [service_list].
  destruct (queue s) as [|t q] eqn:Hq; cbn [head split_done].
  { apply wp_ret. split_and!; try done; [apply serviced_refl|set_solver]. }
  pose proof Hok as [Hnd Hlive]. rewrite Hq in Hnd, Hlive.
  destruct (Hlive t) as (x & Hx & Hcb); [set_solver|]. rewrite Hx.
  apply wp_bind. eapply wp_get_xfer; [done|].
  destruct (negb (x_cyclic x) && (u32 (x_desc_num x) <? c)) eqn:Hc.
  2: { apply wp_ret. split_and!; try done; [apply serviced_refl|set_solver]. }
  destruct (split_done (s_xfers s) q (u32 (c - x_desc_num x))) as [[d r] c'] eqn:Hsplit.
  rewrite (fst_start t s x Hx) at 1.
  apply wp_bind, (fst_del_head t s _ _ _ q); [done|].
  apply wp_bind, fst_upd_eng, wp_bind, fst_upd_xfer, wp_bind, fst_completion; [done|].
  set (x1 := set_x_state TRANSFER_STATE_COMPLETED x).
  set (e1 := set_e_desc_dequeued (s32 (e_desc_dequeued (s_eng s) + x_desc_num x))
               (set_e_transfer_list q (s_eng s))).
  apply wp_bind, wp_bind, fst_get_eng, wp_ret.
  match goal with |- wp _ _ (fst_ _ _ _ _ ?lg) => set (s1 := fst_ t s e1 x1 lg) end.
  assert (serviced [t] s s1) as Hsv.
  { eapply serviced_finish; [done|exact Hx| |done|apply completed_evolves].
    exists q, (e_running (s_eng s)), (e_status (s_eng s)), (e_shutdown (s_eng s)),
      (s32 (e_desc_dequeued (s_eng s) + x_desc_num x)), (e_xdma_perf (s_eng s)).
    split; [by left|]. unfold e1. by destruct (s_eng s). }
  assert (queue_ok s1) as Hok1 by (by eapply serviced_queue_ok).
  assert (t ∉ q) as Htq by (by apply NoDup_cons in Hnd as [? _]).
  eapply wp_mono; [apply (IH s1); [exact Hok1|change (queue s1) with q; cbn in Hf; lia]|].
  intros res s' Hres. unfold list_serviced in Hres.
  change (queue s1) with q in Hres. change (s_xfers s1) with (<[t := x1]> (s_xfers s)) in Hres.
  rewrite split_done_insert, Hsplit in Hres by done.
  destruct Hres as (-> & Hsv' & Hst & Hsame & Hdq & Hrest).
  assert (t ∉ d) as Htd by (apply split_done_app in Hsplit as ->; set_solver).
  split; [done|]. split; [by apply (serviced_trans [t] d s s1 s'); [rewrite Hq|..]|].
  split; [|split; [|split; [|exact Hrest]]].
  - intros t' x' Hin Hx'. apply elem_of_cons in Hin as [->|Hin]; [|by eapply Hst].
    destruct Hsv' as [_ _ Hxs _ _ _ _]. specialize (Hxs t).
    change (s_xfers s1) with (<[t := x1]> (s_xfers s)) in Hxs.
    rewrite lookup_insert_eq, Hx' in Hxs. inversion Hxs as [? ? Hev|]; subst.
    destruct Hev as (st & fl & c0 & -> & _ & Hn). cbn. by rewrite Hn.
  - intros t' Hn. apply not_elem_of_cons in Hn as [Hne Hn]. rewrite Hsame by done.
    by apply lookup_insert_ne.
  - rewrite Hdq. rewrite dequeue_insert by done. cbn. unfold num_of at 2. by rewrite Hx.
Qed.

Lemma wp_transfer_list s c :
  queue_ok s ->
  wp (engine_service_transfer_list (head (queue s)) c) (list_serviced s c) s.
Proof.
  intros Hok. apply wp_bind, wp_get_eng. apply wp_service_list; [done|]. cbn. lia.
Qed.
End service_list.

(** ** The status text fits its buffer *)

(** For every status that the device may answer, the text of this engine fits. *)
Definition dump_ok `{Env} (e : xdma_engine) : Prop :=
  forall st, seen e st -> status_dump_fits (set_e_status st e) = true.

Lemma length_append s1 s2 :
  String.length (String.append s1 s2) = (String.length s1 + String.length s2)%nat.
Proof.
  induction s1 as [|c s1 IH]; [done|].
  change (S (String.length (String.append s1 s2)) = S (String.length s1 + String.length s2)%nat).
  by rewrite IH.
Qed.

Lemma length_hex_fixed w v acc : String.length (hex_fixed w v acc) = (w + String.length acc)%nat.
Proof. revert v acc. induction w as [|w IH]; intros v acc; cbn; [done|]. rewrite IH. cbn. lia. Qed.

Lemma length_comma_last s : String.length (comma_last s) = String.length s.
Proof. induction s as [|c s IH]; [done|]. destruct s; [done|]. cbn in *. lia. Qed.

Lemma length_flag v m s : (String.length (flag v m s) <= String.length s)%nat.
Proof. unfold flag. destruct (has_bits v m); cbn; lia. Qed.

Definition names_len (l : list (Z * string)) : nat :=
  foldr (fun '(_, n) acc => String.length n + acc)%nat O l.

Lemma length_concat_flags v l : (String.length (concat_flags v l) <= names_len l)%nat.
Proof.
  induction l as [|[m n] l IH]; [done|].
  change (concat_flags v ((m, n) :: l)) with (String.append (flag v m n) (concat_flags v l)).
  change (names_len ((m, n) :: l)) with (String.length n + names_len l)%nat.
  rewrite length_append. pose proof (length_flag v m n). lia.
Qed.

Lemma length_group v mask p l :
  (String.length (group v mask p l) <= String.length p + names_len l)%nat.
Proof.
  unfold group. destruct (has_bits v mask); [|cbn; lia].
  rewrite length_comma_last, length_append. pose proof (length_concat_flags v l). lia.
Qed.

(** A C2H engine: every status fits, for every name that fits in [e_name]. *)
Lemma c2h_dump_fits e v :
  e_dir e = DMA_FROM_DEVICE -> (String.length (e_name e) < 16)%nat -> status_dump_fits (set_e_status v e) = true.
Proof.
  intros Hd Hn. unfold status_dump_fits, STATUS_BUF_SIZE. apply Nat.ltb_lt.
  cbn [e_name e_dir e_status set_e_status]. rewrite Hd. unfold status_text. cbn [is_h2c foldr].
  rewrite !length_append, length_hex_fixed.
  pose proof (length_group v XDMA_STAT_COMMON_ERR_MASK "" common_names).
  pose proof (length_group v XDMA_STAT_C2H_R_ERR_MASK "R:" c2h_r_names).
  pose proof (length_group v XDMA_STAT_DESC_ERR_MASK "DESC_ERR:" desc_err_names).
  pose proof (length_flag v XDMA_STAT_BUSY "BUSY,").
  pose proof (length_flag v XDMA_STAT_DESC_STOPPED "DESC_STOPPED,").
  pose proof (length_flag v XDMA_STAT_DESC_COMPLETED "DESC_COMPL,").
  cbn in *. lia.
Qed.

(** An H2C engine: every status fits that does not report errors of descriptor
    fetches and of data reads at once. *)
Lemma h2c_dump_fits e v :
  e_dir e = DMA_TO_DEVICE -> (String.length (e_name e) < 16)%nat ->
  has_bits v XDMA_STAT_DESC_ERR_MASK && has_bits v XDMA_STAT_H2C_R_ERR_MASK = false ->
  status_dump_fits (set_e_status v e) = true.
Proof.
  intros Hd Hn Hv. unfold status_dump_fits, STATUS_BUF_SIZE. apply Nat.ltb_lt.
  cbn [e_name e_dir e_status set_e_status]. rewrite Hd. unfold status_text. cbn [is_h2c foldr].
  rewrite !length_append, length_hex_fixed.
  pose proof (length_group v XDMA_STAT_COMMON_ERR_MASK "" common_names).
  pose proof (length_group v XDMA_STAT_H2C_W_ERR_MASK "W:" h2c_w_names).
  pose proof (length_group v XDMA_STAT_H2C_R_ERR_MASK "R:" h2c_r_names).
  pose proof (length_group v XDMA_STAT_DESC_ERR_MASK "DESC_ERR:" desc_err_names).
  pose proof (length_flag v XDMA_STAT_BUSY "BUSY,").
  pose proof (length_flag v XDMA_STAT_DESC_STOPPED "DESC_STOPPED,").
  pose proof (length_flag v XDMA_STAT_DESC_COMPLETED "DESC_COMPL,").
  apply andb_false_iff in Hv as [Hv|Hv].
  - unfold group at 4. rewrite Hv. cbn in *. lia.
  - unfold group at 2. rewrite Hv. cbn in *. lia.
Qed.

Lemma c2h_dump_ok `{Env} e :
  e_dir e = DMA_FROM_DEVICE -> (String.length (e_name e) < 16)%nat -> dump_ok e.
Proof. intros Hd Hn v _. by apply c2h_dump_fits. Qed.

(** ** engine_service_final_transfer *)

(** What servicing needs of the engine and its queue.  The last condition is
    about the C2H results that [eop_flush] mode reads. *)
Record service_ok `{Env} (s : est) : Prop := {
  so_queue : queue_ok s;
  so_dump : dump_ok (s_eng s);
  so_results : e_eop_flush (s_eng s) = true -> e_cyclic_result (s_eng s) <> 0 /\
    forall t x, t ∈ queue s -> s_xfers s !! t = Some x ->
      0 <= x_res_virt x /\ 0 <= x_desc_num x < 2 ^ 31 /\
      x_res_virt x + x_desc_num x <= e_desc_max (s_eng s)
}.

Lemma serviced_ok `{Env} d s s' : service_ok s -> serviced d s s' -> service_ok s'.
Proof.
  intros [Hq Hd Hr] Hsv. pose proof (serviced_queue_ok _ _ _ Hq Hsv) as Hq'.
  destruct Hsv as [q1 (? & ? & ? & ? & ? & ? & Hseen & He) x1 _ _ _ _]. split; [done| |].
  - rewrite He. intros v Hv. apply (Hd v). destruct Hv as [->|Hv]; [done|by right].
  - rewrite He. cbn. intros Hf. destruct (Hr Hf) as [Hc Hx]. split; [done|].
    intros t y Ht Hy. specialize (x1 t). rewrite Hy in x1. inversion x1 as [z ? Hev Heq|]; subst.
    destruct (Hx t z) as (? & ? & ?); [rewrite q1, He; set_solver|done|].
    destruct Hev as (? & ? & ? & -> & _). done.
Qed.

(** The transfer [t] left the queue in the state [st]. *)
Definition finished `{Env} (s : est) (t : Z) (st : transfer_state) (s' : est) : Prop :=
  serviced [t] s s' /\ exists x, s_xfers s' !! t = Some x /\ x_state x = st.

(** Nothing left the queue. *)
Definition waiting `{Env} (s s' : est) : Prop := serviced [] s s'.

Definition final_outcome `{Env} (s : est) (t : Z) (x : xdma_transfer) (c : Z) (s' : est) : Prop :=
  if status_error (s_eng s) then
    finished s t TRANSFER_STATE_FAILED s' /\ e_running (s_eng s') = false
  else if c <? u32 (x_desc_num x) then
    if e_eop_flush (s_eng s)
    then waiting s s' \/ finished s t TRANSFER_STATE_COMPLETED s' /\ e_running (s_eng s') = false
    else finished s t TRANSFER_STATE_FAILED s' /\ e_running (s_eng s') = e_running (s_eng s)
  else finished s t TRANSFER_STATE_COMPLETED s' /\ e_running (s_eng s') = e_running (s_eng s).

Section final.
Context `{Env} `{Callback}.

Lemma wp_find_eop t s0 e x lg res l (Q : unit -> est -> Prop) :
  (forall i, i ∈ l -> result_ok e (res + i) = true) ->
  (forall fl lg', Q tt (fst_ t s0 e (set_x_flags fl x) lg')) ->
  wp (find_eop t res l) Q (fst_ t s0 e x lg).
Proof.
  intros Hok HQ. revert lg. induction l as [|i l IH]; intros lg; cbn [find_eop].
  - apply wp_ret. specialize (HQ (x_flags x) lg). by destruct x.
  - apply wp_bind, wp_bind, fst_get_eng, wp_bind, wp_guard_ub; [apply Hok; set_solver|].
    apply wp_bind, fst_kcall. intros v. apply wp_ret.
    destruct (has_bits (u32 v) RX_STATUS_EOP); [by apply fst_upd_xfer|].
    apply IH. set_solver.
Qed.

(** The tail [transfer_del] of a transfer in focus. *)
Lemma wp_transfer_del t s0 e x0 x lg q st fl c (Q : option Z -> est -> Prop) :
  queue s0 = t :: q -> s_xfers s0 !! t = Some x0 -> x_cb x0 = None ->
  x = set_x_state st (set_x_flags fl (set_x_desc_cmpl c x0)) ->
  st = TRANSFER_STATE_COMPLETED \/ st = TRANSFER_STATE_FAILED ->
  eng_evolves (s_eng s0) e -> e_transfer_list e = queue s0 ->
  (forall s', finished s0 t st s' -> e_running (s_eng s') = e_running e -> Q (Some t) s') ->
  wp (transfer_del t) Q (fst_ t s0 e x lg).
Proof.
  intros Hq Hx Hcb -> Hst He Hqe HQ. unfold transfer_del.
  apply wp_bind, (fst_del_head t s0 _ _ _ q); [by rewrite Hqe|].
  apply fst_completion; [done|]. apply HQ; [|done]. split.
  - eapply serviced_finish; [exact Hq|exact Hx| |done|].
    + eapply eng_evolves_trans; [exact He|].
      exists q, (e_running e), (e_status e), (e_shutdown e), (e_desc_dequeued e), (e_xdma_perf e).
      split; [by left|by destruct e].
    + exists st, fl, c. tauto.
  - eexists. split; [apply lookup_insert_eq|done].
Qed.

Lemma eng_evolves_run e b : eng_evolves e (set_e_running b e).
Proof.
  exists (e_transfer_list e), b, (e_status e), (e_shutdown e), (e_desc_dequeued e), (e_xdma_perf e).
  split; [by left|by destruct e].
Qed.

Lemma eng_evolves_dq e d : eng_evolves e (set_e_desc_dequeued d e).
Proof.
  exists (e_transfer_list e), (e_running e), (e_status e), (e_shutdown e), d, (e_xdma_perf e).
  split; [by left|by destruct e].
Qed.

Lemma fst_dump t s0 e x lg (Q : unit -> est -> Prop) :
  dump_ok e -> Q tt (fst_ t s0 e x lg) -> wp engine_status_dump Q (fst_ t s0 e x lg).
Proof.
  intros Hd HQ. apply wp_bind, fst_get_eng. specialize (Hd (e_status e) (or_introl eq_refl)).
  assert (set_e_status (e_status e) e = e) as He by (by destruct e). rewrite He in Hd.
  rewrite Hd. by apply wp_ret.
Qed.

Lemma extends_stop e lg lg' : extends lg lg' -> extends lg (stop_log e ++ lg').
Proof. apply extends_app. unfold stop_log. case_match; repeat constructor. Qed.

Lemma fst_err_handle t s0 e x lg c (Q : Z -> est -> Prop) :
  (forall lg', extends lg lg' ->
     Q 0 (fst_ t s0 (set_e_running false e) (set_x_state TRANSFER_STATE_FAILED x) lg')) ->
  wp (engine_err_handle t c) Q (fst_ t s0 e x lg).
Proof.
  intros HQ. apply wp_bind, fst_get_eng, wp_bind, wp_when; intros _.
  - apply wp_bind, fst_read_reg. intros v _. apply wp_ret, wp_bind, fst_upd_xfer, fst_stop, HQ.
    auto using extends_stop with events.
  - apply wp_bind, fst_upd_xfer, fst_stop, HQ. auto using extends_stop with events.
Qed.

Lemma set_cmpl_flags_eq x fl c :
  set_x_desc_cmpl c (set_x_flags fl x) = set_x_state (x_state x) (set_x_flags fl (set_x_desc_cmpl c x)).
Proof. by destruct x. Qed.

Lemma eop_results s t q x c :
  service_ok s -> queue s = t :: q -> s_xfers s !! t = Some x ->
  e_eop_flush (s_eng s) = true -> 0 <= c -> (c <? u32 (x_desc_num x)) = true ->
  forall i, i ∈ zrange (s32 c) -> result_ok (s_eng s) (x_res_virt x + i) = true.
Proof.
  intros [_ _ Hres] Hq Hx Hf Hc Hlt i Hi. destruct (Hres Hf) as [Hcr Hall].
  destruct (Hall t x) as (Hv & Hn & Hm); [rewrite Hq; left|done|].
  rewrite u32_small, Z.ltb_lt in Hlt by lia. rewrite s32_small in Hi by lia.
  apply elem_of_zrange in Hi. unfold result_ok.
  rewrite !andb_true_iff, negb_true_iff, Z.eqb_neq. lia.
Qed.

Lemma wp_final_transfer s t q x c (Q : option Z -> est -> Prop) :
  service_ok s -> queue s = t :: q -> s_xfers s !! t = Some x -> 0 <= c ->
  (forall r s', final_outcome s t x c s' -> Q r s') ->
  wp (engine_service_final_transfer (Some t) c) Q s.
Proof.
  intros Hso Hq Hx Hc HQ. pose proof Hso as [[Hnd Hlive] Hdump _].
  assert (x_cb x = None) as Hcb by (destruct (Hlive t) as (? & ? & ?); [rewrite Hq; left|congruence]).
  unfold final_outcome in HQ. rewrite (fst_start t s x Hx) at 1.
  apply wp_bind, fst_get_eng, wp_bind, fst_get_xfer.
  destruct (status_error (s_eng s)) eqn:Herr; [|destruct (c <? u32 (x_desc_num x)) eqn:Hlt].
  - apply wp_bind, fst_dump; [done|]. apply wp_bind, fst_err_handle. intros lg _.
    eapply (wp_transfer_del t s); eauto using eng_evolves_run.
  - destruct (e_eop_flush (s_eng s)) eqn:Hf.
    + apply wp_bind, wp_find_eop; [by eapply eop_results|]. intros fl lg.
      apply wp_bind, fst_upd_xfer, wp_bind, fst_get_xfer.
      destruct (negb _).
      * apply wp_ret, HQ. left. eapply (serviced_keep t s x); [done|apply eng_evolves_refl|done|].
        do 3 eexists. split; [apply set_cmpl_flags_eq|tauto].
      * apply wp_bind, wp_bind, fst_stop. cbv beta. apply wp_bind, fst_kdo, wp_ret.
        apply wp_bind, fst_upd_xfer, wp_bind, fst_upd_eng.
        eapply (wp_transfer_del t s); eauto using eng_evolves_trans, eng_evolves_run, eng_evolves_dq.
    + apply wp_bind, fst_upd_xfer, wp_bind, fst_upd_eng, wp_bind, fst_upd_xfer.
      eapply (wp_transfer_del t s); eauto using eng_evolves_dq.
  - apply wp_bind, fst_upd_xfer, wp_bind, fst_upd_xfer, wp_bind, fst_upd_eng.
    eapply (wp_transfer_del t s); eauto using eng_evolves_dq.
Qed.
End final.

(** ** engine_service *)

Section engine_service.
Context `{Env} `{Callback}.

(** An operation that leaves the queue and the transfers alone. *)
Lemma serviced_eng s e' lg (Hq : e_transfer_list e' = queue s) :
  eng_evolves (s_eng s) e' -> serviced [] s (set_log lg (set_s_eng e' s)).
Proof. intros He. by apply serviced_eng_only. Qed.

Lemma wp_shutdown s (Q : Z -> est -> Prop) :
  (forall s', serviced [] s s' -> e_running (s_eng s') = false ->
     e_status (s_eng s') = e_status (s_eng s) -> e_desc_dequeued (s_eng s') = e_desc_dequeued (s_eng s) ->
     s_xfers s' = s_xfers s -> Q 0 s') ->
  wp engine_service_shutdown Q s.
Proof.
  intros HQ. apply wp_bind. unfold wp at 1. rewrite xdma_engine_stop_eq. cbn [Z.ltb Z.compare].
  apply wp_bind, wp_kdo, wp_ret, HQ; try done.
  apply (serviced_eng s); [done|]. apply eng_evolves_run.
Qed.

Lemma wp_upd_perf f s (Q : unit -> est -> Prop) :
  (forall e', eng_evolves (s_eng s) e' -> e_transfer_list e' = queue s ->
     e_running e' = e_running (s_eng s) -> e_status e' = e_status (s_eng s) ->
     e_desc_dequeued e' = e_desc_dequeued (s_eng s) -> Q tt (set_s_eng e' s)) ->
  wp (upd_perf f) Q s.
Proof.
  intros HQ. apply wp_upd_eng, HQ; try done.
  exists (queue s), (e_running (s_eng s)), (e_status (s_eng s)), (e_shutdown (s_eng s)),
    (e_desc_dequeued (s_eng s)), (f <$> e_xdma_perf (s_eng s)). split; [by left|by destruct (s_eng s)].
Qed.

(** [quiet s s']: as before but for the engine's performance counters. *)
Definition quiet (s s' : est) : Prop :=
  serviced [] s s' /\ e_running (s_eng s') = e_running (s_eng s) /\
  e_status (s_eng s') = e_status (s_eng s) /\
  e_desc_dequeued (s_eng s') = e_desc_dequeued (s_eng s) /\ s_xfers s' = s_xfers s.

Lemma quiet_refl s : quiet s s.
Proof. split_and!; try done. apply serviced_refl. Qed.

Lemma quiet_trans s1 s2 s3 : NoDup (queue s1) -> quiet s1 s2 -> quiet s2 s3 -> quiet s1 s3.
Proof.
  intros Hnd (Hs1 & ? & ? & ? & ?) (Hs2 & ? & ? & ? & ?). split_and!; try congruence.
  exact (serviced_trans [] [] s1 s2 s3 Hnd Hs1 Hs2).
Qed.

Lemma quiet_log s lg : quiet s (set_log lg s).
Proof.
  split_and!; try done. destruct s. apply (serviced_eng (mk_est _ _ _ _ _ _ _ _) _ lg); [done|].
  apply eng_evolves_refl.
Qed.

Lemma quiet_upd_perf f s : wp (upd_perf f) (fun _ s' => quiet s s') s.
Proof.
  apply wp_upd_perf. intros e' He Hq Hr Hst Hdq. split_and!; try done.
  replace (set_s_eng e' s) with (set_log (s_log s) (set_s_eng e' s)) by (by destruct s).
  by apply serviced_eng_only.
Qed.

Lemma wp_perf s c : NoDup (queue s) -> wp (engine_service_perf c) (fun _ s' => quiet s s') s.
Proof.
  intros Hnd. apply wp_bind, wp_get_eng. destruct (e_xdma_perf (s_eng s)); [|apply wp_ret, quiet_refl].
  apply wp_bind. apply (wp_mono _ (fun _ s' => quiet s s')).
  - apply wp_when; intros _; [apply quiet_upd_perf|apply quiet_refl].
  - intros _ s1 Hq1. assert (NoDup (queue s1)) as Hnd1.
    { destruct Hq1 as [[Hq _ _ _ _ _ _] _]. cbn in Hq. congruence. }
    apply wp_bind, wp_when; intros _; [|by apply wp_ret].
    apply wp_bind. eapply wp_mono; [apply quiet_upd_perf|]. intros ? s2 Hq2.
    apply wp_kdo, wp_ret. apply (quiet_trans s s1); [done|done|].
    apply (quiet_trans s1 s2); [done|done|]. apply quiet_log.
Qed.

(** After [engine_service_resume] the engine runs if and only if transfers wait. *)
Lemma wp_resume s :
  queue_ok s ->
  wp engine_service_resume
    (fun _ s' => serviced [] s s' /\ s_xfers s' = s_xfers s /\
                 e_running (s_eng s') = negb (bool_decide (queue s = []))) s.
Proof.
  intros [Hnd Hlive]. apply wp_bind, wp_get_eng.
  destruct (e_running (s_eng s)) eqn:Hrun; cbn [negb]; destruct (queue s) as [|t q] eqn:Hq.
  - apply wp_bind, wp_shutdown. intros s' Hsv Hr _ _ Hx. apply wp_ret. by split_and!.
  - apply wp_ret. split_and!; try done. apply serviced_refl.
  - destruct (has_bits _ _).
    + apply wp_bind, wp_upd_eng, wp_bind, wp_kdo, wp_ret. split_and!; try done.
      apply (serviced_eng s); [done|].
      exists (queue s), (e_running (s_eng s)), (e_status (s_eng s)),
        (Z.lor (e_shutdown (s_eng s)) ENGINE_SHUTDOWN_IDLE), (e_desc_dequeued (s_eng s)),
        (e_xdma_perf (s_eng s)). split; [by left|by destruct (s_eng s)].
    + apply wp_ret. split_and!; try done. apply serviced_refl.
  - destruct (Hlive t) as (x & Hx & _); [left|].
    destruct (engine_start_eq s t q x Hrun Hq Hx) as (v1 & v2 & [lg Hv2] & Hst).
    apply wp_bind. unfold wp at 1. rewrite Hst. apply wp_ret. split_and!; try done.
    apply (serviced_eng s); [done|].
    exists (queue s), true, v2, ENGINE_SHUTDOWN_NONE, 0, (e_xdma_perf (s_eng s)).
    split; [right; exists lg, "status"%string; by split; [left|]|]. unfold started. by destruct (s_eng s).
Qed.

(** The effect of [service_completed] when [n] descriptors are complete in this
    run of the engine. *)
Definition completed_outcome (s : est) (n : Z) (s' : est) : Prop :=
  let c := u32 (n - e_desc_dequeued (s_eng s)) in
  let '(done, rest, c') := split_done (s_xfers s) (queue s) c in
  exists s1,
    list_serviced s c (head rest, c') s1 /\
    match rest with
    | [] => serviced [] s1 s'
    | t :: _ => exists x s2, s_xfers s !! t = Some x /\ final_outcome s1 t x c' s2 /\
                             serviced [] s2 s' /\ s_xfers s' = s_xfers s2
    end /\
    (e_eop_flush (s_eng s) = false -> e_running (s_eng s') = negb (bool_decide (queue s' = []))).

Lemma final_serviced s t x c s' :
  final_outcome s t x c s' -> exists d, serviced d s s'.
Proof.
  unfold final_outcome, finished, waiting. intros Hf.
  destruct (status_error (s_eng s)); [|destruct (c <? _); [destruct (e_eop_flush _)|]].
  - destruct Hf as [[? _] _]. eauto.
  - destruct Hf as [Hf|[[? _] _]]; eauto.
  - destruct Hf as [[? _] _]. eauto.
  - destruct Hf as [[? _] _]. eauto.
Qed.

Lemma serviced_flush d s s' : serviced d s s' -> e_eop_flush (s_eng s') = e_eop_flush (s_eng s).
Proof. intros [_ (? & ? & ? & ? & ? & ? & _ & ->) _ _ _ _ _]. done. Qed.

(** The last step of [service_completed]. *)
Lemma wp_maybe_resume s :
  queue_ok s ->
  wp (let* e := get_eng in when (negb (e_eop_flush e)) (engine_service_resume >>; ret tt))
    (fun _ s' => serviced [] s s' /\ s_xfers s' = s_xfers s /\
       (e_eop_flush (s_eng s) = false -> e_running (s_eng s') = negb (bool_decide (queue s' = [])))) s.
Proof.
  intros Hok. apply wp_bind, wp_get_eng, wp_when; intros Hf.
  - apply wp_bind. eapply wp_mono; [by apply wp_resume|]. intros _ s' (Hsv & Hx & Hr).
    apply wp_ret. split_and!; try done. intros _. destruct Hsv as [Hq _ _ _ _ _ _].
    cbn in Hq. by rewrite <-Hq.
  - split_and!; [apply serviced_refl|done|]. intros Hf'. by rewrite Hf' in Hf.
Qed.

Lemma split_done_range xfers q c done rest c' :
  0 <= c -> split_done xfers q c = (done, rest, c') -> 0 <= c'.
Proof.
  revert c done rest c'. induction q as [|t q IH]; intros c done rest c' Hc; cbn.
  - by intros [= <- <- <-].
  - destruct (xfers !! t) as [x|]; [|by intros [= <- <- <-]].
    destruct (_ && _); [|by intros [= <- <- <-]].
    destruct (split_done xfers q (u32 (c - x_desc_num x))) as [[d r] c0] eqn:E.
    intros [= <- <- <-]. eapply IH; [|exact E]. apply u32_range.
Qed.

Lemma serviced_quiet_list s s0 c r s1 :
  NoDup (queue s) -> quiet s s0 -> list_serviced s0 c r s1 -> list_serviced s c r s1.
Proof.
  unfold list_serviced. intros Hnd (Hsv & Hr & Hst & Hdq & Hx).
  assert (queue s = queue s0) as Hq by (by destruct Hsv). rewrite Hx, Hq.
  destruct (split_done (s_xfers s) (queue s0) c) as [[d rest] c'].
  intros (-> & Hsv1 & Hs & Hsame & Hd & Hrest). split; [done|].
  split; [by apply (serviced_trans [] d s s0 s1)|]. split_and!; try done; try congruence.
  all: destruct Hrest; congruence.
Qed.

Lemma wp_perf_head s c :
  queue_ok s ->
  wp (match head (queue s) with Some _ => engine_service_perf c >>; ret tt | None => ret tt end)
    (fun _ s' => quiet s s') s.
Proof.
  intros [Hnd _]. destruct (head (queue s)); [|apply wp_ret, quiet_refl].
  apply wp_bind. eapply wp_mono; [by apply wp_perf|]. intros ? s' Hq. by apply wp_ret.
Qed.

Lemma wp_service_completed s n :
  service_ok s -> wp (service_completed n) (fun _ s' => completed_outcome s n s') s.
Proof.
  intros Hok. unfold service_completed, completed_outcome.
  set (c := u32 (n - e_desc_dequeued (s_eng s))).
  destruct (split_done (s_xfers s) (queue s) c) as [[done rest] c'] eqn:Hsplit.
  apply wp_bind, wp_bind, wp_get_eng, wp_ret. cbv beta.
  apply wp_bind. eapply wp_mono; [by apply wp_perf_head, so_queue|]. intros ? s0 Hquiet.
  pose proof Hquiet as (Hsv0 & _ & _ & Hdq0 & Hx0).
  pose proof (serviced_ok _ _ _ Hok Hsv0) as Hok0.
  assert (queue s = queue s0) as Hq0 by (by destruct Hsv0).
  apply wp_bind, wp_get_eng. rewrite Hdq0. fold c.
  apply wp_bind. rewrite Hq0. eapply wp_mono; [by apply wp_transfer_list, so_queue|].
  intros [tr c0] s1 Hls. apply (serviced_quiet_list s) in Hls; [|apply Hok|done].
  unfold list_serviced in Hls. rewrite Hsplit in Hls. destruct Hls as ([= -> ->] & Hrest).
  pose proof Hrest as (Hsv1 & _ & Hsame & _).
  pose proof (serviced_ok _ _ _ Hok Hsv1) as Hok1.
  pose proof (split_done_app _ _ _ _ _ _ Hsplit) as Hqd.
  assert (queue s1 = rest) as Hq1 by (destruct Hsv1 as [E _ _ _ _ _ _]; rewrite Hqd in E; by apply app_inv_head in E).
  assert (list_serviced s c (head rest, c') s1) as Hls by (unfold list_serviced; rewrite Hsplit; by split).
  apply wp_bind. destruct rest as [|t q]; cbn [head].
  - apply wp_ret. eapply wp_mono; [by apply wp_maybe_resume, so_queue|].
    intros ? s' (Hsv' & Hx' & Hr'). exists s1. split; [done|]. split; [done|].
    intros Hf. apply Hr'. by rewrite (serviced_flush _ _ _ Hsv1).
  - destruct (qk_live _ (so_queue _ Hok1) t) as (x & Hx & _); [rewrite Hq1; left|].
    assert (s_xfers s !! t = Some x) as Hxs.
    { rewrite <-Hsame; [done|]. pose proof (qk_nodup _ (so_queue _ Hok)) as Hnd.
      rewrite Hqd, NoDup_app in Hnd. destruct Hnd as (_ & Hd & _).
      intros Hin. by apply (Hd t Hin); left. }
    eapply wp_final_transfer; [done|exact Hq1|exact Hx| |].
    { eapply split_done_range; [|exact Hsplit]. apply u32_range. }
    intros r s2 Hfin. destruct (final_serviced _ _ _ _ _ Hfin) as [d Hsv2].
    eapply wp_mono; [apply wp_maybe_resume, so_queue, (serviced_ok _ _ _ Hok1 Hsv2)|].
    intros ? s' (Hsv' & Hx' & Hr'). exists s1. split; [done|]. split; [by exists x, s2|].
    intros Hf. apply Hr'. by rewrite (serviced_flush _ _ _ Hsv2), (serviced_flush _ _ _ Hsv1).
Qed.

(** The state in which [engine_service] looks at the completed descriptors. *)
Definition checked (s : est) (st : Z) (run : bool) (lg : list event) : est :=
  set_log lg (set_s_eng (set_e_running run (set_e_status st (s_eng s))) s).

Lemma checked_serviced s st run lg : seen (s_eng s) st -> serviced [] s (checked s st run lg).
Proof.
  intros Hst. apply serviced_eng_only; [|done].
  exists (queue s), run, st, (e_shutdown (s_eng s)), (e_desc_dequeued (s_eng s)),
    (e_xdma_perf (s_eng s)). split; [done|by destruct (s_eng s)].
Qed.

(** [v] is what the device answers to some read of the register [f]. *)
Definition answer (s : est) (f : string) (v : Z) : Prop :=
  exists lg, v = u32 (io_read lg (reg (s_eng s) f)).

Definition wb_result (wb : Z) : Z := if Z.land wb WB_ERR_MASK =? 0 then 0 else -1.

(** The status that [engine_service] works with. *)
Definition service_status (s : est) (wb st : Z) : Prop :=
  if (Z.land wb WB_COUNT_MASK =? 0) || negb (Z.land wb WB_ERR_MASK =? 0)
  then answer s "status_rc" st else st = e_status (s_eng s).

Lemma service_status_seen s wb st : service_status s wb st -> seen (s_eng s) st.
Proof.
  unfold service_status. destruct (_ || _); [|by left]. intros [lg ->]. right. exists lg, "status_rc"%string. by split; [right|].
Qed.

(** The count of completed descriptors that it works with. *)
Definition service_count (s : est) (wb n : Z) : Prop :=
  if Z.land wb WB_COUNT_MASK =? 0 then answer s "completed_desc_count" n
  else n = Z.land wb WB_COUNT_MASK.

(** Whether the engine still runs at that point. *)
Definition service_run (s : est) (wb st : Z) : bool :=
  negb (negb (has_bits st XDMA_STAT_BUSY) ||
        (negb (e_eop_flush (s_eng s)) && negb (Z.land wb WB_COUNT_MASK =? 0))).

Lemma wp_service_status s wb (Q : Z -> est -> Prop) :
  (forall st lg, service_status s wb st -> extends (s_log s) lg ->
     Q 0 (set_log lg (set_s_eng (set_e_status st (s_eng s)) s))) ->
  wp (if (Z.land wb WB_COUNT_MASK =? 0) || negb (Z.land wb WB_ERR_MASK =? 0)
      then engine_status_read true false else ret 0) Q s.
Proof.
  unfold service_status. intros HQ. destruct (_ || _).
  - apply (HQ _ (EvRead (reg (s_eng s) "status_rc") _ :: s_log s)); [by eexists|]. auto with events.
  - apply wp_ret. specialize (HQ (e_status (s_eng s)) (s_log s) eq_refl (extends_refl _)).
    destruct s as [xd e xf sg rq cb lg]. by destruct e.
Qed.

(** Up to the completed descriptors; what follows is [service_completed]. *)
Lemma wp_engine_service_front s wb (Q : Z -> est -> Prop) :
  e_running (s_eng s) = true ->
  (forall st n lg, service_status s wb st -> service_count s wb n -> extends (s_log s) lg ->
     let s1 := checked s st (service_run s wb st) lg in
     (n = 0 -> Q (wb_result wb) s1) /\
     (n <> 0 -> wp (service_completed n) (fun _ s' => Q (wb_result wb) s') s1)) ->
  wp (engine_service wb) Q s.
Proof.
  intros Hrun HQ. unfold engine_service. apply wp_bind, wp_get_eng. rewrite Hrun. cbn [negb].
  apply wp_bind, wp_service_status. intros st lg Hst Hlg. cbn [Z.ltb Z.compare].
  apply wp_bind, wp_get_eng. cbn [e_running e_status e_eop_flush set_e_status s_eng set_s_eng set_log].
  apply wp_bind.
  apply (wp_mono _ (fun rv s' => rv = 0 /\ exists lg', s' = checked s st (service_run s wb st) lg' /\ extends (s_log s) lg')).
  { cbn. rewrite Hrun. unfold service_run. cbn [andb].
    destruct (negb (has_bits st XDMA_STAT_BUSY) || _).
    - apply wp_bind. unfold wp at 1. rewrite xdma_engine_stop_eq. cbn [Z.ltb Z.compare].
      apply wp_bind, wp_kdo, wp_ret. split; [done|]. eexists. split; [done|].
      apply extends_cons; [done|]. apply extends_stop, Hlg.
    - apply wp_ret. split; [done|]. exists lg. split; [|done]. unfold checked. cbn [negb].
      destruct s as [? [] ? ? ? ? ?]. cbn in Hrun. by subst. }
  intros rv s1 (-> & lg1 & -> & Hlg1). cbn [Z.ltb Z.compare].
  apply wp_bind.
  apply (wp_mono _ (fun n s' => service_count s wb n /\
    exists lg', s' = checked s st (service_run s wb st) lg' /\ extends (s_log s) lg')).
  { unfold service_count. destruct (Z.land wb WB_COUNT_MASK =? 0) eqn:Hc.
    - split; [by eexists|]. eexists (_ :: _). split; [done|]. by apply extends_cons.
    - apply wp_ret. split; [done|]. by eexists. }
  intros n s2 (Hn & lg2 & -> & Hlg2). destruct (HQ st n lg2 Hst Hn Hlg2) as [HQ0 HQ1].
  apply wp_bind, wp_when; intros Hz.
  - eapply wp_mono; [apply HQ1; by rewrite negb_true_iff, Z.eqb_neq in Hz|].
    intros ? s' Hs'. by apply wp_ret.
  - apply wp_ret, HQ0. by rewrite negb_false_iff, Z.eqb_eq in Hz.
Qed.

Lemma wp_engine_service s wb (Q : Z -> est -> Prop) :
  service_ok s -> e_running (s_eng s) = true ->
  (forall st n lg, service_status s wb st -> service_count s wb n ->
     let s1 := checked s st (service_run s wb st) lg in
     (n = 0 -> Q (wb_result wb) s1) /\
     (n <> 0 -> forall s', completed_outcome s1 n s' -> Q (wb_result wb) s')) ->
  wp (engine_service wb) Q s.
Proof.
  intros Hok Hrun HQ. apply wp_engine_service_front; [done|]. intros st n lg Hst Hn _.
  destruct (HQ st n lg Hst Hn) as [HQ0 HQ1]. split; [done|]. intros Hz.
  eapply wp_mono; [by eapply wp_service_completed, (serviced_ok _ _ _ Hok), checked_serviced, service_status_seen|].
  intros ? s' Hs'. by apply HQ1.
Qed.
End engine_service.
