(* ===== verification/ServiceProps.v ===== *)
(** * ServiceProps: the properties of completion

    The theorems about [engine_service], its interrupt and polled callers, and
    the status text, with their witnesses. *)

From S2P Require Import Prelude Hw State Desc Engine Service Request Fixtures ServiceSpec.

(** ** Helper lemmas *)

(** The number of descriptors of a list of transfers. *)
Definition nums (xfers : gmap Z xdma_transfer) (l : list Z) : Z := zsum (map (num_of xfers) l).

Definition sane_queue (s : est) : Prop :=
  forall t x, t ∈ queue s -> s_xfers s !! t = Some x ->
    x_cyclic x = false /\ 0 < x_desc_num x < 2 ^ 31.

Lemma split_done_sum xfers q c done rest c' :
  (forall t x, t ∈ q -> xfers !! t = Some x -> x_cyclic x = false /\ 0 < x_desc_num x < 2 ^ 31) ->
  (forall t, t ∈ q -> is_Some (xfers !! t)) ->
  0 <= c < 2 ^ 32 -> split_done xfers q c = (done, rest, c') ->
  nums xfers done + c' = c /\ (0 < c -> 0 < c') /\
  match rest with t :: _ => c' <= num_of xfers t | [] => True end.
Proof.
  revert c done rest c'. induction q as [|t q IH]; intros c done rest c' Hs Hl Hc; cbn.
  - intros [= <- <- <-]. cbn. split_and!; try done; lia.
  - destruct (Hl t) as [x Hx]; [left|]. rewrite Hx.
    destruct (Hs t x) as [-> Hn]; [left|done|]. rewrite u32_small by lia. cbn [negb andb].
    destruct (Z.ltb_spec (x_desc_num x) c) as [Hlt|Hge].
    + destruct (split_done xfers q (u32 (c - x_desc_num x))) as [[d r] c0] eqn:E.
      intros [= <- <- <-]. rewrite u32_small in E by lia.
      destruct (IH (c - x_desc_num x) d r c0) as (Hsum & Hpos & Hr);
        [by intros; apply (Hs t0); [right|]|by intros; apply Hl; right|lia|exact E|].
      assert (num_of xfers t = x_desc_num x) as Hnum by (unfold num_of; by rewrite Hx).
      change (nums xfers (t :: d)) with (num_of xfers t + nums xfers d). split_and!; [lia|lia|done].
    + intros [= <- <- <-]. cbn. unfold num_of. rewrite Hx. split_and!; try done; lia.
Qed.

(** The final state of the last transfer of a service call: an error of the
    engine, a stop half-way, or success. *)
Definition final_state (e : xdma_engine) (st n_t c : Z) : transfer_state :=
  if status_error (set_e_status st e) then TRANSFER_STATE_FAILED
  else if c <? n_t then TRANSFER_STATE_FAILED
  else TRANSFER_STATE_COMPLETED.

Lemma serviced_finished `{Env} d s s' t x :
  serviced d s s' -> t ∈ d -> s_xfers s' !! t = Some x ->
  x_state x = TRANSFER_STATE_COMPLETED \/ x_state x = TRANSFER_STATE_FAILED.
Proof.
  intros [_ _ Hx _ _ _ _] Hin Hl. specialize (Hx t). rewrite Hl in Hx.
  inversion Hx as [y ? Hev Heq|]; subst. destruct Hev as (st & fl & c & -> & Hf & _). by apply Hf.
Qed.

Lemma serviced_state_kept `{Env} d s s' t x :
  serviced d s s' -> t ∉ d -> s_xfers s' !! t = Some x ->
  exists y, s_xfers s !! t = Some y /\ x_state x = x_state y.
Proof.
  intros [_ _ Hx _ _ _ _] Hin Hl. specialize (Hx t). rewrite Hl in Hx.
  inversion Hx as [y ? Hev Heq|]; subst. exists y. split; [done|].
  destruct Hev as (st & fl & c & -> & _ & Hf). by apply Hf.
Qed.

Section props.
Context `{Env} `{Callback}.

Lemma completed_serviced s n s' : completed_outcome s n s' -> NoDup (queue s) -> exists d, serviced d s s'.
Proof.
  unfold completed_outcome, list_serviced. intros Ho Hnd.
  destruct (split_done _ _ _) as [[done rest] c'].
  destruct Ho as (s1 & (_ & Hsv1 & _) & Hrest & _).
  assert (NoDup (queue s1)) as Hnd1.
  { destruct Hsv1 as [E _ _ _ _ _ _]. rewrite E in Hnd. by apply NoDup_app in Hnd as (_ & _ & ?). }
  destruct rest as [|t q].
  - eexists. by apply (serviced_trans done [] s s1).
  - destruct Hrest as (x & s2 & _ & Hfin & Hsv & _).
    destruct (final_serviced _ _ _ _ _ Hfin) as [d Hd].
    exists (done ++ (d ++ [])). eapply serviced_trans; [done|done|].
    by apply (serviced_trans d [] s1 s2).
Qed.

Lemma engine_service_serviced s wb :
  service_ok s -> wp (engine_service wb) (fun _ s' => exists d, serviced d s s') s.
Proof.
  intros Hok. destruct (e_running (s_eng s)) eqn:Hrun.
  - apply wp_engine_service; [done|done|]. intros st n lg Hst _ s1.
    pose proof (checked_serviced s st (service_run s wb st) lg (service_status_seen _ _ _ Hst)) as Hsv. fold s1 in Hsv.
    split; [by exists []|]. intros _ s' Ho.
    pose proof (qk_nodup _ (so_queue _ Hok)) as Hnd.
    assert (queue s = queue s1) as Hq by (by destruct Hsv).
    destruct (completed_serviced _ _ _ Ho) as [d Hd]; [by rewrite <-Hq|].
    exists ([] ++ d). by apply (serviced_trans [] d s s1).
  - unfold engine_service. apply wp_bind, wp_get_eng. rewrite Hrun. cbn [negb].
    exists []. apply serviced_eng_only; [|done]. cbn.
    exists (queue s), (e_running (s_eng s)), (u32 (io_read (s_log s) (reg (s_eng s) "status_rc"))),
      (e_shutdown (s_eng s)), (e_desc_dequeued (s_eng s)), (e_xdma_perf (s_eng s)).
    split; [right; exists (s_log s), "status_rc"%string; by split; [right|]|by destruct (s_eng s)].
Qed.

(** The outcome of an interrupt: [st] is the status and [n] the count of
    completed descriptors that the device answers. *)
Definition irq_outcome (s : est) (st n : Z) (s' : est) : Prop :=
  if negb (e_running (s_eng s) && negb (n =? 0)) then
    queue s' = queue s /\ s_xfers s' = s_xfers s /\ e_status (s_eng s') = st /\
    e_running (s_eng s') = e_running (s_eng s) && has_bits st XDMA_STAT_BUSY
  else
    let c := u32 (n - e_desc_dequeued (s_eng s)) in
    let '(done, rest, c') := split_done (s_xfers s) (queue s) c in
    serviced (done ++ take 1 rest) s s' /\ queue s' = drop 1 rest /\
    (forall u x, u ∈ done -> s_xfers s' !! u = Some x -> x_state x = TRANSFER_STATE_COMPLETED) /\
    (forall t x, t ∈ take 1 rest -> s_xfers s' !! t = Some x ->
       x_state x = final_state (s_eng s) st (u32 (num_of (s_xfers s) t)) c') /\
    e_running (s_eng s') = negb (bool_decide (drop 1 rest = [])).

Lemma final_finished s t x c s' :
  e_eop_flush (s_eng s) = false -> final_outcome s t x c s' ->
  finished s t (final_state (s_eng s) (e_status (s_eng s)) (u32 (x_desc_num x)) c) s'.
Proof.
  unfold final_outcome, final_state. intros Hf.
  assert (set_e_status (e_status (s_eng s)) (s_eng s) = s_eng s) as -> by (by destruct (s_eng s)).
  rewrite Hf. intros Ho. repeat case_match; tauto.
Qed.

Lemma completed_irq s st run lg n s' :
  service_ok s -> e_eop_flush (s_eng s) = false -> seen (s_eng s) st -> e_running (s_eng s) = true -> n <> 0 ->
  completed_outcome (checked s st run lg) n s' -> irq_outcome s st n s'.
Proof.
  intros Hok Hf Hseen Hr Hn. unfold completed_outcome, irq_outcome, list_serviced.
  rewrite Hr, (proj2 (Z.eqb_neq n 0) Hn). cbn [negb andb].
  change (queue (checked s st run lg)) with (queue s).
  change (s_xfers (checked s st run lg)) with (s_xfers s).
  change (e_desc_dequeued (s_eng (checked s st run lg))) with (e_desc_dequeued (s_eng s)).
  pose proof (checked_serviced s st run lg Hseen) as Hc.
  pose proof (qk_nodup _ (so_queue _ Hok)) as Hnd.
  destruct (split_done _ _ _) as [[dn rest] c'] eqn:Hsplit.
  intros (s1 & (_ & Hsv1 & Hst & Hsame & _ & _ & Hstat) & Hrest & Hrun).
  pose proof (serviced_trans [] dn _ _ _ Hnd Hc Hsv1) as Hsv01. cbn [app] in Hsv01.
  pose proof (split_done_app _ _ _ _ _ _ Hsplit) as Hqd. destruct rest as [|t rest]; cbn [take drop].
  { pose proof (serviced_trans dn [] _ _ _ Hnd Hsv01 Hrest) as Hsv.
    assert (queue s' = []) as Hq'.
    { destruct Hsv as [E _ _ _ _ _ _]. rewrite Hqd, !app_nil_r in E. by apply (app_inv_head dn); rewrite app_nil_r. }
    split; [done|]. split; [done|]. split_and!.
    - intros u z Hu Hz. destruct (serviced_state_kept [] s1 s' u z) as (w & Hw & ->); [done|set_solver|done|by eapply Hst].
    - intros t x []%not_elem_of_nil.
    - etrans; [by apply Hrun|]. by rewrite Hq'. }
  destruct Hrest as (x & s2 & Hx & Hfin & Hsv2 & Hx2).
  assert (queue s1 = t :: rest) as Hq1.
  { destruct Hsv01 as [E _ _ _ _ _ _]. rewrite Hqd in E. by apply app_inv_head in E. }
  assert (e_eop_flush (s_eng s1) = false) as Hf1 by (by rewrite (serviced_flush _ _ _ Hsv01)).
  apply final_finished in Hfin; [|done]. destruct Hfin as [Hsvt (y & Hy & Hys)].
  assert (NoDup (queue s1)) as Hnd1 by exact (qk_nodup _ (serviced_queue_ok _ _ _ (so_queue _ Hok) Hsv01)).
  pose proof (serviced_trans [t] [] _ _ _ Hnd1 Hsvt Hsv2) as Hsvt'. rewrite app_nil_r in Hsvt'.
  assert (queue s' = rest) as Hq'.
  { destruct Hsvt' as [E _ _ _ _ _ _]. rewrite Hq1 in E. by injection E. }
  split; [by apply (serviced_trans dn [t] s s1)|]. split; [done|]. split_and!.
  - intros u z Hu Hz. destruct (serviced_state_kept [t] s1 s' u z) as (w & Hw & ->); [done| |done|by eapply Hst].
    rewrite Hqd, NoDup_app in Hnd. destruct Hnd as (_ & Hd & _). pose proof (Hd u Hu). set_solver.
  - intros t' z ->%list_elem_of_singleton Hz. rewrite Hx2 in Hz. rewrite Hy in Hz. injection Hz as <-. rewrite Hys, Hstat.
    unfold final_state, num_of. rewrite Hx. cbn.
    assert (status_error (set_e_status st (s_eng s1)) = status_error (set_e_status st (s_eng s))) as ->; [|done].
    destruct Hsv01 as [_ (? & ? & ? & ? & ? & ? & _ & ->) _ _ _ _ _]. done.
  - rewrite <-Hq'. by apply Hrun.
Qed.

(** C15: for every count and every status of the device whose text fits the buffer
    of [engine_status_dump] ([service_ok]), and whatever the poll thread wrote
    back, [engine_service] of an engine whose queued transfers are blocking ones
    terminates without undefined behaviour; it takes a prefix of the queue, each
    of whose transfers ends COMPLETED or FAILED, and leaves every other transfer,
    the ring, the requests and the device as they were. *)
Theorem engine_service_frame s wb :
  service_ok s ->
  exists rv s' d,
    engine_service wb s = Some (rv, s') /\ serviced d s s' /\
    forall t, t ∈ d -> exists x, s_xfers s' !! t = Some x /\
      (x_state x = TRANSFER_STATE_COMPLETED \/ x_state x = TRANSFER_STATE_FAILED).
Proof.
  intros Hok. pose proof (engine_service_serviced s wb Hok) as Hwp.
  apply wp_iff in Hwp as (rv & s' & Hrun & d & Hsv). exists rv, s', d. split_and!; try done.
  intros t Ht. destruct (qk_live _ (so_queue _ Hok) t) as (x0 & Hx0 & _).
  { destruct Hsv as [-> _ _ _ _ _ _]. set_solver. }
  pose proof (sv_xfers _ _ _ Hsv t) as Hx. rewrite Hx0 in Hx. inversion Hx as [? y Hev Heq Hy|]; subst.
  exists y. split; [done|]. by apply (serviced_finished d s s' t).
Qed.

(** C14: an interrupt of an engine that is not in [eop_flush] mode and whose queued
    transfers are blocking ones.  [st] and [n] are what the device answers for its
    status and its count of completed descriptors; the status is one whose text
    fits the buffer of [engine_status_dump] ([service_ok]).  If the engine is not
    running or nothing is complete, no transfer changes: the status is noted, and
    the engine is stopped unless the device is busy.  Otherwise the transfers that
    the new completions cover entirely are COMPLETED and leave the queue in order;
    the next transfer, if there is one, leaves it too, COMPLETED if its descriptors
    are all done, FAILED if the status has an error bit or the engine stopped
    half-way; the engine is then running exactly if transfers are left. *)
Theorem engine_service_interrupt s st n :
  service_ok s -> e_eop_flush (s_eng s) = false ->
  (forall v, answer s "status_rc" v -> v = st) ->
  (forall v, answer s "completed_desc_count" v -> v = n) ->
  exists s', engine_service 0 s = Some (0, s') /\ irq_outcome s st n s'.
Proof.
  intros Hok Hf Hst Hn.
  assert (wp (engine_service 0) (fun rv s' => rv = 0 /\ irq_outcome s st n s') s) as Hwp.
  { destruct (e_running (s_eng s)) eqn:Hrun.
    - apply wp_engine_service; [done|done|]. intros v m lg Hv Hm s1.
      pose proof (service_status_seen _ _ _ Hv) as Hseen. apply Hst in Hv as ->. apply Hn in Hm as ->. split.
      + intros Hz. split; [done|]. unfold irq_outcome. rewrite Hrun, Hz. cbn [Z.eqb negb andb]. split_and!; try done.
        cbn. unfold service_run. cbn. rewrite andb_false_r, orb_false_r. apply negb_involutive.
      + intros Hz s' Ho. split; [done|]. by eapply completed_irq.
    - unfold engine_service. apply wp_bind, wp_get_eng. rewrite Hrun. cbn [negb].
      split; [done|]. unfold irq_outcome. rewrite Hrun. cbn [negb andb].
      split_and!; try done. apply Hst. by eexists. }
  apply wp_iff in Hwp as (rv & s' & ? & -> & ?). by exists s'.
Qed.

(** C16: the conservation law of [engine_service_transfer_list], on a queue of
    non-cyclic transfers: the descriptors of the transfers it completes and the
    count it hands to the last transfer add up to the completed descriptors, and
    that last transfer is one that the count does not exceed. *)
Theorem transfer_list_conserves s c :
  queue_ok s -> sane_queue s -> 0 <= c < 2 ^ 32 ->
  exists s' d c',
    engine_service_transfer_list (head (queue s)) c s = Some ((head (queue s'), c'), s') /\
    serviced d s s' /\ nums (s_xfers s) d + c' = c /\ (0 < c -> 0 < c') /\
    (forall t x, t ∈ d -> s_xfers s' !! t = Some x -> x_state x = TRANSFER_STATE_COMPLETED) /\
    match queue s' with t :: _ => c' <= num_of (s_xfers s) t | [] => True end.
Proof.
  intros Hok Hs Hc. pose proof (wp_transfer_list s c Hok) as Hwp.
  apply wp_iff in Hwp as (r & s' & Hrun & Ho). unfold list_serviced in Ho.
  destruct (split_done (s_xfers s) (queue s) c) as [[d rest] c'] eqn:Hsplit.
  destruct Ho as (-> & Hsv & Hst & _).
  assert (queue s' = rest) as Hq'.
  { destruct Hsv as [E _ _ _ _ _ _]. rewrite (split_done_app _ _ _ _ _ _ Hsplit) in E.
    by apply app_inv_head in E. }
  destruct (split_done_sum (s_xfers s) (queue s) c d rest c') as (Hsum & Hpos & Hr);
    [exact Hs| |done|done|exists s', d, c'; by rewrite Hq'].
  intros t Ht. destruct (qk_live _ Hok t Ht) as (x & ? & _). eauto.
Qed.

(** C35: an error that the device reports before any descriptor is complete: the
    engine is stopped, but no transfer is marked FAILED or leaves the queue, and
    the engine is not restarted. *)
Theorem engine_service_error_unnoticed s st :
  service_ok s -> e_running (s_eng s) = true ->
  (forall v, answer s "status_rc" v -> v = st) ->
  (forall v, answer s "completed_desc_count" v -> v = 0) ->
  status_error (set_e_status st (s_eng s)) = true -> has_bits st XDMA_STAT_BUSY = false ->
  exists s', engine_service 0 s = Some (0, s') /\ s_xfers s' = s_xfers s /\
             queue s' = queue s /\ e_running (s_eng s') = false.
Proof.
  intros Hok Hrun Hst Hn _ Hb.
  assert (wp (engine_service 0) (fun rv s' => rv = 0 /\ s_xfers s' = s_xfers s /\
             queue s' = queue s /\ e_running (s_eng s') = false) s) as Hwp.
  { apply wp_engine_service; [done|done|]. intros v m lg Hv Hm s1.
    apply Hst in Hv as ->. apply Hn in Hm as ->. split; [|done].
    intros _. split_and!; try done. cbn. unfold service_run. by rewrite Hb. }
  apply wp_iff in Hwp as (rv & s' & ? & -> & ?). by exists s'.
Qed.
End props.

(** C36: [engine_status_dump] writes at most [sizeof buffer] bytes for a C2H
    engine, whatever its status; for an H2C engine with the status
    [0xffffffff] that a lost device returns it writes past the end, for every
    name of four characters or more (the driver's names have nine). *)
Theorem status_dump_bounds `{Env} s :
  (is_c2h (e_dir (s_eng s)) = true -> (String.length (e_name (s_eng s)) < 16)%nat ->
   engine_status_dump s = Some (tt, s)) /\
  (is_h2c (e_dir (s_eng s)) = true -> (4 <= String.length (e_name (s_eng s)))%nat ->
   e_status (s_eng s) = 0xffffffff -> engine_status_dump s = None).
Proof.
  unfold engine_status_dump, bind, get_eng, gets. split.
  - intros Hd Hn. destruct (e_dir (s_eng s)) eqn:Hdir; [done|].
    pose proof (c2h_dump_fits _ (e_status (s_eng s)) Hdir Hn) as Hok.
    assert (set_e_status (e_status (s_eng s)) (s_eng s) = s_eng s) as He by (by destruct (s_eng s)).
    rewrite He in Hok. by rewrite Hok.
  - intros Hd Hn Hst. destruct (e_dir (s_eng s)) eqn:Hdir; [|done].
    assert (status_dump_fits (s_eng s) = false) as ->; [|done].
    unfold status_dump_fits. rewrite Hst, Hdir. unfold status_text. cbn [foldr].
    rewrite (length_append "SG engine "), (length_append (e_name _)).
    match goal with |- Nat.ltb (_ + (_ + ?k))%nat _ = _ => assert (k = 242)%nat as -> by (vm_compute; reflexivity) end.
    apply Nat.ltb_ge. unfold STATUS_BUF_SIZE. cbn [String.length]. lia.
Qed.

(** ** Witnesses *)

Lemma demo_busy_ok `{Env} : service_ok demo_busy.
Proof.
  split.
  - split; [repeat constructor; set_solver|].
    intros t Ht. cbn in Ht. apply elem_of_cons in Ht as [->|Ht]; [by eexists|].
    apply elem_of_cons in Ht as [->|Ht]; [by eexists|]. by apply not_elem_of_nil in Ht.
  - by apply c2h_dump_ok; [|cbn; lia].
  - done.
Qed.

Lemma engine_service_frame_witness :
  exists rv s' d,
    @engine_service (count_env 0 3) no_callback 0 demo_busy = Some (rv, s') /\
    @serviced (count_env 0 3) d demo_busy s' /\
    forall t, t ∈ d -> exists x, s_xfers s' !! t = Some x /\
      (x_state x = TRANSFER_STATE_COMPLETED \/ x_state x = TRANSFER_STATE_FAILED).
Proof. apply (@engine_service_frame (count_env 0 3) no_callback), demo_busy_ok. Defined.

Lemma engine_service_interrupt_witness :
  exists s', @engine_service (count_env 0 4) no_callback 0 demo_busy = Some (0, s') /\
             @irq_outcome (count_env 0 4) demo_busy 0 4 s'.
Proof.
  apply (@engine_service_interrupt (count_env 0 4) no_callback).
  - apply demo_busy_ok.
  - reflexivity.
  - intros v [lg ->]. reflexivity.
  - intros v [lg ->]. reflexivity.
Defined.

Lemma transfer_list_conserves_witness :
  exists s' d c',
    @engine_service_transfer_list no_callback (Some 10) 4 demo_busy
      = Some ((head (queue s'), c'), s') /\
    @serviced zero_env d demo_busy s' /\ nums (s_xfers demo_busy) d + c' = 4 /\ (0 < 4 -> 0 < c') /\
    (forall t x, t ∈ d -> s_xfers s' !! t = Some x -> x_state x = TRANSFER_STATE_COMPLETED) /\
    match queue s' with t :: _ => c' <= num_of (s_xfers demo_busy) t | [] => True end.
Proof.
  apply (@transfer_list_conserves zero_env no_callback demo_busy 4).
  - apply (@so_queue zero_env), demo_busy_ok.
  - intros t x Ht Hx. cbn in Ht. apply elem_of_cons in Ht as [->|Ht].
    + vm_compute in Hx. injection Hx as <-. cbn. lia.
    + apply elem_of_cons in Ht as [->|Ht]; [|by apply not_elem_of_nil in Ht].
      vm_compute in Hx. injection Hx as <-. cbn. lia.
  - lia.
Defined.

Lemma engine_service_error_unnoticed_witness :
  exists s', @engine_service (count_env XDMA_STAT_MAGIC_STOPPED 0) no_callback 0 demo_busy = Some (0, s') /\
    s_xfers s' = s_xfers demo_busy /\ queue s' = queue demo_busy /\ e_running (s_eng s') = false.
Proof.
  apply (@engine_service_error_unnoticed (count_env XDMA_STAT_MAGIC_STOPPED 0) no_callback
           demo_busy XDMA_STAT_MAGIC_STOPPED).
  - apply demo_busy_ok.
  - reflexivity.
  - intros v [lg ->]. reflexivity.
  - intros v [lg ->]. reflexivity.
  - reflexivity.
  - reflexivity.
Defined.

Lemma status_dump_bounds_witness :
  @engine_status_dump demo_busy = Some (tt, demo_busy).
Proof.
  apply (@status_dump_bounds (count_env 0 0) demo_busy); [reflexivity|cbn; lia].
Defined.
