(* ===== verification/PollProps.v ===== *)
(** * PollProps: the polled mode terminates

    [engine_service_wb_monitor] spins on a memory word that the device writes.
    It ends because the kernel's clock ends it; what it returns on a timeout is
    the last word read. *)

From S2P Require Import Prelude Hw State Desc Engine Service Request Fixtures ServiceSpec.

Section poll.
Context `{Env} `{Callback}.

(** The deadline of a monitor started after the history [lg]. *)
Definition deadline (lg : list event) : Z :=
  u64 (kernel lg "jiffies" [] + POLL_TIMEOUT_SECONDS * HZ).

(** The clock is past the deadline [d] after every history of [N] events. *)
Definition clock_passes (d : Z) (N : nat) : Prop :=
  forall lg, (N <= length lg)%nat -> s64 (d - kernel lg "jiffies" []) < 0.

(** The deadline was seen to be over. *)
Definition timed_out (d : Z) : Prop := exists lg, s64 (d - kernel lg "jiffies" []) < 0.

(** What the monitor may return: a word read from the writeback location of the
    engine, which has the error bit, or reaches the expected count, or was the
    last one before the deadline. *)
Definition wb_word (e : xdma_engine) (expected d v : Z) : Prop :=
  (exists lg, v = u32 (kernel lg "wb_data->completed_desc_count" [e_poll_mode_addr_virt e])) /\
  (has_bits v WB_ERR_MASK = true \/ expected <= v \/ timed_out d).

Lemma land_count_le v : 0 <= v -> Z.land v WB_COUNT_MASK <= v.
Proof.
  intros Hv. unfold WB_COUNT_MASK. change 0x00ffffff with (Z.ones 24).
  rewrite Z.land_ones by lia. by apply Z.mod_le.
Qed.

(** Only the log changes while polling. *)
Definition same_but_log (s s' : est) : Prop :=
  exists lg, s' = set_log (lg ++ s_log s) s.

Lemma same_but_log_step s s' ev : same_but_log s s' -> same_but_log s (set_log (ev :: s_log s') s').
Proof. intros [lg ->]. by exists (ev :: lg). Qed.

(** One turn of the loop; the branch of the code that would flag a timeout with
    [WB_ERR_MASK] cannot be taken, because the word is below [expected]. *)
Lemma wp_poll_once expected d limit s (Q : Z + Z -> est -> Prop) :
  e_poll_mode_addr_virt (s_eng s) <> 0 ->
  (forall v s', same_but_log s s' -> wb_word (s_eng s) expected d v -> Q (inl v) s') ->
  (forall s' l, same_but_log s s' -> (length (s_log s) < length (s_log s'))%nat ->
     (exists lg, (length (s_log s) <= length lg)%nat /\ s64 (d - kernel lg "jiffies" []) >= 0) ->
     Q (inr l) s') ->
  wp (wb_poll_once expected d limit) Q s.
Proof.
  intros Hv Hdone Hgo. unfold wb_poll_once, poll_wb_read, poll_wb_clear.
  apply wp_bind, wp_bind, wp_get_eng, wp_bind, wp_guard_ub; [by rewrite negb_true_iff, Z.eqb_neq|].
  apply wp_bind, wp_kcall, wp_ret.
  set (v := u32 _). assert (0 <= v < 2 ^ 32) as Hvr by apply u32_range.
  match goal with |- wp _ _ ?st => set (s1 := st) end.
  assert (same_but_log s s1) as H1 by (by eexists [_]).
  apply wp_bind.
  apply (wp_mono _ (fun _ s' => same_but_log s s' /\ (length (s_log s) < length (s_log s'))%nat)).
  { apply wp_when; intros _.
    - apply wp_bind, wp_get_eng, wp_kdo. split; [by apply same_but_log_step|cbn; lia].
    - split; [done|cbn; lia]. }
  intros _ s2 [H2 Hlen]. destruct (has_bits v WB_ERR_MASK) eqn:Herr.
  { apply wp_ret, Hdone; [done|]. split; [by eexists|by left]. }
  destruct (Z.leb_spec expected v) as [Hle|Hgt].
  { apply wp_ret, Hdone; [done|]. split; [by eexists|by right; left]. }
  apply wp_bind, wp_kcall. destruct (Z.ltb_spec (s64 (d - kernel (s_log s2) "jiffies" [])) 0) as [Ht|Ht].
  - apply wp_ret. pose proof (land_count_le v ltac:(lia)).
    destruct (Z.ltb_spec expected (Z.land v WB_COUNT_MASK)); [lia|].
    apply Hdone; [by apply same_but_log_step|]. split; [by eexists|]. right; right. by eexists.
  - assert (exists lg, (length (s_log s) <= length lg)%nat /\ s64 (d - kernel lg "jiffies" []) >= 0)
      as Hclk by (exists (s_log s2); split; lia).
    apply wp_bind, wp_when; intros _.
    + apply wp_kdo, wp_ret, Hgo; [by do 2 apply same_but_log_step|cbn; lia|done].
    + apply wp_ret, Hgo; [by apply same_but_log_step|cbn; lia|done].
Qed.

Lemma wp_wb_poll N expected d limit s fuel :
  e_poll_mode_addr_virt (s_eng s) <> 0 -> clock_passes d N ->
  (N < fuel + length (s_log s))%nat -> (1 <= fuel)%nat ->
  wp (wb_poll fuel expected d limit)
     (fun v s' => same_but_log s s' /\ wb_word (s_eng s) expected d v) s.
Proof.
  intros Hv Hclk. revert limit s Hv. induction fuel as [|fuel IH]; intros limit s Hv HN Hf; [lia|].
  cbn [wb_poll]. apply wp_bind, wp_poll_once; [done| |].
  - intros v s' Hs Hw. by apply wp_ret.
  - intros s' l [lg ->] Hlen (lg' & Hl & Hpast).
    assert (length (s_log s) < N)%nat as HlN.
    { destruct (decide (N <= length lg')%nat) as [Hge|Hlt]; [specialize (Hclk lg' Hge); lia|lia]. }
    eapply wp_mono; [apply IH; [exact Hv|lia|lia]|].
    intros v s' ([lg2 ->] & Hw). split; [|done]. exists (lg2 ++ lg). cbn.
    by rewrite app_assoc.
Qed.

Lemma wb_monitor_returns_aux N expected s :
  e_poll_mode_addr_virt (s_eng s) <> 0 -> clock_passes (deadline (s_log s)) N ->
  exists v s', engine_service_wb_monitor (S N) expected s = Some (v, s') /\
    same_but_log s s' /\
    (if expected =? 0 then v = 0 else wb_word (s_eng s) expected (deadline (s_log s)) v).
Proof.
  intros Hv Hclk.
  assert (wp (engine_service_wb_monitor (S N) expected) (fun v s' => same_but_log s s' /\
    (if expected =? 0 then v = 0 else wb_word (s_eng s) expected (deadline (s_log s)) v)) s) as Hwp.
  { apply wp_bind, wp_kcall. destruct (expected =? 0) eqn:Hne.
    - apply wp_ret. split; [by eexists [_]|done].
    - eapply wp_mono; [apply (wp_wb_poll N); [done|exact Hclk|cbn; lia|lia]|].
      intros v s' ([lg ->] & Hw). split; [|done]. eexists (lg ++ [_]).
      by rewrite <-app_assoc. }
  apply wp_iff in Hwp as (v & s' & ? & ? & ?). by exists v, s'.
Qed.

(** C31: if the clock passes the deadline at some point, the monitor returns, and
    nothing but the log has changed.  Unless nothing was expected, it returns a
    word that was read from the writeback location: one with the error bit, one
    with at least the expected count, or, after the deadline, whatever was there;
    the monitor itself never sets the error bit, so a timeout is not flagged. *)
Theorem wb_monitor_returns N expected s :
  e_poll_mode_addr_virt (s_eng s) <> 0 -> clock_passes (deadline (s_log s)) N ->
  exists v s', engine_service_wb_monitor (S N) expected s = Some (v, s') /\
    same_but_log s s' /\
    (if expected =? 0 then v = 0 else wb_word (s_eng s) expected (deadline (s_log s)) v).
Proof. apply wb_monitor_returns_aux. Qed.

(** C37: the device never writes back: after the timeout [engine_service_poll]
    reports success and leaves the engine and its transfers as they were. *)
Theorem poll_timeout_unreported N expected s :
  e_magic (s_eng s) = MAGIC_ENGINE -> e_poll_mode_addr_virt (s_eng s) <> 0 ->
  clock_passes (deadline (s_log s)) N ->
  (forall lg, kernel lg "wb_data->completed_desc_count" [e_poll_mode_addr_virt (s_eng s)] = 0) ->
  exists s', engine_service_poll (S N) expected s = Some (0, s') /\ same_but_log s s'.
Proof.
  intros Hm Hv Hclk Hwb. destruct (wb_monitor_returns_aux N expected s Hv Hclk) as (v & s' & Hrun & Hs & Hw).
  unfold engine_service_poll, get_eng, gets. unfold bind at 1. rewrite Hm. change (negb (MAGIC_ENGINE =? MAGIC_ENGINE)) with false. cbv iota.
  rewrite (bind_some _ _ _ _ _ Hrun).
  assert (v = 0) as ->; [|by exists s'].
  destruct (expected =? 0); [done|]. destruct Hw as [[lg ->] _]. by rewrite Hwb.
Qed.
End poll.

(** ** Witness: a clock that advances with the log *)

Definition clock_env : Env := {|
  io_read _ _ := 0;
  kernel lg f _ := if String.eqb f "jiffies" then Z.min (1000 * Z.of_nat (length lg)) 1000000 else 0;
  poll_mode := true;
  interrupt_mode := 0;
  enable_st_c2h_credit := false;
  desc_blen_max := XDMA_DESC_BLEN_MAX;
  HZ := 250;
  SIZEOF_REQ := 400
|}.

Definition poll_state : est :=
  set_s_eng (set_e_poll_mode_addr_virt 0x700000 (s_eng demo_busy)) demo_busy.

Lemma clock_env_passes : @clock_passes clock_env 2500 3.
Proof.
  intros lg Hlg. change (kernel lg "jiffies" []) with (Z.min (1000 * Z.of_nat (length lg)) 1000000).
  unfold s64, swrap. rewrite Z.mod_small; lia.
Qed.

Lemma wb_monitor_returns_witness :
  exists v s', @engine_service_wb_monitor clock_env 4 5 poll_state = Some (v, s') /\
    same_but_log poll_state s' /\ @wb_word clock_env (s_eng poll_state) 5 2500 v.
Proof. apply (@wb_monitor_returns clock_env 3 5 poll_state); [done|apply clock_env_passes]. Defined.

Lemma poll_timeout_unreported_witness :
  exists s', @engine_service_poll clock_env no_callback 4 5 poll_state = Some (0, s') /\
             same_but_log poll_state s'.
Proof.
  apply (@poll_timeout_unreported clock_env no_callback 3 5 poll_state);
    [done|done|apply clock_env_passes|reflexivity].
Defined.
