(* ===== verification/RequestSpec.v ===== *)
(** * RequestSpec: what xdma_init_request builds

    The software descriptors of a request are the entries of its scatter-gather
    table, each cut into pieces of at most [desc_blen_max] bytes. *)

From S2P Require Import Prelude Hw State Desc Engine Service Request Fixtures.

Definition ceil_div (a b : Z) : Z := (a + b - 1) `div` b.

(** The pieces of one entry: piece [k] starts [k * blen] bytes into it. *)
Definition piece (blen addr len k : Z) : sw_desc :=
  mk_sw_desc (u64 (addr + k * blen)) (Z.min blen (len - k * blen)).
Definition pieces (blen : Z) (sg : Z * Z) : list sw_desc :=
  map (piece blen sg.1 sg.2) (zrange (ceil_div sg.2 blen)).

(** The software descriptors of a table. *)
Definition segments (blen : Z) (sgl : list (Z * Z)) : list sw_desc := concat (map (pieces blen) sgl).

(** ** Arithmetic *)

Lemma ceil_div_0 b : 0 < b -> ceil_div 0 b = 0.
Proof. intros Hb. unfold ceil_div. apply Z.div_small. lia. Qed.

Lemma ceil_div_step a b : 0 < b -> b < a -> ceil_div a b = ceil_div (a - b) b + 1.
Proof.
  intros Hb Ha. unfold ceil_div. replace (a + b - 1) with ((a - b + b - 1) + 1 * b) by lia.
  rewrite Z.div_add by lia. done.
Qed.

Lemma ceil_div_last a b : 0 < a <= b -> ceil_div a b = 1.
Proof.
  intros Ha. unfold ceil_div. replace (a + b - 1) with (a - 1 + 1 * b) by lia.
  rewrite Z.div_add, Z.div_small by lia. done.
Qed.

Lemma ceil_div_pos a b : 0 < b -> 0 <= a -> 0 <= ceil_div a b.
Proof. intros Hb Ha. unfold ceil_div. apply Z.div_pos; lia. Qed.

Lemma pieces_0 blen addr : 0 < blen -> pieces blen (addr, 0) = [].
Proof. intros Hb. unfold pieces. cbn. by rewrite ceil_div_0. Qed.

Lemma pieces_last blen addr len : 0 < len <= blen -> 0 <= addr < 2 ^ 64 ->
  pieces blen (addr, len) = [mk_sw_desc addr len].
Proof.
  intros Hl Ha. unfold pieces. cbn. rewrite ceil_div_last by done.
  change (zrange 1) with [0]. cbn [map]. unfold piece.
  rewrite Z.mul_0_l, Z.add_0_r, u64_small, Z.sub_0_r by done. by rewrite Z.min_r by lia.
Qed.

Lemma piece_shift blen addr len k :
  piece blen addr len (Z.succ k) = piece blen (u64 (addr + blen)) (len - blen) k.
Proof.
  unfold piece. f_equal; [|f_equal; lia]. unfold u64. rewrite Zplus_mod_idemp_l. f_equal. lia.
Qed.

Lemma seqZ_shift k n : seqZ (Z.succ k) n = map Z.succ (seqZ k n).
Proof.
  apply list_eq. intros i. rewrite list_lookup_fmap. destruct (decide (Z.of_nat i < n)).
  - rewrite !lookup_seqZ_lt by lia. cbn. f_equal. lia.
  - by rewrite !lookup_seqZ_ge by lia.
Qed.

Lemma pieces_step blen addr len : 0 < blen -> blen < len -> 0 <= addr < 2 ^ 64 ->
  pieces blen (addr, len) = mk_sw_desc addr blen :: pieces blen (u64 (addr + blen), len - blen).
Proof.
  intros Hb Hl Ha. unfold pieces. cbn [fst snd]. rewrite ceil_div_step by done.
  pose proof (ceil_div_pos (len - blen) blen Hb ltac:(lia)) as Hp.
  rewrite seqZ_cons by lia. cbn [map]. f_equal.
  - unfold piece. rewrite Z.mul_0_l, Z.add_0_r, u64_small, Z.sub_0_r by done.
    by rewrite Z.min_l by lia.
  - replace (Z.pred (ceil_div (len - blen) blen + 1)) with (ceil_div (len - blen) blen) by lia.
    rewrite seqZ_shift, map_map. apply map_ext. intros k. apply piece_shift.
Qed.

Lemma length_pieces blen sg : 0 < blen -> 0 <= sg.2 ->
  Z.of_nat (length (pieces blen sg)) = ceil_div sg.2 blen.
Proof.
  intros Hb Hl. unfold pieces. rewrite length_map, length_seqZ.
  pose proof (ceil_div_pos sg.2 blen Hb Hl). lia.
Qed.

(** The pieces of an entry are not empty, fit in a descriptor and make up the entry. *)
Lemma pieces_sum blen addr len : 0 < blen -> 0 <= addr < 2 ^ 64 -> 0 <= len ->
  zsum (map sd_len (pieces blen (addr, len))) = len /\
  Forall (fun d => 0 < sd_len d <= blen) (pieces blen (addr, len)).
Proof.
  intros Hb. assert (G : forall fuel a l, 0 <= a < 2 ^ 64 -> 0 <= l <= Z.of_nat fuel ->
    zsum (map sd_len (pieces blen (a, l))) = l /\
    Forall (fun d => 0 < sd_len d <= blen) (pieces blen (a, l))).
  { induction fuel as [|fuel IH]; intros a l Ha Hl.
    - replace l with 0 by lia. by rewrite pieces_0.
    - destruct (decide (l = 0)) as [->|]; [by rewrite pieces_0|].
      destruct (decide (l <= blen)).
      + rewrite pieces_last by lia. split; [cbn; lia|]. repeat constructor; cbn; lia.
      + rewrite pieces_step by lia.
        destruct (IH (u64 (a + blen)) (l - blen)) as [Hs Hf]; [apply u64_range|lia|].
        cbn [map]. change (zsum (?x :: ?r)) with (x + zsum r). rewrite Hs. cbn [sd_len].
        split; [lia|]. constructor; [cbn; lia|done]. }
  intros Ha Hl. apply (G (Z.to_nat len)); [done|lia].
Qed.

Lemma segments_sum blen l : 0 < blen -> Forall (fun sg => 0 <= sg.1 < 2 ^ 64 /\ 0 <= sg.2) l ->
  zsum (map sd_len (segments blen l)) = zsum (map snd l) /\
  Forall (fun d => 0 < sd_len d <= blen) (segments blen l).
Proof.
  intros Hb Hl. induction Hl as [|[a n] l [Ha Hn] Hl [IHs IHf]]; [done|].
  destruct (pieces_sum blen a n Hb Ha Hn) as [Hs Hf].
  unfold segments in *. cbn [map concat]. rewrite map_app, zsum_app, IHs, Hs.
  split; [done|]. by apply Forall_app.
Qed.

(** ** One entry *)

Abbreviation blank := (mk_sw_desc 0 0).

Lemma segments_addr blen l : Forall (fun d => 0 <= sd_addr d < 2 ^ 64) (segments blen l).
Proof.
  unfold segments. apply Forall_concat, Forall_map, Forall_true. intros sg.
  unfold pieces. apply Forall_map, Forall_true. intros k. apply u64_range.
Qed.

Lemma zupdate_append pre m x :
  zupdate (pre ++ replicate (S m) blank) (Z.of_nat (length pre)) (fun _ => x) =
  Some ((pre ++ [x]) ++ replicate m blank).
Proof.
  unfold zupdate, zlookup. destruct (Z.ltb_spec (Z.of_nat (length pre)) 0); [lia|].
  cbn [replicate]. rewrite Nat2Z.id, list_lookup_middle by done. f_equal. rewrite insert_app_r_alt by lia. rewrite Nat.sub_diag. cbn.
  by rewrite <-app_assoc.
Qed.

Lemma split_entry_pieces blen addr len pre m fuel :
  0 < blen < 2 ^ 32 -> 0 <= addr < 2 ^ 64 -> 0 <= len < 2 ^ 32 ->
  (length (pieces blen (addr, len)) <= m)%nat ->
  (length (pieces blen (addr, len)) < fuel)%nat ->
  split_entry blen fuel addr len (pre ++ replicate m blank) (Z.of_nat (length pre)) =
  Some ((pre ++ pieces blen (addr, len)) ++ replicate (m - length (pieces blen (addr, len))) blank,
        Z.of_nat (length (pre ++ pieces blen (addr, len)))).
Proof.
  intros Hb. revert addr len pre m. induction fuel as [|fuel IH]; intros addr len pre m Ha Hl Hm Hf; [lia|].
  cbn [split_entry]. destruct (Z.eqb_spec len 0) as [->|Hne].
  { rewrite pieces_0, app_nil_r by lia. cbn. by rewrite Nat.sub_0_r. }
  destruct (Z.ltb_spec blen len) as [Hlt|Hge].
  - rewrite pieces_step in * by lia. cbn [length] in *. destruct m as [|m]; [lia|].
    rewrite zupdate_append. rewrite u32_small by lia.
    replace (Z.of_nat (length pre) + 1) with (Z.of_nat (length (pre ++ [mk_sw_desc addr blen])))
      by (rewrite length_app; cbn; lia).
    rewrite IH; [|apply u64_range|lia|lia|lia].
    rewrite <-!app_assoc. cbn [app]. done.
  - rewrite pieces_last in * by lia. cbn [length] in *. destruct m as [|m]; [lia|].
    rewrite zupdate_append.
    replace (Z.of_nat (length pre) + 1) with (Z.of_nat (length (pre ++ [mk_sw_desc addr len])))
      by (rewrite length_app; cbn; lia).
    destruct fuel as [|fuel]; [lia|]. cbn [split_entry Z.eqb]. by rewrite Nat.sub_succ, Nat.sub_0_r.
Qed.

Lemma split_fuel_enough blen sg : 0 < blen -> 0 <= sg.2 ->
  (length (pieces blen sg) < split_fuel blen sg.2)%nat.
Proof.
  intros Hb Hl. pose proof (length_pieces blen sg Hb Hl) as Hlen. unfold split_fuel.
  unfold ceil_div in Hlen. pose proof (Z.div_pos sg.2 blen).
  assert ((sg.2 + blen - 1) `div` blen <= sg.2 `div` blen + 1); [|lia].
  replace (sg.2 `div` blen + 1) with ((sg.2 + 1 * blen) `div` blen) by (by rewrite Z.div_add by lia).
  apply Z.div_le_mono; lia.
Qed.

(** ** The loops *)

(** A table whose first [nents] entries exist and are in range. *)
Record sgl_ok (blen : Z) (g : sg_table) : Prop := {
  sgl_nents : 0 <= sg_nents g <= Z.of_nat (length (sg_sgl g));
  sgl_entry : Forall (fun sg => 0 <= sg.1 < 2 ^ 64 /\ 0 <= sg.2 /\ sg.2 + blen <= 2 ^ 32) (sg_sgl g)
}.

Definition entries (g : sg_table) : list (Z * Z) := take (Z.to_nat (sg_nents g)) (sg_sgl g).

(** What the first loop counts on top of [nents]. *)
Definition extra_of (blen : Z) (l : list (Z * Z)) : Z :=
  zsum (map (fun sg => if blen <? sg.2 then ceil_div sg.2 blen else 0) l).

Lemma extra_of_nonneg blen l : 0 < blen -> Forall (fun sg => 0 <= sg.2) l -> 0 <= extra_of blen l.
Proof.
  intros Hb Hl. unfold extra_of. induction Hl as [|sg l Hs Hl IH]; cbn; [lia|].
  pose proof (ceil_div_pos sg.2 blen Hb Hs). destruct (blen <? sg.2); unfold zsum in *; lia.
Qed.

Lemma segments_app blen l1 l2 : segments blen (l1 ++ l2) = segments blen l1 ++ segments blen l2.
Proof. unfold segments. by rewrite map_app, concat_app. Qed.

Lemma segments_one blen sg : segments blen [sg] = pieces blen sg.
Proof. unfold segments. cbn. apply app_nil_r. Qed.

(** The array that the driver allocates is long enough. *)
Lemma segments_bound blen l : 0 < blen -> Forall (fun sg => 0 <= sg.2) l ->
  Z.of_nat (length (segments blen l)) <= Z.of_nat (length l) + extra_of blen l.
Proof.
  intros Hb Hl. induction Hl as [|sg l Hs Hl IH]; [done|].
  change (sg :: l) with ([sg] ++ l). rewrite segments_app, segments_one, !length_app.
  pose proof (length_pieces blen sg Hb Hs) as Hp.
  unfold extra_of in *. rewrite map_app, zsum_app. cbn [map length zsum foldr].
  destruct (Z.ltb_spec blen sg.2); [lia|].
  assert (ceil_div sg.2 blen <= 1); [|lia].
  destruct (decide (sg.2 = 0)) as [->|]; [rewrite ceil_div_0; lia|rewrite ceil_div_last; lia].
Qed.

Lemma take_snoc {A} (l : list A) i x : l !! i = Some x -> take (S i) l = take i l ++ [x].
Proof. apply take_S_r. Qed.

Section loops.
Context `{Env} `{Callback}.
Variables (g : sg_table).
Hypothesis Hblen : 0 < desc_blen_max < 2 ^ 32.
Hypothesis Hg : sgl_ok desc_blen_max g.

Lemma sgl_lookup i : 0 <= i < sg_nents g ->
  exists addr len, zlookup (sg_sgl g) i = Some (addr, len) /\ sg_sgl g !! Z.to_nat i = Some (addr, len) /\
    0 <= addr < 2 ^ 64 /\ 0 <= len /\ len + desc_blen_max <= 2 ^ 32.
Proof.
  intros Hi. destruct Hg as [Hn Hall]. destruct (zlookup_in (sg_sgl g) i) as [[a l] Hl]; [lia|].
  exists a, l. split; [done|]. unfold zlookup in Hl. destruct (i <? 0); [done|].
  split; [done|]. rewrite Forall_lookup in Hall. exact (Hall _ _ Hl).
Qed.

Lemma entries_nonneg i : Forall (fun sg => 0 <= sg.2) (take i (sg_sgl g)).
Proof.
  destruct Hg as [_ Hall]. apply Forall_take. eapply Forall_impl; [exact Hall|]. cbn. lia.
Qed.

Lemma extra_of_take_le i : (i <= Z.to_nat (sg_nents g))%nat ->
  0 <= extra_of desc_blen_max (take i (sg_sgl g)) <= extra_of desc_blen_max (entries g).
Proof.
  intros Hi. split; [apply extra_of_nonneg; [lia|apply entries_nonneg]|].
  unfold entries. replace (Z.to_nat (sg_nents g)) with (i + (Z.to_nat (sg_nents g) - i))%nat by lia.
  rewrite <-take_take_drop. unfold extra_of at 2. rewrite map_app, zsum_app.
  assert (0 <= extra_of desc_blen_max (take (Z.to_nat (sg_nents g) - i) (drop i (sg_sgl g)))) as Hp;
    [|unfold extra_of in *; lia].
  apply extra_of_nonneg; [lia|]. apply Forall_take, Forall_drop.
  pose proof (entries_nonneg (length (sg_sgl g))) as He. by rewrite firstn_all in He.
Qed.

Lemma extra_of_step i a l : 0 <= i -> sg_sgl g !! Z.to_nat i = Some (a, l) ->
  extra_of desc_blen_max (take (Z.to_nat (i + 1)) (sg_sgl g)) =
  extra_of desc_blen_max (take (Z.to_nat i) (sg_sgl g)) +
  (if desc_blen_max <? l then ceil_div l desc_blen_max else 0).
Proof.
  intros Hi Hl. replace (Z.to_nat (i + 1)) with (S (Z.to_nat i)) by lia.
  rewrite (take_snoc _ _ _ Hl). unfold extra_of. rewrite map_app, zsum_app. cbn. lia.
Qed.

Lemma wp_count_extra s (Q : Z -> est -> Prop) :
  extra_of desc_blen_max (entries g) < 2 ^ 31 ->
  Q (extra_of desc_blen_max (entries g)) s ->
  wp (count_extra (sg_sgl g) (sg_nents g)) Q s.
Proof.
  intros Hsm HQ. eapply wp_mono.
  - apply (wp_foldM_zrange _ _ (fun i extra s' => s' = s /\
      extra = extra_of desc_blen_max (take (Z.to_nat i) (sg_sgl g)))); [done|].
    intros i extra s' Hi [-> Hex].
    destruct (sgl_lookup i Hi) as (a & l & Hl & Hl' & Ha & Hl0 & Hlm).
    apply wp_bind. eapply wp_deref; [exact Hl|]. cbv beta iota.
    rewrite (extra_of_step i a l) by (done || lia). rewrite <-Hex.
    pose proof (extra_of_take_le (Z.to_nat (i + 1)) ltac:(lia)) as Hle.
    rewrite (extra_of_step i a l) in Hle by (done || lia). rewrite <-Hex in Hle.
    destruct (Z.ltb_spec desc_blen_max l).
    + apply wp_bind, wp_guard_ub; [rewrite negb_true_iff, Z.eqb_neq; lia|]. apply wp_ret.
      split; [done|]. unfold ceil_div in *.
      assert (u32 (u32 (l + desc_blen_max) - 1) = l + desc_blen_max - 1) as ->.
      { unfold u32. rewrite Zminus_mod_idemp_l. apply Z.mod_small. lia. }
      pose proof (extra_of_take_le (Z.to_nat i) ltac:(lia)). rewrite s32_small; lia.
    + apply wp_ret. split; [done|lia].
  - cbv beta. intros extra s' [-> ->]. destruct Hg as [Hn _]. rewrite Z.max_r by lia. exact HQ.
Qed.

(** The request after the first [i] entries; [cap] is the size of its array. *)
Definition req_filled (q0 : xdma_request_cb) (cap : Z) (i : Z) : xdma_request_cb :=
  let l := take (Z.to_nat i) (sg_sgl g) in
  let segs := segments desc_blen_max l in
  set_r_sdesc (segs ++ replicate (Z.to_nat cap - length segs) blank)
    (set_r_total_len (u32 (zsum (map snd l))) q0).

Lemma segments_take_bound i : (i <= Z.to_nat (sg_nents g))%nat ->
  Z.of_nat (length (segments desc_blen_max (take i (sg_sgl g)))) <=
  sg_nents g + extra_of desc_blen_max (entries g).
Proof.
  intros Hi. pose proof (segments_bound _ _ (proj1 Hblen) (entries_nonneg i)) as Hs.
  pose proof (extra_of_take_le i Hi). destruct Hg as [Hn _]. rewrite length_take in Hs. lia.
Qed.

Definition with_req (r : Z) (q : xdma_request_cb) (s : est) : est :=
  set_s_reqs (<[r := q]> (s_reqs s)) s.

Lemma with_req_upd r q s f (Q : unit -> est -> Prop) :
  Q tt (with_req r (f q) s) -> wp (upd_req r f) Q (with_req r q s).
Proof.
  intros HQ. eapply wp_upd_req; [apply lookup_insert_eq|].
  unfold with_req, set_s_reqs in *. cbn. by rewrite insert_insert_eq.
Qed.

Lemma wp_fill_sdesc r q0 s (Q : Z -> est -> Prop) :
  let cap := sg_nents g + extra_of desc_blen_max (entries g) in
  r_total_len q0 = 0 -> r_sdesc q0 = replicate (Z.to_nat cap) blank ->
  Q (Z.of_nat (length (segments desc_blen_max (entries g))))
    (with_req r (req_filled q0 cap (sg_nents g)) s) ->
  wp (fill_sdesc (sg_sgl g) (sg_nents g) r) Q (with_req r q0 s).
Proof.
  intros cap Hlen Hsd HQ. eapply wp_mono.
  - apply (wp_foldM_zrange _ _ (fun i j s' =>
      j = Z.of_nat (length (segments desc_blen_max (take (Z.to_nat i) (sg_sgl g)))) /\
      s' = with_req r (req_filled q0 cap i) s)).
    { split; [done|]. f_equal. unfold req_filled. cbn. rewrite Nat.sub_0_r, <-Hsd.
      destruct q0. cbn in *. by subst. }
    intros i j s' Hi [-> ->].
    destruct (sgl_lookup i Hi) as (a & l & Hl & Hl' & Ha & Hl0 & Hlm).
    apply wp_bind. eapply wp_deref; [exact Hl|]. cbv beta iota.
    apply wp_bind, with_req_upd, wp_bind. eapply wp_get_req; [apply lookup_insert_eq|].
    pose proof (segments_take_bound (Z.to_nat (i + 1)) ltac:(lia)) as Hcap. fold cap in Hcap.
    replace (Z.to_nat (i + 1)) with (S (Z.to_nat i)) in * by lia.
    rewrite (take_snoc _ _ _ Hl') in *. rewrite segments_app, segments_one in *.
    unfold req_filled. replace (Z.to_nat (i + 1)) with (S (Z.to_nat i)) by lia.
    rewrite (take_snoc _ _ _ Hl'). rewrite segments_app, segments_one.
    set (segs := segments desc_blen_max (take (Z.to_nat i) (sg_sgl g))) in *.
    rewrite length_app in Hcap. cbn [r_sdesc set_r_sdesc set_r_total_len].
    apply wp_bind. eapply wp_deref.
    { apply split_entry_pieces; [lia|done|lia|lia|]. by apply (split_fuel_enough _ (a, l)); cbn; lia. }
    cbv beta iota. apply wp_bind, with_req_upd, wp_ret. split; [done|]. f_equal.
    unfold set_r_sdesc, set_r_total_len. cbn. f_equal.
    + rewrite map_app, zsum_app. cbn. unfold u32. rewrite Zplus_mod_idemp_l. f_equal. lia.
    + f_equal. f_equal. rewrite length_app. lia.
  - cbv beta. intros j s' [-> ->]. destruct Hg as [Hn _]. rewrite Z.max_r by lia. exact HQ.
Qed.
End loops.

(** ** xdma_init_request *)

Section init_request.
Context `{Env} `{Callback}.

(** [size] of [xdma_request_alloc] for this table, and its answer to [kzalloc]. *)
Definition max_sdesc (g : sg_table) : Z := sg_nents g + extra_of desc_blen_max (entries g).
Definition req_size (g : sg_table) : Z := SIZEOF_REQ + max_sdesc g * SW_DESC_SIZE.

Record request_ok (s : est) (gid : Z) (g : sg_table) : Prop := {
  rk_blen : 0 < desc_blen_max < 2 ^ 32;
  rk_sgt : s_sgts s !! gid = Some g;
  rk_sgl : sgl_ok desc_blen_max g;
  rk_size : 0 <= SIZEOF_REQ /\ req_size g < 2 ^ 31
}.

(** The request that the driver builds for the table [g]. *)
Definition built_request (gid ep : Z) (g : sg_table) (q : xdma_request_cb) : Prop :=
  let segs := segments desc_blen_max (entries g) in
  r_sgt q = gid /\ r_ep_addr q = ep /\ r_sw_desc_idx q = 0 /\
  r_total_len q = u32 (zsum (map snd (entries g))) /\
  r_sw_desc_cnt q = Z.of_nat (length segs) /\
  take (length segs) (r_sdesc q) = segs /\
  zsum (map sd_len segs) = zsum (map snd (entries g)) /\
  Forall (fun d => 0 < sd_len d <= desc_blen_max) segs /\
  Z.of_nat (length (r_sdesc q)) = max_sdesc g /\
  Forall (fun d => 0 <= sd_addr d < 2 ^ 64 /\ 0 <= sd_len d < 2 ^ 32) (r_sdesc q).

Lemma max_sdesc_nonneg s gid g : request_ok s gid g -> 0 <= max_sdesc g < 2 ^ 27.
Proof.
  intros [Hb _ Hg [Hs Hsz]]. unfold req_size, SW_DESC_SIZE in Hsz. split; [|lia].
  unfold max_sdesc. pose proof (extra_of_take_le g Hb Hg 0 ltac:(lia)). destruct Hg as [Hn _]. lia.
Qed.

Lemma wp_init_request s gid ep g (Q : option Z -> est -> Prop) :
  request_ok s gid g ->
  (kernel (s_log s) "kzalloc" [req_size g] <> 0 \/
   kernel (EvCall "kzalloc" [req_size g] 0 :: s_log s) "vmalloc" [req_size g] <> 0) ->
  (forall r s' q, s_reqs s' !! r = Some q -> built_request gid ep g q ->
     s_xfers s' !! tfer r 0 = Some zero_xfer -> s_xfers s' !! tfer r 1 = Some zero_xfer ->
     s_eng s' = s_eng s -> s_xdev s' = s_xdev s -> s_sgts s' = s_sgts s ->
     s_reqs s' = <[r := q]> (s_reqs s) -> s_cbs s' = s_cbs s -> Q (Some r) s') ->
  wp (xdma_init_request gid ep) Q s.
Proof.
  intros Hok Halloc HQ. pose proof (max_sdesc_nonneg _ _ _ Hok) as Hmax. destruct Hok as [Hb Hsg Hg [Hs Hsz]].
  unfold xdma_init_request. apply wp_bind. eapply wp_get_sgt; [exact Hsg|].
  pose proof (extra_of_take_le g Hb Hg 0 ltac:(lia)) as He.
  assert (0 <= sg_nents g) as Hn0 by (destruct Hg; lia).
  apply wp_bind, (wp_count_extra g Hb Hg); [unfold max_sdesc in Hmax; lia|].
  fold (max_sdesc g). rewrite (s32_small (max_sdesc g)), (u32_small (max_sdesc g)) by lia.
  apply wp_bind. unfold xdma_request_alloc.
  assert (u32 (SIZEOF_REQ + max_sdesc g * SW_DESC_SIZE) = req_size g) as ->.
  { apply u32_small. unfold req_size, SW_DESC_SIZE in *. lia. }
  apply wp_bind, wp_kcall. apply wp_bind.
  apply (wp_mono _ (fun r s' => r <> 0 /\ exists lg, s' = set_log lg s)).
  { destruct (Z.eqb_spec (kernel (s_log s) "kzalloc" [req_size g]) 0) as [Hz|Hz].
    - apply wp_kcall. cbn. rewrite Hz. destruct Halloc as [Ha|Ha]; [done|]. split; [done|]. by eexists.
    - apply wp_ret. split; [done|]. by eexists. }
  intros r s1 [Hr [lg ->]]. destruct (Z.eqb_spec r 0) as [|_]; [done|].
  apply wp_bind, wp_guard_ub.
  { unfold req_size, SW_DESC_SIZE in *. apply Z.leb_le. lia. }
  apply wp_bind, wp_modify, wp_ret. cbv beta iota.
  assert ((req_size g - SIZEOF_REQ) `div` SW_DESC_SIZE = max_sdesc g) as ->.
  { unfold req_size. rewrite Z.add_simpl_l. by apply Z.div_mul. }
  match goal with |- wp _ _ ?st =>
    assert (st = with_req r (zero_req (max_sdesc g)) (set_s_xfers
      (<[tfer r 0 := zero_xfer]> (<[tfer r 1 := zero_xfer]> (s_xfers s))) (set_log lg s))) as -> by done end.
  apply wp_bind, with_req_upd, wp_bind, with_req_upd, wp_bind.
  apply (wp_fill_sdesc g Hb Hg); [done|done|]. fold (max_sdesc g).
  pose proof (segments_take_bound g Hb Hg (Z.to_nat (sg_nents g)) ltac:(lia)) as Hcap.
  fold (entries g) (max_sdesc g) in Hcap.
  destruct (Z.ltb_spec (max_sdesc g) (Z.of_nat (length (segments desc_blen_max (entries g))))); [lia|].
  apply wp_bind, with_req_upd, wp_ret. eapply HQ; [apply lookup_insert_eq| | | |done|done|done|done|done].
  - destruct (segments_sum desc_blen_max (entries g)) as [Hsum Hall].
    { lia. } { destruct Hg as [_ Hall]. apply Forall_take. eapply Forall_impl; [exact Hall|]. cbn. lia. }
    unfold built_request, req_filled. cbn. fold (entries g). split_and!; try done.
    + apply take_app_length.
    + rewrite length_app, length_replicate. lia.
    + apply Forall_app. split.
      * eapply Forall_impl; [apply Forall_and; split; [apply segments_addr|exact Hall]|]. cbn. lia.
      * apply Forall_replicate. cbn. lia.
  - cbn. apply lookup_insert_eq.
  - cbn. rewrite lookup_insert_ne by (unfold tfer; lia). apply lookup_insert_eq.
Qed.

(** C12: [xdma_init_request] succeeds when memory is available: it never writes
    outside the array it allocated, its check [j > max] never fires, and the
    request lists exactly the pieces of the table's entries, each at most
    [desc_blen_max] bytes, in order, with the total length. *)
Theorem init_request_segments s gid ep g :
  request_ok s gid g ->
  kernel (s_log s) "kzalloc" [req_size g] <> 0 \/
  kernel (EvCall "kzalloc" [req_size g] 0 :: s_log s) "vmalloc" [req_size g] <> 0 ->
  exists r s' q, xdma_init_request gid ep s = Some (Some r, s') /\
    s_reqs s' !! r = Some q /\ built_request gid ep g q.
Proof.
  intros Hok Ha.
  assert (wp (xdma_init_request gid ep) (fun o s' => exists r q, o = Some r /\
    s_reqs s' !! r = Some q /\ built_request gid ep g q) s) as Hwp.
  { apply (wp_init_request s gid ep g); [done|done|]. intros r s' q Hq Hbq _ _ _ _ _ _. by exists r, q. }
  apply wp_iff in Hwp as (o & s' & Hrun & r & q & -> & Hq & Hbq). by exists r, s', q.
Qed.

Lemma wp_init_request_oom s gid ep g :
  request_ok s gid g ->
  kernel (s_log s) "kzalloc" [req_size g] = 0 ->
  kernel (EvCall "kzalloc" [req_size g] 0 :: s_log s) "vmalloc" [req_size g] = 0 ->
  wp (xdma_init_request gid ep) (fun o s' => o = None /\ exists lg, s' = set_log lg s) s.
Proof.
  intros Hok Hk Hv. pose proof (max_sdesc_nonneg _ _ _ Hok) as Hmax. destruct Hok as [Hb Hsg Hg [Hs Hsz]].
  unfold xdma_init_request. apply wp_bind. eapply wp_get_sgt; [exact Hsg|].
  pose proof (extra_of_take_le g Hb Hg 0 ltac:(lia)) as He.
  assert (0 <= sg_nents g) as Hn0 by (destruct Hg; lia).
  apply wp_bind, (wp_count_extra g Hb Hg); [unfold max_sdesc in Hmax; lia|].
  fold (max_sdesc g). rewrite (s32_small (max_sdesc g)), (u32_small (max_sdesc g)) by lia.
  apply wp_bind. unfold xdma_request_alloc.
  assert (u32 (SIZEOF_REQ + max_sdesc g * SW_DESC_SIZE) = req_size g) as ->.
  { apply u32_small. unfold req_size, SW_DESC_SIZE in *. lia. }
  apply wp_bind, wp_kcall. rewrite Hk. cbn [Z.eqb]. apply wp_bind, wp_kcall.
  cbn [s_log set_log est_log]. rewrite Hv. cbn [Z.eqb]. apply wp_ret, wp_ret. split; [done|]. by eexists.
Qed.

(** Both allocations fail: NULL, and no request is left behind. *)
Theorem init_request_oom s gid ep g :
  request_ok s gid g ->
  kernel (s_log s) "kzalloc" [req_size g] = 0 ->
  kernel (EvCall "kzalloc" [req_size g] 0 :: s_log s) "vmalloc" [req_size g] = 0 ->
  exists lg, xdma_init_request gid ep s = Some (None, set_log lg s).
Proof.
  intros Hok Hk Hv. pose proof (wp_init_request_oom s gid ep g Hok Hk Hv) as Hwp.
  apply wp_iff in Hwp as (o & s' & Hrun & -> & lg & ->). by exists lg.
Qed.
End init_request.

(** ** Witnesses *)

Definition alloc_env : Env := {|
  io_read _ _ := 0;
  kernel _ f _ := if String.eqb f "kzalloc" then 5 else 0;
  poll_mode := false;
  interrupt_mode := 0;
  enable_st_c2h_credit := false;
  desc_blen_max := 8;
  HZ := 250;
  SIZEOF_REQ := 400
|}.

Definition oom_env : Env := {|
  io_read _ _ := 0;
  kernel _ _ _ := 0;
  poll_mode := false;
  interrupt_mode := 0;
  enable_st_c2h_credit := false;
  desc_blen_max := 8;
  HZ := 250;
  SIZEOF_REQ := 400
|}.

Definition demo_sgt : sg_table := mk_sgt [(0x4000, 8); (0x6000, 4); (0x5000, 20)] 3 3.
Definition sgt_state : est :=
  set_s_sgts {[ 7 := demo_sgt ]} (demo_state DMA_TO_DEVICE 8).

Lemma demo_request_ok E : @desc_blen_max E = 8 -> @SIZEOF_REQ E = 400 -> @request_ok E sgt_state 7 demo_sgt.
Proof.
  intros Hb Hs. split; unfold req_size, max_sdesc; rewrite ?Hb, ?Hs.
  - lia.
  - reflexivity.
  - split; [cbn; lia|]. repeat constructor; cbn; lia.
  - by vm_compute.
Qed.

Lemma init_request_segments_witness :
  exists r s' q, @xdma_init_request alloc_env 7 0x100 sgt_state = Some (Some r, s') /\
    s_reqs s' !! r = Some q /\ @built_request alloc_env 7 0x100 demo_sgt q.
Proof.
  apply (@init_request_segments alloc_env sgt_state 7 0x100 demo_sgt).
  - by apply demo_request_ok.
  - by left.
Defined.

Lemma init_request_oom_witness :
  exists lg, @xdma_init_request oom_env 7 0x100 sgt_state = Some (None, set_log lg sgt_state).
Proof.
  apply (@init_request_oom oom_env sgt_state 7 0x100 demo_sgt); [by apply demo_request_ok|done|done].
Defined.
