(* ===== verification/QueueProps.v ===== *)
(** * QueueProps: starting, stopping and queueing

    The register programs of [engine_start] and [xdma_engine_stop], and the
    behaviour of [transfer_queue] and [transfer_abort] on every branch. *)

From S2P Require Import Prelude Hw State Desc Engine Service Request Fixtures ServiceSpec.

(** The value last written to a register. *)
Fixpoint last_write (lg : list event) (a : Z) : option Z :=
  match lg with
  | [] => None
  | EvWrite b v :: lg => if a =? b then Some v else last_write lg a
  | _ :: lg => last_write lg a
  end.

(** The number of descriptors after the first one that the hardware may fetch
    with it: they belong to the transfer and lie in the same aligned block of
    64 descriptors of 32 bytes. *)
Definition adjacent_to (bus num adj : Z) : Prop :=
  forall k, 0 <= k -> (k <= adj <-> k = 0 \/ (k < num /\ (bus `div` 32 + k) `div` 64 = (bus `div` 32) `div` 64)).

Lemma next_adj_adjacent bus num : 0 <= bus ->
  adjacent_to bus num (xdma_get_next_adj num (PCI_DMA_L bus)).
Proof.
  intros Hb k Hk. unfold xdma_get_next_adj. rewrite next_index_block.
  assert (block_index (PCI_DMA_L bus) = (bus `div` 32) `mod` 64) as ->.
  { unfold block_index, PCI_DMA_L. change 0xffffffff with (Z.ones 32). rewrite Z.land_ones by lia.
    change (2 ^ 32) with (32 * (64 * 2097152)). rewrite Z.rem_mul_r by lia.
    rewrite (Z.add_comm (bus `mod` 32)), (Z.mul_comm 32), Z.div_add_l by lia.
    rewrite (Z.div_small (bus `mod` 32)) by (apply Z.mod_pos_bound; lia). rewrite Z.add_0_r.
    rewrite Z.rem_mul_r by lia. rewrite (Z.mul_comm 64), Z.mod_add by lia. by rewrite Z.mod_mod. }
  set (d := bus `div` 32). assert (0 <= d `mod` 64 < 64) by (apply Z.mod_pos_bound; lia).
  pose proof (Z.div_mod d 64 ltac:(lia)) as Hd.
  assert ((d + k) `div` 64 = d `div` 64 <-> k <= 63 - d `mod` 64) as ->.
  { split; intros Hq.
    - pose proof (Z.div_mod (d + k) 64 ltac:(lia)). assert (0 <= (d + k) `mod` 64 < 64) by (apply Z.mod_pos_bound; lia). lia.
    - symmetry. apply (Z.div_unique _ _ _ (d `mod` 64 + k)); lia. }
  unfold XDMA_MAX_ADJ_BLOCK_SIZE. destruct (Z.leb_spec num 1); lia.
Qed.

Section programs.
Context `{Env} `{Callback}.

(** The RUN bit. *)
Lemma start_word_run b : has_bits (start_word b) XDMA_CTRL_RUN_STOP = true.
Proof. unfold start_word. by destruct poll_mode, b. Qed.

Lemma stop_word_run : has_bits stop_word XDMA_CTRL_RUN_STOP = false.
Proof. unfold stop_word. by destruct poll_mode. Qed.

(** The accesses of a start, in the order in which the device sees them. *)
Definition start_program (e : xdma_engine) (lo hi adj control v1 v2 : Z) : list event :=
  (if credit_mode e then [EvWrite (sgdma_reg e "credits") (u32 (e_desc_used e))] else []) ++
  [EvWrite (sgdma_reg e "first_desc_lo") lo; EvWrite (sgdma_reg e "first_desc_hi") hi;
   EvWrite (sgdma_reg e "first_desc_adjacent") adj] ++
  (match e_xdma_perf e with
   | Some _ => [EvWrite (reg e "interrupt_enable_mask") perf_mask]
   | None => []
   end) ++
  [EvWrite (reg e "control") control; EvRead (reg e "status") v1; EvRead (reg e "status") v2].

(** C26: [engine_start] on an idle engine with a transfer at the head of its
    queue performs exactly these accesses, in this order: on a streaming C2H
    engine in credit mode the credits, then the two halves of the bus address of
    the transfer's descriptors, then the greatest adjacent count that stays in
    the transfer and in the block of 64 descriptors of the first one, during a
    performance run the interrupt mask, then the control word with the RUN bit,
    and two reads of the status. The engine is then marked running with the
    status read last, its count of descriptors starts at 0, and a pending
    shutdown request is forgotten; nothing else changes. *)
Theorem engine_start_program s t q x :
  e_running (s_eng s) = false -> queue s = t :: q -> s_xfers s !! t = Some x ->
  0 <= x_desc_bus x < 2 ^ 64 ->
  let e := s_eng s in
  exists s' lo hi adj v1 v2,
    engine_start s = Some (Some t, s') /\
    s_log s' = rev (start_program e lo hi adj (start_word (e_non_incr_addr e)) v1 v2) ++ s_log s /\
    x_desc_bus x = lo + hi * 2 ^ 32 /\ 0 <= lo < 2 ^ 32 /\ adjacent_to (x_desc_bus x) (x_desc_adjacent x) adj /\
    has_bits (start_word (e_non_incr_addr e)) XDMA_CTRL_RUN_STOP = true /\
    has_bits (start_word (e_non_incr_addr e)) XDMA_CTRL_NON_INCR_ADDR = e_non_incr_addr e /\
    s' = set_log (s_log s') (set_s_eng (set_e_running true (set_e_status v2
           (set_e_desc_dequeued 0 (set_e_shutdown ENGINE_SHUTDOWN_NONE e)))) s).
Proof.
  intros Hrun Hq Hx Hbus e.
  destruct (engine_start_eq s t q x Hrun Hq Hx) as (v1 & v2 & _ & Hst).
  eexists _, (PCI_DMA_L (x_desc_bus x)), (PCI_DMA_H (x_desc_bus x)), _, v1, v2.
  split; [exact Hst|]. split.
  { cbn. unfold start_log, start_program. fold e. by destruct (credit_mode e), (e_xdma_perf e). }
  split; [by rewrite PCI_DMA_split|]. split.
  { unfold PCI_DMA_L. change 0xffffffff with (Z.ones 32). rewrite Z.land_ones by lia. apply Z.mod_pos_bound. lia. }
  split; [apply next_adj_adjacent; lia|]. split; [apply start_word_run|]. split; [|done].
  unfold start_word. by destruct poll_mode, (e_non_incr_addr e).
Qed.

(** [xdma_engine_stop] clears the RUN bit, and in credit mode takes the
    credits back first; the engine is marked idle and nothing else changes. *)
Theorem xdma_engine_stop_program s :
  let e := s_eng s in
  exists s', xdma_engine_stop s = Some (0, s') /\
    s' = set_log (s_log s') (set_s_eng (set_e_running false e) s) /\
    s_log s' = EvWrite (reg e "control") stop_word ::
               (if credit_mode e then [EvWrite (sgdma_reg e "credits") 0] else []) ++ s_log s /\
    has_bits stop_word XDMA_CTRL_RUN_STOP = false.
Proof.
  intros e. eexists. split; [apply xdma_engine_stop_eq|]. split_and!; try done. apply stop_word_run.
Qed.

(** ** transfer_queue *)

(** The engine after a transfer was queued; a start begins to count descriptors
    at 0 and is shut down no more. *)
Definition queued_engine `{Env} (t : Z) (e e' : xdma_engine) : Prop :=
  exists cpu sh dq st,
    (e_running e = false -> dq = 0 /\ sh = ENGINE_SHUTDOWN_NONE) /\ seen e st /\
    e' = set_e_transfer_list (e_transfer_list e ++ [t]) (set_e_running true (set_e_status st
           (set_e_shutdown sh (set_e_desc_dequeued dq (set_e_prev_cpu cpu e))))).

Lemma wp_transfer_queue s t x (Q : Z -> est -> Prop) :
  s_xfers s !! t = Some x -> queue_ok s ->
  (x_desc_num x = 0 -> Q (- EINVAL) s) ->
  (x_desc_num x <> 0 -> xdma_device_flag_check (s_xdev s) XDEV_FLAG_OFFLINE = true -> Q (- EBUSY) s) ->
  (x_desc_num x <> 0 -> xdma_device_flag_check (s_xdev s) XDEV_FLAG_OFFLINE = false ->
   has_bits (e_shutdown (s_eng s)) ENGINE_SHUTDOWN_REQUEST = true ->
   forall cpu lg, Q (- EBUSY) (set_log lg (set_s_eng (set_e_prev_cpu cpu (s_eng s)) s))) ->
  (x_desc_num x <> 0 -> xdma_device_flag_check (s_xdev s) XDEV_FLAG_OFFLINE = false ->
   has_bits (e_shutdown (s_eng s)) ENGINE_SHUTDOWN_REQUEST = false ->
   forall e' lg, queued_engine t (s_eng s) e' ->
     Q 0 (set_log lg (set_s_eng e'
            (set_s_xfers (<[t := set_x_state TRANSFER_STATE_SUBMITTED x]> (s_xfers s)) s)))) ->
  wp (transfer_queue t) Q s.
Proof.
  intros Hx [Hnd Hlive] Q1 Q2 Q3 Q4. unfold transfer_queue. apply wp_bind. eapply wp_get_xfer; [done|].
  destruct (Z.eqb_spec (x_desc_num x) 0); [by apply wp_ret, Q1|].
  apply wp_bind, wp_get. destruct (xdma_device_flag_check _ _) eqn:Hoff; [by apply wp_ret, Q2|].
  apply wp_bind, wp_kcall, wp_bind, wp_upd_eng, wp_bind, wp_get_eng.
  change (e_shutdown (s_eng (set_s_eng _ _))) with (e_shutdown (s_eng s)).
  destruct (has_bits (e_shutdown (s_eng s)) _) eqn:Hsh; [by apply wp_ret, Q3|].
  apply wp_bind. eapply wp_upd_xfer; [exact Hx|]. apply wp_bind, wp_upd_eng.
  match goal with |- wp _ _ ?st => set (s1 := st) end.
  match goal with |- context [negb (e_running ?e)] => change (e_running e) with (e_running (s_eng s)) end.
  destruct (e_running (s_eng s)) eqn:Hrun.
  - apply wp_bind, wp_ret, wp_ret. apply (Q4 n eq_refl eq_refl (s_eng s1) (s_log s1)).
    exists (kernel (s_log s) "get_cpu" []), (e_shutdown (s_eng s)), (e_desc_dequeued (s_eng s)), (e_status (s_eng s)).
    split; [by rewrite Hrun|]. split; [by left|]. subst s1. clear - Hrun. destruct s as [? [] ? ? ? ? ? ?]. cbn in *. by subst.
  - apply wp_bind, wp_bind.
    destruct (queue s1) as [|h q] eqn:Hq1; [by cbn in Hq1; destruct (queue s)|].
    assert (exists y, s_xfers s1 !! h = Some y) as [y Hy].
    { cbn in Hq1 |- *. destruct (decide (h = t)) as [->|Hne]; [rewrite lookup_insert_eq; eauto|].
      rewrite lookup_insert_ne by done. destruct (Hlive h) as (y & ? & _); [|eauto].
      assert (h ∈ queue s ++ [t]) as Hin by (rewrite Hq1; left).
      apply elem_of_app in Hin as [|Hin]; [done|]. by apply list_elem_of_singleton in Hin. }
    destruct (engine_start_eq s1 h q y Hrun Hq1 Hy) as (v1 & v2 & [lg2 Hv2] & Hst).
    unfold wp at 1. rewrite Hst. apply wp_ret, wp_ret. apply (Q4 n eq_refl eq_refl (started v2 (s_eng s1))).
    exists (kernel (s_log s) "get_cpu" []), ENGINE_SHUTDOWN_NONE, 0, v2.
    split; [done|]. split; [right; exists lg2, "status"%string; by split; [left|]|]. subst s1. clear - s. by destruct s as [? [] ? ? ? ? ? ?].
Qed.

(** C27: [transfer_queue] refuses an empty transfer, an offline device and an
    engine that is shutting down, and then leaves the queue and the transfers
    alone; otherwise it appends the transfer, SUBMITTED, to the queue and the
    engine is running, restarted at the head of the queue if it was idle. *)
Theorem transfer_queue_spec s t x :
  s_xfers s !! t = Some x -> queue_ok s ->
  exists rv s', transfer_queue t s = Some (rv, s') /\
    if x_desc_num x =? 0 then rv = - EINVAL /\ s' = s
    else if xdma_device_flag_check (s_xdev s) XDEV_FLAG_OFFLINE then rv = - EBUSY /\ s' = s
    else if has_bits (e_shutdown (s_eng s)) ENGINE_SHUTDOWN_REQUEST then
      rv = - EBUSY /\ queue s' = queue s /\ s_xfers s' = s_xfers s /\
      e_running (s_eng s') = e_running (s_eng s)
    else
      rv = 0 /\ queue s' = queue s ++ [t] /\ e_running (s_eng s') = true /\
      s_xfers s' = <[t := set_x_state TRANSFER_STATE_SUBMITTED x]> (s_xfers s).
Proof.
  intros Hx Hok.
  apply (wp_iff (transfer_queue t) (fun rv s' => if x_desc_num x =? 0 then _ else _) s).
  eapply wp_transfer_queue; [exact Hx|exact Hok| | | |].
  - by intros ->.
  - intros Hn ->. by destruct (Z.eqb_spec (x_desc_num x) 0).
  - intros Hn -> -> cpu lg. by destruct (Z.eqb_spec (x_desc_num x) 0).
  - intros Hn -> -> e' lg (? & ? & ? & ? & _ & _ & ->). by destruct (Z.eqb_spec (x_desc_num x) 0).
Qed.

(** ** transfer_abort *)

Lemma wp_transfer_abort s t x (Q : Z -> est -> Prop) :
  s_xfers s !! t = Some x -> x_desc_num x <> 0 ->
  (let q := match queue s with h :: q => if h =? t then q else h :: q | [] => [] end in
   Q 0 (set_s_xfers
          (if bool_decide (x_state x = TRANSFER_STATE_SUBMITTED)
           then <[t := set_x_state TRANSFER_STATE_ABORTED x]> (s_xfers s) else s_xfers s)
          (set_s_eng (set_e_transfer_list q (s_eng s)) s))) ->
  wp (transfer_abort t) Q s.
Proof.
  intros Hx Hn HQ. unfold transfer_abort. apply wp_bind. eapply wp_get_xfer; [done|].
  destruct (Z.eqb_spec (x_desc_num x) 0); [done|]. apply wp_bind, wp_get_eng, wp_bind.
  eapply (wp_mono _ (fun _ s' => s' = set_s_eng (set_e_transfer_list
    (match queue s with h :: q => if h =? t then q else h :: q | [] => [] end) (s_eng s)) s)).
  { destruct (queue s) as [|h q] eqn:Hq; cbv zeta iota.
    - apply wp_ret. clear HQ Hx. destruct s as [? [] ? ? ? ? ? ?]. cbn in Hq. by subst.
    - apply wp_when; intros Hh; rewrite Hh.
      + unfold list_del_head. apply wp_bind, wp_get_eng. rewrite Hq. by apply wp_upd_eng.
      + clear HQ Hx. destruct s as [? [] ? ? ? ? ? ?]. cbn in Hq. by subst. }
  intros _ s' ->. apply wp_bind, wp_when; intros Hst; rewrite Hst in HQ.
  - eapply wp_upd_xfer; [exact Hx|]. by apply wp_ret.
  - apply wp_ret. by destruct s.
Qed.

(** [transfer_abort] takes a transfer off the queue only if it is at the
    head; a transfer queued behind another one is marked ABORTED but stays on
    the queue of the engine. *)
Theorem transfer_abort_spec s t x :
  s_xfers s !! t = Some x -> x_desc_num x <> 0 ->
  exists s', transfer_abort t s = Some (0, s') /\
    queue s' = (match queue s with h :: q => if h =? t then q else h :: q | [] => [] end) /\
    s_xfers s' = (if bool_decide (x_state x = TRANSFER_STATE_SUBMITTED)
                  then <[t := set_x_state TRANSFER_STATE_ABORTED x]> (s_xfers s) else s_xfers s).
Proof.
  intros Hx Hn.
  set (q := match queue s with h :: q => if h =? t then q else h :: q | [] => [] end).
  set (xs := if bool_decide (x_state x = TRANSFER_STATE_SUBMITTED)
             then <[t := set_x_state TRANSFER_STATE_ABORTED x]> (s_xfers s) else s_xfers s).
  assert (wp (transfer_abort t) (fun rv s' => rv = 0 /\ queue s' = q /\ s_xfers s' = xs) s) as Hwp
    by (by eapply wp_transfer_abort).
  apply wp_iff in Hwp as (rv & s' & Hrun & -> & Hs'). by exists s'.
Qed.
End programs.

(** ** Witnesses *)

(** An idle engine with two transfers queued. *)
Definition demo_idle : est := set_s_eng (set_e_running false (s_eng demo_busy)) demo_busy.

Lemma engine_start_program_witness :
  exists s' lo hi adj v1 v2,
    @engine_start zero_env demo_idle = Some (Some 10, s') /\
    s_log s' = rev (@start_program zero_env (s_eng demo_idle) lo hi adj (@start_word zero_env false) v1 v2) ++
      s_log demo_idle /\
    0x800000 = lo + hi * 2 ^ 32 /\ 0 <= lo < 2 ^ 32 /\ adjacent_to 0x800000 3 adj /\
    has_bits (@start_word zero_env false) XDMA_CTRL_RUN_STOP = true /\
    has_bits (@start_word zero_env false) XDMA_CTRL_NON_INCR_ADDR = false /\
    s' = set_log (s_log s') (set_s_eng (set_e_running true (set_e_status v2
           (set_e_desc_dequeued 0 (set_e_shutdown ENGINE_SHUTDOWN_NONE (s_eng demo_idle))))) demo_idle).
Proof.
  apply (@engine_start_program zero_env demo_idle 10 [12] (demo_xfer 0 3));
    [reflexivity|reflexivity|reflexivity|cbn; lia].
Defined.

Lemma transfer_queue_spec_witness :
  exists rv s', @transfer_queue zero_env 10 (set_s_eng (set_e_transfer_list [12] (s_eng demo_idle)) demo_idle)
    = Some (rv, s') /\ rv = 0 /\ queue s' = [12; 10] /\ e_running (s_eng s') = true /\
    s_xfers s' = <[10 := demo_xfer 0 3]> (s_xfers demo_idle).
Proof.
  apply (@transfer_queue_spec zero_env
    (set_s_eng (set_e_transfer_list [12] (s_eng demo_idle)) demo_idle) 10 (demo_xfer 0 3)).
  - reflexivity.
  - split; [repeat constructor; set_solver|]. intros t Ht. cbn in Ht.
    apply list_elem_of_singleton in Ht as ->. by eexists.
Defined.

Lemma transfer_abort_spec_witness :
  exists s', transfer_abort 12 demo_busy = Some (0, s') /\ queue s' = [10; 12] /\
    s_xfers s' = <[12 := set_x_state TRANSFER_STATE_ABORTED (demo_xfer 3 2)]> (s_xfers demo_busy).
Proof. by apply (transfer_abort_spec demo_busy 12 (demo_xfer 3 2)). Defined.
