(* ===== verification/Submit.v ===== *)
(** * Submit: requests from the character device to the engine

    [xdma_xfer_submit] and its asynchronous variants, on the engine they
    selected.  While a submitter sleeps, the rest of the driver runs: the class
    [Sched] chooses, from the history, which operations on the engine happen
    before the sleeper continues. *)

From S2P Require Import Prelude Hw State Desc Engine Service Request.

(** What can happen to an engine while a thread that uses it sleeps. *)
Inductive engine_op :=
| OpWork                                  (** the interrupt bottom half *)
| OpPoll (fuel : nat) (expected : Z)      (** a turn of a polling thread *)
| OpOffline.                              (** [xdma_device_offline], for this engine *)

Class Sched := sched : list event -> list engine_op.

Section submit.
Context `{Env} `{Callback} `{Sched}.

(** The engine part of [xdma_device_offline]. *)
Definition engine_offline : M est unit :=
  let* e := get_eng in
  when (e_magic e =? MAGIC_ENGINE)
    (upd_eng (fun e => set_e_shutdown (Z.lor (e_shutdown e) ENGINE_SHUTDOWN_REQUEST) e) >>;
     xdma_engine_stop >>; ret tt).

Definition run_op (op : engine_op) : M est unit :=
  match op with
  | OpWork => engine_service_work
  | OpPoll fuel expected => engine_service_poll fuel expected >>; ret tt
  | OpOffline => engine_offline
  end.

(** [xlx_wait_event_interruptible(_timeout)]: at once when the transfer is no
    longer SUBMITTED; otherwise other code runs before the thread does. *)
Definition wait_transfer (t timeout_ms : Z) : M est unit :=
  let* x := get_xfer t in
  if bool_decide (x_state x = TRANSFER_STATE_SUBMITTED) then
    kdo "wait_event" [t; timeout_ms] >>;
    let* s := get in forM (sched (s_log s)) run_op
  else ret tt.

(** ** Common parts *)

(** The label [unmap_sgl]. *)
Definition unmap_sgl (sgt : Z) (dma_mapped : bool) : M est unit :=
  let* g := get_sgt sgt in
  when (negb dma_mapped && negb (sg_nents g =? 0))
    (kdo "pci_unmap_sg" [sgt; sg_orig_nents g] >>; upd_sgt sgt (set_sg_nents 0)).

(** Mapping of the table: 0, or the error. *)
Definition map_sgl (sgt : Z) (dma_mapped : bool) : M est Z :=
  let* g := get_sgt sgt in
  if dma_mapped then ret (if sg_nents g =? 0 then - EIO else 0)
  else
    let* nents := kcall "pci_map_sg" [sgt; sg_orig_nents g] in
    if nents =? 0 then ret (- EIO) else upd_sgt sgt (set_sg_nents nents) >>; ret 0.

(** The sum of the lengths of [n] results from [res]. *)
Definition sum_results (res n done : Z) : M est Z :=
  foldM (zrange n) (fun done i => let* l := read_result_length (res + i) in ret (s64 (done + l))) done.

(** A transfer that neither completed nor failed: it can still be in flight. *)
Definition abort_transfer (t : Z) : M est unit :=
  let* rv := engine_status_read false true in
  if rv <? 0 then ret tt
  else
    let* rv := transfer_abort t in
    if rv <? 0 then ret tt else xdma_engine_stop >>; ret tt.

(** ** xdma_xfer_submit *)

(** The [switch] on the state of the transfer: the error, what remains of
    [nents], and the bytes done. *)
Definition submit_result (t nents done : Z) : M est (Z * Z * Z) :=
  let* x := get_xfer t in
  let* e := get_eng in
  match x_state x with
  | TRANSFER_STATE_COMPLETED =>
      if e_streaming e && is_c2h (e_dir e) then
        let* done := sum_results (x_res_virt x) (x_desc_cmpl x) done in
        ret (0, if e_eop_flush e then 0 else nents, done)
      else ret (0, nents, s64 (done + x_len x))
  | TRANSFER_STATE_FAILED => ret (- EIO, nents, done)
  | _ => abort_transfer t >>; ret (- ERESTARTSYS, nents, done)
  end.

(** Preparing a transfer: [flags], and on the last one [last_in_request]. *)
Definition mark_transfer (t sgt : Z) (dma_mapped : bool) (nents : Z) : M est Z :=
  when (negb dma_mapped) (upd_xfer t (set_x_flags XFER_FLAG_NEED_UNMAP)) >>;
  let* x := get_xfer t in
  let nents := s32 (nents - x_desc_num x) in
  when (nents =? 0) (upd_xfer t (fun x => set_x_sgt (Some sgt) (set_x_last_in_request true x))) >>;
  ret nents.

(** One turn of the loop; the result is [rv], [nents] and [done]. *)
Definition submit_step (req sgt : Z) (dma_mapped : bool) (timeout_ms nents done : Z)
  : M est (Z * Z * Z) :=
  let t := tfer req 0 in
  let* rv := transfer_init req t in
  if rv <? 0 then ret (rv, nents, done)
  else
    let* nents := mark_transfer t sgt dma_mapped nents in
    let* rv := transfer_queue t in
    if rv <? 0 then ret (rv, nents, done)
    else
      let* e := get_eng in
      (match e_cmplthp e with
       | Some thp => kdo "xdma_kthread_wakeup" [thp]
       | None => ret tt
       end) >>;
      wait_transfer t timeout_ms >>;
      let* '(rv, nents, done) := submit_result t nents done in
      let* x := get_xfer t in
      upd_eng (fun e => set_e_desc_used (s32 (e_desc_used e - x_desc_num x)) e) >>;
      transfer_destroy t >>;
      ret (rv, nents, done).

(** [while (nents)]; each turn takes at least one descriptor. *)
Fixpoint submit_loop (fuel : nat) (req sgt : Z) (dma_mapped : bool) (timeout_ms nents done : Z)
  : M est (Z * Z) :=
  if nents =? 0 then ret (0, done)
  else
    match fuel with
    | O => ub
    | S fuel =>
        let* '(rv, nents, done) := submit_step req sgt dma_mapped timeout_ms nents done in
        if rv <? 0 then ret (rv, done)
        else submit_loop fuel req sgt dma_mapped timeout_ms nents done
    end.

(** The checks on the engine before anything is mapped. *)
Definition check_engine (dir : dma_dir) : M est Z :=
  let* s := get in
  if negb (e_magic (s_eng s) =? MAGIC_ENGINE) then ret (- EINVAL)
  else if xdma_device_flag_check (s_xdev s) XDEV_FLAG_OFFLINE then ret (- EBUSY)
  else if negb (bool_decide (e_dir (s_eng s) = dir)) then ret (- EINVAL)
  else ret 0.

(** [xdma_xfer_submit] from the point where the engine is known. *)
Definition xdma_xfer_submit (write : bool) (ep_addr sgt : Z) (dma_mapped : bool) (timeout_ms : Z)
  : M est Z :=
  let* rv := check_engine (if write then DMA_TO_DEVICE else DMA_FROM_DEVICE) in
  if rv <? 0 then ret rv
  else
    let* rv := map_sgl sgt dma_mapped in
    if rv <? 0 then ret rv
    else
      let* req := xdma_init_request sgt ep_addr in
      match req with
      | None => unmap_sgl sgt dma_mapped >>; ret (- ENOMEM)
      | Some req =>
          let* q := get_req req in
          let* '(rv, done) :=
            submit_loop (Z.to_nat (r_sw_desc_cnt q)) req sgt dma_mapped timeout_ms (r_sw_desc_cnt q) 0 in
          unmap_sgl sgt dma_mapped >>;
          xdma_request_free req >>;
          ret (if done =? 0 then rv else done)
      end.

(** ** The asynchronous variant *)

(** [&req->tfer[k]]; there are two. *)
Definition tfer_at (req k : Z) : M est Z :=
  guard_ub ((0 <=? k) && (k <? 2)) >>; ret (tfer req k).

Fixpoint nowait_loop (fuel : nat) (req cb sgt : Z) (dma_mapped : bool) (tfer_idx nents : Z)
  : M est Z :=
  if nents =? 0 then ret (- EIOCBQUEUED)
  else
    match fuel with
    | O => ub
    | S fuel =>
        let* t := tfer_at req tfer_idx in
        let* rv := transfer_init req t in
        if rv <? 0 then
          unmap_sgl sgt dma_mapped >>;
          let* c := get_cb cb in
          when (cb_io_done c) (io_done cb (- EBUSY)) >>;
          xdma_request_free req >>; ret rv
        else
          upd_xfer t (set_x_cb (Some cb)) >>;
          let* nents := mark_transfer t sgt dma_mapped nents in
          let* rv := transfer_queue t in
          if rv <? 0 then
            unmap_sgl sgt dma_mapped >>; xdma_request_free req >>; ret rv
          else nowait_loop fuel req cb sgt dma_mapped (tfer_idx + 1) nents
    end.

Definition xdma_xfer_submit_nowait (cb : Z) (write : bool) (ep_addr sgt : Z) (dma_mapped : bool)
  : M est Z :=
  let* rv := check_engine (if write then DMA_TO_DEVICE else DMA_FROM_DEVICE) in
  if rv <? 0 then ret rv
  else
    let* rv := map_sgl sgt dma_mapped in
    if rv <? 0 then ret rv
    else
      let* req := xdma_init_request sgt ep_addr in
      match req with
      | None => unmap_sgl sgt dma_mapped >>; ret (- ENOMEM)
      | Some req =>
          upd_req req (set_r_cb (Some cb)) >>;
          upd_cb cb (set_cb_req (Some req)) >>;
          let* q := get_req req in
          nowait_loop (Z.to_nat (r_sw_desc_cnt q)) req cb sgt dma_mapped 0 (r_sw_desc_cnt q)
      end.

(** The [switch] of [xdma_xfer_completion]. *)
Definition completion_result (t done : Z) : M est (Z * Z) :=
  let* x := get_xfer t in
  let* e := get_eng in
  match x_state x with
  | TRANSFER_STATE_COMPLETED =>
      if e_streaming e && is_c2h (e_dir e) then
        let* done := sum_results (x_res_virt x) (x_desc_num x) done in ret (0, done)
      else ret (0, s64 (done + x_len x))
  | TRANSFER_STATE_FAILED => ret (- EIO, done)
  | _ =>
      engine_status_read false true >>;
      engine_status_dump >>;
      transfer_abort t >>;
      xdma_engine_stop >>;
      ret (- ERESTARTSYS, done)
  end.

Fixpoint completion_loop (fuel : nat) (req tfer_idx nents done : Z) : M est Z :=
  if nents =? 0 then ret done
  else
    match fuel with
    | O => ub
    | S fuel =>
        let* t := tfer_at req tfer_idx in
        let* x := get_xfer t in
        let nents := s32 (nents - x_desc_num x) in
        let* '(rv, done) := completion_result t done in
        transfer_destroy t >>;
        upd_eng (fun e => set_e_desc_used (s32 (e_desc_used e - x_desc_num x)) e) >>;
        if rv <? 0 then ret done else completion_loop fuel req (tfer_idx + 1) nents done
    end.

Definition xdma_xfer_completion (cb sgt : Z) (dma_mapped : bool) : M est Z :=
  let* e := get_eng in
  if negb (e_magic e =? MAGIC_ENGINE) then ret (- EINVAL)
  else
    let* c := get_cb cb in
    let* req := deref (cb_req c) in
    let* q := get_req req in
    let* done := completion_loop 3 req 0 (r_sw_desc_cnt q) 0 in
    unmap_sgl sgt dma_mapped >>;
    xdma_request_free req >>;
    ret done.
End submit.
