(* ===== verification/SubmitSpec.v ===== *)
(** * SubmitSpec: one turn of a synchronous submission

    The specification of [submit_step] for every device and every order in which
    the interrupt bottom half and [xdma_device_offline] run while the submitter
    sleeps: the engine's queue is empty again afterwards and the request has
    advanced. *)

From S2P Require Import Prelude Hw State Desc Engine Service Request Fixtures Chain ServiceSpec ServiceProps QueueProps Submit.

(** ** What the completion of transfers leaves alone *)

(** The engine without its run state. *)
Definition core (e : xdma_engine) : xdma_engine :=
  set_e_transfer_list [] (set_e_running false (set_e_status 0 (set_e_shutdown 0
    (set_e_desc_dequeued 0 (set_e_xdma_perf None (set_e_prev_cpu 0 (set_e_desc_used 0 e))))))).

Section frame.
Context `{Env}.

(** The same engine, with a status that the device may have answered. *)
Definition kin (e e' : xdma_engine) : Prop := core e' = core e /\ seen e (e_status e').

#[export] Instance kin_preorder : PreOrder kin.
Proof.
  split; [intros e; by split; [|left]|]. intros e1 e2 e3 [C1 S1] [C2 S2]. split; [congruence|].
  destruct S2 as [->|(lg & f & Hf & ->)]; [done|]. right. exists lg, f. split; [done|].
  unfold reg. by replace (e_regs e2) with (e_regs e1) by (change (e_regs (core e1) = e_regs (core e2)); by rewrite C1).
Qed.

Lemma kin_core e e' : core e' = core e -> e_status e' = e_status e -> kin e e'.
Proof. intros Hc Hst. split; [done|by left]. Qed.

Record frame (s s' : est) : Prop := {
  fr_core : kin (s_eng s) (s_eng s');
  fr_dev : s_xdev s' = s_xdev s;
  fr_sgts : s_sgts s' = s_sgts s;
  fr_reqs : s_reqs s' = s_reqs s;
  fr_cbs : s_cbs s' = s_cbs s
}.

#[export] Instance frame_preorder : PreOrder frame.
Proof. split; [by intros s|]. intros s1 s2 s3 [] []. split; [by etrans|congruence..]. Qed.

Lemma serviced_frame d s s' : serviced d s s' -> frame s s'.
Proof.
  intros [_ (? & ? & ? & ? & ? & ? & Hseen & He) _ ? ? ? ?]. split; try done. rewrite He. by split.
Qed.
End frame.

Lemma serviced_upd `{Env} s f lg :
  eng_evolves (s_eng s) (f (s_eng s)) -> e_transfer_list (f (s_eng s)) = queue s ->
  serviced [] s (set_log lg (set_s_eng (f (s_eng s)) s)).
Proof. by apply serviced_eng_only. Qed.

Section spec.
Context `{Env} `{Callback} `{Sched}.

(** An engine that moves memory (not streams), whose block identifies itself and
    answers no status that overflows the buffer of the log message: an engine of
    the direction C2H with a short name ([c2h_dump_ok]), or one of H2C whose
    block never reports every kind of error at once ([h2c_dump_fits]). *)
Record mm_engine (e : xdma_engine) : Prop := {
  mm_ring : exists ring, ring_ok e ring;
  mm_dump : dump_ok e;
  mm_stream : e_streaming e = false;
  mm_flush : e_eop_flush e = false;
  mm_id : forall lg, Z.land (u32 (io_read lg (reg e "identifier"))) BLOCK_ID_MASK = BLOCK_ID_HEAD
}.

Lemma mm_engine_kin e e' : kin e e' -> mm_engine e -> mm_engine e'.
Proof.
  intros [Hc Hst] [[ring Hr] Hd Hs Hf Hid]. destruct e, e'. cbn in Hc. injection Hc as [=]. subst.
  split; [by exists ring; destruct Hr| |done|done|exact Hid]. intros st Hst2. apply (Hd st).
  destruct Hst2 as [->|Hst2]; [exact Hst|by right].
Qed.

Lemma mm_engine_core e e' : core e' = core e -> e_status e' = e_status e -> mm_engine e -> mm_engine e'.
Proof. intros Hc Hst. by apply mm_engine_kin, kin_core. Qed.

Definition dev_bars (s : est) : Prop :=
  is_Some (zlookup (d_bar (s_xdev s)) (d_config_bar_idx (s_xdev s))).

(** Interrupt mode: no polling thread runs. *)
Definition irq_op (op : engine_op) : bool := match op with OpPoll _ _ => false | _ => true end.
Definition irq_schedule : Prop := forall lg, forallb irq_op (sched lg) = true.

(** ** While the submitter sleeps *)

Lemma wp_service_work s :
  service_ok s -> dev_bars s -> wp engine_service_work (fun _ s' => exists d, serviced d s s') s.
Proof.
  intros Hok Hb. unfold engine_service_work. apply wp_bind, wp_get_eng.
  destruct (negb _); [apply wp_ret; exists []; apply serviced_refl|].
  apply wp_bind. eapply wp_mono; [by apply engine_service_serviced|]. intros rv s1 [d Hd].
  destruct (rv <? 0); [apply wp_ret; by exists d|].
  apply wp_bind, wp_get.
  assert (forall lg, serviced [] s1 (set_log lg s1)) as Hlg.
  { intros lg. destruct s1. apply serviced_eng; [done|apply eng_evolves_refl]. }
  assert (forall lg, exists d, serviced d s (set_log lg s1)) as Hend.
  { intros lg. exists (d ++ []). eapply serviced_trans; [apply Hok|exact Hd|apply Hlg]. }
  destruct (d_msix_enabled _); [apply (Hend (_ :: _))|].
  destruct Hb as [b Hb]. rewrite <-(sv_dev _ _ _ Hd) in Hb.
  unfold wp, channel_interrupts_enable, int_reg, config_bar, bind, deref. rewrite Hb. apply (Hend (_ :: _)).
Qed.

Lemma wp_engine_offline s : wp engine_offline (fun _ s' => serviced [] s s') s.
Proof.
  unfold engine_offline. apply wp_bind, wp_get_eng, wp_when; intros _; [|apply serviced_refl].
  apply wp_bind, wp_upd_eng, wp_bind. unfold wp at 1. rewrite xdma_engine_stop_eq. apply wp_ret.
  apply (serviced_upd s (fun e => set_e_running false
           (set_e_shutdown (Z.lor (e_shutdown e) ENGINE_SHUTDOWN_REQUEST) e))); [|done].
  exists (queue s), false, (e_status (s_eng s)), (Z.lor (e_shutdown (s_eng s)) ENGINE_SHUTDOWN_REQUEST),
    (e_desc_dequeued (s_eng s)), (e_xdma_perf (s_eng s)). split; [by left|by destruct (s_eng s)].
Qed.

Lemma wp_run_op op s :
  irq_op op = true -> service_ok s -> dev_bars s ->
  wp (run_op op) (fun _ s' => exists d, serviced d s s') s.
Proof.
  destruct op; intros Hop Hok Hb; [by apply wp_service_work|done|].
  eapply wp_mono; [apply wp_engine_offline|]. by exists [].
Qed.

Lemma wp_run_ops ops s :
  forallb irq_op ops = true -> service_ok s -> dev_bars s ->
  wp (forM ops run_op) (fun _ s' => exists d, serviced d s s') s.
Proof.
  revert s. induction ops as [|op ops IH]; intros s Hops Hok Hb.
  - apply wp_ret. exists []. apply serviced_refl.
  - cbn in Hops. apply andb_prop in Hops as [Hop Hops].
    apply wp_bind. eapply wp_mono; [by apply wp_run_op|]. intros ? s1 [d1 Hsv1].
    eapply wp_mono; [apply IH; [done|by eapply serviced_ok|]|].
    { unfold dev_bars. by rewrite (sv_dev _ _ _ Hsv1). }
    intros ? s2 [d2 Hsv2]. exists (d1 ++ d2). eapply serviced_trans; [apply Hok|done|done].
Qed.

Lemma wp_wait_transfer t tmo s x :
  irq_schedule -> service_ok s -> dev_bars s -> s_xfers s !! t = Some x ->
  wp (wait_transfer t tmo) (fun _ s' => exists d, serviced d s s') s.
Proof.
  intros Hs Hok Hb Hx. unfold wait_transfer. apply wp_bind. eapply wp_get_xfer; [done|].
  destruct (bool_decide _); [|apply wp_ret; exists []; apply serviced_refl].
  apply wp_bind, wp_kdo, wp_bind, wp_get.
  match goal with |- wp _ _ ?st => set (s1 := st) end.
  assert (serviced [] s s1) as Hsv1.
  { subst s1. destruct s. apply serviced_eng; [done|apply eng_evolves_refl]. }
  eapply wp_mono; [apply wp_run_ops; [apply Hs|by eapply serviced_ok|done]|].
  intros ? s2 [d Hd]. exists ([] ++ d). eapply serviced_trans; [apply Hok|done|done].
Qed.
(** ** The result of the transfer *)

(** Same place in the ring, same part in the request. *)
Definition same_shape (x x' : xdma_transfer) : Prop :=
  x_desc_virt x' = x_desc_virt x /\ x_desc_num x' = x_desc_num x /\
  x_last_in_request x' = x_last_in_request x /\ x_sgt x' = x_sgt x.

(** The transfer left the queue, finished; or it is still its only element. *)
Definition settled (t : Z) (x : xdma_transfer) (s : est) : Prop :=
  queue s = [] /\ (x_state x = TRANSFER_STATE_COMPLETED \/ x_state x = TRANSFER_STATE_FAILED) \/
  queue s = [t] /\ x_state x = TRANSFER_STATE_SUBMITTED.

(** The result of a turn: an error, or the bytes of its transfer. *)
Definition outcome (rv done done' len : Z) : Prop :=
  - 2 ^ 31 <= rv < 0 /\ done' = done \/ rv = 0 /\ done' = s64 (done + len).

Lemma outcome_done rv done done' len :
  outcome rv done done' len -> rv <= 0 /\ (done' = done \/ done' = s64 (done + len)).
Proof. intros [[? ?]|[? ?]]; (split; [lia|]); [by left|by right]. Qed.

(** A register read for its effect on the log only. *)
Lemma wp_read_any {A} f (k : M est A) Q s l :
  (forall lg, wp k Q (set_log lg s)) -> wp (read_reg f >>; k) Q (set_log l s).
Proof. intros Hk. apply wp_bind, wp_bind, wp_get_eng, wp_read_register, (Hk (_ :: l)). Qed.

Lemma wp_sgdma_read_any {A} f (k : M est A) Q s l :
  (forall lg, wp k Q (set_log lg s)) -> wp (read_sgdma_reg f >>; k) Q (set_log l s).
Proof. intros Hk. apply wp_bind, wp_bind, wp_get_eng, wp_read_register, (Hk (_ :: l)). Qed.

Lemma wp_status_read s :
  mm_engine (s_eng s) ->
  wp (engine_status_read false true)
     (fun rv s' => rv = 0 /\ exists v lg, seen (s_eng s) v /\
        s' = set_log lg (set_s_eng (set_e_status v (s_eng s)) s)) s.
Proof.
  intros [_ Hd _ _ Hid]. unfold engine_status_read. apply wp_bind.
  apply (wp_mono _ (fun rv s' => rv = 0 /\ exists lg, s' = set_log lg s)).
  { unfold engine_reg_dump. apply wp_bind, wp_bind, wp_get_eng, wp_read_register.
    rewrite Hid, Z.eqb_refl. cbn [negb].
    do 2 (apply wp_read_any; intros ?). do 3 (apply wp_sgdma_read_any; intros ?).
    do 2 (apply wp_read_any; intros ?).
    apply wp_ret. split; [done|]. by eexists. }
  intros rv s1 [-> [lg ->]]. cbn [Z.ltb Z.compare].
  apply wp_bind, wp_bind, wp_get_eng, wp_read_register, wp_bind, wp_upd_eng, wp_bind.
  unfold engine_status_dump. apply wp_bind, wp_get_eng.
  set (v := u32 _). assert (seen (s_eng s) v) as Hv by (right; exists lg, "status"%string; by split; [left|]).
  match goal with |- wp (if status_dump_fits ?e then _ else _) _ _ =>
    replace (status_dump_fits e) with true by (symmetry; by apply (Hd v)) end.
  apply wp_ret, wp_ret. split; [done|]. by do 2 eexists.
Qed.

Lemma frame_refl s : frame s s.
Proof. done. Qed.

Lemma wp_abort s t x :
  mm_engine (s_eng s) -> s_xfers s !! t = Some x -> x_desc_num x <> 0 ->
  queue s = [t] -> x_state x = TRANSFER_STATE_SUBMITTED ->
  wp (abort_transfer t)
     (fun _ s' => frame s s' /\ queue s' = [] /\
        s_xfers s' = <[t := set_x_state TRANSFER_STATE_ABORTED x]> (s_xfers s)) s.
Proof.
  intros Hmm Hx Hn Hq Hst. unfold abort_transfer. apply wp_bind.
  eapply wp_mono; [by apply wp_status_read|]. intros rv s1 (-> & v & lg & Hv & ->). cbn [Z.ltb Z.compare].
  apply wp_bind. eapply wp_transfer_abort; [exact Hx|exact Hn|].
  rewrite bool_decide_eq_true_2 by done. cbn [e_transfer_list s_eng set_s_eng set_log est_log set_e_status].
  rewrite Hq, Z.eqb_refl. cbn [Z.ltb Z.compare].
  apply wp_bind. unfold wp at 1. rewrite xdma_engine_stop_eq. apply wp_ret.
  split; [|done]. split; try done.
Qed.

Lemma wp_submit_result s t x nents done :
  mm_engine (s_eng s) -> s_xfers s !! t = Some x -> x_desc_num x <> 0 -> settled t x s ->
  wp (submit_result t nents done) (fun '(rv, nents', done') s' =>
    nents' = nents /\ outcome rv done done' (x_len x) /\
    frame s s' /\ queue s' = [] /\
    exists x', s_xfers s' !! t = Some x' /\ same_shape x x') s.
Proof.
  intros Hmm Hx Hn Hset. unfold submit_result. apply wp_bind. eapply wp_get_xfer; [done|].
  apply wp_bind, wp_get_eng. rewrite (mm_stream _ Hmm). cbn [andb].
  destruct Hset as [[Hq [Hst|Hst]]|[Hq Hst]]; rewrite Hst.
  - apply wp_ret. split_and!; try done; [by right|by exists x].
  - apply wp_ret. split_and!; try done; [by left|by exists x].
  - apply wp_bind. eapply wp_mono; [by eapply wp_abort|]. intros _ s' (Hf & Hq' & Hx').
    apply wp_ret. split_and!; try done; [by left|].
    exists (set_x_state TRANSFER_STATE_ABORTED x). rewrite Hx', lookup_insert_eq. done.
Qed.

(** ** Releasing the descriptors *)

(** At most the table [sgt] was unmapped. *)
Definition sgts_step (sgt : Z) (s s' : est) : Prop :=
  s_sgts s' = s_sgts s \/
  exists g, s_sgts s !! sgt = Some g /\ s_sgts s' = <[sgt := set_sg_nents 0 g]> (s_sgts s).

(** The transfer lies in the ring, and its table is known. *)
Definition in_ring (sgt : Z) (x : xdma_transfer) (s : est) : Prop :=
  0 <= x_desc_virt x /\ 0 < x_desc_num x /\ x_desc_virt x + x_desc_num x <= e_desc_max (s_eng s) /\
  (x_last_in_request x = true -> x_sgt x = Some sgt /\ is_Some (s_sgts s !! sgt)).

Lemma mm_engine_ring ring e :
  mm_engine e -> Z.of_nat (length ring) = e_desc_max e -> mm_engine (set_e_desc (Some ring) e).
Proof.
  intros [[r0 []] Hd Hs Hf Hid] Hlen. split; [|exact Hd|done|done|exact Hid].
  exists ring. by split.
Qed.

Lemma wp_destroy s t x sgt :
  mm_engine (s_eng s) -> s_xfers s !! t = Some x -> in_ring sgt x s ->
  wp (transfer_destroy t) (fun _ s' =>
    mm_engine (s_eng s') /\ queue s' = queue s /\ s_xdev s' = s_xdev s /\ s_reqs s' = s_reqs s /\
    s_xfers s' = s_xfers s /\ s_cbs s' = s_cbs s /\ sgts_step sgt s s') s.
Proof.
  intros Hmm Hx (Hv & Hn & Hend & Hlast). unfold transfer_destroy.
  apply wp_bind. eapply wp_get_xfer; [done|]. destruct (mm_ring _ Hmm) as [ring Hr].
  apply wp_bind. eapply wp_mono.
  { apply (wp_forM_ring (x_desc_virt x) (x_desc_num x) (fun _ _ => zero_desc) ring); destruct Hr; [done|lia|lia|lia]. }
  intros _ s1 ->.
  assert (mm_engine (s_eng (set_ring (upd_range (x_desc_virt x) (x_desc_num x)
            (fun _ _ => zero_desc) ring) s))) as Hmm1.
  { apply mm_engine_ring; [done|]. rewrite upd_range_length. by destruct Hr. }
  destruct (x_last_in_request x && _) eqn:Hl.
  - apply andb_prop in Hl as [Hl _]. destruct (Hlast Hl) as [Hs [g Hg]]. rewrite Hs.
    apply wp_bind. eapply wp_deref; [reflexivity|]. apply wp_bind. eapply wp_get_sgt; [exact Hg|].
    apply wp_when; intros _.
    + unfold unmap_sgt. apply wp_bind, wp_kdo. eapply wp_upd_sgt; [exact Hg|].
      split_and!; try done. right. by exists g.
    + split_and!; try done. by left.
  - apply wp_ret. split_and!; try done. by left.
Qed.

Lemma in_ring_shape sgt x x' s s' :
  in_ring sgt x s -> same_shape x x' -> frame s s' -> in_ring sgt x' s'.
Proof.
  intros (? & ? & ? & Hl) (E1 & E2 & E3 & E4) [[Hc _] _ Hs _ _]. unfold in_ring.
  rewrite E1, E2, E3, E4, Hs.
  replace (e_desc_max (s_eng s')) with (e_desc_max (s_eng s)); [done|].
  change (e_desc_max (core (s_eng s)) = e_desc_max (core (s_eng s'))). by rewrite Hc.
Qed.

(** From the wait to the end of the turn. *)
Definition finish_turn (t nents done : Z) : M est (Z * Z * Z) :=
  let* '(rv, nents, done) := submit_result t nents done in
  let* x := get_xfer t in
  upd_eng (fun e => set_e_desc_used (s32 (e_desc_used e - x_desc_num x)) e) >>;
  transfer_destroy t >>;
  ret (rv, nents, done).

(** What every turn gives back. *)
Record turned (t sgt : Z) (reqs : gmap Z xdma_request_cb) (s s' : est) : Prop := {
  tn_mm : mm_engine (s_eng s');
  tn_queue : queue s' = [];
  tn_dev : s_xdev s' = s_xdev s;
  tn_reqs : s_reqs s' = reqs;
  tn_cbs : s_cbs s' = s_cbs s;
  tn_xfer : is_Some (s_xfers s' !! t);
  tn_sgts : sgts_step sgt s s'
}.

(** Releasing the descriptors of a transfer that left the queue. *)
Lemma wp_release {A} s s1 t x x' n sgt (a : A) (Q : A -> est -> Prop) :
  mm_engine (s_eng s) -> in_ring sgt x s -> frame s s1 -> queue s1 = [] ->
  s_xfers s1 !! t = Some x' -> same_shape x x' ->
  (forall s', turned t sgt (s_reqs s) s s' -> Q a s') ->
  wp (upd_eng (fun e => set_e_desc_used (s32 (e_desc_used e - n)) e) >>; transfer_destroy t >>; ret a) Q s1.
Proof.
  intros Hmm Hir Hf Hq Hx' Hsh HQ. apply wp_bind, wp_upd_eng, wp_bind.
  match goal with |- wp _ _ ?st => assert (frame s st) as Hf2 by (destruct Hf; by split) end.
  pose proof (mm_engine_kin _ _ (fr_core _ _ Hf2) Hmm) as Hmm2.
  eapply wp_mono; [eapply wp_destroy; [exact Hmm2|exact Hx'|by eapply in_ring_shape]|].
  intros _ s3 (Hmm3 & Hq3 & Hd3 & Hr3 & Hx3 & Hc3 & Hs3). apply wp_ret, HQ.
  destruct Hf2 as [_ Hd2 Hg2 Hr2 Hc2]. split; try done; try congruence.
  - rewrite Hq3. exact Hq.
  - rewrite Hx3. by exists x'.
  - destruct Hs3 as [E|[g [E1 E2]]]; [left; congruence|]. right. exists g. rewrite <-Hg2. done.
Qed.

Lemma wp_finish_turn s t x sgt nents done :
  mm_engine (s_eng s) -> s_xfers s !! t = Some x -> in_ring sgt x s -> settled t x s ->
  wp (finish_turn t nents done) (fun '(rv, nents', done') s' =>
    nents' = nents /\ outcome rv done done' (x_len x) /\ turned t sgt (s_reqs s) s s') s.
Proof.
  intros Hmm Hx Hir Hset. unfold finish_turn. apply wp_bind.
  eapply wp_mono; [eapply wp_submit_result; [done|exact Hx| |done]; destruct Hir as (_ & ? & _); lia|].
  intros [[rv ne] dn] s1 (-> & Hdn & Hf & Hq & x' & Hx' & Hsh).
  apply wp_bind. eapply wp_get_xfer; [exact Hx'|]. by eapply wp_release.
Qed.

Lemma turned_frame t sgt s s2 s3 :
  frame s s2 -> turned t sgt (s_reqs s2) s2 s3 -> turned t sgt (s_reqs s) s s3.
Proof.
  intros [_ Hfd Hfs Hfr Hfc] [? ? Hd3 Hr3 Hc3 ? Hg3]. split; try done; try congruence.
  destruct Hg3 as [E|[g [Eg1 Eg2]]]; [left; congruence|]. right. exists g. by rewrite <-Hfs.
Qed.

(** ** The whole turn *)

(** The transfer after [mark_transfer]. *)
Definition marked (sgt left : Z) (x : xdma_transfer) : xdma_transfer :=
  let x := set_x_flags XFER_FLAG_NEED_UNMAP x in
  if left =? 0 then set_x_sgt (Some sgt) (set_x_last_in_request true x) else x.

Lemma wp_mark_transfer s t x sgt nents (Q : Z -> est -> Prop) :
  s_xfers s !! t = Some x -> - 2 ^ 31 <= nents - x_desc_num x < 2 ^ 31 ->
  Q (nents - x_desc_num x)
    (set_s_xfers (<[t := marked sgt (nents - x_desc_num x) x]> (s_xfers s)) s) ->
  wp (mark_transfer t sgt false nents) Q s.
Proof.
  intros Hx Hn HQ. unfold mark_transfer. cbn [negb when]. apply wp_bind.
  eapply wp_upd_xfer; [exact Hx|]. apply wp_bind. eapply wp_get_xfer; [apply lookup_insert_eq|].
  change (x_desc_num (set_x_flags _ x)) with (x_desc_num x).
  rewrite s32_small by done. unfold marked in HQ.
  apply wp_bind, wp_when; intros E; rewrite E in HQ.
  - eapply wp_upd_xfer; [apply lookup_insert_eq|]. apply wp_ret.
    cbn [s_xfers set_s_xfers]. by rewrite insert_insert_eq.
  - by apply wp_ret.
Qed.

Lemma evolved_shape P x y : xfer_evolves P x y -> same_shape x y /\ x_len y = x_len x.
Proof. by intros (? & ? & ? & -> & _). Qed.

Lemma settled_after t d s s' x x' :
  serviced d s s' -> queue s = [t] -> s_xfers s !! t = Some x ->
  x_state x = TRANSFER_STATE_SUBMITTED -> s_xfers s' !! t = Some x' -> settled t x' s'.
Proof.
  intros [Hq _ Hev _ _ _ _] Hqs Hx Hst Hx'. specialize (Hev t). rewrite Hx, Hx' in Hev.
  inversion Hev as [? ? (st & fl & c & -> & Hd & Hnd)|]; subst. rewrite Hqs in Hq.
  destruct d as [|t0 d]; cbn in Hq.
  - right. split; [done|]. cbn. rewrite Hnd; [done|]. set_solver.
  - injection Hq as <- Hq. symmetry in Hq. apply app_eq_nil in Hq as [-> Hq].
    left. split; [done|]. apply Hd. set_solver.
Qed.

(** A queued transfer: the wake-up of the polling thread, and the wait. *)
Lemma wp_wait_settled {A} s t x sgt tmo (k : M est A) Q :
  irq_schedule -> mm_engine (s_eng s) -> dev_bars s -> queue s = [t] ->
  s_xfers s !! t = Some x -> x_state x = TRANSFER_STATE_SUBMITTED -> x_cb x = None -> in_ring sgt x s ->
  (forall s2 x2, mm_engine (s_eng s2) -> s_xfers s2 !! t = Some x2 -> in_ring sgt x2 s2 -> settled t x2 s2 ->
     x_len x2 = x_len x -> frame s s2 -> wp k Q s2) ->
  wp (let* e := get_eng in
      (match e_cmplthp e with
       | Some thp => kdo "xdma_kthread_wakeup" [thp]
       | None => ret tt
       end) >>;
      wait_transfer t tmo >>; k) Q s.
Proof.
  intros Hs Hmm Hb Hq Hx Hst Hcb Hir Hk. apply wp_bind, wp_get_eng, wp_bind.
  apply (wp_mono _ (fun _ s' => exists lg, s' = set_log lg s)).
  { destruct (e_cmplthp _); [by eexists (_ :: _)|]. exists (s_log s). by destruct s. }
  intros _ s1 [lg ->].
  assert (service_ok (set_log lg s)) as Hok.
  { split; [split|apply Hmm|].
    - cbn. rewrite Hq. repeat constructor. set_solver.
    - cbn. rewrite Hq. intros t' ->%list_elem_of_singleton. eauto.
    - intros Hf. cbn in Hf. by rewrite (mm_flush _ Hmm) in Hf. }
  apply wp_bind. eapply wp_mono; [by eapply wp_wait_transfer|]. intros _ s2 [d Hd].
  pose proof (sv_xfers _ _ _ Hd t) as Hev. cbn in Hev. rewrite Hx in Hev.
  inversion Hev as [? x2 Hev2 E1 E2|]; subst. symmetry in E2.
  destruct (evolved_shape _ _ _ Hev2) as [Hsh Hlen].
  assert (frame s s2) as Hf by (destruct (serviced_frame _ _ _ Hd); by split).
  apply (Hk s2 x2); [|done| | |done|done].
  - eapply mm_engine_kin; [apply Hf|done].
  - by eapply in_ring_shape.
  - by eapply settled_after.
Qed.

Lemma wp_wait_turn s t x sgt tmo nents done :
  irq_schedule -> mm_engine (s_eng s) -> dev_bars s -> queue s = [t] ->
  s_xfers s !! t = Some x -> x_state x = TRANSFER_STATE_SUBMITTED -> x_cb x = None -> in_ring sgt x s ->
  wp (let* e := get_eng in
      (match e_cmplthp e with
       | Some thp => kdo "xdma_kthread_wakeup" [thp]
       | None => ret tt
       end) >>;
      wait_transfer t tmo >>; finish_turn t nents done)
    (fun '(rv, nents', done') s' =>
       nents' = nents /\ outcome rv done done' (x_len x) /\ turned t sgt (s_reqs s) s s') s.
Proof.
  intros Hs Hmm Hb Hq Hx Hst Hcb Hir. eapply wp_wait_settled; try done.
  intros s2 x2 Hmm2 Hx2 Hir2 Hset Hlen Hf. eapply wp_mono; [by eapply wp_finish_turn|].
  intros [[rv ne] dn] s3 (? & ? & ?). rewrite <-Hlen. split_and!; [done..|by eapply turned_frame].
Qed.

Lemma init_mm_engine e ring q n :
  mm_engine e -> ring_ok e ring ->
  mm_engine (set_e_desc (Some (chain_ring e q n ring)) (advance n e)).
Proof.
  intros [_ Hd Hs Hf Hid] []. split; [|exact Hd|done|done|exact Hid].
  exists (chain_ring e q n ring). split; cbn; try done.
  - unfold chain_ring. by rewrite upd_range_length.
  - apply Z.mod_pos_bound. lia.
Qed.

Lemma wp_submit_step s r q sgt tmo nents done :
  let t := tfer r 0 in
  let n := take_count (s_eng s) q in
  irq_schedule -> mm_engine (s_eng s) -> dev_bars s -> queue s = [] ->
  s_reqs s !! r = Some q -> req_ok q -> is_Some (s_xfers s !! t) -> is_Some (s_sgts s !! sgt) ->
  nents = r_sw_desc_cnt q - r_sw_desc_idx q ->
  wp (submit_step r sgt false tmo nents done) (fun '(rv, nents', done') s' =>
    nents' = nents - n /\ outcome rv done done' (u32 (seg_off q n)) /\
    turned t sgt (<[r := built_req (s_eng s) q n]> (s_reqs s)) s s') s.
Proof.
  intros t n Hs Hmm Hb Hq Hrq Hqok Hx Hg Hne. destruct (mm_ring _ Hmm) as [ring Hring].
  pose proof (take_count_pos _ _ _ Hring Hqok) as Hn. fold n in Hn.
  assert (n <= nents < 2 ^ 31) as Hnn by (destruct Hqok; unfold n, take_count; lia).
  unfold submit_step. fold t. apply wp_bind.
  eapply wp_mono; [by apply (transfer_init_wp r t s ring q)|]. intros rv s1 (-> & lg & ->). fold n.
  set (s1 := bst r t _ _ _ _ lg). cbn [Z.ltb Z.compare].
  apply wp_bind, (wp_mark_transfer s1 t (built_xfer (s_eng s) q n)).
  { apply lookup_insert_eq. } { cbn. lia. }
  change (x_desc_num (built_xfer _ _ _)) with n.
  set (x2 := marked sgt (nents - n) (built_xfer (s_eng s) q n)).
  set (s2 := set_s_xfers _ s1).
  assert (x_desc_num x2 = n /\ x_cb x2 = None /\ x_desc_virt x2 = e_desc_idx (s_eng s) /\
          x_len x2 = u32 (seg_off q n) /\ (x_last_in_request x2 = true -> x_sgt x2 = Some sgt)) as (Hxn & Hxc & Hxv & Hxl & Hxs).
  { unfold x2, marked. by destruct (nents - n =? 0). }
  assert (mm_engine (s_eng s2)) as Hmm2 by (by apply init_mm_engine).
  assert (queue s2 = []) as Hq2 by done.
  assert (s_xfers s2 !! t = Some x2) as Hx2 by apply lookup_insert_eq.
  assert (forall s', mm_engine (s_eng s') -> queue s' = [] -> s_xdev s' = s_xdev s ->
            s_reqs s' = s_reqs s2 -> s_xfers s' = s_xfers s2 -> s_sgts s' = s_sgts s -> s_cbs s' = s_cbs s ->
            turned t sgt (<[r := built_req (s_eng s) q n]> (s_reqs s)) s s') as Hstop.
  { intros s' ? ? ? ? Ex ? ?. split; try done. - by rewrite Ex, Hx2. - by left. }
  apply wp_bind. eapply (wp_transfer_queue s2 t x2).
  - exact Hx2.
  - split; rewrite Hq2; [constructor|set_solver].
  - rewrite Hxn. lia.
  - intros _ _. apply wp_ret. split_and!; try done; [by left|]. by apply Hstop.
  - intros _ _ _ cpu lg2. apply wp_ret. split_and!; try done; [by left|]. apply Hstop; try done.
    by apply (mm_engine_core (s_eng s2)).
  - intros _ _ _ e3 lg2 (cpu & sh & dq & st & _ & Hst & ->). cbn [Z.ltb Z.compare].
    eapply wp_mono; [eapply (wp_wait_turn _ t (set_x_state TRANSFER_STATE_SUBMITTED x2) sgt)|]; try done.
    + by apply (mm_engine_kin (s_eng s2)).
    + change (queue s2 ++ [t] = [t]). by rewrite Hq2.
    + cbn [s_xfers set_log set_s_eng set_s_xfers est_log]. apply lookup_insert_eq.
    + unfold in_ring. cbn [x_desc_virt x_desc_num x_last_in_request x_sgt set_x_state].
      rewrite Hxn, Hxv. split_and!; [destruct Hring; lia|lia| |].
      * cbn. destruct Hring, Hqok. unfold n, take_count. lia.
      * intros Hl. split; [by apply Hxs|done].
    + cbn [x_len set_x_state]. rewrite Hxl. intros [[rv ne] dn] s4 (? & ? & []). split_and!; try done.
Qed.
End spec.
