(* ===== verification/SubmitProps.v ===== *)
(** * SubmitProps: the synchronous submission as a whole

    [xdma_xfer_submit] terminates, is memory safe and cleans up after itself,
    whatever the device answers and whenever interrupts and
    [xdma_device_offline] arrive. *)

From S2P Require Import Prelude Hw State Desc Engine Service Request Fixtures Chain ServiceSpec ServiceProps RequestSpec QueueProps Submit SubmitSpec.

(** ** The bytes of a request *)

(** The bytes that the rest of the request moves. *)
Definition rest_bytes (q : xdma_request_cb) : Z := seg_off q (r_sw_desc_cnt q - r_sw_desc_idx q).

Lemma seg_off_split e q n m : 0 <= n -> 0 <= m ->
  seg_off q (n + m) = seg_off q n + seg_off (built_req e q n) m.
Proof.
  intros Hn Hm. unfold seg_off. rewrite seqZ_app by lia. rewrite map_app, zsum_app. f_equal. f_equal.
  assert (seqZ (0 + n) m = map (Z.add n) (zrange m)) as ->.
  { apply list_eq. intros i. rewrite list_lookup_fmap. destruct (decide (Z.of_nat i < m)).
    - rewrite !lookup_seqZ_lt by lia. done.
    - by rewrite !lookup_seqZ_ge by lia. }
  rewrite map_map. apply map_ext. intros i. unfold seg, built_req. cbn. do 3 f_equal. lia.
Qed.

Lemma seg_len_range q j : req_ok q -> 0 <= sd_len (seg q j) < 2 ^ 32.
Proof.
  intros []. unfold seg. destruct (zlookup _ _) as [d|] eqn:Hd; [|cbn; lia].
  unfold zlookup in Hd. destruct (_ <? 0); [done|].
  rewrite Forall_lookup in req_sdesc. by apply req_sdesc in Hd as [_ ?].
Qed.

Lemma seg_off_range q n : req_ok q -> 0 <= n -> 0 <= seg_off q n <= n * 2 ^ 32.
Proof.
  intros Hq Hn. revert n Hn. apply natlike_ind; [by cbn|]. intros n Hn IH.
  unfold seg_off in *. rewrite <-Z.add_1_r, zrange_S, map_app, zsum_app by done.
  pose proof (seg_len_range q n Hq). cbn [map zsum foldr]. lia.
Qed.

Section loop.
Context `{Env} `{Callback} `{Sched}.

(** ** The loop *)

Definition left_of (q : xdma_request_cb) : Z := r_sw_desc_cnt q - r_sw_desc_idx q.

Lemma built_req_ok e ring q :
  ring_ok e ring -> req_ok q -> let q' := built_req e q (take_count e q) in
  left_of q' = left_of q - take_count e q /\ 0 <= left_of q' < left_of q /\ (left_of q' <> 0 -> req_ok q').
Proof.
  intros Hr Hq q'. pose proof (take_count_pos _ _ _ Hr Hq) as Hn.
  assert (take_count e q <= left_of q) as Hle by (unfold take_count, left_of; lia).
  assert (left_of q' = left_of q - take_count e q) as E by (unfold left_of, q'; cbn; lia).
  split_and!; [done|lia|lia|]. intros Hz. destruct Hq. unfold left_of in *. split; cbn in *; try done; try lia.
  unfold seg_ep. destruct (e_non_incr_addr e); [done|apply u64_range].
Qed.

Lemma sgts_step_trans sgt s1 s2 s3 : sgts_step sgt s1 s2 -> sgts_step sgt s2 s3 -> sgts_step sgt s1 s3.
Proof.
  intros [E1|(g & Eg & E1)] [E2|(g2 & Eg2 & E2)].
  - left. congruence.
  - right. exists g2. by rewrite <-E1.
  - right. exists g. by rewrite E2.
  - right. exists g. rewrite E1, lookup_insert_eq in Eg2. injection Eg2 as <-.
    by rewrite E2, E1, insert_insert_eq.
Qed.

Lemma sgts_step_live sgt s s' : sgts_step sgt s s' -> is_Some (s_sgts s !! sgt) -> is_Some (s_sgts s' !! sgt).
Proof. intros [->|(g & _ & ->)]; [done|]. rewrite lookup_insert_eq. eauto. Qed.

Lemma done_grows q done done' L n :
  req_ok q -> 0 <= n <= left_of q -> 0 <= done -> done + L < 2 ^ 63 -> seg_off q n <= L ->
  done' = done \/ done' = s64 (done + u32 (seg_off q n)) -> done <= done' <= done + seg_off q n.
Proof.
  intros Hq Hn Hd HL Hs Hdn. pose proof (seg_off_range q n Hq ltac:(lia)) as Ho.
  assert (0 <= u32 (seg_off q n) <= seg_off q n) as Hu.
  { split; [apply u32_range|]. apply Z.mod_le; lia. }
  destruct Hdn as [->| ->]; [lia|]. unfold s64, swrap. rewrite Z.mod_small; lia.
Qed.

Lemma wp_submit_loop r sgt tmo reqs fuel s q nents done :
  irq_schedule -> mm_engine (s_eng s) -> dev_bars s -> queue s = [] ->
  s_reqs s = <[r := q]> reqs -> (left_of q <> 0 -> req_ok q) ->
  is_Some (s_xfers s !! tfer r 0) -> is_Some (s_sgts s !! sgt) ->
  nents = left_of q -> 0 <= nents -> (Z.to_nat nents <= fuel)%nat ->
  0 <= done -> done + rest_bytes q < 2 ^ 63 ->
  wp (submit_loop fuel r sgt false tmo nents done) (fun '(rv, done') s' =>
    rv <= 0 /\ done <= done' <= done + rest_bytes q /\
    exists q', turned (tfer r 0) sgt (<[r := q']> reqs) s s') s.
Proof.
  intros Hs. revert s q nents done.
  induction fuel as [|fuel IH]; intros s q nents done Hmm Hb Hq Hr Hqok Hx Hg Hne Hn0 Hf Hd0 Hd;
    cbn [submit_loop]; destruct (Z.eqb_spec nents 0) as [Hz|Hz]; try lia.
  1, 2: apply wp_ret; split_and!; [done|done| |exists q; split; try done; by left];
    unfold rest_bytes; fold (left_of q); rewrite <-Hne, Hz; change (seg_off q 0) with 0; lia.
  assert (req_ok q) as Hq' by (apply Hqok; lia).
  destruct (mm_ring _ Hmm) as [ring Hring].
  pose proof (take_count_pos _ _ _ Hring Hq') as Hn1.
  set (n := take_count (s_eng s) q) in *.
  destruct (built_req_ok _ _ q Hring Hq') as (El & Hl & Hok'). fold n in El, Hl, Hok'.
  set (q1 := built_req (s_eng s) q n) in *.
  assert (rest_bytes q = seg_off q n + rest_bytes q1) as Erest.
  { unfold rest_bytes at 1. fold (left_of q). replace (left_of q) with (n + left_of q1) by lia.
    rewrite (seg_off_split (s_eng s)) by lia. done. }
  assert (0 <= rest_bytes q1) as Hr1.
  { destruct (decide (left_of q1 = 0)) as [E|E].
    - unfold rest_bytes. fold (left_of q1). by rewrite E.
    - apply (seg_off_range q1); [by apply Hok'|]. fold (left_of q1). lia. }
  apply wp_bind. eapply wp_mono; [eapply (wp_submit_step s r q sgt); try done|].
  { rewrite Hr. apply lookup_insert_eq. }
  intros [[rv ne] dn] s1 (-> & Hout & [Hmm1 Hq1 Hd1 Hr1' Hc1 Hx1 Hg1]). fold n q1 in Hr1', Hout |- *.
  destruct (outcome_done _ _ _ _ Hout) as [Hrv Hdn].
  assert (done <= dn <= done + seg_off q n) as Hdn'.
  { eapply (done_grows q done dn (rest_bytes q)); try done; lia. }
  rewrite Hr, insert_insert_eq in Hr1'.
  destruct (rv <? 0) eqn:Erv.
  - apply wp_ret. split_and!; [done|lia|lia|]. exists q1. by split.
  - eapply wp_mono; [eapply (IH s1 q1)|]; try done; try lia.
    + unfold dev_bars. by rewrite Hd1.
    + by eapply sgts_step_live.
    + intros [rv2 dn2] s2 (? & ? & q2 & [? ? ? ? ? ? ?]). split_and!; [done|lia|lia|].
      exists q2. split; try done; [congruence|congruence|by eapply sgts_step_trans].
Qed.
End loop.

(** ** The whole call *)

Section submit.
Context `{Env} `{Callback} `{Sched}.

(** The table as [pci_map_sg] leaves it after it mapped [n] entries, and what
    the code relies on: lengths and addresses in range, a request that fits in
    an [unsigned int]. *)
Definition mapped (n : Z) (g : sg_table) : sg_table := set_sg_nents n g.

Record mappable (n : Z) (g : sg_table) : Prop := {
  mp_blen : 0 < desc_blen_max < 2 ^ 32;
  mp_sgl : sgl_ok desc_blen_max (mapped n g);
  mp_size : 0 <= SIZEOF_REQ /\ req_size (mapped n g) < 2 ^ 31
}.

(** What [pci_map_sg] answers. *)
Definition map_answer (s : est) (sgt : Z) (g : sg_table) : Z :=
  kernel (s_log s) "pci_map_sg" [sgt; sg_orig_nents g].

Definition total_bytes (g : sg_table) : Z := zsum (map snd (entries g)).

Lemma take_segs_length segs (l : list sw_desc) : take (length segs) l = segs -> (length segs <= length l)%nat.
Proof. intros E. rewrite <-E at 1. rewrite length_take. lia. Qed.

Lemma seg_segs q segs j :
  r_sw_desc_idx q = 0 -> take (length segs) (r_sdesc q) = segs -> 0 <= j < Z.of_nat (length segs) ->
  Some (seg q j) = segs !! Z.to_nat j.
Proof.
  intros Hi E Hj. unfold seg. rewrite Hi. replace (0 + j) with j by lia. unfold zlookup.
  destruct (Z.ltb_spec j 0); [lia|]. pose proof (take_segs_length _ _ E) as Hl.
  rewrite <-E. rewrite lookup_take_lt by lia.
  destruct (lookup_lt_is_Some_2 (r_sdesc q) (Z.to_nat j)) as [d Hd]; [lia|]. by rewrite Hd.
Qed.

Lemma rest_bytes_segs q segs :
  r_sw_desc_idx q = 0 -> r_sw_desc_cnt q = Z.of_nat (length segs) ->
  take (length segs) (r_sdesc q) = segs -> rest_bytes q = zsum (map sd_len segs).
Proof.
  intros Hi Hc E. unfold rest_bytes, seg_off. rewrite Hc, Hi, Z.sub_0_r. f_equal.
  apply list_eq. intros i. rewrite !list_lookup_fmap. destruct (decide (i < length segs)%nat).
  - rewrite lookup_seqZ_lt by lia. cbn. replace i with (Z.to_nat (0 + Z.of_nat i)) at 2 by lia.
    rewrite <-(seg_segs q segs) by (done || lia). done.
  - rewrite lookup_seqZ_ge by lia. by rewrite lookup_ge_None_2 by lia.
Qed.

Lemma built_request_ok sgt ep g s q :
  request_ok s sgt g -> 0 <= ep < 2 ^ 64 -> built_request sgt ep g q ->
  0 <= left_of q /\ (left_of q <> 0 -> req_ok q) /\ rest_bytes q = total_bytes g /\
  0 <= total_bytes g < 2 ^ 59 /\ left_of q = r_sw_desc_cnt q.
Proof.
  intros Hok Hep (_ & Hepq & Hi & _ & Hc & Htake & Hsum & Hlen & Hcap & Hall).
  pose proof (max_sdesc_nonneg _ _ _ Hok) as Hmax.
  pose proof (take_segs_length _ _ Htake) as Hl.
  set (segs := segments desc_blen_max (entries g)) in *.
  assert (left_of q = Z.of_nat (length segs)) as El by (unfold left_of; lia).
  assert (rest_bytes q = total_bytes g) as Er.
  { rewrite (rest_bytes_segs q segs) by done. exact Hsum. }
  assert (left_of q <> 0 -> req_ok q) as Hreq.
  { intros Hz. split; [lia|lia|lia|by rewrite Hepq|exact Hall]. }
  split_and!; [lia|exact Hreq|exact Er| | |lia]; rewrite <-Er;
    (destruct (decide (left_of q = 0)) as [E|E];
     [unfold rest_bytes; fold (left_of q); rewrite E; change (seg_off q 0) with 0; lia|]);
    pose proof (seg_off_range q (left_of q) (Hreq E) ltac:(lia)) as Hr;
    unfold rest_bytes; fold (left_of q); lia.
Qed.

(** What the call leaves behind: an empty queue, no request, and a table that
    is as before or unmapped. *)
Record cleaned (sgt : Z) (s s' : est) : Prop := {
  cl_queue : queue s' = [];
  cl_mm : mm_engine (s_eng s');
  cl_dev : s_xdev s' = s_xdev s;
  cl_reqs : s_reqs s' ⊆ s_reqs s;
  cl_cbs : s_cbs s' = s_cbs s;
  cl_sgts : s_sgts s' = s_sgts s \/ exists g, s_sgts s' !! sgt = Some g /\ sg_nents g = 0
}.

Lemma wp_unmap_sgl s sgt g :
  s_sgts s !! sgt = Some g ->
  wp (unmap_sgl sgt false) (fun _ s' =>
    s_eng s' = s_eng s /\ s_xdev s' = s_xdev s /\ s_reqs s' = s_reqs s /\ s_cbs s' = s_cbs s /\
    exists g', s_sgts s' !! sgt = Some g' /\ sg_nents g' = 0) s.
Proof.
  intros Hg. unfold unmap_sgl. apply wp_bind. eapply wp_get_sgt; [exact Hg|]. cbn [negb andb].
  apply wp_when; intros Hz.
  - apply wp_bind, wp_kdo. eapply wp_upd_sgt; [exact Hg|]. split_and!; try done.
    exists (set_sg_nents 0 g). split; [apply lookup_insert_eq|done].
  - split_and!; try done. exists g. split; [done|]. by rewrite negb_false_iff, Z.eqb_eq in Hz.
Qed.

(** The end of a call: the table is unmapped, the request freed. *)
Lemma wp_cleanup s0 s r q sgt g rv (Q : Z -> est -> Prop) :
  mm_engine (s_eng s) -> queue s = [] -> s_xdev s = s_xdev s0 -> s_cbs s = s_cbs s0 ->
  s_reqs s = <[r := q]> (s_reqs s0) -> s_sgts s !! sgt = Some g ->
  (forall s', cleaned sgt s0 s' -> (exists g', s_sgts s' !! sgt = Some g' /\ sg_nents g' = 0) -> Q rv s') ->
  wp (unmap_sgl sgt false >>; xdma_request_free r >>; ret rv) Q s.
Proof.
  intros Hmm Hq Hd Hc Hr Hg HQ. apply wp_bind. eapply wp_mono; [by apply (wp_unmap_sgl s sgt g)|].
  intros _ s2 (He2 & Hd2 & Hr2 & Hc2 & Hg2). unfold xdma_request_free.
  apply wp_bind, wp_bind, wp_kdo, wp_bind, wp_modify, wp_modify, wp_ret, HQ; [|done].
  split; cbn [s_eng s_xdev s_reqs s_sgts s_cbs set_s_xfers set_s_reqs set_log est_log];
    rewrite ?He2, ?Hd2, ?Hr2, ?Hc2; try done; [|by right].
  rewrite Hr, delete_insert_eq. apply delete_subseteq.
Qed.

(** The part of the call after the table is mapped and the request is built. *)
Lemma wp_submit_request s0 s r q sgt g ep tmo :
  irq_schedule -> mm_engine (s_eng s) -> dev_bars s -> queue s = [] -> 0 <= ep < 2 ^ 64 ->
  request_ok s0 sgt g -> s_sgts s !! sgt = Some g ->
  s_reqs s = <[r := q]> (s_reqs s0) -> s_xdev s = s_xdev s0 -> s_cbs s = s_cbs s0 ->
  is_Some (s_xfers s !! tfer r 0) -> built_request sgt ep g q ->
  wp (let* q := get_req r in
      let* '(rv, done) :=
        submit_loop (Z.to_nat (r_sw_desc_cnt q)) r sgt false tmo (r_sw_desc_cnt q) 0 in
      unmap_sgl sgt false >>; xdma_request_free r >>; ret (if done =? 0 then rv else done))
    (fun rv s' => (rv < 0 \/ 0 <= rv <= total_bytes g) /\ cleaned sgt s0 s' /\
       exists g', s_sgts s' !! sgt = Some g' /\ sg_nents g' = 0) s.
Proof.
  intros Hs Hmm Hb Hq Hep Hok Hg Hr Hd Hc Hx Hbr.
  destruct (built_request_ok _ _ _ _ _ Hok Hep Hbr) as (Hl0 & Hreq & Erest & Htot & Ecnt).
  apply wp_bind. eapply wp_get_req; [rewrite Hr; apply lookup_insert_eq|]. apply wp_bind.
  eapply wp_mono; [eapply (wp_submit_loop r sgt tmo (s_reqs s0) _ s q); try done; lia|].
  intros [rv dn] s1 (Hrv & Hdn & q' & [Hmm1 Hq1 Hd1 Hr1 Hc1 _ Hg1]).
  destruct (sgts_step_live _ _ _ Hg1 (ex_intro _ g Hg)) as [g1 Hg1'].
  eapply (wp_cleanup s0 s1 r q' sgt g1); try done; [by rewrite Hd1|by rewrite Hc1|].
  intros s2 Hcl Hg2. split; [|by split].
  destruct (Z.eqb_spec dn 0); [|right; lia]. destruct (decide (rv = 0)); [right; lia|left; lia].
Qed.

Lemma wp_submit write ep sgt tmo s g :
  irq_schedule -> mm_engine (s_eng s) -> dev_bars s -> queue s = [] -> 0 <= ep < 2 ^ 64 ->
  s_sgts s !! sgt = Some g -> (map_answer s sgt g <> 0 -> mappable (map_answer s sgt g) g) ->
  wp (xdma_xfer_submit write ep sgt false tmo)
    (fun rv s' => (rv < 0 \/ 0 <= rv <= total_bytes (mapped (map_answer s sgt g) g)) /\
                  cleaned sgt s s') s.
Proof.
  intros Hs Hmm Hb Hq Hep Hg Hmap. unfold xdma_xfer_submit.
  set (n := map_answer s sgt g) in *.
  assert (forall lg, cleaned sgt s (set_log lg s)) as Hlog by (intros lg; split; try done; by left).
  apply wp_bind. apply (wp_mono _ (fun rv s' => rv <= 0 /\ s' = s)).
  { unfold check_engine. apply wp_bind, wp_get.
    destruct (negb _); [by apply wp_ret|]. destruct (xdma_device_flag_check _ _); [by apply wp_ret|].
    destruct (negb _); by apply wp_ret. }
  intros rv s' [Hrv ->]. destruct (rv <? 0) eqn:Erv.
  { apply wp_ret. split; [left; lia|]. specialize (Hlog (s_log s)). by destruct s. }
  apply wp_bind. unfold map_sgl. apply wp_bind. eapply wp_get_sgt; [exact Hg|].
  apply wp_bind, wp_kcall. fold (map_answer s sgt g). fold n.
  destruct (Z.eqb_spec n 0) as [Hn|Hn].
  { apply wp_ret. cbn [Z.ltb Z.compare Z.opp]. apply wp_ret. split; [by left|]. apply Hlog. }
  apply wp_bind. eapply wp_upd_sgt; [exact Hg|]. apply wp_ret. cbn [Z.ltb Z.compare].
  fold (mapped n g). match goal with |- wp _ _ ?st => set (s1 := st) end.
  assert (s_sgts s1 !! sgt = Some (mapped n g)) as Hg1 by apply lookup_insert_eq.
  destruct (Hmap Hn) as [Hm1 Hm2 Hm3].
  assert (request_ok s1 sgt (mapped n g)) as Hok by (by split).
  apply wp_bind.
  assert (forall a b : Z, a = 0 /\ b = 0 \/ (a <> 0 \/ b <> 0)) as Hdec by lia.
  edestruct Hdec as [[Hk Hv]|Hkv].
  - eapply wp_mono; [by apply (wp_init_request_oom s1 sgt ep (mapped n g))|].
    intros o s2 (-> & lg & ->). apply wp_bind.
    eapply wp_mono; [by apply (wp_unmap_sgl _ sgt (mapped n g))|].
    intros _ s3 (He & Hd & Hr & Hc & Hg3). apply wp_ret. split; [left; by vm_compute|].
    split; [by rewrite He|by rewrite He|by rewrite Hd|by rewrite Hr|by rewrite Hc|by right].
  - apply (wp_init_request s1 sgt ep (mapped n g)); [done|by destruct Hkv; [right|left]|].
    intros r s2 q Hrq Hbr Hx _ He2 Hd2 Hs2 Hr2 Hc2.
    eapply wp_mono; [eapply (wp_submit_request s1 s2 r q sgt (mapped n g) ep tmo)|]; try done.
    + by rewrite He2.
    + unfold dev_bars. by rewrite Hd2.
    + by rewrite He2.
    + by rewrite Hs2.
    + intros rv2 s3 (? & [] & ?). split; [done|]. split; try done. by right.
Qed.

(** C2: [xdma_xfer_submit] in interrupt mode, on an idle engine that moves
    memory and does not flush at the end of a packet, whose device identifies
    itself at every read and answers only statuses whose text fits in the buffer
    of the log message ([mm_engine]; [interrupted_lost_device] and
    [status_dump_bounds] show what other devices do).  For every other behaviour
    of the device, every failure of the kernel's allocations and mappings, and
    every schedule of interrupts and of [xdma_device_offline] during its waits: it
    returns, accesses memory only inside its arrays, reports an error or a number
    of bytes that is at most what was mapped, and leaves the queue of the engine
    empty, its request freed and its table unmapped. *)
Theorem xdma_xfer_submit_safe write ep sgt tmo s g :
  irq_schedule -> mm_engine (s_eng s) -> dev_bars s -> queue s = [] -> 0 <= ep < 2 ^ 64 ->
  s_sgts s !! sgt = Some g -> (map_answer s sgt g <> 0 -> mappable (map_answer s sgt g) g) ->
  exists rv s', xdma_xfer_submit write ep sgt false tmo s = Some (rv, s') /\
    (rv < 0 \/ 0 <= rv <= total_bytes (mapped (map_answer s sgt g) g)) /\ cleaned sgt s s'.
Proof.
  intros Hs Hmm Hb Hq Hep Hg Hmap.
  pose proof (wp_submit write ep sgt tmo s g Hs Hmm Hb Hq Hep Hg Hmap) as Hwp.
  apply wp_iff in Hwp as (rv & s' & Hrun & Hrv & Hcl). by exists rv, s'.
Qed.

(** *** A lost device *)

(** The registers do not identify the engine any more (all ones, for example,
    after a removal). *)
Definition lost (e : xdma_engine) : Prop :=
  forall lg, Z.land (u32 (io_read lg (reg e "identifier"))) BLOCK_ID_MASK <> BLOCK_ID_HEAD.

(** [abort_transfer] gives up before it unlinks the transfer. *)
Lemma wp_lost_result s t x nents done (Q : Z * Z * Z -> est -> Prop) :
  lost (s_eng s) -> e_streaming (s_eng s) = false -> s_xfers s !! t = Some x -> x_state x = TRANSFER_STATE_SUBMITTED ->
  (forall lg, Q (- ERESTARTSYS, nents, done) (set_log lg s)) ->
  wp (submit_result t nents done) Q s.
Proof.
  intros Hid He Hx Hst HQ. unfold submit_result. apply wp_bind. eapply wp_get_xfer; [done|].
  apply wp_bind, wp_get_eng. rewrite He, Hst. cbn [andb].
  apply wp_bind. unfold abort_transfer. apply wp_bind. unfold engine_status_read. apply wp_bind.
  unfold engine_reg_dump. apply wp_bind, wp_bind, wp_get_eng, wp_read_register.
  cbv beta. rewrite (proj2 (Z.eqb_neq _ _) (Hid _)). cbn [negb]. apply wp_ret. cbn [Z.ltb Z.compare Z.opp EINVAL].
  apply wp_ret, wp_ret, wp_ret, HQ.
Qed.

Definition same_tables (s s' : est) : Prop := forall g, is_Some (s_sgts s !! g) -> is_Some (s_sgts s' !! g).

Lemma same_tables_insert s s' g tab :
  s_sgts s' = <[g := tab]> (s_sgts s) -> same_tables s s'.
Proof. intros E g' Hg. rewrite E. destruct (decide (g = g')) as [->|]; [rewrite lookup_insert_eq; eauto|by rewrite lookup_insert_ne by done]. Qed.

Lemma wp_destroy_ring s t x ring :
  e_desc (s_eng s) = Some ring -> s_xfers s !! t = Some x ->
  0 <= x_desc_virt x -> 0 <= x_desc_num x -> x_desc_virt x + x_desc_num x <= Z.of_nat (length ring) ->
  (x_last_in_request x = true -> exists g, x_sgt x = Some g /\ is_Some (s_sgts s !! g)) ->
  wp (transfer_destroy t) (fun _ s' => queue s' = queue s /\ e_running (s_eng s') = e_running (s_eng s) /\ same_tables s s') s.
Proof.
  intros Hr Hx Hv Hn Hend Hl. unfold transfer_destroy. apply wp_bind. eapply wp_get_xfer; [done|]. apply wp_bind. eapply wp_mono.
  { apply (wp_forM_ring (x_desc_virt x) (x_desc_num x) (fun _ _ => zero_desc) ring); [done|lia|lia|lia]. }
  intros _ s1 ->. destruct (x_last_in_request x && _) eqn:E; [|apply wp_ret; split_and!; [done|done|by intros ?]].
  apply andb_prop in E as [E _]. destruct (Hl E) as (g & -> & tab & Hg).
  apply wp_bind. eapply wp_deref; [reflexivity|]. apply wp_bind. eapply wp_get_sgt; [exact Hg|].
  apply wp_when; intros _; [|split_and!; [done|done|by intros ?]].
  unfold unmap_sgt. apply wp_bind, wp_kdo. eapply wp_upd_sgt; [exact Hg|].
  split_and!; [done|done|]. by eapply same_tables_insert.
Qed.

(** The wait and what follows, when nobody services the engine. *)
Lemma wp_lost_rest s t x ring sgt tmo nents done :
  (forall lg, sched lg = []) -> lost (s_eng s) -> e_streaming (s_eng s) = false ->
  e_desc (s_eng s) = Some ring -> s_xfers s !! t = Some x -> x_state x = TRANSFER_STATE_SUBMITTED ->
  0 <= x_desc_virt x -> 0 <= x_desc_num x -> x_desc_virt x + x_desc_num x <= Z.of_nat (length ring) ->
  (x_last_in_request x = true -> x_sgt x = Some sgt) -> is_Some (s_sgts s !! sgt) ->
  wp (let* e := get_eng in
      (match e_cmplthp e with
       | Some thp => kdo "xdma_kthread_wakeup" [thp]
       | None => ret tt
       end) >>;
      wait_transfer t tmo >>; finish_turn t nents done) (fun '(rv, _, done') s' =>
    rv = - ERESTARTSYS /\ done' = done /\ queue s' = queue s /\ e_running (s_eng s') = e_running (s_eng s) /\
    same_tables s s') s.
Proof.
  intros Hsched Hlost Hstr Hr Hx Hst Hv Hn Hend Hl Hg. apply wp_bind, wp_get_eng, wp_bind.
  apply (wp_mono _ (fun _ s' => exists l, s' = set_log l s)).
  { destruct (e_cmplthp _); [by eexists (_ :: _)|]. exists (s_log s). by destruct s. }
  intros _ ? [lg4 ->]. apply wp_bind. unfold wait_transfer. apply wp_bind. eapply wp_get_xfer; [exact Hx|].
  rewrite bool_decide_eq_true_2 by done. apply wp_bind, wp_kdo, wp_bind, wp_get. rewrite Hsched. cbn [forM]. apply wp_ret.
  match goal with |- wp _ _ (set_log ?l _) => generalize l; intros lg5 end.
  change (set_log lg5 (set_log lg4 s)) with (set_log lg5 s).
  unfold finish_turn. apply wp_bind. apply (wp_lost_result _ t x); [exact Hlost|exact Hstr|exact Hx|done|]. intros lg6.
  apply wp_bind. eapply wp_get_xfer; [exact Hx|]. apply wp_bind, wp_upd_eng, wp_bind.
  eapply wp_mono; [eapply (wp_destroy_ring _ t x ring); [exact Hr|exact Hx|done|done|done|]|].
  - intros E. exists sgt. split; [by apply Hl|exact Hg].
  - intros _ s8 (Hq8 & Hr8 & Hg8). by apply wp_ret.
Qed.

(** One turn on a lost device, when nobody services the engine. *)
Lemma wp_lost_step s r q sgt tmo nents done :
  let t := tfer r 0 in
  (forall lg, sched lg = []) -> (exists ring, ring_ok (s_eng s) ring) -> lost (s_eng s) -> e_streaming (s_eng s) = false ->
  queue s = [] -> xdma_device_flag_check (s_xdev s) XDEV_FLAG_OFFLINE = false ->
  has_bits (e_shutdown (s_eng s)) ENGINE_SHUTDOWN_REQUEST = false ->
  s_reqs s !! r = Some q -> req_ok q -> is_Some (s_xfers s !! t) -> is_Some (s_sgts s !! sgt) ->
  nents = r_sw_desc_cnt q - r_sw_desc_idx q ->
  wp (submit_step r sgt false tmo nents done) (fun '(rv, _, done') s' =>
    rv = - ERESTARTSYS /\ done' = done /\ queue s' = [t] /\ e_running (s_eng s') = true /\ same_tables s s') s.
Proof.
  intros t Hsched [ring Hring] Hlost Hstr Hq Hoff Hsh Hrq Hqok Hx Hg Hne.
  pose proof (take_count_pos _ _ _ Hring Hqok) as Hn. set (n := take_count (s_eng s) q) in *.
  assert (n <= nents < 2 ^ 31 /\ e_desc_idx (s_eng s) + n <= e_desc_max (s_eng s)) as [Hnn Hmax].
  { destruct Hring, Hqok. unfold n, take_count. lia. }
  unfold submit_step. fold t. apply wp_bind.
  eapply wp_mono; [by apply (transfer_init_wp r t s ring q)|]. intros rv s1 (-> & lg & ->). fold n.
  set (s1 := bst r t _ _ _ _ lg). cbn [Z.ltb Z.compare].
  apply wp_bind, (wp_mark_transfer s1 t (built_xfer (s_eng s) q n)).
  { apply lookup_insert_eq. } { cbn. lia. }
  change (x_desc_num (built_xfer _ _ _)) with n.
  set (x2 := marked sgt (nents - n) (built_xfer (s_eng s) q n)). set (s2 := set_s_xfers _ s1).
  assert (x_desc_num x2 = n /\ x_desc_virt x2 = e_desc_idx (s_eng s) /\
          (x_last_in_request x2 = true -> x_sgt x2 = Some sgt)) as (Hxn & Hxv & Hxs).
  { unfold x2, marked. by destruct (nents - n =? 0). }
  apply wp_bind. eapply (wp_transfer_queue s2 t x2).
  - apply lookup_insert_eq.
  - split; change (queue s2) with (queue s); rewrite Hq; [constructor|set_solver].
  - rewrite Hxn. lia.
  - intros _. change (xdma_device_flag_check (s_xdev s2) XDEV_FLAG_OFFLINE) with
      (xdma_device_flag_check (s_xdev s) XDEV_FLAG_OFFLINE). by rewrite Hoff.
  - intros _ _. change (e_shutdown (s_eng s2)) with (e_shutdown (s_eng s)). by rewrite Hsh.
  - intros _ _ _ e3 lg2 (cpu & sh & dq & st & _ & _ & ->). cbn [Z.ltb Z.compare].
    set (s3 := set_log lg2 _). set (x3 := set_x_state TRANSFER_STATE_SUBMITTED x2).
    assert (queue s3 = [t]) as Hq3 by (change (queue s ++ [t] = [t]); by rewrite Hq).
    assert (s_xfers s3 !! t = Some x3) as Hx3 by apply lookup_insert_eq.
    assert (same_tables s s3) as Hg03 by (intros ? Hg0; exact Hg0).
    assert (e_running (s_eng s3) = true) as Hrun3 by reflexivity.
    assert (e_desc (s_eng s3) = Some (chain_ring (s_eng s) q n ring)) as Hd3 by reflexivity.
    assert (lost (s_eng s3) /\ e_streaming (s_eng s3) = false) as [Hlost3 Hstr3] by (split; [exact Hlost|exact Hstr]).
    assert (x_desc_virt x3 = e_desc_idx (s_eng s) /\ x_desc_num x3 = n /\
      (x_last_in_request x3 = true -> x_sgt x3 = Some sgt) /\ x_state x3 = TRANSFER_STATE_SUBMITTED) as (E1 & E2 & E3 & E4) by done.
    assert (Z.of_nat (length (chain_ring (s_eng s) q n ring)) = e_desc_max (s_eng s)) as Hlen.
    { unfold chain_ring. rewrite upd_range_length. apply Hring. }
    clearbody s3 x3. apply (wp_mono _ (fun '(rv, _, done') s' => rv = - ERESTARTSYS /\ done' = done /\ queue s' = queue s3 /\
      e_running (s_eng s') = e_running (s_eng s3) /\ same_tables s3 s')).
    + apply (wp_lost_rest s3 t x3 (chain_ring (s_eng s) q n ring) sgt); try done; rewrite ?E1, ?E2; try (destruct Hring; lia).
      by apply Hg03.
    + intros [[rv ne] dn] s' (? & ? & Hq' & Hr' & Hg'). split_and!; [done|done|congruence|congruence|].
      intros g Hg0. by apply Hg', Hg03.
Qed.

(** C34: a blocking submission whose wait ends (a signal, or the timeout) before
    the engine was serviced, on an idle engine whose device was lost meanwhile:
    [abort_transfer] gives up before it unlinks the transfer or stops the engine.
    The call returns [-ERESTARTSYS] with the engine marked running and the
    transfer still on its queue, and yet the request, whose first transfer this
    is, has been freed: the queue holds freed memory. *)
Theorem interrupted_lost_device (write : bool) ep sgt tmo s g :
  let tab := mapped (map_answer s sgt g) g in
  (forall lg, sched lg = []) -> lost (s_eng s) ->
  (exists ring, ring_ok (s_eng s) ring) -> e_streaming (s_eng s) = false -> queue s = [] -> 0 <= ep < 2 ^ 64 ->
  check_engine (if write then DMA_TO_DEVICE else DMA_FROM_DEVICE) s = Some (0, s) ->
  has_bits (e_shutdown (s_eng s)) ENGINE_SHUTDOWN_REQUEST = false ->
  s_sgts s !! sgt = Some g -> map_answer s sgt g <> 0 -> mappable (map_answer s sgt g) g -> 0 < total_bytes tab ->
  (forall lg args, kernel lg "kzalloc" args <> 0) ->
  exists r s', xdma_xfer_submit write ep sgt false tmo s = Some (- ERESTARTSYS, s') /\
    queue s' = [tfer r 0] /\ s_xfers s' !! tfer r 0 = None /\ s_reqs s' !! r = None /\
    e_running (s_eng s') = true.
Proof.
  intros tab Hsched Hlost Hring Hstr Hq Hep Hce Hsh Hg Hn [Hm1 Hm2 Hm3] Htot Hk.
  assert (Hoff : xdma_device_flag_check (s_xdev s) XDEV_FLAG_OFFLINE = false).
  { revert Hce. unfold check_engine, bind, get. destruct (negb _); [done|]. by destruct (xdma_device_flag_check _ _). }
  set (Q := fun rv s' => rv = - ERESTARTSYS /\ exists r, queue s' = [tfer r 0] /\ s_xfers s' !! tfer r 0 = None /\
    s_reqs s' !! r = None /\ e_running (s_eng s') = true).
  enough (wp (xdma_xfer_submit write ep sgt false tmo) Q s) as Hwp.
  { apply wp_iff in Hwp as (rv & s' & Hrun & -> & r & ?). by exists r, s'. }
  unfold xdma_xfer_submit. apply wp_bind. unfold wp at 1. rewrite Hce. cbn [Z.ltb Z.compare].
  apply wp_bind. unfold map_sgl. apply wp_bind. eapply wp_get_sgt; [exact Hg|].
  apply wp_bind, wp_kcall. fold (map_answer s sgt g). rewrite (proj2 (Z.eqb_neq _ _) Hn).
  apply wp_bind. eapply wp_upd_sgt; [exact Hg|]. apply wp_ret. cbn [Z.ltb Z.compare].
  fold tab. match goal with |- wp _ _ ?st => set (s1 := st) end.
  assert (s_sgts s1 !! sgt = Some tab) as Hg1 by apply lookup_insert_eq.
  assert (request_ok s1 sgt tab) as Hok by (by split).
  apply wp_bind. apply (wp_init_request s1 sgt ep tab); [done|left; apply Hk|].
  intros r s2 q Hrq Hbr Hx _ He2 Hd2 Hs2 Hr2 Hc2.
  destruct (built_request_ok _ _ _ _ _ Hok Hep Hbr) as (Hl0 & Hreq & Erest & _ & Ecnt).
  assert (left_of q <> 0) as Hl.
  { intros Hz. revert Erest. unfold rest_bytes. fold (left_of q). rewrite Hz. change (seg_off q 0) with 0. lia. }
  apply wp_bind. eapply wp_get_req; [exact Hrq|]. rewrite <-Ecnt. apply wp_bind.
  destruct (Z.to_nat (left_of q)) as [|fuel] eqn:Hf; [lia|]. cbn [submit_loop].
  rewrite (proj2 (Z.eqb_neq _ _) Hl). apply wp_bind.
  eapply wp_mono; [apply (wp_lost_step s2 r q sgt); rewrite ?He2, ?Hd2, ?Hs2|];
    [done|exact Hring|exact Hlost|exact Hstr|exact Hq|exact Hoff|exact Hsh|done|by apply Hreq|by eexists|by exists tab|done|].
  intros [[rv ne] dn] s3 (-> & -> & Hq3 & Hr3 & Hg3). cbn [Z.ltb Z.compare Z.opp ERESTARTSYS]. apply wp_ret.
  destruct (Hg3 sgt) as [g3 Hg3']; [by rewrite Hs2; exists tab|].
  apply wp_bind. apply (wp_mono _ (fun _ s' => s_eng s' = s_eng s3 /\ s_xfers s' = s_xfers s3 /\ s_reqs s' = s_reqs s3)).
  { unfold unmap_sgl. apply wp_bind. eapply wp_get_sgt; [exact Hg3'|]. apply wp_when; intros _; [|done].
    apply wp_bind, wp_kdo. by eapply wp_upd_sgt. }
  intros _ s4 (He4 & Hx4 & Hr4). unfold xdma_request_free.
  apply wp_bind, wp_bind, wp_kdo, wp_bind, wp_modify, wp_modify, wp_ret. split; [done|]. exists r.
  cbn [s_eng s_xfers s_reqs set_s_xfers set_s_reqs set_log est_log]. rewrite He4. split_and!; [done| | |done].
  - apply lookup_delete_eq.
  - apply lookup_delete_eq.
Qed.
End submit.

(** ** Witnesses *)

(** A device that completes three descriptors, a kernel that maps three entries
    and allocates at 40, and an interrupt during each wait. *)
Definition submit_env : Env := {|
  io_read _ a :=
    if a =? 0x1000 then 0x1fc10000
    else if a =? 0x1000 + offsetof engine_regs "completed_desc_count" then 3 else 0;
  kernel _ f _ := if String.eqb f "pci_map_sg" then 3 else if String.eqb f "kzalloc" then 40 else 0;
  poll_mode := false;
  interrupt_mode := 0;
  enable_st_c2h_credit := false;
  desc_blen_max := XDMA_DESC_BLEN_MAX;
  HZ := 250;
  SIZEOF_REQ := 400
|}.

Definition one_interrupt : Sched := fun _ => [OpWork].
Definition submit_state : est := demo_state DMA_FROM_DEVICE 8.
Definition submit_sgt : sg_table := mk_sgt [(0x4000, 8); (0x6000, 4); (0x5000, 12)] 3 3.

(** The run: all 24 bytes. *)
Example submit_delivers :
  match @xdma_xfer_submit submit_env no_callback one_interrupt false 0x100 7 false 10 submit_state with
  | Some (rv, s') => rv = 24 /\ queue s' = [] /\ s_reqs s' = s_reqs submit_state
  | None => False
  end.
Proof. vm_compute. done. Qed.

Lemma submit_mm : @mm_engine submit_env (s_eng submit_state).
Proof.
  split; [exists (replicate 8 zero_desc); apply demo_ring_ok| |done|done|by intros].
  apply c2h_dump_ok; [done|cbn; lia].
Qed.

Lemma submit_mappable : @mappable submit_env 3 submit_sgt.
Proof.
  split; [by vm_compute| |by vm_compute]. split; [cbn; lia|].
  repeat apply Forall_cons_2; try apply Forall_nil_2; split_and!; by vm_compute.
Qed.

Lemma xdma_xfer_submit_safe_witness :
  exists rv s', @xdma_xfer_submit submit_env no_callback one_interrupt false 0x100 7 false 10 submit_state
      = Some (rv, s') /\ (rv < 0 \/ 0 <= rv <= 24) /\ @cleaned submit_env 7 submit_state s'.
Proof.
  apply (@xdma_xfer_submit_safe submit_env no_callback one_interrupt false 0x100 7 10 submit_state submit_sgt).
  - by intros lg.
  - apply submit_mm.
  - by eexists.
  - done.
  - lia.
  - done.
  - intros _. apply submit_mappable.
Defined.

(** The same kernel, and a device whose registers read as all ones. *)
Definition lost_env : Env := {|
  io_read _ _ := 0xffffffff;
  kernel _ f _ := if String.eqb f "pci_map_sg" then 3 else if String.eqb f "kzalloc" then 40 else 50;
  poll_mode := false;
  interrupt_mode := 0;
  enable_st_c2h_credit := false;
  desc_blen_max := XDMA_DESC_BLEN_MAX;
  HZ := 250;
  SIZEOF_REQ := 400
|}.

Lemma interrupted_lost_device_witness :
  exists r s', @xdma_xfer_submit lost_env no_callback (fun _ => []) false 0x100 7 false 10 submit_state
      = Some (- ERESTARTSYS, s') /\
    queue s' = [tfer r 0] /\ s_xfers s' !! tfer r 0 = None /\ s_reqs s' !! r = None /\ e_running (s_eng s') = true.
Proof.
  apply (@interrupted_lost_device lost_env no_callback (fun _ => []) false 0x100 7 10 submit_state submit_sgt).
  - done.
  - done.
  - exists (replicate 8 zero_desc). apply demo_ring_ok.
  - done.
  - done.
  - lia.
  - reflexivity.
  - reflexivity.
  - reflexivity.
  - done.
  - split; [by vm_compute| |by vm_compute]. split; [cbn; lia|].
    repeat apply Forall_cons_2; try apply Forall_nil_2; split_and!; by vm_compute.
  - by vm_compute.
  - done.
Defined.
