(* ===== verification/Steady.v ===== *)
(** * Steady: operations that leave asynchronous requests and user pages alone

    A computation of the DMA layer is steady if no run of it changes the table
    of asynchronous requests, answers one, or gives a page of a user buffer back:
    it keeps the relation [steady] ([Keep], [Prelude]).  [keep] proves it for a
    function of the driver by looking at its body. *)

From S2P Require Import Prelude Hw State Desc Engine Service Request Submit.

Definition steady (s s' : est) : Prop := s_caios s' = s_caios s /\ extends (s_log s) (s_log s').

#[export] Instance steady_preorder : PreOrder steady.
Proof. split; [by intros s|]. intros s1 s2 s3 [E1 L1] [E2 L2]. split; [congruence|by etrans]. Qed.

Abbreviation Steady := (Keep steady).

Section primitives.
Context `{Env}.

#[export] Instance steady_kcall f args : TCEq (driver_event (EvCall f args 0)) true -> Steady (kcall f args).
Proof. intros Hp%TCEq_eq s b s' [= _ <-]. split; [done|]. by apply extends_cons. Qed.

#[export] Instance steady_kdo f args : TCEq (driver_event (EvCall f args 0)) true -> Steady (kdo f args).
Proof. intros Hp%TCEq_eq s b s' [= _ <-]. split; [done|]. by apply extends_cons. Qed.

#[export] Instance steady_read a : Steady (read_register a).
Proof. intros s b s' [= _ <-]. split; [done|]. by apply extends_cons. Qed.

#[export] Instance steady_write v a : Steady (write_register v a).
Proof. intros s b s' [= _ <-]. split; [done|]. by apply extends_cons. Qed.
End primitives.

Lemma wp_steady {A} (m : M est A) `{!Steady m} (Q : A -> est -> Prop) s :
  wp m (fun a s' => s_caios s' = s_caios s -> extends (s_log s) (s_log s') -> Q a s') s -> wp m Q s.
Proof. intros HQ. apply (wp_keep steady m). eapply wp_mono; [exact HQ|]. intros a s' Hr [E L]. by apply Hr. Qed.

Section driver.
Context `{Env}.

#[export] Instance steady_upd_eng f : Steady (upd_eng f).
Proof. unfold upd_eng. keep. Qed.
#[export] Instance steady_get_eng : Steady get_eng.
Proof. unfold get_eng. keep. Qed.
#[export] Instance steady_get_xfer t : Steady (get_xfer t).
Proof. unfold get_xfer. keep. Qed.
#[export] Instance steady_upd_xfer t f : Steady (upd_xfer t f).
Proof. unfold upd_xfer, put_xfer. keep. Qed.
#[export] Instance steady_get_sgt g : Steady (get_sgt g).
Proof. unfold get_sgt. keep. Qed.
#[export] Instance steady_upd_sgt g f : Steady (upd_sgt g f).
Proof. unfold upd_sgt. keep. Qed.
#[export] Instance steady_get_req r : Steady (get_req r).
Proof. unfold get_req. keep. Qed.
#[export] Instance steady_upd_req r f : Steady (upd_req r f).
Proof. unfold upd_req. keep. Qed.
#[export] Instance steady_get_cb c : Steady (get_cb c).
Proof. unfold get_cb. keep. Qed.
#[export] Instance steady_upd_desc i f : Steady (upd_desc i f).
Proof. unfold upd_desc. keep. Qed.

#[export] Instance steady_read_reg f : Steady (read_reg f).
Proof. unfold read_reg. keep. Qed.
#[export] Instance steady_read_sgdma f : Steady (read_sgdma_reg f).
Proof. unfold read_sgdma_reg. keep. Qed.
#[export] Instance steady_write_reg v f : Steady (write_reg v f).
Proof. unfold write_reg. keep. Qed.
#[export] Instance steady_write_sgdma v f : Steady (write_sgdma_reg v f).
Proof. unfold write_sgdma_reg. keep. Qed.
#[export] Instance steady_stop : Steady xdma_engine_stop.
Proof. unfold xdma_engine_stop. keep. Qed.
#[export] Instance steady_status_dump : Steady engine_status_dump.
Proof. unfold engine_status_dump. keep. Qed.
#[export] Instance steady_status_read c d : Steady (engine_status_read c d).
Proof. unfold engine_status_read, engine_reg_dump. keep. Qed.
#[export] Instance steady_list_del_head : Steady list_del_head.
Proof. unfold list_del_head. keep. Qed.
#[export] Instance steady_abort t : Steady (transfer_abort t).
Proof. unfold transfer_abort. keep. Qed.
#[export] Instance steady_sum res n done : Steady (sum_results res n done).
Proof. unfold sum_results, read_result_length. keep. Qed.
#[export] Instance steady_unmap_sgl g b : Steady (unmap_sgl g b).
Proof. unfold unmap_sgl. keep. Qed.
#[export] Instance steady_destroy t : Steady (transfer_destroy t).
Proof. unfold transfer_destroy, unmap_sgt, xdma_desc_done. keep. Qed.
#[export] Instance steady_free r : Steady (xdma_request_free r).
Proof. unfold xdma_request_free. keep. Qed.

#[export] Instance steady_completion_result t done : Steady (completion_result t done).
Proof. unfold completion_result. keep. Qed.

#[export] Instance steady_completion_loop fuel req k nents done : Steady (completion_loop fuel req k nents done).
Proof.
  revert k nents done. induction fuel as [|fuel IH]; intros k nents done; cbn [completion_loop]; unfold tfer_at; keep; apply IH.
Qed.

#[export] Instance steady_init_request g ep : Steady (xdma_init_request g ep).
Proof. unfold xdma_init_request, xdma_request_alloc, count_extra, fill_sdesc. keep. Qed.

(** Completion touches neither. *)
#[export] Instance steady_completion cb sgt b : Steady (xdma_xfer_completion cb sgt b).
Proof. unfold xdma_xfer_completion. keep. Qed.
End driver.
