(* ===== verification/AsyncSpec.v ===== *)
(** * AsyncSpec: submission without waiting, and completion

    [xdma_xfer_submit_nowait] up to the return to the caller, the interrupt that
    finishes the transfer, and [xdma_xfer_completion]: the two halves of an
    asynchronous request that fits in one chain of descriptors. *)

From S2P Require Import Prelude Hw State Desc Engine Service Request Fixtures Chain ServiceSpec ServiceProps RequestSpec QueueProps Submit SubmitSpec SubmitProps Steady.

Ltac list_mem := apply (bool_decide_unpack _); vm_compute; exact I.

(** ** Submission *)

Section submit.
Context `{Env} `{Callback}.

(** A request of [num] descriptors and [len] bytes is with the hardware: its
    transfer is the only one of the running engine, it knows the control block
    [cb], and the block knows the request [r]. *)
Record in_flight (cb sgt r num len : Z) (s : est) : Prop := {
  if_queue : queue s = [tfer r 0];
  if_running : e_running (s_eng s) = true;
  if_dequeued : e_desc_dequeued (s_eng s) = 0;
  if_mm : mm_engine (s_eng s);
  if_num : 0 < num < 2 ^ 31;
  if_xfer : exists x, s_xfers s !! tfer r 0 = Some x /\
    x_state x = TRANSFER_STATE_SUBMITTED /\ x_cb x = Some cb /\ x_last_in_request x = true /\
    x_cyclic x = false /\ x_desc_num x = num /\ x_len x = len /\ in_ring sgt x s;
  if_req : exists q, s_reqs s !! r = Some q /\ r_sw_desc_cnt q = num;
  if_cb : exists c, s_cbs s !! cb = Some c /\ cb_req c = Some r
}.

(** Nothing is left of a request that could not be submitted, but the pointer
    of the control block. *)
Record refused (cb sgt : Z) (s s' : est) : Prop := {
  rf_queue : queue s' = [];
  rf_mm : mm_engine (s_eng s');
  rf_dev : s_xdev s' = s_xdev s;
  rf_reqs : s_reqs s' ⊆ s_reqs s;
  rf_cbs : delete cb (s_cbs s') = delete cb (s_cbs s);
  rf_sgts : s_sgts s' = s_sgts s \/ exists g, s_sgts s' !! sgt = Some g /\ sg_nents g = 0
}.

(** The transfer fits behind the last one in the ring. *)
Definition fits (e : xdma_engine) (n : Z) : Prop := n <= e_desc_max e - e_desc_idx e.

Lemma wp_nowait_loop s0 s r q cb c sgt g :
  mm_engine (s_eng s) -> e_running (s_eng s) = false -> queue s = [] ->
  s_reqs s = <[r := q]> (s_reqs s0) -> s_xdev s = s_xdev s0 ->
  delete cb (s_cbs s) = delete cb (s_cbs s0) -> req_ok q -> r_sw_desc_idx q = 0 ->
  fits (s_eng s) (r_sw_desc_cnt q) -> is_Some (s_xfers s !! tfer r 0) ->
  s_sgts s !! sgt = Some g -> s_cbs s !! cb = Some c -> cb_req c = Some r ->
  wp (nowait_loop (Z.to_nat (r_sw_desc_cnt q)) r cb sgt false 0 (r_sw_desc_cnt q))
    (fun rv s' =>
       rv = - EIOCBQUEUED /\ in_flight cb sgt r (r_sw_desc_cnt q) (u32 (rest_bytes q)) s' /\
         s_xdev s' = s_xdev s /\ s_cbs s' = s_cbs s /\ s_sgts s' = s_sgts s /\ s_caios s' = s_caios s /\
         e_xdma_perf (s_eng s') = e_xdma_perf (s_eng s) /\ e_magic (s_eng s') = e_magic (s_eng s) /\
         e_channel (s_eng s') = e_channel (s_eng s) \/
       (rv = - EINVAL \/ rv = - EBUSY) /\ refused cb sgt s0 s') s.
Proof.
  intros Hmm Hrun Hq Hr Hdev Hcbs Hok Hi Hfit Hx Hg Hc Hcr. destruct (mm_ring _ Hmm) as [ring Hring].
  set (n := r_sw_desc_cnt q) in *.
  assert (take_count (s_eng s) q = n) as Hn by (unfold take_count, fits in *; rewrite Hi; lia).
  assert (1 <= n < 2 ^ 31) as Hn1 by (destruct Hok; lia).
  assert (rest_bytes q = seg_off q n) as -> by (unfold rest_bytes; by rewrite Hi, Z.sub_0_r).
  destruct (Z.to_nat n) as [|fuel] eqn:Ef; [lia|]. cbn [nowait_loop].
  destruct (Z.eqb_spec n 0); [lia|]. apply wp_bind. unfold tfer_at. apply wp_bind, wp_guard_ub; [done|]. apply wp_ret.
  set (t := tfer r 0) in *. apply wp_bind. eapply wp_mono; [eapply (transfer_init_wp r t s ring q); try done|].
  { rewrite Hr. apply lookup_insert_eq. }
  intros rv s1 (-> & lg & ->). rewrite Hn. cbn [Z.ltb Z.compare].
  apply wp_bind. eapply wp_upd_xfer; [apply lookup_insert_eq|].
  apply wp_bind. eapply wp_mark_transfer; [apply lookup_insert_eq|cbn; lia|].
  change (x_desc_num (set_x_cb _ _)) with n. rewrite Z.sub_diag.
  set (x3 := marked sgt 0 _). match goal with |- wp _ _ ?st => set (s3 := st) end.
  assert (mm_engine (s_eng s3)) as Hmm3 by (subst s3; rewrite <-Hn; by apply init_mm_engine).
  assert (s_xfers s3 !! t = Some x3) as Hx3 by apply lookup_insert_eq.
  assert (forall s', mm_engine (s_eng s') -> queue s' = [] -> s_xdev s' = s_xdev s ->
            s_reqs s' = s_reqs s3 -> s_sgts s' = s_sgts s -> s_cbs s' = s_cbs s ->
    wp (unmap_sgl sgt false >>; xdma_request_free r >>; ret (- EBUSY)) (fun rv s' =>
       (rv = - EINVAL \/ rv = - EBUSY) /\ refused cb sgt s0 s') s') as Hrefuse.
  { intros s' Hm Hq' Hd' Hr' Hg' Hc'. apply wp_bind.
    eapply wp_mono; [apply (wp_unmap_sgl s' sgt g); by rewrite Hg'|].
    intros _ s2 (He2 & Hd2 & Hr2 & Hc2 & Hg2). unfold xdma_request_free.
    apply wp_bind, wp_bind, wp_kdo, wp_bind, wp_modify, wp_modify, wp_ret. split; [by right|].
    split; cbn [s_eng s_xdev s_reqs s_sgts s_cbs set_s_xfers set_s_reqs set_log est_log].
    - by rewrite He2.
    - by rewrite He2.
    - congruence.
    - rewrite Hr2, Hr'. subst s3. cbn. rewrite Hr, insert_insert_eq, delete_insert_eq. apply delete_subseteq.
    - congruence.
    - by right. }
  apply wp_bind. eapply (wp_transfer_queue s3 t x3 _ Hx3).
  - split; cbn; [by rewrite Hq; constructor|]. rewrite Hq. set_solver.
  - intros E. exfalso. change (n = 0) in E. lia.
  - intros _ _. cbn [Z.ltb Z.compare Z.opp EBUSY]. eapply wp_mono; [by apply Hrefuse|]. intros; by right.
  - intros _ _ _ cpu lg2. cbn [Z.ltb Z.compare Z.opp EBUSY].
    eapply wp_mono; [apply Hrefuse; try done|]. + by apply (mm_engine_core (s_eng s3)). + intros; by right.
  - intros _ _ _ e3 lg2 (cpu & sh & dq & st & Hdq & Hst & ->). cbn [Z.ltb Z.compare].
    assert (forall (Q : Z -> est -> Prop) s', Q (- EIOCBQUEUED) s' -> wp (nowait_loop fuel r cb sgt false (0 + 1) 0) Q s')
      as Hend by (intros; by destruct fuel).
    apply Hend. left. split; [done|]. split; [|done]. split.
    + cbn. by rewrite Hq.
    + done.
    + cbn. by apply Hdq.
    + by apply (mm_engine_kin (s_eng s3)).
    + lia.
    + exists (set_x_state TRANSFER_STATE_SUBMITTED x3). cbn [s_xfers set_log est_log set_s_eng set_s_xfers].
      do 7 (split; [first [apply lookup_insert_eq|done]|]).
      unfold in_ring. destruct Hring. unfold fits in Hfit. split_and!; [cbn; lia|cbn; lia|cbn; lia|].
      intros _. split; [done|]. subst s3. cbn. rewrite Hg. eauto.
    + exists (built_req (s_eng s) q n). split; [|done]. subst s3. cbn. apply lookup_insert_eq.
    + exists c. split; [|done]. by subst s3.
Qed.

(** The number of descriptors of a mapped table. *)
Definition desc_count (g : sg_table) : Z := Z.of_nat (length (segments desc_blen_max (entries g))).

(** What an asynchronous request relies on when [n] entries were mapped: the
    table can be mapped, is not empty, and needs one chain. *)
Definition one_chain (n : Z) (g : sg_table) (e : xdma_engine) : Prop :=
  mappable n g /\ fits e (desc_count (mapped n g)) /\ 0 < total_bytes (mapped n g).

(** The engine's constants are as before. *)
Definition same_engine (e e' : xdma_engine) : Prop :=
  e_xdma_perf e' = e_xdma_perf e /\ e_magic e' = e_magic e /\ e_channel e' = e_channel e.

(** The request is with the hardware; [g] is the mapped table, [c] was the
    control block. *)
Definition accepted (cb sgt : Z) (g : sg_table) (c : xdma_io_cb) (s s' : est) : Prop :=
  exists r, in_flight cb sgt r (desc_count g) (u32 (total_bytes g)) s' /\
    s_sgts s' !! sgt = Some g /\ s_xdev s' = s_xdev s /\ s_caios s' = s_caios s /\
    s_cbs s' = <[cb := set_cb_req (Some r) c]> (s_cbs s) /\ same_engine (s_eng s) (s_eng s').

Definition nowait_outcome (cb sgt : Z) (g : sg_table) (c : xdma_io_cb) (s : est) (rv : Z) (s' : est) : Prop :=
  rv = - EIOCBQUEUED /\ accepted cb sgt g c s s' \/
  rv ∈ [- EINVAL; - EBUSY; - EIO; - ENOMEM] /\ refused cb sgt s s'.

Lemma wp_check_engine dir s (Q : Z -> est -> Prop) :
  Q 0 s -> Q (- EINVAL) s -> Q (- EBUSY) s -> wp (check_engine dir) Q s.
Proof.
  intros Q0 Q1 Q2. unfold check_engine. apply wp_bind, wp_get. repeat (case_match; [by apply wp_ret|]). by apply wp_ret.
Qed.

Lemma wp_submit_nowait cb write ep sgt s g c :
  mm_engine (s_eng s) -> e_running (s_eng s) = false -> queue s = [] -> 0 <= ep < 2 ^ 64 ->
  s_sgts s !! sgt = Some g -> s_cbs s !! cb = Some c ->
  (map_answer s sgt g <> 0 -> one_chain (map_answer s sgt g) g (s_eng s)) ->
  wp (xdma_xfer_submit_nowait cb write ep sgt false)
    (nowait_outcome cb sgt (mapped (map_answer s sgt g) g) c s) s.
Proof.
  intros Hmm Hrun Hq Hep Hg Hc Hmap. unfold xdma_xfer_submit_nowait, nowait_outcome.
  set (n := map_answer s sgt g) in *.
  assert (forall lg, refused cb sgt s (set_log lg s)) as Hlog by (intros lg; split; try done; by left).
  assert (refused cb sgt s s) as Hlog0 by (split; try done; by left).
  apply wp_bind. apply wp_check_engine; [|by cbn; apply wp_ret; right; split; [list_mem|]..].
  cbn [Z.ltb Z.compare]. apply wp_bind. unfold map_sgl. apply wp_bind. eapply wp_get_sgt; [exact Hg|].
  apply wp_bind, wp_kcall. fold (map_answer s sgt g). fold n.
  destruct (Z.eqb_spec n 0) as [Hn|Hn].
  { apply wp_ret. cbn [Z.ltb Z.compare Z.opp]. apply wp_ret. right. split; [list_mem|]. apply Hlog. }
  apply wp_bind. eapply wp_upd_sgt; [exact Hg|]. apply wp_ret. cbn [Z.ltb Z.compare].
  fold (mapped n g). match goal with |- wp _ _ ?st => set (s1 := st) end.
  assert (s_sgts s1 !! sgt = Some (mapped n g)) as Hg1 by apply lookup_insert_eq.
  destruct (Hmap Hn) as ([Hm1 Hm2 Hm3] & Hfit & Hpos).
  assert (request_ok s1 sgt (mapped n g)) as Hok by (by split).
  apply wp_bind.
  assert (forall a b : Z, a = 0 /\ b = 0 \/ (a <> 0 \/ b <> 0)) as Hdec by lia.
  edestruct Hdec as [[Hk Hv]|Hkv].
  - eapply wp_mono; [by apply (wp_init_request_oom s1 sgt ep (mapped n g))|].
    intros o s2 (-> & lg & ->). apply wp_bind.
    eapply wp_mono; [by apply (wp_unmap_sgl _ sgt (mapped n g))|].
    intros _ s3 (He & Hd & Hr & Hcb & Hg3). apply wp_ret. right. split; [list_mem|].
    split; [by rewrite He|by rewrite He|by rewrite Hd|by rewrite Hr|by rewrite Hcb|by right].
  - apply (wp_steady _), (wp_init_request s1 sgt ep (mapped n g)); [done|by destruct Hkv; [right|left]|].
    intros r s2 q Hrq Hbr Hx _ He2 Hd2 Hs2 Hr2 Hc2 Hca2 _.
    destruct (built_request_ok _ _ _ _ _ Hok Hep Hbr) as (Hl0 & Hreq & Erest & Htot & Ecnt).
    assert (left_of q <> 0) as Hlz.
    { intros E. unfold rest_bytes in Erest. fold (left_of q) in Erest. rewrite E in Erest.
      change (seg_off q 0) with 0 in Erest. lia. }
    destruct Hbr as (_ & _ & Hi & _ & Hcnt & _).
    apply wp_bind. eapply wp_upd_req; [exact Hrq|]. apply wp_bind. eapply (wp_upd_cb _ _ c); [cbn; rewrite Hc2; exact Hc|].
    apply wp_bind. eapply wp_get_req; [apply lookup_insert_eq|].
    change (r_sw_desc_cnt (set_r_cb _ _)) with (r_sw_desc_cnt q).
    match goal with |- wp _ _ ?st => set (s3 := st) end.
    eapply wp_mono; [eapply (wp_nowait_loop s s3 r (set_r_cb (Some cb) q) cb _ sgt (mapped n g))|].
    + subst s3. cbn. by rewrite He2.
    + subst s3. cbn. by rewrite He2.
    + subst s3. cbn. by rewrite He2.
    + subst s3. cbn. rewrite Hr2, insert_insert_eq. done.
    + subst s3. cbn. by rewrite Hd2.
    + subst s3. cbn. by rewrite Hc2, delete_insert_eq.
    + destruct (Hreq Hlz). by split.
    + done.
    + subst s3. cbn. rewrite He2. unfold fits, desc_count in *. cbn. rewrite Hcnt. exact Hfit.
    + eauto.
    + subst s3. cbn. by rewrite Hs2.
    + apply lookup_insert_eq.
    + done.
    + intros rv s4 [(-> & Hif & Hd4 & Hc4 & Hs4 & Hca4 & Hp4 & Hma4 & Hch4)|[Hrv Href]].
      * left. split; [done|]. exists r. unfold desc_count. rewrite <-Hcnt.
        change (rest_bytes (set_r_cb (Some cb) q)) with (rest_bytes q) in Hif. rewrite Erest in Hif.
        subst s3. cbn in *. rewrite He2 in *. split_and!; try done; congruence.
      * right. split; [destruct Hrv as [->| ->]; list_mem|done].
Qed.
End submit.

(** ** The interrupt *)

Section service.
Context `{Env} `{Callback}.

(** The transfer [x] was taken off the queue in state [st]; the callback runs now. *)
Definition handed (t : Z) (x : xdma_transfer) (st : transfer_state) (s s1 : est) : Prop :=
  exists e lg c, s1 = fst_ t s e (set_x_state st (set_x_desc_cmpl c x)) lg /\
    e_transfer_list e = [] /\ kin (s_eng s) e /\ extends (s_log s) lg.

Lemma set_cmpl_id x : set_x_desc_cmpl (x_desc_cmpl x) x = x.
Proof. by destruct x. Qed.

(** What the rest of the service does with the empty engine after the callback. *)
Definition wound_up (s s' : est) : Prop :=
  exists l run sh, (e_eop_flush (s_eng s) = false -> run = false) /\
    s' = set_log l (set_s_eng (set_e_running run (set_e_shutdown sh (s_eng s))) s) /\
    extends (s_log s) l.

(** An engine that is idle already, or in a mode where it goes on. *)
Lemma wound_up_refl s : e_eop_flush (s_eng s) = true \/ e_running (s_eng s) = false -> wound_up s s.
Proof.
  intros Hi. exists (s_log s), (e_running (s_eng s)), (e_shutdown (s_eng s)).
  split; [by destruct Hi as [->|]|]. split; [|done]. by destruct s as [? [] ? ? ? ? ? ?].
Qed.

Lemma wp_resume_empty s :
  queue s = [] ->
  wp (let* e := get_eng in when (negb (e_eop_flush e)) (engine_service_resume >>; ret tt))
    (fun _ s' => wound_up s s') s.
Proof.
  intros Hq. apply wp_bind, wp_get_eng, wp_when; intros Hf; [|apply wound_up_refl; left; by rewrite negb_false_iff in Hf].
  apply wp_bind, wp_bind, wp_get_eng. rewrite Hq. destruct (e_running (s_eng s)) eqn:Hr; cbn [negb].
  - apply wp_bind, wp_bind. unfold wp at 1. rewrite xdma_engine_stop_eq. cbn [Z.ltb Z.compare].
    apply wp_bind, wp_kdo, wp_ret, wp_ret, wp_ret.
    exists (EvCall "xlx_wake_up shutdown_wq" [] 0 :: stop_log (s_eng s) ++ s_log s), false, (e_shutdown (s_eng s)).
    split; [done|]. split; [|auto using extends_stop with events]. by destruct s as [? [] ? ? ? ? ? ?].
  - destruct (has_bits _ _); [|apply wp_ret, wp_ret, wound_up_refl; by right].
    apply wp_bind, wp_upd_eng, wp_bind, wp_kdo, wp_ret, wp_ret.
    exists (EvCall "xlx_wake_up shutdown_wq" [] 0 :: s_log s), false, (Z.lor (e_shutdown (s_eng s)) ENGINE_SHUTDOWN_IDLE).
    split; [done|]. split; [|auto with events]. destruct s as [? [] ? ? ? ? ? ?]. cbn in Hr. by subst.
Qed.

(** The end of [service_completed]: the callback, then the engine winds up. *)
Lemma wp_hand_over t x st s e lg c cb (Q : unit -> est -> Prop) :
  e_transfer_list e = [t] -> kin (s_eng s) e -> extends (s_log s) lg -> x_cb x = Some cb -> x_last_in_request x = true ->
  (forall s1, handed t x st s s1 ->
     wp (io_done cb 0) (fun _ s2 => queue s2 = [] /\ forall s3, wound_up s2 s3 -> Q tt s3) s1) ->
  wp (transfer_del t >>; let* e := get_eng in when (negb (e_eop_flush e)) (engine_service_resume >>; ret tt))
    Q (fst_ t s e (set_x_state st (set_x_desc_cmpl c x)) lg).
Proof.
  intros He Hc Hlg Hcb Hl Hio. apply wp_bind. unfold transfer_del. apply wp_bind.
  eapply fst_del_head; [done|]. unfold engine_transfer_completion.
  apply wp_bind, fst_kdo, wp_bind, fst_get_xfer. cbn [x_cb set_x_state set_x_desc_cmpl x_last_in_request].
  rewrite Hcb, Hl. cbn [when]. apply wp_bind. eapply wp_mono.
  - apply Hio. eexists _, _, _. split; [reflexivity|]. split; [done|]. split; [exact Hc|].
    auto with events.
  - intros _ s2 [Hq HQ]. apply wp_ret. eapply wp_mono; [by apply wp_resume_empty|]. intros [] s3. apply HQ.
Qed.

Lemma wp_service_completed_async s t x cb n (Q : unit -> est -> Prop) :
  queue s = [t] -> s_xfers s !! t = Some x -> x_cb x = Some cb -> x_last_in_request x = true ->
  x_cyclic x = false -> 0 < x_desc_num x < 2 ^ 31 -> 0 < n <= x_desc_num x ->
  e_desc_dequeued (s_eng s) = 0 -> e_xdma_perf (s_eng s) = None -> e_eop_flush (s_eng s) = false ->
  dump_ok (s_eng s) ->
  (forall s1, handed t x (final_state (s_eng s) (e_status (s_eng s)) (x_desc_num x) n) s s1 ->
     wp (io_done cb 0) (fun _ s2 => queue s2 = [] /\ forall s3, wound_up s2 s3 -> Q tt s3) s1) ->
  wp (service_completed n) Q s.
Proof.
  intros Hq Hx Hcb Hl Hcyc Hnum Hn Hdq Hperf Hf Hdump Hio. unfold service_completed.
  apply wp_bind, wp_bind, wp_get_eng, wp_ret. rewrite Hq. cbn [head].
  apply wp_bind, wp_bind, wp_bind, wp_get_eng. rewrite Hperf. apply wp_ret, wp_ret.
  apply wp_bind, wp_get_eng. rewrite Hdq, Z.sub_0_r, u32_small by lia.
  apply wp_bind, wp_bind, wp_get_eng. cbn [service_list]. apply wp_bind. eapply wp_get_xfer; [exact Hx|].
  rewrite Hcyc, u32_small by lia. cbn [negb andb]. destruct (Z.ltb_spec (x_desc_num x) n); [lia|]. apply wp_ret.
  rewrite (fst_start t s x Hx) at 1. cbn [engine_service_final_transfer].
  assert (forall e c lg st, e_transfer_list e = queue s -> core e = core (s_eng s) -> e_status e = e_status (s_eng s) -> extends (s_log s) lg ->
    st = final_state (s_eng s) (e_status (s_eng s)) (x_desc_num x) n ->
    wp (transfer_del t >>; let* e := get_eng in when (negb (e_eop_flush e)) (engine_service_resume >>; ret tt))
      Q (fst_ t s e (set_x_state st (set_x_desc_cmpl c x)) lg)) as Hend.
  { intros e c lg st He Hc Hs Hlg ->. eapply wp_hand_over; try done; [by rewrite He|by apply kin_core]. }
  unfold final_state in Hend.
  replace (set_e_status (e_status (s_eng s)) (s_eng s)) with (s_eng s) in Hend by (by destruct (s_eng s)).
  apply wp_bind, wp_bind, fst_get_eng, wp_bind, fst_get_xfer. rewrite u32_small by lia.
  destruct (status_error (s_eng s)); [|destruct (Z.ltb_spec n (x_desc_num x))].
  - apply wp_bind, fst_dump; [done|]. apply wp_bind, fst_err_handle. intros lg Hlg. apply wp_unbind.
    specialize (Hend (set_e_running false (s_eng s)) (x_desc_cmpl x) lg). rewrite set_cmpl_id in Hend. by apply Hend.
  - rewrite Hf. apply wp_bind, fst_upd_xfer, wp_bind, fst_upd_eng, wp_bind, fst_upd_xfer, wp_unbind. by apply Hend.
  - apply wp_bind, fst_upd_xfer, wp_bind, fst_upd_xfer, wp_bind, fst_upd_eng, wp_unbind. by apply Hend.
Qed.

(** A status without an error bit and as many completed descriptors as the
    transfer has: COMPLETED; else FAILED. *)
Lemma wp_engine_service_async s t x cb st n (Q : Z -> est -> Prop) :
  e_running (s_eng s) = true ->
  queue s = [t] -> s_xfers s !! t = Some x -> x_cb x = Some cb -> x_last_in_request x = true ->
  x_cyclic x = false -> 0 < x_desc_num x < 2 ^ 31 -> 0 < n <= x_desc_num x ->
  e_desc_dequeued (s_eng s) = 0 -> e_xdma_perf (s_eng s) = None -> e_eop_flush (s_eng s) = false ->
  dump_ok (s_eng s) ->
  (forall v, answer s "status_rc" v -> v = st) -> (forall v, answer s "completed_desc_count" v -> v = n) ->
  (forall s1, handed t x (final_state (s_eng s) st (x_desc_num x) n) s s1 ->
     wp (io_done cb 0) (fun _ s2 => queue s2 = [] /\ forall s3, wound_up s2 s3 -> Q 0 s3) s1) ->
  wp (engine_service 0) Q s.
Proof.
  intros Hrun Hq Hx Hcb Hl Hcyc Hnum Hn Hdq Hperf Hf Hdump Hst Hc Hio.
  apply wp_engine_service_front; [done|]. intros v m lg Hv Hm Hlg s1.
  pose proof (service_status_seen _ _ _ Hv) as Hseen. apply Hst in Hv as ->. apply Hc in Hm as ->. split; [lia|]. intros _.
  assert (kin (s_eng s) (s_eng s1)) as Hk by (by split).
  eapply wp_service_completed_async; try done.
  { intros v Hv. apply (Hdump v). destruct Hv as [->|Hv]; [exact Hseen|by right]. }
  intros s2 (e & lg2 & c & -> & He & Hce & Hlg2). apply Hio.
  exists e, lg2, c. split; [done|]. split; [done|]. split; by etrans.
Qed.
End service.
