(* ===== verification/Aperture.v ===== *)
(** * Aperture: transfers through a device window

    [xdma_xfer_aperture] moves a scatter-gather list through a window of
    [aperture] bytes of device memory: the device address wraps to the start of
    the window. *)

From S2P Require Import Prelude Hw State Desc Engine Service Request Submit.

(** The local variables of the loops that build one transfer. *)
Record ap_locals := mk_ap {
  a_desc_idx : Z;
  a_desc_cnt : Z;
  a_ep_addr : Z;
  a_addr : Z;
  a_tlen : Z;
  a_sg_offset : Z
}.

Section aperture.
Context `{Env} `{Callback} `{Sched}.

(** The parameters of one call. *)
Variables (req : Z) (dir : dma_dir) (maxlen ep_addr_max desc_max sg_max : Z).

(** The device address and the length of the next descriptor: the address wraps
    to the start of the window, the length stops at its end. *)
Definition ap_next (base ep_addr tlen : Z) : Z * Z :=
  let len := Z.min tlen maxlen in
  let ep_addr := if ep_addr_max <? ep_addr then base else ep_addr in
  let len := if ep_addr_max <? u64 (ep_addr + len) then u32 (ep_addr_max - ep_addr + 1) else len in
  (ep_addr, len).

(** The loop [while (tlen)]. *)
Fixpoint ap_fill (fuel : nat) (a : ap_locals) : M est ap_locals :=
  if a_tlen a =? 0 then ret a
  else
    match fuel with
    | O => ub
    | S fuel =>
        let* q := get_req req in
        let '(ep_addr, len) := ap_next (r_ep_addr q) (a_ep_addr a) (a_tlen a) in
        upd_desc (a_desc_idx a) (xdma_desc_set (a_addr a) ep_addr len dir) >>;
        upd_req req (fun q => set_r_offset (u32 (r_offset q + len)) q) >>;
        upd_xfer (tfer req 0) (fun x => set_x_len (u32 (x_len x + len)) x) >>;
        let a := mk_ap (u32 (a_desc_idx a + 1)) (u32 (a_desc_cnt a + 1)) (u64 (ep_addr + len))
                   (u64 (a_addr a + len)) (u32 (a_tlen a - len)) (u32 (a_sg_offset a + len)) in
        if a_desc_idx a =? desc_max then ret a else ap_fill fuel a
    end.

(** The [for] loop over the table, from entry [sg] with counter [i]; it returns
    the counter. *)
Fixpoint ap_sgs (fuel : nat) (sgl : list (Z * Z)) (i sg : Z) (a : ap_locals) : M est (Z * ap_locals) :=
  if (i <? sg_max) && (a_desc_idx a <? desc_max) then
    match fuel with
    | O => ub
    | S fuel =>
        let* '(addr, len) := deref (zlookup sgl sg) in
        let '(tlen, addr) :=
          if a_sg_offset a =? 0 then (len, addr)
          else (u32 (len - a_sg_offset a), u64 (addr + a_sg_offset a)) in
        let* a := ap_fill (S (Z.to_nat tlen))
                    (mk_ap (a_desc_idx a) (a_desc_cnt a) (a_ep_addr a) addr tlen (a_sg_offset a)) in
        if a_tlen a =? 0 then
          ap_sgs fuel sgl (i + 1) (sg + 1)
            (mk_ap (a_desc_idx a) (a_desc_cnt a) (a_ep_addr a) (a_addr a) (a_tlen a) 0)
        else ret (i, a)
    end
  else ret (i, a).

(** Linking the descriptors: the loop, the last descriptor, the adjacent counts. *)
Definition ap_chain (bus : Z) (d : xdma_desc) : xdma_desc :=
  set_control DESC_MAGIC (set_next_hi (PCI_DMA_H bus) (set_next_lo (PCI_DMA_L bus) d)).
Definition ap_last (d : xdma_desc) : xdma_desc :=
  set_control (Z.lor DESC_MAGIC last_control) (set_next_hi 0 (set_next_lo 0 d)).

Definition ap_link (virt bus desc_cnt : Z) : M est unit :=
  forM (zrange (u32 (desc_cnt - 1))) (fun i =>
    upd_desc (virt + i) (ap_chain (u64 (bus + DESC_SIZE * (i + 1))))) >>;
  upd_desc (virt + u32 (desc_cnt - 1)) ap_last >>;
  upd_xfer (tfer req 0) (set_x_desc_cmpl_th (s32 desc_cnt)) >>;
  forM (zrange desc_cnt) (fun i =>
    upd_desc (virt + i) (fun d =>
      xdma_desc_adjacent (xdma_get_next_adj (u32 (desc_cnt - i - 1)) (next_lo d)) d)).

(** The transfer after its initialisation. *)
Definition ap_init_xfer (e : xdma_engine) (dma_mapped : bool) : xdma_transfer :=
  let x := init_xfer e in
  if dma_mapped then x else set_x_flags XFER_FLAG_NEED_UNMAP x.

(** Building one transfer. *)
Definition ap_build (sgt : Z) (dma_mapped : bool) : M est unit :=
  let t := tfer req 0 in
  let* e := get_eng in
  get_xfer t >>;
  put_xfer t (ap_init_xfer e dma_mapped) >>;
  let* q := get_req req in
  let* g := get_sgt sgt in
  let ep_addr := u64 (r_ep_addr q + Z.land (r_offset q) (u32 (r_aperture q - 1))) in
  let* '(i, a) := ap_sgs (S (Z.to_nat sg_max)) (sg_sgl g) (r_sg_idx q) (r_sg q)
                    (mk_ap (u32 (e_desc_idx e)) 0 ep_addr 0 0 (r_sg_offset q)) in
  upd_req req (set_r_sg_offset (a_sg_offset a)) >>;
  upd_req req (set_r_sg_idx i) >>;
  let desc_cnt := a_desc_cnt a in
  upd_xfer t (set_x_desc_adjacent (s32 desc_cnt)) >>;
  upd_xfer t (set_x_desc_num (s32 desc_cnt)) >>;
  upd_eng (fun e => set_e_desc_used (s32 (e_desc_used e + desc_cnt)) e) >>;
  let* x := get_xfer t in
  ap_link (x_desc_virt x) (x_desc_bus x) desc_cnt >>;
  guard_ub (negb (desc_max =? 0)) >>;
  upd_eng (fun e => set_e_desc_idx (u32 (e_desc_idx e + desc_cnt) `mod` desc_max) e).

(** One turn of [while (req->offset < req->total_len)]. *)
Definition ap_step (sgt : Z) (dma_mapped : bool) (timeout_ms done : Z) : M est (Z * Z) :=
  let t := tfer req 0 in
  ap_build sgt dma_mapped >>;
  let* q := get_req req in
  when (r_offset q =? r_total_len q)
    (upd_xfer t (fun x => set_x_sgt (Some sgt) (set_x_last_in_request true x))) >>;
  let* rv := transfer_queue t in
  if rv <? 0 then ret (rv, done)
  else
    let* e := get_eng in
    (match e_cmplthp e with
     | Some thp => kdo "xdma_kthread_wakeup" [thp]
     | None => ret tt
     end) >>;
    wait_transfer t timeout_ms >>;
    let* x := get_xfer t in
    let* '(rv, done) :=
      match x_state x with
      | TRANSFER_STATE_COMPLETED => ret (0, s64 (done + x_len x))
      | TRANSFER_STATE_FAILED => ret (- EIO, done)
      | _ => abort_transfer t >>; ret (- ERESTARTSYS, done)
      end in
    upd_eng (fun e => set_e_desc_used (s32 (e_desc_used e - x_desc_num x)) e) >>;
    transfer_destroy t >>;
    ret (rv, done).

Fixpoint ap_loop (fuel : nat) (sgt : Z) (dma_mapped : bool) (timeout_ms done : Z) : M est (Z * Z) :=
  let* q := get_req req in
  if r_offset q <? r_total_len q then
    match fuel with
    | O => ub
    | S fuel =>
        let* '(rv, done) := ap_step sgt dma_mapped timeout_ms done in
        if rv <? 0 then ret (rv, done) else ap_loop fuel sgt dma_mapped timeout_ms done
    end
  else ret (0, done).
End aperture.

Section aperture_call.
Context `{Env} `{Callback} `{Sched}.

(** The sum of the lengths of the first [n] entries. *)
Definition table_len (sgl : list (Z * Z)) (n : Z) : M est Z :=
  foldM (zrange n) (fun tlen i =>
    let* '(_, len) := deref (zlookup sgl i) in ret (u32 (tlen + len))) 0.

(** The request: no software descriptors. *)
Definition ap_alloc (sgt ep_addr aperture : Z) : M est (option Z) :=
  let* req := kcall "kzalloc" [SIZEOF_REQ] in
  if req =? 0 then ret None
  else
    let* g := get_sgt sgt in
    modify (fun s =>
      set_s_xfers (<[tfer req 0 := zero_xfer]> (<[tfer req 1 := zero_xfer]> (s_xfers s)))
        (set_s_reqs (<[req := zero_req 0]> (s_reqs s)) s)) >>;
    upd_req req (fun q => set_r_sgt sgt (set_r_ep_addr ep_addr (set_r_aperture aperture q))) >>;
    let* tlen := table_len (sg_sgl g) (sg_nents g) in
    upd_req req (set_r_total_len tlen) >>;
    ret (Some req).

Definition ap_check (dir : dma_dir) : M est Z :=
  let* rv := check_engine dir in
  if rv <? 0 then ret rv
  else let* e := get_eng in ret (if e_streaming e then - EINVAL else 0).

(** [fuel] bounds the transfers of the request. *)
Definition xdma_xfer_aperture (fuel : nat) (write : bool) (ep_addr aperture sgt : Z)
    (dma_mapped : bool) (timeout_ms : Z) : M est Z :=
  let dir := if write then DMA_TO_DEVICE else DMA_FROM_DEVICE in
  let maxlen := Z.min aperture desc_blen_max in
  let ep_addr_max := u64 (ep_addr + aperture - 1) in
  let* rv := ap_check dir in
  if rv <? 0 then ret rv
  else
    let* rv := map_sgl sgt dma_mapped in
    if rv <? 0 then ret rv
    else
      let* g := get_sgt sgt in
      let* e := get_eng in
      let* req := ap_alloc sgt ep_addr aperture in
      match req with
      | None => unmap_sgl sgt dma_mapped >>; ret (- ENOMEM)
      | Some req =>
          let* '(rv, done) := ap_loop req dir maxlen ep_addr_max (u32 (e_desc_max e)) (u32 (sg_nents g))
                                fuel sgt dma_mapped timeout_ms 0 in
          unmap_sgl sgt dma_mapped >>;
          xdma_request_free req >>;
          ret (if done =? 0 then rv else done)
      end.
End aperture_call.
