(* ===== verification/SyncFrame.v ===== *)
(** * SyncFrame: what a synchronous request leaves alone

    No transfer of a synchronous request has a callback.  The operations of the
    DMA layer are compared ([Below]) with themselves on a driver whose callback
    is undefined: where that driver has a result, no callback was called, and the
    result is the same for every callback.  So what holds of the layer without a
    callback ([Steady]) holds of a synchronous request with any. *)

From S2P Require Import Prelude Hw State Desc Engine Service Request Submit Aperture Steady.

(** ** Steady operations, given a steady callback *)

Section steady.
Context `{Env} `{Callback} `{Sched}.
Hypothesis steady_io_done : forall cb err, Steady (io_done cb err).
#[local] Existing Instance steady_io_done.

#[local] Instance steady_mode_config : Steady engine_start_mode_config.
Proof. unfold engine_start_mode_config. keep. Qed.
#[local] Instance steady_start : Steady engine_start.
Proof. unfold engine_start. keep. Qed.
#[local] Instance steady_shutdown : Steady engine_service_shutdown.
Proof. unfold engine_service_shutdown. keep. Qed.
#[local] Instance steady_completion_of t : Steady (engine_transfer_completion t).
Proof. unfold engine_transfer_completion. keep. Qed.
#[local] Instance steady_first : Steady list_first.
Proof. unfold list_first. keep. Qed.
#[local] Instance steady_list fuel t n : Steady (service_list fuel t n).
Proof. revert t n. induction fuel as [|fuel IH]; intros t n; cbn [service_list]; keep; apply IH. Qed.
#[local] Instance steady_transfer_list t n : Steady (engine_service_transfer_list t n).
Proof. unfold engine_service_transfer_list. keep. Qed.
#[local] Instance steady_err_handle t n : Steady (engine_err_handle t n).
Proof. unfold engine_err_handle. keep. Qed.
#[local] Instance steady_eop t res l : Steady (find_eop t res l).
Proof. induction l; cbn [find_eop]; unfold read_result_status; keep. Qed.
#[local] Instance steady_del t : Steady (transfer_del t).
Proof. unfold transfer_del. keep. Qed.
#[local] Instance steady_final t n : Steady (engine_service_final_transfer t n).
Proof. unfold engine_service_final_transfer, add_dequeued. keep. Qed.
#[local] Instance steady_service_perf n : Steady (engine_service_perf n).
Proof. unfold engine_service_perf, upd_perf. keep. Qed.
#[local] Instance steady_resume : Steady engine_service_resume.
Proof. unfold engine_service_resume. keep. Qed.
#[local] Instance steady_completed n : Steady (service_completed n).
Proof. unfold service_completed. keep. Qed.
#[local] Instance steady_service wb : Steady (engine_service wb).
Proof. unfold engine_service. keep. Qed.
#[local] Instance steady_interrupts_enable d m : Steady (channel_interrupts_enable d m).
Proof. unfold channel_interrupts_enable, int_reg, config_bar. keep. Qed.
#[local] Instance steady_work : Steady engine_service_work.
Proof. unfold engine_service_work. keep. Qed.
#[local] Instance steady_wb_poll fuel n t l : Steady (wb_poll fuel n t l).
Proof.
  revert l. induction fuel as [|fuel IH]; intros l; cbn [wb_poll]; unfold wb_poll_once, poll_wb_read, poll_wb_clear; keep; apply IH.
Qed.
#[local] Instance steady_poll fuel n : Steady (engine_service_poll fuel n).
Proof. unfold engine_service_poll, engine_service_wb_monitor. keep. Qed.
#[local] Instance steady_run_op op : Steady (run_op op).
Proof. unfold run_op, engine_offline. keep. Qed.
#[local] Instance steady_wait t tmo : Steady (wait_transfer t tmo).
Proof. unfold wait_transfer. keep. Qed.
#[local] Instance steady_map_sgl g b : Steady (map_sgl g b).
Proof. unfold map_sgl. keep. Qed.
#[local] Instance steady_abort_transfer t : Steady (abort_transfer t).
Proof. unfold abort_transfer. keep. Qed.
#[local] Instance steady_result t n d : Steady (submit_result t n d).
Proof. unfold submit_result. keep. Qed.
#[local] Instance steady_mark t g b n : Steady (mark_transfer t g b n).
Proof. unfold mark_transfer. keep. Qed.
#[local] Instance steady_put_xfer t x : Steady (put_xfer t x).
Proof. unfold put_xfer. keep. Qed.
#[local] Instance steady_desc_init t n : Steady (transfer_desc_init t n).
Proof. unfold transfer_desc_init. keep. Qed.
#[local] Instance steady_build_desc r t v w b j : Steady (build_desc r t v w b j).
Proof. unfold build_desc, clear_result. keep. Qed.
#[local] Instance steady_fill r t n : Steady (transfer_fill r t n).
Proof. unfold transfer_fill, transfer_build, transfer_control, control_set. keep. Qed.
#[local] Instance steady_init r t : Steady (transfer_init r t).
Proof. unfold transfer_init. keep. Qed.
#[local] Instance steady_queue t : Steady (transfer_queue t).
Proof. unfold transfer_queue, list_add_tail. keep. Qed.
#[local] Instance steady_step r g b tmo n d : Steady (submit_step r g b tmo n d).
Proof. unfold submit_step. keep. Qed.
#[local] Instance steady_loop fuel r g b tmo n d : Steady (submit_loop fuel r g b tmo n d).
Proof. revert n d. induction fuel as [|fuel IH]; intros n d; cbn [submit_loop]; keep; apply IH. Qed.
#[local] Instance steady_check dir : Steady (check_engine dir).
Proof. unfold check_engine. keep. Qed.

Lemma steady_submit write ep g b tmo : Steady (xdma_xfer_submit write ep g b tmo).
Proof. unfold xdma_xfer_submit. keep. Qed.

(** The aperture. *)
#[local] Instance steady_ap_fill req dir maxlen top dmax fuel a : Steady (ap_fill req dir maxlen top dmax fuel a).
Proof. revert a. induction fuel as [|fuel IH]; intros a; cbn [ap_fill]; keep; apply IH. Qed.
#[local] Instance steady_ap_sgs req dir maxlen top dmax smax fuel l i k a :
  Steady (ap_sgs req dir maxlen top dmax smax fuel l i k a).
Proof. revert i k a. induction fuel as [|fuel IH]; intros i k a; cbn [ap_sgs]; keep; apply IH. Qed.
#[local] Instance steady_ap_build req dir maxlen top dmax smax g b :
  Steady (ap_build req dir maxlen top dmax smax g b).
Proof. unfold ap_build, ap_link. keep. Qed.
#[local] Instance steady_ap_step req dir maxlen top dmax smax g b tmo d :
  Steady (ap_step req dir maxlen top dmax smax g b tmo d).
Proof. unfold ap_step. keep. Qed.
#[local] Instance steady_ap_loop req dir maxlen top dmax smax fuel g b tmo d :
  Steady (ap_loop req dir maxlen top dmax smax fuel g b tmo d).
Proof. revert d. induction fuel as [|fuel IH]; intros d; cbn [ap_loop]; keep; apply IH. Qed.

Lemma steady_aperture fuel write ep ap g b tmo : Steady (xdma_xfer_aperture fuel write ep ap g b tmo).
Proof. unfold xdma_xfer_aperture, ap_check, ap_alloc, table_len. keep. Qed.
End steady.

(** ** Operations under a callback that is defined more often *)

Section below.
Context `{Env} `{Sched} (c c' : Callback).
Hypothesis below_io_done : forall cb err, Below (c cb err) (c' cb err).

#[local] Instance below_done cb err : Below (@io_done c cb err) (@io_done c' cb err).
Proof. apply below_io_done. Qed.
#[local] Instance below_completion_of t :
  Below (@engine_transfer_completion c t) (@engine_transfer_completion c' t).
Proof. unfold engine_transfer_completion. below. Qed.
#[local] Instance below_list fuel t n : Below (@service_list c fuel t n) (@service_list c' fuel t n).
Proof. revert t n. induction fuel as [|fuel IH]; intros t n; cbn [service_list]; below; apply IH. Qed.
#[local] Instance below_transfer_list t n :
  Below (@engine_service_transfer_list c t n) (@engine_service_transfer_list c' t n).
Proof. unfold engine_service_transfer_list. below. Qed.
#[local] Instance below_del t : Below (@transfer_del c t) (@transfer_del c' t).
Proof. unfold transfer_del. below. Qed.
#[local] Instance below_final t n :
  Below (@engine_service_final_transfer _ c t n) (@engine_service_final_transfer _ c' t n).
Proof. unfold engine_service_final_transfer. below. Qed.
#[local] Instance below_completed n : Below (@service_completed _ c n) (@service_completed _ c' n).
Proof. unfold service_completed. below. Qed.
#[local] Instance below_service wb : Below (@engine_service _ c wb) (@engine_service _ c' wb).
Proof. unfold engine_service. below. Qed.
#[local] Instance below_work : Below (@engine_service_work _ c) (@engine_service_work _ c').
Proof. unfold engine_service_work. below. Qed.
#[local] Instance below_poll fuel n : Below (@engine_service_poll _ c fuel n) (@engine_service_poll _ c' fuel n).
Proof. unfold engine_service_poll. below. Qed.
#[local] Instance below_run_op op : Below (@run_op _ c op) (@run_op _ c' op).
Proof. unfold run_op. below. Qed.
#[local] Instance below_wait t tmo : Below (@wait_transfer _ c _ t tmo) (@wait_transfer _ c' _ t tmo).
Proof. unfold wait_transfer. below. Qed.
#[local] Instance below_step r g b tmo n d :
  Below (@submit_step _ c _ r g b tmo n d) (@submit_step _ c' _ r g b tmo n d).
Proof. unfold submit_step. below. Qed.
#[local] Instance below_loop fuel r g b tmo n d :
  Below (@submit_loop _ c _ fuel r g b tmo n d) (@submit_loop _ c' _ fuel r g b tmo n d).
Proof. revert n d. induction fuel as [|fuel IH]; intros n d; cbn [submit_loop]; below; apply IH. Qed.

Lemma below_submit write ep g b tmo :
  Below (@xdma_xfer_submit _ c _ write ep g b tmo) (@xdma_xfer_submit _ c' _ write ep g b tmo).
Proof. unfold xdma_xfer_submit. below. Qed.

#[local] Instance below_ap_step req dir maxlen top dmax smax g b tmo d :
  Below (@ap_step _ c _ req dir maxlen top dmax smax g b tmo d) (@ap_step _ c' _ req dir maxlen top dmax smax g b tmo d).
Proof. unfold ap_step. below. Qed.
#[local] Instance below_ap_loop req dir maxlen top dmax smax fuel g b tmo d :
  Below (@ap_loop _ c _ req dir maxlen top dmax smax fuel g b tmo d)
        (@ap_loop _ c' _ req dir maxlen top dmax smax fuel g b tmo d).
Proof. revert d. induction fuel as [|fuel IH]; intros d; cbn [ap_loop]; below; apply IH. Qed.

Lemma below_aperture fuel write ep ap g b tmo :
  Below (@xdma_xfer_aperture _ c _ fuel write ep ap g b tmo) (@xdma_xfer_aperture _ c' _ fuel write ep ap g b tmo).
Proof. unfold xdma_xfer_aperture. below. Qed.
End below.

(** ** Synchronous requests *)

Section sync.
Context `{Env} `{Sched} (c : Callback).

(** A driver without a callback. *)
Definition uncalled : Callback := fun _ _ => ub.

Lemma steady_uncalled cb err : Steady (@io_done uncalled cb err).
Proof. apply keep_ub. Qed.

Lemma wp_uncalled {A} (m m' : M est A) (Q : A -> est -> Prop) s :
  Steady m -> Below m m' -> wp m Q s ->
  wp m' (fun a s' => (s_caios s' = s_caios s /\ extends (s_log s) (s_log s')) /\ Q a s') s.
Proof.
  intros Hm Hb HQ. apply (wp_below m m'). apply wp_steady; [exact Hm|]. eapply wp_mono; [exact HQ|].
  intros a s' Ha Hc Hl. by split.
Qed.

Lemma wp_submit_steady write ep g b tmo (Q : Z -> est -> Prop) s :
  wp (@xdma_xfer_submit _ uncalled _ write ep g b tmo) Q s ->
  wp (@xdma_xfer_submit _ c _ write ep g b tmo)
     (fun a s' => (s_caios s' = s_caios s /\ extends (s_log s) (s_log s')) /\ Q a s') s.
Proof.
  apply wp_uncalled; [apply steady_submit, steady_uncalled|]. apply below_submit. intros cb err. apply below_ub.
Qed.

Lemma wp_aperture_steady fuel write ep ap g b tmo (Q : Z -> est -> Prop) s :
  wp (@xdma_xfer_aperture _ uncalled _ fuel write ep ap g b tmo) Q s ->
  wp (@xdma_xfer_aperture _ c _ fuel write ep ap g b tmo)
     (fun a s' => (s_caios s' = s_caios s /\ extends (s_log s) (s_log s')) /\ Q a s') s.
Proof.
  apply wp_uncalled; [apply steady_aperture, steady_uncalled|]. apply below_aperture. intros cb err. apply below_ub.
Qed.
End sync.
