(* ===== verification/ApertureProps.v ===== *)
(** * ApertureProps: the bytes that a transfer through a window moves

    The first transfer of an aperture request, against a reference by bytes: byte
    [j] of the scatter list goes to byte [j mod aperture] of the window.  The
    descriptors are compared by the bytes that they cover. *)

From S2P Require Import Prelude Hw State Desc Engine Service Request Fixtures Chain Submit Aperture.

(** ** The reference *)

(** A piece: host address, device address, length. *)
Definition ap_piece : Type := Z * Z * Z.

(** The pairs of host and device addresses that pieces cover. *)
Definition covered (p : ap_piece) : list (Z * Z) :=
  let '(host, dev, len) := p in map (fun k => (host + k, dev + k)) (zrange len).
Definition coverage (ps : list ap_piece) : list (Z * Z) := concat (map covered ps).
Definition ap_total (ps : list ap_piece) : Z := zsum (map snd ps).

(** The bytes of a scatter list. *)
Definition entry_bytes (e : Z * Z) : list Z := map (Z.add e.1) (zrange e.2).
Definition table_bytes (l : list (Z * Z)) : list Z := concat (map entry_bytes l).

(** [n] bytes of a cyclic window, from offset [o] on. *)
Definition window (base size o n : Z) : list Z := map (fun j => base + (o + j) `mod` size) (zrange n).

Lemma zrange_add n m : 0 <= n -> 0 <= m -> zrange (n + m) = zrange n ++ map (Z.add n) (zrange m).
Proof.
  intros Hn Hm. rewrite seqZ_app by lia. f_equal.
  change (map (Z.add n) (zrange m)) with (Z.add n <$> zrange m). rewrite fmap_add_seqZ. f_equal. lia.
Qed.

Lemma window_add base size o n m :
  0 <= n -> 0 <= m -> window base size o (n + m) = window base size o n ++ window base size (o + n) m.
Proof.
  intros Hn Hm. unfold window. rewrite zrange_add, map_app, map_map by done. f_equal.
  apply map_ext. intros j. do 2 f_equal. lia.
Qed.

Lemma window_cyclic base size o n : 0 < size -> window base size (o `mod` size) n = window base size o n.
Proof.
  intros Hs. unfold window. apply map_ext. intros j. by rewrite Zplus_mod_idemp_l.
Qed.

(** A piece that stays inside of the window. *)
Lemma covered_window base size o host len :
  0 <= o -> 0 <= len -> o + len <= size ->
  covered (host, base + o, len) = zip (map (Z.add host) (zrange len)) (window base size o len).
Proof.
  intros Ho Hl Hs. unfold covered, window. rewrite zip_with_fmap_l, zip_with_fmap_r.
  rewrite zip_with_diag. apply map_ext_in. intros k Hk%list_elem_of_In%elem_of_zrange.
  rewrite Z.mod_small by lia. f_equal. lia.
Qed.

Definition good_piece (base size maxlen : Z) (p : ap_piece) : Prop :=
  let '(_, dev, len) := p in 0 < len <= maxlen /\ base <= dev /\ dev + len <= base + size.

(** The ring after the pieces were stored from slot [i] on. *)
Fixpoint put_pieces (dir : dma_dir) (i : Z) (ps : list ap_piece) (ring : list xdma_desc) : list xdma_desc :=
  match ps with
  | [] => ring
  | (host, dev, len) :: ps =>
      put_pieces dir (i + 1) ps (upd_range i 1 (fun _ => xdma_desc_set host dev len dir) ring)
  end.

Lemma ap_total_pos base size maxlen ps :
  Forall (good_piece base size maxlen) ps -> 0 <= ap_total ps /\ (ps <> [] -> 0 < ap_total ps).
Proof.
  induction 1 as [|[[host dev] len] ps [Hl _] _ IH]; [done|].
  change (ap_total ((host, dev, len) :: ps)) with (len + ap_total ps). lia.
Qed.

Section fill.
Context `{Env} `{Callback} `{Sched}.
Variables (r : Z) (s0 : est) (dir : dma_dir) (base size maxlen : Z).
Let t := tfer r 0.

(** What a call with a window relies on. *)
Record window_ok : Prop := {
  wo_base : 0 <= base;
  wo_size : 0 < size < 2 ^ 32;
  wo_top : base + 2 * size <= 2 ^ 64;
  wo_maxlen : 0 < maxlen <= size
}.

Lemma ap_next_spec o tlen :
  window_ok -> 0 <= o <= size -> 0 < tlen ->
  let o1 := if o =? size then 0 else o in
  ap_next maxlen (base + size - 1) base (base + o) tlen = (base + o1, Z.min (Z.min tlen maxlen) (size - o1)).
Proof.
  intros [Hb Hs Ht Hm] Ho Htl. unfold ap_next.
  assert (Hep : (if base + size - 1 <? base + o then base else base + o) = base + (if o =? size then 0 else o)).
  { destruct (Z.ltb_spec (base + size - 1) (base + o)), (Z.eqb_spec o size); lia. }
  rewrite Hep. set (o1 := if o =? size then 0 else o).
  assert (Ho1 : 0 <= o1 < size) by (unfold o1; destruct (Z.eqb_spec o size); lia).
  cbn zeta. f_equal. rewrite u64_small by lia.
  destruct (Z.ltb_spec (base + size - 1) (base + o1 + Z.min tlen maxlen)); [|lia].
  rewrite u32_small; lia.
Qed.

Lemma wp_upd_desc_bst ring x q lg i f (Q : unit -> est -> Prop) :
  0 <= i < Z.of_nat (length ring) ->
  Q tt (bst r t s0 (upd_range i 1 (fun _ => f) ring) x q lg) ->
  wp (upd_desc i f) Q (bst r t s0 ring x q lg).
Proof.
  intros Hi HQ. eapply wp_mono; [apply (wp_upd_desc_range i f ring); [done|done]|]. intros [] s' ->. exact HQ.
Qed.

(** The counters of the loop that fills descriptors. *)
Record fill_ok (a : ap_locals) (o : Z) (ring : list xdma_desc) (x : xdma_transfer) (q : xdma_request_cb) : Prop := {
  fo_tlen : 0 <= a_tlen a;
  fo_idx : 0 <= a_desc_idx a < Z.of_nat (length ring);
  fo_small : Z.of_nat (length ring) < 2 ^ 31;
  fo_ep : a_ep_addr a = base + o;
  fo_o : 0 <= o <= size;
  fo_base : r_ep_addr q = base;
  fo_addr : 0 <= a_addr a;
  fo_addr_top : a_addr a + a_tlen a < 2 ^ 64;
  fo_cnt : 0 <= a_desc_cnt a <= a_desc_idx a;
  fo_sg : 0 <= a_sg_offset a;
  fo_sg_top : a_sg_offset a + a_tlen a < 2 ^ 32;
  fo_off : 0 <= r_offset q;
  fo_off_top : r_offset q + a_tlen a < 2 ^ 32;
  fo_len : 0 <= x_len x;
  fo_len_top : x_len x + a_tlen a < 2 ^ 32
}.

(** The state after the pieces [ps]. *)
Definition filled_a (a : ap_locals) (o' : Z) (ps : list ap_piece) : ap_locals :=
  let n := Z.of_nat (length ps) in
  mk_ap (a_desc_idx a + n) (a_desc_cnt a + n) (base + o') (a_addr a + ap_total ps)
    (a_tlen a - ap_total ps) (a_sg_offset a + ap_total ps).

Definition filled_state (a : ap_locals) (ps : list ap_piece) ring x q lg : est :=
  bst r t s0 (put_pieces dir (a_desc_idx a) ps ring) (set_x_len (x_len x + ap_total ps) x)
    (set_r_offset (r_offset q + ap_total ps) q) lg.

(** How often a run of [p] bytes from offset [o] on can reach the end of the
    window or the greatest length of a descriptor. *)
Definition hops (o p : Z) : Z := (o `mod` size + p) / size + p / maxlen.

Lemma hops_add o o' p p' :
  window_ok -> 0 <= p -> 0 <= p' -> o' `mod` size = (o + p) `mod` size -> hops o p + hops o' p' <= hops o (p + p').
Proof using Type. clear t r.
  intros [_ Hs _ Hm] Hp Hp' Ho'. unfold hops.
  assert ((o `mod` size + p) / size + (o' `mod` size + p') / size = (o `mod` size + (p + p')) / size).
  { rewrite Ho', <- Zplus_mod_idemp_l. set (b := o `mod` size + p).
    replace (o `mod` size + (p + p')) with (b `mod` size + p' + b / size * size)
      by (pose proof (Z_div_mod_eq_full b size); unfold b in *; lia).
    rewrite Z.div_add by lia. lia. }
  assert (p / maxlen + p' / maxlen <= (p + p') / maxlen).
  { apply Z.div_le_lower_bound; [lia|]. pose proof (Z.mul_div_le p maxlen). pose proof (Z.mul_div_le p' maxlen). lia. }
  lia.
Qed.

Lemma hops_nonneg o p : window_ok -> 0 <= p -> 0 <= hops o p.
Proof using Type. clear t r.
  intros [_ Hs _ Hm] Hp. unfold hops. pose proof (Z.mod_pos_bound o size).
  assert (0 <= (o `mod` size + p) / size) by (apply Z.div_pos; lia).
  assert (0 <= p / maxlen) by (apply Z.div_pos; lia). lia.
Qed.

Lemma hops_mono o p p' : window_ok -> 0 <= p <= p' -> hops o p <= hops o p'.
Proof using Type. clear t r.
  intros Hw Hp. pose proof (hops_add o (o + p) p (p' - p) Hw) as Ha. pose proof (hops_nonneg (o + p) (p' - p) Hw).
  replace (p + (p' - p)) with p' in Ha by lia. lia.
Qed.

(** A piece that does not end its entry. *)
Lemma hops_piece o o1 len tlen :
  window_ok -> 0 <= o <= size -> o1 = (if o =? size then 0 else o) ->
  len = Z.min (Z.min tlen maxlen) (size - o1) -> 0 < len < tlen -> 1 <= hops o len.
Proof using Type. clear t r.
  intros [_ Hs _ Hm] Ho -> -> Hl. unfold hops.
  assert (Ho1 : o `mod` size = if o =? size then 0 else o).
  { destruct (Z.eqb_spec o size) as [->|]; [apply Z_mod_same_full|apply Z.mod_small; lia]. }
  set (o1 := if o =? size then 0 else o) in *. set (len := Z.min _ (size - o1)) in *. rewrite Ho1.
  assert (Hr : 0 <= o1 < size) by (unfold o1; destruct (Z.eqb_spec o size); lia).
  assert (0 <= (o1 + len) / size) by (apply Z.div_pos; lia). assert (0 <= len / maxlen) by (apply Z.div_pos; lia).
  destruct (decide (len = maxlen)) as [->|Hne]; [rewrite (Z_div_same_full maxlen) by lia; lia|].
  replace (o1 + len) with size by (unfold len in *; lia). rewrite Z_div_same_full by lia. lia.
Qed.

(** The pieces cover the next bytes of the entry and of the window. *)
Record pieces_ok (a : ap_locals) (o o' : Z) (ps : list ap_piece) : Prop := {
  po_total : 0 <= ap_total ps <= a_tlen a;
  po_good : Forall (good_piece base size maxlen) ps;
  po_cover : coverage ps = zip (map (Z.add (a_addr a)) (zrange (ap_total ps))) (window base size o (ap_total ps));
  po_o : 0 <= o' <= size;
  po_mod : o' `mod` size = (o + ap_total ps) `mod` size;
  po_count : Z.of_nat (length ps) <= (if ap_total ps <? a_tlen a then 0 else 1) + hops o (ap_total ps)
}.

Lemma pieces_nil a o : window_ok -> 0 <= o <= size -> 0 <= a_tlen a -> pieces_ok a o o [].
Proof.
  intros Hw Ho Ht. split; cbn; try done; [by rewrite Z.add_0_r|].
  pose proof (hops_nonneg o 0 Hw). destruct (_ <? _); lia.
Qed.

Lemma pieces_cons a o o' len o1 ps :
  window_ok -> 0 <= o <= size -> o1 = (if o =? size then 0 else o) ->
  0 < a_tlen a -> len = Z.min (Z.min (a_tlen a) maxlen) (size - o1) ->
  let a1 := mk_ap (a_desc_idx a + 1) (a_desc_cnt a + 1) (base + (o1 + len)) (a_addr a + len)
              (a_tlen a - len) (a_sg_offset a + len) in
  pieces_ok a1 (o1 + len) o' ps -> pieces_ok a o o' ((a_addr a, base + o1, len) :: ps).
Proof.
  intros Hw Ho Ho1 Htl Hmin a1 [Ht Hg Hc Ho' Hm Hn]. pose proof Hw as [Hb Hs _ Hml].
  assert (Hlen : 0 < len <= Z.min (Z.min (a_tlen a) maxlen) (size - o1)) by (subst o1; destruct (Z.eqb_spec o size); lia).
  assert (Hm1 : o `mod` size = o1 `mod` size).
  { subst o1. destruct (Z.eqb_spec o size) as [->|]; [|done]. rewrite Z_mod_same_full, Z.mod_0_l; lia. }
  assert (Hr1 : 0 <= o1 <= size) by (subst o1; destruct (Z.eqb_spec o size); lia).
  assert (Htot : ap_total ((a_addr a, base + o1, len) :: ps) = len + ap_total ps) by done.
  assert (Hmod : (o1 + len) `mod` size = (o + len) `mod` size).
  { by rewrite <- Zplus_mod_idemp_l, <- Hm1, Zplus_mod_idemp_l. }
  split; rewrite ?Htot; cbn [a_tlen a1] in *; [lia| | |done| |].
  - constructor; [|done]. cbn. lia.
  - change (coverage ((a_addr a, base + o1, len) :: ps)) with (covered (a_addr a, base + o1, len) ++ coverage ps). rewrite Hc. cbn [a_addr a1].
    rewrite (covered_window base size) by lia.
    rewrite zrange_add, map_app, window_add by lia.
    rewrite (zip_with_app pair) by (unfold window; rewrite !length_map; done). f_equal.
    + do 1 f_equal. rewrite <- (window_cyclic base size o), <- (window_cyclic base size o1) by lia. by rewrite Hm1.
    + f_equal.
      * rewrite map_map. apply map_ext. intros k. lia.
      * rewrite <- (window_cyclic base size (o + len)), <- (window_cyclic base size (o1 + len)) by lia.
        by rewrite Hmod.
  - rewrite Hm, Z.add_assoc, <- (Zplus_mod_idemp_l (o + len)), <- (Zplus_mod_idemp_l (o1 + len)). f_equal. f_equal.
    by rewrite <- Zplus_mod_idemp_l, <- Hm1, Zplus_mod_idemp_l.
  - pose proof (hops_add o (o1 + len) len (ap_total ps) Hw ltac:(lia) ltac:(lia) Hmod) as Ha. cbn [length].
    destruct (Z.eqb_spec len (a_tlen a)) as [Hl|Hl].
    + assert (ps = []) as ->.
      { destruct (ap_total_pos _ _ _ ps Hg) as [_ Hp]. destruct ps; [done|]. specialize (Hp ltac:(done)). lia. }
      cbn in *. pose proof (hops_nonneg o (len + 0) Hw). destruct (Z.ltb_spec (len + 0) (a_tlen a)); lia.
    + pose proof (hops_piece o o1 len (a_tlen a) Hw Ho Ho1 Hmin ltac:(lia)).
      destruct (Z.ltb_spec (ap_total ps) (a_tlen a - len)), (Z.ltb_spec (len + ap_total ps) (a_tlen a)); lia.
Qed.

Lemma length_put_pieces i ps ring : length (put_pieces dir i ps ring) = length ring.
Proof.
  revert i ring. induction ps as [|[[host dev] len] ps IH]; intros i ring; [done|]. cbn. by rewrite IH, upd_range_length.
Qed.

Lemma filled_a_nil a o : a_ep_addr a = base + o -> filled_a a o [] = a.
Proof. intros He. unfold filled_a. cbn. rewrite <- He, !Z.add_0_r, Z.sub_0_r. by destruct a. Qed.

Lemma filled_state_nil a ring x q lg : filled_state a [] ring x q lg = bst r t s0 ring x q lg.
Proof. unfold filled_state. cbn. rewrite !Z.add_0_r. by destruct x, q. Qed.

Lemma wp_ap_fill fuel a o ring x q lg (Q : ap_locals -> est -> Prop) :
  window_ok -> fill_ok a o ring x q -> a_tlen a <= Z.of_nat fuel ->
  (forall o' ps, pieces_ok a o o' ps ->
     let a' := filled_a a o' ps in
     a_desc_idx a' <= Z.of_nat (length ring) ->
     a_tlen a' = 0 \/ a_desc_idx a' = Z.of_nat (length ring) ->
     Q a' (filled_state a ps ring x q lg)) ->
  wp (ap_fill r dir maxlen (base + size - 1) (Z.of_nat (length ring)) fuel a) Q (bst r t s0 ring x q lg).
Proof.
  revert a o ring x q. induction fuel as [|fuel IH]; intros a o ring x q Hw Hf Hfuel HQ.
  all: assert (Hdone : a_tlen a = 0 -> Q a (bst r t s0 ring x q lg)).
  1, 3: intros Hz; destruct Hf; specialize (HQ o [] (pieces_nil a o Hw fo_o0 fo_tlen0)); cbn zeta in HQ;
    rewrite filled_a_nil, filled_state_nil in HQ by done; apply HQ; [lia|by left].
  { destruct Hf. assert (a_tlen a = 0) as Hz by lia. cbn [ap_fill]. rewrite Hz, Z.eqb_refl. apply wp_ret. by apply Hdone. }
  cbn [ap_fill]. destruct (Z.eqb_spec (a_tlen a) 0) as [Hz|Hnz]; [apply wp_ret; by apply Hdone|]. clear Hdone.
  pose proof Hf as [Htl Hidx Hsm Hep Ho Hb Had Hadt Hcnt Hsg Hsgt Hoff Hofft Hlen Hlent].
  pose proof Hw as [Hwb Hws Hwt Hwm].
  apply wp_bind. apply bst_get_req. rewrite Hb, Hep, ap_next_spec by (done || lia).
  set (o1 := if o =? size then 0 else o). set (len := Z.min (Z.min (a_tlen a) maxlen) (size - o1)).
  assert (Ho1 : 0 <= o1 < size) by (unfold o1; destruct (Z.eqb_spec o size); lia).
  assert (Hl : 0 < len <= a_tlen a /\ len <= maxlen /\ o1 + len <= size) by (unfold len; lia).
  apply wp_bind. apply wp_upd_desc_bst; [done|].
  apply wp_bind. apply bst_upd_req. apply wp_bind. apply bst_upd_xfer. cbn zeta.
  set (ring1 := upd_range (a_desc_idx a) 1 (fun _ => xdma_desc_set (a_addr a) (base + o1) len dir) ring).
  assert (Hl1 : length ring1 = length ring) by apply upd_range_length.
  set (x1 := set_x_len (u32 (x_len x + len)) x). set (q1 := set_r_offset (u32 (r_offset q + len)) q).
  set (a1 := mk_ap _ _ _ _ _ _).
  assert (Ha1 : a1 = mk_ap (a_desc_idx a + 1) (a_desc_cnt a + 1) (base + (o1 + len)) (a_addr a + len)
              (a_tlen a - len) (a_sg_offset a + len)).
  { unfold a1. rewrite !u32_small, !u64_small by lia. f_equal. lia. }
  assert (Hx1 : x_len x1 = x_len x + len) by (cbn; apply u32_small; lia).
  assert (Hq1 : r_offset q1 = r_offset q + len) by (cbn; apply u32_small; lia).
  assert (Hpost : forall o' ps, pieces_ok a1 (o1 + len) o' ps ->
    a_desc_idx (filled_a a1 o' ps) <= Z.of_nat (length ring) ->
    a_tlen (filled_a a1 o' ps) = 0 \/ a_desc_idx (filled_a a1 o' ps) = Z.of_nat (length ring) ->
    Q (filled_a a1 o' ps) (filled_state a1 ps ring1 x1 q1 lg)).
  { intros o' ps Hps Hi Hend. rewrite Ha1 in Hps.
    apply (pieces_cons a o o' len o1) in Hps as Hps'; [|done|done|done|lia|done].
    specialize (HQ o' _ Hps'). cbn zeta in HQ.
    assert (HA : filled_a a o' ((a_addr a, base + o1, len) :: ps) = filled_a a1 o' ps).
    { rewrite Ha1. unfold filled_a. cbn [a_desc_idx a_desc_cnt a_addr a_tlen a_sg_offset length].
      change (ap_total ((a_addr a, base + o1, len) :: ps)) with (len + ap_total ps). f_equal; lia. }
    assert (HS : filled_state a ((a_addr a, base + o1, len) :: ps) ring x q lg = filled_state a1 ps ring1 x1 q1 lg).
    { rewrite Ha1. unfold filled_state. cbn [put_pieces a_desc_idx]. fold ring1. rewrite Hx1, Hq1.
      change (ap_total ((a_addr a, base + o1, len) :: ps)) with (len + ap_total ps). by rewrite !Z.add_assoc. }
    rewrite HA, HS in HQ. by apply HQ. }
  destruct (Z.eqb_spec (a_desc_idx a1) (Z.of_nat (length ring))) as [Hend|Hne].
  - apply wp_ret. assert (Hp0 : pieces_ok a1 (o1 + len) (o1 + len) []) by (apply pieces_nil; rewrite ?Ha1; cbn; done || lia).
    specialize (Hpost _ _ Hp0). rewrite filled_a_nil, filled_state_nil in Hpost by (by rewrite Ha1).
    apply Hpost; [lia|by right].
  - rewrite <- Hl1 in *. eapply (IH a1 (o1 + len) ring1 x1 q1); [done| |rewrite Ha1; cbn; lia|exact Hpost].
    split; rewrite ?Hx1, ?Hq1; rewrite ?Ha1 in *; cbn in *; try lia; done.
Qed.

(** ** The entries of the scatter list *)

Definition entry_ok (e : Z * Z) : Prop := 0 <= e.1 /\ 0 <= e.2 /\ e.1 + e.2 < 2 ^ 64.
Definition table_total (l : list (Z * Z)) : Z := zsum (map snd l).

Lemma table_total_nonneg l : Forall entry_ok l -> 0 <= table_total l.
Proof using Type. clear t r. induction 1 as [|e l (_ & He & _) _ IH]; unfold table_total in *; cbn; [done|]. unfold zsum in *. lia. Qed.

Lemma length_table_bytes l : Forall entry_ok l -> Z.of_nat (length (table_bytes l)) = table_total l.
Proof.
  induction 1 as [|e l (_ & He & _) _ IH]; [done|].
  change (table_total (e :: l)) with (e.2 + table_total l).
  change (table_bytes (e :: l)) with (entry_bytes e ++ table_bytes l).
  rewrite length_app, Nat2Z.inj_add, IH. unfold entry_bytes. rewrite length_map, length_seqZ. lia.
Qed.

Lemma coverage_app ps1 ps2 : coverage (ps1 ++ ps2) = coverage ps1 ++ coverage ps2.
Proof. unfold coverage. by rewrite map_app, concat_app. Qed.
Lemma ap_total_app ps1 ps2 : ap_total (ps1 ++ ps2) = ap_total ps1 + ap_total ps2.
Proof. unfold ap_total. by rewrite map_app, zsum_app. Qed.
Lemma put_pieces_app i ps1 ps2 ring :
  put_pieces dir i (ps1 ++ ps2) ring = put_pieces dir (i + Z.of_nat (length ps1)) ps2 (put_pieces dir i ps1 ring).
Proof.
  revert i ring. induction ps1 as [|[[host dev] len] ps1 IH]; intros i ring; cbn [put_pieces app length]; [by rewrite Z.add_0_r|].
  rewrite IH. f_equal. lia.
Qed.

(** The pieces [ps] cover the first bytes of the entries [l]. *)
Record covers (l : list (Z * Z)) (o : Z) (ps : list ap_piece) : Prop := {
  cv_total : 0 <= ap_total ps <= table_total l;
  cv_good : Forall (good_piece base size maxlen) ps;
  cv_bytes : coverage ps =
    zip (take (Z.to_nat (ap_total ps)) (table_bytes l)) (window base size o (ap_total ps));
  cv_count : Z.of_nat (length ps) + (if ap_total ps <? table_total l then 1 else 0) <=
    Z.of_nat (length l) + hops o (ap_total ps)
}.

(** The loop over the table, at the start of an entry. *)
Record sgs_ok (a : ap_locals) (o : Z) (l : list (Z * Z)) (ring : list xdma_desc) (x : xdma_transfer) (q : xdma_request_cb) : Prop := {
  so_idx : 0 <= a_desc_idx a <= Z.of_nat (length ring);
  so_small : Z.of_nat (length ring) < 2 ^ 31;
  so_ep : a_ep_addr a = base + o;
  so_o : 0 <= o <= size;
  so_base : r_ep_addr q = base;
  so_cnt : 0 <= a_desc_cnt a <= a_desc_idx a;
  so_sg : a_sg_offset a = 0;
  so_table : Forall entry_ok l;
  so_off : 0 <= r_offset q;
  so_off_top : r_offset q + table_total l < 2 ^ 32;
  so_len : 0 <= x_len x;
  so_len_top : x_len x + table_total l < 2 ^ 32
}.

Definition sgs_done (a a' : ap_locals) (l : list (Z * Z)) (n : Z) (ps : list ap_piece) : Prop :=
  a_desc_idx a' = a_desc_idx a + Z.of_nat (length ps) /\ a_desc_cnt a' = a_desc_cnt a + Z.of_nat (length ps) /\
  a_desc_idx a' <= n /\ (ap_total ps = table_total l \/ a_desc_idx a' = n).

Lemma covers_nil l o : window_ok -> Forall entry_ok l -> covers l o [].
Proof.
  intros Hw Hl. pose proof (table_total_nonneg l Hl). split; cbn; try done.
  pose proof (hops_nonneg o 0 Hw). destruct (Z.ltb_spec 0 (table_total l)); [|lia]. destruct l; [done|]. cbn. lia.
Qed.

Lemma take_entry_bytes addr len l c :
  0 <= c <= len -> take (Z.to_nat c) (table_bytes ((addr, len) :: l)) = map (Z.add addr) (zrange c).
Proof.
  intros Hc. unfold table_bytes. cbn [map concat]. unfold entry_bytes. cbn [fst snd].
  replace len with (c + (len - c)) at 1 by lia. rewrite zrange_add, map_app, <- app_assoc by lia.
  rewrite take_app_length'; [done|]. rewrite length_map, length_seqZ. lia.
Qed.

Lemma covers_stop addr len l o a o' ps :
  a_addr a = addr -> a_tlen a = len -> Forall entry_ok ((addr, len) :: l) ->
  pieces_ok a o o' ps -> covers ((addr, len) :: l) o ps.
Proof.
  intros <- <- Hl [Ht Hg Hc _ _ Hn]. inversion Hl as [|? ? He Hl']; subst. pose proof (table_total_nonneg l Hl').
  split; [change (table_total ((a_addr a, a_tlen a) :: l)) with (a_tlen a + table_total l); lia|done|by rewrite take_entry_bytes by done|].
  change (table_total ((a_addr a, a_tlen a) :: l)) with (a_tlen a + table_total l). cbn [length].
  destruct (Z.ltb_spec (ap_total ps) (a_tlen a)), (Z.ltb_spec (ap_total ps) (a_tlen a + table_total l)); try lia.
  destruct l; [cbn in *; lia|cbn [length]; lia].
Qed.

Lemma covers_next addr len l o a o' ps ps' :
  window_ok -> a_addr a = addr -> a_tlen a = len -> Forall entry_ok ((addr, len) :: l) ->
  pieces_ok a o o' ps -> ap_total ps = len -> covers l o' ps' -> covers ((addr, len) :: l) o (ps ++ ps').
Proof.
  intros Hw Ha Ht' Hl Hp Hlen [Ht2 Hg2 Hc2 Hn2]. pose proof Hp as [Ht Hg Hc Ho Hm Hn]. pose proof Hw as [_ Hs _ _].
  assert (Htt : table_total ((addr, len) :: l) = len + table_total l) by done.
  split; rewrite ?ap_total_app.
  - lia.
  - by apply Forall_app.
  - rewrite coverage_app, Hc, Hc2, window_add by lia.
    assert (Htk : take (Z.to_nat (ap_total ps + ap_total ps')) (table_bytes ((addr, len) :: l)) =
                  map (Z.add addr) (zrange (ap_total ps)) ++ take (Z.to_nat (ap_total ps')) (table_bytes l)).
    { rewrite Z2Nat.inj_add by lia. unfold table_bytes. cbn [map concat]. unfold entry_bytes at 1. cbn [fst snd].
      rewrite Hlen, take_app_add'; [done|]. rewrite length_map, length_seqZ. lia. }
    rewrite Htk, Ha. rewrite (zip_with_app pair) by (unfold window; rewrite !length_map; done). do 2 f_equal.
    rewrite <- (window_cyclic base size o'), <- (window_cyclic base size (o + _)) by lia. by rewrite Hm.
  - pose proof (hops_add o o' (ap_total ps) (ap_total ps') Hw ltac:(lia) ltac:(lia) Hm) as Hh.
    rewrite length_app, Htt. cbn [length].
    destruct (Z.ltb_spec (ap_total ps) (a_tlen a)), (Z.ltb_spec (ap_total ps') (table_total l)),
      (Z.ltb_spec (ap_total ps + ap_total ps') (len + table_total l)); lia.
Qed.

Lemma wp_ap_sgs fuel sgl i a o l ring x q lg sg_max (Q : Z * ap_locals -> est -> Prop) :
  window_ok -> 0 <= i -> l = drop (Z.to_nat i) (take (Z.to_nat sg_max) sgl) -> i + Z.of_nat (length l) = sg_max ->
  sgs_ok a o l ring x q -> Z.of_nat (length l) <= Z.of_nat fuel ->
  (forall i' a' ps, covers l o ps -> sgs_done a a' l (Z.of_nat (length ring)) ps ->
     Q (i', a') (filled_state a ps ring x q lg)) ->
  wp (ap_sgs r dir maxlen (base + size - 1) (Z.of_nat (length ring)) sg_max fuel sgl i i a) Q (bst r t s0 ring x q lg).
Proof.
  revert i a o l ring x q Q. induction fuel as [|fuel IH]; intros i a o l ring x q Q Hw Hi Hdrop Hmax Hok Hfuel HQ.
  all: pose proof Hok as [Hidx Hsm Hep Ho Hb Hcnt Hsg Htab Hoff Hofft Hlen Hlent].
  all: assert (Hstop : l = [] \/ a_desc_idx a = Z.of_nat (length ring) -> Q (i, a) (bst r t s0 ring x q lg)).
  1, 3: intros Hend; rewrite <- (filled_state_nil a); apply HQ; [by apply covers_nil|];
    unfold sgs_done; cbn [length]; rewrite !Z.add_0_r; split; [done|]; split; [done|]; split; [lia|];
    destruct Hend as [->|Hend]; [by left|by right].
  { assert (l = []) as Hnil by (destruct l; [done|cbn in Hfuel; lia]). cbn [ap_sgs].
    assert ((i <? sg_max) = false) as -> by (rewrite Hnil in Hmax; cbn in Hmax; lia).
    apply wp_ret, Hstop. by left. }
  cbn [ap_sgs]. destruct (Z.ltb_spec i sg_max) as [Hlt|Hge]; [|apply wp_ret, Hstop; left; destruct l; [done|cbn in Hmax; lia]].
  destruct (Z.ltb_spec (a_desc_idx a) (Z.of_nat (length ring))) as [Hroom|Hfull]; [|apply wp_ret, Hstop; right; lia].
  cbn [andb]. clear Hstop.
  destruct l as [|[addr len] l']; [cbn in Hmax; lia|].
  assert (Hent : zlookup sgl i = Some (addr, len)).
  { unfold zlookup. destruct (Z.ltb_spec i 0); [lia|]. rewrite <- (lookup_take_lt sgl (Z.to_nat sg_max)) by lia.
    rewrite <- (Nat.add_0_r (Z.to_nat i)), <- lookup_drop, <- Hdrop. done. }
  pose proof (Forall_inv Htab) as (He1 & He2 & He3). pose proof (Forall_inv_tail Htab) as Htab'.
  cbn [fst snd] in He1, He2, He3.
  pose proof (table_total_nonneg l' Htab') as Hnn.
  assert (Htt : table_total ((addr, len) :: l') = len + table_total l') by done.
  apply wp_bind. eapply wp_deref; [exact Hent|]. rewrite Hsg, Z.eqb_refl.
  set (a0 := mk_ap _ _ _ _ _ _). apply wp_bind.
  apply (wp_ap_fill _ a0 o); [done| |cbn; lia|].
  { split; cbn; try lia; done. }
  intros o' ps Hps. cbn zeta. intros Hi' Hend.
  assert (Ha0 : a_desc_idx a0 = a_desc_idx a /\ a_desc_cnt a0 = a_desc_cnt a) by done. destruct Ha0 as [Hai Hac].
  assert (Hfs : forall ps' , filled_state a0 ps' ring x q lg = filled_state a ps' ring x q lg) by done.
  destruct (Z.eqb_spec (a_tlen (filled_a a0 o' ps)) 0) as [Hz|Hnz].
  - cbn in Hz. assert (Htot : ap_total ps = len) by lia. rewrite Hfs.
    set (a1 := mk_ap _ _ _ _ _ _).
    assert (Hlr : length (put_pieces dir (a_desc_idx a) ps ring) = length ring) by apply length_put_pieces.
    unfold filled_state. rewrite <- Hlr. cbn [length] in Hmax.
    eapply (IH (i + 1) a1 o' l'); [done|lia| |lia| |cbn in Hfuel; lia|].
    + rewrite Z2Nat.inj_add by lia. rewrite <- drop_drop, <- Hdrop. done.
    + destruct Hps as [_ _ _ Hpo _ _].
      split; rewrite ?Hlr; cbn in *; try lia; done.
    + intros i' a' ps' Hcov (Hd1 & Hd2 & Hd3 & Hd4). cbn in Hd1, Hd2. rewrite Hlr in Hd3, Hd4.
      assert (Hst : filled_state a1 ps' (put_pieces dir (a_desc_idx a) ps ring) (set_x_len (x_len x + ap_total ps) x)
                (set_r_offset (r_offset q + ap_total ps) q) lg = filled_state a (ps ++ ps') ring x q lg).
      { unfold filled_state. rewrite put_pieces_app, ap_total_app. cbn. by rewrite !Z.add_assoc. }
      rewrite Hst. apply HQ.
      * by apply (covers_next addr len l' o a0 o').
      * unfold sgs_done. rewrite length_app, ap_total_app, Htt. repeat split; lia.
  - destruct Hend as [Hz|Hend]; [done|]. apply wp_ret. rewrite Hfs. apply HQ.
    + by eapply (covers_stop addr len l' o a0 o').
    + unfold sgs_done. cbn in Hend |- *. repeat split; try lia; by right.
Qed.

(** ** The linked descriptors *)

Definition link_of (bus n k : Z) (d : xdma_desc) : xdma_desc :=
  if k =? n - 1 then ap_last d else ap_chain (u64 (bus + DESC_SIZE * (k + 1))) d.
Definition adj_of (n k : Z) (d : xdma_desc) : xdma_desc :=
  xdma_desc_adjacent (xdma_get_next_adj (u32 (n - k - 1)) (next_lo d)) d.

Definition link_ring (virt bus n : Z) (ring : list xdma_desc) : list xdma_desc :=
  upd_range virt n (fun k d => adj_of n k (link_of bus n k d)) ring.

Lemma wp_ap_link virt bus n ring x q lg (Q : unit -> est -> Prop) :
  1 <= n < 2 ^ 31 -> 0 <= virt -> virt + n <= Z.of_nat (length ring) ->
  Q tt (bst r t s0 (link_ring virt bus n ring) (set_x_desc_cmpl_th n x) q lg) ->
  wp (ap_link r virt bus n) Q (bst r t s0 ring x q lg).
Proof.
  intros Hn Hv Hlen HQ. unfold ap_link. rewrite !u32_small, s32_small by lia.
  set (g := fun j : Z => if j <? n - 1 then ap_chain (u64 (bus + DESC_SIZE * (j + 1))) else id).
  apply wp_bind, (bst_forM _ _ _ _ _ _ _ _ (n - 1) (fun i => ap_chain (u64 (bus + DESC_SIZE * (i + 1))))); [lia..|].
  rewrite (upd_range_ext _ (n - 1) _ g) by
    (intros j d Hj _; unfold g; destruct (Z.ltb_spec j (n - 1)); done || lia).
  rewrite (upd_range_widen _ (n - 1) n g) by
    (try lia; intros j d Hj; unfold g; destruct (Z.ltb_spec j (n - 1)); done || lia).
  apply wp_bind, (bst_one _ _ _ _ _ _ _ virt (n - 1) n); [lia..|rewrite upd_range_length; lia|].
  rewrite upd_range_compose. apply wp_bind, bst_upd_xfer.
  apply (bst_forM _ _ _ _ _ _ _ virt n (adj_of n)); [lia..|rewrite upd_range_length; lia|].
  rewrite upd_range_compose. unfold link_ring in HQ.
  erewrite upd_range_ext; [exact HQ|]. intros j d Hj _. unfold only, g, link_of.
  destruct (Z.eqb_spec j (n - 1)), (Z.ltb_spec j (n - 1)); (done || lia).
Qed.

Lemma zlookup_cons_shift {A} (x : A) l k i : i < k -> zlookup (x :: l) (k - i) = zlookup l (k - (i + 1)).
Proof.
  intros Hk. unfold zlookup. destruct (Z.ltb_spec (k - i) 0), (Z.ltb_spec (k - (i + 1)) 0); try lia.
  by replace (Z.to_nat (k - i)) with (S (Z.to_nat (k - (i + 1)))) by lia.
Qed.

(** The slots of the pieces, and the others. *)
Lemma put_pieces_lookup i ps ring k :
  0 <= i -> 0 <= k -> i + Z.of_nat (length ps) <= Z.of_nat (length ring) ->
  zlookup (put_pieces dir i ps ring) k =
  match zlookup ps (k - i) with
  | Some (host, dev, len) => xdma_desc_set host dev len dir <$> zlookup ring k
  | None => zlookup ring k
  end.
Proof.
  revert i ring. induction ps as [|[[host dev] len] ps IH]; intros i ring Hi Hk Hlen.
  - rewrite (zlookup_out [] (k - i)); [done|cbn; lia].
  - cbn [put_pieces length] in *. rewrite IH by (rewrite ?upd_range_length; lia).
    rewrite upd_range_lookup by done. destruct (Z.lt_total k i) as [Hlt|[->|Hgt]].
    + rewrite !(zlookup_out _ (k - i)), !(zlookup_out _ (k - (i + 1))) by (cbn [length]; lia).
      destruct ((0 <=? k - i) && (k - i <? 1)) eqn:E; [lia|]. by destruct (zlookup ring k).
    + rewrite Z.sub_diag, (zlookup_out _ (i - (i + 1))) by lia. done.
    + rewrite zlookup_cons_shift by done.
      destruct ((0 <=? k - i) && (k - i <? 1)) eqn:E; [lia|].
      destruct (zlookup ps (k - (i + 1))) as [[[h1 d1] l1]|]; by destruct (zlookup ring k).
Qed.

(** The pairs of host and device bytes that a descriptor moves. *)
Definition moved (d : xdma_desc) : list (Z * Z) :=
  map (fun k => if is_h2c dir then (desc_src d + k, desc_dst d + k) else (desc_dst d + k, desc_src d + k))
    (zrange (bytes d)).

Definition slot_desc (bus i n : Z) (ps : list ap_piece) (ring : list xdma_desc) (j : Z) : xdma_desc :=
  default zero_desc (zlookup (link_ring i bus n (put_pieces dir i ps ring)) (i + j)).

Lemma link_fields bus n j d :
  1 <= n -> 0 <= j < n -> n < 2 ^ 31 -> 0 <= bus + DESC_SIZE * (j + 1) < 2 ^ 64 \/ j = n - 1 ->
  let d' := adj_of n j (link_of bus n j d) in
  bytes d' = bytes d /\ desc_src d' = desc_src d /\ desc_dst d' = desc_dst d /\
  (j < n - 1 -> desc_next d' = bus + DESC_SIZE * (j + 1)) /\
  has_bits (control d') XDMA_DESC_STOPPED = (j =? n - 1).
Proof.
  intros Hn Hj Hsm Hbus. unfold adj_of, link_of. cbn zeta.
  set (d1 := if j =? n - 1 then ap_last d else ap_chain (u64 (bus + DESC_SIZE * (j + 1))) d).
  set (fl := if j =? n - 1 then last_control else 0).
  assert (Hc : control d1 = Z.lor DESC_MAGIC fl) by (unfold d1, fl; by destruct (j =? n - 1)).
  assert (Hfl : 0 <= fl < 256) by (unfold fl; destruct (j =? n - 1); by vm_compute).
  set (adj := xdma_get_next_adj _ _).
  assert (Hadj : 0 <= adj < 64).
  { pose proof (next_adj_bounds (u32 (n - j - 1)) (next_lo d1)) as Hb. cbn zeta in Hb. unfold adj. lia. }
  destruct (desc_adjacent_fields adj fl d1 Hadj Hfl Hc) as (_ & _ & _ & Hst). rewrite Hst.
  unfold d1, fl. split; [by destruct (j =? n - 1)|]. split; [by destruct (j =? n - 1)|].
  split; [by destruct (j =? n - 1)|]. split; [|by destruct (j =? n - 1)].
  intros Hlt. destruct (Z.eqb_spec j (n - 1)); [lia|]. unfold desc_next. cbn.
  rewrite PCI_DMA_split. apply u64_small. lia.
Qed.

Lemma slot_desc_spec bus i ps ring j :
  let n := Z.of_nat (length ps) in
  0 <= i -> n < 2 ^ 31 -> i + n <= Z.of_nat (length ring) -> 0 <= j < n ->
  0 <= bus + DESC_SIZE * (j + 1) < 2 ^ 64 \/ j = n - 1 -> maxlen < 2 ^ 32 ->
  Forall (good_piece base size maxlen) ps ->
  zlookup (link_ring i bus n (put_pieces dir i ps ring)) (i + j) = Some (slot_desc bus i n ps ring j) /\
  (j < n - 1 -> desc_next (slot_desc bus i n ps ring j) = bus + DESC_SIZE * (j + 1)) /\
  has_bits (control (slot_desc bus i n ps ring j)) XDMA_DESC_STOPPED = (j =? n - 1) /\
  exists p, zlookup ps j = Some p /\ moved (slot_desc bus i n ps ring j) = covered p.
Proof.
  intros n Hi Hsm Hlen Hj Hbus Hml Hgood.
  destruct (zlookup_in ps j) as [[[host dev] len] Hp]; [lia|].
  destruct (zlookup_in ring (i + j)) as [d0 Hd0]; [lia|].
  assert (Hl : zlookup (link_ring i bus n (put_pieces dir i ps ring)) (i + j) =
               Some (adj_of n j (link_of bus n j (xdma_desc_set host dev len dir d0)))).
  { unfold link_ring. rewrite upd_range_lookup, put_pieces_lookup by lia.
    replace (i + j - i) with j by lia. rewrite Hp, Hd0. cbn.
    destruct ((0 <=? j) && (j <? n)) eqn:E; [done|lia]. }
  unfold slot_desc. rewrite Hl. cbn [default from_option id].
  destruct (link_fields bus n j (xdma_desc_set host dev len dir d0)) as (Hb & Hs & Hd & Hnx & Hst); [lia..|done|].
  split; [done|]. split; [done|]. split; [done|]. exists (host, dev, len). split; [done|].
  destruct (desc_set_decode host dev len dir d0) as (Hb0 & Hsd & _).
  unfold moved. rewrite Hb, Hs, Hd, Hb0.
  assert (Hg : 0 < len <= maxlen).
  { apply zlookup_nat in Hp as [_ Hp]. eapply Forall_lookup_1 in Hgood; [|exact Hp]. by destruct Hgood. }
  rewrite u32_small by lia. unfold covered. apply map_ext. intros k.
  destruct (is_h2c dir); by injection Hsd as -> ->.
Qed.
End fill.

Section build.
Context `{Env} `{Callback} `{Sched}.

(** A request that no transfer has worked on, with a non-empty table. *)
Record aperture_ok (r sgt : Z) (base size maxlen : Z) (s : est) ring (q : xdma_request_cb) (g : sg_table) : Prop := {
  ao_ring : ring_ok (s_eng s) ring;
  ao_req : s_reqs s !! r = Some q;
  ao_xfer : is_Some (s_xfers s !! tfer r 0);
  ao_sgt : s_sgts s !! sgt = Some g;
  ao_window : window_ok base size maxlen;
  ao_base : r_ep_addr q = base;
  ao_fresh : r_offset q = 0 /\ r_sg q = 0 /\ r_sg_idx q = 0 /\ r_sg_offset q = 0;
  ao_nents : 0 <= sg_nents g <= Z.of_nat (length (sg_sgl g));
  ao_table : Forall entry_ok (take (Z.to_nat (sg_nents g)) (sg_sgl g));
  ao_total : 0 < table_total (take (Z.to_nat (sg_nents g)) (sg_sgl g)) < 2 ^ 32
}.

(** The state after the transfer was built from the pieces [ps]. *)
Definition ap_built (r : Z) (dir : dma_dir) (dma_mapped : bool) (s : est) ring q (i : Z) (a : ap_locals)
    (ps : list ap_piece) (s' : est) : Prop :=
  let e := s_eng s in
  let n := Z.of_nat (length ps) in
  s' = bst r (tfer r 0) (set_s_eng (advance n e) s)
         (link_ring (e_desc_idx e) (xfer_bus e) n (put_pieces dir (e_desc_idx e) ps ring))
         (set_x_desc_cmpl_th n (set_x_desc_num n (set_x_desc_adjacent n
            (set_x_len (ap_total ps) (ap_init_xfer e dma_mapped)))))
         (set_r_sg_idx i (set_r_sg_offset (a_sg_offset a) (set_r_offset (ap_total ps) q))) (s_log s).

Lemma ap_init_fields e dma_mapped :
  x_desc_virt (ap_init_xfer e dma_mapped) = e_desc_idx e /\
  x_desc_bus (ap_init_xfer e dma_mapped) = u64 (e_desc_bus e + DESC_SIZE * e_desc_idx e) /\
  x_len (ap_init_xfer e dma_mapped) = 0.
Proof. by destruct dma_mapped. Qed.

Lemma wp_ap_build r sgt dir base size maxlen dma_mapped s ring q g :
  aperture_ok r sgt base size maxlen s ring q g ->
  let l := take (Z.to_nat (sg_nents g)) (sg_sgl g) in
  wp (ap_build r dir maxlen (base + size - 1) (e_desc_max (s_eng s)) (sg_nents g) sgt dma_mapped)
     (fun _ s' => exists ps i a, covers base size maxlen l 0 ps /\ 1 <= Z.of_nat (length ps) /\
        e_desc_idx (s_eng s) + Z.of_nat (length ps) <= e_desc_max (s_eng s) /\
        (ap_total ps = table_total l \/ e_desc_idx (s_eng s) + Z.of_nat (length ps) = e_desc_max (s_eng s)) /\
        ap_built r dir dma_mapped s ring q i a ps s') s.
Proof.
  intros [Hr Hq [x0 Hx] Hg Hw Hb (Hoff & Hsg & Hsgi & Hsgo) Hn Ht Htot] l.
  pose proof Hr as [He Hlen Hsm Hidx Hbus Htop _]. unfold ap_build.
  apply wp_bind, wp_get_eng. cbv beta. apply wp_bind. eapply wp_get_xfer; [done|]. apply wp_bind, wp_put_xfer.
  rewrite (bst_start r (tfer r 0) s ring q (s_log s)) by done.
  apply wp_bind, bst_get_req. apply wp_bind.
  unfold get_sgt. apply wp_bind, wp_get. eapply wp_deref; [exact Hg|].
  rewrite Hoff, Hb, Hsg, Hsgi, Hsgo, Z.land_0_l, Z.add_0_r. rewrite u64_small by (destruct Hw; lia).
  rewrite (u32_small (e_desc_idx _)) by lia. rewrite <- Hlen. apply wp_bind.
  eapply (wp_ap_sgs _ _ _ base size maxlen _ _ _ _ 0 l); [done|lia|done| | |unfold l; rewrite length_take; lia|].
  { unfold l. rewrite length_take. lia. }
  { destruct Hw. split; cbn; rewrite ?Hoff; try done; try lia.
    - unfold l. lia.
    - by destruct dma_mapped.
    - replace (x_len (ap_init_xfer (s_eng s) dma_mapped)) with 0 by (by destruct dma_mapped). unfold l. lia. }
  intros i a ps Hcov (Hi & Hc & Hle & Hend). cbn [a_desc_idx a_desc_cnt] in Hi, Hc. rewrite Z.add_0_l in Hc.
  assert (Hne : 1 <= Z.of_nat (length ps)).
  { destruct ps; [|cbn; lia]. cbn in Hi, Hend. fold l in Htot. destruct Hend; cbn in *; lia. }
  unfold filled_state. cbn [a_desc_idx]. rewrite Hoff.
  apply wp_bind, bst_upd_req. apply wp_bind, bst_upd_req. rewrite Hc, !s32_small by lia.
  apply wp_bind, bst_upd_xfer. apply wp_bind, bst_upd_xfer.
  apply wp_bind, wp_upd_eng. set (n := Z.of_nat (length ps)).
  destruct (ap_init_fields (s_eng s) dma_mapped) as (Hiv & Hib & Hil). rewrite Hil, !Z.add_0_l.
  assert (Hxb : u64 (e_desc_bus (s_eng s) + DESC_SIZE * e_desc_idx (s_eng s)) = xfer_bus (s_eng s)).
  { unfold xfer_bus. apply u64_small. unfold DESC_SIZE in *. lia. }
  set (e1 := set_e_desc_used (s32 (e_desc_used (s_eng s) + n)) (s_eng s)).
  match goal with |- wp _ _ (set_s_eng _ (bst _ _ _ ?ring1 ?x1 ?q1 ?lg1)) =>
    change (wp (let* x := get_xfer (tfer r 0) in
                ap_link r (x_desc_virt x) (x_desc_bus x) n >>;
                guard_ub (negb (Z.of_nat (length ring) =? 0)) >>;
                upd_eng (fun e => set_e_desc_idx (u32 (e_desc_idx e + n) `mod` Z.of_nat (length ring)) e))
             (fun _ s' => exists ps i a, covers base size maxlen l 0 ps /\ 1 <= Z.of_nat (length ps) /\
        e_desc_idx (s_eng s) + Z.of_nat (length ps) <= Z.of_nat (length ring) /\
        (ap_total ps = table_total l \/ e_desc_idx (s_eng s) + Z.of_nat (length ps) = Z.of_nat (length ring)) /\
        ap_built r dir dma_mapped s ring q i a ps s')
             (bst r (tfer r 0) (set_s_eng e1 s) ring1 x1 q1 lg1))
  end.
  apply wp_bind, bst_get_xfer. cbn [x_desc_virt x_desc_bus set_x_desc_num set_x_desc_adjacent set_x_len].
  rewrite Hiv, Hib, Hxb. apply wp_bind, wp_ap_link; [lia|lia|rewrite length_put_pieces; lia|].
  apply wp_bind, wp_guard_ub; [lia|]. apply wp_upd_eng.
  exists ps, i, a. split; [done|]. split; [done|]. split; [lia|]. split; [destruct Hend; [by left|right; lia]|].
  unfold ap_built. cbn zeta. fold n. cbn [e_desc_idx set_e_desc set_e_desc_used bst s_eng set_s_eng e1].
  rewrite u32_small by lia. unfold advance. by rewrite <- Hlen.
Qed.

(** C21: the first transfer of a request through a window of [size] bytes at
    [base]: building it is safe and ends, and the hardware that follows the
    descriptors from the transfer's bus address moves exactly the first bytes of
    the scatter list, byte [j] to (or from) the address [base + j mod size]; it is
    all of the list, unless the end of the ring was reached. *)
Theorem aperture_first_transfer r sgt dir base size maxlen dma_mapped s ring q g :
  aperture_ok r sgt base size maxlen s ring q g ->
  let l := take (Z.to_nat (sg_nents g)) (sg_sgl g) in
  exists s' ring' x q' ds,
    ap_build r dir maxlen (base + size - 1) (e_desc_max (s_eng s)) (sg_nents g) sgt dma_mapped s = Some (tt, s') /\
    s_xfers s' !! tfer r 0 = Some x /\ s_reqs s' !! r = Some q' /\ e_desc (s_eng s') = Some ring' /\
    hw_walk (Z.to_nat (x_desc_num x)) ring' (e_desc_bus (s_eng s)) (x_desc_bus x) = Some ds /\
    concat (map (moved dir) ds) =
      zip (take (Z.to_nat (r_offset q')) (table_bytes l)) (window base size 0 (r_offset q')) /\
    x_len x = r_offset q' /\ 0 < r_offset q' <= table_total l /\
    (r_offset q' = table_total l \/ e_desc_idx (s_eng s) + x_desc_num x = e_desc_max (s_eng s)).
Proof.
  intros Hok l. pose proof (wp_ap_build r sgt dir base size maxlen dma_mapped s ring q g Hok) as Hw.
  apply wp_iff in Hw as ([] & s' & Hrun & ps & i & a & Hcov & Hn & Hle & Hend & Hs'). fold l in Hcov, Hend.
  destruct Hok as [Hr _ _ _ Hwin _ _ _ Htab Htot]. fold l in Htab, Htot.
  pose proof Hr as [He Hlen Hsm Hidx Hbus Htop _].
  unfold ap_built in Hs'. cbn zeta in Hs'. set (n := Z.of_nat (length ps)) in *.
  destruct (ap_init_fields (s_eng s) dma_mapped) as (_ & Hib & _).
  assert (Hxb : u64 (e_desc_bus (s_eng s) + DESC_SIZE * e_desc_idx (s_eng s)) = xfer_bus (s_eng s)).
  { unfold xfer_bus. apply u64_small. unfold DESC_SIZE in *. lia. }
  set (D := slot_desc dir (xfer_bus (s_eng s)) (e_desc_idx (s_eng s)) n ps ring).
  assert (Hslot : forall j, 0 <= j < n -> 
    zlookup (link_ring (e_desc_idx (s_eng s)) (xfer_bus (s_eng s)) n (put_pieces dir (e_desc_idx (s_eng s)) ps ring))
      (e_desc_idx (s_eng s) + j) = Some (D j) /\
    (j < n - 1 -> desc_next (D j) = xfer_bus (s_eng s) + DESC_SIZE * (j + 1)) /\
    has_bits (control (D j)) XDMA_DESC_STOPPED = (j =? n - 1) /\
    exists p, zlookup ps j = Some p /\ moved dir (D j) = covered p).
  { intros j Hj. apply (slot_desc_spec r dir base size maxlen); try done; try lia.
    - destruct (Z.eq_dec j (n - 1)); [by right|left]. unfold xfer_bus, DESC_SIZE in *. lia.
    - destruct Hwin; lia.
    - by destruct Hcov. }
  do 5 eexists. split; [exact Hrun|]. rewrite Hs'.
  split; [apply lookup_insert_eq|]. split; [apply lookup_insert_eq|]. split; [done|].
  cbn [x_desc_num x_desc_bus set_x_desc_cmpl_th set_x_desc_num set_x_desc_adjacent set_x_len r_offset
       set_r_sg_idx set_r_sg_offset set_r_offset x_len]. rewrite Hib, Hxb.
  split.
  { apply (hw_walk_linked _ _ _ n D); [|done]. split; intros j Hj; destruct (Hslot j) as (H1' & H2' & H3' & _); try lia.
    - done.
    - rewrite H2' by lia. unfold xfer_bus. lia.
    - done. }
  split.
  { rewrite map_map. destruct Hcov as [_ _ <- _]. unfold coverage. f_equal.
    apply zlist_eq; [rewrite !length_map, length_seqZ; lia|].
    intros j. rewrite length_map_zrange by lia. intros Hj.
    destruct (Hslot j Hj) as (_ & _ & _ & p & Hp & Hm). rewrite !zlookup_map, zlookup_zrange, Hp by done. cbn. by rewrite Hm. }
  destruct Hcov as [Ht Hgood _ _]. destruct (ap_total_pos base size maxlen ps Hgood) as [_ Hpos].
  assert (0 < ap_total ps) by (apply Hpos; by intros ->). split; [done|]. split; [lia|done].
Qed.
End build.

(** ** Witness *)

(** A table of 7 bytes at [0x4000] and 6 at [0x6000], a window of 4 bytes. *)
Definition ap_sgt : sg_table := mk_sgt [(0x4000, 7); (0x6000, 6)] 2 2.
Definition ap_req : xdma_request_cb := set_r_total_len 13 (set_r_ep_addr 0x100 (set_r_aperture 4 (zero_req 0))).
Definition ap_state (n : Z) : est :=
  mk_est demo_dev (demo_engine DMA_TO_DEVICE n) {[ 10 := zero_xfer; 11 := zero_xfer ]} {[ 7 := ap_sgt ]}
    {[ 5 := ap_req ]} ∅ ∅ [].

Lemma ap_state_ok : @aperture_ok 5 7 0x100 4 4 (ap_state 8) (replicate 8 zero_desc) ap_req ap_sgt.
Proof.
  split; try done. by repeat constructor.
Qed.

(** Two laps of the window, then the second entry: the bytes that the hardware moves. *)
Lemma aperture_first_transfer_witness :
  let l := [(0x4000, 7); (0x6000, 6)] in
  exists s' ring' x q' ds,
    ap_build 5 DMA_TO_DEVICE 4 0x103 8 2 7 false (ap_state 8) = Some (tt, s') /\
    s_xfers s' !! tfer 5 0 = Some x /\ s_reqs s' !! 5 = Some q' /\ e_desc (s_eng s') = Some ring' /\
    hw_walk (Z.to_nat (x_desc_num x)) ring' 0x800000 (x_desc_bus x) = Some ds /\
    concat (map (moved DMA_TO_DEVICE) ds) =
      zip (take (Z.to_nat (r_offset q')) (table_bytes l)) (window 0x100 4 0 (r_offset q')) /\
    x_len x = r_offset q' /\ 0 < r_offset q' <= 13 /\ (r_offset q' = 13 \/ 0 + x_desc_num x = 8).
Proof.
  exact (aperture_first_transfer 5 7 DMA_TO_DEVICE 0x100 4 4 false (ap_state 8) _ ap_req ap_sgt ap_state_ok).
Defined.

(** With a ring of three descriptors the list takes a second transfer, which
    starts again at the first entry of the table: its bytes are moved twice and the
    last ones of the second entry never. *)
Example second_transfer_restarts :
  let build := ap_build 5 DMA_TO_DEVICE 4 0x103 3 2 7 false in
  let sources s := match e_desc (s_eng s) with Some ring => map (fun d => (desc_src d, bytes d)) ring | None => [] end in
  option_map (fun r => sources r.2) (build (ap_state 3)) = Some [(0x4000, 4); (0x4004, 3); (0x6000, 1)] /\
  option_map (fun r => sources r.2) ((build >>; build) (ap_state 3)) = Some [(0x4001, 4); (0x4005, 2); (0x6000, 1)].
Proof. by vm_compute. Qed.
