(* ===== verification/ApertureCall.v ===== *)
(** * ApertureCall: a request through a window, from the ioctl to the result

    A request whose pieces fit in the ring is one transfer: [xdma_xfer_aperture]
    returns, whatever the device answers, with an error or with all the bytes of
    the table, and leaves nothing behind; so does the ioctl of the character
    device around it. *)

From S2P Require Import Prelude Hw State Desc Engine Service Request Fixtures Chain ServiceSpec ServiceProps RequestSpec QueueProps Submit SubmitSpec SubmitProps Aperture ApertureProps.

Section turn.
Context `{Env} `{Callback} `{Sched}.

(** ** One turn *)

(** The transfer as [ap_build] leaves it. *)
Definition ap_xfer (e : xdma_engine) (dma_mapped : bool) (n len : Z) : xdma_transfer :=
  set_x_desc_cmpl_th n (set_x_desc_num n (set_x_desc_adjacent n (set_x_len len (ap_init_xfer e dma_mapped)))).

Lemma ap_xfer_fields e dma_mapped n len :
  let x := ap_xfer e dma_mapped n len in
  x_desc_virt x = e_desc_idx e /\ x_desc_num x = n /\ x_len x = len /\ x_cb x = None /\
  x_last_in_request x = false.
Proof. by destruct dma_mapped. Qed.

(** The [switch] on the state of the transfer. *)
Definition ap_result (t : Z) (x : xdma_transfer) (done : Z) : M est (Z * Z) :=
  match x_state x with
  | TRANSFER_STATE_COMPLETED => ret (0, s64 (done + x_len x))
  | TRANSFER_STATE_FAILED => ret (- EIO, done)
  | _ => abort_transfer t >>; ret (- ERESTARTSYS, done)
  end.

(** It is the one of [xdma_xfer_submit] on an engine that moves memory. *)
Lemma ap_result_submit s t x done (Q : Z * Z -> est -> Prop) :
  e_streaming (s_eng s) = false -> s_xfers s !! t = Some x ->
  wp (submit_result t 0 done) (fun '(rv, _, done') s' => Q (rv, done') s') s -> wp (ap_result t x done) Q s.
Proof.
  intros Hst Hx. unfold submit_result, ap_result, wp, get_xfer, get_eng, deref, bind, gets, get. rewrite Hx, Hst. cbn [andb].
  by destruct (x_state x); try destruct (abort_transfer t s) as [[? ?]|].
Qed.

Lemma wp_ap_finish s t x sgt done :
  mm_engine (s_eng s) -> s_xfers s !! t = Some x -> in_ring sgt x s -> settled t x s ->
  wp (let* x := get_xfer t in
      let* '(rv, done) := ap_result t x done in
      upd_eng (fun e => set_e_desc_used (s32 (e_desc_used e - x_desc_num x)) e) >>;
      transfer_destroy t >>; ret (rv, done))
    (fun '(rv, done') s' => outcome rv done done' (x_len x) /\ turned t sgt (s_reqs s) s s') s.
Proof.
  intros Hmm Hx Hir Hset. apply wp_bind. eapply wp_get_xfer; [done|]. apply wp_bind.
  apply (ap_result_submit s t x); [by destruct Hmm|done|].
  eapply wp_mono; [eapply wp_submit_result; [done|exact Hx| |done]; destruct Hir as (_ & ? & _); lia|].
  intros [[rv ne] dn] s1 (-> & Hdn & Hf & Hq & x' & Hx' & Hsh). by eapply wp_release.
Qed.

(** The pieces of the whole table fit between the next slot and the end of the ring. *)
Definition ap_fits (e : xdma_engine) (size maxlen : Z) (l : list (Z * Z)) : Prop :=
  e_desc_idx e + Z.of_nat (length l) + hops size maxlen 0 (table_total l) <= e_desc_max e.

Lemma ap_fits_all e base size maxlen l ps :
  window_ok base size maxlen -> ap_fits e size maxlen l -> covers base size maxlen l 0 ps ->
  ap_total ps = table_total l \/ e_desc_idx e + Z.of_nat (length ps) = e_desc_max e ->
  ap_total ps = table_total l.
Proof.
  intros Hw Hfit [Ht _ _ Hn] [|Hend]; [done|]. unfold ap_fits in Hfit.
  pose proof (hops_mono base size maxlen 0 _ _ Hw Ht).
  destruct (Z.ltb_spec (ap_total ps) (table_total l)); lia.
Qed.

Lemma ap_mm_engine e ring n :
  mm_engine e -> Z.of_nat (length ring) = e_desc_max e -> mm_engine (set_e_desc (Some ring) (advance n e)).
Proof.
  intros [[r0 []] Hd Hs Hf Hid] Hlen. split; [|exact Hd|done|done|exact Hid].
  exists ring. split; cbn; try done. apply Z.mod_pos_bound. lia.
Qed.

Lemma wp_ap_step r sgt dir base size maxlen tmo done s ring q g :
  let l := take (Z.to_nat (sg_nents g)) (sg_sgl g) in
  irq_schedule -> mm_engine (s_eng s) -> dev_bars s -> queue s = [] ->
  aperture_ok r sgt base size maxlen s ring q g -> ap_fits (s_eng s) size maxlen l -> r_total_len q = table_total l ->
  wp (ap_step r dir maxlen (base + size - 1) (e_desc_max (s_eng s)) (sg_nents g) sgt false tmo done)
    (fun '(rv, done') s' => outcome rv done done' (table_total l) /\
       exists q', r_offset q' = r_total_len q' /\ turned (tfer r 0) sgt (<[r := q']> (s_reqs s)) s s') s.
Proof.
  intros l Hs Hmm Hb Hq Hok Hfit Htot. unfold ap_step. apply wp_bind.
  eapply wp_mono; [eapply wp_ap_build; exact Hok|].
  intros _ s1 (ps & i & a & Hcov & Hn & Hle & Hend & Hs1). fold l in Hcov, Hend.
  pose proof Hok as [Hring Hrq _ Hg Hw _ _ _ _ Htt]. fold l in Htt.
  pose proof (ap_fits_all _ _ _ _ _ _ Hw Hfit Hcov Hend) as Hall. unfold ap_built in Hs1. cbn zeta in Hs1.
  rewrite Hall in Hs1. set (n := Z.of_nat (length ps)) in *. fold (ap_xfer (s_eng s) false n (table_total l)) in Hs1.
  set (q1 := set_r_sg_idx _ _) in Hs1. set (ring1 := link_ring _ _ _ _) in Hs1. set (x1 := ap_xfer _ _ _ _) in *.
  destruct (ap_xfer_fields (s_eng s) false n (table_total l)) as (Hxv & Hxn & Hxl & Hxc & _). fold x1 in Hxv, Hxn, Hxl, Hxc.
  assert (Hmm1 : mm_engine (set_e_desc (Some ring1) (advance n (s_eng s)))).
  { apply ap_mm_engine; [done|]. unfold ring1, link_ring. rewrite !upd_range_length, length_put_pieces. by destruct Hring. }
  rewrite Hs1. apply wp_bind, bst_get_req.
  assert (Hoff : r_offset q1 = r_total_len q1) by done. rewrite Hoff, Z.eqb_refl.
  apply wp_bind. cbn [when]. apply bst_upd_xfer. set (x2 := set_x_sgt _ _). set (s2 := bst _ _ _ _ _ _ _).
  assert (Hx2 : s_xfers s2 !! tfer r 0 = Some x2) by apply lookup_insert_eq.
  assert (Hq2 : queue s2 = []) by done.
  assert (Hstop : forall s', mm_engine (s_eng s') -> queue s' = [] -> s_xdev s' = s_xdev s ->
            s_reqs s' = s_reqs s2 -> s_xfers s' = s_xfers s2 -> s_sgts s' = s_sgts s -> s_cbs s' = s_cbs s ->
            exists q', r_offset q' = r_total_len q' /\ turned (tfer r 0) sgt (<[r := q']> (s_reqs s)) s s').
  { intros s' ? ? ? ? Ex ? ?. exists q1. split; [done|]. split; try done. - by rewrite Ex, Hx2. - by left. }
  apply wp_bind. eapply (wp_transfer_queue s2 (tfer r 0) x2); [exact Hx2| | | | |].
  - split; rewrite Hq2; [constructor|set_solver].
  - change (x_desc_num x2) with n. lia.
  - intros _ _. apply wp_ret. split; [by left|by apply Hstop].
  - intros _ _ _ cpu lg2. apply wp_ret. split; [by left|]. apply Hstop; try done.
    by apply (mm_engine_core (s_eng s2)).
  - intros _ _ _ e3 lg2 (cpu & sh & dq & st & _ & Hst & ->). cbn [Z.ltb Z.compare].
    eapply (wp_wait_settled _ (tfer r 0) (set_x_state TRANSFER_STATE_SUBMITTED x2) sgt); try done.
    + by apply (mm_engine_kin (s_eng s2)).
    + change (queue s2 ++ [tfer r 0] = [tfer r 0]). by rewrite Hq2.
    + apply lookup_insert_eq.
    + unfold in_ring. cbn. destruct Hring. split_and!; try lia. intros _. split; [done|]. by exists g.
    + intros s3 x3 Hmm3 Hx3 Hir3 Hset Hlen Hf. eapply wp_mono; [by eapply (wp_ap_finish s3 (tfer r 0) x3 sgt)|].
      intros [rv dn] s4 [Hout Ht]. rewrite Hlen in Hout. split; [exact Hout|]. exists q1. split; [done|].
      pose proof (turned_frame _ _ _ _ _ Hf Ht) as [? ? ? ? ? ? ?]. by split.
Qed.
End turn.

(** ** The whole call *)

Section call.
Context `{Env} `{Callback} `{Sched}.

Lemma table_total_snoc l i e :
  l !! i = Some e -> table_total (take (S i) l) = table_total (take i l) + e.2.
Proof.
  intros Hl. rewrite (take_S_r _ _ _ Hl). unfold table_total. rewrite map_app, zsum_app.
  unfold zsum. cbn. lia.
Qed.

Lemma table_total_take l i : Forall entry_ok l -> table_total (take i l) <= table_total l.
Proof.
  intros Hl. rewrite <-(take_drop i l) at 2. unfold table_total at 2. rewrite map_app, zsum_app.
  pose proof (table_total_nonneg (drop i l) ltac:(by apply Forall_drop)). unfold table_total in *. lia.
Qed.

(** The length of the table is counted without overflow. *)
Lemma wp_table_len sgl n s (Q : Z -> est -> Prop) :
  0 <= n <= Z.of_nat (length sgl) -> Forall entry_ok (take (Z.to_nat n) sgl) ->
  table_total (take (Z.to_nat n) sgl) < 2 ^ 32 ->
  Q (table_total (take (Z.to_nat n) sgl)) s -> wp (table_len sgl n) Q s.
Proof.
  intros Hn Hok Htot HQ. unfold table_len. eapply wp_mono.
  - apply (wp_foldM_zrange _ _ (fun i t s' => s' = s /\ t = table_total (take (Z.to_nat i) sgl))); [done|].
    intros i t s' Hi [-> ->].
    destruct (lookup_lt_is_Some_2 sgl (Z.to_nat i)) as [[addr len] He]; [lia|].
    assert (zlookup sgl i = Some (addr, len)) as Hz by (unfold zlookup; by destruct (Z.ltb_spec i 0); [lia|]).
    apply wp_bind. eapply wp_deref; [exact Hz|]. apply wp_ret. split; [done|].
    replace (Z.to_nat (i + 1)) with (S (Z.to_nat i)) by lia.
    rewrite (table_total_snoc _ _ _ He). cbn [snd]. apply u32_small.
    pose proof (table_total_take (take (Z.to_nat n) sgl) (S (Z.to_nat i)) Hok) as Hle.
    rewrite take_take, (Nat.min_l (S (Z.to_nat i)) (Z.to_nat n)) in Hle by lia. rewrite (table_total_snoc _ _ _ He) in Hle. cbn [snd] in Hle.
    assert (entry_ok (addr, len)) as (_ & Hl & _).
    { eapply (Forall_lookup_1 _ _ (Z.to_nat i)); [exact Hok|]. rewrite lookup_take_lt by lia. exact He. }
    pose proof (table_total_nonneg (take (Z.to_nat i) sgl)) as Hp. cbn [snd] in Hl.
    enough (0 <= table_total (take (Z.to_nat i) sgl)) by lia. apply Hp.
    replace (take (Z.to_nat i) sgl) with (take (Z.to_nat i) (take (Z.to_nat n) sgl))
      by (rewrite take_take; f_equal; lia). by apply Forall_take.
  - cbn beta. intros t s' [-> ->]. by rewrite Z.max_r by lia.
Qed.

(** The request as it is when the first transfer starts. *)
Definition ap_request (sgt ep aperture total : Z) : xdma_request_cb :=
  set_r_total_len total (set_r_sgt sgt (set_r_ep_addr ep (set_r_aperture aperture (zero_req 0)))).

Lemma wp_ap_alloc s sgt ep aperture g (Q : option Z -> est -> Prop) :
  s_sgts s !! sgt = Some g -> 0 <= sg_nents g <= Z.of_nat (length (sg_sgl g)) ->
  Forall entry_ok (entries g) -> table_total (entries g) < 2 ^ 32 ->
  (forall lg, Q None (set_log lg s)) ->
  (forall r s', s_reqs s' = <[r := ap_request sgt ep aperture (table_total (entries g))]> (s_reqs s) ->
     s_xfers s' !! tfer r 0 = Some zero_xfer -> s_eng s' = s_eng s -> s_xdev s' = s_xdev s ->
     s_sgts s' = s_sgts s -> s_cbs s' = s_cbs s -> Q (Some r) s') ->
  wp (ap_alloc sgt ep aperture) Q s.
Proof.
  intros Hg Hn Hok Htot Hnone Hsome. unfold ap_alloc. apply wp_bind, wp_kcall.
  destruct (_ =? 0); [apply wp_ret, Hnone|].
  apply wp_bind. eapply wp_get_sgt; [exact Hg|]. apply wp_bind, wp_modify, wp_bind.
  eapply wp_upd_req; [apply lookup_insert_eq|]. apply wp_bind, wp_table_len; [done..|].
  apply wp_bind. eapply wp_upd_req; [apply lookup_insert_eq|]. apply wp_ret, Hsome; try done.
  - cbn. by rewrite !insert_insert_eq.
  - cbn. apply lookup_insert_eq.
Qed.

(** What the call relies on: a window inside of the address space, a table of
    less than 4 GiB, and pieces that fit in the ring. *)
Record ap_call_ok (ep aperture n : Z) (e : xdma_engine) (g : sg_table) : Prop := {
  ac_window : window_ok ep aperture (Z.min aperture desc_blen_max);
  ac_blen : desc_blen_max < 2 ^ 32;
  ac_nents : 0 <= n <= Z.of_nat (length (sg_sgl g));
  ac_table : Forall entry_ok (entries (mapped n g));
  ac_total : table_total (entries (mapped n g)) < 2 ^ 32;
  ac_fits : ap_fits e aperture (Z.min aperture desc_blen_max) (entries (mapped n g))
}.

(** An error, or all the bytes. *)
Definition all_or_error (rv total : Z) : Prop := - 2 ^ 31 <= rv < 0 \/ rv = total.

Lemma wp_ap_loop r sgt dir ep aperture tmo fuel s g reqs n :
  irq_schedule -> mm_engine (s_eng s) -> dev_bars s -> queue s = [] -> (0 < fuel)%nat ->
  ap_call_ok ep aperture n (s_eng s) g -> s_sgts s !! sgt = Some (mapped n g) ->
  s_reqs s = <[r := ap_request sgt ep aperture (table_total (entries (mapped n g)))]> reqs ->
  is_Some (s_xfers s !! tfer r 0) ->
  wp (ap_loop r dir (Z.min aperture desc_blen_max) (ep + aperture - 1) (e_desc_max (s_eng s)) n fuel sgt false tmo 0)
    (fun '(rv, done) s' => all_or_error (if done =? 0 then rv else done) (table_total (entries (mapped n g))) /\
       exists q', turned (tfer r 0) sgt (<[r := q']> reqs) s s') s.
Proof.
  intros Hs Hmm Hb Hq Hfuel [Hw Hbl Hn Htab Htot Hfit] Hg Hr Hx. set (T := table_total _) in *.
  assert (0 <= T) as HT by (by apply table_total_nonneg).
  assert (s_reqs s !! r = Some (ap_request sgt ep aperture T)) as Hrq by (rewrite Hr; apply lookup_insert_eq).
  destruct fuel as [|fuel]; [lia|]. cbn [ap_loop]. apply wp_bind. eapply wp_get_req; [exact Hrq|].
  change (r_offset (ap_request sgt ep aperture T)) with 0. change (r_total_len (ap_request sgt ep aperture T)) with T.
  destruct (Z.ltb_spec 0 T) as [Hpos|Hzero].
  - destruct (mm_ring _ Hmm) as [ring Hring]. apply wp_bind.
    eapply wp_mono; [apply (wp_ap_step r sgt dir ep aperture (Z.min aperture desc_blen_max) tmo 0 s ring
      (ap_request sgt ep aperture T) (mapped n g)); try done|].
    intros [rv done] s1 [Hout (q' & Hq' & Ht)]. change (outcome rv 0 done T) in Hout. rewrite Hr, insert_insert_eq in Ht.
    destruct Hout as [[Hrv ->]|[-> ->]].
    + destruct (Z.ltb_spec rv 0); [|lia]. apply wp_ret. split; [by left|by exists q'].
    + cbn [Z.ltb Z.compare].
      assert (s64 (0 + T) = T) as -> by (unfold s64, swrap; rewrite Z.mod_small; lia).
      assert (wp (ret (0, T)) (fun '(rv, done) s' => all_or_error (if done =? 0 then rv else done) T /\
                exists q', turned (tfer r 0) sgt (<[r := q']> reqs) s s') s1) as Hend.
      { apply wp_ret. split; [|by exists q']. right. by destruct (Z.eqb_spec T 0). }
      assert (s_reqs s1 !! r = Some q') as Hq1 by (rewrite (tn_reqs _ _ _ _ _ Ht); apply lookup_insert_eq).
      destruct fuel; cbn [ap_loop]; (apply wp_bind; eapply wp_get_req; [exact Hq1|]); rewrite Hq', Z.ltb_irrefl; exact Hend.
  - apply wp_ret. split; [right; cbn; lia|]. eexists. split; try done; by left.
Qed.

Lemma wp_ap_check dir s : wp (ap_check dir) (fun rv s' => - 2 ^ 31 <= rv <= 0 /\ s' = s) s.
Proof.
  unfold ap_check, check_engine. apply wp_bind, wp_bind, wp_get.
  destruct (negb _); [by apply wp_ret, wp_ret|]. destruct (xdma_device_flag_check _ _); [by apply wp_ret, wp_ret|].
  destruct (negb _); [by apply wp_ret, wp_ret|]. apply wp_ret. cbn [Z.ltb Z.compare].
  apply wp_bind, wp_get_eng, wp_ret. by destruct (e_streaming _).
Qed.

(** The call after the table is mapped. *)
Lemma wp_ap_mapped fuel dir ep aperture sgt tmo s0 s g n :
  irq_schedule -> mm_engine (s_eng s) -> dev_bars s -> queue s = [] -> (0 < fuel)%nat ->
  ap_call_ok ep aperture n (s_eng s) g -> s_sgts s !! sgt = Some (mapped n g) ->
  s_xdev s = s_xdev s0 -> s_reqs s = s_reqs s0 -> s_cbs s = s_cbs s0 ->
  wp (let* req := ap_alloc sgt ep aperture in
      match req with
      | None => unmap_sgl sgt false >>; ret (- ENOMEM)
      | Some req =>
          let* '(rv, done) := ap_loop req dir (Z.min aperture desc_blen_max) (u64 (ep + aperture - 1))
                                (u32 (e_desc_max (s_eng s))) (u32 n) fuel sgt false tmo 0 in
          unmap_sgl sgt false >>; xdma_request_free req >>; ret (if done =? 0 then rv else done)
      end)
    (fun rv s' => all_or_error rv (table_total (entries (mapped n g))) /\ cleaned sgt s0 s') s.
Proof.
  intros Hs Hmm Hb Hq Hfuel Hcall Hg Hd Hr Hc. pose proof Hcall as [Hw Hbl Hnn Htab Htot Hfit].
  apply wp_bind, (wp_ap_alloc s sgt ep aperture (mapped n g)); [done..| |].
  - intros lg. apply wp_bind. eapply wp_mono; [by apply (wp_unmap_sgl _ sgt (mapped n g))|].
    intros _ s3 (He & Hd3 & Hr3 & Hc3 & Hg3). apply wp_ret. split; [by left|].
    split; [by rewrite He|by rewrite He|by rewrite Hd3|by rewrite Hr3, <-Hr|by rewrite Hc3|by right].
  - intros r s2 Hr2 Hx2 He2 Hd2 Hs2 Hc2.
    assert (0 <= e_desc_max (s_eng s) < 2 ^ 32) as Hmax by (destruct (mm_ring _ Hmm) as [ring []]; lia).
    assert (Z.of_nat (length (entries (mapped n g))) = n) as Hle by (unfold entries; rewrite length_take; cbn; lia).
    assert (0 <= n < 2 ^ 32) as Hn32.
    { destruct (mm_ring _ Hmm) as [ring []]. unfold ap_fits in Hfit.
      pose proof (hops_nonneg ep aperture _ 0 _ Hw (table_total_nonneg _ Htab)). lia. }
    rewrite (u32_small (e_desc_max _)), (u32_small n), u64_small by (destruct Hw; lia).
    apply wp_bind. rewrite <-He2. eapply wp_mono.
    + apply (wp_ap_loop r sgt _ ep aperture tmo fuel s2 g (s_reqs s)); try done.
      * by rewrite He2.
      * unfold dev_bars. by rewrite Hd2.
      * by rewrite He2.
      * by rewrite He2.
      * by rewrite Hs2.
    + intros [rv2 done] s3 (Hrv2 & q' & [Hmm3 Hq3 Hd3 Hr3 Hc3 _ Hg3]).
      destruct (sgts_step_live _ _ _ Hg3) as [g3 Hg3']; [by rewrite Hs2|].
      eapply (wp_cleanup s0 s3 r q' sgt g3); try done; [congruence|congruence|by rewrite Hr3, Hr].
Qed.

Lemma wp_xfer_aperture fuel write ep aperture sgt tmo s g :
  irq_schedule -> mm_engine (s_eng s) -> dev_bars s -> queue s = [] -> (0 < fuel)%nat ->
  s_sgts s !! sgt = Some g ->
  let n := map_answer s sgt g in
  (n <> 0 -> ap_call_ok ep aperture n (s_eng s) g) ->
  wp (xdma_xfer_aperture fuel write ep aperture sgt false tmo)
    (fun rv s' => all_or_error rv (table_total (entries (mapped n g))) /\ cleaned sgt s s') s.
Proof.
  intros Hs Hmm Hb Hq Hfuel Hg n Hcall. unfold xdma_xfer_aperture.
  assert (forall lg, cleaned sgt s (set_log lg s)) as Hlog by (intros lg; split; try done; by left).
  apply wp_bind. eapply wp_mono; [apply wp_ap_check|].
  intros rv s' [Hrv ->]. destruct (rv <? 0) eqn:Erv.
  { apply wp_ret. split; [left; lia|]. specialize (Hlog (s_log s)). by destruct s. }
  apply wp_bind. unfold map_sgl. apply wp_bind. eapply wp_get_sgt; [exact Hg|].
  apply wp_bind, wp_kcall. fold (map_answer s sgt g). fold n.
  destruct (Z.eqb_spec n 0) as [Hn|Hn].
  { apply wp_ret. cbn [Z.ltb Z.compare Z.opp]. apply wp_ret. split; [by left|]. apply Hlog. }
  apply wp_bind. eapply wp_upd_sgt; [exact Hg|]. apply wp_ret. cbn [Z.ltb Z.compare].
  fold (mapped n g). match goal with |- wp _ _ ?st => set (s1 := st) end.
  assert (s_sgts s1 !! sgt = Some (mapped n g)) as Hg1 by apply lookup_insert_eq.
  apply wp_bind. eapply wp_get_sgt; [exact Hg1|]. apply wp_bind, wp_get_eng.
  apply (wp_ap_mapped fuel _ ep aperture sgt tmo s s1 g n); try done. by apply Hcall.
Qed.

(** C10: a call of [xdma_xfer_aperture] in interrupt mode on an idle engine whose
    device moves memory, identifies itself at every read and answers statuses
    whose text fits in the driver's buffer ([mm_engine]), with a window inside of
    the address space and a table whose pieces fit between the next descriptor and
    the end of the ring: for every other behaviour of the device, every failure of
    allocation and mapping and every schedule of interrupts and of
    [xdma_device_offline] it returns, after one transfer; the result is an error
    or the length of the mapped table, and the queue is empty, the request freed
    and the table unmapped. *)
Theorem xdma_xfer_aperture_call fuel write ep aperture sgt tmo s g :
  irq_schedule -> mm_engine (s_eng s) -> dev_bars s -> queue s = [] -> (0 < fuel)%nat ->
  s_sgts s !! sgt = Some g ->
  let n := map_answer s sgt g in
  (n <> 0 -> ap_call_ok ep aperture n (s_eng s) g) ->
  exists rv s', xdma_xfer_aperture fuel write ep aperture sgt false tmo s = Some (rv, s') /\
    all_or_error rv (table_total (entries (mapped n g))) /\ cleaned sgt s s'.
Proof.
  intros Hs Hmm Hb Hq Hf Hg n Hcall.
  pose proof (wp_xfer_aperture fuel write ep aperture sgt tmo s g Hs Hmm Hb Hq Hf Hg Hcall) as Hwp.
  apply wp_iff in Hwp as (rv & s' & Hrun & Hrv & Hcl). by exists rv, s'.
Qed.
End call.

(** ** Witness *)

(** A device that completes four descriptors. *)
Definition window_env : Env := {|
  io_read _ a :=
    if a =? 0x1000 then 0x1fc10000
    else if a =? 0x1000 + offsetof engine_regs "completed_desc_count" then 4 else 0;
  kernel _ f _ := if String.eqb f "pci_map_sg" then 3 else if String.eqb f "kzalloc" then 40 else 0;
  poll_mode := false;
  interrupt_mode := 0;
  enable_st_c2h_credit := false;
  desc_blen_max := XDMA_DESC_BLEN_MAX;
  HZ := 250;
  SIZEOF_REQ := 400
|}.

(** 24 bytes through a window of 16: four descriptors, one transfer. *)
Example window_delivers :
  match @xdma_xfer_aperture window_env no_callback one_interrupt 1 false 0x100 16 7 false 10 submit_state with
  | Some (rv, s') => rv = 24 /\ queue s' = [] /\ s_reqs s' = s_reqs submit_state
  | None => False
  end.
Proof. vm_compute. done. Qed.

Lemma window_mm : @mm_engine window_env (s_eng submit_state).
Proof.
  split; [exists (replicate 8 zero_desc); apply demo_ring_ok| |done|done|by intros].
  apply c2h_dump_ok; [done|cbn; lia].
Qed.

Lemma window_call_ok : @ap_call_ok window_env 0x100 16 3 (s_eng submit_state) submit_sgt.
Proof.
  split; [split; by vm_compute|by vm_compute|cbn; lia| |by vm_compute|by vm_compute].
  repeat apply Forall_cons_2; try apply Forall_nil_2; by vm_compute.
Qed.

Lemma xdma_xfer_aperture_call_witness :
  exists rv s', @xdma_xfer_aperture window_env no_callback one_interrupt 1 false 0x100 16 7 false 10 submit_state
      = Some (rv, s') /\ all_or_error rv 24 /\ @cleaned window_env 7 submit_state s'.
Proof.
  apply (@xdma_xfer_aperture_call window_env no_callback one_interrupt 1 false 0x100 16 7 10 submit_state submit_sgt).
  - by intros lg.
  - apply window_mm.
  - by eexists.
  - done.
  - lia.
  - done.
  - intros _. apply window_call_ok.
Defined.
