(* ===== verification/Perf.v ===== *)
(** * Perf: performance runs

    A performance run is a cyclic transfer: a loop of descriptors that all move
    the same buffer, which the engine executes until it is stopped. *)

From S2P Require Import Prelude Hw State Desc Engine Service Request.

Definition XDMA_PERF_NUM_DESC := 128.
Definition MAX_CONSISTENT_SIZE := XDMA_PERF_NUM_DESC * 32 * 1024.

Section perf.
Context `{Env}.

(** The number of descriptors of the loop, or an error. *)
Definition perf_loop_desc (size_in_desc : Z) : option Z :=
  if MAX_CONSISTENT_SIZE <? u32 size_in_desc then None
  else
    let size := s32 (size_in_desc * XDMA_PERF_NUM_DESC) in
    if MAX_CONSISTENT_SIZE <? u32 size
    then Some (Z.quot MAX_CONSISTENT_SIZE size_in_desc) else Some XDMA_PERF_NUM_DESC.

(** The descriptor list, allocated if the engine has none; [None] when that
    fails.  The flag tells whether it was allocated here. *)
Definition perf_desc_alloc (n : Z) : M est (option bool) :=
  let* e := get_eng in
  match e_desc e with
  | Some _ => ret (Some false)
  | None =>
      let* '(desc, bus) := dma_alloc_coherent (n * DESC_SIZE) in
      if desc =? 0 then ret None
      else
        upd_eng (set_e_desc_bus bus) >>;
        upd_eng (set_e_desc (Some (replicate (Z.to_nat n) zero_desc))) >>;
        ret (Some true)
  end.

(** The transfer of the run is not part of a request: its key is the negated
    address, which no [tfer] is. *)
Definition perf_key (addr : Z) : Z := - addr.

(** Its descriptors are at the start of the ring. *)
Definition perf_xfer (e : xdma_engine) (n : Z) : xdma_transfer :=
  mk_xfer 0 0 0 (e_desc_bus e) 0 n 0 0 0 (e_dir e) TRANSFER_STATE_NEW 0 false false 0 None None.

Definition perf_build (t n size_in_desc : Z) : M est unit :=
  transfer_desc_init t n >>;
  let* e := get_eng in
  forM (zrange n) (fun i =>
    upd_desc i (xdma_desc_set (e_perf_buf_bus e) 0 size_in_desc (e_dir e))) >>;
  control_set 0 0 >>;
  upd_desc (n - 1) (fun d => xdma_desc_link d true (e_desc_bus e)) >>;
  upd_xfer t (set_x_cyclic true).

Definition perf_buf_free : M est unit :=
  let* e := get_eng in
  when (negb (e_perf_buf_virt e =? 0)) (kdo "dma_free_coherent" [e_perf_buf_virt e]) >>;
  upd_eng (set_e_perf_buf_virt 0).

(** The labels [err_dma_desc] and [err_engine_desc]: [list_del] of an entry that
    is not on a list follows its NULL pointers. *)
Definition perf_fail_desc (free_desc : bool) : M est unit :=
  let* e := get_eng in
  when free_desc (kdo "dma_free_coherent" [e_desc_bus e]) >>;
  upd_eng (set_e_desc None) >>;
  ub.

Definition xdma_performance_submit : M est Z :=
  let* e := get_eng in
  let* p := deref (e_xdma_perf e) in
  let size_in_desc := s32 (p_transfer_size p) in
  match perf_loop_desc size_in_desc with
  | None => ret (- EINVAL)
  | Some n =>
      let* '(buf, bus) := dma_alloc_coherent size_in_desc in
      upd_eng (set_e_perf_buf_virt buf) >>;
      if buf =? 0 then ret (- ENOMEM)
      else
        upd_eng (set_e_perf_buf_bus bus) >>;
        let* t := kcall "kzalloc xdma_transfer" [] in
        if t =? 0 then perf_buf_free >>; ret (- ENOMEM)
        else
          let* free_desc := perf_desc_alloc n in
          match free_desc with
          | None => ub
          | Some free_desc =>
              let* e := get_eng in
              let t := perf_key t in
              put_xfer t (perf_xfer e n) >>;
              perf_build t n size_in_desc >>;
              let* rv := transfer_queue t in
              if rv <? 0 then perf_fail_desc free_desc >>; ret rv else ret 0
          end
  end.

(** The stopped transfer, or NULL. *)
Definition engine_cyclic_stop : M est (option Z) :=
  let* e := get_eng in
  let* p := deref (e_xdma_perf e) in
  match e_transfer_list e with
  | [] => ret None
  | t :: q =>
      let* rv := xdma_engine_stop in
      if rv <? 0 then ret None
      else
        let* x := get_xfer t in
        when (x_cyclic x)
          (when (negb (e_perf_buf_virt e =? 0)) (kdo "dma_free_coherent" [e_perf_buf_virt e]) >>;
           upd_eng (set_e_perf_buf_virt 0) >>;
           upd_eng (set_e_transfer_list q)) >>;
        ret (Some t)
  end.
End perf.
