(* ===== verification/Dev.v ===== *)
(** * Dev: the state of the whole device

    A device with its engine arrays, the driver's list of devices and the
    polling threads.  [on_engine] runs an engine operation on one engine of the
    device ([&xdev->engine_h2c[i]], [&xdev->engine_c2h[i]]); outside of the
    array there is no result. *)

From S2P Require Import Prelude Hw State Desc Engine.

(** [struct xdma_kthread]: work items are engines of the device. *)
Record kthread := mk_kthread {
  th_id : Z;
  th_cpu : Z;
  th_schedule : bool;
  th_task : Z;                       (** 0 when no task *)
  th_work_cnt : Z;
  th_work_list : list (dma_dir * Z)
}.

Record dst := mk_dst {
  v_hndl : Z;                        (** the address of the [xdma_dev] *)
  v_dev : xdma_dev;
  v_h2c : list xdma_engine;
  v_c2h : list xdma_engine;
  v_xfers : gmap Z xdma_transfer;
  v_sgts : gmap Z sg_table;
  v_reqs : gmap Z xdma_request_cb;
  v_cbs : gmap Z xdma_io_cb;
  v_caios : gmap Z cdev_async_io;
  v_list : list (Z * Z * Z);         (** [xdev_list]: device, its pci device, its [idx] *)
  v_threads : option (list kthread); (** [cs_threads] *)
  v_thread_cnt : Z;
  v_log : list event
}.

#[export] Instance dst_log : HasLog dst := {
  log_of := v_log;
  set_log l v := mk_dst (v_hndl v) (v_dev v) (v_h2c v) (v_c2h v) (v_xfers v) (v_sgts v)
                   (v_reqs v) (v_cbs v) (v_caios v) (v_list v) (v_threads v) (v_thread_cnt v) l
}.

Definition set_v_dev (d : xdma_dev) (v : dst) : dst :=
  mk_dst (v_hndl v) d (v_h2c v) (v_c2h v) (v_xfers v) (v_sgts v) (v_reqs v) (v_cbs v) (v_caios v)
    (v_list v) (v_threads v) (v_thread_cnt v) (v_log v).
Definition set_v_engines (h2c c2h : list xdma_engine) (v : dst) : dst :=
  mk_dst (v_hndl v) (v_dev v) h2c c2h (v_xfers v) (v_sgts v) (v_reqs v) (v_cbs v) (v_caios v)
    (v_list v) (v_threads v) (v_thread_cnt v) (v_log v).
Definition set_v_list (l : list (Z * Z * Z)) (v : dst) : dst :=
  mk_dst (v_hndl v) (v_dev v) (v_h2c v) (v_c2h v) (v_xfers v) (v_sgts v) (v_reqs v) (v_cbs v) (v_caios v)
    l (v_threads v) (v_thread_cnt v) (v_log v).
Definition set_v_threads (t : option (list kthread)) (n : Z) (v : dst) : dst :=
  mk_dst (v_hndl v) (v_dev v) (v_h2c v) (v_c2h v) (v_xfers v) (v_sgts v) (v_reqs v) (v_cbs v) (v_caios v)
    (v_list v) t n (v_log v).

Definition engines (dir : dma_dir) (v : dst) : list xdma_engine :=
  if is_h2c dir then v_h2c v else v_c2h v.
Definition channel_max (dir : dma_dir) (d : xdma_dev) : Z :=
  if is_h2c dir then d_h2c_channel_max d else d_c2h_channel_max d.

Definition set_engines (dir : dma_dir) (l : list xdma_engine) (v : dst) : dst :=
  if is_h2c dir then set_v_engines l (v_c2h v) v else set_v_engines (v_h2c v) l v.

(** The state of one engine, and the device after the engine has changed. *)
Definition focus_engine (e : xdma_engine) (v : dst) : est :=
  mk_est (v_dev v) e (v_xfers v) (v_sgts v) (v_reqs v) (v_cbs v) (v_caios v) (v_log v).

Definition unfocus_engine (dir : dma_dir) (i : Z) (s : est) (v : dst) : dst :=
  let l := <[Z.to_nat i := s_eng s]> (engines dir v) in
  mk_dst (v_hndl v) (s_xdev s)
    (if is_h2c dir then l else v_h2c v) (if is_h2c dir then v_c2h v else l)
    (s_xfers s) (s_sgts s) (s_reqs s) (s_cbs s) (s_caios s)
    (v_list v) (v_threads v) (v_thread_cnt v) (s_log s).

Definition on_engine {A} (dir : dma_dir) (i : Z) (m : M est A) : M dst A :=
  fun v =>
    match zlookup (engines dir v) i with
    | Some e =>
        match m (focus_engine e v) with
        | Some (a, s) => Some (a, unfocus_engine dir i s v)
        | None => None
        end
    | None => None
    end.

Definition get_dev : M dst xdma_dev := gets v_dev.
Definition upd_dev (f : xdma_dev -> xdma_dev) : M dst unit :=
  modify (fun v => set_v_dev (f (v_dev v)) v).
Definition get_engine (dir : dma_dir) (i : Z) : M dst xdma_engine :=
  let* v := get in deref (zlookup (engines dir v) i).

(** [&xdev->user_irq[i]] *)
Definition get_user_irq (i : Z) : M dst user_irq :=
  let* d := get_dev in deref (zlookup (d_user_irq d) i).
Definition upd_user_irq (i : Z) (f : user_irq -> user_irq) : M dst unit :=
  let* d := get_dev in
  let* l := deref (zupdate (d_user_irq d) i f) in
  upd_dev (set_d_user_irq l).

(** ** The list of devices *)

Fixpoint find_pdev (l : list (Z * Z * Z)) (pdev : Z) : option Z :=
  match l with
  | [] => None
  | (hndl, p, _) :: l => if p =? pdev then Some hndl else find_pdev l pdev
  end.

Definition xdev_find_by_pdev (pdev : Z) : M dst (option Z) :=
  let* v := get in ret (find_pdev (v_list v) pdev).

(** Callers pass the device's own [pdev] or the one they got. *)
Definition debug_check_dev_hndl (pdev hndl : Z) : M dst Z :=
  if pdev =? 0 then ret (- EINVAL)
  else
    let* xdev := xdev_find_by_pdev pdev in
    match xdev with
    | None => ret (- EINVAL)
    | Some xdev => if xdev =? hndl then ret 0 else ret (- EINVAL)
    end.

(** ** Rules *)

Lemma on_engine_eq {A} dir i (m : M est A) v e :
  zlookup (engines dir v) i = Some e ->
  on_engine dir i m v =
  match m (focus_engine e v) with
  | Some (a, s) => Some (a, unfocus_engine dir i s v)
  | None => None
  end.
Proof. intros He. unfold on_engine. by rewrite He. Qed.

Lemma wp_on_engine {A} dir i (m : M est A) (Q : A -> dst -> Prop) v e :
  zlookup (engines dir v) i = Some e ->
  wp m (fun a s => Q a (unfocus_engine dir i s v)) (focus_engine e v) ->
  wp (on_engine dir i m) Q v.
Proof.
  intros He Hm. unfold wp. rewrite (on_engine_eq dir i m v e He). unfold wp in Hm.
  by destruct (m (focus_engine e v)) as [[a s]|].
Qed.

Lemma engines_unfocus dir i s v :
  engines dir (unfocus_engine dir i s v) = <[Z.to_nat i := s_eng s]> (engines dir v).
Proof. unfold engines, unfocus_engine. by destruct dir. Qed.

Lemma engines_unfocus_other dir dir' i s v :
  dir <> dir' -> engines dir' (unfocus_engine dir i s v) = engines dir' v.
Proof. unfold engines, unfocus_engine. by destruct dir, dir'. Qed.
