(* ===== verification/DevFixtures.v ===== *)
(** * DevFixtures: a concrete device

    A device with one engine in each direction and two user interrupts, the
    input of the witnesses about whole devices. *)

From S2P Require Import Prelude Hw State Desc Engine Fixtures Dev.

Definition demo_dev2 : xdma_dev :=
  set_d_user_irq [mk_user_irq 0 0 0 0; mk_user_irq 1 0 5 6] (set_d_user_max 2 demo_dev).

Definition demo_c2h : xdma_engine := set_e_irq_bitmask 2 (demo_engine DMA_FROM_DEVICE 8).

Definition demo_dst : dst :=
  {| v_hndl := 77; v_dev := demo_dev2; v_h2c := [demo_engine DMA_TO_DEVICE 8]; v_c2h := [demo_c2h];
     v_xfers := ∅; v_sgts := ∅; v_reqs := ∅; v_cbs := ∅; v_caios := ∅;
     v_list := [(77, 1, 0)]; v_threads := None; v_thread_cnt := 0; v_log := [] |}.
