(* ===== verification/Thread.v ===== *)
(** * Thread: the polling threads

    In polled mode, kernel threads watch the engines: [xdma_threads_create]
    starts one per online cpu, [xdma_thread_add_work] gives an engine to a
    thread, and each turn of a thread services its engines. *)

From S2P Require Import Prelude Hw State Desc Engine Service Dev.

Section thread.
Context `{Env} `{Callback}.

(** [cs_threads + i] *)
Definition get_threads : M dst (list kthread) :=
  let* v := get in deref (v_threads v).
Definition upd_thread (i : Z) (f : kthread -> kthread) : M dst unit :=
  let* l := get_threads in
  let* l' := deref (zupdate l i f) in
  modify (fun v => set_v_threads (Some l') (v_thread_cnt v) v).

Definition th_set_work (cnt : Z) (l : list (dma_dir * Z)) (t : kthread) : kthread :=
  mk_kthread (th_id t) (th_cpu t) (th_schedule t) (th_task t) cnt l.
Definition th_set_schedule (b : bool) (t : kthread) : kthread :=
  mk_kthread (th_id t) (th_cpu t) b (th_task t) (th_work_cnt t) (th_work_list t).
Definition th_set_task (task : Z) (t : kthread) : kthread :=
  mk_kthread (th_id t) (th_cpu t) (th_schedule t) task (th_work_cnt t) (th_work_list t).

(** ** Assigning engines to threads *)

(** The search of [xdma_thread_add_work] from thread [i] on; [idx = cnt] until
    the first turn. *)
Fixpoint pick_thread (cnt v idx i : Z) (l : list kthread) : Z :=
  match l with
  | [] => idx
  | t :: l =>
      if idx =? cnt then pick_thread cnt (th_work_cnt t) i (i + 1) l
      else if th_work_cnt t =? 0 then i
      else if th_work_cnt t <? v then pick_thread cnt v i (i + 1) l
      else pick_thread cnt v idx (i + 1) l
  end.

Definition xdma_thread_add_work (dir : dma_dir) (ch : Z) : M dst unit :=
  let* v := get in
  let cnt := v_thread_cnt v in
  let l := default [] (v_threads v) in
  let idx := pick_thread cnt 0 cnt 0 (take (Z.to_nat cnt) l) in
  upd_thread idx (fun t => th_set_work (u32 (th_work_cnt t + 1)) (th_work_list t ++ [(dir, ch)]) t) >>;
  on_engine dir ch
    (upd_eng (set_e_intr_work_cpu idx) >>; upd_eng (set_e_cmplthp (Some idx))).

Definition xdma_thread_remove_work (dir : dma_dir) (ch : Z) : M dst unit :=
  let* e := get_engine dir ch in
  on_engine dir ch (upd_eng (set_e_cmplthp None)) >>;
  match e_cmplthp e with
  | None => ret tt
  | Some idx =>
      upd_thread idx (fun t =>
        th_set_work (u32 (th_work_cnt t - 1))
          (filter (fun w => w <> (dir, ch)) (th_work_list t)) t)
  end.

(** ** The work of a thread *)

Definition xdma_thread_cmpl_status_pend (w : dma_dir * Z) : M dst bool :=
  let* e := get_engine (fst w) (snd w) in
  ret (negb (bool_decide (e_transfer_list e = []))).

(** [list_entry] of an empty queue is not NULL: it points into the engine, and
    the threshold read through it is whatever is there. *)
Definition cmpl_threshold : M est Z :=
  let* e := get_eng in
  match e_transfer_list e with
  | t :: _ => let* x := get_xfer t in ret (x_desc_cmpl_th x)
  | [] => kcall "engine memory read as desc_cmpl_th" []
  end.

Definition xdma_thread_cmpl_status_proc (fuel : nat) (w : dma_dir * Z) : M dst unit :=
  on_engine (fst w) (snd w)
    (let* th := cmpl_threshold in engine_service_poll fuel (u32 th) >>; ret tt).

Fixpoint any_pending (l : list (dma_dir * Z)) : M dst bool :=
  match l with
  | [] => ret false
  | w :: l =>
      let* p := xdma_thread_cmpl_status_pend w in
      if p then ret true else any_pending l
  end.

Definition xthread_work_pending (i : Z) : M dst bool :=
  let* l := get_threads in
  let* t := deref (zlookup l i) in
  any_pending (th_work_list t).

Definition xthread_reschedule (i : Z) : M dst unit := kdo "wait_event_interruptible waitq" [i].

(** One turn of the loop of [xthread_main]. *)
Definition xthread_turn (fuel : nat) (i : Z) : M dst unit :=
  let* pend := xthread_work_pending i in
  when (negb pend) (xthread_reschedule i) >>;
  upd_thread i (th_set_schedule false) >>;
  let* l := get_threads in
  let* t := deref (zlookup l i) in
  when (negb (th_work_cnt t =? 0)) (forM (th_work_list t) (xdma_thread_cmpl_status_proc fuel)) >>;
  kdo "schedule" [].

(** [while (!kthread_should_stop())], at most [turns] times. *)
Fixpoint xthread_main (turns fuel : nat) (i : Z) : M dst unit :=
  match turns with
  | O => ret tt
  | S turns =>
      let* stop := kcall "kthread_should_stop" [i] in
      if negb (stop =? 0) then ret tt
      else xthread_turn fuel i >>; xthread_main turns fuel i
  end.

(** ** Starting and stopping threads *)

Definition xdma_kthread_start (i id : Z) : M dst Z :=
  let* l := get_threads in
  let* t := deref (zlookup l i) in
  if negb (th_task t =? 0) then ret (- EINVAL)
  else
    let* len := kcall "snprintf name" [id] in
    if len <? 0 then ret (- EINVAL)
    else
      upd_thread i (fun t => mk_kthread (u16 id) (th_cpu t) (th_schedule t) (th_task t) (th_work_cnt t) []) >>;
      let* task := kcall "kthread_create_on_node" [i] in
      if task =? 0 then upd_thread i (th_set_task 0) >>; ret (- EFAULT)
      else
        upd_thread i (th_set_task task) >>;
        kdo "kthread_bind" [task; th_cpu t] >>;
        kdo "wake_up_process" [task] >>;
        ret 0.

Definition xdma_kthread_stop (i : Z) : M dst Z :=
  let* l := get_threads in
  let* t := deref (zlookup l i) in
  if th_task t =? 0 then ret 0
  else
    upd_thread i (th_set_schedule true) >>;
    let* rv := kcall "kthread_stop" [th_task t] in
    if rv <? 0 then ret rv
    else upd_thread i (th_set_task 0) >>; ret 0.

Definition xdma_kthread_wakeup (i : Z) : M dst unit :=
  upd_thread i (th_set_schedule true) >>; kdo "wake_up_interruptible waitq" [i].

Definition zero_thread : kthread := mk_kthread 0 0 false 0 0 [].

(** [for_each_online_cpu]: the cpus left, [i] is [thp - cs_threads]. *)
Fixpoint start_threads (num i : Z) (cpus : list Z) : M dst Z :=
  match cpus with
  | [] => ret 0
  | cpu :: cpus =>
      upd_thread i (fun t => mk_kthread (th_id t) (u16 cpu) (th_schedule t) (th_task t)
                               (th_work_cnt t) (th_work_list t)) >>;
      let* v := get in
      let* rv := xdma_kthread_start i (v_thread_cnt v) in
      if rv <? 0 then
        modify (set_v_threads None 0) >>; ret rv
      else
        modify (fun v => set_v_threads (v_threads v) (u32 (v_thread_cnt v + 1)) v) >>;
        let* v := get in
        if v_thread_cnt v =? num then ret 0 else start_threads num (i + 1) cpus
  end.

Definition xdma_threads_create (num_threads : Z) : M dst Z :=
  let* v := get in
  if negb (v_thread_cnt v =? 0) then ret 0
  else
    let* p := kcall "kzalloc threads" [num_threads] in
    if p =? 0 then modify (set_v_threads None (v_thread_cnt v)) >>; ret (- ENOMEM)
    else
      modify (set_v_threads (Some (replicate (Z.to_nat num_threads) zero_thread)) (v_thread_cnt v)) >>;
      let* ncpus := kcall "num_online_cpus" [] in
      start_threads num_threads 0 (zrange ncpus).

Definition xdma_threads_destroy : M dst unit :=
  let* v := get in
  if v_thread_cnt v =? 0 then ret tt
  else
    forM (zrange (v_thread_cnt v)) (fun i => xdma_kthread_stop i >>; ret tt) >>;
    modify (set_v_threads None 0).
End thread.
