(* ===== verification/ThreadProps.v ===== *)
(** * ThreadProps: assigning engines to polling threads

    [xdma_thread_add_work] gives every engine to one thread, an idle one if there
    is one, and [xdma_thread_remove_work] takes it back; the counts of work stay
    equal to the lengths of the work lists. *)

From S2P Require Import Prelude Hw State Desc Engine Service Fixtures Dev DevFixtures Thread.

(** ** The search *)

Definition load (l : list kthread) (i : Z) : Z :=
  match zlookup l i with Some t => th_work_cnt t | None => 0 end.

Definition idle (l : list kthread) : Prop := exists t, t ∈ l /\ th_work_cnt t = 0.

Lemma load_app_r l1 l2 i : 0 <= i -> load (l1 ++ l2) (Z.of_nat (length l1) + i) = load l2 i.
Proof.
  intros Hi. unfold load, zlookup. destruct (Z.ltb_spec (Z.of_nat (length l1) + i) 0); [lia|].
  destruct (Z.ltb_spec i 0); [lia|]. rewrite lookup_app_r by lia.
  by replace (Z.to_nat (Z.of_nat (length l1) + i) - length l1)%nat with (Z.to_nat i) by lia.
Qed.

Definition counts_ok (l : list kthread) : Prop := Forall (fun t => 0 <= th_work_cnt t) l.

Lemma load_nonneg l i : counts_ok l -> 0 <= load l i.
Proof.
  intros Hl. unfold load. destruct (zlookup l i) as [t|] eqn:E; [|done].
  unfold zlookup in E. destruct (i <? 0); [done|]. eapply Forall_lookup in E; [|exact Hl]. done.
Qed.

(** From the second thread on: [idx] is the best thread so far, [w] the load of
    the first one, [done] the threads already seen. *)
Lemma pick_thread_from cnt w idx done l :
  let all := done ++ l in
  let r := pick_thread cnt w idx (Z.of_nat (length done)) l in
  counts_ok all -> Z.of_nat (length all) = cnt -> 0 <= idx < Z.of_nat (length done) ->
  load all idx <= w -> (idle done -> w = 0) ->
  0 <= r < cnt /\ load all r <= w /\ (idle all -> load all r = 0).
Proof.
  revert idx done. induction l as [|t l IH]; intros idx done all r Hall Hlen Hidx Hw Hidle; subst all r.
  - cbn [pick_thread]. pose proof (load_nonneg _ idx Hall). rewrite app_nil_r in *. split_and!; [lia|lia|done|].
    intros Hi. specialize (Hidle Hi). lia.
  - cbn [pick_thread]. pose proof (load_nonneg _ idx Hall) as H0.
    assert (load (done ++ t :: l) (Z.of_nat (length done)) = th_work_cnt t) as Ht.
    { rewrite <-(Z.add_0_r (Z.of_nat _)), load_app_r by lia. done. }
    rewrite length_app in Hlen. cbn [length] in Hlen.
    destruct (Z.eqb_spec idx cnt); [lia|].
    assert (forall x, pick_thread cnt w x (Z.of_nat (length done) + 1) l =
                      pick_thread cnt w x (Z.of_nat (length (done ++ [t]))) l) as Ei.
    { intros x. rewrite length_app. cbn [length]. f_equal. lia. }
    assert (done ++ t :: l = (done ++ [t]) ++ l) as El by (by rewrite <-app_assoc).
    destruct (Z.eqb_spec (th_work_cnt t) 0) as [Hz|Hz].
    { split_and!; [lia|lia|lia|]. by rewrite Ht. }
    assert (idle (done ++ [t]) -> w = 0) as Hid2.
    { intros (t' & Hin & Ht'). apply elem_of_app in Hin as [Hin|Hin].
      - apply Hidle. by exists t'.
      - apply list_elem_of_singleton in Hin as ->. done. }
    destruct (Z.ltb_spec (th_work_cnt t) w); rewrite Ei, El;
      (apply IH; rewrite <-?El, ?length_app; cbn [length]; [done|lia|lia|lia|done]).
Qed.

Lemma pick_thread_spec l :
  l <> [] -> counts_ok l ->
  let cnt := Z.of_nat (length l) in
  let r := pick_thread cnt 0 cnt 0 l in
  0 <= r < cnt /\ load l r <= load l 0 /\ (idle l -> load l r = 0).
Proof.
  destruct l as [|t l]; [done|]. intros _ Hl cnt r. subst r. cbn [pick_thread]. rewrite Z.eqb_refl.
  assert (load (t :: l) 0 = th_work_cnt t) as H0 by done.
  assert (idle [t] -> th_work_cnt t = 0) as Hid by (by intros (t' & ->%list_elem_of_singleton & ?)).
  rewrite H0. apply (pick_thread_from cnt (th_work_cnt t) 0 [t] l); cbn [app length]; try done; lia.
Qed.

(** ** Adding and removing work *)

Record threads_ok (v : dst) (l : list kthread) : Prop := {
  to_threads : v_threads v = Some l;
  to_some : 0 < v_thread_cnt v <= Z.of_nat (length l);
  to_work : Forall (fun t => th_work_cnt t = Z.of_nat (length (th_work_list t)) /\ th_work_cnt t < 2 ^ 32 - 1) l
}.

(** The threads that are running. *)
Definition running (v : dst) (l : list kthread) : list kthread := take (Z.to_nat (v_thread_cnt v)) l.

Definition with_work (w : dma_dir * Z) (t : kthread) : kthread :=
  th_set_work (th_work_cnt t + 1) (th_work_list t ++ [w]) t.

Section work.
Context `{Env}.

Lemma running_ok v l : threads_ok v l ->
  running v l <> [] /\ counts_ok (running v l) /\ Z.of_nat (length (running v l)) = v_thread_cnt v.
Proof.
  intros [_ Hc Hw]. unfold running.
  assert (length (take (Z.to_nat (v_thread_cnt v)) l) = Z.to_nat (v_thread_cnt v)) as El
    by (rewrite length_take; lia).
  split_and!.
  - intros E. rewrite E in El. cbn in El. lia.
  - apply Forall_take. eapply Forall_impl; [exact Hw|]. cbn. intros t [-> _]. lia.
  - lia.
Qed.

Lemma zlookup_take {A} (l : list A) n i : 0 <= i < n -> zlookup (take (Z.to_nat n) l) i = zlookup l i.
Proof. intros Hi. unfold zlookup. destruct (i <? 0); [done|]. by rewrite lookup_take_lt by lia. Qed.

Lemma upd_thread_eq v l i t f :
  v_threads v = Some l -> zlookup l i = Some t ->
  upd_thread i f v = Some (tt, set_v_threads (Some (<[Z.to_nat i := f t]> l)) (v_thread_cnt v) v).
Proof.
  intros Hl Ht. unfold upd_thread, get_threads, bind, get, deref, modify. rewrite Hl. unfold zupdate.
  by rewrite Ht.
Qed.

Lemma add_work_run v l dir ch e :
  threads_ok v l -> zlookup (engines dir v) ch = Some e ->
  exists idx t v', xdma_thread_add_work dir ch v = Some (tt, v') /\
    zlookup l idx = Some t /\ 0 <= idx < v_thread_cnt v /\
    th_work_cnt t <= load l 0 /\ (idle (running v l) -> th_work_cnt t = 0) /\
    v_threads v' = Some (<[Z.to_nat idx := with_work (dir, ch) t]> l) /\
    v_thread_cnt v' = v_thread_cnt v /\
    zlookup (engines dir v') ch = Some (set_e_cmplthp (Some idx) (set_e_intr_work_cpu idx e)).
Proof.
  intros Hok He. destruct (running_ok v l Hok) as (Hne & Hc & Hlen).
  pose proof (pick_thread_spec _ Hne Hc) as Hpick. cbv zeta in Hpick. rewrite Hlen in Hpick.
  set (idx := pick_thread (v_thread_cnt v) 0 (v_thread_cnt v) 0 (running v l)) in *.
  destruct Hpick as (Hidx & Hload & Hidle). destruct Hok as [Hl Hcnt Hw].
  destruct (zlookup_in l idx) as [t Ht]; [lia|].
  assert (forall i, 0 <= i < v_thread_cnt v -> load (running v l) i = load l i) as Eload.
  { intros i Hi. unfold load, running. by rewrite zlookup_take. }
  assert (load l idx = th_work_cnt t) as Elt by (unfold load; by rewrite Ht).
  rewrite (Eload idx), Elt in Hload, Hidle by lia. rewrite (Eload 0) in Hload by lia.
  exists idx, t. unfold xdma_thread_add_work, bind at 1, get. rewrite Hl. cbn [default].
  fold (running v l). cbv zeta. fold idx.
  unfold bind at 1. rewrite (upd_thread_eq v l idx t) by done.
  set (v1 := set_v_threads _ _ v).
  assert (zlookup (engines dir v1) ch = Some e) as He1 by done.
  rewrite (on_engine_eq dir ch _ v1 e He1). eexists. split; [reflexivity|].
  split; [done|]. split; [done|]. split; [done|]. split; [done|]. split; [|split; [done|]].
  - cbn [v_threads unfocus_engine v1 set_v_threads]. do 2 f_equal. unfold with_work. f_equal.
    apply u32_small. destruct (zlookup_in l idx) as [t' Ht']; [lia|].
    rewrite Forall_lookup in Hw. unfold zlookup in Ht. destruct (idx <? 0); [done|].
    destruct (Hw _ _ Ht) as [E ?]. lia.
  - rewrite engines_unfocus. cbn [s_eng]. unfold zlookup in He |- *. destruct (ch <? 0); [done|].
    rewrite list_lookup_insert_eq; [done|]. by eapply lookup_lt_Some.
Qed.
(** C28: [xdma_thread_add_work] with running threads: it gives the engine to
    one of them, which has no more work than the first thread and is an idle
    one if there is one; that thread's list and count grow by this engine, the
    other threads are untouched, and the engine knows its thread. *)
Theorem xdma_thread_add_work_spec v l dir ch e :
  threads_ok v l -> zlookup (engines dir v) ch = Some e ->
  exists idx t v', xdma_thread_add_work dir ch v = Some (tt, v') /\
    zlookup l idx = Some t /\ 0 <= idx < v_thread_cnt v /\
    th_work_cnt t <= load l 0 /\ (idle (running v l) -> th_work_cnt t = 0) /\
    v_threads v' = Some (<[Z.to_nat idx := with_work (dir, ch) t]> l) /\
    v_thread_cnt v' = v_thread_cnt v /\
    zlookup (engines dir v') ch = Some (set_e_cmplthp (Some idx) (set_e_intr_work_cpu idx e)).
Proof. apply add_work_run. Qed.

Lemma filter_not_elem {A} `{EqDecision A} (x : A) (l : list A) : x ∉ l -> filter (fun w => w <> x) l = l.
Proof.
  induction l as [|y l IH]; intros Hx; [done|]. rewrite not_elem_of_cons in Hx. destruct Hx as [Hn Hx].
  rewrite filter_cons_True by congruence. by rewrite IH.
Qed.

(** Taking an engine back undoes giving it: [xdma_thread_remove_work] after
    [xdma_thread_add_work] leaves every thread's list and count as they were
    before, and the engine without a thread. *)
Theorem thread_work_roundtrip v l dir ch e :
  threads_ok v l -> zlookup (engines dir v) ch = Some e ->
  Forall (fun t => (dir, ch) ∉ th_work_list t) l ->
  exists v', (xdma_thread_add_work dir ch >>; xdma_thread_remove_work dir ch) v = Some (tt, v') /\
    v_threads v' = v_threads v /\
    exists e', zlookup (engines dir v') ch = Some e' /\ e_cmplthp e' = None.
Proof.
  intros Hok He Hnew.
  destruct (add_work_run v l dir ch e Hok He) as (idx & t & v1 & Hadd & Ht & _ & _ & _ & Hth & Hcnt & He1).
  destruct Hok as [Hl _ Hw].
  assert (th_work_cnt t = Z.of_nat (length (th_work_list t)) /\ th_work_cnt t < 2 ^ 32 - 1) as [Ec Hlt].
  { rewrite Forall_lookup in Hw. apply (Hw (Z.to_nat idx)). by apply zlookup_nat. }
  assert ((dir, ch) ∉ th_work_list t) as Hnt.
  { rewrite Forall_lookup in Hnew. apply (Hnew (Z.to_nat idx)). by apply zlookup_nat. }
  unfold bind at 1. rewrite Hadd. unfold xdma_thread_remove_work, bind at 1.
  unfold get_engine, bind at 1, get, deref. rewrite He1. unfold bind at 1.
  rewrite (on_engine_eq dir ch _ v1 _ He1). cbn [upd_eng modify s_eng e_cmplthp set_e_cmplthp focus_engine].
  set (v2 := unfocus_engine dir ch _ v1).
  assert (v_threads v2 = Some (<[Z.to_nat idx := with_work (dir, ch) t]> l)) as Hth2 by done.
  assert (0 <= idx < Z.of_nat (length l)) as Hlen by (apply zlookup_is_Some; eauto).
  rewrite (upd_thread_eq v2 (<[Z.to_nat idx := with_work (dir, ch) t]> l) idx (with_work (dir, ch) t)); [|exact Hth2|].
  2: { rewrite zlookup_insert by lia. by rewrite decide_True. }
  eexists. split; [reflexivity|]. split.
  - cbn [v_threads set_v_threads]. rewrite Hl. f_equal. rewrite list_insert_insert_eq.
    apply list_insert_id. rewrite (proj2 (zlookup_nat l idx t Ht)). f_equal.
    unfold with_work, th_set_work. cbn [th_id th_cpu th_schedule th_task th_work_cnt th_work_list].
    rewrite Z.add_simpl_r, u32_small by lia.
    rewrite filter_app, filter_cons_False, app_nil_r by (intros []; done).
    rewrite filter_not_elem by done. by destruct t.
  - eexists. split.
    + change (engines dir (set_v_threads _ _ v2)) with (engines dir v2). unfold v2.
      rewrite engines_unfocus. assert (0 <= ch < Z.of_nat (length (engines dir v1))) by (apply zlookup_is_Some; eauto).
      rewrite zlookup_insert by lia. by rewrite decide_True.
    + done.
Qed.
End work.

(** ** Witnesses *)

(** The first thread has two engines, the second is idle. *)
Definition demo_threads : list kthread :=
  [mk_kthread 0 0 false 11 2 [(DMA_TO_DEVICE, 1); (DMA_TO_DEVICE, 2)]; mk_kthread 1 1 false 12 0 []].
Definition demo_threaded : dst := set_v_threads (Some demo_threads) 2 demo_dst.

Lemma demo_threads_ok : threads_ok demo_threaded demo_threads.
Proof. split; [done|cbn; lia|]. repeat apply Forall_cons_2; try apply Forall_nil_2; cbn; lia. Qed.

(** The search does not look for the smallest load: after loads 3 and 1 it
    still takes a thread with load 2. *)
Example pick_not_least :
  pick_thread 3 0 3 0 (map (fun n => mk_kthread 0 0 false 1 n []) [3; 1; 2]) = 2.
Proof. reflexivity. Qed.

Lemma xdma_thread_add_work_spec_witness :
  exists idx t v', xdma_thread_add_work DMA_FROM_DEVICE 0 demo_threaded = Some (tt, v') /\
    zlookup demo_threads idx = Some t /\ 0 <= idx < 2 /\
    th_work_cnt t <= 2 /\ (idle (running demo_threaded demo_threads) -> th_work_cnt t = 0) /\
    v_threads v' = Some (<[Z.to_nat idx := with_work (DMA_FROM_DEVICE, 0) t]> demo_threads) /\
    v_thread_cnt v' = 2 /\
    zlookup (engines DMA_FROM_DEVICE v') 0 = Some (set_e_cmplthp (Some idx) (set_e_intr_work_cpu idx demo_c2h)).
Proof. by apply (xdma_thread_add_work_spec demo_threaded demo_threads _ _ demo_c2h); [apply demo_threads_ok|]. Defined.

Lemma thread_work_roundtrip_witness :
  exists v', (xdma_thread_add_work DMA_FROM_DEVICE 0 >>; xdma_thread_remove_work DMA_FROM_DEVICE 0) demo_threaded
      = Some (tt, v') /\ v_threads v' = Some demo_threads /\
    exists e', zlookup (engines DMA_FROM_DEVICE v') 0 = Some e' /\ e_cmplthp e' = None.
Proof.
  apply (thread_work_roundtrip demo_threaded demo_threads _ _ demo_c2h); [apply demo_threads_ok|done|].
  repeat apply Forall_cons_2; try apply Forall_nil_2; set_solver.
Defined.
