(* ===== verification/Irq.v ===== *)
(** * Irq: interrupt handlers and interrupt set-up

    The handlers disable what fired and schedule the bottom half of the engines
    concerned; the set-up requests one vector per engine and per user interrupt
    (MSI-X), or one line for the whole device (MSI, legacy). *)

From S2P Require Import Prelude Hw State Desc Engine Dev.

Definition IRQ_NONE := 0.
Definition IRQ_HANDLED := 1.
Definition PCI_CAP_ID_MSI := 5.
Definition PCI_CAP_ID_MSIX := 0x11.
Definition PCI_STATUS_INTERRUPT := 0x08.
Definition PCI_COMMAND_INTX_DISABLE := 0x400.

(** Which handler a [request_irq] names, and which object it gets. *)
Definition engine_token (dir : dma_dir) (i : Z) : Z := if is_h2c dir then i else XDMA_CHANNEL_NUM_MAX + i.

Section irq.
Context `{Env}.

(** ** Handlers *)

Definition user_irq_service (i : Z) : M dst Z :=
  let* u := get_user_irq i in
  if negb (u_handler u =? 0) then
    kcall "user_irq->handler" [u_handler u; u_user_idx u; u_dev u]
  else
    when (u_events_irq u =? 0)
      (upd_user_irq i (set_u_events_irq 1) >>; kdo "wake_up_interruptible events_wq" [i]) >>;
    ret IRQ_HANDLED.

(** [for (; user < max && user_irq; user++, mask <<= 1)] *)
Fixpoint isr_users (users : list Z) (user_irq mask : Z) : M dst unit :=
  match users with
  | [] => ret tt
  | user :: users =>
      if user_irq =? 0 then ret tt
      else if has_bits user_irq mask then
        user_irq_service user >>;
        isr_users users (Z.land user_irq (Z.lnot mask)) (u32 (Z.shiftl mask 1))
      else isr_users users user_irq (u32 (Z.shiftl mask 1))
  end.

Definition schedule_work (dir : dma_dir) (ch : Z) : M dst unit :=
  kdo "schedule_work" [engine_token dir ch].

(** [for (channel = 0; channel < max && mask; channel++)] *)
Fixpoint isr_channels (dir : dma_dir) (channels : list Z) (mask : Z) : M dst unit :=
  match channels with
  | [] => ret tt
  | ch :: channels =>
      if mask =? 0 then ret tt
      else
        let* e := get_engine dir ch in
        if has_bits (e_irq_bitmask e) mask && (e_magic e =? MAGIC_ENGINE) then
          schedule_work dir ch >>;
          isr_channels dir channels (Z.land mask (Z.lnot (e_irq_bitmask e)))
        else isr_channels dir channels mask
  end.

Definition xdma_isr : M dst Z :=
  let* d := get_dev in
  let* a := int_reg d "channel_int_request" in
  let* ch_irq := read_register a in
  when (negb (ch_irq =? 0)) (channel_interrupts_disable d ch_irq) >>;
  let* a := int_reg d "user_int_request" in
  let* user_irq := read_register a in
  when (negb (user_irq =? 0)) (isr_users (zrange (d_user_max d)) user_irq 1) >>;
  let mask := Z.land ch_irq (d_mask_irq_h2c d) in
  when (negb (mask =? 0)) (isr_channels DMA_TO_DEVICE (zrange (d_h2c_channel_max d)) mask) >>;
  let mask := Z.land ch_irq (d_mask_irq_c2h d) in
  when (negb (mask =? 0)) (isr_channels DMA_FROM_DEVICE (zrange (d_c2h_channel_max d)) mask) >>;
  upd_dev (fun d => set_d_irq_count (s32 (d_irq_count d + 1)) d) >>;
  ret IRQ_HANDLED.

Definition xdma_user_irq (i : Z) : M dst Z := user_irq_service i.

Definition xdma_channel_irq (dir : dma_dir) (ch : Z) : M dst Z :=
  let* e := get_engine dir ch in
  let* d := get_dev in
  let* a := int_reg d "channel_int_pending" in
  write_register (e_interrupt_enable_mask_value e) (reg e "interrupt_enable_mask_w1c") >>;
  read_register a >>;
  schedule_work dir ch >>;
  upd_dev (fun d => set_d_irq_count (s32 (d_irq_count d + 1)) d) >>;
  ret IRQ_HANDLED.

(** ** MSI and MSI-X capability *)

(** The bus above the device: its flags, up to the root. *)
Fixpoint bus_allows_msi (buses : list Z) : M dst bool :=
  match buses with
  | [] => ret true
  | b :: buses =>
      let* flags := kcall "bus->bus_flags & PCI_BUS_FLAGS_NO_MSI" [b] in
      if negb (flags =? 0) then ret false else bus_allows_msi buses
  end.

Definition arch_msi_check_device : Z := 0.

Definition msi_msix_capable (pdev type : Z) : M dst bool :=
  if pdev =? 0 then ret false
  else
    let* no_msi := kcall "dev->no_msi" [pdev] in
    if negb (no_msi =? 0) then ret false
    else
      let* depth := kcall "bus depth" [pdev] in
      let* ok := bus_allows_msi (zrange depth) in
      if negb ok then ret false
      else if negb (arch_msi_check_device =? 0) then ret false
      else
        let* cap := kcall "pci_find_capability" [pdev; type] in
        ret (negb (cap =? 0)).

Definition disable_msi_msix (pdev : Z) : M dst unit :=
  let* d := get_dev in
  if d_msix_enabled d then
    kdo "pci_disable_msix" [pdev] >>; upd_dev (set_d_msix_enabled false)
  else if d_msi_enabled d then
    kdo "pci_disable_msi" [pdev] >>; upd_dev (set_d_msi_enabled false)
  else ret tt.

Definition enable_msi_msix (pdev : Z) : M dst Z :=
  if pdev =? 0 then ret (- EINVAL)
  else
    let* d := get_dev in
    let* msix := (if (interrupt_mode =? 3) || (interrupt_mode =? 0)
                  then msi_msix_capable pdev PCI_CAP_ID_MSIX else ret false) in
    if msix then
      let req_nvec := d_c2h_channel_max d + d_h2c_channel_max d + d_user_max d in
      let* rv := kcall "pci_alloc_irq_vectors" [pdev; req_nvec; req_nvec] in
      upd_dev (set_d_msix_enabled true) >>; ret rv
    else
      let* msi := (if (interrupt_mode =? 1) || (interrupt_mode =? 0)
                   then msi_msix_capable pdev PCI_CAP_ID_MSI else ret false) in
      if msi then
        let* rv := kcall "pci_enable_msi" [pdev] in
        upd_dev (set_d_msi_enabled true) >>; ret rv
      else ret 0.

Definition pci_check_intr_pend (pdev : Z) : M dst unit :=
  let* v := kcall "pci_read_config_word PCI_STATUS" [pdev] in
  when (has_bits v PCI_STATUS_INTERRUPT)
    (kdo "pci_write_config_word PCI_STATUS" [pdev; PCI_STATUS_INTERRUPT]).

Definition pci_keep_intx_enabled (pdev : Z) : M dst unit :=
  let* pcmd := kcall "pci_read_config_word PCI_COMMAND" [pdev] in
  let pcmd := u16 pcmd in
  let pcmd_new := Z.land pcmd (Z.lnot PCI_COMMAND_INTX_DISABLE) in
  when (negb (pcmd_new =? pcmd)) (kdo "pci_write_config_word PCI_COMMAND" [pdev; pcmd_new]).

(** ** MSI-X vectors *)

(** The inner loop: up to four vectors, one per byte of the register. *)
Fixpoint vector_word (k : nat) (i max shift val : Z) : Z * Z :=
  match k with
  | O => (i, val)
  | S k =>
      if i <? max then
        vector_word k (u32 (i + 1)) max (shift + 8) (Z.lor val (Z.shiftl (Z.land i 0x1f) shift))
      else (i, val)
  end.

(** The outer loop, [for (; i < max; j++)], with the register [int_regs->...[j]]
    at [a]; each turn advances [i], so [max] turns are enough. *)
Fixpoint write_vectors (fuel : nat) (clear : bool) (a i max : Z) : M dst unit :=
  if i <? max then
    match fuel with
    | O => ub
    | S fuel =>
        let '(i, val) := if clear then (u32 (i + 4), 0) else vector_word 4 i max 0 0 in
        write_register val a >>; write_vectors fuel clear (a + 4) i max
    end
  else ret tt.

Definition prog_irq_msix_user (clear : bool) : M dst unit :=
  let* d := get_dev in
  let* base := int_reg d "user_msi_vector" in
  let i := u32 (d_c2h_channel_max d + d_h2c_channel_max d) in
  let max := u32 (i + d_user_max d) in
  write_vectors (Z.to_nat max) clear base i max.

Definition prog_irq_msix_channel (clear : bool) : M dst unit :=
  let* d := get_dev in
  let* base := int_reg d "channel_msi_vector" in
  let max := u32 (d_c2h_channel_max d + d_h2c_channel_max d) in
  write_vectors (Z.to_nat max) clear base 0 max.

(** [for (i = 0; i < max; i++)]: release up to the first engine without a line. *)
Fixpoint free_channels (dir : dma_dir) (channels : list Z) : M dst unit :=
  match channels with
  | [] => ret tt
  | i :: channels =>
      let* e := get_engine dir i in
      if e_msix_irq_line e =? 0 then ret tt
      else kdo "free_irq" [e_msix_irq_line e; engine_token dir i] >>; free_channels dir channels
  end.

Definition irq_msix_channel_teardown : M dst unit :=
  let* d := get_dev in
  if negb (d_msix_enabled d) then ret tt
  else
    prog_irq_msix_channel true >>;
    free_channels DMA_TO_DEVICE (zrange (d_h2c_channel_max d)) >>;
    free_channels DMA_FROM_DEVICE (zrange (d_c2h_channel_max d)).

(** One of the two loops of [irq_msix_channel_setup]; engine [i] uses vector
    [first + i]. *)
Fixpoint request_channels (dir : dma_dir) (first : Z) (channels : list Z) : M dst Z :=
  match channels with
  | [] => ret 0
  | i :: channels =>
      let* vector := kcall "pci_irq_vector" [first + i] in
      let* rv := kcall "request_irq xdma_channel_irq" [u32 vector; engine_token dir i] in
      if negb (rv =? 0) then ret rv
      else
        on_engine dir i (upd_eng (set_e_msix_irq_line (s32 (u32 vector)))) >>;
        request_channels dir first channels
  end.

Definition irq_msix_channel_setup : M dst Z :=
  let* d := get_dev in
  if negb (d_msix_enabled d) then ret 0
  else
    let* rv := request_channels DMA_TO_DEVICE 0 (zrange (d_h2c_channel_max d)) in
    if negb (rv =? 0) then ret rv
    else request_channels DMA_FROM_DEVICE (d_h2c_channel_max d) (zrange (d_c2h_channel_max d)).

(** Release of the vectors of the user interrupts [is]. *)
Definition free_users (first : Z) (is_ : list Z) : M dst unit :=
  forM is_ (fun i =>
    let* vector := kcall "pci_irq_vector" [first + i] in kdo "free_irq user" [u32 vector; i]).

Definition irq_msix_user_teardown : M dst unit :=
  let* d := get_dev in
  if negb (d_msix_enabled d) then ret tt
  else
    prog_irq_msix_user true >>;
    free_users (d_h2c_channel_max d + d_c2h_channel_max d) (zrange (d_user_max d)).

(** The loop of [irq_msix_user_setup]: how many were requested, and the error. *)
Fixpoint request_users (first : Z) (is_ : list Z) (n : Z) : M dst (Z * Z) :=
  match is_ with
  | [] => ret (n, 0)
  | i :: is_ =>
      let* vector := kcall "pci_irq_vector" [first + i] in
      let* rv := kcall "request_irq xdma_user_irq" [u32 vector; i] in
      if negb (rv =? 0) then ret (n, rv) else request_users first is_ (n + 1)
  end.

Definition irq_msix_user_setup : M dst Z :=
  let* d := get_dev in
  let first := d_h2c_channel_max d + d_c2h_channel_max d in
  let* '(n, rv) := request_users first (zrange (d_user_max d)) 0 in
  when (negb (rv =? 0)) (free_users first (reverse (zrange n))) >>;
  ret rv.

(** ** MSI and legacy interrupts *)

Definition irq_msi_setup (pdev : Z) : M dst Z :=
  let* irq := kcall "pdev->irq" [pdev] in
  upd_dev (set_d_irq_line (s32 irq)) >>;
  let* v := get in kcall "request_irq xdma_isr" [irq; v_hndl v].

Definition legacy_word (val : Z) : Z :=
  let v := val - 1 in
  s32 (Z.lor (Z.shiftl v 24) (Z.lor (Z.shiftl v 16) (Z.lor (Z.shiftl v 8) v))).

Definition irq_legacy_setup (pdev : Z) : M dst Z :=
  let* val := kcall "pci_read_config_byte PCI_INTERRUPT_PIN" [pdev] in
  let val := u8 val in
  if val =? 0 then ret (- EINVAL)
  else
    let* d := get_dev in
    (if 1 <? val then
       let* b := config_bar d in
       let w := u32 (legacy_word val) in
       forM [0x2080; 0x2084; 0x2088; 0x208C; 0x20A0; 0x20A4] (fun o => write_register w (b + o))
     else ret tt) >>;
    let* irq := kcall "pdev->irq" [pdev] in
    upd_dev (set_d_irq_line (s32 irq)) >>;
    let* v := get in kcall "request_irq xdma_isr IRQF_SHARED" [irq; v_hndl v].

Definition irq_teardown : M dst unit :=
  let* d := get_dev in
  if d_msix_enabled d then irq_msix_channel_teardown >>; irq_msix_user_teardown
  else let* v := get in when (negb (d_irq_line d =? -1)) (kdo "free_irq" [d_irq_line d; v_hndl v]).

Definition irq_setup (pdev : Z) : M dst Z :=
  pci_keep_intx_enabled pdev >>;
  let* d := get_dev in
  if d_msix_enabled d then
    let* rv := irq_msix_channel_setup in
    if negb (rv =? 0) then ret rv
    else
      let* rv := irq_msix_user_setup in
      if negb (rv =? 0) then ret rv
      else prog_irq_msix_channel false >>; prog_irq_msix_user false >>; ret 0
  else if d_msi_enabled d then irq_msi_setup pdev
  else irq_legacy_setup pdev.
End irq.
