(* ===== verification/IrqProps.v ===== *)
(** * IrqProps: the interrupt handlers and the MSI-X vectors

    [xdma_isr] schedules the bottom half of exactly the engines that the device
    reports, and the vector registers get one vector per interrupt source. *)

From S2P Require Import Prelude Hw State Desc Engine QueueProps Fixtures Dev DevFixtures Irq.

(** ** Rules for the device state *)

Section rules.
Context `{Env}.

Lemma dwp_get_dev (Q : xdma_dev -> dst -> Prop) v : Q (v_dev v) v -> wp get_dev Q v.
Proof. done. Qed.
Lemma dwp_read a (Q : Z -> dst -> Prop) v :
  Q (u32 (io_read (v_log v) a)) (set_log (EvRead a (u32 (io_read (v_log v) a)) :: v_log v) v) ->
  wp (read_register a) Q v.
Proof. done. Qed.
Lemma dwp_write x a (Q : unit -> dst -> Prop) v :
  Q tt (set_log (EvWrite a x :: v_log v) v) -> wp (write_register x a) Q v.
Proof. done. Qed.
Lemma dwp_kcall f args (Q : Z -> dst -> Prop) v :
  Q (kernel (v_log v) f args) (set_log (EvCall f args (kernel (v_log v) f args) :: v_log v) v) ->
  wp (kcall f args) Q v.
Proof. done. Qed.
Lemma dwp_kdo f args (Q : unit -> dst -> Prop) v :
  Q tt (set_log (EvCall f args 0 :: v_log v) v) -> wp (kdo f args) Q v.
Proof. done. Qed.
Lemma dwp_upd_dev f (Q : unit -> dst -> Prop) v : Q tt (set_v_dev (f (v_dev v)) v) -> wp (upd_dev f) Q v.
Proof. done. Qed.
Lemma dwp_get_engine dir i e (Q : xdma_engine -> dst -> Prop) v :
  zlookup (engines dir v) i = Some e -> Q e v -> wp (get_engine dir i) Q v.
Proof. intros He HQ. unfold wp, get_engine, bind, get, deref. by rewrite He. Qed.
Lemma dwp_get_user i u (Q : user_irq -> dst -> Prop) v :
  zlookup (d_user_irq (v_dev v)) i = Some u -> Q u v -> wp (get_user_irq i) Q v.
Proof. intros Hu HQ. unfold wp, get_user_irq, get_dev, gets, bind, deref. by rewrite Hu. Qed.
Lemma dwp_upd_user i u f (Q : unit -> dst -> Prop) v :
  zlookup (d_user_irq (v_dev v)) i = Some u ->
  Q tt (set_v_dev (set_d_user_irq (<[Z.to_nat i := f u]> (d_user_irq (v_dev v))) (v_dev v)) v) ->
  wp (upd_user_irq i f) Q v.
Proof.
  intros Hu HQ. unfold wp, upd_user_irq, get_dev, gets, bind, deref, zupdate. by rewrite Hu.
Qed.

(** The configuration BAR is mapped. *)
Definition has_config (d : xdma_dev) : Prop := is_Some (zlookup (d_bar d) (d_config_bar_idx d)).

Lemma dwp_int_reg d f (Q : Z -> dst -> Prop) v :
  has_config d -> (forall a, Q a v) -> wp (int_reg d f) Q v.
Proof.
  intros [b Hb] HQ. unfold wp, int_reg, config_bar, bind, deref, ret. rewrite Hb. apply HQ.
Qed.
End rules.

(** ** The interrupt handler *)

(** The engines of [l] whose bottom half is due. *)
Definition due (es : list xdma_engine) (mask i : Z) : bool :=
  match zlookup es i with
  | Some e => has_bits (e_irq_bitmask e) mask && (e_magic e =? MAGIC_ENGINE)
  | None => false
  end.

(** The bits of the engines are disjoint. *)
Definition disjoint_bits (es : list xdma_engine) : Prop :=
  forall i j ei ej, i <> j -> zlookup es i = Some ei -> zlookup es j = Some ej ->
    Z.land (e_irq_bitmask ei) (e_irq_bitmask ej) = 0.

(** The call that schedules the bottom half of an engine. *)
Definition work (token : Z) : event := EvCall "schedule_work" [token] 0.

(** What an entry of the log asks for, without the answer of the kernel. *)
Definition asked (ev : event) : event :=
  match ev with EvCall f args _ => EvCall f args 0 | ev => ev end.

(** The call for the user interrupt [k], if its bit is set in [us]: its handler,
    or else the first time a wake-up of those who wait for the event. *)
Definition user_calls (us : Z) (users : list user_irq) (k : Z) : list event :=
  match zlookup users k with
  | Some u =>
      if negb (Z.testbit us k) then []
      else if negb (u_handler u =? 0) then [EvCall "user_irq->handler" [u_handler u; u_user_idx u; u_dev u] 0]
      else if u_events_irq u =? 0 then [EvCall "wake_up_interruptible events_wq" [k] 0] else []
  | None => []
  end.

Lemma user_calls_0 users l : flat_map (user_calls 0 users) l = [].
Proof.
  induction l as [|k l IH]; [done|]. cbn. rewrite IH. unfold user_calls. rewrite Z.bits_0. by destruct (zlookup _ k).
Qed.

Lemma has_bits_clear b b' mask :
  Z.land b b' = 0 -> has_bits b (Z.land mask (Z.lnot b')) = has_bits b mask.
Proof.
  intros E. unfold has_bits. do 2 f_equal. apply Z.bits_inj'. intros k Hk.
  rewrite !Z.land_spec, Z.lnot_spec by done.
  assert (Z.testbit (Z.land b b') k = false) as Ek by (by rewrite E, Z.bits_0).
  rewrite Z.land_spec in Ek. by destruct (Z.testbit b k), (Z.testbit mask k), (Z.testbit b' k).
Qed.

Section isr.
Context `{Env}.

Definition same_but_log (v v' : dst) : Prop := v' = set_log (v_log v') v.

Definition due_tokens (dir : dma_dir) (v : dst) (mask : Z) (l : list Z) : list Z :=
  map (engine_token dir) (List.filter (due (engines dir v) mask) l).

Lemma isr_channels_due dir v l mask :
  NoDup l -> disjoint_bits (engines dir v) -> Forall (fun i => is_Some (zlookup (engines dir v) i)) l ->
  wp (isr_channels dir l mask) (fun _ v' => same_but_log v v' /\
    v_log v' = rev (map work (due_tokens dir v mask l)) ++ v_log v) v.
Proof.
  intros Hnd Hdis Hl. revert v mask Hdis Hl.
  induction Hnd as [|i l Hi Hnd IH]; intros v mask Hdis Hl.
  - split; [by destruct v|done].
  - cbn [isr_channels]. destruct (Z.eqb_spec mask 0) as [->|Hm].
    + apply wp_ret. split; [by destruct v|]. unfold due_tokens.
      assert (List.filter (due (engines dir v) 0) (i :: l) = []) as ->; [|done].
      generalize (i :: l) as l'. induction l' as [|j l' IHl]; [done|]. cbn. rewrite IHl.
      unfold due. destruct (zlookup _ j); [|done]. unfold has_bits. by rewrite Z.land_0_r.
    + apply Forall_cons in Hl as [[e He] Hl].
      apply wp_bind. eapply dwp_get_engine; [exact He|]. unfold due_tokens. cbn [List.filter].
      assert (due (engines dir v) mask i = has_bits (e_irq_bitmask e) mask && (e_magic e =? MAGIC_ENGINE)) as ->
        by (unfold due; by rewrite He).
      destruct (_ && _) eqn:E; [|by apply IH].
      apply wp_bind, dwp_kdo. cbv beta.
      eapply wp_mono; [apply (IH (set_log _ v)); [exact Hdis|exact Hl]|].
      intros _ v' [Hs Hsch]. split; [by rewrite Hs|]. rewrite Hsch.
      cbn [map rev]. rewrite <-app_assoc. unfold due_tokens. f_equal. do 3 f_equal.
      apply filter_ext_in. intros j Hj. apply list_elem_of_In in Hj. unfold due.
      change (engines dir (set_log _ v)) with (engines dir v).
      destruct (zlookup (engines dir v) j) as [ej|] eqn:Ej; [|done].
      rewrite has_bits_clear; [done|]. eapply Hdis; [|exact Ej|exact He]. by intros ->.
Qed.

(** ** User interrupts *)

(** A user interrupt without handler is pending once it has fired. *)
Definition fire (u : user_irq) : user_irq :=
  if (u_handler u =? 0) && (u_events_irq u =? 0) then set_u_events_irq 1 u else u.

Definition with_users (l : list user_irq) (lg : list event) (v : dst) : dst :=
  set_log lg (set_v_dev (set_d_user_irq l (v_dev v)) v).

Lemma with_users_id v : v = with_users (d_user_irq (v_dev v)) (v_log v) v.
Proof. by destruct v as [? []]. Qed.

Lemma wp_user_irq_service i us u v :
  zlookup (d_user_irq (v_dev v)) i = Some u -> Z.testbit us i = true ->
  wp (user_irq_service i) (fun _ v' => exists lg,
    v' = with_users (<[Z.to_nat i := fire u]> (d_user_irq (v_dev v))) (lg ++ v_log v) v /\
    map asked lg = rev (user_calls us (d_user_irq (v_dev v)) i)) v.
Proof.
  intros Hu Hus. assert (d_user_irq (v_dev v) !! Z.to_nat i = Some u) as Hu'.
  { unfold zlookup in Hu. by destruct (i <? 0). }
  unfold user_irq_service, user_calls. apply wp_bind. eapply dwp_get_user; [exact Hu|]. unfold fire. rewrite Hu, Hus.
  assert (forall lg, set_log lg v = with_users (<[Z.to_nat i := u]> (d_user_irq (v_dev v))) lg v) as Hid.
  { intros lg. rewrite list_insert_id by done. rewrite (with_users_id v) at 1. done. }
  destruct (u_handler u =? 0) eqn:Hh; cbn [negb andb].
  - apply wp_bind, wp_when; intros He; rewrite He.
    + apply wp_bind. eapply dwp_upd_user; [exact Hu|]. apply dwp_kdo, wp_ret. by exists [EvCall "wake_up_interruptible events_wq" [i] 0].
    + apply wp_ret. exists []. split; [|done]. cbn [app]. rewrite <-Hid. by destruct v.
  - apply dwp_kcall. eexists [_]. split; [apply Hid|done].
Qed.

Lemma clear_bit x i k : 0 <= i -> 0 <= k -> i <> k ->
  Z.testbit (Z.land x (Z.lnot (2 ^ i))) k = Z.testbit x k.
Proof.
  intros Hi Hk Hne. rewrite Z.land_spec, Z.lnot_spec, Z.pow2_bits_false by done. apply andb_true_r.
Qed.

Lemma range_succ i n k : k <> i ->
  (Z.succ i <=? k) && (k <? Z.succ i + Z.of_nat n) = (i <=? k) && (k <? i + Z.of_nat (S n)).
Proof. intros Hk. destruct (Z.leb_spec (Z.succ i) k), (Z.leb_spec i k), (Z.ltb_spec k (Z.succ i + Z.of_nat n)), (Z.ltb_spec k (i + Z.of_nat (S n))); done || lia. Qed.

(** The calls for the other users stay the same when one is updated and its bit
    is cleared. *)
Lemma user_calls_rest us users i u l :
  0 <= i < Z.of_nat (length users) -> Forall (fun k => i < k) l ->
  flat_map (user_calls (Z.land us (Z.lnot (2 ^ i))) (<[Z.to_nat i := u]> users)) l = flat_map (user_calls us users) l.
Proof.
  intros Hi. induction 1 as [|k l Hk _ IH]; [done|]. cbn. rewrite IH. f_equal. unfold user_calls.
  rewrite zlookup_insert by lia. case_decide; [lia|]. by rewrite clear_bit by lia.
Qed.

(** The users from [i] on, [n] of them. *)
Definition users_done (i : Z) (n : nat) (cur : Z) (v v' : dst) : Prop :=
  exists l lg, v' = with_users l (lg ++ v_log v) v /\
    map asked lg = rev (flat_map (user_calls cur (d_user_irq (v_dev v))) (seqZ i (Z.of_nat n))) /\
    forall k, 0 <= k -> zlookup l k =
      (if (i <=? k) && (k <? i + Z.of_nat n) && Z.testbit cur k then fire else id)
        <$> zlookup (d_user_irq (v_dev v)) k.

Lemma users_done_none i n v : users_done i n 0 v v.
Proof.
  exists (d_user_irq (v_dev v)), []. split; [apply with_users_id|]. split; [by rewrite user_calls_0|]. intros k Hk.
  rewrite Z.bits_0, andb_false_r. by destruct (zlookup _ k).
Qed.

Lemma users_done_empty i cur v : users_done i 0 cur v v.
Proof.
  exists (d_user_irq (v_dev v)), []. split; [apply with_users_id|]. split; [done|]. intros k Hk.
  destruct (Z.leb_spec i k), (Z.ltb_spec k (i + Z.of_nat 0)); try lia; by destruct (zlookup _ k).
Qed.

Lemma seqZ_gt i n : Forall (fun k => i < k) (seqZ (Z.succ i) n).
Proof. apply Forall_forall. intros k Hk%elem_of_seqZ. lia. Qed.

(** A user interrupt whose bit is set, then the others. *)
Lemma users_done_hit i n cur u lg v v' :
  0 <= i -> zlookup (d_user_irq (v_dev v)) i = Some u -> Z.testbit cur i = true ->
  map asked lg = rev (user_calls cur (d_user_irq (v_dev v)) i) ->
  users_done (Z.succ i) n (Z.land cur (Z.lnot (2 ^ i)))
    (with_users (<[Z.to_nat i := fire u]> (d_user_irq (v_dev v))) (lg ++ v_log v) v) v' ->
  users_done i (S n) cur v v'.
Proof.
  intros Hi Hui Et Hlg (l & lg2 & -> & Hs & Hl).
  assert (0 <= i < Z.of_nat (length (d_user_irq (v_dev v)))) as Hlen by (apply zlookup_is_Some; eauto).
  exists l, (lg2 ++ lg). split; [by rewrite <-app_assoc|]. split.
  - rewrite map_app, Hs, Hlg. cbn [v_dev with_users set_log dst_log set_v_dev d_user_irq set_d_user_irq].
    rewrite user_calls_rest by (done || apply seqZ_gt).
    rewrite (seqZ_cons i) by lia. replace (Z.pred (Z.of_nat (S n))) with (Z.of_nat n) by lia.
    cbn [flat_map]. by rewrite rev_app_distr.
  - intros k Hk. rewrite Hl by done. cbn. rewrite zlookup_insert by lia. case_decide as Ek.
    + subst k. rewrite Hui, Et. destruct (Z.leb_spec (Z.succ i) i); [lia|].
      destruct (Z.leb_spec i i), (Z.ltb_spec i (i + Z.of_nat (S n))); try lia. done.
    + rewrite clear_bit, range_succ by done. done.
Qed.

Lemma users_done_miss i n cur v v' :
  Z.testbit cur i = false -> users_done (Z.succ i) n cur v v' -> users_done i (S n) cur v v'.
Proof.
  intros Et (l & lg & -> & Hs & Hl). exists l, lg. split; [done|]. split.
  - rewrite Hs, (seqZ_cons i) by lia. replace (Z.pred (Z.of_nat (S n))) with (Z.of_nat n) by lia.
    cbn [flat_map]. unfold user_calls at 2. rewrite Et. by destruct (zlookup _ i).
  - intros k Hk. rewrite Hl by done. f_equal.
    destruct (decide (k = i)) as [->|]; [by rewrite Et, !andb_false_r|]. by rewrite range_succ.
Qed.

Lemma wp_isr_users n i cur v :
  0 <= i -> i + Z.of_nat n <= 32 ->
  (forall k, i <= k < i + Z.of_nat n -> is_Some (zlookup (d_user_irq (v_dev v)) k)) ->
  wp (isr_users (seqZ i (Z.of_nat n)) cur (2 ^ i)) (fun _ v' => users_done i n cur v v') v.
Proof.
  revert i cur v. induction n as [|n IH]; intros i cur v Hi Hn Hu; [apply wp_ret, users_done_empty|].
  rewrite seqZ_cons by lia. replace (Z.pred (Z.of_nat (S n))) with (Z.of_nat n) by lia.
  cbn [isr_users]. destruct (Z.eqb_spec cur 0) as [->|Hc]; [apply wp_ret, users_done_none|].
  assert (Z.shiftl (2 ^ i) 1 = 2 ^ Z.succ i) as Esh by (rewrite Z.shiftl_mul_pow2, Z.pow_succ_r by lia; lia).
  rewrite testbit_pow2 by done. rewrite Esh.
  assert (forall cur v, (forall k, i <= k < i + Z.of_nat (S n) -> is_Some (zlookup (d_user_irq (v_dev v)) k)) ->
    wp (isr_users (seqZ (Z.succ i) (Z.of_nat n)) cur (u32 (2 ^ Z.succ i))) (fun _ v' => users_done (Z.succ i) n cur v v') v) as Hrest.
  { intros cur' v' Hu'. destruct n as [|n]; [apply wp_ret, users_done_empty|].
    assert (u32 (2 ^ Z.succ i) = 2 ^ Z.succ i) as ->.
    { apply u32_small. split; [lia|]. apply Z.pow_lt_mono_r; lia. }
    apply IH; [lia|lia|]. intros k Hk. apply Hu'. lia. }
  destruct (Z.testbit cur i) eqn:Et.
  - destruct (Hu i) as [u Hui]; [lia|]. apply wp_bind.
    eapply wp_mono; [by apply (wp_user_irq_service i cur u)|]. intros _ v1 (lg1 & -> & Hs1).
    assert (0 <= i < Z.of_nat (length (d_user_irq (v_dev v)))) as Hlen by (apply zlookup_is_Some; eauto).
    eapply wp_mono; [apply Hrest|].
    { intros k Hk. cbn. rewrite zlookup_insert by lia. case_decide; [eauto|]. by apply Hu. }
    intros ? v2 Hd. by eapply users_done_hit.
  - eapply wp_mono; [by apply Hrest|]. intros ? v2. by apply users_done_miss.
Qed.
End isr.

(** ** The whole handler *)

Record isr_ok (v : dst) : Prop := {
  io_config : has_config (v_dev v);
  io_users : 0 <= d_user_max (v_dev v) <= 32 /\
    forall k, 0 <= k < d_user_max (v_dev v) -> is_Some (zlookup (d_user_irq (v_dev v)) k);
  io_engines : forall dir i, 0 <= i < channel_max dir (v_dev v) -> is_Some (zlookup (engines dir v) i);
  io_bits : forall dir, disjoint_bits (engines dir v)
}.

Section isr_all.
Context `{Env}.

Definition int_word (b : Z) (f : string) : Z := b + XDMA_OFS_INT_CTRL + offsetof interrupt_regs f.

(** The log once the channel interrupts [ch] were read and, if there are any,
    disabled. *)
Definition channels_off (b ch : Z) (lg : list event) : list event :=
  (if ch =? 0 then [] else [EvWrite (int_word b "channel_int_enable_w1c") ch]) ++
  EvRead (int_word b "channel_int_request") ch :: lg.

(** The channel and the user interrupts that the device reports. *)
Definition channel_request (b : Z) (v : dst) : Z := u32 (io_read (v_log v) (int_word b "channel_int_request")).
Definition user_request (b : Z) (v : dst) : Z :=
  u32 (io_read (channels_off b (channel_request b v) (v_log v)) (int_word b "user_int_request")).

Definition due_engines (dir : dma_dir) (v : dst) (ch : Z) : list Z :=
  due_tokens dir v (Z.land ch (if is_h2c dir then d_mask_irq_h2c (v_dev v) else d_mask_irq_c2h (v_dev v)))
    (zrange (channel_max dir (v_dev v))).

(** Everything that the handler asks of the device and the kernel, in order. *)
Definition isr_program (b : Z) (v : dst) : list event :=
  let ch := channel_request b v in
  let us := user_request b v in
  rev (channels_off b ch []) ++ [EvRead (int_word b "user_int_request") us] ++
  flat_map (user_calls us (d_user_irq (v_dev v))) (zrange (d_user_max (v_dev v))) ++
  map work (due_engines DMA_TO_DEVICE v ch) ++ map work (due_engines DMA_FROM_DEVICE v ch).

Lemma wp_isr_dir dir v mask :
  isr_ok v ->
  wp (when (negb (mask =? 0)) (isr_channels dir (zrange (channel_max dir (v_dev v))) mask))
    (fun _ v' => same_but_log v v' /\
       v_log v' = rev (map work (due_tokens dir v mask (zrange (channel_max dir (v_dev v))))) ++ v_log v) v.
Proof.
  intros [_ _ He Hb].
  assert (wp (isr_channels dir (zrange (channel_max dir (v_dev v))) mask)
    (fun _ v' => same_but_log v v' /\
       v_log v' = rev (map work (due_tokens dir v mask (zrange (channel_max dir (v_dev v))))) ++ v_log v) v) as Hrun.
  { apply isr_channels_due; [apply NoDup_seqZ|apply Hb|]. apply Forall_forall. intros i Hi.
    apply elem_of_zrange in Hi. by apply He. }
  apply wp_when; intros Hm; [done|]. rewrite negb_false_iff, Z.eqb_eq in Hm. subst.
  destruct (zrange (channel_max dir (v_dev v))); exact Hrun.
Qed.

Lemma wp_isr_users_part v us :
  isr_ok v ->
  wp (when (negb (us =? 0)) (isr_users (zrange (d_user_max (v_dev v))) us 1)) (fun _ v' =>
    users_done 0 (Z.to_nat (d_user_max (v_dev v))) us v v') v.
Proof.
  intros [_ [Hm Hu] _ _]. apply wp_when; intros Hz.
  - pose proof (wp_isr_users (Z.to_nat (d_user_max (v_dev v))) 0 us v) as Hw.
    rewrite Z2Nat.id in Hw by lia. change (2 ^ 0) with 1 in Hw.
    apply Hw; [lia|lia|]. intros k Hk. apply Hu. lia.
  - rewrite negb_false_iff, Z.eqb_eq in Hz. subst. apply users_done_none.
Qed.

(** The outcome of the handler. *)
Definition isr_outcome (b : Z) (v : dst) (r : Z) (v' : dst) : Prop :=
  r = IRQ_HANDLED /\ exists new,
    v_log v' = new ++ v_log v /\ map asked new = rev (isr_program b v) /\
    (forall k, 0 <= k -> zlookup (d_user_irq (v_dev v')) k =
       (if (k <? d_user_max (v_dev v)) && Z.testbit (user_request b v) k then fire else id)
         <$> zlookup (d_user_irq (v_dev v)) k) /\
    v' = set_log (v_log v') (set_v_dev (set_d_irq_count (s32 (d_irq_count (v_dev v) + 1))
           (set_d_user_irq (d_user_irq (v_dev v')) (v_dev v))) v).

Lemma wp_int_reg b d f (Q : Z -> dst -> Prop) v :
  zlookup (d_bar d) (d_config_bar_idx d) = Some b -> Q (int_word b f) v -> wp (int_reg d f) Q v.
Proof. intros Hb HQ. unfold wp, int_reg, config_bar, bind, deref, ret. rewrite Hb. exact HQ. Qed.

Lemma wp_xdma_isr b v :
  isr_ok v -> zlookup (d_bar (v_dev v)) (d_config_bar_idx (v_dev v)) = Some b -> wp xdma_isr (isr_outcome b v) v.
Proof.
  intros Hok Hb. unfold xdma_isr. apply wp_bind, dwp_get_dev, wp_bind. eapply wp_int_reg; [exact Hb|].
  apply wp_bind, dwp_read. fold (channel_request b v). set (ch := channel_request b v). apply wp_bind.
  apply (wp_mono _ (fun _ v' => v' = set_log (channels_off b ch (v_log v)) v)).
  { unfold channels_off. apply wp_when; intros Hch.
    - rewrite (proj1 (negb_true_iff _) Hch). apply wp_bind. eapply wp_int_reg; [exact Hb|]. by apply dwp_write.
    - rewrite (proj1 (negb_false_iff _) Hch). done. }
  intros _ v2 ->. apply wp_bind. eapply wp_int_reg; [exact Hb|].
  apply wp_bind, dwp_read. fold (user_request b v). set (us := user_request b v). apply wp_bind.
  set (v3 := set_log _ (set_log _ v)). assert (isr_ok v3) as Hok3 by (destruct Hok; by split).
  eapply wp_mono; [apply (wp_isr_users_part v3 us Hok3)|].
  pose proof (proj1 (io_users _ Hok)) as Hm. change (d_user_max (v_dev v3)) with (d_user_max (v_dev v)).
  intros _ v4 (l & lg4 & -> & Hs4 & Hl). rewrite Z2Nat.id in Hl by lia.
  set (v4 := with_users _ _ _).
  assert (isr_ok v4) as Hok4.
  { destruct Hok as [? [? Hu] ? ?]. split; try done. split; [done|]. intros k Hk. cbn.
    rewrite Hl by lia. destruct (Hu k Hk) as [u Eu]. change (d_user_irq (v_dev v3)) with (d_user_irq (v_dev v)).
    rewrite Eu. destruct (_ && _); cbn; eauto. }
  apply wp_bind. eapply wp_mono; [apply (wp_isr_dir DMA_TO_DEVICE v4), Hok4|].
  intros _ v5 [Hsame5 Hs5]. change (v_log v5 = rev (map work (due_engines DMA_TO_DEVICE v ch)) ++ v_log v4) in Hs5.
  rewrite Hsame5, Hs5. set (lg5 := _ ++ v_log v4).
  assert (isr_ok (set_log lg5 v4)) as Hok5 by (destruct Hok4; by split).
  apply wp_bind. eapply wp_mono; [exact (wp_isr_dir DMA_FROM_DEVICE (set_log lg5 v4) (Z.land ch (d_mask_irq_c2h (v_dev v))) Hok5)|].
  intros _ v6 [Hsame6 Hs6]. change (v_log v6 = rev (map work (due_engines DMA_FROM_DEVICE v ch)) ++ lg5) in Hs6.
  rewrite Hsame6, Hs6. apply wp_bind, dwp_upd_dev, wp_ret. split; [done|].
  exists (rev (map work (due_engines DMA_FROM_DEVICE v ch)) ++ rev (map work (due_engines DMA_TO_DEVICE v ch)) ++
          lg4 ++ [EvRead (int_word b "user_int_request") us] ++ channels_off b ch []). split_and!.
  - change (rev (map work (due_engines DMA_FROM_DEVICE v ch)) ++ rev (map work (due_engines DMA_TO_DEVICE v ch)) ++
      lg4 ++ EvRead (int_word b "user_int_request") us :: channels_off b ch (v_log v) =
      (rev (map work (due_engines DMA_FROM_DEVICE v ch)) ++ rev (map work (due_engines DMA_TO_DEVICE v ch)) ++
      lg4 ++ [EvRead (int_word b "user_int_request") us] ++ channels_off b ch []) ++ v_log v)%list.
    assert (channels_off b ch (v_log v) = channels_off b ch [] ++ v_log v) as Hco
      by (unfold channels_off; by rewrite <-app_assoc).
    rewrite Hco, <-!app_assoc. reflexivity.
  - rewrite !map_app, Hs4, <-!map_rev, !map_map.
    assert (forall ks, map (fun k => asked (work k)) ks = map work ks) as Hw by (intros ks; by apply map_ext).
    rewrite !Hw. unfold isr_program. fold ch us. rewrite !rev_app_distr, rev_involutive, !map_rev, <-!app_assoc.
    rewrite Z2Nat.id by lia. do 3 f_equal. unfold channels_off. by destruct (ch =? 0).
  - intros k Hk. cbn. rewrite Hl by done. change (d_user_irq (v_dev v3)) with (d_user_irq (v_dev v)).
    by rewrite (proj2 (Z.leb_le 0 k) Hk), Z.add_0_l.
  - done.
Qed.

(** C17: [xdma_isr] asks the device and the kernel exactly this, in this order: it
    reads the channel requests, disables those that it found (it enables none
    again: the bottom halves do), reads the user requests, calls the handler of
    every user interrupt that is set, or else wakes those who wait for its event
    unless it is pending already, and schedules the bottom half of exactly the
    live engines whose bit is set, in channel order, H2C first. It returns
    [IRQ_HANDLED] and changes nothing but the pending events and the count of
    interrupts; no access leaves the arrays. *)
Theorem xdma_isr_spec b v :
  isr_ok v -> zlookup (d_bar (v_dev v)) (d_config_bar_idx (v_dev v)) = Some b ->
  let us := user_request b v in
  exists v' new, xdma_isr v = Some (IRQ_HANDLED, v') /\
    v_log v' = new ++ v_log v /\ map asked new = rev (isr_program b v) /\
    (forall k, 0 <= k -> zlookup (d_user_irq (v_dev v')) k =
       (if (k <? d_user_max (v_dev v)) && Z.testbit us k then fire else id) <$> zlookup (d_user_irq (v_dev v)) k) /\
    v' = set_log (v_log v') (set_v_dev (set_d_irq_count (s32 (d_irq_count (v_dev v) + 1))
           (set_d_user_irq (d_user_irq (v_dev v')) (v_dev v))) v).
Proof.
  intros Hok Hb us. pose proof (wp_xdma_isr b v Hok Hb) as (r & v' & Hrun & -> & new & ?)%wp_iff. by exists v', new.
Qed.
End isr_all.

(** ** MSI-X vectors *)

(** The words that [write_vectors] writes; [None] when the fuel runs out. *)
Fixpoint vec_words (fuel : nat) (clear : bool) (i max : Z) : option (list Z) :=
  if i <? max then
    match fuel with
    | O => None
    | S fuel =>
        let '(i, val) := if clear then (u32 (i + 4), 0) else vector_word 4 i max 0 0 in
        match vec_words fuel clear i max with
        | Some ws => Some (val :: ws)
        | None => None
        end
    end
  else Some [].

(** The log after the words [ws] were written from [a] on. *)
Fixpoint write_words (a : Z) (ws : list Z) (lg : list event) : list event :=
  match ws with
  | [] => lg
  | w :: ws => write_words (a + 4) ws (EvWrite a w :: lg)
  end.

Lemma last_write_words ws a j lg :
  last_write (write_words a ws lg) (a + 4 * j) =
  match zlookup ws j with Some w => Some w | None => last_write lg (a + 4 * j) end.
Proof.
  revert a j lg. induction ws as [|w ws IH]; intros a j lg; cbn [write_words].
  - unfold zlookup. by destruct (j <? 0).
  - replace (a + 4 * j) with ((a + 4) + 4 * (j - 1)) by lia. rewrite IH.
    replace (a + 4 + 4 * (j - 1)) with (a + 4 * j) by lia. cbn [last_write].
    unfold zlookup. destruct (Z.ltb_spec j 0), (Z.ltb_spec (j - 1) 0); try lia.
    + destruct (Z.eqb_spec (a + 4 * j) a); [lia|done].
    + replace j with 0 by lia. cbn [Z.to_nat lookup list_lookup Z.sub].
      replace (a + 4 * 0) with a by lia. by rewrite Z.eqb_refl.
    + destruct (Z.to_nat j) as [|k] eqn:Ek; [lia|]. replace (Z.to_nat (j - 1)) with k by lia. cbn.
      destruct (ws !! k); [done|]. destruct (Z.eqb_spec (a + 4 * j) a); [lia|done].
Qed.

Section msix.
Context `{Env}.

Lemma write_vectors_words fuel clear a i max ws v :
  vec_words fuel clear i max = Some ws ->
  write_vectors fuel clear a i max v = Some (tt, set_log (write_words a ws (v_log v)) v).
Proof.
  revert a i ws v. induction fuel as [|fuel IH]; intros a i ws v; cbn [vec_words write_vectors];
    destruct (i <? max); try done; try (intros [= <-]; by destruct v).
  destruct (if clear then _ else _) as [i' val]. destruct (vec_words fuel clear i' max) eqn:E; [|done].
  intros [= <-]. unfold bind, write_register, emit, modify. erewrite IH by done. done.
Qed.
End msix.

(** Byte [k mod 4] of word [k / 4]. *)
Definition byte_of (w k : Z) : Z := Z.land (Z.shiftr w (8 * (k `mod` 4))) 0xff.

Definition vectors_ok (i n : Z) : bool :=
  match vec_words (Z.to_nat (i + n)) false i (i + n) with
  | Some ws =>
      forallb (fun k => match zlookup ws (k / 4) with Some w => byte_of w k =? i + k | None => false end) (zrange n)
      && (Z.of_nat (length ws) <=? 8)
  | None => false
  end.

Lemma vectors_all :
  forallb (fun i => forallb (fun n => vectors_ok i n) (zrange 17)) (zrange 9) = true.
Proof. by vm_compute. Qed.

Lemma vectors_spec i n :
  0 <= i <= 8 -> 0 <= n <= 16 ->
  exists ws, vec_words (Z.to_nat (i + n)) false i (i + n) = Some ws /\ Z.of_nat (length ws) <= 8 /\
    forall k, 0 <= k < n -> exists w, zlookup ws (k / 4) = Some w /\ byte_of w k = i + k.
Proof.
  intros Hi Hn. pose proof vectors_all as Hall. rewrite forallb_forall in Hall.
  specialize (Hall i). rewrite <-list_elem_of_In, elem_of_zrange in Hall.
  specialize (Hall ltac:(lia)). rewrite forallb_forall in Hall.
  specialize (Hall n). rewrite <-list_elem_of_In, elem_of_zrange in Hall.
  specialize (Hall ltac:(lia)). unfold vectors_ok in Hall.
  destruct (vec_words _ _ _ _) as [ws|]; [|done]. apply andb_prop in Hall as [Hall Hlen].
  exists ws. split; [done|]. split; [lia|]. intros k Hk. rewrite forallb_forall in Hall.
  specialize (Hall k). rewrite <-list_elem_of_In, elem_of_zrange in Hall. specialize (Hall Hk).
  destruct (zlookup ws (k / 4)) as [w|]; [|done]. exists w. split; [done|]. lia.
Qed.

(** The vector of source [k] in the table at [a]. *)
Definition vector_at (lg : list event) (a k : Z) : option Z :=
  match last_write lg (a + 4 * (k / 4)) with Some w => Some (byte_of w k) | None => None end.

Section msix_table.
Context `{Env}.

(** C32: the two calls at the end of [irq_setup] with MSI-X: channel interrupt
    [k] gets vector [k] and user interrupt [k] gets the [k]th vector after the
    channels, so no two sources share a vector; for every number of channels
    (up to four each way) and of user interrupts (up to sixteen). *)
Theorem prog_irq_msix_table v b :
  zlookup (d_bar (v_dev v)) (d_config_bar_idx (v_dev v)) = Some b ->
  0 <= d_c2h_channel_max (v_dev v) <= 4 -> 0 <= d_h2c_channel_max (v_dev v) <= 4 ->
  0 <= d_user_max (v_dev v) <= 16 ->
  let n := d_c2h_channel_max (v_dev v) + d_h2c_channel_max (v_dev v) in
  let table f := b + XDMA_OFS_INT_CTRL + offsetof interrupt_regs f in
  exists lg, (prog_irq_msix_channel false >>; prog_irq_msix_user false) v = Some (tt, set_log lg v) /\
    (forall k, 0 <= k < n -> vector_at lg (table "channel_msi_vector") k = Some k) /\
    (forall k, 0 <= k < d_user_max (v_dev v) -> vector_at lg (table "user_msi_vector") k = Some (n + k)).
Proof.
  intros Hb Hc Hh Hu n table.
  assert (forall (v' : dst) f, int_reg (v_dev v) f v' = Some (table f, v')) as Hreg.
  { intros v' f. unfold int_reg, config_bar, bind, deref. by rewrite Hb. }
  destruct (vectors_spec 0 n) as (wc & Ec & Hlc & Hwc); [lia|lia|].
  destruct (vectors_spec n (d_user_max (v_dev v))) as (wu & Eu & Hlu & Hwu); [lia|lia|].
  rewrite Z.add_0_l in Ec.
  assert (prog_irq_msix_channel false v =
    Some (tt, set_log (write_words (table "channel_msi_vector") wc (v_log v)) v)) as Hch.
  { unfold prog_irq_msix_channel, bind, get_dev, gets. rewrite Hreg.
    fold n. rewrite (u32_small n) by lia. rewrite (write_vectors_words _ _ _ _ _ wc) by done. done. }
  eexists. split.
  { unfold bind at 1. rewrite Hch. unfold prog_irq_msix_user, bind, get_dev, gets.
    change (v_dev (set_log _ v)) with (v_dev v). rewrite Hreg. fold n. rewrite (u32_small n), (u32_small (n + _)) by lia.
    rewrite (write_vectors_words _ _ _ _ _ wu) by done. reflexivity. }
  cbn [v_log set_log dst_log].
  assert (table "channel_msi_vector" = table "user_msi_vector" + 4 * 8) as Etab
    by (unfold table; change (offsetof interrupt_regs "channel_msi_vector") with 0xa0;
        change (offsetof interrupt_regs "user_msi_vector") with 0x80; lia).
  split; intros k Hk; unfold vector_at.
  - destruct (Hwc k ltac:(lia)) as (w & Hw & Hwk). rewrite Etab.
    replace (table "user_msi_vector" + 4 * 8 + 4 * (k / 4)) with (table "user_msi_vector" + 4 * (8 + k / 4)) by lia.
    rewrite last_write_words. assert (0 <= k / 4) by (apply Z.div_pos; lia).
    rewrite zlookup_out by lia.
    replace (table "user_msi_vector" + 4 * (8 + k / 4)) with (table "user_msi_vector" + 4 * 8 + 4 * (k / 4)) by lia.
    rewrite last_write_words, Hw, Hwk. done.
  - destruct (Hwu k ltac:(lia)) as (w & Hw & Hwk). rewrite last_write_words, Hw, Hwk. done.
Qed.
End msix_table.

(** ** Witnesses *)

Lemma zlookup_single {A} (x y : A) i : zlookup [x] i = Some y -> i = 0 /\ y = x.
Proof.
  intros E. assert (0 <= i < 1) as Hi by (apply (zlookup_is_Some [x]); eauto).
  assert (i = 0) as -> by lia. by injection E.
Qed.

Lemma demo_isr_ok : isr_ok demo_dst.
Proof.
  split.
  - by eexists.
  - split; [cbn; lia|]. intros k Hk. apply zlookup_is_Some. cbn in *. lia.
  - intros dir i Hi. apply zlookup_is_Some. destruct dir; cbn in *; lia.
  - intros dir i j ei ej Hne Hi Hj. destruct dir; apply zlookup_single in Hi as [-> _], Hj as [-> _]; done.
Qed.

(** Both channels and both users fire. *)
Definition fire_env : Env := {|
  io_read _ _ := 3; kernel _ _ _ := 0; poll_mode := false; interrupt_mode := 0;
  enable_st_c2h_credit := false; desc_blen_max := XDMA_DESC_BLEN_MAX; HZ := 250; SIZEOF_REQ := 400
|}.

Lemma xdma_isr_spec_witness :
  exists v' new, @xdma_isr fire_env demo_dst = Some (IRQ_HANDLED, v') /\
    v_log v' = new ++ v_log demo_dst /\
    map asked new = rev (
      [EvRead (int_word 0x20000 "channel_int_request") 3; EvWrite (int_word 0x20000 "channel_int_enable_w1c") 3;
       EvRead (int_word 0x20000 "user_int_request") 3;
       EvCall "wake_up_interruptible events_wq" [0] 0; EvCall "user_irq->handler" [5; 1; 6] 0;
       work 0; work 4]) /\
    (forall k, 0 <= k -> zlookup (d_user_irq (v_dev v')) k =
       (if (k <? 2) && Z.testbit 3 k then fire else id) <$> zlookup (d_user_irq (v_dev demo_dst)) k) /\
    v' = set_log (v_log v') (set_v_dev (set_d_irq_count (s32 (d_irq_count (v_dev demo_dst) + 1))
           (set_d_user_irq (d_user_irq (v_dev v')) (v_dev demo_dst))) demo_dst).
Proof. exact (@xdma_isr_spec fire_env 0x20000 demo_dst demo_isr_ok eq_refl). Defined.

Lemma prog_irq_msix_table_witness :
  exists lg, (prog_irq_msix_channel false >>; prog_irq_msix_user false) demo_dst
      = Some (tt, set_log lg demo_dst) /\
    (forall k, 0 <= k < 2 -> vector_at lg 0x220a0 k = Some k) /\
    (forall k, 0 <= k < 2 -> vector_at lg 0x22080 k = Some (2 + k)).
Proof.
  apply (prog_irq_msix_table demo_dst 0x20000); [reflexivity|cbn; lia|cbn; lia|cbn; lia].
Defined.
