(* ===== verification/Device.v ===== *)
(** * Device: bring-up and tear-down

    Mapping of the BARs, creation of the engines, [xdma_device_open] and
    [xdma_device_close], taking the device offline and back, and the
    registration of user interrupts. *)

From stdpp Require Import pretty.
From S2P Require Import Prelude Hw State Desc Engine Service Request Submit Dev Thread Irq.

(** ** BARs *)

Section bars.
Context `{Env}.

Definition set_bar (i a : Z) : M dst unit :=
  let* d := get_dev in
  let* l := deref (zupdate (d_bar d) i (fun _ => a)) in
  upd_dev (set_d_bar l).
Definition get_bar (i : Z) : M dst Z := let* d := get_dev in deref (zlookup (d_bar d) i).

Definition unmap_bars : M dst unit :=
  forM (zrange XDMA_BAR_NUM) (fun i =>
    let* a := get_bar i in
    when (negb (a =? 0)) (kdo "pci_iounmap" [a] >>; set_bar i 0)).

Definition map_single_bar (idx : Z) : M dst Z :=
  kcall "pci_resource_start" [idx] >>;
  let* bar_len := kcall "pci_resource_len" [idx] in
  let bar_len := u64 bar_len in
  set_bar idx 0 >>;
  if bar_len =? 0 then ret 0
  else
    let map_len := if INT_MAX <? bar_len then INT_MAX else bar_len in
    let* a := kcall "pci_iomap" [idx; map_len] in
    set_bar idx a >>;
    if a =? 0 then ret (-1) else ret (s32 map_len).

Definition is_config_bar (idx : Z) : M dst bool :=
  let* bar := get_bar idx in
  let* irq_id := read_register (bar + XDMA_OFS_INT_CTRL + offsetof interrupt_regs "identifier") in
  let* cfg_id := read_register (bar + XDMA_OFS_CONFIG + offsetof config_regs "identifier") in
  ret ((Z.land irq_id 0xffff0000 =? IRQ_BLOCK_ID) && (Z.land cfg_id 0xffff0000 =? CONFIG_BLOCK_ID)).

(** [bar_id_list] holds the indices of the mapped BARs. *)
Definition identify_bars (bar_id_list : list Z) (num_bars config_bar_pos : Z) : M dst Z :=
  (if num_bars =? 1 then ret tt
   else if num_bars =? 2 then
     if config_bar_pos =? 0 then
       let* b := deref (zlookup bar_id_list 1) in upd_dev (set_d_bypass_bar_idx b)
     else if config_bar_pos =? 1 then
       let* b := deref (zlookup bar_id_list 0) in upd_dev (set_d_user_bar_idx b)
     else ret tt
   else if (num_bars =? 3) || (num_bars =? 4) then
     if (config_bar_pos =? 1) || (config_bar_pos =? 2) then
       let* u := deref (zlookup bar_id_list 0) in upd_dev (set_d_user_bar_idx u) >>;
       let* b := deref (zlookup bar_id_list (num_bars - 1)) in upd_dev (set_d_bypass_bar_idx b)
     else ret tt
   else ret tt) >>;
  ret 0.

(** The loop of [map_bars]: the error flag, the list of BARs and the position of
    the configuration BAR in it. *)
Fixpoint map_each (bars : list Z) (ids : list Z) (pos : Z) : M dst (bool * list Z * Z) :=
  match bars with
  | [] => ret (true, ids, pos)
  | i :: bars =>
      let* bar_len := map_single_bar i in
      if bar_len =? 0 then map_each bars ids pos
      else if bar_len <? 0 then ret (false, ids, pos)
      else
        let* d := get_dev in
        let* pos :=
          (if (XDMA_BAR_SIZE <=? bar_len) && (d_config_bar_idx d <? 0) then
             let* cfg := is_config_bar i in
             if cfg then upd_dev (set_d_config_bar_idx i) >>; ret (Z.of_nat (length ids))
             else ret pos
           else ret pos) in
        map_each bars (ids ++ [i]) pos
  end.

Definition map_bars : M dst Z :=
  let* '(ok, ids, pos) := map_each (zrange XDMA_BAR_NUM) [] 0 in
  if negb ok then unmap_bars >>; ret (- EINVAL)
  else
    let* d := get_dev in
    if d_config_bar_idx d <? 0 then unmap_bars >>; ret (- EINVAL)
    else identify_bars ids (Z.of_nat (length ids)) pos.

(** ** PCI resources *)

Definition request_regions (pdev : Z) : M dst Z :=
  if pdev =? 0 then ret (- EINVAL)
  else
    let* rv := kcall "pci_request_regions" [pdev] in
    (if negb (rv =? 0) then upd_dev (set_d_regions_in_use true)
     else upd_dev (set_d_got_regions true)) >>;
    ret rv.

Definition set_dma_mask (pdev : Z) : M dst Z :=
  if pdev =? 0 then ret (- EINVAL)
  else
    let* rv := kcall "pci_set_dma_mask" [64] in
    if rv =? 0 then kdo "pci_set_consistent_dma_mask" [64] >>; ret 0
    else
      let* rv := kcall "pci_set_dma_mask" [32] in
      if rv =? 0 then kdo "pci_set_consistent_dma_mask" [32] >>; ret 0
      else ret (- EINVAL).

Definition pci_enable_capability (pdev cap : Z) : M dst unit :=
  kdo "pcie_capability_set_word PCI_EXP_DEVCTL" [pdev; cap].
End bars.

(** ** Engines *)

Section engine_setup.
Context `{Env}.

Definition engine_alignments : M est unit :=
  let* w := read_reg "alignments" in
  let align_bytes := Z.shiftr (Z.land w 0x00ff0000) 16 in
  let granularity_bytes := Z.shiftr (Z.land w 0x0000ff00) 8 in
  let address_bits := Z.land w 0x000000ff in
  if negb (w =? 0) then
    upd_eng (fun e => set_e_addr_bits address_bits
      (set_e_len_granularity granularity_bytes (set_e_addr_align align_bytes e)))
  else
    upd_eng (fun e => set_e_addr_bits 64 (set_e_len_granularity 1 (set_e_addr_align 1 e))).

(** [arg] is a user pointer; [get_user] gives its error and the value read. *)
Definition engine_addrmode_set (arg : Z) : M est Z :=
  let* rv := kcall "get_user" [arg] in
  let* dst := kcall "get_user value" [arg] in
  (if rv =? 0 then
     upd_eng (set_e_non_incr_addr (negb (dst =? 0))) >>;
     write_reg XDMA_CTRL_NON_INCR_ADDR (if negb (dst =? 0) then "control_w1s" else "control_w1c")
   else ret tt) >>;
  engine_alignments >>;
  ret rv.

Definition engine_free_resource : M est unit :=
  let* e := get_eng in
  when (negb (e_poll_mode_addr_virt e =? 0))
    (kdo "dma_free_coherent" [e_poll_mode_addr_virt e] >>; upd_eng (set_e_poll_mode_addr_virt 0)) >>;
  (match e_desc e with
   | Some _ => kdo "dma_free_coherent" [e_desc_bus e] >>; upd_eng (set_e_desc None)
   | None => ret tt
   end) >>;
  when (negb (e_cyclic_result e =? 0))
    (kdo "dma_free_coherent" [e_cyclic_result e] >>; upd_eng (set_e_cyclic_result 0)).

(** [&reg->credit_mode_enable_w1s] of the common block of the SG DMA engines. *)
Definition credit_reg (f : string) : M est Z :=
  let* s := get in
  let* b := config_bar (s_xdev s) in
  ret (b + 0x6 * TARGET_SPACING + offsetof sgdma_common_regs f).

Definition credit_bit (e : xdma_engine) : Z := u32 (Z.shiftl (Z.shiftl 1 (e_channel e)) 16).

Definition write_credit_mode (f : string) : M est unit :=
  let* e := get_eng in
  when (credit_mode e) (let* a := credit_reg f in write_register (credit_bit e) a).

Definition engine_writeback_setup : M est Z :=
  let* e := get_eng in
  guard_ub (negb (e_poll_mode_addr_virt e =? 0)) >>;
  kdo "wb_data->completed_desc_count = 0" [e_poll_mode_addr_virt e] >>;
  write_reg (PCI_DMA_L (e_poll_mode_bus e)) "poll_mode_wb_lo" >>;
  write_reg (PCI_DMA_H (e_poll_mode_bus e)) "poll_mode_wb_hi" >>;
  ret 0.

Definition error_irqs : Z :=
  lor_all [XDMA_CTRL_IE_DESC_ALIGN_MISMATCH; XDMA_CTRL_IE_MAGIC_STOPPED;
           XDMA_CTRL_IE_READ_ERROR; XDMA_CTRL_IE_DESC_ERROR].

Definition engine_irq_mask : Z :=
  if poll_mode then error_irqs
  else Z.lor (Z.lor error_irqs XDMA_CTRL_IE_DESC_STOPPED) XDMA_CTRL_IE_DESC_COMPLETED.

Definition engine_init_regs : M est Z :=
  write_reg XDMA_CTRL_NON_INCR_ADDR "control_w1c" >>;
  engine_alignments >>;
  let* rv := (if poll_mode then engine_writeback_setup else ret 0) in
  if negb (rv =? 0) then ret rv
  else
    write_reg engine_irq_mask "interrupt_enable_mask" >>;
    upd_eng (set_e_interrupt_enable_mask_value engine_irq_mask) >>;
    write_credit_mode "credit_mode_enable_w1s" >>;
    ret 0.

Definition engine_alloc_resource : M est Z :=
  let* e := get_eng in
  let* '(p, bus) := dma_alloc_coherent (e_desc_max e * DESC_SIZE) in
  if p =? 0 then upd_eng (set_e_desc None) >>; engine_free_resource >>; ret (- ENOMEM)
  else
    upd_eng (set_e_desc (Some (replicate (Z.to_nat (e_desc_max e)) zero_desc))) >>;
    upd_eng (set_e_desc_bus bus) >>;
    let* ok := (if poll_mode then
                  let* '(p, bus) := dma_alloc_coherent 32 in
                  upd_eng (set_e_poll_mode_addr_virt p) >>;
                  upd_eng (set_e_poll_mode_bus bus) >>; ret (negb (p =? 0))
                else ret true) in
    if negb ok then engine_free_resource >>; ret (- ENOMEM)
    else
      let* ok := (if e_streaming e && is_c2h (e_dir e) then
                    let* '(p, bus) := dma_alloc_coherent (e_desc_max e * RESULT_SIZE) in
                    upd_eng (set_e_cyclic_result p) >>;
                    upd_eng (set_e_cyclic_result_bus bus) >>; ret (negb (p =? 0))
                  else ret true) in
      if negb ok then engine_free_resource >>; ret (- ENOMEM) else ret 0.

(** [snprintf(engine->name, 16, "%d-%s%d-%s", ...)] *)
Fixpoint string_take (n : nat) (s : string) : string :=
  match n, s with
  | S n, String c s => String c (string_take n s)
  | _, _ => EmptyString
  end.

Definition engine_name (idx : Z) (dir : dma_dir) (ch : Z) (streaming : bool) : string :=
  string_take 15
    (foldr String.append EmptyString
       [pretty idx; "-"; (if is_h2c dir then "H2C" else "C2H"); pretty ch; "-";
        (if streaming then "ST" else "MM")])%string.

(** The identity of the engine: its interrupt bit, its registers and its name. *)
Definition engine_identity (offset : Z) (dir : dma_dir) (channel : Z) : M est unit :=
  let* s := get in
  let d := s_xdev s in
  let* b := config_bar d in
  upd_eng (set_e_magic MAGIC_ENGINE) >>;
  upd_eng (set_e_channel (Z.land channel 3)) >>;
  upd_eng (set_e_irq_bitmask
    (u32 (Z.shiftl (Z.shiftl 1 XDMA_ENG_IRQ_NUM - 1) (d_engines_num d * XDMA_ENG_IRQ_NUM)))) >>;
  upd_eng (set_e_bypass_offset (u32 (d_engines_num d * BYPASS_MODE_SPACING))) >>;
  upd_eng (set_e_regs (b + offset)) >>;
  upd_eng (set_e_sgdma_regs (b + offset + SGDMA_OFFSET_FROM_CHANNEL)) >>;
  let* val := read_reg "identifier" in
  when (has_bits val 0x8000) (upd_eng (set_e_streaming true)) >>;
  upd_eng (set_e_dir dir) >>;
  upd_eng (fun e => set_e_name (engine_name (d_idx d) dir channel (e_streaming e)) e) >>;
  upd_eng (fun e => set_e_desc_max (if credit_mode e then XDMA_ENGINE_CREDIT_XFER_MAX_DESC
                                    else XDMA_ENGINE_XFER_MAX_DESC) e).

(** The masks and the count of the device. *)
Definition engine_count (dir : dma_dir) : M est unit :=
  let* e := get_eng in
  upd_xdev (fun d => if is_h2c dir then set_d_mask_irq_h2c (Z.lor (d_mask_irq_h2c d) (e_irq_bitmask e)) d
                     else set_d_mask_irq_c2h (Z.lor (d_mask_irq_c2h d) (e_irq_bitmask e)) d) >>;
  upd_xdev (fun d => set_d_engines_num (d_engines_num d + 1) d).

(** [engine_init] up to [xdma_thread_add_work]. *)
Definition engine_init_core (offset : Z) (dir : dma_dir) (channel : Z) : M est Z :=
  engine_identity offset dir channel >>;
  engine_count dir >>;
  let* rv := engine_alloc_resource in
  if negb (rv =? 0) then ret rv else engine_init_regs.

(** [memset(engine, 0, sizeof(struct xdma_engine))] *)
Definition zero_engine : xdma_engine :=
  {| e_magic := 0; e_name := ""; e_regs := 0; e_sgdma_regs := 0; e_bypass_offset := 0;
     e_shutdown := 0; e_dir := DMA_TO_DEVICE; e_addr_align := 0; e_len_granularity := 0;
     e_addr_bits := 0; e_channel := 0; e_streaming := false; e_device_open := false;
     e_running := false; e_non_incr_addr := false; e_eop_flush := false;
     e_desc_dequeued := 0; e_desc_max := 0; e_status := 0; e_interrupt_enable_mask_value := 0;
     e_transfer_list := []; e_cyclic_result := 0; e_cyclic_result_bus := 0;
     e_perf_buf_virt := 0; e_perf_buf_bus := 0; e_poll_mode_addr_virt := 0;
     e_poll_mode_bus := 0; e_msix_irq_line := 0; e_irq_bitmask := 0; e_desc_bus := 0;
     e_desc := None; e_desc_idx := 0; e_desc_used := 0; e_xdma_perf := None;
     e_cmplthp := None; e_prev_cpu := 0; e_intr_work_cpu := 0 |}.
End engine_setup.

Section device.
Context `{Env} `{Callback}.

(** [engine_init] on engine [ch] of one direction, registers at [offset]. *)
Definition engine_init (offset : Z) (dir : dma_dir) (ch : Z) : M dst Z :=
  let* rv := on_engine dir ch (engine_init_core offset dir ch) in
  if negb (rv =? 0) then ret rv
  else when poll_mode (xdma_thread_add_work dir ch) >>; ret 0.

Definition engine_destroy (dir : dma_dir) (ch : Z) : M dst Z :=
  on_engine dir ch
    (write_reg 0 "interrupt_enable_mask" >>; write_credit_mode "credit_mode_enable_w1c") >>;
  when poll_mode (xdma_thread_remove_work dir ch) >>;
  on_engine dir ch
    (engine_free_resource >>;
     upd_eng (fun _ => zero_engine) >>;
     upd_xdev (fun d => set_d_engines_num (d_engines_num d - 1) d)) >>;
  ret 0.

(** ** The list of devices *)

Definition list_add : M dst unit :=
  modify (fun v => set_v_list (v_list v ++ [(v_hndl v, d_pdev (v_dev v), d_idx (v_dev v))]) v).

Definition xdev_list_add : M dst Z :=
  let* v := get in
  match last (v_list v) with
  | None =>
      upd_dev (set_d_idx 0) >>;
      let* rv := (if poll_mode then
                    xdma_threads_create (d_h2c_channel_max (v_dev v) + d_c2h_channel_max (v_dev v))
                  else ret 0) in
      if rv <? 0 then ret rv else list_add >>; ret 0
  | Some (_, _, idx) => upd_dev (set_d_idx (s32 (idx + 1))) >>; list_add >>; ret 0
  end.

Definition xdev_list_remove : M dst unit :=
  modify (fun v => set_v_list (filter (fun p => negb (fst (fst p) =? v_hndl v)) (v_list v)) v) >>;
  let* v := get in
  when (poll_mode && bool_decide (v_list v = [])) xdma_threads_destroy >>;
  kdo "synchronize_rcu" [].

(** ** Bring-up *)

Definition zero_user_irq (i : Z) : user_irq := mk_user_irq i 0 0 0.

Definition new_device (pdev : Z) : xdma_dev :=
  {| d_magic := MAGIC_DEVICE; d_pdev := pdev; d_idx := 0; d_flags := 0;
     d_bar := replicate 6 0; d_user_bar_idx := -1; d_config_bar_idx := -1;
     d_bypass_bar_idx := -1; d_regions_in_use := false; d_got_regions := false;
     d_user_max := 0; d_c2h_channel_max := 0; d_h2c_channel_max := 0; d_irq_count := 0;
     d_irq_line := -1; d_msi_enabled := false; d_msix_enabled := false;
     d_user_irq := map zero_user_irq (zrange 16); d_mask_irq_user := 0; d_engines_num := 0;
     d_mask_irq_h2c := 0; d_mask_irq_c2h := 0; d_feature_id := 0 |}.

(** The address of the new device, 0 for NULL. *)
Definition alloc_dev_instance (pdev : Z) : M dst Z :=
  if pdev =? 0 then ret 0
  else
    let* p := kcall "kzalloc xdma_dev" [] in
    if p =? 0 then ret 0
    else
      modify (fun v =>
        mk_dst p (new_device pdev) (replicate 4 zero_engine) (replicate 4 zero_engine)
          (v_xfers v) (v_sgts v) (v_reqs v) (v_cbs v) (v_caios v) (v_list v) (v_threads v)
          (v_thread_cnt v) (v_log v)) >>;
      ret p.

Definition get_engine_channel_id (regs : Z) : M dst Z :=
  if regs =? 0 then ret (- EINVAL)
  else let* v := read_register (regs + offsetof engine_regs "identifier") in
       ret (Z.shiftr (Z.land v 0x00000f00) 8).

Definition get_engine_id (regs : Z) : M dst Z :=
  if regs =? 0 then ret (- EINVAL)
  else let* v := read_register (regs + offsetof engine_regs "identifier") in
       ret (Z.shiftr (Z.land v 0xffff0000) 16).

Definition destroy_engines (dir : dma_dir) (max : Z) : M dst unit :=
  forM (zrange max) (fun i =>
    let* e := get_engine dir i in
    when (e_magic e =? MAGIC_ENGINE) (engine_destroy dir i >>; ret tt)).

Definition remove_engines : M dst unit :=
  let* d := get_dev in
  destroy_engines DMA_TO_DEVICE (d_h2c_channel_max d) >>;
  destroy_engines DMA_FROM_DEVICE (d_c2h_channel_max d).

Definition engine_offset (dir : dma_dir) (ch : Z) : Z :=
  ch * CHANNEL_SPACING + (if is_h2c dir then 0 else H2C_CHANNEL_OFFSET).
Definition engine_id_expected (dir : dma_dir) : Z :=
  if is_h2c dir then XDMA_ID_H2C else XDMA_ID_C2H.

Definition probe_for_engine (dir : dma_dir) (ch : Z) : M dst Z :=
  let* d := get_dev in
  let* b := config_bar d in
  let regs := b + engine_offset dir ch in
  let* engine_id := get_engine_id regs in
  let* channel_id := get_engine_channel_id regs in
  if negb (u32 engine_id =? engine_id_expected dir) || negb (u32 channel_id =? ch)
  then ret (- EINVAL)
  else engine_init (engine_offset dir ch) dir ch.

(** [for (i = 0; i < max; i++)] until a probe fails: the final [i]. *)
Fixpoint probe_channels (dir : dma_dir) (n : nat) (i : Z) : M dst Z :=
  match n with
  | O => ret i
  | S n =>
      let* rv := probe_for_engine dir i in
      if negb (rv =? 0) then ret i else probe_channels dir n (i + 1)
  end.

Definition probe_engines : M dst Z :=
  let* d := get_dev in
  let* i := probe_channels DMA_TO_DEVICE (Z.to_nat (d_h2c_channel_max d)) 0 in
  upd_dev (set_d_h2c_channel_max i) >>;
  let* i := probe_channels DMA_FROM_DEVICE (Z.to_nat (d_c2h_channel_max d)) 0 in
  upd_dev (set_d_c2h_channel_max i) >>;
  ret 0.

(** A limit the caller asks for, and the driver's own. *)
Definition clamp (limit x : Z) : Z := if (x =? 0) || (limit <? x) then limit else x.

(** The labels of [xdma_device_open], each with the ones below it. *)
Definition free_xdev : M dst (option (Z * Z * Z)) :=
  let* v := get in kdo "kfree" [v_hndl v] >>; ret None.
Definition err_enable := xdev_list_remove >>; free_xdev.
Definition err_regions (pdev : Z) :=
  let* d := get_dev in
  when (negb (d_regions_in_use d)) (kdo "pci_disable_device" [pdev]) >>; err_enable.
Definition err_map (pdev : Z) :=
  let* d := get_dev in
  when (d_got_regions d) (kdo "pci_release_regions" [pdev]) >>; err_regions pdev.
Definition err_mask (pdev : Z) := unmap_bars >>; err_map pdev.
Definition err_engines (pdev : Z) := remove_engines >>; err_mask pdev.
Definition err_msix (pdev : Z) := disable_msi_msix pdev >>; err_engines pdev.

(** From [probe_engines] on. *)
Definition open_engines (pdev : Z) : M dst (option (Z * Z * Z)) :=
  let* rv := probe_engines in
  if negb (rv =? 0) then err_mask pdev
  else
    let* rv := enable_msi_msix pdev in
    if rv <? 0 then err_engines pdev
    else
      let* rv := irq_setup pdev in
      if rv <? 0 then err_msix pdev
      else
        let* d := get_dev in
        when (negb poll_mode) (channel_interrupts_enable d UINT_MAX) >>;
        read_interrupts d >>;
        upd_dev (fun d => xdma_device_flag_clear d XDEV_FLAG_OFFLINE) >>;
        ret (Some (d_user_max d, d_h2c_channel_max d, d_c2h_channel_max d)).

(** From [request_regions] on. *)
Definition open_bars (pdev : Z) : M dst (option (Z * Z * Z)) :=
  let* rv := request_regions pdev in
  if negb (rv =? 0) then err_regions pdev
  else
    let* rv := map_bars in
    if negb (rv =? 0) then err_map pdev
    else
      let* rv := set_dma_mask pdev in
      if negb (rv =? 0) then err_mask pdev
      else
        let* d := get_dev in
        check_nonzero_interrupt_status d >>;
        channel_interrupts_disable d UINT_MAX >>;
        user_interrupts_disable d UINT_MAX >>;
        read_interrupts d >>;
        open_engines pdev.

Definition PCI_EXP_DEVCTL_RELAX_EN := 0x0010.
Definition PCI_EXP_DEVCTL_EXT_TAG := 0x0100.

(** None for NULL; otherwise the three limits that the caller reads back. *)
Definition xdma_device_open (pdev user_max h2c_max c2h_max : Z) : M dst (option (Z * Z * Z)) :=
  let* p := alloc_dev_instance pdev in
  if p =? 0 then ret None
  else
    upd_dev (fun d =>
      set_d_c2h_channel_max (clamp XDMA_CHANNEL_NUM_MAX c2h_max)
        (set_d_h2c_channel_max (clamp XDMA_CHANNEL_NUM_MAX h2c_max)
          (set_d_user_max (clamp MAX_USER_IRQ user_max)
            (xdma_device_flag_set d XDEV_FLAG_OFFLINE)))) >>;
    let* rv := xdev_list_add in
    if rv <? 0 then free_xdev
    else
      let* rv := kcall "pci_enable_device" [pdev] in
      if negb (rv =? 0) then err_enable
      else
        pci_check_intr_pend pdev >>;
        pci_enable_capability pdev PCI_EXP_DEVCTL_RELAX_EN >>;
        pci_enable_capability pdev PCI_EXP_DEVCTL_EXT_TAG >>;
        kdo "pcie_set_readrq" [pdev; 512] >>;
        kdo "pci_set_master" [pdev] >>;
        open_bars pdev.

(** ** Tear-down *)

(** The checks on [dev_hndl]: the handle is the device of the state. *)
Definition check_hndl (pdev : Z) : M dst Z :=
  let* v := get in
  if v_hndl v =? 0 then ret (- EINVAL) else debug_check_dev_hndl pdev (v_hndl v).

Definition interrupts_off : M dst unit :=
  let* d := get_dev in
  channel_interrupts_disable d UINT_MAX >>;
  user_interrupts_disable d UINT_MAX >>;
  read_interrupts d >>; ret tt.

Definition xdma_device_close (pdev : Z) : M dst unit :=
  let* rv := check_hndl pdev in
  if rv <? 0 then ret tt
  else
    interrupts_off >>;
    irq_teardown >>;
    disable_msi_msix pdev >>;
    remove_engines >>;
    unmap_bars >>;
    let* d := get_dev in
    when (d_got_regions d) (kdo "pci_release_regions" [pdev]) >>;
    when (negb (d_regions_in_use d)) (kdo "pci_disable_device" [pdev]) >>;
    xdev_list_remove >>;
    let* v := get in kdo "kfree" [v_hndl v].

(** ** Offline and online *)

Definition each_engine (dir : dma_dir) (max : Z) (m : M est unit) : M dst unit :=
  forM (zrange max) (fun i => on_engine dir i m).

Definition xdma_device_offline (pdev : Z) : M dst unit :=
  let* rv := check_hndl pdev in
  if rv <? 0 then ret tt
  else
    upd_dev (fun d => xdma_device_flag_set d XDEV_FLAG_OFFLINE) >>;
    let* d := get_dev in
    each_engine DMA_TO_DEVICE (d_h2c_channel_max d) engine_offline >>;
    each_engine DMA_FROM_DEVICE (d_c2h_channel_max d) engine_offline >>;
    interrupts_off >>;
    irq_teardown.

(** The engine part of [xdma_device_online]. *)
Definition engine_online : M est unit :=
  let* e := get_eng in
  when (e_magic e =? MAGIC_ENGINE)
    (engine_init_regs >>;
     upd_eng (fun e => set_e_shutdown (Z.land (e_shutdown e) (Z.lnot ENGINE_SHUTDOWN_REQUEST)) e)).

Definition xdma_device_online (pdev : Z) : M dst unit :=
  let* rv := check_hndl pdev in
  if rv <? 0 then ret tt
  else
    let* d := get_dev in
    each_engine DMA_TO_DEVICE (d_h2c_channel_max d) engine_online >>;
    each_engine DMA_FROM_DEVICE (d_c2h_channel_max d) engine_online >>;
    (if poll_mode then ret tt
     else
       irq_setup pdev >>;
       let* d := get_dev in
       channel_interrupts_enable d UINT_MAX >>;
       user_interrupts_enable d (d_mask_irq_user d) >>;
       read_interrupts d >>; ret tt) >>;
    upd_dev (fun d => xdma_device_flag_clear d XDEV_FLAG_OFFLINE).

Definition xdma_device_restart (pdev : Z) : M dst Z :=
  let* rv := check_hndl pdev in ret (- EINVAL).

(** ** User interrupts *)

(** [for (i = 0; i < user_max && mask; i++)] *)
Fixpoint register_users (users : list Z) (mask handler dev : Z) : M dst unit :=
  match users with
  | [] => ret tt
  | i :: users =>
      if mask =? 0 then ret tt
      else
        let bit := u32 (Z.shiftl 1 i) in
        if Z.land bit mask =? 0 then register_users users mask handler dev
        else
          upd_user_irq i (fun u => set_u_dev dev (set_u_handler handler u)) >>;
          register_users users (Z.land mask (Z.lnot bit)) handler dev
  end.

Definition xdma_user_isr_register (mask handler dev : Z) : M dst Z :=
  let* d := get_dev in
  let* rv := check_hndl (d_pdev d) in
  if rv <? 0 then ret (- EINVAL)
  else register_users (zrange (d_user_max d)) mask handler dev >>; ret 0.

Definition xdma_user_isr_enable (mask : Z) : M dst Z :=
  let* d := get_dev in
  let* rv := check_hndl (d_pdev d) in
  if rv <? 0 then ret (- EINVAL)
  else
    upd_dev (fun d => set_d_mask_irq_user (Z.lor (d_mask_irq_user d) mask) d) >>;
    user_interrupts_enable d mask >>;
    read_interrupts d >>; ret 0.

Definition xdma_user_isr_disable (mask : Z) : M dst Z :=
  let* d := get_dev in
  let* rv := check_hndl (d_pdev d) in
  if rv <? 0 then ret (- EINVAL)
  else
    upd_dev (fun d => set_d_mask_irq_user (Z.land (d_mask_irq_user d) (Z.lnot mask)) d) >>;
    user_interrupts_disable d mask >>;
    read_interrupts d >>; ret 0.
End device.

(** ** Entry points of the character device

    The checks of [xdma_xfer_submit] and its variants on the handle and on the
    channel, before the engine is used. *)

Section entry.
Context `{Env} `{Callback} `{Sched}.

Definition select_channel (write : bool) (channel : Z) (m : M est Z) : M dst Z :=
  let* d := get_dev in
  let dir := if write then DMA_TO_DEVICE else DMA_FROM_DEVICE in
  if channel_max dir d <=? channel then ret (- EINVAL) else on_engine dir channel m.

Definition select_engine (write : bool) (channel : Z) (m : M est Z) : M dst Z :=
  let* d := get_dev in
  let* rv := check_hndl (d_pdev d) in
  if rv <? 0 then ret (- EINVAL) else select_channel write channel m.

Definition dev_xfer_submit (channel : Z) (write : bool) (ep_addr sgt : Z) (dma_mapped : bool)
    (timeout_ms : Z) : M dst Z :=
  select_engine write channel (xdma_xfer_submit write ep_addr sgt dma_mapped timeout_ms).
Definition dev_xfer_submit_nowait (cb channel : Z) (write : bool) (ep_addr sgt : Z)
    (dma_mapped : bool) : M dst Z :=
  select_engine write channel (xdma_xfer_submit_nowait cb write ep_addr sgt dma_mapped).
Definition dev_xfer_completion (cb channel : Z) (write : bool) (sgt : Z) (dma_mapped : bool)
    : M dst Z :=
  select_channel write channel (xdma_xfer_completion cb sgt dma_mapped).
End entry.
