(* ===== verification/Ledger.v ===== *)
(** * Ledger: the resources that a device holds

    The log shows which resources the driver took from the kernel and which it
    gave back; [held] is the difference.  The state says what the driver thinks
    it holds: mapped BARs and the DMA memory of the engines.  A computation is
    settled if it changes both by the same amount. *)

From S2P Require Import Prelude Hw State Desc Engine Service Request Submit Dev Thread Irq Device.

(** ** The ledger of a log *)

Inductive resource :=
| RDevice (p : Z)      (** the [xdma_dev] at [p] *)
| REnable              (** the PCI device is enabled *)
| RRegions             (** its regions are reserved *)
| RBar (a : Z)         (** a BAR mapped at [a] *)
| RDma                 (** a block of DMA memory *)
| RVectors             (** MSI or MSI-X is enabled *)
| RIrq                 (** an interrupt line *)
| RPerf.               (** the record of a performance run *)

Definition one_of (l : list string) (f : string) : bool := existsb (String.eqb f) l.

(** Kernel functions that give a resource, with the answer that means success. *)
Definition request_irqs : list string :=
  ["request_irq xdma_channel_irq"; "request_irq xdma_user_irq"; "request_irq xdma_isr";
   "request_irq xdma_isr IRQF_SHARED"]%string.

Definition gain (r : resource) (f : string) (rv : Z) : bool :=
  match r with
  | RDevice p => one_of ["kzalloc xdma_dev"%string] f && (negb (rv =? 0) && (rv =? p))
  | REnable => one_of ["pci_enable_device"%string] f && (rv =? 0)
  | RRegions => one_of ["pci_request_regions"%string] f && (rv =? 0)
  | RBar a => one_of ["pci_iomap"%string] f && (negb (rv =? 0) && (rv =? a))
  | RDma => one_of ["dma_alloc_coherent"%string] f && negb (rv =? 0)
  | RVectors => one_of ["pci_alloc_irq_vectors"; "pci_enable_msi"]%string f && (0 <=? rv)
  | RIrq => one_of request_irqs f && (rv =? 0)
  | RPerf => one_of ["kzalloc perf"%string] f && negb (rv =? 0)
  end.

(** Kernel functions that take one back. *)
Definition loss (r : resource) (f : string) (args : list Z) : bool :=
  match r with
  | RDevice p => one_of ["kfree"%string] f && bool_decide (args = [p])
  | REnable => one_of ["pci_disable_device"%string] f
  | RRegions => one_of ["pci_release_regions"%string] f
  | RBar a => one_of ["pci_iounmap"%string] f && bool_decide (args = [a])
  | RDma => one_of ["dma_free_coherent"%string] f
  | RVectors => one_of ["pci_disable_msix"; "pci_disable_msi"]%string f
  | RIrq => one_of ["free_irq"; "free_irq user"]%string f
  | RPerf => one_of ["kfree perf"%string] f
  end.

Definition delta (r : resource) (ev : event) : Z :=
  match ev with
  | EvCall f args rv => Z.b2z (gain r f rv) - Z.b2z (loss r f args)
  | _ => 0
  end.

Definition held (r : resource) (lg : list event) : Z := zsum (map (delta r) lg).

#[global] Arguments held r lg : simpl never.

Lemma held_cons r ev lg : held r (ev :: lg) = delta r ev + held r lg.
Proof. done. Qed.

(** The functions that no resource is about. *)
Definition neutral (f : string) : bool :=
  negb (one_of (request_irqs ++
    ["kzalloc xdma_dev"; "kfree"; "pci_enable_device"; "pci_disable_device"; "pci_request_regions";
     "pci_release_regions"; "pci_iomap"; "pci_iounmap"; "dma_alloc_coherent"; "dma_free_coherent";
     "pci_alloc_irq_vectors"; "pci_enable_msi"; "pci_disable_msix"; "pci_disable_msi"; "free_irq";
     "free_irq user"; "kzalloc perf"; "kfree perf"]%string) f).

Lemma one_of_app l1 l2 f : one_of (l1 ++ l2) f = one_of l1 f || one_of l2 f.
Proof. apply existsb_app. Qed.

Lemma neutral_delta f args rv r : neutral f = true -> delta r (EvCall f args rv) = 0.
Proof.
  unfold neutral. rewrite negb_true_iff, one_of_app, orb_false_iff. intros [E1 E2].
  unfold one_of in E2. cbn [existsb] in E2. rewrite !orb_false_iff in E2. destruct_and! E2.
  unfold delta. destruct r; cbn [gain loss one_of existsb]; fold (one_of request_irqs f);
    try rewrite E1; repeat match goal with H : _ = false |- _ => rewrite H; clear H end; done.
Qed.

(** ** What the state says *)

Definition mem_of (e : xdma_engine) : Z :=
  (if e_desc e is Some _ then 1 else 0) + Z.b2z (negb (e_poll_mode_addr_virt e =? 0)) +
  Z.b2z (negb (e_cyclic_result e =? 0)).

Definition mems (l : list xdma_engine) : Z := zsum (map mem_of l).

(** How often [a] is the address of a mapped BAR. *)
Definition bars_at (a : Z) (l : list Z) : Z :=
  zsum (map (fun x => Z.b2z (negb (x =? 0) && (x =? a))) l).

#[global] Arguments bars_at a l : simpl never.
#[global] Arguments mems l : simpl never.

Class Owner (S : Type) := owns : resource -> S -> Z.

#[export] Instance est_owner : Owner est := fun r s =>
  match r with
  | RBar a => bars_at a (d_bar (s_xdev s))
  | RDma => mem_of (s_eng s)
  | _ => 0
  end.

#[export] Instance dst_owner : Owner dst := fun r v =>
  match r with
  | RBar a => bars_at a (d_bar (v_dev v))
  | RDma => mems (v_h2c v) + mems (v_c2h v)
  | _ => 0
  end.

Section settled.
Context {S : Type} `{HasLog S} `{Owner S}.

(** The difference between the ledger and the state. *)
Definition balance (r : resource) (s : S) : Z := held r (log_of s) - owns r s.

Definition settled (s s' : S) : Prop := forall r, balance r s' = balance r s.
Definition untouched (s s' : S) : Prop :=
  forall r, held r (log_of s') = held r (log_of s) /\ owns r s' = owns r s.

#[export] Instance settled_preorder : PreOrder settled.
Proof. split; [by intros s r|]. intros s1 s2 s3 H1 H2 r. by rewrite H2. Qed.
#[export] Instance untouched_preorder : PreOrder untouched.
Proof. split; [by intros s r|]. intros s1 s2 s3 H1 H2 r. destruct (H1 r), (H2 r). split; congruence. Qed.

Lemma untouched_settled s s' : untouched s s' -> settled s s'.
Proof. intros Hu r. unfold balance. by destruct (Hu r) as [-> ->]. Qed.
End settled.

(** ** Primitives *)

Section primitives.
Context `{Env}.

#[export] Instance untouched_est_kcall f args : TCEq (neutral f) true -> Keep (untouched (S := est)) (kcall f args).
Proof. intros Hn%TCEq_eq s a s' [= _ <-] r. split; [|done]. cbn. rewrite held_cons, neutral_delta by done. lia. Qed.
#[export] Instance untouched_est_kdo f args : TCEq (neutral f) true -> Keep (untouched (S := est)) (kdo f args).
Proof. intros Hn%TCEq_eq s a s' [= _ <-] r. split; [|done]. cbn. rewrite held_cons, neutral_delta by done. lia. Qed.
#[export] Instance untouched_est_read x : Keep (untouched (S := est)) (read_register x).
Proof. intros s a s' [= _ <-] r. split; [|done]. cbn. rewrite held_cons. cbn [delta]. lia. Qed.
#[export] Instance untouched_est_write x y : Keep (untouched (S := est)) (write_register x y).
Proof. intros s a s' [= _ <-] r. split; [|done]. cbn. rewrite held_cons. cbn [delta]. lia. Qed.

#[export] Instance untouched_dst_kcall f args : TCEq (neutral f) true -> Keep (untouched (S := dst)) (kcall f args).
Proof. intros Hn%TCEq_eq s a s' [= _ <-] r. split; [|done]. cbn. rewrite held_cons, neutral_delta by done. lia. Qed.
#[export] Instance untouched_dst_kdo f args : TCEq (neutral f) true -> Keep (untouched (S := dst)) (kdo f args).
Proof. intros Hn%TCEq_eq s a s' [= _ <-] r. split; [|done]. cbn. rewrite held_cons, neutral_delta by done. lia. Qed.
#[export] Instance untouched_dst_read x : Keep (untouched (S := dst)) (read_register x).
Proof. intros s a s' [= _ <-] r. split; [|done]. cbn. rewrite held_cons. cbn [delta]. lia. Qed.
#[export] Instance untouched_dst_write x y : Keep (untouched (S := dst)) (write_register x y).
Proof. intros s a s' [= _ <-] r. split; [|done]. cbn. rewrite held_cons. cbn [delta]. lia. Qed.

Lemma keep_untouched_settled {S A} `{HasLog S} `{Owner S} (m : M S A) : Keep untouched m -> Keep settled m.
Proof. apply keep_weaken, untouched_settled. Qed.

(** An update that leaves the resources of the state alone. *)
Lemma keep_upd_eng f : (forall e, mem_of (f e) = mem_of e) -> Keep (untouched (S := est)) (upd_eng f).
Proof.
  intros Hf. apply (keep_modify _). intros s r. split; [done|].
  destruct r; try done. apply Hf.
Qed.
Lemma keep_upd_xdev f : (forall d, d_bar (f d) = d_bar d) -> Keep (untouched (S := est)) (upd_xdev f).
Proof.
  intros Hf. apply (keep_modify _). intros s r. split; [done|].
  destruct r; try done. cbn. by rewrite Hf.
Qed.
Lemma keep_upd_dev f : (forall d, d_bar (f d) = d_bar d) -> Keep (untouched (S := dst)) (upd_dev f).
Proof.
  intros Hf. apply (keep_modify _). intros s r. split; [done|].
  destruct r; try done. cbn. by rewrite Hf.
Qed.

(** *** One engine of the device *)

Lemma zsum_insert {A} (g : A -> Z) l i x y :
  l !! i = Some x -> zsum (map g (<[i := y]> l)) = zsum (map g l) + g y - g x.
Proof.
  revert i. induction l as [|z l IH]; intros i; [done|]. destruct i as [|i]; cbn.
  - intros [= ->]. unfold zsum. cbn. lia.
  - intros Hi. unfold zsum in *. cbn. rewrite IH by done. lia.
Qed.

Lemma owns_unfocus r dir i e s v :
  zlookup (engines dir v) i = Some e ->
  owns r (unfocus_engine dir i s v) = owns r v + owns r s - owns r (focus_engine e v).
Proof.
  intros [_ He]%zlookup_nat. destruct r; cbn; try lia.
  unfold mems. destruct dir; cbn [is_h2c engines] in *; rewrite (zsum_insert mem_of _ _ e) by done; unfold zsum; lia.
Qed.

Lemma settled_unfocus dir i e s v :
  zlookup (engines dir v) i = Some e -> settled (focus_engine e v) s -> settled v (unfocus_engine dir i s v).
Proof.
  intros He Hs r. specialize (Hs r). unfold balance in *. rewrite (owns_unfocus _ _ _ e) by done. cbn in *. lia.
Qed.

#[export] Instance settled_on_engine {A} dir i (m : M est A) : Keep settled m -> Keep settled (on_engine dir i m).
Proof.
  intros Hm v a v'. unfold on_engine. destruct (zlookup (engines dir v) i) as [e|] eqn:He; [|done].
  destruct (m (focus_engine e v)) as [[b s]|] eqn:E; [|done]. intros [= <- <-].
  eapply settled_unfocus; [exact He|]. exact (Hm _ _ _ E).
Qed.

#[export] Instance untouched_on_engine {A} dir i (m : M est A) : Keep untouched m -> Keep untouched (on_engine dir i m).
Proof.
  intros Hm v a v'. unfold on_engine. destruct (zlookup (engines dir v) i) as [e|] eqn:He; [|done].
  destruct (m (focus_engine e v)) as [[b s]|] eqn:E; [|done]. intros [= <- <-] r.
  destruct (Hm _ _ _ E r) as [E1 E2]. split; [exact E1|]. rewrite (owns_unfocus _ _ _ e) by done. lia.
Qed.
End primitives.

(** [ledger] proves that a computation is untouched or settled. *)
Ltac ledger_step :=
  lazymatch goal with
  | |- Keep untouched (upd_eng _) => apply keep_upd_eng; by intros
  | |- Keep untouched (upd_xdev _) => apply keep_upd_xdev; by intros
  | |- Keep untouched (upd_dev _) => apply keep_upd_dev; by intros
  | |- Keep settled (upd_eng _) => apply keep_untouched_settled; ledger_step
  | |- Keep settled (upd_xdev _) => apply keep_untouched_settled; ledger_step
  | |- Keep settled (upd_dev _) => apply keep_untouched_settled; ledger_step
  | |- Keep settled (kcall _ _) => apply keep_untouched_settled, _
  | |- Keep settled (kdo _ _) => apply keep_untouched_settled, _
  | |- Keep settled (read_register _) => apply keep_untouched_settled, _
  | |- Keep settled (write_register _ _) => apply keep_untouched_settled, _
  | |- Keep untouched (on_engine _ _ _) => apply untouched_on_engine
  | |- Keep settled (on_engine _ _ _) => apply settled_on_engine
  | |- Keep settled _ => first [keep_step | apply keep_untouched_settled, _]
  | |- _ => keep_step
  end.
Ltac ledger := repeat ledger_step.

(** The computation at hand, on states of type [S], is settled. *)
Ltac settling S := apply (wp_keep (settled (S := S))); [ledger; fail|].

(** ** Engines *)

Section engines.
Context `{Env}.

#[export] Instance untouched_get_eng : Keep untouched get_eng.
Proof. unfold get_eng. ledger. Qed.
#[export] Instance untouched_read_reg f : Keep untouched (read_reg f).
Proof. unfold read_reg. ledger. Qed.
#[export] Instance untouched_write_reg x f : Keep untouched (write_reg x f).
Proof. unfold write_reg. ledger. Qed.
#[export] Instance untouched_credit_mode f : Keep untouched (write_credit_mode f).
Proof. unfold write_credit_mode, credit_reg, config_bar. ledger. Qed.
#[export] Instance untouched_alignments : Keep untouched engine_alignments.
Proof. unfold engine_alignments. ledger. Qed.
#[export] Instance untouched_init_regs : Keep untouched engine_init_regs.
Proof. unfold engine_init_regs, engine_writeback_setup. ledger. Qed.
#[export] Instance untouched_identity offset dir ch : Keep untouched (engine_identity offset dir ch).
Proof. unfold engine_identity, config_bar. ledger. Qed.
#[export] Instance untouched_count dir : Keep untouched (engine_count dir).
Proof. unfold engine_count. ledger. apply keep_upd_xdev. by destruct dir. Qed.

(** Both parts of the ledger after a step. *)
Lemma settled_step s1 s s' :
  settled s1 s ->
  (forall r, held r (s_log s') - held r (s_log s) = owns (S := est) r s' - owns r s) -> settled s1 s'.
Proof. intros Hs Hd r. rewrite <-(Hs r). specialize (Hd r). unfold balance. cbn in *. lia. Qed.

Ltac ledger_entry :=
  eapply settled_step; [eassumption|]; intros r; destruct r; cbn; rewrite ?held_cons; cbn; unfold mem_of; cbn.

(** Freeing gives everything back. *)
Lemma wp_free_memory s :
  wp engine_free_resource (fun _ s' => settled s s' /\ mem_of (s_eng s') = 0) s.
Proof.
  unfold engine_free_resource. apply wp_bind, wp_get_eng, wp_bind.
  apply (wp_mono _ (fun _ s' => settled s s' /\ e_poll_mode_addr_virt (s_eng s') = 0 /\
    e_desc (s_eng s') = e_desc (s_eng s) /\ e_cyclic_result (s_eng s') = e_cyclic_result (s_eng s))).
  { assert (settled s s) as Hs by done. apply wp_when; intros Hb.
    - apply wp_bind, wp_kdo, wp_upd_eng. split; [|done]. ledger_entry; try lia. rewrite Hb; cbn [Z.b2z]. destruct (e_desc _); lia.
    - rewrite negb_false_iff, Z.eqb_eq in Hb. done. }
  intros _ s1 (Hs1 & Hp & Hd & Hc). apply wp_bind.
  apply (wp_mono _ (fun _ s' => settled s s' /\ e_poll_mode_addr_virt (s_eng s') = 0 /\
    e_desc (s_eng s') = None /\ e_cyclic_result (s_eng s') = e_cyclic_result (s_eng s))).
  { rewrite <-Hd. destruct (e_desc (s_eng s1)) eqn:Ed; [|by apply wp_ret].
    apply wp_bind, wp_kdo, wp_upd_eng. split; [|done]. ledger_entry; try lia. rewrite Ed; cbn [Z.b2z]. lia. }
  intros _ s2 (Hs2 & Hp2 & Hd2 & Hc2). apply wp_when; intros Hb.
  - apply wp_bind, wp_kdo, wp_upd_eng. split; [|cbn; unfold mem_of; cbn; by rewrite Hd2, Hp2].
    ledger_entry; try lia. rewrite Hc2, Hb; cbn [Z.b2z]. lia.
  - rewrite negb_false_iff, Z.eqb_eq in Hb. split; [done|]. unfold mem_of. by rewrite Hd2, Hp2, Hc2, Hb.
Qed.

Lemma mem_of_0 e : mem_of e = 0 -> e_desc e = None /\ e_poll_mode_addr_virt e = 0 /\ e_cyclic_result e = 0.
Proof.
  unfold mem_of. destruct (e_desc e), (Z.eqb_spec (e_poll_mode_addr_virt e) 0), (Z.eqb_spec (e_cyclic_result e) 0);
    cbn; intros; try lia; done.
Qed.

(** A new block of DMA memory, with its bus address. *)
Lemma wp_dma_alloc size (Q : Z * Z -> est -> Prop) s :
  (forall p bus s', s_eng s' = s_eng s -> s_xdev s' = s_xdev s ->
    (forall r, held r (s_log s') = held r (s_log s) + match r with RDma => Z.b2z (negb (p =? 0)) | _ => 0 end) ->
    Q (p, bus) s') -> wp (dma_alloc_coherent size) Q s.
Proof.
  intros HQ. unfold dma_alloc_coherent. apply wp_bind, wp_kcall, wp_bind, wp_kcall, wp_ret, HQ; [done..|].
  intros r. cbn. rewrite !held_cons. rewrite (neutral_delta "dma_handle") by done.
  destruct r; cbn; lia.
Qed.

(** The engine stores a new block; [f] is the update of the field. *)
Lemma settled_store s0 s p (f : xdma_engine -> xdma_engine) s1 :
  settled s0 s -> s_eng s1 = s_eng s -> s_xdev s1 = s_xdev s ->
  (forall r, held r (s_log s1) = held r (s_log s) + match r with RDma => Z.b2z (negb (p =? 0)) | _ => 0 end) ->
  mem_of (f (s_eng s)) = mem_of (s_eng s) + Z.b2z (negb (p =? 0)) ->
  settled s0 (set_s_eng (f (s_eng s1)) s1).
Proof.
  intros Hs He Hd Hh Hf. eapply settled_step; [exact Hs|]. intros r. cbn. rewrite Hh.
  destruct r; cbn; rewrite ?Hd, ?He; cbn; lia.
Qed.

Lemma wp_alloc_memory s :
  mem_of (s_eng s) = 0 ->
  wp engine_alloc_resource (fun rv s' => settled s s' /\ (rv <> 0 -> mem_of (s_eng s') = 0)) s.
Proof.
  intros (Hd & Hp & Hc)%mem_of_0.
  assert (forall s1, settled s s1 -> wp (engine_free_resource >>; ret (- ENOMEM))
    (fun rv s' => settled s s' /\ (rv <> 0 -> mem_of (s_eng s') = 0)) s1) as Hfail.
  { intros s1 Hs1. apply wp_bind. eapply wp_mono; [apply wp_free_memory|]. intros _ s2 [H2 Hm].
    apply wp_ret. split; [by etrans|done]. }
  assert (settled s s) as Hs by done.
  unfold engine_alloc_resource. apply wp_bind, wp_get_eng, wp_bind, wp_dma_alloc.
  intros p bus s1 He1 Hd1 Hh1. case_eq (p =? 0); intros Hz.
  { apply wp_bind, wp_upd_eng, Hfail. apply (settled_store s s p (set_e_desc None) s1); try done.
    unfold mem_of. cbn. rewrite Hd, Hz. cbn. lia. }
  apply wp_bind, wp_upd_eng, wp_bind, wp_upd_eng, wp_bind.
  set (ring := replicate _ _). set (s2 := set_s_eng _ (set_s_eng _ s1)).
  assert (settled s s2) as Hs2.
  { apply (settled_store s s p (fun e => set_e_desc_bus bus (set_e_desc (Some ring) e)) s1); try done.
    unfold mem_of. cbn. rewrite Hd, Hz. cbn. lia. }
  assert (e_poll_mode_addr_virt (s_eng s2) = 0 /\ e_cyclic_result (s_eng s2) = 0) as [Hp2 Hc2].
  { cbn. by rewrite He1. }
  clearbody s2. apply (wp_mono _ (fun ok s' => settled s s' /\ e_cyclic_result (s_eng s') = 0)).
  { destruct poll_mode; [|by apply wp_ret]. apply wp_bind, wp_dma_alloc. intros q qb s3 He3 Hd3 Hh3.
    apply wp_bind, wp_upd_eng, wp_bind, wp_upd_eng, wp_ret. split; [|cbn; by rewrite He3].
    apply (settled_store s s2 q (fun e => set_e_poll_mode_bus qb (set_e_poll_mode_addr_virt q e)) s3); try done.
    unfold mem_of. cbn. rewrite Hp2. cbn. lia. }
  intros ok s3 [Hs3 Hc3]. destruct (negb ok); [by apply Hfail|]. apply wp_bind.
  apply (wp_mono _ (fun _ s' => settled s s')).
  { destruct (_ && _); [|by apply wp_ret]. apply wp_bind, wp_dma_alloc. intros q qb s4 He4 Hd4 Hh4.
    apply wp_bind, wp_upd_eng, wp_bind, wp_upd_eng, wp_ret.
    apply (settled_store s s3 q (fun e => set_e_cyclic_result_bus qb (set_e_cyclic_result q e)) s4); try done.
    unfold mem_of. cbn. rewrite Hc3. cbn. lia. }
  intros ok2 s4 Hs4. destruct (negb ok2); [by apply Hfail|]. by apply wp_ret.
Qed.
End engines.

(** Operations on the device that no resource is about. *)
Section device.
Context `{Env}.

#[export] Instance untouched_get_engine_id regs : Keep untouched (get_engine_id regs).
Proof. unfold get_engine_id. ledger. Qed.
#[export] Instance untouched_get_channel_id regs : Keep untouched (get_engine_channel_id regs).
Proof. unfold get_engine_channel_id. ledger. Qed.
#[export] Instance untouched_int_reg d f : Keep (untouched (S := dst)) (int_reg d f).
Proof. unfold int_reg, config_bar. ledger. Qed.
#[export] Instance untouched_channel_on d m : Keep (untouched (S := dst)) (channel_interrupts_enable d m).
Proof. unfold channel_interrupts_enable. ledger. Qed.
#[export] Instance untouched_channel_off d m : Keep (untouched (S := dst)) (channel_interrupts_disable d m).
Proof. unfold channel_interrupts_disable. ledger. Qed.
#[export] Instance untouched_user_off d m : Keep (untouched (S := dst)) (user_interrupts_disable d m).
Proof. unfold user_interrupts_disable. ledger. Qed.
#[export] Instance untouched_read_interrupts d : Keep (untouched (S := dst)) (read_interrupts d).
Proof. unfold read_interrupts. ledger. Qed.
#[export] Instance untouched_interrupt_status d : Keep (untouched (S := dst)) (check_nonzero_interrupt_status d).
Proof. unfold check_nonzero_interrupt_status. ledger. Qed.
#[export] Instance untouched_interrupts_off : Keep untouched interrupts_off.
Proof. unfold interrupts_off, get_dev. ledger. Qed.
End device.

Lemma balance_log r ev v : balance r (set_log (ev :: v_log v) v) = balance r v + delta r ev.
Proof.
  unfold balance. cbn [log_of dst_log v_log set_log]. rewrite held_cons.
  destruct r; cbn [owns dst_owner v_dev v_h2c v_c2h set_log dst_log]; lia.
Qed.

Lemma settled_set_dev d v : d_bar d = d_bar (v_dev v) -> settled v (set_v_dev d v).
Proof. intros Hd r. unfold balance. destruct r; cbn; by rewrite ?Hd. Qed.

(** ** The log only grows *)

Definition grows {S} `{HasLog S} (s s' : S) : Prop := exists new, log_of s' = new ++ log_of s.

#[export] Instance grows_preorder {S} `{HasLog S} : PreOrder (grows (S := S)).
Proof. split; [by intros s; exists []|]. intros s1 s2 s3 [l1 E1] [l2 E2]. exists (l2 ++ l1). by rewrite E2, E1, app_assoc. Qed.

Section grows.
Context `{Env}.

#[export] Instance grows_est_kcall f args : Keep (grows (S := est)) (kcall f args).
Proof. intros s a s' [= _ <-]. by eexists [_]. Qed.
#[export] Instance grows_est_kdo f args : Keep (grows (S := est)) (kdo f args).
Proof. intros s a s' [= _ <-]. by eexists [_]. Qed.
#[export] Instance grows_est_read x : Keep (grows (S := est)) (read_register x).
Proof. intros s a s' [= _ <-]. by eexists [_]. Qed.
#[export] Instance grows_est_write x y : Keep (grows (S := est)) (write_register x y).
Proof. intros s a s' [= _ <-]. by eexists [_]. Qed.
#[export] Instance grows_dst_kcall f args : Keep (grows (S := dst)) (kcall f args).
Proof. intros s a s' [= _ <-]. by eexists [_]. Qed.
#[export] Instance grows_dst_kdo f args : Keep (grows (S := dst)) (kdo f args).
Proof. intros s a s' [= _ <-]. by eexists [_]. Qed.
#[export] Instance grows_dst_read x : Keep (grows (S := dst)) (read_register x).
Proof. intros s a s' [= _ <-]. by eexists [_]. Qed.
#[export] Instance grows_dst_write x y : Keep (grows (S := dst)) (write_register x y).
Proof. intros s a s' [= _ <-]. by eexists [_]. Qed.

#[export] Instance grows_on_engine {A} dir i (m : M est A) : Keep grows m -> Keep grows (on_engine dir i m).
Proof.
  intros Hm v a v'. unfold on_engine. destruct (zlookup (engines dir v) i) as [e|]; [|done].
  destruct (m (focus_engine e v)) as [[a1 s]|] eqn:Hr; [|done]. intros [= _ <-].
  destruct (Hm _ _ _ Hr) as [new Hn]. exists new. by destruct dir.
Qed.

(** The teardown of the interrupts. *)
#[export] Instance grows_write_vectors fuel clear a i max : Keep grows (write_vectors fuel clear a i max).
Proof.
  revert a i. induction fuel as [|fuel IH]; intros a i; cbn [write_vectors]; [keep|].
  destruct (i <? max); [|keep]. destruct (if clear then _ else _) as [j w]. apply (keep_bind _); [apply _|]. intros _. apply IH.
Qed.
#[export] Instance grows_prog_channel clear : Keep grows (prog_irq_msix_channel clear).
Proof. unfold prog_irq_msix_channel, get_dev, int_reg, config_bar. keep. Qed.
#[export] Instance grows_prog_user clear : Keep grows (prog_irq_msix_user clear).
Proof. unfold prog_irq_msix_user, get_dev, int_reg, config_bar. keep. Qed.
#[export] Instance grows_free_channels dir l : Keep grows (free_channels dir l).
Proof. induction l as [|i l IH]; cbn [free_channels]; [keep|]. unfold get_engine. keep. Qed.
#[export] Instance grows_irq_teardown : Keep grows irq_teardown.
Proof. unfold irq_teardown, irq_msix_channel_teardown, irq_msix_user_teardown, free_users, get_dev. keep. Qed.
End grows.
