(* ===== verification/CdevSgdma.v ===== *)
(** * CdevSgdma: the character device of an SG DMA engine

    [cdev_sgdma.c]: read and write of a user buffer, asynchronous reads and
    writes, and the ioctls.  A page of user memory is named by its bus address;
    the scatter-gather table of an I/O control block has the key of the block. *)

From S2P Require Import Prelude Hw State Desc Engine Service Request Submit Aperture Perf Dev Thread Device.

(** [xdma_cdev.c] *)
Definition xcdev_check (xcdev : option xdma_cdev) (d : xdma_dev) (engine : option xdma_engine)
    (check_engine : bool) : Z :=
  match xcdev with
  | None => - EINVAL
  | Some xc =>
      if negb (xc_magic xc =? MAGIC_CHAR) then - EINVAL
      else if (xc_xdev xc =? 0) || negb (d_magic d =? MAGIC_DEVICE) then - EINVAL
      else if check_engine then
        match engine with
        | Some e => if e_magic e =? MAGIC_ENGINE then 0 else - EINVAL
        | None => - EINVAL
        end
      else 0
  end.

(** [file->private_data] and its engine. *)
Definition cdev_engine (xcdev : option xdma_cdev) : M dst (option xdma_engine) :=
  match xcdev with
  | Some xc =>
      match xc_engine xc with
      | Some (dir, i) => let* e := get_engine dir i in ret (Some e)
      | None => ret None
      end
  | None => ret None
  end.

Definition cdev_check (xcdev : option xdma_cdev) (check_engine : bool) : M dst Z :=
  let* d := get_dev in
  let* e := cdev_engine xcdev in
  ret (xcdev_check xcdev d e check_engine).

(** [m] on the engine of the character device; NULL is undefined behaviour. *)
Definition on_cdev {A} (xcdev : option xdma_cdev) (m : M est A) : M dst A :=
  match xcdev with
  | Some xc =>
      match xc_engine xc with
      | Some (dir, i) => on_engine dir i m
      | None => ub
      end
  | None => ub
  end.

(** ** Positions and alignment *)

(** The result and the new position. *)
Definition char_sgdma_llseek (f_pos off whence : Z) : Z * Z :=
  let seek newpos := if newpos <? 0 then (- EINVAL, f_pos) else (newpos, newpos) in
  if whence =? 0 then seek off
  else if whence =? 1 then seek (s64 (f_pos + off))
  else if whence =? 2 then seek (s64 (UINT_MAX + off))
  else (- EINVAL, f_pos).

Definition check_transfer_align (e : xdma_engine) (buf count pos : Z) (sync : bool) : Z :=
  let buf_lsb := Z.land (s32 buf) (e_addr_align e - 1) in
  let pos_lsb := Z.land (s32 pos) (e_addr_align e - 1) in
  if e_non_incr_addr e then
    let len_lsb := Z.land count (u64 (u64 (e_len_granularity e) - 1)) in
    if negb (buf_lsb =? 0) then - EINVAL
    else if negb (pos_lsb =? 0) && sync then - EINVAL
    else if negb (len_lsb =? 0) then - EINVAL
    else 0
  else if negb (buf_lsb =? pos_lsb) then - EINVAL
  else 0.

(** ** The pages of a user buffer *)

Definition PAGE_MASK := Z.lnot (PAGE_SIZE - 1).

Definition count_pages (buf len : Z) : Z :=
  u32 (Z.shiftr (u64 (u64 (buf + len + PAGE_SIZE - 1) - Z.land buf PAGE_MASK)) PAGE_SHIFT).

(** The loop that fills the table: the entries and what is left of [len]. *)
Fixpoint page_entries (pages : list Z) (buf len : Z) : list (Z * Z) * Z :=
  match pages with
  | [] => ([], len)
  | page :: pages =>
      let offset := Z.land buf (PAGE_SIZE - 1) in
      let nbytes := Z.min (PAGE_SIZE - offset) (u32 len) in
      let '(sgl, rest) := page_entries pages (u64 (buf + nbytes)) (u64 (len - nbytes)) in
      ((page + offset, nbytes) :: sgl, rest)
  end.

Fixpoint has_duplicate (pages : list Z) : bool :=
  match pages with
  | page :: pages =>
      match pages with
      | page' :: _ => (page =? page') || has_duplicate pages
      | [] => false
      end
  | [] => false
  end.

Section user_buf.
Context `{Env}.

Definition put_cb (cb : Z) (c : xdma_io_cb) : M est unit :=
  modify (fun s => set_s_cbs (<[cb := c]> (s_cbs s)) s).
Definition put_sgt (g : Z) (t : sg_table) : M est unit :=
  modify (fun s => set_s_sgts (<[g := t]> (s_sgts s)) s).
Definition sg_free_table (g : Z) : M est unit :=
  kdo "sg_free_table" [g] >>; modify (fun s => set_s_sgts (delete g (s_sgts s)) s).

(** The loop over [cb->pages[i]], from [i] on; it stops at a NULL page. *)
Fixpoint release_pages (n : nat) (pages : list Z) (i : Z) (write : bool) : M est unit :=
  match n with
  | O => ret tt
  | S n =>
      let* page := deref (zlookup pages i) in
      if page =? 0 then ret tt
      else
        when (negb write) (kdo "set_page_dirty_lock" [page]) >>;
        kdo "put_page" [page] >>;
        release_pages n pages (i + 1) write
  end.

Definition char_sgdma_unmap_user_buf (cb : Z) (write : bool) : M est unit :=
  sg_free_table cb >>;
  let* c := get_cb cb in
  match cb_pages c with
  | None => ret tt
  | Some pages =>
      if cb_pages_nr c =? 0 then ret tt
      else
        release_pages (Z.to_nat (cb_pages_nr c)) pages 0 write >>;
        kdo "kfree pages" [cb] >>;
        upd_cb cb (set_cb_pages None)
  end.

Definition xdma_io_cb_release (cb : Z) : M est unit :=
  let* c := get_cb cb in
  forM (zrange (cb_pages_nr c)) (fun i =>
    let* pages := deref (cb_pages c) in
    let* page := deref (zlookup pages i) in kdo "put_page" [page]) >>;
  sg_free_table cb >>;
  kdo "kfree pages" [cb] >>;
  put_cb cb (mk_iocb 0 0 0 0 cb None 0 0 None false false).

(** The array after [get_user_pages_fast] pinned [rv] pages. *)
Definition pinned_pages (pages_nr rv : Z) : M est (list Z) :=
  foldM (zrange pages_nr) (fun l i =>
    if i <? rv then let* page := kcall "pinned page" [i] in ret (l ++ [page])
    else ret (l ++ [0])) [].

Definition map_fail (cb : Z) (write : bool) (rv : Z) : M est Z :=
  char_sgdma_unmap_user_buf cb write >>; ret rv.

(** From the pinned pages to the table. *)
Definition fill_user_sgl (cb buf len pages_nr : Z) (pages : list Z) : M est Z :=
  let '(sgl, rest) := page_entries pages buf len in
  forM pages (fun page => kdo "flush_dcache_page" [page]) >>;
  put_sgt cb (mk_sgt sgl pages_nr pages_nr) >>;
  if negb (rest =? 0) then ret (- EINVAL)
  else upd_cb cb (set_cb_pages_nr pages_nr) >>; ret 0.

Definition char_sgdma_map_user_buf_to_sgl (cb : Z) (write : bool) : M est Z :=
  let* c := get_cb cb in
  let pages_nr := count_pages (cb_buf c) (cb_len c) in
  if pages_nr =? 0 then ret (- EINVAL)
  else
    let* rv := kcall "sg_alloc_table" [pages_nr] in
    if negb (rv =? 0) then ret (- ENOMEM)
    else
      put_sgt cb (mk_sgt (replicate (Z.to_nat pages_nr) (0, 0)) pages_nr pages_nr) >>;
      let* p := kcall "kcalloc" [pages_nr] in
      if p =? 0 then map_fail cb write (- ENOMEM)
      else
        upd_cb cb (set_cb_pages (Some (replicate (Z.to_nat pages_nr) 0))) >>;
        let* rv := kcall "get_user_pages_fast" [cb_buf c; pages_nr; 1] in
        if rv <? 0 then map_fail cb write rv
        else
          let* pages := pinned_pages pages_nr rv in
          upd_cb cb (set_cb_pages (Some pages)) >>;
          if negb (rv =? pages_nr) then
            upd_cb cb (set_cb_pages_nr rv) >>; map_fail cb write (- EFAULT)
          else if has_duplicate pages then
            upd_cb cb (set_cb_pages_nr pages_nr) >>; map_fail cb write (- EFAULT)
          else fill_user_sgl cb (cb_buf c) (cb_len c) pages_nr pages.
End user_buf.

(** ** Completion of an asynchronous request *)

Section async.
Context `{Env}.

Definition caio_free (caio : Z) : M est unit :=
  kdo "kmem_cache_free" [caio] >>; modify (fun s => set_s_caios (delete caio (s_caios s)) s).

(** [kfree(cb)]: only the start of the allocated array can be freed. *)
Definition cbs_free (cb : Z) (a : cdev_async_io) : M est unit :=
  guard_ub (cb =? ca_cb a) >>;
  kdo "kfree cb" [cb] >>;
  modify (fun s => set_s_cbs (foldr (fun i m => delete (cb + i) m) (s_cbs s) (zrange (ca_req_cnt a))) s).

(** [xdma_xfer_completion] on the engine that completes the transfer. *)
Definition completion (cb : Z) (write : bool) : M est Z :=
  let* s := get in
  let dir := if write then DMA_TO_DEVICE else DMA_FROM_DEVICE in
  let d := s_xdev s in
  if (if is_h2c dir then d_h2c_channel_max d else d_c2h_channel_max d) <=? e_channel (s_eng s)
  then ret (- EINVAL)
  else xdma_xfer_completion cb cb false.

(** The accounting of one control block that is done. *)
Definition caio_done (caio err numbytes : Z) : M est cdev_async_io :=
  upd_caio caio (fun a => set_ca_res2 (Z.lor (ca_res2 a) (if err <? 0 then err else 0)) a) >>;
  upd_caio caio (fun a =>
    if negb (ca_res2 a =? 0) then set_ca_err_cnt (s32 (ca_err_cnt a + 1)) a else a) >>;
  upd_caio caio (fun a => set_ca_cmpl_cnt (s32 (ca_cmpl_cnt a + 1)) a) >>;
  upd_caio caio (fun a => set_ca_res (s64 (ca_res a + numbytes)) a) >>;
  get_caio caio.

#[export] Instance async_io_handler : Callback := fun cb err =>
  let* c := get_cb cb in
  let caio := cb_private c in
  if caio =? 0 then ret tt
  else
    let* a := get_caio caio in
    let* s := get in
    if xcdev_check (ca_xcdev a) (s_xdev s) (Some (s_eng s)) true <? 0 then ret tt
    else
      let* lock_stat := kcall "spin_trylock" [caio] in
      if lock_stat =? 0 then
        kdo "ki_complete" [caio; 0; - EBUSY] >>; caio_free caio
      else if ca_cancel a then caio_free caio >>; cbs_free cb a
      else
        let* numbytes := (if err =? 0 then completion cb (cb_write c) else ret 0) in
        char_sgdma_unmap_user_buf cb (cb_write c) >>;
        let* a := caio_done caio err numbytes in
        if ca_cmpl_cnt a =? ca_req_cnt a then
          kdo "ki_complete" [caio; ca_res a; ca_res2 a] >>;
          caio_free caio >>; cbs_free cb a
        else ret tt.
End async.

(** ** Files of an engine *)

Section files.
Context `{Env} `{Sched}.
(** The module parameters, in seconds. *)
Variables (h2c_timeout c2h_timeout : Z).

Definition timeout (write : bool) : Z := s32 (u32 ((if write then h2c_timeout else c2h_timeout) * 1000)).

Definition wrong_dir (e : xdma_engine) (write : bool) : bool :=
  (write && negb (is_h2c (e_dir e))) || (negb write && negb (is_c2h (e_dir e))).

Definition new_cb (buf len private ep_addr cb : Z) (write async : bool) : xdma_io_cb :=
  mk_iocb buf len private 0 cb None 0 ep_addr None write async.

(** [cb] is the address of the local control block. *)
Definition char_sgdma_read_write (xcdev : option xdma_cdev) (cb buf count pos : Z) (write : bool)
    : M dst Z :=
  let* rv := cdev_check xcdev true in
  if rv <? 0 then ret rv
  else
    let* e := on_cdev xcdev get_eng in
    if wrong_dir e write then ret (- EINVAL)
    else
      let rv := check_transfer_align e buf count pos true in
      if negb (rv =? 0) then ret rv
      else
        on_cdev xcdev (put_cb cb (new_cb buf count 0 (u64 pos) cb write false)) >>;
        let* rv := on_cdev xcdev (char_sgdma_map_user_buf_to_sgl cb write) in
        if rv <? 0 then ret rv
        else
          let* res := dev_xfer_submit (e_channel e) write (u64 pos) cb false (timeout write) in
          on_cdev xcdev (char_sgdma_unmap_user_buf cb write) >>;
          ret res.

Definition char_sgdma_write xcdev cb buf count pos := char_sgdma_read_write xcdev cb buf count pos true.
Definition char_sgdma_read xcdev cb buf count pos := char_sgdma_read_write xcdev cb buf count pos false.

(** ** Asynchronous reads and writes *)

Definition new_caio (xcdev : option xdma_cdev) (cb count : Z) (write : bool) : cdev_async_io :=
  mk_caio xcdev cb write false 0 (s32 count) 0 0 0.

(** One element of the vector; [Some rv] when the function returns. *)
Definition aio_one (xcdev : option xdma_cdev) (e : xdma_engine) (caio cb pos : Z) (write : bool)
    (iov : Z * Z) : M dst (option Z) :=
  let '(base, len) := iov in
  on_cdev xcdev (put_cb cb (new_cb base len caio (u64 pos) cb write true)) >>;
  let rv := check_transfer_align e base len pos true in
  if negb (rv =? 0) then on_cdev xcdev (caio_free caio) >>; ret (Some rv)
  else
    let* rv := on_cdev xcdev (char_sgdma_map_user_buf_to_sgl cb true) in
    if rv <? 0 then ret (Some rv)
    else
      dev_xfer_submit_nowait cb (e_channel e) write (u64 pos) cb false >>;
      ret None.

(** [for (i = 0; i < count; i++)]; [&caio->cb[i]] is [cb + i]. *)
Fixpoint aio_loop (n : nat) (xcdev : option xdma_cdev) (e : xdma_engine) (caio cb i pos : Z)
    (write : bool) (io : list (Z * Z)) : M dst (option Z) :=
  match n with
  | O => ret None
  | S n =>
      let* iov := deref (zlookup io i) in
      let* r := aio_one xcdev e caio (cb + i) pos write iov in
      match r with
      | Some rv => ret (Some rv)
      | None => aio_loop n xcdev e caio cb (i + 1) pos write io
      end
  end.

(** The part that [cdev_aio_write] and [cdev_aio_read] share.  Neither
    allocation is checked: NULL is dereferenced. *)
Definition cdev_aio (xcdev : option xdma_cdev) (io : list (Z * Z)) (count pos : Z) (write : bool)
    : M dst Z :=
  match xcdev with
  | None => ret (- EINVAL)
  | Some _ =>
      let* e := on_cdev xcdev get_eng in
      if wrong_dir e write then ret (- EINVAL)
      else
        let* caio := kcall "kmem_cache_alloc" [] in
        guard_ub (negb (caio =? 0)) >>;
        let* cb := kcall "kzalloc cb" [count] in
        guard_ub (negb (cb =? 0) || (count =? 0)) >>;
        on_cdev xcdev
          (modify (fun s => set_s_caios (<[caio := new_caio xcdev cb count write]> (s_caios s)) s)) >>;
        let* r := aio_loop (Z.to_nat count) xcdev e caio cb 0 pos write io in
        match r with
        | Some rv => ret rv
        | None =>
            let* e := on_cdev xcdev get_eng in
            (match e_cmplthp e with
             | Some thp => xdma_kthread_wakeup thp
             | None => ret tt
             end) >>;
            ret (- EIOCBQUEUED)
        end
  end.

Definition cdev_aio_write xcdev io count pos := cdev_aio xcdev io count pos true.
Definition cdev_aio_read xcdev io count pos := cdev_aio xcdev io count pos false.

(** The iterator entry points: the vector of the iterator, its length, and its
    offset as position. *)
Definition cdev_write_iter xcdev (iov : list (Z * Z)) (nr_segs iov_offset : Z) : M dst Z :=
  cdev_aio_write xcdev iov nr_segs iov_offset.
Definition cdev_read_iter xcdev (iov : list (Z * Z)) (nr_segs iov_offset : Z) : M dst Z :=
  cdev_aio_read xcdev iov nr_segs iov_offset.

(** ** Ioctls on the engine *)

Definition IOCTL_XDMA_PERF_V1 := 1.

(** [kzalloc] and [copy_from_user]: a copy that fails leaves the bytes that it
    did not copy; its result is never negative. *)
Definition read_perf (arg : Z) : M est (option perf_ioctl) :=
  let* p := kcall "kzalloc perf" [] in
  if p =? 0 then ret None
  else
    kcall "copy_from_user" [arg] >>;
    let* version := kcall "user perf version" [arg] in
    let* size := kcall "user perf transfer_size" [arg] in
    let* stopped := kcall "user perf stopped" [arg] in
    let* iterations := kcall "user perf iterations" [arg] in
    let* clock := kcall "user perf clock" [arg] in
    let* data := kcall "user perf data" [arg] in
    let* pending := kcall "user perf pending" [arg] in
    ret (Some (mk_perf (u32 version) (u32 size) (u32 stopped) (u32 iterations) (u64 clock)
                 (u64 data) (u64 pending))).

Definition ioctl_do_perf_start (arg : Z) : M est Z :=
  let* e := get_eng in
  match e_xdma_perf e with
  | Some _ => ret (- EBUSY)
  | None =>
      let* p := read_perf arg in
      upd_eng (set_e_xdma_perf p) >>;
      match p with
      | None => ret (- ENOMEM)
      | Some p =>
          if negb (p_version p =? IOCTL_XDMA_PERF_V1) then ret (- EINVAL)
          else enable_perf >>; xdma_performance_submit
      end
  end.

(** [copy_to_user] of the counters: the number of bytes that were not copied. *)
Definition write_perf (arg : Z) : M est Z :=
  let* e := get_eng in
  let* p := deref (e_xdma_perf e) in
  kcall "copy_to_user perf" [arg; p_iterations p; p_clock_cycle_count p; p_data_cycle_count p;
                             p_pending_count p].

Definition ioctl_do_perf_stop (arg : Z) : M est Z :=
  let* e := get_eng in
  match e_xdma_perf e with
  | None => ret (- EINVAL)
  | Some _ =>
      let* transfer := engine_cyclic_stop in
      match transfer with
      | None => ret (- EINVAL)
      | Some t =>
          get_perf_stats >>;
          let* rv := write_perf arg in
          if negb (rv =? 0) then ret rv
          else
            kdo "kfree transfer" [t] >>;
            modify (fun s => set_s_xfers (delete t (s_xfers s)) s) >>;
            kdo "kfree perf" [] >>;
            upd_eng (set_e_xdma_perf None) >>;
            ret 0
      end
  end.

Definition ioctl_do_perf_get (arg : Z) : M est Z :=
  let* e := get_eng in
  match e_xdma_perf e with
  | Some _ =>
      get_perf_stats >>;
      let* rc := write_perf arg in ret rc
  | None => ret (- EPROTO)
  end.

Definition ioctl_do_addrmode_set (arg : Z) : M est Z := engine_addrmode_set arg.

Definition ioctl_do_addrmode_get (arg : Z) : M est Z :=
  let* e := get_eng in
  kcall "put_user" [if e_non_incr_addr e then 1 else 0; arg].

Definition ioctl_do_align_get (arg : Z) : M est Z :=
  let* e := get_eng in kcall "put_user" [e_addr_align e; arg].

(** [struct xdma_aperture_ioctl] as read from [arg]. *)
Record aperture_ioctl := mk_ap_ioctl {
  io_ep_addr : Z;
  io_aperture : Z;
  io_buffer : Z;
  io_len : Z
}.

Definition read_aperture (arg : Z) : M est aperture_ioctl :=
  kcall "copy_from_user" [arg] >>;
  let* ep_addr := kcall "user aperture ep_addr" [arg] in
  let* aperture := kcall "user aperture aperture" [arg] in
  let* buffer := kcall "user aperture buffer" [arg] in
  let* len := kcall "user aperture len" [arg] in
  ret (mk_ap_ioctl (u64 ep_addr) (u32 aperture) (u64 buffer) (u64 len)).

(** [fuel] bounds the transfers, [cb] is the local control block. *)
Definition ioctl_do_aperture_dma (fuel : nat) (cb arg : Z) (write : bool) : M est Z :=
  let* io := read_aperture arg in
  let* e := get_eng in
  if wrong_dir e write then ret (- EINVAL)
  else
    let rv := check_transfer_align e (io_buffer io) (io_len io) (s64 (io_ep_addr io)) true in
    if negb (rv =? 0) then ret rv
    else
      put_cb cb (new_cb (io_buffer io) (io_len io) 0 (io_ep_addr io) cb write false) >>;
      let* rv := char_sgdma_map_user_buf_to_sgl cb write in
      if rv <? 0 then ret rv
      else
        let* res := xdma_xfer_aperture fuel write (io_ep_addr io)
                      (io_aperture io) cb false (timeout write) in
        char_sgdma_unmap_user_buf cb write >>;
        let error := if res <? 0 then s32 res else 0 in
        kdo "copy_to_user aperture" (if res <? 0 then [arg; error] else [arg; error; res]) >>;
        ret error.

(** [_IOC(dir, type, nr, size)]: 8 bits of number, 8 of type, 14 of size, 2 of
    direction; the struct arguments of the header are pointers. *)
Definition IOC_WRITE := 1.
Definition IOC_READ := 2.
Definition ioc (dir type nr size : Z) : Z :=
  Z.lor (Z.shiftl dir 30) (Z.lor (Z.shiftl size 16) (Z.lor (Z.shiftl type 8) nr)).
Definition Q_TYPE := 113. 
Definition IOCTL_XDMA_PERF_START := ioc IOC_WRITE Q_TYPE 1 8.
Definition IOCTL_XDMA_PERF_STOP := ioc IOC_WRITE Q_TYPE 2 8.
Definition IOCTL_XDMA_PERF_GET := ioc IOC_READ Q_TYPE 3 8.
Definition IOCTL_XDMA_ADDRMODE_SET := ioc IOC_WRITE Q_TYPE 4 4.
Definition IOCTL_XDMA_ADDRMODE_GET := ioc IOC_READ Q_TYPE 5 4.
Definition IOCTL_XDMA_ALIGN_GET := ioc IOC_READ Q_TYPE 6 4.
Definition IOCTL_XDMA_APERTURE_R := ioc IOC_WRITE Q_TYPE 7 8.
Definition IOCTL_XDMA_APERTURE_W := ioc IOC_WRITE Q_TYPE 8 8.

Definition char_sgdma_ioctl (fuel : nat) (xcdev : option xdma_cdev) (cb cmd arg : Z) : M dst Z :=
  let* rv := cdev_check xcdev true in
  if rv <? 0 then ret rv
  else if cmd =? IOCTL_XDMA_PERF_START then on_cdev xcdev (ioctl_do_perf_start arg)
  else if cmd =? IOCTL_XDMA_PERF_STOP then on_cdev xcdev (ioctl_do_perf_stop arg)
  else if cmd =? IOCTL_XDMA_PERF_GET then on_cdev xcdev (ioctl_do_perf_get arg)
  else if cmd =? IOCTL_XDMA_ADDRMODE_SET then on_cdev xcdev (ioctl_do_addrmode_set arg)
  else if cmd =? IOCTL_XDMA_ADDRMODE_GET then on_cdev xcdev (ioctl_do_addrmode_get arg)
  else if cmd =? IOCTL_XDMA_ALIGN_GET then on_cdev xcdev (ioctl_do_align_get arg)
  else if cmd =? IOCTL_XDMA_APERTURE_R then on_cdev xcdev (ioctl_do_aperture_dma fuel cb arg false)
  else if cmd =? IOCTL_XDMA_APERTURE_W then on_cdev xcdev (ioctl_do_aperture_dma fuel cb arg true)
  else ret (- EINVAL).

(** ** Open and close *)

(** [char_open] of [xdma_cdev.c]; [file->private_data] is the device. *)
Definition char_open (xcdev : xdma_cdev) : Z :=
  if negb (xc_magic xcdev =? MAGIC_CHAR) then - EINVAL else 0.

(** The result of [char_open] is not looked at: without it there is no private
    data, and NULL is dereferenced. *)
Definition char_sgdma_open (xcdev : xdma_cdev) (o_trunc : bool) : M dst Z :=
  guard_ub (char_open xcdev =? 0) >>;
  on_cdev (Some xcdev)
    (let* e := get_eng in
     if e_streaming e && is_c2h (e_dir e) then
       if e_device_open e then ret (- EBUSY)
       else
         upd_eng (set_e_device_open true) >>;
         upd_eng (set_e_eop_flush o_trunc) >>; ret 0
     else ret 0).

Definition char_sgdma_close (xcdev : option xdma_cdev) : M dst Z :=
  let* rv := cdev_check xcdev true in
  if rv <? 0 then ret rv
  else
    on_cdev xcdev
      (let* e := get_eng in
       when (e_streaming e && is_c2h (e_dir e)) (upd_eng (set_e_device_open false)) >>; ret 0).
End files.
