(* ===== verification/SgdmaProps.v ===== *)
(** * SgdmaProps: reads and writes of a user buffer

    The checks of an SG DMA character device, the scatter-gather table it makes
    of a user buffer, and a whole synchronous read or write. *)

From S2P Require Import Prelude Hw State Desc Engine Service Request Fixtures Chain ServiceSpec ServiceProps RequestSpec QueueProps Submit SubmitSpec SubmitProps Dev DevFixtures Thread Device CdevSgdma.

(** ** Alignment *)

Lemma land_align x k : 0 <= k -> Z.land x (2 ^ k - 1) = x mod 2 ^ k.
Proof. intros Hk. rewrite <-Z.land_ones by done. f_equal. rewrite Z.ones_equiv. lia. Qed.

Lemma s32_mod_pow2 x k : 0 <= k <= 32 -> s32 x mod 2 ^ k = x mod 2 ^ k.
Proof.
  intros Hk. assert (0 < 2 ^ k) by (apply Z.pow_pos_nonneg; lia).
  assert (s32 x = x + (- ((x + 2 ^ 31) / 2 ^ 32) * 2 ^ (32 - k)) * 2 ^ k) as ->.
  { rewrite <-Z.mul_assoc, <-Z.pow_add_r by lia. replace (32 - k + k) with 32 by lia.
    unfold s32, swrap. change (32 - 1) with 31. rewrite Z.mod_eq by lia. lia. }
  apply Z.mod_add. lia.
Qed.

(** What a transfer must satisfy: with incrementing addresses the buffer and
    the position have the same offset in a unit of [a] bytes; at a fixed address
    both are aligned and the length is a multiple of [g]. *)
Definition aligned (non_incr : bool) (a g buf count pos : Z) : Prop :=
  if non_incr then buf mod a = 0 /\ pos mod a = 0 /\ count mod g = 0 else buf mod a = pos mod a.

#[export] Instance aligned_dec non_incr a g buf count pos : Decision (aligned non_incr a g buf count pos).
Proof. unfold aligned. destruct non_incr; apply _. Defined.

(** C33: the alignment check of a transfer, for an engine whose alignment and
    granularity are powers of two: [-EINVAL] unless the transfer is aligned.
    The bit masks and the truncations to [int] lose nothing. *)
Theorem check_transfer_align_spec e buf count pos k m :
  0 <= k <= 32 -> 0 <= m < 32 -> e_addr_align e = 2 ^ k -> e_len_granularity e = 2 ^ m ->
  check_transfer_align e buf count pos true =
    if decide (aligned (e_non_incr_addr e) (2 ^ k) (2 ^ m) buf count pos) then 0 else - EINVAL.
Proof.
  intros Hk Hm Ha Hg. unfold check_transfer_align. rewrite Ha, Hg, !land_align, !s32_mod_pow2 by lia.
  assert (0 < 2 ^ m < 2 ^ 32) as Hpm by (split; [apply Z.pow_pos_nonneg; lia|apply Z.pow_lt_mono_r; lia]).
  rewrite (u64_small (2 ^ m)), (u64_small (2 ^ m - 1)), land_align by lia. unfold aligned.
  destruct (e_non_incr_addr e).
  - destruct (Z.eqb_spec (buf mod 2 ^ k) 0), (Z.eqb_spec (pos mod 2 ^ k) 0),
      (Z.eqb_spec (count mod 2 ^ m) 0); cbn [negb andb]; case_decide; tauto.
  - destruct (Z.eqb_spec (buf mod 2 ^ k) (pos mod 2 ^ k)); cbn [negb]; case_decide; tauto.
Qed.

(** ** The table of a user buffer *)

(** The pages that [len] bytes at [buf] touch. *)
Definition pages_of (buf len : Z) : Z :=
  if len =? 0 then 0 else (buf mod PAGE_SIZE + len + PAGE_SIZE - 1) / PAGE_SIZE.

(** The bus address of byte [k] of the memory that a table describes. *)
Fixpoint byte_at (sgl : list (Z * Z)) (k : Z) : option Z :=
  match sgl with
  | [] => None
  | (addr, n) :: sgl => if k <? n then Some (addr + k) else byte_at sgl (k - n)
  end.

(** The table describes the buffer: byte [k] is in the page of its user address,
    at the offset of that address; no entry is empty or leaves its page. *)
Record covers (pages : list Z) (buf len : Z) (sgl : list (Z * Z)) : Prop := {
  cv_total : zsum (map snd sgl) = len;
  cv_bytes : forall k, 0 <= k < len -> exists page,
    zlookup pages ((buf mod PAGE_SIZE + k) / PAGE_SIZE) = Some page /\
    byte_at sgl k = Some (page + (buf + k) mod PAGE_SIZE);
  cv_pages : Forall2 (fun page '(addr, n) => page <= addr /\ 0 < n /\ addr + n <= page + PAGE_SIZE) pages sgl
}.

Lemma land_mask buf : Z.land buf PAGE_MASK = buf - buf mod PAGE_SIZE.
Proof.
  unfold PAGE_MASK. change (PAGE_SIZE - 1) with (Z.ones 12). rewrite <-Z.ldiff_land, Z.ldiff_ones_r by lia.
  rewrite Z.shiftl_mul_pow2, Z.shiftr_div_pow2 by lia. change (2 ^ 12) with PAGE_SIZE.
  rewrite (Z.mod_eq buf PAGE_SIZE) by done. lia.
Qed.

Lemma land_page buf : Z.land buf (PAGE_SIZE - 1) = buf mod PAGE_SIZE.
Proof. apply (land_align buf 12). lia. Qed.

Lemma page_mod_range buf : 0 <= buf mod PAGE_SIZE < PAGE_SIZE.
Proof. by apply Z.mod_pos_bound. Qed.

Lemma count_pages_spec buf len :
  0 <= buf -> 0 < len < 2 ^ 32 -> buf + len + PAGE_SIZE <= 2 ^ 64 ->
  count_pages buf len = pages_of buf len /\ 0 < pages_of buf len < 2 ^ 21.
Proof.
  intros Hb Hl Hsum. unfold count_pages, pages_of. pose proof (page_mod_range buf) as Hm.
  destruct (Z.eqb_spec len 0); [lia|]. rewrite land_mask.
  assert (buf mod PAGE_SIZE <= buf) by (apply Z.mod_le; done).
  unfold PAGE_SIZE in *. rewrite (u64_small (buf + _ + _ - 1)) by lia.
  rewrite u64_small by lia. rewrite Z.shiftr_div_pow2 by done. unfold PAGE_SHIFT. change (2 ^ 12) with 4096.
  replace (buf + len + 4096 - 1 - (buf - buf mod 4096)) with (buf mod 4096 + len + 4096 - 1) by lia.
  assert (0 < (buf mod 4096 + len + 4096 - 1) / 4096 < 2 ^ 21); [|by rewrite u32_small by lia].
  split; [apply Z.div_str_pos; lia|apply Z.div_lt_upper_bound; lia].
Qed.

Lemma zlookup_cons {A} (x : A) l i : 0 <= i -> zlookup (x :: l) (i + 1) = zlookup l i.
Proof.
  intros Hi. unfold zlookup. destruct (Z.ltb_spec (i + 1) 0), (Z.ltb_spec i 0); try lia.
  by replace (Z.to_nat (i + 1)) with (S (Z.to_nat i)) by lia.
Qed.

(** The first page holds the rest of the buffer, or the buffer goes on at the
    start of the next page. *)
Lemma pages_of_last buf len :
  0 < len -> pages_of buf len = 1 -> len <= PAGE_SIZE - buf mod PAGE_SIZE.
Proof.
  intros Hl. unfold pages_of. destruct (Z.eqb_spec len 0); [lia|]. intros E.
  pose proof (page_mod_range buf). unfold PAGE_SIZE in *.
  pose proof (Z.mul_succ_div_gt (buf mod 4096 + len + 4096 - 1) 4096). lia.
Qed.

Lemma pages_of_fits buf len :
  0 < len <= PAGE_SIZE - buf mod PAGE_SIZE -> pages_of buf len = 1.
Proof.
  intros Hl. unfold pages_of. destruct (Z.eqb_spec len 0); [lia|].
  pose proof (page_mod_range buf). unfold PAGE_SIZE in *. symmetry. apply Z.div_unique with (buf mod 4096 + len - 1); lia.
Qed.

Lemma next_page buf len : let n := PAGE_SIZE - buf mod PAGE_SIZE in
  (buf + n) mod PAGE_SIZE = 0 /\ (n < len -> pages_of (buf + n) (len - n) = pages_of buf len - 1).
Proof.
  intros n. pose proof (page_mod_range buf) as Hm.
  assert ((buf + n) mod PAGE_SIZE = 0) as E.
  { pose proof (Z.div_mod buf PAGE_SIZE). replace (buf + n) with ((buf / PAGE_SIZE + 1) * PAGE_SIZE).
    - by apply Z.mod_mul.
    - unfold n, PAGE_SIZE in *. lia. }
  split; [exact E|]. intros Hn. unfold pages_of. rewrite E. unfold n, PAGE_SIZE in *.
  destruct (Z.eqb_spec len 0), (Z.eqb_spec (len - (4096 - buf mod 4096)) 0); try lia.
  replace (0 + (len - (4096 - buf mod 4096)) + 4096 - 1) with (buf mod 4096 + len + 4096 - 1 + (-1) * 4096) by lia.
  rewrite Z.div_add by done. lia.
Qed.

Lemma same_page buf k : 0 <= k < PAGE_SIZE - buf mod PAGE_SIZE ->
  (buf + k) mod PAGE_SIZE = buf mod PAGE_SIZE + k.
Proof.
  intros Hk. pose proof (page_mod_range buf). pose proof (Z.div_mod buf PAGE_SIZE).
  symmetry. apply Z.mod_unique_pos with (buf / PAGE_SIZE); unfold PAGE_SIZE in *; lia.
Qed.

Lemma covers_last page buf len : 0 < len <= PAGE_SIZE - buf mod PAGE_SIZE ->
  covers [page] buf len [(page + buf mod PAGE_SIZE, len)].
Proof.
  intros Hl. pose proof (page_mod_range buf). split.
  - cbn. lia.
  - intros k Hk. exists page. rewrite (Z.div_small _ PAGE_SIZE) by lia. split; [done|]. cbn.
    destruct (Z.ltb_spec k len); [|lia]. rewrite same_page by lia. f_equal. lia.
  - repeat constructor; lia.
Qed.

Lemma covers_cons page pages buf len sgl : let n := PAGE_SIZE - buf mod PAGE_SIZE in
  n < len -> covers pages (buf + n) (len - n) sgl ->
  covers (page :: pages) buf len ((page + buf mod PAGE_SIZE, n) :: sgl).
Proof.
  intros n Hn [Ht Hb Hp]. pose proof (page_mod_range buf). destruct (next_page buf len) as [E _]. fold n in E. split.
  - cbn [map snd zsum foldr] in *. unfold zsum in Ht. lia.
  - intros k Hk. cbn [byte_at]. destruct (Z.ltb_spec k n) as [Hkn|Hkn].
    + exists page. rewrite (Z.div_small _ PAGE_SIZE) by (unfold n in *; lia). split; [done|].
      rewrite same_page by (unfold n in *; lia). f_equal. lia.
    + destruct (Hb (k - n)) as (p & Hpp & Hba); [lia|]. exists p. rewrite E in Hpp. rewrite Hba.
      split; [|do 2 f_equal; f_equal; lia].
      replace (buf mod PAGE_SIZE + k) with (0 + (k - n) + 1 * PAGE_SIZE) by (unfold n; lia).
      rewrite Z.div_add, zlookup_cons by (done || (apply Z.div_pos; [lia|done])). exact Hpp.
  - constructor; [|exact Hp]. unfold n in *. lia.
Qed.

Lemma page_entries_spec pages buf len :
  0 <= buf -> 0 < len < 2 ^ 32 -> buf + len + PAGE_SIZE <= 2 ^ 64 ->
  Z.of_nat (length pages) = pages_of buf len ->
  exists sgl, page_entries pages buf len = (sgl, 0) /\ covers pages buf len sgl.
Proof.
  revert buf len. induction pages as [|page pages IH]; intros buf len Hb Hl Hs Hn.
  { cbn in Hn. destruct (count_pages_spec buf len) as [_ ?]; lia. }
  cbn [page_entries length] in *. rewrite land_page, (u32_small len) by lia.
  pose proof (page_mod_range buf) as Hm. destruct (Z.le_gt_cases len (PAGE_SIZE - buf mod PAGE_SIZE)) as [Hc|Hc].
  - rewrite Z.min_r by lia. rewrite pages_of_fits in Hn by lia. destruct pages; [|cbn [length] in Hn; lia].
    cbn [page_entries]. rewrite Z.sub_diag. eexists. split; [reflexivity|]. apply covers_last. lia.
  - rewrite Z.min_l by lia. destruct (next_page buf len) as [_ Hnext].
    rewrite (u64_small (buf + _)), (u64_small (len - _)) by lia.
    destruct (IH (buf + (PAGE_SIZE - buf mod PAGE_SIZE)) (len - (PAGE_SIZE - buf mod PAGE_SIZE)))
      as (sgl & -> & Hcv); try lia. eexists. split; [reflexivity|]. by apply covers_cons.
Qed.

(** ** Mapping a user buffer *)

(** Only the control block [cb], its table and the log differ. *)
Record buf_only (cb : Z) (s s' : est) : Prop := {
  bo_eng : s_eng s' = s_eng s;
  bo_xdev : s_xdev s' = s_xdev s;
  bo_xfers : s_xfers s' = s_xfers s;
  bo_reqs : s_reqs s' = s_reqs s;
  bo_caios : s_caios s' = s_caios s;
  bo_sgts : delete cb (s_sgts s') = delete cb (s_sgts s);
  bo_cbs : delete cb (s_cbs s') = delete cb (s_cbs s)
}.

#[export] Instance buf_only_preorder cb : PreOrder (buf_only cb).
Proof. split; [by intros s|]. intros s1 s2 s3 [] []. split; congruence. Qed.

Lemma buf_only_log cb lg s0 s : buf_only cb s0 s -> buf_only cb s0 (set_log lg s).
Proof. by intros []. Qed.
Lemma buf_only_sgts cb g s0 s :
  buf_only cb s0 s -> buf_only cb s0 (set_s_sgts (<[cb := g]> (s_sgts s)) s).
Proof. intros []. split; try done. cbn. by rewrite delete_insert_eq. Qed.
Lemma buf_only_cbs cb c s0 s :
  buf_only cb s0 s -> buf_only cb s0 (set_s_cbs (<[cb := c]> (s_cbs s)) s).
Proof. intros []. split; try done. cbn. by rewrite delete_insert_eq. Qed.
Lemma buf_only_refl cb s : buf_only cb s s.
Proof. done. Qed.
#[export] Hint Resolve buf_only_refl buf_only_log buf_only_sgts buf_only_cbs : drv.

(** The references to the page [p] that were taken and not given back. *)
Definition page_ref (p : Z) (ev : event) : Z :=
  match ev with
  | EvCall f args rv =>
      Z.b2z (String.eqb f "pinned page" && (rv =? p)) -
      Z.b2z (String.eqb f "put_page" && bool_decide (args = [p]))
  | _ => 0
  end.
Definition refs (p : Z) (lg : list event) : Z := zsum (map (page_ref p) lg).
#[global] Arguments refs p lg : simpl never.

Lemma refs_cons p ev lg : refs p (ev :: lg) = page_ref p ev + refs p lg.
Proof. done. Qed.

(** Two logs with the same references. *)
Definition same_refs (lg lg' : list event) : Prop := forall p, refs p lg' = refs p lg.

#[export] Instance same_refs_preorder : PreOrder same_refs.
Proof. split; [by intros lg p|]. intros l1 l2 l3 H1 H2 p. by rewrite H2. Qed.

Lemma driver_event_refs ev p : driver_event ev = true -> page_ref p ev = 0.
Proof.
  destruct ev as [| |f args v]; [done..|]. cbn. destruct (String.eqb f "put_page"); [done|].
  by destruct (String.eqb f "pinned page").
Qed.

Lemma same_refs_cons ev lg lg' : driver_event ev = true -> same_refs lg lg' -> same_refs lg (ev :: lg').
Proof. intros He Hs p. by rewrite refs_cons, (driver_event_refs _ _ He), Hs. Qed.

Lemma extends_refs lg lg' : extends lg lg' -> same_refs lg lg'.
Proof. intros (l & -> & Hl). induction Hl; [done|]. by apply same_refs_cons. Qed.

Lemma same_refs_refl lg : same_refs lg lg.
Proof. done. Qed.

#[export] Hint Resolve same_refs_cons same_refs_refl : events.

(** How often the page [p] is in a list of pages. *)
Definition occurs (p : Z) (pages : list Z) : Z := zsum (map (fun q => Z.b2z (q =? p)) pages).
#[global] Arguments occurs p pages : simpl never.

Lemma occurs_cons p q pages : occurs p (q :: pages) = Z.b2z (q =? p) + occurs p pages.
Proof. done. Qed.
Lemma occurs_app p l1 l2 : occurs p (l1 ++ l2) = occurs p l1 + occurs p l2.
Proof. unfold occurs. by rewrite map_app, zsum_app. Qed.

(** What the code relies on: [get_user_pages_fast] pins at most what it was
    asked for, and a pinned page is not NULL and lies in the address space. *)
Definition page_ok (p : Z) : Prop := 0 < p /\ p + PAGE_SIZE < 2 ^ 64.
Class PinOk `{Env} : Prop := {
  pin_le : forall lg buf n, kernel lg "get_user_pages_fast" [buf; n; 1] <= n;
  pin_page : forall lg i, page_ok (kernel lg "pinned page" [i])
}.

(** The first [n] pages of the array. *)
Definition pages_ok (n : Z) (pages : list Z) : Prop :=
  forall j p, 0 <= j < n -> zlookup pages j = Some p -> page_ok p.

Lemma pages_ok_null n pages : pages_ok n pages -> forall j, 0 <= j < n -> zlookup pages j <> Some 0.
Proof. intros Hp j Hj E. apply (Hp j 0) in E as [? _]; [lia|done]. Qed.

Section user_buf.
Context `{PinOk}.

Lemma wp_release_pages n pages i write s Q :
  0 <= i -> i + Z.of_nat n <= Z.of_nat (length pages) ->
  (forall j, i <= j < i + Z.of_nat n -> zlookup pages j <> Some 0) ->
  (forall lg, (forall p, refs p lg = refs p (s_log s) - occurs p (take n (drop (Z.to_nat i) pages))) -> Q tt (set_log lg s)) ->
  wp (release_pages n pages i write) Q s.
Proof.
  revert i s. induction n as [|n IH]; intros i s Hi Hn Hp HQ; cbn [release_pages].
  { apply wp_ret. specialize (HQ (s_log s)). destruct s. apply HQ. intros p. change (occurs p _) with 0. lia. }
  destruct (zlookup_in pages i) as [page Hpage]; [lia|].
  apply wp_bind. eapply wp_deref; [exact Hpage|]. specialize (Hp i) as Hp0.
  destruct (Z.eqb_spec page 0) as [->|Hz]; [exfalso; apply Hp0; [lia|done]|].
  apply wp_bind. apply (wp_mono _ (fun _ s' => exists lg, s' = set_log lg s /\ same_refs (s_log s) lg)).
  { apply wp_when; intros _; [apply wp_kdo|].
    - eexists. split; [reflexivity|]. auto with events.
    - exists (s_log s). by destruct s. }
  intros _ s1 (lg & -> & Elg). apply wp_bind, wp_kdo.
  apply IH; [lia|lia|intros j Hj; apply Hp; lia|]. cbn [s_log set_log est_log]. intros lg' E.
  apply (HQ lg'). intros p. rewrite E, refs_cons, Elg. apply zlookup_nat in Hpage as [_ Hpage].
  apply drop_S in Hpage. rewrite Hpage. cbn [take]. rewrite occurs_cons. replace (Z.to_nat (i + 1)) with (S (Z.to_nat i)) by lia.
  cbn [page_ref String.eqb Ascii.eqb Bool.eqb andb Z.b2z].
  destruct (Z.eqb_spec page p) as [->|Hne]; [rewrite bool_decide_true by done|rewrite bool_decide_false by congruence]; cbn [Z.b2z]; lia.
Qed.

(** The pages a control block holds, and how many references to [p] unmapping
    gives back. *)
Definition holds (c : xdma_io_cb) : Prop :=
  match cb_pages c with
  | None => True
  | Some pages => 0 <= cb_pages_nr c <= Z.of_nat (length pages) /\ pages_ok (cb_pages_nr c) pages
  end.
Definition held (c : xdma_io_cb) (p : Z) : Z :=
  match cb_pages c with None => 0 | Some pages => occurs p (take (Z.to_nat (cb_pages_nr c)) pages) end.

Record unmapped (cb : Z) (c : xdma_io_cb) (s s' : est) : Prop := {
  um_only : buf_only cb s s';
  um_sgt : s_sgts s' !! cb = None;
  um_refs : forall p, refs p (s_log s') = refs p (s_log s) - held c p
}.

Lemma wp_unmap_user_buf cb write s c :
  s_cbs s !! cb = Some c -> holds c ->
  wp (char_sgdma_unmap_user_buf cb write) (fun _ s' => unmapped cb c s s') s.
Proof.
  intros Hc Hh. unfold char_sgdma_unmap_user_buf, sg_free_table, holds in *.
  apply wp_bind, wp_bind, wp_kdo, wp_modify. apply wp_bind. eapply wp_get_cb; [exact Hc|].
  assert (buf_only cb s (set_s_sgts (delete cb (s_sgts s)) (set_log (EvCall "sg_free_table" [cb] 0 :: s_log s) s)))
    as Hbo by (split; try done; apply delete_delete_eq).
  assert (forall s1, s_sgts s1 = delete cb (s_sgts s) -> buf_only cb s s1 ->
    (forall p, refs p (s_log s1) = refs p (s_log s) - held c p) -> unmapped cb c s s1) as Hdone.
  { intros s1 Hsg Hb Hn. split; [done| |done]. rewrite Hsg. apply lookup_delete_eq. }
  unfold held in Hdone. destruct (cb_pages c) as [pages|] eqn:Hp.
  - destruct Hh as [Hr Hnz]. destruct (Z.eqb_spec (cb_pages_nr c) 0) as [Hz|Hz].
    + apply wp_ret, Hdone; try done. intros p. rewrite Hz. change (occurs p _) with 0.
      cbn [s_log set_s_sgts set_log est_log]. rewrite refs_cons, driver_event_refs by done. lia.
    + apply wp_bind, wp_release_pages; try lia; [intros j Hj; apply (pages_ok_null _ _ Hnz); lia|]. intros lg Elg.
      apply wp_bind, wp_kdo. eapply wp_upd_cb; [exact Hc|]. apply Hdone; try done.
      by split; cbn [s_cbs set_s_cbs set_s_sgts set_log est_log s_sgts]; try done; rewrite ?delete_delete_eq, ?delete_insert_eq.
  - apply wp_ret, Hdone; try done. intros p. cbn [s_log set_s_sgts set_log est_log].
    rewrite refs_cons, driver_event_refs by done. lia.
Qed.

(** The pages that the kernel pinned are at the start of the array. *)
Lemma wp_pinned_pages n rv s Q :
  0 <= n -> 0 <= rv ->
  (forall pages lg, length pages = Z.to_nat n ->
     pages_ok rv pages ->
     (forall p, refs p lg = refs p (s_log s) + occurs p (take (Z.to_nat rv) pages)) -> Q pages (set_log lg s)) ->
  wp (pinned_pages n rv) Q s.
Proof.
  intros Hn Hrv HQ. unfold pinned_pages. eapply wp_mono.
  - apply (wp_foldM_zrange n _ (fun i l s' => length l = Z.to_nat i /\
      pages_ok rv l /\
      exists lg, s' = set_log lg s /\ forall p, refs p lg = refs p (s_log s) + occurs p (take (Z.to_nat rv) l))).
    { split_and!; [done| |exists (s_log s); split; [by destruct s|]].
      - intros j p Hj. unfold zlookup. by destruct (j <? 0).
      - intros p. rewrite take_nil. change (occurs p []) with 0. lia. }
    intros i l s' Hi (Hl & Hnz & lg & -> & Elg).
    assert (forall x, (i < rv -> page_ok x) -> length (l ++ [x]) = Z.to_nat (i + 1) /\
      pages_ok rv (l ++ [x])) as Happ.
    { intros x Hx. split; [rewrite length_app; cbn; lia|]. intros j p Hj. specialize (Hnz j p Hj).
      unfold zlookup in *. destruct (Z.ltb_spec j 0); [done|].
      destruct (decide (Z.to_nat j < length l)%nat); [by rewrite lookup_app_l|].
      rewrite lookup_app_r by lia. destruct (Z.to_nat j - length l)%nat as [|k] eqn:E; [|done].
      cbn. intros [= ->]. apply Hx. lia. }
    destruct (Z.ltb_spec i rv) as [Hir|Hir].
    + apply wp_bind, wp_kcall, wp_ret.
      match goal with |- context [l ++ [?x]] =>
        destruct (Happ x ltac:(intros _; apply pin_page)) as [? ?] end.
      split; [done|]. split; [done|]. eexists. split; [reflexivity|]. intros p. rewrite refs_cons, Elg.
      rewrite !take_ge by (rewrite ?length_app; cbn; lia). rewrite occurs_app, occurs_cons. change (occurs p []) with 0.
      cbn [page_ref String.eqb Ascii.eqb Bool.eqb andb Z.b2z]. lia.
    + apply wp_ret. destruct (Happ 0 ltac:(lia)) as [? ?]. split; [done|]. split; [done|].
      exists lg. split; [done|]. intros p. rewrite Elg. by rewrite take_app_le by lia.
  - cbn beta. intros l s' (Hl & Hnz & lg & -> & Elg). apply HQ; [by rewrite Hl, Z.max_r by lia|done|done].
Qed.

(** A block that was just set up: it holds nothing, and has no table. *)
Record fresh_buf (cb : Z) (c : xdma_io_cb) (s : est) : Prop := {
  fb_cb : s_cbs s !! cb = Some c;
  fb_pages : cb_pages c = None;
  fb_nr : cb_pages_nr c = 0;
  fb_sgt : s_sgts s !! cb = None;
  fb_buf : 0 <= cb_buf c;
  fb_len : 0 < cb_len c < 2 ^ 32;
  fb_end : cb_buf c + cb_len c + PAGE_SIZE <= 2 ^ 64
}.

(** The outcome of mapping: an error, and nothing is held; or a table of the
    buffer, and the block holds its pages, once for each of them. *)
Definition buf_error (cb rv : Z) (s s' : est) : Prop :=
  rv < 0 /\ buf_only cb s s' /\ s_sgts s' !! cb = None /\ same_refs (s_log s) (s_log s').
Definition buf_mapped (cb : Z) (c : xdma_io_cb) (s s' : est) : Prop :=
  buf_only cb s s' /\
  exists pages sgl, let n := Z.of_nat (length pages) in
    n = pages_of (cb_buf c) (cb_len c) /\ covers pages (cb_buf c) (cb_len c) sgl /\
    (forall p, refs p (s_log s') = refs p (s_log s) + occurs p pages) /\
    s_sgts s' !! cb = Some (mk_sgt sgl n n) /\
    exists c', s_cbs s' !! cb = Some c' /\ cb_pages c' = Some pages /\ cb_pages_nr c' = n /\ holds c'.

(** An error path: [char_sgdma_unmap_user_buf], then the error. *)
Lemma wp_map_fail cb write rv s0 s c :
  rv < 0 -> buf_only cb s0 s -> s_cbs s !! cb = Some c -> holds c ->
  (forall p, refs p (s_log s) = refs p (s_log s0) + held c p) ->
  wp (map_fail cb write rv) (fun rv' s' => rv' = rv /\ buf_error cb rv s0 s') s.
Proof.
  intros Hrv Hbo Hc Hh Hr. unfold map_fail. apply wp_bind.
  eapply wp_mono; [by apply (wp_unmap_user_buf cb write s c)|].
  intros _ s' [Ho Hs Hp]. apply wp_ret. split; [done|]. split; [done|]. split; [by etrans|]. split; [done|].
  intros p. rewrite Hp, Hr. lia.
Qed.

(** From the array of pinned pages on. *)
Lemma wp_fill_user_sgl cb c pages s0 s c0 :
  Z.of_nat (length pages) = pages_of (cb_buf c) (cb_len c) -> 0 <= cb_buf c ->
  0 < cb_len c < 2 ^ 32 -> cb_buf c + cb_len c + PAGE_SIZE <= 2 ^ 64 ->
  pages_ok (Z.of_nat (length pages)) pages ->
  buf_only cb s0 s -> (forall p, refs p (s_log s) = refs p (s_log s0) + occurs p pages) ->
  s_cbs s !! cb = Some c0 -> cb_pages c0 = Some pages ->
  wp (fill_user_sgl cb (cb_buf c) (cb_len c) (Z.of_nat (length pages)) pages)
    (fun rv s' => rv = 0 /\ buf_mapped cb c s0 s') s.
Proof.
  intros Hn Hb Hl Hsum Hnz Hbo Hpt Hc0 Hp0. unfold fill_user_sgl.
  destruct (page_entries_spec pages (cb_buf c) (cb_len c)) as (sgl & -> & Hcv); try done.
  apply wp_bind. eapply wp_mono.
  { apply (wp_forM_simple pages _ (fun s' => exists lg, s' = set_log lg s /\ same_refs (s_log s) lg));
      [exists (s_log s); by destruct s|].
    intros page s' _ (lg & -> & Elg). apply wp_kdo. eexists. split; [reflexivity|]. auto with events. }
  cbv beta. intros _ s1 (lg & -> & Elg). apply wp_bind. unfold put_sgt. apply wp_modify.
  rewrite Z.eqb_refl. cbn [negb]. apply wp_bind. eapply wp_upd_cb; [exact Hc0|]. apply wp_ret.
  split; [done|]. split.
  - auto with drv.
  - exists pages, sgl. split; [done|]. split; [done|]. split.
    { intros p. cbn [s_log set_s_cbs set_s_sgts set_log est_log]. by rewrite Elg. }
    split; [apply lookup_insert_eq|].
    eexists. split; [apply lookup_insert_eq|]. split; [exact Hp0|]. split; [done|].
    unfold holds. cbn [cb_pages set_cb_pages_nr cb_pages_nr]. rewrite Hp0. split; [lia|]. exact Hnz.
Qed.

(** From the answer [rv] of [get_user_pages_fast] on. *)
Lemma wp_after_pin cb c write rv s0 s :
  fresh_buf cb c s0 -> buf_only cb s0 s -> same_refs (s_log s0) (s_log s) ->
  let n := pages_of (cb_buf c) (cb_len c) in
  s_cbs s !! cb = Some (set_cb_pages (Some (replicate (Z.to_nat n) 0)) c) ->
  rv <= n ->
  wp (if rv <? 0 then map_fail cb write rv
      else
        let* pages := pinned_pages n rv in
        upd_cb cb (set_cb_pages (Some pages)) >>;
        if negb (rv =? n) then upd_cb cb (set_cb_pages_nr rv) >>; map_fail cb write (- EFAULT)
        else if has_duplicate pages then
          upd_cb cb (set_cb_pages_nr n) >>; map_fail cb write (- EFAULT)
        else fill_user_sgl cb (cb_buf c) (cb_len c) n pages)
    (fun r s' => buf_error cb r s0 s' \/ (r = 0 /\ buf_mapped cb c s0 s')) s.
Proof.
  intros [Hcb Hp0 Hnr _ Hb Hl Hsum] Hbo Hpt n Hc Hle.
  assert (0 < n) as Hn by (destruct (count_pages_spec (cb_buf c) (cb_len c)); lia).
  assert (forall c1 s1, s_cbs s1 !! cb = Some c1 -> buf_only cb s0 s1 -> holds c1 ->
    (forall p, refs p (s_log s1) = refs p (s_log s0) + held c1 p) -> forall r, r < 0 ->
    wp (map_fail cb write r) (fun r s' => buf_error cb r s0 s' \/ (r = 0 /\ buf_mapped cb c s0 s')) s1)
    as Hfail.
  { intros c1 s1 Hc1 Hb1 Hh1 Hpt1 r Hr. eapply wp_mono; [by apply (wp_map_fail cb write r s0 s1 c1)|].
    intros ? s2 (-> & He). by left. }
  destruct (Z.ltb_spec rv 0) as [Hneg|Hpos].
  { eapply Hfail; try done; unfold holds, held; cbn [cb_pages set_cb_pages cb_pages_nr]; rewrite Hnr.
    - split; [lia|]. intros j p Hj. lia.
    - intros p. change (occurs p _) with 0. rewrite Hpt. lia. }
  apply wp_bind, wp_pinned_pages; [lia|done|]. intros pages lg Hlen Hnz Elg.
  apply wp_bind. eapply wp_upd_cb; [exact Hc|].
  match goal with |- wp _ _ ?st => set (s1 := st) end.
  assert (buf_only cb s0 s1) as Hb1 by (unfold s1; auto with drv).
  set (c1 := set_cb_pages (Some pages) c).
  assert (s_cbs s1 !! cb = Some c1) as Hc1 by apply lookup_insert_eq.
  assert (forall p, refs p (s_log s1) = refs p (s_log s0) + occurs p (take (Z.to_nat rv) pages)) as Hp1.
  { intros p. unfold s1. cbn [s_log set_s_cbs set_log est_log]. by rewrite Elg, Hpt. }
  assert (forall r, r = rv -> wp (upd_cb cb (set_cb_pages_nr r) >>; map_fail cb write (- EFAULT))
    (fun r s' => buf_error cb r s0 s' \/ (r = 0 /\ buf_mapped cb c s0 s')) s1) as Hfault.
  { intros r ->. apply wp_bind. eapply wp_upd_cb; [exact Hc1|].
    apply (Hfail (set_cb_pages_nr rv c1)); [apply lookup_insert_eq|auto with drv| |exact Hp1|by vm_compute].
    unfold holds. cbn [cb_pages c1 set_cb_pages set_cb_pages_nr cb_pages_nr]. split; [lia|exact Hnz]. }
  destruct (Z.eqb_spec rv n) as [Hrn|Hrn]; cbn [negb]; [|by apply Hfault].
  destruct (has_duplicate pages); [by apply Hfault|].
  assert (Z.of_nat (length pages) = n) as En by lia. rewrite <-En.
  eapply wp_mono; [apply (wp_fill_user_sgl cb c pages s0 s1 c1); try done|].
  - intros j p Hj. apply Hnz. lia.
  - intros p. rewrite Hp1. by rewrite take_ge by lia.
  - intros r s' []. by right.
Qed.

Lemma wp_map_user_buf cb c write s :
  fresh_buf cb c s ->
  wp (char_sgdma_map_user_buf_to_sgl cb write) (fun rv s' =>
    buf_error cb rv s s' \/ (rv = 0 /\ buf_mapped cb c s s')) s.
Proof.
  intros Hf. pose proof Hf as [Hcb Hp0 Hnr Hsg Hb Hl Hsum]. unfold char_sgdma_map_user_buf_to_sgl.
  apply wp_bind. eapply wp_get_cb; [exact Hcb|]. destruct (count_pages_spec (cb_buf c) (cb_len c)) as [-> Hn]; try done.
  set (n := pages_of (cb_buf c) (cb_len c)) in *. cbv zeta.
  destruct (Z.eqb_spec n 0); [lia|]. apply wp_bind, wp_kcall.
  destruct (negb _).
  { apply wp_ret. left. split; [done|]. split; [auto with drv|]. split; [done|]. cbn [s_log set_log est_log]. auto with events. }
  apply wp_bind. unfold put_sgt at 1. apply wp_modify. apply wp_bind, wp_kcall.
  match goal with |- wp (if ?b then _ else _) _ _ => destruct b end.
  - eapply wp_mono; [apply (wp_map_fail cb write (- ENOMEM) s _ c)|]; [done|auto 7 with drv|done| | |].
    + unfold holds. by rewrite Hp0.
    + intros p. unfold held. rewrite Hp0. cbn [s_log set_log est_log set_s_sgts].
      rewrite !refs_cons, !driver_event_refs by done. lia.
    + intros ? s' (-> & He). by left.
  - apply wp_bind. eapply wp_upd_cb; [exact Hcb|]. apply wp_bind, wp_kcall.
    apply (wp_after_pin cb c write _ s); try done; [auto 9 with drv|apply lookup_insert_eq|apply pin_le].
Qed.

End user_buf.
