(* ===== verification/AsyncProps.v ===== *)
(** * AsyncProps: asynchronous requests from end to end

    What [xdma_xfer_submit_nowait] leaves behind, and what the interrupt that
    finishes the transfer does through the callback of the character device:
    completion, release of the user buffer, and the answer to the caller. *)

From S2P Require Import Prelude Hw State Desc Engine Service Request Fixtures Chain ServiceSpec ServiceProps RequestSpec QueueProps Submit SubmitSpec SubmitProps AsyncSpec Dev Device CdevSgdma SgdmaProps Steady.

(** The answers to asynchronous requests: the arguments of [ki_complete]. *)
Definition answers (lg : list event) : list (list Z) :=
  omap (fun ev => match ev with
                  | EvCall f args _ => if String.eqb f "ki_complete" then Some args else None
                  | _ => None
                  end) lg.

Lemma extends_answers lg lg' : extends lg lg' -> answers lg' = answers lg.
Proof.
  intros (l & -> & Hl). induction Hl as [|ev l He _ IH]; [done|]. rewrite <-IH.
  destruct ev as [| |f args v]; [done..|]. cbn in He |- *.
  destruct (String.eqb f "ki_complete"); [|done]. by rewrite !orb_true_r in He.
Qed.

Section completion.
Context `{Env}.

(** The bytes that a finished transfer counts for. *)
Definition finished_bytes (x : xdma_transfer) : Z :=
  match x_state x with TRANSFER_STATE_COMPLETED => x_len x | _ => 0 end.

(** Everything of the request [r] is released, but the control block. *)
Record released (r sgt : Z) (s s' : est) : Prop := {
  rl_queue : queue s' = queue s;
  rl_mm : mm_engine (s_eng s');
  rl_dev : s_xdev s' = s_xdev s;
  rl_reqs : s_reqs s' = delete r (s_reqs s);
  rl_xfer : s_xfers s' !! tfer r 0 = None;
  rl_cbs : s_cbs s' = s_cbs s;
  rl_sgts : exists g, s_sgts s' !! sgt = Some g /\ sg_nents g = 0;
  rl_caios : s_caios s' = s_caios s;
  rl_log : extends (s_log s) (s_log s')
}.

Lemma wp_completion s cb sgt r c q x :
  mm_engine (s_eng s) -> e_magic (s_eng s) = MAGIC_ENGINE ->
  s_cbs s !! cb = Some c -> cb_req c = Some r -> s_reqs s !! r = Some q ->
  s_xfers s !! tfer r 0 = Some x -> r_sw_desc_cnt q = x_desc_num x -> x_desc_num x < 2 ^ 31 ->
  x_state x = TRANSFER_STATE_COMPLETED \/ x_state x = TRANSFER_STATE_FAILED ->
  in_ring sgt x s -> is_Some (s_sgts s !! sgt) -> 0 <= x_len x < 2 ^ 32 ->
  wp (xdma_xfer_completion cb sgt false)
    (fun rv s' => rv = finished_bytes x /\ released r sgt s s') s.
Proof.
  intros Hmm Hmagic Hc Hcr Hq Hx Hcnt Hnum Hst Hir Hg Hlen.
  apply wp_steady; [apply _|]. unfold xdma_xfer_completion.
  apply wp_bind, wp_get_eng. rewrite Hmagic, Z.eqb_refl. cbn [negb].
  apply wp_bind. eapply wp_get_cb; [exact Hc|]. apply wp_bind. eapply wp_deref; [exact Hcr|].
  apply wp_bind. eapply wp_get_req; [exact Hq|]. apply wp_bind.
  assert (0 < x_desc_num x) as Hpos by (by destruct Hir as (_ & ? & _)).
  apply (wp_mono _ (fun rv s' => rv = finished_bytes x /\ mm_engine (s_eng s') /\ queue s' = queue s /\
           s_xdev s' = s_xdev s /\ s_reqs s' = s_reqs s /\ s_cbs s' = s_cbs s /\ sgts_step sgt s s')).
  { cbn [completion_loop]. rewrite Hcnt. destruct (Z.eqb_spec (x_desc_num x) 0); [lia|].
    apply wp_bind. unfold tfer_at. apply wp_bind, wp_guard_ub; [done|]. apply wp_ret.
    apply wp_bind. eapply wp_get_xfer; [exact Hx|]. rewrite Z.sub_diag. change (s32 0) with 0.
    apply wp_bind. apply (wp_mono _ (fun '(rv, done) s' => s' = s /\ done = finished_bytes x /\ rv <= 0)).
    { unfold completion_result, finished_bytes. apply wp_bind. eapply wp_get_xfer; [exact Hx|].
      apply wp_bind, wp_get_eng. rewrite (mm_stream _ Hmm). cbn [andb].
      destruct Hst as [-> | ->]; apply wp_ret; [|done]. split_and!; [done| |done].
      cbn [Z.add]. apply s64_small. lia. }
    intros [rv dn] s1 (-> & -> & Hrv). apply wp_bind. eapply wp_mono; [by eapply wp_destroy|].
    intros _ s1 (Hmm1 & Hq1 & Hd1 & Hr1 & Hx1 & Hc1 & Hs1).
    apply wp_bind, wp_upd_eng.
    assert (forall (Q : Z -> est -> Prop) s', Q (finished_bytes x) s' ->
      wp (if rv <? 0 then ret (finished_bytes x) else
          if 0 =? 0 then ret (finished_bytes x) else ub) Q s') as Hend by (intros; by destruct (rv <? 0)).
    apply Hend. split_and!; try done. by apply (mm_engine_core (s_eng s1)). }
  intros rv s1 (-> & Hmm1 & Hq1 & Hd1 & Hr1 & Hc1 & Hs1).
  destruct (sgts_step_live _ _ _ Hs1 Hg) as [g1 Hg1].
  apply wp_bind. eapply wp_mono; [by apply (wp_unmap_sgl s1 sgt g1)|].
  intros _ s2 (He2 & Hd2 & Hr2 & Hc2 & Hg2). unfold xdma_request_free.
  apply wp_bind, wp_bind, wp_kdo, wp_bind, wp_modify, wp_modify, wp_ret. intros Hca Hpt. split; [done|].
  split; cbn [s_eng s_xdev s_reqs s_sgts s_cbs s_xfers set_s_xfers set_s_reqs set_log est_log] in *; try done; try congruence.
  apply lookup_delete_eq.
Qed.
End completion.

(** ** The callback of the character device *)

Section handler.
Context `{Env}.

(** The only control block of an asynchronous request, as [cdev_aio] sets it
    up, on the way: its answer is still due. *)
Record awaited (cb caio : Z) (c : xdma_io_cb) (s : est) : Prop := {
  aw_cb : s_cbs s !! cb = Some c;
  aw_private : cb_private c = caio;
  aw_caio : caio <> 0;
  aw_holds : holds c;
  aw_request : exists xcdev write, s_caios s !! caio = Some (new_caio xcdev cb 1 write) /\
    0 <= xcdev_check xcdev (s_xdev s) (Some (s_eng s)) true;
  aw_channel : e_channel (s_eng s) <
    (if cb_write c then d_h2c_channel_max (s_xdev s) else d_c2h_channel_max (s_xdev s));
  aw_lock : forall lg, kernel lg "spin_trylock" [caio] <> 0
}.

(** The request was answered, once, with [bytes] bytes and no error code, and
    all of it is released. *)
Record answered (cb caio r bytes : Z) (c : xdma_io_cb) (s s' : est) : Prop := {
  an_answer : answers (s_log s') = [caio; bytes; 0] :: answers (s_log s);
  an_refs : forall p, refs p (s_log s') = refs p (s_log s) - held c p;
  an_caios : s_caios s' = delete caio (s_caios s);
  an_cbs : s_cbs s' = delete cb (s_cbs s);
  an_sgt : s_sgts s' !! cb = None;
  an_reqs : s_reqs s' = delete r (s_reqs s);
  an_xfer : s_xfers s' !! tfer r 0 = None;
  an_queue : queue s' = [];
  an_mm : mm_engine (s_eng s')
}.

Lemma wp_upd_caio caio f a (Q : unit -> est -> Prop) s :
  s_caios s !! caio = Some a ->
  Q tt (set_s_caios (<[caio := f a]> (s_caios s)) s) -> wp (upd_caio caio f) Q s.
Proof. intros Ha HQ. unfold wp, upd_caio, get_caio, bind, get, deref. by rewrite Ha. Qed.

Lemma wp_get_caio caio a (Q : cdev_async_io -> est -> Prop) s :
  s_caios s !! caio = Some a -> Q a s -> wp (get_caio caio) Q s.
Proof. intros Ha HQ. unfold wp, get_caio, bind, get, deref. by rewrite Ha. Qed.

Lemma wp_caio_done caio xcdev cb write n (Q : cdev_async_io -> est -> Prop) s :
  s_caios s !! caio = Some (new_caio xcdev cb 1 write) -> 0 <= n < 2 ^ 63 ->
  (let a := mk_caio xcdev cb write false 1 1 n 0 0 in
   Q a (set_s_caios (<[caio := a]> (s_caios s)) s)) ->
  wp (caio_done caio 0 n) Q s.
Proof.
  intros Ha Hn HQ. unfold caio_done.
  apply wp_bind. eapply wp_upd_caio; [exact Ha|]. apply wp_bind. eapply wp_upd_caio; [apply lookup_insert_eq|].
  apply wp_bind. eapply wp_upd_caio; [apply lookup_insert_eq|].
  apply wp_bind. eapply wp_upd_caio; [apply lookup_insert_eq|].
  cbn [set_s_caios s_caios]. rewrite !insert_insert_eq.
  eapply wp_get_caio; [apply lookup_insert_eq|].
  match goal with |- Q ?a _ => assert (a = mk_caio xcdev cb write false 1 1 n 0 0) as E end; [|rewrite E; exact HQ].
  transitivity (mk_caio xcdev cb write false 1 1 (s64 (0 + n)) 0 0); [reflexivity|].
  change (0 + n) with n. by rewrite (s64_small n) by lia.
Qed.

Lemma release_pages_answers n pages i write s a s' :
  release_pages n pages i write s = Some (a, s') -> answers (s_log s') = answers (s_log s).
Proof.
  revert i s. induction n as [|n IH]; intros i s; cbn [release_pages]; [by intros [= _ <-]|].
  unfold bind, deref. destruct (zlookup pages i) as [page|]; [|done].
  destruct (page =? 0); [by intros [= _ <-]|]. by destruct write; intros ->%IH.
Qed.

Lemma unmap_user_buf_answers cb write s a s' :
  char_sgdma_unmap_user_buf cb write s = Some (a, s') -> answers (s_log s') = answers (s_log s).
Proof.
  unfold char_sgdma_unmap_user_buf. intros Hrun.
  destruct (s_cbs s !! cb) as [c|] eqn:Ec; cbn in Hrun; unfold get_cb, bind, get, deref in Hrun; cbn in Hrun;
    rewrite Ec in Hrun; [|done].
  destruct (cb_pages c) as [pages|]; [|by injection Hrun as _ <-].
  destruct (cb_pages_nr c =? 0); [by injection Hrun as _ <-|].
  destruct (release_pages _ _ _ _ _) as [[u s1]|] eqn:Er in Hrun; [|done].
  apply release_pages_answers in Er. unfold upd_cb, get_cb, bind, get, deref in Hrun. cbn in Hrun.
  destruct (s_cbs s1 !! cb); [|done]. injection Hrun as _ <-. exact Er.
Qed.

Lemma wp_async_io_done s cb caio r c q x :
  mm_engine (s_eng s) -> e_magic (s_eng s) = MAGIC_ENGINE -> queue s = [] ->
  awaited cb caio c s -> cb_req c = Some r -> s_reqs s !! r = Some q ->
  s_xfers s !! tfer r 0 = Some x -> r_sw_desc_cnt q = x_desc_num x -> x_desc_num x < 2 ^ 31 ->
  x_state x = TRANSFER_STATE_COMPLETED \/ x_state x = TRANSFER_STATE_FAILED ->
  in_ring cb x s -> is_Some (s_sgts s !! cb) -> 0 <= x_len x < 2 ^ 32 ->
  wp (async_io_handler cb 0)
    (fun _ s' => answered cb caio r (finished_bytes x) c s s') s.
Proof.
  intros Hmm Hmagic Hqueue [Hc Hp Hz Hh (xcdev & write & Hca & Hchk) Hch Hlock] Hcr Hq Hx Hcnt Hnum Hst Hir Hg Hlen.
  assert (0 <= finished_bytes x < 2 ^ 63) as Hb by (unfold finished_bytes; destruct (x_state x); lia).
  unfold async_io_handler. apply wp_bind. eapply wp_get_cb; [exact Hc|]. rewrite Hp.
  destruct (Z.eqb_spec caio 0); [done|]. apply wp_bind. eapply wp_get_caio; [exact Hca|].
  apply wp_bind, wp_get. change (ca_xcdev (new_caio xcdev cb 1 write)) with xcdev.
  destruct (Z.ltb_spec (xcdev_check xcdev (s_xdev s) (Some (s_eng s)) true) 0); [lia|].
  apply wp_bind, wp_kcall. destruct (Z.eqb_spec (kernel (s_log s) "spin_trylock" [caio]) 0) as [E|_]; [by apply Hlock in E|].
  change (ca_cancel (new_caio xcdev cb 1 write)) with false. cbv iota.
  apply wp_bind. change (0 =? 0) with true. cbv iota. unfold completion. apply wp_bind, wp_get.
  match goal with |- wp _ _ ?st => set (s1 := st) end.
  assert (((if is_h2c (if cb_write c then DMA_TO_DEVICE else DMA_FROM_DEVICE)
            then d_h2c_channel_max (s_xdev s1) else d_c2h_channel_max (s_xdev s1)) <=? e_channel (s_eng s1)) = false)
    as -> by (subst s1; cbn; destruct (cb_write c); cbn [is_h2c]; lia).
  eapply wp_mono; [eapply (wp_completion s1 cb cb r c q x); done|].
  intros ? s2 (-> & [Hq2 Hmm2 Hd2 Hr2 Hx2 Hc2 (g2 & Hg2 & _) Hca2 Hlg2]). apply wp_bind.
  eapply wp_mono; [apply wp_eqn, (wp_unmap_user_buf cb (cb_write c) s2 c); [by rewrite Hc2|done]|].
  intros ? s3 (Hrun%unmap_user_buf_answers & [[He3 Hd3 Hx3 Hr3 Hca3 Hs3 Hc3] Hsg3 Hp3]). apply wp_bind.
  assert (s_caios s3 = s_caios s) as Eca by (rewrite Hca3, Hca2; done).
  eapply wp_caio_done; [rewrite Eca; exact Hca|exact Hb|]. cbv zeta.
  change (1 =? 1) with true. cbn [ca_cmpl_cnt ca_req_cnt ca_res ca_res2 Z.eqb Pos.eqb].
  apply wp_bind, wp_kdo, wp_bind. unfold caio_free, cbs_free. apply wp_bind, wp_kdo, wp_modify.
  apply wp_bind, wp_guard_ub; [apply Z.eqb_refl|]. apply wp_bind, wp_kdo, wp_modify.
  pose proof (extends_answers _ _ Hlg2) as Ea2. pose proof (extends_refs _ _ Hlg2) as Ep2.
  split; cbn [s_eng s_log s_caios s_cbs s_sgts s_reqs s_xfers s_xdev set_s_cbs set_s_caios set_log est_log log_of] in *.
  - transitivity ([caio; finished_bytes x; 0] :: answers (s_log s3)); [reflexivity|]. by rewrite Hrun, Ea2.
  - intros p. do 3 rewrite refs_cons. rewrite Hp3, Ep2. subst s1. cbn [s_log set_log est_log]. rewrite refs_cons.
    cbn [page_ref String.eqb Ascii.eqb Bool.eqb andb Z.b2z]. lia.
  - by rewrite delete_insert_eq, Eca.
  - transitivity (delete (cb + 0) (s_cbs s3)); [reflexivity|]. rewrite Z.add_0_r, Hc3, Hc2. done.
  - exact Hsg3.
  - by rewrite Hr3, Hr2.
  - by rewrite Hx3.
  - by rewrite He3, Hq2.
  - by rewrite He3.
Qed.

(** ** From the interrupt to the answer *)

(** A request that failed is answered with no bytes, and no error either. *)
Definition answer_bytes (e : xdma_engine) (st num n len : Z) : Z :=
  match final_state e st num n with TRANSFER_STATE_COMPLETED => len | _ => 0 end.

Lemma final_finished_state e st num n :
  final_state e st num n = TRANSFER_STATE_COMPLETED \/ final_state e st num n = TRANSFER_STATE_FAILED.
Proof. unfold final_state. repeat case_match; auto. Qed.

Lemma awaited_core cb caio c s e lg xs :
  kin (s_eng s) e -> awaited cb caio c s ->
  awaited cb caio c (mk_est (s_xdev s) e xs (s_sgts s) (s_reqs s) (s_cbs s) (s_caios s) lg).
Proof.
  intros [Hc _] [? ? ? ? (xcdev & write & ? & Hk) Hch ?].
  assert (e_channel e = e_channel (s_eng s)) as Ech by (change (e_channel (core e) = e_channel (core (s_eng s))); by rewrite Hc).
  assert (e_magic e = e_magic (s_eng s)) as Em by (change (e_magic (core e) = e_magic (core (s_eng s))); by rewrite Hc).
  split; try done; cbn.
  - exists xcdev, write. split; [done|]. unfold xcdev_check in *. by rewrite Em.
  - by rewrite Ech.
Qed.

Lemma answered_between cb caio r bytes c s s1 s2 s3 :
  extends (s_log s) (s_log s1) -> s_caios s1 = s_caios s -> s_cbs s1 = s_cbs s -> s_reqs s1 = s_reqs s ->
  answered cb caio r bytes c s1 s2 -> wound_up s2 s3 -> answered cb caio r bytes c s s3.
Proof.
  intros Hl Eca Ecb Er [? Hrefs ? ? ? ? ? ? Hmm] (l & run & sh & _ & -> & Hl3).
  pose proof (extends_answers _ _ Hl) as Ea. pose proof (extends_answers _ _ Hl3) as Ea3.
  split; cbn [s_log s_caios s_cbs s_sgts s_reqs s_xfers set_log est_log set_s_eng]; try done; try congruence.
  - intros p. by rewrite (extends_refs _ _ Hl3), Hrefs, (extends_refs _ _ Hl).
  - by apply (mm_engine_core (s_eng s2)).
Qed.

Lemma wp_async_interrupt s cb caio c r num len st n :
  in_flight cb cb r num len s -> awaited cb caio c s -> cb_req c = Some r ->
  e_magic (s_eng s) = MAGIC_ENGINE -> e_xdma_perf (s_eng s) = None -> 0 <= len < 2 ^ 32 ->
  (forall v, answer s "status_rc" v -> v = st) -> (forall v, answer s "completed_desc_count" v -> v = n) ->
  0 < n <= num ->
  wp (engine_service 0) (fun rv s' => rv = 0 /\ e_running (s_eng s') = false /\
    answered cb caio r (answer_bytes (s_eng s) st num n len) c s s') s.
Proof.
  intros [Hq Hrun Hdq Hmm Hnum (x & Hx & _ & Hxc & Hxl & Hcyc & <- & <- & Hir) (q & Hreq & Hcnt) _]
    Haw Hcr Hmagic Hperf Hlen Hst Hn Hle.
  eapply (wp_engine_service_async s (tfer r 0) x cb st n); try done; [by destruct Hmm|by destruct Hmm|].
  intros s1 (e & lg & k & -> & He & Hce & Hlg). set (x1 := set_x_state _ _).
  assert (is_Some (s_sgts s !! cb)) as Hg by (destruct Hir as (_ & _ & _ & Hl); by destruct (Hl Hxl)).
  pose proof (final_finished_state (s_eng s) st (x_desc_num x) n) as Hfin.
  eapply wp_mono; [eapply (wp_async_io_done _ cb caio r c q x1); try done|].
  - by apply (mm_engine_kin (s_eng s)).
  - change (e_magic (core e) = MAGIC_ENGINE). by rewrite (proj1 Hce).
  - by apply awaited_core.
  - apply lookup_insert_eq.
  - by destruct Hnum.
  - eapply in_ring_shape; [exact Hir|done|]. by split.
  - cbn beta. intros _ s2 Han. pose proof Han as [_ _ _ _ _ _ _ Hq2 Hmm2]. split; [done|].
    intros s3 Hw. split; [done|]. split; [destruct Hw as (? & ? & ? & Hr & -> & _); by apply Hr; destruct Hmm2|].
    eapply answered_between; [| | | |exact Han|exact Hw]; done.
Qed.

Lemma in_flight_log cb sgt r num len s lg : in_flight cb sgt r num len s -> in_flight cb sgt r num len (set_log lg s).
Proof. by intros []. Qed.

Lemma awaited_log cb caio c s lg : awaited cb caio c s -> awaited cb caio c (set_log lg s).
Proof. intros Ha. by apply (awaited_core cb caio c s (s_eng s) lg (s_xfers s)). Qed.

(** [pci_map_sg] answered [n] for the table of the block, or an error. *)
Lemma awaited_accepted cb caio c g s s1 :
  awaited cb caio c s -> accepted cb cb g c s s1 ->
  exists r, in_flight cb cb r (desc_count g) (u32 (total_bytes g)) s1 /\
    awaited cb caio (set_cb_req (Some r) c) s1 /\ same_engine (s_eng s) (s_eng s1).
Proof.
  intros [? ? ? ? (xcdev & write & ? & Hk) Hch ?] (r & Hif & _ & Hd & Hca & Hcb & Heng).
  exists r. split; [done|]. split; [|done]. destruct Heng as (_ & Em & Ech). split; try done.
  - rewrite Hcb. apply lookup_insert_eq.
  - exists xcdev, write. rewrite Hca, Hd. split; [done|]. unfold xcdev_check in *. by rewrite Em.
  - rewrite Hd, Ech. done.
Qed.

End handler.

(** ** Witness *)

(** A kernel that maps three entries, allocates at 40 and takes the lock; a
    device that completes three descriptors. *)
Definition async_env : Env := {|
  io_read _ a :=
    if a =? 0x1000 then 0x1fc10000
    else if a =? 0x1000 + offsetof engine_regs "completed_desc_count" then 3 else 0;
  kernel _ f _ :=
    if String.eqb f "pci_map_sg" then 3 else if String.eqb f "kzalloc" then 40
    else if String.eqb f "spin_trylock" then 1 else 0;
  poll_mode := false;
  interrupt_mode := 0;
  enable_st_c2h_credit := false;
  desc_blen_max := XDMA_DESC_BLEN_MAX;
  HZ := 250;
  SIZEOF_REQ := 400
|}.


Definition async_cdev : option xdma_cdev := Some (mk_cdev MAGIC_CHAR 77 1 0 (Some (DMA_FROM_DEVICE, 0)) None).

(** A block with three pinned pages, and its request. *)
Definition async_cb : xdma_io_cb :=
  mk_iocb 0x1ff8 24 90 3 7 (Some [0x4000; 0x6000; 0x5000]) 0 0x100 None false true.
Definition async_state : est :=
  set_s_caios {[ 90 := new_caio async_cdev 7 1 false ]}
    (set_s_cbs {[ 7 := async_cb ]} (demo_state DMA_FROM_DEVICE 8)).

Lemma async_awaited : @awaited async_env 7 90 async_cb async_state.
Proof.
  split; try done.
  - split; [cbn; lia|]. intros j p _ [_ Hp]%zlookup_nat.
    assert (Forall page_ok [0x4000; 0x6000; 0x5000]) as Hall by (repeat constructor; by vm_compute).
    rewrite Forall_lookup in Hall. by eapply Hall.
  - exists async_cdev, false. split; [done|]. by vm_compute.
Qed.

Lemma async_one_chain : @one_chain async_env 3 submit_sgt (s_eng async_state).
Proof.
  split; [|split; [unfold fits|]; by vm_compute].
  split; [by vm_compute| |by vm_compute]. split; [cbn; lia|].
  repeat apply Forall_cons_2; try apply Forall_nil_2; split_and!; by vm_compute.
Qed.

(** The run: all 24 bytes. *)
Example async_delivers :
  match @xdma_xfer_submit_nowait async_env (@async_io_handler async_env) 7 false 0x100 7 false async_state with
  | Some (rv, s1) =>
      rv = - EIOCBQUEUED /\
      match @engine_service async_env (@async_io_handler async_env) 0 s1 with
      | Some (0, s2) => answers (s_log s2) = [[90; 24; 0]] /\ refs 0x4000 (s_log s2) = -1 /\ s_caios s2 = ∅ /\ s_cbs s2 = ∅
      | _ => False
      end
  | None => False
  end.
Proof. vm_compute. done. Qed.

