(* ===== verification/RwProps.v ===== *)
(** * RwProps: a whole read or write

    [char_sgdma_read] and [char_sgdma_write] from the user buffer to the device
    and back: mapping, submission and unmapping together. *)

From S2P Require Import Prelude Hw State Desc Engine Service Request Fixtures Chain ServiceSpec ServiceProps RequestSpec QueueProps Submit SubmitSpec SubmitProps Steady SyncFrame Dev DevFixtures Thread Device CdevSgdma SgdmaProps.

(** What the code relies on: [pci_map_sg] maps at most the entries of the table;
    a page fits in a descriptor; the request header is small. *)
Class DmaOk `{Env} : Prop := {
  dma_map : forall lg g n, 0 <= n -> 0 <= kernel lg "pci_map_sg" [g; n] <= n;
  dma_blen : PAGE_SIZE <= desc_blen_max <= 2 ^ 32 - PAGE_SIZE;
  dma_req : 0 <= SIZEOF_REQ <= 2 ^ 16
}.

(** ** Running on one engine of the device *)

Lemma focus_unfocus dir i s v : focus_engine (s_eng s) (unfocus_engine dir i s v) = s.
Proof. by destruct s. Qed.

Lemma unfocus_unfocus dir i s s' v :
  unfocus_engine dir i s' (unfocus_engine dir i s v) = unfocus_engine dir i s' v.
Proof.
  unfold unfocus_engine, engines. destruct dir; cbn [is_h2c v_h2c v_c2h v_hndl v_list v_threads v_thread_cnt];
    by rewrite list_insert_insert_eq.
Qed.

Lemma unfocus_focus dir i e v :
  zlookup (engines dir v) i = Some e -> unfocus_engine dir i (focus_engine e v) v = v.
Proof.
  intros [_ He]%zlookup_nat. unfold unfocus_engine, engines in *. destruct v, dir; cbn in *; by rewrite list_insert_id.
Qed.

Lemma lookup_unfocus dir i s v :
  is_Some (zlookup (engines dir v) i) -> zlookup (engines dir (unfocus_engine dir i s v)) i = Some (s_eng s).
Proof.
  intros [e [Hi He]%zlookup_nat]. rewrite engines_unfocus. unfold zlookup. destruct (Z.ltb_spec i 0); [lia|].
  apply list_lookup_insert_eq. by eapply lookup_lt_Some.
Qed.

(** Successive operations on the same engine. *)
Lemma wp_on_engine_next {A} dir i (m : M est A) (Q : A -> dst -> Prop) s v :
  is_Some (zlookup (engines dir v) i) ->
  wp m (fun a s' => Q a (unfocus_engine dir i s' v)) s ->
  wp (on_engine dir i m) Q (unfocus_engine dir i s v).
Proof.
  intros He Hm. eapply wp_on_engine; [by apply lookup_unfocus|]. rewrite focus_unfocus.
  eapply wp_mono; [exact Hm|]. cbn beta. intros a s'. by rewrite unfocus_unfocus.
Qed.

(** ** The table of a user buffer can be mapped *)

Section rw.
Context `{PinOk} `{!DmaOk} `{Sched}.

Lemma zsum_take_le (l : list Z) n : Forall (Z.le 0) l -> zsum (take n l) <= zsum l.
Proof.
  intros Hl. rewrite <-(take_drop n l) at 2. rewrite zsum_app.
  enough (0 <= zsum (drop n l)) by lia.
  assert (Forall (Z.le 0) (drop n l)) as Hd by (by apply Forall_drop).
  induction Hd; unfold zsum in *; cbn; lia.
Qed.

Lemma buf_entries_ok pages buf len sgl :
  covers pages buf len sgl -> pages_ok (Z.of_nat (length pages)) pages ->
  Forall (fun sg => 0 <= sg.1 /\ 0 < sg.2 <= PAGE_SIZE /\ sg.1 + sg.2 < 2 ^ 64) sgl /\ length sgl = length pages.
Proof.
  intros [_ _ Hp] Hok. split; [|symmetry; by eapply Forall2_length].
  apply Forall_lookup. intros k [addr n] Hk.
  destruct (Forall2_lookup_r _ _ _ _ _ Hp Hk) as (page & Hpage & Ha & Hn & He). cbn.
  assert (page_ok page) as [? ?].
  { apply (Hok (Z.of_nat k)); [apply lookup_lt_Some in Hpage; lia|]. unfold zlookup.
    destruct (Z.ltb_spec (Z.of_nat k) 0); [lia|]. by rewrite Nat2Z.id. }
  unfold PAGE_SIZE in *. lia.
Qed.

Lemma extra_small l blen : Forall (fun sg : Z * Z => sg.2 <= blen) l -> extra_of blen l = 0.
Proof.
  intros Hl. unfold extra_of. induction Hl as [|[a n] l Hn _ IH]; [done|]. cbn [map zsum foldr] in *. cbn in Hn.
  cbn [snd]. destruct (Z.ltb_spec blen n); [lia|]. unfold zsum in IH. lia.
Qed.

Lemma buf_mappable pages buf len sgl m :
  covers pages buf len sgl -> pages_ok (Z.of_nat (length pages)) pages ->
  0 <= m <= Z.of_nat (length pages) -> Z.of_nat (length pages) < 2 ^ 21 ->
  let g := mk_sgt sgl (Z.of_nat (length pages)) (Z.of_nat (length pages)) in
  mappable m g /\ total_bytes (mapped m g) <= len.
Proof.
  intros Hcv Hok Hm Hlen g. destruct (buf_entries_ok _ _ _ _ Hcv Hok) as [Hent Hl].
  pose proof dma_blen. pose proof dma_req. unfold PAGE_SIZE in *.
  assert (Forall (fun sg : Z * Z => sg.2 <= desc_blen_max) (entries (mapped m g))) as Hsmall.
  { apply Forall_take. eapply Forall_impl; [exact Hent|]. cbn. lia. }
  split; [split|].
  - lia.
  - split; [cbn; lia|]. eapply Forall_impl; [exact Hent|]. cbn. lia.
  - split; [lia|]. unfold req_size, max_sdesc, SW_DESC_SIZE. rewrite (extra_small _ _ Hsmall). cbn. lia.
  - unfold total_bytes, entries. cbn. rewrite <-(cv_total _ _ _ _ Hcv), <-firstn_map.
    apply zsum_take_le. apply Forall_map. eapply Forall_impl; [exact Hent|]. cbn. lia.
Qed.

(** ** The whole call *)

(** An engine of the device with an idle, memory-mapped engine, and the user's
    buffer. *)
Record rw_ok (xc : xdma_cdev) (cb buf count : Z) (dir : dma_dir) (i : Z) (e : xdma_engine) (v : dst) : Prop := {
  rw_engine : xc_engine xc = Some (dir, i);
  rw_lookup : zlookup (engines dir v) i = Some e;
  rw_dir : e_dir e = dir;
  rw_channel : e_channel e = i;
  rw_mm : mm_engine e;
  rw_idle : e_transfer_list e = [];
  rw_bars : is_Some (zlookup (d_bar (v_dev v)) (d_config_bar_idx (v_dev v)));
  rw_fresh : v_sgts v !! cb = None;
  rw_buf : 0 <= buf;
  rw_count : 0 < count < 2 ^ 32;
  rw_end : buf + count + PAGE_SIZE <= 2 ^ 64
}.

(** Nothing of the call is left: as many references to each page were given back
    as were taken. *)
Record rw_done (cb : Z) (s s' : est) : Prop := {
  rd_mm : mm_engine (s_eng s');
  rd_queue : queue s' = [];
  rd_dev : s_xdev s' = s_xdev s;
  rd_reqs : s_reqs s' ⊆ s_reqs s;
  rd_sgt : s_sgts s' !! cb = None;
  rd_refs : same_refs (s_log s) (s_log s')
}.

Lemma wp_select_engine (write : bool) channel (m : M est Z) dir i s v (Q : Z -> dst -> Prop) :
  is_Some (zlookup (engines dir v) i) -> dir = (if write then DMA_TO_DEVICE else DMA_FROM_DEVICE) ->
  channel = i ->
  (forall rv, rv < 0 -> Q rv (unfocus_engine dir i s v)) ->
  wp m (fun rv s' => Q rv (unfocus_engine dir i s' v)) s ->
  wp (select_engine write channel m) Q (unfocus_engine dir i s v).
Proof.
  intros Hi Hdir -> Hneg Hm. unfold select_engine, select_channel, get_dev. apply wp_bind, wp_gets, wp_bind.
  apply (wp_mono _ (fun rv v' => v' = unfocus_engine dir i s v)).
  { unfold check_hndl, debug_check_dev_hndl, xdev_find_by_pdev. apply wp_bind, wp_get.
    destruct (_ =? 0); [by apply wp_ret|]. destruct (_ =? 0); [by apply wp_ret|].
    apply wp_bind, wp_bind, wp_get, wp_ret. destruct (find_pdev _ _); [|by apply wp_ret].
    destruct (_ =? _); by apply wp_ret. }
  intros rv ? ->. destruct (rv <? 0); [apply wp_ret; by apply Hneg|].
  apply wp_bind, wp_gets. destruct (_ <=? _); [apply wp_ret; by apply Hneg|].
  rewrite <-Hdir. by apply wp_on_engine_next.
Qed.

(** From the mapped buffer on: submit, unmap. *)
Lemma wp_rw_mapped cb buf count pos (write : bool) tmo dir i e s0 s v :
  irq_schedule -> mm_engine e -> e_transfer_list e = [] -> e_channel e = i ->
  dir = (if write then DMA_TO_DEVICE else DMA_FROM_DEVICE) ->
  dev_bars s0 -> is_Some (zlookup (engines dir v) i) -> s_eng s0 = e -> 0 < count < 2 ^ 32 ->
  0 <= buf -> buf + count + PAGE_SIZE <= 2 ^ 64 ->
  buf_mapped cb (new_cb buf count 0 (u64 pos) cb write false) s0 s ->
  wp (let* res := dev_xfer_submit i write (u64 pos) cb false tmo in
      on_engine dir i (char_sgdma_unmap_user_buf cb write) >>; ret res)
    (fun rv v' => (rv < 0 \/ 0 <= rv <= count) /\
       exists s', v' = unfocus_engine dir i s' v /\ rw_done cb s0 s')
    (unfocus_engine dir i s v).
Proof.
  intros Hs Hmm Hq Hch Hdir Hb Hi He Hcount Hbuf Hend [Hbo (pages & sgl & Hn & Hcv & Hpins & Hsgt & c' & Hc' & Hpc & Hnr & Hh)].
  destruct Hbo as [Ee Ed Ex Er _ _ _]. cbn [cb_buf cb_len new_cb] in *.
  assert (pages_ok (Z.of_nat (length pages)) pages) as Hpages.
  { unfold holds in Hh. rewrite Hpc, Hnr in Hh. apply Hh. }
  destruct (count_pages_spec buf count) as [_ Hlen]; try done. rewrite <-Hn in Hlen.
  set (n := Z.of_nat (length pages)) in *. set (g := mk_sgt sgl n n) in *.
  pose proof (dma_map (s_log s) cb n ltac:(lia)) as Hmap.
  destruct (buf_mappable pages buf count sgl (kernel (s_log s) "pci_map_sg" [cb; n]) Hcv Hpages Hmap ltac:(lia))
    as [Hmp Htot]. fold n g in Hmp, Htot.
  assert (holds c') as Hh' by done.
  assert (forall rv s1, s_cbs s1 = s_cbs s -> (rv < 0 \/ 0 <= rv <= count) ->
    mm_engine (s_eng s1) -> queue s1 = [] -> s_xdev s1 = s_xdev s0 -> s_reqs s1 ⊆ s_reqs s0 ->
    same_refs (s_log s) (s_log s1) ->
    wp (on_engine dir i (char_sgdma_unmap_user_buf cb write) >>; ret rv)
      (fun rv v' => (rv < 0 \/ 0 <= rv <= count) /\
         exists s', v' = unfocus_engine dir i s' v /\ rw_done cb s0 s') (unfocus_engine dir i s1 v)) as Hfin.
  { intros rv s1 Hc1 Hrv Hmm1 Hq1 Hd1 Hr1 Hl1. apply wp_bind, wp_on_engine_next; [done|].
    eapply wp_mono; [apply (wp_unmap_user_buf cb write s1 c'); [by rewrite Hc1|done]|].
    intros _ s2 [[Ee2 Ed2 _ Er2 _ _ _] Hs2 Hp2]. apply wp_ret. split; [done|]. exists s2. split; [done|].
    split; rewrite ?Ee2, ?Ed2, ?Er2; try done. intros p. rewrite Hp2, Hl1, Hpins. unfold held. rewrite Hpc, Hnr.
    rewrite take_ge by (unfold n; lia). lia. }
  apply wp_bind. unfold dev_xfer_submit. apply wp_select_engine; try done.
  { intros rv Hrv. apply Hfin; try done; [by left|by rewrite Ee, He|by rewrite Ee, He|by rewrite Er]. }
  eapply wp_mono; [apply wp_submit_steady, (wp_submit write (u64 pos) cb tmo s g); try done|].
  - by rewrite Ee, He.
  - unfold dev_bars. by rewrite Ed.
  - by rewrite Ee, He.
  - apply u64_range.
  - intros rv s1 [[_ Hl1%extends_refs] [Hrv [Hq1 Hmm1 Hd1 Hr1 Hc1 _]]]. apply Hfin; try done.
    + destruct Hrv as [|Hrv]; [by left|]. right. change (map_answer s cb g) with (kernel (s_log s) "pci_map_sg" [cb; n]) in Hrv. lia.
    + by rewrite Hd1.
    + by rewrite <-Er.
Qed.

(** The call, seen from its engine. *)
Lemma wp_read_write h2c_timeout c2h_timeout xc cb buf count pos write dir i e v :
  irq_schedule -> rw_ok xc cb buf count dir i e v ->
  wp (char_sgdma_read_write h2c_timeout c2h_timeout (Some xc) cb buf count pos write)
    (fun rv v' => (rv < 0 \/ 0 <= rv <= count) /\ exists s', v' = unfocus_engine dir i s' v /\
       rw_done cb (focus_engine e v) s') v.
Proof.
  intros Hs [Hxe Hl Hd Hch Hmm Hq Hb Hf Hbuf Hcount Hend].
  assert (rw_done cb (focus_engine e v) (focus_engine e v)) as Hnone by (by split).
  match goal with |- wp ?m ?Q _ => refine (eq_ind _ (wp m Q) _ _ (unfocus_focus dir i e v Hl)) end.
  assert (is_Some (zlookup (engines dir v) i)) as Hi by eauto. set (s0 := focus_engine e v) in *.
  unfold char_sgdma_read_write, on_cdev. rewrite Hxe. apply wp_bind.
  apply (wp_mono _ (fun rv v' => (rv < 0 \/ rv = 0) /\ v' = unfocus_engine dir i s0 v)).
  { unfold cdev_check, cdev_engine, get_dev, get_engine. rewrite Hxe. apply wp_bind, wp_gets, wp_bind, wp_bind, wp_bind, wp_get.
    eapply wp_deref; [by apply lookup_unfocus|]. do 2 apply wp_ret. split; [|done]. unfold xcdev_check.
    destruct (negb _); [by left|]. destruct (_ || _); [by left|]. destruct (_ =? _); [by right|by left]. }
  intros rv ? [Hrv ->]. assert (forall r, r < 0 -> wp (ret r) (fun rv v' => (rv < 0 \/ 0 <= rv <= count) /\
    exists s', v' = unfocus_engine dir i s' v /\ rw_done cb s0 s') (unfocus_engine dir i s0 v)) as Hret.
  { intros r Hr. apply wp_ret. split; [by left|]. by exists s0. }
  destruct (Z.ltb_spec rv 0); [by apply Hret|]. apply wp_bind, wp_on_engine_next; [done|]. apply wp_get_eng.
  change (s_eng s0) with e. destruct (wrong_dir e write) eqn:Hwd; [by apply Hret|].
  assert (dir = if write then DMA_TO_DEVICE else DMA_FROM_DEVICE) as Hdir.
  { unfold wrong_dir in Hwd. rewrite Hd in Hwd. by destruct write, dir. }
  cbv zeta. destruct (negb (check_transfer_align _ _ _ _ _ =? 0)) eqn:Hal.
  { apply Hret. unfold check_transfer_align in *. repeat case_match; try done. }
  apply wp_bind, wp_on_engine_next; [done|]. apply wp_modify.
  set (c := new_cb buf count 0 (u64 pos) cb write false). set (s1 := set_s_cbs _ s0).
  assert (fresh_buf cb c s1) as Hfresh by (split; try done; apply lookup_insert_eq).
  apply wp_bind, wp_on_engine_next; [done|]. eapply wp_mono; [by apply (wp_map_user_buf cb c write s1)|].
  cbv beta. intros rv1 s2 [(Hneg & [Ee2 Ed2 _ Er2 _ _ _] & Hs2 & Hl2)|[-> Hmapped]].
  - destruct (Z.ltb_spec rv1 0); [|lia]. apply wp_ret. split; [by left|]. exists s2. split; [done|].
    split; rewrite ?Ee2, ?Ed2, ?Er2; done.
  - cbn [Z.ltb Z.compare]. rewrite Hch.
    assert (s_eng s1 = e) as He1 by reflexivity. assert (dev_bars s1) as Hb1 by exact Hb.
    pose proof (wp_rw_mapped cb buf count pos write (timeout h2c_timeout c2h_timeout write) dir i e s1 s2 v
      Hs Hmm Hq Hch Hdir Hb1 Hi He1 Hcount Hbuf Hend Hmapped) as Hwp.
    eapply wp_mono; [exact Hwp|].
    intros rv2 v2 [Hrv2 (s3 & -> & [? ? ? ? ? ?])]. split; [done|]. by exists s3.
Qed.

(** C3: [char_sgdma_read] and [char_sgdma_write] in interrupt mode, on an idle
    engine whose device moves memory, identifies itself at every read and answers
    statuses whose text fits in the driver's buffer ([mm_engine]), for every other
    behaviour of the device, every failure of the kernel (allocation, pinning,
    mapping) and every schedule of interrupts and of [xdma_device_offline]: the
    call returns, stays inside its arrays, reports an error or at most [count]
    bytes, and leaves the queue of the engine empty, no request and no table
    behind; for every page of memory it gave back as many references as it took;
    only this engine and the stores it shares with the others change. *)
Theorem char_sgdma_read_write_safe h2c_timeout c2h_timeout xc cb buf count pos write dir i e v :
  irq_schedule -> rw_ok xc cb buf count dir i e v ->
  exists rv s', char_sgdma_read_write h2c_timeout c2h_timeout (Some xc) cb buf count pos write v
      = Some (rv, unfocus_engine dir i s' v) /\
    (rv < 0 \/ 0 <= rv <= count) /\ rw_done cb (focus_engine e v) s'.
Proof.
  intros Hs Hok. pose proof (wp_read_write h2c_timeout c2h_timeout xc cb buf count pos write dir i e v Hs Hok) as Hwp.
  apply wp_iff in Hwp as (rv & v' & Hrun & Hrv & s' & -> & Hdn). by exists rv, s'.
Qed.
End rw.

(** ** Witnesses *)

(** A device that completes two descriptors, and a kernel with memory. *)
Definition rw_env : Env := {|
  io_read _ a :=
    if a =? 0x1000 then 0x1fc10000
    else if a =? 0x1000 + offsetof engine_regs "completed_desc_count" then 2 else 0;
  kernel _ f args :=
    if String.eqb f "pinned page" then
      match args with [i] => if (0 <=? i) && (i <? 16) then 0x100000 + 0x2000 * i else 0x200000 | _ => 1 end
    else if String.eqb f "get_user_pages_fast" then match args with [_; n; _] => n | _ => 0 end
    else if String.eqb f "pci_map_sg" then match args with [_; n] => n | _ => 0 end
    else if String.eqb f "kzalloc" then 40 else if String.eqb f "kcalloc" then 50 else 0;
  poll_mode := false;
  interrupt_mode := 0;
  enable_st_c2h_credit := false;
  desc_blen_max := XDMA_DESC_BLEN_MAX;
  HZ := 250;
  SIZEOF_REQ := 400
|}.

Lemma rw_pin : @PinOk rw_env.
Proof.
  split; [done|]. intros lg i. cbn -[Z.leb Z.ltb]. unfold page_ok, PAGE_SIZE.
  destruct (Z.leb_spec 0 i), (Z.ltb_spec i 16); cbn [andb]; lia.
Qed.

Lemma rw_dma : @DmaOk rw_env.
Proof. split; [|by vm_compute|by vm_compute]. intros lg g n Hn. cbn. lia. Qed.

Definition rw_cdev : xdma_cdev := mk_cdev MAGIC_CHAR 77 1 0 (Some (DMA_FROM_DEVICE, 0)) None.

(** The run: 24 bytes that cross a page. *)
Example read_delivers :
  match @char_sgdma_read_write rw_env one_interrupt 10 10 (Some rw_cdev) 9 0x1ff8 24 0x100 false demo_dst with
  | Some (rv, v') => rv = 24 /\ v_sgts v' = ∅ /\ v_reqs v' = ∅
  | None => False
  end.
Proof. vm_compute. done. Qed.

Lemma rw_demo_ok : @rw_ok rw_env rw_cdev 9 0x1ff8 24 DMA_FROM_DEVICE 0 demo_c2h demo_dst.
Proof.
  split; try done.
  split; [exists (replicate 8 zero_desc); by split| |done|done|by intros].
  apply c2h_dump_ok; [done|cbn; lia].
Qed.

(** The hypotheses hold for an H2C engine too, when the device answers a status
    whose text fits: this one answers 0. *)
Definition rw_h2c_cdev : xdma_cdev := mk_cdev MAGIC_CHAR 77 1 0 (Some (DMA_TO_DEVICE, 0)) None.

Lemma rw_demo_write_ok :
  @rw_ok rw_env rw_h2c_cdev 9 0x1ff8 24 DMA_TO_DEVICE 0 (demo_engine DMA_TO_DEVICE 8) demo_dst.
Proof.
  split; try done.
  split; [exists (replicate 8 zero_desc); by split| |done|done|by intros].
  intros st Hst. assert (st = 0) as -> by (by destruct Hst as [->|(lg & f & [->| ->] & ->)]).
  apply h2c_dump_fits; [done|cbn; lia|done].
Qed.

Example write_delivers :
  match @char_sgdma_read_write rw_env one_interrupt 10 10 (Some rw_h2c_cdev) 9 0x1ff8 24 0x100 true demo_dst with
  | Some (rv, v') => rv = 24 /\ v_sgts v' = ∅ /\ v_reqs v' = ∅
  | None => False
  end.
Proof. vm_compute. done. Qed.

Lemma char_sgdma_read_write_safe_witness :
  exists rv s', @char_sgdma_read_write rw_env one_interrupt 10 10 (Some rw_cdev) 9 0x1ff8 24 0x100 false demo_dst
      = Some (rv, unfocus_engine DMA_FROM_DEVICE 0 s' demo_dst) /\
    (rv < 0 \/ 0 <= rv <= 24) /\ @rw_done rw_env 9 (focus_engine demo_c2h demo_dst) s'.
Proof.
  apply (@char_sgdma_read_write_safe rw_env rw_pin rw_dma one_interrupt 10 10 rw_cdev 9 0x1ff8 24 0x100 false
    DMA_FROM_DEVICE 0 demo_c2h demo_dst); [by intros lg|apply rw_demo_ok].
Defined.

(** Two pages at 0x1ff8. *)
Definition demo_cb : xdma_io_cb := new_cb 0x1ff8 24 0 0x100 9 false false.
Definition buf_state : est := set_s_cbs {[ 9 := demo_cb ]} (demo_state DMA_FROM_DEVICE 8).


Lemma check_transfer_align_spec_witness :
  check_transfer_align (set_e_addr_align 4 demo_c2h) 0x1002 16 2 true = 0.
Proof.
  rewrite (check_transfer_align_spec (set_e_addr_align 4 demo_c2h) 0x1002 16 2 2 0); try done; lia.
Defined.
