(* ===== verification/ApertureIoctl.v ===== *)
(** * ApertureIoctl: the aperture ioctl of a DMA character device

    [ioctl_do_aperture_dma] from the argument of the user to the answer: mapping
    of the buffer, the transfer through the window, and unmapping. *)

From S2P Require Import Prelude Hw State Desc Engine Service Request Fixtures Chain ServiceSpec ServiceProps RequestSpec QueueProps Submit SubmitSpec SubmitProps Aperture ApertureProps ApertureCall Steady SyncFrame Dev DevFixtures Thread Device CdevSgdma SgdmaProps RwProps.

Section ioctl.
Context `{PinOk} `{!DmaOk} `{Sched}.

(** ** The table of the buffer *)

(** The pieces of a buffer fit between the next slot and the end of the ring. *)
Definition buf_fits (e : xdma_engine) (io : aperture_ioctl) : Prop :=
  e_desc_idx e + pages_of (io_buffer io) (io_len io) +
    hops (io_aperture io) (Z.min (io_aperture io) desc_blen_max) 0 (io_len io) <= e_desc_max e.

Lemma buf_call_ok pages sgl io m e :
  let n := Z.of_nat (length pages) in let g := mk_sgt sgl n n in
  SgdmaProps.covers pages (io_buffer io) (io_len io) sgl -> pages_ok n pages -> 0 <= m <= n ->
  n = pages_of (io_buffer io) (io_len io) -> io_len io < 2 ^ 32 ->
  window_ok (io_ep_addr io) (io_aperture io) (Z.min (io_aperture io) desc_blen_max) -> buf_fits e io ->
  ap_call_ok (io_ep_addr io) (io_aperture io) m e g /\
  0 <= table_total (entries (mapped m g)) <= io_len io /\ (m = n -> table_total (entries (mapped m g)) = io_len io).
Proof.
  intros n g Hcv Hp Hm Hn Hlen Hw Hfit. destruct (buf_entries_ok _ _ _ _ Hcv Hp) as [Hent Hl].
  pose proof dma_blen. unfold PAGE_SIZE in *.
  assert (Forall entry_ok sgl) as Hall.
  { eapply Forall_impl; [exact Hent|]. intros [addr len] (? & ? & ?). unfold entry_ok. cbn in *. lia. }
  assert (Forall entry_ok (entries (mapped m g))) as Hok by (by apply Forall_take).
  assert (table_total sgl = io_len io) as Htot by exact (SgdmaProps.cv_total _ _ _ _ Hcv).
  assert (table_total (entries (mapped m g)) <= io_len io) as Hle.
  { rewrite <-Htot. by apply table_total_take. }
  assert (length (entries (mapped m g)) <= length pages)%nat as Hlt.
  { unfold entries. rewrite length_take. cbn. lia. }
  pose proof (table_total_nonneg _ Hok) as Hnn.
  split_and!; [split; try done; try lia|done|done|].
  - cbn. lia.
  - unfold ap_fits, buf_fits in *. pose proof (hops_mono _ _ _ 0 _ _ Hw (conj Hnn Hle)). lia.
  - intros ->. unfold entries. cbn. rewrite (firstn_all2 sgl); [done|]. unfold n. lia.
Qed.

(** ** The ioctl *)

(** The argument in user memory, which does not change during the call. *)
Definition user_window (arg : Z) (io : aperture_ioctl) : Prop := forall lg,
  u64 (kernel lg "user aperture ep_addr" [arg]) = io_ep_addr io /\
  u32 (kernel lg "user aperture aperture" [arg]) = io_aperture io /\
  u64 (kernel lg "user aperture buffer" [arg]) = io_buffer io /\
  u64 (kernel lg "user aperture len" [arg]) = io_len io.

Lemma wp_read_aperture arg io s (Q : aperture_ioctl -> est -> Prop) :
  user_window arg io -> (forall lg, same_refs (s_log s) lg -> Q io (set_log lg s)) -> wp (read_aperture arg) Q s.
Proof.
  intros Hio HQ. unfold read_aperture. apply wp_bind, wp_kcall, wp_bind, wp_kcall, wp_bind, wp_kcall,
    wp_bind, wp_kcall, wp_bind, wp_kcall, wp_ret.
  match goal with |- Q (mk_ap_ioctl (u64 (kernel ?l1 _ _)) (u32 (kernel ?l2 _ _)) (u64 (kernel ?l3 _ _)) (u64 (kernel ?l4 _ _))) _ =>
    destruct (Hio l1) as (-> & _), (Hio l2) as (_ & -> & _), (Hio l3) as (_ & _ & -> & _), (Hio l4) as (_ & _ & _ & ->) end.
  destruct io. apply (HQ (_ :: _ :: _ :: _ :: _ :: s_log s)). auto 10 with events.
Qed.

(** What the call relies on: the buffer and the window lie in their address
    spaces, and the pieces fit in the ring. *)
Record io_ok (e : xdma_engine) (io : aperture_ioctl) : Prop := {
  io_buf : 0 <= io_buffer io;
  io_count : 0 < io_len io < 2 ^ 32;
  io_end : io_buffer io + io_len io + PAGE_SIZE <= 2 ^ 64;
  io_window : window_ok (io_ep_addr io) (io_aperture io) (Z.min (io_aperture io) desc_blen_max);
  io_fits : buf_fits e io
}.

(** What the user is told: an error, or the number of bytes. *)
Definition io_told (arg : Z) (io : aperture_ioctl) (cb rv : Z) (s' : est) : Prop :=
  rv < 0 \/
  exists res lg, rv = 0 /\ s_log s' = EvCall "copy_to_user aperture" [arg; 0; res] 0 :: lg /\ 0 <= res <= io_len io /\
    ((forall lg n, kernel lg "pci_map_sg" [cb; n] = n) -> res = io_len io).

(** From the mapped buffer on. *)
Lemma wp_aperture_mapped fuel cb arg (write : bool) tmo io s0 s :
  irq_schedule -> mm_engine (s_eng s0) -> dev_bars s0 -> queue s0 = [] -> (0 < fuel)%nat -> io_ok (s_eng s0) io ->
  buf_mapped cb (new_cb (io_buffer io) (io_len io) 0 (io_ep_addr io) cb write false) s0 s ->
  wp (let* res := xdma_xfer_aperture fuel write (io_ep_addr io) (io_aperture io) cb false tmo in
      char_sgdma_unmap_user_buf cb write >>;
      let error := if res <? 0 then s32 res else 0 in
      kdo "copy_to_user aperture" (if res <? 0 then [arg; error] else [arg; error; res]) >>;
      ret error)
    (fun rv s' => io_told arg io cb rv s' /\ rw_done cb s0 s') s.
Proof.
  intros Hs Hmm Hb Hq Hf [Hbuf Hlen Hend Hwin Hfit] [Hbo (pages & sgl & Hn & Hcv & Hpins & Hsgt & c' & Hc' & Hpc & Hnr & Hh)].
  destruct Hbo as [Ee Ed Ex Er _ _ _]. cbn [cb_buf cb_len new_cb] in *.
  assert (pages_ok (Z.of_nat (length pages)) pages) as Hpages.
  { unfold holds in Hh. rewrite Hpc, Hnr in Hh. apply Hh. }
  set (n := Z.of_nat (length pages)) in *. set (g := mk_sgt sgl n n) in *.
  pose proof (dma_map (s_log s) cb n ltac:(lia)) as Hmap.
  destruct (buf_call_ok pages sgl io (map_answer s cb g) (s_eng s0)) as (Hcall & Htot & Hfull); try done; try lia.
  fold n g in Hcall, Htot, Hfull.
  apply wp_bind. eapply wp_mono; [apply wp_aperture_steady, (wp_xfer_aperture fuel write _ _ cb tmo s g)|]; try done.
  - by rewrite Ee.
  - unfold dev_bars. by rewrite Ed.
  - by rewrite Ee.
  - intros _. by rewrite Ee.
  - intros res s1 [[_ Hl1%extends_refs] [Hres [Hq1 Hmm1 Hd1 Hr1 Hc1 _]]].
    apply wp_bind. eapply wp_mono; [apply (wp_unmap_user_buf cb write s1 c'); [by rewrite Hc1|done]|].
    intros _ s2 [[Ee2 Ed2 _ Er2 _ _ _] Hs2 Hp2]. apply wp_bind, wp_kdo, wp_ret. split.
    + destruct Hres as [Hneg| ->].
      * left. destruct (Z.ltb_spec res 0); [|lia]. rewrite s32_small; lia.
      * right. destruct (Z.ltb_spec (table_total (entries (mapped (map_answer s cb g) g))) 0); [lia|].
        eexists _, _. split; [done|]. split; [reflexivity|]. split; [done|]. intros Hk. apply Hfull, Hk.
    + split; cbn [s_eng s_xdev s_reqs s_sgts set_log est_log]; rewrite ?Ee2, ?Ed2, ?Er2; try done.
      * by rewrite Hd1.
      * by rewrite <-Er.
      * apply same_refs_cons; [done|]. intros p. rewrite Hp2, Hl1, Hpins. unfold held. rewrite Hpc, Hnr.
        rewrite take_ge by (unfold n; lia). lia.
Qed.

Lemma wp_aperture_ioctl h2c_timeout c2h_timeout fuel cb arg write io s :
  irq_schedule -> mm_engine (s_eng s) -> dev_bars s -> queue s = [] -> s_sgts s !! cb = None ->
  (0 < fuel)%nat -> user_window arg io -> io_ok (s_eng s) io ->
  wp (ioctl_do_aperture_dma h2c_timeout c2h_timeout fuel cb arg write)
    (fun rv s' => io_told arg io cb rv s' /\ rw_done cb s s') s.
Proof.
  intros Hs Hmm Hb Hq Hcb Hf Hu Hio.
  unfold ioctl_do_aperture_dma. apply wp_bind, (wp_read_aperture arg io); [done|]. intros lg Hlg.
  assert (forall rv, rv < 0 -> wp (ret rv) (fun rv s' => io_told arg io cb rv s' /\ rw_done cb s s') (set_log lg s)) as Hret.
  { intros rv Hrv. apply wp_ret. split; [by left|]. by split. }
  apply wp_bind, wp_get_eng. destruct (wrong_dir _ _); [by apply Hret|]. cbv zeta.
  destruct (negb (check_transfer_align _ _ _ _ _ =? 0)) eqn:Hal.
  { apply Hret. unfold check_transfer_align in *. repeat case_match; try done. }
  apply wp_bind, wp_modify. set (c := new_cb _ _ _ _ _ _ _). set (s1 := set_s_cbs _ _).
  assert (fresh_buf cb c s1) as Hfresh by (destruct Hio; split; try done; apply lookup_insert_eq).
  apply wp_bind. eapply wp_mono; [by apply (wp_map_user_buf cb c write s1)|].
  cbv beta. intros rv1 s2 [(Hneg & [Ee2 Ed2 _ Er2 _ _ _] & Hs2 & Hl2)|[-> Hmapped]].
  - destruct (Z.ltb_spec rv1 0); [|lia]. apply wp_ret. split; [by left|].
    split; rewrite ?Ee2, ?Ed2, ?Er2; try done. by etrans.
  - cbn [Z.ltb Z.compare]. eapply wp_mono; [by apply (wp_aperture_mapped fuel cb arg write _ io s1 s2)|].
    intros rv s3 [Htold [? ? ? ? ? ?]]. split; [done|]. split; try done. by etrans.
Qed.

(** C11: the aperture ioctl in interrupt mode on an idle engine whose device moves
    memory, identifies itself at every read and answers statuses whose text fits in
    the driver's buffer ([mm_engine]), for an argument in user memory that does not
    change during the call and names a buffer and a window inside of their address
    spaces whose pieces fit in the ring: it returns; the user sees an error, or 0
    and a number of bytes, which is the whole buffer when the kernel maps all of
    its pages; no request, table or queued transfer is left, and for every page of
    memory as many references were given back as were taken. *)
Theorem ioctl_do_aperture_dma_safe h2c_timeout c2h_timeout fuel cb arg write io s :
  irq_schedule -> mm_engine (s_eng s) -> dev_bars s -> queue s = [] -> s_sgts s !! cb = None ->
  (0 < fuel)%nat -> user_window arg io -> io_ok (s_eng s) io ->
  exists rv s', ioctl_do_aperture_dma h2c_timeout c2h_timeout fuel cb arg write s = Some (rv, s') /\
    io_told arg io cb rv s' /\ rw_done cb s s'.
Proof.
  intros Hs Hmm Hb Hq Hcb Hf Hu Hio.
  apply (wp_iff (ioctl_do_aperture_dma h2c_timeout c2h_timeout fuel cb arg write)
    (fun rv s' => io_told arg io cb rv s' /\ rw_done cb s s')).
  by apply wp_aperture_ioctl.
Qed.
End ioctl.

(** ** Witness *)

(** 24 bytes at 0x1ff8, which cross a page, through a window of 16 bytes at 0x100. *)
Definition demo_io : aperture_ioctl := mk_ap_ioctl 0x100 16 0x1ff8 24.

(** A device that completes three descriptors, and a user with this argument at 0x50. *)
Definition ioctl_env : Env := {|
  io_read _ a :=
    if a =? 0x1000 then 0x1fc10000
    else if a =? 0x1000 + offsetof engine_regs "completed_desc_count" then 3 else 0;
  kernel lg f args :=
    if String.eqb f "user aperture ep_addr" then 0x100
    else if String.eqb f "user aperture aperture" then 16
    else if String.eqb f "user aperture buffer" then 0x1ff8
    else if String.eqb f "user aperture len" then 24
    else @kernel rw_env lg f args;
  poll_mode := false;
  interrupt_mode := 0;
  enable_st_c2h_credit := false;
  desc_blen_max := XDMA_DESC_BLEN_MAX;
  HZ := 250;
  SIZEOF_REQ := 400
|}.

Definition run_ioctl := @ioctl_do_aperture_dma ioctl_env one_interrupt 10 10 1 9 0x50 false (demo_state DMA_FROM_DEVICE 8).

Example ioctl_delivers :
  match run_ioctl with
  | Some (rv, s') => rv = 0 /\ head (s_log s') = Some (EvCall "copy_to_user aperture" [0x50; 0; 24] 0)
  | None => False
  end.
Proof. vm_compute. done. Qed.

Lemma ioctl_pin : @PinOk ioctl_env.
Proof.
  split; [done|]. intros lg i. cbn -[Z.leb Z.ltb]. unfold page_ok, PAGE_SIZE.
  destruct (Z.leb_spec 0 i), (Z.ltb_spec i 16); cbn [andb]; lia.
Qed.

Lemma ioctl_dma : @DmaOk ioctl_env.
Proof. split; [|by vm_compute|by vm_compute]. intros lg g n Hn. cbn. lia. Qed.

Lemma ioctl_mm : @mm_engine ioctl_env (demo_engine DMA_FROM_DEVICE 8).
Proof.
  split; [exists (replicate 8 zero_desc); apply demo_ring_ok| |done|done|by intros].
  apply c2h_dump_ok; [done|cbn; lia].
Qed.

Lemma ioctl_do_aperture_dma_safe_witness :
  exists rv s', run_ioctl = Some (rv, s') /\ @io_told ioctl_env 0x50 demo_io 9 rv s' /\
    @rw_done ioctl_env 9 (demo_state DMA_FROM_DEVICE 8) s'.
Proof.
  apply (@ioctl_do_aperture_dma_safe ioctl_env ioctl_pin ioctl_dma one_interrupt 10 10 1 9 0x50 false demo_io
    (demo_state DMA_FROM_DEVICE 8)).
  - by intros lg.
  - apply ioctl_mm.
  - by eexists.
  - done.
  - done.
  - lia.
  - by intros lg.
  - split; [cbn; lia|cbn; lia|by vm_compute|split; by vm_compute|by vm_compute].
Defined.
