(* ===== verification/DmaTools.v ===== *)
(** * DmaTools: dma_to_device and dma_from_device

    [tools/dma_to_device.c], [tools/dma_from_device.c]: a number of transfers
    between a file and the device.  The options are the answers of [getopt_long];
    the allocated memory is a list of bytes whose initial content is an argument.
    Messages are left out, the times that they report are computed. *)

From Stdlib Require Import Ascii.
From stdpp Require Import strings.
From S2P Require Import Prelude Bytes Hw State Desc Engine Dev CdevSgdma Posix Tools.

Definition OUT_FLAGS := Z.lor O_RDWR (Z.lor O_CREAT (Z.lor O_TRUNC O_SYNC)).

(** The variables of the loop over the transfers; [rc] is uninitialised at first
    in [dma_to_device.c]. *)
Record dma_vars := mk_vars {
  dv_rc : option Z;
  dv_buffer : list Z;
  dv_bytes_done : Z;
  dv_out_offset : Z;
  dv_underflow : bool;
  dv_total_time : Z
}.

Section transfers.
Context {Os : Type} `{Posix Os}.

(** A transfer through an aperture: the result or [None] on an error, the bytes
    done and the buffer. *)
Definition aperture_transfer (fd cmd addr aperture size : Z) (buffer : list Z) : M Os (Z * bool * Z * list Z) :=
  let* data := deref (mem_read buffer 0 size) in
  let* '(rc, error, done, data) := sys (sys_aperture fd cmd addr aperture data) in
  let* buffer := deref (mem_write buffer 0 data) in
  ret (rc, (rc <? 0) || negb (error =? 0), u64 done, buffer).

(** After a transfer: the times, and whether it was shorter than asked for. *)
Definition account (start : Z * Z) (size done : Z) (buffer : list Z) (v : dma_vars) : M Os dma_vars :=
  let* stop := sys sys_clock in
  let ts := timespec_sub (mk_ts stop.1 stop.2) (mk_ts start.1 start.2) in
  ret (mk_vars (Some 0) buffer done (dv_out_offset v) (dv_underflow v || (done <? size))
         (s64 (dv_total_time v + tv_nsec ts))).

(** The copy of the buffer to a file; the flag: leave the loop. *)
Definition save (out_fd : Z) (v : dma_vars) : M Os (bool * dma_vars) :=
  if out_fd <? 0 then ret (false, v)
  else
    let* rc := write_from_buffer out_fd (dv_buffer v) (dv_bytes_done v) (dv_out_offset v) in
    if (rc <? 0) || (u64 rc <? dv_bytes_done v)
    then ret (true, mk_vars (Some rc) (dv_buffer v) (dv_bytes_done v) (dv_out_offset v) (dv_underflow v) (dv_total_time v))
    else ret (false, mk_vars (Some rc) (dv_buffer v) (dv_bytes_done v) (u64 (dv_out_offset v + dv_bytes_done v))
                       (dv_underflow v) (dv_total_time v)).

Definition stop_with (rc : Z) (buffer : list Z) (v : dma_vars) : bool * dma_vars :=
  (true, mk_vars (Some rc) buffer (dv_bytes_done v) (dv_out_offset v) (dv_underflow v) (dv_total_time v)).

(** One turn of the loop of [dma_to_device.c]. *)
Definition to_step (fpga_fd out_fd addr aperture size : Z) (v : dma_vars) : M Os (bool * dma_vars) :=
  let* start := sys sys_clock in
  if negb (aperture =? 0) then
    let* '(rc, error, done, buffer) := aperture_transfer fpga_fd IOCTL_XDMA_APERTURE_W addr aperture size (dv_buffer v) in
    if error : bool then ret (stop_with rc buffer v)
    else let* v := account start size done buffer v in save out_fd v
  else
    let* rc := write_from_buffer fpga_fd (dv_buffer v) size addr in
    if rc <? 0 then ret (stop_with rc (dv_buffer v) v)
    else let* v := account start size (u64 rc) (dv_buffer v) v in save out_fd v.

(** One turn of the loop of [dma_from_device.c]. *)
Definition from_step (fpga_fd out_fd addr aperture size : Z) (v : dma_vars) : M Os (bool * dma_vars) :=
  let* start := sys sys_clock in
  if negb (aperture =? 0) then
    let* '(rc, error, done, buffer) := aperture_transfer fpga_fd IOCTL_XDMA_APERTURE_R addr aperture size (dv_buffer v) in
    if error : bool then ret (stop_with rc buffer v)
    else let* v := account start size done buffer v in save out_fd v
  else
    let* '(rc, buffer) := read_to_buffer fpga_fd (dv_buffer v) size addr in
    if rc <? 0 then ret (stop_with rc buffer v)
    else let* v := account start size (u64 rc) buffer v in save out_fd v.

(** [for (i = 0; i < count; i++)] *)
Fixpoint dma_loop (step : dma_vars -> M Os (bool * dma_vars)) (count : nat) (v : dma_vars) : M Os (bool * dma_vars) :=
  match count with
  | O => ret (false, v)
  | S count =>
      let* '(stop, v) := step v in
      if stop : bool then ret (true, v) else dma_loop step count v
  end.

(** [open], for an optional name; [-1] without one. *)
Definition open_opt (name : option string) (flags : Z) : M Os Z :=
  match name with Some name => sys (sys_open name flags) | None => ret (- 1) end.
Definition given (name : option string) : bool := match name with Some _ => true | None => false end.

(** The label [out], and the result. *)
Definition close_all (fds : list Z) : M Os unit :=
  forM fds (fun fd => when (0 <=? fd) (let* _ := sys (sys_close fd) in ret tt)).

Definition to_result (rc : option Z) (underflow : bool) : M Os Z :=
  let* rc := deref rc in
  ret (if rc <? 0 then rc else if underflow then - EIO else 0).

(** [test_dma] of [dma_to_device.c] from the allocation on; [mem] is what the
    allocated memory holds. *)
Definition to_run (fpga_fd in_fd out_fd addr aperture size offset count : Z) (mem : list Z)
    : M Os (option Z * bool) :=
  let* allocated := sys (sys_memalign (u64 (size + 4096))) in
  if allocated =? 0 then ret (Some (- ENOMEM), false)
  else
    let buffer := drop (Z.to_nat offset) mem in
    let* '(stop, rc, buffer) :=
      if 0 <=? in_fd then
        let* '(rc, buffer) := read_to_buffer in_fd buffer size 0 in
        ret ((rc <? 0) || (u64 rc <? size), Some rc, buffer)
      else ret (false, None, buffer) in
    if stop : bool then ret (rc, false)
    else
      let* '(_, v) := dma_loop (to_step fpga_fd out_fd addr aperture size) (Z.to_nat count)
                        (mk_vars rc buffer 0 0 false 0) in
      ret (dv_rc v, dv_underflow v).

Definition to_device (devname : string) (addr aperture size offset count : Z)
    (infname ofname : option string) (mem : list Z) : M Os Z :=
  let* fpga_fd := sys (sys_open devname O_RDWR) in
  if fpga_fd <? 0 then ret (- EINVAL)
  else
    let* in_fd := open_opt infname O_RDONLY in
    if given infname && (in_fd <? 0) then
      close_all [fpga_fd] >>; to_result (Some (- EINVAL)) false
    else
      let* out_fd := open_opt ofname OUT_FLAGS in
      let* '(rc, underflow) :=
        if given ofname && (out_fd <? 0) then ret (Some (- EINVAL), false)
        else to_run fpga_fd in_fd out_fd addr aperture size offset count mem in
      close_all [fpga_fd; in_fd; out_fd] >>; to_result rc underflow.

(** [test_dma] of [dma_from_device.c] from the allocation on. *)
Definition from_run (eop_flush : bool) (fpga_fd out_fd addr aperture size offset count : Z) (mem : list Z)
    : M Os Z :=
  let* allocated := sys (sys_memalign (u64 (size + 4096))) in
  if allocated =? 0 then ret (- ENOMEM)
  else
    let* '(stop, v) := dma_loop (from_step fpga_fd out_fd addr aperture size) (Z.to_nat count)
                         (mk_vars (Some 0) (drop (Z.to_nat offset) mem) 0 0 false 0) in
    if stop : bool then deref (dv_rc v)
    else ret (if negb (dv_underflow v) then 0 else if eop_flush then 0 else - EIO).

Definition from_device (eop_flush : bool) (devname : string) (addr aperture size offset count : Z)
    (ofname : option string) (mem : list Z) : M Os Z :=
  let* fpga_fd := sys (sys_open devname (if eop_flush then Z.lor O_RDWR O_TRUNC else O_RDWR)) in
  if fpga_fd <? 0 then ret (- EINVAL)
  else
    let* out_fd := open_opt ofname OUT_FLAGS in
    let* rc :=
      if given ofname && (out_fd <? 0) then ret (- EINVAL)
      else from_run eop_flush fpga_fd out_fd addr aperture size offset count mem in
    close_all [fpga_fd; out_fd] >>; ret rc.

(** ** The options *)

(** The variables of both [main] functions. *)
Record dma_options := mk_opts {
  op_device : string; op_address : Z; op_aperture : Z; op_size : Z; op_offset : Z; op_count : Z;
  op_file : option string;   (** [-f] *)
  op_ofile : option string;  (** [-w] of [dma_to_device] *)
  op_eop_flush : bool        (** [-e] of [dma_from_device] *)
}.

Definition default_options (device : string) : dma_options :=
  mk_opts device 0 0 32 0 1 None None false.

(** One answer of [getopt_long]; [None]: the usage is printed and the program
    exits.  The integers may be uninitialised. *)
Definition dma_option (to : bool) (c : Ascii.ascii) (arg : string) (o : dma_options) : M Os (option dma_options) :=
  let integer (f : Z -> dma_options) := let* v := deref (getopt_integer arg) in ret (Some (f v)) in
  let '(mk_opts dev a k s off n f w e) := o in
  if Ascii.eqb c "d"%char then ret (Some (mk_opts arg a k s off n f w e))
  else if Ascii.eqb c "a"%char then integer (fun v => mk_opts dev v k s off n f w e)
  else if Ascii.eqb c "k"%char then integer (fun v => mk_opts dev a v s off n f w e)
  else if Ascii.eqb c "s"%char then integer (fun v => mk_opts dev a k v off n f w e)
  else if Ascii.eqb c "o"%char then integer (fun v => mk_opts dev a k s (Z.land v 4095) n f w e)
  else if Ascii.eqb c "c"%char then integer (fun v => mk_opts dev a k s off v f w e)
  else if Ascii.eqb c "f"%char then ret (Some (mk_opts dev a k s off n (Some arg) w e))
  else if to && Ascii.eqb c "w"%char then ret (Some (mk_opts dev a k s off n f (Some arg) e))
  else if negb to && Ascii.eqb c "e"%char then ret (Some (mk_opts dev a k s off n f w true))
  else if Ascii.eqb c "v"%char || Ascii.eqb c Ascii.zero then ret (Some o)
  else ret None.

Fixpoint dma_getopt (to : bool) (args : list (Ascii.ascii * string)) (o : dma_options) : M Os (option dma_options) :=
  match args with
  | [] => ret (Some o)
  | (c, arg) :: args =>
      let* r := dma_option to c arg o in
      match r with Some o => dma_getopt to args o | None => ret None end
  end.

Definition to_main (args : list (Ascii.ascii * string)) (mem : list Z) : M Os Z :=
  let* r := dma_getopt true args (default_options "/dev/xdma0_h2c_0") in
  match r with
  | None => ret 0
  | Some o => to_device (op_device o) (op_address o) (op_aperture o) (op_size o) (op_offset o) (op_count o)
                (op_file o) (op_ofile o) mem
  end.

Definition from_main (args : list (Ascii.ascii * string)) (mem : list Z) : M Os Z :=
  let* r := dma_getopt false args (default_options "/dev/xdma0_c2h_0") in
  match r with
  | None => ret 0
  | Some o => from_device (op_eop_flush o) (op_device o) (op_address o) (op_aperture o) (op_size o) (op_offset o)
                (op_count o) (op_file o) mem
  end.
End transfers.
