(* ===== verification/DmaToolsProps.v ===== *)
(** * DmaToolsProps: a file goes to the device and back

    [vfs] is a system of named files and open descriptors; a memory that keeps
    what is written to it is behind device nodes, each for one direction.  The theorem runs [dma_to_device] and then
    [dma_from_device] on it. *)

From Stdlib Require Import Ascii.
From stdpp Require Import strings.
From S2P Require Import Prelude Bytes Hw State Desc Engine Dev CdevSgdma Posix Tools DmaTools.

(** ** Named files *)

(** What a descriptor is for: the nodes of a DMA channel have one direction. *)
Inductive access := Both | ReadOnly | WriteOnly.

Record vfs := mk_vfs {
  f_nodes : gmap string (access * string);      (** device nodes, and the memory behind them *)
  f_files : gmap string (list Z);               (** the files and the memories *)
  f_fds : gmap Z (access * string * Z);         (** access, file and position *)
  f_next : Z
}.

Definition vfs_open (path : string) (flags : Z) (o : vfs) : Z * vfs :=
  let open_as acc key files :=
    (f_next o, mk_vfs (f_nodes o) files (<[f_next o := (acc, key, 0)]> (f_fds o)) (f_next o + 1)) in
  match f_nodes o !! path with
  | Some (acc, key) => open_as acc key (f_files o)
  | None =>
      match f_files o !! path with
      | Some c => open_as Both path (<[path := if has_bits flags O_TRUNC then [] else c]> (f_files o))
      | None => if has_bits flags O_CREAT then open_as Both path (<[path := []]> (f_files o)) else (- 1, o)
      end
  end.

(** The file of a descriptor. *)
Definition vfs_file (fd : Z) (o : vfs) : option (access * string * Z * list Z) :=
  match f_fds o !! fd with
  | Some (acc, name, p) => match f_files o !! name with Some c => Some (acc, name, p, c) | None => None end
  | None => None
  end.

Definition vfs_set (fd : Z) (acc : access) (name : string) (p : Z) (c : list Z) (o : vfs) : vfs :=
  mk_vfs (f_nodes o) (<[name := c]> (f_files o)) (<[fd := (acc, name, p)]> (f_fds o)) (f_next o).

#[export] Instance vfs_posix : Posix vfs := {
  sys_open := vfs_open;
  sys_close fd o :=
    match f_fds o !! fd with
    | Some _ => (0, mk_vfs (f_nodes o) (f_files o) (delete fd (f_fds o)) (f_next o))
    | None => (- 1, o)
    end;
  sys_lseek fd off o :=
    match vfs_file fd o with Some (acc, name, _, c) => (off, vfs_set fd acc name off c o) | None => (- 1, o) end;
  sys_read fd n o :=
    match vfs_file fd o with
    | Some (WriteOnly, _, _, _) | None => ((- 1, []), o)
    | Some (acc, name, p, c) =>
        let data := take (Z.to_nat n) (drop (Z.to_nat p) c) in
        ((Z.of_nat (length data), data), vfs_set fd acc name (p + Z.of_nat (length data)) c o)
    end;
  sys_write fd data o :=
    match vfs_file fd o with
    | Some (ReadOnly, _, _, _) | None => (- 1, o)
    | Some (acc, name, p, c) =>
        (Z.of_nat (length data), vfs_set fd acc name (p + Z.of_nat (length data)) (write_at c p data) o)
    end;
  sys_aperture _ _ _ _ buf o := ((- 1, 0, 0, buf), o);
  sys_clock o := ((0, 0), o);
  sys_memalign _ o := (4096, o);
  sys_mmap _ _ _ o := (- 1, o);
  sys_munmap _ _ o := (0, o);
  sys_load _ _ o := ([], o);
  sys_store _ _ o := o;
  sscanf _ _ := None
}.

(** Descriptor [fd] is open on [name], with everything else fixed. *)
Definition open_on (acc : access) (name : string) (nodes : gmap string (access * string))
    (files : gmap string (list Z)) (fds : gmap Z (access * string * Z)) (next : Z)
    (fd : Z) (c : list Z) (p : Z) (o : vfs) : Prop :=
  o = mk_vfs nodes (<[name := c]> files) (<[fd := (acc, name, p)]> fds) next /\ 0 <= p.

Lemma vfs_file_on acc name nodes files fds next fd c p :
  vfs_file fd (mk_vfs nodes (<[name := c]> files) (<[fd := (acc, name, p)]> fds) next) = Some (acc, name, p, c).
Proof. unfold vfs_file. cbn. by rewrite lookup_insert_eq, lookup_insert_eq. Qed.

Lemma vfs_set_on acc name nodes files fds next fd c p c' p' :
  vfs_set fd acc name p' c' (mk_vfs nodes (<[name := c]> files) (<[fd := (acc, name, p)]> fds) next) =
  mk_vfs nodes (<[name := c']> files) (<[fd := (acc, name, p')]> fds) next.
Proof. unfold vfs_set. cbn. by rewrite !insert_insert_eq. Qed.

#[export] Instance vfs_seek acc name nodes files fds next : SeekFile vfs (open_on acc name nodes files fds next).
Proof.
  split; unfold open_on; [|by intros fd c p o [_ Hp]].
  intros fd c p off o [-> Hp] Ho. cbn. rewrite vfs_file_on. eexists. split; [done|]. rewrite vfs_set_on. split; [done|lia].
Qed.

Lemma vfs_reads acc name nodes files fds next :
  acc <> WriteOnly -> ReadFile vfs (open_on acc name nodes files fds next).
Proof.
  unfold open_on. intros Ha fd c p n o [-> Hp] Hn. cbn. rewrite vfs_file_on.
  destruct acc; [..|done]; (eexists; split; [done|]; rewrite vfs_set_on; split; [done|lia]).
Qed.

Lemma vfs_writes acc name nodes files fds next :
  acc <> ReadOnly -> WriteFile vfs (open_on acc name nodes files fds next).
Proof.
  unfold open_on. intros Ha fd c p data o [-> Hp] Hn. cbn. rewrite vfs_file_on.
  destruct acc; [|done|]; (eexists; split; [done|]; rewrite vfs_set_on; split; [done|lia]).
Qed.

#[export] Instance vfs_read_both name nodes files fds next : ReadFile vfs (open_on Both name nodes files fds next).
Proof. by apply vfs_reads. Qed.
#[export] Instance vfs_read_only name nodes files fds next : ReadFile vfs (open_on ReadOnly name nodes files fds next).
Proof. by apply vfs_reads. Qed.
#[export] Instance vfs_write_both name nodes files fds next : WriteFile vfs (open_on Both name nodes files fds next).
Proof. by apply vfs_writes. Qed.
#[export] Instance vfs_write_only name nodes files fds next : WriteFile vfs (open_on WriteOnly name nodes files fds next).
Proof. by apply vfs_writes. Qed.

(** ** Writes *)

Lemma write_at_idem c p d : 0 <= p -> write_at (write_at c p d) p d = write_at c p d.
Proof.
  intros Hp. set (c1 := take (Z.to_nat p) (c ++ replicate (Z.to_nat p - length c) 0)).
  assert (Hl : length c1 = Z.to_nat p).
  { unfold c1. rewrite length_take, length_app, length_replicate. lia. }
  assert (Hw : write_at c p d = c1 ++ d ++ drop (Z.to_nat p + length d) c) by done.
  unfold write_at at 1. rewrite Hw. rewrite take_app_le by (rewrite !length_app; lia).
  rewrite take_app_length' by lia. f_equal. f_equal.
  rewrite (drop_app_ge c1) by lia. rewrite drop_app_ge by lia. rewrite drop_drop. f_equal. lia.
Qed.

Lemma write_at_end c d : write_at c (Z.of_nat (length c)) d = c ++ d.
Proof.
  unfold write_at. rewrite Nat2Z.id, Nat.sub_diag, app_nil_r, take_ge, (drop_ge c) by lia. by rewrite app_nil_r.
Qed.

Lemma filled_idem b d : filled (filled b d) d = filled b d.
Proof. unfold filled. by rewrite drop_app_length. Qed.

(** ** The loops *)

Section loops.
Variables (name : string) (nodes : gmap string (access * string)) (files : gmap string (list Z)).
Variables (fds : gmap Z (access * string * Z)) (next fd : Z).
Abbreviation on := (open_on WriteOnly name nodes files fds next fd).

Lemma wp_account start size done buffer v (Q : dma_vars -> vfs -> Prop) o :
  (forall t, Q (mk_vars (Some 0) buffer done (dv_out_offset v) (dv_underflow v || (done <? size)) t) o) ->
  wp (account start size done buffer v) Q o.
Proof. intros HQ. apply wp_bind, wp_sys. cbn. apply wp_ret, HQ. Qed.

Lemma wp_to_step addr size c p v o :
  on c p o -> 0 <= addr -> (addr = 0 -> p = 0) -> 0 <= size <= Z.of_nat (length (dv_buffer v)) -> addr + size < 2 ^ 63 ->
  wp (to_step fd (- 1) addr 0 size v) (fun r o' =>
    r.1 = false /\ dv_underflow r.2 = dv_underflow v /\ dv_rc r.2 = Some 0 /\ dv_buffer r.2 = dv_buffer v /\
    exists p', on (written c addr (take (Z.to_nat size) (dv_buffer v))) p' o') o.
Proof.
  intros Ho Ha Hz Hs Htop. unfold to_step. apply wp_bind, wp_sys. cbn [negb Z.eqb].
  apply wp_bind. eapply wp_mono; [eapply wp_write_from_buffer; split; [exact Ho|lia || done..]|].
  intros rv o' [-> [p' Ho']]. rewrite (proj2 (Z.ltb_ge size 0)), u64_small by lia.
  apply wp_bind, wp_account. intros t. apply wp_ret. cbn.
  rewrite Z.ltb_irrefl, orb_false_r. repeat split; try done. by exists p'.
Qed.

Lemma wp_to_loop addr size W buffer n c p v o :
  on c p o -> 0 <= addr -> (addr = 0 -> n = 1%nat /\ p = 0) -> 0 <= size <= Z.of_nat (length buffer) -> addr + size < 2 ^ 63 ->
  dv_buffer v = buffer -> W = written c addr (take (Z.to_nat size) buffer) -> (1 <= n)%nat ->
  wp (dma_loop (to_step fd (- 1) addr 0 size) n v) (fun r o' =>
    dv_underflow r.2 = dv_underflow v /\ dv_rc r.2 = Some 0 /\ exists p', on W p' o') o.
Proof.
  intros Ho Ha Hz Hs Htop. revert c p v o Hz Ho. induction n as [|n IH]; intros c p v o Hz Ho Hb HW Hn; [lia|].
  cbn [dma_loop]. apply wp_bind. eapply wp_mono; [eapply wp_to_step; [exact Ho|done|intros E; by apply Hz|by rewrite Hb|done]|].
  intros [stop v'] o' (Hst & Hu & Hrc & Hb' & p' & Ho'). cbn [fst snd] in *. rewrite Hst.
  rewrite Hb in Ho'. rewrite <- HW in Ho'. rewrite <- Hu.
  destruct n as [|n].
  - apply wp_ret. split; [done|]. split; [done|]. by exists p'.
  - eapply (IH W p'); [intros E; apply Hz in E; lia|exact Ho'|by rewrite Hb'| |lia].
    rewrite HW. unfold written. destruct (take (Z.to_nat size) buffer) as [|b l]; [done|].
    symmetry. apply write_at_idem. lia.
Qed.
End loops.

Section two_files.
Variables (dev outf : string) (nodes : gmap string (access * string)) (files : gmap string (list Z)).
Variables (fds : gmap Z (access * string * Z)) (next fdd fdo : Z).
Hypothesis Hnames : dev <> outf.
Hypothesis Hfds : fdd <> fdo.
Hypothesis Hfdo : 0 <= fdo.

(** The device with content [c] at [p], the other file with [w] at [q]. *)
Definition both (c : list Z) (p : Z) (w : list Z) (q : Z) (o : vfs) : Prop :=
  o = mk_vfs nodes (<[outf := w]> (<[dev := c]> files))
        (<[fdo := (Both, outf, q)]> (<[fdd := (ReadOnly, dev, p)]> fds)) next /\
  0 <= p /\ 0 <= q.

Lemma both_dev c p w q o :
  both c p w q o <-> open_on ReadOnly dev nodes (<[outf := w]> files) (<[fdo := (Both, outf, q)]> fds) next fdd c p o /\ 0 <= q.
Proof.
  unfold both, open_on. rewrite (insert_insert_ne files), (insert_insert_ne fds) by done. tauto.
Qed.

Lemma both_out c p w q o :
  both c p w q o <-> open_on Both outf nodes (<[dev := c]> files) (<[fdd := (ReadOnly, dev, p)]> fds) next fdo w q o /\ 0 <= p.
Proof. unfold both, open_on. tauto. Qed.

Lemma wp_from_step addr size c p w q v D o :
  both c p w q o -> 0 <= addr -> (addr = 0 -> p = 0) -> 0 < size <= Z.of_nat (length (dv_buffer v)) -> addr + size < 2 ^ 63 ->
  D = file_bytes c addr size -> Z.of_nat (length D) = size ->
  dv_out_offset v = Z.of_nat (length w) -> Z.of_nat (length w) + size < 2 ^ 63 ->
  (dv_out_offset v = 0 -> q = 0) ->
  wp (from_step fdd fdo addr 0 size v) (fun r o' =>
    r.1 = false /\ dv_underflow r.2 = dv_underflow v /\ length (dv_buffer r.2) = length (dv_buffer v) /\
    dv_out_offset r.2 = Z.of_nat (length (w ++ D)) /\ exists p' q', both c p' (w ++ D) q' o') o.
Proof.
  intros Ho Ha Hp0 Hs Htop HD HlD Hout Hwtop Hz. unfold from_step. apply wp_bind, wp_sys. cbn [negb Z.eqb].
  apply both_dev in Ho as [Ho Hq].
  apply wp_bind. eapply wp_mono; [eapply wp_read_to_buffer; split; [exact Ho|lia || done..]|].
  intros r o1 [-> [p' Ho1]]. rewrite <- HD, HlD. rewrite (proj2 (Z.ltb_ge size 0)), u64_small by lia.
  apply wp_bind, wp_account. intros t. rewrite Z.ltb_irrefl, orb_false_r.
  assert (Ho2 : both c p' w q o1) by (by apply both_dev).
  apply both_out in Ho2 as [Ho2 Hp']. unfold save. rewrite (proj2 (Z.ltb_ge fdo 0)) by done.
  cbn [dv_buffer dv_bytes_done dv_out_offset dv_underflow dv_total_time].
  assert (Hlb : length (filled (dv_buffer v) D) = length (dv_buffer v)).
  { unfold filled. rewrite length_app, length_drop. lia. }
  apply wp_bind. eapply wp_mono;
    [eapply (wp_write_from_buffer (file := open_on Both outf nodes (<[dev := c]> files) (<[fdd := (ReadOnly, dev, p')]> fds) next)); split; [exact Ho2|rewrite ?Hlb; lia..|done]|].
  intros rv o3 [-> [q' Ho3]]. rewrite u64_small, (proj2 (Z.ltb_ge size 0)), Z.ltb_irrefl by lia. cbn [orb].
  apply wp_ret. cbn [fst snd dv_buffer dv_bytes_done dv_out_offset dv_underflow].
  assert (Htk : take (Z.to_nat size) (filled (dv_buffer v) D) = D) by (unfold filled; rewrite take_app_length'; [done|lia]).
  assert (Hw : written w (dv_out_offset v) D = w ++ D).
  { rewrite Hout. destruct D as [|b D']; [cbn in HlD; lia|]. cbn [written]. apply write_at_end. }
  rewrite Htk, Hw in Ho3. split; [done|]. split; [done|]. split; [done|].
  split; [rewrite Hout, length_app, u64_small by lia; lia|].
  exists p', q'. apply both_out. by split.
Qed.

Lemma wp_from_loop addr size c D n w p q v o :
  both c p w q o -> 0 <= addr -> (addr = 0 -> n = O \/ n = 1%nat /\ p = 0) -> 0 < size <= Z.of_nat (length (dv_buffer v)) -> addr + size < 2 ^ 63 ->
  D = file_bytes c addr size -> Z.of_nat (length D) = size ->
  dv_out_offset v = Z.of_nat (length w) -> Z.of_nat (length w) + Z.of_nat n * size < 2 ^ 63 ->
  (dv_out_offset v = 0 -> q = 0) ->
  wp (dma_loop (from_step fdd fdo addr 0 size) n v) (fun r o' =>
    r.1 = false /\ dv_underflow r.2 = dv_underflow v /\
    exists p' q', both c p' (w ++ concat (replicate n D)) q' o') o.
Proof.
  revert w p q v o. induction n as [|n IH]; intros w p q v o Ho Ha Hp0 Hs Htop HD HlD Hout Hwtop Hz.
  - apply wp_ret. split; [done|]. split; [done|]. cbn. rewrite app_nil_r. by exists p, q.
  - cbn [dma_loop]. apply wp_bind. eapply wp_mono; [eapply wp_from_step; try done; lia|].
    intros [stop v'] o' (Hst & Hu & Hl & Hout' & p' & q' & Ho'). cbn [fst snd] in *. rewrite Hst, <- Hu.
    cbn [replicate concat]. rewrite app_assoc.
    eapply (IH (w ++ D) p' q'); try done; rewrite ?Hl, ?Hout', ?length_app; try lia.
Qed.
End two_files.

(** ** The programs *)

Lemma wp_vfs_node path flags acc key o (Q : Z -> vfs -> Prop) :
  f_nodes o !! path = Some (acc, key) ->
  Q (f_next o) (mk_vfs (f_nodes o) (f_files o) (<[f_next o := (acc, key, 0)]> (f_fds o)) (f_next o + 1)) ->
  wp (sys (sys_open path flags)) Q o.
Proof. intros Hn HQ. apply wp_sys. cbn. unfold vfs_open. by rewrite Hn. Qed.

Lemma wp_vfs_open path flags c o (Q : Z -> vfs -> Prop) :
  f_nodes o !! path = None -> f_files o !! path = Some c ->
  Q (f_next o) (mk_vfs (f_nodes o) (<[path := if has_bits flags O_TRUNC then [] else c]> (f_files o))
                  (<[f_next o := (Both, path, 0)]> (f_fds o)) (f_next o + 1)) ->
  wp (sys (sys_open path flags)) Q o.
Proof. intros Hn Hc HQ. apply wp_sys. cbn. unfold vfs_open. by rewrite Hn, Hc. Qed.

Lemma wp_vfs_create path flags o (Q : Z -> vfs -> Prop) :
  has_bits flags O_TRUNC = true -> has_bits flags O_CREAT = true -> f_nodes o !! path = None ->
  Q (f_next o) (mk_vfs (f_nodes o) (<[path := []]> (f_files o)) (<[f_next o := (Both, path, 0)]> (f_fds o)) (f_next o + 1)) ->
  wp (sys (sys_open path flags)) Q o.
Proof.
  intros Ht Hcr Hn HQ. apply wp_sys. cbn. unfold vfs_open. rewrite Hn, Ht, Hcr. by destruct (f_files o !! path).
Qed.

Lemma wp_vfs_close fd nodes files fds next (Q : unit -> vfs -> Prop) :
  0 <= fd -> Q tt (mk_vfs nodes files (delete fd fds) next) ->
  wp (when (0 <=? fd) (let* _ := sys (sys_close fd) in ret tt)) Q (mk_vfs nodes files fds next).
Proof.
  intros Hfd HQ. rewrite (proj2 (Z.leb_le 0 fd)) by done. cbn [when]. apply wp_bind, wp_sys. cbn.
  destruct (fds !! fd) as [x|] eqn:E; apply wp_ret; [done|]. by rewrite delete_id in HQ.
Qed.

Lemma wp_close_all2 fd1 fd2 (x1 x2 : access * string * Z) nodes files next rest (Q : unit -> vfs -> Prop) :
  0 <= fd1 -> 0 <= fd2 -> (forall fd, fd ∈ rest -> fd < 0) ->
  Q tt (mk_vfs nodes files ∅ next) ->
  wp (close_all (fd1 :: fd2 :: rest)) Q (mk_vfs nodes files (<[fd1 := x1]> (<[fd2 := x2]> ∅)) next).
Proof.
  intros H1 H2 Hrest HQ. unfold close_all. cbn [forM].
  apply wp_bind, wp_vfs_close; [done|]. apply wp_bind, wp_vfs_close; [done|].
  assert (delete fd2 (delete fd1 (<[fd1 := x1]> (<[fd2 := x2]> ∅))) = (∅ : gmap Z (access * string * Z))) as ->.
  { apply map_eq. intros k. rewrite lookup_empty. destruct (decide (k = fd2)) as [->|Hk2]; [by rewrite lookup_delete_eq|].
    rewrite lookup_delete_ne by done. destruct (decide (k = fd1)) as [->|Hk1]; [by rewrite lookup_delete_eq|].
    by rewrite lookup_delete_ne, !lookup_insert_ne, lookup_empty by done. }
  induction rest as [|fd rest IH]; [done|]. cbn [forM].
  assert (fd < 0) by (apply Hrest; set_solver). apply wp_bind.
  rewrite (proj2 (Z.leb_gt 0 fd)) by done. apply wp_ret. apply IH. intros fd' Hfd'. apply Hrest. set_solver.
Qed.

(** What the memory and the options have to satisfy.  At address 0 the tools do not
    position the descriptor, so that only the first transfer is at the address. *)
Record dma_args (addr size offset count : Z) (mem : list Z) : Prop := {
  da_addr : 0 <= addr;
  da_once : addr = 0 -> count = 1;
  da_size : 0 < size;
  da_top : addr + size < 2 ^ 63;
  da_offset : 0 <= offset < 4096;
  da_mem : Z.of_nat (length mem) = size + 4096;
  da_count : 0 < count
}.

Section programs.
Variables (nodes : gmap string (access * string)) (mem : string).

Lemma wp_to_device dev inf addr size offset count bytes files next ci cd (Q : Z -> vfs -> Prop) :
  dma_args addr size offset count bytes -> 0 <= next -> mem <> inf ->
  nodes !! dev = Some (WriteOnly, mem) -> nodes !! inf = None ->
  files !! mem = Some cd -> files !! inf = Some ci -> size <= Z.of_nat (length ci) ->
  Q 0 (mk_vfs nodes (<[mem := written cd addr (take (Z.to_nat size) ci)]> files) ∅ (next + 2)) ->
  wp (to_device dev addr 0 size offset count (Some inf) None bytes) Q (mk_vfs nodes files ∅ next).
Proof.
  intros [Ha Honce Hs Htop Hoff Hmem Hcount] Hnext Hne Hdev Hreg Hfile Hinf Hlen HQ. unfold to_device.
  apply wp_bind. eapply wp_vfs_node; [exact Hdev|]. cbn [f_nodes f_files f_fds f_next].
  rewrite (proj2 (Z.ltb_ge next 0)) by done.
  apply wp_bind. cbn [open_opt]. eapply wp_vfs_open; [exact Hreg|exact Hinf|]. cbn [f_nodes f_files f_fds f_next].
  change (has_bits O_RDONLY O_TRUNC) with false. cbv iota.
  cbn [given andb]. rewrite (proj2 (Z.ltb_ge (next + 1) 0)) by lia.
  apply wp_bind, wp_ret. apply wp_bind. unfold to_run.
  apply wp_bind, wp_sys. cbn [sys_memalign vfs_posix fst snd Z.eqb].
  set (buffer := drop (Z.to_nat offset) bytes).
  assert (Hlb : size <= Z.of_nat (length buffer)) by (unfold buffer; rewrite length_drop; lia).
  rewrite (proj2 (Z.leb_le 0 (next + 1))) by lia.
  apply wp_bind, wp_bind. eapply wp_mono.
  { eapply (wp_read_to_buffer (file := open_on Both inf nodes files (<[next := (WriteOnly, mem, 0)]> ∅) (next + 1 + 1))).
    split; [split; [reflexivity|lia]|lia..|done]. }
  intros r o1 [-> [p' [-> Hp']]]. rewrite (insert_id files inf) by done.
  assert (Hfb : file_bytes ci 0 size = take (Z.to_nat size) ci) by done. rewrite Hfb.
  assert (Hl : Z.of_nat (length (take (Z.to_nat size) ci)) = size) by (rewrite length_take; lia).
  rewrite Hl, (proj2 (Z.ltb_ge size 0)), u64_small, Z.ltb_irrefl by lia. cbn [orb].
  apply wp_ret. cbv iota. set (buf1 := filled buffer (take (Z.to_nat size) ci)).
  assert (Hb1 : take (Z.to_nat size) buf1 = take (Z.to_nat size) ci).
  { unfold buf1, filled. rewrite take_app_length'; [done|lia]. }
  assert (Hlb1 : length buf1 = length buffer) by (unfold buf1, filled; rewrite length_app, length_drop; lia).
  apply wp_bind. eapply wp_mono.
  { eapply (wp_to_loop mem nodes files (<[next + 1 := (Both, inf, p')]> ∅) (next + 1 + 1) next addr size _ buf1 _ cd 0);
      [split; [by rewrite (insert_id files mem), insert_insert_ne by (done || lia)|lia]|done|lia|lia|done|done|reflexivity|lia]. }
  intros [stop v] o2 (Hu & Hrc & p2 & -> & Hp2). cbn [fst snd] in *. apply wp_ret.
  rewrite Hu, Hrc, Hb1. apply wp_bind. apply wp_close_all2; [done|lia|by intros fd ->%list_elem_of_singleton|].
  apply wp_ret. cbn. by replace (next + 1 + 1) with (next + 2) by lia.
Qed.

Lemma wp_from_device dev outf addr size offset count bytes files next cd D (Q : Z -> vfs -> Prop) :
  dma_args addr size offset count bytes -> 0 <= next -> mem <> outf -> count * size < 2 ^ 63 ->
  nodes !! dev = Some (ReadOnly, mem) -> nodes !! outf = None ->
  files !! mem = Some cd -> D = file_bytes cd addr size -> Z.of_nat (length D) = size ->
  Q 0 (mk_vfs nodes (<[outf := concat (replicate (Z.to_nat count) D)]> files) ∅ (next + 2)) ->
  wp (from_device false dev addr 0 size offset count (Some outf) bytes) Q (mk_vfs nodes files ∅ next).
Proof.
  intros [Ha Honce Hs Htop Hoff Hmem Hcount] Hnext Hne Hct Hdev Hreg Hfile HD HlD HQ. unfold from_device.
  apply wp_bind. eapply wp_vfs_node; [exact Hdev|]. cbn [f_nodes f_files f_fds f_next].
  rewrite (proj2 (Z.ltb_ge next 0)) by done.
  apply wp_bind. cbn [open_opt]. eapply wp_vfs_create; [done|done|exact Hreg|]. cbn [f_nodes f_files f_fds f_next].
  cbn [given andb]. rewrite (proj2 (Z.ltb_ge (next + 1) 0)) by lia.
  apply wp_bind. unfold from_run. apply wp_bind, wp_sys. cbn [sys_memalign vfs_posix fst snd Z.eqb].
  set (buffer := drop (Z.to_nat offset) bytes).
  assert (Hlb : size <= Z.of_nat (length buffer)) by (unfold buffer; rewrite length_drop; lia).
  apply wp_bind. eapply wp_mono.
  { eapply (wp_from_loop mem outf nodes files ∅ (next + 1 + 1) next (next + 1) Hne ltac:(lia) ltac:(lia)
              addr size cd D _ [] 0 0); try done; try lia.
    - unfold both. rewrite (insert_id files mem) by done. split; [done|lia].
    - cbn. rewrite Z2Nat.id by lia. lia. }
  intros [stop v] o1 (Hst & Hu & p' & q' & [-> _]). cbn [fst snd dv_underflow] in *. rewrite Hst, Hu.
  apply wp_ret. apply wp_bind. rewrite (insert_insert_ne _ (next + 1) next) by lia.
  apply wp_close_all2; [done|lia|by intros fd ?%elem_of_nil|]. apply wp_ret.
  rewrite (insert_id files mem) by done. by replace (next + 2) with (next + 1 + 1) in HQ by lia.
Qed.

(** C29: [dma_to_device] with an input file of at least [size] bytes, then
    [dma_from_device] into a file, at the same address and size, without an
    aperture, through the nodes of a writing and of a reading channel on the same
    memory, which keeps what is written; at address 0 each makes one transfer,
    at any other one any number of them.  Both return 0, every descriptor is
    closed, the memory holds the first [size] bytes of the input at the address
    and is otherwise unchanged, and the output file holds these bytes as often as
    there were transfers. *)
Theorem dma_tools_roundtrip h2c c2h inf outf addr size off1 off2 n1 n2 mem1 mem2 files next ci cd :
  dma_args addr size off1 n1 mem1 -> dma_args addr size off2 n2 mem2 -> n2 * size < 2 ^ 63 ->
  nodes !! h2c = Some (WriteOnly, mem) -> nodes !! c2h = Some (ReadOnly, mem) ->
  nodes !! inf = None -> nodes !! outf = None -> 0 <= next -> mem <> inf -> mem <> outf ->
  files !! mem = Some cd -> files !! inf = Some ci -> size <= Z.of_nat (length ci) ->
  exists o', (let* r1 := to_device h2c addr 0 size off1 n1 (Some inf) None mem1 in
              let* r2 := from_device false c2h addr 0 size off2 n2 (Some outf) mem2 in ret (r1, r2))
               (mk_vfs nodes files ∅ next) = Some ((0, 0), o') /\
    f_fds o' = ∅ /\
    let data := take (Z.to_nat size) ci in
    f_files o' = <[outf := concat (replicate (Z.to_nat n2) data)]> (<[mem := write_at cd addr data]> files).
Proof.
  intros H1 H2 Hn2 Hh Hc Hni Hno Hnext Hdi Hdo Hdev Hinf Hlen. set (data := take (Z.to_nat size) ci).
  pose proof H1 as [Ha _ Hs Htop _ _ _].
  assert (Hl : Z.of_nat (length data) = size) by (unfold data; rewrite length_take; lia).
  assert (Hw : written cd addr data = write_at cd addr data) by (destruct data; [cbn in Hl; lia|done]).
  assert (Hwp : wp (let* r1 := to_device h2c addr 0 size off1 n1 (Some inf) None mem1 in
              let* r2 := from_device false c2h addr 0 size off2 n2 (Some outf) mem2 in ret (r1, r2))
     (fun r o' => r = (0, 0) /\ f_fds o' = ∅ /\
        f_files o' = <[outf := concat (replicate (Z.to_nat n2) data)]> (<[mem := write_at cd addr data]> files))
     (mk_vfs nodes files ∅ next)).
  { apply wp_bind. eapply wp_to_device; try done. fold data. rewrite Hw. apply wp_bind.
    eapply (wp_from_device c2h outf addr size off2 n2 mem2 _ _ (write_at cd addr data) data);
      try done; try lia; try apply lookup_insert_eq.
    rewrite <- Hw, <- Hl. symmetry. apply file_bytes_written. lia. }
  apply wp_iff in Hwp as (r & o' & Hrun & -> & Hf & Hfiles). by exists o'.
Qed.
End programs.

(** ** Witness *)

Definition demo_nodes : gmap string (access * string) :=
  {[ "/dev/xdma0_h2c_0" := (WriteOnly, "card"); "/dev/xdma0_c2h_0" := (ReadOnly, "card") ]}%string.

Definition demo_vfs : gmap string (list Z) :=
  {[ "card" := [0; 0; 0; 0; 0; 0; 0; 0]; "in" := [1; 2; 3; 4] ]}%string.

Definition demo_mem : list Z := replicate (Z.to_nat 4099) 255.

Lemma dma_tools_roundtrip_witness :
  exists o', (let* r1 := to_device "/dev/xdma0_h2c_0" 2 0 3 16 1 (Some "in"%string) None demo_mem in
              let* r2 := from_device false "/dev/xdma0_c2h_0" 2 0 3 0 2 (Some "out"%string) demo_mem in ret (r1, r2))
               (mk_vfs demo_nodes demo_vfs ∅ 3) = Some ((0, 0), o') /\
    f_fds o' = ∅ /\
    let data := take (Z.to_nat 3) [1; 2; 3; 4] in
    f_files o' = <["out"%string := concat (replicate (Z.to_nat 2) data)]>
                   (<["card"%string := write_at [0; 0; 0; 0; 0; 0; 0; 0] 2 data]> demo_vfs).
Proof.
  apply (dma_tools_roundtrip demo_nodes "card" "/dev/xdma0_h2c_0" "/dev/xdma0_c2h_0" "in" "out"%string);
    try done; try (split; done).
Defined.

(** A short input file: nothing is written, and the program reports success. *)
Example short_input :
  option_map (fun r => (r.1, f_files r.2 !! "card"%string))
    (to_device "/dev/xdma0_h2c_0" 2 0 8 0 1 (Some "in"%string) None (replicate (Z.to_nat 4104) 0)
       (mk_vfs demo_nodes demo_vfs ∅ 3))
  = Some (0, Some [0; 0; 0; 0; 0; 0; 0; 0]).
Proof. by vm_compute. Qed.

(** Two transfers at address 0: the second one goes behind the first one. *)
Example address_zero_moves_on :
  option_map (fun r => (r.1, f_files r.2 !! "card"%string))
    (to_device "/dev/xdma0_h2c_0" 0 0 3 0 2 (Some "in"%string) None demo_mem (mk_vfs demo_nodes demo_vfs ∅ 3))
  = Some (0, Some [1; 2; 3; 1; 2; 3; 0; 0]).
Proof. by vm_compute. Qed.
