(* ===== verification/RegTools.v ===== *)
(** * RegTools: reg_rw, performance and test_chrdev

    [tools/reg_rw.c]: one access of 8, 16 or 32 bits through a mapping;
    [tools/performance.c]: start, poll and stop of a measurement;
    [tools/test_chrdev.c]: opening and closing a device.  What they print is
    reduced to the value that was read. *)

From Stdlib Require Import Ascii.
From stdpp Require Import strings.
From S2P Require Import Prelude Bytes Hw State Desc Engine Dev CdevSgdma Posix.

(** The rest of the system that these programs use. *)
Class RegSystem (O : Type) := {
  strtoul : string -> Z;                     (** any base *)
  errno : O -> Z;
  (** a measurement ioctl: the result and the structure *)
  sys_perf : Z -> Z -> perf_ioctl -> O -> (Z * perf_ioctl) * O
}.

Section tools.
Context {Os : Type} `{Posix Os} `{RegSystem Os}.

(** ** reg_rw *)

(** [tolower] of the first character; the width in bytes. *)
Definition access_width (arg : option string) : nat :=
  match arg with
  | Some (String c _) =>
      if Ascii.eqb c "b"%char || Ascii.eqb c "B"%char then 1%nat
      else if Ascii.eqb c "h"%char || Ascii.eqb c "H"%char then 2%nat
      else 4%nat
  | _ => 4%nat
  end.

(** From the mapping to the label [close]: the error and the value read. The
    pointer that is cast to the type of the access must be aligned for it. *)
Definition reg_access (fd target : Z) (width : nat) (data : option string) : M Os (Z * option Z) :=
  let offset := Z.land target (PAGE_SIZE - 1) in
  let target_aligned := Z.land target (Z.lnot (PAGE_SIZE - 1)) in
  let* map := sys (sys_mmap fd target_aligned (offset + 4)) in
  if map =? - 1 then ret (1, None)
  else
    guard_ub ((map + offset) mod Z.of_nat width =? 0) >>;
    let* value :=
      match data with
      | None => let* l := sys (sys_load (map + offset) (Z.of_nat width)) in ret (Some (le_word l))
      | Some arg =>
          sys (fun o => (tt, sys_store (map + offset) (le_bytes width (u32 (strtoul arg))) o)) >>; ret None
      end in
    let* _ := sys (sys_munmap map (offset + 4)) in
    ret (0, value).

(** [argv] without the name of the program: the exit status, and the value. *)
Definition reg_rw (argv : list string) : M Os (Z * option Z) :=
  match argv with
  | device :: address :: rest =>
      let target := s64 (strtoul address) in
      let width := access_width (head rest) in
      let* fd := sys (sys_open device (Z.lor O_RDWR O_SYNC)) in
      if fd =? - 1 then let* o := get in ret (- errno o, None)
      else
        let* r := reg_access fd target width (head (tail rest)) in
        let* _ := sys (sys_close fd) in
        ret r
  | _ => ret (1, None)
  end.

(** ** performance *)

(** [while (count--)] *)
Definition perf_poll (fd count : Z) (perf : perf_ioctl) : M Os perf_ioctl :=
  guard_ub (0 <=? count) >>;
  foldM (zrange count) (fun perf _ => let* '(_, perf) := sys (sys_perf fd IOCTL_XDMA_PERF_GET perf) in ret perf) perf.

(** [test_dma]: the exit status if the program exits, and the measurement. *)
Definition perf_test (device : string) (size count : Z) (perf : perf_ioctl) : M Os (option Z * perf_ioctl) :=
  let* fd := sys (sys_open device O_RDWR) in
  if fd <? 0 then ret (Some 1, perf)
  else
    let perf := mk_perf IOCTL_XDMA_PERF_V1 (u32 size) (p_stopped perf) (p_iterations perf)
                  (p_clock_cycle_count perf) (p_data_cycle_count perf) (p_pending_count perf) in
    let* '(_, perf) := sys (sys_perf fd IOCTL_XDMA_PERF_START perf) in
    let* perf := perf_poll fd count perf in
    let* '(_, perf) := sys (sys_perf fd IOCTL_XDMA_PERF_STOP perf) in
    let* _ := sys (sys_close fd) in
    ret (None, perf).

(** [getopt_integer] of [performance.c]. *)
Definition perf_integer (optarg : string) : option Z :=
  match sscanf "0x%x" optarg with
  | Some value => Some (u32 value)
  | None => option_map u32 (sscanf "%ul" optarg)
  end.

(** The options; [None] when the program exits. *)
Fixpoint perf_getopt (args : list (Ascii.ascii * string)) (device : string) (size count : Z)
    : M Os (option (string * Z * Z)) :=
  match args with
  | [] => ret (Some (device, size, count))
  | (c, arg) :: args =>
      if Ascii.eqb c "d"%char then perf_getopt args arg size count
      else if Ascii.eqb c "s"%char then let* v := deref (perf_integer arg) in perf_getopt args device v count
      else if Ascii.eqb c "c"%char then let* v := deref (perf_integer arg) in perf_getopt args device size v
      else if Ascii.eqb c "v"%char || Ascii.eqb c Ascii.zero then perf_getopt args device size count
      else ret None
  end.

Definition perf_main (args : list (Ascii.ascii * string)) : M Os Z :=
  let* o := perf_getopt args "/dev/xdma/card0/h2c0" 32768 1 in
  match o with
  | None => ret 0
  | Some (device, size, count) =>
      let* '(status, _) := perf_test device (s32 size) (s32 count) (mk_perf 0 0 0 0 0 0 0) in ret (default 0 status)
  end.

(** ** test_chrdev *)

Definition test_chrdev (argv : list string) : M Os Z :=
  match argv with
  | [filename] =>
      let* fd := sys (sys_open filename O_RDWR) in
      if fd <? 0 then ret fd
      else let* rc := sys (sys_close fd) in ret (if negb (rc =? 0) then - 1 else 0)
  | _ => ret (- 1)
  end.
End tools.
