(* ===== verification/RegToolsProps.v ===== *)
(** * RegToolsProps: what reg_rw does to the registers

    A device file whose mapping gives access to the bytes of a register space,
    as laws of the system ([RegisterSpace]) and as an instance that satisfies
    them; [reg_rw] on such a file. *)

From Stdlib Require Import Ascii.
From stdpp Require Import strings.
From S2P Require Import Prelude Bytes Hw State Desc Engine Dev CdevSgdma Posix RegTools SgdmaProps.

(** ** The registers behind a file *)

(** [bar dev mem o]: the file [dev] is the register space [mem]; [opened fd mem o]:
    it is open as [fd]; [mapped fd a off len mem o]: its bytes from [off] on are
    mapped at the address [a], the start of a page.  Registers keep what is
    stored; loads and stores stay inside of the mapping. *)
Class RegisterSpace (O : Type) `{Posix O} (bar : string -> list Z -> O -> Prop)
    (opened : string -> Z -> list Z -> O -> Prop) (mapped : string -> Z -> Z -> Z -> Z -> list Z -> O -> Prop) := {
  rs_open dev mem o : bar dev mem o ->
    exists fd o', sys_open dev (Z.lor O_RDWR O_SYNC) o = (fd, o') /\ fd <> - 1 /\ opened dev fd mem o';
  rs_mmap dev fd mem off len o : opened dev fd mem o ->
    0 <= off -> off `mod` PAGE_SIZE = 0 -> 0 < len -> off + len <= Z.of_nat (length mem) ->
    exists a o', sys_mmap fd off len o = (a, o') /\ a <> - 1 /\ a `mod` PAGE_SIZE = 0 /\ mapped dev fd a off len mem o';
  rs_load dev fd a off len mem k n o : mapped dev fd a off len mem o -> 0 <= k -> 0 <= n -> k + n <= len ->
    exists o', sys_load (a + k) n o = (take (Z.to_nat n) (drop (Z.to_nat (off + k)) mem), o') /\
      mapped dev fd a off len mem o';
  rs_store dev fd a off len mem k data o : mapped dev fd a off len mem o ->
    0 <= k -> k + Z.of_nat (length data) <= len ->
    mapped dev fd a off len (write_at mem (off + k) data) (sys_store (a + k) data o);
  rs_munmap dev fd a off len mem o : mapped dev fd a off len mem o ->
    exists rv o', sys_munmap a len o = (rv, o') /\ opened dev fd mem o';
  rs_close dev fd mem o : opened dev fd mem o -> exists rv o', sys_close fd o = (rv, o') /\ bar dev mem o'
}.

Lemma le_word_bytes_mod n w : le_word (le_bytes n w) = w `mod` 256 ^ Z.of_nat n.
Proof.
  revert w. induction n as [|n IH]; intros w; [by rewrite Z.mod_1_r|].
  change (w `mod` 256 + 256 * le_word (le_bytes n (w / 256)) = w `mod` 256 ^ Z.of_nat (S n)).
  rewrite IH, Nat2Z.inj_succ, Z.pow_succ_r by lia. symmetry. apply Z.rem_mul_r; lia.
Qed.

Section reg_rw.
Context {Os : Type} {bar opened mapped} `{RegisterSpace Os bar opened mapped} `{!RegSystem Os}.

Lemma wp_sys_eq {A} (f : Os -> A * Os) (Q : A -> Os -> Prop) a o o' : f o = (a, o') -> Q a o' -> wp (sys f) Q o.
Proof. intros E HQ. apply wp_sys. by rewrite E. Qed.

(** The split of an address into its page and the place in the page. *)
Lemma page_split t : 0 <= t ->
  let offset := Z.land t (PAGE_SIZE - 1) in let base := Z.land t (Z.lnot (PAGE_SIZE - 1)) in
  t = base + offset /\ 0 <= offset < PAGE_SIZE /\ 0 <= base /\ base `mod` PAGE_SIZE = 0.
Proof.
  intros Ht offset base. unfold offset, base. fold PAGE_MASK. rewrite land_page, land_mask.
  pose proof (page_mod_range t). pose proof (Z.mod_le t PAGE_SIZE Ht ltac:(done)).
  split_and!; try lia. rewrite Zminus_mod_idemp_r, Z.sub_diag. done.
Qed.

Lemma access_width_le arg : (1 <= access_width arg <= 4)%nat.
Proof. unfold access_width. repeat case_match; lia. Qed.

(** The widths that the types name: byte, half word, and word for everything else. *)
Inductive type_width : string -> nat -> Prop :=
  | type_byte c rest : c = "b"%char \/ c = "B"%char -> type_width (String c rest) 1
  | type_half c rest : c = "h"%char \/ c = "H"%char -> type_width (String c rest) 2
  | type_word c rest : c <> "b"%char -> c <> "B"%char -> c <> "h"%char -> c <> "H"%char -> type_width (String c rest) 4
  | type_none : type_width EmptyString 4.

Lemma access_width_type ty width : type_width ty width -> access_width (Some ty) = width.
Proof.
  intros Ht. destruct Ht as [c rest [->| ->]|c rest [->| ->]|c rest H1 H2 H3 H4|]; try done. cbn.
  apply Ascii.eqb_neq in H1, H2, H3, H4. by rewrite H1, H2, H3, H4.
Qed.

(** An aligned address stays aligned in a mapping. *)
Lemma mapped_aligned a base offset width :
  width = 1%nat \/ width = 2%nat \/ width = 4%nat -> a `mod` PAGE_SIZE = 0 -> base `mod` PAGE_SIZE = 0 ->
  (base + offset) `mod` Z.of_nat width = 0 -> (a + offset) mod Z.of_nat width = 0.
Proof.
  intros Hw Ha Hb Ht. apply Z.mod_divide in Ha as [ka ->], Hb as [kb ->]; [|done..].
  apply Z.mod_divide in Ht as [k Hk]; [|lia]. apply Z.mod_divide; [lia|].
  exists (k + (ka - kb) * (PAGE_SIZE / Z.of_nat width)).
  assert (PAGE_SIZE = PAGE_SIZE / Z.of_nat width * Z.of_nat width) by (destruct Hw as [->|[->| ->]]; done). lia.
Qed.

Lemma access_width_cases arg : access_width arg = 1%nat \/ access_width arg = 2%nat \/ access_width arg = 4%nat.
Proof. unfold access_width. repeat case_match; auto. Qed.

(** The bytes of the register space after an access. *)
Definition accessed (target : Z) (width : nat) (data : option string) (mem : list Z) : list Z :=
  match data with
  | Some arg => write_at mem target (le_bytes width (u32 (strtoul arg)))
  | None => mem
  end.
Definition shown (target : Z) (width : nat) (data : option string) (mem : list Z) : option Z :=
  match data with
  | Some _ => None
  | None => Some (le_word (take width (drop (Z.to_nat target) mem)))
  end.

Lemma wp_reg_access dev fd target width data mem o :
  opened dev fd mem o -> 0 <= target -> target + 4 <= Z.of_nat (length mem) ->
  width = 1%nat \/ width = 2%nat \/ width = 4%nat -> target `mod` Z.of_nat width = 0 ->
  wp (reg_access fd target width data)
    (fun r o' => r = (0, shown target width data mem) /\ opened dev fd (accessed target width data mem) o') o.
Proof.
  intros Ho Ht Hlen Hw Htw. destruct (page_split target Ht) as (Hsplit & Hoff & Hbase & Hal). unfold reg_access.
  set (offset := Z.land target (PAGE_SIZE - 1)) in *. set (base := Z.land target (Z.lnot (PAGE_SIZE - 1))) in *.
  destruct (rs_mmap dev fd mem base (offset + 4) o) as (a & o1 & E1 & Ha & Hpage & Hm); try done; try lia.
  apply wp_bind. eapply wp_sys_eq; [exact E1|]. destruct (Z.eqb_spec a (- 1)) as [|_]; [done|].
  apply wp_bind, wp_guard_ub.
  { apply Z.eqb_eq. apply (mapped_aligned a base); [done..|by rewrite <-Hsplit]. }
  apply wp_bind. apply (wp_mono _ (fun v o' => v = shown target width data mem /\
    mapped dev fd a base (offset + 4) (accessed target width data mem) o')).
  - destruct data as [arg|]; apply wp_bind.
    + apply wp_sys, wp_ret. split; [done|]. cbn [snd accessed]. rewrite Hsplit.
      apply (rs_store dev fd a base (offset + 4)); [done|lia|]. rewrite le_bytes_length. lia.
    + destruct (rs_load dev fd a base (offset + 4) mem offset (Z.of_nat width) o1) as (o2 & E2 & Hm2); try done; try lia.
      eapply wp_sys_eq; [exact E2|]. apply wp_ret. split; [|done]. cbn [shown]. rewrite Nat2Z.id. by rewrite Hsplit.
  - intros v o2 [-> Hm2]. destruct (rs_munmap _ _ _ _ _ _ _ Hm2) as (rv & o3 & E3 & Ho3).
    apply wp_bind. eapply wp_sys_eq; [exact E3|]. by apply wp_ret.
Qed.

(** A run with an address and, perhaps, a type and data. *)
Lemma wp_reg_rw dev address rest mem o :
  bar dev mem o -> 0 <= strtoul address < 2 ^ 63 -> strtoul address + 4 <= Z.of_nat (length mem) ->
  strtoul address `mod` Z.of_nat (access_width (head rest)) = 0 ->
  let target := strtoul address in let width := access_width (head rest) in let data := head (tail rest) in
  wp (reg_rw (dev :: address :: rest))
    (fun r o' => r = (0, shown target width data mem) /\ bar dev (accessed target width data mem) o') o.
Proof.
  intros Hb Ht Hlen Hal target width data. unfold reg_rw.
  replace (s64 (strtoul address)) with target by (unfold s64, swrap; rewrite Z.mod_small; fold target; lia).
  destruct (rs_open _ _ _ Hb) as (fd & o1 & E1 & Hfd & Ho1). apply wp_bind. eapply wp_sys_eq; [exact E1|].
  destruct (Z.eqb_spec fd (- 1)) as [|_]; [done|]. apply wp_bind.
  eapply wp_mono; [apply (wp_reg_access dev fd target width data mem); [done|apply Ht|done|apply access_width_cases|done]|].
  intros r o2 [-> Ho2]. destruct (rs_close _ _ _ _ Ho2) as (rv & o3 & E3 & Hb3).
  apply wp_bind. eapply wp_sys_eq; [exact E3|]. by apply wp_ret.
Qed.

(** C30: [reg_rw] with a type and data stores the low bytes of the value at the
    address, one byte for the types b and B, two for h and H and four for every
    other one, and leaves every other register alone; [reg_rw] without data then
    shows these bytes.  This is for registers that keep what is stored, for an
    address that is aligned for the type, and that lies at least four bytes before
    the end of the space, since four bytes are mapped for every type.  Both
    accesses lie in the mapping, also at the end of a page, and both runs exit with
    0 and leave no mapping and no descriptor. *)
Theorem reg_rw_write_read dev address ty data width mem o :
  bar dev mem o -> type_width ty width ->
  0 <= strtoul address < 2 ^ 63 -> strtoul address + 4 <= Z.of_nat (length mem) ->
  strtoul address `mod` Z.of_nat width = 0 ->
  let value := u32 (strtoul data) in
  exists o1 o2,
    reg_rw [dev; address; ty; data] o = Some ((0, None), o1) /\
    bar dev (write_at mem (strtoul address) (le_bytes width value)) o1 /\
    reg_rw [dev; address; ty] o1 = Some ((0, Some (value `mod` 256 ^ Z.of_nat width)), o2) /\
    bar dev (write_at mem (strtoul address) (le_bytes width value)) o2.
Proof.
  intros Hb Hty%access_width_type Ht Hlen Hal value. rewrite <-Hty in *. clear Hty. set (mem1 := write_at mem (strtoul address) _).
  pose proof (wp_reg_rw dev address [ty; data] mem o Hb Ht Hlen Hal) as Hw1.
  apply wp_iff in Hw1 as (r1 & o1 & E1 & -> & Hb1). cbn [head tail accessed shown] in *. fold value mem1 in Hb1.
  pose proof (access_width_le (Some ty)) as Hw.
  assert (length mem1 = length mem) as Hl1.
  { apply length_write_at; [apply Ht|]. rewrite le_bytes_length. lia. }
  pose proof (wp_reg_rw dev address [ty] mem1 o1 Hb1 Ht ltac:(by rewrite Hl1) Hal) as Hw2.
  apply wp_iff in Hw2 as (r2 & o2 & E2 & -> & Hb2). cbn [head tail accessed shown] in *.
  exists o1, o2. split; [exact E1|]. split; [exact Hb1|]. split; [|exact Hb2]. rewrite E2. do 4 f_equal.
  rewrite <-(le_bytes_length (access_width (Some ty)) value) at 1. unfold mem1. rewrite take_write_at by lia. apply le_word_bytes_mod.
Qed.
End reg_rw.

(** ** Witness *)

(** A system with one device, its registers mapped at 0x10000000. *)
Definition REG_BASE := 0x10000000.
#[export] Instance regs_posix : Posix (list Z) := {
  sys_open path _ m := (if String.eqb path "/dev/xdma0_user" then 3 else - 1, m);
  sys_close _ m := (0, m);
  sys_lseek _ _ m := (- 1, m);
  sys_read _ _ m := ((- 1, []), m);
  sys_write _ _ m := (- 1, m);
  sys_aperture _ _ _ _ buf m := ((- 1, 0, 0, buf), m);
  sys_clock m := ((0, 0), m);
  sys_memalign _ m := (0, m);
  sys_mmap _ off _ m := (REG_BASE + off, m);
  sys_munmap _ _ m := (0, m);
  sys_load a n m := (take (Z.to_nat n) (drop (Z.to_nat (a - REG_BASE)) m), m);
  sys_store a data m := write_at m (a - REG_BASE) data;
  sscanf _ _ := None
}.

#[export] Instance regs_system : RegSystem (list Z) := {
  strtoul s := if String.eqb s "0x1ffe" then 0x1ffe else if String.eqb s "0x12345678" then 0x12345678 else 0;
  errno _ := 2;
  sys_perf _ _ p m := ((- 1, p), m)
}.

Definition regs_bar (dev : string) (mem m : list Z) : Prop := dev = "/dev/xdma0_user"%string /\ mem = m.
Definition regs_opened (dev : string) (_ : Z) (mem m : list Z) : Prop := regs_bar dev mem m.
Definition regs_mapped (dev : string) (_ a off _ : Z) (mem m : list Z) : Prop :=
  regs_bar dev mem m /\ a = REG_BASE + off /\ 0 <= off.

#[export] Instance regs_space : RegisterSpace (list Z) regs_bar regs_opened regs_mapped.
Proof.
  split.
  - intros dev mem o [-> ->]. by exists 3, o.
  - intros dev fd mem off len o [-> ->] Hoff Hpage _ _. exists (REG_BASE + off), o. unfold REG_BASE.
    split; [done|]. split; [lia|]. split; [|done]. apply Z.mod_divide in Hpage as [k ->]; [|done].
    change 0x10000000 with (0x10000 * PAGE_SIZE). rewrite <-Z.mul_add_distr_r. by apply Z.mod_mul.
  - intros dev fd a off len mem k n o ([-> ->] & -> & ?) _ _ _. exists o. cbn -[REG_BASE].
    by replace (REG_BASE + off + k - REG_BASE) with (off + k) by lia.
  - intros dev fd a off len mem k data o ([-> ->] & -> & ?) _ _. cbn -[REG_BASE].
    by replace (REG_BASE + off + k - REG_BASE) with (off + k) by lia.
  - intros dev fd a off len mem o ([-> ->] & -> & ?). by exists 0, o.
  - intros dev fd mem o [-> ->]. by exists 0, o.
Qed.

(** A half word that is the last one of its page. *)
Lemma reg_rw_write_read_witness :
  let mem := replicate 0x3000 0 in
  exists o1 o2,
    reg_rw ["/dev/xdma0_user"; "0x1ffe"; "h"; "0x12345678"]%string mem = Some ((0, None), o1) /\
    regs_bar "/dev/xdma0_user" (write_at mem 0x1ffe (le_bytes 2 0x12345678)) o1 /\
    reg_rw ["/dev/xdma0_user"; "0x1ffe"; "h"]%string o1 = Some ((0, Some (0x12345678 `mod` 256 ^ 2)), o2) /\
    regs_bar "/dev/xdma0_user" (write_at mem 0x1ffe (le_bytes 2 0x12345678)) o2.
Proof.
  intros mem.
  assert (strtoul "0x1ffe" = 0x1ffe /\ u32 (strtoul "0x12345678") = 0x12345678) as [Ea Ed] by done.
  pose proof (reg_rw_write_read (bar := regs_bar) "/dev/xdma0_user" "0x1ffe" "h" "0x12345678" 2 mem mem) as Hw.
  cbv zeta in Hw. rewrite Ea, Ed in Hw. apply Hw; [done|constructor; by left|lia| |reflexivity].
  unfold mem. by rewrite length_replicate.
Defined.
