(* ===== verification/DeviceProps.v ===== *)
(** * DeviceProps: taking a device offline, probing its engines, mapping its BARs

    The operations of [Device] on whole devices. *)

From S2P Require Import Prelude Hw State Desc Engine Service Request Fixtures QueueProps Submit Aperture Dev DevFixtures Thread Irq IrqProps Device Ledger.

(** A device whose limits fit its arrays and whose configuration BAR is mapped. *)
Record dev_wf (v : dst) : Prop := {
  wf_config : has_config (v_dev v);
  wf_h2c : 0 <= d_h2c_channel_max (v_dev v) <= 4;
  wf_c2h : 0 <= d_c2h_channel_max (v_dev v) <= 4;
  wf_user : 0 <= d_user_max (v_dev v) <= 16;
  wf_engines : forall dir, channel_max dir (v_dev v) <= Z.of_nat (length (engines dir v))
}.

(** Only the log differs. *)
Definition logged (v v' : dst) : Prop := exists lg, v' = set_log lg v.

Lemma set_log_set_log (lg lg' : list event) (v : dst) : set_log lg (set_log lg' v) = set_log lg v.
Proof. done. Qed.

#[export] Instance logged_preorder : PreOrder logged.
Proof.
  split; [by intros v; exists (v_log v); destruct v|]. intros v1 v2 v3 [l1 ->] [l2 ->]. by exists l2.
Qed.

Lemma logged_set lg v : logged v (set_log lg v).
Proof. by exists lg. Qed.
#[export] Hint Resolve logged_set : drv.

Section teardown.
Context `{Env}.

(** A loop of calls that only log. *)
Lemma wp_forM_logged {A} (l : list A) (f : A -> M dst unit) v :
  (forall x v', x ∈ l -> logged v v' -> wp (f x) (fun _ v'' => logged v' v'') v') ->
  wp (forM l f) (fun _ v' => logged v v') v.
Proof.
  intros Hf. apply wp_forM_simple; [done|]. intros x v' Hx Hv.
  eapply wp_mono; [by apply Hf|]. intros ? v'' Hv'. by etrans.
Qed.

(** Clearing the vector registers: each turn advances by four. *)
Lemma wp_write_vectors_clear fuel a i max v :
  0 <= i -> max <= i + Z.of_nat fuel -> max < 2 ^ 31 ->
  wp (write_vectors fuel true a i max) (fun _ v' => logged v v') v.
Proof.
  revert a i v. induction fuel as [|fuel IH]; intros a i v Hi Hf Hmax; cbn [write_vectors];
    destruct (Z.ltb_spec i max); try lia; try (apply wp_ret; done).
  apply wp_bind, dwp_write. rewrite (u32_small (i + 4)) by lia.
  eapply wp_mono; [apply IH; lia|]. intros ? v' Hv. etrans; [apply logged_set|exact Hv].
Qed.

Lemma wp_prog_channel_clear v :
  dev_wf v -> wp (prog_irq_msix_channel true) (fun _ v' => logged v v') v.
Proof.
  intros []. unfold prog_irq_msix_channel. apply wp_bind, dwp_get_dev, wp_bind, dwp_int_reg; [done|].
  intros a. rewrite u32_small by lia. apply wp_write_vectors_clear; lia.
Qed.

Lemma wp_prog_user_clear v :
  dev_wf v -> wp (prog_irq_msix_user true) (fun _ v' => logged v v') v.
Proof.
  intros []. unfold prog_irq_msix_user. apply wp_bind, dwp_get_dev, wp_bind, dwp_int_reg; [done|].
  intros a. rewrite (u32_small (_ + d_h2c_channel_max _)), u32_small by lia.
  apply wp_write_vectors_clear; lia.
Qed.

Lemma dev_wf_log lg v : dev_wf v -> dev_wf (set_log lg v).
Proof. by intros []. Qed.

Lemma wp_free_channels dir l v :
  (forall i, i ∈ l -> 0 <= i < Z.of_nat (length (engines dir v))) ->
  wp (free_channels dir l) (fun _ v' => logged v v') v.
Proof.
  revert v. induction l as [|i l IH]; intros v Hl; cbn [free_channels]; [by apply wp_ret|].
  destruct (zlookup_in (engines dir v) i) as [e He]; [apply Hl; set_solver|].
  apply wp_bind. eapply dwp_get_engine; [exact He|]. destruct (_ =? 0); [by apply wp_ret|].
  apply wp_bind, dwp_kdo. eapply wp_mono; [apply IH|].
  - intros j Hj. apply (Hl j). set_solver.
  - intros ? v' Hv. etrans; [apply logged_set|exact Hv].
Qed.

Lemma wp_channel_teardown v :
  dev_wf v -> wp irq_msix_channel_teardown (fun _ v' => logged v v') v.
Proof.
  intros Hwf. unfold irq_msix_channel_teardown. apply wp_bind, dwp_get_dev.
  destruct (negb _); [by apply wp_ret|]. apply wp_bind.
  eapply wp_mono; [by apply wp_prog_channel_clear|]. intros ? ? [l1 ->].
  apply wp_bind. eapply wp_mono; [apply (wp_free_channels DMA_TO_DEVICE)|].
  { intros i ?%elem_of_zrange. pose proof (wf_engines _ Hwf DMA_TO_DEVICE). cbn in *. lia. }
  intros ? ? [l2 ->]. eapply wp_mono; [apply (wp_free_channels DMA_FROM_DEVICE)|].
  { intros i ?%elem_of_zrange. pose proof (wf_engines _ Hwf DMA_FROM_DEVICE). cbn in *. lia. }
  intros ? ? [l3 ->]. by exists l3.
Qed.

Lemma wp_user_teardown v :
  dev_wf v -> wp irq_msix_user_teardown (fun _ v' => logged v v') v.
Proof.
  intros Hwf. unfold irq_msix_user_teardown. apply wp_bind, dwp_get_dev.
  destruct (negb _); [by apply wp_ret|]. apply wp_bind.
  eapply wp_mono; [by apply wp_prog_user_clear|]. intros ? ? [l1 ->]. unfold free_users.
  eapply wp_mono; [apply wp_forM_logged|].
  - intros i v' _ _. apply wp_bind, dwp_kcall, dwp_kdo. by eexists.
  - intros ? ? [l2 ->]. by exists l2.
Qed.

Lemma wp_irq_teardown v : dev_wf v -> wp irq_teardown (fun _ v' => logged v v') v.
Proof.
  intros Hwf. unfold irq_teardown. apply wp_bind, dwp_get_dev. destruct (d_msix_enabled _).
  - apply wp_bind. eapply wp_mono; [by apply wp_channel_teardown|]. intros ? ? [l1 ->].
    eapply wp_mono; [apply wp_user_teardown; by apply dev_wf_log|]. intros ? ? [l2 ->]. by exists l2.
  - apply wp_bind, wp_get, wp_when; intros _; [|done]. apply dwp_kdo. by eexists.
Qed.

(** Every interrupt is turned off, then the requests are read back. *)
Definition all_off (b : Z) (lg : list event) : list event :=
  EvWrite (int_word b "user_int_enable_w1c") UINT_MAX :: EvWrite (int_word b "channel_int_enable_w1c") UINT_MAX :: lg.

Lemma wp_interrupts_off b v :
  zlookup (d_bar (v_dev v)) (d_config_bar_idx (v_dev v)) = Some b ->
  wp interrupts_off (fun _ v' => exists r1 r2, v' = set_log (EvRead (int_word b "channel_int_request") r2 ::
    EvRead (int_word b "user_int_request") r1 :: all_off b (v_log v)) v) v.
Proof.
  intros Hb. unfold interrupts_off. apply wp_bind, dwp_get_dev.
  unfold channel_interrupts_disable, user_interrupts_disable, read_interrupts.
  apply wp_bind, wp_bind. eapply wp_int_reg; [exact Hb|]. apply dwp_write.
  apply wp_bind, wp_bind. eapply wp_int_reg; [exact Hb|]. apply dwp_write.
  apply wp_bind, wp_bind. eapply wp_int_reg; [exact Hb|]. apply wp_bind, dwp_read.
  apply wp_bind. eapply wp_int_reg; [exact Hb|]. apply wp_bind, dwp_read, wp_ret, wp_ret. by do 2 eexists.
Qed.

Lemma wp_interrupts_logged v : has_config (v_dev v) -> wp interrupts_off (fun _ v' => logged v v') v.
Proof.
  intros [b Hb]. eapply wp_mono; [by apply (wp_interrupts_off b)|]. intros _ v' (r1 & r2 & ->). by eexists.
Qed.
End teardown.

(** ** Taking the device offline *)

(** An engine after [engine_offline]. *)
Definition stopped (e e' : xdma_engine) : Prop :=
  if e_magic e =? MAGIC_ENGINE
  then e' = set_e_running false (set_e_shutdown (Z.lor (e_shutdown e) ENGINE_SHUTDOWN_REQUEST) e)
  else e' = e.

(** The engines below [n] are stopped, the others are as before. *)
Definition stopped_below (n : Z) (l l' : list xdma_engine) : Prop :=
  forall j, option_Forall2 (fun e e' => if j <? n then stopped e e' else e' = e) (zlookup l j) (zlookup l' j).

(** The writes that stop an engine, newest first: the run bit of its control
    register, after the credits. *)
Definition stop_events `{Env} (e : xdma_engine) : list event := if e_magic e =? MAGIC_ENGINE then stop_log e else [].

Definition stop_all `{Env} (n : Z) (l : list xdma_engine) : list event :=
  flat_map (fun i => match zlookup l i with Some e => stop_events e | None => [] end) (rev (zrange n)).

Lemma stop_all_S `{Env} i l e : 0 <= i -> zlookup l i = Some e -> stop_all (i + 1) l = stop_events e ++ stop_all i l.
Proof.
  intros Hi He. unfold stop_all. rewrite zrange_S, rev_app_distr by done. cbn [rev app flat_map]. by rewrite He.
Qed.

Lemma stopped_below_0 l : stopped_below 0 l l.
Proof.
  intros j. destruct (zlookup l j) eqn:E; constructor. destruct (Z.ltb_spec j 0); [|done].
  rewrite zlookup_out in E by lia. done.
Qed.

Lemma zlookup_insert_z {A} (l : list A) i j x :
  0 <= i < Z.of_nat (length l) -> zlookup (<[Z.to_nat i := x]> l) j = if decide (i = j) then Some x else zlookup l j.
Proof.
  intros Hi. unfold zlookup. destruct (Z.ltb_spec j 0); case_decide; subst; try lia; try done.
  - rewrite list_lookup_insert_eq by lia. done.
  - rewrite list_lookup_insert_ne by lia. done.
Qed.

Lemma stopped_below_step n l l' e e' :
  0 <= n -> zlookup l' n = Some e -> stopped e e' -> stopped_below n l l' ->
  stopped_below (n + 1) l (<[Z.to_nat n := e']> l').
Proof.
  intros Hn He Hs Hb j. assert (0 <= n < Z.of_nat (length l')) by (apply zlookup_is_Some; eauto).
  specialize (Hb j) as Hbj. rewrite zlookup_insert_z by done. case_decide as Hj.
  - subst j. rewrite He in Hbj. destruct (zlookup l n); inversion Hbj as [? ? Hx|]; subst. constructor.
    destruct (Z.ltb_spec n n), (Z.ltb_spec n (n + 1)); try lia. by subst.
  - destruct Hbj as [x y Hxy|]; constructor. destruct (Z.ltb_spec j n), (Z.ltb_spec j (n + 1)); try lia; done.
Qed.

Lemma stopped_below_length n l l' : stopped_below n l l' -> length l' = length l.
Proof.
  intros Hb. assert (forall j, is_Some (zlookup l' j) <-> is_Some (zlookup l j)) as Hi.
  { intros j. specialize (Hb j). by destruct Hb. }
  assert (forall k, (k < length l')%nat <-> (k < length l)%nat) as Hk.
  { intros k. specialize (Hi (Z.of_nat k)). rewrite !zlookup_is_Some in Hi. lia. }
  pose proof (Hk (length l)). pose proof (Hk (length l')). lia.
Qed.

Section offline.
Context `{Env} `{Callback} `{Sched}.

Lemma engine_offline_run s : exists e',
  engine_offline s = Some (tt, set_log (stop_events (s_eng s) ++ s_log s) (set_s_eng e' s)) /\ stopped (s_eng s) e'.
Proof.
  unfold engine_offline, stopped, stop_events, bind at 1, get_eng at 1, gets at 1, when. destruct (_ =? _).
  - unfold bind at 1, upd_eng at 1, modify at 1, bind at 1. rewrite xdma_engine_stop_eq. eexists. by split.
  - exists (s_eng s). split; [by destruct s|done].
Qed.

(** The device with one direction's engines and the log replaced. *)
Definition with_engines (dir : dma_dir) (l : list xdma_engine) (lg : list event) (v : dst) : dst :=
  set_log lg (set_engines dir l v).

Lemma unfocus_with dir i e' lg v e :
  unfocus_engine dir i (set_log lg (set_s_eng e' (focus_engine e v))) v =
  with_engines dir (<[Z.to_nat i := e']> (engines dir v)) lg v.
Proof. unfold unfocus_engine, with_engines, set_engines, engines. by destruct dir. Qed.

Lemma engines_with dir l lg v : engines dir (with_engines dir l lg v) = l.
Proof. by destruct dir. Qed.
Lemma with_with dir l l' lg lg' v : with_engines dir l lg (with_engines dir l' lg' v) = with_engines dir l lg v.
Proof. by destruct dir. Qed.
Lemma with_engines_id dir v : with_engines dir (engines dir v) (v_log v) v = v.
Proof. destruct v. by destruct dir. Qed.

Lemma wp_each_offline dir n v :
  0 <= n <= Z.of_nat (length (engines dir v)) ->
  wp (each_engine dir n engine_offline) (fun _ v' => exists l,
    v' = with_engines dir l (stop_all n (engines dir v) ++ v_log v) v /\ stopped_below n (engines dir v) l) v.
Proof.
  intros Hn. unfold each_engine. eapply wp_mono.
  - apply (wp_forM_zrange n _ (fun i v' => exists l,
      v' = with_engines dir l (stop_all i (engines dir v) ++ v_log v) v /\ stopped_below i (engines dir v) l)).
    + exists (engines dir v). split; [by rewrite with_engines_id|apply stopped_below_0].
    + intros i v' Hi (l & -> & Hb). pose proof (stopped_below_length _ _ _ Hb) as Hlen.
      destruct (zlookup_in l i) as [e He]; [lia|].
      assert (zlookup (engines dir v) i = Some e) as He0.
      { specialize (Hb i). rewrite He in Hb. inversion Hb as [? ? Hx Hy|]. rewrite Z.ltb_irrefl in Hx. by subst. }
      eapply wp_on_engine; [by rewrite engines_with|].
      set (s0 := focus_engine e _). destruct (engine_offline_run s0) as (e' & Hrun & Hst).
      unfold wp. rewrite Hrun. exists (<[Z.to_nat i := e']> l). split.
      * unfold s0. rewrite unfocus_with, with_with, engines_with, (stop_all_S i _ e), <-app_assoc by (done || lia).
        by destruct dir.
      * apply (stopped_below_step i _ _ e e'); try done; lia.
  - intros ? v' Hv'. cbn beta in Hv'. by rewrite Z.max_r in Hv' by lia.
Qed.

(** The handle is the registered device. *)
Definition registered (pdev : Z) (v : dst) : Prop :=
  pdev <> 0 /\ v_hndl v <> 0 /\ find_pdev (v_list v) pdev = Some (v_hndl v).

Lemma check_hndl_ok pdev v : registered pdev v -> check_hndl pdev v = Some (0, v).
Proof.
  intros (Hp & Hh & Hf). unfold check_hndl, debug_check_dev_hndl, xdev_find_by_pdev, bind, get.
  apply Z.eqb_neq in Hp, Hh. rewrite Hh, Hp, Hf. cbn. by rewrite Z.eqb_refl.
Qed.

(** The device after [xdma_device_offline]: both directions stopped, in the
    registers as in the driver's state, every interrupt off, and marked. *)
Record offline (v v' : dst) : Prop := {
  of_h2c : stopped_below (d_h2c_channel_max (v_dev v)) (v_h2c v) (v_h2c v');
  of_c2h : stopped_below (d_c2h_channel_max (v_dev v)) (v_c2h v) (v_c2h v');
  of_dev : v_dev v' = xdma_device_flag_set (v_dev v) XDEV_FLAG_OFFLINE;
  of_same : v_xfers v' = v_xfers v /\ v_reqs v' = v_reqs v /\ v_sgts v' = v_sgts v /\ v_list v' = v_list v /\
            v_hndl v' = v_hndl v;
  of_log : exists b rest, zlookup (d_bar (v_dev v)) (d_config_bar_idx (v_dev v)) = Some b /\
    v_log v' = rest ++ all_off b (stop_all (d_c2h_channel_max (v_dev v)) (v_c2h v) ++
                                  stop_all (d_h2c_channel_max (v_dev v)) (v_h2c v) ++ v_log v)
}.

Lemma wp_device_offline pdev v :
  dev_wf v -> registered pdev v -> wp (xdma_device_offline pdev) (fun _ v' => offline v v') v.
Proof.
  intros Hwf Hreg. unfold xdma_device_offline. apply wp_bind. unfold wp at 1. rewrite check_hndl_ok by done.
  cbn [Z.ltb Z.compare]. apply wp_bind, dwp_upd_dev, wp_bind, dwp_get_dev.
  pose proof (wf_engines _ Hwf DMA_TO_DEVICE) as Hlh. pose proof (wf_engines _ Hwf DMA_FROM_DEVICE) as Hlc.
  pose proof (wf_h2c _ Hwf). pose proof (wf_c2h _ Hwf). cbn in Hlh, Hlc.
  match goal with |- wp _ _ ?st => set (v1 := st) end.
  apply wp_bind. eapply wp_mono; [apply wp_each_offline; cbn; lia|].
  intros ? ? (lh & -> & Hh). apply wp_bind. eapply wp_mono; [apply wp_each_offline; cbn; lia|].
  intros ? ? (lc & -> & Hc). apply wp_bind. set (v3 := with_engines DMA_FROM_DEVICE _ _ _).
  cbn in Hh, Hc. pose proof (stopped_below_length _ _ _ Hh) as El. pose proof (stopped_below_length _ _ _ Hc) as Ec.
  assert (dev_wf v3) as Hwf3.
  { destruct Hwf. split; try done. intros dir. destruct dir; cbn; lia. }
  destruct (wf_config _ Hwf) as [b Hb].
  eapply wp_mono; [apply (wp_interrupts_off b), Hb|]. intros ? ? (r1 & r2 & ->). keeping (grows (S := dst)).
  eapply wp_mono; [apply wp_irq_teardown; by apply dev_wf_log|]. intros ? ? [lg4 ->] [rest Hl].
  split; try done. exists b. eexists (rest ++ [_; _]). split; [done|]. cbn in Hl |- *. rewrite Hl, <-app_assoc. done.
Qed.

Lemma check_engine_offline dir s :
  xdma_device_flag_check (s_xdev s) XDEV_FLAG_OFFLINE = true ->
  exists rv, rv < 0 /\ check_engine dir s = Some (rv, s).
Proof.
  intros Hf. unfold check_engine, bind, get. rewrite Hf. destruct (negb _); [exists (- EINVAL)|exists (- EBUSY)]; done.
Qed.

Lemma flag_set_check d f : f <> 0 -> xdma_device_flag_check (xdma_device_flag_set d f) f = true.
Proof.
  intros Hf. unfold xdma_device_flag_check, xdma_device_flag_set. cbn. unfold has_bits.
  rewrite Z.land_lor_distr_l, Z.land_diag. destruct (Z.eqb_spec (Z.lor (Z.land (d_flags d) f) f) 0) as [E|]; [|done].
  apply Z.lor_eq_0_iff in E as [_ ?]. done.
Qed.

Lemma on_engine_same {A} dir i (m : M est A) v e a :
  zlookup (engines dir v) i = Some e -> m (focus_engine e v) = Some (a, focus_engine e v) ->
  on_engine dir i m v = Some (a, v).
Proof.
  intros He Hm. rewrite (on_engine_eq dir i m v e He), Hm. do 2 f_equal.
  unfold zlookup in He. destruct (i <? 0); [done|].
  unfold unfocus_engine, engines in *. destruct v, dir; cbn in *; by rewrite list_insert_id.
Qed.

(** [m] is refused, without any effect. *)
Definition refused (m : M dst Z) (v : dst) : Prop := exists rv, rv < 0 /\ m v = Some (rv, v).

(** A computation on an engine that begins with the checks of [check_engine]. *)
Lemma refused_engine dir i m v d :
  xdma_device_flag_check (v_dev v) XDEV_FLAG_OFFLINE = true -> is_Some (zlookup (engines dir v) i) ->
  (forall s rv, check_engine d s = Some (rv, s) -> rv < 0 -> m s = Some (rv, s)) ->
  refused (on_engine dir i m) v.
Proof.
  intros Hf [e He] Hm. destruct (check_engine_offline d (focus_engine e v) Hf) as (rv & Hrv & Hce).
  exists rv. split; [done|]. eapply on_engine_same; [exact He|]. by apply Hm.
Qed.

Lemma refused_select v (write : bool) ch m :
  xdma_device_flag_check (v_dev v) XDEV_FLAG_OFFLINE = true -> 0 <= ch ->
  (forall dir, channel_max dir (v_dev v) <= Z.of_nat (length (engines dir v))) ->
  (forall d s rv, d = (if write then DMA_TO_DEVICE else DMA_FROM_DEVICE) ->
     check_engine d s = Some (rv, s) -> rv < 0 -> m s = Some (rv, s)) ->
  refused (select_engine write ch m) v.
Proof.
  intros Hf Hch Hlen Hm. unfold refused, select_engine, select_channel, get_dev.
  assert (exists r, check_hndl (d_pdev (v_dev v)) v = Some (r, v)) as [r Hr].
  { unfold check_hndl, debug_check_dev_hndl, xdev_find_by_pdev, bind, get, ret. destruct (_ =? 0); [by eexists|].
    destruct (_ =? 0); [by eexists|]. destruct (find_pdev _ _); [|by eexists]. destruct (_ =? _); by eexists. }
  unfold bind at 1, gets at 1, bind at 1. rewrite Hr. destruct (r <? 0); [by exists (- EINVAL)|].
  unfold bind at 1, gets at 1. set (dir := if write then _ else _).
  destruct (Z.leb_spec (channel_max dir (v_dev v)) ch); [by exists (- EINVAL)|].
  apply (refused_engine dir ch m v dir Hf).
  - apply zlookup_in. specialize (Hlen dir). lia.
  - intros s rv. by apply Hm.
Qed.

(** A device marked offline refuses every transfer and stays as it is. *)
Definition refuses (v : dst) : Prop :=
  (forall ch write ep sgt mapped tmo, 0 <= ch -> refused (dev_xfer_submit ch write ep sgt mapped tmo) v) /\
  (forall ch cb write ep sgt mapped, 0 <= ch -> refused (dev_xfer_submit_nowait cb ch write ep sgt mapped) v) /\
  (forall fuel dir i write ep aperture sgt mapped tmo, is_Some (zlookup (engines dir v) i) ->
     refused (on_engine dir i (xdma_xfer_aperture fuel write ep aperture sgt mapped tmo)) v).

Lemma offline_refuses v :
  xdma_device_flag_check (v_dev v) XDEV_FLAG_OFFLINE = true ->
  (forall dir, channel_max dir (v_dev v) <= Z.of_nat (length (engines dir v))) -> refuses v.
Proof.
  intros Hf Hlen. assert (forall rv : Z, rv < 0 -> (rv <? 0) = true) as Hneg by (intros rv; apply Z.ltb_lt).
  split_and!.
  - intros ch write ep sgt mapped tmo Hch. apply refused_select; [done..|]. intros d s rv -> Hce Hrv.
    unfold xdma_xfer_submit, bind at 1. by rewrite Hce, Hneg.
  - intros ch cb write ep sgt mapped Hch. apply refused_select; [done..|]. intros d s rv -> Hce Hrv.
    unfold xdma_xfer_submit_nowait, bind at 1. by rewrite Hce, Hneg.
  - intros fuel dir i write ep aperture sgt mapped tmo Hi.
    apply (refused_engine dir i _ v (if write then DMA_TO_DEVICE else DMA_FROM_DEVICE) Hf Hi). intros s rv Hce Hrv.
    unfold xdma_xfer_aperture, bind at 1, ap_check, bind at 1. rewrite Hce, Hneg by done. unfold ret at 1. by rewrite Hneg.
Qed.

(** C19: [xdma_device_offline] on a registered device: it returns; the first
    thing that it does to the device is to clear the RUN bit of the control
    register of every live engine, H2C then C2H, in channel order (and the
    credits of an engine in credit mode), then it disables every channel and user
    interrupt. Every engine is marked idle with a shutdown requested and its
    queue kept, and nothing but the engines and the offline flag changes. From
    then on every transfer is refused without any effect: blocking, asynchronous,
    and through an aperture (the start of a performance run is not among them). *)
Theorem offline_blocks_submit pdev v :
  dev_wf v -> registered pdev v ->
  exists v', xdma_device_offline pdev v = Some (tt, v') /\ offline v v' /\ refuses v'.
Proof.
  intros Hwf Hreg. pose proof (wp_device_offline pdev v Hwf Hreg) as Hwp.
  apply wp_iff in Hwp as ([] & v' & Hrun & Hoff). exists v'. split; [done|]. split; [done|].
  destruct Hoff as [Hh Hc Hd _ _]. apply offline_refuses.
  - rewrite Hd. by apply flag_set_check.
  - intros dir. rewrite Hd. pose proof (wf_engines _ Hwf dir) as Hl.
    apply stopped_below_length in Hh, Hc. destruct dir; cbn in *; lia.
Qed.
End offline.

Lemma demo_dev_wf : dev_wf demo_dst.
Proof. split; try done; [by eexists|]. intros []; cbn; lia. Qed.

Lemma offline_blocks_submit_witness :
  exists v', @xdma_device_offline zero_env 1 demo_dst = Some (tt, v') /\ @offline zero_env demo_dst v' /\
    @refuses zero_env no_callback (fun _ => []) v'.
Proof.
  apply (@offline_blocks_submit zero_env no_callback (fun _ => []) 1 demo_dst); [apply demo_dev_wf|done].
Defined.
