(* ===== verification/ProbeProps.v ===== *)
(** * ProbeProps: what probing a device establishes

    [probe_engines] in interrupt mode: the engines that it finds are numbered
    with distinct interrupt bits, so that the handler's conditions hold. *)

From S2P Require Import Prelude Hw State Desc Engine Service Request Fixtures QueueProps Submit Dev DevFixtures Thread Irq IrqProps Device Ledger DeviceProps.

(** ** The log of a probe *)

Section grows.
Context `{Env}.

#[export] Instance grows_get_eng : Keep grows get_eng.
Proof. unfold get_eng. keep. Qed.
#[export] Instance grows_upd_eng f : Keep grows (upd_eng f).
Proof. intros s a s' [= _ <-]. by exists []. Qed.
#[export] Instance grows_upd_xdev f : Keep grows (upd_xdev f).
Proof. intros s a s' [= _ <-]. by exists []. Qed.
#[export] Instance grows_read_reg f : Keep grows (read_reg f).
Proof. unfold read_reg. keep. Qed.
#[export] Instance grows_write_reg v f : Keep grows (write_reg v f).
Proof. unfold write_reg. keep. Qed.
#[export] Instance grows_config_bar d : Keep grows (config_bar (S := est) d).
Proof. unfold config_bar. keep. Qed.
#[export] Instance grows_free_resource : Keep grows engine_free_resource.
Proof. unfold engine_free_resource. keep. Qed.
#[export] Instance grows_identity offset dir ch : Keep grows (engine_identity offset dir ch).
Proof. unfold engine_identity. keep. Qed.
#[export] Instance grows_count dir : Keep grows (engine_count dir).
Proof. unfold engine_count. keep. Qed.
#[export] Instance grows_alignments : Keep grows engine_alignments.
Proof. unfold engine_alignments. keep. Qed.
#[export] Instance grows_init_regs : Keep grows engine_init_regs.
Proof. unfold engine_init_regs, engine_writeback_setup, write_credit_mode, credit_reg. keep. Qed.

(** The allocation fails only where the kernel refuses memory. *)
Definition no_memory (new : list event) : Prop := exists args, EvCall "dma_alloc_coherent" args 0 ∈ new.

Lemma no_memory_app l1 l2 : no_memory l2 -> no_memory (l1 ++ l2).
Proof. intros [args Hn]. exists args. apply elem_of_app. by right. Qed.

Lemma wp_alloc_refused s :
  poll_mode = false ->
  wp engine_alloc_resource (fun rv s' => exists new, s_log s' = new ++ s_log s /\ (rv <> 0 -> no_memory new)) s.
Proof.
  intros Hpoll. set (Q := fun (rv : Z) (s' : est) => _).
  assert (forall s1 new, s_log s1 = new ++ s_log s -> no_memory new ->
    wp (engine_free_resource >>; ret (- ENOMEM)) Q s1) as Hfail.
  { intros s1 new Hl Hn. apply wp_bind. keeping (grows (S := est)).
    eapply wp_mono; [apply wp_free_memory|]. intros _ s2 _ [new2 Hg]. apply wp_ret. exists (new2 ++ new).
    split; [by rewrite <-app_assoc, <-Hl|]. intros _. by apply no_memory_app. }
  unfold engine_alloc_resource, dma_alloc_coherent. rewrite Hpoll.
  apply wp_bind, wp_get_eng, wp_bind, wp_bind, wp_kcall, wp_bind, wp_kcall, wp_ret.
  destruct (Z.eqb_spec (kernel (s_log s) "dma_alloc_coherent" [e_desc_max (s_eng s) * DESC_SIZE]) 0) as [Hz|Hz].
  { apply wp_bind, wp_upd_eng. rewrite Hz. eapply (Hfail _ [_; _]); [done|]. eexists. right. left. }
  apply wp_bind, wp_upd_eng, wp_bind, wp_upd_eng, wp_bind, wp_ret. cbn [negb].
  apply wp_bind. destruct (e_streaming (s_eng s) && is_c2h (e_dir (s_eng s))).
  - apply wp_bind, wp_bind, wp_kcall, wp_bind, wp_kcall, wp_ret, wp_bind, wp_upd_eng, wp_bind, wp_upd_eng, wp_ret.
    match goal with |- context [negb (negb (?q =? 0))] => destruct (Z.eqb_spec q 0) as [Hq|Hq] end; cbn [negb].
    + rewrite Hq. eapply (Hfail _ [_; _; _; _]); [done|]. eexists. right. left.
    + apply wp_ret. by eexists [_; _; _; _].
  - apply wp_ret. cbn [negb]. apply wp_ret. by eexists [_; _].
Qed.

Lemma core_refused offset dir ch s rv s' :
  poll_mode = false -> engine_init_core offset dir ch s = Some (rv, s') ->
  exists new, s_log s' = new ++ s_log s /\ (rv <> 0 -> no_memory new).
Proof.
  intros Hpoll. unfold engine_init_core, bind.
  destruct (engine_identity offset dir ch s) as [[u s1]|] eqn:E1; [|done].
  destruct (engine_count dir s1) as [[u2 s2]|] eqn:E2; [|done].
  destruct (grows_identity _ _ _ _ _ _ E1) as [n1 G1]. destruct (grows_count _ _ _ _ E2) as [n2 G2].
  destruct (engine_alloc_resource s2) as [[rv3 s3]|] eqn:E3; [|done].
  pose proof (wp_alloc_refused s2 Hpoll) as Hw. unfold wp in Hw. rewrite E3 in Hw. destruct Hw as (n3 & G3 & Hno).
  cbn in G1, G2. destruct (Z.eqb_spec rv3 0) as [->|Hz]; cbn [negb].
  - intros E4. destruct (grows_init_regs _ _ _ E4) as [n4 G4]. cbn in G4. exists (n4 ++ n3 ++ n2 ++ n1).
    split; [by rewrite G4, G3, G2, G1, <-!app_assoc|]. intros Hrv. exfalso. apply Hrv.
    revert E4. unfold engine_init_regs. rewrite Hpoll. unfold bind.
    repeat (match goal with |- context [match ?m with Some _ => _ | None => None end = _] => destruct m as [[? ?]|]; [|done] end; cbn).
    by intros [= <- _].
  - intros [= <- <-]. exists (n3 ++ n2 ++ n1). split; [by rewrite G3, G2, G1, <-!app_assoc|].
    intros _. destruct (Hno Hz) as [args Hin]. exists args. apply elem_of_app. by left.
Qed.
End grows.

(** An engine as [engine_identity] leaves it. *)
Record identified (bit regs : Z) (dir : dma_dir) (ch : Z) (e : xdma_engine) : Prop := {
  id_magic : e_magic e = MAGIC_ENGINE;
  id_channel : e_channel e = Z.land ch 3;
  id_bit : e_irq_bitmask e = bit;
  id_regs : e_regs e = regs;
  id_dir : e_dir e = dir;
  id_flush : e_eop_flush e = false;
  id_max : e_desc_max e = XDMA_ENGINE_XFER_MAX_DESC \/ e_desc_max e = XDMA_ENGINE_CREDIT_XFER_MAX_DESC;
  id_idle : e_transfer_list e = [] /\ e_running e = false /\ e_shutdown e = 0;
  id_ring : e_desc_idx e = 0 /\ e_desc_used e = 0
}.

(** ... and with its descriptor ring. *)
Definition probed (bit regs : Z) (dir : dma_dir) (ch : Z) (e : xdma_engine) : Prop :=
  identified bit regs dir ch e /\
  e_desc e = Some (replicate (Z.to_nat (e_desc_max e)) zero_desc).

Section core.
Context `{Env}.

(** States in the form [at_eng lg e s]: the rules keep this form, so that the
    terms stay small. *)
Definition at_eng (lg : list event) (e : xdma_engine) (s : est) : est := set_log lg (set_s_eng e s).

Lemma at_eng_id s : s = at_eng (s_log s) (s_eng s) s.
Proof. by destruct s. Qed.
Lemma at_upd_eng f lg e s (Q : unit -> est -> Prop) : Q tt (at_eng lg (f e) s) -> wp (upd_eng f) Q (at_eng lg e s).
Proof. done. Qed.
Lemma at_get_eng lg e s (Q : xdma_engine -> est -> Prop) : Q e (at_eng lg e s) -> wp get_eng Q (at_eng lg e s).
Proof. done. Qed.
Lemma at_read_reg f lg e s (Q : Z -> est -> Prop) :
  (forall v lg, Q v (at_eng lg e s)) -> wp (read_reg f) Q (at_eng lg e s).
Proof. intros HQ. apply HQ. Qed.
Lemma at_write_reg v f lg e s (Q : unit -> est -> Prop) :
  (forall lg, Q tt (at_eng lg e s)) -> wp (write_reg v f) Q (at_eng lg e s).
Proof. intros HQ. apply HQ. Qed.
Lemma at_write v a lg e s (Q : unit -> est -> Prop) :
  (forall lg, Q tt (at_eng lg e s)) -> wp (write_register v a) Q (at_eng lg e s).
Proof. intros HQ. apply HQ. Qed.
Lemma at_kcall f args lg e s (Q : Z -> est -> Prop) :
  (forall v lg, Q v (at_eng lg e s)) -> wp (kcall f args) Q (at_eng lg e s).
Proof. intros HQ. apply HQ. Qed.
Lemma at_kdo f args lg e s (Q : unit -> est -> Prop) :
  (forall lg, Q tt (at_eng lg e s)) -> wp (kdo f args) Q (at_eng lg e s).
Proof. intros HQ. apply HQ. Qed.
Lemma at_config lg e s b (Q : Z -> est -> Prop) :
  zlookup (d_bar (s_xdev s)) (d_config_bar_idx (s_xdev s)) = Some b -> Q b (at_eng lg e s) ->
  wp (config_bar (s_xdev s)) Q (at_eng lg e s).
Proof. intros Hb HQ. unfold config_bar. by eapply wp_deref. Qed.

(** The engine that [engine_identity] makes, [st] read from the device. *)
Definition identity (d : xdma_dev) (b offset : Z) (dir : dma_dir) (ch : Z) (st : bool) (e : xdma_engine) : xdma_engine :=
  let e := set_e_sgdma_regs (b + offset + SGDMA_OFFSET_FROM_CHANNEL) (set_e_regs (b + offset)
    (set_e_bypass_offset (u32 (d_engines_num d * BYPASS_MODE_SPACING))
      (set_e_irq_bitmask (u32 (Z.shiftl (Z.shiftl 1 XDMA_ENG_IRQ_NUM - 1) (d_engines_num d * XDMA_ENG_IRQ_NUM)))
        (set_e_channel (Z.land ch 3) (set_e_magic MAGIC_ENGINE e))))) in
  let e := set_e_dir dir (if st then set_e_streaming true e else e) in
  let e := set_e_name (engine_name (d_idx d) dir ch (e_streaming e)) e in
  set_e_desc_max (if credit_mode e then XDMA_ENGINE_CREDIT_XFER_MAX_DESC else XDMA_ENGINE_XFER_MAX_DESC) e.

Lemma wp_engine_identity lg0 e0 s offset dir ch b :
  zlookup (d_bar (s_xdev s)) (d_config_bar_idx (s_xdev s)) = Some b ->
  wp (engine_identity offset dir ch) (fun _ s' => exists st lg,
    s' = at_eng lg (identity (s_xdev s) b offset dir ch st e0) s) (at_eng lg0 e0 s).
Proof.
  intros Hb. unfold engine_identity. apply wp_bind, wp_get, wp_bind.
  change (s_xdev (at_eng lg0 e0 s)) with (s_xdev s).
  apply (at_config _ _ _ b _ Hb). repeat (apply wp_bind, at_upd_eng).
  apply wp_bind, at_read_reg. intros v lg. apply wp_bind, wp_when; intros _.
  - apply at_upd_eng. repeat (apply wp_bind, at_upd_eng). apply at_upd_eng. by exists true, lg.
  - repeat (apply wp_bind, at_upd_eng). apply at_upd_eng. by exists false, lg.
Qed.

(** The interrupt bit of the next engine. *)
Definition next_bit (d : xdma_dev) : Z :=
  u32 (Z.shiftl (Z.shiftl 1 XDMA_ENG_IRQ_NUM - 1) (d_engines_num d * XDMA_ENG_IRQ_NUM)).

Lemma next_bit_pow d : 0 <= d_engines_num d < 32 -> next_bit d = 2 ^ d_engines_num d.
Proof.
  intros Hn. unfold next_bit, XDMA_ENG_IRQ_NUM. rewrite Z.mul_1_r. change (Z.shiftl 1 1 - 1) with 1.
  rewrite Z.shiftl_1_l. apply u32_small. split; [apply Z.pow_nonneg; lia|apply Z.pow_lt_mono_r; lia].
Qed.

Lemma identity_ok d b offset dir ch st :
  identified (next_bit d) (b + offset) dir ch (identity d b offset dir ch st zero_engine).
Proof.
  unfold identity, next_bit. generalize (engine_name (d_idx d) dir ch). intros nm.
  generalize (u32 (Z.shiftl (Z.shiftl 1 XDMA_ENG_IRQ_NUM - 1) (d_engines_num d * XDMA_ENG_IRQ_NUM))) as bit. intros bit.
  generalize (u32 (d_engines_num d * BYPASS_MODE_SPACING)) as byp. intros byp. cbv zeta.
  destruct st; (split; [reflexivity..| |split_and!; reflexivity|split; reflexivity]);
    (match goal with |- context [if ?c then _ else _] => destruct c end); [right|left|right|left]; reflexivity.
Qed.

(** What the allocation and the registers add does not touch the identity. *)
Section keep.
Variables (bit regs : Z) (dir : dma_dir) (ch : Z).
Abbreviation ok := (identified bit regs dir ch).
Lemma id_desc v e : ok e -> ok (set_e_desc v e).
Proof. by intros []. Qed.
Lemma id_desc_bus v e : ok e -> ok (set_e_desc_bus v e).
Proof. by intros []. Qed.
Lemma id_result v e : ok e -> ok (set_e_cyclic_result v e).
Proof. by intros []. Qed.
Lemma id_result_bus v e : ok e -> ok (set_e_cyclic_result_bus v e).
Proof. by intros []. Qed.
Lemma id_poll v e : ok e -> ok (set_e_poll_mode_addr_virt v e).
Proof. by intros []. Qed.
Lemma id_addr_bits v e : ok e -> ok (set_e_addr_bits v e).
Proof. by intros []. Qed.
Lemma id_len_granularity v e : ok e -> ok (set_e_len_granularity v e).
Proof. by intros []. Qed.
Lemma id_addr_align v e : ok e -> ok (set_e_addr_align v e).
Proof. by intros []. Qed.
Lemma id_mask v e : ok e -> ok (set_e_interrupt_enable_mask_value v e).
Proof. by intros []. Qed.
End keep.
Create HintDb ident.
#[local] Hint Resolve id_desc id_desc_bus id_result id_result_bus id_poll id_addr_bits id_len_granularity
  id_addr_align id_mask : ident.

Lemma wp_free_resource bit regs dir ch lg e s :
  identified bit regs dir ch e ->
  wp engine_free_resource (fun _ s' => exists e' lg', s' = at_eng lg' e' s /\ identified bit regs dir ch e')
    (at_eng lg e s).
Proof.
  intros Hid. unfold engine_free_resource. apply wp_bind, at_get_eng, wp_bind.
  assert (forall (b : bool) a f lg1 e1, identified bit regs dir ch e1 ->
    (forall e, identified bit regs dir ch e -> identified bit regs dir ch (f e)) ->
    wp (when b (kdo "dma_free_coherent" a >>; upd_eng f)) (fun _ s' => exists e' lg', s' = at_eng lg' e' s /\
      identified bit regs dir ch e') (at_eng lg1 e1 s)) as Hstep.
  { intros b a f lg1 e1 H1 Hf. apply wp_when; intros _; [|by exists e1, lg1].
    apply wp_bind, at_kdo. intros lg2. apply at_upd_eng. exists (f e1), lg2. auto. }
  eapply wp_mono; [apply Hstep; auto with ident|]. intros ? ? (e1 & lg1 & -> & H1). apply wp_bind.
  eapply wp_mono.
  { destruct (e_desc e); [apply (Hstep true); auto with ident|apply (Hstep false [] id); auto with ident]. }
  intros ? ? (e2 & lg2 & -> & H2). apply Hstep; auto with ident.
Qed.

Lemma wp_alloc_resource bit regs dir ch lg e s :
  poll_mode = false -> identified bit regs dir ch e ->
  wp engine_alloc_resource (fun rv s' => exists e' lg', s' = at_eng lg' e' s /\
    identified bit regs dir ch e' /\ (rv = 0 -> probed bit regs dir ch e')) (at_eng lg e s).
Proof.
  intros Hpoll Hid.
  assert (forall lg1 e1, identified bit regs dir ch e1 ->
    wp (engine_free_resource >>; ret (- ENOMEM)) (fun rv s' => exists e' lg', s' = at_eng lg' e' s /\
      identified bit regs dir ch e' /\ (rv = 0 -> probed bit regs dir ch e')) (at_eng lg1 e1 s)) as Hfail.
  { intros lg1 e1 H1. apply wp_bind. eapply wp_mono; [by apply wp_free_resource|].
    intros ? ? (e2 & lg2 & -> & H2). apply wp_ret. by exists e2, lg2. }
  unfold engine_alloc_resource, dma_alloc_coherent. rewrite Hpoll.
  apply wp_bind, at_get_eng, wp_bind, wp_bind, at_kcall. intros p lg1. apply wp_bind, at_kcall. intros bus lg2.
  apply wp_ret. destruct (p =? 0).
  { apply wp_bind, at_upd_eng, Hfail. auto with ident. }
  apply wp_bind, at_upd_eng, wp_bind, at_upd_eng, wp_bind, wp_ret. cbn [negb].
  set (e1 := set_e_desc_bus bus _).
  assert (probed bit regs dir ch e1) as H1 by (split; [unfold e1; auto with ident|done]). clearbody e1.
  apply wp_bind. destruct (e_streaming e && is_c2h (e_dir e)).
  - apply wp_bind, wp_bind, at_kcall. intros p2 lg3. apply wp_bind, at_kcall. intros bus2 lg4. apply wp_ret.
    apply wp_bind, at_upd_eng, wp_bind, at_upd_eng, wp_ret.
    destruct (negb (negb (p2 =? 0))); [apply Hfail; destruct H1; auto with ident|].
    apply wp_ret. eexists _, _. split; [reflexivity|]. destruct H1 as [Hi Hr].
    split; [|split; [|exact Hr]]; auto with ident.
  - apply wp_ret. cbn [negb]. apply wp_ret. exists e1, lg2. split; [done|]. split; [apply H1|done].
Qed.

Lemma wp_alignments bit regs dir ch lg e s :
  probed bit regs dir ch e ->
  wp engine_alignments (fun _ s' => exists e' lg', s' = at_eng lg' e' s /\ probed bit regs dir ch e') (at_eng lg e s).
Proof.
  intros [Hi Hr]. unfold engine_alignments. apply wp_bind, at_read_reg. intros w lg1.
  destruct (negb _); apply at_upd_eng; eexists _, _; (split; [reflexivity|]);
    (split; [auto with ident|exact Hr]).
Qed.

Lemma wp_init_regs bit regs dir ch lg e s b :
  poll_mode = false -> probed bit regs dir ch e ->
  zlookup (d_bar (s_xdev s)) (d_config_bar_idx (s_xdev s)) = Some b ->
  wp engine_init_regs (fun rv s' => rv = 0 /\ exists e' lg', s' = at_eng lg' e' s /\ probed bit regs dir ch e')
    (at_eng lg e s).
Proof.
  intros Hpoll Hp Hb. unfold engine_init_regs. rewrite Hpoll. apply wp_bind, at_write_reg. intros lg1.
  apply wp_bind. eapply wp_mono; [by apply wp_alignments|]. intros ? ? (e1 & lg2 & -> & [Hi Hr]).
  apply wp_bind, wp_ret. cbn [negb Z.eqb]. apply wp_bind, at_write_reg. intros lg3.
  apply wp_bind, at_upd_eng. set (e2 := set_e_interrupt_enable_mask_value _ e1).
  assert (probed bit regs dir ch e2) as H2 by (split; [unfold e2; auto with ident|exact Hr]). clearbody e2.
  apply wp_bind. unfold write_credit_mode. apply wp_bind, at_get_eng.
  apply (wp_mono _ (fun _ s' => exists lg', s' = at_eng lg' e2 s)).
  - apply wp_when; intros _; [|by exists lg3]. apply wp_bind. unfold credit_reg. apply wp_bind, wp_get, wp_bind.
    change (s_xdev (at_eng lg3 e2 s)) with (s_xdev s). apply (at_config _ _ _ b _ Hb), wp_ret, at_write.
    intros lg4. by exists lg4.
  - intros ? ? [lg4 ->]. apply wp_ret. split; [done|]. by exists e2, lg4.
Qed.

(** The device after one more engine. *)
Definition counted (dir : dma_dir) (d : xdma_dev) : xdma_dev :=
  let bit := next_bit d in
  let d := if is_h2c dir then set_d_mask_irq_h2c (Z.lor (d_mask_irq_h2c d) bit) d
           else set_d_mask_irq_c2h (Z.lor (d_mask_irq_c2h d) bit) d in
  set_d_engines_num (d_engines_num d + 1) d.

Lemma wp_engine_init_core lg s offset dir ch b :
  poll_mode = false -> zlookup (d_bar (s_xdev s)) (d_config_bar_idx (s_xdev s)) = Some b ->
  wp (engine_init_core offset dir ch) (fun rv s' => exists e' lg',
    s' = at_eng lg' e' (set_s_xdev (counted dir (s_xdev s)) s) /\
    identified (next_bit (s_xdev s)) (b + offset) dir ch e' /\
    (rv = 0 -> probed (next_bit (s_xdev s)) (b + offset) dir ch e') /\
    (rv <> 0 -> mem_of e' = 0) /\ settled (at_eng lg zero_engine s) s') (at_eng lg zero_engine s).
Proof.
  intros Hpoll Hb. set (s0 := at_eng lg zero_engine s) at 2. unfold engine_init_core.
  apply wp_bind. keeping (untouched (S := est)). eapply wp_mono; [by apply wp_engine_identity|].
  intros ? ? (st & lg1 & ->) Hu1. apply untouched_settled in Hu1. fold s0 in Hu1.
  assert (mem_of (identity (s_xdev s) b offset dir ch st zero_engine) = 0) as Hm by (by destruct st).
  pose proof (identity_ok (s_xdev s) b offset dir ch st) as Hid.
  set (e := identity _ _ _ _ _ _ _) in *. clearbody e. set (s2 := set_s_xdev (counted dir (s_xdev s)) s).
  apply wp_bind. keeping (untouched (S := est)). apply (wp_mono _ (fun _ s' => s' = at_eng lg1 e s2)).
  { unfold engine_count. apply wp_bind, at_get_eng. apply wp_bind, wp_modify, wp_modify.
    unfold s2, counted. rewrite <-(id_bit _ _ _ _ _ Hid). destruct s. by destruct dir. }
  intros ? ? -> Hu2. apply untouched_settled in Hu2.
  assert (zlookup (d_bar (s_xdev s2)) (d_config_bar_idx (s_xdev s2)) = Some b) as Hb2 by (by destruct dir).
  apply wp_bind. eapply wp_mono; [apply wp_and; [by apply wp_alloc_resource|exact (wp_alloc_memory (at_eng lg1 e s2) Hm)]|].
  intros rv ? [(e1 & lg2 & -> & H1 & Hp1) [Hs3 Hm3]].
  assert (settled s0 (at_eng lg2 e1 s2)) as Hs by (by rewrite Hu1, Hu2). destruct (Z.eqb_spec rv 0) as [Hz|Hz]; cbn [negb].
  - keeping (untouched (S := est)). eapply wp_mono; [apply (wp_init_regs _ _ _ _ _ _ _ b Hpoll (Hp1 Hz) Hb2)|].
    intros rv2 ? [-> (e2 & lg3 & -> & Hp2)] Hu4. apply untouched_settled in Hu4.
    exists e2, lg3. split; [done|]. split; [apply Hp2|]. split; [done|]. split; [done|by etrans].
  - apply wp_ret. exists e1, lg2. split; [done|]. split; [done|]. split; [done|]. split; [intros _; by apply Hm3|done].
Qed.
End core.

(** ** The engines of the device *)

Definition irq_mask (dir : dma_dir) (d : xdma_dev) : Z :=
  if is_h2c dir then d_mask_irq_h2c d else d_mask_irq_c2h d.

(** Every engine has no interrupt bit, or one below the number of engines that
    no other engine of its direction has, and which the mask contains. *)
Record numbered (v : dst) : Prop := {
  nb_num : 0 <= d_engines_num (v_dev v);
  nb_bits : forall dir i e, zlookup (engines dir v) i = Some e ->
    e_irq_bitmask e = 0 \/ exists k, 0 <= k < d_engines_num (v_dev v) /\ e_irq_bitmask e = 2 ^ k;
  nb_disj : forall dir, disjoint_bits (engines dir v);
  nb_mask : forall dir i e, zlookup (engines dir v) i = Some e ->
    Z.land (e_irq_bitmask e) (irq_mask dir (v_dev v)) = e_irq_bitmask e
}.

Lemma land_pow2_ne j k : 0 <= j -> 0 <= k -> j <> k -> Z.land (2 ^ j) (2 ^ k) = 0.
Proof.
  intros Hj Hk Hjk. apply Z.bits_inj'. intros n Hn. rewrite Z.land_spec, Z.bits_0, !Z.pow2_bits_eqb by done.
  destruct (Z.eqb_spec j n), (Z.eqb_spec k n); try done; lia.
Qed.

Lemma counted_fields dir d :
  d_bar (counted dir d) = d_bar d /\ d_config_bar_idx (counted dir d) = d_config_bar_idx d /\
  d_user_max (counted dir d) = d_user_max d /\ d_user_irq (counted dir d) = d_user_irq d /\
  d_h2c_channel_max (counted dir d) = d_h2c_channel_max d /\ d_c2h_channel_max (counted dir d) = d_c2h_channel_max d /\
  d_engines_num (counted dir d) = d_engines_num d + 1.
Proof. by destruct dir. Qed.

Lemma counted_mask dir dir' d :
  irq_mask dir' (counted dir d) = if decide (dir = dir') then Z.lor (irq_mask dir' d) (next_bit d) else irq_mask dir' d.
Proof. by destruct dir, dir'. Qed.

Lemma set_engines_other dir dir' l v : dir <> dir' -> engines dir' (set_engines dir l v) = engines dir' v.
Proof. by destruct dir, dir'. Qed.
Lemma set_engines_same dir l v : engines dir (set_engines dir l v) = l.
Proof. by destruct dir. Qed.

(** The device after [engine_init_core] on engine [ch]. *)
Definition after_init (dir : dma_dir) (ch : Z) (e : xdma_engine) (lg : list event) (v : dst) : dst :=
  set_log lg (set_v_dev (counted dir (v_dev v)) (set_engines dir (<[Z.to_nat ch := e]> (engines dir v)) v)).

Lemma engines_after dir dir' ch e lg v :
  engines dir' (after_init dir ch e lg v) =
  if decide (dir = dir') then <[Z.to_nat ch := e]> (engines dir' v) else engines dir' v.
Proof. by destruct dir, dir'. Qed.

Lemma unfocus_after dir ch e lg v e0 :
  unfocus_engine dir ch (at_eng lg e (set_s_xdev (counted dir (v_dev v)) (focus_engine e0 v))) v = after_init dir ch e lg v.
Proof. by destruct dir. Qed.

(** A new bit is disjoint from the bits that are in use. *)
Lemma new_bit v dir i e : numbered v -> d_engines_num (v_dev v) < 32 ->
  zlookup (engines dir v) i = Some e -> Z.land (e_irq_bitmask e) (next_bit (v_dev v)) = 0.
Proof.
  intros [Hn Hb _ _] H32 He. rewrite next_bit_pow by lia. destruct (Hb dir i e He) as [->|(k & Hk & ->)]; [done|].
  apply land_pow2_ne; lia.
Qed.

Lemma numbered_after dir ch e lg v :
  numbered v -> d_engines_num (v_dev v) < 32 -> 0 <= ch < Z.of_nat (length (engines dir v)) ->
  e_irq_bitmask e = next_bit (v_dev v) -> numbered (after_init dir ch e lg v).
Proof.
  intros Hnb H32 Hch Hbit. pose proof Hnb as [Hn Hb Hd Hm].
  destruct (counted_fields dir (v_dev v)) as (_ & _ & _ & _ & _ & _ & En).
  assert (forall dir' i e', zlookup (engines dir' (after_init dir ch e lg v)) i = Some e' ->
    (dir = dir' /\ i = ch /\ e' = e) \/ (zlookup (engines dir' v) i = Some e' /\ ~ (dir = dir' /\ i = ch))) as Hcase.
  { intros dir' i e'. rewrite engines_after. case_decide as Hdir; [subst dir'|right; split; [done|]; tauto].
    rewrite zlookup_insert_z by done. case_decide; [intros [= <-]; left; auto|].
    right. split; [done|]. intros [_ ?]. congruence. }
  split; cbn [v_dev after_init set_log dst_log set_v_dev].
  - lia.
  - rewrite En. intros dir' i e' [(<- & -> & ->)|[He _]]%Hcase.
    + right. exists (d_engines_num (v_dev v)). split; [lia|]. rewrite Hbit. apply next_bit_pow. lia.
    + destruct (Hb _ _ _ He) as [|(k & ? & ?)]; [by left|]. right. exists k. split; [lia|done].
  - intros dir' i j ei ej Hij [(<- & -> & ->)|[Hi Hni]]%Hcase [(Hd' & -> & ->)|[Hj Hnj]]%Hcase.
    + done.
    + rewrite Hbit, Z.land_comm. by eapply new_bit.
    + rewrite Hbit. by eapply new_bit.
    + by eapply (Hd dir' i j).
  - intros dir' i e' Hc. rewrite counted_mask. apply Hcase in Hc as [(<- & -> & ->)|[He Hne]].
    + rewrite decide_True by done. rewrite Hbit, Z.land_lor_distr_r, Z.land_diag.
      apply Z.bits_inj'. intros k Hk. rewrite Z.lor_spec, Z.land_spec.
      by destruct (Z.testbit (next_bit _) k), (Z.testbit (irq_mask _ _) k).
    + case_decide; [|by eapply Hm]. subst dir'. rewrite Z.land_lor_distr_r, (new_bit v dir i e') by done.
      rewrite Z.lor_0_r. by eapply Hm.
Qed.

(** ** Probing *)

(** The PCI side of a device. *)
Definition d_pci (d : xdma_dev) : Z * Z * (bool * bool) * (bool * bool) * Z :=
  (d_pdev d, d_idx d, (d_regions_in_use d, d_got_regions d), (d_msi_enabled d, d_msix_enabled d), d_irq_line d).

(** What probing keeps of the device. *)
Definition dev_frame (d d' : xdma_dev) : Prop :=
  d_bar d' = d_bar d /\ d_config_bar_idx d' = d_config_bar_idx d /\ d_user_max d' = d_user_max d /\
  d_user_irq d' = d_user_irq d /\ d_h2c_channel_max d' = d_h2c_channel_max d /\
  d_c2h_channel_max d' = d_c2h_channel_max d /\ d_pci d' = d_pci d.

#[export] Instance dev_frame_preorder : PreOrder dev_frame.
Proof. split; [by intros d|]. intros d1 d2 d3 H12 H23. unfold dev_frame in *. intuition congruence. Qed.

Lemma counted_frame dir d : dev_frame d (counted dir d).
Proof.
  destruct (counted_fields dir d) as (? & ? & ? & ? & ? & ? & _). split_and!; try done. by destruct dir.
Qed.

Section probe.
Context `{Env} `{Callback}.
Variable b : Z.
Hypothesis Hpoll : poll_mode = false.

(** Engine [ch] is ready. *)
Definition found (v : dst) (dir : dma_dir) (ch : Z) : Prop :=
  exists e bit, zlookup (engines dir v) ch = Some e /\ probed bit (b + engine_offset dir ch) dir ch e.

(** What the identifier register of a channel tells: the upper half the kind of
    the engine, bits 8 to 11 the number of the channel. The driver reads it twice. *)
Definition id_addr (dir : dma_dir) (ch : Z) : Z := b + engine_offset dir ch + offsetof engine_regs "identifier".
Definition names (dir : dma_dir) (ch w1 w2 : Z) : Prop :=
  (w1 `div` 2 ^ 16) = (if is_h2c dir then 0x1fc0 else 0x1fc1) /\ (w2 `div` 2 ^ 8) `mod` 16 = ch.

Definition id_seen (dir : dma_dir) (ch : Z) (ok : bool) (seg : list event) : Prop :=
  (b + engine_offset dir ch = 0 /\ seg = [] /\ ok = false) \/
  exists w1 w2, seg = [EvRead (id_addr dir ch) w2; EvRead (id_addr dir ch) w1] /\ (ok = true <-> names dir ch w1 w2).

(** The accesses [seg] of the probe of one channel: it succeeds exactly on a
    channel that identifies itself, and for whose ring there is memory. *)
Definition probe_seen (dir : dma_dir) (ch rv : Z) (seg : list event) : Prop :=
  exists ids rest ok, seg = rest ++ ids /\ id_seen dir ch ok ids /\
    (if ok then rv <> 0 -> no_memory rest else rv <> 0).

(** A device while the channels of [dir] are probed: those from [i] on are new. *)
Record probing (dir : dma_dir) (i : Z) (v : dst) : Prop := {
  pb_bar : zlookup (d_bar (v_dev v)) (d_config_bar_idx (v_dev v)) = Some b;
  pb_num : numbered v;
  pb_length : length (engines dir v) = 4%nat;
  pb_new : forall j, i <= j < 4 -> zlookup (engines dir v) j = Some zero_engine;
  pb_found : forall j, 0 <= j < i -> found v dir j
}.

Record probe_step (dir : dma_dir) (n : Z) (v v' : dst) : Prop := {
  ps_dev : dev_frame (v_dev v) (v_dev v');
  ps_count : d_engines_num (v_dev v') <= d_engines_num (v_dev v) + n;
  ps_other : forall dir', dir <> dir' -> engines dir' v' = engines dir' v;
  ps_list : v_list v' = v_list v /\ v_hndl v' = v_hndl v;
  ps_settled : settled v v'
}.

Lemma probe_step_trans dir n m v1 v2 v3 :
  probe_step dir n v1 v2 -> probe_step dir m v2 v3 -> probe_step dir (n + m) v1 v3.
Proof.
  intros [D1 C1 O1 [L1 H1] S1] [D2 C2 O2 [L2 H2] S2]. split; [by etrans|lia| |split; congruence|by etrans].
  intros dir' Hd. by rewrite O2, O1.
Qed.

(** The engines from [i] on have no memory. *)
Definition bare_from (dir : dma_dir) (i : Z) (v : dst) : Prop :=
  forall j e, i <= j -> zlookup (engines dir v) j = Some e -> mem_of e = 0.

Lemma probing_bare dir i v : 0 <= i -> probing dir i v -> bare_from dir i v.
Proof.
  intros Hi [_ _ Hl Hn _] j e Hj He. assert (0 <= j < 4) as H4.
  { assert (0 <= j < Z.of_nat (length (engines dir v))) by (apply zlookup_is_Some; eauto). lia. }
  rewrite Hn in He by lia. by injection He as <-.
Qed.

Lemma id_kind w : 0 <= w < 2 ^ 32 -> u32 (Z.shiftr (Z.land w 0xffff0000) 16) = w `div` 2 ^ 16.
Proof.
  intros Hw. rewrite Z.shiftr_land. change (Z.shiftr 0xffff0000 16) with (Z.ones 16).
  rewrite Z.land_ones, Z.shiftr_div_pow2 by lia.
  assert (0 <= w `div` 2 ^ 16 < 2 ^ 16) by (split; [apply Z.div_pos; lia|apply Z.div_lt_upper_bound; lia]).
  rewrite (Z.mod_small (w `div` 2 ^ 16)) by done. apply u32_small. lia.
Qed.

Lemma id_number w : u32 (Z.shiftr (Z.land w 0x00000f00) 8) = (w `div` 2 ^ 8) `mod` 16.
Proof.
  rewrite Z.shiftr_land. change (Z.shiftr 0x00000f00 8) with (Z.ones 4). rewrite Z.land_ones, Z.shiftr_div_pow2 by lia.
  change (2 ^ 4) with 16. apply u32_small. pose proof (Z.mod_pos_bound (w `div` 2 ^ 8) 16). lia.
Qed.

Lemma wp_identify dir ch v (Q : Z -> dst -> Prop) (m : M dst Z) regs :
  regs = b + engine_offset dir ch ->
  (forall seg, settled v (set_log (seg ++ v_log v) v) -> id_seen dir ch false seg -> Q (- EINVAL) (set_log (seg ++ v_log v) v)) ->
  (forall seg, settled v (set_log (seg ++ v_log v) v) -> id_seen dir ch true seg -> wp m Q (set_log (seg ++ v_log v) v)) ->
  wp (let* engine_id := get_engine_id regs in
      let* channel_id := get_engine_channel_id regs in
      if negb (u32 engine_id =? engine_id_expected dir) || negb (u32 channel_id =? ch) then ret (- EINVAL) else m) Q v.
Proof.
  intros Er HQ Hm. unfold get_engine_id, get_engine_channel_id. destruct (Z.eqb_spec regs 0) as [Hz|Hz].
  - apply wp_bind, wp_ret, wp_bind, wp_ret.
    assert (u32 (- EINVAL) =? engine_id_expected dir = false) as -> by (by destruct dir). apply wp_ret.
    rewrite <-(app_nil_l (v_log v)) in HQ. assert (v = set_log ([] ++ v_log v) v) as Ev by (by destruct v).
    rewrite Ev. apply HQ; [by destruct v|]. left. split_and!; [lia|done|done].
  - apply wp_bind, wp_bind. keeping (untouched (S := dst)). apply dwp_read. intros Hu1. apply wp_ret.
    apply wp_bind, wp_bind. keeping (untouched (S := dst)). apply dwp_read. intros Hu2. apply wp_ret.
    set (w1 := u32 (io_read (v_log v) _)) in *.
    change (EvRead (regs + offsetof engine_regs "identifier") w1 :: v_log v) with
      (v_log (set_log (EvRead (regs + offsetof engine_regs "identifier") w1 :: v_log v) v)) at 1.
    set (w2 := u32 (io_read (v_log (set_log _ v)) _)) in *.
    assert (0 <= w1 < 2 ^ 32 /\ 0 <= w2 < 2 ^ 32) as [H1 H2] by (split; apply Z.mod_pos_bound; lia).
    rewrite id_kind, id_number by done. clearbody w1 w2. set (seg := [EvRead (id_addr dir ch) w2; EvRead (id_addr dir ch) w1]).
    match goal with |- wp _ _ ?st => assert (st = set_log (seg ++ v_log v) v) as Est by (unfold seg, id_addr; by rewrite Er) end.
    assert (settled v (set_log (seg ++ v_log v) v)) as Hs.
    { rewrite <-Est. apply untouched_settled. by etrans. }
    rewrite Est. assert (engine_id_expected dir = if is_h2c dir then 0x1fc0 else 0x1fc1) as -> by (by destruct dir).
    destruct (Z.eqb_spec (w1 `div` 2 ^ 16) (if is_h2c dir then 0x1fc0 else 0x1fc1)), (Z.eqb_spec ((w2 `div` 2 ^ 8) `mod` 16) ch);
      cbn [negb orb]; [apply Hm|apply wp_ret, HQ..]; try done; right; exists w1, w2; (split; [done|]); unfold names; intuition congruence.
Qed.

Lemma probing_log dir i lg v : probing dir i v -> probing dir i (set_log lg v).
Proof. intros [? [] ? ? ?]. split; try done. Qed.

(** The device after engine [ch] was initialised. *)
Section after.
Variables (dir : dma_dir) (ch : Z) (e : xdma_engine) (lg : list event) (v : dst).
Hypothesis Hp : probing dir ch v.
Hypothesis Hch : 0 <= ch < 4.
Abbreviation v2 := (after_init dir ch e lg v).

Lemma after_lookup j :
  zlookup (engines dir v2) j = if decide (ch = j) then Some e else zlookup (engines dir v) j.
Proof.
  rewrite engines_after, decide_True by done. apply zlookup_insert_z. destruct Hp as [_ _ -> _ _]. lia.
Qed.

Lemma after_length : length (engines dir v2) = 4%nat.
Proof. rewrite engines_after, decide_True, length_insert by done. apply Hp. Qed.

Lemma after_step : settled v v2 -> probe_step dir 1 v v2.
Proof.
  intros Hs. split; [apply counted_frame| | |by destruct dir|done].
  - destruct (counted_fields dir (v_dev v)) as (_ & _ & _ & _ & _ & _ & E).
    change (d_engines_num (counted dir (v_dev v)) <= d_engines_num (v_dev v) + 1). lia.
  - intros dir' Hd. by rewrite engines_after, decide_False.
Qed.

Lemma after_bare : mem_of e = 0 -> bare_from dir ch v2.
Proof.
  intros He j ej Hj. rewrite after_lookup. case_decide; [by intros [= <-]|].
  apply (probing_bare dir ch v); [lia|done|done].
Qed.

Lemma after_found j : 0 <= j < ch -> found v2 dir j.
Proof.
  intros Hj. destruct (pb_found _ _ _ Hp j Hj) as (ej & bj & Hej & Hpj). exists ej, bj. split; [|done].
  by rewrite after_lookup, decide_False by lia.
Qed.

Lemma after_probing :
  numbered v2 -> probed (next_bit (v_dev v)) (b + engine_offset dir ch) dir ch e -> probing dir (ch + 1) v2.
Proof.
  intros Hn Hpr. split; [|done|apply after_length| |].
  - destruct (counted_frame dir (v_dev v)) as (E1 & E2 & _).
    change (zlookup (d_bar (counted dir (v_dev v))) (d_config_bar_idx (counted dir (v_dev v))) = Some b).
    rewrite E1, E2. apply Hp.
  - intros j Hj. rewrite after_lookup, decide_False by lia. apply (pb_new _ _ _ Hp). lia.
  - intros j Hj. destruct (decide (ch = j)) as [<-|]; [|apply after_found; lia].
    exists e, (next_bit (v_dev v)). by rewrite after_lookup, decide_True.
Qed.
End after.

Lemma wp_probe_for_engine dir ch v :
  probing dir ch v -> 0 <= ch < 4 -> d_engines_num (v_dev v) < 32 ->
  wp (probe_for_engine dir ch) (fun rv v' => probe_step dir 1 v v' /\ numbered v' /\
    length (engines dir v') = 4%nat /\ (forall j, 0 <= j < ch -> found v' dir j) /\
    (rv = 0 -> probing dir (ch + 1) v') /\ (rv <> 0 -> bare_from dir ch v') /\
    exists seg, v_log v' = seg ++ v_log v /\ probe_seen dir ch rv seg) v.
Proof.
  intros Hp Hch Hnum. pose proof Hp as [Hb Hn Hl _ Hf]. unfold probe_for_engine.
  apply wp_bind, dwp_get_dev, wp_bind. unfold config_bar at 1. eapply wp_deref; [exact Hb|]. cbv zeta.
  apply wp_identify; [done| |].
  { intros seg Hs Hseg. apply (probing_log _ _ (seg ++ v_log v)) in Hp as Hp1.
    pose proof (probing_bare dir ch _ ltac:(lia) Hp1).
    split; [by split; [done|cbn; lia|..]|]. split_and!; try done; [by destruct Hn|].
    exists seg. split; [done|]. by exists seg, [], false. }
  intros ids Hs1 Hids. apply (probing_log _ _ (ids ++ v_log v)) in Hp. unfold engine_init. apply wp_bind. set (v1 := set_log _ v) in *.
  assert (zlookup (engines dir v1) ch = Some zero_engine) as He by (apply (pb_new _ _ _ Hp); lia).
  eapply wp_on_engine; [exact He|]. set (s := focus_engine zero_engine v1).
  change s with (at_eng (s_log s) zero_engine s).
  eapply wp_mono; [apply wp_eqn, (wp_engine_init_core (s_log s) s (engine_offset dir ch) dir ch b Hpoll Hb)|].
  intros rv ? [Hrun (e & lg2 & -> & Hid & Hpr & Hbad & Hset)]. apply (settled_unfocus dir ch _ _ v1 He) in Hset.
  apply (core_refused _ _ _ _ _ _ Hpoll) in Hrun as (rest & Hlg2 & Hno). cbn in Hlg2. subst lg2.
  revert Hset. set (lg2 := rest ++ _).
  assert (unfocus_engine dir ch (at_eng lg2 e (set_s_xdev (counted dir (s_xdev s)) s)) v1 =
          after_init dir ch e lg2 v1) as -> by apply unfocus_after.
  set (v2 := after_init dir ch e lg2 v1). intros Hs2.
  assert (probe_step dir (0 + 1) v v2) as Hstep.
  { apply (probe_step_trans dir 0 1 v v1); [by split; try done; cbn; lia|by apply after_step]. }
  assert (numbered v2) as Hn2.
  { apply numbered_after; [by destruct Hn|done|change (engines dir v1) with (engines dir v); lia|apply Hid]. }
  pose proof (after_length dir ch e lg2 v1 Hp) as Hl2. pose proof (after_found dir ch e lg2 v1 Hp Hch) as Hf2.
  assert (forall r, (r <> 0 -> rv <> 0) -> exists seg, v_log v2 = seg ++ v_log v /\ probe_seen dir ch r seg) as Hseen.
  { intros r Hr. exists (rest ++ ids). split; [cbn; by rewrite <-app_assoc|]. exists ids, rest, true. split_and!; [done..|auto]. }
  destruct (Z.eqb_spec rv 0) as [Hz|Hz]; cbn [negb].
  - rewrite Hpoll. cbn [when]. apply wp_bind, wp_ret, wp_ret. split_and!; try done; [|by apply Hseen]. intros _.
    apply after_probing; auto.
  - apply wp_ret. split_and!; try done; [|by apply Hseen]. intros _. apply after_bare; auto.
Qed.

(** [seg] is a part of the log [new]. *)
Definition within (seg new : list event) : Prop := exists l1 l0, new = l1 ++ seg ++ l0.

Lemma within_app seg new l1 l0 : within seg new -> within seg (l1 ++ new ++ l0).
Proof. intros (a & c & ->). exists (l1 ++ a), (c ++ l0). by rewrite <-!app_assoc. Qed.

(** The channels of [dir] from [i] on were probed: those below [r] identified
    themselves, and [r], if it is below [max], did not, or there was no memory. *)
Definition seen (dir : dma_dir) (i r max : Z) (new : list event) : Prop :=
  (forall j, i <= j < r -> exists seg, within seg new /\ probe_seen dir j 0 seg) /\
  (r < max -> exists seg rv, within seg new /\ rv <> 0 /\ probe_seen dir r rv seg).

Lemma seen_app dir i r max new l1 l0 : seen dir i r max new -> seen dir i r max (l1 ++ new ++ l0).
Proof.
  intros [H1 H2]. split.
  - intros j Hj. destruct (H1 j Hj) as (seg & ? & ?). exists seg. split; [by apply within_app|done].
  - intros Hr. destruct (H2 Hr) as (seg & rv & ? & ? & ?). exists seg, rv. split; [by apply within_app|done].
Qed.

Lemma wp_probe_channels dir n i v :
  probing dir i v -> 0 <= i -> i + Z.of_nat n <= 4 -> d_engines_num (v_dev v) + Z.of_nat n <= 32 ->
  wp (probe_channels dir n i) (fun r v' => i <= r <= i + Z.of_nat n /\ probe_step dir (Z.of_nat n) v v' /\
    numbered v' /\ length (engines dir v') = 4%nat /\ (forall j, 0 <= j < r -> found v' dir j) /\
    bare_from dir r v' /\ exists new, v_log v' = new ++ v_log v /\ seen dir i r (i + Z.of_nat n) new) v.
Proof.
  revert i v. induction n as [|n IH]; intros i v Hp Hi Hn Hnum; cbn [probe_channels].
  - apply wp_ret. pose proof (probing_bare dir i v Hi Hp). destruct Hp as [_ ? ? _ ?].
    split_and!; try lia; try done; [by split; [|lia|..]|]. exists []. split; [done|]. split; lia.
  - apply wp_bind. eapply wp_mono; [apply wp_probe_for_engine; [exact Hp|lia|lia]|].
    intros rv v1 (Hs1 & Hn1 & Hl1 & Hf1 & Hok & Hbad & seg & Hlog & Hseg). destruct (Z.eqb_spec rv 0) as [Hz|Hz]; cbn [negb].
    + eapply wp_mono; [apply (IH (i + 1)); [by apply Hok|lia|lia|destruct Hs1; lia]|].
      intros r v2 (Hr & Hs2 & ? & ? & ? & ? & new & Hlog2 & Hnew). split; [lia|]. split.
      { replace (Z.of_nat (S n)) with (1 + Z.of_nat n) by lia. by eapply probe_step_trans. }
      split_and!; try done. exists (new ++ seg). split; [by rewrite Hlog2, Hlog, <-app_assoc|].
      apply (seen_app _ _ _ _ _ [] seg) in Hnew as [Hn3 Hn4]. split.
      * intros j Hj. destruct (decide (j = i)) as [->|]; [|apply Hn3; lia].
        exists seg. rewrite Hz in Hseg. split; [exists new, []; by rewrite app_nil_r|done].
      * intros Hlt. apply Hn4. lia.
    + apply wp_ret. split; [lia|]. split; [destruct Hs1; split; try done; lia|]. split_and!; try done; [by apply Hbad|].
      exists seg. split; [done|]. split; [lia|]. intros _. exists seg, rv. split; [exists [], []; by rewrite app_nil_r|done].
Qed.

(** A device before probing, as [alloc_dev_instance] and [map_bars] leave it. *)
Record unprobed (v : dst) : Prop := {
  up_bar : zlookup (d_bar (v_dev v)) (d_config_bar_idx (v_dev v)) = Some b;
  up_num : d_engines_num (v_dev v) = 0;
  up_engines : forall dir, engines dir v = replicate 4 zero_engine;
  up_max : forall dir, 0 <= channel_max dir (v_dev v) <= 4;
  up_users : 0 <= d_user_max (v_dev v) <= 16 /\
    forall k, 0 <= k < d_user_max (v_dev v) -> is_Some (zlookup (d_user_irq (v_dev v)) k)
}.

Lemma zlookup_replicate_4 j e : zlookup (replicate 4 zero_engine) j = Some e -> e = zero_engine.
Proof. unfold zlookup. destruct (j <? 0); [done|]. intros Hj. by apply lookup_replicate in Hj as [-> _]. Qed.

Lemma zlookup_new j : 0 <= j < 4 -> zlookup (replicate 4 zero_engine) j = Some zero_engine.
Proof. intros Hj. unfold zlookup. destruct (Z.ltb_spec j 0); [lia|]. apply lookup_replicate_2. lia. Qed.

Lemma unprobed_numbered v : unprobed v -> numbered v.
Proof.
  intros [_ Hn He _ _]. split.
  - lia.
  - intros dir i e. rewrite He. intros ->%zlookup_replicate_4. by left.
  - intros dir i j ei ej _. rewrite He. intros ->%zlookup_replicate_4 _. done.
  - intros dir i e. rewrite He. by intros ->%zlookup_replicate_4.
Qed.

(** A device after probing. *)
Record probed_device (v v' : dst) : Prop := {
  pd_numbered : numbered v';
  pd_length : forall dir, length (engines dir v') = 4%nat;
  pd_bars : d_bar (v_dev v') = d_bar (v_dev v) /\ d_config_bar_idx (v_dev v') = d_config_bar_idx (v_dev v);
  pd_users : d_user_max (v_dev v') = d_user_max (v_dev v) /\ d_user_irq (v_dev v') = d_user_irq (v_dev v);
  pd_max : forall dir, 0 <= channel_max dir (v_dev v') <= channel_max dir (v_dev v);
  pd_found : forall dir j, 0 <= j < channel_max dir (v_dev v') -> found v' dir j;
  pd_bare : forall dir, bare_from dir (channel_max dir (v_dev v')) v';
  pd_pci : d_pci (v_dev v') = d_pci (v_dev v);
  pd_list : v_list v' = v_list v /\ v_hndl v' = v_hndl v;
  pd_settled : settled v v';
  pd_seen : exists new, v_log v' = new ++ v_log v /\
    forall dir, seen dir 0 (channel_max dir (v_dev v')) (channel_max dir (v_dev v)) new
}.

Lemma unprobed_probing v dir :
  unprobed v -> probing dir 0 v.
Proof.
  intros Hup. pose proof (unprobed_numbered v Hup). destruct Hup as [Hb Hn He Hm _].
  split; try done; [by rewrite He| |intros j; lia]. intros j Hj. rewrite He. by apply zlookup_new.
Qed.

(** The other direction is not probed yet, so its new engines are still new. *)
Lemma probing_other dir dir' n v v' f :
  dir <> dir' -> unprobed v -> probe_step dir n v v' -> numbered v' ->
  (forall d, d_bar (f d) = d_bar d /\ d_config_bar_idx (f d) = d_config_bar_idx d) ->
  numbered (set_v_dev (f (v_dev v')) v') -> probing dir' 0 (set_v_dev (f (v_dev v')) v').
Proof.
  intros Hd Hup Hs Hn Hf Hn'. destruct (ps_dev _ _ _ _ Hs) as (B & I & _).
  assert (engines dir' v' = replicate 4 zero_engine) as He.
  { rewrite (ps_other _ _ _ _ Hs) by done. apply (up_engines _ Hup). }
  assert (forall d, engines dir' (set_v_dev d v') = engines dir' v') as Hev by done.
  split; [|done|by rewrite Hev, He| |intros j; lia].
  - destruct (Hf (v_dev v')) as [E1 E2].
    change (zlookup (d_bar (f (v_dev v'))) (d_config_bar_idx (f (v_dev v'))) = Some b).
    rewrite E1, E2, B, I. apply (up_bar _ Hup).
  - intros j Hj. rewrite Hev, He. by apply zlookup_new.
Qed.

Lemma wp_probe_engines v :
  unprobed v -> wp probe_engines (fun rv v' => rv = 0 /\ probed_device v v') v.
Proof.
  intros Hup. pose proof (unprobed_probing v DMA_TO_DEVICE Hup) as Hp0. pose proof (up_num v Hup) as Hn0.
  pose proof (up_max v Hup DMA_TO_DEVICE) as Hh. pose proof (up_max v Hup DMA_FROM_DEVICE) as Hc. cbn in Hh, Hc.
  unfold probe_engines. apply wp_bind, dwp_get_dev, wp_bind.
  eapply wp_mono; [apply (wp_probe_channels DMA_TO_DEVICE); [done|lia|lia|lia]|].
  intros r1 v1 (Hr1 & Hs1 & Hn1 & Hl1 & Hf1 & Hb1 & new1 & Hlog1 & Hseen1). apply wp_bind, dwp_upd_dev.
  assert (probing DMA_FROM_DEVICE 0 (set_v_dev (set_d_h2c_channel_max r1 (v_dev v1)) v1)) as Hp2.
  { eapply (probing_other DMA_TO_DEVICE); [done|exact Hup|exact Hs1|exact Hn1|done|by destruct Hn1]. }
  destruct Hs1 as [(B1 & I1 & U1 & Q1 & _ & C1 & P1) N1 O1 [L1 M1] S1].
  set (v2 := set_v_dev _ v1) in *. assert (settled v1 v2) as S2 by (intros r; by destruct r). apply wp_bind.
  eapply wp_mono; [apply (wp_probe_channels DMA_FROM_DEVICE); [exact Hp2|lia|lia|]|].
  { change (d_engines_num (v_dev v2)) with (d_engines_num (v_dev v1)). lia. }
  intros r2 v3 (Hr2 & [(B3 & I3 & U3 & Q3 & H3 & _ & P3) N3 O3 [L3 M3] S3] & Hn3 & Hl3 & Hf3 & Hb3 & new2 & Hlog2 & Hseen2).
  apply wp_bind, dwp_upd_dev, wp_ret. split; [done|].
  cbn in B3, I3, U3, Q3, H3. set (v4 := set_v_dev _ v3). assert (settled v3 v4) as S4 by (intros r; by destruct r).
  assert (engines DMA_TO_DEVICE v3 = engines DMA_TO_DEVICE v1) as He3 by (by rewrite O3).
  assert (channel_max DMA_TO_DEVICE (v_dev v4) = r1 /\ channel_max DMA_FROM_DEVICE (v_dev v4) = r2) as [E1 E2] by done.
  split; try (split; cbn; congruence); try (cbn; congruence).
  - by destruct Hn3.
  - intros []; [|done]. change (length (engines DMA_TO_DEVICE v3) = 4%nat). by rewrite He3.
  - intros []; [rewrite E1|rewrite E2]; cbn [channel_max is_h2c]; lia.
  - intros []; [rewrite E1|rewrite E2]; intros j Hj; [|by apply Hf3].
    destruct (Hf1 j Hj) as (e & bit & Hl & Hp). exists e, bit. split; [|done].
    change (zlookup (engines DMA_TO_DEVICE v3) j = Some e). by rewrite He3.
  - intros []; [rewrite E1|rewrite E2]; intros j e Hj; [|by apply Hb3].
    change (zlookup (engines DMA_TO_DEVICE v3) j = Some e -> mem_of e = 0). rewrite He3. by apply Hb1.
  - by repeat (etrans; [eassumption|]).
  - split; [exact (eq_trans L3 L1)|exact (eq_trans M3 M1)].
  - exists (new2 ++ new1). split; [cbn in Hlog2 |- *; by rewrite Hlog2, Hlog1, <-app_assoc|].
    rewrite Z.add_0_l, Z2Nat.id in Hseen1, Hseen2 by lia.
    intros []; [rewrite E1|rewrite E2]; cbn [channel_max is_h2c].
    + pose proof (seen_app _ _ _ _ _ new2 [] Hseen1) as Hs. by rewrite app_nil_r in Hs.
    + exact (seen_app _ _ _ _ _ [] new1 Hseen2).
Qed.

(** C18: [probe_engines] in interrupt mode, for every device and every failure
    of the allocations. It returns 0 and keeps in each direction the engines up to
    the first one that does not identify itself (the identifier register, read
    twice, names another kind or another channel, or the registers are at NULL)
    or for whose ring the kernel has no memory: each engine that it keeps did
    identify itself, is idle, and has a zeroed ring of its size; the engines after
    them hold no memory. Every engine has an interrupt bit of its own that the mask
    of its direction contains, so that what the interrupt handler and the tear-down
    rely on holds. *)
Theorem probe_engines_spec v :
  unprobed v ->
  exists v' new, probe_engines v = Some (0, v') /\ v_log v' = new ++ v_log v /\
    numbered v' /\ isr_ok v' /\ dev_wf v' /\
    forall dir, let n := channel_max dir (v_dev v') in
      n <= channel_max dir (v_dev v) /\
      (forall j, 0 <= j < n -> found v' dir j /\ exists seg, within seg new /\ probe_seen dir j 0 seg) /\
      (n < channel_max dir (v_dev v) -> exists seg rv, within seg new /\ rv <> 0 /\ probe_seen dir n rv seg) /\
      bare_from dir n v'.
Proof.
  intros Hup. pose proof (wp_probe_engines v Hup) as Hwp.
  apply wp_iff in Hwp as (rv & v' & Hrun & -> & [Hn Hl [B I] [U Q] Hmax Hf Hbare _ _ _ (new & Hlog & Hseen)]).
  exists v', new. destruct Hup as [Hb _ _ Hm [Hu Hus]].
  assert (has_config (v_dev v')) as Hcfg by (exists b; by rewrite B, I).
  pose proof (Hmax DMA_TO_DEVICE) as Hh. pose proof (Hmax DMA_FROM_DEVICE) as Hc.
  pose proof (Hm DMA_TO_DEVICE) as Hmh. pose proof (Hm DMA_FROM_DEVICE) as Hmc. cbn in Hh, Hc, Hmh, Hmc.
  split_and!; try done.
  - split; [done| | |apply Hn].
    + rewrite U, Q. split; [lia|done].
    + intros dir i Hi. apply zlookup_is_Some. rewrite Hl. destruct (Hmax dir), (Hm dir). lia.
  - split; [done|lia|lia|by rewrite U|]. intros dir. rewrite Hl. destruct (Hmax dir), (Hm dir). lia.
  - intros dir n. destruct (Hseen dir) as [Hs1 Hs2]. split_and!; [apply Hmax| |exact Hs2|apply Hbare].
    intros j Hj. split; [by apply Hf|by apply Hs1].
Qed.
End probe.

(** ** Witness *)

(** A device with two H2C engines and one C2H engine, at [0x20000]. *)
Definition probe_env : Env := {|
  io_read _ a :=
    if a =? 0x20000 then 0x1fc00000 else if a =? 0x20100 then 0x1fc00100
    else if a =? 0x21000 then 0x1fc10000 else 0;
  kernel _ f _ := if String.eqb f "dma_alloc_coherent" then 0x100000 else 0;
  poll_mode := false;
  interrupt_mode := 0;
  enable_st_c2h_credit := false;
  desc_blen_max := XDMA_DESC_BLEN_MAX;
  HZ := 250;
  SIZEOF_REQ := 400
|}.

Definition probe_state : dst :=
  mk_dst 77 (set_d_bar [0x10000; 0x20000; 0; 0; 0; 0] (set_d_config_bar_idx 1
      (set_d_user_max 16 (set_d_h2c_channel_max 4 (set_d_c2h_channel_max 4 (new_device 1))))))
    (replicate 4 zero_engine) (replicate 4 zero_engine) ∅ ∅ ∅ ∅ ∅ [(77, 1, 0)] None 0 [].

Example probe_finds :
  match @probe_engines probe_env probe_state with
  | Some (rv, v') => rv = 0 /\ d_h2c_channel_max (v_dev v') = 2 /\ d_c2h_channel_max (v_dev v') = 1 /\
      map e_irq_bitmask (v_h2c v' ++ v_c2h v') = [1; 2; 0; 0; 4; 0; 0; 0] /\
      d_mask_irq_h2c (v_dev v') = 3 /\ d_mask_irq_c2h (v_dev v') = 4
  | None => False
  end.
Proof. vm_compute. done. Qed.

Lemma probe_state_unprobed : unprobed 0x20000 probe_state.
Proof.
  split; try done; [by intros []|by intros []|]. split; [done|]. intros k Hk. apply zlookup_is_Some. change (0 <= k < 16) in Hk. change (0 <= k < Z.of_nat 16). lia.
Qed.

Lemma probe_engines_spec_witness :
  exists v' new, @probe_engines probe_env probe_state = Some (0, v') /\ v_log v' = new ++ [] /\
    numbered v' /\ isr_ok v' /\ dev_wf v' /\
    forall dir, let n := channel_max dir (v_dev v') in
      n <= channel_max dir (v_dev probe_state) /\
      (forall j, 0 <= j < n -> found 0x20000 v' dir j /\ exists seg, within seg new /\ probe_seen 0x20000 dir j 0 seg) /\
      (n < channel_max dir (v_dev probe_state) ->
        exists seg rv, within seg new /\ rv <> 0 /\ probe_seen 0x20000 dir n rv seg) /\
      bare_from dir n v'.
Proof. exact (@probe_engines_spec probe_env 0x20000 eq_refl probe_state probe_state_unprobed). Defined.
