(* ===== verification/BarLedger.v ===== *)
(** * BarLedger: mapping and unmapping the BARs, with the ledger

    [map_bars] maps each BAR once and finds the configuration BAR, or maps none;
    [unmap_bars] unmaps exactly the mapped ones. *)

From S2P Require Import Prelude Hw State Desc Engine Service Request Submit Dev Thread Irq IrqProps Device Ledger DeviceProps.

(** The device with other BARs. *)
Definition rebar (l : list Z) (u c b : Z) (d : xdma_dev) : xdma_dev :=
  set_d_bar l (set_d_user_bar_idx u (set_d_config_bar_idx c (set_d_bypass_bar_idx b d))).

(** Only the BARs and the log differ. *)
Definition barred (v v' : dst) : Prop := exists l u c b lg,
  v' = set_log lg (set_v_dev (rebar l u c b (v_dev v)) v).

#[export] Instance barred_preorder : PreOrder barred.
Proof.
  split.
  - intros v. exists (d_bar (v_dev v)), (d_user_bar_idx (v_dev v)), (d_config_bar_idx (v_dev v)),
      (d_bypass_bar_idx (v_dev v)), (v_log v). by destruct v as [? []].
  - intros v1 v2 v3 (l1 & u1 & c1 & b1 & g1 & ->) (l & u & c & b & g & ->). by exists l, u, c, b, g.
Qed.

Lemma barred_log lg v : barred v (set_log lg v).
Proof. by exists (d_bar (v_dev v)), (d_user_bar_idx (v_dev v)), (d_config_bar_idx (v_dev v)), (d_bypass_bar_idx (v_dev v)), lg; destruct v as [? []]. Qed.

Lemma barred_bar l v : barred v (set_v_dev (set_d_bar l (v_dev v)) v).
Proof. by exists l, (d_user_bar_idx (v_dev v)), (d_config_bar_idx (v_dev v)), (d_bypass_bar_idx (v_dev v)), (v_log v); destruct v as [? []]. Qed.

Lemma barred_config c v : barred v (set_v_dev (set_d_config_bar_idx c (v_dev v)) v).
Proof. by exists (d_bar (v_dev v)), (d_user_bar_idx (v_dev v)), c, (d_bypass_bar_idx (v_dev v)), (v_log v); destruct v as [? []]. Qed.

Lemma barred_user u v : barred v (set_v_dev (set_d_user_bar_idx u (v_dev v)) v).
Proof. by exists (d_bar (v_dev v)), u, (d_config_bar_idx (v_dev v)), (d_bypass_bar_idx (v_dev v)), (v_log v); destruct v as [? []]. Qed.

Lemma barred_bypass b v : barred v (set_v_dev (set_d_bypass_bar_idx b (v_dev v)) v).
Proof. by exists (d_bar (v_dev v)), (d_user_bar_idx (v_dev v)), (d_config_bar_idx (v_dev v)), b, (v_log v); destruct v as [? []]. Qed.
#[export] Hint Resolve barred_log barred_bar barred_config barred_user barred_bypass : drv.

Lemma bars_insert a l i x y :
  zlookup l i = Some x ->
  bars_at a (<[Z.to_nat i := y]> l) =
    bars_at a l + Z.b2z (negb (y =? 0) && (y =? a)) - Z.b2z (negb (x =? 0) && (x =? a)).
Proof.
  intros [_ Hi]%zlookup_nat. unfold bars_at.
  by rewrite (zsum_insert (fun x => Z.b2z (negb (x =? 0) && (x =? a))) _ _ x).
Qed.

Section bars.
Context `{Env}.

Lemma wp_set_bar i a x v (Q : unit -> dst -> Prop) :
  zlookup (d_bar (v_dev v)) i = Some x ->
  Q tt (set_v_dev (set_d_bar (<[Z.to_nat i := a]> (d_bar (v_dev v))) (v_dev v)) v) -> wp (set_bar i a) Q v.
Proof. intros Hx HQ. unfold wp, set_bar, get_dev, gets, bind, zupdate, deref. by rewrite Hx. Qed.

Lemma wp_get_bar i x v (Q : Z -> dst -> Prop) :
  zlookup (d_bar (v_dev v)) i = Some x -> Q x v -> wp (get_bar i) Q v.
Proof. intros Hx HQ. unfold wp, get_bar, get_dev, gets, bind, deref. by rewrite Hx. Qed.

(** A BAR at [i] that was not mapped is now the one that [pci_iomap] gave. *)
Lemma settled_map i a args v :
  zlookup (d_bar (v_dev v)) i = Some 0 ->
  settled v (let v := set_log (EvCall "pci_iomap" args a :: v_log v) v in
    set_v_dev (set_d_bar (<[Z.to_nat i := a]> (d_bar (v_dev v))) (v_dev v)) v).
Proof.
  intros Hi r. unfold balance. cbn. rewrite held_cons. destruct r; cbn; try lia.
  rewrite (bars_insert _ _ _ 0) by done. cbn. lia.
Qed.

(** A mapped BAR is unmapped and cleared. *)
Lemma settled_unmap i a v :
  zlookup (d_bar (v_dev v)) i = Some a -> a <> 0 ->
  settled v (let v := set_log (EvCall "pci_iounmap" [a] 0 :: v_log v) v in
    set_v_dev (set_d_bar (<[Z.to_nat i := 0]> (d_bar (v_dev v))) (v_dev v)) v).
Proof.
  intros Hi Ha r. unfold balance. cbn. rewrite held_cons. destruct r as [| | |b| | | |]; cbn; try lia.
  rewrite (bars_insert _ _ _ a) by done. apply Z.eqb_neq in Ha. rewrite Ha. cbn.
  destruct (Z.eqb_spec a b) as [->|Hab].
  - rewrite bool_decide_true by done. cbn. lia.
  - rewrite bool_decide_false by congruence. cbn. lia.
Qed.

(** ** Unmapping *)

Lemma wp_unmap_bars v :
  length (d_bar (v_dev v)) = 6%nat ->
  wp unmap_bars (fun _ v' => settled v v' /\ barred v v' /\ d_bar (v_dev v') = replicate 6 0) v.
Proof.
  intros Hlen. unfold unmap_bars. eapply wp_mono.
  - apply (wp_forM_zrange XDMA_BAR_NUM _ (fun i v' => settled v v' /\ barred v v' /\
      length (d_bar (v_dev v')) = 6%nat /\ forall j, 0 <= j < i -> zlookup (d_bar (v_dev v')) j = Some 0)).
    + split_and!; try done. intros j. lia.
    + unfold XDMA_BAR_NUM. intros i v' Hi (Hs & Hb & Hl & Hz). destruct (zlookup_in (d_bar (v_dev v')) i) as [a Ha]; [lia|].
      apply wp_bind. eapply wp_get_bar; [exact Ha|]. apply wp_when; intros Hnz.
      * rewrite negb_true_iff, Z.eqb_neq in Hnz. apply wp_bind, dwp_kdo. eapply wp_set_bar; [exact Ha|].
        split; [etrans; [exact Hs|by apply settled_unmap]|].
        split; [etrans; [exact Hb|]; etrans; [apply barred_log|apply barred_bar]|].
        split; [cbn; by rewrite length_insert|]. intros j Hj. cbn. rewrite zlookup_insert_z by lia.
        case_decide; [done|]. apply Hz. lia.
      * rewrite negb_false_iff, Z.eqb_eq in Hnz. subst a. split_and!; try done. intros j Hj.
        destruct (decide (j = i)) as [->|]; [done|]. apply Hz. lia.
  - intros _ v' (Hs & Hb & Hl & Hz). split_and!; try done. apply zlist_eq; [done|]. rewrite Hl. intros j Hj.
    rewrite Hz by (unfold XDMA_BAR_NUM; lia). symmetry. unfold zlookup. destruct (Z.ltb_spec j 0); [lia|].
    apply lookup_replicate_2. lia.
Qed.

(** ** Mapping *)

Lemma set_d_bar_id v : set_v_dev (set_d_bar (d_bar (v_dev v)) (v_dev v)) v = v.
Proof. by destruct v as [? []]. Qed.

Lemma wp_iomap i len v :
  zlookup (d_bar (v_dev v)) i = Some 0 ->
  wp (let* a := kcall "pci_iomap" [i; len] in set_bar i a >>; if a =? 0 then ret (-1) else ret (s32 len))
    (fun _ v' => exists a lg, settled v v' /\
      v' = set_log lg (set_v_dev (set_d_bar (<[Z.to_nat i := a]> (d_bar (v_dev v))) (v_dev v)) v)) v.
Proof.
  intros Hi. apply wp_bind, dwp_kcall. set (a := kernel _ _ _).
  pose proof (settled_map i a [i; len] v Hi) as Hm. apply wp_bind. eapply wp_set_bar; [exact Hi|].
  destruct (a =? 0); apply wp_ret; exists a; eexists; (split; [exact Hm|reflexivity]).
Qed.

Lemma wp_map_single_bar i v :
  zlookup (d_bar (v_dev v)) i = Some 0 ->
  wp (map_single_bar i) (fun _ v' => exists a lg, settled v v' /\
    v' = set_log lg (set_v_dev (set_d_bar (<[Z.to_nat i := a]> (d_bar (v_dev v))) (v_dev v)) v)) v.
Proof.
  intros Hi. pose proof (proj2 (zlookup_nat _ _ _ Hi)) as Hi'.
  assert (forall v', logged v v' -> set_v_dev (set_d_bar (<[Z.to_nat i := 0]> (d_bar (v_dev v'))) (v_dev v')) v' = v') as Hid.
  { intros v' [lg ->]. rewrite list_insert_id by exact Hi'. apply set_d_bar_id. }
  unfold map_single_bar. apply wp_bind. keeping (untouched (S := dst)). apply dwp_kcall. intros Hu1%untouched_settled.
  apply wp_bind. keeping (untouched (S := dst)). apply dwp_kcall. intros Hu2%untouched_settled. cbv zeta.
  match goal with |- wp _ _ ?st => set (v2 := st) in * end.
  assert (logged v v2) as [lg2 E2] by (by eexists). clearbody v2.
  assert (settled v v2) as Hs by (by etrans). clear Hu1 Hu2.
  apply wp_bind. eapply wp_set_bar; [by rewrite E2|]. rewrite Hid by (by exists lg2). destruct (_ =? 0).
  - apply wp_ret. exists 0, lg2. split; [done|]. rewrite E2, list_insert_id by exact Hi'. by rewrite set_d_bar_id.
  - eapply wp_mono; [apply wp_iomap; by rewrite E2|]. intros _ v' (a & lg & Hs2 & ->). exists a, lg.
    split; [by etrans|]. by rewrite E2.
Qed.

(** Looking for the configuration BAR only reads registers. *)
Lemma wp_is_config i a v :
  zlookup (d_bar (v_dev v)) i = Some a -> wp (is_config_bar i) (fun _ v' => settled v v' /\ logged v v') v.
Proof.
  intros Hi. unfold is_config_bar. apply wp_bind. eapply wp_get_bar; [exact Hi|].
  apply wp_bind. keeping (untouched (S := dst)). apply dwp_read. intros H1%untouched_settled.
  apply wp_bind. keeping (untouched (S := dst)). apply dwp_read. intros H2%untouched_settled.
  apply wp_ret. split; [by etrans|by eexists].
Qed.

(** The BARs while they are mapped: those from [i] on are not, and the
    configuration BAR is one of the array if it was found. *)
Record mapping (i : Z) (v : dst) : Prop := {
  mp_length : length (d_bar (v_dev v)) = 6%nat;
  mp_rest : forall j, i <= j < 6 -> zlookup (d_bar (v_dev v)) j = Some 0;
  mp_config : 0 <= d_config_bar_idx (v_dev v) -> has_config (v_dev v)
}.

Lemma mapping_logged i v v' : logged v v' -> mapping i v -> mapping i v'.
Proof. by intros [lg ->] []. Qed.

Lemma logged_barred v v' : logged v v' -> barred v v'.
Proof. intros [lg ->]. apply barred_log. Qed.

Lemma wp_map_each n i ids pos v :
  0 <= i -> i + Z.of_nat n = 6 -> mapping i v ->
  wp (map_each (seqZ i (Z.of_nat n)) ids pos) (fun _ v' => settled v v' /\ barred v v' /\ exists k, mapping k v') v.
Proof.
  revert i ids pos v. induction n as [|n IH]; intros i ids pos v Hi Hn Hm.
  - apply wp_ret. split_and!; [done..|]. by exists i.
  - rewrite seqZ_cons by lia. replace (Z.pred (Z.of_nat (S n))) with (Z.of_nat n) by lia. cbn [map_each].
    destruct Hm as [Hl Hr Hc]. apply wp_bind. eapply wp_mono; [apply wp_map_single_bar, Hr; lia|].
    intros len v1 (a & lg & Hs1 & E1).
    assert (mapping (Z.succ i) v1) as Hm1.
    { subst v1. split; cbn.
      - by rewrite length_insert.
      - intros j Hj. rewrite zlookup_insert_z by lia. case_decide; [lia|]. apply Hr. lia.
      - intros Hz. apply zlookup_is_Some. cbn. rewrite length_insert. by apply zlookup_is_Some, Hc. }
    assert (barred v v1) as Hb1 by (subst v1; etrans; [apply barred_bar|apply barred_log]). clear E1.
    assert (forall ids pos v2, settled v1 v2 -> barred v1 v2 -> mapping (Z.succ i) v2 ->
      wp (map_each (seqZ (Z.succ i) (Z.of_nat n)) ids pos)
        (fun _ v' => settled v v' /\ barred v v' /\ exists k, mapping k v') v2) as Hrest.
    { intros ids' pos' v2 Hs2 Hb2 Hm2. eapply wp_mono; [apply IH; [lia|lia|exact Hm2]|].
      intros ? v' (? & ? & ?). split_and!; [by repeat (etrans; [eassumption|])..|done]. }
    destruct (len =? 0); [by apply Hrest|]. destruct (len <? 0).
    { apply wp_ret. split_and!; [done..|]. by exists (Z.succ i). }
    apply wp_bind, dwp_get_dev, wp_bind. destruct (_ && _); [|by apply wp_ret, Hrest].
    destruct (zlookup_in (d_bar (v_dev v1)) i) as [x Hx]; [rewrite (mp_length _ _ Hm1); lia|].
    apply wp_bind. eapply wp_mono; [by eapply wp_is_config|]. intros cfg v2 [Hs2 Hg2].
    pose proof (mapping_logged _ _ _ Hg2 Hm1) as Hm2. pose proof (logged_barred _ _ Hg2) as Hb2.
    destruct cfg; [|by apply wp_ret, Hrest]. apply wp_bind, dwp_upd_dev, wp_ret, Hrest.
    + etrans; [exact Hs2|by apply settled_set_dev].
    + etrans; [exact Hb2|apply barred_config].
    + destruct Hm2 as [Hl2 Hr2 _]. split; try done. intros _. apply zlookup_is_Some. cbn. lia.
Qed.

Lemma wp_identify_bars ids pos v :
  wp (identify_bars ids (Z.of_nat (length ids)) pos) (fun rv v' => rv = 0 /\ settled v v' /\ barred v v' /\
    d_bar (v_dev v') = d_bar (v_dev v) /\ d_config_bar_idx (v_dev v') = d_config_bar_idx (v_dev v)) v.
Proof.
  assert (forall (f : xdma_dev -> xdma_dev) v1, d_bar (f (v_dev v1)) = d_bar (v_dev v1) -> settled v1 (set_v_dev (f (v_dev v1)) v1)) as Hs
    by (intros f v1; apply settled_set_dev).
  unfold identify_bars. apply wp_bind.
  apply (wp_mono _ (fun _ v' => settled v v' /\ barred v v' /\
    d_bar (v_dev v') = d_bar (v_dev v) /\ d_config_bar_idx (v_dev v') = d_config_bar_idx (v_dev v))).
  2: { intros _ v' Hv'. by apply wp_ret. }
  assert (forall k, 0 <= k < Z.of_nat (length ids) -> exists x, zlookup ids k = Some x) as Hk by (intros; by apply zlookup_in).
  repeat match goal with
  | |- wp (if ?c then _ else _) _ _ => destruct c eqn:?
  | |- wp (bind _ _) _ _ => apply wp_bind
  | |- wp (deref (zlookup ids ?k)) _ _ => destruct (Hk k) as [? ?]; [lia|eapply wp_deref; [eassumption|]]
  | |- wp (upd_dev _) _ _ => apply dwp_upd_dev
  | |- wp (ret _) _ _ => apply wp_ret
  end.
  all: split_and!; try done; try (by apply Hs); auto with drv.
  etrans; [apply barred_user|apply barred_bypass].
Qed.

(** [map_bars] fails with no BAR mapped, or has the configuration BAR. *)
Lemma wp_map_bars v :
  d_bar (v_dev v) = replicate 6 0 -> d_config_bar_idx (v_dev v) = -1 ->
  wp map_bars (fun rv v' => settled v v' /\ barred v v' /\ length (d_bar (v_dev v')) = 6%nat /\
    (rv = 0 -> has_config (v_dev v')) /\ (rv <> 0 -> d_bar (v_dev v') = replicate 6 0)) v.
Proof.
  intros Hb Hc. assert (mapping 0 v) as Hm.
  { split; rewrite ?Hb; [done| |rewrite Hc; lia]. intros j Hj. unfold zlookup. destruct (Z.ltb_spec j 0); [lia|].
    apply lookup_replicate_2. lia. }
  unfold map_bars. apply wp_bind. eapply wp_mono; [apply (wp_map_each 6 0 [] 0 v); [lia|lia|exact Hm]|].
  intros [[ok ids] pos] v1 (Hs1 & Hb1 & k & [Hl1 _ Hc1]).
  assert (wp (unmap_bars >>; ret (- EINVAL)) (fun rv v' => settled v v' /\ barred v v' /\
    length (d_bar (v_dev v')) = 6%nat /\ (rv = 0 -> has_config (v_dev v')) /\
    (rv <> 0 -> d_bar (v_dev v') = replicate 6 0)) v1) as Hfail.
  { apply wp_bind. eapply wp_mono; [by apply wp_unmap_bars|]. intros _ v2 (Hs2 & Hb2 & E2). apply wp_ret.
    split_and!; [by etrans|by etrans|by rewrite E2|done|done]. }
  destruct (negb ok); [done|]. apply wp_bind, dwp_get_dev.
  destruct (Z.ltb_spec (d_config_bar_idx (v_dev v1)) 0); [done|].
  eapply wp_mono; [apply wp_identify_bars|]. intros rv v2 (-> & Hs2 & Hb2 & E1 & E2).
  split_and!; [by etrans|by etrans|by rewrite E1| |done]. intros _. unfold has_config. rewrite E1, E2. by apply Hc1.
Qed.
End bars.
