(* ===== verification/IrqLife.v ===== *)
(** * IrqLife: requesting and releasing interrupt lines, with the ledger

    [enable_msi_msix], [irq_setup] and [irq_teardown]: which vectors and lines
    the device holds after each. *)

From S2P Require Import Prelude Hw State Desc Engine Service Request Fixtures QueueProps Submit Dev DevFixtures Thread Irq IrqProps Device Ledger DeviceProps ProbeProps.

(** [v'] holds [x] more than [v] besides what the states say. *)
Definition moved (x : resource -> Z) (v v' : dst) : Prop := forall r, balance r v' = balance r v + x r.

Definition irqs (k : Z) (r : resource) : Z := match r with RIrq => k | _ => 0 end.

Lemma moved_settled v v' : settled v v' -> moved (irqs 0) v v'.
Proof. intros Hs r. rewrite Hs. destruct r; cbn; lia. Qed.

Lemma moved_irqs a b v1 v2 v3 : moved (irqs a) v1 v2 -> moved (irqs b) v2 v3 -> moved (irqs (a + b)) v1 v3.
Proof. intros H1 H2 r. rewrite H2, H1. destruct r; cbn; lia. Qed.

(** ** The kernel's answers

    A vector is a number other than 0, a line is not -1, and a request that fails
    answers with a negative number. *)
Class IrqLaws `{Env} : Prop := {
  il_vector lg a : u32 (kernel lg "pci_irq_vector" a) <> 0;
  il_line lg a : s32 (kernel lg "pdev->irq" a) <> -1;
  il_request lg f a : one_of request_irqs f = true -> kernel lg f a <= 0
}.

Lemma s32_nonzero x : u32 x <> 0 -> s32 (u32 x) <> 0.
Proof.
  pose proof (u32_range x) as Hr. generalize dependent (u32 x). intros y Hr Hy. unfold s32, swrap.
  change (32 - 1) with 31. destruct (Z.ltb_spec y (2 ^ 31)).
  - rewrite Z.mod_small by lia. lia.
  - replace (y + 2 ^ 31) with (y - 2 ^ 31 + 1 * 2 ^ 32) by lia. rewrite Z_mod_plus_full, Z.mod_small by lia. lia.
Qed.

(** ** Lines of engines *)

Definition relined (e e' : xdma_engine) : Prop := exists n, e' = set_e_msix_irq_line n e.

#[export] Instance relined_preorder : PreOrder relined.
Proof. split; [by intros e; exists (e_msix_irq_line e); destruct e|]. by intros e1 e2 e3 [n ->] [m ->]; exists m. Qed.

(** Only the lines and the log differ. *)
Definition lined (v v' : dst) : Prop := exists h c i lg,
  v' = set_log lg (set_v_dev (set_d_irq_line i (v_dev v)) (set_v_engines h c v)) /\
  Forall2 relined (v_h2c v) h /\ Forall2 relined (v_c2h v) c.

#[export] Instance lined_preorder : PreOrder lined.
Proof.
  split.
  - intros v. exists (v_h2c v), (v_c2h v), (d_irq_line (v_dev v)), (v_log v). split; [by destruct v as [? []]|done].
  - intros v1 v2 v3 (h & c & i & lg & -> & Hh & Hc) (h2 & c2 & i2 & lg2 & -> & Hh2 & Hc2).
    exists h2, c2, i2, lg2. split; [done|]. by split; etrans.
Qed.

Lemma logged_lined v v' : logged v v' -> lined v v'.
Proof. intros [lg ->]. exists (v_h2c v), (v_c2h v), (d_irq_line (v_dev v)), lg. split; [by destruct v as [? []]|done]. Qed.

Lemma lined_engines dir v v' : lined v v' -> Forall2 relined (engines dir v) (engines dir v').
Proof. intros (h & c & i & lg & -> & Hh & Hc). by destruct dir. Qed.

Lemma lined_lookup dir v v' j e' :
  lined v v' -> zlookup (engines dir v') j = Some e' ->
  exists e, zlookup (engines dir v) j = Some e /\ relined e e'.
Proof.
  intros Hl%(lined_engines dir) [Hj He]%zlookup_nat. destruct (Forall2_lookup_r _ _ _ _ _ Hl He) as (e & E & Hr).
  exists e. split; [|done]. unfold zlookup. by destruct (Z.ltb_spec j 0); [lia|].
Qed.

Lemma lined_length dir v v' : lined v v' -> length (engines dir v') = length (engines dir v).
Proof. intros Hl%(lined_engines dir). by apply Forall2_length in Hl. Qed.

Lemma lined_max dir v v' : lined v v' -> channel_max dir (v_dev v') = channel_max dir (v_dev v).
Proof. intros (h & c & i & lg & -> & _). by destruct dir. Qed.

Lemma lined_wf v v' : lined v v' -> dev_wf v -> dev_wf v'.
Proof.
  intros Hl [Hc ? ? ? He]. assert (forall dir, length (engines dir v') = length (engines dir v)) as Hlen
    by (intros; by apply lined_length). pose proof (fun dir => lined_max dir v v' Hl) as Hm.
  destruct Hl as (h & c & i & lg & -> & _). split; try done. intros dir. rewrite Hlen, Hm. apply He.
Qed.

Lemma relined_insert l i e n :
  zlookup l i = Some e -> Forall2 relined l (<[Z.to_nat i := set_e_msix_irq_line n e]> l).
Proof.
  intros [_ He]%zlookup_nat. rewrite <-(list_insert_id l (Z.to_nat i) e He) at 1.
  apply Forall2_insert; [done|]. by exists n.
Qed.

Lemma lined_unfocus dir i e n v :
  zlookup (engines dir v) i = Some e ->
  lined v (unfocus_engine dir i (set_s_eng (set_e_msix_irq_line n e) (focus_engine e v)) v).
Proof.
  intros He. pose proof (relined_insert _ _ _ n He) as Hl.
  exists (if is_h2c dir then <[Z.to_nat i := set_e_msix_irq_line n e]> (v_h2c v) else v_h2c v),
    (if is_h2c dir then v_c2h v else <[Z.to_nat i := set_e_msix_irq_line n e]> (v_c2h v)),
    (d_irq_line (v_dev v)), (v_log v).
  split; [by destruct v as [? []], dir|]. by destruct dir.
Qed.

Section release.
Context `{Env}.

Lemma moved_event x v ev : (forall r, delta r ev = x r) -> moved x v (set_log (ev :: v_log v) v).
Proof. intros Hx r. by rewrite balance_log, Hx. Qed.

(** ** The registers of the vectors *)

#[export] Instance untouched_write_vectors fuel clear a i max : Keep untouched (write_vectors fuel clear a i max).
Proof.
  revert a i. induction fuel as [|fuel IH]; intros a i; cbn [write_vectors]; [ledger|].
  destruct (i <? max); [|ledger]. destruct (if clear then _ else _) as [j w]. apply (keep_bind _); [apply _|]. intros _. apply IH.
Qed.

#[export] Instance untouched_prog_channel clear : Keep untouched (prog_irq_msix_channel clear).
Proof. unfold prog_irq_msix_channel, get_dev, int_reg, config_bar. ledger. Qed.
#[export] Instance untouched_prog_user clear : Keep untouched (prog_irq_msix_user clear).
Proof. unfold prog_irq_msix_user, get_dev, int_reg, config_bar. ledger. Qed.

Lemma wp_prog_channel v : dev_wf v -> wp (prog_irq_msix_channel false) (fun _ v' => logged v v') v.
Proof.
  intros []. unfold prog_irq_msix_channel. apply wp_bind, dwp_get_dev, wp_bind, dwp_int_reg; [done|].
  intros a. rewrite u32_small by lia.
  destruct (vectors_spec 0 (d_c2h_channel_max (v_dev v) + d_h2c_channel_max (v_dev v))) as (ws & Hw & _); [lia..|].
  rewrite Z.add_0_l in Hw. unfold wp. rewrite (write_vectors_words _ _ _ _ _ ws) by done. by eexists.
Qed.

Lemma wp_prog_user v : dev_wf v -> wp (prog_irq_msix_user false) (fun _ v' => logged v v') v.
Proof.
  intros []. unfold prog_irq_msix_user. apply wp_bind, dwp_get_dev, wp_bind, dwp_int_reg; [done|].
  intros a. rewrite (u32_small (_ + d_h2c_channel_max _)), u32_small by lia.
  destruct (vectors_spec (d_c2h_channel_max (v_dev v) + d_h2c_channel_max (v_dev v)) (d_user_max (v_dev v)))
    as (ws & Hw & _); [lia..|].
  unfold wp. rewrite (write_vectors_words _ _ _ _ _ ws) by done. by eexists.
Qed.

(** ** Vectors *)

#[export] Instance logged_kcall f a : Keep logged (kcall (S := dst) f a).
Proof. intros v x v' [= _ <-]. by eexists. Qed.
#[export] Instance logged_kdo f a : Keep logged (kdo (S := dst) f a).
Proof. intros v x v' [= _ <-]. by eexists. Qed.
#[export] Instance logged_read a : Keep logged (read_register (S := dst) a).
Proof. intros v x v' [= _ <-]. by eexists. Qed.
#[export] Instance logged_write x a : Keep logged (write_register (S := dst) x a).
Proof. intros v y v' [= _ <-]. by eexists. Qed.

#[export] Instance untouched_capable pdev t : Keep untouched (msi_msix_capable pdev t).
Proof.
  unfold msi_msix_capable. ledger. generalize (zrange a0). intros l.
  induction l as [|b l IH]; cbn [bus_allows_msi]; ledger.
Qed.

Lemma wp_capable pdev t v : wp (msi_msix_capable pdev t) (fun _ v' => logged v v') v.
Proof.
  unfold msi_msix_capable. destruct (pdev =? 0); [by apply wp_ret|]. apply wp_bind, dwp_kcall.
  destruct (negb _); [apply wp_ret; by eexists|]. apply wp_bind, dwp_kcall, wp_bind.
  match goal with |- wp _ _ ?st => assert (logged v st) as Hl by (by eexists); generalize dependent st end.
  generalize (zrange (kernel (v_log (set_log (EvCall "dev->no_msi" [pdev] (kernel (v_log v) "dev->no_msi" [pdev]) :: v_log v) v)) "bus depth" [pdev])).
  intros l. induction l as [|b l IH]; intros v1 Hl; cbn [bus_allows_msi].
  - apply wp_ret. apply wp_bind, dwp_kcall, wp_ret. etrans; [exact Hl|by eexists].
  - apply wp_bind, dwp_kcall. destruct (negb (kernel _ _ _ =? 0)).
    + apply wp_ret. cbn [negb]. apply wp_ret. etrans; [exact Hl|by eexists].
    + apply IH. etrans; [exact Hl|by eexists].
Qed.

(** MSI-X may be chosen. *)
Definition wants_msix : bool := (interrupt_mode =? 3) || (interrupt_mode =? 0).

Definition vectors (d : xdma_dev) : Z := Z.b2z (d_msix_enabled d || d_msi_enabled d).

(** Only the flags of the vectors and the log differ. *)
Definition reflagged (v v' : dst) : Prop := exists i x lg,
  v' = set_log lg (set_v_dev (set_d_msi_enabled i (set_d_msix_enabled x (v_dev v))) v).

Definition vecs (k : Z) (r : resource) : Z := match r with RVectors => k | _ => 0 end.

(** Taking vectors and setting a flag. *)
Lemma moved_vectors v v1 f args rv d :
  settled v v1 -> d_bar d = d_bar (v_dev v1) -> vectors d = 1 ->
  one_of ["pci_alloc_irq_vectors"; "pci_enable_msi"]%string f = true ->
  moved (vecs (if 0 <=? rv then vectors d else 0)) v (set_v_dev d (set_log (EvCall f args rv :: v_log v1) v1)).
Proof.
  intros Hs Hd Hv Hf r. set (v2 := set_log _ v1). assert (settled v2 (set_v_dev d v2)) as -> by (by apply settled_set_dev).
  unfold v2. rewrite balance_log, (Hs r), Hv.
  unfold one_of in Hf. cbn in Hf. destruct (String.eqb_spec f "pci_alloc_irq_vectors") as [->|_];
    [|destruct (String.eqb_spec f "pci_enable_msi") as [->|_]; [|done]];
    destruct r; cbn; destruct (0 <=? rv); cbn; lia.
Qed.

Lemma wp_enable_vectors pdev v :
  d_msix_enabled (v_dev v) = false -> d_msi_enabled (v_dev v) = false -> pdev <> 0 ->
  wp (enable_msi_msix pdev) (fun rv v' => reflagged v v' /\
    d_msix_enabled (v_dev v') && d_msi_enabled (v_dev v') = false /\
    (wants_msix = false -> d_msix_enabled (v_dev v') = false) /\
    moved (vecs (if 0 <=? rv then vectors (v_dev v') else 0)) v v') v.
Proof.
  intros E1 E2 Hp. unfold enable_msi_msix. apply Z.eqb_neq in Hp. rewrite Hp. apply wp_bind, dwp_get_dev.
  assert (forall b t v1, logged v v1 -> settled v v1 ->
    wp (if b : bool then msi_msix_capable pdev t else ret false)
      (fun r v' => (b = false -> r = false) /\ logged v v' /\ settled v v') v1) as Hcap.
  { intros b t v1 Hl Hs. settling dst. destruct b; [|by apply wp_ret].
    eapply wp_mono; [apply wp_capable|]. intros r v2 Hl2 Hs2. split; [done|]. split; by etrans. }
  apply wp_bind. eapply wp_mono; [by apply Hcap|]. fold wants_msix. intros x v1 (Hx & Hl1 & Hs1). destruct x.
  { assert (wants_msix = true) as Hw by (destruct wants_msix; [done|by discriminate Hx]).
    apply wp_bind, dwp_kcall, wp_bind, dwp_upd_dev, wp_ret. set (rv := kernel _ _ _). destruct Hl1 as [lg ->].
    split_and!.
    - clear -E1 E2. destruct v as [? []]; cbn in *; subst. by eexists false, true, _.
    - cbn. by rewrite E2.
    - by rewrite Hw.
    - by apply moved_vectors. }
  apply wp_bind. eapply wp_mono; [by apply Hcap|]. intros y v2 (Hy & Hl2 & Hs2). destruct y.
  - apply wp_bind, dwp_kcall, wp_bind, dwp_upd_dev, wp_ret. set (rv := kernel _ _ _). destruct Hl2 as [lg ->].
    split_and!.
    + clear -E1 E2. destruct v as [? []]; cbn in *; subst. by eexists true, false, _.
    + cbn. by rewrite E1.
    + done.
    + apply moved_vectors; try done. unfold vectors. cbn. by rewrite orb_true_r.
  - apply wp_ret. destruct Hl2 as [lg ->]. split_and!.
    + clear -E1 E2. destruct v as [? []]; cbn in *; subst. by eexists false, false, _.
    + cbn. by rewrite E1.
    + done.
    + intros r. rewrite Hs2. unfold vectors. cbn. rewrite E1, E2. destruct r; cbn; try lia.
Qed.

(** ** Releasing lines *)

Lemma wp_free_users first l v :
  wp (free_users first l) (fun _ v' => logged v v' /\ moved (irqs (- Z.of_nat (length l))) v v') v.
Proof.
  unfold free_users. apply (wp_forM l _ (fun pre v' => logged v v' /\ moved (irqs (- Z.of_nat (length pre))) v v')).
  { split; [done|by apply moved_settled]. }
  intros pre i post v1 _ [Hl Hm]. apply wp_bind. settling dst. apply dwp_kcall. intros Hs. apply dwp_kdo. split.
  - etrans; [exact Hl|]. by eexists.
  - rewrite length_app. cbn [length]. replace (- Z.of_nat _) with (- Z.of_nat (length pre) + (0 + -1)) by lia.
    eapply moved_irqs; [exact Hm|]. eapply moved_irqs; [apply moved_settled, Hs|]. apply moved_event. by intros [].
Qed.

(** The lines of a device whose interrupts are set up. *)
Definition lines (d : xdma_dev) : Z :=
  if d_msix_enabled d then d_h2c_channel_max d + d_c2h_channel_max d + d_user_max d else 1.

(** Tear-down finds them. *)
Definition lines_known (v : dst) : Prop :=
  if d_msix_enabled (v_dev v)
  then forall dir j e, 0 <= j < channel_max dir (v_dev v) -> zlookup (engines dir v) j = Some e -> e_msix_irq_line e <> 0
  else d_irq_line (v_dev v) <> -1.

Lemma wp_free_all dir l v :
  (forall i, i ∈ l -> exists e, zlookup (engines dir v) i = Some e /\ e_msix_irq_line e <> 0) ->
  wp (free_channels dir l) (fun _ v' => logged v v' /\ moved (irqs (- Z.of_nat (length l))) v v') v.
Proof.
  revert v. induction l as [|i l IH]; intros v Hl; cbn [free_channels].
  - apply wp_ret. split; [done|by apply moved_settled].
  - destruct (Hl i) as (e & He & Hn); [set_solver|]. apply wp_bind. eapply dwp_get_engine; [exact He|].
    destruct (Z.eqb_spec (e_msix_irq_line e) 0); [done|]. apply wp_bind, dwp_kdo. set (v1 := set_log _ v).
    assert (moved (irqs (-1)) v v1) as Hm by (by apply moved_event; intros []).
    eapply wp_mono; [apply IH|].
    + intros j Hj. apply (Hl j). set_solver.
    + intros _ v2 [Hg2 Hm2]. split; [etrans; [by eexists|exact Hg2]|]. cbn [length].
      replace (- Z.of_nat (S (length l))) with (-1 + - Z.of_nat (length l)) by lia. by eapply moved_irqs.
Qed.

Lemma wp_release_lines v :
  dev_wf v -> lines_known v ->
  wp irq_teardown (fun _ v' => logged v v' /\ moved (irqs (- lines (v_dev v))) v v') v.
Proof.
  intros Hwf Hk. pose proof Hwf as [_ Hh Hc Hu He]. unfold irq_teardown, lines. unfold lines_known in Hk.
  apply wp_bind, dwp_get_dev. destruct (d_msix_enabled (v_dev v)) eqn:Hx.
  - pose proof (He DMA_TO_DEVICE) as Hlh. pose proof (He DMA_FROM_DEVICE) as Hlc. cbn [channel_max is_h2c] in Hlh, Hlc.
    assert (forall dir v', logged v v' ->
      wp (free_channels dir (zrange (channel_max dir (v_dev v))))
        (fun _ v'' => logged v' v'' /\ moved (irqs (- Z.of_nat (Z.to_nat (channel_max dir (v_dev v))))) v' v'') v') as Hfree.
    { intros dir v' [lg ->]. rewrite <-(length_seqZ 0). apply wp_free_all. intros i Hi%elem_of_zrange.
      change (engines dir (set_log lg v)) with (engines dir v).
      destruct (zlookup_in (engines dir v) i) as [e Hie]; [specialize (He dir); lia|]. exists e. split; [done|]. by eapply Hk. }
    unfold irq_msix_channel_teardown. apply wp_bind, wp_bind, dwp_get_dev. rewrite Hx. cbn [negb].
    apply wp_bind. settling dst. eapply wp_mono; [by apply wp_prog_channel_clear|]. intros ? v1 Hg1 Hs1.
    apply wp_bind. eapply wp_mono; [by apply (Hfree DMA_TO_DEVICE)|]. intros _ v2 [Hg2 Hm2].
    eapply wp_mono; [apply (Hfree DMA_FROM_DEVICE); etrans; [exact Hg1|exact Hg2]|]. intros _ v3 [Hg3 Hm3].
    assert (logged v v3) as [lg3 E3] by (etrans; [exact Hg1|]; etrans; [exact Hg2|exact Hg3]).
    unfold irq_msix_user_teardown. apply wp_bind, dwp_get_dev. rewrite E3. change (v_dev (set_log lg3 v)) with (v_dev v).
    rewrite Hx. cbn [negb]. rewrite <-E3. apply wp_bind. settling dst.
    eapply wp_mono; [apply wp_prog_user_clear; rewrite E3; by apply dev_wf_log|]. intros ? v4 Hg4 Hs4.
    eapply wp_mono; [apply wp_free_users|]. intros _ v5 [Hg5 Hm5]. rewrite length_seqZ in Hm5.
    split; [etrans; [by exists lg3|etrans; [exact Hg4|exact Hg5]]|]. intros r.
    rewrite Hm5, (Hs4 r), Hm3, Hm2, (Hs1 r). cbn [channel_max is_h2c]. destruct r; cbn; lia.
  - apply wp_bind, wp_get, wp_when; intros Hn.
    + apply dwp_kdo. split; [by eexists|]. apply moved_event. by intros [].
    + rewrite negb_false_iff, Z.eqb_eq in Hn. done.
Qed.
End release.

Section lines.
Context `{Env} `{!IrqLaws}.

(** The engines [i], [i + 1], ... of one direction get a line each. *)
Definition lines_set (dir : dma_dir) (i n : Z) (v v' : dst) : Prop :=
  forall j e', zlookup (engines dir v') j = Some e' ->
    if (i <=? j) && (j <? i + n) then e_msix_irq_line e' <> 0 else zlookup (engines dir v) j = Some e'.

Definition other_kept (dir : dma_dir) (v v' : dst) : Prop :=
  forall dir', dir <> dir' -> engines dir' v' = engines dir' v.

#[export] Instance other_kept_preorder dir : PreOrder (other_kept dir).
Proof. split; [by intros v|]. intros v1 v2 v3 H12 H23 dir' Hd. by rewrite H23, H12. Qed.

Lemma wp_set_line dir i line v :
  0 <= i < Z.of_nat (length (engines dir v)) ->
  wp (on_engine dir i (upd_eng (set_e_msix_irq_line line))) (fun _ v' => settled v v' /\ lined v v' /\ other_kept dir v v' /\
    exists e, engines dir v' = <[Z.to_nat i := set_e_msix_irq_line line e]> (engines dir v)) v.
Proof.
  intros [e He]%zlookup_in. settling dst. eapply wp_on_engine; [exact He|]. apply wp_upd_eng. intros Hs.
  split; [done|]. split; [by apply (lined_unfocus dir i e line v He)|].
  split; [by intros dir' ?; apply engines_unfocus_other|]. exists e. by rewrite engines_unfocus.
Qed.

Lemma wp_request_channels dir first n i v :
  0 <= i -> i + Z.of_nat n <= Z.of_nat (length (engines dir v)) ->
  wp (request_channels dir first (seqZ i (Z.of_nat n))) (fun rv v' => lined v v' /\ other_kept dir v v' /\ rv <= 0 /\
    exists k, 0 <= k /\ moved (irqs k) v v' /\ (rv = 0 -> k = Z.of_nat n /\ lines_set dir i (Z.of_nat n) v v')) v.
Proof.
  revert i v. induction n as [|n IH]; intros i v Hi Hn.
  - apply wp_ret. do 3 (split; [done|]). exists 0. split; [done|]. split; [by apply moved_settled|].
    intros _. split; [done|]. intros j e' He. destruct (Z.leb_spec i j), (Z.ltb_spec j (i + Z.of_nat 0)); try done; lia.
  - rewrite seqZ_cons by lia. replace (Z.pred (Z.of_nat (S n))) with (Z.of_nat n) by lia. cbn [request_channels].
    apply wp_bind. settling dst. apply dwp_kcall. intros Hs1. set (vec := kernel _ _ _).
    assert (u32 vec <> 0) as Hvec by apply il_vector.
    apply wp_bind, dwp_kcall. set (rv := kernel _ _ _). assert (rv <= 0) as Hrv by (by apply il_request).
    match goal with |- context [wp _ _ ?st] => set (v2 := st) end.
    assert (logged v v2) as Hlog by (by eexists).
    assert (moved (irqs (Z.b2z (rv =? 0))) v v2) as Hmv.
    { intros r. unfold v2. rewrite balance_log, Hs1. destruct r; cbn; lia. }
    clearbody v2 rv vec. destruct (Z.eqb_spec rv 0) as [->|Hnz]; cbn [negb].
    + assert (engines dir v2 = engines dir v) as Ee2 by (by destruct Hlog as [lg ->]).
      assert (other_kept dir v v2) as Ho2 by (by destruct Hlog as [lg ->]).
      apply logged_lined in Hlog. set (line := s32 (u32 vec)) in *.
      pose proof (s32_nonzero _ Hvec) as Hline. fold line in Hline. clearbody line.
      apply wp_bind. eapply wp_mono; [apply wp_set_line; rewrite Ee2; lia|]. intros _ v3 (Hs3 & Hl3 & Ho3 & e & Ee).
      rewrite Ee2 in Ee. assert (length (engines dir v3) = length (engines dir v)) as Hlen3 by (by rewrite Ee, length_insert).
      eapply wp_mono; [apply IH; lia|]. intros rv v4 (Hl4 & Ho4 & Hrv4 & k & Hk & Hm4 & Hok).
      split; [by etrans; [|etrans]|]. split; [by etrans; [|etrans]|]. split; [done|]. exists (1 + k). split; [lia|]. split.
      { eapply moved_irqs; [|exact Hm4]. intros r. by rewrite (Hs3 r), (Hmv r). }
      intros Hz. destruct (Hok Hz) as [-> Hset]. split; [lia|]. intros j e' Hj. specialize (Hset j e' Hj).
      rewrite Ee, zlookup_insert_z in Hset by lia. destruct (decide (i = j)) as [<-|Hij]; [|by rewrite range_succ in Hset].
      destruct (Z.leb_spec (Z.succ i) i), (Z.leb_spec i i), (Z.ltb_spec i (i + Z.of_nat (S n))); try lia.
      by injection Hset as <-.
    + apply wp_ret. split; [by apply logged_lined|]. split; [by destruct Hlog as [lg ->]|]. split; [done|]. exists 0. split; [done|]. split; [done|lia].
Qed.

(** ** User interrupts *)

Lemma wp_request_users first l n v :
  wp (request_users first l n) (fun '(m, rv) v' => logged v v' /\ rv <= 0 /\ n <= m <= n + Z.of_nat (length l) /\
    moved (irqs (m - n)) v v' /\ (rv = 0 -> m = n + Z.of_nat (length l))) v.
Proof.
  revert n v. induction l as [|i l IH]; intros n v; cbn [request_users].
  - apply wp_ret. split_and!; cbn [length]; try lia; [done|]. replace (n - n) with 0 by lia. by apply moved_settled.
  - apply wp_bind. settling dst. apply dwp_kcall. intros Hs1. set (v1 := set_log _ v) in *.
    apply wp_bind, dwp_kcall. set (rv := kernel _ _ _). assert (rv <= 0) as Hrv by (by apply il_request).
    match goal with |- context [wp _ _ ?st] => set (v2 := st) end.
    assert (moved (irqs (Z.b2z (rv =? 0))) v v2) as Hm.
    { change (Z.b2z (rv =? 0)) with (0 + Z.b2z (rv =? 0)). eapply moved_irqs; [by apply moved_settled, Hs1|].
      apply (moved_event _ v1). intros []; cbn; lia. }
    assert (logged v v2) as Hl by (by eexists). clearbody v2 rv. destruct (Z.eqb_spec rv 0) as [->|Hnz]; cbn [negb].
    + eapply wp_mono; [apply IH|]. intros [m rv'] v3 (Hl3 & Hrv3 & Hn3 & Hm3 & Hok). cbn [length].
      split; [by etrans|]. split; [done|]. split; [lia|]. split; [|lia].
      replace (m - n) with (1 + (m - (n + 1))) by lia. by eapply moved_irqs.
    + apply wp_ret. cbn [length]. split; [done|]. split; [done|]. split; [lia|].
      split; [|lia]. by replace (n - n) with 0 by lia.
Qed.

Lemma wp_user_setup v :
  0 <= d_user_max (v_dev v) ->
  wp irq_msix_user_setup (fun rv v' => logged v v' /\ rv <= 0 /\
    moved (irqs (if rv =? 0 then d_user_max (v_dev v) else 0)) v v') v.
Proof.
  intros Hu. unfold irq_msix_user_setup. apply wp_bind, dwp_get_dev, wp_bind.
  eapply wp_mono; [apply wp_request_users|]. intros [n rv] v1 (Hl & Hrv & Hn & Hm & Hok). rewrite length_seqZ in *.
  rewrite Z.sub_0_r in Hm. apply wp_bind, (wp_mono _ (fun _ v' => logged v v' /\
    moved (irqs (if rv =? 0 then d_user_max (v_dev v) else 0)) v v')); [|intros ? v2 [? ?]; by apply wp_ret].
  destruct (Z.eqb_spec rv 0) as [->|Hz]; cbn [negb when].
  - apply wp_ret. split; [done|]. by replace (d_user_max (v_dev v)) with n by lia.
  - eapply wp_mono; [apply wp_free_users|]. intros _ v2 [Hl2 Hm2]. split; [by etrans|].
    rewrite length_reverse, length_seqZ in Hm2. replace 0 with (n + - Z.of_nat (Z.to_nat n)) by lia.
    by eapply moved_irqs.
Qed.

(** ** Set-up *)

Lemma wp_channel_setup v :
  dev_wf v -> d_msix_enabled (v_dev v) = true ->
  wp irq_msix_channel_setup (fun rv v' => lined v v' /\ rv <= 0 /\
    exists k, 0 <= k /\ moved (irqs k) v v' /\
      (rv = 0 -> k = d_h2c_channel_max (v_dev v) + d_c2h_channel_max (v_dev v) /\
        forall dir j e, 0 <= j < channel_max dir (v_dev v) -> zlookup (engines dir v') j = Some e -> e_msix_irq_line e <> 0)) v.
Proof.
  intros [_ Hh Hc _ He] Hx. pose proof (He DMA_TO_DEVICE) as Hlh. pose proof (He DMA_FROM_DEVICE) as Hlc.
  unfold irq_msix_channel_setup. apply wp_bind, dwp_get_dev. rewrite Hx. cbn [negb].
  cbn [channel_max is_h2c] in Hlh, Hlc. set (h := d_h2c_channel_max (v_dev v)) in *. set (c := d_c2h_channel_max (v_dev v)) in *.
  apply wp_bind. replace h with (Z.of_nat (Z.to_nat h)) at 1 by lia.
  eapply wp_mono; [apply wp_request_channels; lia|]. intros rv v1 (Hl1 & Ho1 & Hrv1 & k1 & Hk1 & Hm1 & Hok1).
  destruct (Z.eqb_spec rv 0) as [->|Hz]; cbn [negb].
  - destruct (Hok1 eq_refl) as [-> Hs1]. replace c with (Z.of_nat (Z.to_nat c)) at 1 by lia.
    eapply wp_mono; [apply wp_request_channels; [lia|]|].
    { rewrite (lined_length DMA_FROM_DEVICE v v1) by done. lia. }
    intros rv2 v2 (Hl2 & Ho2 & Hrv2 & k2 & Hk2 & Hm2 & Hok2). split; [by etrans|]. split; [done|].
    exists (Z.of_nat (Z.to_nat h) + k2). split; [lia|]. split; [by eapply moved_irqs|]. intros Hz2.
    destruct (Hok2 Hz2) as [-> Hs2]. split; [lia|]. intros [] j e Hj Hje; cbn [channel_max is_h2c] in Hj.
    + rewrite Ho2 in Hje by done. specialize (Hs1 j e Hje).
      by destruct (Z.leb_spec 0 j), (Z.ltb_spec j (0 + Z.of_nat (Z.to_nat h))); try lia.
    + specialize (Hs2 j e Hje).
      by destruct (Z.leb_spec 0 j), (Z.ltb_spec j (0 + Z.of_nat (Z.to_nat c))); try lia.
  - apply wp_ret. split; [done|]. split; [done|]. exists k1. split; [done|]. split; [done|lia].
Qed.

(** What [irq_setup] establishes, on success and on failure. *)
Definition set_up (rv : Z) (v v' : dst) : Prop :=
  lined v v' /\ rv <= 0 /\ exists k, 0 <= k /\ moved (irqs k) v v' /\
    (rv = 0 -> k = lines (v_dev v') /\ lines_known v') /\
    (rv <> 0 -> d_msix_enabled (v_dev v) = false -> k = 0).

Lemma lined_dev v v' :
  lined v v' -> d_msix_enabled (v_dev v') = d_msix_enabled (v_dev v) /\ d_user_max (v_dev v') = d_user_max (v_dev v).
Proof. by intros (h & c & i & lg & -> & _). Qed.

Lemma wp_msix_setup v :
  dev_wf v -> d_msix_enabled (v_dev v) = true ->
  wp (let* rv := irq_msix_channel_setup in
      if negb (rv =? 0) then ret rv
      else
        let* rv := irq_msix_user_setup in
        if negb (rv =? 0) then ret rv
        else prog_irq_msix_channel false >>; prog_irq_msix_user false >>; ret 0) (fun rv v' => set_up rv v v') v.
Proof.
  intros Hwf Hx. apply wp_bind. eapply wp_mono; [by apply wp_channel_setup|].
  intros rv v1 (Hl1 & Hrv & k & Hk & Hm & Hok).
  assert (forall rv v2, rv <= 0 -> rv <> 0 -> lined v v2 -> moved (irqs k) v v2 -> set_up rv v v2) as Hfail.
  { intros r v2 Hr Hrn Hl2 Hm2. split; [done|]. split; [done|]. exists k. split_and!; try done. by rewrite Hx. }
  destruct (Z.eqb_spec rv 0) as [->|Hz]; cbn [negb]; [|by apply wp_ret, Hfail].
  pose proof (lined_wf _ _ Hl1 Hwf) as Hwf1. destruct (lined_dev _ _ Hl1) as [Ex1 Eu1]. apply wp_bind.
  eapply wp_mono; [apply wp_user_setup; apply Hwf1|]. intros rv2 v2 (Hg2 & Hrv2 & Hm2).
  assert (lined v v2) as Hl2 by (etrans; [exact Hl1|by apply logged_lined]).
  destruct (Z.eqb_spec rv2 0) as [->|Hz]; cbn [negb].
  2: { apply wp_ret, Hfail; try done. replace k with (k + 0) by lia. by eapply moved_irqs. }
  pose proof (lined_wf _ _ Hl2 Hwf) as Hwf2. apply wp_bind. settling dst.
  eapply wp_mono; [by apply wp_prog_channel|]. intros ? v3 Hg3 Hs3.
  assert (lined v2 v3) as Hl3 by (by apply logged_lined). apply wp_bind. settling dst.
  eapply wp_mono; [apply wp_prog_user; by apply (lined_wf v2)|]. intros ? v4 Hg4 Hs4. apply wp_ret.
  assert (logged v1 v4) as [lg E4] by (etrans; [exact Hg2|]; etrans; [exact Hg3|exact Hg4]).
  assert (lined v v4) as Hl4 by (etrans; [exact Hl1|apply logged_lined; by exists lg]).
  destruct (Hok eq_refl) as [-> Hlines]. split; [done|]. split; [done|].
  exists (d_h2c_channel_max (v_dev v) + d_c2h_channel_max (v_dev v) + d_user_max (v_dev v)). split; [destruct Hwf; lia|].
  split; [intros r; rewrite (Hs4 r), (Hs3 r), <-Eu1; by apply (moved_irqs _ _ v v1 v2)|].
  pose proof (fun dir => lined_max dir _ _ Hl4) as Emax. pose proof (Emax DMA_TO_DEVICE) as Eh. pose proof (Emax DMA_FROM_DEVICE) as Ec.
  destruct (lined_dev _ _ Hl4) as [Ex4 Eu4]. cbn [channel_max is_h2c] in Eh, Ec. split; [|done]. intros _. split.
  - unfold lines. by rewrite Ex4, Hx, Eh, Ec, Eu4.
  - unfold lines_known. rewrite Ex4, Hx. intros dir j e Hj. rewrite Emax in Hj. rewrite E4. by apply Hlines.
Qed.

Lemma request_delta f args rv r :
  one_of request_irqs f = true -> delta r (EvCall f args rv) = irqs (Z.b2z (rv =? 0)) r.
Proof.
  unfold one_of, request_irqs. cbn [existsb]. rewrite !orb_true_iff.
  intros [E|[E|[E|[E|E]]]]; try done; apply String.eqb_eq in E as ->; destruct r; cbn; lia.
Qed.

(** One line for the whole device. *)
Lemma wp_single_line f pdev v v0 :
  d_msix_enabled (v_dev v0) = false -> lined v0 v -> settled v0 v -> one_of request_irqs f = true ->
  wp (let* irq := kcall "pdev->irq" [pdev] in
      upd_dev (set_d_irq_line (s32 irq)) >>; let* v := get in kcall f [irq; v_hndl v]) (fun rv v' => set_up rv v0 v') v.
Proof.
  intros Hx Hl Hs Hf. apply wp_bind. settling dst. apply dwp_kcall. intros Hs1.
  pose proof (il_line (v_log v) [pdev]) as Hirq. set (irq := kernel _ _ _) in *. set (v1 := set_log _ v) in *.
  assert (lined v v1) as Hl1 by (apply logged_lined; by eexists).
  apply wp_bind, dwp_upd_dev, wp_bind, wp_get, dwp_kcall. set (v2 := set_v_dev _ v1).
  assert (settled v1 v2) as Hs2 by (by apply settled_set_dev).
  assert (lined v1 v2) as Hl2.
  { exists (v_h2c v1), (v_c2h v1), (s32 irq), (v_log v1). split; [by destruct v as [? []]|done]. }
  set (rv := kernel _ _ _). assert (rv <= 0) as Hrv by (by apply il_request).
  match goal with |- set_up _ _ ?st => set (v3 := st) end.
  assert (lined v2 v3) as Hl3 by (apply logged_lined; by eexists).
  assert (lined v0 v3) as Hl4 by (by repeat (etrans; [eassumption|])).
  destruct (lined_dev _ _ Hl4) as [Ex _]. split; [done|]. split; [done|]. exists (Z.b2z (rv =? 0)).
  split; [destruct (rv =? 0); cbn; lia|]. split.
  - intros r. unfold v3. rewrite balance_log, (Hs2 r), (Hs1 r), (Hs r).
    by rewrite request_delta.
  - split; intros Hz; [|apply Z.eqb_neq in Hz; by rewrite Hz].
    split; [by unfold lines; rewrite Hz, Ex, Hx|]. unfold lines_known. rewrite Ex, Hx. exact Hirq.
Qed.

Lemma set_up_quiet rv v v1 v' : logged v v1 -> settled v v1 -> set_up rv v1 v' -> set_up rv v v'.
Proof.
  intros [lg ->] Hs (Hl & Hrv & k & Hk & Hm & Hok). split; [etrans; [by apply logged_lined; exists lg|done]|].
  split; [done|]. exists k. split; [done|]. split; [|done]. intros r. by rewrite Hm, Hs.
Qed.

Lemma wp_irq_setup pdev v : dev_wf v -> wp (irq_setup pdev) (fun rv v' => set_up rv v v') v.
Proof.
  intros Hwf. unfold irq_setup. apply wp_bind.
  apply (wp_mono _ (fun _ v' => logged v v' /\ settled v v')).
  { unfold pci_keep_intx_enabled. settling dst. apply wp_bind, dwp_kcall, wp_when; intros _; [apply dwp_kdo|];
      intros Hs; (split; [by eexists|done]). }
  intros _ v1 [Hg Hs]. apply wp_bind, dwp_get_dev. assert (dev_wf v1) as Hwf1 by (by apply (lined_wf v); [apply logged_lined|]).
  assert (lined v v1) as Hl by (by apply logged_lined).
  destruct (lined_dev _ _ Hl) as [Ex _]. destruct (d_msix_enabled (v_dev v1)) eqn:Hx.
  { eapply wp_mono; [by apply wp_msix_setup|]. intros rv v2. by apply set_up_quiet. }
  destruct (d_msi_enabled (v_dev v1)); [by apply wp_single_line|].
  unfold irq_legacy_setup. apply wp_bind. settling dst. apply dwp_kcall. intros Hs2. set (v2 := set_log _ v1) in *.
  assert (lined v1 v2) as Hl2 by (apply logged_lined; by eexists).
  assert (lined v v2) as Hl3 by (by etrans). assert (settled v v2) as Hs3 by (by etrans). destruct (_ =? 0).
  { apply wp_ret. split; [done|]. split; [done|]. exists 0. split_and!; try done. by apply moved_settled. }
  apply wp_bind, dwp_get_dev, wp_bind. pose proof (wf_config _ (lined_wf _ _ Hl3 Hwf)) as [b Hb].
  apply (wp_mono _ (fun _ v' => logged v2 v' /\ settled v2 v')).
  - destruct (_ <? _); [|by apply wp_ret]. apply wp_bind. unfold config_bar. eapply wp_deref; [exact Hb|].
    settling dst. eapply wp_mono; [apply wp_forM_logged|].
    + intros o v3 _ _. apply dwp_write. by eexists.
    + intros ? v3 Hg3 Hs4. by split.
  - intros _ v3 [Hg3 Hs4]. apply wp_single_line; [done|etrans; [exact Hl3|by apply logged_lined]|by etrans|done].
Qed.
End lines.
