(* ===== verification/DeviceLife.v ===== *)
(** * DeviceLife: opening and closing a device, with the ledger

    [xdma_device_open] in interrupt mode either gives everything back that it
    took, or returns a device that [xdma_device_close] gives back. *)

From S2P Require Import Prelude Hw State Desc Engine Service Request Fixtures QueueProps Submit Dev DevFixtures Thread Irq IrqProps Device Ledger DeviceProps ProbeProps BarLedger IrqLife.

(** ** Removing the engines *)

Lemma mems_0 l : (forall j e, zlookup l j = Some e -> mem_of e = 0) -> mems l = 0.
Proof.
  intros Hl. assert (Forall (fun e => mem_of e = 0) l) as Hf.
  { apply Forall_lookup. intros i e He. apply (Hl (Z.of_nat i)). unfold zlookup.
    destruct (Z.ltb_spec (Z.of_nat i) 0); [lia|]. by rewrite Nat2Z.id. }
  clear Hl. unfold mems. induction Hf as [|e l He Hl IH]; [done|]. cbn [map]. unfold zsum in *. cbn. lia.
Qed.

(** Only one direction's engines, the count of engines and the log differ. *)
Definition emptied (dir : dma_dir) (v v' : dst) : Prop := exists l n lg,
  v' = set_log lg (set_v_dev (set_d_engines_num n (v_dev v)) (set_engines dir l v)).

#[export] Instance emptied_preorder dir : PreOrder (emptied dir).
Proof.
  split.
  - intros v. exists (engines dir v), (d_engines_num (v_dev v)), (v_log v). destruct v as [? []]. by destruct dir.
  - intros v1 v2 v3 (l1 & n1 & g1 & ->) (l & n & g & ->). exists l, n, g. by destruct dir.
Qed.

(** Only the engine and the log differ. *)
Definition engine_only (s s' : est) : Prop := exists e lg, s' = set_log lg (set_s_eng e s).

#[export] Instance engine_only_preorder : PreOrder engine_only.
Proof.
  split; [by intros s; exists (s_eng s), (s_log s); destruct s|].
  intros s1 s2 s3 (e1 & l1 & ->) (e & l & ->). by exists e, l.
Qed.

#[export] Instance keep_free_resource `{Env} : Keep engine_only engine_free_resource.
Proof.
  assert (forall f, Keep engine_only (upd_eng f)) as Hu.
  { intros f s a s' [= _ <-]. exists (f (s_eng s)), (s_log s). by destruct s. }
  assert (forall f a, Keep engine_only (kdo f a)) as Hk.
  { intros f a s x s' [= _ <-]. exists (s_eng s). eexists. by destruct s. }
  unfold engine_free_resource, get_eng. keep.
Qed.

Section remove.
Context `{Env} `{Callback}.
Hypothesis Hpoll : poll_mode = false.

Lemma wp_engine_destroy dir ch v :
  has_config (v_dev v) -> 0 <= ch < Z.of_nat (length (engines dir v)) ->
  wp (engine_destroy dir ch) (fun _ v' => settled v v' /\ emptied dir v v' /\
    engines dir v' = <[Z.to_nat ch := zero_engine]> (engines dir v)) v.
Proof.
  intros [b Hb] Hch. destruct (zlookup_in _ _ Hch) as [e He]. unfold engine_destroy.
  apply wp_bind. settling dst. eapply wp_on_engine; [exact He|].
  apply wp_bind, wp_bind, wp_get_eng, wp_write_register, wp_bind, wp_get_eng.
  apply (wp_mono _ (fun _ s' => exists lg, s' = set_log lg (focus_engine e v))).
  { apply wp_when; intros _; [|by eexists]. apply wp_bind, wp_bind, wp_get, wp_bind.
    unfold config_bar. eapply wp_deref; [exact Hb|]. apply wp_ret, wp_write_register. by eexists. }
  intros _ ? [lg ->] Hs1. rewrite Hpoll. cbn [when]. apply wp_bind, wp_ret, wp_bind.
  set (v1 := unfocus_engine _ _ _ _) in *.
  assert (logged v v1) as [lg1 E1].
  { exists lg. unfold v1, unfocus_engine, engines, zlookup in *. destruct (ch <? 0); [done|].
    destruct v, dir; cbn in *; by rewrite list_insert_id. }
  clearbody v1. assert (zlookup (engines dir v1) ch = Some e) as He1 by (by rewrite E1).
  eapply wp_on_engine; [exact He1|]. apply wp_bind.
  keeping engine_only. eapply wp_mono; [apply wp_free_memory|]. intros _ s2 [Hs2 Hm2] (e2 & lg2 & ->).
  apply wp_bind, wp_upd_eng, wp_modify, wp_ret. split_and!.
  - etrans; [exact Hs1|]. apply (settled_unfocus dir ch e); [exact He1|]. etrans; [exact Hs2|].
    intros r. unfold balance. cbn in *. destruct r; cbn; try lia. by rewrite Hm2.
  - rewrite E1. eexists _, _, _. unfold unfocus_engine. destruct dir; reflexivity.
  - rewrite E1, engines_unfocus. done.
Qed.

Lemma emptied_config dir v v' : emptied dir v v' -> has_config (v_dev v) -> has_config (v_dev v').
Proof. by intros (l & n & lg & ->). Qed.

Lemma emptied_max dir dir' v v' : emptied dir v v' -> channel_max dir' (v_dev v') = channel_max dir' (v_dev v).
Proof. by intros (l & n & lg & ->); destruct dir, dir'. Qed.

Lemma emptied_other dir dir' v v' : emptied dir v v' -> dir <> dir' -> engines dir' v' = engines dir' v.
Proof. intros (l & n & lg & ->) Hd. by destruct dir, dir'. Qed.

(** What tear-down relies on: every engine that has memory will be destroyed. *)
Definition engines_live (dir : dma_dir) (v : dst) : Prop :=
  length (engines dir v) = 4%nat /\ 0 <= channel_max dir (v_dev v) <= 4 /\
  forall j e, zlookup (engines dir v) j = Some e ->
    (j < channel_max dir (v_dev v) -> e_magic e = MAGIC_ENGINE) /\
    (channel_max dir (v_dev v) <= j -> mem_of e = 0).

Lemma wp_destroy_engines dir v :
  has_config (v_dev v) -> engines_live dir v ->
  wp (destroy_engines dir (channel_max dir (v_dev v))) (fun _ v' => settled v v' /\ emptied dir v v' /\
    length (engines dir v') = 4%nat /\ mems (engines dir v') = 0) v.
Proof.
  intros Hc (Hlen & Hmax & Hl). set (n := channel_max dir (v_dev v)) in *.
  unfold destroy_engines. eapply wp_mono.
  - apply (wp_forM_zrange n _ (fun i v' => settled v v' /\ emptied dir v v' /\ length (engines dir v') = 4%nat /\
      forall j e, zlookup (engines dir v') j = Some e ->
        (j < i -> mem_of e = 0) /\ (i <= j -> zlookup (engines dir v) j = Some e))).
    + split_and!; try done. intros j e He. split; [|done]. intros Hj. rewrite zlookup_out in He by lia. done.
    + intros i v' Hi (Hs & He & Hl4 & Hj). destruct (zlookup_in (engines dir v') i) as [e Hei]; [lia|].
      apply wp_bind. eapply dwp_get_engine; [exact Hei|]. destruct (Hj i e Hei) as [_ Hold].
      destruct (Hl i e (Hold ltac:(lia))) as [Hmag _]. rewrite Hmag, Z.eqb_refl by lia. cbn [when].
      apply wp_bind. eapply wp_mono; [apply wp_engine_destroy; [by eapply emptied_config|lia]|].
      intros ? v2 (Hs2 & He2 & Hl2). apply wp_ret. split; [by etrans|]. split; [by etrans|].
      split; [by rewrite Hl2, length_insert|]. intros j ej. rewrite Hl2, zlookup_insert_z by lia.
      case_decide as Hij; [intros [= <-]; split; [done|lia]|]. intros Hej. destruct (Hj j ej Hej) as [H1 H2].
      split; intros; [apply H1|apply H2]; lia.
  - intros _ v' (Hs & He & Hl4 & Hj). split_and!; try done. apply mems_0. intros j e Hje.
    destruct (Hj j e Hje) as [H1 H2]. destruct (Z.ltb_spec j (Z.max 0 n)); [by apply H1|].
    apply (Hl j); [apply H2|]; lia.
Qed.

(** Only the engines, their count and the log differ. *)
Definition stripped (v v' : dst) : Prop := exists h c n lg,
  v' = set_log lg (set_v_dev (set_d_engines_num n (v_dev v)) (set_v_engines h c v)).

Lemma wp_remove_engines v :
  has_config (v_dev v) -> (forall dir, engines_live dir v) ->
  wp remove_engines (fun _ v' => settled v v' /\ stripped v v' /\ owns RDma v' = 0) v.
Proof.
  intros Hc Hl. unfold remove_engines. apply wp_bind, dwp_get_dev, wp_bind.
  eapply wp_mono; [apply (wp_destroy_engines DMA_TO_DEVICE); [done|apply Hl]|].
  intros _ v1 (Hs1 & He1 & Hl1 & Hm1). pose proof (emptied_max _ DMA_FROM_DEVICE _ _ He1) as Emax.
  pose proof (emptied_other _ DMA_FROM_DEVICE _ _ He1 ltac:(done)) as Eoth.
  change (d_c2h_channel_max (v_dev v)) with (channel_max DMA_FROM_DEVICE (v_dev v)). rewrite <-Emax.
  eapply wp_mono; [apply (wp_destroy_engines DMA_FROM_DEVICE); [by eapply emptied_config|]|].
  { unfold engines_live. rewrite Emax, Eoth. apply (Hl DMA_FROM_DEVICE). }
  intros _ v2 (Hs2 & He2 & Hl2 & Hm2). pose proof (emptied_other _ DMA_TO_DEVICE _ _ He2 ltac:(done)) as Eoth2.
  split; [by etrans|]. split.
  - destruct He1 as (l1 & n1 & g1 & ->), He2 as (l2 & n2 & g2 & ->). by eexists _, _, _, _.
  - rewrite <-Eoth2 in Hm1. cbn. cbn in Hm1, Hm2. lia.
Qed.
End remove.

(** ** The error labels of [xdma_device_open] *)

(** What a device holds besides its BARs and the memory of its engines: itself at
    [p], the enabled PCI device, its regions, its vectors, its lines. *)
Definition extra (p en rg ve ir : Z) (r : resource) : Z :=
  match r with
  | RDevice q => Z.b2z (q =? p)
  | REnable => en
  | RRegions => rg
  | RVectors => ve
  | RIrq => ir
  | _ => 0
  end.

(** What stays behind. *)
Definition leak (en ir : Z) (r : resource) : Z :=
  match r with REnable => en | RIrq => ir | _ => 0 end.

(** The list of devices, the handle and the PCI side of the device. *)
Definition same_pci (v v' : dst) : Prop :=
  v_hndl v' = v_hndl v /\ v_list v' = v_list v /\ d_pci (v_dev v') = d_pci (v_dev v).

#[export] Instance same_pci_preorder : PreOrder same_pci.
Proof. split; [by intros v|]. unfold same_pci. intros v1 v2 v3 H12 H23. intuition congruence. Qed.

Lemma stripped_pci v v' : stripped v v' -> same_pci v v'.
Proof. by intros (h & c & n & lg & ->). Qed.
Lemma barred_pci v v' : barred v v' -> same_pci v v'.
Proof. by intros (l & u & c & b & lg & ->). Qed.
Lemma logged_pci v v' : logged v v' -> same_pci v v'.
Proof. by intros [lg ->]. Qed.

Lemma same_pci_regions v v' :
  same_pci v v' -> d_got_regions (v_dev v') = d_got_regions (v_dev v) /\ d_regions_in_use (v_dev v') = d_regions_in_use (v_dev v).
Proof. intros (_ & _ & E). by injection E. Qed.

Lemma filter_fresh (p : Z) (l : list (Z * Z * Z)) :
  p ∉ map (fun x => fst (fst x)) l -> filter (fun x => negb (fst (fst x) =? p)) l = l.
Proof.
  intros Hp. induction l as [|x l IH]; [done|]. rewrite filter_cons. cbn in Hp.
  destruct (Z.eqb_spec (fst (fst x)) p) as [E|E]; [exfalso; set_solver|]. rewrite decide_True by done.
  f_equal. apply IH. set_solver.
Qed.

Section labels.
Context `{Env} `{Callback}.
Hypothesis Hpoll : poll_mode = false.
Variables (base : resource -> Z) (l0 : list (Z * Z * Z)) (p pdev : Z).
Hypothesis Hfresh : p ∉ map (fun x => fst (fst x)) l0.

(** What the list shows of a device. *)
Definition tag (d : xdma_dev) : Z * Z := (d_pdev d, d_idx d).

(** A listed device that holds [x] besides what its state says. *)
Record listed (x : resource -> Z) (v : dst) : Prop := {
  ls_pdev : d_pdev (v_dev v) = pdev;
  ls_hndl : v_hndl v = p;
  ls_list : v_list v = l0 ++ [(p, pdev, d_idx (v_dev v))];
  ls_balance : forall r, balance r v = base r + x r
}.

Lemma listed_frame x v v' :
  settled v v' -> v_hndl v' = v_hndl v -> v_list v' = v_list v -> tag (v_dev v') = tag (v_dev v) ->
  listed x v -> listed x v'.
Proof. intros Hs Eh El [= Ep Ei] [? ? Hl ?]. split; [congruence..|by rewrite El, Ei|intros r; by rewrite Hs]. Qed.

Lemma listed_step x v v' : settled v v' -> same_pci v v' -> listed x v -> listed x v'.
Proof. intros Hs (Eh & El & Ep). apply listed_frame; try done. injection Ep. unfold tag. congruence. Qed.

(** The device is gone: off the list, with all its resources but [leak]. *)
Definition gone (ir : Z) (v : dst) : Prop :=
  v_list v = l0 /\ exists en, (en = 0 \/ en = 1 /\ d_regions_in_use (v_dev v) = true) /\
  forall r, held r (v_log v) = base r + leak en ir r.

(** The last steps: off the list, and freed. *)
Lemma wp_unlist_free en ir v :
  listed (extra p en 0 0 ir) v -> owns RDma v = 0 -> d_bar (v_dev v) = replicate 6 0 ->
  wp (xdev_list_remove >>; let* v := get in kdo "kfree" [v_hndl v]) (fun _ v' =>
    v_list v' = l0 /\ d_regions_in_use (v_dev v') = d_regions_in_use (v_dev v) /\
    forall r, held r (v_log v') = base r + leak en ir r) v.
Proof.
  intros [_ Eh El Hb] Hm Hbar. unfold xdev_list_remove. rewrite Hpoll. cbn [andb when].
  apply wp_bind, wp_bind, wp_modify, wp_bind, wp_get, wp_bind, wp_ret, dwp_kdo, wp_bind, wp_get, dwp_kdo.
  split.
  - cbn. rewrite El, Eh, filter_app. cbn. rewrite Z.eqb_refl. cbn. rewrite app_nil_r.
    by apply filter_fresh.
  - split; [done|]. intros r. specialize (Hb r). unfold balance in Hb. cbn in *.
    rewrite !held_cons, (neutral_delta "synchronize_rcu") by done. destruct r as [q| | |a| | | |]; cbn in *; try lia.
    + rewrite Eh. revert Hb. destruct (Z.eqb_spec q p) as [E|E]; [rewrite bool_decide_true by congruence|rewrite bool_decide_false by congruence]; cbn; lia.
    + rewrite Hbar in Hb. assert (bars_at a [0; 0; 0; 0; 0; 0] = 0) as E0 by (by destruct a). lia.
Qed.

(** The state of the ladder, without BARs and memory of its own. *)
Definition bare (v : dst) : Prop := owns RDma v = 0 /\ d_bar (v_dev v) = replicate 6 0.

Lemma wp_err_enable en ir v :
  listed (extra p en 0 0 ir) v -> bare v -> en = 0 \/ en = 1 /\ d_regions_in_use (v_dev v) = true ->
  wp err_enable (fun r v' => r = None /\ gone ir v') v.
Proof.
  intros Hl [Hm Hb] Hen. pose proof (wp_unlist_free en ir v Hl Hm Hb) as Hw. unfold err_enable, free_xdev.
  apply wp_bind. apply wp_unbind in Hw. eapply wp_mono; [exact Hw|]. intros [] v1 Hv1.
  apply wp_bind, wp_get, wp_bind, dwp_kdo, wp_ret. split; [done|]. destruct Hv1 as (Hl1 & Eu & Hh).
  split; [exact Hl1|]. exists en. split; [|exact Hh].
  destruct Hen as [|[? Hu]]; [by left|right]. split; [done|]. by rewrite <-Hu.
Qed.

(** An event that only changes the balance. *)
Lemma listed_event x y ev v :
  listed x v -> (forall r, y r = x r + delta r ev) -> listed y (set_log (ev :: v_log v) v).
Proof.
  intros [? Hh Hl Hb] Hy. split; [done..|]. intros r. rewrite balance_log, Hb, Hy. lia.
Qed.

Lemma wp_err_regions ir v :
  listed (extra p 1 0 0 ir) v -> bare v -> wp (err_regions pdev) (fun r v' => r = None /\ gone ir v') v.
Proof.
  intros Hl Hb. unfold err_regions. apply wp_bind, dwp_get_dev, wp_bind, wp_when; intros Hu.
  - apply dwp_kdo. apply (wp_err_enable 0 ir); [|done|by left]. eapply listed_event; [exact Hl|]. intros []; cbn; lia.
  - rewrite negb_false_iff in Hu. apply (wp_err_enable 1 ir); [done|done|by right].
Qed.

Lemma wp_err_map ir v :
  listed (extra p 1 (Z.b2z (d_got_regions (v_dev v))) 0 ir) v -> bare v ->
  wp (err_map pdev) (fun r v' => r = None /\ gone ir v') v.
Proof.
  intros Hl Hb. unfold err_map. apply wp_bind, dwp_get_dev, wp_bind, wp_when; intros Hu; rewrite Hu in Hl.
  - apply dwp_kdo, wp_err_regions; [|done]. eapply listed_event; [exact Hl|]. intros []; cbn; lia.
  - by apply wp_err_regions.
Qed.

Lemma wp_err_mask ir v :
  listed (extra p 1 (Z.b2z (d_got_regions (v_dev v))) 0 ir) v -> owns RDma v = 0 -> length (d_bar (v_dev v)) = 6%nat ->
  wp (err_mask pdev) (fun r v' => r = None /\ gone ir v') v.
Proof.
  intros Hl Hm Hb. unfold err_mask. apply wp_bind. eapply wp_mono; [by apply wp_unmap_bars|].
  intros _ v1 (Hs & Hbar & Eb). pose proof (barred_pci _ _ Hbar) as Hp. apply wp_err_map.
  - destruct (same_pci_regions _ _ Hp) as [-> _]. by eapply listed_step.
  - split; [|done]. by destruct Hbar as (l & u & c & b & lg & ->).
Qed.

(** What the ladder needs once the engines are there. *)
Definition equipped (v : dst) : Prop :=
  has_config (v_dev v) /\ length (d_bar (v_dev v)) = 6%nat /\ forall dir, engines_live dir v.

Lemma wp_err_engines ir v :
  listed (extra p 1 (Z.b2z (d_got_regions (v_dev v))) 0 ir) v -> equipped v ->
  wp (err_engines pdev) (fun r v' => r = None /\ gone ir v') v.
Proof.
  intros Hl (Hc & Hb & He). unfold err_engines. apply wp_bind. eapply wp_mono; [by apply wp_remove_engines|].
  intros _ v1 (Hs & Hst & Hm). pose proof (stripped_pci _ _ Hst) as Hp. apply wp_err_mask; [|done|].
  - destruct (same_pci_regions _ _ Hp) as [-> _]. by eapply listed_step.
  - by destruct Hst as (h & c & n & lg & ->).
Qed.

Lemma reflagged_equipped v v' : reflagged v v' -> equipped v -> equipped v'.
Proof. by intros (i & x & lg & ->). Qed.

Lemma wp_disable_vectors en rg ir v :
  listed (extra p en rg (vectors (v_dev v)) ir) v ->
  d_msix_enabled (v_dev v) && d_msi_enabled (v_dev v) = false ->
  wp (disable_msi_msix pdev) (fun _ v' => listed (extra p en rg 0 ir) v' /\ reflagged v v') v.
Proof.
  intros Hl Hx. unfold disable_msi_msix. apply wp_bind, dwp_get_dev. unfold vectors in Hl.
  destruct (d_msix_enabled (v_dev v)) eqn:E1, (d_msi_enabled (v_dev v)) eqn:E2; try done; cbn [orb Z.b2z] in Hl.
  - apply wp_bind, dwp_kdo, dwp_upd_dev. split.
    + apply (listed_frame _ (set_log (EvCall "pci_disable_msix" [pdev] 0 :: v_log v) v));
        [by apply settled_set_dev|done..|]. eapply listed_event; [exact Hl|]. intros []; cbn; lia.
    + destruct v as [? []]; cbn in *; subst. by eexists false, false, _.
  - apply wp_bind, dwp_kdo, dwp_upd_dev. split.
    + apply (listed_frame _ (set_log (EvCall "pci_disable_msi" [pdev] 0 :: v_log v) v));
        [by apply settled_set_dev|done..|]. eapply listed_event; [exact Hl|]. intros []; cbn; lia.
    + destruct v as [? []]; cbn in *; subst. by eexists false, false, _.
  - apply wp_ret. split; [done|]. destruct v as [? []]; cbn in *; subst. by eexists false, false, _.
Qed.

Lemma wp_err_msix ir v :
  listed (extra p 1 (Z.b2z (d_got_regions (v_dev v))) (vectors (v_dev v)) ir) v -> equipped v ->
  d_msix_enabled (v_dev v) && d_msi_enabled (v_dev v) = false ->
  wp (err_msix pdev) (fun r v' => r = None /\ gone ir v') v.
Proof.
  intros Hl He Hx. unfold err_msix. apply wp_bind. eapply wp_mono; [by apply wp_disable_vectors|].
  intros _ v1 [Hl1 Hr]. apply wp_err_engines; [|by eapply reflagged_equipped].
  by destruct Hr as (i & x & lg & ->).
Qed.

(** ** Closing *)

Lemma listed_moved x y z v v' :
  moved y v v' -> same_pci v v' -> (forall r, z r = x r + y r) -> listed x v -> listed z v'.
Proof.
  intros Hm (Eh & El & Ep) Hz [? ? Hl Hb]. injection Ep as Ed Ei _. split; [congruence..|by rewrite El, Ei|]. intros r. rewrite Hm, Hb, Hz. lia.
Qed.

(** A device that [xdma_device_open] returned: it is listed and equipped, and its
    regions, vectors and lines are what its state says. *)
Record opened (v : dst) : Prop := {
  od_listed : listed (extra p 1 1 (vectors (v_dev v)) (lines (v_dev v))) v;
  od_equipped : equipped v;
  od_wf : dev_wf v;
  od_isr : isr_ok v;
  od_regions : d_got_regions (v_dev v) = true /\ d_regions_in_use (v_dev v) = false;
  od_vectors : d_msix_enabled (v_dev v) && d_msi_enabled (v_dev v) = false;
  od_lines : lines_known v
}.

Lemma find_last (l : list (Z * Z * Z)) i : find_pdev l pdev = None -> find_pdev (l ++ [(p, pdev, i)]) pdev = Some p.
Proof.
  induction l as [|[[q pd] j] l IH]; cbn; [by rewrite Z.eqb_refl|]. by destruct (pd =? pdev).
Qed.

Lemma opened_registered v : pdev <> 0 -> p <> 0 -> find_pdev l0 pdev = None -> opened v -> registered pdev v.
Proof.
  intros Hpd Hp Hf [[_ Eh El _] _ _ _ _ _ _]. split; [done|]. rewrite Eh, El. split; [done|]. by apply find_last.
Qed.

(** Closing gives back everything that the device holds. *)
Lemma wp_device_close v :
  pdev <> 0 -> p <> 0 -> find_pdev l0 pdev = None -> opened v ->
  wp (xdma_device_close pdev) (fun _ v' => v_list v' = l0 /\ forall r, held r (v_log v') = base r) v.
Proof.
  intros Hpd Hp Hf Ho. pose proof (check_hndl_ok pdev v (opened_registered v Hpd Hp Hf Ho)) as Hck.
  destruct Ho as [Hl He Hwf _ [Hg Hu] Hv Hk]. unfold xdma_device_close. apply wp_bind. unfold wp at 1. rewrite Hck.
  cbn [Z.ltb Z.compare]. apply wp_bind. settling dst.
  eapply wp_mono; [apply wp_interrupts_logged, Hwf|]. intros ? ? [lg1 ->] Hs1. set (v1 := set_log lg1 v) in *.
  assert (listed (extra p 1 1 (vectors (v_dev v1)) (lines (v_dev v1))) v1) as Hl1 by (by eapply listed_step; [exact Hs1|apply logged_pci; by exists lg1|]).
  apply wp_bind. eapply wp_mono; [apply wp_release_lines; [by apply dev_wf_log|exact Hk]|]. intros _ v2 [[lg2 ->] Hm2].
  set (v2 := set_log lg2 v1) in *.
  assert (listed (extra p 1 1 (vectors (v_dev v2)) 0) v2) as Hl2.
  { eapply listed_moved; [exact Hm2|apply logged_pci; by exists lg2| |exact Hl1]. intros []; cbn; lia. }
  apply wp_bind. eapply wp_mono; [by apply (wp_disable_vectors 1 1 0 v2)|]. intros _ v3 [Hl3 Hr3].
  assert (equipped v3) as He3 by (by eapply reflagged_equipped).
  assert (d_got_regions (v_dev v3) = true /\ d_regions_in_use (v_dev v3) = false) as Hgu3
    by (by destruct Hr3 as (i & x & lg & ->)).
  apply wp_bind. eapply wp_mono; [apply wp_remove_engines; [done|apply He3|apply He3]|]. intros _ v4 (Hs4 & Hst4 & Hm4).
  pose proof (stripped_pci _ _ Hst4) as Hp4. apply (listed_step _ _ _ Hs4 Hp4) in Hl3.
  assert (length (d_bar (v_dev v4)) = 6%nat) as Hb4 by (destruct Hst4 as (h & c & n & lg & ->); apply He3).
  apply wp_bind. eapply wp_mono; [by apply wp_unmap_bars|]. intros _ v5 (Hs5 & Hb5 & Eb5).
  pose proof (barred_pci _ _ Hb5) as Hp5. apply (listed_step _ _ _ Hs5 Hp5) in Hl3.
  assert (owns RDma v5 = 0) as Hm5 by (by destruct Hb5 as (l & u & c & b & lg & ->)).
  destruct (same_pci_regions v3 v5) as [Eg Eu]; [by etrans|]. rewrite (proj1 Hgu3) in Eg. rewrite (proj2 Hgu3) in Eu.
  apply wp_bind, dwp_get_dev, wp_bind. rewrite Eg, Eu. cbn [when negb]. apply dwp_kdo, wp_bind, dwp_kdo.
  eapply wp_mono; [apply (wp_unlist_free 0 0); [|done|done]|].
  - eapply listed_event; [eapply listed_event; [exact Hl3|intros r; reflexivity]|]. intros []; cbn; lia.
  - intros ? v' (El & _ & Hh). split; [done|]. intros r. rewrite Hh. destruct r; cbn; lia.
Qed.

(** ** Opening *)

(** A new device with its limits set. *)
Record blank (v : dst) : Prop := {
  bl_bars : d_bar (v_dev v) = replicate 6 0 /\ d_config_bar_idx (v_dev v) = -1;
  bl_engines : (forall dir, engines dir v = replicate 4 zero_engine) /\ d_engines_num (v_dev v) = 0;
  bl_max : forall dir, 0 <= channel_max dir (v_dev v) <= 4;
  bl_users : 0 <= d_user_max (v_dev v) <= 16 /\ d_user_irq (v_dev v) = map zero_user_irq (zrange 16);
  bl_vectors : d_msix_enabled (v_dev v) = false /\ d_msi_enabled (v_dev v) = false;
  bl_regions : d_got_regions (v_dev v) = false /\ d_regions_in_use (v_dev v) = false
}.

Lemma blank_log lg v : blank v -> blank (set_log lg v).
Proof. by intros []. Qed.

Lemma blank_bare v : blank v -> bare v.
Proof.
  intros [[Hb _] [He _] _ _ _ _]. split; [|done]. pose proof (He DMA_TO_DEVICE) as E1. pose proof (He DMA_FROM_DEVICE) as E2.
  cbn in E1, E2. cbn. by rewrite E1, E2.
Qed.

(** Every engine is as the probe left it, but for its line. *)
Definition all_probed (v : dst) : Prop := forall dir j e,
  0 <= j < channel_max dir (v_dev v) -> zlookup (engines dir v) j = Some e -> exists bit regs, probed bit regs dir j e.

(** The result of [xdma_device_open]. *)
Definition open_result (r : option (Z * Z * Z)) (v' : dst) : Prop :=
  match r with
  | None => exists ir, gone ir v' /\ 0 <= ir /\ (wants_msix = false -> ir = 0)
  | Some (u, h, c) => opened v' /\ all_probed v' /\ xdma_device_flag_check (v_dev v') XDEV_FLAG_OFFLINE = false /\
      u = d_user_max (v_dev v') /\ h = d_h2c_channel_max (v_dev v') /\ c = d_c2h_channel_max (v_dev v')
  end.

Lemma failed_result (m : M dst (option (Z * Z * Z))) ir v :
  0 <= ir -> (wants_msix = false -> ir = 0) ->
  wp m (fun r v' => r = None /\ gone ir v') v -> wp m open_result v.
Proof. intros H0i Hir Hm. eapply wp_mono; [exact Hm|]. intros r v' [-> Hg]. by exists ir. Qed.

(** What probing leaves satisfies the ladder and the interrupt handler. *)
Lemma probed_live b v v' : unprobed b v -> probed_device b v v' -> forall dir, engines_live dir v'.
Proof.
  intros Hup Hpd dir. split; [apply Hpd|]. pose proof (pd_max _ _ _ Hpd dir). pose proof (up_max _ _ Hup dir).
  split; [lia|]. intros j e He. split.
  - intros Hj. assert (0 <= j) by (by apply zlookup_nat in He as [? _]).
    destruct (pd_found _ _ _ Hpd dir j) as (e' & bit & He' & [Hid _]); [lia|].
    rewrite He in He'. injection He' as <-. apply Hid.
  - intros Hj. by eapply (pd_bare _ _ _ Hpd).
Qed.

Lemma probed_wf b v v' : unprobed b v -> probed_device b v v' -> dev_wf v'.
Proof.
  intros Hup Hpd. pose proof (pd_max _ _ _ Hpd) as Hm. pose proof (up_max _ _ Hup) as Hm0.
  destruct (pd_bars _ _ _ Hpd) as [B I], (pd_users _ _ _ Hpd) as [U _], (up_users _ _ Hup) as [Hu _].
  pose proof (Hm DMA_TO_DEVICE) as Hh. pose proof (Hm DMA_FROM_DEVICE) as Hc.
  pose proof (Hm0 DMA_TO_DEVICE) as Hh0. pose proof (Hm0 DMA_FROM_DEVICE) as Hc0. cbn [channel_max is_h2c] in *.
  split; [exists b; rewrite B, I; apply Hup|lia|lia|lia|]. intros dir. rewrite (pd_length _ _ _ Hpd).
  pose proof (Hm dir). pose proof (Hm0 dir). lia.
Qed.

Lemma probed_isr b v v' : unprobed b v -> probed_device b v v' -> isr_ok v'.
Proof.
  intros Hup Hpd. destruct (probed_wf _ _ _ Hup Hpd) as [Hc _ _ Hu He].
  destruct (pd_users _ _ _ Hpd) as [U Q], (up_users _ _ Hup) as [_ Hus]. split; [done| | |apply Hpd].
  - split; [lia|]. by rewrite U, Q.
  - intros dir i Hi. apply zlookup_is_Some. specialize (He dir). lia.
Qed.

Lemma probed_all b v v' : probed_device b v v' -> all_probed v'.
Proof.
  intros Hpd dir j e Hj He. destruct (pd_found _ _ _ Hpd dir j Hj) as (e' & bit & He' & Hp). rewrite He in He'.
  injection He' as <-. eauto.
Qed.

Lemma lined_all_probed v v' : lined v v' -> all_probed v -> all_probed v'.
Proof.
  intros Hl Hp dir j e'. rewrite (lined_max dir v v') by done. intros Hj (e & He & [n ->])%(lined_lookup dir v v' j e' Hl).
  destruct (Hp dir j e Hj He) as (bit & regs & [[] Hr]). by exists bit, regs.
Qed.

Lemma lined_equipped v v' : lined v v' -> equipped v -> equipped v'.
Proof.
  intros Hl (Hc & Hb & He). split_and!.
  - by destruct Hl as (h & c & i & lg & -> & _).
  - by destruct Hl as (h & c & i & lg & -> & _).
  - intros dir. destruct (He dir) as (H4 & Hm & Hj). unfold engines_live.
    rewrite (lined_length dir v v'), (lined_max dir v v') by done. split_and!; try done; try lia.
    intros j e' (e & Hje & [n ->])%(lined_lookup dir v v' j e' Hl). exact (Hj j e Hje).
Qed.

Lemma lined_isr v v' : lined v v' -> isr_ok v -> isr_ok v'.
Proof.
  intros Hl [Hc Hu He Hb]. split.
  - by destruct Hl as (h & c & i & lg & -> & _).
  - by destruct Hl as (h & c & i & lg & -> & _).
  - intros dir i Hi. rewrite (lined_max dir v v') in Hi by done. apply He, zlookup_is_Some in Hi.
    apply zlookup_is_Some. by rewrite (lined_length dir v v').
  - intros dir i j ei ej Hij (fi & Hi & [ni ->])%(lined_lookup dir v v' i ei Hl) (fj & Hj & [nj ->])%(lined_lookup dir v v' j ej Hl).
    exact (Hb dir i j fi fj Hij Hi Hj).
Qed.

Lemma lined_pci v v' : lined v v' ->
  v_hndl v' = v_hndl v /\ v_list v' = v_list v /\ tag (v_dev v') = tag (v_dev v) /\
  d_got_regions (v_dev v') = d_got_regions (v_dev v) /\ d_regions_in_use (v_dev v') = d_regions_in_use (v_dev v) /\
  vectors (v_dev v') = vectors (v_dev v) /\
  d_msix_enabled (v_dev v') && d_msi_enabled (v_dev v') = d_msix_enabled (v_dev v) && d_msi_enabled (v_dev v).
Proof. by intros (h & c & i & lg & -> & _). Qed.

Lemma listed_moved_frame x y z v v' :
  moved y v v' -> v_hndl v' = v_hndl v -> v_list v' = v_list v -> tag (v_dev v') = tag (v_dev v) ->
  (forall r, z r = x r + y r) -> listed x v -> listed z v'.
Proof. intros Hm Eh El [= Ed Ei] Hz [? ? Hl Hb]. split; [congruence..|by rewrite El, Ei|]. intros r. rewrite Hm, Hb, Hz. lia. Qed.

Lemma flag_clear_check d f : xdma_device_flag_check (xdma_device_flag_clear d f) f = false.
Proof.
  unfold xdma_device_flag_check, xdma_device_flag_clear, has_bits. cbn.
  rewrite <-Z.land_assoc, (Z.land_comm (Z.lnot f)), Z.land_lnot_diag, Z.land_0_r. done.
Qed.

(** The device is ready: interrupts on, and the flag cleared. *)
Lemma wp_finish v :
  opened v -> all_probed v ->
  wp (let* d := get_dev in
      when (negb poll_mode) (channel_interrupts_enable d UINT_MAX) >>;
      read_interrupts d >>;
      upd_dev (fun d => xdma_device_flag_clear d XDEV_FLAG_OFFLINE) >>;
      ret (Some (d_user_max d, d_h2c_channel_max d, d_c2h_channel_max d))) open_result v.
Proof.
  intros Ho Hpr. apply wp_bind, dwp_get_dev. pose proof (wf_config _ (od_wf _ Ho)) as Hc. rewrite Hpoll. cbn [negb when].
  apply wp_bind. settling dst.
  apply (wp_mono _ (fun _ v' => logged v v')).
  { unfold channel_interrupts_enable. apply wp_bind, dwp_int_reg; [done|]. intros a. apply dwp_write. by eexists. }
  intros _ v1 Hg1 Hs1. apply wp_bind. settling dst. apply (wp_mono _ (fun _ v' => logged v v')).
  { unfold read_interrupts. apply wp_bind, dwp_int_reg; [done|]. intros a. apply wp_bind, dwp_read.
    apply wp_bind, dwp_int_reg; [done|]. intros a2. apply wp_bind, dwp_read, wp_ret. etrans; [exact Hg1|by eexists]. }
  intros _ v2 [lg ->] Hs2. apply wp_bind, dwp_upd_dev, wp_ret.
  set (v2 := set_log lg v) in *. set (v3 := set_v_dev _ v2).
  assert (settled v2 v3) as Hs3 by (by apply settled_set_dev). split; [|split; [done|split; [apply flag_clear_check|done]]].
  destruct Ho as [Hl He [? ? ? ? ?] [? ? ? ?] Hr Hv Hk]. split; try done.
  apply (listed_frame _ v); try done. etrans; [exact Hs1|]. etrans; [exact Hs2|exact Hs3].
Qed.

(** From the interrupts on. *)
Lemma wp_open_irq `{!IrqLaws} v :
  pdev <> 0 -> listed (extra p 1 1 0 0) v -> equipped v -> dev_wf v -> isr_ok v -> all_probed v ->
  d_got_regions (v_dev v) = true /\ d_regions_in_use (v_dev v) = false ->
  d_msix_enabled (v_dev v) = false /\ d_msi_enabled (v_dev v) = false ->
  wp (let* rv := enable_msi_msix pdev in
      if rv <? 0 then err_engines pdev
      else
        let* rv := irq_setup pdev in
        if rv <? 0 then err_msix pdev
        else
          let* d := get_dev in
          when (negb poll_mode) (channel_interrupts_enable d UINT_MAX) >>;
          read_interrupts d >>;
          upd_dev (fun d => xdma_device_flag_clear d XDEV_FLAG_OFFLINE) >>;
          ret (Some (d_user_max d, d_h2c_channel_max d, d_c2h_channel_max d))) open_result v.
Proof.
  intros Hpd Hl He Hwf Hisr Hpr [Hg Hu] [Ex Ei]. apply wp_bind.
  eapply wp_mono; [by apply wp_enable_vectors|]. intros rv v1 (Hr1 & Hx1 & Hw1 & Hm1).
  assert (equipped v1) as He1 by (by eapply reflagged_equipped).
  assert (dev_wf v1 /\ isr_ok v1 /\ d_got_regions (v_dev v1) = true /\ d_regions_in_use (v_dev v1) = false)
    as (Hwf1 & Hisr1 & Hg1 & Hu1) by (by destruct Hr1 as (i & x & lg & ->), Hwf, Hisr).
  assert (all_probed v1) as Hpr1 by (by destruct Hr1 as (i & x & lg & ->)).
  assert (v_hndl v1 = v_hndl v /\ v_list v1 = v_list v /\ tag (v_dev v1) = tag (v_dev v)) as (E1 & E2 & E3)
    by (by destruct Hr1 as (i & x & lg & ->)).
  assert (listed (extra p 1 1 (if 0 <=? rv then vectors (v_dev v1) else 0) 0) v1) as Hl1.
  { eapply listed_moved_frame; [exact Hm1|done..| |exact Hl]. intros []; cbn; lia. }
  destruct (Z.ltb_spec rv 0), (Z.leb_spec 0 rv); try lia.
  { apply (failed_result _ 0); [done|done|]. apply wp_err_engines; [|done]. by rewrite Hg1. }
  apply wp_bind. eapply wp_mono; [by apply wp_irq_setup|]. intros rv2 v2 (Hl2 & Hrv2 & k & Hk & Hm2 & Hok & Hbad).
  pose proof (lined_equipped _ _ Hl2 He1) as He2. pose proof (lined_wf _ _ Hl2 Hwf1) as Hwf2.
  pose proof (lined_isr _ _ Hl2 Hisr1) as Hisr2. destruct (lined_pci _ _ Hl2) as (F1 & F2 & F3 & Fg & Fu & Fv & Ff).
  assert (listed (extra p 1 1 (vectors (v_dev v2)) k) v2) as Hlist2.
  { rewrite Fv. eapply listed_moved_frame; [exact Hm2|done..| |exact Hl1]. intros []; cbn; lia. }
  rewrite Hx1 in Ff. rewrite Hg1 in Fg. rewrite Hu1 in Fu. destruct (Z.ltb_spec rv2 0).
  - apply (failed_result _ k); [done|intros Hw; apply Hbad; [lia|by apply Hw1]|]. apply wp_err_msix; try done. by rewrite Fg.
  - apply wp_finish; [|by eapply lined_all_probed]. destruct (Hok ltac:(lia)) as [-> Hk2]. by split.
Qed.

(** From the engines on. *)
Lemma wp_open_engines `{!IrqLaws} b v :
  pdev <> 0 -> listed (extra p 1 1 0 0) v -> unprobed b v -> length (d_bar (v_dev v)) = 6%nat ->
  d_got_regions (v_dev v) = true /\ d_regions_in_use (v_dev v) = false ->
  d_msix_enabled (v_dev v) = false /\ d_msi_enabled (v_dev v) = false ->
  wp (open_engines pdev) open_result v.
Proof.
  intros Hpd Hl Hup Hb [Hg Hu] [Ex Ei]. unfold open_engines. apply wp_bind.
  eapply wp_mono; [by apply (wp_probe_engines b)|]. intros rv v1 [-> Hp]. cbn [negb Z.eqb].
  pose proof (pd_pci _ _ _ Hp) as Ep. destruct (pd_list _ _ _ Hp) as [El Eh].
  assert (same_pci v v1) as Hpci by done. injection Ep as _ _ Eu Eg Emsi Emsix _.
  pose proof (probed_wf _ _ _ Hup Hp) as Hwf. pose proof (probed_isr _ _ _ Hup Hp) as Hisr.
  apply wp_open_irq; try done.
  - eapply listed_step; [apply Hp|exact Hpci|exact Hl].
  - split_and!; [apply Hwf| |by eapply probed_live]. destruct (pd_bars _ _ _ Hp) as [-> _]. done.
  - by eapply probed_all.
  - by rewrite Eg, Eu.
  - by rewrite Emsi, Emsix.
Qed.

Lemma wp_dma_mask v : wp (set_dma_mask pdev) (fun _ v' => logged v v' /\ settled v v') v.
Proof.
  unfold set_dma_mask. settling dst. destruct (pdev =? 0); [by apply wp_ret|].
  apply wp_bind, dwp_kcall. destruct (_ =? 0); [apply wp_bind, dwp_kdo, wp_ret; intros; by split; [eexists|]|].
  apply wp_bind, dwp_kcall. destruct (_ =? 0); [apply wp_bind, dwp_kdo, wp_ret|apply wp_ret]; intros; by split; [eexists|].
Qed.

(** All interrupts are looked at and masked. *)
Lemma wp_mask_all {A} d (m : M dst A) (Q : A -> dst -> Prop) v :
  has_config d -> (forall v', logged v v' -> settled v v' -> wp m Q v') ->
  wp (check_nonzero_interrupt_status d >>; channel_interrupts_disable d UINT_MAX >>;
      user_interrupts_disable d UINT_MAX >>; read_interrupts d >>; m) Q v.
Proof.
  intros Hc Hm. apply wp_bind. settling dst. unfold check_nonzero_interrupt_status. eapply wp_mono; [apply wp_forM_logged|].
  { intros f v' _ _. apply wp_bind, dwp_int_reg; [done|]. intros a. apply wp_bind, dwp_read, wp_ret. by eexists. }
  intros ? v1 Hg1 Hs1. apply wp_bind. settling dst. unfold channel_interrupts_disable.
  apply wp_bind, dwp_int_reg; [done|]. intros a2. apply dwp_write. intros Hs2.
  apply wp_bind. settling dst. unfold user_interrupts_disable.
  apply wp_bind, dwp_int_reg; [done|]. intros a3. apply dwp_write. intros Hs3.
  apply wp_bind. settling dst. unfold read_interrupts. apply wp_bind, dwp_int_reg; [done|]. intros a4.
  apply wp_bind, dwp_read, wp_bind, dwp_int_reg; [done|]. intros a5. apply wp_bind, dwp_read, wp_ret. intros Hs4.
  apply Hm; [etrans; [exact Hg1|by eexists]|by repeat (etrans; [eassumption|])].
Qed.

(** From the DMA mask on. *)
Lemma wp_open_mask `{!IrqLaws} b v :
  pdev <> 0 -> listed (extra p 1 1 0 0) v -> unprobed b v -> length (d_bar (v_dev v)) = 6%nat ->
  d_got_regions (v_dev v) = true /\ d_regions_in_use (v_dev v) = false ->
  d_msix_enabled (v_dev v) = false /\ d_msi_enabled (v_dev v) = false -> owns RDma v = 0 ->
  wp (let* rv := set_dma_mask pdev in
      if negb (rv =? 0) then err_mask pdev
      else
        let* d := get_dev in
        check_nonzero_interrupt_status d >>;
        channel_interrupts_disable d UINT_MAX >>;
        user_interrupts_disable d UINT_MAX >>;
        read_interrupts d >>;
        open_engines pdev) open_result v.
Proof.
  intros Hpd Hl Hup Hb Hg Hv Hm. apply wp_bind. eapply wp_mono; [apply wp_dma_mask|].
  intros rv ? [[lg ->] Hs1]. assert (listed (extra p 1 1 0 0) (set_log lg v)) as Hl1
    by (eapply listed_step; [exact Hs1|apply logged_pci; by exists lg|exact Hl]).
  destruct (negb (rv =? 0)).
  { apply (failed_result _ 0); [done|done|]. apply wp_err_mask; [|done|done]. cbn. by rewrite (proj1 Hg). }
  apply wp_bind, dwp_get_dev, wp_mask_all; [exists b; apply Hup|]. intros ? [lg2 ->] Hs2.
  apply (wp_open_engines b); try done; [|by destruct Hup].
  eapply listed_step; [exact Hs2|apply logged_pci; by exists lg2|exact Hl1].
Qed.

(** From the regions on. *)
Lemma wp_open_bars `{!IrqLaws} v :
  pdev <> 0 -> listed (extra p 1 0 0 0) v -> blank v -> wp (open_bars pdev) open_result v.
Proof.
  intros Hpd Hl Hbl. pose proof (blank_bare _ Hbl) as Hbare. unfold open_bars, request_regions.
  destruct (Z.eqb_spec pdev 0); [done|]. apply wp_bind, wp_bind, dwp_kcall. set (rv := kernel _ _ _).
  set (v1 := set_log _ v). apply wp_bind. destruct (Z.eqb_spec rv 0) as [Hz|Hz]; cbn [negb].
  2: { apply dwp_upd_dev, wp_ret. apply (failed_result _ 0); [done|done|].
    destruct (Z.eqb_spec rv 0); [done|]. cbn [negb]. apply wp_err_regions; [|done].
    apply (listed_frame _ v1); [by apply settled_set_dev|done..|]. eapply listed_event; [exact Hl|].
    intros []; cbn; destruct (Z.eqb_spec rv 0); try lia; done. }
  apply dwp_upd_dev, wp_ret. rewrite Hz. cbn [negb Z.eqb]. set (v2 := set_v_dev _ v1).
  assert (listed (extra p 1 1 0 0) v2) as Hl2.
  { apply (listed_frame _ v1); [by apply settled_set_dev|done..|]. eapply listed_event; [exact Hl|].
    intros []; cbn; rewrite ?Hz; cbn; lia. }
  destruct Hbl as [[Hb Hc] [He Hn] Hm Hus Hv [Hg Hu]].
  apply wp_bind. eapply wp_mono; [by apply wp_map_bars|]. intros rv3 v3 (Hs3 & Hb3 & Hl3 & Hok & Hbad).
  pose proof (listed_step _ _ _ Hs3 (barred_pci _ _ Hb3) Hl2) as Hlist3.
  assert (d_got_regions (v_dev v3) = true /\ d_regions_in_use (v_dev v3) = false /\ owns RDma v3 = 0)
    as (Hg3 & Hu3 & Hm3) by (destruct Hb3 as (l & u & c & b & lg & ->); split_and!; [done|done|apply Hbare]).
  destruct (Z.eqb_spec rv3 0) as [Hz3|Hz3]; cbn [negb].
  2: { apply (failed_result _ 0); [done|done|]. apply wp_err_map; [by rewrite Hg3|by split; [|apply Hbad]]. }
  destruct (Hok Hz3) as [b Hb']. apply (wp_open_mask b); try done.
  - destruct Hb3 as (l & u & c & b2 & lg & ->). split; try done. split; [apply Hus|]. intros k Hk.
    change (is_Some (zlookup (d_user_irq (v_dev v)) k)). rewrite (proj2 Hus), zlookup_map.
    change (0 <= k < d_user_max (v_dev v)) in Hk. rewrite zlookup_zrange by lia. done.
  - by destruct Hb3 as (l & u & c & b2 & lg & ->).
Qed.
End labels.

(** ** The whole call *)

Lemma clamp_range limit x : 0 <= x -> 0 <= limit -> 0 <= clamp limit x <= limit.
Proof. intros Hx Hl. unfold clamp. destruct (Z.eqb_spec x 0), (Z.ltb_spec limit x); cbn; lia. Qed.

Section life.
Context `{Env} `{Callback} `{!IrqLaws}.
Hypothesis Hpoll : poll_mode = false.

(** The address of the next device. *)
Definition next_dev (v : dst) : Z := kernel (v_log v) "kzalloc xdma_dev" [].

Lemma wp_list_add pdev v :
  d_pdev (v_dev v) = pdev -> blank v ->
  wp xdev_list_add (fun rv v' => rv = 0 /\ settled v v' /\ blank v' /\ v_hndl v' = v_hndl v /\ d_pdev (v_dev v') = pdev /\
    v_list v' = v_list v ++ [(v_hndl v, pdev, d_idx (v_dev v'))]) v.
Proof.
  intros Hp [Hb He Hm Hu Hv Hg]. unfold xdev_list_add. rewrite Hpoll. apply wp_bind, wp_get.
  assert (forall i, settled v (set_v_list (v_list v ++ [(v_hndl v, d_pdev (v_dev v), i)]) (set_v_dev (set_d_idx i (v_dev v)) v))) as Hs.
  { intros i r. by destruct r. }
  destruct (last (v_list v)) as [[[q qd] idx]|].
  - apply wp_bind, dwp_upd_dev, wp_bind, wp_modify, wp_ret. split; [done|]. split; [apply Hs|]. by rewrite <-Hp.
  - apply wp_bind, dwp_upd_dev, wp_bind, wp_ret. cbn [Z.ltb Z.compare]. apply wp_bind, wp_modify, wp_ret.
    split; [done|]. split; [apply Hs|]. by rewrite <-Hp.
Qed.

Lemma wp_device_open pdev um hm cm v :
  pdev <> 0 -> 0 <= um -> 0 <= hm -> 0 <= cm -> next_dev v ∉ map (fun x => fst (fst x)) (v_list v) ->
  wp (xdma_device_open pdev um hm cm) (fun r v' =>
    open_result (fun r => held r (v_log v)) (v_list v) (next_dev v) pdev r v' /\ (is_Some r -> next_dev v <> 0)) v.
Proof.
  intros Hpd Hum Hhm Hcm Hfresh. set (p := next_dev v) in *. set (base := fun r => held r (v_log v)). set (l0 := v_list v) in *.
  unfold xdma_device_open, alloc_dev_instance. destruct (Z.eqb_spec pdev 0); [done|].
  apply wp_bind, wp_bind, dwp_kcall. change (kernel (v_log v) "kzalloc xdma_dev" []) with p. set (v1 := set_log _ v).
  destruct (Z.eqb_spec p 0) as [Hp|Hp].
  { apply wp_ret. rewrite Hp. cbn [Z.eqb]. apply wp_ret. split; [|by intros [? ?]]. exists 0. split; [|done]. split; [done|].
    exists 0. split; [by left|]. intros r. cbn. rewrite held_cons, Hp. destruct r; cbn; unfold base; lia. }
  apply wp_bind, wp_modify, wp_ret. destruct (Z.eqb_spec p 0); [done|]. apply wp_bind, dwp_upd_dev.
  match goal with |- wp _ _ ?st => set (v2 := st) end.
  assert (blank v2) as Hbl.
  { pose proof (clamp_range XDMA_CHANNEL_NUM_MAX hm Hhm ltac:(done)) as Eh.
    pose proof (clamp_range XDMA_CHANNEL_NUM_MAX cm Hcm ltac:(done)) as Ec.
    pose proof (clamp_range MAX_USER_IRQ um Hum ltac:(done)) as Eu. split; [done|by split; [intros []|]|intros []; [exact Eh|exact Ec]|by split; [exact Eu|]|done|done]. }
  assert (forall r, balance r v2 = base r + extra p 0 0 0 0 r) as Hb2.
  { intros r. unfold balance. cbn. rewrite held_cons. fold p. destruct r as [q| | |a| | | |]; cbn; unfold base; try lia.
    - apply Z.eqb_neq in Hp. rewrite Hp. cbn. rewrite Z.eqb_sym. lia.
    - assert (bars_at a [0; 0; 0; 0; 0; 0] = 0) as -> by (by destruct a). lia.
    - match goal with |- context [mems ?l] => change (mems l) with 0 end. lia. }
  apply wp_bind. eapply wp_mono; [by apply (wp_list_add pdev)|]. intros rv v3 (-> & Hs3 & Hbl3 & Eh & Epd & El).
  cbn [Z.ltb Z.compare]. assert (listed base l0 p pdev (extra p 0 0 0 0) v3) as Hl3.
  { split; [exact Epd|exact Eh|exact El|]. intros r. by rewrite (Hs3 r). }
  apply (wp_mono _ (open_result base l0 p pdev)); [|by split]. clear Hb2 Hs3 Hbl.
  apply wp_bind, dwp_kcall. set (rv := kernel _ _ _). set (v4 := set_log _ v3). destruct (Z.eqb_spec rv 0) as [Hz|Hz]; cbn [negb].
  2: { apply (failed_result base l0 p pdev) with (ir := 0); [done|done|].
    apply (wp_err_enable Hpoll base l0 p pdev Hfresh 0 0); [|by apply blank_bare, blank_log|by left].
    eapply listed_event; [exact Hl3|]. intros []; cbn; destruct (Z.eqb_spec rv 0); try lia; done. }
  assert (listed base l0 p pdev (extra p 1 0 0 0) v4) as Hl4.
  { eapply listed_event; [exact Hl3|]. intros []; cbn; rewrite ?Hz; cbn; lia. }
  assert (forall v5, logged v4 v5 -> settled v4 v5 -> wp (open_bars pdev) (open_result base l0 p pdev) v5) as Hrest.
  { intros ? [lg ->] Hs5. apply wp_open_bars; try done; [|by apply blank_log, blank_log].
    eapply listed_step; [exact Hs5|apply logged_pci; by exists lg|exact Hl4]. }
  unfold pci_check_intr_pend, pci_enable_capability.
  apply wp_bind. settling dst. apply (wp_mono _ (fun _ v' => logged v4 v')).
  { apply wp_bind, dwp_kcall, wp_when; intros _; [apply dwp_kdo|]; by eexists. }
  intros ? v5 Hg5 Hs5.
  apply wp_bind. settling dst. apply dwp_kdo. intros Hs6. apply wp_bind. settling dst. apply dwp_kdo. intros Hs7.
  apply wp_bind. settling dst. apply dwp_kdo. intros Hs8. apply wp_bind. settling dst. apply dwp_kdo. intros Hs9.
  apply Hrest; [etrans; [exact Hg5|by eexists]|by repeat (etrans; [eassumption|])].
Qed.

(** C4: the life of a device in interrupt mode, for every device, every answer of
    the kernel and every failure on the way.  [xdma_device_open] returns.  When it
    gives NULL, the list of devices is as before and every resource that it took
    from the kernel was given back: the device structure, the mapped BARs, the
    regions, the DMA memory of the engines and the interrupt vectors; the PCI
    device stays enabled only if its regions are in use, and interrupt lines are
    left requested only if MSI-X may be chosen.  When it gives a device, the device
    is registered, online, with live engines and in the state that the interrupt
    handler relies on, and [xdma_device_close] takes it off the list and gives
    every resource back, the interrupt lines included. *)
Theorem xdma_device_open_close pdev um hm cm v :
  pdev <> 0 -> 0 <= um -> 0 <= hm -> 0 <= cm ->
  next_dev v ∉ map (fun x => fst (fst x)) (v_list v) -> find_pdev (v_list v) pdev = None ->
  exists r v', xdma_device_open pdev um hm cm v = Some (r, v') /\
    match r with
    | None =>
        v_list v' = v_list v /\ exists en ir,
          (forall x, held x (v_log v') = held x (v_log v) + leak en ir x) /\
          (en = 0 \/ en = 1 /\ d_regions_in_use (v_dev v') = true) /\
          0 <= ir /\ (wants_msix = false -> ir = 0)
    | Some (u, h, c) =>
        u = d_user_max (v_dev v') /\ h = d_h2c_channel_max (v_dev v') /\ c = d_c2h_channel_max (v_dev v') /\
        registered pdev v' /\ xdma_device_flag_check (v_dev v') XDEV_FLAG_OFFLINE = false /\
        isr_ok v' /\ dev_wf v' /\ (forall dir, engines_live dir v') /\
        exists v'', xdma_device_close pdev v' = Some (tt, v'') /\ v_list v'' = v_list v /\
          forall x, held x (v_log v'') = held x (v_log v)
    end.
Proof.
  intros Hpd Hum Hhm Hcm Hfresh Hfind. pose proof (wp_device_open pdev um hm cm v Hpd Hum Hhm Hcm Hfresh) as Hw.
  apply wp_iff in Hw as (r & v' & Hrun & Hres & Hp). exists r, v'. split; [done|]. destruct r as [[[u h] c]|].
  - destruct Hres as (Ho & _ & Hflag & -> & -> & ->). specialize (Hp ltac:(by eexists)).
    pose proof (opened_registered _ _ _ _ v' Hpd Hp Hfind Ho) as Hreg.
    pose proof (wp_device_close Hpoll _ _ _ pdev Hfresh v' Hpd Hp Hfind Ho) as Hc.
    apply wp_iff in Hc as ([] & v'' & Hclose & El & Hh). destruct Ho as [_ (_ & _ & Hlive) Hwf Hisr _ _ _].
    do 8 (split; [done|]). by exists v''.
  - destruct Hres as (ir & (El & en & Hen & Hh) & Hir & Hw). split; [done|]. by exists en, ir.
Qed.
End life.

(** ** Witness *)

(** A device with two H2C engines and one C2H engine; its configuration BAR is
    BAR 1, at [0x20000]. *)
Definition life_kernel (users_fail : bool) (lg : list event) (f : string) (args : list Z) : Z :=
  if one_of ["kzalloc xdma_dev"%string] f then 77
  else if one_of ["pci_resource_len"%string] f then 0x10000
  else if one_of ["pci_iomap"%string] f then match args with i :: _ => 0x10000 * (i + 1) | [] => 0 end
  else if one_of ["dma_alloc_coherent"; "pci_find_capability"; "pci_alloc_irq_vectors"]%string f then 19
  else if one_of ["pci_irq_vector"; "pdev->irq"]%string f then 40
  else if one_of ["request_irq xdma_user_irq"%string] f then if users_fail then -16 else 0
  else 0.

Definition life_env (users_fail : bool) : Env := {|
  io_read _ a :=
    if a =? 0x20000 then 0x1fc00000 else if a =? 0x20100 then 0x1fc00100
    else if a =? 0x21000 then 0x1fc10000 else if a =? 0x22000 then 0x1fc20000
    else if a =? 0x23000 then 0x1fc30000 else 0;
  kernel := life_kernel users_fail;
  poll_mode := false; interrupt_mode := 0; enable_st_c2h_credit := false;
  desc_blen_max := XDMA_DESC_BLEN_MAX; HZ := 250; SIZEOF_REQ := 400
|}.

#[export] Instance life_laws b : @IrqLaws (life_env b).
Proof.
  split; cbn; try done. intros lg f a. unfold one_of, request_irqs. cbn [existsb]. rewrite !orb_true_iff.
  intros [E|[E|[E|[E|E]]]]; try done; apply String.eqb_eq in E as ->; cbn; try lia. destruct b; lia.
Qed.

(** No device yet. *)
Definition no_dev : dst :=
  mk_dst 0 (new_device 0) [] [] ∅ ∅ ∅ ∅ ∅ [] None 0 [].

Definition all_resources : list resource :=
  [RDevice 77; REnable; RRegions; RBar 0x10000; RBar 0x20000; RDma; RVectors; RIrq].

(** Open, and open then close: what is held. *)
Example open_close_holds :
  match @xdma_device_open (life_env false) 1 0 0 0 no_dev with
  | Some (Some lim, v') => lim = (16, 2, 1) /\
      map (fun x => held x (v_log v')) all_resources = [1; 1; 1; 1; 1; 3; 1; 19] /\
      match @xdma_device_close (life_env false) 1 v' with
      | Some (_, v'') => map (fun x => held x (v_log v'')) all_resources = [0; 0; 0; 0; 0; 0; 0; 0]
      | None => False
      end
  | _ => False
  end.
Proof. vm_compute. done. Qed.

(** The request of a user interrupt fails: the lines of the engines stay requested
    although MSI-X is disabled and the engines are freed. *)
Example failed_open_keeps_lines :
  match @xdma_device_open (life_env true) 1 0 0 0 no_dev with
  | Some (None, v') => map (fun x => held x (v_log v')) all_resources = [0; 0; 0; 0; 0; 0; 0; 3]
  | _ => False
  end.
Proof. vm_compute. done. Qed.

(** [xdma_device_offline] releases the lines, and [xdma_device_close] releases them
    again. *)
Example offline_close_releases_twice :
  match @xdma_device_open (life_env false) 1 0 0 0 no_dev with
  | Some (Some _, v) =>
      match @xdma_device_offline (life_env false) 1 v with
      | Some (_, v') => held RIrq (v_log v') = 0 /\
          match @xdma_device_close (life_env false) 1 v' with
          | Some (_, v'') => held RIrq (v_log v'') = -19
          | None => False
          end
      | None => False
      end
  | _ => False
  end.
Proof. vm_compute. done. Qed.

Lemma xdma_device_open_close_witness :
  exists r v', @xdma_device_open (life_env false) 1 16 4 4 no_dev = Some (r, v') /\
    match r with
    | None =>
        v_list v' = [] /\ exists en ir,
          (forall x, held x (v_log v') = held x [] + leak en ir x) /\
          (en = 0 \/ en = 1 /\ d_regions_in_use (v_dev v') = true) /\
          0 <= ir /\ (@wants_msix (life_env false) = false -> ir = 0)
    | Some (u, h, c) =>
        u = d_user_max (v_dev v') /\ h = d_h2c_channel_max (v_dev v') /\ c = d_c2h_channel_max (v_dev v') /\
        registered 1 v' /\ xdma_device_flag_check (v_dev v') XDEV_FLAG_OFFLINE = false /\
        isr_ok v' /\ dev_wf v' /\ (forall dir, engines_live dir v') /\
        exists v'', @xdma_device_close (life_env false) 1 v' = Some (tt, v'') /\ v_list v'' = [] /\
          forall x, held x (v_log v'') = held x []
    end.
Proof.
  apply (@xdma_device_open_close (life_env false) _ eq_refl 1 16 4 4 no_dev);
    [lia|lia|lia|lia|apply not_elem_of_nil|reflexivity].
Defined.
