(* ===== verification/Cdev.v ===== *)
(** * Cdev: the character devices for registers, bypass, events and XVC

    [cdev_ctrl.c], [cdev_bypass.c], [cdev_events.c] and [cdev_xvc.c].  Each
    operation starts with [xcdev_check] and then works on a mapped BAR. *)

From S2P Require Import Prelude Hw State Desc Engine Service Dev Thread Irq Device CdevSgdma.

Definition EAGAIN := 11.

Section cdev.
Context `{Env} `{Callback}.

(** [xdev->bar[xcdev->bar]] *)
Definition cdev_bar (xcdev : option xdma_cdev) : M dst Z :=
  let* xc := deref xcdev in
  let* d := get_dev in
  deref (zlookup (d_bar d) (xc_bar xc)).

(** ** Control: [cdev_ctrl.c] *)

(** The result and the new file position. *)
Definition char_ctrl_read (xcdev : option xdma_cdev) (buf count pos : Z) : M dst (Z * Z) :=
  let* rv := cdev_check xcdev false in
  if rv <? 0 then ret (rv, pos)
  else if has_bits pos 3 then ret (- EPROTO, pos)
  else
    let* bar := cdev_bar xcdev in
    let* w := read_register (bar + pos) in
    kdo "copy_to_user" [buf; w] >>;
    ret (4, s64 (pos + 4)).

(** A copy that fails leaves [w] as it was: whatever the kernel's answer gives. *)
Definition char_ctrl_write (xcdev : option xdma_cdev) (buf count pos : Z) : M dst (Z * Z) :=
  let* rv := cdev_check xcdev false in
  if rv <? 0 then ret (rv, pos)
  else if has_bits pos 3 then ret (- EPROTO, pos)
  else
    let* bar := cdev_bar xcdev in
    let* w := kcall "copy_from_user" [buf] in
    write_register (u32 w) (bar + pos) >>;
    ret (4, s64 (pos + 4)).

(** [struct xdma_ioc_info], from [vendor] on. *)
Definition PCI_SLOT (devfn : Z) : Z := Z.land (Z.shiftr devfn 3) 0x1f.
Definition PCI_FUNC (devfn : Z) : Z := Z.land devfn 7.
Definition PCI_BUS_NUM (x : Z) : Z := Z.land (Z.shiftr x 8) 0xff.
Definition DRV_MOD_VERSION_NUMBER := 2020 * 1000 + 2 * 100 + 2.

Definition version_ioctl (arg : Z) : M dst Z :=
  let* d := get_dev in
  let* rv := kcall "copy_from_user info" [arg] in
  if negb (rv =? 0) then ret (- EFAULT)
  else
    let* vendor := kcall "pdev->vendor" [d_pdev d] in
    let* device := kcall "pdev->device" [d_pdev d] in
    let* sv := kcall "pdev->subsystem_vendor" [d_pdev d] in
    let* sd := kcall "pdev->subsystem_device" [d_pdev d] in
    let* devfn := kcall "pdev->devfn" [d_pdev d] in
    let* rv := kcall "copy_to_user info"
      [arg; u16 vendor; u16 device; u16 sv; u16 sd; DRV_MOD_VERSION_NUMBER; d_feature_id d; 0;
       PCI_BUS_NUM devfn; PCI_SLOT devfn; PCI_FUNC devfn] in
    ret (if negb (rv =? 0) then - EFAULT else 0).

(** The fields of an ioctl number. *)
Definition IOC_DIR (cmd : Z) : Z := Z.land (Z.shiftr cmd 30) 3.
Definition IOC_TYPE (cmd : Z) : Z := Z.land (Z.shiftr cmd 8) 0xff.
Definition IOC_SIZE (cmd : Z) : Z := Z.land (Z.shiftr cmd 16) 0x3fff.
Definition XDMA_IOC_MAGIC := 120.
Definition XDMA_XCL_MAGIC := 0x586C0C6C.
Definition XDMA_IOC_INFO := 1.
Definition XDMA_IOC_OFFLINE := 2.
Definition XDMA_IOC_ONLINE := 3.
Definition IOC_INFO_SIZE := 40. (* sizeof(struct xdma_ioc_info) *)
Definition XDMA_IOCINFO := ioc (IOC_READ + IOC_WRITE) XDMA_IOC_MAGIC XDMA_IOC_INFO IOC_INFO_SIZE.
Definition XDMA_IOCOFFLINE := ioc 0 XDMA_IOC_MAGIC XDMA_IOC_OFFLINE 0.
Definition XDMA_IOCONLINE := ioc 0 XDMA_IOC_MAGIC XDMA_IOC_ONLINE 0.

(** Whether the user memory of the command cannot be accessed. *)
Definition bad_access (cmd arg : Z) : M dst bool :=
  if has_bits (IOC_DIR cmd) IOC_READ || has_bits (IOC_DIR cmd) IOC_WRITE then
    let* ok := kcall "access_ok" [arg; IOC_SIZE cmd] in ret (ok =? 0)
  else ret false.

Definition char_ctrl_ioctl (xcdev : option xdma_cdev) (cmd arg : Z) : M dst Z :=
  let* rv := cdev_check xcdev false in
  if rv <? 0 then ret rv
  else if negb (IOC_TYPE cmd =? XDMA_IOC_MAGIC) then ret (- ENOTTY)
  else
    let* bad := bad_access cmd arg in
    if bad then ret (- EFAULT)
    else
      let* d := get_dev in
      if cmd =? XDMA_IOCINFO then
        let* rv := kcall "copy_from_user base" [arg] in
        if negb (rv =? 0) then ret (- EFAULT)
        else
          let* magic := kcall "user base magic" [arg] in
          if negb (u32 magic =? XDMA_XCL_MAGIC) then ret (- ENOTTY) else version_ioctl arg
      else if cmd =? XDMA_IOCOFFLINE then xdma_device_offline (d_pdev d) >>; ret 0
      else if cmd =? XDMA_IOCONLINE then xdma_device_online (d_pdev d) >>; ret 0
      else ret (- ENOTTY).

(** [vm_pgoff], [vm_start] and [vm_end] of the area to map. *)
Definition bridge_mmap (xcdev : option xdma_cdev) (vm_pgoff vm_start vm_end : Z) : M dst Z :=
  let* rv := cdev_check xcdev false in
  if rv <? 0 then ret rv
  else
    let* xc := deref xcdev in
    let off := u64 (Z.shiftl vm_pgoff PAGE_SHIFT) in
    let* start := kcall "pci_resource_start" [xc_bar xc] in
    let* last := kcall "pci_resource_end" [xc_bar xc] in
    let phys := u64 (start + off) in
    let vsize := u64 (vm_end - vm_start) in
    let psize := u64 (last - start + 1 - off) in
    if psize <? vsize then ret (- EINVAL)
    else
      let* rv := kcall "io_remap_pfn_range" [vm_start; Z.shiftr phys PAGE_SHIFT; vsize] in
      ret (if negb (rv =? 0) then - EAGAIN else 0).

(** ** Descriptor bypass: [cdev_bypass.c] *)

(** The words of a descriptor, as [copy_to_user] gets them. *)
Definition desc_words (d : xdma_desc) : list Z :=
  [control d; bytes d; src_addr_lo d; src_addr_hi d; dst_addr_lo d; dst_addr_hi d; next_lo d; next_hi d].

(** The result and the new offset. *)
Definition copy_desc_data (t buf buf_offset buf_size : Z) : M est (Z * Z) :=
  let* x := get_xfer t in
  if buf =? 0 then ret (- EINVAL, buf_offset)
  else
    foldM (zrange (x_desc_num x)) (fun '(rc, off) i =>
      if off + DESC_SIZE <=? buf_size then
        let* e := get_eng in
        let* ring := deref (e_desc e) in
        let* d := deref (zlookup ring (x_desc_virt x + i)) in
        let* err := kcall "copy_to_user" (buf + off :: desc_words d) in
        if negb (err =? 0) then ret (- EINVAL, buf_size) else ret (rc, off + DESC_SIZE)
      else ret (- ENOMEM, off)) (0, buf_offset).

(** The transfers of the queue; the result of the last one counts. *)
Definition copy_transfers (buf count : Z) : M est Z :=
  let* e := get_eng in
  let* '(rc, off) :=
    foldM (e_transfer_list e) (fun '(_, off) t => copy_desc_data t buf off count) (0, 0) in
  ret (if rc <? 0 then rc else off).

Definition char_bypass_read (xcdev : option xdma_cdev) (buf count : Z) : M dst Z :=
  let* rc := cdev_check xcdev true in
  if rc <? 0 then ret rc
  else if has_bits count 3 then ret (- EINVAL)
  else if buf =? 0 then ret (- EINVAL)
  else
    let* d := get_dev in
    if d_bypass_bar_idx d <? 0 then ret (- ENODEV)
    else on_cdev xcdev (copy_transfers buf count).

(** [while (buf_offset < count)]: [n] words are left, [rc] so far. *)
Fixpoint bypass_words (n : nat) (addr buf buf_offset rc : Z) : M est Z :=
  match n with
  | O => ret rc
  | S n =>
      let* err := kcall "copy_from_user" [buf + buf_offset] in
      if negb (err =? 0) then ret (- EINVAL)
      else
        let* w := kcall "user word" [buf + buf_offset] in
        write_register (u32 w) addr >>;
        bypass_words n addr buf (buf_offset + 4) (s32 (buf_offset + 4))
  end.

(** The offset of the engine counts words: the address is a [u32] pointer. *)
Definition char_bypass_write (xcdev : option xdma_cdev) (buf count : Z) : M dst Z :=
  let* rc := cdev_check xcdev true in
  if rc <? 0 then ret rc
  else if has_bits count 3 then ret (- EINVAL)
  else if buf =? 0 then ret (- EINVAL)
  else
    let* d := get_dev in
    if d_bypass_bar_idx d <? 0 then ret (- ENODEV)
    else
      let* bar := deref (zlookup (d_bar d) (d_bypass_bar_idx d)) in
      on_cdev xcdev
        (let* e := get_eng in
         bypass_words (Z.to_nat (count / 4)) (bar + 4 * e_bypass_offset e) buf 0 0).

(** ** Events: [cdev_events.c] *)

Definition POLLIN := 0x0001.
Definition POLLRDNORM := 0x0040.

(** [xcdev->user_irq] after [cdev_event_init]. *)
Definition cdev_event_init (xc : xdma_cdev) : xdma_cdev :=
  mk_cdev (xc_magic xc) (xc_xdev xc) (xc_bar xc) (xc_base xc) (xc_engine xc) (Some (xc_bar xc)).

(** While the reader sleeps the interrupt handlers [irqs] run. *)
Definition char_events_read (irqs : M dst unit) (xcdev : option xdma_cdev) (buf count pos : Z) : M dst Z :=
  let* rv := cdev_check xcdev false in
  if rv <? 0 then ret rv
  else
    let* xc := deref xcdev in
    match xc_user_irq xc with
    | None => ret (- EINVAL)
    | Some i =>
        if negb (count =? 4) then ret (- EPROTO)
        else if has_bits pos 3 then ret (- EPROTO)
        else
          let* u := get_user_irq i in
          let* rv :=
            (if u_events_irq u =? 0 then
               irqs >>; kcall "wait_event_interruptible" [i]
             else ret 0) in
          if rv =? - ERESTARTSYS then ret (- ERESTARTSYS)
          else
            let* u := get_user_irq i in
            let events_user := u_events_irq u in
            upd_user_irq i (set_u_events_irq 0) >>;
            kdo "copy_to_user" [buf; events_user] >>;
            ret 4
    end.

Definition char_events_poll (xcdev : option xdma_cdev) : M dst Z :=
  let* rv := cdev_check xcdev false in
  if rv <? 0 then ret (u32 rv)
  else
    let* xc := deref xcdev in
    match xc_user_irq xc with
    | None => ret (u32 (- EINVAL))
    | Some i =>
        kdo "poll_wait" [i] >>;
        let* u := get_user_irq i in
        ret (if negb (u_events_irq u =? 0) then Z.lor POLLIN POLLRDNORM else 0)
    end.
End cdev.
