(* ===== verification/Xvc.v ===== *)
(** * Xvc: the virtual JTAG cable

    [cdev_xvc.c]: an ioctl shifts the bits of two user buffers through the
    registers of the debug bridge, 32 at a time, and returns the bits that come
    back. *)

From S2P Require Import Prelude Bytes Hw State Desc Engine Dev CdevSgdma Cdev.

Definition COMPLETION_LOOP_MAX : nat := 100.
Definition XVC_BAR_LENGTH_REG := 0x0.
Definition XVC_BAR_TMS_REG := 0x4.
Definition XVC_BAR_TDI_REG := 0x8.
Definition XVC_BAR_TDO_REG := 0xC.
Definition XVC_BAR_CTRL_REG := 0x10.
Definition XVC_BAR_OFFSET_DFLT := 0x40000.
Definition XVC_MAGIC := 0x58564344.
Definition XDMA_IOCXVC := u32 (ioc (IOC_READ + IOC_WRITE) XVC_MAGIC 1 32).

Section xvc.
Context `{Env}.

(** ** One word *)

(** [while (count)]: whether the shift is complete. *)
Fixpoint xvc_wait (count : nat) (base : Z) : M dst bool :=
  match count with
  | O => ret false
  | S count =>
      let* control := read_register (base + XVC_BAR_CTRL_REG) in
      if Z.land control 0x01 =? 0 then ret true else xvc_wait count base
  end.

(** The result and the bits read back. *)
Definition xvc_shift_bits (base tms_bits tdi_bits : Z) : M dst (Z * Z) :=
  write_register tms_bits (base + XVC_BAR_TMS_REG) >>;
  write_register tdi_bits (base + XVC_BAR_TDI_REG) >>;
  write_register 0x1 (base + XVC_BAR_CTRL_REG) >>;
  let* ok := xvc_wait COMPLETION_LOOP_MAX base in
  if negb ok then ret (- ETIMEDOUT, 0)
  else let* tdo := read_register (base + XVC_BAR_TDO_REG) in ret (0, tdo).

(** ** The loop over the buffers *)

Definition shift_bytes (bits_left : Z) : Z :=
  if bits_left <? 32 then Z.shiftr (bits_left + 7) 3 else 4.

(** [for (bits = 0; bits < total_bits; bits += 32)]: the error, and the buffer of
    the bits that came back. *)
Fixpoint xvc_loop (fuel : nat) (base : Z) (tms tdi tdo : list Z) (bits total_bits : Z)
    : M dst (Z * list Z) :=
  if bits <? total_bits then
    match fuel with
    | O => ub
    | S fuel =>
        let bytes := Z.shiftr bits 3 in
        let bits_left := u32 (total_bits - bits) in
        let n := shift_bytes bits_left in
        when (bits_left <? 32) (write_register bits_left (base + XVC_BAR_LENGTH_REG)) >>;
        let* tms_store := deref (mem_read tms bytes n) in
        let* tdi_store := deref (mem_read tdi bytes n) in
        let* '(rv, tdo_store) := xvc_shift_bits base (le_word tms_store) (le_word tdi_store) in
        if rv <? 0 then ret (rv, tdo)
        else
          let* tdo := deref (mem_write tdo bytes (le_bytes (Z.to_nat n) tdo_store)) in
          xvc_loop fuel base tms tdi tdo (u32 (bits + 32)) total_bits
    end
  else ret (0, tdo).

(** The part under [xcdev->lock]: the result, and the buffer to copy back. *)
Definition xvc_transfer (base opcode total_bits : Z) (tms tdi tdo : list Z) : M dst (Z * list Z) :=
  when (32 <=? total_bits) (write_register 0x20 (base + XVC_BAR_LENGTH_REG)) >>;
  let* '(rv, tdo) := xvc_loop (Z.to_nat (total_bits / 32 + 1)) base tms tdi tdo 0 total_bits in
  ret (rv, if opcode =? 0x2 then tdi else tdo).

(** ** The ioctl *)

(** The bytes of a user buffer, and the result of the copy. *)
Definition copy_bytes (name : string) (buf n : Z) : M dst (Z * list Z) :=
  let* rv := kcall "copy_from_user" [buf; n] in
  let* l := foldM (zrange n) (fun l i => let* b := kcall name [buf; i] in ret (l ++ [u8 b])) [] in
  ret (rv, l).

Record xvc_ioc := mk_xvc { xvc_opcode : Z; xvc_length : Z; xvc_tms : Z; xvc_tdi : Z; xvc_tdo : Z }.

Definition read_xvc_ioc (arg : Z) : M dst xvc_ioc :=
  let* opcode := kcall "user xvc opcode" [arg] in
  let* length := kcall "user xvc length" [arg] in
  let* tms := kcall "user xvc tms_buf" [arg] in
  let* tdi := kcall "user xvc tdi_buf" [arg] in
  let* tdo := kcall "user xvc tdo_buf" [arg] in
  ret (mk_xvc (u32 opcode) (u32 length) tms tdi tdo).

Definition kfree_ret (buffer rv : Z) : M dst Z := kdo "kfree buffer" [buffer] >>; ret rv.

(** From the copied buffers on. *)
Definition xvc_run (xcdev : option xdma_cdev) (o : xvc_ioc) (buffer total_bytes : Z)
    (tms tdi : list Z) : M dst Z :=
  let* bar := cdev_bar xcdev in
  let* xc := deref xcdev in
  let* '(rv, out) :=
    xvc_transfer (bar + xc_base xc) (xvc_opcode o) (xvc_length o) tms tdi
      (replicate (Z.to_nat total_bytes) 0) in
  if rv <? 0 then kfree_ret buffer rv
  else
    let* rv := kcall "copy_to_user" (xvc_tdo o :: out) in
    kfree_ret buffer rv.

Definition xvc_ioctl (xcdev : option xdma_cdev) (cmd arg : Z) : M dst Z :=
  let* rv := cdev_check xcdev false in
  if rv <? 0 then ret rv
  else if negb (cmd =? XDMA_IOCXVC) then ret (- ENOIOCTLCMD)
  else
    let* rv := kcall "copy_from_user xvc_ioc" [arg] in
    let* o := read_xvc_ioc arg in
    if negb (rv =? 0) then kfree_ret 0 rv
    else if negb (xvc_opcode o =? 0x01) && negb (xvc_opcode o =? 0x02) then ret (- EINVAL)
    else
      let total_bytes := Z.shiftr (u32 (xvc_length o + 7)) 3 in
      let* buffer := kcall "kmalloc" [u32 (total_bytes * 3)] in
      if buffer =? 0 then kfree_ret 0 (- ENOMEM)
      else
        let* '(rv, tms) := copy_bytes "user tms byte" (xvc_tms o) total_bytes in
        if negb (rv =? 0) then kfree_ret buffer rv
        else
          let* '(rv, tdi) := copy_bytes "user tdi byte" (xvc_tdi o) total_bytes in
          if negb (rv =? 0) then kfree_ret buffer rv
          else xvc_run xcdev o buffer total_bytes tms tdi.

(** [cdev_xvc_init] *)
Definition cdev_xvc_init (xc : xdma_cdev) : xdma_cdev :=
  mk_cdev (xc_magic xc) (xc_xdev xc) (xc_bar xc) XVC_BAR_OFFSET_DFLT (xc_engine xc) (xc_user_irq xc).
End xvc.
