(* ===== verification/XvcProps.v ===== *)
(** * XvcProps: what the JTAG cable shifts

    The register writes of a transfer against a reference: one word of [TMS] and
    one of [TDI] for each 32 bits of the buffers, the length of the last word if
    it is shorter, and the words read back from [TDO] as the bytes of the
    result. *)

From S2P Require Import Prelude Bytes Hw State Desc Engine QueueProps Fixtures Dev DevFixtures CdevSgdma Cdev Irq IrqProps Xvc.

(** The writes of a log, and the values read at an address, newest first. *)
Fixpoint wrote (lg : list event) : list (Z * Z) :=
  match lg with
  | EvWrite a x :: lg => (a, x) :: wrote lg
  | _ :: lg => wrote lg
  | [] => []
  end.

Fixpoint reads_at (a : Z) (lg : list event) : list Z :=
  match lg with
  | EvRead b x :: lg => if b =? a then x :: reads_at a lg else reads_at a lg
  | _ :: lg => reads_at a lg
  | [] => []
  end.

(** ** The reference *)

(** Word [i] of a transfer of [total] bits: its bits and its bytes. *)
Definition word_bits (total i : Z) : Z := Z.min 32 (total - 32 * i).
Definition word_bytes (total i : Z) : nat := Z.to_nat ((word_bits total i + 7) / 8).
Definition word_of (total : Z) (buf : list Z) (i : Z) : Z :=
  le_word (take (word_bytes total i) (drop (Z.to_nat (4 * i)) buf)).
Definition word_count (total : Z) : Z := (total + 31) / 32.
Definition byte_count (total : Z) : Z := (total + 7) / 8.

Definition word_writes (base total : Z) (tms tdi : list Z) (i : Z) : list (Z * Z) :=
  (if word_bits total i <? 32 then [(base + XVC_BAR_LENGTH_REG, word_bits total i)] else []) ++
  [(base + XVC_BAR_TMS_REG, word_of total tms i); (base + XVC_BAR_TDI_REG, word_of total tdi i);
   (base + XVC_BAR_CTRL_REG, 1)].

Definition words_writes (base total : Z) (tms tdi : list Z) (i n : Z) : list (Z * Z) :=
  concat (map (word_writes base total tms tdi) (seqZ i n)).

Fixpoint tdo_bytes (total i : Z) (words : list Z) : list Z :=
  match words with
  | [] => []
  | w :: words => le_bytes (word_bytes total i) w ++ tdo_bytes total (i + 1) words
  end.

Lemma words_writes_S base total tms tdi i n :
  0 <= n -> words_writes base total tms tdi i (n + 1) =
  word_writes base total tms tdi i ++ words_writes base total tms tdi (i + 1) n.
Proof. intros Hn. unfold words_writes. rewrite seqZ_cons by lia. cbn. do 4 f_equal; lia. Qed.

Section xvc_props.
Context `{Env}.

(** The card is busy at every poll. *)
Definition timed_out (base : Z) (lg : list event) : Prop :=
  exists vals, length vals = COMPLETION_LOOP_MAX /\ Forall (fun x => Z.odd x = true) vals /\
    take COMPLETION_LOOP_MAX lg = map (EvRead (base + XVC_BAR_CTRL_REG)) vals.

Lemma wp_xvc_wait count base (Q : bool -> dst -> Prop) v :
  (forall ok vals, let lg := map (EvRead (base + XVC_BAR_CTRL_REG)) vals ++ v_log v in
     (ok = false -> length vals = count /\ Forall (fun x => Z.odd x = true) vals) ->
     Q ok (set_log lg v)) ->
  wp (xvc_wait count base) Q v.
Proof.
  revert v. induction count as [|count IH]; intros v HQ.
  - apply wp_ret. specialize (HQ false []). cbn in HQ. destruct v. by apply HQ.
  - cbn [xvc_wait]. apply wp_bind, dwp_read. set (x := u32 _). 
    destruct (Z.eqb_spec (Z.land x 1) 0) as [Hz|Hz].
    + apply wp_ret. by apply (HQ true [x]).
    + apply IH. intros ok vals lg Hok. unfold lg in *. clear lg.
      assert (map (EvRead (base + XVC_BAR_CTRL_REG)) vals ++
                v_log (set_log (EvRead (base + XVC_BAR_CTRL_REG) x :: v_log v) v) =
              map (EvRead (base + XVC_BAR_CTRL_REG)) (vals ++ [x]) ++ v_log v) as ->
        by (cbn; by rewrite map_app, <- app_assoc).
      apply (HQ ok). intros E. destruct (Hok E) as [Hl Hf]. rewrite length_app. split; [cbn; lia|].
      apply Forall_app. split; [done|]. constructor; [|done].
      change 1 with (Z.ones 1) in Hz. rewrite Z.land_ones, Zmod_odd in Hz by lia. by destruct (Z.odd x).
Qed.

Lemma wrote_reads a vals lg : wrote (map (EvRead a) vals ++ lg) = wrote lg.
Proof. by induction vals. Qed.

Lemma reads_other a b vals lg : b <> a -> reads_at a (map (EvRead b) vals ++ lg) = reads_at a lg.
Proof. intros Hb. induction vals as [|x vals IH]; [done|]. cbn. by rewrite (proj2 (Z.eqb_neq b a)). Qed.

Lemma wp_xvc_shift_bits base tms tdi (Q : Z * Z -> dst -> Prop) v :
  (forall lg t, wrote lg = rev [(base + XVC_BAR_TMS_REG, tms); (base + XVC_BAR_TDI_REG, tdi); (base + XVC_BAR_CTRL_REG, 1)]
                           ++ wrote (v_log v) ->
     reads_at (base + XVC_BAR_TDO_REG) lg = t :: reads_at (base + XVC_BAR_TDO_REG) (v_log v) ->
     Q (0, t) (set_log lg v)) ->
  (forall lg, wrote lg = rev [(base + XVC_BAR_TMS_REG, tms); (base + XVC_BAR_TDI_REG, tdi); (base + XVC_BAR_CTRL_REG, 1)]
                         ++ wrote (v_log v) ->
     timed_out base lg -> Q (- ETIMEDOUT, 0) (set_log lg v)) ->
  wp (xvc_shift_bits base tms tdi) Q v.
Proof.
  intros Hok Hto. unfold xvc_shift_bits.
  apply wp_bind, dwp_write, wp_bind, dwp_write, wp_bind, dwp_write, wp_bind, wp_xvc_wait.
  intros ok vals lg Hv. destruct ok; cbn [negb].
  - apply wp_bind, dwp_read, wp_ret. unfold lg. clear lg Hv. cbn [v_log set_log dst_log].
    apply Hok; cbn; [by rewrite wrote_reads|]. rewrite Z.eqb_refl, reads_other; [done|].
    unfold XVC_BAR_CTRL_REG, XVC_BAR_TDO_REG. lia.
  - apply wp_ret. destruct (Hv eq_refl) as [Hl Hf]. unfold lg. cbn [v_log set_log dst_log].
    apply Hto; [by rewrite wrote_reads|]. exists vals. split; [done|]. split; [done|].
    rewrite take_app_length'; [done|]. by rewrite length_map.
Qed.

Lemma word_facts total i :
  0 <= total -> 0 <= i -> 32 * i < total ->
  let n := (word_bits total i + 7) / 8 in
  0 < n <= 4 /\ 4 * i + n <= byte_count total /\ i + 1 <= word_count total /\
  n = shift_bytes (total - 32 * i) /\ 0 < word_bits total i /\
  (n = 4 \/ 4 * i + n = byte_count total) /\ (total - 32 * i <? 32) = (word_bits total i <? 32) /\
  (word_bits total i < 32 -> word_bits total i = total - 32 * i).
Proof.
  intros Ht Hi Hlt n. unfold n, word_bits, byte_count, word_count, shift_bytes.
  rewrite Z.shiftr_div_pow2 by lia. change (2 ^ 3) with 8.
  destruct (Z.ltb_spec (total - 32 * i) 32).
  - rewrite Z.min_r by lia. repeat split; Z.to_euclidean_division_equations; lia.
  - rewrite Z.min_l by lia. repeat split; Z.to_euclidean_division_equations; lia.
Qed.

Lemma set_log_id (v : dst) : set_log (v_log v) v = v.
Proof. by destruct v. Qed.

(** The loop from word [i] on, with the bytes of the words before in [tdo]. *)
Lemma wp_xvc_loop fuel base tms tdi tdo total i (Q : Z * list Z -> dst -> Prop) v :
  0 <= total <= 2 ^ 32 - 32 -> 0 <= i -> i <= word_count total -> word_count total - i <= Z.of_nat fuel ->
  Z.of_nat (length tms) = byte_count total -> Z.of_nat (length tdi) = byte_count total ->
  Z.of_nat (length tdo) = byte_count total ->
  (forall lg words, wrote lg = rev (words_writes base total tms tdi i (word_count total - i)) ++ wrote (v_log v) ->
     reads_at (base + XVC_BAR_TDO_REG) lg = rev words ++ reads_at (base + XVC_BAR_TDO_REG) (v_log v) ->
     Z.of_nat (length words) = word_count total - i ->
     Q (0, take (Z.to_nat (4 * i)) tdo ++ tdo_bytes total i words) (set_log lg v)) ->
  (forall lg n out, 0 < n <= word_count total - i ->
     wrote lg = rev (words_writes base total tms tdi i n) ++ wrote (v_log v) ->
     timed_out base lg -> Q (- ETIMEDOUT, out) (set_log lg v)) ->
  wp (xvc_loop fuel base tms tdi tdo (32 * i) total) Q v.
Proof.
  revert tdo i v. induction fuel as [|fuel IH]; intros tdo i v Htot Hi Hin Hfuel Htms Htdi Htdo Hok Hto.
  all: assert (Hexit : total <= 32 * i -> Q (0, tdo) v).
  1, 3: intros Hge; assert (i = word_count total) as Hiw
      by (unfold word_count in *; Z.to_euclidean_division_equations; lia);
    rewrite Hiw, Z.sub_diag in Hok; specialize (Hok (v_log v) []); cbn [tdo_bytes] in Hok;
    rewrite set_log_id, take_ge, app_nil_r in Hok
      by (unfold byte_count, word_count in *; Z.to_euclidean_division_equations; lia);
    by apply Hok.
  { assert (total <= 32 * i) by (unfold word_count in *; Z.to_euclidean_division_equations; lia).
    cbn [xvc_loop]. rewrite (proj2 (Z.ltb_ge _ _)) by done. apply wp_ret. by apply Hexit. }
  cbn [xvc_loop]. destruct (Z.ltb_spec (32 * i) total) as [Hlt|Hge]; [|apply wp_ret; by apply Hexit]. clear Hexit.
  pose proof (word_facts total i (proj1 Htot) Hi Hlt) as Hw. cbn zeta in Hw.
  set (n := (word_bits total i + 7) / 8) in *. destruct Hw as (Hn & HnB & Hiw & Hsh & Hpos & Hlast & Hcmp & Hbits).
  assert (Hu : u32 (total - 32 * i) = total - 32 * i) by (apply u32_small; lia).
  rewrite Hu, Hcmp, <- Hsh. assert (Hb : Z.shiftr (32 * i) 3 = 4 * i).
  { rewrite Z.shiftr_div_pow2 by lia. change (2 ^ 3) with 8. Z.to_euclidean_division_equations; lia. }
  rewrite Hb.
  assert (Hu' : u32 (32 * i + 32) = 32 * (i + 1)) by (rewrite u32_small; lia). rewrite Hu'. clear Hb Hu Hu' Hsh.
  set (len_writes := if word_bits total i <? 32 then [(base + XVC_BAR_LENGTH_REG, word_bits total i)] else []).
  assert (Hlen : forall R : dst -> Prop,
    (forall lg, wrote lg = rev len_writes ++ wrote (v_log v) ->
       reads_at (base + XVC_BAR_TDO_REG) lg = reads_at (base + XVC_BAR_TDO_REG) (v_log v) -> R (set_log lg v)) ->
    wp (when (word_bits total i <? 32) (write_register (total - 32 * i) (base + XVC_BAR_LENGTH_REG)))
       (fun _ => R) v).
  { intros R HR. unfold len_writes in HR. destruct (Z.ltb_spec (word_bits total i) 32).
    - apply dwp_write. apply HR; cbn; [|done]. by rewrite Hbits.
    - apply wp_ret. rewrite <- (set_log_id v). by apply HR. }
  apply wp_bind, Hlen. intros lg1 Hw1 Hr1. clear Hlen.
  apply wp_bind. eapply wp_deref; [apply mem_read_in; lia|].
  apply wp_bind. eapply wp_deref; [apply mem_read_in; lia|].
  change (take (Z.to_nat n) (drop (Z.to_nat (4 * i)) tms)) with (take (word_bytes total i) (drop (Z.to_nat (4 * i)) tms)).
  change (take (Z.to_nat n) (drop (Z.to_nat (4 * i)) tdi)) with (take (word_bytes total i) (drop (Z.to_nat (4 * i)) tdi)).
  assert (Hww : forall lg m, 0 <= m ->
    wrote lg = rev (words_writes base total tms tdi (i + 1) m) ++
      rev [(base + XVC_BAR_TMS_REG, word_of total tms i); (base + XVC_BAR_TDI_REG, word_of total tdi i);
           (base + XVC_BAR_CTRL_REG, 1)] ++ rev len_writes ++ wrote (v_log v) ->
    wrote lg = rev (words_writes base total tms tdi i (m + 1)) ++ wrote (v_log v)).
  { intros lg m Hm ->. rewrite words_writes_S by done. unfold word_writes. fold len_writes.
    by rewrite !rev_app_distr, <- !app_assoc. }
  apply wp_bind, wp_xvc_shift_bits.
  2: { intros lg Hwr Hbusy. cbn [Z.ltb Z.compare]. apply wp_ret. apply (Hto lg 1 tdo); [lia| |done].
       apply (Hww lg 0); [lia|]. rewrite Hwr. cbn [v_log set_log dst_log]. by rewrite Hw1. }
  intros lg2 t Hw2 Hr2. cbn [Z.ltb Z.compare]. cbn [v_log set_log dst_log] in Hw2, Hr2.
  apply wp_bind. eapply wp_deref; [apply mem_write_in; rewrite ?le_bytes_length; lia|].
  rewrite le_bytes_length.
  set (tdo' := take (Z.to_nat (4 * i)) tdo ++ le_bytes (Z.to_nat n) t ++ drop (Z.to_nat (4 * i) + Z.to_nat n) tdo).
  assert (Htake : take (Z.to_nat (4 * (i + 1))) tdo' = take (Z.to_nat (4 * i)) tdo ++ le_bytes (word_bytes total i) t).
  { unfold tdo', word_bytes. fold n. rewrite app_assoc. destruct Hlast as [Hn4|HB].
    - rewrite take_app_length'; [done|]. rewrite length_app, le_bytes_length, length_take. lia.
    - rewrite (drop_ge tdo) by lia. rewrite app_nil_r, take_ge; [done|].
      rewrite length_app, le_bytes_length, length_take. lia. }
  apply (IH tdo' (i + 1)); try done; try lia.
  - unfold tdo'. rewrite !length_app, le_bytes_length, length_take, length_drop. lia.
  - intros lg words Hwl Hrl Hwords. rewrite Htake, <- app_assoc.
    change (le_bytes (word_bytes total i) t ++ tdo_bytes total (i + 1) words) with (tdo_bytes total i (t :: words)).
    apply Hok.
    + replace (word_count total - i) with (word_count total - (i + 1) + 1) by lia.
      apply Hww; [lia|]. rewrite Hwl. cbn [v_log set_log dst_log]. by rewrite Hw2, Hw1.
    + rewrite Hrl. cbn [v_log set_log dst_log]. rewrite Hr2, Hr1. cbn. by rewrite <- app_assoc.
    + cbn [length]. lia.
  - intros lg m out Hm Hwl Hbusy. apply (Hto lg (m + 1) out); [lia| |done].
    apply Hww; [lia|]. rewrite Hwl. cbn [v_log set_log dst_log]. by rewrite Hw2, Hw1.
Qed.
End xvc_props.

Section transfer.
Context `{Env}.

(** The words of a transfer: the length of a word first, if there is a full one. *)
Definition transfer_writes (base total : Z) (tms tdi : list Z) (n : Z) : list (Z * Z) :=
  (if 32 <=? total then [(base + XVC_BAR_LENGTH_REG, 0x20)] else []) ++ words_writes base total tms tdi 0 n.

(** C22: a transfer of up to 2^32 - 32 bits ([xvc_length_overflow] shows what more
    do to the byte count) always returns, inside of its buffers, for every
    behaviour of the card.  Either it wrote the words of the reference, in order,
    and the result holds the bytes of the words read back (with opcode 2, the bytes
    that were sent), or the card was busy at every poll of the last word it wrote,
    and the result is [-ETIMEDOUT]. *)
Theorem xvc_transfer_spec base opcode total tms tdi v :
  0 <= total <= 2 ^ 32 - 32 ->
  Z.of_nat (length tms) = byte_count total -> Z.of_nat (length tdi) = byte_count total ->
  exists rv out lg n,
    xvc_transfer base opcode total tms tdi (replicate (Z.to_nat (byte_count total)) 0) v
      = Some ((rv, out), set_log lg v) /\
    wrote lg = rev (transfer_writes base total tms tdi n) ++ wrote (v_log v) /\
    ((rv = 0 /\ n = word_count total /\ exists words,
        Z.of_nat (length words) = n /\
        reads_at (base + XVC_BAR_TDO_REG) lg = rev words ++ reads_at (base + XVC_BAR_TDO_REG) (v_log v) /\
        out = if opcode =? 0x2 then tdi else tdo_bytes total 0 words) \/
     (rv = - ETIMEDOUT /\ 0 < n <= word_count total /\ timed_out base lg)).
Proof.
  intros Htot Htms Htdi.
  assert (Hbc : 0 <= byte_count total) by (apply Z.div_pos; lia).
  assert (Hwc : 0 <= word_count total <= total / 32 + 1)
    by (unfold word_count; Z.to_euclidean_division_equations; lia).
  set (tdo := replicate (Z.to_nat (byte_count total)) 0).
  set (pre := if 32 <=? total then [(base + XVC_BAR_LENGTH_REG, 0x20)] else []).
  assert (Hpre : forall R : dst -> Prop,
    (forall lg, wrote lg = rev pre ++ wrote (v_log v) ->
       reads_at (base + XVC_BAR_TDO_REG) lg = reads_at (base + XVC_BAR_TDO_REG) (v_log v) -> R (set_log lg v)) ->
    wp (when (32 <=? total) (write_register 0x20 (base + XVC_BAR_LENGTH_REG))) (fun _ => R) v).
  { intros R HR. unfold pre in HR. destruct (32 <=? total).
    - apply dwp_write. by apply HR.
    - apply wp_ret. rewrite <- (set_log_id v). by apply HR. }
  assert (Hw : wp (xvc_transfer base opcode total tms tdi tdo) (fun r v' => exists lg n, v' = set_log lg v /\
    wrote lg = rev (transfer_writes base total tms tdi n) ++ wrote (v_log v) /\
    ((r.1 = 0 /\ n = word_count total /\ exists words, Z.of_nat (length words) = n /\
        reads_at (base + XVC_BAR_TDO_REG) lg = rev words ++ reads_at (base + XVC_BAR_TDO_REG) (v_log v) /\
        r.2 = if opcode =? 0x2 then tdi else tdo_bytes total 0 words) \/
     (r.1 = - ETIMEDOUT /\ 0 < n <= word_count total /\ timed_out base lg))) v).
  { unfold xvc_transfer. apply wp_bind, Hpre. intros lg1 Hw1 Hr1. apply wp_bind. change 0 with (32 * 0) at 1.
    apply wp_xvc_loop; [done|done|lia|lia|done|done|unfold tdo; rewrite length_replicate; lia|..].
    - intros lg words Hwl Hrl Hlen. rewrite Z.sub_0_r in *. cbn [v_log set_log dst_log] in Hwl, Hrl. apply wp_ret.
      exists lg, (word_count total). split; [done|]. split.
      { rewrite Hwl, Hw1. unfold transfer_writes. fold pre. by rewrite rev_app_distr, <- app_assoc. }
      left. split; [done|]. split; [done|]. exists words. split; [done|]. split; [by rewrite Hrl, Hr1|done].
    - intros lg n out Hn Hwl Hbusy. rewrite Z.sub_0_r in *. cbn [v_log set_log dst_log] in Hwl. apply wp_ret.
      exists lg, n. split; [done|]. split.
      { rewrite Hwl, Hw1. unfold transfer_writes. fold pre. by rewrite rev_app_distr, <- app_assoc. }
      right. split; [done|]. by split. }
  apply wp_iff in Hw as ([rv out] & v' & Hrun & lg & n & -> & Hwl & Hres). by exists rv, out, lg, n.
Qed.
End transfer.

(** ** Witness *)

(** A card that is ready at once and answers one word. *)
Definition jtag_env : Env := {|
  io_read _ a := if a =? 0x4000C then 0x0A0B0C0D else 0; kernel _ _ _ := 0; poll_mode := false;
  interrupt_mode := 0; enable_st_c2h_credit := false; desc_blen_max := XDMA_DESC_BLEN_MAX; HZ := 250; SIZEOF_REQ := 400
|}.

(** 43 bits: a full word and one of 11 bits. *)
Example xvc_43_bits :
  let v' := @xvc_transfer jtag_env 0x40000 1 43 [1; 2; 3; 4; 5; 6] [11; 12; 13; 14; 15; 16] (replicate 6 0) demo_dst in
  option_map fst v' = Some (0, [0x0D; 0x0C; 0x0B; 0x0A; 0x0D; 0x0C]) /\
  option_map (fun r => rev (wrote (v_log r.2))) v' =
    Some [(0x40000, 32); (0x40004, 0x04030201); (0x40008, 0x0E0D0C0B); (0x40010, 1);
          (0x40000, 11); (0x40004, 0x0605); (0x40008, 0x100F); (0x40010, 1)].
Proof. by vm_compute. Qed.

Lemma xvc_transfer_spec_witness :
  exists rv out lg n,
    @xvc_transfer jtag_env 0x40000 1 43 [1; 2; 3; 4; 5; 6] [11; 12; 13; 14; 15; 16] [0; 0; 0; 0; 0; 0] demo_dst
      = Some ((rv, out), set_log lg demo_dst) /\
    wrote lg = rev (transfer_writes 0x40000 43 [1; 2; 3; 4; 5; 6] [11; 12; 13; 14; 15; 16] n) ++ [] /\
    ((rv = 0 /\ n = 2 /\ exists words,
        Z.of_nat (length words) = n /\
        reads_at 0x4000C lg = rev words ++ [] /\ out = tdo_bytes 43 0 words) \/
     (rv = - ETIMEDOUT /\ 0 < n <= 2 /\ timed_out 0x40000 lg)).
Proof. apply (@xvc_transfer_spec jtag_env 0x40000 1 43 _ _ demo_dst); [lia|done|done]. Defined.

(** A length whose byte count overflows to 0: the first word is read outside of
    the buffers. *)
Example xvc_length_overflow {env : Env} fuel base v :
  Z.shiftr (u32 (0xFFFFFFFF + 7)) 3 = 0 /\ xvc_loop (S fuel) base [] [] [] 0 0xFFFFFFFF v = None.
Proof. by split. Qed.
