(* ===== verification/Frame.v ===== *)
(** * Frame: operations of an open device keep what it holds

    A computation is framed if no run of it takes or gives back a resource of the
    kernel ([Ledger]) or changes what opening fixed: the place of the device in
    the list, its BARs and limits, and of each engine the identity, the line and
    the memory.  The instances follow the structure of the driver; they end with
    its entry points. *)

From S2P Require Import Prelude Hw State Desc Engine Service Request Submit Aperture Dev Thread Irq Device Ledger CdevSgdma Cdev.

(** What opening fixes of an engine and of a device. *)
Definition engine_core (e : xdma_engine) : Z * Z * Z * bool * Z * Z * (dma_dir * Z) :=
  (e_magic e, e_irq_bitmask e, e_msix_irq_line e, (if e_desc e is Some _ then true else false),
   e_poll_mode_addr_virt e, e_cyclic_result e, (e_dir e, e_channel e)).

Definition device_core (d : xdma_dev) : list Z * Z * (Z * Z * Z) * (Z * Z) * (bool * bool) * (bool * bool) * Z * nat :=
  (d_bar d, d_config_bar_idx d, (d_h2c_channel_max d, d_c2h_channel_max d, d_user_max d), (d_pdev d, d_idx d),
   (d_regions_in_use d, d_got_regions d), (d_msi_enabled d, d_msix_enabled d), d_irq_line d, length (d_user_irq d)).

Definition efixed (s s' : est) : Prop :=
  (forall r, held r (s_log s') = held r (s_log s)) /\
  device_core (s_xdev s') = device_core (s_xdev s) /\ engine_core (s_eng s') = engine_core (s_eng s).

Definition fixed (v v' : dst) : Prop :=
  (forall r, held r (v_log v') = held r (v_log v)) /\ v_hndl v' = v_hndl v /\ v_list v' = v_list v /\
  device_core (v_dev v') = device_core (v_dev v) /\
  forall dir, map engine_core (engines dir v') = map engine_core (engines dir v).

#[export] Instance efixed_preorder : PreOrder efixed.
Proof.
  split; [by intros s|]. intros s1 s2 s3 (H1 & D1 & E1) (H2 & D2 & E2). split_and!; [|congruence..].
  intros r. by rewrite H2.
Qed.
#[export] Instance fixed_preorder : PreOrder fixed.
Proof.
  split; [by intros v|]. intros v1 v2 v3 (H1 & N1 & L1 & D1 & E1) (H2 & N2 & L2 & D2 & E2).
  split_and!; congruence.
Qed.

(** ** Primitives *)

Section primitives.
Context `{Env}.

#[export] Instance efixed_kcall f args : TCEq (neutral f) true -> Keep efixed (kcall f args).
Proof. intros Hn%TCEq_eq s a s' [= _ <-]. split; [|done]. intros r. cbn. rewrite held_cons, neutral_delta by done. lia. Qed.
#[export] Instance efixed_kdo f args : TCEq (neutral f) true -> Keep efixed (kdo f args).
Proof. intros Hn%TCEq_eq s a s' [= _ <-]. split; [|done]. intros r. cbn. rewrite held_cons, neutral_delta by done. lia. Qed.
#[export] Instance efixed_read x : Keep efixed (read_register x).
Proof. intros s a s' [= _ <-]. split; [|done]. intros r. cbn. rewrite held_cons. cbn [delta]. lia. Qed.
#[export] Instance efixed_write x y : Keep efixed (write_register x y).
Proof. intros s a s' [= _ <-]. split; [|done]. intros r. cbn. rewrite held_cons. cbn [delta]. lia. Qed.

#[export] Instance fixed_kcall f args : TCEq (neutral f) true -> Keep fixed (kcall f args).
Proof. intros Hn%TCEq_eq v a v' [= _ <-]. split; [|done]. intros r. cbn. rewrite held_cons, neutral_delta by done. lia. Qed.
#[export] Instance fixed_kdo f args : TCEq (neutral f) true -> Keep fixed (kdo f args).
Proof. intros Hn%TCEq_eq v a v' [= _ <-]. split; [|done]. intros r. cbn. rewrite held_cons, neutral_delta by done. lia. Qed.
#[export] Instance fixed_read x : Keep fixed (read_register x).
Proof. intros v a v' [= _ <-]. split; [|done]. intros r. cbn. rewrite held_cons. cbn [delta]. lia. Qed.
#[export] Instance fixed_write x y : Keep fixed (write_register x y).
Proof. intros v a v' [= _ <-]. split; [|done]. intros r. cbn. rewrite held_cons. cbn [delta]. lia. Qed.

Lemma efixed_upd_eng f : (forall e, engine_core (f e) = engine_core e) -> Keep efixed (upd_eng f).
Proof. intros Hf s a s' [= _ <-]. split_and!; [done..|apply Hf]. Qed.
Lemma efixed_upd_xdev f : (forall d, device_core (f d) = device_core d) -> Keep efixed (upd_xdev f).
Proof. intros Hf s a s' [= _ <-]. split_and!; [done|apply Hf|done]. Qed.
Lemma fixed_upd_dev f : (forall d, device_core (f d) = device_core d) -> Keep fixed (upd_dev f).
Proof. intros Hf v a v' [= _ <-]. split_and!; try done. apply Hf. Qed.

Lemma efixed_modify f :
  (forall s, s_log (f s) = s_log s /\ s_xdev (f s) = s_xdev s /\ s_eng (f s) = s_eng s) -> Keep efixed (modify f).
Proof. intros Hf s a s' [= _ <-]. destruct (Hf s) as (E1 & E2 & E3). split_and!; intros; congruence. Qed.

#[export] Instance fixed_on_engine {A} dir i (m : M est A) : Keep efixed m -> Keep fixed (on_engine dir i m).
Proof.
  intros Hm v a v'. unfold on_engine. destruct (zlookup (engines dir v) i) as [e|] eqn:He; [|done].
  destruct (m (focus_engine e v)) as [[b s]|] eqn:E; [|done]. intros [= <- <-].
  destruct (Hm _ _ _ E) as (Hh & Hd & He'). split_and!; try done. intros dir'.
  destruct (decide (dir = dir')) as [<-|Hne]; [|by rewrite engines_unfocus_other].
  rewrite engines_unfocus. apply zlookup_nat in He as [_ He]. rewrite <-(list_insert_id (engines dir v) (Z.to_nat i) e He) at 2.
  rewrite !list_fmap_insert. by rewrite He'.
Qed.

#[export] Instance fixed_on_cdev {A} xc (m : M est A) : Keep efixed m -> Keep fixed (on_cdev xc m).
Proof. intros Hm. unfold on_cdev. destruct xc as [xc|]; [destruct (xc_engine xc) as [[dir i]|]|]; apply _. Qed.
End primitives.

(** [framed] proves that a computation is framed. *)
Ltac framed_step :=
  lazymatch goal with
  | |- Keep efixed (upd_eng _) => first [apply _ | apply efixed_upd_eng; by intros]
  | |- Keep efixed (upd_xdev _) => first [apply _ | apply efixed_upd_xdev; by intros]
  | |- Keep fixed (upd_dev _) => first [apply _ | apply fixed_upd_dev; by intros]
  | |- Keep _ ((let '(_, _) := ?p in fun _ => _) _) => destruct p
  | |- Keep efixed (modify _) => apply efixed_modify; by intros
  | |- Keep fixed (on_engine _ _ _) => apply fixed_on_engine
  | |- Keep fixed (on_cdev _ _) => apply fixed_on_cdev
  | |- _ => keep_step
  end.
Ltac framed := repeat framed_step.

Section stores.
Context `{Env}.

#[export] Instance efixed_get_eng : Keep efixed get_eng.
Proof. unfold get_eng. framed. Qed.
#[export] Instance efixed_get_xfer t : Keep efixed (get_xfer t).
Proof. unfold get_xfer. framed. Qed.
#[export] Instance efixed_put_xfer t x : Keep efixed (put_xfer t x).
Proof. unfold put_xfer. framed. Qed.
#[export] Instance efixed_upd_xfer t f : Keep efixed (upd_xfer t f).
Proof. unfold upd_xfer. framed. Qed.
#[export] Instance efixed_get_sgt g : Keep efixed (get_sgt g).
Proof. unfold get_sgt. framed. Qed.
#[export] Instance efixed_upd_sgt g f : Keep efixed (upd_sgt g f).
Proof. unfold upd_sgt. framed. Qed.
#[export] Instance efixed_get_req r : Keep efixed (get_req r).
Proof. unfold get_req. framed. Qed.
#[export] Instance efixed_upd_req r f : Keep efixed (upd_req r f).
Proof. unfold upd_req. framed. Qed.
#[export] Instance efixed_get_caio c : Keep efixed (get_caio c).
Proof. unfold get_caio. framed. Qed.
#[export] Instance efixed_upd_caio c f : Keep efixed (upd_caio c f).
Proof. unfold upd_caio. framed. Qed.
#[export] Instance efixed_get_cb c : Keep efixed (get_cb c).
Proof. unfold get_cb. framed. Qed.
#[export] Instance efixed_upd_cb c f : Keep efixed (upd_cb c f).
Proof. unfold upd_cb. framed. Qed.

(** The ring stays allocated. *)
#[export] Instance efixed_upd_desc i f : Keep efixed (upd_desc i f).
Proof.
  intros s a s'. unfold upd_desc, get_eng, gets, bind, deref. destruct (e_desc (s_eng s)) as [ring|] eqn:E; [|done].
  destruct (zupdate ring i f); [|done]. intros [= _ <-]. split_and!; try done. unfold engine_core. cbn. by rewrite E.
Qed.
End stores.

(** ** Engine operations *)

Section engine.
Context `{Env}.

#[export] Instance efixed_read_reg f : Keep efixed (read_reg f).
Proof. unfold read_reg. framed. Qed.
#[export] Instance efixed_read_sgdma f : Keep efixed (read_sgdma_reg f).
Proof. unfold read_sgdma_reg. framed. Qed.
#[export] Instance efixed_write_reg v f : Keep efixed (write_reg v f).
Proof. unfold write_reg. framed. Qed.
#[export] Instance efixed_write_sgdma v f : Keep efixed (write_sgdma_reg v f).
Proof. unfold write_sgdma_reg. framed. Qed.
#[export] Instance efixed_upd_perf f : Keep efixed (upd_perf f).
Proof. unfold upd_perf. framed. Qed.
#[export] Instance efixed_enable_perf : Keep efixed enable_perf.
Proof. unfold enable_perf. framed. Qed.
#[export] Instance efixed_perf_stats : Keep efixed get_perf_stats.
Proof. unfold get_perf_stats. framed. Qed.
#[export] Instance efixed_status_dump : Keep efixed engine_status_dump.
Proof. unfold engine_status_dump. framed. Qed.
#[export] Instance efixed_status_read c d : Keep efixed (engine_status_read c d).
Proof. unfold engine_status_read, engine_reg_dump. framed. Qed.
#[export] Instance efixed_stop : Keep efixed xdma_engine_stop.
Proof. unfold xdma_engine_stop. framed. Qed.
#[export] Instance efixed_start : Keep efixed engine_start.
Proof. unfold engine_start, engine_start_mode_config. framed. Qed.
#[export] Instance efixed_channel_enable x m : Keep efixed (channel_interrupts_enable x m).
Proof. unfold channel_interrupts_enable, int_reg, config_bar. framed. Qed.
#[export] Instance efixed_list_del_head : Keep efixed list_del_head.
Proof. unfold list_del_head. framed. Qed.
#[export] Instance efixed_list_first : Keep efixed list_first.
Proof. unfold list_first. framed. Qed.
#[export] Instance efixed_alignments : Keep efixed engine_alignments.
Proof. unfold engine_alignments. framed. Qed.
#[export] Instance efixed_addrmode arg : Keep efixed (engine_addrmode_set arg).
Proof. unfold engine_addrmode_set. framed. Qed.
#[export] Instance efixed_offline : Keep efixed engine_offline.
Proof. unfold engine_offline. framed. Qed.
End engine.

(** ** Service and submission, for a framed completion callback *)

Section submit.
Context `{Env} `{Callback} `{Sched}.
Context `{Hcb : forall cb err, Keep efixed (io_done cb err)}.

#[export] Instance efixed_completion t : Keep efixed (engine_transfer_completion t).
Proof using Hcb. unfold engine_transfer_completion. framed. Qed.

#[export] Instance efixed_service_list fuel t n : Keep efixed (service_list fuel t n).
Proof using Hcb. revert t n. induction fuel; intros t n; cbn [service_list]; framed. Qed.

#[export] Instance efixed_find_eop t res l : Keep efixed (find_eop t res l).
Proof. induction l; cbn [find_eop]; unfold read_result_status; framed. Qed.

#[export] Instance efixed_shutdown : Keep efixed engine_service_shutdown.
Proof. unfold engine_service_shutdown. framed. Qed.

#[export] Instance efixed_transfer_del t : Keep efixed (transfer_del t).
Proof using Hcb. unfold transfer_del. framed. Qed.

#[export] Instance efixed_final t n : Keep efixed (engine_service_final_transfer t n).
Proof using Hcb. unfold engine_service_final_transfer, engine_err_handle, add_dequeued. framed. Qed.

#[export] Instance efixed_service_perf n : Keep efixed (engine_service_perf n).
Proof. unfold engine_service_perf. framed. Qed.

#[export] Instance efixed_resume : Keep efixed engine_service_resume.
Proof. unfold engine_service_resume. framed. Qed.

#[export] Instance efixed_completed n : Keep efixed (service_completed n).
Proof using Hcb. unfold service_completed, engine_service_transfer_list. framed. Qed.

#[export] Instance efixed_service wb : Keep efixed (engine_service wb).
Proof using Hcb. unfold engine_service. framed. Qed.

#[export] Instance efixed_work : Keep efixed engine_service_work.
Proof using Hcb. unfold engine_service_work. framed. Qed.

#[export] Instance efixed_wb_poll fuel n t k : Keep efixed (wb_poll fuel n t k).
Proof.
  revert k. induction fuel; intros k; cbn [wb_poll]; unfold wb_poll_once, poll_wb_read, poll_wb_clear; framed.
Qed.

#[export] Instance efixed_poll fuel n : Keep efixed (engine_service_poll fuel n).
Proof using Hcb. unfold engine_service_poll, engine_service_wb_monitor. framed. Qed.

#[export] Instance efixed_run_op op : Keep efixed (run_op op).
Proof using Hcb. unfold run_op. framed. Qed.

#[export] Instance efixed_wait t ms : Keep efixed (wait_transfer t ms).
Proof using Hcb. unfold wait_transfer. framed. Qed.
End submit.

(** ** Requests *)

Section request.
Context `{Env}.

#[export] Instance efixed_free r : Keep efixed (xdma_request_free r).
Proof. unfold xdma_request_free. framed. Qed.
#[export] Instance efixed_init_request g ep : Keep efixed (xdma_init_request g ep).
Proof. unfold xdma_init_request, xdma_request_alloc, count_extra, fill_sdesc. framed. Qed.
#[export] Instance efixed_desc_init t n : Keep efixed (transfer_desc_init t n).
Proof. unfold transfer_desc_init. framed. Qed.
#[export] Instance efixed_desc_done t n : Keep efixed (xdma_desc_done t n).
Proof. unfold xdma_desc_done. framed. Qed.
#[export] Instance efixed_build r t n : Keep efixed (transfer_build r t n).
Proof. unfold transfer_build, build_desc, clear_result. framed. Qed.
#[export] Instance efixed_control t v n : Keep efixed (transfer_control t v n).
Proof. unfold transfer_control, control_set. framed. Qed.
#[export] Instance efixed_init r t : Keep efixed (transfer_init r t).
Proof. unfold transfer_init, transfer_fill. framed. Qed.
#[export] Instance efixed_abort t : Keep efixed (transfer_abort t).
Proof. unfold transfer_abort. framed. Qed.
#[export] Instance efixed_queue t : Keep efixed (transfer_queue t).
Proof. unfold transfer_queue, list_add_tail. framed. Qed.
#[export] Instance efixed_destroy t : Keep efixed (transfer_destroy t).
Proof. unfold transfer_destroy, unmap_sgt. framed. Qed.
#[export] Instance efixed_map_sgl g b : Keep efixed (map_sgl g b).
Proof. unfold map_sgl. framed. Qed.
#[export] Instance efixed_unmap_sgl g b : Keep efixed (unmap_sgl g b).
Proof. unfold unmap_sgl. framed. Qed.
#[export] Instance efixed_sum res n done : Keep efixed (sum_results res n done).
Proof. unfold sum_results, read_result_length. framed. Qed.
#[export] Instance efixed_abort_transfer t : Keep efixed (abort_transfer t).
Proof. unfold abort_transfer. framed. Qed.
#[export] Instance efixed_mark t g b n : Keep efixed (mark_transfer t g b n).
Proof. unfold mark_transfer. framed. Qed.
#[export] Instance efixed_check dir : Keep efixed (check_engine dir).
Proof. unfold check_engine. framed. Qed.

#[export] Instance efixed_completion_loop fuel req k nents done : Keep efixed (completion_loop fuel req k nents done).
Proof.
  revert k nents done. induction fuel; intros k nents done; cbn [completion_loop]; unfold tfer_at, completion_result; framed.
Qed.

#[export] Instance efixed_xfer_completion cb g b : Keep efixed (xdma_xfer_completion cb g b).
Proof. unfold xdma_xfer_completion. framed. Qed.
End request.

Section transfers.
Context `{Env} `{Callback} `{Sched}.
Context `{Hcb : forall cb err, Keep efixed (io_done cb err)}.

#[export] Instance efixed_submit_step req g b ms nents done : Keep efixed (submit_step req g b ms nents done).
Proof using Hcb. unfold submit_step, submit_result. framed. Qed.

#[export] Instance efixed_submit_loop fuel req g b ms nents done : Keep efixed (submit_loop fuel req g b ms nents done).
Proof using Hcb. revert nents done. induction fuel; intros nents done; cbn [submit_loop]; framed. Qed.

#[export] Instance efixed_xfer_submit w ep g b ms : Keep efixed (xdma_xfer_submit w ep g b ms).
Proof using Hcb. unfold xdma_xfer_submit. framed. Qed.

#[export] Instance efixed_nowait_loop fuel req cb g b k nents : Keep efixed (nowait_loop fuel req cb g b k nents).
Proof using Hcb. revert k nents. induction fuel; intros k nents; cbn [nowait_loop]; unfold tfer_at; framed. Qed.

#[export] Instance efixed_nowait cb w ep g b : Keep efixed (xdma_xfer_submit_nowait cb w ep g b).
Proof using Hcb. unfold xdma_xfer_submit_nowait. framed. Qed.

#[export] Instance efixed_ap_fill req dir ml em dm fuel a : Keep efixed (ap_fill req dir ml em dm fuel a).
Proof. revert a. induction fuel; intros a; cbn [ap_fill]; framed. Qed.

#[export] Instance efixed_ap_sgs req dir ml em dm sm fuel sgl i sg a : Keep efixed (ap_sgs req dir ml em dm sm fuel sgl i sg a).
Proof. revert i sg a. induction fuel; intros i sg a; cbn [ap_sgs]; framed. Qed.

#[export] Instance efixed_ap_build req dir ml em dm sm g b : Keep efixed (ap_build req dir ml em dm sm g b).
Proof. unfold ap_build, ap_link. framed. Qed.

#[export] Instance efixed_ap_loop req dir ml em dm sm fuel g b ms done : Keep efixed (ap_loop req dir ml em dm sm fuel g b ms done).
Proof using Hcb. revert done. induction fuel; intros done; cbn [ap_loop]; unfold ap_step; framed. Qed.

#[export] Instance efixed_aperture fuel w ep ap g b ms : Keep efixed (xdma_xfer_aperture fuel w ep ap g b ms).
Proof using Hcb. unfold xdma_xfer_aperture, ap_check, ap_alloc, table_len. framed. Qed.
End transfers.

(** ** User buffers and asynchronous requests *)

Section user_buf.
Context `{Env}.

#[export] Instance efixed_put_cb cb c : Keep efixed (put_cb cb c).
Proof. unfold put_cb. framed. Qed.
#[export] Instance efixed_put_sgt g t : Keep efixed (put_sgt g t).
Proof. unfold put_sgt. framed. Qed.
#[export] Instance efixed_free_table g : Keep efixed (sg_free_table g).
Proof. unfold sg_free_table. framed. Qed.
#[export] Instance efixed_release n pages i w : Keep efixed (release_pages n pages i w).
Proof. revert i. induction n; intros i; cbn [release_pages]; framed. Qed.
#[export] Instance efixed_unmap_user cb w : Keep efixed (char_sgdma_unmap_user_buf cb w).
Proof. unfold char_sgdma_unmap_user_buf. framed. Qed.
#[export] Instance efixed_map_user cb w : Keep efixed (char_sgdma_map_user_buf_to_sgl cb w).
Proof. unfold char_sgdma_map_user_buf_to_sgl, map_fail, pinned_pages, fill_user_sgl. framed. Qed.
#[export] Instance efixed_caio_free c : Keep efixed (caio_free c).
Proof. unfold caio_free. framed. Qed.
#[export] Instance efixed_cbs_free cb a : Keep efixed (cbs_free cb a).
Proof. unfold cbs_free. framed. Qed.

#[export] Instance efixed_io_done cb err : Keep efixed (async_io_handler cb err).
Proof. unfold async_io_handler, completion, caio_done. framed. Qed.

#[export] Instance efixed_write_perf arg : Keep efixed (write_perf arg).
Proof. unfold write_perf. framed. Qed.
#[export] Instance efixed_perf_get arg : Keep efixed (ioctl_do_perf_get arg).
Proof. unfold ioctl_do_perf_get. framed. Qed.
#[export] Instance efixed_read_aperture arg : Keep efixed (read_aperture arg).
Proof. unfold read_aperture. framed. Qed.
End user_buf.

Section calls.
Context `{Env} `{Sched}.

#[export] Instance efixed_aperture_dma h c fuel cb arg w : Keep efixed (ioctl_do_aperture_dma h c fuel cb arg w).
Proof. unfold ioctl_do_aperture_dma. framed; apply efixed_aperture. Qed.

(** ** Operations on the whole device *)

#[export] Instance fixed_get_engine dir i : Keep fixed (get_engine dir i).
Proof. unfold get_engine. framed. Qed.
#[export] Instance fixed_get_dev : Keep fixed get_dev.
Proof. unfold get_dev. framed. Qed.
#[export] Instance fixed_get_user i : Keep fixed (get_user_irq i).
Proof. unfold get_user_irq. framed. Qed.
#[export] Instance fixed_int_reg d f : Keep fixed (int_reg d f).
Proof. unfold int_reg, config_bar. framed. Qed.
#[export] Instance fixed_read_interrupts d : Keep fixed (read_interrupts d).
Proof. unfold read_interrupts. framed. Qed.

#[export] Instance fixed_upd_user i f : Keep fixed (upd_user_irq i f).
Proof.
  intros v a v'. unfold upd_user_irq, get_dev, gets, bind, deref, upd_dev, modify.
  destruct (zupdate (d_user_irq (v_dev v)) i f) as [l|] eqn:E; [|done]. intros [= _ <-].
  split_and!; try done. unfold device_core. cbn. by rewrite (zupdate_length _ _ _ _ E).
Qed.

#[export] Instance fixed_check_hndl p : Keep fixed (check_hndl p).
Proof. unfold check_hndl, debug_check_dev_hndl, xdev_find_by_pdev. framed. Qed.

#[export] Instance fixed_upd_thread i f : Keep fixed (upd_thread i f).
Proof.
  intros v a v'. unfold upd_thread, get_threads, get, modify, bind, deref. destruct (v_threads v) as [l|]; [|done].
  destruct (zupdate l i f); [|done]. by intros [= _ <-].
Qed.
End calls.
