(* ===== verification/PerfProps.v ===== *)
(** * PerfProps: a performance run from its start to its stop

    The descriptors of a run form a loop, in which the hardware moves the same
    buffer for ever; the start of a run queues it, the stop takes it off and gives
    the buffer back. *)

From S2P Require Import Prelude Hw State Desc Engine Service Request Fixtures Chain ServiceSpec QueueProps Submit SubmitSpec Perf Dev Thread Irq Device Ledger CdevSgdma Frame.

(** ** A loop of descriptors *)

(** The first [k] descriptors that the hardware executes from [addr] on, if none
    of them stops it. *)
Fixpoint hw_run (k : nat) (ring : list xdma_desc) (ring_bus addr : Z) : option (list xdma_desc) :=
  match k with
  | O => Some []
  | S k =>
      if (addr - ring_bus) `mod` DESC_SIZE =? 0 then
        match zlookup ring ((addr - ring_bus) `div` DESC_SIZE) with
        | Some d =>
            if has_bits (control d) XDMA_DESC_STOPPED then None
            else cons d <$> hw_run k ring ring_bus (desc_next d)
        | None => None
        end
      else None
  end.

(** The first [n] slots are a loop. *)
Record looped (ring : list xdma_desc) (bus n : Z) (d : Z -> xdma_desc) : Prop := {
  lo_slot j : 0 <= j < n -> zlookup ring j = Some (d j);
  lo_next j : 0 <= j < n -> desc_next (d j) = bus + DESC_SIZE * ((j + 1) `mod` n);
  lo_run j : 0 <= j < n -> has_bits (control (d j)) XDMA_DESC_STOPPED = false
}.

Lemma hw_run_looped ring bus n d k i :
  looped ring bus n d -> 0 < n ->
  hw_run k ring bus (bus + DESC_SIZE * (i `mod` n)) = Some (map (fun m => d (m `mod` n)) (seqZ i (Z.of_nat k))).
Proof.
  intros Hl Hn. revert i. induction k as [|k IH]; intros i; [done|].
  pose proof (Z.mod_pos_bound i n Hn) as Hi. cbn [hw_run].
  replace (bus + DESC_SIZE * (i `mod` n) - bus) with (i `mod` n * DESC_SIZE) by lia.
  rewrite Z.mod_mul, Z.div_mul by done. cbn [Z.eqb].
  rewrite (lo_slot _ _ _ _ Hl), (lo_run _ _ _ _ Hl), (lo_next _ _ _ _ Hl) by done.
  rewrite Zplus_mod_idemp_l, IH, (seqZ_cons i) by lia.
  replace (Z.pred (Z.of_nat (S k))) with (Z.of_nat k) by lia. by rewrite Z.add_1_r.
Qed.

(** ** The descriptors of a run *)

Section ring.
Context `{Env}.
Variables (bus buf n size : Z) (dir : dma_dir).
Hypothesis Hn : 0 < n.

(** Slot [j] after [perf_build], made of the descriptor [d] that was there. *)
Definition run_desc (d0 : Z -> xdma_desc) (j : Z) : xdma_desc :=
  let d := if j <? n - 1 then desc_chain (u64 (bus + DESC_SIZE * (j + 1))) (d0 j) else desc_end (d0 j) in
  let d := xdma_desc_set buf 0 size dir d in
  let d := if j =? 0 then snd (xdma_desc_control_set d 0) else d in
  if j =? n - 1 then xdma_desc_link d true bus else d.

(** It moves the buffer from or to the address 0 of the card. *)
Definition moves_buffer (d : xdma_desc) : Prop :=
  bytes d = u32 size /\ (desc_src d, desc_dst d) = if is_h2c dir then (buf, 0) else (0, buf).

Lemma run_desc_spec d0 j :
  0 <= j < n -> 0 <= bus -> bus + DESC_SIZE * n <= 2 ^ 64 ->
  desc_next (run_desc d0 j) = bus + DESC_SIZE * ((j + 1) `mod` n) /\
  control (run_desc d0 j) = DESC_MAGIC /\ moves_buffer (run_desc d0 j).
Proof.
  intros Hj Hb Ht. unfold run_desc, moves_buffer.
  set (d1 := if j <? n - 1 then _ else _).
  assert (control d1 = DESC_MAGIC /\ (j < n - 1 -> desc_next d1 = bus + DESC_SIZE * (j + 1))) as [Hc1 Hn1].
  { unfold d1. destruct (Z.ltb_spec j (n - 1)); (split; [done|]); [|lia]. intros _. unfold desc_next, desc_chain. cbn.
    rewrite PCI_DMA_split. apply Z.mod_small. unfold DESC_SIZE in *. lia. }
  destruct (desc_set_decode buf 0 size dir d1) as (Hby & Hsd & Hc2 & Hlo & Hhi).
  set (d2 := xdma_desc_set buf 0 size dir d1) in *. rewrite Hc1 in Hc2.
  assert (desc_next d2 = desc_next d1) as Hn2 by (unfold desc_next; by rewrite Hlo, Hhi).
  set (d3 := if j =? 0 then _ else _).
  assert (control d3 = DESC_MAGIC /\ desc_next d3 = desc_next d2 /\ bytes d3 = bytes d2 /\
          (desc_src d3, desc_dst d3) = (desc_src d2, desc_dst d2)) as (Hc3 & Hn3 & Hb3 & Hs3).
  { unfold d3. destruct (j =? 0); [|done]. unfold xdma_desc_control_set. cbn -[Z.land Z.lor Z.lnot].
    split_and!; try done. by rewrite Hc2. }
  destruct (Z.eqb_spec j (n - 1)) as [->|Hne].
  - replace (n - 1 + 1) with n by lia. rewrite Z.mod_same, Z.mul_0_r, Z.add_0_r by lia.
    unfold xdma_desc_link. unfold desc_next, desc_src, desc_dst in *. cbn -[Z.land Z.lor] in *. split_and!.
    + assert (u32 (PCI_DMA_H bus) = PCI_DMA_H bus) as ->; [|apply PCI_DMA_split].
      apply Z.mod_small, PCI_DMA_H_range. unfold DESC_SIZE in *. lia.
    + by rewrite Hc3.
    + by rewrite Hb3, Hby.
    + by rewrite Hs3, Hsd.
  - rewrite Hn3, Hn2, Hn1, Z.mod_small by lia. split_and!; [done|done|by rewrite Hb3|by rewrite Hs3].
Qed.
End ring.

(** ** Building and queueing *)

Section run.
Context `{Env}.

Definition old_desc (ring : list xdma_desc) (j : Z) : xdma_desc := default zero_desc (zlookup ring j).

Lemma wp_perf_build t n size s x ring (Q : unit -> est -> Prop) :
  s_xfers s !! t = Some x -> x_desc_virt x = 0 -> x_desc_bus x = e_desc_bus (s_eng s) ->
  e_desc (s_eng s) = Some ring -> 0 < n <= Z.of_nat (length ring) ->
  (forall ring', length ring' = length ring ->
     (forall j, 0 <= j < n -> zlookup ring' j =
        Some (run_desc (e_desc_bus (s_eng s)) (e_perf_buf_bus (s_eng s)) n size (e_dir (s_eng s)) (old_desc ring) j)) ->
     Q tt (set_s_xfers (<[t := set_x_cyclic true x]> (s_xfers s)) (set_ring ring' s))) ->
  wp (perf_build t n size) Q s.
Proof.
  intros Hx Hv Hb Hr Hn HQ. unfold perf_build, transfer_desc_init. apply wp_bind, wp_bind. eapply wp_get_xfer; [exact Hx|].
  rewrite Hv, Hb, Z.max_r by lia. set (bus := e_desc_bus (s_eng s)).
  set (g1 := fun i => desc_chain (u64 (bus + DESC_SIZE * (i + 1)))). set (r1 := upd_range 0 (n - 1) g1 ring).
  apply wp_bind. eapply wp_mono; [apply (wp_forM_ring 0 (n - 1) g1 ring s Hr); lia|]. intros _ s1 ->. fold r1.
  apply wp_bind. set (r2 := upd_range (n - 1) 1 (fun _ => desc_end) r1).
  eapply wp_mono; [apply (wp_upd_desc_range (0 + (n - 1)) desc_end r1); [done|unfold r1; rewrite upd_range_length; lia]|].
  intros _ s2 ->. change (0 + (n - 1)) with (n - 1). fold r2. rewrite set_ring_twice. apply wp_ret, wp_bind, wp_get_eng.
  cbn [e_perf_buf_bus e_dir s_eng set_ring set_s_eng set_e_desc]. set (buf := e_perf_buf_bus (s_eng s)). set (dir := e_dir (s_eng s)).
  set (g3 := fun _ : Z => xdma_desc_set buf 0 size dir). set (r3 := upd_range 0 n g3 r2).
  apply wp_bind. eapply wp_mono; [apply (wp_forM_ring 0 n g3 r2 (set_ring r2 s)); [done|lia|lia|]|].
  { unfold r2, r1. rewrite !upd_range_length. lia. }
  intros _ s3 ->. fold r3. rewrite set_ring_twice. unfold control_set.
  set (r4 := upd_range 0 1 (fun _ d => snd (xdma_desc_control_set d 0)) r3).
  apply wp_bind. eapply wp_mono; [apply (wp_upd_desc_range 0 (fun d => snd (xdma_desc_control_set d 0)) r3); [done|]|].
  { unfold r3, r2, r1. rewrite !upd_range_length. lia. }
  intros _ s4 ->. fold r4. rewrite set_ring_twice.
  set (r5 := upd_range (n - 1) 1 (fun _ d => xdma_desc_link d true bus) r4).
  apply wp_bind. eapply wp_mono; [apply (wp_upd_desc_range (n - 1) (fun d => xdma_desc_link d true bus) r4); [done|]|].
  { unfold r4, r3, r2, r1. rewrite !upd_range_length. lia. }
  intros _ s5 ->. fold r5. rewrite set_ring_twice. eapply wp_upd_xfer; [exact Hx|]. apply HQ.
  - unfold r5, r4, r3, r2, r1. by rewrite !upd_range_length.
  - intros j Hj. unfold r5, r4, r3, r2, r1. rewrite !upd_range_lookup by lia. unfold old_desc.
    assert (is_Some (zlookup ring j)) as [d0 Hd0] by (apply zlookup_is_Some; lia). rewrite Hd0. cbn [fmap option_fmap option_map default id].
    f_equal. unfold run_desc, g1, g3. rewrite !Z.sub_0_r.
    replace ((0 <=? j - (n - 1)) && (j - (n - 1) <? 1)) with (j =? n - 1) by lia.
    replace ((0 <=? j) && (j <? 1)) with (j =? 0) by lia. replace ((0 <=? j) && (j <? n)) with true by lia.
    replace ((0 <=? j) && (j <? n - 1)) with (j <? n - 1) by lia.
    destruct (Z.ltb_spec j (n - 1)), (Z.eqb_spec j (n - 1)), (Z.eqb_spec j 0); try lia; done.
Qed.

Lemma held_neutral r f args rv lg : neutral f = true -> held r (EvCall f args rv :: lg) = held r lg.
Proof. intros Hn. rewrite held_cons, neutral_delta by done. lia. Qed.

(** Only the log differs, by calls that no resource is about. *)
Definition only_log (s s' : est) : Prop :=
  (forall r, held r (s_log s') = held r (s_log s)) /\ exists lg, s' = set_log lg s.

#[export] Instance only_log_preorder : PreOrder only_log.
Proof.
  split; [intros s; split; [done|exists (s_log s); by destruct s]|].
  intros s1 s2 s3 [H1 [l1 ->]] [H2 [l2 ->]]. split; [intros r; by rewrite H2|by exists l2].
Qed.

#[export] Instance only_log_kcall f args : TCEq (neutral f) true -> Keep only_log (kcall f args).
Proof. intros Hn%TCEq_eq s a s' [= _ <-]. split; [|by eexists]. intros r. cbn. rewrite held_cons, neutral_delta by done. lia. Qed.
#[export] Instance only_log_kdo f args : TCEq (neutral f) true -> Keep only_log (kdo f args).
Proof. intros Hn%TCEq_eq s a s' [= _ <-]. split; [|by eexists]. intros r. cbn. rewrite held_cons, neutral_delta by done. lia. Qed.
#[export] Instance only_log_read a : Keep only_log (read_register a).
Proof. intros s b s' [= _ <-]. split; [|by eexists]. intros r. cbn. rewrite held_cons. cbn [delta]. lia. Qed.
#[export] Instance only_log_write x a : Keep only_log (write_register x a).
Proof. intros s b s' [= _ <-]. split; [|by eexists]. intros r. cbn. rewrite held_cons. cbn [delta]. lia. Qed.

#[export] Instance only_log_enable_perf : Keep only_log enable_perf.
Proof. unfold enable_perf, write_reg, read_reg, get_eng. keep. Qed.

(** The record of a run, if there is memory for it. *)
Lemma wp_read_perf arg s :
  wp (read_perf arg) (fun p s' => exists lg, s' = set_log lg s /\
    forall r, held r lg = held r (s_log s) + (if r is RPerf then if p is Some _ then 1 else 0 else 0)) s.
Proof.
  unfold read_perf. apply wp_bind, wp_kcall. set (q := kernel _ _ _).
  assert (forall r, held r (EvCall "kzalloc perf" [] q :: s_log s) =
    held r (s_log s) + (if r is RPerf then Z.b2z (negb (q =? 0)) else 0)) as Hh.
  { intros r. rewrite held_cons. destruct r; cbn; lia. }
  destruct (q =? 0); [apply wp_ret; by eexists|].
  do 8 (apply wp_bind, wp_kcall). apply wp_ret. eexists. split; [reflexivity|].
  intros r. do 8 (etrans; [by apply held_neutral|]). apply Hh.
Qed.

Lemma wp_enable_perf s : wp enable_perf (fun _ s' => only_log s s') s.
Proof.
  apply (wp_keep only_log enable_perf).
  exact (fun Hk => Hk).
Qed.

(** What a run relies on: an idle engine that accepts transfers, with a ring of
    the driver's size, on a device that is online. *)
Record run_ok (s : est) : Prop := {
  ro_mm : mm_engine (s_eng s);
  ro_queue : queue s = [];
  ro_run : e_running (s_eng s) = false;
  ro_ring : XDMA_PERF_NUM_DESC <= e_desc_max (s_eng s);
  ro_online : xdma_device_flag_check (s_xdev s) XDEV_FLAG_OFFLINE = false;
  ro_open : has_bits (e_shutdown (s_eng s)) ENGINE_SHUTDOWN_REQUEST = false
}.

(** The engine is idle and nothing was taken. *)
Record unchanged (s s' : est) : Prop := {
  uc_ok : run_ok s';
  uc_held : forall r, held r (s_log s') = held r (s_log s);
  uc_xfers : s_xfers s' = s_xfers s;
  uc_dev : s_xdev s' = s_xdev s;
  uc_perf : e_xdma_perf (s_eng s') = e_xdma_perf (s_eng s)
}.

(** No run: the engine is idle, and nothing was taken but the record of the run,
    if there was memory for it. *)
Record quiet (s s' : est) : Prop := {
  qt_ok : run_ok s';
  qt_held : forall r, held r (s_log s') = held r (s_log s) +
    (if r is RPerf then if e_xdma_perf (s_eng s') is Some _ then 1 else 0 else 0);
  qt_xfers : s_xfers s' = s_xfers s;
  qt_dev : s_xdev s' = s_xdev s
}.

(** [bus] is what the kernel gave as the bus address of the memory at [p]. *)
Definition handle_of (p bus : Z) : Prop := exists lg, bus = kernel lg "dma_handle" [p].

(** A run of the transfer [t]: the hardware moves [size] bytes between the buffer
    and the address 0 of the card, as often as it likes. *)
Record performing (t size : Z) (s s' : est) : Prop := {
  pf_mm : mm_engine (s_eng s');
  pf_ring : XDMA_PERF_NUM_DESC <= e_desc_max (s_eng s');
  pf_online : xdma_device_flag_check (s_xdev s') XDEV_FLAG_OFFLINE = false;
  pf_open : has_bits (e_shutdown (s_eng s')) ENGINE_SHUTDOWN_REQUEST = false;
  pf_queue : queue s' = [t];
  pf_run : e_running (s_eng s') = true;
  pf_perf : exists p, e_xdma_perf (s_eng s') = Some p /\ size = s32 (p_transfer_size p);
  pf_buf : e_perf_buf_virt (s_eng s') <> 0;
  pf_bus : handle_of (e_perf_buf_virt (s_eng s')) (e_perf_buf_bus (s_eng s'));
  pf_held : forall r, held r (s_log s') = held r (s_log s) + (match r with RDma | RPerf => 1 | _ => 0 end);
  pf_dev : s_xdev s' = s_xdev s;
  pf_xfer : exists x, s_xfers s' = <[t := x]> (s_xfers s) /\ x_cyclic x = true /\
    exists ring, e_desc (s_eng s') = Some ring /\ forall k, exists ds,
      hw_run k ring (e_desc_bus (s_eng s')) (x_desc_bus x) = Some ds /\ length ds = k /\
      Forall (moves_buffer (e_perf_buf_bus (s_eng s')) size (e_dir (s_eng s'))) ds
}.

Lemma perf_loop_range size n :
  - 2 ^ 31 <= size < 2 ^ 31 -> perf_loop_desc size = Some n -> 0 < n <= XDMA_PERF_NUM_DESC.
Proof.
  intros Hr. unfold perf_loop_desc, MAX_CONSISTENT_SIZE, XDMA_PERF_NUM_DESC. change (128 * 32 * 1024) with 4194304.
  destruct (Z.ltb_spec 4194304 (u32 size)) as [|Hs]; [done|].
  assert (0 <= size <= 4194304) as Hsz.
  { unfold u32 in Hs. Z.to_euclidean_division_equations; lia. }
  assert (u32 (s32 (size * 128)) = size * 128) as ->.
  { unfold s32, swrap, u32. change (32 - 1) with 31. rewrite (Z.mod_small (size * 128 + 2 ^ 31)) by lia. rewrite Z.mod_small; lia. }
  destruct (Z.ltb_spec 4194304 (size * 128)) as [Hl|]; intros [= <-]; [|lia].
  rewrite Z.quot_div_nonneg by lia. split; [apply Z.div_str_pos; lia|]. apply Z.div_le_upper_bound; lia.
Qed.

Lemma wp_dma_alloc_any size s (Q : Z * Z -> est -> Prop) :
  (forall buf bus lg, handle_of buf bus -> (forall r, held r lg = held r (s_log s) + (if r is RDma then Z.b2z (negb (buf =? 0)) else 0)) ->
     Q (buf, bus) (set_log lg s)) -> wp (dma_alloc_coherent size) Q s.
Proof.
  intros HQ. apply wp_bind, wp_kcall, wp_bind, wp_kcall, wp_ret.
  apply (HQ _ _ (EvCall "dma_handle" _ _ :: EvCall "dma_alloc_coherent" _ _ :: s_log s)); [by eexists|].
  intros r. rewrite held_neutral, held_cons by done. destruct r; cbn; lia.
Qed.

Ltac mm_same Hmm := let ring := fresh in destruct Hmm as [[ring []] ? ? ? ?]; split; try done; by exists ring.

(** A state whose engine is that of a ready state, up to what a run does not rely on. *)
Ltac ready Hok := let H := fresh in destruct Hok as [H ? ? ? ? ?]; split; try done; mm_same H.

Lemma wp_performance_submit s0 s p :
  run_ok s -> e_xdma_perf (s_eng s) = Some p ->
  s_xfers s0 = s_xfers s -> s_xdev s0 = s_xdev s ->
  (forall r, held r (s_log s) = held r (s_log s0) + (if r is RPerf then 1 else 0)) ->
  wp xdma_performance_submit (fun rv s' =>
    rv < 0 /\ unchanged s s' \/ rv = 0 /\ exists t, performing t (s32 (p_transfer_size p)) s0 s') s.
Proof.
  intros Hok Hp Hxf0 Hdev0 Hh0. pose proof Hok as [Hmm Hq Hrun Hring Hon Hop]. unfold xdma_performance_submit. apply wp_bind, wp_get_eng, wp_bind.
  eapply wp_deref; [exact Hp|]. set (size := s32 (p_transfer_size p)).
  destruct (perf_loop_desc size) as [n|] eqn:Hn; [|by apply wp_ret; left; split].
  apply perf_loop_range in Hn; [|unfold size, s32, swrap; change (32 - 1) with 31; Z.to_euclidean_division_equations; lia].
  apply wp_bind, wp_dma_alloc_any. intros buf bus lg1 Hbus Hl1. apply wp_bind, wp_upd_eng.
  destruct (Z.eqb_spec buf 0) as [Hz|Hz].
  { apply wp_ret. left. split; [done|]. split; try done; [ready Hok|]. intros r. cbn. rewrite Hl1. destruct r; cbn; lia. }
  apply wp_bind, wp_upd_eng, wp_bind, wp_kcall. set (tv := kernel _ _ _).
  match goal with |- wp _ _ ?st => set (s1 := st) end.
  assert (forall r, held r (s_log s1) = held r (s_log s) + (if r is RDma then 1 else 0)) as Hl2.
  { intros r. etrans; [by apply held_neutral|]. by rewrite Hl1. }
  assert (mm_engine (s_eng s1)) as Hmm1 by mm_same Hmm.
  destruct (tv =? 0).
  { unfold perf_buf_free. apply wp_bind, wp_bind, wp_get_eng, wp_bind. cbn [s1 e_perf_buf_virt s_eng set_log est_log set_s_eng set_e_perf_buf_bus set_e_perf_buf_virt].
    apply Z.eqb_neq in Hz. rewrite Hz. apply wp_kdo, wp_upd_eng, wp_ret. left. split; [done|]. split; try done; [ready Hok|].
    intros r. cbn [s_log set_s_eng]. etrans; [apply held_cons|]. rewrite Hl2. destruct r; cbn; lia. }
  destruct (mm_ring _ Hmm1) as [ring Hr]. pose proof (ring_len _ _ Hr) as Hlen.
  change (e_desc_max (s_eng s1)) with (e_desc_max (s_eng s)) in Hlen.
  apply wp_bind. unfold perf_desc_alloc. apply wp_bind, wp_get_eng. rewrite (ring_some _ _ Hr). apply wp_ret.
  apply wp_bind, wp_get_eng, wp_bind, wp_put_xfer. set (t := perf_key tv). set (x := perf_xfer (s_eng s1) n).
  apply wp_bind. eapply (wp_perf_build t n size _ x ring); [apply lookup_insert_eq|done|done|apply Hr|lia|].
  intros ring' Hlen' Hslots.
  match goal with |- wp _ _ ?st => set (s2 := st) end. set (x2 := set_x_cyclic true x).
  assert (s_xfers s2 !! t = Some x2) as Hx2 by apply lookup_insert_eq.
  assert (mm_engine (s_eng s2)) as Hmm2 by (apply (mm_engine_ring ring' (s_eng s1)); [exact Hmm1|rewrite Hlen'; exact Hlen]).
  assert (looped ring' (e_desc_bus (s_eng s1)) n (run_desc (e_desc_bus (s_eng s1)) (e_perf_buf_bus (s_eng s1)) n size (e_dir (s_eng s1)) (old_desc ring)))
    as Hloop.
  { split; [exact Hslots|..]; intros j Hj;
      (destruct (run_desc_spec (e_desc_bus (s_eng s1)) (e_perf_buf_bus (s_eng s1)) n size (e_dir (s_eng s1)) ltac:(lia) (old_desc ring) j Hj)
         as (Hnx & Hc & _); [apply Hr|destruct Hr; unfold DESC_SIZE in *; lia|]); [exact Hnx|by rewrite Hc]. }
  apply wp_bind, (wp_keep efixed (transfer_queue t)). eapply (wp_transfer_queue s2 t x2 _ Hx2).
  - split; (change (queue s2) with (queue s); rewrite Hq); [constructor|set_solver].
  - cbn. lia.
  - intros _ Hoff. change (xdma_device_flag_check (s_xdev s) XDEV_FLAG_OFFLINE = true) in Hoff. congruence.
  - intros _ _ Hsh. change (has_bits (e_shutdown (s_eng s)) ENGINE_SHUTDOWN_REQUEST = true) in Hsh. congruence.
  - intros _ _ _ e' lg (cpu & sh & dq & st & Hidle & Hst & ->). intros [Hh _]. apply wp_ret. right. split; [done|]. exists t. split; try done.
    + by apply (mm_engine_kin (s_eng s2)).
    + cbn. by destruct (Hidle Hrun) as [_ ->].
    + change (queue s2 ++ [t] = [t]). change (queue s2) with (queue s). by rewrite Hq.
    + by exists p.
    + intros r. rewrite Hh, Hl2, Hh0. destruct r; lia.
    + exists (set_x_state TRANSFER_STATE_SUBMITTED x2). split; [cbn; by rewrite Hxf0, !insert_insert_eq|]. split; [done|].
      exists ring'. split; [done|]. intros k. eexists. split; [|split].
      * pose proof (hw_run_looped _ _ _ _ k 0 Hloop ltac:(lia)) as Hw. rewrite Z.mod_0_l, Z.mul_0_r, Z.add_0_r in Hw by lia. exact Hw.
      * rewrite length_map, length_seqZ. lia.
      * apply Forall_map, Forall_true. intros m. pose proof (Z.mod_pos_bound m n ltac:(lia)) as Hm.
        apply run_desc_spec; [lia|done|apply Hr|]. destruct Hr. unfold DESC_SIZE in *. lia.
Qed.

(** ** Start and stop *)

Lemma run_ok_log s s' : only_log s s' -> run_ok s -> run_ok s'.
Proof. intros [_ [lg ->]] []. by split. Qed.

Lemma wp_perf_start arg s :
  run_ok s -> e_xdma_perf (s_eng s) = None ->
  wp (ioctl_do_perf_start arg) (fun rv s' =>
    rv < 0 /\ quiet s s' \/ rv = 0 /\ exists t size, performing t size s s') s.
Proof.
  intros Hok Hp. unfold ioctl_do_perf_start. apply wp_bind, wp_get_eng. rewrite Hp.
  apply wp_bind. eapply wp_mono; [apply wp_read_perf|]. intros p s1 (lg1 & -> & Hh1). apply wp_bind, wp_upd_eng.
  pose proof Hok as [Hmm Hq Hrun Hring Hon Hop].
  assert (quiet s (set_s_eng (set_e_xdma_perf p (s_eng s)) (set_log lg1 s))) as Hquiet.
  { split; try done. ready Hok. }
  destruct p as [p|]; [|apply wp_ret; left; by split].
  destruct (negb _); [apply wp_ret; left; by split|].
  apply wp_bind. eapply wp_mono; [apply wp_enable_perf|]. intros _ s2 [Hh2 [lg2 ->]].
  match goal with |- wp _ _ ?st => set (s2 := st) end.
  assert (forall r, held r (s_log s2) = held r (s_log s) + (if r is RPerf then 1 else 0)) as Hh.
  { intros r. etrans; [apply Hh2|apply Hh1]. }
  eapply wp_mono; [apply (wp_performance_submit s s2 p); [ready Hok|done..|exact Hh]|].
  intros rv s3 [[Hrv [? Hh3 ? ? Hp3]]|(-> & t & Hpf)]; [left|right].
  - split; [done|]. split; try done. intros r. rewrite Hh3, Hh, Hp3. done.
  - split; [done|]. by exists t, (s32 (p_transfer_size p)).
Qed.

(** While there is a record, no run starts. *)
Lemma perf_start_busy arg lg s :
  e_xdma_perf (s_eng s) <> None -> ioctl_do_perf_start arg (set_log lg s) = Some (- EBUSY, set_log lg s).
Proof.
  intros Hp. unfold ioctl_do_perf_start, bind, get_eng, gets, bind, get, ret. cbn.
  by destruct (e_xdma_perf (s_eng s)).
Qed.

Lemma wp_perf_stats s p :
  e_xdma_perf (s_eng s) = Some p ->
  wp get_perf_stats (fun _ s' => exists p' lg, (forall r, held r lg = held r (s_log s)) /\
    s' = set_log lg (set_s_eng (set_e_xdma_perf (Some p') (s_eng s)) s)) s.
Proof.
  intros Hp. set (J := fun s' : est => exists p' lg, s' = set_log lg (set_s_eng (set_e_xdma_perf (Some p') (s_eng s)) s)).
  assert (forall f s', J s' -> wp (read_reg f) (fun _ => J) s') as Hread.
  { intros f s' (p' & lg & ->). apply wp_bind, wp_get_eng, wp_read_register. by eexists p', (_ :: lg). }
  assert (forall f s', J s' -> wp (upd_perf f) (fun _ => J) s') as Hupd.
  { intros f s' (p' & lg & ->). apply wp_upd_eng. by exists (f p'), lg. }
  assert (J s) as Hs by (exists p, (s_log s); rewrite <-Hp; by destruct s as [? [] ? ? ? ? ? ?]).
  apply (wp_keep efixed get_perf_stats). apply (wp_mono _ (fun _ => J)).
  - unfold get_perf_stats. apply wp_bind, wp_get_eng. rewrite Hp.
    repeat (apply wp_bind; eapply wp_mono; [by first [apply Hread|apply Hupd]|intros ? ? ?]). by apply Hupd.
  - intros _ s' (p' & lg & ->) [Hh _]. by exists p', lg.
Qed.

(** The run is over: the engine is idle again, the buffer given back; the record
    and the transfer are freed if the user's memory took the results. *)
Record over (t rv : Z) (s s' : est) : Prop := {
  ov_ok : run_ok s';
  ov_buf : e_perf_buf_virt (s_eng s') = 0;
  ov_held : forall r, held r (s_log s') = held r (s_log s) + (if r is RPerf then Z.b2z (negb (rv =? 0)) else 0);
  ov_free : rv = 0 -> e_xdma_perf (s_eng s') = None /\ s_xfers s' = delete t (s_xfers s);
  ov_kept : rv <> 0 -> e_xdma_perf (s_eng s') <> None
}.

Lemma wp_perf_stop arg t size s s1 :
  performing t size s s1 -> wp (ioctl_do_perf_stop arg) (fun rv s2 => over t rv s s2) s1.
Proof.
  intros [Hmm Hring Hon Hop Hq Hrun (p & Hp & _) Hbuf _ Hh _ (x & Hx & Hcyc & _)]. unfold ioctl_do_perf_stop.
  apply wp_bind, wp_get_eng. rewrite Hp. apply wp_bind. unfold engine_cyclic_stop. apply wp_bind, wp_get_eng, wp_bind.
  eapply wp_deref; [exact Hp|]. assert (e_transfer_list (s_eng s1) = [t]) as -> by exact Hq. apply wp_bind.
  apply (wp_keep efixed xdma_engine_stop). unfold wp at 1. rewrite xdma_engine_stop_eq. intros [Hh2 _]. cbn [Z.ltb Z.compare].
  match goal with |- wp _ _ ?st => set (s2 := st) in * end. apply wp_bind. eapply (wp_get_xfer t x); [cbn; rewrite Hx; apply lookup_insert_eq|].
  rewrite Hcyc. cbn [when]. apply wp_bind, wp_bind. apply Z.eqb_neq in Hbuf. rewrite Hbuf. cbn [negb when].
  apply wp_kdo, wp_bind, wp_upd_eng, wp_upd_eng, wp_ret. match goal with |- wp _ _ ?st => set (s3 := st) end.
  assert (forall r, held r (s_log s3) = held r (s_log s) + (if r is RPerf then 1 else 0)) as Hh3.
  { intros r. etrans; [apply held_cons|]. rewrite Hh2, Hh. destruct r; cbn; lia. }
  assert (mm_engine (s_eng s3)) as Hmm3 by mm_same Hmm.
  apply wp_bind. eapply wp_mono; [by apply (wp_perf_stats s3 p)|]. intros _ s4 (p' & lg & Hh4 & ->).
  apply wp_bind. unfold write_perf. apply wp_bind, wp_get_eng, wp_bind. eapply wp_deref; [reflexivity|]. apply wp_kcall.
  match goal with |- wp (if negb (?c =? 0) then _ else _) _ ?st => set (rv := c); set (s5 := st) end.
  assert (forall r, held r (s_log s5) = held r (s_log s) + (if r is RPerf then 1 else 0)) as Hh5.
  { intros r. etrans; [by apply held_neutral|]. etrans; [apply Hh4|apply Hh3]. }
  assert (mm_engine (s_eng s5)) as Hmm5 by mm_same Hmm3.
  destruct (Z.eqb_spec rv 0) as [Hz|Hz]; cbn [negb].
  - apply wp_bind, wp_kdo, wp_bind, wp_modify, wp_bind, wp_kdo, wp_bind, wp_upd_eng, wp_ret. split; try done.
    + split; try done. mm_same Hmm5.
    + intros r. etrans; [apply held_cons|]. etrans; [apply f_equal2; [reflexivity|by apply held_neutral]|].
      rewrite Hh5. destruct r; cbn; lia.
    + intros _. split; [done|]. change (delete t (s_xfers s1) = delete t (s_xfers s)). by rewrite Hx, delete_insert_eq.
  - apply wp_ret. split; try done. intros r. rewrite Hh5. apply Z.eqb_neq in Hz. by rewrite Hz.
Qed.

Lemma performing_log t size s s1 lg :
  (forall r, held r lg = held r (s_log s1)) -> performing t size s s1 -> performing t size s (set_log lg s1).
Proof. intros Hlg [? ? ? ? ? ? ? ? ? Hh ? ?]. split; try done. intros r. etrans; [apply Hlg|apply Hh]. Qed.

End run.

(** ** A run of 4096 bytes *)

Definition perf_env (transfer_size : Z) : Env := {|
  io_read _ a := if a =? 0x1000 then 0x1fc10000 else 0;
  kernel _ f _ :=
    if String.eqb f "user perf version" then IOCTL_XDMA_PERF_V1
    else if String.eqb f "user perf transfer_size" then transfer_size
    else if String.eqb f "kzalloc perf" then 0x700
    else if String.eqb f "kzalloc xdma_transfer" then 40
    else if String.eqb f "dma_alloc_coherent" then 0xffff0000
    else if String.eqb f "dma_handle" then 0x80000 else 0;
  poll_mode := false;
  interrupt_mode := 0;
  enable_st_c2h_credit := false;
  desc_blen_max := XDMA_DESC_BLEN_MAX;
  HZ := 250;
  SIZEOF_REQ := 400
|}.

(** A user with another version of the record. *)
Definition old_env : Env := {|
  io_read := @io_read (perf_env 4096);
  kernel lg f args := if String.eqb f "user perf version" then 0 else @kernel (perf_env 4096) lg f args;
  poll_mode := false;
  interrupt_mode := 0;
  enable_st_c2h_credit := false;
  desc_blen_max := XDMA_DESC_BLEN_MAX;
  HZ := 250;
  SIZEOF_REQ := 400
|}.

Definition perf_state : est := demo_state DMA_FROM_DEVICE 128.

Lemma perf_run_ok size : @run_ok (perf_env size) perf_state.
Proof.
  split; try done. split; [exists (replicate 128 zero_desc); by split| |done|done|by intros].
  apply c2h_dump_ok; [done|cbn; lia].
Qed.

(** It starts, moves the buffer 300 times and more, and stops. *)
Example perf_runs :
  match @ioctl_do_perf_start (perf_env 4096) 0x900 perf_state with
  | Some (0, s1) =>
      e_running (s_eng s1) = true /\
      (length <$> hw_run 300 (default [] (e_desc (s_eng s1))) (e_desc_bus (s_eng s1)) (e_desc_bus (s_eng s1))) = Some 300%nat /\
      match @ioctl_do_perf_stop (perf_env 4096) 0x900 s1 with
      | Some (rv, s2) => rv = 0 /\ e_running (s_eng s2) = false /\ e_xdma_perf (s_eng s2) = None
      | None => False
      end
  | _ => False
  end.
Proof. vm_compute. done. Qed.

(** A size over the limit is refused. *)
Example perf_too_large :
  fst <$> @ioctl_do_perf_start (perf_env (MAX_CONSISTENT_SIZE + 1)) 0x900 perf_state = Some (- EINVAL).
Proof. by vm_compute. Qed.

(** A request of another version is refused, and so is every start after it. *)
Example perf_refused :
  match @ioctl_do_perf_start old_env 0x900 perf_state with
  | Some (rv, s1) => rv = - EINVAL /\ fst <$> @ioctl_do_perf_start (perf_env 4096) 0x900 s1 = Some (- EBUSY)
  | None => False
  end.
Proof. vm_compute. done. Qed.

