(* ===== verification/Session.v ===== *)
(** * Session: what happens between opening and closing a device

    A [driver_op] is one entry into the driver: an interrupt, a bottom half, a call
    on one of the character devices.  [driver_step] is the transition of the whole
    device, for the runs that return; whatever sequence of them runs, in whatever
    order, the device stays as [xdma_device_open] left it and [xdma_device_close]
    gives everything back. *)

From S2P Require Import Prelude Hw State Desc Engine Service Request Submit Aperture Dev DevFixtures Thread Irq IrqProps Device Ledger DeviceProps ProbeProps BarLedger IrqLife DeviceLife CdevSgdma AsyncProps Cdev Xvc Frame.

(** ** Entry points *)

Inductive driver_op :=
| DIsr                                                   (** [xdma_isr] *)
| DUserIrq (i : Z)                                       (** [xdma_user_irq] *)
| DChannelIrq (dir : dma_dir) (ch : Z)                   (** [xdma_channel_irq] *)
| DWork (dir : dma_dir) (ch : Z)                         (** [engine_service_work] *)
| DRead (xc : option xdma_cdev) (cb buf count pos : Z)   (** [char_sgdma_read] *)
| DWrite (xc : option xdma_cdev) (cb buf count pos : Z)
| DAio (xc : option xdma_cdev) (io : list (Z * Z)) (count pos : Z) (write : bool)
| DIoctl (fuel : nat) (xc : option xdma_cdev) (cb cmd arg : Z)
| DOpen (xc : xdma_cdev) (o_trunc : bool)
| DClose (xc : option xdma_cdev)
| DCtrlRead (xc : option xdma_cdev) (buf count pos : Z)
| DCtrlWrite (xc : option xdma_cdev) (buf count pos : Z)
| DCtrlIoctl (xc : option xdma_cdev) (cmd arg : Z)
| DXvcIoctl (xc : option xdma_cdev) (cmd arg : Z)
| DMmap (xc : option xdma_cdev) (vm_pgoff vm_start vm_end : Z)
| DBypassRead (xc : option xdma_cdev) (buf count : Z)
| DBypassWrite (xc : option xdma_cdev) (buf count : Z)
| DEventsRead (irqs : list Z) (xc : option xdma_cdev) (buf count pos : Z)
| DEventsPoll (xc : option xdma_cdev)
| DIsrRegister (mask handler dev : Z)
| DIsrEnable (mask : Z)
| DIsrDisable (mask : Z).

Section session.
Context `{Env} `{Sched}.
Variables (h2c_timeout c2h_timeout : Z).

Definition run_driver (op : driver_op) : M dst unit :=
  match op with
  | DIsr => xdma_isr >>; ret tt
  | DUserIrq i => xdma_user_irq i >>; ret tt
  | DChannelIrq dir ch => xdma_channel_irq dir ch >>; ret tt
  | DWork dir ch => on_engine dir ch engine_service_work
  | DRead xc cb buf count pos => char_sgdma_read h2c_timeout c2h_timeout xc cb buf count pos >>; ret tt
  | DWrite xc cb buf count pos => char_sgdma_write h2c_timeout c2h_timeout xc cb buf count pos >>; ret tt
  | DAio xc io count pos write => cdev_aio xc io count pos write >>; ret tt
  | DIoctl fuel xc cb cmd arg => char_sgdma_ioctl h2c_timeout c2h_timeout fuel xc cb cmd arg >>; ret tt
  | DOpen xc trunc => char_sgdma_open xc trunc >>; ret tt
  | DClose xc => char_sgdma_close xc >>; ret tt
  | DCtrlRead xc buf count pos => char_ctrl_read xc buf count pos >>; ret tt
  | DCtrlWrite xc buf count pos => char_ctrl_write xc buf count pos >>; ret tt
  | DCtrlIoctl xc cmd arg => char_ctrl_ioctl xc cmd arg >>; ret tt
  | DXvcIoctl xc cmd arg => xvc_ioctl xc cmd arg >>; ret tt
  | DMmap xc pgoff start last => bridge_mmap xc pgoff start last >>; ret tt
  | DBypassRead xc buf count => char_bypass_read xc buf count >>; ret tt
  | DBypassWrite xc buf count => char_bypass_write xc buf count >>; ret tt
  | DEventsRead irqs xc buf count pos =>
      char_events_read (forM irqs (fun i => xdma_user_irq i >>; ret tt)) xc buf count pos >>; ret tt
  | DEventsPoll xc => char_events_poll xc >>; ret tt
  | DIsrRegister mask handler dev => xdma_user_isr_register mask handler dev >>; ret tt
  | DIsrEnable mask => xdma_user_isr_enable mask >>; ret tt
  | DIsrDisable mask => xdma_user_isr_disable mask >>; ret tt
  end.

(** Performance runs and the switching of the device off and on are not part of
    an ordinary session: they allocate memory and release lines. *)
Definition ordinary (op : driver_op) : bool :=
  match op with
  | DIoctl _ _ _ cmd _ => negb ((cmd =? IOCTL_XDMA_PERF_START) || (cmd =? IOCTL_XDMA_PERF_STOP))
  | DCtrlIoctl _ cmd _ => negb ((cmd =? XDMA_IOCOFFLINE) || (cmd =? XDMA_IOCONLINE))
  | _ => true
  end.

Inductive driver_step (v : dst) : dst -> Prop :=
| step_op op v' : ordinary op = true -> run_driver op v = Some (tt, v') -> driver_step v v'.
End session.

(** ** Every entry point is framed *)

Section framed.
Context `{Env}.

#[export] Instance fixed_user_service i : Keep fixed (user_irq_service i).
Proof. unfold user_irq_service. framed. Qed.

#[export] Instance fixed_isr_users l u m : Keep fixed (isr_users l u m).
Proof. revert u m. induction l; intros u m; cbn [isr_users]; framed. Qed.

#[export] Instance fixed_isr_channels dir l m : Keep fixed (isr_channels dir l m).
Proof. revert m. induction l; intros m; cbn [isr_channels]; unfold schedule_work; framed. Qed.

#[export] Instance fixed_isr : Keep fixed xdma_isr.
Proof. unfold xdma_isr, channel_interrupts_disable. framed. Qed.

#[export] Instance fixed_channel_irq dir ch : Keep fixed (xdma_channel_irq dir ch).
Proof. unfold xdma_channel_irq, schedule_work. framed. Qed.

#[export] Instance fixed_register l m h d : Keep fixed (register_users l m h d).
Proof. revert m. induction l; intros m; cbn [register_users]; framed. Qed.

#[export] Instance fixed_isr_register m h d : Keep fixed (xdma_user_isr_register m h d).
Proof. unfold xdma_user_isr_register. framed. Qed.

#[export] Instance fixed_isr_enable m : Keep fixed (xdma_user_isr_enable m).
Proof. unfold xdma_user_isr_enable, user_interrupts_enable. framed. Qed.

#[export] Instance fixed_isr_disable m : Keep fixed (xdma_user_isr_disable m).
Proof. unfold xdma_user_isr_disable, user_interrupts_disable. framed. Qed.

#[export] Instance fixed_wakeup i : Keep fixed (xdma_kthread_wakeup i).
Proof. unfold xdma_kthread_wakeup. framed. Qed.

#[export] Instance fixed_cdev_check xc b : Keep fixed (cdev_check xc b).
Proof. unfold cdev_check, cdev_engine. framed. Qed.

#[export] Instance fixed_cdev_bar xc : Keep fixed (cdev_bar xc).
Proof. unfold cdev_bar. framed. Qed.
End framed.

Section files.
Context `{Env} `{Sched}.
Variables (h2c_timeout c2h_timeout : Z).

#[export] Instance fixed_select w ch (m : M est Z) : Keep efixed m -> Keep fixed (select_engine w ch m).
Proof. intros Hm. unfold select_engine, select_channel. framed. Qed.

#[export] Instance fixed_dev_submit ch w ep g b ms : Keep fixed (dev_xfer_submit ch w ep g b ms).
Proof. apply fixed_select, efixed_xfer_submit. Qed.

#[export] Instance fixed_dev_nowait cb ch w ep g b : Keep fixed (dev_xfer_submit_nowait cb ch w ep g b).
Proof. apply fixed_select, efixed_nowait. Qed.

#[export] Instance fixed_read_write xc cb buf count pos w :
  Keep fixed (char_sgdma_read_write h2c_timeout c2h_timeout xc cb buf count pos w).
Proof. unfold char_sgdma_read_write. framed. Qed.

#[export] Instance fixed_aio_loop n xc e caio cb i pos w io : Keep fixed (aio_loop n xc e caio cb i pos w io).
Proof. revert i. induction n; intros i; cbn [aio_loop]; unfold aio_one; framed. Qed.

#[export] Instance fixed_aio xc io count pos w : Keep fixed (cdev_aio xc io count pos w).
Proof. unfold cdev_aio. framed. Qed.

#[export] Instance fixed_sgdma_open xc b : Keep fixed (char_sgdma_open xc b).
Proof. unfold char_sgdma_open. framed. Qed.

#[export] Instance fixed_sgdma_close xc : Keep fixed (char_sgdma_close xc).
Proof. unfold char_sgdma_close. framed. Qed.

Lemma fixed_ioctl fuel xc cb cmd arg :
  ordinary (DIoctl fuel xc cb cmd arg) = true ->
  Keep fixed (char_sgdma_ioctl h2c_timeout c2h_timeout fuel xc cb cmd arg).
Proof.
  cbn [ordinary]. rewrite negb_true_iff, orb_false_iff. intros [E1 E2]. unfold char_sgdma_ioctl. rewrite E1, E2.
  unfold ioctl_do_addrmode_set, ioctl_do_addrmode_get, ioctl_do_align_get. framed.
Qed.

Lemma fixed_ctrl_ioctl xc cmd arg :
  ordinary (DCtrlIoctl xc cmd arg) = true -> Keep fixed (char_ctrl_ioctl xc cmd arg).
Proof.
  cbn [ordinary]. rewrite negb_true_iff, orb_false_iff. intros [E1 E2]. unfold char_ctrl_ioctl. rewrite E1, E2.
  unfold bad_access, version_ioctl. framed.
Qed.

#[export] Instance fixed_xvc_wait n a : Keep fixed (xvc_wait n a).
Proof. induction n; cbn [xvc_wait]; framed. Qed.
#[export] Instance fixed_xvc_loop fuel a tms tdi tdo n m : Keep fixed (xvc_loop fuel a tms tdi tdo n m).
Proof. revert tdo n. induction fuel; intros tdo n; cbn [xvc_loop]; unfold xvc_shift_bits; framed. Qed.
#[export] Instance fixed_copy_bytes f a n : TCEq (neutral f) true -> Keep fixed (copy_bytes f a n).
Proof. intros Hf. unfold copy_bytes. framed. Qed.
#[export] Instance fixed_xvc xc cmd arg : Keep fixed (xvc_ioctl xc cmd arg).
Proof. unfold xvc_ioctl, read_xvc_ioc, xvc_run, xvc_transfer, kfree_ret. framed. Qed.

#[export] Instance fixed_ctrl_read xc buf count pos : Keep fixed (char_ctrl_read xc buf count pos).
Proof. unfold char_ctrl_read. framed. Qed.
#[export] Instance fixed_ctrl_write xc buf count pos : Keep fixed (char_ctrl_write xc buf count pos).
Proof. unfold char_ctrl_write. framed. Qed.
#[export] Instance fixed_mmap xc o s l : Keep fixed (bridge_mmap xc o s l).
Proof. unfold bridge_mmap. framed. Qed.

#[export] Instance efixed_copy_data t buf off n : Keep efixed (copy_desc_data t buf off n).
Proof. unfold copy_desc_data. framed. Qed.
#[export] Instance efixed_copy_transfers buf n : Keep efixed (copy_transfers buf n).
Proof. unfold copy_transfers. framed. Qed.
#[export] Instance efixed_bypass_words n a buf off rc : Keep efixed (bypass_words n a buf off rc).
Proof. revert off rc. induction n; intros off rc; cbn [bypass_words]; framed. Qed.

#[export] Instance fixed_bypass_read xc buf count : Keep fixed (char_bypass_read xc buf count).
Proof. unfold char_bypass_read. framed. Qed.
#[export] Instance fixed_bypass_write xc buf count : Keep fixed (char_bypass_write xc buf count).
Proof. unfold char_bypass_write. framed. Qed.

#[export] Instance fixed_events_read irqs xc buf count pos :
  Keep fixed irqs -> Keep fixed (char_events_read irqs xc buf count pos).
Proof. intros Hi. unfold char_events_read. framed. Qed.
#[export] Instance fixed_events_poll xc : Keep fixed (char_events_poll xc).
Proof. unfold char_events_poll. framed. Qed.

Lemma fixed_driver op : ordinary op = true -> Keep fixed (run_driver h2c_timeout c2h_timeout op).
Proof.
  intros Ho. destruct op; cbn [run_driver]; try (by framed).
  - apply keep_bind; [apply _|by apply fixed_ioctl|intros; framed].
  - apply keep_bind; [apply _|by apply fixed_ctrl_ioctl|intros; framed].
  - apply keep_bind; [apply _|apply fixed_events_read|intros]; unfold xdma_user_irq; framed.
Qed.

Lemma driver_step_fixed v v' : driver_step h2c_timeout c2h_timeout v v' -> fixed v v'.
Proof. intros [op v'' Ho Hrun]. exact (keep_run (Keep := fixed_driver op Ho) v tt v'' Hrun). Qed.
End files.

(** ** The state of an open device *)

Lemma fixed_lookup dir v v' j e' :
  fixed v v' -> zlookup (engines dir v') j = Some e' ->
  exists e, zlookup (engines dir v) j = Some e /\ engine_core e' = engine_core e.
Proof.
  intros (_ & _ & _ & _ & He) Hj. specialize (He dir).
  assert (zlookup (map engine_core (engines dir v')) j = Some (engine_core e')) as Hm by (by rewrite zlookup_map, Hj).
  rewrite He, zlookup_map in Hm. destruct (zlookup (engines dir v) j) as [e|]; [|done]. exists e. split; [done|]. cbn in Hm. congruence.
Qed.

Lemma fixed_length dir v v' : fixed v v' -> length (engines dir v') = length (engines dir v).
Proof. intros (_ & _ & _ & _ & He). specialize (He dir). apply (f_equal length) in He. by rewrite !length_map in He. Qed.

Lemma core_mem e e' : engine_core e' = engine_core e -> mem_of e' = mem_of e.
Proof.
  unfold engine_core, mem_of. destruct (e_desc e), (e_desc e'); intros [=]; congruence.
Qed.

Lemma core_mems l l' : map engine_core l' = map engine_core l -> mems l' = mems l.
Proof.
  unfold mems. intros E. f_equal. revert l E. induction l' as [|e' l' IH]; intros [|e l]; try done. cbn [map].
  intros Hc. f_equal; [apply core_mem|apply IH]; congruence.
Qed.

Lemma fixed_owns r v v' : fixed v v' -> owns r v' = owns r v.
Proof.
  intros (_ & _ & _ & Hd & He). destruct r; try done; cbn.
  - by injection Hd as ->.
  - pose proof (He DMA_TO_DEVICE) as Eh. pose proof (He DMA_FROM_DEVICE) as Ec. cbn in Eh, Ec.
    by rewrite (core_mems _ _ Eh), (core_mems _ _ Ec).
Qed.

Lemma fixed_max dir v v' : fixed v v' -> channel_max dir (v_dev v') = channel_max dir (v_dev v).
Proof. intros (_ & _ & _ & Hd & _). unfold channel_max. injection Hd. by destruct dir. Qed.

Lemma fixed_live dir v v' : fixed v v' -> engines_live dir v -> engines_live dir v'.
Proof.
  intros Hf (Hlen & Hmax & Hl). unfold engines_live. rewrite (fixed_length dir v v' Hf), (fixed_max dir v v' Hf).
  split_and!; [done|lia..|]. intros j e' (e & He & E)%(fixed_lookup dir v v' j e' Hf). destruct (Hl j e He) as [H1 H2].
  split; intros Hj; [by injection E as -> _; apply H1|]. rewrite (core_mem _ _ E). by apply H2.
Qed.

Lemma fixed_wf v v' : fixed v v' -> dev_wf v -> dev_wf v'.
Proof.
  intros Hf [[b Hb] Hh Hc Hu He]. pose proof Hf as (_ & _ & _ & Hd & _). injection Hd. intros. split; try congruence.
  - exists b. congruence.
  - intros dir. by rewrite (fixed_length dir v v' Hf), (fixed_max dir v v' Hf).
Qed.

Lemma fixed_isr_ok v v' : fixed v v' -> isr_ok v -> isr_ok v'.
Proof.
  intros Hf [[b Hb] [Hu Hus] He Hbits]. pose proof Hf as (_ & _ & _ & Hd & _). injection Hd as E1 E2 _ _ E5 _ _ _ _ _ _ _ E13. split.
  - exists b. congruence.
  - rewrite E5. split; [done|]. intros k Hk. apply zlookup_is_Some. rewrite E13. by apply zlookup_is_Some, Hus.
  - intros dir i. rewrite (fixed_max dir v v' Hf). intros Hi. apply zlookup_is_Some. rewrite (fixed_length dir v v' Hf).
    by apply zlookup_is_Some, He.
  - intros dir i j ei' ej' Hij (ei & Hi & Ei)%(fixed_lookup dir v v' i ei' Hf) (ej & Hj & Ej)%(fixed_lookup dir v v' j ej' Hf).
    injection Ei as _ -> _. injection Ej as _ -> _. exact (Hbits dir i j ei ej Hij Hi Hj).
Qed.

Lemma fixed_lines v v' : fixed v v' -> lines_known v -> lines_known v'.
Proof.
  intros Hf. pose proof Hf as (_ & _ & _ & Hd & _). injection Hd as _ _ _ _ _ _ _ _ _ _ Ex El _. unfold lines_known.
  rewrite Ex, El. destruct (d_msix_enabled (v_dev v)); [|done]. intros Hl dir j e'. rewrite (fixed_max dir v v' Hf).
  intros Hj (e & He & E)%(fixed_lookup dir v v' j e' Hf). injection E as _ _ -> _. by eapply Hl.
Qed.

Lemma fixed_equipped v v' : fixed v v' -> equipped v -> equipped v'.
Proof.
  intros Hf ([b Hb] & Hl & He). pose proof Hf as (_ & _ & _ & Hd & _). injection Hd as E1 E2 _. split_and!.
  - exists b. congruence.
  - congruence.
  - intros dir. eapply fixed_live; [exact Hf|apply He].
Qed.

Lemma fixed_opened base l0 p pdev v v' : fixed v v' -> opened base l0 p pdev v -> opened base l0 p pdev v'.
Proof.
  intros Hf [[Ep Eh El Hb] He Hwf Hi Hr Hv Hk]. pose proof Hf as (Hh & Eh' & El' & Hd & _).
  injection Hd as _ _ E3 E4 E5 E6 E7 E8 E9 E10 E11 _ _. split.
  - split; [congruence..|by rewrite El', E7|]. intros r. unfold balance. rewrite (fixed_owns r v v' Hf).
    cbn [log_of dst_log]. rewrite Hh. unfold lines, vectors. rewrite E3, E4, E5, E10, E11. apply Hb.
  - by eapply fixed_equipped.
  - by eapply fixed_wf.
  - by eapply fixed_isr_ok.
  - by rewrite E8, E9.
  - by rewrite E10, E11.
  - by eapply fixed_lines.
Qed.

(** ** The theorem *)

Section session_life.
Context `{Env} `{Sched} `{!IrqLaws}.
Variables (h2c_timeout c2h_timeout : Z).
Hypothesis Hpoll : poll_mode = false.

Lemma session_fixed v v' : rtc (driver_step h2c_timeout c2h_timeout) v v' -> fixed v v'.
Proof. induction 1 as [|v v1 v2 Hs _ IH]; [done|]. etrans; [by eapply driver_step_fixed|exact IH]. Qed.

(** A run of entry points is a sequence of steps. *)
Lemma session_steps ops v v' :
  forallb ordinary ops = true -> forM ops (run_driver h2c_timeout c2h_timeout) v = Some (tt, v') ->
  rtc (driver_step h2c_timeout c2h_timeout) v v'.
Proof.
  revert v. induction ops as [|op ops IH]; intros v; cbn [forallb forM]; [intros _ [= <-]; constructor|].
  rewrite andb_true_iff. intros [Ho Hos]. unfold bind. destruct (run_driver _ _ op v) as [[[] v1]|] eqn:E; [|done].
  intros Hrun. eapply rtc_l; [by econstructor|by apply IH].
Qed.

(** C5: whatever happens between opening and closing a device in interrupt mode,
    in any order and for every answer of the device, of the kernel and of the
    users -- interrupts, bottom halves, reads and writes with other code running
    while they sleep, asynchronous requests, register, bypass, event and
    configuration calls, but no start or stop of a performance run and no
    offline or online call ([ordinary]; [running_perf_keeps_buffer] and
    [offline_close_releases_twice] show why) -- the device stays as
    [xdma_device_open] left it: its place in the list, its BARs, limits, lines and
    the memory of its engines are the same, and no resource was taken or given
    back.  The interrupt handler returns and serves every interrupt, and
    [xdma_device_close] gives back every resource that [xdma_device_open] took.
    This is about the operations that return: whether one returns is not part of
    it. *)
Theorem device_session pdev um hm cm lim v v1 v2 :
  pdev <> 0 -> 0 <= um -> 0 <= hm -> 0 <= cm ->
  next_dev v ∉ map (fun x => fst (fst x)) (v_list v) -> find_pdev (v_list v) pdev = None ->
  xdma_device_open pdev um hm cm v = Some (Some lim, v1) ->
  rtc (driver_step h2c_timeout c2h_timeout) v1 v2 ->
  fixed v1 v2 /\ registered pdev v2 /\
  (exists b, zlookup (d_bar (v_dev v2)) (d_config_bar_idx (v_dev v2)) = Some b /\ wp xdma_isr (isr_outcome b v2) v2) /\
  exists v3, xdma_device_close pdev v2 = Some (tt, v3) /\ v_list v3 = v_list v /\
    forall x, held x (v_log v3) = held x (v_log v).
Proof.
  intros Hpd Hum Hhm Hcm Hfresh Hfind Hopen Hsteps%session_fixed.
  pose proof (wp_device_open Hpoll pdev um hm cm v Hpd Hum Hhm Hcm Hfresh) as Hw. unfold wp in Hw. rewrite Hopen in Hw.
  destruct Hw as [Hres Hp]. destruct lim as [[u h] c]. destruct Hres as [Ho _]. specialize (Hp ltac:(by eexists)).
  apply (fixed_opened _ _ _ _ _ v2 Hsteps) in Ho. split; [done|]. split; [by eapply opened_registered|].
  split.
  { assert (isr_ok v2) as Hok by apply Ho. destruct (io_config _ Hok) as [b Hb]. exists b. split; [done|]. by apply wp_xdma_isr. }
  pose proof (wp_device_close Hpoll _ _ _ pdev Hfresh v2 Hpd Hp Hfind Ho) as ([] & v3 & Hclose & El & Hh)%wp_iff.
  by exists v3.
Qed.
End session_life.

(** ** Witness *)

(** The device of [DeviceLife], with memory for a user buffer; its C2H engine
    completes two descriptors. *)
Definition session_kernel (lg : list event) (f : string) (args : list Z) : Z :=
  if String.eqb f "pinned page" then
    match args with [i] => if (0 <=? i) && (i <? 16) then 0x100000 + 0x2000 * i else 0x200000 | _ => 1 end
  else if one_of ["get_user_pages_fast"; "pci_map_sg"]%string f then match args with _ :: n :: _ => n | _ => 0 end
  else if String.eqb f "kzalloc" then 40
  else if one_of ["kcalloc"; "kmem_cache_alloc"; "kzalloc cb"; "kzalloc perf"; "kzalloc xdma_transfer"]%string f then 50
  else if one_of ["user perf version"; "spin_trylock"]%string f then 1
  else if String.eqb f "user perf transfer_size" then 4096
  else life_kernel false lg f args.

Definition session_env : Env := {|
  io_read lg a :=
    if a =? 0x21000 + offsetof engine_regs "completed_desc_count" then 2
    else if a =? 0x22000 + offsetof interrupt_regs "channel_int_request" then 4
    else @io_read (life_env false) lg a;
  kernel := session_kernel;
  poll_mode := false; interrupt_mode := 0; enable_st_c2h_credit := false;
  desc_blen_max := XDMA_DESC_BLEN_MAX; HZ := 250; SIZEOF_REQ := 400
|}.

(** A thread that sleeps is woken by the bottom half. *)
Definition session_sched : Sched := fun _ => [OpWork].

#[export] Instance session_laws : @IrqLaws session_env.
Proof.
  split; cbn; try done. intros lg f a. unfold one_of, request_irqs. cbn [existsb]. rewrite !orb_true_iff.
  intros [E|[E|[E|[E|E]]]]; try done; apply String.eqb_eq in E as ->; cbn; lia.
Qed.

Definition session_start : dst :=
  match @xdma_device_open session_env 1 16 4 4 no_dev with Some (_, v) => v | None => no_dev end.

Definition session_cdev (engine : option (dma_dir * Z)) : option xdma_cdev :=
  Some (mk_cdev MAGIC_CHAR 77 1 0 engine (Some 3)).

(** A blocking read of 24 bytes, an interrupt, an asynchronous read ended by the
    bottom half, a user interrupt whose reader comes later, a register access. *)
Definition session_ops : list driver_op :=
  let c2h := session_cdev (Some (DMA_FROM_DEVICE, 0)) in
  [DOpen (mk_cdev MAGIC_CHAR 77 1 0 (Some (DMA_FROM_DEVICE, 0)) None) false;
   DRead c2h 9 0x1ff8 24 0x100; DIsr;
   DAio c2h [(0x1ff8, 24)] 1 0x100 false; DWork DMA_FROM_DEVICE 0;
   DUserIrq 3; DEventsPoll (session_cdev None); DEventsRead [] (session_cdev None) 0x5000 4 0;
   DCtrlWrite (session_cdev None) 0x5000 4 0x2000; DClose c2h].

Definition run_session (ops : list driver_op) : M dst unit :=
  @forM dst driver_op ops (@run_driver session_env session_sched 10 10).

Definition session_end : dst :=
  match run_session session_ops session_start with Some (_, v) => v | None => no_dev end.

(** Both reads get their 24 bytes, the user interrupt its event. *)
Example session_answers :
  answers (v_log session_end) = [[50; 24; 0]] /\ v_caios session_end = ∅ /\ v_reqs session_end = ∅ /\
  match @char_sgdma_read session_env session_sched 10 10 (session_cdev (Some (DMA_FROM_DEVICE, 0)))
          9 0x1ff8 24 0x100 session_start with
  | Some (rv, _) => rv = 24
  | None => False
  end.
Proof. vm_compute. done. Qed.

(** A performance run that is not stopped before the device is closed keeps its
    buffer. *)
Example running_perf_keeps_buffer :
  match run_session [DIoctl 5 (session_cdev (Some (DMA_FROM_DEVICE, 0))) 9 IOCTL_XDMA_PERF_START 0x5000] session_start with
  | Some (_, v) =>
      match @xdma_device_close session_env 1 v with
      | Some (_, v') => map (fun x => held x (v_log v')) all_resources = [0; 0; 0; 0; 0; 1; 0; 0]
      | None => False
      end
  | None => False
  end.
Proof. vm_compute. done. Qed.

Lemma device_session_witness :
  fixed session_start session_end /\ registered 1 session_end /\
  (exists b, zlookup (d_bar (v_dev session_end)) (d_config_bar_idx (v_dev session_end)) = Some b /\
     wp (@xdma_isr session_env) (@isr_outcome session_env b session_end) session_end) /\
  exists v3, @xdma_device_close session_env 1 session_end = Some (tt, v3) /\ v_list v3 = [] /\
    forall x, held x (v_log v3) = held x [].
Proof.
  apply (@device_session session_env session_sched _ 10 10 eq_refl 1 16 4 4 (16, 2, 1) no_dev session_start session_end);
    [lia|lia|lia|lia|apply not_elem_of_nil|reflexivity|vm_compute; reflexivity|].
  apply (@session_steps session_env session_sched 10 10 session_ops); vm_compute; reflexivity.
Defined.
