(* ===== verification/Live.v ===== *)
(** * Live: an open device never goes wrong

    On a device whose engines move memory, every call of a session returns, and
    leaves every engine idle and ready for the next call.  [Safe] says that a
    computation returns and keeps the device so; its rules follow the structure of
    a computation, and [safely] applies them. *)

From S2P Require Import Prelude Hw State Desc Engine Service Request Chain ServiceSpec ServiceProps Submit SubmitSpec Dev DevFixtures Thread Irq IrqProps Device Ledger CdevSgdma SgdmaProps RwProps ApertureIoctl DeviceProps ProbeProps IrqLife DeviceLife Cdev Xvc Frame Session XvcProps.

(** ** Idle engines *)

Section live.
Context `{Env} `{Sched}.

(** Every engine of the device moves memory and has nothing to do. *)
Definition ready (v : dst) : Prop := forall dir i e,
  0 <= i < channel_max dir (v_dev v) -> zlookup (engines dir v) i = Some e ->
  mm_engine e /\ e_transfer_list e = [].

(** Every engine is where its direction and channel say. *)
Definition placed (v : dst) : Prop := forall dir i e,
  0 <= i < channel_max dir (v_dev v) -> zlookup (engines dir v) i = Some e ->
  e_dir e = dir /\ e_channel e = i.

Lemma fixed_placed v v' : fixed v v' -> placed v -> placed v'.
Proof.
  intros Hf Hp dir i e'. rewrite (fixed_max dir v v' Hf). intros Hi (e & He & E)%(fixed_lookup dir v v' i e' Hf).
  destruct (Hp dir i e Hi He) as [Hd Hc]. injection E. intros. split; congruence.
Qed.

(** Only the engines count. *)
Lemma ready_same v v' :
  fixed v v' -> (forall dir, engines dir v' = engines dir v) -> ready v -> ready v'.
Proof. intros Hf He Hr dir i e. rewrite (fixed_max dir v v' Hf), He. apply Hr. Qed.

Variable v1 : dst.
Hypothesis Hwf : dev_wf v1.
Hypothesis Hisr : isr_ok v1.
Hypothesis Hplaced : placed v1.

Definition live (v : dst) : Prop := fixed v1 v /\ ready v.

Lemma live_step v v' : live v -> fixed v v' -> ready v' -> live v'.
Proof. intros [Hf _] Hf' Hr. split; [by etrans|done]. Qed.

Definition Safe {A} (m : M dst A) : Prop := forall v, live v -> wp m (fun _ v' => live v') v.

(** ** Rules *)

Lemma safe_ret {A} (a : A) : Safe (ret a).
Proof. intros v Hv. by apply wp_ret. Qed.
Lemma safe_bind {A B} (m : M dst A) (k : A -> M dst B) : Safe m -> (forall a, Safe (k a)) -> Safe (bind m k).
Proof. intros Hm Hk v Hv. apply wp_bind. eapply wp_mono; [by apply Hm|]. intros a v'. apply Hk. Qed.
Lemma safe_deref {A B} (a : A) (k : A -> M dst B) : Safe (k a) -> Safe (bind (deref (Some a)) k).
Proof. intros Hk v Hv. by apply wp_bind, wp_ret, Hk. Qed.
Lemma safe_if {A} (b : bool) (m m' : M dst A) : Safe m -> Safe m' -> Safe (if b then m else m').
Proof. by destruct b. Qed.
Lemma safe_when b (m : M dst unit) : Safe m -> Safe (when b m).
Proof. intros Hm. destruct b; [done|apply safe_ret]. Qed.
Lemma safe_forM {A} (l : list A) (f : A -> M dst unit) : (forall x, x ∈ l -> Safe (f x)) -> Safe (forM l f).
Proof. intros Hf v Hv. apply wp_forM_simple; [done|]. intros x v' Hx Hv'. by apply Hf. Qed.

(** A framed computation that leaves the engines alone. *)
Lemma safe_keep {A} (m : M dst A) : Keep fixed m ->
  (forall v, live v -> wp m (fun _ v' => forall dir, engines dir v' = engines dir v) v) -> Safe m.
Proof.
  intros Hk Hm v Hv. apply (wp_keep fixed m). eapply wp_mono; [by apply Hm|]. intros a v' He Hf.
  eapply live_step; [exact Hv|exact Hf|]. eapply ready_same; [exact Hf|exact He|apply Hv].
Qed.

Lemma safe_kcall f args : neutral f = true -> Safe (kcall f args).
Proof. intros Hn. apply safe_keep; [apply fixed_kcall; by rewrite Hn|]. intros v _. by apply dwp_kcall. Qed.
Lemma safe_kdo f args : neutral f = true -> Safe (kdo f args).
Proof. intros Hn. apply safe_keep; [apply fixed_kdo; by rewrite Hn|]. intros v _. by apply dwp_kdo. Qed.
Lemma safe_read a : Safe (read_register a).
Proof. apply safe_keep; [apply _|]. intros v _. by apply dwp_read. Qed.
Lemma safe_write x a : Safe (write_register x a).
Proof. apply safe_keep; [apply _|]. intros v _. by apply dwp_write. Qed.
Lemma safe_upd_dev f : (forall d, device_core (f d) = device_core d) -> Safe (upd_dev f).
Proof. intros Hf. apply safe_keep; [by apply fixed_upd_dev|]. intros v _. by apply dwp_upd_dev. Qed.

(** The device, as far as opening fixed it. *)
Definition the_dev (d : xdma_dev) : Prop := device_core d = device_core (v_dev v1).

Lemma live_dev v : live v -> the_dev (v_dev v).
Proof. by intros [(_ & _ & _ & Hd & _) _]. Qed.

Lemma safe_get_dev {A} (k : xdma_dev -> M dst A) :
  (forall d, the_dev d -> Safe (k d)) -> Safe (bind get_dev k).
Proof. intros Hk v Hv. apply wp_bind, dwp_get_dev, Hk; [by apply live_dev|done]. Qed.

Lemma the_dev_config d : the_dev d -> has_config d.
Proof. intros Hd. destruct (wf_config _ Hwf) as [b Hb]. injection Hd as E1 E2 _. exists b. congruence. Qed.
Lemma the_dev_user d : the_dev d -> d_user_max d = d_user_max (v_dev v1).
Proof. intros Hd. by injection Hd. Qed.
Lemma the_dev_max dir d : the_dev d -> channel_max dir d = channel_max dir (v_dev v1).
Proof. intros Hd. unfold channel_max. injection Hd. by destruct dir. Qed.

Lemma safe_int_reg d f : the_dev d -> Safe (int_reg d f).
Proof. intros Hd v Hv. apply dwp_int_reg; [by apply the_dev_config|done]. Qed.

Lemma safe_read_interrupts d : the_dev d -> Safe (read_interrupts d).
Proof.
  intros Hd. unfold read_interrupts.
  repeat (apply safe_bind; [by apply safe_int_reg|intros ?]; apply safe_bind; [apply safe_read|intros ?]). apply safe_ret.
Qed.

Lemma live_user v i : live v -> 0 <= i < d_user_max (v_dev v1) -> exists u, zlookup (d_user_irq (v_dev v)) i = Some u.
Proof.
  intros [Hf _] Hi. destruct (fixed_isr_ok _ _ Hf Hisr) as [_ [_ Hu] _ _]. apply Hu.
  by rewrite (the_dev_user (v_dev v)) by apply Hf.
Qed.

Lemma safe_get_user i : 0 <= i < d_user_max (v_dev v1) -> Safe (get_user_irq i).
Proof. intros Hi v Hv. destruct (live_user v i Hv Hi) as [u Hu]. by eapply dwp_get_user. Qed.

Lemma safe_upd_user i f : 0 <= i < d_user_max (v_dev v1) -> Safe (upd_user_irq i f).
Proof.
  intros Hi. apply safe_keep; [apply _|]. intros v Hv. destruct (live_user v i Hv Hi) as [u Hu].
  eapply dwp_upd_user; [exact Hu|]. by intros [].
Qed.

Definition has_engine (dir : dma_dir) (i : Z) : Prop := 0 <= i < channel_max dir (v_dev v1).

Lemma live_engine v dir i :
  live v -> has_engine dir i ->
  exists e, zlookup (engines dir v) i = Some e /\ mm_engine e /\ e_transfer_list e = [] /\ e_dir e = dir /\ e_channel e = i.
Proof.
  intros [Hf Hr] Hi. unfold has_engine in Hi. rewrite <-(fixed_max dir v1 v Hf) in Hi.
  destruct (io_engines _ (fixed_isr_ok _ _ Hf Hisr) dir i Hi) as [e He]. exists e. split; [done|].
  destruct (Hr dir i e Hi He). by destruct (fixed_placed _ _ Hf Hplaced dir i e Hi He).
Qed.

Lemma safe_get_engine dir i : has_engine dir i -> Safe (get_engine dir i).
Proof. intros Hi v Hv. destruct (live_engine v dir i Hv Hi) as (e & He & _). by eapply dwp_get_engine. Qed.

(** An operation on one engine keeps the others as they are. *)
Lemma live_unfocus v dir i s :
  live v -> has_engine dir i -> fixed v (unfocus_engine dir i s v) ->
  mm_engine (s_eng s) -> queue s = [] -> live (unfocus_engine dir i s v).
Proof.
  intros Hv Hi Hf Hmm Hq. eapply live_step; [exact Hv|exact Hf|]. intros dir' j e. rewrite (fixed_max dir' _ _ Hf).
  destruct (decide (dir = dir')) as [<-|Hne]; [|rewrite engines_unfocus_other by done; by apply Hv].
  destruct (live_engine v dir i Hv Hi) as (e0 & [Hi0 He0]%zlookup_nat & _). intros Hj.
  rewrite engines_unfocus, zlookup_insert_z by (apply lookup_lt_Some in He0; lia).
  case_decide as Hij; [by intros [= <-]|]. by apply Hv.
Qed.

Lemma safe_on_engine {A} dir i (m : M est A) :
  has_engine dir i -> Keep efixed m ->
  (forall s, mm_engine (s_eng s) -> queue s = [] -> the_dev (s_xdev s) ->
     wp m (fun _ s' => mm_engine (s_eng s') /\ queue s' = []) s) ->
  Safe (on_engine dir i m).
Proof.
  intros Hi Hk Hm v Hv. destruct (live_engine v dir i Hv Hi) as (e & He & Hmm & Hq & _).
  apply (wp_keep fixed (on_engine dir i m)). eapply wp_on_engine; [exact He|].
  eapply wp_mono; [by apply Hm; [..|apply live_dev]|]. intros a s [Hmm' Hq'] Hf. by apply live_unfocus.
Qed.
End live.

(** [safely] follows the structure of a computation. *)
Ltac safely_step :=
  lazymatch goal with
  | |- Safe _ (ret _) => apply safe_ret
  | |- Safe _ (bind get_dev _) => apply safe_get_dev; intros ? ?
  | |- Safe _ (bind (deref (Some _)) _) => apply safe_deref
  | |- Safe _ (bind _ _) => apply safe_bind; [|intros ?]
  | |- Safe _ (when _ _) => apply safe_when
  | |- Safe _ (kcall _ _) => apply safe_kcall; done
  | |- Safe _ (kdo _ _) => apply safe_kdo; done
  | |- Safe _ (read_register _) => apply safe_read
  | |- Safe _ (write_register _ _) => apply safe_write
  | |- Safe _ (upd_dev _) => apply safe_upd_dev; by intros
  | |- Safe _ (int_reg _ _) => apply safe_int_reg; done
  | |- Safe _ (read_interrupts _) => apply safe_read_interrupts; done
  | |- Safe _ (get_user_irq _) => apply safe_get_user; by auto
  | |- Safe _ (upd_user_irq _ _) => apply safe_upd_user; by auto
  | |- Safe _ (get_engine _ _) => apply safe_get_engine; done
  | |- Safe _ (match ?x with _ => _ end) => destruct x
  end.
Ltac safely := repeat safely_step.

(** ** The entry points *)

Section entries.
Context `{PinOk} `{!DmaOk} `{Sched}.
Variable v1 : dst.
Hypothesis Hwf : dev_wf v1.
Hypothesis Hisr : isr_ok v1.
Hypothesis Hplaced : placed v1.
Abbreviation Safe := (Safe v1).
Abbreviation has_engine := (has_engine v1).

Lemma safe_isr : Safe xdma_isr.
Proof.
  apply safe_keep; [apply _|]. intros v [Hf _].
  pose proof (fixed_isr_ok _ _ Hf Hisr) as Hok. destruct (io_config _ Hok) as [b Hb].
  eapply wp_mono; [by apply (wp_xdma_isr b)|]. intros r v' (_ & new & _ & _ & _ & ->) []; done.
Qed.

Lemma safe_user_irq i : 0 <= i < d_user_max (v_dev v1) -> Safe (user_irq_service i).
Proof. intros Hi. unfold user_irq_service. safely. Qed.

Lemma safe_channel_irq dir ch : has_engine dir ch -> Safe (xdma_channel_irq dir ch).
Proof. intros Hi. unfold xdma_channel_irq, schedule_work. safely. Qed.

Lemma idle_service_ok s : mm_engine (s_eng s) -> queue s = [] -> service_ok s.
Proof.
  intros Hmm Hq. split; [|apply Hmm|].
  - split; rewrite Hq; [constructor|]. intros t Ht. by apply not_elem_of_nil in Ht.
  - intros Hf. by rewrite (mm_flush _ Hmm) in Hf.
Qed.

(** A bottom half that finds nothing to do. *)
Lemma safe_work dir ch : has_engine dir ch -> Safe (on_engine dir ch engine_service_work).
Proof.
  intros Hi. apply safe_on_engine; try done; [apply efixed_work|]. intros s Hmm Hq Hd.
  eapply wp_mono; [apply wp_service_work; [by apply idle_service_ok|by eapply the_dev_config]|].
  intros _ s' [d Hs]. split; [eapply mm_engine_kin; [|exact Hmm]; by destruct (serviced_frame _ _ _ Hs)|].
  pose proof (sv_queue _ _ _ Hs) as E. rewrite Hq in E. symmetry in E. by apply app_eq_nil in E as [_ ?].
Qed.

(** ** Files *)

Definition engine_file (xc : xdma_cdev) : Prop := exists dir i, xc_engine xc = Some (dir, i) /\ has_engine dir i.

Lemma safe_check xc b : xc_engine xc = None \/ engine_file xc -> Safe (cdev_check (Some xc) b).
Proof.
  intros Hx. unfold cdev_check, cdev_engine. destruct Hx as [->|(dir & i & -> & Hi)]; safely.
Qed.

Lemma safe_on_cdev {A} xc (m : M est A) :
  engine_file xc -> Keep efixed m ->
  (forall s, mm_engine (s_eng s) -> queue s = [] -> the_dev v1 (s_xdev s) ->
     wp m (fun _ s' => mm_engine (s_eng s') /\ queue s' = []) s) ->
  Safe (on_cdev (Some xc) m).
Proof. intros (dir & i & E & Hi) Hk Hm. unfold on_cdev. rewrite E. by apply safe_on_engine. Qed.

Lemma safe_open xc trunc : char_open xc = 0 -> engine_file xc -> Safe (char_sgdma_open xc trunc).
Proof.
  intros Ho Hx. unfold char_sgdma_open. rewrite Ho. apply safe_bind; [apply safe_ret|intros ?].
  apply safe_on_cdev; [done|framed|]. intros s Hmm Hq _. apply wp_bind, wp_get_eng. rewrite (mm_stream _ Hmm).
  by apply wp_ret.
Qed.

Lemma safe_close xc : engine_file xc -> Safe (char_sgdma_close (Some xc)).
Proof.
  intros Hx. unfold char_sgdma_close. apply safe_bind; [apply safe_check; by right|]. intros rv. safely.
  apply safe_on_cdev; [done|framed|]. intros s Hmm Hq _. apply wp_bind, wp_get_eng. rewrite (mm_stream _ Hmm).
  by apply wp_bind, wp_ret, wp_ret.
Qed.

Lemma safe_check_hndl p : Safe (check_hndl p).
Proof.
  apply safe_keep; [apply _|]. intros v _. unfold check_hndl, debug_check_dev_hndl, xdev_find_by_pdev.
  apply wp_bind, wp_get. destruct (_ =? 0); [by apply wp_ret|]. destruct (_ =? 0); [by apply wp_ret|].
  apply wp_bind, wp_bind, wp_get, wp_ret. destruct (find_pdev _ _); [|by apply wp_ret]. destruct (_ =? _); by apply wp_ret.
Qed.

(** The blocking reads and writes. *)
Lemma live_rw h2c_timeout c2h_timeout xc cb buf count pos write v :
  irq_schedule -> engine_file xc -> v_sgts v !! cb = None -> 0 <= buf -> 0 < count < 2 ^ 32 ->
  buf + count + PAGE_SIZE <= 2 ^ 64 -> live v1 v ->
  wp (char_sgdma_read_write h2c_timeout c2h_timeout (Some xc) cb buf count pos write) (fun _ v' => live v1 v') v.
Proof.
  intros Hs (dir & i & Hx & Hi) Hf Hb Hc He Hv. destruct (live_engine v1 Hisr Hplaced v dir i Hv Hi) as (e & Hl & Hmm & Hq & Hd & Hch).
  apply (wp_keep fixed (char_sgdma_read_write _ _ _ _ _ _ _ _)). eapply wp_mono.
  { apply wp_read_write; [exact Hs|]. split; try done. destruct (the_dev_config v1 Hwf (v_dev v)) as [b ?]; [by apply live_dev|by exists b]. }
  intros rv v' (_ & s' & -> & Hdn) Hfx. by apply live_unfocus; [..|apply Hdn|apply Hdn].
Qed.

(** ** Registers *)

Definition bar_file (xc : xdma_cdev) : Prop := xc_engine xc = None /\ is_Some (zlookup (d_bar (v_dev v1)) (xc_bar xc)).

Lemma safe_cdev_bar xc : bar_file xc -> Safe (cdev_bar (Some xc)).
Proof.
  intros [_ Hb]. change (Safe (bind get_dev (fun d => deref (zlookup (d_bar d) (xc_bar xc))))).
  apply safe_get_dev. intros d Hd. injection Hd as -> _. destruct Hb as [b ->]. apply safe_ret.
Qed.

Lemma safe_ctrl_read xc buf count pos : bar_file xc -> Safe (char_ctrl_read (Some xc) buf count pos).
Proof.
  intros Hx. unfold char_ctrl_read. apply safe_bind; [apply safe_check; left; apply Hx|intros rv]. safely; by apply safe_cdev_bar.
Qed.
Lemma safe_ctrl_write xc buf count pos : bar_file xc -> Safe (char_ctrl_write (Some xc) buf count pos).
Proof.
  intros Hx. unfold char_ctrl_write. apply safe_bind; [apply safe_check; left; apply Hx|intros rv]. safely; by apply safe_cdev_bar.
Qed.

Lemma safe_ctrl_ioctl xc cmd arg :
  xc_engine xc = None -> ordinary (DCtrlIoctl (Some xc) cmd arg) = true -> Safe (char_ctrl_ioctl (Some xc) cmd arg).
Proof.
  intros Hx. cbn [ordinary]. rewrite negb_true_iff, orb_false_iff. intros [E1 E2]. unfold char_ctrl_ioctl. rewrite E1, E2.
  apply safe_bind; [apply safe_check; by left|intros rv]. unfold bad_access, version_ioctl. safely.
Qed.

Lemma safe_mmap xc pgoff start last : xc_engine xc = None -> Safe (bridge_mmap (Some xc) pgoff start last).
Proof.
  intros Hx. unfold bridge_mmap. apply safe_bind; [apply safe_check; by left|intros rv]. safely.
Qed.

Lemma safe_bypass_read xc buf count : engine_file xc -> Safe (char_bypass_read (Some xc) buf count).
Proof.
  intros Hx. unfold char_bypass_read. apply safe_bind; [apply safe_check; by right|intros rv]. safely.
  apply safe_on_cdev; [done|by apply _|]. intros s Hs Hq _. unfold copy_transfers. apply wp_bind, wp_get_eng.
  assert (e_transfer_list (s_eng s) = []) as -> by exact Hq. by apply wp_bind, wp_ret, wp_ret.
Qed.

(** ** JTAG *)

Lemma safe_read_ioc {A} arg (k : xvc_ioc -> M dst A) :
  (forall o, (exists lg, xvc_length o = u32 (kernel lg "user xvc length" [arg])) -> Safe (k o)) ->
  Safe (bind (read_xvc_ioc arg) k).
Proof.
  intros Hk v Hv. apply wp_bind. apply (wp_mono _ (fun o v' => live v1 v' /\
    exists lg, xvc_length o = u32 (kernel lg "user xvc length" [arg]))); [|intros o v' [Hv' Ho]; by apply Hk].
  unfold read_xvc_ioc.
  apply wp_bind. eapply wp_mono; [apply safe_kcall; [done|exact Hv]|]. cbn beta. intros opcode va Ha. apply wp_bind.
  apply dwp_kcall. set (vb := set_log _ va). assert (live v1 vb) as Hb by (by apply (safe_kcall v1 "user xvc length" [arg])).
  assert (forall m : M dst xvc_ioc, Safe m -> wp m (fun o _ => exists lg, xvc_length o = u32 (kernel lg "user xvc length" [arg])) vb ->
    wp m (fun o v' => live v1 v' /\ exists lg, xvc_length o = u32 (kernel lg "user xvc length" [arg])) vb) as Hand.
  { intros m Hm Hw. specialize (Hm vb Hb). unfold wp in *. by destruct (m vb) as [[]|]. }
  apply Hand; [safely|]. by exists (v_log va).
Qed.

Lemma safe_copy_bytes {A} name buf n (k : Z * list Z -> M dst A) :
  neutral name = true -> 0 <= n -> (forall rv l, Z.of_nat (length l) = n -> Safe (k (rv, l))) -> Safe (bind (copy_bytes name buf n) k).
Proof.
  intros Hname Hn Hk v Hv. apply wp_bind. unfold copy_bytes. apply wp_bind.
  eapply wp_mono; [by apply safe_kcall; [|exact Hv]|]. cbn beta. intros rv v2 Hv2. apply wp_bind.
  eapply wp_mono; [apply (wp_foldM_zrange n _ (fun i l v' => Z.of_nat (length l) = i /\ live v1 v')); [done|]|].
  - intros i l v' Hi [Hl Hv']. apply wp_bind. eapply wp_mono; [by apply safe_kcall; [|exact Hv']|]. cbn beta. intros b v'' Hv''.
    apply wp_ret. split; [|done]. rewrite length_app. cbn [length]. lia.
  - cbn beta. intros l v' [Hl Hv']. apply wp_ret, Hk; [lia|done].
Qed.

Lemma safe_xvc_transfer base opcode total tms tdi n :
  0 <= total <= 2 ^ 32 - 32 -> n = byte_count total -> Z.of_nat (length tms) = n -> Z.of_nat (length tdi) = n ->
  Safe (xvc_transfer base opcode total tms tdi (replicate (Z.to_nat n) 0)).
Proof.
  intros Ht -> Htms Htdi. unfold xvc_transfer. apply safe_bind; [safely|intros _].
  apply safe_bind; [|intros [rv out]; safely]. apply safe_keep; [apply _|]. intros v _.
  assert (0 <= byte_count total) by (unfold byte_count; Z.to_euclidean_division_equations; lia).
  change 0 with (32 * 0). apply wp_xvc_loop; try done; try lia.
  - unfold word_count. Z.to_euclidean_division_equations; lia.
  - unfold word_count. Z.to_euclidean_division_equations; lia.
  - rewrite length_replicate. lia.
Qed.

Definition xvc_fits (arg : Z) : Prop := forall lg, u32 (kernel lg "user xvc length" [arg]) <= 2 ^ 32 - 32.

Lemma safe_xvc xc cmd arg : bar_file xc -> xvc_fits arg -> Safe (xvc_ioctl (Some xc) cmd arg).
Proof.
  intros Hx Hfit. unfold xvc_ioctl, kfree_ret. apply safe_bind; [apply safe_check; left; apply Hx|intros rv].
  do 2 (apply safe_if; [safely|]). apply safe_bind; [safely|intros r0]. apply safe_read_ioc. intros o [lg Ho]. specialize (Hfit lg). rewrite <-Ho in Hfit.
  assert (0 <= xvc_length o) as Hpos by (rewrite Ho; unfold u32; apply Z.mod_pos_bound; lia).
  assert (Z.shiftr (u32 (xvc_length o + 7)) 3 = byte_count (xvc_length o)) as Hn.
  { unfold u32. rewrite Z.mod_small by lia. by rewrite Z.shiftr_div_pow2 by lia. }
  rewrite Hn. set (n := byte_count _). assert (0 <= n) by (unfold n, byte_count; Z.to_euclidean_division_equations; lia).
  do 2 (apply safe_if; [safely|]). apply safe_bind; [safely|intros buffer]. apply safe_if; [safely|].
  apply safe_copy_bytes; [done..|]. intros r1 tms Htms. apply safe_if; [safely|].
  apply safe_copy_bytes; [done..|]. intros r2 tdi Htdi. apply safe_if; [safely|].
  unfold xvc_run, kfree_ret. safely; [by apply safe_cdev_bar|]. by apply safe_xvc_transfer.
Qed.

(** ** Events *)

Definition event_file (xc : xdma_cdev) : Prop :=
  xc_engine xc = None /\ forall i, xc_user_irq xc = Some i -> 0 <= i < d_user_max (v_dev v1).

Lemma safe_events_read irqs xc buf count pos :
  event_file xc -> Safe irqs -> Safe (char_events_read irqs (Some xc) buf count pos).
Proof.
  intros [Hx Hu] Hirqs. unfold char_events_read. apply safe_bind; [apply safe_check; by left|intros rv].
  safely; done.
Qed.

Lemma safe_events_poll xc : event_file xc -> Safe (char_events_poll (Some xc)).
Proof.
  intros [Hx Hu]. unfold char_events_poll. apply safe_bind; [apply safe_check; by left|intros rv].
  safely; done.
Qed.

(** ** User interrupts *)

Lemma safe_register l mask handler dev :
  (forall i, i ∈ l -> 0 <= i < d_user_max (v_dev v1)) -> Safe (register_users l mask handler dev).
Proof.
  revert mask. induction l as [|i l IH]; intros mask Hl; cbn [register_users]; safely.
  - apply IH. intros j Hj. apply Hl. by right.
  - apply safe_upd_user; [done|]. apply Hl. by left.
  - apply IH. intros j Hj. apply Hl. by right.
Qed.

Lemma safe_isr_register mask handler dev : Safe (xdma_user_isr_register mask handler dev).
Proof.
  unfold xdma_user_isr_register. safely; [apply safe_check_hndl|]. apply safe_register. intros i Hi.
  apply elem_of_zrange in Hi. erewrite the_dev_user in Hi; done.
Qed.
Lemma safe_isr_enable mask : Safe (xdma_user_isr_enable mask).
Proof. unfold xdma_user_isr_enable, user_interrupts_enable. safely. apply safe_check_hndl. Qed.
Lemma safe_isr_disable mask : Safe (xdma_user_isr_disable mask).
Proof. unfold xdma_user_isr_disable, user_interrupts_disable. safely. apply safe_check_hndl. Qed.

(** ** Settings of an engine *)

Definition setting (cmd : Z) : bool :=
  negb (existsb (Z.eqb cmd) [IOCTL_XDMA_PERF_START; IOCTL_XDMA_PERF_STOP; IOCTL_XDMA_PERF_GET;
    IOCTL_XDMA_APERTURE_R; IOCTL_XDMA_APERTURE_W]).

(** The engine stays idle. *)
Definition Idle {A} (m : M est A) : Prop := forall s, mm_engine (s_eng s) -> queue s = [] ->
  wp m (fun _ s' => mm_engine (s_eng s') /\ queue s' = []) s.

Lemma idle_bind {A B} (m : M est A) (k : A -> M est B) : Idle m -> (forall a, Idle (k a)) -> Idle (bind m k).
Proof. intros Hm Hk s Hs Hq. apply wp_bind. eapply wp_mono; [by apply Hm|]. intros a s' [? ?]. by apply Hk. Qed.
Lemma idle_log {A} (m : M est A) : (forall s, wp m (fun _ s' => s_eng s' = s_eng s) s) -> Idle m.
Proof. intros Hm s Hs Hq. eapply wp_mono; [apply Hm|]. unfold queue. intros a s' ->. done. Qed.
Lemma idle_upd f :
  (forall e, e_transfer_list (f e) = e_transfer_list e) -> (forall e, mm_engine e -> mm_engine (f e)) -> Idle (upd_eng f).
Proof. intros Hq Hf s Hs Hs2. apply wp_upd_eng. split; [by apply Hf|]. etrans; [apply Hq|exact Hs2]. Qed.

Lemma idle_alignments : Idle engine_alignments.
Proof.
  unfold engine_alignments. apply idle_bind; [by apply idle_log; intros s|intros w].
  destruct (negb _); (apply idle_upd; [done|]; intros e [[ring []] ? ? ? ?]; split; try done; by exists ring).
Qed.

(** The words of a bypass write. *)
Lemma idle_bypass_words n addr buf off rc : Idle (bypass_words n addr buf off rc).
Proof.
  revert off rc. induction n as [|n IH]; intros off rc; cbn [bypass_words]; [by apply idle_log; intros s|].
  apply idle_bind; [by apply idle_log; intros s|intros err]. destruct (negb _); [by apply idle_log; intros s|].
  apply idle_bind; [by apply idle_log; intros s|intros w]. apply idle_bind; [by apply idle_log; intros s|intros []]. apply IH.
Qed.

Definition bypass_mapped (v : dst) : Prop :=
  d_bypass_bar_idx (v_dev v) < 0 \/ is_Some (zlookup (d_bar (v_dev v1)) (d_bypass_bar_idx (v_dev v))).

(** The check of an engine's file changes nothing. *)
Lemma engine_check xc b v : engine_file xc -> live v1 v -> exists rv, cdev_check (Some xc) b v = Some (rv, v).
Proof.
  intros (dir & i & E & Hi) Hv. destruct (live_engine v1 Hisr Hplaced v dir i Hv Hi) as (e & He & _).
  unfold cdev_check, cdev_engine, get_dev, get_engine, gets, get, bind, deref. rewrite E, He. by eexists.
Qed.

Lemma live_bypass_write xc buf count v :
  engine_file xc -> bypass_mapped v -> live v1 v -> wp (char_bypass_write (Some xc) buf count) (fun _ v' => live v1 v') v.
Proof.
  intros Hx Hb Hv. destruct (engine_check xc true v Hx Hv) as [rv Hrv].
  unfold char_bypass_write. apply wp_bind. unfold wp at 1. rewrite Hrv. destruct (rv <? 0); [by apply wp_ret|].
  destruct (has_bits count 3); [by apply wp_ret|]. destruct (buf =? 0); [by apply wp_ret|]. apply wp_bind, dwp_get_dev.
  destruct (Z.ltb_spec (d_bypass_bar_idx (v_dev v)) 0); [by apply wp_ret|]. destruct Hb as [?|[bar Hbar]]; [lia|].
  assert (d_bar (v_dev v) = d_bar (v_dev v1)) as -> by (by apply live_dev in Hv; injection Hv). rewrite Hbar.
  apply wp_bind, wp_ret. apply safe_on_cdev; [done|framed| |exact Hv]. intros s Hs Hq _.
  apply wp_bind, wp_get_eng. by apply idle_bypass_words.
Qed.

Lemma idle_addrmode_set arg : Idle (engine_addrmode_set arg).
Proof.
  unfold engine_addrmode_set.
  apply idle_bind; [by apply idle_log; intros s|intros rv].
  apply idle_bind; [by apply idle_log; intros s|intros dst].
  apply idle_bind; [|intros []; apply idle_bind; [apply idle_alignments|intros []; apply idle_log; by intros s]].
  destruct (rv =? 0); [|by apply idle_log; intros s].
  apply idle_bind; [|intros []; apply idle_log; by intros s].
  apply idle_upd; [done|]. intros e [[ring []] ? ? ? ?]. split; try done. by exists ring.
Qed.

Lemma safe_ioctl h2c_timeout c2h_timeout fuel xc cb cmd arg :
  setting cmd = true -> engine_file xc -> Safe (char_sgdma_ioctl h2c_timeout c2h_timeout fuel (Some xc) cb cmd arg).
Proof.
  unfold setting. cbn [existsb]. rewrite negb_true_iff, !orb_false_iff. intros (E1 & E2 & E3 & E4 & E5 & _) Hx.
  unfold char_sgdma_ioctl. rewrite E1, E2, E3, E4, E5. apply safe_bind; [apply safe_check; by right|intros rv]. safely.
  - apply safe_on_cdev; [done|unfold ioctl_do_addrmode_set; framed|]. intros s Hs Hq _. by apply idle_addrmode_set.
  - apply safe_on_cdev; [done|unfold ioctl_do_addrmode_get; framed|]. intros s Hs Hq _. by apply wp_bind, wp_get_eng, wp_kcall.
  - apply safe_on_cdev; [done|unfold ioctl_do_align_get; framed|]. intros s Hs Hq _. by apply wp_bind, wp_get_eng, wp_kcall.
Qed.

(** An aperture ioctl: the window and the buffer of the user, for the place that
    the engine has reached in its ring. *)
Definition windowed (cmd : Z) : bool := (cmd =? IOCTL_XDMA_APERTURE_R) || (cmd =? IOCTL_XDMA_APERTURE_W).
Definition window_io (xc : xdma_cdev) (cb arg : Z) (v : dst) : Prop :=
  v_sgts v !! cb = None /\ exists io, user_window arg io /\
  forall dir i e, xc_engine xc = Some (dir, i) -> zlookup (engines dir v) i = Some e -> io_ok e io.

Lemma live_window h2c_timeout c2h_timeout fuel xc cb arg write v :
  irq_schedule -> engine_file xc -> (0 < fuel)%nat -> window_io xc cb arg v -> live v1 v ->
  wp (on_cdev (Some xc) (ioctl_do_aperture_dma h2c_timeout c2h_timeout fuel cb arg write)) (fun _ v' => live v1 v') v.
Proof.
  intros Hs (dir & i & Hx & Hi) Hf (Hcb & io & Hu & Hio) Hv.
  destruct (live_engine v1 Hisr Hplaced v dir i Hv Hi) as (e & Hl & Hmm & Hq & _). unfold on_cdev. rewrite Hx.
  apply (wp_keep fixed (on_engine dir i _)). eapply wp_on_engine; [exact Hl|].
  eapply wp_mono; [apply (wp_aperture_ioctl h2c_timeout c2h_timeout fuel cb arg write io); try done; [|by eapply Hio]|].
  { destruct (the_dev_config v1 Hwf (v_dev v)) as [b ?]; [by apply live_dev|by exists b]. }
  intros rv s' [_ Hdn] Hfx. by apply live_unfocus; [..|apply Hdn|apply Hdn].
Qed.

Lemma live_ioctl_window h2c_timeout c2h_timeout fuel xc cb cmd arg v :
  irq_schedule -> engine_file xc -> windowed cmd = true -> (0 < fuel)%nat -> window_io xc cb arg v -> live v1 v ->
  wp (char_sgdma_ioctl h2c_timeout c2h_timeout fuel (Some xc) cb cmd arg) (fun _ v' => live v1 v') v.
Proof.
  intros Hs Hx Hcmd Hf Hio Hv. destruct (engine_check xc true v Hx Hv) as [rv Hrv].
  unfold char_sgdma_ioctl. apply wp_bind. unfold wp at 1. rewrite Hrv. destruct (rv <? 0); [by apply wp_ret|].
  apply orb_prop in Hcmd as [->%Z.eqb_eq| ->%Z.eqb_eq]; by apply live_window.
Qed.
End entries.

(** ** Sessions that follow the rules of the files *)

Section legal.
Context `{PinOk} `{!DmaOk} `{Sched} `{!IrqLaws}.
Variables (h2c_timeout c2h_timeout : Z).
Hypothesis Hpoll : poll_mode = false.

(** Each file is used for what its node is for: DMA calls on the file of an
    engine, registers through the file of a mapped BAR, events through a file of
    a user interrupt; interrupts come from vectors the device has; the control
    block of a blocking call is not in use and its buffer lies in the address
    space; a JTAG transfer has fewer than 2^32 - 31 bits (more overflow the byte
    count); the pieces of an aperture request fit in what is left of the ring.
    Asynchronous requests and performance runs are left out: they are not over
    when the call returns. *)
Definition legal (v1 v : dst) (op : driver_op) : Prop :=
  let users := d_user_max (v_dev v1) in
  match op with
  | DIsr | DIsrRegister _ _ _ | DIsrEnable _ | DIsrDisable _ => True
  | DUserIrq i => 0 <= i < users
  | DChannelIrq dir ch | DWork dir ch => has_engine v1 dir ch
  | DRead (Some xc) cb buf count _ | DWrite (Some xc) cb buf count _ =>
      engine_file v1 xc /\ v_sgts v !! cb = None /\ 0 <= buf /\ 0 < count < 2 ^ 32 /\ buf + count + PAGE_SIZE <= 2 ^ 64
  | DIoctl fuel (Some xc) cb cmd arg =>
      engine_file v1 xc /\ (setting cmd = true \/ windowed cmd = true /\ (0 < fuel)%nat /\ window_io xc cb arg v)
  | DOpen xc _ => engine_file v1 xc /\ char_open xc = 0
  | DClose (Some xc) | DBypassRead (Some xc) _ _ => engine_file v1 xc
  | DCtrlRead (Some xc) _ _ _ | DCtrlWrite (Some xc) _ _ _ => bar_file v1 xc
  | DCtrlIoctl (Some xc) _ _ => xc_engine xc = None /\ ordinary op = true
  | DXvcIoctl (Some xc) _ arg => bar_file v1 xc /\ xvc_fits arg
  | DMmap (Some xc) _ _ _ => xc_engine xc = None
  | DBypassWrite (Some xc) _ _ => engine_file v1 xc /\ bypass_mapped v1 v
  | DEventsRead irqs (Some xc) _ _ _ => event_file v1 xc /\ forall i, i ∈ irqs -> 0 <= i < users
  | DEventsPoll (Some xc) => event_file v1 xc
  | _ => False
  end.

Definition legal_step (v1 v v' : dst) : Prop :=
  exists op, legal v1 v op /\ run_driver h2c_timeout c2h_timeout op v = Some (tt, v').

Variable v1 : dst.
Hypothesis Hwf : dev_wf v1.
Hypothesis Hisr : isr_ok v1.
Hypothesis Hplaced : placed v1.

Lemma safe_legal (op : driver_op) v :
  irq_schedule -> live v1 v -> legal v1 v op ->
  wp (run_driver h2c_timeout c2h_timeout op) (fun _ v' => live v1 v') v.
Proof.
  intros Hs Hv Hl.
  assert (forall A (m : M dst A), Safe v1 m -> wp (m >>; ret tt) (fun _ v' => live v1 v') v) as Hsafe.
  { intros A m Hm. apply (safe_bind v1 m (fun _ => ret tt)); [exact Hm|intros; apply safe_ret|exact Hv]. }
  destruct op; cbn [run_driver]; repeat (match goal with xc : option xdma_cdev |- _ => destruct xc as [xc|]; [|done] end);
    cbn [legal] in Hl; try contradiction.
  - apply Hsafe, safe_isr; done.
  - apply Hsafe, safe_user_irq; done.
  - apply Hsafe, safe_channel_irq; done.
  - by apply (safe_work v1).
  - destruct Hl as (? & ? & ? & ? & ?). apply wp_bind. eapply wp_mono; [by apply (live_rw v1)|]. intros rv v' Hv'. by apply wp_ret.
  - destruct Hl as (? & ? & ? & ? & ?). apply wp_bind. eapply wp_mono; [by apply (live_rw v1)|]. intros rv v' Hv'. by apply wp_ret.
  - destruct Hl as [Hx [Hset|(Hw & Hf & Hio)]]; [by apply Hsafe, safe_ioctl|].
    apply wp_bind. eapply wp_mono; [by apply (live_ioctl_window v1)|]. intros rv v' Hv'. by apply wp_ret.
  - apply Hsafe, safe_open; tauto.
  - apply Hsafe, safe_close; done.
  - apply Hsafe, safe_ctrl_read; done.
  - apply Hsafe, safe_ctrl_write; done.
  - apply Hsafe, safe_ctrl_ioctl; tauto.
  - apply Hsafe, safe_xvc; tauto.
  - apply Hsafe, safe_mmap; done.
  - apply Hsafe, safe_bypass_read; done.
  - destruct Hl. apply wp_bind. eapply wp_mono; [by apply (live_bypass_write v1)|]. intros rv v' Hv'. by apply wp_ret.
  - apply Hsafe, safe_events_read; [done..|tauto|]. apply safe_forM. intros i Hi. apply safe_bind; [|intros; apply safe_ret].
    apply safe_user_irq; [done..|]. by apply Hl.
  - apply Hsafe, safe_events_poll; done.
  - apply Hsafe, safe_isr_register; done.
  - apply Hsafe, safe_isr_enable; done.
  - apply Hsafe, safe_isr_disable; done.
Qed.

(** Sessions keep the device so. *)
Lemma legal_ordinary v op : legal v1 v op -> ordinary op = true.
Proof.
  destruct op; try done; cbn [legal]; repeat (match goal with xc : option xdma_cdev |- _ => destruct xc as [xc|]; [|done] end).
  - intros [_ [Hs|[Hw _]]]; cbn [ordinary].
    + unfold setting in Hs. cbn [existsb] in Hs. rewrite negb_true_iff, !orb_false_iff in Hs.
      destruct Hs as (E1 & E2 & _). by rewrite E1, E2.
    + by apply orb_prop in Hw as [->%Z.eqb_eq| ->%Z.eqb_eq].
  - by intros [_ ?].
Qed.

Lemma live_session v v' : irq_schedule -> live v1 v -> rtc (legal_step v1) v v' -> live v1 v'.
Proof.
  intros Hs Hv Hr. revert Hv. induction Hr as [|v v2 v' (op & Hl & Hrun) _ IH]; [done|]. intros Hv. apply IH.
  pose proof (safe_legal op v Hs Hv Hl) as Hw. unfold wp in Hw. by rewrite Hrun in Hw.
Qed.
End legal.

(** ** From opening on *)

Section never_stuck.
Context `{PinOk} `{!DmaOk} `{Sched} `{!IrqLaws}.
Variables (h2c_timeout c2h_timeout : Z).
Hypothesis Hpoll : poll_mode = false.

(** The device behind an engine: it moves memory, its block identifies itself at
    every read, the statuses that it answers fit in the buffer of the log message,
    and its ring is where a 64-bit address can reach it. *)
Record moves_memory (e : xdma_engine) : Prop := {
  mv_stream : e_streaming e = false;
  mv_id : forall lg, Z.land (u32 (io_read lg (reg e "identifier"))) BLOCK_ID_MASK = BLOCK_ID_HEAD;
  mv_dump : dump_ok e;
  mv_bus : 0 <= e_desc_bus e /\ e_desc_bus e + DESC_SIZE * e_desc_max e <= 2 ^ 64
}.

Definition memory_device (v : dst) : Prop := forall dir i e,
  0 <= i < channel_max dir (v_dev v) -> zlookup (engines dir v) i = Some e -> moves_memory e.

Lemma probed_placed v : dev_wf v -> all_probed v -> placed v.
Proof.
  intros Hwf Hp dir i e Hi He. destruct (Hp dir i e Hi He) as (bit & regs & Hid & _). split; [apply Hid|].
  rewrite (id_channel _ _ _ _ _ Hid). change 3 with (Z.ones 2). rewrite Z.land_ones by lia. apply Z.mod_small.
  destruct Hwf. unfold channel_max in Hi. destruct (is_h2c dir); lia.
Qed.

Lemma probed_ready v : all_probed v -> memory_device v -> ready v.
Proof.
  intros Hp Hm dir i e Hi He. destruct (Hp dir i e Hi He) as (bit & regs & Hid & Hring), (Hm dir i e Hi He) as [Hst Hmid Hd [Hb Ht]].
  split; [|by destruct (id_idle _ _ _ _ _ Hid)]. assert (0 < e_desc_max e < 2 ^ 31) as Hmax.
  { unfold XDMA_ENGINE_XFER_MAX_DESC, XDMA_ENGINE_CREDIT_XFER_MAX_DESC in *. destruct (id_max _ _ _ _ _ Hid) as [-> | ->]; done. }
  destruct (id_ring _ _ _ _ _ Hid) as [Hidx _]. split; try done; [|apply Hid]. eexists. split; [exact Hring|..]; try lia.
  - rewrite length_replicate. lia.
  - by rewrite Hst.
Qed.

End never_stuck.

(** ** Witness *)

Lemma session_pin : @PinOk session_env.
Proof.
  split; [done|]. intros lg i. cbn -[Z.leb Z.ltb]. unfold page_ok, PAGE_SIZE.
  destruct (Z.leb_spec 0 i), (Z.ltb_spec i 16); cbn [andb]; lia.
Qed.
Lemma session_dma : @DmaOk session_env.
Proof. split; [|by vm_compute|by vm_compute]. intros lg g n Hn. cbn. lia. Qed.

Definition live_file : xdma_cdev := mk_cdev MAGIC_CHAR 77 1 0 (Some (DMA_FROM_DEVICE, 0)) None.
Definition live_h2c : xdma_cdev := mk_cdev MAGIC_CHAR 77 1 0 (Some (DMA_TO_DEVICE, 1)) None.

Definition live_read : dst :=
  match @run_driver session_env session_sched 10 10 (DRead (Some live_file) 9 0x1ff8 24 0x100) session_start with
  | Some (_, v) => v
  | None => no_dev
  end.

Lemma session_channels dir i :
  0 <= i < channel_max dir (v_dev session_start) -> i = 0 \/ i = 1 /\ dir = DMA_TO_DEVICE.
Proof.
  assert (channel_max dir (v_dev session_start) = if is_h2c dir then 2 else 1) as -> by (destruct dir; by vm_compute).
  intros Hi. destruct (decide (i = 0)); [by left|]. destruct dir; cbn in Hi; [|lia]. right. split; [lia|done].
Qed.

Lemma live_memory : @memory_device session_env session_start.
Proof.
  intros dir i e Hi He. apply session_channels in Hi as [->|[-> ->]]; [destruct dir|].
  all: vm_compute in He; injection He as <-.
  all: split; [done|by intros|intros st [-> | (lg & f & [-> | ->] & ->)]; by vm_compute|by vm_compute].
Qed.

Lemma session_wakes : @irq_schedule session_sched.
Proof. by intros lg. Qed.


(** An aperture ioctl is legal too: the user's window at 0x50, on the device as it
    was opened. *)
Definition window_session_env : Env := {|
  io_read := @io_read session_env;
  kernel lg f args :=
    if String.eqb f "user aperture ep_addr" then 0x100
    else if String.eqb f "user aperture aperture" then 16
    else if String.eqb f "user aperture buffer" then 0x1ff8
    else if String.eqb f "user aperture len" then 24
    else @kernel session_env lg f args;
  poll_mode := false; interrupt_mode := 0; enable_st_c2h_credit := false;
  desc_blen_max := XDMA_DESC_BLEN_MAX; HZ := 250; SIZEOF_REQ := 400
|}.
Definition window_op : driver_op := DIoctl 1 (Some live_file) 9 IOCTL_XDMA_APERTURE_R 0x50.

Example window_legal : @legal window_session_env session_start session_start window_op.
Proof.
  split; [exists DMA_FROM_DEVICE, 0; by vm_compute|]. right. split; [done|]. split; [lia|]. split; [by vm_compute|].
  exists demo_io. split; [by intros lg|]. intros dir i e [= <- <-] He.
  vm_compute in He. injection He as <-. split; [cbn; lia|cbn; lia|by vm_compute|split; by vm_compute|by vm_compute].
Qed.
