(* ===== verification/Nodes.v ===== *)
(** * Nodes: the device nodes that the log shows

    Which nodes are live is read off the log, like the resources of [Ledger].
    Only the functions of [Interfaces] make nodes or take them away: opening and
    closing the device below is [hushed]. *)

From S2P Require Import Prelude Hw State Desc Engine Service Request Submit Aperture Perf Dev Thread Irq Device CdevSgdma Cdev Xvc Frame Session.

(** What [cdev_add] and [cdev_del] do to the nodes that are live; [None] when
    the driver adds a node twice or deletes one that is not there. *)
Definition reg_step (ev : event) (r : option (list (Z * Z))) : option (list (Z * Z)) :=
  match ev, r with
  | EvCall f args rv, Some l =>
      if String.eqb f "cdev_add" then
        match args with
        | [a; d; _] => if rv <? 0 then Some l
                       else if decide (a ∈ l.*1) then None else Some (l ++ [(a, d)])
        | _ => Some l
        end
      else if String.eqb f "cdev_del" then
        match args with
        | [a] => if decide (a ∈ l.*1) then Some (filter (fun n => n.1 <> a) l) else None
        | _ => Some l
        end
      else Some l
  | _, r => r
  end.
Definition registry (lg : list event) : option (list (Z * Z)) := foldr reg_step (Some []) lg.
#[global] Arguments registry : simpl never.

(** A call that does not concern the nodes. *)
Definition no_node (f : string) : bool := negb (String.eqb f "cdev_add") && negb (String.eqb f "cdev_del").

Lemma registry_call f args rv lg :
  no_node f = true -> registry (EvCall f args rv :: lg) = registry lg.
Proof.
  unfold no_node. rewrite andb_true_iff, !negb_true_iff. intros [H1 H2].
  change (reg_step (EvCall f args rv) (registry lg) = registry lg).
  destruct (registry lg); [|done]. unfold reg_step. by rewrite H1, H2.
Qed.

Lemma registry_read a x lg : registry (EvRead a x :: lg) = registry lg.
Proof. change (reg_step (EvRead a x) (registry lg) = registry lg). by destruct (registry lg). Qed.
Lemma registry_write a x lg : registry (EvWrite a x :: lg) = registry lg.
Proof. change (reg_step (EvWrite a x) (registry lg) = registry lg). by destruct (registry lg). Qed.

(** ** Computations that leave the nodes alone *)

Definition hushed {S} `{HasLog S} (s s' : S) : Prop := registry (log_of s') = registry (log_of s).

#[export] Instance hushed_preorder {S} `{HasLog S} : PreOrder (hushed (S := S)).
Proof. split; [by intros s|]. intros s1 s2 s3 E1 E2. unfold hushed in *. congruence. Qed.

Section primitives.
Context `{Env}.

#[export] Instance hushed_est_kcall f args : TCEq (no_node f) true -> Keep (hushed (S := est)) (kcall f args).
Proof. intros Hn%TCEq_eq s a s' [= _ <-]. by apply registry_call. Qed.
#[export] Instance hushed_est_kdo f args : TCEq (no_node f) true -> Keep (hushed (S := est)) (kdo f args).
Proof. intros Hn%TCEq_eq s a s' [= _ <-]. by apply registry_call. Qed.
#[export] Instance hushed_est_read x : Keep (hushed (S := est)) (read_register x).
Proof. intros s a s' [= _ <-]. apply registry_read. Qed.
#[export] Instance hushed_est_write x y : Keep (hushed (S := est)) (write_register x y).
Proof. intros s a s' [= _ <-]. apply registry_write. Qed.
#[export] Instance hushed_dst_kcall f args : TCEq (no_node f) true -> Keep (hushed (S := dst)) (kcall f args).
Proof. intros Hn%TCEq_eq s a s' [= _ <-]. by apply registry_call. Qed.
#[export] Instance hushed_dst_kdo f args : TCEq (no_node f) true -> Keep (hushed (S := dst)) (kdo f args).
Proof. intros Hn%TCEq_eq s a s' [= _ <-]. by apply registry_call. Qed.
#[export] Instance hushed_dst_read x : Keep (hushed (S := dst)) (read_register x).
Proof. intros s a s' [= _ <-]. apply registry_read. Qed.
#[export] Instance hushed_dst_write x y : Keep (hushed (S := dst)) (write_register x y).
Proof. intros s a s' [= _ <-]. apply registry_write. Qed.

#[export] Instance hushed_upd_eng f : Keep hushed (upd_eng f).
Proof. by intros s a s' [= _ <-]. Qed.
#[export] Instance hushed_upd_xdev f : Keep hushed (upd_xdev f).
Proof. by intros s a s' [= _ <-]. Qed.
#[export] Instance hushed_upd_dev f : Keep hushed (upd_dev f).
Proof. by intros s a s' [= _ <-]. Qed.

#[export] Instance hushed_on_engine {A} dir i (m : M est A) : Keep hushed m -> Keep hushed (on_engine dir i m).
Proof.
  intros Hm v a v'. unfold on_engine. destruct (zlookup (engines dir v) i) as [e|] eqn:He; [|done].
  destruct (m (focus_engine e v)) as [[b s]|] eqn:E; [|done]. intros [= <- <-]. exact (Hm _ _ _ E).
Qed.
End primitives.

(** [hush] proves that a computation is hushed; it opens the definitions that
    are not known to be. *)
Ltac head_of m := lazymatch m with ?f _ => head_of f | _ => m end.
Ltac hush_open := lazymatch goal with |- Keep _ ?m => let h := head_of m in unfold h end.
Ltac hush_step :=
  lazymatch goal with
  | |- Keep hushed (on_engine _ _ _) => apply hushed_on_engine
  | |- Keep _ ((let '(_, _) := ?p in fun _ => _) _) => destruct p
  | |- _ => first [keep_step | hush_open]
  end.
Ltac hush := repeat hush_step.

(** ** Opening and closing *)

Section open_close.
Context `{Env}.

#[export] Instance hushed_bus l : Keep hushed (bus_allows_msi l).
Proof. induction l; cbn [bus_allows_msi]; hush. Qed.
#[export] Instance hushed_write_vectors fuel c a i m : Keep hushed (write_vectors fuel c a i m).
Proof. revert a i. induction fuel; intros a i; cbn [write_vectors]; hush. Qed.
#[export] Instance hushed_free_channels dir l : Keep hushed (free_channels dir l).
Proof. induction l; cbn [free_channels]; hush. Qed.
#[export] Instance hushed_request_channels dir n l : Keep hushed (request_channels dir n l).
Proof. induction l; cbn [request_channels]; hush. Qed.
#[export] Instance hushed_request_users first l n : Keep hushed (request_users first l n).
Proof. revert n. induction l; intros n; cbn [request_users]; hush. Qed.
#[export] Instance hushed_map_each l ids pos : Keep hushed (map_each l ids pos).
Proof. revert ids pos. induction l; intros ids pos; cbn [map_each]; hush. Qed.
#[export] Instance hushed_probe dir n i : Keep hushed (probe_channels dir n i).
Proof. revert i. induction n; intros i; cbn [probe_channels]; hush. Qed.

#[export] Instance hushed_start_threads n i l : Keep hushed (start_threads n i l).
Proof. revert i. induction l; intros i; cbn [start_threads]; hush. Qed.

#[export] Instance hushed_open pdev um hm cm : Keep hushed (xdma_device_open pdev um hm cm).
Proof. hush. Qed.
#[export] Instance hushed_close pdev : Keep hushed (xdma_device_close pdev).
Proof. hush. Qed.
#[export] Instance hushed_isr_enable mask : Keep hushed (xdma_user_isr_enable mask).
Proof. hush. Qed.
End open_close.

(** ** A session *)

Section session.
Context `{Env} `{Sched}.

#[export] Instance hushed_find_eop t res l : Keep hushed (find_eop t res l).
Proof. induction l; cbn [find_eop]; hush. Qed.
#[export] Instance hushed_wb_poll fuel e t l : Keep hushed (wb_poll fuel e t l).
Proof. revert l. induction fuel; intros l; cbn [wb_poll]; hush. Qed.
#[export] Instance hushed_release n pages i w : Keep hushed (release_pages n pages i w).
Proof. revert i. induction n; intros i; cbn [release_pages]; hush. Qed.
#[export] Instance hushed_completion_loop fuel r k nents done : Keep hushed (completion_loop fuel r k nents done).
Proof. revert k nents done. induction fuel; intros k nents done; cbn [completion_loop]; hush. Qed.
#[export] Instance hushed_io_done cb err : Keep hushed (io_done cb err).
Proof. unfold io_done. hush. Qed.
#[export] Instance hushed_service_list fuel t n : Keep hushed (service_list fuel t n).
Proof. revert t n. induction fuel; intros t n; cbn [service_list]; hush. Qed.
#[export] Instance hushed_run_op op : Keep hushed (run_op op).
Proof. hush. Qed.
#[export] Instance hushed_submit_loop fuel r g m tmo nents done : Keep hushed (submit_loop fuel r g m tmo nents done).
Proof. revert nents done. induction fuel; intros nents done; cbn [submit_loop]; hush. Qed.
#[export] Instance hushed_nowait_loop fuel r cb g m k nents : Keep hushed (nowait_loop fuel r cb g m k nents).
Proof. revert k nents. induction fuel; intros k nents; cbn [nowait_loop]; hush. Qed.

#[export] Instance hushed_ap_fill r dir a b c fuel l : Keep hushed (ap_fill r dir a b c fuel l).
Proof. revert l. induction fuel; intros l; cbn [ap_fill]; hush. Qed.
#[export] Instance hushed_ap_sgs r dir a b c d fuel sgl i sg l : Keep hushed (ap_sgs r dir a b c d fuel sgl i sg l).
Proof. revert i sg l. induction fuel; intros i sg l; cbn [ap_sgs]; hush. Qed.
#[export] Instance hushed_ap_loop r dir a b c d fuel g m tmo done : Keep hushed (ap_loop r dir a b c d fuel g m tmo done).
Proof. revert done. induction fuel; intros done; cbn [ap_loop]; hush. Qed.
#[export] Instance hushed_aio_loop n xc e caio cb i pos w io : Keep hushed (aio_loop n xc e caio cb i pos w io).
Proof. revert i. induction n; intros i; cbn [aio_loop]; hush. Qed.
#[export] Instance hushed_bypass_words n a buf off rc : Keep hushed (bypass_words n a buf off rc).
Proof. revert off rc. induction n; intros off rc; cbn [bypass_words]; hush. Qed.
#[export] Instance hushed_xvc_wait n a : Keep hushed (xvc_wait n a).
Proof. induction n; cbn [xvc_wait]; hush. Qed.
#[export] Instance hushed_xvc_loop fuel a tms tdi tdo n m : Keep hushed (xvc_loop fuel a tms tdi tdo n m).
Proof. revert tdo n. induction fuel; intros tdo n; cbn [xvc_loop]; hush. Qed.
#[export] Instance hushed_isr_users l u m : Keep hushed (isr_users l u m).
Proof. revert u m. induction l; intros u m; cbn [isr_users]; hush. Qed.
#[export] Instance hushed_isr_channels dir l m : Keep hushed (isr_channels dir l m).
Proof. revert m. induction l; intros m; cbn [isr_channels]; hush. Qed.
#[export] Instance hushed_register l m h d : Keep hushed (register_users l m h d).
Proof. revert m. induction l; intros m; cbn [register_users]; hush. Qed.

(** Every entry point of the driver. *)
#[export] Instance hushed_driver h2c c2h op : Keep hushed (run_driver h2c c2h op).
Proof. destruct op; hush. Qed.

Lemma hushed_session h2c c2h v v' : rtc (driver_step h2c c2h) v v' -> hushed v v'.
Proof.
  induction 1 as [|v v1 v2 [op v'' _ Hrun] _ IH]; [done|]. etrans; [|exact IH]. exact (keep_run (Keep := hushed_driver _ _ op) _ _ _ Hrun).
Qed.
End session.
