(* ===== verification/Interfaces.v ===== *)
(** * Interfaces: the character devices of one PCI device

    [xdma_cdev.c]: the device nodes of an [xdma_pci_dev] are created when the
    device is probed and destroyed when it goes away.  The array and field of a
    node inside the structure is its [slot]; the calls that make a node visible
    ([cdev_add], [device_create]) and take it away ([cdev_del],
    [device_destroy]) are events of the log. *)

From stdpp Require Import functions.
From S2P Require Import Prelude Hw State Desc Engine Service Dev Thread Device CdevSgdma Cdev Xvc.

Definition XDMA_MINOR_BASE := 0.
Definition XDMA_MINOR_COUNT := 255.

Inductive cdev_type :=
| CHAR_USER | CHAR_CTRL | CHAR_XVC | CHAR_EVENTS | CHAR_XDMA_H2C | CHAR_XDMA_C2H
| CHAR_BYPASS_H2C | CHAR_BYPASS_C2H | CHAR_BYPASS.

#[export] Instance cdev_type_eq_dec : EqDecision cdev_type.
Proof. solve_decision. Defined.

(** The value of the enumerator, which is also the minor number of some nodes. *)
Definition cdev_type_code (t : cdev_type) : Z :=
  match t with
  | CHAR_USER => 0 | CHAR_CTRL => 1 | CHAR_XVC => 2 | CHAR_EVENTS => 3 | CHAR_XDMA_H2C => 4
  | CHAR_XDMA_C2H => 5 | CHAR_BYPASS_H2C => 6 | CHAR_BYPASS_C2H => 7 | CHAR_BYPASS => 8
  end.

(** [enum xpdev_flags_bits] *)
Definition XDF_CDEV_USER := 0.
Definition XDF_CDEV_CTRL := 1.
Definition XDF_CDEV_XVC := 2.
Definition XDF_CDEV_EVENT := 3.
Definition XDF_CDEV_SG := 4.
Definition XDF_CDEV_BYPASS := 5.

(** The [xdma_cdev] fields of [struct xdma_pci_dev]. *)
Inductive slot :=
| ctrl_cdev
| sgdma_c2h_cdev (i : Z)
| sgdma_h2c_cdev (i : Z)
| events_cdev (i : Z)
| user_cdev
| bypass_c2h_cdev (i : Z)
| bypass_h2c_cdev (i : Z)
| bypass_cdev_base
| xvc_cdev.

#[export] Instance slot_eq_dec : EqDecision slot.
Proof. solve_decision. Defined.

(** The index is inside the array. *)
Definition slot_ok (s : slot) : bool :=
  match s with
  | sgdma_c2h_cdev i | sgdma_h2c_cdev i | bypass_c2h_cdev i | bypass_h2c_cdev i =>
      (0 <=? i) && (i <? XDMA_CHANNEL_NUM_MAX)
  | events_cdev i => (0 <=? i) && (i <? 16)
  | _ => true
  end.

(** The address of the field, in units of an [xdma_cdev]. *)
Definition slot_addr (s : slot) : Z :=
  match s with
  | ctrl_cdev => 0
  | sgdma_c2h_cdev i => 1 + i
  | sgdma_h2c_cdev i => 5 + i
  | events_cdev i => 9 + i
  | user_cdev => 25
  | bypass_c2h_cdev i => 26 + i
  | bypass_h2c_cdev i => 30 + i
  | bypass_cdev_base => 34
  | xvc_cdev => 35
  end.

(** The file operations that a node was initialised with. *)
Inductive file_ops := no_fops | ctrl_fops | xvc_fops | events_fops | sgdma_fops | bypass_fops.

Record char_dev := mk_chr {
  ch_cdev : xdma_cdev;
  ch_cdevno : Z;
  ch_fops : file_ops;
  ch_sys_device : Z                  (** 0 for NULL *)
}.

Record xdma_pci_dev := mk_xpdev {
  xp_magic : Z;
  xp_pdev : Z;
  xp_xdev : Z;                       (** 0 for NULL *)
  xp_major : Z;
  xp_user_max : Z;
  xp_c2h_channel_max : Z;
  xp_h2c_channel_max : Z;
  xp_flags : Z;
  xp_cdevs : slot -> char_dev
}.

(** The state of the module: its globals, the device structure if it is
    allocated, whether the PCI device's driver data points to it, and the
    device below. *)
Record pst := mk_pst {
  p_class : Z;                       (** [g_xdma_class] *)
  p_cache : Z;                       (** [cdev_cache] *)
  p_cnt : Z;                         (** [xpdev_cnt] *)
  p_blen : Z;                        (** [desc_blen_max] *)
  p_drvdata : bool;
  p_xpdev : option xdma_pci_dev;
  p_v : dst
}.

#[export] Instance pst_log : HasLog pst := {
  log_of p := v_log (p_v p);
  set_log l p := mk_pst (p_class p) (p_cache p) (p_cnt p) (p_blen p) (p_drvdata p) (p_xpdev p)
                   (set_log l (p_v p))
}.

Definition set_p_v (v : dst) (p : pst) : pst :=
  mk_pst (p_class p) (p_cache p) (p_cnt p) (p_blen p) (p_drvdata p) (p_xpdev p) v.
Definition set_p_xpdev (x : option xdma_pci_dev) (p : pst) : pst :=
  mk_pst (p_class p) (p_cache p) (p_cnt p) (p_blen p) (p_drvdata p) x (p_v p).
Definition set_p_class (c : Z) (p : pst) : pst :=
  mk_pst c (p_cache p) (p_cnt p) (p_blen p) (p_drvdata p) (p_xpdev p) (p_v p).
Definition set_p_cache (c : Z) (p : pst) : pst :=
  mk_pst (p_class p) c (p_cnt p) (p_blen p) (p_drvdata p) (p_xpdev p) (p_v p).

Definition set_xp_xdev (h : Z) (x : xdma_pci_dev) : xdma_pci_dev :=
  mk_xpdev (xp_magic x) (xp_pdev x) h (xp_major x) (xp_user_max x) (xp_c2h_channel_max x)
    (xp_h2c_channel_max x) (xp_flags x) (xp_cdevs x).
Definition set_xp_major (m : Z) (x : xdma_pci_dev) : xdma_pci_dev :=
  mk_xpdev (xp_magic x) (xp_pdev x) (xp_xdev x) m (xp_user_max x) (xp_c2h_channel_max x)
    (xp_h2c_channel_max x) (xp_flags x) (xp_cdevs x).
Definition set_xp_limits (user h2c c2h : Z) (x : xdma_pci_dev) : xdma_pci_dev :=
  mk_xpdev (xp_magic x) (xp_pdev x) (xp_xdev x) (xp_major x) user c2h h2c (xp_flags x) (xp_cdevs x).
Definition set_xp_flags (f : Z) (x : xdma_pci_dev) : xdma_pci_dev :=
  mk_xpdev (xp_magic x) (xp_pdev x) (xp_xdev x) (xp_major x) (xp_user_max x) (xp_c2h_channel_max x)
    (xp_h2c_channel_max x) f (xp_cdevs x).
Definition set_xp_cdev (s : slot) (c : char_dev) (x : xdma_pci_dev) : xdma_pci_dev :=
  mk_xpdev (xp_magic x) (xp_pdev x) (xp_xdev x) (xp_major x) (xp_user_max x) (xp_c2h_channel_max x)
    (xp_h2c_channel_max x) (xp_flags x) (<[s := c]> (xp_cdevs x)).

Definition xpdev_flag_set (x : xdma_pci_dev) (fbit : Z) : xdma_pci_dev :=
  set_xp_flags (Z.lor (xp_flags x) (Z.shiftl 1 fbit)) x.
Definition xcdev_flag_clear (x : xdma_pci_dev) (fbit : Z) : xdma_pci_dev :=
  set_xp_flags (Z.land (xp_flags x) (Z.lnot (Z.shiftl 1 fbit))) x.
Definition xpdev_flag_test (x : xdma_pci_dev) (fbit : Z) : bool :=
  has_bits (xp_flags x) (Z.shiftl 1 fbit).

(** [MINORBITS] is 20. *)
Definition MKDEV (major minor : Z) : Z := Z.lor (Z.shiftl major 20) minor.
Definition MAJOR (dev : Z) : Z := Z.shiftr (u32 dev) 20.

Section interfaces.
Context `{Env}.

Definition on_dev {A} (m : M dst A) : M pst A :=
  fun p => match m (p_v p) with Some (a, v) => Some (a, set_p_v v p) | None => None end.

Definition get_xpdev : M pst xdma_pci_dev := let* p := get in deref (p_xpdev p).
Definition upd_xpdev (f : xdma_pci_dev -> xdma_pci_dev) : M pst unit :=
  let* x := get_xpdev in modify (set_p_xpdev (Some (f x))).

(** [&xpdev->events_cdev[i]] and the like. *)
Definition get_char_dev (s : slot) : M pst char_dev :=
  guard_ub (slot_ok s) >>; let* x := get_xpdev in ret (xp_cdevs x s).
Definition put_char_dev (s : slot) (c : char_dev) : M pst unit :=
  guard_ub (slot_ok s) >>; upd_xpdev (set_xp_cdev s c).

(** [xcdev->xdev], not NULL, and the channel of [xcdev->engine]. *)
Definition get_xdev (hndl : Z) : M pst xdma_dev := guard_ub (negb (hndl =? 0)) >>; on_dev get_dev.
Definition get_channel (engine : option (dma_dir * Z)) : M pst Z :=
  let* '(dir, i) := deref engine in
  let* e := on_dev (get_engine dir i) in ret (e_channel e).

(** ** One node *)

Definition config_kobject (s : slot) (type : cdev_type) : M pst Z :=
  let* c := get_char_dev s in
  let xc := ch_cdev c in
  match type with
  | CHAR_XDMA_H2C | CHAR_XDMA_C2H | CHAR_BYPASS_H2C | CHAR_BYPASS_C2H =>
      match xc_engine xc with
      | None => ret (- EINVAL)
      | Some _ =>
          let* d := get_xdev (xc_xdev xc) in
          let* ch := get_channel (xc_engine xc) in
          kcall "kobject_set_name" [cdev_type_code type; d_idx d; ch]
      end
  | CHAR_BYPASS | CHAR_USER | CHAR_CTRL | CHAR_XVC =>
      let* d := get_xdev (xc_xdev xc) in
      kcall "kobject_set_name" [cdev_type_code type; d_idx d]
  | CHAR_EVENTS =>
      let* d := get_xdev (xc_xdev xc) in
      kcall "kobject_set_name" [cdev_type_code type; d_idx d; xc_bar xc]
  end.

Definition char_close (xcdev : option xdma_cdev) : M dst Z :=
  match xcdev with
  | None => ret (- EINVAL)
  | Some xc =>
      if negb (xc_magic xc =? MAGIC_CHAR) then ret (- EINVAL)
      else if xc_xdev xc =? 0 then ret (- EINVAL)
      else
        let* d := get_dev in
        if negb (d_magic d =? MAGIC_DEVICE) then ret (- EINVAL) else ret 0
  end.

Definition create_sys_device (s : slot) (type : cdev_type) : M pst Z :=
  let* c := get_char_dev s in
  let xc := ch_cdev c in
  let* last_param :=
    (if decide (type = CHAR_EVENTS) then ret (xc_bar xc)
     else match xc_engine xc with
          | Some _ => get_channel (xc_engine xc)
          | None => ret 0
          end) in
  let* d := get_xdev (xc_xdev xc) in
  let* dev := kcall "device_create" [ch_cdevno c; cdev_type_code type; d_idx d; last_param] in
  put_char_dev s (mk_chr xc (ch_cdevno c) (ch_fops c) dev) >>;
  ret (if dev =? 0 then - 1 else 0).

Definition destroy_xcdev (s : slot) : M pst Z :=
  let* c := get_char_dev s in
  let* p := get in
  if negb (xc_magic (ch_cdev c) =? MAGIC_CHAR) then ret (- EINVAL)
  else if xc_xdev (ch_cdev c) =? 0 then ret (- EINVAL)
  else if p_class p =? 0 then ret (- EINVAL)
  else if ch_sys_device c =? 0 then ret (- EINVAL)
  else
    kdo "device_destroy" [ch_cdevno c] >>;
    kdo "cdev_del" [slot_addr s] >>;
    ret 0.

(** The [switch] on the type: the minor number, and the device with its file
    operations. *)
Definition minor_of (type : cdev_type) (bar : Z) (engine : option (dma_dir * Z)) : M pst Z :=
  match type with
  | CHAR_USER | CHAR_CTRL | CHAR_XVC => ret (cdev_type_code type)
  | CHAR_XDMA_H2C => let* ch := get_channel engine in ret (32 + ch)
  | CHAR_XDMA_C2H => let* ch := get_channel engine in ret (36 + ch)
  | CHAR_EVENTS => ret (10 + bar)
  | CHAR_BYPASS_H2C => let* ch := get_channel engine in ret (64 + ch)
  | CHAR_BYPASS_C2H => let* ch := get_channel engine in ret (68 + ch)
  | CHAR_BYPASS => ret 100
  end.

Definition init_cdev (type : cdev_type) (xc : xdma_cdev) : xdma_cdev * file_ops :=
  match type with
  | CHAR_USER | CHAR_CTRL => (xc, ctrl_fops)
  | CHAR_XVC => (cdev_xvc_init xc, xvc_fops)
  | CHAR_XDMA_H2C | CHAR_XDMA_C2H => (xc, sgdma_fops)
  | CHAR_EVENTS => (cdev_event_init xc, events_fops)
  | CHAR_BYPASS_H2C | CHAR_BYPASS_C2H | CHAR_BYPASS => (xc, bypass_fops)
  end.

(** A new instance gets a region of device numbers first. *)
Definition alloc_region : M pst Z :=
  let* x := get_xpdev in
  if negb (xp_major x =? 0) then ret 0
  else
    let* rv := kcall "alloc_chrdev_region" [XDMA_MINOR_BASE; XDMA_MINOR_COUNT] in
    if negb (rv =? 0) then ret rv
    else
      let* dev := kcall "alloc_chrdev_region dev" [] in
      upd_xpdev (set_xp_major (MAJOR dev)) >>; ret 0.

Definition unregister_region (devno : Z) : M pst unit :=
  kdo "unregister_chrdev_region" [devno; XDMA_MINOR_COUNT].

(** From [cdev_add] on. *)
Definition bring_live (s : slot) (type : cdev_type) (devno : Z) : M pst Z :=
  let* rv := kcall "cdev_add" [slot_addr s; devno; 1] in
  if rv <? 0 then unregister_region devno >>; ret rv
  else
    let* p := get in
    if p_class p =? 0 then ret 0
    else
      let* rv := create_sys_device s type in
      if rv <? 0 then
        kdo "cdev_del" [slot_addr s] >>; unregister_region devno >>; ret rv
      else ret 0.

Definition create_xcdev (s : slot) (bar : Z) (engine : option (dma_dir * Z)) (type : cdev_type)
    : M pst Z :=
  let* rv := alloc_region in
  if negb (rv =? 0) then ret rv
  else
    let* x := get_xpdev in
    let* c := get_char_dev s in
    let xc := mk_cdev MAGIC_CHAR (xp_xdev x) bar (xc_base (ch_cdev c)) engine
                (xc_user_irq (ch_cdev c)) in
    put_char_dev s (mk_chr xc (ch_cdevno c) (ch_fops c) (ch_sys_device c)) >>;
    let* rv := config_kobject s type in
    if rv <? 0 then ret rv
    else
      let* minor := minor_of type bar engine in
      let '(xc, ops) := init_cdev type xc in
      let devno := MKDEV (xp_major x) minor in
      put_char_dev s (mk_chr xc devno ops (ch_sys_device c)) >>;
      bring_live s type devno.

(** ** All nodes *)

(** [m;] and on an error [goto fail], else [k]. *)
Definition and_then (m k : M pst Z) : M pst Z :=
  let* rv := m in if rv <? 0 then ret rv else k.

(** A loop that an error leaves. *)
Fixpoint for_each (l : list Z) (f : Z -> M pst Z) : M pst Z :=
  match l with
  | [] => ret 0
  | i :: l => and_then (f i) (for_each l f)
  end.

Definition flag_set (fbit : Z) : M pst unit := upd_xpdev (fun x => xpdev_flag_set x fbit).

(** The body of the loops over the channels: a channel without an engine is
    skipped. *)
Definition create_channel (dir : dma_dir) (s : slot) (type : cdev_type) (i : Z) : M pst Z :=
  let* e := on_dev (get_engine dir i) in
  if negb (e_magic e =? MAGIC_ENGINE) then ret 0 else create_xcdev s i (Some (dir, i)) type.

Definition create_channels (dir : dma_dir) (s : Z -> slot) (type : cdev_type) : M pst Z :=
  let* x := get_xpdev in
  for_each (zrange (if is_h2c dir then xp_h2c_channel_max x else xp_c2h_channel_max x))
    (fun i => create_channel dir (s i) type i).

Definition create_ctrl (d : xdma_dev) : M pst Z :=
  and_then (create_xcdev ctrl_cdev (d_config_bar_idx d) None CHAR_CTRL)
    (flag_set XDF_CDEV_CTRL >>; ret 0).

Definition create_events : M pst Z :=
  let* x := get_xpdev in
  and_then (for_each (zrange (xp_user_max x)) (fun i => create_xcdev (events_cdev i) i None CHAR_EVENTS))
    (flag_set XDF_CDEV_EVENT >>; ret 0).

Definition create_sgdma : M pst Z :=
  and_then (create_channels DMA_TO_DEVICE sgdma_h2c_cdev CHAR_XDMA_H2C)
    (and_then (create_channels DMA_FROM_DEVICE sgdma_c2h_cdev CHAR_XDMA_C2H)
       (flag_set XDF_CDEV_SG >>; ret 0)).

Definition create_bypass (d : xdma_dev) : M pst Z :=
  if 0 <? d_bypass_bar_idx d then
    and_then (create_channels DMA_TO_DEVICE bypass_h2c_cdev CHAR_BYPASS_H2C)
      (and_then (create_channels DMA_FROM_DEVICE bypass_c2h_cdev CHAR_BYPASS_C2H)
        (and_then (create_xcdev bypass_cdev_base (d_bypass_bar_idx d) None CHAR_BYPASS)
          (flag_set XDF_CDEV_BYPASS >>; ret 0)))
  else ret 0.

Definition create_user (d : xdma_dev) : M pst Z :=
  if 0 <=? d_user_bar_idx d then
    and_then (create_xcdev user_cdev (d_user_bar_idx d) None CHAR_USER)
      (flag_set XDF_CDEV_USER >>;
       and_then (create_xcdev xvc_cdev (d_user_bar_idx d) None CHAR_XVC)
         (flag_set XDF_CDEV_XVC >>; ret 0))
  else ret 0.

Definition destroy_each (n : Z) (s : Z -> slot) : M pst unit :=
  forM (zrange n) (fun i => destroy_xcdev (s i) >>; ret tt).

(** The body of the [if] on one flag. *)
Definition destroy_group (fbit : Z) (m : M pst unit) : M pst unit :=
  let* x := get_xpdev in when (xpdev_flag_test x fbit) m.

Definition xpdev_destroy_interfaces : M pst unit :=
  let* x := get_xpdev in
  destroy_group XDF_CDEV_SG
    (destroy_each (xp_h2c_channel_max x) sgdma_h2c_cdev >>;
     destroy_each (xp_c2h_channel_max x) sgdma_c2h_cdev) >>;
  destroy_group XDF_CDEV_EVENT (destroy_each (xp_user_max x) events_cdev) >>;
  destroy_group XDF_CDEV_CTRL (destroy_xcdev ctrl_cdev >>; ret tt) >>;
  destroy_group XDF_CDEV_USER (destroy_xcdev user_cdev >>; ret tt) >>;
  destroy_group XDF_CDEV_XVC (destroy_xcdev xvc_cdev >>; ret tt) >>;
  destroy_group XDF_CDEV_BYPASS
    (destroy_each (xp_h2c_channel_max x) bypass_h2c_cdev >>;
     destroy_each (xp_c2h_channel_max x) bypass_c2h_cdev >>;
     destroy_xcdev bypass_cdev_base >>; ret tt) >>;
  when (negb (xp_major x =? 0)) (unregister_region (MKDEV (xp_major x) XDMA_MINOR_BASE)).

(** The nodes of the device in the order of their creation. *)
Definition create_all : M pst Z :=
  let* x := get_xpdev in
  let* d := get_xdev (xp_xdev x) in
  and_then (create_ctrl d)
    (and_then create_events (and_then create_sgdma (and_then (create_bypass d) (create_user d)))).

Definition xpdev_create_interfaces : M pst Z :=
  let* rv := create_all in
  if rv <? 0 then xpdev_destroy_interfaces >>; ret (- 1) else ret 0.

(** ** The class of the nodes and the cache of the asynchronous requests *)

Definition IS_ERR (ptr : Z) : bool := 2 ^ 64 - 4095 <=? u64 ptr.

Definition xdma_cdev_init : M pst Z :=
  let* c := kcall "class_create" [] in
  modify (set_p_class c) >>;
  if IS_ERR c then ret (- EINVAL)
  else
    let* k := kcall "kmem_cache_create" [] in
    modify (set_p_cache k) >>;
    if k =? 0 then ret (- ENOMEM) else ret 0.

Definition xdma_cdev_cleanup : M pst unit :=
  let* p := get in
  when (negb (p_cache p =? 0)) (kdo "kmem_cache_destroy" [p_cache p]) >>;
  when (negb (p_class p =? 0)) (kdo "class_destroy" [p_class p]).
End interfaces.
