(* ===== verification/InterfacesProps.v ===== *)
(** * InterfacesProps: device nodes are created and destroyed in groups

    The nodes that the kernel knows are read off the log: [registry].  Creating
    the interfaces is creating a plan of groups of nodes; a failure leaves the
    nodes of the group that was not finished. *)

From stdpp Require Import functions.
From S2P Require Import Prelude Hw State Desc Engine Service Fixtures Dev DevFixtures Thread Device CdevSgdma Cdev Xvc Nodes Interfaces.

(** A node: its slot and its minor number. *)
Definition node := (slot * Z)%type.

Definition enc (major : Z) (ns : list node) : list (Z * Z) :=
  map (fun n => (slot_addr n.1, MKDEV major n.2)) ns.

(** The answers of [alloc_chrdev_region]: 0 or an error, and a major number. *)
Class RegionOk `{Env} := {
  region_rv : forall lg, kernel lg "alloc_chrdev_region" [XDMA_MINOR_BASE; XDMA_MINOR_COUNT] <= 0;
  region_major : forall lg, MAJOR (kernel lg "alloc_chrdev_region dev" []) <> 0
}.

Lemma slot_addr_inj s s' : slot_ok s = true -> slot_ok s' = true -> slot_addr s = slot_addr s' -> s = s'.
Proof.
  destruct s, s'; unfold slot_ok, slot_addr; rewrite ?andb_true_iff, ?Z.leb_le, ?Z.ltb_lt; unfold XDMA_CHANNEL_NUM_MAX;
    intros; try lia; try done; f_equal; lia.
Qed.

Lemma filter_all {A} (P : A -> Prop) `{forall x, Decision (P x)} (l : list A) :
  Forall P l -> filter P l = l.
Proof. induction 1 as [|x l Hx _ IH]; [done|]. by rewrite filter_cons_True, IH. Qed.

Lemma filter_none {A} (P : A -> Prop) `{forall x, Decision (P x)} (l : list A) :
  Forall (fun x => ~ P x) l -> filter P l = [].
Proof. induction 1 as [|x l Hx _ IH]; [done|]. by rewrite filter_cons_False, IH. Qed.

Section nodes.
Context `{RegionOk}.
Variables (v0 : dst) (x0 : xdma_pci_dev) (cls : Z).

(** The parts of the device structure that the interfaces leave alone. *)
Definition same_xpdev (x : xdma_pci_dev) : Prop :=
  xp_magic x = xp_magic x0 /\ xp_pdev x = xp_pdev x0 /\ xp_xdev x = xp_xdev x0 /\
  xp_user_max x = xp_user_max x0 /\ xp_c2h_channel_max x = xp_c2h_channel_max x0 /\
  xp_h2c_channel_max x = xp_h2c_channel_max x0.

(** [destroy_xcdev] acts on the node, or refuses to. *)
Definition destroyable (c : char_dev) : Prop :=
  xc_magic (ch_cdev c) = MAGIC_CHAR /\ xc_xdev (ch_cdev c) <> 0 /\ ch_sys_device c <> 0.

(** [ns] are the nodes that were made, [rs] those that are live. *)
Record ifc_x (ns rs : list node) (fl : Z) (x : xdma_pci_dev) (p : pst) : Prop := {
  ix_v : p_v p = set_log (v_log (p_v p)) v0;
  ix_class : p_class p = cls;
  ix_xpdev : p_xpdev p = Some x;
  ix_same : same_xpdev x;
  ix_flags : xp_flags x = fl;
  ix_reg : registry (v_log (p_v p)) = Some (enc (xp_major x) rs);
  ix_major : xp_major x = 0 -> ns = [] /\ rs = [];
  ix_ok : Forall (fun n => slot_ok n.1 = true) ns;
  ix_live : forall s, slot_ok s = true ->
    if decide (s ∈ ns.*1) then destroyable (xp_cdevs x s) else ch_sys_device (xp_cdevs x s) = 0
}.
Definition ifc (ns rs : list node) (fl : Z) (p : pst) : Prop := exists x, ifc_x ns rs fl x p.

Lemma ifc_call ns rs fl x p f args rv :
  no_node f = true -> ifc_x ns rs fl x p ->
  ifc_x ns rs fl x (set_log (EvCall f args rv :: log_of p) p).
Proof.
  intros Hf [Hv Hc Hx Hs Hfl Hr Hm Ho Hl]. split; try done; cbn.
  - by rewrite Hv.
  - by rewrite registry_call.
Qed.

Lemma pwp_any f args (Q : Z -> pst -> Prop) p :
  (forall rv, Q rv (set_log (EvCall f args rv :: log_of p) p)) -> wp (kcall f args) Q p.
Proof. intros HQ. apply HQ. Qed.

Lemma pwp_done f args (Q : unit -> pst -> Prop) p :
  Q tt (set_log (EvCall f args 0 :: log_of p) p) -> wp (kdo f args) Q p.
Proof. done. Qed.

Lemma pwp_kcall f args ns rs fl x p (Q : Z -> pst -> Prop) :
  no_node f = true -> ifc_x ns rs fl x p ->
  (forall lg p', ifc_x ns rs fl x p' -> Q (kernel lg f args) p') -> wp (kcall f args) Q p.
Proof. intros Hf Hi HQ. apply (HQ (log_of p)). by apply ifc_call. Qed.

Lemma pwp_kdo f args ns rs fl x p (Q : unit -> pst -> Prop) :
  no_node f = true -> ifc_x ns rs fl x p ->
  (forall p', ifc_x ns rs fl x p' -> Q tt p') -> wp (kdo f args) Q p.
Proof. intros Hf Hi HQ. apply HQ. by apply ifc_call. Qed.

Lemma pwp_get_xpdev ns rs fl x p (Q : xdma_pci_dev -> pst -> Prop) :
  ifc_x ns rs fl x p -> Q x p -> wp get_xpdev Q p.
Proof. intros Hi HQ. apply wp_bind, wp_get. eapply wp_deref; [apply Hi|done]. Qed.

Lemma pwp_upd_xpdev f ns rs fl x p (Q : unit -> pst -> Prop) :
  ifc_x ns rs fl x p -> Q tt (set_p_xpdev (Some (f x)) p) -> wp (upd_xpdev f) Q p.
Proof. intros Hi HQ. apply wp_bind. by eapply pwp_get_xpdev. Qed.

Lemma pwp_get_cdev s ns rs fl x p (Q : char_dev -> pst -> Prop) :
  slot_ok s = true -> ifc_x ns rs fl x p -> Q (xp_cdevs x s) p -> wp (get_char_dev s) Q p.
Proof.
  intros Hs Hi HQ. apply wp_bind, wp_guard_ub; [done|]. apply wp_bind. eapply pwp_get_xpdev; [done|]. done.
Qed.

(** A node that is not made yet may be written while its [sys_device] is NULL. *)
Lemma pwp_put_cdev s c ns rs fl x p (Q : unit -> pst -> Prop) :
  slot_ok s = true -> s ∉ ns.*1 -> ch_sys_device c = 0 -> ifc_x ns rs fl x p ->
  (forall p', ifc_x ns rs fl (set_xp_cdev s c x) p' -> Q tt p') -> wp (put_char_dev s c) Q p.
Proof.
  intros Hs Hn Hc Hi HQ. apply wp_bind, wp_guard_ub; [done|]. eapply pwp_upd_xpdev; [done|].
  apply HQ. destruct Hi as [Hv Hcl Hx Hsm Hfl Hr Hm Ho Hl]. split; try done. intros s' Hs'. cbn.
  destruct (decide (s' = s)) as [->|Hne].
  - rewrite fn_lookup_insert. by rewrite decide_False.
  - rewrite fn_lookup_insert_ne by done. by apply Hl.
Qed.

(** ** One node *)

(** The engine of a node and its channel. *)
Definition engine_ok (engine : option (dma_dir * Z)) : Prop :=
  match engine with
  | Some (dir, i) => exists e, zlookup (engines dir v0) i = Some e /\ e_channel e = i
  | None => True
  end.

Definition channel_type (t : cdev_type) : bool :=
  match t with
  | CHAR_XDMA_H2C | CHAR_XDMA_C2H | CHAR_BYPASS_H2C | CHAR_BYPASS_C2H => true
  | _ => false
  end.

Definition minor_number (t : cdev_type) (bar : Z) : Z :=
  match t with
  | CHAR_USER | CHAR_CTRL | CHAR_XVC => cdev_type_code t
  | CHAR_XDMA_H2C => 32 + bar
  | CHAR_XDMA_C2H => 36 + bar
  | CHAR_EVENTS => 10 + bar
  | CHAR_BYPASS_H2C => 64 + bar
  | CHAR_BYPASS_C2H => 68 + bar
  | CHAR_BYPASS => 100
  end.

(** The arguments of a call of [create_xcdev] fit together. *)
Definition call_ok (bar : Z) (engine : option (dma_dir * Z)) (t : cdev_type) : Prop :=
  engine_ok engine /\
  if channel_type t then exists dir, engine = Some (dir, bar) else engine = None.

Lemma pwp_on_dev_get {A} (m : M dst A) a ns rs fl x p (Q : A -> pst -> Prop) :
  (forall lg, m (set_log lg v0) = Some (a, set_log lg v0)) ->
  ifc_x ns rs fl x p -> Q a p -> wp (on_dev m) Q p.
Proof.
  intros Hm Hi HQ. unfold wp, on_dev. rewrite (ix_v _ _ _ _ _ Hi), Hm.
  rewrite <- (ix_v _ _ _ _ _ Hi). by destruct p.
Qed.

Lemma pwp_get_channel dir i ns rs fl x p (Q : Z -> pst -> Prop) :
  engine_ok (Some (dir, i)) -> ifc_x ns rs fl x p -> Q i p -> wp (get_channel (Some (dir, i))) Q p.
Proof.
  intros (e & He & Hch) Hi HQ. apply wp_bind, wp_ret, wp_bind. cbn beta iota.
  eapply (pwp_on_dev_get _ e); [|done|].
  - intros lg. unfold get_engine, bind, get, deref. destruct dir; cbn in *; by rewrite He.
  - apply wp_ret. by rewrite Hch.
Qed.

Lemma pwp_get_xdev ns rs fl x p (Q : xdma_dev -> pst -> Prop) h :
  h <> 0 -> ifc_x ns rs fl x p -> Q (v_dev v0) p -> wp (get_xdev h) Q p.
Proof.
  intros Hh Hi HQ. apply wp_bind, wp_guard_ub; [by apply negb_true_iff, Z.eqb_neq|].
  by eapply (pwp_on_dev_get _ (v_dev v0)).
Qed.

Lemma pwp_minor bar engine t ns rs fl x p (Q : Z -> pst -> Prop) :
  call_ok bar engine t -> ifc_x ns rs fl x p -> Q (minor_number t bar) p ->
  wp (minor_of t bar engine) Q p.
Proof.
  intros [He Hc] Hi HQ. destruct t; cbn in Hc |- *; try (by apply wp_ret);
    destruct Hc as [dir ->]; apply wp_bind; (eapply pwp_get_channel; [done..|]); by apply wp_ret.
Qed.

Lemma pwp_config s t c bar engine ns rs fl x p (Q : Z -> pst -> Prop) :
  slot_ok s = true -> call_ok bar engine t -> ifc_x ns rs fl x p -> xp_cdevs x s = c ->
  xc_xdev (ch_cdev c) <> 0 -> xc_engine (ch_cdev c) = engine ->
  (forall rv p', ifc_x ns rs fl x p' -> Q rv p') -> wp (config_kobject s t) Q p.
Proof.
  intros Hs [He Hc] Hi Hcx Hxd Hen HQ. apply wp_bind. eapply pwp_get_cdev; [done..|]. rewrite Hcx.
  cbn zeta. rewrite Hen.
  assert (G : forall args, wp (kcall "kobject_set_name" args) Q p).
  { intros args. eapply pwp_kcall; [done..|]. intros lg p'. apply HQ. }
  destruct t; cbn in Hc; try (apply wp_bind; eapply pwp_get_xdev; [done..|]; by apply G);
    destruct Hc as [dir ->]; apply wp_bind; (eapply pwp_get_xdev; [done..|]);
    apply wp_bind; (eapply pwp_get_channel; [done..|]); by apply G.
Qed.

Lemma enc_app major ns ns' : enc major (ns ++ ns') = enc major ns ++ enc major ns'.
Proof. apply map_app. Qed.

Lemma enc_fst major ns a : a ∈ (enc major ns).*1 <-> exists n, n ∈ ns /\ a = slot_addr n.1.
Proof.
  unfold enc. rewrite <- list_fmap_compose, list_elem_of_fmap. split.
  - intros (n & -> & Hn). by exists n.
  - intros (n & Hn & ->). by exists n.
Qed.

Lemma enc_fresh major ns s :
  slot_ok s = true -> Forall (fun n => slot_ok n.1 = true) ns -> s ∉ ns.*1 ->
  slot_addr s ∉ (enc major ns).*1.
Proof.
  rewrite Forall_forall, list_elem_of_fmap, enc_fst. intros Hs Ho Hn [n [Hin Ha]].
  apply Hn. exists n. split; [|done]. by apply slot_addr_inj; auto.
Qed.

Lemma enc_delete major ns s m :
  slot_addr s ∉ (enc major ns).*1 ->
  filter (fun n => n.1 <> slot_addr s) (enc major (ns ++ [(s, m)])) = enc major ns.
Proof.
  intros Hn. rewrite enc_app, filter_app.
  change (enc major [(s, m)]) with [(slot_addr s, MKDEV major m)].
  rewrite filter_cons_False by (cbn; auto). rewrite filter_nil, app_nil_r.
  apply filter_all. rewrite Forall_forall. intros n Hin Ha. apply Hn. rewrite <- Ha.
  by apply list_elem_of_fmap_2.
Qed.

Lemma registry_add major rs s m lg rv :
  registry lg = Some (enc major rs) -> 0 <= rv -> slot_addr s ∉ (enc major rs).*1 ->
  registry (EvCall "cdev_add" [slot_addr s; MKDEV major m; 1] rv :: lg) = Some (enc major (rs ++ [(s, m)])).
Proof.
  intros Hr Hrv Hn. change (reg_step (EvCall "cdev_add" [slot_addr s; MKDEV major m; 1] rv) (registry lg) = Some (enc major (rs ++ [(s, m)]))).
  rewrite Hr. cbn. rewrite (proj2 (Z.ltb_ge rv 0)) by done. rewrite decide_False by done. by rewrite enc_app.
Qed.

Lemma registry_add_fails s d lg rv :
  rv < 0 -> registry (EvCall "cdev_add" [s; d; 1] rv :: lg) = registry lg.
Proof.
  intros Hrv. change (reg_step (EvCall "cdev_add" [s; d; 1] rv) (registry lg) = registry lg).
  destruct (registry lg); [|done]. cbn. by rewrite (proj2 (Z.ltb_lt rv 0)).
Qed.

Lemma registry_del s lg rv l :
  registry lg = Some l -> s ∈ l.*1 ->
  registry (EvCall "cdev_del" [s] rv :: lg) = Some (filter (fun n => n.1 <> s) l).
Proof.
  intros Hr Hs. change (reg_step (EvCall "cdev_del" [s] rv) (registry lg) = Some (filter (fun n => n.1 <> s) l)).
  rewrite Hr. cbn. by rewrite decide_True.
Qed.

(** Deleting the node that was added last. *)
Lemma ifc_del_last ns fl x p s m :
  s ∉ ns.*1 -> slot_ok s = true -> ifc_x ns (ns ++ [(s, m)]) fl x p ->
  ifc_x ns ns fl x (set_log (EvCall "cdev_del" [slot_addr s] 0 :: log_of p) p).
Proof.
  intros Hn Hs [Hv Hc Hx Hsm Hfl Hr Hm Ho Hl]. pose proof (enc_fresh (xp_major x) ns s Hs Ho Hn) as Hf.
  split; try done.
  - cbn. by rewrite Hv.
  - cbn [p_v set_log pst_log set_p_v v_log dst_log log_of]. erewrite registry_del; [|done|].
    + by rewrite enc_delete.
    + apply enc_fst. exists (s, m). split; [|done]. apply elem_of_app. right. by left.
  - intros Hz. by destruct (Hm Hz).
Qed.

(** The node under construction, before [device_create]. *)
Definition half_made (s : slot) (t : cdev_type) (bar : Z) (x : xdma_pci_dev) : Prop :=
  let c := xp_cdevs x s in
  xc_magic (ch_cdev c) = MAGIC_CHAR /\ xc_xdev (ch_cdev c) <> 0 /\ ch_sys_device c = 0 /\
  call_ok bar (xc_engine (ch_cdev c)) t.

Lemma pwp_put_live s c m ns fl x p (Q : unit -> pst -> Prop) :
  slot_ok s = true -> s ∉ ns.*1 -> destroyable c -> ifc_x ns (ns ++ [(s, m)]) fl x p ->
  (forall p', ifc_x (ns ++ [(s, m)]) (ns ++ [(s, m)]) fl (set_xp_cdev s c x) p' -> Q tt p') ->
  wp (put_char_dev s c) Q p.
Proof.
  intros Hs Hn Hc Hi HQ. apply wp_bind, wp_guard_ub; [done|]. eapply pwp_upd_xpdev; [done|].
  apply HQ. destruct Hi as [Hv Hcl Hx Hsm Hfl Hr Hm Ho Hl]. split; try done.
  - intros Hz. destruct (Hm Hz) as [-> ?]. done.
  - apply Forall_app. split; [done|]. by repeat constructor.
  - intros s' Hs'. cbn. specialize (Hl s' Hs'). rewrite fmap_app. cbn.
    destruct (decide (s' = s)) as [->|Hne].
    + rewrite fn_lookup_insert, decide_True; [done|]. apply elem_of_app. right. by left.
    + rewrite fn_lookup_insert_ne by done.
      destruct (decide (s' ∈ ns.*1)) as [Hin|Hout].
      * rewrite decide_True; [done|]. apply elem_of_app. by left.
      * rewrite decide_False; [done|]. rewrite elem_of_app, list_elem_of_singleton. by intros [?|?].
Qed.

Lemma pwp_last_param s t bar ns rs fl x p (Q : Z -> pst -> Prop) :
  half_made s t bar x -> ifc_x ns rs fl x p -> (forall v, Q v p) ->
  wp (if decide (t = CHAR_EVENTS) then ret (xc_bar (ch_cdev (xp_cdevs x s)))
      else match xc_engine (ch_cdev (xp_cdevs x s)) with
           | Some _ => get_channel (xc_engine (ch_cdev (xp_cdevs x s)))
           | None => ret 0
           end) Q p.
Proof.
  intros (_ & _ & _ & He & _) Hi HQ. destruct (decide _); [by apply wp_ret|].
  destruct (xc_engine _) as [[dir i]|]; [|by apply wp_ret]. by eapply pwp_get_channel.
Qed.

Lemma wp_create_sys s t bar m ns fl x p :
  slot_ok s = true -> s ∉ ns.*1 -> half_made s t bar x -> ifc_x ns (ns ++ [(s, m)]) fl x p ->
  wp (create_sys_device s t) (fun rv p' => exists x', xp_major x' = xp_major x /\
    ((rv = - 1 /\ ifc_x ns (ns ++ [(s, m)]) fl x' p') \/
     (rv = 0 /\ ifc_x (ns ++ [(s, m)]) (ns ++ [(s, m)]) fl x' p'))) p.
Proof.
  intros Hs Hn Hh Hi. pose proof Hh as (Hmg & Hxd & Hsys & _). apply wp_bind. eapply pwp_get_cdev; [done..|].
  apply wp_bind. eapply pwp_last_param; [done..|]. intros v.
  apply wp_bind. eapply pwp_get_xdev; [done..|].
  apply wp_bind. eapply pwp_kcall; [done..|]. intros lg p' Hi'.
  generalize (kernel lg "device_create" [ch_cdevno (xp_cdevs x s); cdev_type_code t; d_idx (v_dev v0); v]).
  intros dev. apply wp_bind. destruct (Z.eqb_spec dev 0) as [->|Hd].
  - eapply pwp_put_cdev; [done..|]. intros p2 Hi2. apply wp_ret. eexists. split; [|by left]; done.
  - eapply pwp_put_live; [done..|]. intros p2 Hi2. apply wp_ret. eexists. split; [|by right]; done.
Qed.

(** One node: it is there, or nothing is. *)
Definition one_node (ns : list node) (n : node) (fl rv : Z) (p : pst) : Prop :=
  (0 <= rv /\ ifc (ns ++ [n]) (ns ++ [n]) fl p) \/ (rv < 0 /\ ifc ns ns fl p).

Lemma pwp_unregister d ns rs fl x p (Q : unit -> pst -> Prop) :
  ifc_x ns rs fl x p -> (forall p', ifc_x ns rs fl x p' -> Q tt p') -> wp (unregister_region d) Q p.
Proof. apply pwp_kdo. done. Qed.

Lemma wp_bring_live s t bar m ns fl x p :
  cls <> 0 -> slot_ok s = true -> s ∉ ns.*1 -> half_made s t bar x -> xp_major x <> 0 ->
  ifc_x ns ns fl x p ->
  wp (bring_live s t (MKDEV (xp_major x) m)) (one_node ns (s, m) fl) p.
Proof.
  intros Hcls Hs Hn Hh Hmaj Hi. apply wp_bind.
  pose proof Hi as [Hv Hc Hx Hsm Hfl Hr Hm Ho Hl]. apply pwp_any. intros rv. cbv beta.
  assert (Hreg : registry (log_of p) = Some (enc (xp_major x) ns)) by apply Hr.
  destruct (Z.ltb_spec rv 0) as [Hneg|Hpos].
  - apply wp_bind. eapply (pwp_unregister _ ns ns fl x).
    + split; try done; [by cbn; rewrite Hv|].
      cbn [p_v set_log pst_log v_log dst_log]. by rewrite registry_add_fails.
    + intros p' Hi'. apply wp_ret. right. split; [done|]. by exists x.
  - set (p1 := set_log _ p). assert (Hi1 : ifc_x ns (ns ++ [(s, m)]) fl x p1).
    { split; try done; [by cbn; rewrite Hv|]. apply registry_add; [done..|]. by apply enc_fresh. }
    apply wp_bind, wp_get. replace (p_class p1) with cls by (symmetry; apply Hi1).
    rewrite (proj2 (Z.eqb_neq cls 0)) by done. apply wp_bind.
    eapply wp_mono; [by eapply wp_create_sys|]. intros r p2 (x' & Hx' & [[-> Hi2]|[-> Hi2]]).
    + apply wp_bind. apply ifc_del_last in Hi2; [|done..].
      apply pwp_done, wp_bind. eapply pwp_unregister; [exact Hi2|].
      intros p' Hi'. apply wp_ret. right. split; [done|]. by exists x'.
    + apply wp_ret. left. split; [done|]. by exists x'.
Qed.

(** The outcomes of making the nodes [g]: all of them, or the first [k]. *)
Definition creates (g : list node) (m : M pst Z) : Prop :=
  forall ns fl p, ifc ns ns fl p -> NoDup (ns ++ g).*1 ->
    wp m (fun rv p' =>
      (0 <= rv /\ ifc (ns ++ g) (ns ++ g) fl p') \/
      (rv < 0 /\ exists k, (k < length g)%nat /\ ifc (ns ++ take k g) (ns ++ take k g) fl p')) p.

Lemma wp_alloc_region ns fl p :
  ifc ns ns fl p ->
  wp alloc_region (fun rv p' => rv <= 0 /\
    exists x, ifc_x ns ns fl x p' /\ (rv = 0 -> xp_major x <> 0)) p.
Proof.
  intros [x Hi]. apply wp_bind. eapply pwp_get_xpdev; [done|].
  destruct (Z.eqb_spec (xp_major x) 0) as [Hz|Hz]; cbn [negb].
  2: { apply wp_ret. split; [done|]. by exists x. }
  destruct (ix_major _ _ _ _ _ Hi Hz) as [-> _].
  apply wp_bind. eapply pwp_kcall; [done..|]. intros lg p1 Hi1.
  pose proof (region_rv lg) as Hrv. revert Hrv.
  generalize (kernel lg "alloc_chrdev_region" [XDMA_MINOR_BASE; XDMA_MINOR_COUNT]). intros rv Hrv.
  destruct (Z.eqb_spec rv 0) as [->|Hne]; cbn [negb].
  2: { apply wp_ret. split; [done|]. by exists x. }
  apply wp_bind. eapply pwp_kcall; [done..|]. intros lg2 p2 Hi2.
  apply wp_bind. eapply pwp_upd_xpdev; [done|]. apply wp_ret. split; [done|].
  exists (set_xp_major (MAJOR (kernel lg2 "alloc_chrdev_region dev" [])) x).
  split; [|intros _; apply region_major].
  destruct Hi2 as [Hv Hcl Hx Hsm Hfl Hr Hm Ho Hl]. by split.
Qed.

Lemma init_cdev_spec t xc :
  xc_magic (init_cdev t xc).1 = xc_magic xc /\ xc_xdev (init_cdev t xc).1 = xc_xdev xc /\
  xc_engine (init_cdev t xc).1 = xc_engine xc.
Proof. by destruct t. Qed.

Lemma put_get s c x : xp_cdevs (set_xp_cdev s c x) s = c.
Proof. apply fn_lookup_insert. Qed.

Lemma creates_one s bar engine t :
  cls <> 0 -> xp_xdev x0 <> 0 -> slot_ok s = true -> call_ok bar engine t ->
  creates [(s, minor_number t bar)] (create_xcdev s bar engine t).
Proof.
  intros Hcls Hxd Hs Hc ns fl p Hi Hnd.
  assert (Hn : s ∉ ns.*1).
  { rewrite fmap_app in Hnd. apply NoDup_app in Hnd as (_ & Hd & _). intros Hin. apply (Hd s Hin). by left. }
  assert (Hout : forall p', ifc ns ns fl p' -> forall rv, rv < 0 ->
    (0 <= rv /\ ifc (ns ++ [(s, minor_number t bar)]) (ns ++ [(s, minor_number t bar)]) fl p') \/
    (rv < 0 /\ exists k, (k < 1)%nat /\ ifc (ns ++ take k [(s, minor_number t bar)])
                           (ns ++ take k [(s, minor_number t bar)]) fl p')).
  { intros p' Hp' rv Hrv. right. split; [done|]. exists 0%nat. split; [lia|]. cbn. by rewrite app_nil_r. }
  apply wp_bind. eapply wp_mono; [by apply wp_alloc_region|]. intros rv p1 [Hrv (x & Hi1 & Hmaj)].
  destruct (Z.eqb_spec rv 0) as [->|Hne]; cbn [negb].
  2: { apply wp_ret, Hout; [by exists x|lia]. }
  specialize (Hmaj eq_refl). apply wp_bind. eapply pwp_get_xpdev; [done|].
  apply wp_bind. eapply pwp_get_cdev; [done..|]. cbn zeta.
  assert (Hsys : ch_sys_device (xp_cdevs x s) = 0).
  { pose proof (ix_live _ _ _ _ _ Hi1 s Hs) as Hl. by rewrite decide_False in Hl. }
  assert (Hxx : xp_xdev x <> 0).
  { destruct (ix_same _ _ _ _ _ Hi1) as (_ & _ & -> & _). done. }
  apply wp_bind. eapply pwp_put_cdev; [done..|]. intros p2 Hi2.
  apply wp_bind. eapply (pwp_config s t _ bar engine); [done|done|exact Hi2|apply put_get|done|done|].
  intros rv p3 Hi3. destruct (Z.ltb_spec rv 0) as [Hneg|Hpos].
  { apply wp_ret, Hout; [|done]. by eexists. }
  apply wp_bind. eapply pwp_minor; [done..|].
  destruct (init_cdev t _) as [xc ops] eqn:Hinit.
  apply wp_bind. eapply pwp_put_cdev; [done..|]. intros p4 Hi4.
  match type of Hinit with init_cdev t ?y = _ => destruct (init_cdev_spec t y) as (Hm1 & Hm2 & Hm3) end.
  rewrite Hinit in Hm1, Hm2, Hm3. cbn in Hm1, Hm2, Hm3.
  match type of Hi4 with ifc_x _ _ _ ?y _ =>
    eapply wp_mono; [apply (wp_bring_live s t bar (minor_number t bar) ns fl y p4); [done..| |done|exact Hi4]|] end.
  - unfold half_made. rewrite put_get. cbn. by rewrite Hm1, Hm2, Hm3.
  - intros r p5 [[Hr Hi5]|[Hr Hi5]]; [by left|]. by apply Hout.
Qed.

(** ** Sequences of nodes *)

Lemma wp_and_then (m k : M pst Z) Q p :
  wp m (fun rv p' => (rv < 0 -> Q rv p') /\ (0 <= rv -> wp k Q p')) p -> wp (and_then m k) Q p.
Proof.
  intros Hm. apply wp_bind. eapply wp_mono; [exact Hm|]. intros rv p' [Hneg Hpos]. cbn beta.
  destruct (Z.ltb_spec rv 0); [by apply wp_ret, Hneg|by apply Hpos].
Qed.

Lemma creates_nil : creates [] (ret 0).
Proof. intros ns fl p Hi _. apply wp_ret. left. rewrite app_nil_r. done. Qed.

Lemma NoDup_prefix (l l' : list node) : NoDup (l ++ l').*1 -> NoDup l.*1.
Proof. rewrite fmap_app. by intros (? & _ & _)%NoDup_app. Qed.

Lemma creates_app g1 g2 m1 m2 : creates g1 m1 -> creates g2 m2 -> creates (g1 ++ g2) (and_then m1 m2).
Proof.
  intros H1 H2 ns fl p Hi Hnd. rewrite app_assoc in Hnd. apply wp_and_then.
  eapply wp_mono; [by apply H1; [|by eapply NoDup_prefix]|].
  intros rv p' [[Hrv Hi']|[Hrv (k & Hk & Hi')]]; (split; intros Hs; [|try lia]); [lia| |].
  - eapply wp_mono; [by apply H2|]. rewrite <- !app_assoc.
    intros r p2 [[Hr Hi2]|[Hr (k & Hk & Hi2)]]; [by left|right]. split; [done|].
    exists (length g1 + k)%nat. rewrite length_app. split; [lia|].
    rewrite take_app_add. by rewrite <- !app_assoc in Hi2.
  - right. split; [done|]. exists k. rewrite length_app, take_app_le by lia. split; [lia|done].
Qed.

Lemma creates_each (g : Z -> list node) (f : Z -> M pst Z) l :
  (forall i, i ∈ l -> creates (g i) (f i)) -> creates (concat (map g l)) (for_each l f).
Proof.
  induction l as [|i l IH]; intros Hf; [apply creates_nil|]. cbn.
  apply creates_app; [apply Hf; by left|]. apply IH. intros j Hj. apply Hf. by right.
Qed.

(** ** Groups of nodes, each with its flag *)

Definition group := (Z * list node)%type.

Definition flags_of (fl : Z) (gs : list group) : Z :=
  foldl (fun fl f => Z.lor fl (Z.shiftl 1 f)) fl gs.*1.

Definition nodes_of (gs : list group) : list node := concat gs.*2.

(** The first groups [gs1] are complete, of the next one there are [k] nodes. *)
Definition unfinished (ns : list node) (fl : Z) (gs : list group) (p : pst) : Prop :=
  exists gs1 f g gs2 k, gs = gs1 ++ (f, g) :: gs2 /\ (k < length g)%nat /\
    ifc (ns ++ nodes_of gs1 ++ take k g) (ns ++ nodes_of gs1 ++ take k g) (flags_of fl gs1) p.

Definition builds (gs : list group) (m : M pst Z) : Prop :=
  forall ns fl p, ifc ns ns fl p -> NoDup (ns ++ nodes_of gs).*1 ->
    wp m (fun rv p' =>
      (0 <= rv /\ ifc (ns ++ nodes_of gs) (ns ++ nodes_of gs) (flags_of fl gs) p') \/
      (rv < 0 /\ unfinished ns fl gs p')) p.

Lemma nodes_of_app gs gs' : nodes_of (gs ++ gs') = nodes_of gs ++ nodes_of gs'.
Proof. unfold nodes_of. by rewrite fmap_app, concat_app. Qed.

Lemma flags_of_app fl gs gs' : flags_of fl (gs ++ gs') = flags_of (flags_of fl gs) gs'.
Proof. unfold flags_of. by rewrite fmap_app, foldl_app. Qed.

Lemma builds_nil : builds [] (ret 0).
Proof. intros ns fl p Hi _. apply wp_ret. left. cbn. rewrite app_nil_r. done. Qed.

Lemma wp_flag_set fbit ns fl p (Q : unit -> pst -> Prop) :
  ifc ns ns fl p -> (forall p', ifc ns ns (Z.lor fl (Z.shiftl 1 fbit)) p' -> Q tt p') ->
  wp (flag_set fbit) Q p.
Proof.
  intros [x Hi] HQ. eapply pwp_upd_xpdev; [done|]. apply HQ. exists (xpdev_flag_set x fbit).
  destruct Hi as [Hv Hcl Hx Hsm Hfl Hr Hm Ho Hl]. split; try done. cbn. by rewrite Hfl.
Qed.

Lemma unfinished_later ns fl g gs p :
  unfinished (ns ++ nodes_of g) (flags_of fl g) gs p -> unfinished ns fl (g ++ gs) p.
Proof.
  intros (gs1 & f & g' & gs2 & k & -> & Hk & Hi). exists (g ++ gs1), f, g', gs2, k.
  rewrite nodes_of_app, flags_of_app, <- !app_assoc. by rewrite <- !app_assoc in Hi.
Qed.

Lemma builds_cons f g gs m k :
  creates g m -> builds gs k -> builds ((f, g) :: gs) (and_then m (flag_set f >>; k)).
Proof.
  intros Hm Hk ns fl p Hi Hnd. unfold nodes_of in Hnd. cbn in Hnd. rewrite app_assoc in Hnd.
  apply wp_and_then. eapply wp_mono; [by apply Hm; [|by eapply NoDup_prefix]|].
  intros rv p' [[Hrv Hi']|[Hrv (j & Hj & Hi')]]; (split; intros Hs; [|try lia]); [lia| |].
  - apply wp_bind. eapply wp_flag_set; [done|]. intros p2 Hi2.
    eapply wp_mono; [by apply Hk|]. intros r p3 [[Hr Hi3]|[Hr Hi3]].
    + left. split; [done|]. unfold nodes_of in *. cbn in *. by rewrite app_assoc.
    + right. split; [done|]. apply (unfinished_later ns fl [(f, g)]).
      unfold nodes_of. cbn. by rewrite app_nil_r.
  - right. split; [done|]. exists [], f, g, gs, j. done.
Qed.

(** Nodes before the others of the first group. *)
Lemma builds_pre f g0 g gs m k :
  creates g0 m -> builds ((f, g) :: gs) k -> builds ((f, g0 ++ g) :: gs) (and_then m k).
Proof.
  intros Hm Hk ns fl p Hi Hnd. unfold nodes_of in Hnd. cbn in Hnd. rewrite <- app_assoc, app_assoc in Hnd.
  apply wp_and_then. eapply wp_mono; [by apply Hm; [|by eapply NoDup_prefix]|].
  intros rv p' [[Hrv Hi']|[Hrv (j & Hj & Hi')]]; (split; intros Hs; [|try lia]); [lia| |].
  - eapply wp_mono; [by apply Hk|]. intros r p3 [[Hr Hi3]|[Hr Hi3]].
    + left. split; [done|]. unfold nodes_of in *. cbn in *. by rewrite <- app_assoc, app_assoc.
    + right. split; [done|]. destruct Hi3 as ([|[f1 g1] gs1] & f' & g' & gs2 & i & Heq & Hi2 & Hx).
      * injection Heq as <- <- <-. exists [], f, (g0 ++ g), gs, (length g0 + i)%nat.
        rewrite length_app. split_and!; [done|lia|]. cbn in Hx |- *.
        rewrite take_app_add. by rewrite <- !app_assoc in Hx.
      * injection Heq as <- <- ->. exists ((f, g0 ++ g) :: gs1), f', g', gs2, i.
        split_and!; [done|done|]. unfold nodes_of in *. cbn in *. by rewrite <- !app_assoc in *.
  - right. split; [done|]. exists [], f, (g0 ++ g), gs, j. rewrite length_app. split_and!; [done|lia|].
    rewrite take_app_le by lia. done.
Qed.

Lemma builds_app gs1 gs2 m1 m2 : builds gs1 m1 -> builds gs2 m2 -> builds (gs1 ++ gs2) (and_then m1 m2).
Proof.
  intros H1 H2 ns fl p Hi Hnd. rewrite nodes_of_app, app_assoc in Hnd. apply wp_and_then.
  eapply wp_mono; [by apply H1; [|by eapply NoDup_prefix]|].
  intros rv p' [[Hrv Hi']|[Hrv Hu]]; (split; intros Hs; [|try lia]); [lia| |].
  - eapply wp_mono; [by apply H2|]. intros r p2 [[Hr Hi2]|[Hr Hi2]].
    + left. by rewrite nodes_of_app, flags_of_app, app_assoc.
    + right. split; [done|]. by apply unfinished_later.
  - right. split; [done|]. destruct Hu as (ga & f & g & gb & k & -> & Hk & Hx).
    exists ga, f, g, (gb ++ gs2), k. by rewrite <- app_assoc.
Qed.
End nodes.

(** ** The plan *)

Definition channel_nodes (s : Z -> slot) (t : cdev_type) (n : Z) : list node :=
  map (fun i => (s i, minor_number t i)) (zrange n).

(** The groups of nodes of a device, in the order of their creation. *)
Definition plan (x : xdma_pci_dev) (d : xdma_dev) : list group :=
  let h2c := xp_h2c_channel_max x in
  let c2h := xp_c2h_channel_max x in
  [(XDF_CDEV_CTRL, [(ctrl_cdev, minor_number CHAR_CTRL 0)]);
   (XDF_CDEV_EVENT, channel_nodes events_cdev CHAR_EVENTS (xp_user_max x));
   (XDF_CDEV_SG, channel_nodes sgdma_h2c_cdev CHAR_XDMA_H2C h2c ++
                 channel_nodes sgdma_c2h_cdev CHAR_XDMA_C2H c2h)] ++
  (if 0 <? d_bypass_bar_idx d then
     [(XDF_CDEV_BYPASS, channel_nodes bypass_h2c_cdev CHAR_BYPASS_H2C h2c ++
                        channel_nodes bypass_c2h_cdev CHAR_BYPASS_C2H c2h ++
                        [(bypass_cdev_base, minor_number CHAR_BYPASS 0)])]
   else []) ++
  (if 0 <=? d_user_bar_idx d then
     [(XDF_CDEV_USER, [(user_cdev, minor_number CHAR_USER 0)]);
      (XDF_CDEV_XVC, [(xvc_cdev, minor_number CHAR_XVC 0)])]
   else []).

(** The device has the engines that its limits announce. *)
Record limits_ok (v : dst) (x : xdma_pci_dev) : Prop := {
  lim_user : 0 <= xp_user_max x <= 16;
  lim_h2c : 0 <= xp_h2c_channel_max x <= 4;
  lim_c2h : 0 <= xp_c2h_channel_max x <= 4;
  lim_engines : forall dir i,
    0 <= i < (if is_h2c dir then xp_h2c_channel_max x else xp_c2h_channel_max x) ->
    exists e, zlookup (engines dir v) i = Some e /\ e_magic e = MAGIC_ENGINE /\ e_channel e = i
}.

Section plan.
Context `{RegionOk}.
Variables (v0 : dst) (x0 : xdma_pci_dev) (cls : Z).
Hypothesis Hcls : cls <> 0.
Hypothesis Hxdev : xp_xdev x0 <> 0.
Hypothesis Hlim : limits_ok v0 x0.

Abbreviation creates := (creates v0 x0 cls).
Abbreviation builds := (builds v0 x0 cls).

Lemma creates_get g (m : xdma_pci_dev -> M pst Z) :
  (forall x, same_xpdev x0 x -> creates g (m x)) -> creates g (let* x := get_xpdev in m x).
Proof.
  intros Hm ns fl p [x Hi] Hnd. apply wp_bind. eapply pwp_get_xpdev; [done|].
  apply (Hm x); [apply Hi|by exists x|done].
Qed.

Lemma builds_get gs (m : xdma_pci_dev -> M pst Z) :
  (forall x, same_xpdev x0 x -> builds gs (m x)) -> builds gs (let* x := get_xpdev in m x).
Proof.
  intros Hm ns fl p [x Hi] Hnd. apply wp_bind. eapply pwp_get_xpdev; [done|].
  apply (Hm x); [apply Hi|by exists x|done].
Qed.

Lemma creates_range s t n (f : Z -> M pst Z) :
  (forall i, 0 <= i < n -> creates [(s i, minor_number t i)] (f i)) ->
  creates (channel_nodes s t n) (for_each (zrange n) f).
Proof.
  intros Hf. unfold channel_nodes.
  replace (map _ (zrange n)) with (concat (map (fun i => [(s i, minor_number t i)]) (zrange n))).
  - apply creates_each. intros i Hi. apply Hf. by apply elem_of_zrange in Hi.
  - induction (zrange n) as [|i l IH]; [done|]. cbn. by rewrite IH.
Qed.

Lemma creates_plain s bar t :
  slot_ok s = true -> channel_type t = false -> creates [(s, minor_number t bar)] (create_xcdev s bar None t).
Proof. intros Hs Ht. apply creates_one; [done..|]. split; [done|]. by rewrite Ht. Qed.

Lemma creates_channels dir s t :
  channel_type t = true -> (forall i, 0 <= i < 4 -> slot_ok (s i) = true) ->
  creates (channel_nodes s t (if is_h2c dir then xp_h2c_channel_max x0 else xp_c2h_channel_max x0))
    (create_channels dir s t).
Proof.
  intros Ht Hs. apply creates_get. intros x (_ & _ & _ & _ & Hc & Hh). rewrite Hc, Hh.
  apply creates_range. intros i Hi. pose proof (lim_h2c _ _ Hlim). pose proof (lim_c2h _ _ Hlim).
  destruct (lim_engines _ _ Hlim dir i Hi) as (e & He & Hm & Hch).
  intros ns fl p [y Hy] Hnd. apply wp_bind. eapply (pwp_on_dev_get v0 x0 cls _ e); [|done|].
  { intros lg. unfold get_engine, bind, get, deref. destruct dir; cbn in *; by rewrite He. }
  rewrite Hm, Z.eqb_refl. cbn [negb].
  apply (creates_one v0 x0 cls (s i) i (Some (dir, i)) t); [done..| | |by exists y|done].
  - apply Hs. destruct dir; cbn in Hi; lia.
  - split; [by exists e|]. rewrite Ht. by exists dir.
Qed.

Lemma builds_ctrl d : builds [(XDF_CDEV_CTRL, [(ctrl_cdev, minor_number CHAR_CTRL 0)])] (create_ctrl d).
Proof. apply builds_cons; [by apply (creates_plain ctrl_cdev (d_config_bar_idx d) CHAR_CTRL)|apply builds_nil]. Qed.

Lemma builds_events :
  builds [(XDF_CDEV_EVENT, channel_nodes events_cdev CHAR_EVENTS (xp_user_max x0))] create_events.
Proof.
  apply builds_get. intros x (_ & _ & _ & -> & _). apply builds_cons; [|apply builds_nil].
  apply creates_range. intros i Hi. apply creates_plain; [|done]. pose proof (lim_user _ _ Hlim).
  unfold slot_ok. apply andb_true_iff. rewrite Z.leb_le, Z.ltb_lt. lia.
Qed.

Lemma channel_slot_ok i : 0 <= i < 4 -> (0 <=? i) && (i <? XDMA_CHANNEL_NUM_MAX) = true.
Proof. intros Hi. apply andb_true_iff. rewrite Z.leb_le, Z.ltb_lt. done. Qed.

(** The groups after the control node. *)
Lemma builds_rest d : builds (tail (plan x0 d))
  (and_then create_events (and_then create_sgdma (and_then (create_bypass d) (create_user d)))).
Proof.
  unfold plan. cbn [app tail].
  apply (builds_app _ _ _ [_]); [apply builds_events|]. apply (builds_app _ _ _ [_]).
  { apply builds_pre; [apply (creates_channels DMA_TO_DEVICE); [done|apply channel_slot_ok]|].
    apply builds_cons; [apply (creates_channels DMA_FROM_DEVICE); [done|apply channel_slot_ok]|apply builds_nil]. }
  apply builds_app.
  - unfold create_bypass. destruct (0 <? d_bypass_bar_idx d); [|apply builds_nil].
    apply builds_pre; [apply (creates_channels DMA_TO_DEVICE); [done|apply channel_slot_ok]|].
    apply builds_pre; [apply (creates_channels DMA_FROM_DEVICE); [done|apply channel_slot_ok]|].
    apply builds_cons; [|apply builds_nil].
    by apply (creates_plain bypass_cdev_base (d_bypass_bar_idx d) CHAR_BYPASS).
  - unfold create_user. destruct (0 <=? d_user_bar_idx d); [|apply builds_nil].
    apply builds_cons; [by apply (creates_plain user_cdev (d_user_bar_idx d) CHAR_USER)|].
    apply builds_cons; [by apply (creates_plain xvc_cdev (d_user_bar_idx d) CHAR_XVC)|apply builds_nil].
Qed.

Lemma builds_all d : builds (plan x0 d)
  (and_then (create_ctrl d)
    (and_then create_events (and_then create_sgdma (and_then (create_bypass d) (create_user d))))).
Proof. apply (builds_app _ _ _ [_] (tail (plan x0 d))); [apply builds_ctrl|apply builds_rest]. Qed.
End plan.
