(* ===== verification/InterfacesLife.v ===== *)
(** * InterfacesLife: the life of the device nodes

    What [xpdev_create_interfaces] and [xpdev_destroy_interfaces] leave in the
    kernel, for every failure: the nodes of the unfinished group stay when
    creation fails, and destroying twice deletes nodes that are gone. *)

From stdpp Require Import functions.
From S2P Require Import Prelude Hw State Desc Engine Service Fixtures Dev DevFixtures Thread Device CdevSgdma Cdev Xvc Nodes Interfaces InterfacesProps.

(** ** Destruction *)

(** The slots that belong to a flag, in the order in which they are destroyed. *)
Definition group_slots (x : xdma_pci_dev) (f : Z) : list slot :=
  let h2c := zrange (xp_h2c_channel_max x) in
  let c2h := zrange (xp_c2h_channel_max x) in
  if f =? XDF_CDEV_SG then map sgdma_h2c_cdev h2c ++ map sgdma_c2h_cdev c2h
  else if f =? XDF_CDEV_EVENT then map events_cdev (zrange (xp_user_max x))
  else if f =? XDF_CDEV_CTRL then [ctrl_cdev]
  else if f =? XDF_CDEV_USER then [user_cdev]
  else if f =? XDF_CDEV_XVC then [xvc_cdev]
  else if f =? XDF_CDEV_BYPASS then
    map bypass_h2c_cdev h2c ++ map bypass_c2h_cdev c2h ++ [bypass_cdev_base]
  else [].

(** The flags in the order in which [xpdev_destroy_interfaces] looks at them. *)
Definition destroy_order : list Z :=
  [XDF_CDEV_SG; XDF_CDEV_EVENT; XDF_CDEV_CTRL; XDF_CDEV_USER; XDF_CDEV_XVC; XDF_CDEV_BYPASS].

(** The slots that it tries to destroy. *)
Definition targets (x : xdma_pci_dev) : list slot :=
  concat (map (fun f => if xpdev_flag_test x f then group_slots x f else []) destroy_order).

#[export] Instance destroyable_dec c : Decision (destroyable c).
Proof. unfold destroyable. solve_decision. Defined.

Definition del_node (a : Z) (r : option (list (Z * Z))) : option (list (Z * Z)) :=
  match r with
  | Some l => if decide (a ∈ l.*1) then Some (filter (fun n => n.1 <> a) l) else None
  | None => None
  end.

(** The live nodes after the slots [ts] of [x] were destroyed. *)
Definition after_destroy (x : xdma_pci_dev) (ts : list slot) (r : option (list (Z * Z))) :=
  foldl (fun r s => if decide (destroyable (xp_cdevs x s)) then del_node (slot_addr s) r else r) r ts.

Lemma after_destroy_app x ts ts' r : after_destroy x (ts ++ ts') r = after_destroy x ts' (after_destroy x ts r).
Proof. apply foldl_app. Qed.

Section destroy.
Context `{RegionOk}.
Variables (x : xdma_pci_dev) (p0 : pst).
Hypothesis Hlim : limits_ok (p_v p0) x.
Hypothesis Hcls : p_class p0 <> 0.

(** Only the log has changed, and the nodes are those of [r]. *)
Definition destroying (r : option (list (Z * Z))) (p : pst) : Prop :=
  p = set_log (log_of p) p0 /\ registry (log_of p) = r.

Lemma destroying_call f args rv r p :
  no_node f = true -> destroying r p -> destroying r (set_log (EvCall f args rv :: log_of p) p).
Proof. intros Hf [Hp Hr]. split; [by rewrite Hp|]. cbn. by rewrite registry_call. Qed.

Hypothesis Hx : p_xpdev p0 = Some x.

Lemma destroying_xpdev r p (Q : xdma_pci_dev -> pst -> Prop) :
  destroying r p -> Q x p -> wp get_xpdev Q p.
Proof. intros [Hp _] HQ. apply wp_bind, wp_get. eapply wp_deref; [|done]. by rewrite Hp. Qed.

Lemma wp_destroy_xcdev s r p :
  slot_ok s = true -> destroying r p ->
  wp (destroy_xcdev s) (fun _ p' => destroying (after_destroy x [s] r) p') p.
Proof.
  intros Hs Hd. apply wp_bind, wp_bind, wp_guard_ub; [done|]. apply wp_bind.
  eapply destroying_xpdev; [done|]. apply wp_ret, wp_bind, wp_get.
  assert (Hcl : p_class p <> 0) by (destruct Hd as [-> _]; done).
  unfold after_destroy. cbn [foldl]. unfold destroyable.
  destruct (Z.eqb_spec (xc_magic (ch_cdev (xp_cdevs x s))) MAGIC_CHAR) as [Hm|Hm]; cbn [negb].
  2: { rewrite decide_False by tauto. by apply wp_ret. }
  destruct (Z.eqb_spec (xc_xdev (ch_cdev (xp_cdevs x s))) 0) as [Hxd|Hxd].
  { rewrite decide_False by tauto. by apply wp_ret. }
  destruct (Z.eqb_spec (p_class p) 0) as [?|_]; [done|].
  destruct (Z.eqb_spec (ch_sys_device (xp_cdevs x s)) 0) as [Hsys|Hsys].
  { rewrite decide_False by tauto. by apply wp_ret. }
  rewrite decide_True by done. apply wp_bind, pwp_done, wp_bind, pwp_done, wp_ret.
  destruct Hd as [Hp Hr]. split; [by rewrite Hp|].
  change (reg_step (EvCall "cdev_del" [slot_addr s] 0)
    (registry (EvCall "device_destroy" [ch_cdevno (xp_cdevs x s)] 0 :: log_of p)) = del_node (slot_addr s) r).
  rewrite registry_call, Hr by done. by destruct r.
Qed.

Lemma wp_destroy_each n f r p :
  (forall i, 0 <= i < n -> slot_ok (f i) = true) -> destroying r p ->
  wp (destroy_each n f) (fun _ p' => destroying (after_destroy x (map f (zrange n)) r) p') p.
Proof.
  intros Hf Hd. unfold destroy_each. revert Hf.
  assert (G : forall l, (forall i, i ∈ l -> slot_ok (f i) = true) -> forall r p, destroying r p ->
    wp (forM l (fun i => destroy_xcdev (f i) >>; ret tt))
       (fun _ p' => destroying (after_destroy x (map f l) r) p') p).
  { induction l as [|i l IH]; intros Hl r1 p1 Hd1; [by apply wp_ret|]. cbn [forM].
    apply wp_bind, wp_bind. eapply wp_mono; [apply (wp_destroy_xcdev (f i) r1 p1); [apply Hl; by left|done]|].
    intros rv p2 Hd2. apply wp_ret. change (map f (i :: l)) with ([f i] ++ map f l).
    rewrite after_destroy_app. apply IH; [|done]. intros j Hj. apply Hl. by right. }
  intros Hf. apply G; [|done]. intros i Hi. apply Hf. by apply elem_of_zrange in Hi.
Qed.

(** A group, when [m] destroys the slots of its flag. *)
Lemma wp_destroy_group f m r p :
  destroying r p ->
  (forall r p, destroying r p -> wp m (fun _ p' => destroying (after_destroy x (group_slots x f) r) p') p) ->
  wp (destroy_group f m)
    (fun _ p' => destroying (after_destroy x (if xpdev_flag_test x f then group_slots x f else []) r) p') p.
Proof.
  intros Hd Hm. apply wp_bind. eapply destroying_xpdev; [done|]. unfold when.
  destruct (xpdev_flag_test x f); [by apply Hm|by apply wp_ret].
Qed.

Lemma wp_destroy_one s r p :
  slot_ok s = true -> destroying r p ->
  wp (destroy_xcdev s >>; ret tt) (fun _ p' => destroying (after_destroy x [s] r) p') p.
Proof. intros Hs Hd. apply wp_bind. eapply wp_mono; [by apply wp_destroy_xcdev|]. intros ? p' Hp'. by apply wp_ret. Qed.

Lemma wp_destroy_two n1 f1 n2 f2 r p :
  (forall i, 0 <= i < n1 -> slot_ok (f1 i) = true) -> (forall i, 0 <= i < n2 -> slot_ok (f2 i) = true) ->
  destroying r p ->
  wp (destroy_each n1 f1 >>; destroy_each n2 f2)
    (fun _ p' => destroying (after_destroy x (map f1 (zrange n1) ++ map f2 (zrange n2)) r) p') p.
Proof.
  intros H1 H2 Hd. apply wp_bind. eapply wp_mono; [by apply wp_destroy_each|]. intros ? p' Hp'.
  rewrite after_destroy_app. by apply wp_destroy_each.
Qed.

(** The whole function: the targets are destroyed in order. *)
Lemma wp_destroy_interfaces r p :
  destroying r p ->
  wp xpdev_destroy_interfaces (fun _ p' => destroying (after_destroy x (targets x) r) p') p.
Proof.
  intros Hd. pose proof (lim_user _ _ Hlim) as Hu. pose proof (lim_h2c _ _ Hlim) as Hh. pose proof (lim_c2h _ _ Hlim) as Hc.
  assert (Hch : forall n, 0 <= n <= 4 -> forall i, 0 <= i < n -> (0 <=? i) && (i <? XDMA_CHANNEL_NUM_MAX) = true).
  { intros n Hn i Hi. apply channel_slot_ok. lia. }
  apply wp_bind. eapply destroying_xpdev; [done|].
  unfold targets, destroy_order. cbn [map concat]. rewrite app_nil_r, !after_destroy_app.
  apply wp_bind. eapply wp_mono; [apply (wp_destroy_group XDF_CDEV_SG); [done|]|intros ? p1 H1].
  { intros r1 p1 Hd1. exact (wp_destroy_two _ sgdma_h2c_cdev _ sgdma_c2h_cdev r1 p1 (Hch _ Hh) (Hch _ Hc) Hd1). }
  apply wp_bind. eapply wp_mono; [apply (wp_destroy_group XDF_CDEV_EVENT); [exact H1|]|intros ? p2 H2].
  { intros r1 q1 Hd1. apply (wp_destroy_each _ events_cdev r1 q1); [|done]. intros i Hi. unfold slot_ok.
    apply andb_true_iff. rewrite Z.leb_le, Z.ltb_lt. lia. }
  apply wp_bind. eapply wp_mono; [apply (wp_destroy_group XDF_CDEV_CTRL); [exact H2|]|intros ? p3 H3].
  { intros r1 q1 Hd1. by apply (wp_destroy_one ctrl_cdev r1 q1). }
  apply wp_bind. eapply wp_mono; [apply (wp_destroy_group XDF_CDEV_USER); [exact H3|]|intros ? p4 H4].
  { intros r1 q1 Hd1. by apply (wp_destroy_one user_cdev r1 q1). }
  apply wp_bind. eapply wp_mono; [apply (wp_destroy_group XDF_CDEV_XVC); [exact H4|]|intros ? p5 H5].
  { intros r1 q1 Hd1. by apply (wp_destroy_one xvc_cdev r1 q1). }
  apply wp_bind. eapply wp_mono; [apply (wp_destroy_group XDF_CDEV_BYPASS); [exact H5|]|intros ? p6 H6].
  { intros r1 q1 Hd1. apply wp_bind. eapply wp_mono; [exact (wp_destroy_each _ bypass_h2c_cdev r1 q1 (Hch _ Hh) Hd1)|].
    intros ? q2 Hd2. apply wp_bind. eapply wp_mono; [exact (wp_destroy_each _ bypass_c2h_cdev _ q2 (Hch _ Hc) Hd2)|].
    intros ? q3 Hd3. change (group_slots x XDF_CDEV_BYPASS) with
      (map bypass_h2c_cdev (zrange (xp_h2c_channel_max x)) ++
       map bypass_c2h_cdev (zrange (xp_c2h_channel_max x)) ++ [bypass_cdev_base]).
    rewrite !after_destroy_app. by apply wp_destroy_one. }
  apply wp_when; intros _; [|exact H6]. by apply pwp_done, destroying_call.
Qed.
End destroy.

(** ** Slots and their groups *)

Definition group_of (s : slot) : Z :=
  match s with
  | ctrl_cdev => XDF_CDEV_CTRL
  | events_cdev _ => XDF_CDEV_EVENT
  | sgdma_c2h_cdev _ | sgdma_h2c_cdev _ => XDF_CDEV_SG
  | bypass_c2h_cdev _ | bypass_h2c_cdev _ | bypass_cdev_base => XDF_CDEV_BYPASS
  | user_cdev => XDF_CDEV_USER
  | xvc_cdev => XDF_CDEV_XVC
  end.

Ltac group_cases f :=
  unfold group_slots;
  destruct (Z.eqb_spec f XDF_CDEV_SG) as [->|?]; [|destruct (Z.eqb_spec f XDF_CDEV_EVENT) as [->|?];
    [|destruct (Z.eqb_spec f XDF_CDEV_CTRL) as [->|?]; [|destruct (Z.eqb_spec f XDF_CDEV_USER) as [->|?];
      [|destruct (Z.eqb_spec f XDF_CDEV_XVC) as [->|?]; [|destruct (Z.eqb_spec f XDF_CDEV_BYPASS) as [->|?]]]]]].

Lemma elem_of_slots (c : Z -> slot) n s : s ∈ map c (zrange n) <-> exists i, s = c i /\ 0 <= i < n.
Proof.
  rewrite list_elem_of_fmap. split; intros (i & -> & Hi); exists i; [by rewrite <- elem_of_zrange|].
  by rewrite elem_of_zrange.
Qed.

Lemma NoDup_slots (c : Z -> slot) n : Inj (=) (=) c -> NoDup (map c (zrange n)).
Proof. intros Hc. apply NoDup_fmap; [done|apply NoDup_seqZ]. Qed.

Lemma group_slots_of x f s : s ∈ group_slots x f -> group_of s = f.
Proof.
  group_cases f; rewrite ?elem_of_app, ?elem_of_slots, ?list_elem_of_singleton; try (by intros ->).
  - intros [(i & -> & _)|(i & -> & _)]; done.
  - intros (i & -> & _); done.
  - intros [(i & -> & _)|[(i & -> & _)| ->]]; done.
  - intros Hs. by apply not_elem_of_nil in Hs.
Qed.

Lemma group_slots_ok v x f s : limits_ok v x -> s ∈ group_slots x f -> slot_ok s = true.
Proof.
  intros Hl. pose proof (lim_user _ _ Hl). pose proof (lim_h2c _ _ Hl). pose proof (lim_c2h _ _ Hl).
  group_cases f; rewrite ?elem_of_app, ?elem_of_slots, ?list_elem_of_singleton; try (by intros ->).
  - intros [(i & -> & ?)|(i & -> & ?)]; apply channel_slot_ok; lia.
  - intros (i & -> & ?). unfold slot_ok. apply andb_true_iff. rewrite Z.leb_le, Z.ltb_lt. lia.
  - intros [(i & -> & ?)|[(i & -> & ?)| ->]]; [apply channel_slot_ok; lia..|done].
  - intros Hs. by apply not_elem_of_nil in Hs.
Qed.

Lemma NoDup_group_slots x f : NoDup (group_slots x f).
Proof.
  group_cases f; try (apply NoDup_singleton || apply NoDup_nil_2).
  - apply NoDup_app; split_and!; [apply NoDup_slots; by intros ?? [= ->]| |apply NoDup_slots; by intros ?? [= ->]].
    intros s. rewrite !elem_of_slots. by intros (i & -> & _) (j & [=] & _).
  - apply NoDup_slots. by intros ?? [= ->].
  - apply NoDup_app; split_and!; [apply NoDup_slots; by intros ?? [= ->]| |].
    + intros s. rewrite elem_of_app, !elem_of_slots, list_elem_of_singleton.
      by intros (i & -> & _) [(j & [=] & _)|[=]].
    + apply NoDup_app; split_and!; [apply NoDup_slots; by intros ?? [= ->]| |apply NoDup_singleton].
      intros s. rewrite elem_of_slots, list_elem_of_singleton. by intros (i & -> & _) [=].
Qed.

Lemma elem_of_groups {A} (G : Z -> list A) fs s :
  s ∈ concat (map G fs) <-> exists f, f ∈ fs /\ s ∈ G f.
Proof.
  induction fs as [|f fs IH]; cbn.
  - split; [by intros ?%not_elem_of_nil|by intros (f & ?%not_elem_of_nil & _)].
  - rewrite elem_of_app, IH. split.
    + intros [Hs|(f' & Hf & Hs)]; [exists f|exists f']; split; try done; [by left|by right].
    + intros (f' & Hf & Hs). apply elem_of_cons in Hf as [->|Hf]; [by left|right; eauto].
Qed.

(** Groups of different flags have no slot in common. *)
Lemma NoDup_groups (G : Z -> list slot) fs :
  (forall f, NoDup (G f)) -> (forall f s, s ∈ G f -> group_of s = f) -> NoDup fs ->
  NoDup (concat (map G fs)).
Proof.
  intros HG Ho. induction 1 as [|f fs Hf _ IH]; [apply NoDup_nil_2|]. cbn.
  apply NoDup_app; split_and!; [done| |done].
  intros s Hs (f' & Hin & Hs')%elem_of_groups. apply Ho in Hs, Hs'. congruence.
Qed.

Lemma NoDup_targets x : NoDup (targets x).
Proof.
  apply NoDup_groups.
  - intros f. destruct (xpdev_flag_test x f); [apply NoDup_group_slots|apply NoDup_nil_2].
  - intros f s. destruct (xpdev_flag_test x f); [apply group_slots_of|by intros ?%not_elem_of_nil].
  - apply (bool_decide_unpack _). by vm_compute.
Qed.

Lemma elem_of_targets x s :
  s ∈ targets x <-> xpdev_flag_test x (group_of s) = true /\ s ∈ group_slots x (group_of s) /\
                    group_of s ∈ destroy_order.
Proof.
  unfold targets. rewrite elem_of_groups. split.
  - intros (f & Hf & Hs). destruct (xpdev_flag_test x f) eqn:Ht; [|by apply not_elem_of_nil in Hs].
    by rewrite (group_slots_of x f s Hs).
  - intros (Ht & Hs & Hf). exists (group_of s). by rewrite Ht.
Qed.

(** ** The plan and the slots *)

Lemma channel_nodes_slots s t n : (channel_nodes s t n).*1 = map s (zrange n).
Proof. unfold channel_nodes. rewrite <- list_fmap_compose. done. Qed.

Lemma plan_groups x d : Forall (fun g => g.2.*1 = group_slots x g.1 /\ g.1 ∈ destroy_order) (plan x d).
Proof.
  assert (Hf : forall f, bool_decide (f ∈ destroy_order) = true -> f ∈ destroy_order).
  { intros f. apply bool_decide_eq_true_1. }
  assert (Hs : forall f g, g.*1 = group_slots x f -> bool_decide (f ∈ destroy_order) = true ->
    (fun p : group => p.2.*1 = group_slots x p.1 /\ p.1 ∈ destroy_order) (f, g)).
  { intros f g Hg Hin. split; [done|by apply Hf]. }
  unfold plan. repeat (apply Forall_app; split); repeat (apply Forall_cons; split); try apply Forall_nil_2;
    try (apply Hs; [|done]; rewrite ?fmap_app, ?channel_nodes_slots; done).
  - destruct (0 <? _); repeat (apply Forall_cons; split); try apply Forall_nil_2.
    apply Hs; [|done]. rewrite !fmap_app, !channel_nodes_slots. done.
  - destruct (0 <=? _); repeat (apply Forall_cons; split); try apply Forall_nil_2; by apply Hs.
Qed.

Lemma plan_flags x d : NoDup (plan x d).*1.
Proof.
  unfold plan. destruct (0 <? _), (0 <=? _); cbn; apply (bool_decide_unpack _); by vm_compute.
Qed.

(** ** What is left *)

Lemma has_bits_shift fl f : 0 <= f -> has_bits fl (Z.shiftl 1 f) = Z.testbit fl f.
Proof.
  intros Hf. rewrite Z.shiftl_1_l. by apply testbit_pow2.
Qed.

Lemma testbit_flags_of fl gs f :
  Forall (fun g => 0 <= g) gs.*1 -> 0 <= f ->
  Z.testbit (flags_of fl gs) f = Z.testbit fl f || bool_decide (f ∈ gs.*1).
Proof.
  unfold flags_of. generalize (gs.*1). intros fs Hfs Hf. revert fl.
  induction Hfs as [|g fs Hg _ IH]; intros fl; cbn [foldl].
  - rewrite bool_decide_eq_false_2; [by rewrite orb_false_r|apply not_elem_of_nil].
  - rewrite IH, Z.lor_spec, Z.shiftl_1_l, <- orb_assoc. f_equal.
    destruct (Z.eq_dec g f) as [->|Hne].
    + rewrite Z.pow2_bits_true by done. symmetry. apply bool_decide_eq_true_2. by left.
    + rewrite Z.pow2_bits_false by lia. cbn. apply bool_decide_ext. rewrite elem_of_cons. split; [by right|by intros [?|?]].
Qed.

Lemma filter_enc major s ns :
  slot_ok s = true -> Forall (fun n => slot_ok n.1 = true) ns ->
  filter (fun n => n.1 <> slot_addr s) (enc major ns) = enc major (filter (fun n => n.1 <> s) ns).
Proof.
  intros Hs. induction 1 as [|[s' m] ns Hn _ IH]; [done|]. cbn in Hn.
  change (enc major ((s', m) :: ns)) with ((slot_addr s', MKDEV major m) :: enc major ns).
  destruct (decide (s' = s)) as [->|Hne].
  - rewrite !filter_cons_False by (cbn; auto). done.
  - rewrite !filter_cons_True; cbn; [by rewrite IH|done|]. intros Ha. by apply Hne, slot_addr_inj.
Qed.

(** The slots [ts] of the nodes [ns] are destroyed; each is there once. *)
Lemma after_destroy_live x major ts ns :
  NoDup ts -> Forall (fun s => slot_ok s = true) ts -> Forall (fun n => slot_ok n.1 = true) ns ->
  (forall s, s ∈ ts -> destroyable (xp_cdevs x s) <-> s ∈ ns.*1) ->
  after_destroy x ts (Some (enc major ns)) = Some (enc major (filter (fun n : node => n.1 ∉ ts) ns)).
Proof.
  intros Hnd Hts. revert ns. induction Hnd as [|s ts Hs Hnd IH]; intros ns Hns Hd.
  { rewrite filter_all; [done|]. apply Forall_true. intros n. apply not_elem_of_nil. }
  apply Forall_cons in Hts as [Hok Hts]. specialize (IH Hts).
  change (after_destroy x (s :: ts) (Some (enc major ns))) with
    (after_destroy x ts (if decide (destroyable (xp_cdevs x s)) then del_node (slot_addr s) (Some (enc major ns))
                         else Some (enc major ns))).
  assert (Hf : filter (fun n : node => n.1 ∉ s :: ts) ns = filter (fun n => n.1 ∉ ts) (filter (fun n => n.1 <> s) ns)).
  { rewrite list_filter_filter. apply list_filter_iff. intros n. rewrite not_elem_of_cons. tauto. }
  rewrite Hf. destruct (decide (destroyable (xp_cdevs x s))) as [Hy|Hn].
  - apply Hd in Hy; [|by left]. cbn [del_node]. rewrite decide_True.
    2: { apply enc_fst. apply list_elem_of_fmap in Hy as (n & -> & Hin). by exists n. }
    rewrite filter_enc by done. apply IH.
    + rewrite Forall_forall in Hns |- *. intros n Hin. apply Hns. by apply list_elem_of_filter in Hin as [_ ?].
    + intros s' Hs'. rewrite Hd by (by right). rewrite !list_elem_of_fmap.
      split; intros (n & -> & Hin); exists n; (split; [done|]).
      * apply list_elem_of_filter. split; [|done]. intros Heq. by rewrite Heq in Hs'.
      * by apply list_elem_of_filter in Hin as [_ ?].
  - rewrite (filter_all (fun n => n.1 <> s)).
    + apply IH; [done|]. intros s' Hs'. apply Hd. by right.
    + apply Forall_forall. intros n Hin Heq. apply Hn, Hd; [by left|]. apply list_elem_of_fmap. by exists n.
Qed.

Lemma after_destroy_none x ts : after_destroy x ts None = None.
Proof.
  induction ts as [|s ts IH]; [done|].
  change (after_destroy x (s :: ts) None) with
    (after_destroy x ts (if decide (destroyable (xp_cdevs x s)) then None else None)).
  by destruct (decide _).
Qed.

(** A slot whose node is gone already is deleted again. *)
Lemma after_destroy_twice x ts s l :
  s ∈ ts -> destroyable (xp_cdevs x s) -> slot_addr s ∉ l.*1 -> after_destroy x ts (Some l) = None.
Proof.
  intros Hs Hd. revert l. induction ts as [|s' ts IH]; intros l Hl; [by apply not_elem_of_nil in Hs|].
  change (after_destroy x (s' :: ts) (Some l)) with
    (after_destroy x ts (if decide (destroyable (xp_cdevs x s')) then del_node (slot_addr s') (Some l) else Some l)).
  apply elem_of_cons in Hs as [<-|Hs].
  - rewrite decide_True by done. cbn. rewrite decide_False by done. apply after_destroy_none.
  - destruct (decide _); [|by apply IH]. cbn. destruct (decide _); [|apply after_destroy_none].
    apply IH; [done|]. rewrite list_elem_of_fmap. intros (n & Hn & Hin).
    apply list_elem_of_filter in Hin as [_ Hin]. apply Hl. rewrite Hn. by apply list_elem_of_fmap_2.
Qed.

(** ** The properties *)

(** A device that was just opened: no nodes, and as many engines as its limits
    say. *)
Record bare (p : pst) (x : xdma_pci_dev) : Prop := {
  bare_xpdev : p_xpdev p = Some x;
  bare_cdevs : forall s, ch_sys_device (xp_cdevs x s) = 0;
  bare_flags : xp_flags x = 0;
  bare_major : xp_major x = 0;
  bare_xdev : xp_xdev x <> 0;
  bare_class : p_class p <> 0;
  bare_reg : registry (v_log (p_v p)) = Some [];
  bare_limits : limits_ok (p_v p) x
}.

(** The nodes [ns] and no others are live. *)
Definition live (p : pst) (ns : list node) : Prop :=
  exists major, registry (v_log (p_v p)) = Some (enc major ns).

Definition the_plan (p : pst) (x : xdma_pci_dev) : list group := plan x (v_dev (p_v p)).

Section life.
Context `{RegionOk}.

Lemma limits_same v lg x0 x : limits_ok v x0 -> same_xpdev x0 x -> limits_ok (set_log lg v) x.
Proof. intros [Hu Hh Hc He] (_ & _ & _ & E1 & E2 & E3). split; by rewrite ?E1, ?E2, ?E3. Qed.

Lemma plan_same x0 x d : same_xpdev x0 x -> plan x d = plan x0 d.
Proof. intros (_ & _ & _ & E1 & E2 & E3). unfold plan. by rewrite E1, E2, E3. Qed.

Lemma bare_ifc p x : bare p x -> ifc (p_v p) x (p_class p) [] [] 0 p.
Proof.
  intros [Hx Hs Hf Hm Hxd Hc Hr Hl]. exists x. split; try done.
  - by destruct (p_v p).
  - intros s _. apply Hs.
Qed.

Lemma plan_nodup x d : NoDup (nodes_of (plan x d)).*1.
Proof.
  replace (nodes_of (plan x d)).*1 with (concat (map (group_slots x) (plan x d).*1)).
  - apply NoDup_groups; [apply NoDup_group_slots|apply group_slots_of|apply plan_flags].
  - unfold nodes_of. pose proof (plan_groups x d) as Hg. induction Hg as [|[f g] gs [Hg _] _ IH]; [done|].
    cbn in Hg |- *. by rewrite fmap_app, <- IH, Hg.
Qed.

Lemma wp_create_all p x :
  bare p x ->
  wp create_all (fun rv p' =>
    (0 <= rv /\ ifc (p_v p) x (p_class p) (nodes_of (the_plan p x)) (nodes_of (the_plan p x))
                  (flags_of 0 (the_plan p x)) p') \/
    (rv < 0 /\ unfinished (p_v p) x (p_class p) [] 0 (the_plan p x) p')) p.
Proof.
  intros Hb. pose proof (bare_ifc p x Hb) as [y Hi]. pose proof Hb as [Hx Hs Hf Hm Hxd Hc Hr Hl].
  apply wp_bind. eapply pwp_get_xpdev; [exact Hi|]. apply wp_bind.
  eapply pwp_get_xdev; [|exact Hi|].
  { destruct (ix_same _ _ _ _ _ _ _ _ Hi) as (_ & _ & -> & _). done. }
  apply (builds_all (p_v p) x (p_class p) Hc Hxd Hl (v_dev (p_v p)) [] 0 p); [by exists y|].
  apply plan_nodup.
Qed.

(** The slots that are destroyed are those of the groups that are flagged. *)
Lemma target_of_group x f g d s :
  (f, g) ∈ plan x d -> s ∈ g.*1 -> s ∈ targets x <-> xpdev_flag_test x f = true.
Proof.
  intros Hg Hs. pose proof (plan_groups x d) as Hp. rewrite Forall_forall in Hp.
  destruct (Hp _ Hg) as [Heq Hin]. cbn in Heq, Hin. rewrite Heq in Hs.
  pose proof (group_slots_of _ _ _ Hs) as Hgs. rewrite elem_of_targets, Hgs. tauto.
Qed.

Lemma order_nonneg f : f ∈ destroy_order -> 0 <= f.
Proof. revert f. apply Forall_forall. repeat constructor; done. Qed.

Lemma plan_nonneg x d : Forall (fun f => 0 <= f) (plan x d).*1.
Proof.
  apply Forall_fmap, Forall_impl with (1 := plan_groups x d). intros g [_ Hg]. by apply order_nonneg.
Qed.

(** The flags of the first groups of the plan, and of no others. *)
Lemma flag_test_plan x d gs1 gs2 f :
  plan x d = gs1 ++ gs2 -> xp_flags x = flags_of 0 gs1 -> f ∈ (plan x d).*1 ->
  xpdev_flag_test x f = true <-> f ∈ gs1.*1.
Proof.
  intros Hp Hf Hin. pose proof (plan_nonneg x d) as Hn. rewrite Forall_forall in Hn.
  unfold xpdev_flag_test. rewrite has_bits_shift by (by apply Hn). rewrite Hf, testbit_flags_of.
  - rewrite Z.bits_0, orb_false_l. apply bool_decide_eq_true.
  - apply Forall_forall. intros g Hg. apply Hn. rewrite Hp, fmap_app. apply elem_of_app. by left.
  - by apply Hn.
Qed.

(** The targets of a structure that owns the nodes [ns] are nodes of [ns], or
    cannot be destroyed. *)
Lemma after_destroy_ifc v0 x0 cls ns fl x p v :
  ifc_x v0 x0 cls ns ns fl x p -> limits_ok v x ->
  after_destroy x (targets x) (registry (v_log (p_v p))) =
    Some (enc (xp_major x) (filter (fun n : node => n.1 ∉ targets x) ns)).
Proof.
  intros [_ _ _ _ _ Hr _ Ho Hli] Hl. rewrite Hr. apply after_destroy_live; [apply NoDup_targets| |done|].
  - apply Forall_forall. intros s (_ & Hs & _)%elem_of_targets. by eapply group_slots_ok.
  - intros s (_ & Hs & _)%elem_of_targets. assert (Hso : slot_ok s = true) by (by eapply group_slots_ok).
    specialize (Hli s Hso). destruct (decide (s ∈ ns.*1)) as [Hin|Hout]; [done|].
    split; [|done]. by intros (_ & _ & Hn).
Qed.

(** Destroying leaves the nodes of the groups that have no flag. *)
Lemma wp_destroy_ifc p x0 ns fl p1 :
  ifc (p_v p) x0 (p_class p) ns ns fl p1 -> limits_ok (p_v p) x0 -> p_class p <> 0 ->
  wp xpdev_destroy_interfaces (fun _ p2 => exists x, same_xpdev x0 x /\ xp_flags x = fl /\
    p_xpdev p2 = Some x /\ p_class p2 = p_class p /\ limits_ok (p_v p2) x /\
    (forall s, slot_ok s = true -> s ∈ ns.*1 -> destroyable (xp_cdevs x s)) /\
    registry (v_log (p_v p2)) = Some (enc (xp_major x) (filter (fun n : node => n.1 ∉ targets x) ns))) p1.
Proof.
  intros [x Hi] Hl Hc. pose proof (ix_same _ _ _ _ _ _ _ _ Hi) as Hsm. pose proof Hi as [Hv Hcl Hx _ Hfl Hr _ Ho Hli].
  assert (Hl1 : limits_ok (p_v p1) x) by (rewrite Hv; by apply limits_same with x0).
  eapply wp_mono.
  - apply (wp_destroy_interfaces x p1 Hl1) with (r := Some (enc (xp_major x) ns)); [by rewrite Hcl|done|].
    split; [|done]. by destruct p1 as [? ? ? ? ? ? []].
  - intros ? p2 [Hp2 Hr2]. exists x. split_and!; try done.
    + by rewrite Hp2.
    + by rewrite Hp2.
    + rewrite Hp2. by apply limits_same with x.
    + intros s Hs Hin. specialize (Hli s Hs). by rewrite decide_True in Hli.
    + etrans; [exact Hr2|]. rewrite <-Hr. by eapply after_destroy_ifc.
Qed.

Lemma in_nodes_of (n : node) gs : n ∈ nodes_of gs <-> exists g, g ∈ gs /\ n ∈ g.2.
Proof.
  unfold nodes_of. induction gs as [|g gs IH]; cbn.
  - split; [by intros ?%not_elem_of_nil|by intros (? & ?%not_elem_of_nil & _)].
  - rewrite elem_of_app, IH. split.
    + intros [Hn|(g' & Hg & Hn)]; [exists g|exists g']; split; try done; [by left|by right].
    + intros (g' & Hg & Hn). apply elem_of_cons in Hg as [->|Hg]; [by left|right; eauto].
Qed.

Lemma group_slot (n : node) (g : list node) : n ∈ g -> n.1 ∈ g.*1.
Proof. apply list_elem_of_fmap_2. Qed.

(** Of the nodes of the flagged groups and some nodes [r] of the next one, the
    destruction leaves [r]. *)
Lemma filter_targets x d gs1 f g gs2 r :
  plan x d = gs1 ++ (f, g) :: gs2 -> xp_flags x = flags_of 0 gs1 -> r ⊆ g ->
  filter (fun n : node => n.1 ∉ targets x) (nodes_of gs1 ++ r) = r.
Proof.
  intros Hp Hfl Hr. rewrite filter_app. rewrite (filter_all _ r).
  - rewrite filter_none; [done|]. apply Forall_forall. intros n ([f1 g1] & Hg & Hn)%in_nodes_of Hout.
    cbn in Hn. assert (Hin : (f1, g1) ∈ plan x d) by (rewrite Hp; apply elem_of_app; by left).
    apply Hout, (target_of_group x f1 g1 d); [done|by apply group_slot|].
    apply (flag_test_plan x d gs1 ((f, g) :: gs2)); [done..| |].
    + by apply (list_elem_of_fmap_2 fst _ (f1, g1)).
    + by apply (list_elem_of_fmap_2 fst _ (f1, g1)).
  - apply Forall_forall. intros n Hn Hin.
    assert (Hg : (f, g) ∈ plan x d) by (rewrite Hp; apply elem_of_app; right; by left).
    apply (target_of_group x f g d) in Hin; [|done|by apply group_slot, Hr].
    apply (flag_test_plan x d gs1 ((f, g) :: gs2)) in Hin; [|done..|by apply (list_elem_of_fmap_2 fst _ (f, g))].
    pose proof (plan_flags x d) as Hnd. rewrite Hp, fmap_app in Hnd. apply NoDup_app in Hnd as (_ & Hd & _).
    apply (Hd f); [done|]. by left.
Qed.

(** ... and of a complete plan, nothing. *)
Lemma filter_targets_all x d :
  xp_flags x = flags_of 0 (plan x d) ->
  filter (fun n : node => n.1 ∉ targets x) (nodes_of (plan x d)) = [].
Proof.
  intros Hfl. apply filter_none, Forall_forall. intros n ([f1 g1] & Hg & Hn)%in_nodes_of Hout.
  apply Hout, (target_of_group x f1 g1 d); [done|by apply group_slot|].
  apply (flag_test_plan x d (plan x d) []); [by rewrite app_nil_r|done|..];
    by apply (list_elem_of_fmap_2 fst _ (f1, g1)).
Qed.

(** The state after a destruction: of the nodes [ns] that were made those of
    [r] are left, and the flags are still those of the groups [gs]. *)
Record remains (p : pst) (x0 : xdma_pci_dev) (gs : list group) (ns r : list node) (x : xdma_pci_dev)
    (p2 : pst) : Prop := {
  rem_same : same_xpdev x0 x;
  rem_flags : xp_flags x = flags_of 0 gs;
  rem_xpdev : p_xpdev p2 = Some x;
  rem_class : p_class p2 = p_class p;
  rem_limits : limits_ok (p_v p2) x;
  rem_live : forall s, slot_ok s = true -> s ∈ ns.*1 -> destroyable (xp_cdevs x s);
  rem_reg : registry (v_log (p_v p2)) = Some (enc (xp_major x) r)
}.

Lemma wp_destroy_remains p x0 gs ns r p1 :
  ifc (p_v p) x0 (p_class p) ns ns (flags_of 0 gs) p1 -> limits_ok (p_v p) x0 -> p_class p <> 0 ->
  (forall x, same_xpdev x0 x -> xp_flags x = flags_of 0 gs ->
     filter (fun n : node => n.1 ∉ targets x) ns = r) ->
  wp xpdev_destroy_interfaces (fun _ p2 => exists x, remains p x0 gs ns r x p2) p1.
Proof.
  intros Hi Hl Hc Hr. eapply wp_mono; [by eapply wp_destroy_ifc|].
  intros ? p2 (x & Hs & Hf & Hx & Hcl & Hl2 & Hd & Hreg). exists x. split; try done. by rewrite Hreg, Hr.
Qed.

(** Destroying again deletes a node that is gone. *)
Lemma after_destroy_again p x0 gs gs2 ns r x p2 n :
  remains p x0 gs ns r x p2 -> the_plan p x0 = gs ++ gs2 ->
  n ∈ nodes_of gs -> n ∈ ns -> n.1 ∉ r.*1 -> Forall (fun n => slot_ok n.1 = true) r ->
  after_destroy x (targets x) (registry (v_log (p_v p2))) = None.
Proof.
  intros [Hs Hf Hx Hcl Hl Hd Hreg] Hp Hn Hns Hr Hok. rewrite Hreg.
  assert (Hp' : plan x (v_dev (p_v p)) = gs ++ gs2) by (rewrite (plan_same _ _ _ Hs); exact Hp).
  apply in_nodes_of in Hn as ([f g] & Hg & Hn). cbn in Hn.
  assert (Hin : (f, g) ∈ plan x (v_dev (p_v p))) by (rewrite Hp'; apply elem_of_app; by left).
  assert (Ht : n.1 ∈ targets x).
  { apply (target_of_group x f g (v_dev (p_v p))); [done|by apply group_slot|].
    apply (flag_test_plan x (v_dev (p_v p)) gs gs2); [done..| |]; by apply (list_elem_of_fmap_2 fst _ (f, g)). }
  assert (Hso : slot_ok n.1 = true).
  { apply elem_of_targets in Ht as (_ & Ht & _). by eapply group_slots_ok. }
  eapply after_destroy_twice; [exact Ht| |by apply enc_fresh].
  apply Hd; [done|]. by apply group_slot.
Qed.

Lemma wp_destroy_again p x0 gs gs2 ns r x p2 n :
  remains p x0 gs ns r x p2 -> p_class p <> 0 -> the_plan p x0 = gs ++ gs2 ->
  n ∈ nodes_of gs -> n ∈ ns -> n.1 ∉ r.*1 -> Forall (fun n => slot_ok n.1 = true) r ->
  wp xpdev_destroy_interfaces (fun _ p3 => registry (v_log (p_v p3)) = None) p2.
Proof.
  intros Hrem Hc Hp Hn Hns Hr Hok. pose proof Hrem as [Hs Hf Hx Hcl Hl Hd Hreg]. eapply wp_mono.
  - apply (wp_destroy_interfaces x p2 Hl) with (r := registry (v_log (p_v p2))); [by rewrite Hcl|done|].
    split; [|done]. by destruct p2 as [? ? ? ? ? ? []].
  - intros ? p3 [_ Hr3]. etrans; [exact Hr3|]. by eapply after_destroy_again.
Qed.

(** The outcomes of the creation. *)
Definition created (p : pst) (x : xdma_pci_dev) (p' : pst) : Prop :=
  ifc (p_v p) x (p_class p) (nodes_of (the_plan p x)) (nodes_of (the_plan p x)) (flags_of 0 (the_plan p x)) p'.

Definition not_created (p : pst) (x : xdma_pci_dev) (p' : pst) : Prop :=
  exists gs1 f g gs2 k y, the_plan p x = gs1 ++ (f, g) :: gs2 /\ (k < length g)%nat /\
    remains p x gs1 (nodes_of gs1 ++ take k g) (take k g) y p'.

(** The end of a creation that failed. *)
Lemma wp_destroy_unfinished p x gs1 f g gs2 k p1 :
  bare p x -> the_plan p x = gs1 ++ (f, g) :: gs2 -> (k < length g)%nat ->
  ifc (p_v p) x (p_class p) (nodes_of gs1 ++ take k g) (nodes_of gs1 ++ take k g) (flags_of 0 gs1) p1 ->
  wp xpdev_destroy_interfaces (fun _ p2 => exists y, remains p x gs1 (nodes_of gs1 ++ take k g) (take k g) y p2) p1.
Proof.
  intros Hb Hp Hk Hi. apply (wp_destroy_remains p x gs1 _ (take k g) p1 Hi); [apply Hb..|].
  intros y Hs Hf. apply (filter_targets y (v_dev (p_v p)) gs1 f g gs2); [|done|].
  - rewrite (plan_same _ _ _ Hs). exact Hp.
  - intros n. apply subseteq_take.
Qed.

Lemma wp_create_interfaces p x :
  bare p x ->
  wp xpdev_create_interfaces (fun rv p' =>
    (rv = 0 /\ created p x p') \/ (rv = - 1 /\ not_created p x p')) p.
Proof.
  intros Hb. apply wp_bind. eapply wp_mono; [by apply wp_create_all|].
  intros rv p1 [[Hrv Hi]|[Hrv (gs1 & f & g & gs2 & k & Hp & Hk & Hi)]].
  - rewrite (proj2 (Z.ltb_ge rv 0)) by done. apply wp_ret. by left.
  - rewrite (proj2 (Z.ltb_lt rv 0)) by done. apply wp_bind.
    eapply wp_mono; [by eapply wp_destroy_unfinished|].
    intros ? p2 [y Hy]. apply wp_ret. right. split; [done|]. by exists gs1, f, g, gs2, k, y.
Qed.

(** The control node is the first one: the creation ends with it, or the groups
    that are complete include it. *)
Lemma wp_create_after_ctrl p x :
  bare p x ->
  exists rv0 q, create_ctrl (v_dev (p_v p)) p = Some (rv0, q) /\
    wp xpdev_create_interfaces (fun rv p' =>
      if rv0 <? 0 then rv = - 1 /\ live p' [] /\ exists y, p_xpdev p' = Some y /\ xp_flags y = 0
      else rv = 0 /\ created p x p' \/
           rv = - 1 /\ exists g1 gs1 f g gs2 k y, the_plan p x = g1 :: gs1 ++ (f, g) :: gs2 /\ (k < length g)%nat /\
             remains p x (g1 :: gs1) (nodes_of (g1 :: gs1) ++ take k g) (take k g) y p') p.
Proof.
  intros Hb. pose proof (bare_ifc p x Hb) as [y Hi]. pose proof Hb as [Hx Hs Hf Hm Hxd Hc Hr Hl].
  pose proof (plan_nodup x (v_dev (p_v p))) as Hnd.
  assert (Hd0 : nodes_of (plan x (v_dev (p_v p))) =
    [(ctrl_cdev, minor_number CHAR_CTRL 0)] ++ nodes_of (tail (plan x (v_dev (p_v p))))) by done.
  rewrite Hd0 in Hnd.
  pose proof (builds_ctrl (p_v p) x (p_class p) Hc Hxd (v_dev (p_v p)) [] 0 p ltac:(by exists y)) as Hw.
  specialize (Hw (NoDup_singleton _)). apply wp_iff in Hw as (rv0 & q & Hrun & Hq).
  exists rv0, q. split; [done|].
  apply wp_bind, wp_bind. eapply pwp_get_xpdev; [exact Hi|]. apply wp_bind.
  eapply pwp_get_xdev; [|exact Hi|].
  { destruct (ix_same _ _ _ _ _ _ _ _ Hi) as (_ & _ & -> & _). done. }
  apply wp_bind. unfold wp at 1. rewrite Hrun. destruct Hq as [[Hrv Hq]|[Hrv (gs1 & f & g & gs2 & k & Hp & Hk & Hq)]].
  - rewrite !(proj2 (Z.ltb_ge rv0 0)) by done.
    eapply wp_mono; [apply (builds_rest (p_v p) x (p_class p) Hc Hxd Hl (v_dev (p_v p)) _ _ q Hq Hnd)|].
    intros rv p1 [[Hrv1 Hi1]|[Hrv1 (gs1 & f & g & gs2 & k & Hp & Hk & Hi1)]].
    + rewrite (proj2 (Z.ltb_ge rv 0)) by done. apply wp_ret. left. split; [done|]. exact Hi1.
    + rewrite (proj2 (Z.ltb_lt rv 0)) by done. apply wp_bind.
      set (g1 := (XDF_CDEV_CTRL, [(ctrl_cdev, minor_number CHAR_CTRL 0)]) : group).
      assert (Hp1 : the_plan p x = (g1 :: gs1) ++ (f, g) :: gs2) by (change (g1 :: tail (plan x (v_dev (p_v p))) = g1 :: gs1 ++ (f, g) :: gs2); by rewrite Hp).
      eapply wp_mono; [by eapply (wp_destroy_unfinished p x (g1 :: gs1))|].
      intros ? p2 [z Hz]. apply wp_ret. right. split; [done|]. by exists g1, gs1, f, g, gs2, k, z.
  - rewrite !(proj2 (Z.ltb_lt rv0 0)) by done. apply wp_ret. rewrite (proj2 (Z.ltb_lt rv0 0)) by done. apply wp_bind.
    assert (gs1 = [] /\ k = 0%nat /\ g = [(ctrl_cdev, minor_number CHAR_CTRL 0)] /\ f = XDF_CDEV_CTRL) as (-> & -> & -> & ->).
    { destruct gs1 as [|? [|]]; [|done|done]. injection Hp as <- <- <-. cbn in Hk. split_and!; [done|lia|done|done]. }
    eapply wp_mono; [apply (wp_destroy_unfinished p x [] XDF_CDEV_CTRL [(ctrl_cdev, minor_number CHAR_CTRL 0)] (tail (plan x (v_dev (p_v p)))) 0); [done|done|cbn; lia|exact Hq]|].
    intros ? p2 [z Hz]. apply wp_ret. split; [done|]. split; [exists (xp_major z); apply Hz|].
    exists z. split; apply Hz.
Qed.
End life.

(** ** Device numbers *)

Lemma MKDEV_sum major m : 0 <= m < 2 ^ 20 -> MKDEV major m = major * 2 ^ 20 + m.
Proof.
  intros Hm. unfold MKDEV. rewrite <- Z.shiftl_mul_pow2 by lia.
  rewrite <- Z.add_lor_land. replace (Z.land (Z.shiftl major 20) m) with 0; [lia|].
  symmetry. apply Z.bits_inj'. intros n Hn. rewrite Z.land_spec, Z.bits_0.
  destruct (Z.ltb_spec n 20).
  - by rewrite Z.shiftl_spec_low.
  - rewrite <- (Z.mod_small m (2 ^ 20)) by done. rewrite Z.mod_pow2_bits_high by lia. apply andb_false_r.
Qed.

Definition slot_minor (s : slot) : Z :=
  match s with
  | ctrl_cdev => 1
  | events_cdev i => 10 + i
  | sgdma_h2c_cdev i => 32 + i
  | sgdma_c2h_cdev i => 36 + i
  | bypass_h2c_cdev i => 64 + i
  | bypass_c2h_cdev i => 68 + i
  | bypass_cdev_base => 100
  | user_cdev => 0
  | xvc_cdev => 2
  end.

Lemma slot_minor_inj s s' : slot_ok s = true -> slot_ok s' = true -> slot_minor s = slot_minor s' -> s = s'.
Proof.
  destruct s, s'; unfold slot_ok, slot_minor; rewrite ?andb_true_iff, ?Z.leb_le, ?Z.ltb_lt; unfold XDMA_CHANNEL_NUM_MAX;
    intros; try lia; try done; f_equal; lia.
Qed.

Lemma slot_minor_range s : slot_ok s = true -> 0 <= slot_minor s < XDMA_MINOR_COUNT.
Proof.
  unfold XDMA_MINOR_COUNT. destruct s; unfold slot_ok, slot_minor; rewrite ?andb_true_iff, ?Z.leb_le, ?Z.ltb_lt;
    unfold XDMA_CHANNEL_NUM_MAX; lia.
Qed.

Lemma in_channel_nodes (n : node) s t k :
  n ∈ channel_nodes s t k <-> exists i, n = (s i, minor_number t i) /\ 0 <= i < k.
Proof.
  unfold channel_nodes. rewrite list_elem_of_fmap.
  split; intros (i & -> & Hi); exists i; [by rewrite <- elem_of_zrange|]. by rewrite elem_of_zrange.
Qed.

Lemma plan_minor x d n : n ∈ nodes_of (plan x d) -> n.2 = slot_minor n.1.
Proof.
  unfold plan. rewrite !nodes_of_app. unfold nodes_of at 1. cbn [fmap list_fmap concat snd].
  rewrite !elem_of_app, !list_elem_of_singleton, !in_channel_nodes.
  assert (Hb : forall (b : bool) gs, n ∈ nodes_of (if b then gs else []) -> n ∈ nodes_of gs).
  { intros [] gs; [done|]. by intros ?%not_elem_of_nil. }
  intros [[->|[(i & -> & _)|[[(i & -> & _)|(i & -> & _)]|Hn]]]|[Hn|Hn]]; try done.
  - by apply not_elem_of_nil in Hn.
  - apply Hb in Hn. unfold nodes_of in Hn. cbn [fmap list_fmap concat snd] in Hn.
    rewrite app_nil_r, !elem_of_app, !in_channel_nodes, list_elem_of_singleton in Hn.
    by destruct Hn as [(i & -> & _)|[(i & -> & _)| ->]].
  - apply Hb in Hn. unfold nodes_of in Hn. cbn in Hn. rewrite !elem_of_cons in Hn.
    destruct Hn as [->|[->|Hn]]; [done..|]. by apply not_elem_of_nil in Hn.
Qed.

Lemma devno_distinct major ns :
  NoDup ns.*1 -> Forall (fun n => slot_ok n.1 = true /\ n.2 = slot_minor n.1) ns ->
  NoDup (enc major ns).*2 /\
  Forall (fun v => MKDEV major XDMA_MINOR_BASE <= v < MKDEV major XDMA_MINOR_BASE + XDMA_MINOR_COUNT) (enc major ns).*2.
Proof.
  intros Hnd Hns. assert (Hm : forall n : node, slot_ok n.1 = true -> n.2 = slot_minor n.1 -> 0 <= n.2 < XDMA_MINOR_COUNT).
  { intros n Hs ->. by apply slot_minor_range. }
  unfold XDMA_MINOR_COUNT in *. split.
  - induction Hns as [|n ns [Hs Hn] Hns IH]; [by constructor|]. cbn in Hnd |- *.
    apply NoDup_cons in Hnd as [Hout Hnd]. apply NoDup_cons. split; [|by apply IH].
    rewrite list_elem_of_fmap. intros (v & Hv & (n' & -> & Hin)%list_elem_of_fmap). cbn in Hv.
    rewrite Forall_forall in Hns. destruct (Hns _ Hin) as [Hs' Hn'].
    pose proof (Hm n Hs Hn). pose proof (Hm n' Hs' Hn'). rewrite !MKDEV_sum in Hv by lia.
    apply Hout. rewrite (slot_minor_inj n.1 n'.1); [by apply list_elem_of_fmap_2|done..|lia].
  - apply Forall_fmap, Forall_fmap. apply Forall_impl with (1 := Hns). intros n [Hs Hn]. cbn.
    pose proof (Hm n Hs Hn). rewrite !MKDEV_sum; unfold XDMA_MINOR_BASE; lia.
Qed.

Section theorems.
Context `{RegionOk}.

Lemma nodes_of_split k gs1 f g gs2 :
  nodes_of (gs1 ++ (f, g) :: gs2) = nodes_of gs1 ++ take k g ++ drop k g ++ nodes_of gs2.
Proof. rewrite nodes_of_app, (app_assoc (take k g)), take_drop. done. Qed.

Lemma created_live p x p' : created p x p' -> live p' (nodes_of (the_plan p x)).
Proof. intros [y Hi]. exists (xp_major y). apply Hi. Qed.

Lemma plan_slots_ok p x : bare p x -> Forall (fun n => slot_ok n.1 = true) (nodes_of (the_plan p x)).
Proof.
  intros Hb. apply Forall_forall. intros n ([f g] & Hg & Hn)%in_nodes_of.
  pose proof (plan_groups x (v_dev (p_v p))) as Hp. rewrite Forall_forall in Hp.
  destruct (Hp _ Hg) as [Heq _]. cbn in Heq, Hn. apply (group_slots_ok (p_v p) x f); [apply Hb|].
  rewrite <- Heq. by apply group_slot.
Qed.

(** C20: [xpdev_create_interfaces], for every failure of the kernel: either it
    returns 0 and exactly the planned nodes are live (control, one per user
    interrupt, one per engine and direction, and the bypass, user and XVC nodes
    of the BARs that exist); or it returns -1 and what stays behind is exactly
    what had been made of the group of nodes in which the failure happened. *)
Theorem create_interfaces_spec p x :
  bare p x ->
  exists rv p', xpdev_create_interfaces p = Some (rv, p') /\
    ((rv = 0 /\ live p' (nodes_of (the_plan p x))) \/
     (rv = - 1 /\ exists gs1 f g gs2 k,
        the_plan p x = gs1 ++ (f, g) :: gs2 /\ (k < length g)%nat /\ live p' (take k g))).
Proof.
  intros Hb. apply wp_iff. eapply wp_mono; [by apply wp_create_interfaces|].
  intros rv p' [[-> Hc]|[-> (gs1 & f & g & gs2 & k & y & Hp & Hk & Hr)]].
  - left. split; [done|]. by apply created_live.
  - right. split; [done|]. exists gs1, f, g, gs2, k. split_and!; [done..|].
    exists (xp_major y). apply Hr.
Qed.

(** Creating and then destroying the interfaces: every node is gone; and
    destroying them once more would delete a node that is not there. *)
Theorem create_destroy_interfaces p x :
  bare p x ->
  exists rv p1, xpdev_create_interfaces p = Some (rv, p1) /\
    (rv = 0 -> exists p2, xpdev_destroy_interfaces p1 = Some (tt, p2) /\ live p2 [] /\
       exists p3, xpdev_destroy_interfaces p2 = Some (tt, p3) /\ registry (v_log (p_v p3)) = None).
Proof.
  intros Hb. apply wp_iff. eapply wp_mono; [by apply wp_create_interfaces|].
  intros rv p1 [[-> Hc]|[-> _]]; [|done]. intros _.
  assert (Hd : wp xpdev_destroy_interfaces
    (fun _ p2 => exists y, remains p x (the_plan p x) (nodes_of (the_plan p x)) [] y p2) p1).
  { apply (wp_destroy_remains p x (the_plan p x) _ [] p1 Hc); [apply Hb..|].
    intros y Hs Hf. unfold the_plan in *. rewrite <- (plan_same x y (v_dev (p_v p)) Hs) in Hf |- *.
    by apply filter_targets_all. }
  apply wp_iff in Hd as ([] & p2 & Hrun & y & Hr). exists p2. split_and!; [done| |].
  { exists (xp_major y). apply Hr. }
  pose proof (wp_destroy_again p x (the_plan p x) [] _ [] y p2 (ctrl_cdev, 1) Hr) as Hag.
  apply wp_iff in Hag as ([] & p3 & Hrun3 & Hnone); [by exists p3|apply Hb|by rewrite app_nil_r| | | |done];
    [by left..|]. by intros ?%not_elem_of_nil.
Qed.

(** C23: the device numbers of the live nodes are pairwise distinct and inside
    the region of minor numbers that the driver reserved. *)
Theorem device_numbers p x :
  bare p x ->
  exists rv p' y l, xpdev_create_interfaces p = Some (rv, p') /\ p_xpdev p' = Some y /\
    registry (v_log (p_v p')) = Some l /\ NoDup l.*2 /\
    Forall (fun v => MKDEV (xp_major y) XDMA_MINOR_BASE <= v <
                     MKDEV (xp_major y) XDMA_MINOR_BASE + XDMA_MINOR_COUNT) l.*2.
Proof.
  intros Hb. pose proof (plan_slots_ok p x Hb) as Hok. pose proof (plan_nodup x (v_dev (p_v p))) as Hnd.
  assert (Hall : Forall (fun n => slot_ok n.1 = true /\ n.2 = slot_minor n.1) (nodes_of (the_plan p x))).
  { rewrite Forall_forall in Hok |- *. intros n Hn. split; [by apply Hok|by eapply plan_minor]. }
  pose proof (wp_create_interfaces p x Hb) as Hw.
  apply wp_iff in Hw as (rv & p' & Hrun & [[-> [y Hi]]|[-> (gs1 & f & g & gs2 & k & y & Hp & Hk & Hr)]]).
  - exists 0, p', y, (enc (xp_major y) (nodes_of (the_plan p x))).
    destruct (devno_distinct (xp_major y) _ Hnd Hall). split_and!; [done|apply Hi|apply Hi|done..].
  - exists (- 1), p', y, (enc (xp_major y) (take k g)). change (the_plan p x) with (plan x (v_dev (p_v p))) in *.
    rewrite Hp, (nodes_of_split k) in Hnd, Hall.
    rewrite !fmap_app in Hnd. apply NoDup_app in Hnd as (_ & _ & (Hnd & _ & _)%NoDup_app).
    apply Forall_app in Hall as [_ [Hall _]%Forall_app].
    destruct (devno_distinct (xp_major y) _ Hnd Hall). split_and!; [done|apply Hr|apply Hr|done..].
Qed.

(** A second destruction after a creation that failed: there was no node, or a
    node that is gone is deleted. *)
Lemma after_not_created p x gs1 f g gs2 k y p1 :
  bare p x -> the_plan p x = gs1 ++ (f, g) :: gs2 -> (k < length g)%nat ->
  remains p x gs1 (nodes_of gs1 ++ take k g) (take k g) y p1 ->
  let r := after_destroy y (targets y) (registry (v_log (p_v p1))) in r = Some [] \/ r = None.
Proof.
  intros Hb Hp Hk Hr r. pose proof (plan_slots_ok p x Hb) as Hok. pose proof (plan_nodup x (v_dev (p_v p))) as Hnd.
  change (the_plan p x) with (plan x (v_dev (p_v p))) in *. destruct gs1 as [|g1 gs1].
  - left. assert (g = [(ctrl_cdev, minor_number CHAR_CTRL 0)]) as -> by (by injection Hp as _ <- _).
    cbn [length] in Hk. assert (k = 0%nat) as -> by lia.
    assert (targets y = []) as Ht.
    { apply elem_of_nil_inv. intros s (Hf & _)%elem_of_targets. unfold xpdev_flag_test in Hf.
      by rewrite (rem_flags _ _ _ _ _ _ _ Hr) in Hf. }
    unfold r. rewrite Ht, (rem_reg _ _ _ _ _ _ _ Hr). done.
  - right. assert (Hg1 : g1 = (XDF_CDEV_CTRL, [(ctrl_cdev, 1)])) by (unfold plan in Hp; by injection Hp).
    rewrite Hp, (nodes_of_split k) in Hnd, Hok. rewrite !fmap_app in Hnd.
    apply NoDup_app in Hnd as (_ & Hdis & _). apply Forall_app in Hok as [_ [Hok _]%Forall_app].
    assert (Hin : (ctrl_cdev, 1) ∈ nodes_of (g1 :: gs1)) by (rewrite Hg1; by left).
    eapply (after_destroy_again p x (g1 :: gs1) ((f, g) :: gs2) _ _ y p1 (ctrl_cdev, 1) Hr); [exact Hp|done|..].
    + apply elem_of_app. by left.
    + intros Hr2. apply (Hdis ctrl_cdev); [by apply (list_elem_of_fmap_2 fst _ (ctrl_cdev, 1))|].
      apply elem_of_app. by left.
    + done.
Qed.

(** C24: what a failed creation leaves for [probe_one], which destroys the
    interfaces a second time (in [xpdev_free]). When the control node, the first
    one, cannot be made, nothing is live and no group is flagged; when it was made
    and a later node fails, the second destruction always deletes a node that is
    gone, for the groups are still flagged after the first one. *)
Theorem failed_create_double_delete p x :
  bare p x ->
  exists rv0 q rv p1,
    create_ctrl (v_dev (p_v p)) p = Some (rv0, q) /\ xpdev_create_interfaces p = Some (rv, p1) /\
    if rv0 <? 0 then rv = - 1 /\ live p1 [] /\ exists y, p_xpdev p1 = Some y /\ xp_flags y = 0
    else rv = 0 \/
         rv = - 1 /\ exists p2, xpdev_destroy_interfaces p1 = Some (tt, p2) /\ registry (v_log (p_v p2)) = None.
Proof.
  intros Hb. pose proof (plan_slots_ok p x Hb) as Hok.
  destruct (wp_create_after_ctrl p x Hb) as (rv0 & q & Hrun & Hw). exists rv0, q.
  apply wp_iff in Hw as (rv & p1 & Hrun1 & Hp1). exists rv, p1. split_and!; [done..|].
  destruct (rv0 <? 0); [done|]. destruct Hp1 as [[-> _]|[-> (g1 & gs1 & f & g & gs2 & k & y & Hp & Hk & Hr)]]; [by left|right].
  split; [done|]. pose proof (plan_nodup x (v_dev (p_v p))) as Hnd.
  change (the_plan p x) with (plan x (v_dev (p_v p))) in *.
  assert (Hg1 : g1 = (XDF_CDEV_CTRL, [(ctrl_cdev, 1)])) by (unfold plan in Hp; by injection Hp).
  rewrite app_comm_cons in Hp. rewrite Hp, (nodes_of_split k) in Hnd, Hok. rewrite !fmap_app in Hnd.
  apply NoDup_app in Hnd as (_ & Hdis & _). apply Forall_app in Hok as [_ [Hok _]%Forall_app].
  assert (Hin : (ctrl_cdev, 1) ∈ nodes_of (g1 :: gs1)) by (rewrite Hg1; by left).
  pose proof (wp_destroy_again p x (g1 :: gs1) ((f, g) :: gs2) _ _ y p1 (ctrl_cdev, 1) Hr) as Hag.
  apply wp_iff in Hag as ([] & p2 & Hrun2 & Hnone); [by exists p2|apply Hb|done|done| | |done].
  - apply elem_of_app. by left.
  - intros Hr2. apply (Hdis ctrl_cdev); [by apply (list_elem_of_fmap_2 fst _ (ctrl_cdev, 1))|].
    apply elem_of_app. by left.
Qed.
End theorems.

(** ** A concrete device *)

(** A kernel that grants everything, except [cdev_add] for the slot [bad]. *)
Definition node_env (bad : Z) : Env := {|
  io_read _ _ := 0;
  kernel _ f args :=
    if String.eqb f "alloc_chrdev_region dev" then MKDEV 240 0
    else if String.eqb f "device_create" then 0x7000
    else if String.eqb f "cdev_add" then
      match args with a :: _ => if a =? bad then - ENOMEM else 0 | [] => 0 end
    else 0;
  poll_mode := false;
  interrupt_mode := 0;
  enable_st_c2h_credit := false;
  desc_blen_max := XDMA_DESC_BLEN_MAX;
  HZ := 250;
  SIZEOF_REQ := 400
|}.

#[export] Instance node_env_region bad : @RegionOk (node_env bad).
Proof. split; intros lg; cbn; [lia|by vm_compute]. Qed.

Definition demo_xpdev : xdma_pci_dev :=
  mk_xpdev MAGIC_DEVICE 1 77 0 2 1 1 0 (fun _ => mk_chr (mk_cdev 0 0 0 0 None None) 0 no_fops 0).

Definition demo_pst : pst := mk_pst 5 6 1 XDMA_DESC_BLEN_MAX false (Some demo_xpdev) demo_dst.

Lemma demo_bare : bare demo_pst demo_xpdev.
Proof.
  split; try done. split; try (cbn; lia).
  intros dir i Hi. assert (i = 0) as -> by (destruct dir; cbn in Hi; lia).
  exists (match dir with DMA_TO_DEVICE => demo_engine DMA_TO_DEVICE 8 | _ => demo_c2h end).
  destruct dir; done || (cbn in Hi; done).
Qed.

(** The nodes of a device with two user interrupts: all of them, or, when the
    node of the second interrupt cannot be added, the first interrupt's node
    stays behind. *)
Example interfaces_made :
  match @xpdev_create_interfaces (node_env (- 1)) demo_pst with
  | Some (rv, p) => rv = 0 /\ option_map (fun l => l.*1) (registry (v_log (p_v p))) = Some [0; 9; 10; 5; 1; 25; 35]
  | None => False
  end.
Proof. by vm_compute. Qed.

Example event_node_leaks :
  match @xpdev_create_interfaces (node_env 10) demo_pst with
  | Some (rv, p) => rv = - 1 /\ option_map (fun l => l.*1) (registry (v_log (p_v p))) = Some [9]
  | None => False
  end.
Proof. by vm_compute. Qed.

Lemma create_interfaces_spec_witness :
  exists rv p', @xpdev_create_interfaces (node_env 10) demo_pst = Some (rv, p') /\
    ((rv = 0 /\ live p' (nodes_of (the_plan demo_pst demo_xpdev))) \/
     (rv = - 1 /\ exists gs1 f g gs2 k,
        the_plan demo_pst demo_xpdev = gs1 ++ (f, g) :: gs2 /\ (k < length g)%nat /\ live p' (take k g))).
Proof. exact (@create_interfaces_spec (node_env 10) _ demo_pst demo_xpdev demo_bare). Defined.

Lemma create_destroy_interfaces_witness :
  exists rv p1, @xpdev_create_interfaces (node_env (- 1)) demo_pst = Some (rv, p1) /\
    (rv = 0 -> exists p2, xpdev_destroy_interfaces p1 = Some (tt, p2) /\ live p2 [] /\
       exists p3, xpdev_destroy_interfaces p2 = Some (tt, p3) /\
         registry (v_log (p_v p3)) = None).
Proof. exact (@create_destroy_interfaces (node_env (- 1)) _ demo_pst demo_xpdev demo_bare). Defined.

Lemma device_numbers_witness :
  exists rv p' y l, @xpdev_create_interfaces (node_env (- 1)) demo_pst = Some (rv, p') /\
    p_xpdev p' = Some y /\ registry (v_log (p_v p')) = Some l /\ NoDup l.*2 /\
    Forall (fun v => MKDEV (xp_major y) XDMA_MINOR_BASE <= v <
                     MKDEV (xp_major y) XDMA_MINOR_BASE + XDMA_MINOR_COUNT) l.*2.
Proof. exact (@device_numbers (node_env (- 1)) _ demo_pst demo_xpdev demo_bare). Defined.

Lemma failed_create_double_delete_witness :
  exists rv0 q rv p1,
    @create_ctrl (node_env 10) (v_dev (p_v demo_pst)) demo_pst = Some (rv0, q) /\
    @xpdev_create_interfaces (node_env 10) demo_pst = Some (rv, p1) /\
    if rv0 <? 0 then rv = - 1 /\ live p1 [] /\ exists y, p_xpdev p1 = Some y /\ xp_flags y = 0
    else rv = 0 \/
         rv = - 1 /\ exists p2, xpdev_destroy_interfaces p1 = Some (tt, p2) /\ registry (v_log (p_v p2)) = None.
Proof. exact (@failed_create_double_delete (node_env 10) _ demo_pst demo_xpdev demo_bare). Defined.
