(* ===== verification/PciIds.v ===== *)
(** * PciIds: the devices that the driver claims

    The table [pci_ids] of [xdma_mod.c], which selects the devices that
    [probe_one] is called for, and the aliases that the generated
    [xdma.mod.c] gives to the tools that load modules. *)

From S2P Require Import Prelude.
From Stdlib Require Import Ascii String.

(** Vendor and device of each entry, without the one under [INTERNAL_TESTING];
    the table ends with an entry of zeros. *)
Definition pci_ids : list (Z * Z) :=
  map (pair 0x10ee) [
   0x9048; 0x9044; 0x9042; 0x9041; 0x903f; 0x9038; 0x9028; 0x9018;
   0x9034; 0x9024; 0x9014; 0x9032; 0x9022; 0x9012; 0x9031; 0x9021;
   0x9011; 0x8011; 0x8012; 0x8014; 0x8018; 0x8021; 0x8022; 0x8024;
   0x8028; 0x8031; 0x8032; 0x8034; 0x8038; 0x7011; 0x7012; 0x7014;
   0x7018; 0x7021; 0x7022; 0x7024; 0x7028; 0x7031; 0x7032; 0x7034;
   0x7038; 0x6828; 0x6830; 0x6928; 0x6930; 0x6A28; 0x6A30; 0x6D30;
   0x4808; 0x4828; 0x4908; 0x4A28; 0x4B28; 0x2808] ++
  [(0x1d0f, 0xf000); (0x1d0f, 0xf001); (0, 0)].

(** The [MODULE_ALIAS] lines. *)
Definition module_aliases : list string := [
   "pci:v000010EEd00009048sv*sd*bc*sc*i*";
   "pci:v000010EEd00009044sv*sd*bc*sc*i*";
   "pci:v000010EEd00009042sv*sd*bc*sc*i*";
   "pci:v000010EEd00009041sv*sd*bc*sc*i*";
   "pci:v000010EEd0000903Fsv*sd*bc*sc*i*";
   "pci:v000010EEd00009038sv*sd*bc*sc*i*";
   "pci:v000010EEd00009028sv*sd*bc*sc*i*";
   "pci:v000010EEd00009018sv*sd*bc*sc*i*";
   "pci:v000010EEd00009034sv*sd*bc*sc*i*";
   "pci:v000010EEd00009024sv*sd*bc*sc*i*";
   "pci:v000010EEd00009014sv*sd*bc*sc*i*";
   "pci:v000010EEd00009032sv*sd*bc*sc*i*";
   "pci:v000010EEd00009022sv*sd*bc*sc*i*";
   "pci:v000010EEd00009012sv*sd*bc*sc*i*";
   "pci:v000010EEd00009031sv*sd*bc*sc*i*";
   "pci:v000010EEd00009021sv*sd*bc*sc*i*";
   "pci:v000010EEd00009011sv*sd*bc*sc*i*";
   "pci:v000010EEd00008011sv*sd*bc*sc*i*";
   "pci:v000010EEd00008012sv*sd*bc*sc*i*";
   "pci:v000010EEd00008014sv*sd*bc*sc*i*";
   "pci:v000010EEd00008018sv*sd*bc*sc*i*";
   "pci:v000010EEd00008021sv*sd*bc*sc*i*";
   "pci:v000010EEd00008022sv*sd*bc*sc*i*";
   "pci:v000010EEd00008024sv*sd*bc*sc*i*";
   "pci:v000010EEd00008028sv*sd*bc*sc*i*";
   "pci:v000010EEd00008031sv*sd*bc*sc*i*";
   "pci:v000010EEd00008032sv*sd*bc*sc*i*";
   "pci:v000010EEd00008034sv*sd*bc*sc*i*";
   "pci:v000010EEd00008038sv*sd*bc*sc*i*";
   "pci:v000010EEd00007011sv*sd*bc*sc*i*";
   "pci:v000010EEd00007012sv*sd*bc*sc*i*";
   "pci:v000010EEd00007014sv*sd*bc*sc*i*";
   "pci:v000010EEd00007018sv*sd*bc*sc*i*";
   "pci:v000010EEd00007021sv*sd*bc*sc*i*";
   "pci:v000010EEd00007022sv*sd*bc*sc*i*";
   "pci:v000010EEd00007024sv*sd*bc*sc*i*";
   "pci:v000010EEd00007028sv*sd*bc*sc*i*";
   "pci:v000010EEd00007031sv*sd*bc*sc*i*";
   "pci:v000010EEd00007032sv*sd*bc*sc*i*";
   "pci:v000010EEd00007034sv*sd*bc*sc*i*";
   "pci:v000010EEd00007038sv*sd*bc*sc*i*";
   "pci:v000010EEd00006828sv*sd*bc*sc*i*";
   "pci:v000010EEd00006830sv*sd*bc*sc*i*";
   "pci:v000010EEd00006928sv*sd*bc*sc*i*";
   "pci:v000010EEd00006930sv*sd*bc*sc*i*";
   "pci:v000010EEd00006A28sv*sd*bc*sc*i*";
   "pci:v000010EEd00006A30sv*sd*bc*sc*i*";
   "pci:v000010EEd00006D30sv*sd*bc*sc*i*";
   "pci:v000010EEd00004808sv*sd*bc*sc*i*";
   "pci:v000010EEd00004828sv*sd*bc*sc*i*";
   "pci:v000010EEd00004908sv*sd*bc*sc*i*";
   "pci:v000010EEd00004A28sv*sd*bc*sc*i*";
   "pci:v000010EEd00004B28sv*sd*bc*sc*i*";
   "pci:v000010EEd00002808sv*sd*bc*sc*i*";
   "pci:v00001D0Fd0000F000sv*sd*bc*sc*i*";
   "pci:v00001D0Fd0000F001sv*sd*bc*sc*i*"]%string.

(** ** Reading an alias *)

Definition hex_val (c : ascii) : option Z :=
  let n := Z.of_N (N_of_ascii c) in
  if (48 <=? n) && (n <=? 57) then Some (n - 48)
  else if (65 <=? n) && (n <=? 70) then Some (n - 55)
  else None.

Fixpoint hex_word (s : string) (acc : Z) : option Z :=
  match s with
  | EmptyString => Some acc
  | String c s => match hex_val c with Some d => hex_word s (16 * acc + d) | None => None end
  end.

(** [pci:v<vendor>d<device>sv*sd*bc*sc*i*]: any subsystem, class and interface. *)
Definition alias_id (s : string) : option (Z * Z) :=
  let part := fun n m => substring n m s in
  if String.eqb (part 0 5)%nat "pci:v"%string && String.eqb (part 13 1)%nat "d"%string &&
     String.eqb (part 22 100)%nat "sv*sd*bc*sc*i*"%string
  then match hex_word (part 5 8)%nat 0, hex_word (part 14 8)%nat 0 with
       | Some v, Some d => Some (v, d)
       | _, _ => None
       end
  else None.

(** ** The table *)

(** The entries up to the one of zeros, where the search of the kernel ends. *)
Fixpoint claimed (ids : list (Z * Z)) : list (Z * Z) :=
  match ids with
  | [] => []
  | id :: ids => if bool_decide (id = (0, 0)) then [] else id :: claimed ids
  end.

(** The generated file was made from this table: it names the same devices, in
    the same order, each of them once. *)
Lemma aliases_claimed : map alias_id module_aliases = map Some (claimed pci_ids).
Proof. by vm_compute. Qed.

Lemma claimed_once : NoDup (claimed pci_ids).
Proof. apply (bool_decide_unpack _). by vm_compute. Qed.

(** A device is claimed by the driver exactly when an alias loads the module for it. *)
Lemma claimed_alias vendor device :
  (vendor, device) ∈ claimed pci_ids <-> exists a, a ∈ module_aliases /\ alias_id a = Some (vendor, device).
Proof.
  split.
  - intros Hin. assert (Some (vendor, device) ∈ map alias_id module_aliases) as Ha.
    { rewrite aliases_claimed. by apply list_elem_of_fmap_2. }
    apply list_elem_of_fmap in Ha as (a & E & Hin'). by exists a.
  - intros (a & Hin & E). apply (list_elem_of_fmap_2 alias_id) in Hin. 
    change (alias_id <$> module_aliases) with (map alias_id module_aliases) in Hin. rewrite aliases_claimed, E in Hin.
    apply list_elem_of_fmap in Hin as (id & [= <-] & Hin). done.
Qed.
