(* ===== verification/Module.v ===== *)
(** * Module: probing and removing a PCI device

    [xdma_mod.c]: the life of an [xdma_pci_dev], from [probe_one] to
    [remove_one], the PCI error handlers, and the module's own start and end. *)

From S2P Require Import Prelude Hw State Desc Engine Service Dev Thread Irq Device CdevSgdma Interfaces.

(** [pci_channel_state_t] and [pci_ers_result_t] of the kernel. *)
Inductive pci_channel_state := pci_channel_io_normal | pci_channel_io_frozen | pci_channel_io_perm_failure.
Definition PCI_ERS_RESULT_CAN_RECOVER := 2.
Definition PCI_ERS_RESULT_NEED_RESET := 3.
Definition PCI_ERS_RESULT_DISCONNECT := 4.
Definition PCI_ERS_RESULT_RECOVERED := 5.

Definition set_p_cnt (n : Z) (p : pst) : pst :=
  mk_pst (p_class p) (p_cache p) n (p_blen p) (p_drvdata p) (p_xpdev p) (p_v p).
Definition set_p_drvdata (b : bool) (p : pst) : pst :=
  mk_pst (p_class p) (p_cache p) (p_cnt p) (p_blen p) b (p_xpdev p) (p_v p).
Definition set_p_blen (n : Z) (p : pst) : pst :=
  mk_pst (p_class p) (p_cache p) (p_cnt p) n (p_drvdata p) (p_xpdev p) (p_v p).

Section module.
Context `{Env}.

(** A function of [libxdma.c] on the handle [hndl]: each of them returns at
    once when it is NULL; otherwise it is the device of the state. *)
Definition on_hndl (hndl : Z) (m : M dst unit) : M pst unit :=
  if hndl =? 0 then ret tt
  else let* p := get in guard_ub (hndl =? v_hndl (p_v p)) >>; on_dev m.

Definition count_xpdev (n : Z) : M pst unit := modify (fun p => set_p_cnt (s32 (p_cnt p + n)) p).

Definition xpdev_free : M pst unit :=
  let* x := get_xpdev in
  xpdev_destroy_interfaces >>;
  upd_xpdev (set_xp_xdev 0) >>;
  on_hndl (xp_xdev x) (xdma_device_close (xp_pdev x)) >>;
  count_xpdev (- 1) >>;
  kdo "kfree xpdev" [] >>;
  modify (set_p_xpdev None).

Definition zero_cdev : char_dev := mk_chr (mk_cdev 0 0 0 0 None None) 0 no_fops 0.

(** The address, 0 for NULL. *)
Definition xpdev_alloc (pdev : Z) : M pst Z :=
  let* p := kcall "kmalloc xpdev" [] in
  if p =? 0 then ret 0
  else
    modify (set_p_xpdev (Some (mk_xpdev MAGIC_DEVICE pdev 0 0 MAX_USER_IRQ XDMA_CHANNEL_NUM_MAX
                                 XDMA_CHANNEL_NUM_MAX 0 (fun _ => zero_cdev)))) >>;
    count_xpdev 1 >>; ret p.

(** The label [err_out]. *)
Definition err_out (rv : Z) : M pst Z := xpdev_free >>; ret rv.

(** From the search for a duplicate on. *)
Definition probe_xdev (pdev hndl : Z) : M pst Z :=
  let* xdev := on_dev (xdev_find_by_pdev pdev) in
  match xdev with
  | None => err_out (- EINVAL)
  | Some xdev =>
      if negb (hndl =? xdev) then err_out (- EINVAL)
      else
        upd_xpdev (set_xp_xdev hndl) >>;
        let* rv := xpdev_create_interfaces in
        if negb (rv =? 0) then err_out rv
        else modify (set_p_drvdata true) >>; ret 0
  end.

(** The user interrupts enabled at the start: [(1 << (user_max + 1)) - 1]. *)
Definition user_mask (user_max : Z) : Z := u32 (Z.shiftl 1 (user_max + 1) - 1).

(** From the checks on the limits that the open device reports. *)
Definition probe_open (pdev : Z) : M pst Z :=
  let* x := get_xpdev in
  let* p := get in
  let hndl := v_hndl (p_v p) in
  if MAX_USER_IRQ <? xp_user_max x then err_out (- EINVAL)
  else if XDMA_CHANNEL_NUM_MAX <? xp_h2c_channel_max x then err_out (- EINVAL)
  else if XDMA_CHANNEL_NUM_MAX <? xp_c2h_channel_max x then err_out (- EINVAL)
  else if negb (xp_user_max x =? 0) then
    let* rv := on_dev (xdma_user_isr_enable (user_mask (xp_user_max x))) in
    if negb (rv =? 0) then err_out rv else probe_xdev pdev hndl
  else probe_xdev pdev hndl.

Definition probe_one (pdev : Z) : M pst Z :=
  let* p := xpdev_alloc pdev in
  if p =? 0 then ret (- ENOMEM)
  else
    let* x := get_xpdev in
    let* hndl := on_dev (xdma_device_open pdev (xp_user_max x) (xp_h2c_channel_max x)
                           (xp_c2h_channel_max x)) in
    match hndl with
    | None => err_out (- EINVAL)
    | Some (user_max, h2c_max, c2h_max) =>
        upd_xpdev (set_xp_limits user_max h2c_max c2h_max) >>; probe_open pdev
    end.

Definition remove_one (pdev : Z) : M pst unit :=
  if pdev =? 0 then ret tt
  else
    let* p := get in
    if negb (p_drvdata p) then ret tt
    else xpdev_free >>; modify (set_p_drvdata false).

(** [dev_get_drvdata], which the error handlers dereference. *)
Definition drvdata : M pst xdma_pci_dev :=
  let* p := get in guard_ub (p_drvdata p) >>; get_xpdev.

Definition xdma_error_detected (pdev : Z) (state : pci_channel_state) : M pst Z :=
  match state with
  | pci_channel_io_normal => ret PCI_ERS_RESULT_CAN_RECOVER
  | pci_channel_io_frozen =>
      let* x := drvdata in
      on_hndl (xp_xdev x) (xdma_device_offline pdev) >>;
      kdo "pci_disable_device" [pdev] >>;
      ret PCI_ERS_RESULT_NEED_RESET
  | pci_channel_io_perm_failure => ret PCI_ERS_RESULT_DISCONNECT
  end.

Definition xdma_slot_reset (pdev : Z) : M pst Z :=
  let* rv := kcall "pci_enable_device_mem" [pdev] in
  if negb (rv =? 0) then ret PCI_ERS_RESULT_DISCONNECT
  else
    kdo "pci_set_master" [pdev] >>;
    kdo "pci_restore_state" [pdev] >>;
    kdo "pci_save_state" [pdev] >>;
    let* x := drvdata in
    on_hndl (xp_xdev x) (xdma_device_online pdev) >>;
    ret PCI_ERS_RESULT_RECOVERED.

Definition xdma_error_resume (pdev : Z) : M pst unit :=
  kdo "pci_aer_clear_nonfatal_status" [pdev].

Definition xdma_reset_prepare (pdev : Z) : M pst unit :=
  let* x := drvdata in on_hndl (xp_xdev x) (xdma_device_offline pdev).

Definition xdma_reset_done (pdev : Z) : M pst unit :=
  let* x := drvdata in on_hndl (xp_xdev x) (xdma_device_online pdev).

(** ** The module *)

Definition xdma_mod_init : M pst Z :=
  let* p := get in
  when (XDMA_DESC_BLEN_MAX <? p_blen p) (modify (set_p_blen XDMA_DESC_BLEN_MAX)) >>;
  let* rv := xdma_cdev_init in
  if rv <? 0 then ret rv else kcall "pci_register_driver" [].

Definition xdma_mod_exit : M pst unit :=
  kdo "pci_unregister_driver" [] >>; xdma_cdev_cleanup.
End module.
