(* ===== verification/ModuleLife.v ===== *)
(** * ModuleLife: a device from [probe_one] to [remove_one]

    The layers together: [probe_one] opens the device and makes its nodes, the
    driver runs, [remove_one] takes the nodes away and closes the device. *)

From S2P Require Import Prelude Hw State Desc Engine Service Submit Dev Thread Irq IrqProps Device Ledger DeviceProps ProbeProps BarLedger IrqLife DeviceLife CdevSgdma Cdev Xvc Frame Session Nodes Interfaces InterfacesProps InterfacesLife Module.

(** ** Nodes are no resources of the device *)

(** The log has grown by calls that no resource of the device is about; the
    device, the globals and the driver data are the same. *)
Record kept (p p' : pst) : Prop := {
  kp_held : forall r, held r (v_log (p_v p')) = held r (v_log (p_v p));
  kp_v : exists lg, p_v p' = set_log lg (p_v p);
  kp_globals : (p_class p', p_cnt p', p_drvdata p') = (p_class p, p_cnt p, p_drvdata p)
}.

#[export] Instance kept_preorder : PreOrder kept.
Proof.
  split; [intros p; split; [done|exists (v_log (p_v p)); by destruct (p_v p)|done]|].
  intros p1 p2 p3 [H1 [l1 E1] G1] [H2 [l2 E2] G2]. split; [intros r; by rewrite H2|exists l2; by rewrite E2, E1|congruence].
Qed.

Section kept.
Context `{Env}.

#[export] Instance kept_kcall f args : TCEq (neutral f) true -> Keep kept (kcall f args).
Proof.
  intros Hn%TCEq_eq p a p' [= _ <-]. split; [|by eexists|done]. intros r. cbn. rewrite held_cons, neutral_delta by done. lia.
Qed.
#[export] Instance kept_kdo f args : TCEq (neutral f) true -> Keep kept (kdo f args).
Proof.
  intros Hn%TCEq_eq p a p' [= _ <-]. split; [|by eexists|done]. intros r. cbn. rewrite held_cons, neutral_delta by done. lia.
Qed.
#[export] Instance kept_upd_xpdev f : Keep kept (upd_xpdev f).
Proof.
  intros p a p'. unfold upd_xpdev, get_xpdev, bind, get, modify, deref. destruct (p_xpdev p); [|done]. intros [= _ <-].
  split; [done|exists (v_log (p_v p)); cbn; by destruct (p_v p)|done].
Qed.
#[export] Instance kept_get_dev : Keep kept (on_dev get_dev).
Proof. intros p a p' [= _ <-]. by destruct p. Qed.
#[export] Instance kept_get_engine dir i : Keep kept (on_dev (get_engine dir i)).
Proof.
  intros p a p'. unfold on_dev, get_engine, bind, get, deref. destruct (zlookup _ _); [|done]. intros [= _ <-]. by destruct p.
Qed.
End kept.

Lemma kept_for_each `{Env} l f : (forall i, Keep kept (f i)) -> Keep kept (for_each l f).
Proof. intros Hf. induction l; cbn [for_each]; unfold and_then; keep. Qed.

(** [keeping_nodes] proves that a computation is [kept]; it opens definitions. *)
Ltac keeping_nodes_step :=
  lazymatch goal with
  | |- Keep _ (on_dev _) => apply _
  | |- Keep _ (for_each _ _) => apply kept_for_each; intros ?
  | |- Keep _ ((let '(_, _) := ?p in fun _ => _) _) => destruct p
  | |- _ => first [keep_step | hush_open]
  end.
Ltac keeping_nodes := repeat keeping_nodes_step.

Section interfaces.
Context `{Env}.

#[export] Instance kept_create_xcdev s bar engine t : Keep kept (create_xcdev s bar engine t).
Proof. keeping_nodes. Qed.
#[export] Instance kept_destroy : Keep kept xpdev_destroy_interfaces.
Proof. keeping_nodes. Qed.
#[export] Instance kept_create : Keep kept xpdev_create_interfaces.
Proof. unfold xpdev_create_interfaces. keeping_nodes. Qed.
End interfaces.

(** ** Freeing the structure *)

Section free.
Context `{Env} `{!IrqLaws} `{!RegionOk}.
Hypothesis Hpoll : poll_mode = false.

Lemma wp_on_dev {A} (m : M dst A) (Q : A -> pst -> Prop) p :
  wp m (fun a v => Q a (set_p_v v p)) (p_v p) -> wp (on_dev m) Q p.
Proof. unfold wp, on_dev. by destruct (m (p_v p)) as [[a v]|]. Qed.

Variables (base : resource -> Z) (l0 : list (Z * Z * Z)) (h pdev : Z).
Hypothesis Hbase : h ∉ map (fun x => fst (fst x)) l0.
Hypothesis Hpdev : pdev <> 0.
Hypothesis Hh : h <> 0.
Hypothesis Hfind : find_pdev l0 pdev = None.

Lemma opened_kept p p' : kept p p' -> opened base l0 h pdev (p_v p) -> opened base l0 h pdev (p_v p').
Proof.
  intros [Hk [lg Hv] _]. apply fixed_opened. rewrite Hv in Hk |- *. by split.
Qed.

(** The structure goes with the device that it is of. *)
Lemma wp_free_opened y p :
  p_xpdev p = Some y -> xp_xdev y = h -> xp_pdev y = pdev -> p_class p <> 0 -> limits_ok (p_v p) y ->
  opened base l0 h pdev (p_v p) ->
  wp xpdev_free (fun _ p' => p_xpdev p' = None /\ p_cnt p' = s32 (p_cnt p - 1) /\ p_drvdata p' = p_drvdata p /\
    v_list (p_v p') = l0 /\ (forall r, held r (v_log (p_v p')) = base r) /\
    registry (v_log (p_v p')) = after_destroy y (targets y) (registry (v_log (p_v p)))) p.
Proof.
  intros Hx Hy Hp Hc Hl Ho. unfold xpdev_free. apply wp_bind. unfold get_xpdev at 1. apply wp_bind, wp_get.
  eapply wp_deref; [exact Hx|]. apply wp_bind. apply (wp_keep kept xpdev_destroy_interfaces).
  eapply wp_mono; [apply (wp_destroy_interfaces y p Hl Hc Hx (registry (v_log (p_v p)))); by destruct p as [? ? ? ? ? ? []]|].
  intros _ p1 [E1 Hr1] Hk. apply (opened_kept _ _ Hk) in Ho.
  assert (p_xpdev p1 = Some y) as Hx1 by (by rewrite E1). destruct Hk as [_ _ [= _ Ecnt Edrv]]. clear E1.
  apply wp_bind. unfold upd_xpdev at 1, get_xpdev at 1. apply wp_bind, wp_bind, wp_get. eapply wp_deref; [exact Hx1|].
  apply wp_modify, wp_bind. unfold on_hndl. rewrite Hy. destruct (Z.eqb_spec h 0); [done|]. apply wp_bind, wp_get.
  cbn [p_v set_p_xpdev]. rewrite (ls_hndl _ _ _ _ _ _ (od_listed _ _ _ _ _ Ho)), Z.eqb_refl.
  apply wp_bind, wp_guard_ub; [done|]. apply wp_on_dev. apply (wp_keep hushed (xdma_device_close (xp_pdev y))). rewrite Hp.
  eapply wp_mono; [apply (wp_device_close Hpoll _ _ _ pdev Hbase _ Hpdev Hh Hfind Ho)|]. cbn beta.
  intros _ v' [El Hheld] Hhush. apply wp_bind, wp_modify, wp_bind. apply pwp_done, wp_modify.
  split_and!; try done; cbn.
  - by rewrite Ecnt.
  - intros r. rewrite held_cons, neutral_delta by done. by rewrite Hheld.
  - rewrite registry_call by done. etrans; [exact Hhush|exact Hr1].
Qed.

(** A structure without a device and without nodes. *)
Lemma wp_free_bare y p :
  p_xpdev p = Some y -> xp_xdev y = 0 -> xp_flags y = 0 -> xp_major y = 0 ->
  wp xpdev_free (fun _ p' => p_xpdev p' = None /\ p_cnt p' = s32 (p_cnt p - 1) /\ p_drvdata p' = p_drvdata p /\
    v_list (p_v p') = v_list (p_v p) /\ (forall r, held r (v_log (p_v p')) = held r (v_log (p_v p))) /\
    registry (v_log (p_v p')) = registry (v_log (p_v p))) p.
Proof.
  intros Hx Hy Hf Hm. unfold xpdev_free. apply wp_bind. unfold get_xpdev at 1. apply wp_bind, wp_get.
  eapply wp_deref; [exact Hx|]. apply wp_bind.
  assert (forall A (k : xdma_pci_dev -> M pst A) Q, wp (k y) Q p -> wp (bind get_xpdev k) Q p) as Hget.
  { intros A k Q Hk. apply wp_bind, wp_bind, wp_get. by eapply wp_deref. }
  assert (forall f g (m : M pst unit) Q, wp m Q p -> wp (destroy_group f g >>; m) Q p) as Hoff.
  { intros f g m Q HQ. apply wp_bind, Hget. unfold xpdev_flag_test. rewrite Hf. exact HQ. }
  apply (wp_mono _ (fun _ p' => p' = p)).
  { unfold xpdev_destroy_interfaces. apply Hget. do 6 apply Hoff. rewrite Hm. by apply wp_ret. }
  intros _ ? ->. apply wp_bind. unfold upd_xpdev at 1, get_xpdev at 1. apply wp_bind, wp_bind, wp_get.
  eapply wp_deref; [exact Hx|]. apply wp_modify, wp_bind. unfold on_hndl. rewrite Hy. apply wp_ret, wp_bind, wp_modify, wp_bind.
  apply pwp_done, wp_modify. split_and!; try done; [|by etrans; [apply registry_call|]].
  intros r. cbn. rewrite held_cons, neutral_delta by done. lia.
Qed.
End free.

(** ** From probing to removal *)

Section life.
Context `{Env} `{!IrqLaws} `{!RegionOk}.
Hypothesis Hpoll : poll_mode = false.
Variables (base : resource -> Z) (l0 : list (Z * Z * Z)) (h pdev : Z).
Hypothesis Hbase : h ∉ map (fun x => fst (fst x)) l0.
Hypothesis Hpdev : pdev <> 0.
Hypothesis Hh : h <> 0.
Hypothesis Hfind : find_pdev l0 pdev = None.
Abbreviation opened := (opened base l0 h pdev).

(** The structure is freed, the device closed. *)
Record freed (p p' : pst) : Prop := {
  fd_xpdev : p_xpdev p' = None;
  fd_cnt : p_cnt p' = s32 (p_cnt p - 1);
  fd_drvdata : p_drvdata p' = p_drvdata p;
  fd_list : v_list (p_v p') = l0;
  fd_held : forall r, held r (v_log (p_v p')) = base r
}.

(** The device is open, and all of its nodes are there: [ns]. *)
Record attached (ns : list node) (x : xdma_pci_dev) (p : pst) : Prop := {
  at_opened : opened (p_v p);
  at_plan : exists d, ns = nodes_of (plan x d) /\ ifc (p_v p) x (p_class p) ns ns (flags_of 0 (plan x d)) p;
  at_limits : limits_ok (p_v p) x;
  at_class : p_class p <> 0;
  at_handle : xp_xdev x = h /\ xp_pdev x = pdev
}.

Lemma same_handle x y : same_xpdev x y -> xp_xdev x = h /\ xp_pdev x = pdev -> xp_xdev y = h /\ xp_pdev y = pdev.
Proof. intros (_ & -> & -> & _). done. Qed.

Lemma limits_fixed v v' x : fixed v v' -> limits_ok v x -> limits_ok v' x.
Proof.
  intros Hf [Hu Hhm Hcm He]. split; [done..|]. intros dir i Hi. destruct (He dir i Hi) as (e & Hl & Hm & Hc).
  assert (is_Some (zlookup (engines dir v') i)) as [e' He'].
  { apply zlookup_is_Some. rewrite (fixed_length dir v v' Hf). apply zlookup_is_Some. by exists e. }
  exists e'. split; [done|]. destruct (fixed_lookup dir v v' i e' Hf He') as (e2 & Hl2 & Hcore).
  rewrite Hl in Hl2. injection Hl2 as <-. injection Hcore. intros. split; congruence.
Qed.

Lemma limits_xpdev v x y : same_xpdev x y -> limits_ok v x -> limits_ok v y.
Proof. intros (_ & _ & _ & E1 & E2 & E3) [Hu Hhm Hcm He]. split; rewrite ?E1, ?E2, ?E3; done. Qed.

(** Freeing what is attached: every node goes, everything is given back. *)
Lemma wp_free_attached ns x p :
  attached ns x p -> wp xpdev_free (fun _ p' => freed p p' /\ live p' []) p.
Proof.
  intros [Ho (d & -> & y & Hi) Hl Hc Hxh]. pose proof (ix_same _ _ _ _ _ _ _ _ Hi) as Hs.
  destruct (same_handle _ _ Hs Hxh) as [Hy Hp]. pose proof (limits_xpdev _ _ _ Hs Hl) as Hly.
  eapply wp_mono; [by eapply (wp_free_opened Hpoll base l0 h pdev Hbase Hpdev Hh Hfind y p); [apply Hi|..]|].
  intros _ p' (Hx & Hcnt & Hd & El & Hheld & Hr). split; [by split|]. exists (xp_major y). rewrite Hr.
  rewrite (after_destroy_ifc _ _ _ _ _ _ _ _ Hi Hly). pose proof (ix_flags _ _ _ _ _ _ _ _ Hi) as Hf.
  rewrite <-(plan_same x y d Hs) in Hf |- *. by rewrite filter_targets_all.
Qed.

(** *** Probing *)

(** The device was just opened: no nodes yet, no handle in the structure. *)
Record fresh (x : xdma_pci_dev) (p : pst) : Prop := {
  fr_opened : opened (p_v p);
  fr_xpdev : p_xpdev p = Some x;
  fr_cdevs : forall s, ch_sys_device (xp_cdevs x s) = 0;
  fr_none : xp_flags x = 0 /\ xp_major x = 0 /\ xp_pdev x = pdev;
  fr_class : p_class p <> 0;
  fr_nodes : registry (v_log (p_v p)) = Some [];
  fr_limits : limits_ok (p_v p) x
}.

(** No node is left, or a node that was gone has been deleted: the second
    destruction of what a creation that failed has left. *)
Definition nodes_gone (p : pst) : Prop :=
  registry (v_log (p_v p)) = Some [] \/ registry (v_log (p_v p)) = None.

(** What the probe returns. *)
Definition probe_result (p : pst) (rv : Z) (p' : pst) : Prop :=
  rv < 0 /\ freed p p' /\ nodes_gone p' \/
  rv = 0 /\ p_drvdata p' = true /\ p_cnt p' = p_cnt p /\
    exists x, attached (nodes_of (plan x (v_dev (p_v p')))) x p' /\ live p' (nodes_of (plan x (v_dev (p_v p')))).

Lemma wp_isr_enable mask v : opened v -> wp (xdma_user_isr_enable mask) (fun rv _ => rv = 0) v.
Proof.
  intros Ho. pose proof (wf_config _ (od_wf _ _ _ _ _ Ho)) as Hc.
  pose proof (check_hndl_ok pdev v (opened_registered _ _ _ _ v Hpdev Hh Hfind Ho)) as Hck.
  unfold xdma_user_isr_enable. apply wp_bind, dwp_get_dev.
  rewrite (ls_pdev _ _ _ _ _ _ (od_listed _ _ _ _ _ Ho)). apply wp_bind. unfold wp at 1. rewrite Hck. cbn [Z.ltb Z.compare].
  apply wp_bind, dwp_upd_dev, wp_bind. apply wp_bind, dwp_int_reg; [done|]. intros a. apply dwp_write.
  apply wp_bind. unfold read_interrupts. do 2 (apply wp_bind, dwp_int_reg; [done|]; intros ?; apply wp_bind, dwp_read).
  by apply wp_ret, wp_ret.
Qed.

Lemma wp_probe_xdev x p :
  fresh x p -> wp (probe_xdev pdev h) (probe_result p) p.
Proof.
  intros [Ho Hx Hs (Hf & Hm & Hp) Hc Hr Hl]. unfold probe_xdev.
  destruct (opened_registered _ _ _ _ (p_v p) Hpdev Hh Hfind Ho) as (_ & _ & Hfd).
  pose proof (ls_hndl _ _ _ _ _ _ (od_listed _ _ _ _ _ Ho)) as Ehd. rewrite Ehd in Hfd.
  apply wp_bind, wp_on_dev, wp_bind, wp_get, wp_ret. rewrite Hfd, Z.eqb_refl. cbn [negb].
  apply wp_bind. unfold upd_xpdev at 1, get_xpdev at 1. apply wp_bind, wp_bind, wp_get.
  eapply wp_deref; [exact Hx|]. apply wp_modify.
  set (x1 := set_xp_xdev h x). set (p1 := set_p_xpdev (Some x1) (set_p_v (p_v p) p)).
  assert (limits_ok (p_v p) x1) as Hl1 by (by destruct Hl).
  assert (bare p1 x1) as Hb by (by split). apply wp_bind. apply (wp_keep kept xpdev_create_interfaces).
  eapply wp_mono; [by apply wp_create_interfaces|]. intros rv p2 Hres Hk.
  pose proof (opened_kept _ _ _ _ _ _ Hk Ho) as Ho2. destruct Hk as [Hk [lg Hv] [= Ecl Ecnt Edrv]].
  destruct Hres as [[-> Hcr]|[-> Hn]]; cbn [Z.eqb negb].
  - apply wp_bind, wp_modify, wp_ret. right. split_and!; [done|done|done|]. exists x1.
    change (nodes_of (plan x1 (v_dev (p_v (set_p_drvdata true p2))))) with (nodes_of (plan x1 (v_dev (p_v p2)))).
    rewrite Hv. cbn [v_dev set_log dst_log]. split.
    + split; [exact Ho2| | |change (p_class p2 <> 0); by rewrite Ecl|done].
      2: { change (limits_ok (p_v p2) x1). rewrite Hv. by destruct Hl1. } exists (v_dev (p_v p)). split; [done|].
      destruct Hcr as [y []]. exists y. split; try done. cbn. by destruct (p_v p2).
    + apply created_live in Hcr. exact Hcr.
  - destruct Hn as (gs1 & f & g & gs2 & k & y & Hp1 & Hk1 & Hrem).
    pose proof (after_not_created _ _ _ _ _ _ _ _ _ Hb Hp1 Hk1 Hrem) as Hgone. unfold err_out. apply wp_bind.
    destruct (same_handle x1 y (rem_same _ _ _ _ _ _ _ Hrem)) as [Hy Hyp]; [done|].
    eapply wp_mono; [by eapply (wp_free_opened Hpoll base l0 h pdev Hbase Hpdev Hh Hfind y p2);
      [apply Hrem|..|by rewrite Ecl|apply Hrem|]|].
    intros _ p3 (? & Hc3 & Hd3 & ? & ? & Hr3). apply wp_ret. left. split; [done|]. split; [split; try done; congruence|].
    unfold nodes_gone. by rewrite Hr3.
Qed.

Lemma fresh_step x p v : fixed (p_v p) v -> hushed (p_v p) v -> fresh x p -> fresh x (set_p_v v p).
Proof.
  intros Hf Hr [Ho Hx Hs Hn Hc Hreg Hl]. split; try done; cbn.
  - by eapply fixed_opened.
  - by rewrite <-Hreg.
  - by eapply limits_fixed.
Qed.

Lemma wp_probe_open x p : fresh x p -> wp (probe_open pdev) (probe_result p) p.
Proof.
  intros Hfr. pose proof Hfr as [Ho Hx _ _ _ _ [Hu Hhm Hcm _]]. pose proof (ls_hndl _ _ _ _ _ _ (od_listed _ _ _ _ _ Ho)) as Eh.
  unfold probe_open, get_xpdev. apply wp_bind, wp_bind, wp_get. eapply wp_deref; [exact Hx|]. apply wp_bind, wp_get.
  rewrite Eh. unfold MAX_USER_IRQ, XDMA_CHANNEL_NUM_MAX.
  destruct (Z.ltb_spec 16 (xp_user_max x)); [lia|]. destruct (Z.ltb_spec 4 (xp_h2c_channel_max x)); [lia|].
  destruct (Z.ltb_spec 4 (xp_c2h_channel_max x)); [lia|]. destruct (negb _); [|by apply (wp_probe_xdev x)].
  apply wp_bind, wp_on_dev. apply (wp_keep fixed (xdma_user_isr_enable _)), (wp_keep hushed (xdma_user_isr_enable _)).
  eapply wp_mono; [by apply wp_isr_enable|]. intros rv v' -> Hr Hf. cbn [Z.eqb negb].
  eapply wp_mono; [apply (wp_probe_xdev x); by apply fresh_step|]. intros rv p' [(? & [] & ?)|?]; [left|right; done]. by repeat split.
Qed.
End life.

(** ** The life of a device *)

(** The module is loaded, the device is not known yet, and there are no nodes. *)
Record unattached (pdev : Z) (p : pst) : Prop := {
  un_pdev : pdev <> 0;
  un_class : p_class p <> 0;
  un_list : find_pdev (v_list (p_v p)) pdev = None;
  un_xpdev : p_xpdev p = None;
  un_nodes : registry (v_log (p_v p)) = Some [];
  un_cnt : - 2 ^ 31 <= p_cnt p < 2 ^ 31
}.

(** As before the probe, but for [ex]. *)
Record restored (p p' : pst) (ex : resource -> Z) : Prop := {
  rs_xpdev : p_xpdev p' = None;
  rs_cnt : p_cnt p' = p_cnt p;
  rs_list : v_list (p_v p') = v_list (p_v p);
  rs_held : forall r, held r (v_log (p_v p')) = held r (v_log (p_v p)) + ex r
}.

Section module.
Context `{Env} `{!IrqLaws} `{!RegionOk} `{Sched}.
Variables (h2c_timeout c2h_timeout : Z).
Hypothesis Hpoll : poll_mode = false.

(** [kzalloc] gives memory that no device has. *)
Definition new_memory (l : list (Z * Z * Z)) : Prop :=
  forall lg, (kernel lg "kzalloc xdma_dev" []) ∉ map (fun x => fst (fst x)) l.

Lemma count_back n : - 2 ^ 31 <= n < 2 ^ 31 -> s32 (s32 (n + 1) - 1) = n.
Proof.
  intros Hn. unfold s32, swrap. change (32 - 1) with 31. Z.to_euclidean_division_equations. lia.
Qed.

(** The structure is allocated, and the device is opened. *)
Definition running (pdev : Z) (p p1 : pst) : Prop := exists h x,
  (h ∉ map (fun x => fst (fst x)) (v_list (p_v p))) /\ h <> 0 /\ p_cnt p1 = s32 (p_cnt p + 1) /\
  attached (fun r => held r (v_log (p_v p))) (v_list (p_v p)) h pdev (nodes_of (plan x (v_dev (p_v p1)))) x p1.

Lemma probed_limits v x :
  dev_wf v -> equipped v -> all_probed v -> xp_user_max x = d_user_max (v_dev v) ->
  xp_h2c_channel_max x = d_h2c_channel_max (v_dev v) -> xp_c2h_channel_max x = d_c2h_channel_max (v_dev v) -> limits_ok v x.
Proof.
  intros [_ Hh Hc Hu He] (_ & _ & Hlive) Hp Eu Eh Ec. split; [lia..|]. intros dir i Hi.
  assert (0 <= i < channel_max dir (v_dev v)) as Hi2 by (unfold channel_max; destruct (is_h2c dir); lia).
  specialize (He dir). destruct (zlookup (engines dir v) i) as [e|] eqn:E.
  - exists e. destruct (Hp dir i e Hi2 E) as (bit & regs & Hid & _). split_and!; [done|apply Hid|].
    rewrite (id_channel _ _ _ _ _ Hid). change 3 with (Z.ones 2). rewrite Z.land_ones by lia. apply Z.mod_small.
    destruct (is_h2c dir); lia.
  - assert (is_Some (zlookup (engines dir v) i)) as [? ?] by (apply zlookup_is_Some; lia). congruence.
Qed.

Lemma opened_ext b b' l0 h pdev v : (forall r, b' r = b r) -> opened b l0 h pdev v -> opened b' l0 h pdev v.
Proof. intros Hb [[? ? ? Hl] ? ? ? ? ? ?]. split; try done. split; try done. intros r. by rewrite Hb. Qed.

Lemma wp_probe_one pdev p :
  unattached pdev p -> new_memory (v_list (p_v p)) ->
  wp (probe_one pdev) (fun rv p1 =>
    rv < 0 /\ p_drvdata p1 = p_drvdata p /\ nodes_gone p1 /\
      (exists en ir, 0 <= en <= 1 /\ 0 <= ir /\ (wants_msix = false -> ir = 0) /\ restored p p1 (leak en ir)) \/
    rv = 0 /\ p_drvdata p1 = true /\ running pdev p p1) p.
Proof.
  intros [Hpd Hcl Hfind Hx Hn Hcnt] Hnew. unfold probe_one, xpdev_alloc.
  apply wp_bind, wp_bind. apply pwp_any. intros rv0. set (p1 := set_log _ p).
  assert (forall r, held r (v_log (p_v p1)) = held r (v_log (p_v p))) as Hh1.
  { intros r. cbn. rewrite held_cons, neutral_delta by done. lia. }
  destruct (Z.eqb_spec rv0 0) as [Hz|Hz].
  { apply wp_ret. cbn [Z.eqb]. apply wp_ret. left. split; [done|]. split; [done|].
    split; [left; cbn; by rewrite registry_call|]. exists 0, 0. split_and!; try done.
    split; try done. intros r. rewrite Hh1. destruct r; cbn; lia. }
  apply wp_bind, wp_modify, wp_bind, wp_modify, wp_ret. destruct (Z.eqb_spec rv0 0); [done|].
  unfold get_xpdev at 1. apply wp_bind, wp_bind, wp_get. eapply wp_deref; [reflexivity|]. cbn [xp_user_max xp_h2c_channel_max xp_c2h_channel_max].
  apply wp_bind, wp_on_dev. set (v1 := p_v p1).
  apply (wp_keep hushed (xdma_device_open _ _ _ _)).
  eapply wp_mono; [apply (wp_device_open Hpoll pdev); [done|done|done|done|apply Hnew]|].
  intros lim v2 [Hres Hne] Hr. set (h := next_dev v1) in *. destruct lim as [[[u hm] cm]|].
  2: { destruct Hres as (ir & (El & en & Hen & Hh) & Hir & Hw). unfold err_out. apply wp_bind.
    eapply wp_mono; [by eapply wp_free_bare|]. intros _ p3 (? & Hc3 & Hd3 & El3 & Hh3 & Hr3). apply wp_ret. left.
    split; [done|]. split; [done|].
    split; [left; rewrite Hr3; cbn [p_v set_p_v]; etrans; [exact Hr|]; cbn; by rewrite registry_call|]. exists en, ir. split_and!; try done; [lia|lia|]. split; [done|..].
    - rewrite Hc3. by apply count_back.
    - rewrite El3. exact El.
    - intros r. rewrite Hh3. cbn [p_v set_p_v]. rewrite Hh. f_equal. apply Hh1. }
  destruct Hres as (Ho & Hp & _ & -> & -> & ->). unfold upd_xpdev at 1, get_xpdev at 1.
  apply wp_bind, wp_bind, wp_bind, wp_get. eapply wp_deref; [reflexivity|]. apply wp_modify.
  match goal with |- wp _ _ (set_p_xpdev (Some ?x) ?q) => set (y := x); set (p2 := set_p_xpdev (Some y) q) end.
  specialize (Hnew (v_log v1)). specialize (Hne ltac:(by eexists)).
  apply (opened_ext _ (fun r => held r (v_log (p_v p)))) in Ho; [|intros r; symmetry; apply Hh1].
  eapply wp_mono; [eapply (wp_probe_open Hpoll _ _ h pdev Hnew Hpd Hne Hfind y p2)|].
  - split; try done; cbn.
    + etrans; [exact Hr|]. cbn. by rewrite registry_call.
    + apply probed_limits; try done; [apply Ho|apply Ho].
  - intros rv p3 [(Hrv & [Hx3 Hc3 Hd3 El3 Hh3] & Hgone)|(-> & Hd3 & Hc3 & x & Hat & Hlv)].
    + left. split; [done|]. split; [done|]. split; [done|]. exists 0, 0. split_and!; try done. split; [done|..].
      * rewrite Hc3. by apply count_back.
      * exact El3.
      * intros r. rewrite Hh3. destruct r; cbn; lia.
    + right. split; [done|]. split; [done|]. by exists h, x.
Qed.

Lemma attached_live b l0 h pdev ns x p : attached b l0 h pdev ns x p ->
  live p ns /\ exists y, p_xpdev p = Some y /\ same_xpdev x y.
Proof.
  intros [_ (d & _ & y & Hi) _ _ _]. split; [exists (xp_major y); apply Hi|]. exists y. split; apply Hi.
Qed.

(** The nodes and the device stay while the driver runs. *)
Lemma attached_step b l0 h pdev ns x p v :
  fixed (p_v p) v -> hushed (p_v p) v -> attached b l0 h pdev ns x p -> attached b l0 h pdev ns x (set_p_v v p).
Proof.
  intros Hf Hr [Ho (d & -> & y & Hi) Hl Hc Hxh]. split; try done.
  - by eapply fixed_opened.
  - exists d. split; [done|]. exists y. destruct Hi as [Hv Hcl Hx Hs Hfl Hreg Hm Hok Hli]. split; try done.
    + cbn. by destruct v.
    + etrans; [exact Hr|exact Hreg].
  - by eapply limits_fixed.
Qed.

Lemma wp_remove_one pdev p p1 v2 :
  unattached pdev p -> running pdev p p1 -> p_drvdata p1 = true ->
  rtc (driver_step h2c_timeout c2h_timeout) (p_v p1) v2 ->
  wp (remove_one pdev) (fun _ p2 => p_drvdata p2 = false /\ live p2 [] /\ restored p p2 (fun _ => 0)) (set_p_v v2 p1).
Proof.
  intros [Hpd Hcl Hfind Hx Hn Hcnt] (h & x & Hnew & Hh & Hc1 & Hat) Hd Hsteps.
  apply (attached_step _ _ _ _ _ _ _ v2) in Hat; [|by eapply session_fixed|by eapply hushed_session].
  unfold remove_one. destruct (Z.eqb_spec pdev 0); [done|]. apply wp_bind, wp_get. cbn [p_drvdata set_p_v]. rewrite Hd. cbn [negb].
  apply wp_bind. eapply wp_mono; [by eapply (wp_free_attached Hpoll)|]. intros _ p2 [[Hx2 Hc2 Hd2 El Hh2] [m Hlv]].
  apply wp_modify. split; [done|]. split; [by exists m|]. split; [done| |done|].
  - cbn. rewrite Hc2. cbn. rewrite Hc1. by apply count_back.
  - intros r. cbn. rewrite Hh2. lia.
Qed.

(** C7: the life of a device in the module, in interrupt mode, for every card, every
    answer of the kernel and every failure.  [probe_one] returns.  When it fails,
    at any step of opening the device or of making its nodes, the structure is
    freed, the count of devices and the list are as before, and every resource was
    given back, but for what [xdma_device_open] leaves behind when it fails: the PCI
    device may stay enabled, and interrupt lines may stay requested if MSI-X may
    be chosen ([failed_open_keeps_lines]); no node is left, or one that was gone
    has been deleted a second time ([failed_create_double_delete]).  When it
    succeeds, exactly the planned nodes are live and the device is registered; and
    after any sequence of interrupts and of ordinary calls on its files (no
    performance run, no offline or online call) that return, [remove_one] returns,
    no node is left, and everything is as before the probe. *)
Theorem probe_session_remove pdev p :
  unattached pdev p -> new_memory (v_list (p_v p)) ->
  exists rv p1, probe_one pdev p = Some (rv, p1) /\
    ((rv < 0 /\ p_drvdata p1 = p_drvdata p /\ nodes_gone p1 /\
      exists en ir, 0 <= en <= 1 /\ 0 <= ir /\ (wants_msix = false -> ir = 0) /\ restored p p1 (leak en ir)) \/
     (rv = 0 /\ p_drvdata p1 = true /\ registered pdev (p_v p1) /\
      (exists x, p_xpdev p1 = Some x /\ live p1 (nodes_of (plan x (v_dev (p_v p1))))) /\
      forall v2, rtc (driver_step h2c_timeout c2h_timeout) (p_v p1) v2 ->
        exists p2, remove_one pdev (set_p_v v2 p1) = Some (tt, p2) /\ p_drvdata p2 = false /\ live p2 [] /\
          restored p p2 (fun _ => 0))).
Proof.
  intros Hun Hnew. pose proof (wp_probe_one pdev p Hun Hnew) as (rv & p1 & Hrun & Hres)%wp_iff. exists rv, p1.
  split; [exact Hrun|]. destruct Hres as [Hf|(-> & Hd & Hr)]; [by left|right]. split; [done|]. split; [done|].
  split; [|split].
  - destruct Hr as (h & x & _ & Hh & _ & Hat). eapply opened_registered; [apply Hun|exact Hh|apply Hun|apply Hat].
  - destruct Hr as (h & x & _ & _ & _ & Hat). destruct (attached_live _ _ _ _ _ _ _ Hat) as (Hlv & y & Hy & Hs).
    exists y. split; [done|]. by rewrite (plan_same x y).
  - intros v2 Hsteps. pose proof (wp_remove_one pdev p p1 v2 Hun Hr Hd Hsteps) as ([] & p2 & Hrm & ?)%wp_iff. by exists p2.
Qed.
End module.

(** ** Witness *)

(** The device of [Session], with a kernel that makes nodes, except the one of
    the slot [bad]. *)
Definition module_kernel (bad : Z) (lg : list event) (f : string) (args : list Z) : Z :=
  if one_of ["kmalloc xpdev"; "device_create"]%string f then 0x7000
  else if String.eqb f "alloc_chrdev_region dev" then MKDEV 240 0
  else if String.eqb f "cdev_add" then match args with a :: _ => if a =? bad then - ENOMEM else 0 | [] => 0 end
  else if String.eqb f "alloc_chrdev_region" then 0
  else session_kernel lg f args.

Definition module_env (bad : Z) : Env := {|
  io_read := @io_read session_env;
  kernel := module_kernel bad;
  poll_mode := false; interrupt_mode := 0; enable_st_c2h_credit := false;
  desc_blen_max := XDMA_DESC_BLEN_MAX; HZ := 250; SIZEOF_REQ := 400
|}.

#[export] Instance module_laws bad : @IrqLaws (module_env bad).
Proof.
  split; cbn; try done. intros lg f a. unfold one_of, request_irqs. cbn [existsb]. rewrite !orb_true_iff.
  intros [E|[E|[E|[E|E]]]]; try done; apply String.eqb_eq in E as ->; cbn; lia.
Qed.
#[export] Instance module_region bad : @RegionOk (module_env bad).
Proof. split; intros lg; cbn; [lia|by vm_compute]. Qed.

Definition module_start : pst := mk_pst 5 6 0 XDMA_DESC_BLEN_MAX false None no_dev.

Definition module_probed : pst :=
  match @probe_one (module_env (- 1)) 1 module_start with Some (_, p) => p | None => module_start end.

(** The nodes of a device with 16 user interrupts, two engines to the card and one
    from it. *)
(** The control node, 16 for events, one for each of the three engines. *)
Example probe_makes_nodes :
  match @probe_one (module_env (- 1)) 1 module_start with
  | Some (rv, p) => rv = 0 /\ p_cnt p = 1 /\
      option_map (fun l => l.*1) (registry (v_log (p_v p))) = Some (0 :: seqZ 9 16 ++ [5; 6; 1])
  | None => False
  end.
Proof. by vm_compute. Qed.

(** When the fourth event node cannot be made, everything of the device is given
    back. *)
Example failed_probe_gives_back :
  match @probe_one (module_env 12) 1 module_start with
  | Some (rv, p) => rv = - 1 /\ p_cnt p = 0 /\ p_xpdev p = None /\
      map (fun x => held x (v_log (p_v p))) all_resources = [0; 0; 0; 0; 0; 0; 0; 0]
  | None => False
  end.
Proof. by vm_compute. Qed.

Lemma module_unattached : unattached 1 module_start.
Proof. by split. Qed.

Lemma probe_session_remove_witness :
  exists rv p1, @probe_one (module_env (- 1)) 1 module_start = Some (rv, p1) /\
    ((rv < 0 /\ p_drvdata p1 = false /\ nodes_gone p1 /\
      exists en ir, 0 <= en <= 1 /\ 0 <= ir /\ (true = false -> ir = 0) /\ restored module_start p1 (leak en ir)) \/
     (rv = 0 /\ p_drvdata p1 = true /\ registered 1 (p_v p1) /\
      (exists x, p_xpdev p1 = Some x /\ live p1 (nodes_of (plan x (v_dev (p_v p1))))) /\
      forall v2, rtc (@driver_step (module_env (- 1)) session_sched 10 10) (p_v p1) v2 ->
        exists p2, @remove_one (module_env (- 1)) 1 (set_p_v v2 p1) = Some (tt, p2) /\ p_drvdata p2 = false /\ live p2 [] /\
          restored module_start p2 (fun _ => 0))).
Proof.
  exact (@probe_session_remove (module_env (- 1)) _ _ session_sched 10 10 eq_refl 1 module_start module_unattached
    (fun lg => not_elem_of_nil _)).
Defined.
